(* ===== verification/_CoqProject ===== *)
-Q . S2P
Prelude.v
Gwlib.v
Sql.v
Counter.v
Dict.v
PrioQueue.v
PrioQueueFacts.v
DbPool.v
DbPoolFacts.v
DbPoolExamples.v
Cfg.v
CfgDef.v
CfgFacts.v
CfgRead.v
CfgExamples.v
Date.v
DateFacts.v
Fdset.v
FdsetFacts.v
GwThread.v
GwThreadFacts.v
GwMem.v
GwMemFacts.v
Charset.v
Conn.v
ConnPoll.v
World.v
SmscConn.v
SmppSession.v
SessionFacts.v
SessionExamples.v
IoThread.v
IoThreadFacts.v
IoThreadExamples.v
Router.v
RouterFacts.v
RouterPass.v
RouterExamples.v
SmscCreate.v
SmscCreateFacts.v
Esme.v
EsmeFacts.v
Accounts.v
AccountsFacts.v
EsmeStop.v
EsmePdu.v
EsmePduFacts.v
EsmeProc.v
EsmeProcFacts.v
EsmeExamples.v
Dbbox.v
DbboxProc.v
DbboxStart.v
DbboxFacts.v
DbboxServe.v
DbboxExamples.v
DbboxStartExamples.v
Receipt.v
ReceiptFacts.v
ReceiptExamples.v
ServerThread.v
ServerThreadFacts.v
ServerSystem.v
ServerExamples.v
EsmeEnds.v
Client.v
ClientExamples.v
ClientAdmin.v
