(* ===== verification/Prelude.v ===== *)
(** * Verification of an SMPP proxy server

    The program under [src/] is an SMPP proxy made of three processes:

    - the server ([smpp-esme/]) accepts the binds of its customers (ESMEs),
      checks and answers the messages that they submit, records them and
      chooses the SMSCs that may carry them;
    - the client ([smpp-smsc/]) holds the connections to the SMSCs: a router
      thread takes messages from a shared queue and hands them to
      connections; one thread per connection speaks SMPP over a buffered
      connection with a window of unanswered messages;
    - the database process ([smpp-dbbox/]) writes records and receipts, finds
      the submission that a receipt answers, and stores messages for later.

    They share the library [gwlib/] (hash tables, counters, connections,
    character sets, priority queues, threads, checked memory).  The strings ([octstr]), lists
    ([list]), message packing ([smpp_pdu]) and the channels between the
    processes are not under [src/]: they are the type classes of [Gwlib],
    [World], [SmppSession], [Esme] and [EsmePdu], with their documented
    behaviour as laws, and with instances on plain lists for the examples.

    ** Files

    - [Prelude]: outcomes of C code (a result, or the end of the process by
      an assertion or an undefined access), machine integers, automation,
      lists.
    - [Gwlib]: interfaces [OctstrLib] and [GwListLib], laws, instances.
    - [Sql]: [octstr_format] as the processes use it, and how a database
      reads the statements that they print.
    - [Counter]: [gwlib/counter.c], counters of unsigned long.
    - [Dict]: [gwlib/dict.c], hash tables with buckets; every sequence of
      calls refines a finite map ([dict_run_refines]).
    - [PrioQueue], [PrioQueueFacts]: [gwlib/gw-prioqueue.c]; the heap, its
      loops, and the refinement of a bag of items.
    - [DbPool], [DbPoolFacts], [DbPoolExamples]: [gwlib/dbpool.c]; threads
      share connections to a database, over an interface for the drivers.
    - [Cfg], [CfgDef], [CfgFacts], [CfgRead], [CfgExamples]: [gwlib/cfg.c] and
      [gwlib/cfg.def]; configuration files, their includes and groups.
    - [Date], [DateFacts]: [gwlib/date.c], times as numbers and as texts.
    - [Fdset], [FdsetFacts]: [gwlib/fdset.c], the thread that polls descriptors
      and the requests that other threads leave for it.
    - [GwThread], [GwThreadFacts]: [gwlib/gwthread-pthread.c], the table of
      threads, with threads that call it in any order.
    - [GwMem], [GwMemFacts]: [gwlib/gwmem-check.c], the checked allocator.
    - [Charset]: [gwlib/charset.c], the conversions between GSM and Latin-1.
    - [Conn]: [gwlib/conn.c], buffered connections over a socket.
    - [ConnPoll]: connections that a polling thread watches: [gwlib/conn.c]
      joined with [Fdset].
    - [World]: [smpp-smsc/msg.c], the messages of the client, its shared
      queue and the events that leave the process.
    - [SmscConn]: [smpp-smsc/smscconn.c], connections as the router sees
      them; the class [Driver] states what a type of connection promises.
    - [SmppSession], [SessionFacts], [SessionExamples]:
      [smpp-smsc/smsc_smpp.c], a session with an SMSC; [smpp_driver]
      implements [Driver].
    - [IoThread], [IoThreadFacts], [IoThreadExamples]: the thread of such a
      session ([io_thread]) as turns between which the others act.
    - [Router], [RouterFacts], [RouterPass], [RouterExamples]:
      [smpp-smsc/smsc.c], the router on any [Driver].
    - [SmscCreate], [SmscCreateFacts]: how the client starts its connections
      from the groups of its configuration ([smsc2_start] in
      [smpp-smsc/smsc.c], [smscconn_create], [smsc_smpp_create]).
    - [Esme], [EsmeFacts]: accounts, logins and sessions of the server
      ([smpp-esme/esme.c], [smpp-esme/config.c], [gwlib/date.c]).
    - [Accounts], [AccountsFacts]: how the server reads its accounts from its
      configuration, at the start and again while it runs.
    - [EsmeStop]: how the server stops sessions ([stop_esme], [esme_shutdown]),
      and [init_connect_ip].
    - [EsmePdu], [EsmePduFacts]: checks and routing of a submitted message
      ([smpp-esme/esme.c]).
    - [EsmeProc], [EsmeProcFacts], [EsmeExamples]: the handlers of the server
      process ([smpp-esme/smpp_esme.c]).
    - [Dbbox], [DbboxProc], [DbboxStart]: the database process: statements
      over the pool ([smpp-dbbox/dlr.c], [dlr_mysql.c]), requests
      ([smpp-dbbox/smpp_dbbox.c]), start and the file of the accounts.
    - [DbboxFacts], [DbboxServe], [DbboxExamples], [DbboxStartExamples]: the
      texts of the statements, the class [MysqlLaws] of what a database does
      with them, the requests served, and a small database that obeys it.
    - [Receipt], [ReceiptFacts], [ReceiptExamples]: how the receipts of the
      SMSCs are rewritten and sent to the customers ([update_info] and
      [write_esme_conn] in [smpp-esme/esme.c]).
    - [ServerThread], [ServerThreadFacts], [ServerSystem], [ServerExamples]:
      the threads of the sessions ([receive_smpp_thread] in
      [smpp-esme/smpp_esme.c]) as turns, and all of them together.
    - [EsmeEnds]: the threads that accept connections, and what the server
      saves at its end.
    - [Client], [ClientExamples]: how a message of the server becomes one of
      the router ([smpp-smsc/smpp_smsc.c]).
    - [ClientAdmin]: restarting a connection, and messages of the client to
      the other processes.

    ** State and effects

    C structures are records, pointers that may be NULL are options, and a
    function that changes its arguments returns them.  Where structures are
    shared (ESMEs and their sessions, which the code reaches over several
    pointers) there is a heap.  What leaves the process, such as records for
    the database, messages on a channel or wake-ups of a thread, is a trace
    of events.  A function that can end in an assertion, follow NULL or leave
    an array returns an [outcome].  Operations that hold a lock during their
    whole run are single steps; a login, which takes its lock twice, is two
    steps ([bind_turn] and [joining_turn]), and a theorem shows what can
    happen between them ([authorise_user_races]).  The loops of the threads
    are cut into turns at the places where the network, the clock or other
    threads matter; the theorems about them hold for every order of the turns
    and of what happens between them, but for one limit in
    [server_threads_safe]: between the two steps of a login no other thread
    logs in to the same account or out of it.

    ** Theorems

    - What becomes of a message: a pass of the router over its queue
      ([router_turn_loses_nothing]), the handling of a PDU by a session
      ([handle_pdu_keeps_session]), the end of a connection
      ([leave_connection_requeues]) and of the router (lemma
      [router_flush_reports]) account for each message exactly once: queued,
      held by a session, or reported.  So does the thread of a connection in
      all its turns ([io_thread_loses_nothing]), and it ends when it is told
      to ([io_thread_ends]).  The exceptions are part of these theorems, as
      a multiset of forgotten messages: the router forgets messages without
      PDU or lists and those that no connection of their lists serves while
      the one tried last is active ([smsc2_rout_unserved]); a session forgets
      the message whose write does not return 0, which [conn_write] also does
      when it buffers ([send_messages_loses_unflushed]); with the do-not-disturb
      check switched on the model says nothing about sending.
    - Routing: which connection gets a message ([smsc2_rout_chooses]), which
      SMSCs the server proposes ([rout_pdu_spec]), and the way between them
      ([submit_reaches_carrier], for texts that fit the arrays of a [Msg] and
      without the do-not-disturb check).
    - The window and the matching of answers ([send_messages_window],
      [submit_sm_resp_outcome], [queue_cleanup_spec], [msgid_correlation]).
    - The server: binds ([handle_pdu_bind_outcome], [authorise_user_spec],
      [authorise_user_races]), submitted messages
      ([handle_submit_sm_outcome], [verify_pdu_para_spec]), ends of sessions
      (lemma [esme_destroy_spec]), receipts ([receipt_rewritten],
      [write_esme_conn_delivers], for receipts of the usual form whose fields
      fit the buffers), the threads of the sessions, which never share a
      session or use one that is gone as long as the logins of an account do
      not overlap with each other or with a logout ([server_threads_safe],
      lemmas [joining_turn_opens] and [overlapping_logins]), and the table of
      SMSCs ([smsc_table_follows],
      lemma [update_esme_conn_spec]).
    - Stops: [esme_shutdown_follows_freed], [stop_esme_stops_nothing],
      [save_forward_reports] (lemmas).
    - Starts: which accounts a configuration gives, and that each is as it
      must be ([load_accounts_spec]); which connections the client makes, or
      why it ends ([start2_smsc_spec]).
    - The database process: every request ends, with its rows in the
      database and its answer when it has one, and leaves the process ready
      for the next ([requests_served]); a statement is read by the database
      with the values that the code escaped for it ([statements_read]); the
      receipt of an SMSC finds the account that submitted the message
      ([receipt_finds_account]), while a value with a quote becomes part of
      the statement where it is not escaped (lemma [quote_is_code]).  What
      the database does is the class [MysqlLaws]; it speaks of texts that fit
      their columns, and that connections do not break is a class of its own,
      [Steady], which the theorems that need it name.
    - The pool of database connections: none is lost, lent twice or counted
      wrongly, whatever its users do ([dbpool_calls_conserve]), and who asks
      for one gets the first that works, each broken one before it being
      closed and asked for anew ([dbpool_conn_consume_spec]).
    - Configurations: what a file with its includes means ([cfg_read_spec]),
      that reading ends ([cfg_read_ends]; not with directories that include
      themselves), and values (lemma [parse_value_roundtrip]).
    - The library: streams through connections ([conn_write_stream],
      [conn_read_partitions]), and how they are watched: the table of a set
      agrees with what its connections wait for ([connections_polled], with
      two threads that wait for each other in [writer_and_poller_stuck]);
      hash tables ([dict_run_refines]), priority
      queues ([prioqueue_run_refines]), counters and character sets; the
      poller, whose turns do the requests of other threads and then call each
      callback that is due once, as on a map ([poller_turn_refines]); threads, where a
      thread that waits for another waits for one that lives, a join ends
      when the other does or by a spurious wakeup, and the number of a thread
      that ended is not used again ([gwthread_join_waits],
      lemma [gwthread_goes_on], [gwthread_create_spec]); the checked allocator,
      which refines a map from areas to contents and stops at a second free
      ([gwmem_refines], [double_free_stops]); times, which count seconds
      ([date_convert_universal_counts]).

    ** Fuel

    Loops that are not structural have fuel.  The loops of the heap get
    [log2 len + 1] tests ([heap_loops_end]); a thread that asks the pool for
    a connection takes one turn more than the pool holds at most; reading a
    configuration takes one turn more than its files have lines; sending gets
    one turn more than the queue is long; the search for the number of a new
    thread gets 1025 tries for 1024 places, a wake-up reads the bytes that its
    pipe holds; the thread that sends stored messages reads the 30 rows that
    its statement allows; [smsc2_rout] calls itself again only when a
    connection refuses a message, which a session never does, so that one
    call is enough; probing and polling loops take the number of bytes or
    events that are there.  Where fuel runs out the result is a panic or the
    theorems ask for enough, so no theorem holds for lack of fuel.

    ** Not modelled

    The drivers of the databases, the programs that create tables, and the
    DND checker (database libraries); the main loops of the processes, which
    start and join the threads that are modelled and call the channels
    between the processes, which are not part of the sources; the status pages and HTTP administration; log files and
    signals; the wrappers of locks and of [poll], and the plain allocator
    of [gwlib/]; TLS; conversions that call libxml2 or iconv. *)

From stdpp Require Export base tactics list gmap.
From Stdlib Require Export ZArith Lia.

(** ** Outcomes: C code that can call [panic] or fail a [gw_assert]. *)

(** A C function that may stop the process ([panic], [gw_assert], or an
    access outside of an array) returns an [outcome]. *)
Inductive outcome (A : Type) : Type :=
| Done (a : A)
| Panic.
Arguments Done {A} a.
Arguments Panic {A}.

#[export] Instance outcome_ret : MRet outcome := fun A a => Done a.

#[export] Instance outcome_bind : MBind outcome :=
  fun A B f m => match m with Done a => f a | Panic => Panic end.

#[export] Instance outcome_fmap : FMap outcome :=
  fun A B f m => match m with Done a => Done (f a) | Panic => Panic end.

#[export] Instance outcome_eq_dec {A} `{EqDecision A} : EqDecision (outcome A).
Proof. solve_decision. Defined.

(** [gw_assert(b)]: the run goes on exactly when [b] holds. *)
Definition gw_assert (b : bool) : outcome unit :=
  if b then Done tt else Panic.

(** [must o]: use the result of a lookup that C does not check. *)
Definition must {A} (o : option A) : outcome A :=
  match o with Some a => Done a | None => Panic end.

(** ** Machine integers (LP64: [long] has 64 bits, [int] has 32). *)

Definition ulong_max : Z := 2 ^ 64.
Definition wrap_ulong (z : Z) : Z := z mod 2 ^ 64.
Definition wrap_ushort (z : Z) : Z := z mod 2 ^ 16.
Definition wrap_schar (z : Z) : Z := (z + 2 ^ 7) mod 2 ^ 8 - 2 ^ 7.
Definition wrap_int (z : Z) : Z := (z + 2 ^ 31) mod 2 ^ 32 - 2 ^ 31.
Definition wrap_long (z : Z) : Z := (z + 2 ^ 63) mod 2 ^ 64 - 2 ^ 63.

(** ** Notations and automation shared by the components. *)

(** The monadic notation [x ← m; k] of stdpp is used with [outcome].
    [smpp_scope] holds the development's own notations. *)
Declare Scope smpp_scope.
Delimit Scope smpp_scope with smpp.
Notation "'panic'" := Panic (only parsing) : smpp_scope.

(** [gwlib]: rewrite rules describing the string and list library;
    [smpp]: facts [eauto] may use in every component. *)
Create Rewrite HintDb gwlib.
Create HintDb smpp.

(** Case analysis on every [match] and [if] of the goal, with the impossible
    cases closed. *)
Ltac split_cases := repeat (case_match; simplify_eq/=); try done.

(** Turn boolean tests on integers into propositions. *)
Ltac zbool :=
  repeat match goal with
  | H : (_ && _)%bool = true |- _ => apply andb_true_iff in H as [? ?]
  | H : (_ || _)%bool = false |- _ => apply orb_false_iff in H as [? ?]
  | H : negb _ = true |- _ => apply negb_true_iff in H
  | H : negb _ = false |- _ => apply negb_false_iff in H
  | H : (_ <? _)%Z = true |- _ => apply Z.ltb_lt in H
  | H : (_ <? _)%Z = false |- _ => apply Z.ltb_ge in H
  | H : (_ <=? _)%Z = true |- _ => apply Z.leb_le in H
  | H : (_ <=? _)%Z = false |- _ => apply Z.leb_gt in H
  | H : (_ =? _)%Z = true |- _ => apply Z.eqb_eq in H
  | H : (_ =? _)%Z = false |- _ => apply Z.eqb_neq in H
  | H : bool_decide _ = true |- _ => apply bool_decide_eq_true_1 in H
  | H : bool_decide _ = false |- _ => apply bool_decide_eq_false_1 in H
  end.

(** Linear arithmetic after turning the tests into propositions. *)
Ltac zlia := zbool; lia.

(** ** Generic lemmas *)

Lemma bind_Done {A B} (m : outcome A) (f : A -> outcome B) b :
  m ≫= f = Done b <-> exists a, m = Done a /\ f a = Done b.
Proof. destruct m; naive_solver. Qed.

Lemma must_Done {A} (o : option A) a : must o = Done a <-> o = Some a.
Proof. destruct o; naive_solver. Qed.

Lemma wrap_ulong_range z : (0 <= wrap_ulong z < ulong_max)%Z.
Proof. unfold wrap_ulong, ulong_max. apply Z.mod_pos_bound. lia. Qed.

Lemma wrap_ulong_id z : (0 <= z < ulong_max)%Z -> wrap_ulong z = z.
Proof. unfold wrap_ulong, ulong_max. apply Z.mod_small. Qed.

Lemma wrap_ulong_add_l a b : wrap_ulong (wrap_ulong a + b) = wrap_ulong (a + b).
Proof. unfold wrap_ulong. apply Zplus_mod_idemp_l. Qed.

(** Two numbers less than a modulus apart that agree modulo it are equal. *)
Lemma wrap_ulong_inj a b :
  (Z.abs (a - b) < ulong_max)%Z -> wrap_ulong a = wrap_ulong b -> a = b.
Proof.
  unfold wrap_ulong, ulong_max. intros Hab Heq.
  pose proof (Z.div_mod a (2 ^ 64) ltac:(lia)).
  pose proof (Z.div_mod b (2 ^ 64) ltac:(lia)).
  nia.
Qed.

(** Change the first element that satisfies a test. *)
Fixpoint alter_first {A} (p : A -> bool) (f : A -> A) (l : list A) : list A :=
  match l with
  | [] => []
  | x :: l' => if p x then f x :: l' else x :: alter_first p f l'
  end.

Lemma alter_first_none {A} (p : A -> bool) f l :
  List.find p l = None -> alter_first p f l = l.
Proof.
  induction l as [|x l IH]; simpl; [done|].
  destruct (p x); intros H; [done|]. by rewrite IH.
Qed.

Lemma alter_first_split {A} (p : A -> bool) f l x :
  List.find p l = Some x ->
  exists l1 l2, l = l1 ++ x :: l2 /\ alter_first p f l = l1 ++ f x :: l2 /\
    p x = true /\ Forall (fun y => p y = false) l1.
Proof.
  induction l as [|y l IH]; simpl; [done|]. destruct (p y) eqn:Hy.
  - intros [= ->]. exists [], l. done.
  - intros (l1 & l2 & -> & -> & ? & ?)%IH. exists (y :: l1), l2. auto.
Qed.

Lemma filter_all {A} (p : A -> bool) l :
  Forall (fun x => p x = true) l -> List.filter p l = l.
Proof. induction 1 as [|x l Hx Hl IH]; simpl; [done|]. by rewrite Hx, IH. Qed.

Lemma filter_none {A} (p : A -> bool) l :
  Forall (fun x => p x = false) l -> List.filter p l = [].
Proof. induction 1 as [|x l Hx Hl IH]; simpl; [done|]. by rewrite Hx. Qed.

(** Replacing one bucket of a list of buckets, seen through [concat]. *)
Lemma concat_insert {A} (l : list (list A)) i x y :
  l !! i = Some x ->
  exists l1 l2, concat l = l1 ++ x ++ l2 /\ concat (<[i:=y]> l) = l1 ++ y ++ l2.
Proof.
  revert i. induction l as [|z l IH]; intros [|i] Hi; simplify_eq/=.
  - exists [], (concat l). done.
  - destruct (IH i Hi) as (l1 & l2 & -> & ->).
    exists (z ++ l1), l2. rewrite <-!app_assoc. done.
Qed.

#[export] Hint Resolve wrap_ulong_range : smpp.
