(* ===== verification/Gwlib.v ===== *)
(** * Interface to the string and list library of gwlib

    The octet strings ([octstr.h]) and the lists ([list.h]) that every
    component uses are not part of this source tree.  They are parameters of
    the model: a type, the operations the code calls and the documented
    behaviour of each operation, stated through the octets of a string
    ([octets]) and the items of a list ([items]).  The instances on plain
    lists at the end show that the interfaces can be implemented; they are
    used only to evaluate the model on concrete inputs. *)

From S2P Require Import Prelude.
From stdpp Require Import list.
From stdpp Require Export strings pretty.
From Stdlib Require Import Ascii.
Open Scope Z_scope.

(** ** Text *)

(** The octets of a C string literal. *)
Fixpoint cstr (s : String.string) : list Z :=
  match s with
  | EmptyString => []
  | String a s => Z.of_nat (nat_of_ascii a) :: cstr s
  end.

Arguments cstr _%_string.

(** [printf("%ld", z)]. *)
Definition format_ld (z : Z) : list Z := cstr (pretty z).

(** ** Octet strings *)

(** Operations of [octstr.h] that the modelled code calls. In-place
    operations return the changed string. *)
Class OctstrLib : Type := {
  octstr : Type;
  octets : octstr -> list Z;
  octstr_create : list Z -> octstr;
  octstr_len : octstr -> Z;
  octstr_get_char : octstr -> Z -> Z;
  octstr_set_char : octstr -> Z -> Z -> octstr;
  octstr_insert_data : octstr -> Z -> list Z -> octstr;
  octstr_delete : octstr -> Z -> Z -> octstr;
  octstr_truncate : octstr -> Z -> octstr;
  octstr_append : octstr -> octstr -> octstr;
  octstr_append_data : octstr -> list Z -> octstr;
  octstr_copy : octstr -> Z -> Z -> octstr;
  octstr_duplicate : octstr -> octstr;
  octstr_search_char : octstr -> Z -> Z -> Z;
  octstr_compare : octstr -> octstr -> Z;
  octstr_hash_key : octstr -> Z;
  octstr_get_many_chars : octstr -> Z -> Z -> list Z;
  octstr_from_position : octstr -> Z -> octstr;
  octstr_isnum : octstr -> Z;
}.

(** Position of the first occurrence of [c] in [l], counted from [from]. *)
Fixpoint index_of (c : Z) (l : list Z) : option nat :=
  match l with
  | [] => None
  | x :: l' => if decide (x = c) then Some 0%nat else S <$> index_of c l'
  end.

(** Documented behaviour of the operations. *)
Class OctstrLaws (O : OctstrLib) : Prop := {
  octets_range o : Forall (fun c => 0 <= c < 256) (octets o);
  octets_create l : Forall (fun c => 0 <= c < 256) l -> octets (octstr_create l) = l;
  octstr_len_spec o : octstr_len o = Z.of_nat (length (octets o));
  octstr_get_char_spec o (i : nat) :
    octstr_get_char o (Z.of_nat i) = default (-1) (octets o !! i);
  octstr_get_char_neg o i : i < 0 -> octstr_get_char o i = -1;
  octstr_set_char_spec o (i : nat) c :
    0 <= c < 256 -> octets (octstr_set_char o (Z.of_nat i) c) = <[i:=c]> (octets o);
  octstr_insert_data_spec o (i : nat) l :
    (i <= length (octets o))%nat -> Forall (fun c => 0 <= c < 256) l ->
    octets (octstr_insert_data o (Z.of_nat i) l)
    = take i (octets o) ++ l ++ drop i (octets o);
  octstr_delete_spec o (i n : nat) :
    octets (octstr_delete o (Z.of_nat i) (Z.of_nat n))
    = take i (octets o) ++ drop (i + n) (octets o);
  octstr_truncate_spec o (n : nat) :
    octets (octstr_truncate o (Z.of_nat n)) = take n (octets o);
  octstr_append_spec o o' : octets (octstr_append o o') = octets o ++ octets o';
  octstr_append_data_spec o l :
    Forall (fun c => 0 <= c < 256) l ->
    octets (octstr_append_data o l) = octets o ++ l;
  octstr_copy_spec o (i n : nat) :
    octets (octstr_copy o (Z.of_nat i) (Z.of_nat n)) = take n (drop i (octets o));
  octstr_duplicate_spec o : octets (octstr_duplicate o) = octets o;
  octstr_search_char_spec o c (i : nat) :
    octstr_search_char o c (Z.of_nat i)
    = match index_of c (drop i (octets o)) with
      | Some k => Z.of_nat (i + k)
      | None => -1
      end;
  octstr_compare_spec o o' : octstr_compare o o' = 0 <-> octets o = octets o';
  octstr_hash_key_range o : 0 <= octstr_hash_key o < ulong_max;
  octstr_hash_key_proper o o' : octets o = octets o' -> octstr_hash_key o = octstr_hash_key o';
  octstr_get_many_chars_spec o (i n : nat) :
    octstr_get_many_chars o (Z.of_nat i) (Z.of_nat n) = take n (drop i (octets o));
  octstr_from_position_spec o (i : nat) :
    octets (octstr_from_position o (Z.of_nat i)) = drop i (octets o);
  octstr_isnum_range o : octstr_isnum o = 0 \/ octstr_isnum o = 1;
  octstr_isnum_digits o : Forall (fun c => 48 <= c <= 57) (octets o) -> octstr_isnum o = 1;
}.

(** Two strings are the same key when they have the same octets. *)
#[export] Instance octstr_equiv {O : OctstrLib} : Equiv octstr :=
  fun o o' => octets o = octets o'.

(** The constant strings of the code. *)
Definition octstr_imm {O : OctstrLib} (s : String.string) : octstr := octstr_create (cstr s).
Arguments octstr_imm {O} _%_string.

(** [octstr_parse_long(&n, ostr, pos, base)] with the old value of [n]: the
    result and the new value. *)
Class ParseLib (O : OctstrLib) : Type := { octstr_parse_long : octstr -> Z -> Z -> Z -> Z * Z }.

Definition is_digit_char (c : Z) : bool := (48 <=? c) && (c <=? 57).

(** The value of decimal digits, most significant first. *)
Definition decimal_value (l : list Z) : Z := foldl (fun v c => v * 10 + (c - 48)) 0 l.

(** Blanks before a number are skipped; the result is the position behind its
    last digit. *)
Class ParseLaws {O : OctstrLib} (P : ParseLib O) : Prop := {
  octstr_parse_long_digits o (pos : nat) n bs ds rest :
    drop pos (octets o) = bs ++ ds ++ rest ->
    Forall (fun c => c = 32) bs -> Forall (fun c => is_digit_char c = true) ds -> ds <> [] ->
    (forall c, head rest = Some c -> is_digit_char c = false) -> decimal_value ds < 2 ^ 63 ->
    octstr_parse_long o (Z.of_nat pos) 10 n = (Z.of_nat (pos + length bs + length ds), decimal_value ds);
  octstr_parse_long_none o (pos : nat) n :
    drop pos (octets o) = [] -> (octstr_parse_long o (Z.of_nat pos) 10 n).1 = -1;
  octstr_parse_long_proper o o' pos base n :
    octets o = octets o' -> octstr_parse_long o pos base n = octstr_parse_long o' pos base n;
}.

(** The test [octstr_compare(a, b) == 0]. *)
Definition octstr_same {O : OctstrLib} (a b : octstr) : bool := octstr_compare a b =? 0.

(** ** Lists of pointers *)

(** Operations of [list.h] that the modelled code calls.  A list holds
    pointers and [items] shows the objects they designate; [gwlist_touch p f]
    is what becomes visible when the code assigns to the fields of the object
    that a search for [p] returned. *)
Class GwListLib : Type := {
  gwlist : Type -> Type;
  items : forall {A : Type}, gwlist A -> list A;
  gwlist_create : forall {A : Type}, gwlist A;
  gwlist_len : forall {A : Type}, gwlist A -> Z;
  gwlist_get : forall {A : Type}, gwlist A -> Z -> option A;
  gwlist_append : forall {A : Type}, gwlist A -> A -> gwlist A;
  gwlist_produce : forall {A : Type}, gwlist A -> A -> gwlist A;
  gwlist_insert : forall {A : Type}, gwlist A -> Z -> A -> gwlist A;
  gwlist_delete : forall {A : Type}, gwlist A -> Z -> Z -> gwlist A;
  gwlist_extract_first : forall {A : Type}, gwlist A -> option A * gwlist A;
  gwlist_search : forall {A : Type}, gwlist A -> (A -> bool) -> option A;
  gwlist_extract_matching :
    forall {A : Type}, gwlist A -> (A -> bool) -> option (gwlist A) * gwlist A;
  gwlist_touch : forall {A : Type}, (A -> bool) -> (A -> A) -> gwlist A -> gwlist A;
}.

(** Documented behaviour of the operations. *)
Class GwListLaws (L : GwListLib) : Prop := {
  items_create A : items (gwlist_create (A:=A)) = [];
  gwlist_len_spec A (l : gwlist A) : gwlist_len l = Z.of_nat (length (items l));
  gwlist_get_spec A (l : gwlist A) (i : nat) : gwlist_get l (Z.of_nat i) = items l !! i;
  items_append A (l : gwlist A) x : items (gwlist_append l x) = items l ++ [x];
  items_produce A (l : gwlist A) x : items (gwlist_produce l x) = items l ++ [x];
  items_insert A (l : gwlist A) (i : nat) x :
    (i <= length (items l))%nat ->
    items (gwlist_insert l (Z.of_nat i) x) = take i (items l) ++ x :: drop i (items l);
  items_delete A (l : gwlist A) (i n : nat) :
    items (gwlist_delete l (Z.of_nat i) (Z.of_nat n))
    = take i (items l) ++ drop (i + n) (items l);
  gwlist_extract_first_fst A (l : gwlist A) : (gwlist_extract_first l).1 = head (items l);
  gwlist_extract_first_snd A (l : gwlist A) : items (gwlist_extract_first l).2 = tail (items l);
  gwlist_search_spec A (l : gwlist A) p : gwlist_search l p = List.find p (items l);
  gwlist_extract_matching_fst A (l : gwlist A) p :
    items <$> (gwlist_extract_matching l p).1
    = match List.filter p (items l) with [] => None | l' => Some l' end;
  gwlist_extract_matching_snd A (l : gwlist A) p :
    items (gwlist_extract_matching l p).2 = List.filter (fun x => negb (p x)) (items l);
  items_touch A p (f : A -> A) l : items (gwlist_touch p f l) = alter_first p f (items l);
}.

(** ** Instances on plain lists *)

(** An octet is stored modulo 256, as [unsigned char] does. *)
Definition byte_of (z : Z) : Z := z mod 256.

Definition list_hash (l : list Z) : Z := wrap_ulong (foldl (fun h c => h * 31 + c) 0 l).

(** Strings as lists of octets, kept in range by construction of the
    projection [octets]. *)
#[export] Instance list_octstr : OctstrLib := {|
  octstr := list Z;
  octets l := byte_of <$> l;
  octstr_create l := l;
  octstr_len l := Z.of_nat (length l);
  octstr_get_char l i :=
    if i <? 0 then -1 else default (-1) (byte_of <$> l !! Z.to_nat i);
  octstr_set_char l i c := <[Z.to_nat i:=c]> l;
  octstr_insert_data l i d := take (Z.to_nat i) l ++ d ++ drop (Z.to_nat i) l;
  octstr_delete l i n := take (Z.to_nat i) l ++ drop (Z.to_nat i + Z.to_nat n) l;
  octstr_truncate l n := take (Z.to_nat n) l;
  octstr_append l l' := l ++ l';
  octstr_append_data l l' := l ++ l';
  octstr_copy l i n := take (Z.to_nat n) (drop (Z.to_nat i) l);
  octstr_duplicate l := l;
  octstr_search_char l c i :=
    match index_of c (drop (Z.to_nat i) (byte_of <$> l)) with
    | Some k => i + Z.of_nat k
    | None => -1
    end;
  octstr_compare l l' := if decide (byte_of <$> l = byte_of <$> l') then 0 else 1;
  octstr_hash_key l := list_hash (byte_of <$> l);
  octstr_get_many_chars l i n := take (Z.to_nat n) (drop (Z.to_nat i) (byte_of <$> l));
  octstr_from_position l i := drop (Z.to_nat i) l;
  octstr_isnum l :=
    if forallb (fun c => (48 <=? c) && (c <=? 57)) (byte_of <$> l) then 1 else 0;
|}.

#[export] Instance list_gwlist : GwListLib := {|
  gwlist := list;
  items A l := l;
  gwlist_create A := [];
  gwlist_len A l := Z.of_nat (length l);
  gwlist_get A l i := if i <? 0 then None else l !! Z.to_nat i;
  gwlist_append A l x := l ++ [x];
  gwlist_produce A l x := l ++ [x];
  gwlist_insert A l i x := take (Z.to_nat i) l ++ x :: drop (Z.to_nat i) l;
  gwlist_delete A l i n := take (Z.to_nat i) l ++ drop (Z.to_nat i + Z.to_nat n) l;
  gwlist_extract_first A l := (head l, tail l);
  gwlist_search A l p := List.find p l;
  gwlist_extract_matching A l p :=
    (match List.filter p l with [] => None | l' => Some l' end,
     List.filter (fun x => negb (p x)) l);
  gwlist_touch A p f l := alter_first p f l;
|}.

Fixpoint take_digits (l : list Z) : list Z :=
  match l with c :: l => if is_digit_char c then c :: take_digits l else [] | [] => [] end.

Fixpoint blanks (l : list Z) : nat :=
  match l with c :: l => if c =? 32 then S (blanks l) else 0 | [] => 0 end.

(** Numbers without a sign. *)
#[export] Instance list_parse : ParseLib list_octstr := {|
  octstr_parse_long l pos base n :=
    let s := drop (Z.to_nat pos) (byte_of <$> l) in
    let ds := take_digits (drop (blanks s) s) in
    if negb (bool_decide (ds = [])) && (decimal_value ds <? 2 ^ 63)
    then (pos + Z.of_nat (blanks s) + Z.of_nat (length ds), decimal_value ds)
    else (-1, n);
|}.

(** ** Lemmas *)

Lemma byte_of_range z : 0 <= byte_of z < 256.
Proof. apply Z.mod_pos_bound. lia. Qed.

Lemma byte_of_id z : 0 <= z < 256 -> byte_of z = z.
Proof. apply Z.mod_small. Qed.

Lemma fmap_byte_of_id l : Forall (fun c => 0 <= c < 256) l -> byte_of <$> l = l.
Proof.
  induction 1 as [|c l Hc Hl IH]; csimpl; [done|].
  rewrite IH, byte_of_id by done. done.
Qed.

#[export] Instance list_octstr_laws : OctstrLaws list_octstr.
Proof.
  split; simpl; intros.
  - apply Forall_forall. intros c (z & -> & _)%list_elem_of_fmap. apply byte_of_range.
  - by apply fmap_byte_of_id.
  - by rewrite length_fmap.
  - rewrite list_lookup_fmap, Nat2Z.id. by destruct (Z.ltb_spec (Z.of_nat i) 0); [lia|].
  - by rewrite (proj2 (Z.ltb_lt i 0)).
  - rewrite list_fmap_insert, byte_of_id, Nat2Z.id by done. done.
  - rewrite !fmap_app, fmap_take, fmap_drop, Nat2Z.id, (fmap_byte_of_id l) by done. done.
  - by rewrite fmap_app, fmap_take, fmap_drop, !Nat2Z.id.
  - by rewrite fmap_take, Nat2Z.id.
  - by rewrite fmap_app.
  - by rewrite fmap_app, (fmap_byte_of_id l).
  - by rewrite fmap_take, fmap_drop, !Nat2Z.id.
  - done.
  - rewrite Nat2Z.id. case_match; lia.
  - case_decide; split; done || lia.
  - apply wrap_ulong_range.
  - by f_equal.
  - by rewrite !Nat2Z.id.
  - by rewrite fmap_drop, Nat2Z.id.
  - case_match; auto.
  - rewrite (proj2 (forallb_forall _ _)); [done|]. intros c Hc%list_elem_of_In.
    rewrite Forall_forall in H. specialize (H c Hc). apply andb_true_iff.
    rewrite !Z.leb_le. lia.
Qed.

Lemma blanks_app bs l :
  Forall (fun c => c = 32) bs -> (forall c, head l = Some c -> c <> 32) -> blanks (bs ++ l) = length bs.
Proof.
  induction 1 as [|c bs -> Hbs IH]; intros Hl; simpl; [|by rewrite IH].
  destruct l as [|c l]; [done|]. simpl. destruct (Z.eqb_spec c 32); [|done]. by destruct (Hl c).
Qed.

Lemma take_digits_app ds l :
  Forall (fun c => is_digit_char c = true) ds -> (forall c, head l = Some c -> is_digit_char c = false) ->
  take_digits (ds ++ l) = ds.
Proof.
  induction 1 as [|c ds Hc Hds IH]; intros Hl; simpl.
  - destruct l as [|c l]; [done|]. simpl. by rewrite Hl.
  - by rewrite Hc, IH.
Qed.

#[export] Instance list_parse_laws : ParseLaws list_parse.
Proof.
  split; simpl; intros; rewrite ?Nat2Z.id.
  - rename H into E, H0 into Hbs, H1 into Hds, H2 into Hn, H3 into Hrest, H4 into Hv. rewrite E.
    assert (Hb : blanks (bs ++ ds ++ rest) = length bs).
    { apply blanks_app; [done|]. intros c Hc. destruct Hds as [|d ds Hd _]; [done|]. injection Hc as <-.
      unfold is_digit_char in Hd. intros ->. done. }
    rewrite Hb, drop_app_length, take_digits_app, bool_decide_eq_false_2 by done.
    rewrite (proj2 (Z.ltb_lt _ _) Hv). simpl. f_equal. lia.
  - by rewrite H.
  - by rewrite H.
Qed.

#[export] Instance list_gwlist_laws : GwListLaws list_gwlist.
Proof.
  split; simpl; intros; rewrite ?Nat2Z.id; try done.
  - by destruct (Z.ltb_spec (Z.of_nat i) 0); [lia|].
  - by case_match.
Qed.

#[export] Hint Rewrite @octstr_len_spec @octstr_get_char_spec @octstr_append_spec
  @octstr_truncate_spec @octstr_delete_spec @octstr_copy_spec @octstr_duplicate_spec
  @octstr_search_char_spec using typeclasses eauto : gwlib.

#[export] Hint Rewrite @items_create @gwlist_len_spec @gwlist_get_spec @items_append
  @items_produce @items_delete @gwlist_extract_first_fst @gwlist_extract_first_snd
  @gwlist_search_spec @items_touch @gwlist_extract_matching_snd using typeclasses eauto : gwlib.

(** What [index_of] finds. *)
Lemma index_of_Some c l k :
  index_of c l = Some k -> l = take k l ++ c :: drop (S k) l /\ c ∉ take k l.
Proof.
  revert k. induction l as [|x l IH]; intros k; simpl; [done|].
  case_decide as Hx; [intros [= <-]; subst; simpl; rewrite drop_0; split; [done|apply not_elem_of_nil]|].
  destruct (index_of c l) as [j|]; simpl; [|done]. intros [= <-].
  destruct (IH j eq_refl) as [E Hn]. split; [simpl; by f_equal|].
  simpl. rewrite not_elem_of_cons. done.
Qed.

Lemma index_of_None c l : index_of c l = None -> c ∉ l.
Proof.
  induction l as [|x l IH]; simpl; [intros _; apply not_elem_of_nil|].
  case_decide; [done|]. destruct (index_of c l); [done|]. intros _. apply not_elem_of_cons. auto.
Qed.

Lemma index_of_lt c l k : index_of c l = Some k -> (k < length l)%nat.
Proof.
  revert k. induction l as [|x l IH]; intros k; simpl; [done|].
  case_decide; [intros [= <-]; lia|]. destruct (index_of c l) as [j|]; simpl; [|done].
  intros [= <-]. specialize (IH j eq_refl). lia.
Qed.

Lemma cstr_range s : Forall (fun c => 0 <= c < 256) (cstr s).
Proof.
  induction s as [|a s IH]; simpl; constructor; [|done]. pose proof (nat_ascii_bounded a). lia.
Qed.

Section Strings.
Context {O : OctstrLib} {OL : OctstrLaws O}.

Lemma octstr_imm_octets s : octets (octstr_imm s) = cstr s.
Proof. apply octets_create, cstr_range. Qed.

#[export] Instance octstr_equivalence : Equivalence (≡@{octstr}).
Proof. split; unfold equiv, octstr_equiv; congruence. Qed.

#[export] Instance octets_Proper : Proper ((≡@{octstr}) ==> (=)) octets.
Proof. intros a b H. exact H. Qed.

#[export] Instance octstr_len_Proper : Proper ((≡@{octstr}) ==> (=)) octstr_len.
Proof. intros a b H. by rewrite !octstr_len_spec, H. Qed.

#[export] Instance octstr_hash_key_Proper : Proper ((≡@{octstr}) ==> (=)) octstr_hash_key.
Proof. intros a b H. by apply octstr_hash_key_proper. Qed.

#[export] Instance octstr_same_Proper :
  Proper ((≡@{octstr}) ==> (≡@{octstr}) ==> (=)) octstr_same.
Proof.
  intros a b Hab c d Hcd. apply eq_true_iff_eq. unfold octstr_same.
  rewrite !Z.eqb_eq, !octstr_compare_spec.
  unfold equiv, octstr_equiv in *. split; congruence.
Qed.

(** The laws of the positional operations for positions that are integers. *)
Lemma octstr_delete_z o i n :
  0 <= i -> 0 <= n ->
  octets (octstr_delete o i n) = take (Z.to_nat i) (octets o) ++ drop (Z.to_nat (i + n)) (octets o).
Proof.
  intros. rewrite <-(Z2Nat.id i), <-(Z2Nat.id n), octstr_delete_spec, <-Nat2Z.inj_add, !Nat2Z.id
    by done. done.
Qed.

Lemma octstr_copy_z o i n :
  0 <= i -> 0 <= n ->
  octets (octstr_copy o i n) = take (Z.to_nat n) (drop (Z.to_nat i) (octets o)).
Proof.
  intros. by rewrite <-(Z2Nat.id i), <-(Z2Nat.id n), octstr_copy_spec, !Nat2Z.id by done.
Qed.

Lemma octstr_get_char_z o i :
  0 <= i -> octstr_get_char o i = default (-1) (octets o !! Z.to_nat i).
Proof. intros. by rewrite <-(Z2Nat.id i), octstr_get_char_spec, Nat2Z.id by done. Qed.

Lemma octstr_get_many_chars_z o i n :
  0 <= i -> 0 <= n ->
  octstr_get_many_chars o i n = take (Z.to_nat n) (drop (Z.to_nat i) (octets o)).
Proof.
  intros. by rewrite <-(Z2Nat.id i), <-(Z2Nat.id n), octstr_get_many_chars_spec, !Nat2Z.id by done.
Qed.

Lemma octstr_search_char_z o c i :
  0 <= i ->
  octstr_search_char o c i
  = match index_of c (drop (Z.to_nat i) (octets o)) with Some k => i + Z.of_nat k | None => -1 end.
Proof.
  intros. rewrite <-(Z2Nat.id i), octstr_search_char_spec, Nat2Z.id by done.
  case_match; lia.
Qed.

Lemma octstr_same_true a b : octstr_same a b = true <-> a ≡ b.
Proof. unfold octstr_same. rewrite Z.eqb_eq. apply octstr_compare_spec. Qed.

Lemma octstr_same_spec a b : octstr_same a b = bool_decide (octets a = octets b).
Proof.
  apply eq_true_iff_eq. rewrite octstr_same_true, bool_decide_eq_true. done.
Qed.

Lemma octstr_same_imm o s : octstr_same o (octstr_imm s) = bool_decide (octets o = cstr s).
Proof. by rewrite octstr_same_spec, octstr_imm_octets. Qed.

Lemma octstr_duplicate_equiv a : octstr_duplicate a ≡ a.
Proof. apply octstr_duplicate_spec. Qed.

End Strings.
