(* ===== verification/Sql.v ===== *)
(** * SQL statements as texts

    How [octstr_format] makes a text, and what the texts of the statements
    that the database process makes mean: a reader for INSERT and SELECT
    with the string literals of MySQL.  The reader is a specification, it
    is not part of the program. *)

From S2P Require Import Prelude Gwlib.
Open Scope Z_scope.

(** ** Formatting *)

(** The arguments for [%s] and [%d]. *)
Inductive arg : Type := Str (s : list Z) | Num (z : Z).

Definition show_arg (a : arg) : list Z := match a with Str s => s | Num z => format_ld z end.

(** [octstr_format] for formats with as many arguments as directives. *)
Fixpoint octstr_format (fmt : list Z) (args : list arg) : list Z :=
  match fmt with
  | [] => []
  | c :: fmt' =>
      if c =? 37 then
        match fmt', args with
        | _ :: fmt'', a :: args => show_arg a ++ octstr_format fmt'' args
        | _, _ => []
        end
      else c :: octstr_format fmt' args
  end.

(** ** Reading *)

(** A reader takes something from the front of a text. *)
Definition reader (A : Type) : Type := list Z -> option (A * list Z).

Definition word_char (c : Z) : bool :=
  ((48 <=? c) && (c <=? 57)) || ((65 <=? c) && (c <=? 90)) || ((97 <=? c) && (c <=? 122)) || (c =? 95).

Fixpoint blanks (s : list Z) : list Z :=
  match s with c :: s' => if c =? 32 then blanks s' else s | [] => [] end.

Fixpoint word_chars (s : list Z) : list Z * list Z :=
  match s with
  | [] => ([], [])
  | c :: s' => if word_char c then let '(w, r) := word_chars s' in (c :: w, r) else ([], s)
  end.

Definition read_word : reader (list Z) := fun s =>
  match word_chars (blanks s) with ([], _) => None | wr => Some wr end.

Definition read_char (c : Z) : reader unit := fun s =>
  match blanks s with x :: s => if x =? c then Some (tt, s) else None | [] => None end.

(** What a backslash and a character stand for; it stays before [%] and [_],
    which are for patterns. *)
Definition escaped (c : Z) : list Z :=
  if c =? 48 then [0] else if c =? 98 then [8] else if c =? 110 then [10] else if c =? 114 then [13]
  else if c =? 116 then [9] else if c =? 90 then [26] else if (c =? 37) || (c =? 95) then [92; c] else [c].

(** A string literal behind its quote: a quote that is doubled is a quote. *)
Fixpoint literal_body (s : list Z) : option (list Z * list Z) :=
  match s with
  | [] => None
  | c :: s =>
      if c =? 39 then
        match s with
        | d :: s' => if d =? 39 then '(l, r) ← literal_body s'; Some (39 :: l, r) else Some ([], s)
        | [] => Some ([], s)
        end
      else if c =? 92 then
        match s with
        | [] => None
        | e :: s' => '(l, r) ← literal_body s'; Some (escaped e ++ l, r)
        end
      else '(l, r) ← literal_body s; Some (c :: l, r)
  end.

Definition read_literal : reader (list Z) := fun s => '(_, s) ← read_char 39 s; literal_body s.

Definition keyword (w : String.string) : reader unit := fun s =>
  '(x, s) ← read_word s; if bool_decide (x = cstr w) then Some (tt, s) else None.
Arguments keyword _%_string.

(** Values: literals and the time of the statement. *)
Inductive value : Type := Text (s : list Z) | Now.

#[export] Instance value_eq_dec : EqDecision value.
Proof. solve_decision. Defined.

Definition read_value : reader value := fun s =>
  match read_literal s with
  | Some (l, s) => Some (Text l, s)
  | None => '(_, s) ← keyword "now" s; '(_, s) ← read_char 40 s; '(_, s) ← read_char 41 s; Some (Now, s)
  end.

(** One or more, with commas between them. *)
Fixpoint read_list {A} (fuel : nat) (p : reader A) : reader (list A) := fun s =>
  match fuel with
  | O => None
  | S fuel =>
      '(x, s) ← p s;
      match read_char 44 s with
      | Some (_, s) => '(l, s) ← read_list fuel p s; Some (x :: l, s)
      | None => Some ([x], s)
      end
  end.

Definition read_end : reader unit := fun s =>
  let s := match read_char 59 s with Some (_, s) => s | None => s end in
  match blanks s with [] => Some (tt, []) | _ => None end.

Inductive statement : Type :=
| InsertInto (table : list Z) (columns : list (list Z)) (values : list value)
| SelectFrom (columns : list (list Z)) (table : list Z) (column value : list Z).

#[export] Instance statement_eq_dec : EqDecision statement.
Proof. solve_decision. Defined.

Definition read_insert (s : list Z) : option statement :=
  '(_, s) ← keyword "INSERT" s; '(_, s) ← keyword "INTO" s; '(t, s) ← read_word s;
  '(_, s) ← read_char 40 s; '(cs, s) ← read_list 30 read_word s; '(_, s) ← read_char 41 s;
  '(_, s) ← keyword "VALUES" s;
  '(_, s) ← read_char 40 s; '(vs, s) ← read_list 30 read_value s; '(_, s) ← read_char 41 s;
  '(_, s) ← read_end s; Some (InsertInto t cs vs).

Definition read_select (s : list Z) : option statement :=
  '(_, s) ← keyword "SELECT" s; '(cs, s) ← read_list 30 read_word s; '(_, s) ← keyword "FROM" s;
  '(t, s) ← read_word s; '(_, s) ← keyword "WHERE" s; '(c, s) ← read_word s; '(_, s) ← read_char 61 s;
  '(v, s) ← read_literal s; '(_, s) ← read_end s; Some (SelectFrom cs t c v).

Definition read_statement (s : list Z) : option statement :=
  match read_insert s with Some st => Some st | None => read_select s end.

(** ** Lemmas *)

(** A name, and a text that a literal may have as it is. *)
Definition name_ok (w : list Z) : bool := bool_decide (w <> []) && forallb word_char w.
Definition plain (s : list Z) : bool := forallb (fun c => negb (c =? 39) && negb (c =? 92) && negb (c =? 0)) s.

(** What does not go on with a word. *)
Definition no_word (s : list Z) : Prop := match s with c :: _ => word_char c = false | [] => True end.

Lemma word_chars_app w s : forallb word_char w = true -> no_word s -> word_chars (w ++ s) = (w, s).
Proof.
  intros Hw Hs. induction w as [|c w IH]; cbn [app word_chars].
  - destruct s as [|c s]; cbn; [done|]. cbn in Hs. by rewrite Hs.
  - cbn in Hw. apply andb_true_iff in Hw as [Hc Hw]. by rewrite Hc, IH.
Qed.

Lemma word_char_not_blank c : word_char c = true -> c <> 32.
Proof. by intros H ->. Qed.

Lemma blanks_word w s : name_ok w = true -> blanks (w ++ s) = w ++ s.
Proof.
  unfold name_ok. destruct w as [|c w]; [done|]. cbn. intros H. apply andb_true_iff in H as [Hc _].
  by destruct (Z.eqb_spec c 32) as [->|].
Qed.

Lemma read_word_app w s : name_ok w = true -> no_word s -> read_word (w ++ s) = Some (w, s).
Proof.
  intros Hw Hs. unfold read_word. rewrite (blanks_word _ _ Hw). unfold name_ok in Hw. apply andb_true_iff in Hw as [Hn Hw].
  rewrite (word_chars_app _ _ Hw Hs). by destruct w.
Qed.

Lemma literal_plain l s : plain l = true -> head s <> Some 39 -> literal_body (l ++ 39 :: s) = Some (l, s).
Proof.
  intros Hl Hs. induction l as [|c l IH]; cbn [app literal_body].
  - cbn. destruct s as [|d s]; [done|]. by destruct (Z.eqb_spec d 39) as [->|].
  - cbn in Hl. apply andb_true_iff in Hl as [Hc Hl]. apply andb_true_iff in Hc as [Hc _]. apply andb_true_iff in Hc as [H1 H2].
    rewrite (proj1 (negb_true_iff _) H1), (proj1 (negb_true_iff _) H2), (IH Hl). done.
Qed.

(** Numbers are plain. *)
Lemma plain_pretty_go x : forall s, plain (cstr s) = true -> plain (cstr (pretty_N_go x s)) = true.
Proof.
  induction (N.lt_wf_0 x) as [x _ IH]. intros s Hs. destruct (decide (0 < x)%N) as [Hx|Hx].
  - rewrite pretty_N_go_step by done. apply IH; [by apply N.div_lt|]. unfold pretty_N_char. by repeat case_match.
  - replace x with 0%N by lia. by rewrite pretty_N_go_0.
Qed.

Lemma plain_pretty (n : N) : plain (cstr (pretty n)) = true.
Proof. unfold pretty, pretty_N. case_decide; [done|]. by apply plain_pretty_go. Qed.

Lemma format_ld_plain z : plain (format_ld z) = true.
Proof. unfold format_ld. destruct z; [done|apply plain_pretty|]. exact (plain_pretty (Npos p)). Qed.

(** ** Reading what was made *)

Lemma read_word_blank s : read_word (32 :: s) = read_word s.
Proof. done. Qed.
Lemma keyword_blank w s : keyword w (32 :: s) = keyword w s.
Proof. done. Qed.
Lemma read_value_blank s : read_value (32 :: s) = read_value s.
Proof. done. Qed.
Lemma read_char_here c s : c <> 32 -> read_char c (c :: s) = Some (tt, s).
Proof. intros H. unfold read_char. cbn. destruct (Z.eqb_spec c 32); [done|]. by rewrite Z.eqb_refl. Qed.

Lemma read_literal_here l v s : literal_body (l ++ 39 :: s) = Some (v, s) -> read_literal (39 :: l ++ 39 :: s) = Some (v, s).
Proof. done. Qed.

Lemma read_value_text l v s : literal_body (l ++ 39 :: s) = Some (v, s) -> read_value (39 :: l ++ 39 :: s) = Some (Text v, s).
Proof. intros H. unfold read_value. by rewrite (read_literal_here _ _ _ H). Qed.

Lemma read_list_cons {A} (p : reader A) fuel x s s1 :
  p s = Some (x, 44 :: s1) -> read_list (S fuel) p s = ('(l, r) ← read_list fuel p s1; Some (x :: l, r)).
Proof. intros H. cbn [read_list]. rewrite H. done. Qed.

Lemma read_list_last {A} (p : reader A) fuel x s s1 :
  p s = Some (x, s1) -> read_char 44 s1 = None -> read_list (S fuel) p s = Some ([x], s1).
Proof. intros H H1. cbn [read_list]. rewrite H. cbn. by rewrite H1. Qed.

Lemma read_word_at w s : name_ok w = true -> no_word s -> read_word (w ++ s) = Some (w, s) /\ read_word (32 :: w ++ s) = Some (w, s).
Proof. intros Hw Hs. rewrite read_word_blank. by rewrite read_word_app. Qed.

Lemma read_value_at l v s : literal_body (l ++ 39 :: s) = Some (v, s) ->
  read_value (39 :: l ++ 39 :: s) = Some (Text v, s) /\ read_value (32 :: 39 :: l ++ 39 :: s) = Some (Text v, s).
Proof. intros H. rewrite read_value_blank. by rewrite (read_value_text _ _ _ H). Qed.

(** A text that is a literal whatever comes behind it. *)
Definition literal_of (l v : list Z) : Prop := forall s, head s <> Some 39 -> literal_body (l ++ 39 :: s) = Some (v, s).

Lemma plain_literal l : plain l = true -> literal_of l l.
Proof. intros H s. by apply literal_plain. Qed.

(** The tactics read one thing from the front of the text in the goal. *)
Ltac read_item :=
  match goal with
  | |- read_word (32 :: ?w ++ ?s) = _ => apply (read_word_at w s); [assumption|done]
  | |- read_word (?w ++ ?s) = _ => apply (read_word_at w s); [assumption|done]
  | |- read_value (32 :: 39 :: ?l ++ 39 :: ?s) = _ => apply (read_value_at l); eauto
  | |- read_value (39 :: ?l ++ 39 :: ?s) = _ => apply (read_value_at l); eauto
  | |- _ => reflexivity
  end.
Ltac read_front :=
  match goal with
  | |- context [keyword ?w ?x] => let K := fresh in eassert (K : keyword w x = Some (tt, _)) by reflexivity; rewrite K; clear K
  | |- context [read_char ?w ?x] => let K := fresh in eassert (K : read_char w x = Some (tt, _)) by reflexivity; rewrite K; clear K
  | |- context [read_end ?x] => let K := fresh in eassert (K : read_end x = Some (tt, _)) by reflexivity; rewrite K; clear K
  | |- context [read_word ?x] => let K := fresh in eassert (K : read_word x = Some _) by read_item; rewrite K; clear K
  | |- context [read_list (S ?n) ?p ?x] =>
      first [ erewrite (read_list_cons p n _ x) by read_item | erewrite (read_list_last p n _ x) by (read_item || reflexivity) ]
  | |- context [read_list ?n ?p ?x] =>
      let n' := eval compute in n in match n' with S ?k => change (read_list n p x) with (read_list (S k) p x) end
  end; cbn [mbind option_bind].
Ltac format_text := match goal with |- context [octstr_format ?f ?a] =>
  let x := eval cbv -[app format_ld] in (octstr_format f a) in change (octstr_format f a) with x end.

(** Texts without a NUL. *)
Lemma plain_free l : plain l = true -> 0 ∉ l.
Proof.
  induction l as [|c l IH]; [set_solver|]. cbn. intros H. apply andb_true_iff in H as [H Hl]. apply andb_true_iff in H as [_ H].
  apply not_elem_of_cons. split; [|by apply IH]. intros <-. done.
Qed.

Lemma format_free n : forall fmt args, (length fmt <= n)%nat -> 0 ∉ fmt -> Forall (fun a => 0 ∉ show_arg a) args -> 0 ∉ octstr_format fmt args.
Proof.
  induction n as [|n IH]; intros fmt args Hn Hf Ha; [destruct fmt; [set_solver|simpl in Hn; lia]|].
  destruct fmt as [|c fmt]; [set_solver|]. simpl in Hn. apply not_elem_of_cons in Hf as [Hc Hf]. cbn [octstr_format].
  destruct (c =? 37); [|apply not_elem_of_cons; split; [done|]; apply IH; [lia|done..]].
  destruct fmt as [|k fmt]; [set_solver|]. destruct args as [|a args]; [set_solver|]. apply Forall_cons in Ha as [H1 H2].
  simpl in Hn. apply not_elem_of_cons in Hf as [_ Hf]. apply not_elem_of_app. split; [done|]. apply IH; [lia|done..].
Qed.
