(* ===== verification/Counter.v ===== *)
(** * Counters (gwlib/counter.c)

    A counter is one [unsigned long] behind a lock.  Every function reads
    the old value, updates the field and returns the old value; the lock
    makes each call one atomic step, so a run of a counter is a sequence of
    calls. *)

From S2P Require Import Prelude.
Open Scope Z_scope.

(** [struct Counter]: the field [n]. *)
Record Counter : Type := MkCounter { n : Z }.

Definition counter_create : Counter := MkCounter 0.

Definition counter_increase (c : Counter) : Z * Counter :=
  (n c, MkCounter (wrap_ulong (n c + 1))).

Definition counter_increase_with (c : Counter) (value : Z) : Z * Counter :=
  (n c, MkCounter (wrap_ulong (n c + value))).

Definition counter_value (c : Counter) : Z := n c.

Definition counter_decrease (c : Counter) : Z * Counter :=
  (n c, if 0 <? n c then MkCounter (wrap_ulong (n c - 1)) else c).

Definition counter_set (c : Counter) (v : Z) : Z * Counter := (n c, MkCounter (wrap_ulong v)).

(** A field of type [unsigned long] holds a 64-bit value. *)
Definition counter_ok (c : Counter) : Prop := 0 <= n c < ulong_max.

(** [k] successive calls of [counter_increase], with the values returned. *)
Fixpoint increase_run (k : nat) (c : Counter) : list Z * Counter :=
  match k with
  | O => ([], c)
  | S k => let '(v, c') := counter_increase c in
           let '(vs, c'') := increase_run k c' in (v :: vs, c'')
  end.

(** ** Lemmas *)

Lemma counter_create_ok : counter_ok counter_create.
Proof. unfold counter_ok, counter_create, ulong_max; simpl. lia. Qed.

Lemma counter_increase_ok c : counter_ok (counter_increase c).2.
Proof. apply wrap_ulong_range. Qed.

Lemma counter_increase_with_ok c v : counter_ok (counter_increase_with c v).2.
Proof. apply wrap_ulong_range. Qed.

Lemma counter_set_ok c v : counter_ok (counter_set c v).2.
Proof. apply wrap_ulong_range. Qed.

Lemma counter_decrease_ok c : counter_ok c -> counter_ok (counter_decrease c).2.
Proof.
  intros Hc. unfold counter_decrease; simpl. case_match; [apply wrap_ulong_range|done].
Qed.

Lemma counter_decrease_n c :
  counter_ok c -> n (counter_decrease c).2 = Z.max 0 (n c - 1).
Proof.
  unfold counter_ok, counter_decrease; simpl. intros Hc.
  destruct (Z.ltb_spec 0 (n c)); simpl; [rewrite wrap_ulong_id|]; lia.
Qed.

Lemma increase_run_state k c :
  counter_ok c -> n (increase_run k c).2 = wrap_ulong (n c + Z.of_nat k).
Proof.
  revert c. induction k as [|k IH]; intros c Hc; simpl.
  - rewrite Z.add_0_r, wrap_ulong_id; done.
  - destruct (increase_run k _) as [vs c'] eqn:E.
    pose proof (IH (MkCounter (wrap_ulong (n c + 1))) (wrap_ulong_range _)) as H.
    rewrite E in H. simpl in *. rewrite H, wrap_ulong_add_l. f_equal. lia.
Qed.

Lemma increase_run_values k c :
  counter_ok c ->
  (increase_run k c).1 = (fun i => wrap_ulong (n c + Z.of_nat i)) <$> seq 0 k.
Proof.
  revert c. induction k as [|k IH]; intros c Hc; simpl; [done|].
  destruct (increase_run k _) as [vs c'] eqn:E.
  pose proof (IH (MkCounter (wrap_ulong (n c + 1))) (wrap_ulong_range _)) as H.
    rewrite E in H. simpl in *. subst vs.
  f_equal; [by rewrite Z.add_0_r, wrap_ulong_id|].
  rewrite <-fmap_S_seq, <-list_fmap_compose. apply list_fmap_ext. intros i x _. simpl.
  rewrite wrap_ulong_add_l. f_equal. lia.
Qed.

#[export] Hint Resolve counter_create_ok counter_increase_ok counter_increase_with_ok
  counter_set_ok counter_decrease_ok : smpp.

(** Sequence numbers are fresh: up to 2^64 successive calls of
    [counter_increase] return the consecutive values of the counter modulo
    2^64, and no value twice. *)
Lemma counter_increase_fresh (k : nat) (c : Counter) (Hc : counter_ok c)
    (Hk : Z.of_nat k <= ulong_max) :
  (increase_run k c).1 = (fun i => wrap_ulong (n c + Z.of_nat i)) <$> seq 0 k /\
  NoDup (increase_run k c).1.
Proof.
  split; [by apply increase_run_values|].
  rewrite increase_run_values by done.
  apply NoDup_fmap_2_strong; [|apply NoDup_seq].
  intros i j Hi%elem_of_seq Hj%elem_of_seq Heq.
  apply wrap_ulong_inj in Heq; lia.
Qed.

Lemma counter_increase_fresh_witness :
  (increase_run 3 (MkCounter (ulong_max - 1))).1 = [ulong_max - 1; 0; 1] /\
  NoDup (increase_run 3 (MkCounter (ulong_max - 1))).1.
Proof.
  split; [reflexivity|].
  apply (counter_increase_fresh 3 (MkCounter (ulong_max - 1)));
    unfold counter_ok, ulong_max; simpl; lia.
Defined.
