(* ===== verification/Dict.v ===== *)
(** * Dictionaries (gwlib/dict.c)

    A [Dict] is a hash table: an array of [size] buckets, each NULL or a list
    of items.  The definitions follow [dict.c] function by function; every
    function takes the lock of the dictionary for its whole body, so each one
    is a single step.  [dict_map] is the finite map a dictionary stands for,
    and the theorems show that the operations implement the operations of
    that map.  [KeyedStore] is the interface that the clients rely on. *)

From S2P Require Import Prelude Gwlib.
Open Scope Z_scope.

Section Definitions.
Context {O : OctstrLib} {L : GwListLib} {V : Type}.

(** [struct Item]: a stored value is never NULL, see [dict_put]. *)
Record Item : Type := MkItem { key : octstr; value : V }.

(** [struct Dict] ([destroy_value] says whether a destructor was given). *)
Record Dict : Type := MkDict {
  tab : list (option (gwlist Item));
  size : Z;
  key_count : Z;
  destroy_value : bool
}.

Definition item_create (k : octstr) (v : V) : Item := MkItem (octstr_duplicate k) v.

Definition item_has_key (k : octstr) (item : Item) : bool := octstr_same k (key item).

(** [octstr_hash_key(key) % dict->size]: an unsigned remainder, which is
    undefined for an empty table. *)
Definition key_to_index (d : Dict) (k : octstr) : outcome nat :=
  if decide (wrap_ulong (size d) = 0) then Panic
  else Done (Z.to_nat (octstr_hash_key k mod wrap_ulong (size d))).

(** The values handed to the destructor, NULL included. *)
Definition destroyed (d : Dict) (v : option V) : list (option V) :=
  if destroy_value d then [v] else [].

Definition set_tab (d : Dict) (i : nat) (b : gwlist Item) : Dict :=
  MkDict (<[i:=Some b]> (tab d)) (size d) (key_count d) (destroy_value d).

Definition set_count (d : Dict) (c : Z) : Dict :=
  MkDict (tab d) (size d) c (destroy_value d).

Definition dict_create (size_hint : Z) (destroy : bool) : Dict :=
  MkDict (replicate (Z.to_nat (size_hint * 2)) None) (size_hint * 2) 0 destroy.

Definition dict_get (d : Dict) (k : octstr) : outcome (option V) :=
  i ← key_to_index d k;
  slot ← must (tab d !! i);
  Done (match slot with
        | None => None
        | Some b => value <$> gwlist_search b (item_has_key k)
        end).

(** Returns the value removed and the new dictionary. *)
Definition dict_remove (d : Dict) (k : octstr) : outcome (option V * Dict) :=
  i ← key_to_index d k;
  slot ← must (tab d !! i);
  match slot with
  | None => Done (None, d)
  | Some b =>
      let '(found, rest) := gwlist_extract_matching b (item_has_key k) in
      let d' := set_tab d i rest in
      match found with
      | None => Done (None, d')
      | Some l =>
          _ ← gw_assert (gwlist_len l =? 1);
          p ← must (gwlist_get l 0);
          Done (Some (value p), set_count d' (key_count d - 1))
      end
  end.

(** The bucket of a key, created when it is NULL, and the item found there. *)
Definition open_bucket (d : Dict) (k : octstr) : outcome (nat * gwlist Item * option Item) :=
  i ← key_to_index d k;
  slot ← must (tab d !! i);
  Done (match slot with
        | None => (i, gwlist_create, None)
        | Some b => (i, b, gwlist_search b (item_has_key k))
        end).

(** Returns the new dictionary and the values destroyed. *)
Definition dict_put (d : Dict) (k : octstr) (v : option V) : outcome (Dict * list (option V)) :=
  match v with
  | None =>
      '(old, d') ← dict_remove d k;
      Done (d', destroyed d old)
  | Some v =>
      '(i, b, p) ← open_bucket d k;
      match p with
      | None =>
          let d' := set_tab d i (gwlist_append b (item_create k v)) in
          Done (set_count d' (key_count d + 1), [])
      | Some p =>
          let assign it := MkItem (key it) v in
          Done (set_tab d i (gwlist_touch (item_has_key k) assign b),
                destroyed d (Some (value p)))
      end
  end.

Definition handle_null_value (d : Dict) (k : octstr) (v : option V)
    : outcome (Z * Dict * list (option V)) :=
  match v with
  | None => '(old, d') ← dict_remove d k; Done (1, d', destroyed d old)
  | Some _ => Done (0, d, [])
  end.

Definition dict_put_true (d : Dict) (k : octstr) (v : V)
    : outcome (Z * Dict * list (option V)) :=
  '(i, b, p) ← open_bucket d k;
  match p with
  | None =>
      let d' := set_tab d i (gwlist_append b (item_create k v)) in
      Done (1, set_count d' (key_count d + 1), [])
  | Some _ => Done (0, set_tab d i b, destroyed d (Some v))
  end.

Definition dict_put_once (d : Dict) (k : octstr) (v : option V)
    : outcome (Z * Dict * list (option V)) :=
  '(r, d', log) ← handle_null_value d k v;
  match v with
  | None => Done (1, d', log)
  | Some v =>
      '(u, d'', log') ← dict_put_true d' k v;
      Done (if u =? 0 then 0 else 1, d'', log ++ log')
  end.

Definition dict_key_count (d : Dict) : Z := key_count d.

(** The items of a bucket, in list order. *)
Definition bucket_items (slot : option (gwlist Item)) : list Item := from_option items [] slot.

(** All items, in the order of the two nested loops of [dict_keys] and
    [dict_destroy]. *)
Definition dict_items (d : Dict) : list Item := concat (bucket_items <$> tab d).

Definition dict_keys (d : Dict) : gwlist octstr :=
  foldl (fun acc it => gwlist_append acc (octstr_duplicate (key it)))
        gwlist_create (dict_items d).

(** The values handed to the destructor, in order. *)
Definition dict_destroy (d : Dict) : list (option V) :=
  mjoin ((fun it => destroyed d (Some (value it))) <$> dict_items d).

(** The finite map a dictionary stands for. *)
Definition item_pair (it : Item) : list Z * V := (octets (key it), value it).
Definition dict_map (d : Dict) : gmap (list Z) V := list_to_map (item_pair <$> dict_items d).

(** Invariant: the array has [size] entries, every item is in the bucket of
    its hash, no key occurs twice and [key_count] counts the items. *)
Record dict_wf (d : Dict) : Prop := {
  wf_size : 0 < size d < ulong_max;
  wf_tab : length (tab d) = Z.to_nat (size d);
  wf_home : forall i slot it, tab d !! i = Some slot -> it ∈ bucket_items slot ->
    i = Z.to_nat (octstr_hash_key (key it) mod size d);
  wf_nodup : NoDup ((item_pair <$> dict_items d).*1);
  wf_count : key_count d = Z.of_nat (length (dict_items d))
}.

(** ** Specification: the same calls on a finite map *)

(** A call on a dictionary, and what the caller can observe of it: the value
    returned, the integer returned and the values handed to the destructor. *)
Inductive dict_op : Type :=
| OpPut (k : octstr) (v : option V)
| OpPutOnce (k : octstr) (v : option V)
| OpGet (k : octstr)
| OpRemove (k : octstr)
| OpKeyCount.

Record dict_reply : Type := Reply {
  reply_value : option V;
  reply_int : Z;
  reply_destroyed : list (option V)
}.

Definition dict_step (d : Dict) (op : dict_op) : outcome (Dict * dict_reply) :=
  match op with
  | OpPut k v => '(d', log) ← dict_put d k v; Done (d', Reply None 0 log)
  | OpPutOnce k v => '(r, d', log) ← dict_put_once d k v; Done (d', Reply None r log)
  | OpGet k => v ← dict_get d k; Done (d, Reply v 0 [])
  | OpRemove k => '(v, d') ← dict_remove d k; Done (d', Reply v 0 [])
  | OpKeyCount => Done (d, Reply None (dict_key_count d) [])
  end.

Fixpoint dict_run (d : Dict) (ops : list dict_op) : outcome (Dict * list dict_reply) :=
  match ops with
  | [] => Done (d, [])
  | op :: ops =>
      '(d1, r) ← dict_step d op;
      '(d2, rs) ← dict_run d1 ops;
      Done (d2, r :: rs)
  end.

(** The destructor is told about the old value of a key that is replaced,
    about NULL when a missing key is removed by storing NULL, and about the
    new value that [dict_put_once] refuses. *)
Definition map_step (destroy : bool) (m : gmap (list Z) V) (op : dict_op)
    : gmap (list Z) V * dict_reply :=
  let log o := if destroy then [o] else [] in
  match op with
  | OpPut k None | OpPutOnce k None =>
      (delete (octets k) m,
       Reply None (if op is OpPut _ _ then 0 else 1) (log (m !! octets k)))
  | OpPut k (Some v) =>
      (<[octets k := v]> m,
       Reply None 0 (if m !! octets k is Some old then log (Some old) else []))
  | OpPutOnce k (Some v) =>
      if m !! octets k is Some _ then (m, Reply None 0 (log (Some v)))
      else (<[octets k := v]> m, Reply None 1 [])
  | OpGet k => (m, Reply (m !! octets k) 0 [])
  | OpRemove k => (delete (octets k) m, Reply (m !! octets k) 0 [])
  | OpKeyCount => (m, Reply None (Z.of_nat (base.size m)) [])
  end.

Fixpoint map_run (destroy : bool) (m : gmap (list Z) V) (ops : list dict_op)
    : gmap (list Z) V * list dict_reply :=
  match ops with
  | [] => (m, [])
  | op :: ops =>
      let '(m1, r) := map_step destroy m op in
      let '(m2, rs) := map_run destroy m1 ops in (m2, r :: rs)
  end.

End Definitions.
Arguments dict_op {O} V.
Arguments Item {O} V.
Arguments Dict {O L} V.

(** ** Interface: a store of values under octet-string keys

    What [dict.c] promises to its clients, in the vocabulary of the code:
    [store_put] with a non-NULL value, [store_get], [store_remove] and
    [store_keys] on a store satisfying [store_ok]. *)
Class KeyedStore (O : OctstrLib) (L : GwListLib) (V : Type) : Type := {
  store : Type;
  store_ok : store -> Prop;
  store_map : store -> gmap (list Z) V;
  store_create : Z -> store;
  store_put : store -> octstr -> V -> outcome store;
  store_get : store -> octstr -> outcome (option V);
  store_remove : store -> octstr -> outcome (option V * store);
  store_keys : store -> gwlist octstr;
  store_count : store -> Z;
}.

Class KeyedStoreLaws {O : OctstrLib} {L : GwListLib} {V : Type}
    (S : KeyedStore O L V) : Prop := {
  store_create_ok hint : 0 < hint < 2 ^ 62 ->
    store_ok (store_create hint) /\ store_map (store_create hint) = ∅;
  store_put_ok s k v : store_ok s ->
    exists s', store_put s k v = Done s' /\ store_ok s' /\
      store_map s' = <[octets k := v]> (store_map s);
  store_get_ok s k : store_ok s -> store_get s k = Done (store_map s !! octets k);
  store_remove_ok s k : store_ok s ->
    exists s', store_remove s k = Done (store_map s !! octets k, s') /\ store_ok s' /\
      store_map s' = delete (octets k) (store_map s);
  store_keys_ok s : store_ok s ->
    NoDup (octets <$> items (store_keys s)) /\
    list_to_set (octets <$> items (store_keys s)) = dom (store_map s);
  store_count_ok s : store_ok s -> store_count s = Z.of_nat (base.size (store_map s));
}.

Section Proofs.
Context {O : OctstrLib} {L : GwListLib} {OL : OctstrLaws O} {LL : GwListLaws L} {V : Type}.
Implicit Types (d : Dict V) (k : octstr) (it : Item V).

(** Index of the bucket of a key. *)
Definition home d k : nat := Z.to_nat (octstr_hash_key k mod size d).

Lemma item_has_key_true k it : item_has_key k it = true <-> octets k = octets (key it).
Proof. apply octstr_same_true. Qed.

Lemma key_to_index_home d k : dict_wf d -> key_to_index d k = Done (home d k).
Proof.
  intros Hwf. pose proof (wf_size d Hwf). unfold key_to_index, home.
  rewrite wrap_ulong_id by lia. by rewrite decide_False by lia.
Qed.

Lemma home_lookup d k : dict_wf d -> is_Some (tab d !! home d k).
Proof.
  intros Hwf. apply lookup_lt_is_Some. rewrite (wf_tab d Hwf). unfold home.
  pose proof (wf_size d Hwf). pose proof (Z.mod_pos_bound (octstr_hash_key k) (size d)). lia.
Qed.

Lemma home_Proper d k k' : k ≡ k' -> home d k = home d k'.
Proof. intros H. unfold home. by rewrite H. Qed.

Lemma elem_of_dict_items d it :
  dict_wf d ->
  it ∈ dict_items d <->
  exists slot, tab d !! home d (key it) = Some slot /\ it ∈ bucket_items slot.
Proof.
  intros Hwf. unfold dict_items. rewrite list_elem_of_In, in_concat. split.
  - intros (b & (slot & -> & [i Hi]%list_elem_of_lookup)%list_elem_of_In%list_elem_of_fmap & Hit).
    rewrite <-list_elem_of_In in Hit. pose proof (wf_home d Hwf i slot it Hi Hit) as ->. eauto.
  - intros (slot & Hs & Hit). exists (bucket_items slot).
    rewrite <-!list_elem_of_In, list_elem_of_fmap. split; [|done].
    exists slot. split; [done|]. by eapply list_elem_of_lookup_2.
Qed.

(** A bucket splits around the only item of a key. *)
Lemma bucket_split k (b : list (Item V)) :
  NoDup ((item_pair <$> b).*1) ->
  (List.find (item_has_key k) b = None /\ Forall (fun x => item_has_key k x = false) b) \/
  exists l1 it l2, b = l1 ++ it :: l2 /\ item_has_key k it = true /\
    List.find (item_has_key k) b = Some it /\
    Forall (fun x => item_has_key k x = false) l1 /\
    Forall (fun x => item_has_key k x = false) l2.
Proof.
  induction b as [|x b IH]; csimpl; [by left|].
  rewrite NoDup_cons. intros [Hx Hnd]. destruct (item_has_key k x) eqn:Ex.
  - right. exists [], x, b. repeat split; [done..|].
    apply Forall_forall. intros y Hy. apply not_true_iff_false.
    rewrite item_has_key_true. intros Hky. apply Hx.
    rewrite item_has_key_true in Ex. rewrite <-list_fmap_compose, list_elem_of_fmap.
    exists y. simpl. split; [congruence|done].
  - destruct (IH Hnd) as [[-> Hall]|(l1 & it & l2 & -> & Hk & -> & H1 & H2)].
    + left. auto.
    + right. exists (x :: l1), it, l2. repeat split; auto.
Qed.

Lemma dict_items_set_tab d i slot b :
  tab d !! i = Some slot ->
  exists l1 l2, dict_items d = l1 ++ bucket_items slot ++ l2 /\
    dict_items (set_tab d i b) = l1 ++ items b ++ l2.
Proof.
  intros Hi. unfold dict_items, set_tab; simpl. rewrite list_fmap_insert.
  apply (concat_insert _ _ _ (items b)). by rewrite list_lookup_fmap, Hi.
Qed.

Lemma bucket_nodup d i slot :
  dict_wf d -> tab d !! i = Some slot -> NoDup ((item_pair <$> bucket_items slot).*1).
Proof.
  intros Hwf Hi. destruct (dict_items_set_tab d i slot gwlist_create Hi) as (l1 & l2 & E & _).
  pose proof (wf_nodup d Hwf) as Hnd. rewrite E, !fmap_app in Hnd.
  apply NoDup_app in Hnd as (_ & _ & Hnd). by apply NoDup_app in Hnd as (? & _ & _).
Qed.

(** The bucket found by [key_to_index] decides the map at the key. *)
Lemma dict_map_find d k slot :
  dict_wf d -> tab d !! home d k = Some slot ->
  dict_map d !! octets k = value <$> List.find (item_has_key k) (bucket_items slot).
Proof.
  intros Hwf Hs. unfold dict_map.
  destruct (List.find _ _) as [it|] eqn:Hf; simpl.
  - apply List.find_some in Hf as [Hin Hk%item_has_key_true].
    apply elem_of_list_to_map_1; [apply (wf_nodup d Hwf)|].
    rewrite list_elem_of_fmap. exists it. unfold item_pair. rewrite Hk. split; [done|].
    apply elem_of_dict_items; [done|]. exists slot.
    rewrite <-(home_Proper d k) by done. rewrite list_elem_of_In. done.
  - apply not_elem_of_list_to_map_1. rewrite <-list_fmap_compose, list_elem_of_fmap.
    intros (it & Hk & (slot' & Hs' & Hin)%elem_of_dict_items); [|done]. simpl in Hk.
    rewrite <-(home_Proper d k) in Hs' by done. simplify_eq.
    rewrite list_elem_of_In in Hin. apply (List.find_none _ _ Hf) in Hin.
    apply not_true_iff_false in Hin. by rewrite item_has_key_true in Hin.
Qed.

(** Replacing one bucket keeps the invariant when the new items belong there
    and the keys stay distinct. *)
Lemma set_tab_wf d i slot b c :
  dict_wf d -> tab d !! i = Some slot ->
  (forall it, it ∈ items b -> home d (key it) = i) ->
  NoDup ((item_pair <$> dict_items (set_tab d i b)).*1) ->
  c = Z.of_nat (length (dict_items (set_tab d i b))) ->
  dict_wf (set_count (set_tab d i b) c).
Proof.
  intros Hwf Hi Hhome Hnd Hc. split; simpl.
  - apply (wf_size d Hwf).
  - rewrite length_insert. apply (wf_tab d Hwf).
  - intros j slot' it Hj Hit. destruct (decide (i = j)) as [<-|Hne].
    + rewrite list_lookup_insert_eq in Hj by (by eapply lookup_lt_Some). simplify_eq.
      symmetry. by apply Hhome.
    + rewrite list_lookup_insert_ne in Hj by done. by apply (wf_home d Hwf j slot').
  - done.
  - done.
Qed.

(** A bucket of a well-formed dictionary holds only items of that bucket. *)
Lemma bucket_home d k slot it :
  dict_wf d -> tab d !! home d k = Some slot -> it ∈ bucket_items slot ->
  home d (key it) = home d k.
Proof. intros Hwf Hs Hit. symmetry. by apply (wf_home d Hwf _ slot it). Qed.

(** The four ways a bucket changes. *)
Lemma dict_map_perm (l l' : list (Item V)) :
  NoDup ((item_pair <$> l).*1) -> l ≡ₚ l' ->
  (list_to_map (item_pair <$> l) : gmap (list Z) V) = list_to_map (item_pair <$> l').
Proof. intros Hnd Hp. apply list_to_map_proper; [done|]. by rewrite Hp. Qed.

Lemma keys_perm (l l' : list (Item V)) :
  l ≡ₚ l' -> NoDup ((item_pair <$> l).*1) <-> NoDup ((item_pair <$> l').*1).
Proof. intros Hp. by rewrite Hp. Qed.

Lemma append_item d k v slot b :
  dict_wf d -> tab d !! home d k = Some slot -> items b = bucket_items slot ->
  List.find (item_has_key k) (bucket_items slot) = None ->
  let d' := set_count (set_tab d (home d k) (gwlist_append b (item_create k v)))
                      (key_count d + 1) in
  dict_wf d' /\ dict_map d' = <[octets k := v]> (dict_map d).
Proof.
  intros Hwf Hs Hb Hf d'.
  set (b' := gwlist_append b (item_create k v)) in *.
  destruct (dict_items_set_tab d _ _ b' Hs) as (l1 & l2 & E & E').
  assert (Hp : dict_items (set_tab d (home d k) b') ≡ₚ item_create k v :: dict_items d).
  { rewrite E, E'. subst b'. rewrite items_append, Hb. solve_Permutation. }
  assert (Hk : octets (key (item_create k v)) = octets k) by apply octstr_duplicate_spec.
  assert (Hfresh : dict_map d !! octets k = None).
  { rewrite (dict_map_find d k slot) by done. by rewrite Hf. }
  assert (Hnd : NoDup ((item_pair <$> item_create k v :: dict_items d).*1)).
  { csimpl. apply NoDup_cons. split; [|apply (wf_nodup d Hwf)].
    rewrite octstr_duplicate_spec. by apply not_elem_of_list_to_map_2. }
  split.
  - apply (set_tab_wf d _ slot); [done..| | |].
    + subst b'. intros it. rewrite items_append, Hb, elem_of_app, list_elem_of_singleton.
      intros [Hit| ->]; [by apply (bucket_home d k slot)|].
      apply home_Proper. by apply octstr_duplicate_equiv.
    + by rewrite (keys_perm _ _ Hp).
    + rewrite Hp. simpl. rewrite (wf_count d Hwf). lia.
  - unfold dict_map at 1. change (dict_items d') with (dict_items (set_tab d (home d k) b')).
    rewrite (dict_map_perm _ (item_create k v :: dict_items d)); [|by rewrite (keys_perm _ _ Hp)|done].
    csimpl. by rewrite octstr_duplicate_spec.
Qed.

Lemma touch_item d k v slot b it :
  dict_wf d -> tab d !! home d k = Some slot -> items b = bucket_items slot ->
  List.find (item_has_key k) (bucket_items slot) = Some it ->
  let d' := set_tab d (home d k) (gwlist_touch (item_has_key k) (fun x => MkItem (key x) v) b) in
  dict_wf d' /\ dict_map d' = <[octets k := v]> (dict_map d).
Proof.
  intros Hwf Hs Hb Hf d'. rewrite <-Hb in Hf.
  set (b' := gwlist_touch _ _ b) in *.
  destruct (dict_items_set_tab d _ _ b' Hs) as (l1 & l2 & E & E'). rewrite <-Hb in E.
  destruct (alter_first_split _ (fun x => MkItem (key x) v) _ _ Hf)
    as (m1 & m2 & Em & Em' & Hk%item_has_key_true & _).
  set (it' := MkItem (key it) v). fold it' in Em'.
  assert (Hp : dict_items d ≡ₚ it :: (l1 ++ (m1 ++ m2) ++ l2)).
  { rewrite E, Em. solve_Permutation. }
  assert (Hp' : dict_items d' ≡ₚ it' :: (l1 ++ (m1 ++ m2) ++ l2)).
  { subst d'. rewrite E'. subst b'. rewrite items_touch, Em'. solve_Permutation. }
  pose proof (wf_nodup d Hwf) as Hnd. rewrite (keys_perm _ _ Hp) in Hnd.
  split.
  - replace d' with (set_count d' (key_count d)) by done.
    apply (set_tab_wf d _ slot); [done..| | |].
    + intros x Hx. subst b'. rewrite items_touch, Em' in Hx.
      assert (exists y, y ∈ items b /\ key y = key x) as (y & Hy & <-).
      { apply elem_of_app in Hx as [Hx|[-> |Hx]%elem_of_cons]; rewrite Em.
        - exists x. set_solver.
        - exists it. set_solver.
        - exists x. set_solver. }
      apply (bucket_home d k slot); [done..|]. by rewrite <-Hb.
    + apply (keys_perm _ _ Hp'). exact Hnd.
    + change (key_count d = Z.of_nat (length (dict_items d'))).
      rewrite Hp', (wf_count d Hwf), Hp. done.
  - unfold dict_map. rewrite (dict_map_perm _ _ (wf_nodup d Hwf) Hp).
    rewrite (dict_map_perm _ _ (proj2 (keys_perm _ _ Hp') Hnd) Hp').
    csimpl. by rewrite Hk, insert_insert_eq.
Qed.

Lemma remove_item d k b rest it :
  dict_wf d -> tab d !! home d k = Some (Some b) ->
  List.find (item_has_key k) (items b) = Some it ->
  items rest = List.filter (fun x => negb (item_has_key k x)) (items b) ->
  let d' := set_count (set_tab d (home d k) rest) (key_count d - 1) in
  dict_wf d' /\ dict_map d' = delete (octets k) (dict_map d).
Proof.
  intros Hwf Hs Hf Hr d'.
  destruct (dict_items_set_tab d (home d k) (Some b) rest Hs) as (l1 & l2 & E & E'). simpl in E.
  destruct (bucket_split k (items b)) as [[Hn _]|(m1 & it' & m2 & Eb & Hk & Hf' & H1 & H2)];
    [by apply (bucket_nodup d (home d k) (Some b))|congruence|].
  assert (it' = it) as -> by congruence. clear Hf'.
  rewrite Eb, List.filter_app in Hr. simpl in Hr. rewrite Hk in Hr. simpl in Hr.
  rewrite !filter_all in Hr by (eapply Forall_impl; [done|]; intros ? ->; done).
  assert (Hp : dict_items d ≡ₚ it :: dict_items d').
  { change (dict_items d') with (dict_items (set_tab d (home d k) rest)).
    rewrite E, E', Hr, Eb. solve_Permutation. }
  pose proof (wf_nodup d Hwf) as Hnd. rewrite (keys_perm _ _ Hp) in Hnd. csimpl in Hnd.
  apply NoDup_cons in Hnd as [Hfresh Hnd]. apply item_has_key_true in Hk.
  split.
  - apply (set_tab_wf d _ (Some b)); [done..| |exact Hnd|].
    + intros x Hx. rewrite Hr in Hx.
      apply (bucket_home d k (Some b)); [done..|].
      simpl. rewrite Eb. set_solver.
    + change (key_count d - 1 = Z.of_nat (length (dict_items d'))).
      rewrite (wf_count d Hwf), Hp. simpl. lia.
  - unfold dict_map. rewrite (dict_map_perm _ _ (wf_nodup d Hwf) Hp). csimpl.
    rewrite Hk, delete_insert_id; [done|].
    by apply not_elem_of_list_to_map_1.
Qed.

(** Rewriting a bucket with its own items changes nothing. *)
Lemma same_items d i slot b :
  dict_wf d -> tab d !! i = Some slot -> items b = bucket_items slot ->
  dict_wf (set_tab d i b) /\ dict_map (set_tab d i b) = dict_map d.
Proof.
  intros Hwf Hi Hb.
  assert (E : dict_items (set_tab d i b) = dict_items d).
  { destruct (dict_items_set_tab d i slot b Hi) as (l1 & l2 & -> & ->). by rewrite Hb. }
  split; [|unfold dict_map; by rewrite E].
  replace (set_tab d i b) with (set_count (set_tab d i b) (key_count d)) by done.
  apply (set_tab_wf d i slot); [done..| | |]; rewrite ?E, ?Hb.
  - intros it Hit. symmetry. by apply (wf_home d Hwf i slot).
  - apply (wf_nodup d Hwf).
  - apply (wf_count d Hwf).
Qed.

(** [open_bucket] finds what the map holds at the key. *)
Lemma open_bucket_spec d k :
  dict_wf d ->
  exists slot b, tab d !! home d k = Some slot /\ items b = bucket_items slot /\
    open_bucket d k = Done (home d k, b, List.find (item_has_key k) (bucket_items slot)).
Proof.
  intros Hwf. destruct (home_lookup d k Hwf) as [slot Hs].
  unfold open_bucket. rewrite key_to_index_home by done. simpl. rewrite Hs. simpl.
  destruct slot as [b|]; simpl.
  - exists (Some b), b. by rewrite gwlist_search_spec.
  - exists None, gwlist_create. by rewrite items_create.
Qed.

Lemma dict_create_wf hint destroy :
  0 < hint < 2 ^ 62 ->
  dict_wf (dict_create hint destroy : Dict V) /\ dict_map (dict_create hint destroy : Dict V) = ∅.
Proof.
  intros Hh.
  assert (E : dict_items (dict_create hint destroy : Dict V) = []).
  { unfold dict_items, dict_create; simpl. rewrite fmap_replicate. simpl.
    induction (Z.to_nat (hint * 2)); done. }
  split; [split|unfold dict_map; rewrite E; done]; simpl.
  - unfold ulong_max. lia.
  - by rewrite length_replicate.
  - intros i slot it [-> _]%lookup_replicate. simpl. by rewrite elem_of_nil.
  - rewrite E. constructor.
  - by rewrite E.
Qed.

Lemma dict_get_spec d k : dict_wf d -> dict_get d k = Done (dict_map d !! octets k).
Proof.
  intros Hwf. destruct (home_lookup d k Hwf) as [slot Hs].
  unfold dict_get. rewrite key_to_index_home by done. simpl. rewrite Hs. simpl.
  rewrite (dict_map_find d k slot) by done. destruct slot as [b|]; simpl; [|done].
  by rewrite gwlist_search_spec.
Qed.

Lemma dict_remove_spec d k :
  dict_wf d ->
  exists d', dict_remove d k = Done (dict_map d !! octets k, d') /\ dict_wf d' /\
    dict_map d' = delete (octets k) (dict_map d) /\ destroy_value d' = destroy_value d.
Proof.
  intros Hwf. destruct (home_lookup d k Hwf) as [slot Hs].
  unfold dict_remove. rewrite key_to_index_home by done. simpl. rewrite Hs. simpl.
  pose proof (dict_map_find d k slot Hwf Hs) as Hm.
  destruct slot as [b|]; simpl in *.
  2:{ exists d. rewrite Hm. split; [done|]. split; [done|]. by rewrite delete_id. }
  pose proof (gwlist_extract_matching_fst _ b (item_has_key k)) as Hfst.
  pose proof (gwlist_extract_matching_snd _ b (item_has_key k)) as Hsnd.
  destruct (gwlist_extract_matching b _) as [found rest]; simpl in *.
  destruct (bucket_split k (items b)) as [[Hn Hall]|(m1 & it & m2 & Eb & Hk & Hf & H1 & H2)];
    [by apply (bucket_nodup d (home d k) (Some b))|..].
  - rewrite filter_none in Hfst by done. destruct found; [done|]. simpl.
    rewrite Hm, Hn. eexists. split; [done|].
    rewrite filter_all in Hsnd by (eapply Forall_impl; [done|]; intros ? ->; done).
    destruct (same_items d _ _ rest Hwf Hs Hsnd) as [? ->].
    rewrite delete_id by (by rewrite Hm, Hn). done.
  - assert (List.filter (item_has_key k) (items b) = [it]) as E.
    { rewrite Eb, List.filter_app. simpl. rewrite Hk, !filter_none by done. done. }
    rewrite E in Hfst. destruct found as [l|]; simplify_eq/=.
    rewrite gwlist_len_spec, Hfst. simpl.
    pose proof (gwlist_get_spec _ l 0%nat) as Hg. rewrite Hfst in Hg.
    change (Z.of_nat 0) with 0 in Hg.
    rewrite Hg. simpl.
    rewrite Hm, Hf. eexists. split; [done|].
    destruct (remove_item d k b rest it Hwf Hs Hf Hsnd) as [? ?]. done.
Qed.

Lemma dict_put_spec d k v :
  dict_wf d ->
  exists d', dict_put d k (Some v)
    = Done (d', match dict_map d !! octets k with
                | Some old => destroyed d (Some old)
                | None => []
                end) /\
    dict_wf d' /\ dict_map d' = <[octets k := v]> (dict_map d) /\
    destroy_value d' = destroy_value d.
Proof.
  intros Hwf. destruct (open_bucket_spec d k Hwf) as (slot & b & Hs & Hb & Ho).
  unfold dict_put. rewrite Ho. simpl. rewrite (dict_map_find d k slot) by done.
  destruct (List.find _ _) as [it|] eqn:Hf; simpl; eexists; (split; [done|]).
  - by destruct (touch_item d k v slot b it Hwf Hs Hb Hf).
  - by destruct (append_item d k v slot b Hwf Hs Hb Hf).
Qed.

Lemma dict_put_true_spec d k v :
  dict_wf d ->
  exists u d' log, dict_put_true d k v = Done (u, d', log) /\ dict_wf d' /\
    u = (if decide (dict_map d !! octets k = None) then 1 else 0) /\
    log = (if decide (dict_map d !! octets k = None) then [] else destroyed d (Some v)) /\
    dict_map d' = (if decide (dict_map d !! octets k = None)
                   then <[octets k := v]> (dict_map d) else dict_map d) /\
    destroy_value d' = destroy_value d.
Proof.
  intros Hwf. destruct (open_bucket_spec d k Hwf) as (slot & b & Hs & Hb & Ho).
  unfold dict_put_true. rewrite Ho. simpl. rewrite (dict_map_find d k slot) by done.
  destruct (List.find _ _) as [it|] eqn:Hf; simpl; do 3 eexists; (split; [done|]).
  - by destruct (same_items d _ _ b Hwf Hs Hb).
  - by destruct (append_item d k v slot b Hwf Hs Hb Hf).
Qed.

Lemma dict_keys_items d :
  items (dict_keys d) = (fun it => octstr_duplicate (key it)) <$> dict_items d.
Proof.
  unfold dict_keys.
  enough (forall l acc, items (foldl (fun a it => gwlist_append a (octstr_duplicate (key it))) acc l)
    = items acc ++ ((fun it : Item V => octstr_duplicate (key it)) <$> l)) as ->.
  { by rewrite items_create. }
  induction l as [|x l IH]; intros acc; csimpl; [by rewrite app_nil_r|].
  by rewrite IH, items_append, <-app_assoc.
Qed.

Lemma dict_keys_octets d : octets <$> items (dict_keys d) = (item_pair <$> dict_items d).*1.
Proof.
  rewrite dict_keys_items, <-!list_fmap_compose. apply list_fmap_ext. intros i it _.
  apply octstr_duplicate_spec.
Qed.

Lemma dict_keys_dom d :
  dict_wf d -> list_to_set (octets <$> items (dict_keys d)) = dom (dict_map d).
Proof.
  intros Hwf. rewrite dict_keys_octets. unfold dict_map. by rewrite dom_list_to_map_L.
Qed.

Lemma dict_count_size d : dict_wf d -> key_count d = Z.of_nat (base.size (dict_map d)).
Proof.
  intros Hwf. rewrite (wf_count d Hwf). f_equal. unfold dict_map.
  rewrite <-length_map_to_list.
  rewrite (map_to_list_to_map _ (wf_nodup d Hwf)). by rewrite length_fmap.
Qed.

Lemma dict_destroy_log d :
  dict_destroy d = if destroy_value d then (fun it => Some (value it)) <$> dict_items d else [].
Proof.
  unfold dict_destroy, destroyed. destruct (destroy_value d).
  - induction (dict_items d) as [|x l IH]; csimpl; [done|]. by rewrite IH.
  - induction (dict_items d) as [|x l IH]; csimpl; [done|]. done.
Qed.

Lemma dict_step_refines d op :
  dict_wf d ->
  exists d' r, dict_step d op = Done (d', r) /\ dict_wf d' /\
    destroy_value d' = destroy_value d /\
    map_step (destroy_value d) (dict_map d) op = (dict_map d', r).
Proof.
  intros Hwf. destruct op as [k [v|]|k [v|]|k|k|]; simpl.
  - destruct (dict_put_spec d k v Hwf) as (d' & E & ? & Hm & ?). simpl in E. rewrite E. simpl.
    do 2 eexists. split; [done|]. split; [done|]. split; [done|]. by rewrite Hm.
  - destruct (dict_remove_spec d k Hwf) as (d' & -> & ? & <- & ?). simpl. eauto 10.
  - destruct (dict_put_true_spec d k v Hwf) as (u & d' & log & E & ? & -> & -> & Hm & ?).
    unfold dict_put_once; simpl. rewrite E. simpl.
    do 2 eexists. split; [done|]. split; [done|]. split; [done|].
    rewrite Hm. by destruct (dict_map d !! octets k).
  - destruct (dict_remove_spec d k Hwf) as (d' & E & ? & Hm & ?).
    unfold dict_put_once; simpl. rewrite E. simpl. rewrite <-Hm. eauto 10.
  - rewrite dict_get_spec by done. simpl. eauto 10.
  - destruct (dict_remove_spec d k Hwf) as (d' & -> & ? & <- & ?). simpl. eauto 10.
  - unfold dict_key_count. rewrite dict_count_size by done. eauto 10.
Qed.

Lemma dict_destroy_perm d :
  dict_wf d -> destroy_value d = true ->
  dict_destroy d ≡ₚ Some <$> (map_to_list (dict_map d)).*2.
Proof.
  intros Hwf Hd. rewrite dict_destroy_log, Hd. unfold dict_map.
  rewrite (map_to_list_to_map _ (wf_nodup d Hwf)), <-!list_fmap_compose.
  apply reflexive_eq. by apply list_fmap_ext.
Qed.

(** C8 The hash table implements a finite map: any sequence of calls of
    [dict_put], [dict_put_once], [dict_get], [dict_remove] and
    [dict_key_count] on a well-formed dictionary runs without an undefined
    access or a failed assertion, keeps it well-formed, returns and destroys
    exactly what the same calls on the map it stands for return and destroy,
    and ends in a dictionary standing for the resulting map. *)
Theorem dict_run_refines (d : Dict V) (ops : list (dict_op V)) (Hwf : dict_wf d) :
  exists d' rs, dict_run d ops = Done (d', rs) /\ dict_wf d' /\
    map_run (destroy_value d) (dict_map d) ops = (dict_map d', rs).
Proof.
  revert d Hwf. induction ops as [|op ops IH]; intros d Hwf; simpl; [eauto 10|].
  destruct (dict_step_refines d op Hwf) as (d1 & r & -> & Hwf1 & Hd & ->). simpl.
  destruct (IH d1 Hwf1) as (d2 & rs & -> & Hwf2 & E). rewrite Hd in E. simpl.
  rewrite E. eauto 10.
Qed.

(** [dict_keys] lists every key of the dictionary exactly once, and
    [dict_destroy] hands every stored value to the destructor exactly once. *)
Theorem dict_keys_and_destroy_complete (d : Dict V) (Hwf : dict_wf d) :
  NoDup (octets <$> items (dict_keys d)) /\
  list_to_set (octets <$> items (dict_keys d)) = dom (dict_map d) /\
  (destroy_value d = true -> dict_destroy d ≡ₚ Some <$> (map_to_list (dict_map d)).*2).
Proof.
  split; [rewrite dict_keys_octets; apply (wf_nodup d Hwf)|].
  split; [by apply dict_keys_dom|by apply dict_destroy_perm].
Qed.

(** [dict.c] without destructor keeps the promises of [KeyedStore]. *)
#[export] Instance DictStore : KeyedStore O L V := {|
  store := Dict V;
  store_ok := dict_wf;
  store_map := dict_map;
  store_create hint := dict_create hint false;
  store_put d k v := '(d', _) ← dict_put d k (Some v); Done d';
  store_get := dict_get;
  store_remove := dict_remove;
  store_keys := dict_keys;
  store_count := dict_key_count;
|}.

#[export] Instance DictStore_laws : KeyedStoreLaws DictStore.
Proof.
  split; cbn [store store_ok store_map store_create store_put store_get store_remove
    store_keys store_count DictStore]; intros.
  - by apply dict_create_wf.
  - destruct (dict_put_spec s k v) as (d' & -> & ? & ? & _); [done|]. eauto.
  - by apply dict_get_spec.
  - destruct (dict_remove_spec s k) as (d' & -> & ? & ? & _); [done|]. eauto.
  - rewrite dict_keys_octets. split; [by apply wf_nodup|].
    rewrite <-dict_keys_octets. by apply dict_keys_dom.
  - by apply dict_count_size.
Qed.

End Proofs.

(** The calls of the witnesses: keys "a" and "b" (97, 98) in a table of two
    buckets, values as integers. *)
Definition sample_ops : list (dict_op (O:=list_octstr) Z) :=
  [OpPut [97] (Some 1); OpPut [98] (Some 2); OpPut [97] (Some 3); OpPutOnce [98] (Some 9);
   OpGet [97]; OpRemove [98]; OpGet [98]; OpPut [98] None; OpKeyCount].

Lemma dict_run_refines_witness :
  (exists d' rs, dict_run (dict_create 1 true) sample_ops = Done (d', rs) /\ dict_wf d' /\
    map_run true (dict_map (dict_create 1 true)) sample_ops = (dict_map d', rs)) /\
  (map_run true ∅ sample_ops).2
  = [Reply None 0 []; Reply None 0 []; Reply None 0 [Some 1]; Reply None 0 [Some 9];
     Reply (Some 3) 0 []; Reply (Some 2) 0 []; Reply None 0 []; Reply None 0 [None];
     Reply None 1 []].
Proof.
  split; [|vm_compute; reflexivity].
  apply (dict_run_refines (dict_create 1 true) sample_ops).
  apply dict_create_wf. lia.
Defined.

Lemma dict_keys_and_destroy_complete_witness :
  NoDup (octets <$> items (dict_keys (dict_create (V:=Z) 4 true))) /\
  list_to_set (octets <$> items (dict_keys (dict_create (V:=Z) 4 true)))
  = dom (dict_map (dict_create (V:=Z) 4 true)) /\
  (destroy_value (dict_create (V:=Z) 4 true) = true ->
   dict_destroy (dict_create (V:=Z) 4 true)
   ≡ₚ Some <$> (map_to_list (dict_map (dict_create 4 true))).*2).
Proof. apply (dict_keys_and_destroy_complete (dict_create 4 true)). apply dict_create_wf. lia. Defined.
#[export] Hint Resolve dict_create_wf : smpp.
