(* ===== verification/PrioQueue.v ===== *)
(** * Priority queues (gwlib/gw-prioqueue.c)

    A priority queue is a binary heap in an array of pointers whose first
    element is always NULL and stops the way up.  On the way down the element
    behind the last one is compared too: it still holds the pointer that was
    moved to the top.  A long that is an index is never negative here and is
    written as a natural number.  Each operation runs under the lock of the
    queue; waiting for a producer is the result [None] of
    [gw_prioqueue_consume]. *)

From S2P Require Import Prelude.
From Stdlib Require Import Sorted.

Section PrioQueue.
Context {T : Type}.

(** The function that compares two items, and what a new element of the array
    happens to hold before it is assigned. *)
Context (cmp : T -> T -> Z) (junk : option T).

(** [struct gw_prioqueue]; [tab] has as many elements as [size] has room
    for. *)
Record gw_prioqueue : Type := MkQueue { tab : list (option T); len : nat; producers : Z }.

Definition with_tab (q : gw_prioqueue) (t : list (option T)) : gw_prioqueue :=
  MkQueue t (len q) (producers q).

Definition tab_set (t : list (option T)) (i : nat) (v : option T) : outcome (list (option T)) :=
  if (i <? length t)%nat then Done (<[i:=v]> t) else Panic.

(** The function is only called on items. *)
Definition compare (a b : option T) : outcome Z := x ← must a; y ← must b; Done (cmp x y).

Definition make_bigger (q : gw_prioqueue) (n : nat) : gw_prioqueue :=
  if (len q + n <=? length (tab q))%nat then q
  else with_tab q (tab q ++ repeat junk (len q + n - length (tab q))).

(** The loop of [upheap]; [fuel] bounds the number of its tests. *)
Fixpoint up_loop (fuel : nat) (t : list (option T)) (v : option T) (index : nat)
    : outcome (list (option T)) :=
  match fuel with
  | 0%nat => Panic
  | S fuel =>
      parent ← must (t !! (index / 2)%nat);
      go ← match parent with
           | None => Done false
           | Some _ => c ← compare parent v; Done (c <=? 0)%Z
           end;
      if (go : bool) then t ← tab_set t index parent; up_loop fuel t v (index / 2)
      else tab_set t index v
  end.

Definition upheap (q : gw_prioqueue) (index : nat) : outcome gw_prioqueue :=
  v ← must (tab q !! index);
  t ← up_loop (S (Nat.log2 index)) (tab q) v index;
  Done (with_tab q t).

(** The bigger one of the children [j] and [j + 1]. *)
Definition biggest_child (n : nat) (t : list (option T)) (j : nat) : outcome nat :=
  if (j <? n)%nat then
    left ← must (t !! j);
    right ← must (t !! S j);
    c ← compare left right;
    Done (if (c <? 0)%Z then S j else j)
  else Done j.

(** The loop of [downheap] in a queue of length [n]. *)
Fixpoint down_loop (fuel : nat) (n : nat) (t : list (option T)) (v : option T) (index : nat)
    : outcome (list (option T)) :=
  match fuel with
  | 0%nat => Panic
  | S fuel =>
      if (index <=? n / 2)%nat then
        j ← biggest_child n t (2 * index);
        child ← must (t !! j);
        c ← compare v child;
        if (0 <=? c)%Z then tab_set t index v
        else t ← tab_set t index child; down_loop fuel n t v j
      else tab_set t index v
  end.

Definition downheap (q : gw_prioqueue) (index : nat) : outcome gw_prioqueue :=
  v ← must (tab q !! index);
  t ← down_loop (S (Nat.log2 (len q))) (len q) (tab q) v index;
  Done (with_tab q t).

Definition gw_prioqueue_create : outcome gw_prioqueue :=
  let q := make_bigger (MkQueue [] 0 0) 1 in
  t ← tab_set (tab q) 0 None;
  Done (MkQueue t (len q + 1) (producers q)).

Definition gw_prioqueue_len (q : gw_prioqueue) : Z := (Z.of_nat (len q) - 1)%Z.

Definition gw_prioqueue_insert (q : gw_prioqueue) (item : option T) : outcome gw_prioqueue :=
  _ ← must item;
  let q := make_bigger q 1 in
  t ← tab_set (tab q) (len q) item;
  q ← upheap (with_tab q t) (len q);
  Done (MkQueue (tab q) (len q + 1) (producers q)).

(** The calls of [fn] by the loop from [i] on, in order. *)
Fixpoint foreach_loop (n : nat) (t : list (option T)) (i : nat) : outcome (list (option T * Z)) :=
  match n with
  | 0%nat => Done []
  | S n =>
      x ← must (t !! i);
      l ← foreach_loop n t (i + 1);
      Done ((x, (Z.of_nat i - 1)%Z) :: l)
  end.

Definition gw_prioqueue_foreach (q : gw_prioqueue) : outcome (list (option T * Z)) :=
  foreach_loop (len q - 1) (tab q) 1.

(** The part of [gw_prioqueue_remove] and [gw_prioqueue_consume] that takes
    the biggest item. *)
Definition take_top (q : gw_prioqueue) : outcome (option T * gw_prioqueue) :=
  ret ← must (tab q !! 1%nat);
  last ← must (tab q !! (len q - 1)%nat);
  t ← tab_set (tab q) 1 last;
  q ← downheap (MkQueue t (len q - 1) (producers q)) 1;
  Done (ret, q).

Definition gw_prioqueue_remove (q : gw_prioqueue) : outcome (option T * gw_prioqueue) :=
  if (len q <=? 1)%nat then Done (None, q) else take_top q.

Definition gw_prioqueue_get (q : gw_prioqueue) : outcome (option T) :=
  if (1 <? len q)%nat then must (tab q !! 1%nat) else Done None.

(** [None]: the caller waits for a producer. *)
Definition gw_prioqueue_consume (q : gw_prioqueue) : option (outcome (option T * gw_prioqueue)) :=
  if (len q =? 1)%nat && (0 <? producers q)%Z then None
  else Some (if (1 <? len q)%nat then take_top q else Done (None, q)).

Definition gw_prioqueue_add_producer (q : gw_prioqueue) : gw_prioqueue :=
  MkQueue (tab q) (len q) (wrap_long (producers q + 1)%Z).

Definition gw_prioqueue_remove_producer (q : gw_prioqueue) : outcome gw_prioqueue :=
  _ ← gw_assert (0 <? producers q)%Z;
  Done (MkQueue (tab q) (len q) (producers q - 1)%Z).

Definition gw_prioqueue_producer_count (q : gw_prioqueue) : Z := producers q.

(** The calls of [item_destroy], in order. *)
Fixpoint destroy_loop (fuel : nat) (q : gw_prioqueue) : outcome (list T) :=
  match fuel with
  | 0%nat => Panic
  | S fuel =>
      '(item, q) ← gw_prioqueue_remove q;
      match item with
      | None => Done []
      | Some x => l ← destroy_loop fuel q; Done (x :: l)
      end
  end.

Definition gw_prioqueue_destroy (queue : option gw_prioqueue) (item_destroy : bool)
    : outcome (list T) :=
  match queue with
  | Some q => if item_destroy then destroy_loop (len q) q else Done []
  | None => Done []
  end.

End PrioQueue.
Arguments gw_prioqueue T : clear implicits.
