(* ===== verification/PrioQueueFacts.v ===== *)
(** * Theorems about priority queues

    The array is a heap after every operation, the loops of the heap end
    after logarithmically many turns, and the queue behaves like a bag of
    items of which the biggest one comes out first. *)

From S2P Require Import Prelude PrioQueue.
From Stdlib Require Import Sorted.

(** What the queue expects of the function that compares: a total preorder,
    whose sign says which item is bigger. *)
Class CmpLaws {T} (cmp : T -> T -> Z) : Prop := {
  cmp_flip x y : (cmp x y <= 0)%Z -> (0 <= cmp y x)%Z;
  cmp_total x y : (cmp x y < 0)%Z \/ (0 <= cmp x y)%Z;
  cmp_refl x : (0 <= cmp x x)%Z;
  cmp_trans x y z : (0 <= cmp x y)%Z -> (0 <= cmp y z)%Z -> (0 <= cmp x z)%Z
}.

Section Facts.
Context {T : Type} (cmp : T -> T -> Z) (junk : option T) {CL : CmpLaws cmp}.
Implicit Types (t : list (option T)) (q : gw_prioqueue T) (x y v : T).

Definition ge x y : Prop := (0 <= cmp x y)%Z.

#[local] Instance ge_trans : Transitive ge.
Proof. intros x y z. apply cmp_trans. Qed.

(** ** The array *)

(** Item [x] stands at position [i]. *)
Definition at_pos t (i : nat) x : Prop := t !! i = Some (Some x).

(** The first [n] positions after the stop mark hold items. *)
Definition full t (n : nat) : Prop :=
  t !! 0%nat = Some None /\ forall i, (1 <= i <= n)%nat -> exists x, at_pos t i x.

(** Every item is at most its parent, except around position [h]. *)
Definition ordered_but (h : nat) t (n : nat) : Prop :=
  forall j x y, (2 <= j <= n)%nat -> j <> h -> (j / 2)%nat <> h ->
    at_pos t (j / 2) x -> at_pos t j y -> ge x y.

Definition ordered t (n : nat) : Prop :=
  forall j x y, (2 <= j <= n)%nat -> at_pos t (j / 2) x -> at_pos t j y -> ge x y.

(** Around position [h] the value [v] may be put. *)
Definition fits_below (h : nat) t n v : Prop :=
  forall j y, (2 <= j <= n)%nat -> (j / 2)%nat = h -> at_pos t j y -> ge v y.
Definition bridged (h : nat) t n : Prop :=
  forall j x y, (2 <= h)%nat -> (2 <= j <= n)%nat -> (j / 2)%nat = h ->
    at_pos t (h / 2) x -> at_pos t j y -> ge x y.

Definition contents_of t (n : nat) : list T := omap id (take n (drop 1 t)).

Lemma half_lt i : (1 <= i)%nat -> (i / 2 < i)%nat.
Proof. intros H. apply Nat.div_lt; lia. Qed.

Lemma half_neq i : (1 <= i)%nat -> (i / 2)%nat <> i.
Proof. intros H. pose proof (half_lt i H). lia. Qed.

Lemma at_set_eq t i x : (i < length t)%nat -> at_pos (<[i:=Some x]> t) i x.
Proof. intros H. unfold at_pos. by rewrite list_lookup_insert_eq. Qed.

Lemma at_set_ne t i j o x : i <> j -> at_pos (<[i:=o]> t) j x <-> at_pos t j x.
Proof. intros H. unfold at_pos. by rewrite list_lookup_insert_ne. Qed.

Lemma at_set_inv t i x y : at_pos (<[i:=Some x]> t) i y -> y = x.
Proof.
  unfold at_pos. intros H. destruct (decide (i < length t)%nat) as [Hl|Hl].
  - rewrite list_lookup_insert_eq in H by done. congruence.
  - rewrite list_insert_ge in H by lia. apply lookup_lt_Some in H. lia.
Qed.

Lemma at_fun t i x y : at_pos t i x -> at_pos t i y -> x = y.
Proof. unfold at_pos. congruence. Qed.

Lemma full_length t n : full t n -> (n < length t)%nat.
Proof.
  intros [H0 Hf]. destruct n as [|n]; [by apply lookup_lt_Some in H0|].
  destruct (Hf (S n)) as [x Hx]; [lia|]. by apply lookup_lt_Some in Hx.
Qed.

Lemma full_set t n i x : (1 <= i)%nat -> full t n -> full (<[i:=Some x]> t) n.
Proof.
  intros Hi Hf. pose proof (full_length _ _ Hf) as Hl. destruct Hf as [H0 Hf].
  split; [by rewrite list_lookup_insert_ne by lia|]. intros j Hj.
  destruct (decide (i = j)) as [<-|Hn]; [exists x; apply at_set_eq; lia|].
  destruct (Hf j Hj) as [y Hy]. exists y. by apply at_set_ne.
Qed.

(** Putting [v] into the hole. *)
Lemma fill_hole h t n v :
  ordered_but h t n -> fits_below h t n v ->
  (forall x, (2 <= h)%nat -> at_pos t (h / 2) x -> ge x v) ->
  ordered (<[h:=Some v]> t) n.
Proof.
  intros Ho Hb Hp j x y Hj Hx Hy. destruct (decide (j = h)) as [->|Hjh].
  - apply at_set_inv in Hy as ->. rewrite at_set_ne in Hx by (pose proof (half_neq h); lia).
    apply Hp; [lia|done].
  - rewrite at_set_ne in Hy by done. destruct (decide (j / 2 = h)%nat) as [Hjp|Hjp].
    + rewrite Hjp in Hx. apply at_set_inv in Hx as ->. by apply (Hb j).
    + rewrite at_set_ne in Hx by done. by apply (Ho j).
Qed.

(** ** The items as a bag *)

Lemma perm_swap_out (l : list (option T)) k x y :
  l !! k = Some (Some y) ->
  y :: omap id (<[k:=Some x]> l) ≡ₚ x :: omap id l.
Proof.
  revert k. induction l as [|o l IH]; intros [|k] H; simplify_eq/=.
  - apply Permutation_swap.
  - specialize (IH k H). destruct o as [z|]; simpl; [|done].
    rewrite Permutation_swap, IH. apply Permutation_swap.
Qed.

Lemma contents_set t n i x y :
  (1 <= i <= n)%nat -> at_pos t i y ->
  y :: contents_of (<[i:=Some x]> t) n ≡ₚ x :: contents_of t n.
Proof.
  intros [Hi Hn] Hy. unfold contents_of. destruct t as [|o t]; [done|].
  destruct i as [|i]; [lia|]. simpl. rewrite !drop_0.
  rewrite take_insert_lt by lia. apply perm_swap_out.
  rewrite lookup_take_lt by lia. exact Hy.
Qed.

(** Moving the hole keeps the items. *)
Lemma move_hole t n h p v x :
  full t n -> (1 <= h <= n)%nat -> (1 <= p <= n)%nat -> p <> h -> at_pos t p x ->
  contents_of (<[p:=Some v]> (<[h:=Some x]> t)) n ≡ₚ contents_of (<[h:=Some v]> t) n.
Proof.
  intros Hf Hh Hp Hne Hx. destruct Hf as [_ Hf]. destruct (Hf h Hh) as [w Hw].
  pose proof (contents_set t n h x w Hh Hw) as E1.
  pose proof (contents_set t n h v w Hh Hw) as E2.
  pose proof (contents_set (<[h:=Some x]> t) n p v x Hp (proj2 (at_set_ne t h p _ x ltac:(done)) Hx)) as E3.
  apply (Permutation_cons_inv (a:=x)). apply (Permutation_cons_inv (a:=w)).
  rewrite E3. rewrite (Permutation_swap v w), E1.
  rewrite (Permutation_swap x w), E2. apply Permutation_swap.
Qed.

Lemma tab_set_ok t i (o : option T) : (i < length t)%nat -> tab_set t i o = Done (<[i:=o]> t).
Proof. intros H. unfold tab_set. by rewrite (proj2 (Nat.ltb_lt _ _)). Qed.

(** ** The way up *)

(** What both loops keep of the array. *)
Definition settled t t' n v h : Prop :=
  full t' n /\ ordered t' n /\ length t' = length t /\
  contents_of t' n ≡ₚ contents_of (<[h:=Some v]> t) n.

Lemma settle t n h v :
  full t n -> (1 <= h <= n)%nat -> ordered_but h t n -> fits_below h t n v ->
  (forall x, (2 <= h)%nat -> at_pos t (h / 2) x -> ge x v) ->
  tab_set t h (Some v) = Done (<[h:=Some v]> t) /\ settled t (<[h:=Some v]> t) n v h.
Proof.
  intros Hf Hh Ho Hb Hp. split; [apply tab_set_ok; pose proof (full_length _ _ Hf); lia|].
  split; [apply full_set; [lia|done]|]. split; [by apply fill_hole|]. split; [apply length_insert|done].
Qed.

Lemma up_move t n h v x :
  full t n -> (2 <= h <= n)%nat -> at_pos t (h / 2) x -> ge v x ->
  ordered_but h t n -> fits_below h t n v -> bridged h t n ->
  let t' := <[h:=Some x]> t in
  full t' n /\ ordered_but (h / 2) t' n /\ fits_below (h / 2) t' n v /\ bridged (h / 2) t' n.
Proof.
  intros Hf Hh Hx Hv Ho Hb Hbr t'. pose proof (half_neq h ltac:(lia)) as Hp.
  assert (Hchild : forall j y, (2 <= j <= n)%nat -> (j / 2 = h / 2)%nat -> at_pos t' j y -> ge x y).
  { intros j y Hj Hjp Hy. unfold t' in Hy. destruct (decide (j = h)) as [->|Hn].
    - apply at_set_inv in Hy as ->. apply cmp_refl.
    - rewrite at_set_ne in Hy by done. apply (Ho j); try done; [congruence|by rewrite Hjp]. }
  split; [apply full_set; [lia|done]|]. split; [|split].
  - intros j a y Hj Hjh Hjp Ha Hy. unfold t' in *. destruct (decide (j = h)) as [->|Hn]; [done|].
    rewrite at_set_ne in Hy by done. destruct (decide (j / 2 = h)%nat) as [Hc|Hc].
    + rewrite Hc in Ha. apply at_set_inv in Ha as ->. by apply (Hbr j x y); [lia|..].
    + rewrite at_set_ne in Ha by done. by apply (Ho j).
  - intros j y Hj Hjp Hy. transitivity x; [done|by apply (Hchild j)].
  - intros j a y Hh2 Hj Hjp Ha Hy. transitivity x; [|by apply (Hchild j)].
    unfold t' in Ha. pose proof (half_lt h ltac:(lia)). pose proof (half_lt (h / 2) ltac:(lia)). rewrite at_set_ne in Ha by lia.
    apply (Ho (h / 2)%nat); try done; lia.
Qed.

Lemma log2_half h : (2 <= h)%nat -> (Nat.log2 (h / 2) < Nat.log2 h)%nat.
Proof.
  intros H. pose proof (Nat.log2_spec h ltac:(lia)) as [_ Hhi]. apply Nat.log2_lt_pow2.
  - apply Nat.div_str_pos. lia.
  - apply Nat.Div0.div_lt_upper_bound. by rewrite <-Nat.pow_succ_r'.
Qed.

Lemma up_loop_spec n v : forall h t fuel,
  (Nat.log2 h < fuel)%nat -> (1 <= h <= n)%nat ->
  full t n -> ordered_but h t n -> fits_below h t n v -> bridged h t n ->
  exists t', up_loop cmp fuel t (Some v) h = Done t' /\ settled t t' n v h.
Proof.
  intros h. induction (lt_wf h) as [h _ IH]. intros t [|fuel] Hl Hh Hf Ho Hb Hbr; [lia|]. cbn [up_loop].
  destruct (decide (h = 1%nat)) as [->|Hn1].
  { change (1 / 2)%nat with 0%nat. destruct Hf as [H0 Hf]. rewrite H0. simpl.
    destruct (settle t n 1 v) as [E1 E2]; try done; [lia|]. rewrite E1. eauto. }
  assert (H2 : (2 <= h)%nat) by lia.
  assert (Hp : (1 <= h / 2 <= n)%nat).
  { pose proof (half_lt h). pose proof (Nat.div_le_mono 2 h 2). change (2 / 2)%nat with 1%nat in *. lia. }
  destruct (proj2 Hf (h / 2)%nat Hp) as [x Hx]. rewrite Hx.
  cbn [must compare mbind outcome_bind].
  destruct (Z.leb_spec (cmp x v) 0) as [Hc|Hc].
  - rewrite tab_set_ok by (pose proof (full_length _ _ Hf); lia).
    cbn [mbind outcome_bind]. destruct (up_move t n h v x) as (F & O & B & R); try done; [lia|by apply cmp_flip|].
    edestruct (IH (h / 2)%nat ltac:(apply half_lt; lia) (<[h:=Some x]> t) fuel) as (t' & E & S1 & S2 & S3 & S4);
      [|exact Hp|exact F|exact O|exact B|exact R|]; [pose proof (log2_half h); lia|].
    exists t'. split; [done|]. split; [done|]. split; [done|]. split; [by rewrite S3, length_insert|].
    rewrite S4. apply move_hole; try done. apply half_neq. lia.
  - destruct (settle t n h v) as [E1 E2]; try done.
    { intros y _ Hy. rewrite (at_fun _ _ _ _ Hy Hx). unfold ge. lia. }
    rewrite E1. eauto.
Qed.

(** ** The way down *)

Lemma half_double k h : (k / 2)%nat = h <-> (k = 2 * h \/ k = S (2 * h))%nat.
Proof.
  pose proof (Nat.div_mod_eq k 2). pose proof (Nat.mod_upper_bound k 2 ltac:(lia)).
  split; [intros <-; lia|]. intros [->| ->].
  - by rewrite Nat.mul_comm, Nat.div_mul.
  - rewrite <-Nat.add_1_r, Nat.mul_comm, Nat.div_add_l by done. simpl. lia.
Qed.

Lemma at_below t n v i :
  full t n -> at_pos t (S n) v -> (1 <= i <= S n)%nat -> exists x, at_pos t i x.
Proof.
  intros [_ Hf] Hv Hi. destruct (decide (i = S n)) as [->|]; [by exists v|]. apply Hf. lia.
Qed.

Lemma biggest_child_spec t n v h :
  full t n -> at_pos t (S n) v -> (1 <= h)%nat -> (2 * h <= S n)%nat ->
  exists j c, biggest_child cmp (S n) t (2 * h) = Done j /\ (j / 2)%nat = h /\ (j <= S n)%nat /\
    at_pos t j c /\
    forall k y, (2 <= k <= n)%nat -> (k / 2)%nat = h -> at_pos t k y -> ge c y.
Proof.
  intros Hf Hv Hh Hl. unfold biggest_child.
  destruct (at_below t n v (2 * h) Hf Hv ltac:(lia)) as [l Hleft].
  destruct (Nat.ltb_spec (2 * h) (S n)) as [Hlt|Hge].
  - destruct (at_below t n v (S (2 * h)) Hf Hv ltac:(lia)) as [r Hright].
    rewrite Hleft, Hright. cbn [must compare mbind outcome_bind].
    destruct (Z.ltb_spec (cmp l r) 0) as [Hc|Hc].
    + exists (S (2 * h)), r. split; [done|]. split; [apply half_double; by right|].
      split; [lia|]. split; [done|]. intros k y Hk [->| ->]%half_double Hy.
      * rewrite (at_fun _ _ _ _ Hy Hleft). apply cmp_flip. lia.
      * rewrite (at_fun _ _ _ _ Hy Hright). apply cmp_refl.
    + exists (2 * h)%nat, l. split; [done|]. split; [apply half_double; by left|].
      split; [lia|]. split; [done|]. intros k y Hk [->| ->]%half_double Hy.
      * rewrite (at_fun _ _ _ _ Hy Hleft). apply cmp_refl.
      * by rewrite (at_fun _ _ _ _ Hy Hright).
  - exists (2 * h)%nat, l. split; [done|]. split; [apply half_double; by left|].
    split; [done|]. split; [done|]. intros k y Hk Hkh Hy. apply half_double in Hkh. lia.
Qed.

Lemma down_move t n h j v c :
  full t n -> (1 <= h <= n)%nat -> (j / 2)%nat = h -> (j <= n)%nat -> at_pos t j c -> ge c v ->
  (forall k y, (2 <= k <= n)%nat -> (k / 2)%nat = h -> at_pos t k y -> ge c y) ->
  ordered_but h t n -> bridged h t n ->
  let t' := <[h:=Some c]> t in
  full t' n /\ ordered_but j t' n /\ bridged j t' n /\
  (forall x, (2 <= j)%nat -> at_pos t' (j / 2) x -> ge x v).
Proof.
  intros Hf Hh Hj Hjn Hc Hcv Hbig Ho Hbr t'.
  assert (Hjh : (h < j)%nat) by (apply half_double in Hj; lia).
  split; [apply full_set; [lia|done]|]. split; [|split].
  - intros k x y Hk Hkj Hkp Hx Hy. unfold t' in *. destruct (decide (k = h)) as [->|Hn].
    + apply at_set_inv in Hy as ->. rewrite at_set_ne in Hx by (pose proof (half_neq h); lia).
      apply (Hbr j); [lia|lia|done|done|done].
    + rewrite at_set_ne in Hy by done. destruct (decide (k / 2 = h)%nat) as [Hkh|Hkh].
      * rewrite Hkh in Hx. apply at_set_inv in Hx as ->. by apply (Hbig k).
      * rewrite at_set_ne in Hx by done. by apply (Ho k).
  - intros k x y Hj2 Hk Hkj Hx Hy. unfold t' in *. rewrite Hj in Hx.
    apply at_set_inv in Hx as ->. assert (k <> h) by (apply half_double in Hkj; lia).
    rewrite at_set_ne in Hy by done. apply (Ho k); [done|done|lia| |done]. by rewrite Hkj.
  - intros x _ Hx. unfold t' in Hx. rewrite Hj in Hx. by apply at_set_inv in Hx as ->.
Qed.

Lemma down_loop_spec n v : forall fuel h t,
  (S n < h * 2 ^ fuel)%nat -> (1 <= h <= n)%nat -> full t n -> at_pos t (S n) v ->
  ordered_but h t n -> bridged h t n ->
  (forall x, (2 <= h)%nat -> at_pos t (h / 2) x -> ge x v) ->
  exists t', down_loop cmp fuel (S n) t (Some v) h = Done t' /\ settled t t' n v h.
Proof.
  induction fuel as [|fuel IH]; intros h t Hfuel Hh Hf Hv Ho Hbr Hp; [simpl in Hfuel; lia|].
  cbn [down_loop]. destruct (Nat.leb_spec h (S n / 2)) as [Hin|Hout].
  2:{ destruct (settle t n h v) as [E1 E2]; try done; [|by eauto].
      intros k y Hk Hkh. pose proof (Nat.Div0.div_le_mono k (S n) 2). lia. }
  assert (H2 : (2 * h <= S n)%nat).
  { pose proof (Nat.Div0.mul_div_le (S n) 2). lia. }
  destruct (biggest_child_spec t n v h) as (j & c & E & Hj & Hjn & Hc & Hbig); try done; [lia|].
  rewrite E. cbn [mbind outcome_bind]. rewrite Hc. cbn [must compare mbind outcome_bind].
  destruct (Z.leb_spec 0 (cmp v c)) as [Hvc|Hvc].
  { destruct (settle t n h v) as [E1 E2]; try done; [|by eauto].
    intros k y Hk Hkh Hy. transitivity c; [done|by apply (Hbig k)]. }
  assert (Hjn' : (j <= n)%nat).
  { destruct (decide (j = S n)) as [->|]; [|lia]. rewrite (at_fun _ _ _ _ Hc Hv) in Hvc.
    pose proof (cmp_refl v). lia. }
  rewrite tab_set_ok by (pose proof (full_length _ _ Hf); lia). cbn [mbind outcome_bind].
  destruct (down_move t n h j v c) as (F & O & B & P); try done; [apply cmp_flip; lia|].
  assert (Hjh : (2 * h <= j)%nat) by (apply half_double in Hj; lia).
  destruct (IH j (<[h:=Some c]> t)) as (t' & E' & S1 & S2 & S3 & S4); try done.
  - rewrite Nat.pow_succ_r' in Hfuel. nia.
  - lia.
  - apply at_set_ne; [lia|done].
  - exists t'. split; [done|]. split; [done|]. split; [done|]. split; [by rewrite S3, length_insert|].
    rewrite S4. apply move_hole; try done; lia.
Qed.

(** ** The operations *)

(** The invariant of a queue: its array is a heap. *)
Record queue_ok q : Prop := {
  qo_len : (1 <= len q)%nat;
  qo_full : full (tab q) (len q - 1);
  qo_ordered : ordered (tab q) (len q - 1)
}.

Definition contents q : list T := contents_of (tab q) (len q - 1).

Lemma contents_snoc t n x : at_pos t (S n) x -> contents_of t (S n) = contents_of t n ++ [x].
Proof.
  intros Hx. unfold contents_of.
  assert (Hd : drop 1 t !! n = Some (Some x)) by by rewrite lookup_drop.
  rewrite (take_S_r _ _ _ Hd), omap_app. done.
Qed.

Lemma contents_of_ext t t' n :
  (forall i, (1 <= i <= n)%nat -> t !! i = t' !! i) -> contents_of t n = contents_of t' n.
Proof.
  intros H. unfold contents_of. f_equal. apply list_eq. intros i.
  destruct (decide (i < n)%nat) as [Hi|Hi].
  - rewrite !lookup_take_lt, !lookup_drop by done. apply H. lia.
  - by rewrite !lookup_take_ge by lia.
Qed.

Lemma contents_empty q : queue_ok q -> contents q = [] <-> len q = 1%nat.
Proof.
  intros [Hl Hf _]. unfold contents. destruct (len q - 1)%nat as [|n] eqn:E; [split; [lia|done]|].
  split; [|lia]. destruct Hf as [_ Hf]. destruct (Hf (S n)) as [x Hx]; [lia|].
  rewrite (contents_snoc _ _ _ Hx). by intros []%app_eq_nil.
Qed.

Lemma contents_elem t n i x : (1 <= i <= n)%nat -> at_pos t i x -> x ∈ contents_of t n.
Proof.
  intros Hi Hx. unfold contents_of. apply list_elem_of_omap. exists (Some x). split; [|done].
  apply list_elem_of_lookup. exists (i - 1)%nat.
  rewrite lookup_take_lt, lookup_drop by lia. rewrite <-Hx. f_equal. lia.
Qed.

Lemma contents_at t n x : full t n -> x ∈ contents_of t n -> exists i, (1 <= i <= n)%nat /\ at_pos t i x.
Proof.
  intros Hf. unfold contents_of. intros (o & Ho & Hx)%list_elem_of_omap.
  apply list_elem_of_lookup in Ho as [i Hi]. simpl in Hx. subst o.
  destruct (decide (i < n)%nat) as [Hl|Hl]; [|by rewrite lookup_take_ge in Hi by lia].
  rewrite lookup_take_lt, lookup_drop in Hi by done. exists (1 + i)%nat. split; [lia|done].
Qed.

(** The item at the top is the biggest one. *)
Lemma top_biggest t n x : full t n -> ordered t n -> at_pos t 1 x ->
  forall i y, (1 <= i <= n)%nat -> at_pos t i y -> ge x y.
Proof.
  intros Hf Ho Hx i. induction (lt_wf i) as [i _ IH]. intros y Hi Hy.
  destruct (decide (i = 1%nat)) as [->|Hn]; [rewrite (at_fun _ _ _ _ Hx Hy); apply cmp_refl|].
  pose proof (half_lt i ltac:(lia)). assert (1 <= i / 2)%nat by (apply Nat.div_str_pos; lia).
  destruct (proj2 Hf (i / 2)%nat ltac:(lia)) as [z Hz].
  transitivity z; [apply (IH (i / 2)%nat); [lia|lia|done]|]. apply (Ho i); [lia|done|done].
Qed.

Lemma make_bigger_spec q :
  queue_ok q -> exists t, make_bigger junk q 1 = with_tab q t /\ (len q < length t)%nat /\
    forall i, (i < len q)%nat -> t !! i = tab q !! i.
Proof.
  intros Hq. unfold make_bigger. destruct (Nat.leb_spec (len q + 1) (length (tab q))) as [Hl|Hl].
  - exists (tab q). split; [by destruct q|]. split; [lia|done].
  - eexists. split; [done|]. pose proof (full_length _ _ (qo_full _ Hq)). pose proof (qo_len _ Hq).
    rewrite length_app, repeat_length. split; [lia|]. intros i Hi. rewrite lookup_app_l by lia. done.
Qed.

Lemma full_ext t t' n : (forall i, (i <= n)%nat -> t' !! i = t !! i) -> full t n -> full t' n.
Proof.
  intros H [H0 Hf]. split; [rewrite H by lia; done|]. intros i Hi. unfold at_pos. rewrite H by lia.
  by apply Hf.
Qed.

Lemma insert_spec q x :
  queue_ok q ->
  exists q', gw_prioqueue_insert cmp junk q (Some x) = Done q' /\ queue_ok q' /\
    producers q' = producers q /\ contents q' ≡ₚ x :: contents q.
Proof.
  intros Hq. pose proof (qo_len _ Hq) as Hl. unfold gw_prioqueue_insert. cbn [must mbind outcome_bind].
  destruct (make_bigger_spec q Hq) as (t0 & -> & Hlt & Hsame). cbn [with_tab len tab producers].
  rewrite tab_set_ok by done. cbn [mbind outcome_bind]. set (t := <[len q:=Some x]> t0).
  assert (Hx : at_pos t (len q) x) by by apply at_set_eq.
  assert (Ht : forall i, (i <= len q - 1)%nat -> t !! i = tab q !! i).
  { intros i Hi. unfold t. rewrite list_lookup_insert_ne by lia. apply Hsame. lia. }
  assert (Hf : full t (len q)).
  { destruct (full_ext _ t _ Ht (qo_full _ Hq)) as [H0 Hf]. split; [done|]. intros i Hi.
    destruct (decide (i = len q)) as [->|]; [by exists x|]. apply Hf. lia. }
  assert (Hno : forall k, (2 <= k <= len q)%nat -> (k / 2)%nat <> len q)
    by (intros k Hk; pose proof (half_lt k); lia).
  unfold upheap. cbn [with_tab tab len producers]. rewrite Hx. cbn [must mbind outcome_bind].
  destruct (up_loop_spec (len q) x (len q) t (S (Nat.log2 (len q)))) as (t' & -> & S1 & S2 & S3 & S4);
    try done; [lia| | | |].
  - intros j a y Hj Hjl _ Ha Hy. pose proof (half_lt j ltac:(lia)). unfold at_pos in *.
    rewrite Ht in Ha, Hy by lia. apply (qo_ordered _ Hq j a y); [lia|done|done].
  - intros j y Hj Hjh. by destruct (Hno j Hj).
  - intros j a y _ Hj Hjh. by destruct (Hno j Hj).
  - eexists. split; [done|]. cbn [with_tab tab len producers].
    assert (Hlen : (len q + 1 - 1 = len q)%nat) by lia.
    split; [split; cbn [tab len producers]; rewrite ?Hlen; done || lia|]. split; [done|].
    unfold contents. cbn [tab len producers]. rewrite Hlen, S4. unfold t.
    rewrite list_insert_insert_eq. fold t.
    replace (len q) with (S (len q - 1)) at 1 by lia.
    rewrite (contents_snoc _ _ x) by (by replace (S (len q - 1)) with (len q) by lia).
    rewrite <-Permutation_cons_append. apply Permutation_skip.
    rewrite (contents_of_ext t (tab q)); [done|]. intros i Hi. apply Ht. lia.
Qed.

(** An item that was moved to the top sinks to its place. *)
Lemma downheap_spec t n y p :
  full t n -> ordered_but 1 t n -> at_pos t 1 y -> at_pos t (S n) y ->
  exists t', downheap cmp (MkQueue t (S n) p) 1 = Done (MkQueue t' (S n) p) /\
    full t' n /\ ordered t' n /\ contents_of t' n ≡ₚ contents_of t n.
Proof.
  intros Hf Ho Hy Hlast. unfold downheap. cbn [tab len producers]. rewrite Hy. cbn [must mbind outcome_bind].
  destruct (decide (n = 0%nat)) as [->|Hn].
  - change (S (Nat.log2 1)) with 1%nat. cbn [down_loop]. change (1 <=? 1 / 2)%nat with false.
    rewrite tab_set_ok by (by apply lookup_lt_Some in Hy). cbn [mbind outcome_bind].
    eexists. split; [done|]. rewrite list_insert_id by done. split; [done|]. split; [|done].
    intros j a b Hj. lia.
  - destruct (down_loop_spec n y (S (Nat.log2 (S n))) 1 t) as (t' & -> & S1 & S2 & S3 & S4); try done.
    + pose proof (Nat.log2_spec (S n) ltac:(lia)). lia.
    + lia.
    + intros j a b Hh. lia.
    + intros a Hh. lia.
    + exists t'. split; [done|]. split; [done|]. split; [done|]. by rewrite S4, list_insert_id.
Qed.

Lemma take_top_spec q :
  queue_ok q -> (1 < len q)%nat ->
  exists x q', take_top cmp q = Done (Some x, q') /\ tab q !! 1%nat = Some (Some x) /\ queue_ok q' /\
    len q' = (len q - 1)%nat /\
    producers q' = producers q /\ contents q ≡ₚ x :: contents q' /\ Forall (ge x) (contents q).
Proof.
  intros [_ Hf Ho] Hl. pose proof (full_length _ _ Hf) as Htab.
  destruct (len q - 1)%nat as [|n] eqn:En; [lia|].
  destruct (proj2 Hf 1%nat) as [x Hx]; [lia|]. destruct (proj2 Hf (S n)) as [y Hy]; [lia|].
  unfold take_top, contents. rewrite En, Hx, Hy. cbn [must mbind outcome_bind].
  rewrite tab_set_ok by lia. cbn [mbind outcome_bind].
  destruct (downheap_spec (<[1%nat:=Some y]> (tab q)) n y (producers q)) as (t' & -> & S1 & S2 & S3).
  - apply full_set; [lia|]. destruct Hf as [H0 Hf]. split; [done|]. intros i Hi. apply Hf. lia.
  - intros j a b Hj Hj1 Hjp Ha Hb. rewrite at_set_ne in Ha by done.
    rewrite at_set_ne in Hb by done. apply (Ho j); [lia|done|done].
  - apply at_set_eq. lia.
  - destruct (decide (n = 0%nat)) as [->|Hn]; [apply at_set_eq; lia|]. apply at_set_ne; [lia|done].
  - exists x, (MkQueue t' (S n) (producers q)). cbn [mbind outcome_bind tab len producers].
    rewrite Nat.sub_succ, Nat.sub_0_r. split; [done|]. split; [done|].
    split; [by split; cbn [tab len]; rewrite ?Nat.sub_succ, ?Nat.sub_0_r; [lia|..]|].
    split; [done|]. split; [done|]. split.
    + rewrite S3, (contents_snoc _ _ y Hy), <-Permutation_cons_append.
      destruct n as [|n]; [by rewrite (at_fun _ _ _ _ Hx Hy)|]. symmetry. apply contents_set; [lia|done].
    + apply Forall_forall. intros z (i & Hi & Hz)%contents_at; [|done]. by apply (top_biggest (tab q) (S n) x Hf Ho Hx i).
Qed.

Lemma create_spec : exists q, gw_prioqueue_create junk = Done q /\ queue_ok q /\ contents q = [] /\ producers q = 0%Z.
Proof.
  eexists. split; [done|]. split; [|done]. split; cbn; [lia| |intros j x y Hj; lia].
  split; [done|]. intros i Hi. lia.
Qed.

Lemma foreach_spec q :
  queue_ok q ->
  gw_prioqueue_foreach q = Done (imap (fun i x => (Some x, Z.of_nat i)) (contents q)).
Proof.
  intros [Hl Hf _]. unfold gw_prioqueue_foreach, contents.
  enough (H : forall n k, (k + n = len q - 1)%nat ->
    foreach_loop n (tab q) (S k) =
    Done (imap (fun i x => (Some x, Z.of_nat (k + i))) (omap id (take n (drop (S k) (tab q)))))).
  { by rewrite (H (len q - 1)%nat 0%nat). }
  induction n as [|n IH]; intros k Hk; [done|]. cbn [foreach_loop].
  destruct (proj2 Hf (S k)) as [x Hx]; [lia|]. rewrite (drop_S _ _ _ Hx), Hx.
  cbn [must mbind outcome_bind]. rewrite Nat.add_1_r, (IH (S k)) by lia. cbn [mbind outcome_bind].
  simpl. f_equal. f_equal; [f_equal; lia|]. apply imap_ext. intros i y _. simpl. f_equal. lia.
Qed.

(** ** Destruction: every item once, the biggest first *)

Lemma destroy_loop_spec : forall fuel q,
  queue_ok q -> (len q <= fuel)%nat ->
  exists l, destroy_loop cmp fuel q = Done l /\ l ≡ₚ contents q /\ StronglySorted ge l.
Proof.
  induction fuel as [|fuel IH]; intros q Hq Hl; [pose proof (qo_len _ Hq); lia|]. cbn [destroy_loop].
  unfold gw_prioqueue_remove. destruct (Nat.leb_spec (len q) 1) as [H1|H1]; cbn [mbind outcome_bind].
  - exists []. split; [done|]. split; [|constructor]. pose proof (qo_len _ Hq).
    by rewrite (proj2 (contents_empty q Hq)) by lia.
  - destruct (take_top_spec q Hq H1) as (x & q' & -> & _ & Hq' & Hlen & _ & Hp & Hbig).
    cbn [mbind outcome_bind]. destruct (IH q' Hq' ltac:(lia)) as (l & -> & Hl1 & Hl2).
    cbn [mbind outcome_bind]. exists (x :: l). split; [done|].
    split; [by rewrite Hp, Hl1|]. constructor; [done|]. rewrite Hp in Hbig.
    apply Forall_cons in Hbig as [_ Hbig]. by rewrite <-Hl1 in Hbig.
Qed.

(** ** Any sequence of calls *)

Inductive call : Type :=
| Insert (item : option T) | Remove | Get | Consume | Len | Foreach
| AddProducer | RemoveProducer | ProducerCount.

Inductive answer : Type :=
| Nothing | Item (o : option T) | Number (z : Z) | Calls (l : list (option T * Z)) | Waits.

Definition perform (c : call) q : outcome (answer * gw_prioqueue T) :=
  match c with
  | Insert item => q ← gw_prioqueue_insert cmp junk q item; Done (Nothing, q)
  | Remove => '(o, q) ← gw_prioqueue_remove cmp q; Done (Item o, q)
  | Get => o ← gw_prioqueue_get q; Done (Item o, q)
  | Consume => match gw_prioqueue_consume cmp q with
               | None => Done (Waits, q)
               | Some r => '(o, q) ← r; Done (Item o, q)
               end
  | Len => Done (Number (gw_prioqueue_len q), q)
  | Foreach => l ← gw_prioqueue_foreach q; Done (Calls l, q)
  | AddProducer => Done (Nothing, gw_prioqueue_add_producer q)
  | RemoveProducer => q ← gw_prioqueue_remove_producer q; Done (Nothing, q)
  | ProducerCount => Done (Number (gw_prioqueue_producer_count q), q)
  end.

(** The specification: a bag of items and the number of producers.  What is
    removed is an item that is at least as big as every other one; removing
    a producer that is not there and inserting NULL stop the process. *)
Inductive spec : call -> list T -> Z -> outcome (answer * list T * Z) -> Prop :=
| spec_insert x b p : spec (Insert (Some x)) b p (Done (Nothing, x :: b, p))
| spec_insert_null b p : spec (Insert None) b p Panic
| spec_take c x b b' p :
    c = Remove \/ c = Consume -> b ≡ₚ x :: b' -> Forall (ge x) b ->
    spec c b p (Done (Item (Some x), b', p))
| spec_remove_empty p : spec Remove [] p (Done (Item None, [], p))
| spec_consume_empty p : (p <= 0)%Z -> spec Consume [] p (Done (Item None, [], p))
| spec_consume_waits p : (0 < p)%Z -> spec Consume [] p (Done (Waits, [], p))
| spec_get x b p : x ∈ b -> Forall (ge x) b -> spec Get b p (Done (Item (Some x), b, p))
| spec_get_empty p : spec Get [] p (Done (Item None, [], p))
| spec_len b p : spec Len b p (Done (Number (Z.of_nat (length b)), b, p))
| spec_foreach b l p : l ≡ₚ b ->
    spec Foreach b p (Done (Calls (imap (fun i x => (Some x, Z.of_nat i)) l), b, p))
| spec_add b p : spec AddProducer b p (Done (Nothing, b, wrap_long (p + 1)))
| spec_drop b p : (0 < p)%Z -> spec RemoveProducer b p (Done (Nothing, b, p - 1)%Z)
| spec_drop_none b p : (p <= 0)%Z -> spec RemoveProducer b p Panic
| spec_count b p : spec ProducerCount b p (Done (Number p, b, p)).

(** Runs end at the first panic. *)
Fixpoint run (cs : list call) q : outcome (list answer) :=
  match cs with
  | [] => Done []
  | c :: cs => '(a, q) ← perform c q; l ← run cs q; Done (a :: l)
  end.

Inductive spec_run : list call -> list T -> Z -> outcome (list answer) -> Prop :=
| run_nil b p : spec_run [] b p (Done [])
| run_panic c cs b p : spec c b p Panic -> spec_run (c :: cs) b p Panic
| run_cons c cs b p a b' p' r :
    spec c b p (Done (a, b', p')) -> spec_run cs b' p' r ->
    spec_run (c :: cs) b p (l ← r; Done (a :: l)).

(** A queue implements a bag. *)
Definition implements q (b : list T) : Prop := queue_ok q /\ contents q ≡ₚ b.

Lemma implements_nil q : queue_ok q -> len q = 1%nat -> implements q [].
Proof. intros Hq Hl. split; [done|]. by rewrite (proj2 (contents_empty q Hq)). Qed.

Lemma perform_take c q b :
  c = Remove \/ c = Consume -> implements q b -> (1 < len q)%nat ->
  exists o q' b', take_top cmp q = Done (o, q') /\ spec c b (producers q) (Done (Item o, b', producers q')) /\
    implements q' b'.
Proof.
  intros Hc [Hq Hb] Hl. destruct (take_top_spec q Hq Hl) as (x & q' & E & _ & Hq' & _ & Ep & Hp & Hbig).
  exists (Some x), q', (contents q'). rewrite Ep. split; [done|]. split; [|done].
  rewrite Hb in Hp, Hbig. by apply spec_take.
Qed.

Lemma contents_length q : queue_ok q -> Z.of_nat (length (contents q)) = gw_prioqueue_len q.
Proof.
  intros [Hl Hf _]. unfold contents, gw_prioqueue_len.
  enough (H : forall n, (n <= len q - 1)%nat -> length (contents_of (tab q) n) = n) by (rewrite H by lia; lia).
  induction n as [|n IH]; intros Hn; [done|]. destruct (proj2 Hf (S n)) as [x Hx]; [lia|].
  rewrite (contents_snoc _ _ x Hx), length_app, IH by lia. simpl. lia.
Qed.

Lemma perform_refines c q b :
  implements q b ->
  match perform c q with
  | Done (a, q') => exists b', spec c b (producers q) (Done (a, b', producers q')) /\ implements q' b'
  | Panic => spec c b (producers q) Panic
  end.
Proof.
  intros HI. pose proof HI as [Hq Hb]. pose proof (qo_len _ Hq) as Hl.
  assert (Hempty : len q = 1%nat -> b = []).
  { intros H1. apply Permutation_nil_r. by rewrite <-Hb, (proj2 (contents_empty q Hq)). }
  destruct c as [item| | | | | | | |]; cbn [perform].
  - destruct item as [x|]; [|constructor]. destruct (insert_spec q x Hq) as (q' & -> & Hq' & Ep & Hp).
    cbn [mbind outcome_bind]. rewrite Ep. exists (x :: b). split; [constructor|]. split; [done|]. by rewrite Hp, Hb.
  - unfold gw_prioqueue_remove. destruct (Nat.leb_spec (len q) 1) as [H1|H1]; cbn [mbind outcome_bind].
    + rewrite Hempty by lia. exists []. split; [constructor|]. apply implements_nil; [done|lia].
    + destruct (perform_take Remove q b) as (o & q' & b' & -> & H); [by left|done|done|]. by exists b'.
  - unfold gw_prioqueue_get. destruct (Nat.ltb_spec 1 (len q)) as [H1|H1].
    + destruct (take_top_spec q Hq H1) as (x & q' & _ & -> & _ & _ & _ & Hp & Hbig).
      exists b. split; [|done]. rewrite Hb in Hbig. constructor; [|done]. rewrite <-Hb, Hp. left.
    + rewrite Hempty by lia. exists []. split; [constructor|]. apply implements_nil; [done|lia].
  - unfold gw_prioqueue_consume. destruct (Nat.eqb_spec (len q) 1) as [H1|H1]; cbn [andb].
    + rewrite Hempty by done. destruct (Z.ltb_spec 0 (producers q)) as [Hp|Hp]; cbn [mbind outcome_bind].
      * exists []. split; [by constructor|]. by apply implements_nil.
      * rewrite (proj2 (Nat.ltb_ge _ _)) by lia. cbn [mbind outcome_bind]. exists [].
        split; [by constructor|]. by apply implements_nil.
    + rewrite (proj2 (Nat.ltb_lt _ _)) by lia.
      destruct (perform_take Consume q b) as (o & q' & b' & -> & H); [by right|done|lia|]. by exists b'.
  - exists b. split; [|done]. rewrite <-contents_length, Hb by done. constructor.
  - rewrite foreach_spec by done. exists b. split; [|done]. by constructor.
  - exists b. split; [constructor|]. by destruct HI as [[? ? ?] ?].
  - unfold gw_prioqueue_remove_producer, gw_assert. destruct (Z.ltb_spec 0 (producers q)) as [Hp|Hp].
    + exists b. split; [by constructor|]. by destruct HI as [[? ? ?] ?].
    + by constructor.
  - exists b. split; [constructor|done].
Qed.

Lemma run_refines cs : forall q b, implements q b -> spec_run cs b (producers q) (run cs q).
Proof.
  induction cs as [|c cs IH]; intros q b HI; simpl; [constructor|].
  pose proof (perform_refines c q b HI) as H. destruct (perform c q) as [[a q']|].
  - destruct H as (b' & Hs & HI'). by apply (run_cons _ _ _ _ _ b' (producers q')), IH.
  - by constructor.
Qed.

End Facts.

(** ** Claims *)

Section Claims.
Context {T : Type} (cmp : T -> T -> Z) (junk : option T) {CL : CmpLaws cmp}.

(** C16 Whatever the array holds before it is assigned, any sequence of calls
    of a new priority queue has the answers of a bag of items with a counter
    of producers: removing and consuming return an item that is at least as
    big as all others, consuming waits exactly when the bag is empty and a
    producer is left, and only inserting NULL and removing a producer too
    many stop the process. *)
Theorem prioqueue_run_refines (cs : list call) :
  exists q, gw_prioqueue_create junk = Done q /\ spec_run cmp cs [] 0 (run cmp junk cs q).
Proof.
  destruct (create_spec cmp junk) as (q & E & Hq & Hc & Hp). exists q. split; [done|].
  rewrite <-Hp. apply run_refines; [done|]. split; [done|by rewrite Hc].
Qed.

(** Destroying a queue calls the destructor once for every item, the
    biggest item first. *)
Lemma gw_prioqueue_destroy_sorted (q : gw_prioqueue T) (Hq : queue_ok cmp q) :
  exists l, gw_prioqueue_destroy cmp (Some q) true = Done l /\
    l ≡ₚ contents q /\ StronglySorted (ge cmp) l.
Proof. by apply destroy_loop_spec. Qed.

(** The loops of the heap end: inserting an item goes up from the
    position behind the last one, removing goes down with the last item from
    the first position, and neither takes more than [log2 len + 1] tests,
    whatever the bound on their number is beyond that. *)
Lemma heap_loops_end (q : gw_prioqueue T) (fuel : nat) (v : T) (w : option T)
    (Hq : queue_ok cmp q) (Hfuel : (Nat.log2 (len q) < fuel)%nat)
    (Hroom : (len q < length (tab q))%nat) (Hlast : tab q !! (len q - 1)%nat = Some w) :
  (exists t, up_loop cmp fuel (<[len q:=Some v]> (tab q)) (Some v) (len q) = Done t) /\
  ((1 < len q)%nat ->
   exists t, down_loop cmp fuel (len q - 1) (<[1%nat:=w]> (tab q)) w 1 = Done t).
Proof.
  pose proof (qo_len _ _ Hq) as Hl. pose proof (qo_full _ _ Hq) as Hf. pose proof (qo_ordered _ _ Hq) as Ho.
  split.
  - destruct (up_loop_spec cmp (len q) v (len q) (<[len q:=Some v]> (tab q)) fuel) as (t & E & _); eauto.
    + split; [rewrite list_lookup_insert_ne by lia; apply Hf|]. intros i Hi.
      destruct (decide (i = len q)) as [->|]; [exists v; by apply at_set_eq|].
      destruct (proj2 Hf i ltac:(lia)) as [x Hx]. exists x. by apply at_set_ne.
    + intros j a y Hj Hjl _ Ha Hy. pose proof (half_lt j ltac:(lia)).
      rewrite at_set_ne in Ha by lia. rewrite at_set_ne in Hy by lia. apply (Ho j); [lia|done|done].
    + intros j y Hj Hjh. pose proof (half_lt j ltac:(lia)). lia.
    + intros j a y _ Hj Hjh. pose proof (half_lt j ltac:(lia)). lia.
  - intros H1. destruct (len q) as [|[|n]] eqn:E0; [lia|lia|]. cbn [Nat.sub] in *.
    destruct (proj2 Hf (S n) ltac:(lia)) as [y Hy]. unfold at_pos in Hy. rewrite Hy in Hlast. injection Hlast as <-.
    destruct (decide (n = 0%nat)) as [->|Hn].
    { destruct fuel; [lia|]. cbn. rewrite tab_set_ok by (rewrite length_insert; lia). eauto. }
    destruct (down_loop_spec cmp n y fuel 1 (<[1%nat:=Some y]> (tab q))) as (t & E & _); eauto.
    + pose proof (Nat.log2_spec (S n) ltac:(lia)) as [_ Hhi]. rewrite Nat.mul_1_l.
      eapply Nat.lt_le_trans; [exact Hhi|]. apply Nat.pow_le_mono_r; [lia|].
      pose proof (Nat.log2_le_mono (S n) (S (S n))). lia.
    + lia.
    + apply full_set; [lia|]. destruct Hf as [? Hf']. split; [done|]. intros i Hi. apply Hf'. lia.
    + apply at_set_ne; [lia|done].
    + intros j a b Hj Hj1 Hjp Ha Hb. rewrite at_set_ne in Ha by done. rewrite at_set_ne in Hb by done.
      apply (Ho j); [lia|done|done].
    + intros j a b Hh. lia.
    + intros a Hh. lia.
Qed.

End Claims.

(** ** Examples: a queue of integers *)

#[export] Instance difference_laws : CmpLaws Z.sub.
Proof. split; intros; lia. Qed.

Definition three_items : gw_prioqueue Z := MkQueue [None; Some 9%Z; Some 4%Z; Some 7%Z; None] 4 0.

Lemma three_items_ok : queue_ok Z.sub three_items.
Proof.
  split; cbn [three_items len tab]; [lia| |].
  - split; [done|]. intros i Hi. destruct i as [|[|[|[|i]]]]; [lia| | | |lia]; eexists; reflexivity.
  - intros j x y Hj. unfold at_pos, ge.
    destruct j as [|[|[|[|j]]]]; [lia|lia| | |lia]; intros [= <-] [= <-]; lia.
Qed.

Lemma prioqueue_run_refines_witness :
  exists q, gw_prioqueue_create (Some 5%Z) = Done q /\
    run Z.sub (Some 5%Z) [Insert (Some 4%Z); Insert (Some 9%Z); Insert (Some 7%Z); Remove; Len; Get] q
    = Done [Nothing; Nothing; Nothing; Item (Some 9%Z); Number 2; Item (Some 7%Z)] /\
    spec_run Z.sub [Insert (Some 4%Z); Insert (Some 9%Z); Insert (Some 7%Z); Remove; Len; Get] [] 0
      (Done [Nothing; Nothing; Nothing; Item (Some 9%Z); Number 2; Item (Some 7%Z)]).
Proof.
  destruct (prioqueue_run_refines Z.sub (Some 5%Z)
    [Insert (Some 4%Z); Insert (Some 9%Z); Insert (Some 7%Z); Remove; Len; Get]) as (q & H1 & H2).
  exists q. split; [exact H1|]. injection H1 as <-. split; [reflexivity|exact H2].
Defined.

Lemma gw_prioqueue_destroy_sorted_witness :
  exists l, gw_prioqueue_destroy Z.sub (Some three_items) true = Done l /\
    l ≡ₚ [9; 4; 7]%Z /\ StronglySorted (ge Z.sub) l.
Proof. exact (gw_prioqueue_destroy_sorted Z.sub three_items three_items_ok). Defined.

Lemma heap_loops_end_witness :
  (exists t, up_loop Z.sub 3 [None; Some 9; Some 4; Some 7; Some 8]%Z (Some 8%Z) 4 = Done t) /\
  exists t, down_loop Z.sub 3 3 [None; Some 7; Some 4; Some 7; None]%Z (Some 7%Z) 1 = Done t.
Proof.
  destruct (heap_loops_end Z.sub three_items 3 8%Z (Some 7%Z) three_items_ok) as [H1 H2].
  - by apply Nat.ltb_lt.
  - by apply Nat.ltb_lt.
  - reflexivity.
  - split; [exact H1|]. apply H2. by apply Nat.ltb_lt.
Defined.
