(* ===== verification/DbPool.v ===== *)
(** * A pool of database connections (gwlib/dbpool.c)

    Threads borrow connections and give them back; connections that do not
    work any more are replaced.  What the drivers do is [struct db_ops], an
    interface with laws; the state of the database is part of the state of
    the pool.  Every connection in the pool is the pointer that a driver
    returned, which is never NULL.  A call of [gwlist_consume] that waits is
    a result of its own, from which the call goes on later. *)

From S2P Require Import Prelude Gwlib.
Open Scope Z_scope.

Definition wrap_uint (z : Z) : Z := z mod 2 ^ 32.

(** [struct db_ops]; [check] is optional. *)
Class DbOps : Type := {
  dbase : Type;
  handle : Type;
  db_open : dbase -> option handle * dbase;
  db_close : handle -> dbase -> dbase;
  db_check : option (handle -> dbase -> Z * dbase);
}.

(** What the drivers promise: [live] are the connections that are open,
    [broken] tells those that do not answer. *)
Class DbLaws (D : DbOps) : Type := {
  live : dbase -> list handle;
  broken : dbase -> handle -> bool;
  open_law d :
    match db_open d with
    | (Some h, d') => h ∉ live d /\ live d' ≡ₚ h :: live d /\ broken d' h = false /\
        forall x, x ∈ live d -> broken d' x = broken d x
    | (None, d') => live d' ≡ₚ live d /\ forall x, broken d' x = broken d x
    end;
  close_law h d :
    h ∈ live d -> live d ≡ₚ h :: live (db_close h d) /\
    forall x, x <> h -> broken (db_close h d) x = broken d x;
  check_law f h d :
    db_check = Some f -> ((f h d).1 <> 0 <-> broken d h = true) /\
    live (f h d).2 ≡ₚ live d /\ forall x, broken (f h d).2 x = broken d x;
}.

Section DbPool.
Context {L : GwListLib} {D : DbOps}.

Record DBPool : Type := MkPool {
  pool : gwlist handle; max_size : Z; curr_size : Z; db : dbase
}.

Definition with_pool (p : DBPool) (l : gwlist handle) : DBPool := MkPool l (max_size p) (curr_size p) (db p).
Definition with_db (p : DBPool) (d : dbase) : DBPool := MkPool (pool p) (max_size p) (curr_size p) d.

(** [dbpool_conn_destroy], and [curr_size--] behind it. *)
Definition dbpool_conn_destroy (p : DBPool) (h : handle) : DBPool := with_db p (db_close h (db p)).
Definition drop_conn (p : DBPool) (h : handle) : DBPool :=
  let p := dbpool_conn_destroy p h in
  MkPool (pool p) (max_size p) (wrap_uint (curr_size p - 1)) (db p).

Fixpoint increase_loop (count : nat) (opened : Z) (p : DBPool) : Z * DBPool :=
  match count with
  | 0%nat => (opened, p)
  | S count =>
      if curr_size p <? max_size p then
        match db_open (db p) with
        | (Some conn, d) =>
            increase_loop count (opened + 1)
              (MkPool (gwlist_produce (pool p) conn) (max_size p) (wrap_uint (curr_size p + 1)) d)
        | (None, d) => increase_loop count opened (with_db p d)
        end
      else (opened, p)
  end.

Definition dbpool_increase (p : DBPool) (count : Z) : Z * DBPool := increase_loop (Z.to_nat count) 0 p.

Definition dbpool_create (d : dbase) (connections : Z) : DBPool :=
  (dbpool_increase (MkPool gwlist_create connections 0 d) connections).2.

Fixpoint decrease_loop (c : nat) (i : Z) (p : DBPool) : Z * DBPool :=
  match c with
  | 0%nat => (i, p)
  | S c =>
      match gwlist_extract_first (pool p) with
      | (None, l) => (i, with_pool p l)
      | (Some h, l) => decrease_loop c (i + 1) (drop_conn (with_pool p l) h)
      end
  end.

Definition dbpool_decrease (p : DBPool) (c : Z) : Z * DBPool := decrease_loop (Z.to_nat c) 0 p.

Definition dbpool_conn_count (p : DBPool) : Z := gwlist_len (pool p).

(** What the loop of [dbpool_conn_consume] comes to: a connection, or waiting
    for one.  [None] is a loop that has not come to an end. *)
Inductive consumed : Type := Got (h : handle) | Waits.

Fixpoint consume_loop (fuel : nat) (p : DBPool) : option (consumed * DBPool) :=
  match fuel with
  | 0%nat => None
  | S fuel =>
      match gwlist_extract_first (pool p) with
      | (None, l) => Some (Waits, with_pool p l)
      | (Some h, l) =>
          let p := with_pool p l in
          match db_check with
          | None => Some (Got h, p)
          | Some check =>
              let '(r, d) := check h (db p) in
              let p := with_db p d in
              if negb (r =? 0) then consume_loop fuel (dbpool_increase (drop_conn p h) 1).2
              else Some (Got h, p)
          end
      end
  end.

Definition dbpool_conn_consume (fuel : nat) (p : DBPool) : outcome (option (consumed * DBPool)) :=
  if curr_size p <? 1 then Panic else Done (consume_loop fuel p).

Definition dbpool_conn_produce (p : DBPool) (h : handle) : DBPool := with_pool p (gwlist_produce (pool p) h).

(** The loop of [dbpool_check]; [rest] is [len - i]. *)
Fixpoint check_loop (check : handle -> dbase -> Z * dbase) (rest : nat) (i n reinit : Z) (p : DBPool)
    : outcome (Z * Z * DBPool) :=
  match rest with
  | 0%nat => Done (n, reinit, p)
  | S rest =>
      h ← must (gwlist_get (pool p) i);
      let '(r, d) := check h (db p) in
      let p := with_db p d in
      if negb (r =? 0) then
        check_loop check rest i n (reinit + 1) (drop_conn (with_pool p (gwlist_delete (pool p) i 1)) h)
      else check_loop check rest (i + 1) (n + 1) reinit p
  end.

Definition dbpool_check (p : DBPool) : outcome (Z * DBPool) :=
  match db_check with
  | None => Done (gwlist_len (pool p), p)
  | Some check =>
      '(n, reinit, p) ← check_loop check (Z.to_nat (gwlist_len (pool p))) 0 0 0 p;
      if 0 <? reinit then
        let '(opened, p) := dbpool_increase p reinit in
        Done (n + opened, p)
      else Done (n, p)
  end.

Fixpoint destroy_conns (l : list handle) (d : dbase) : dbase :=
  match l with [] => d | h :: l => destroy_conns l (db_close h d) end.

(** [dbpool_destroy]: what becomes of the database. *)
Definition dbpool_destroy (p : DBPool) : dbase := destroy_conns (items (pool p)) (db p).

End DbPool.
