(* ===== verification/DbPoolFacts.v ===== *)
(** * Theorems about the pool of database connections

    No connection is lost, closed twice or given to two threads, and a thread
    that asks for one gets the first that works. *)

From S2P Require Import Prelude Gwlib DbPool.
Open Scope Z_scope.

Section Facts.
Context {L : GwListLib} {LL : GwListLaws L} {D : DbOps} {DL : DbLaws D}.
Implicit Types (p : DBPool) (h : handle) (lent : list handle).

(** ** The invariant *)

(** The open connections are those in the pool and those that were lent, each
    of them once, and [curr_size] counts them. *)
Record pool_ok p lent : Prop := {
  po_live : live (db p) ≡ₚ items (pool p) ++ lent;
  po_nodup : NoDup (live (db p));
  po_size : curr_size p = Z.of_nat (length (items (pool p) ++ lent));
  po_max : curr_size p <= max_size p < 2 ^ 32
}.

Lemma pool_ok_db p lent d :
  pool_ok p lent -> live d ≡ₚ live (db p) -> pool_ok (with_db p d) lent.
Proof. intros [H1 H2 H3 H4] E. split; simpl; try done; by rewrite E. Qed.

(** A connection leaves the pool. *)
Lemma pool_ok_lend p lent h l :
  pool_ok p lent -> items (pool p) ≡ₚ h :: items l -> pool_ok (with_pool p l) (h :: lent).
Proof.
  intros [H1 H2 H3 H4] E. split; simpl; try done.
  - rewrite H1, E. by rewrite <-Permutation_middle.
  - rewrite H3, E. rewrite !length_app. simpl. lia.
Qed.

(** A connection that was lent is closed. *)
Lemma pool_ok_drop p lent h : pool_ok p (h :: lent) -> pool_ok (drop_conn p h) lent.
Proof.
  intros [H1 H2 H3 H4]. assert (Hin : h ∈ live (db p)) by (rewrite H1; set_solver).
  destruct (close_law h (db p) Hin) as [Hc _]. rewrite Hc in H1, H2. apply NoDup_cons in H2 as [_ H2].
  rewrite <-Permutation_middle in H1. apply (inj (cons h)) in H1.
  rewrite length_app in H3. simpl in H3. split; simpl; try done.
  - unfold wrap_uint. rewrite Z.mod_small by lia. rewrite length_app. lia.
  - unfold wrap_uint. rewrite Z.mod_small by lia. lia.
Qed.

Lemma pool_ok_return p lent h : pool_ok p (h :: lent) -> pool_ok (dbpool_conn_produce p h) lent.
Proof.
  intros [H1 H2 H3 H4]. split; simpl; rewrite ?items_produce; try done.
  - rewrite H1. solve_Permutation.
  - rewrite H3, !length_app. simpl. lia.
Qed.

(** A connection is opened. *)
Lemma pool_ok_open p lent h d :
  pool_ok p lent -> curr_size p < max_size p -> db_open (db p) = (Some h, d) ->
  pool_ok (MkPool (gwlist_produce (pool p) h) (max_size p) (wrap_uint (curr_size p + 1)) d) lent.
Proof.
  intros [H1 H2 H3 H4] Hlt Eo. pose proof (open_law (db p)) as Ho. rewrite Eo in Ho.
  destruct Ho as (Hn & Hl & _). rewrite length_app in H3.
  assert (Hw : wrap_uint (curr_size p + 1) = curr_size p + 1) by (unfold wrap_uint; rewrite Z.mod_small; lia).
  split; simpl; rewrite ?items_produce, ?Hw.
  - rewrite Hl, H1. solve_Permutation.
  - rewrite Hl. by apply NoDup_cons.
  - rewrite !length_app. simpl. lia.
  - lia.
Qed.

(** ** The operations *)

(** What opening some connections leads to: [fresh] are at the end of the
    pool and work, the others are what they were. *)
Definition grown p p' (fresh : list handle) : Prop :=
  items (pool p') = items (pool p) ++ fresh /\ max_size p' = max_size p /\
  Forall (fun h => broken (db p') h = false) fresh /\
  forall x, x ∈ live (db p) -> x ∈ live (db p') /\ broken (db p') x = broken (db p) x.

Lemma grown_none p : grown p p [].
Proof. unfold grown. rewrite app_nil_r. auto using Forall_nil. Qed.

Lemma increase_loop_spec count : forall opened p lent,
  pool_ok p lent ->
  exists fresh p', increase_loop count opened p = (opened + Z.of_nat (length fresh), p') /\
    pool_ok p' lent /\ grown p p' fresh /\ (length fresh <= count)%nat.
Proof.
  induction count as [|count IH]; intros opened p lent H; simpl.
  { exists [], p. rewrite Z.add_0_r. auto using grown_none. }
  destruct (Z.ltb_spec (curr_size p) (max_size p)) as [Hlt|Hge].
  2:{ exists [], p. rewrite Z.add_0_r. split; [done|]. split; [done|]. split; [apply grown_none|simpl; lia]. }
  destruct (db_open (db p)) as [[h|] d] eqn:Eo; pose proof (open_law (db p)) as Ho; rewrite Eo in Ho.
  - pose proof (pool_ok_open p lent h d H Hlt Eo) as H1. destruct Ho as (Hn & Hl & Hb & Hx).
    destruct (IH (opened + 1) _ lent H1) as (fresh & p' & E & H' & (G1 & G2 & G3 & G4) & Hc).
    cbn [pool db max_size] in *. exists (h :: fresh), p'. split; [rewrite E; f_equal; simpl; lia|].
    split; [done|]. split; [|simpl; lia]. rewrite items_produce, <-app_assoc in G1.
    split; [done|]. split; [done|]. split.
    + constructor; [|done]. rewrite <-Hb. apply G4. rewrite Hl. set_solver.
    + intros x Hx'. assert (Hx2 : x ∈ live d) by (rewrite Hl; set_solver).
      destruct (G4 x Hx2) as [? E2]. split; [done|]. by rewrite E2, Hx.
  - destruct Ho as [Hl Hx]. destruct (IH opened (with_db p d) lent) as (fresh & p' & E & H' & (G1 & G2 & G3 & G4) & Hc).
    { by apply pool_ok_db. }
    exists fresh, p'. split; [done|]. split; [done|]. split; [|lia]. split; [done|]. split; [done|]. split; [done|].
    intros x Hx'. destruct (G4 x) as [? E2]; [simpl; by rewrite Hl|]. split; [done|]. rewrite E2. apply Hx.
Qed.

Lemma dbpool_increase_spec p lent count :
  pool_ok p lent -> 0 <= count ->
  exists fresh p', dbpool_increase p count = (Z.of_nat (length fresh), p') /\ pool_ok p' lent /\
    grown p p' fresh /\ Z.of_nat (length fresh) <= count.
Proof.
  intros H Hc. destruct (increase_loop_spec (Z.to_nat count) 0 p lent H) as (fresh & p' & E & H1 & H2 & H3).
  exists fresh, p'. split; [done|]. split; [done|]. split; [done|lia].
Qed.

Lemma extract_first_spec p :
  match gwlist_extract_first (pool p) with
  | (Some h, l) => items (pool p) = h :: items l
  | (None, l) => items (pool p) = [] /\ items l = []
  end.
Proof.
  pose proof (gwlist_extract_first_fst _ (pool p)) as H1. pose proof (gwlist_extract_first_snd _ (pool p)) as H2.
  destruct (gwlist_extract_first (pool p)) as [o l]; simpl in *. rewrite H1, H2.
  by destruct (items (pool p)).
Qed.

Lemma pool_ok_emptied p lent l :
  pool_ok p lent -> items (pool p) = [] -> items l = [] -> pool_ok (with_pool p l) lent.
Proof. intros [H1 H2 H3 H4] E1 E2. rewrite E1 in *. split; simpl; rewrite ?E2; done. Qed.

Lemma decrease_loop_ok c : forall i p lent, pool_ok p lent -> pool_ok (decrease_loop c i p).2 lent.
Proof.
  induction c as [|c IH]; intros i p lent H; simpl; [done|]. pose proof (extract_first_spec p) as He.
  destruct (gwlist_extract_first (pool p)) as [[h|] l].
  - apply IH, pool_ok_drop, pool_ok_lend; [done|by rewrite He].
  - destruct He. by apply pool_ok_emptied.
Qed.

(** ** A connection for a thread *)

(** The connections that the pool does not give away. *)
Definition unfit (d : dbase) (h : handle) : bool :=
  match db_check with Some _ => broken d h | None => false end.

(** What is left of a list when those at its front that are unfit are gone. *)
Fixpoint fit_from (f : handle -> bool) (l : list handle) : list handle :=
  match l with [] => [] | h :: l' => if f h then fit_from f l' else l end.

(** And those that are gone. *)
Fixpoint unfit_front (f : handle -> bool) (l : list handle) : list handle :=
  match l with [] => [] | h :: l' => if f h then h :: unfit_front f l' else [] end.

Lemma unfit_front_ext f g l : (forall x, x ∈ l -> f x = g x) -> unfit_front f l = unfit_front g l.
Proof.
  induction l as [|h l IH]; intros H; simpl; [done|]. rewrite <-(H h), <-IH by set_solver. done.
Qed.

(** The database after a connection was checked, if the driver can. *)
Definition checked (h : handle) (d : dbase) : dbase :=
  match db_check with Some check => (check h d).2 | None => d end.

(** Connections are replaced: each is checked and closed, and the database
    asked for another one once.  The new connections, and the database. *)
Fixpoint replaced (bad : list handle) (d : dbase) : list handle * dbase :=
  match bad with
  | [] => ([], d)
  | h :: bad =>
      let o := db_open (db_close h (checked h d)) in
      let r := replaced bad o.2 in
      (option_list o.1 ++ r.1, r.2)
  end.

Lemma fit_from_ext f g l : (forall x, x ∈ l -> f x = g x) -> fit_from f l = fit_from g l.
Proof.
  induction l as [|h l IH]; intros H; simpl; [done|]. rewrite <-(H h), <-IH by set_solver. done.
Qed.

(** A broken connection is closed and another one opened in its place, if
    the database gives one. *)
Lemma replace_spec p lent h :
  pool_ok p (h :: lent) ->
  let o := db_open (db_close h (db p)) in
  exists p', (dbpool_increase (drop_conn p h) 1).2 = p' /\ pool_ok p' lent /\
    items (pool p') = items (pool p) ++ option_list o.1 /\ db p' = o.2 /\
    Forall (fun x => broken (db p') x = false) (option_list o.1) /\
    forall x, x ∈ items (pool p) -> broken (db p') x = broken (db p) x.
Proof.
  intros H o. pose proof (pool_ok_drop p lent h H) as H1.
  destruct (dbpool_increase_spec _ lent 1 H1) as (fresh & p' & E & H' & (G1 & _ & G3 & G4) & Hn); [lia|].
  assert (Hlt : curr_size (drop_conn p h) < max_size (drop_conn p h)).
  { destruct H as [_ _ H3 H4]. rewrite length_app in H3. simpl in *. unfold wrap_uint. rewrite Z.mod_small by lia. lia. }
  assert (Ho : items (pool p') = items (pool p) ++ option_list o.1 /\ db p' = o.2).
  { unfold dbpool_increase in E. change (Z.to_nat 1) with 1%nat in E. cbn [increase_loop] in E.
    rewrite (proj2 (Z.ltb_lt _ _) Hlt) in E. change (db (drop_conn p h)) with (db_close h (db p)) in E. fold o in E.
    destruct o as [[x|] d]; injection E as _ <-; simpl; [by rewrite items_produce|by rewrite app_nil_r]. }
  destruct Ho as [Ei Ed]. exists p'. rewrite E. split; [done|]. split; [done|]. split; [done|]. split; [done|].
  split. { cbn [drop_conn] in G1. change (pool (drop_conn p h)) with (pool p) in G1. rewrite G1 in Ei. by apply (inj _) in Ei as <-. }
  intros x Hx. destruct (G4 x) as [_ ->].
  - destruct H1 as [-> _ _ _]. simpl. set_solver.
  - destruct H as [Hl Hnd _ _]. rewrite Hl in Hnd.
    assert (Hin : h ∈ live (db p)) by (rewrite Hl; set_solver).
    apply (close_law h (db p) Hin). intros ->. apply NoDup_app in Hnd as (_ & Hd & _).
    apply (Hd h Hx). set_solver.
Qed.

(** What a thread is left with: the first of [l], or waiting. *)
Definition consumed_ok (lent l : list handle) (r : consumed) p' : Prop :=
  match r, l with
  | Got h, h' :: l' => h = h' /\ items (pool p') = l' /\ unfit (db p') h = false /\ pool_ok p' (h :: lent)
  | Waits, [] => items (pool p') = [] /\ pool_ok p' lent
  | _, _ => False
  end.

(** The connection that the thread is given was checked last. *)
Definition last_checked (r : consumed) (d : dbase) : dbase :=
  match r with Got h => checked h d | Waits => d end.

Lemma consume_loop_spec fuel : forall p lent old fresh,
  pool_ok p lent -> items (pool p) = old ++ fresh ->
  Forall (fun h => broken (db p) h = false) fresh -> (length old < fuel)%nat ->
  let new := replaced (unfit_front (unfit (db p)) old) (db p) in
  exists r p', consume_loop fuel p = Some (r, p') /\
    consumed_ok lent (fit_from (unfit (db p)) old ++ fresh ++ new.1) r p' /\ db p' = last_checked r new.2.
Proof.
  induction fuel as [|fuel IH]; intros p lent old fresh H Ei Hf Hlen; [lia|]. simpl.
  pose proof (extract_first_spec p) as He. destruct (gwlist_extract_first (pool p)) as [[h|] l].
  2:{ destruct He as [E1 E2]. rewrite E1 in Ei. symmetry in Ei. apply app_eq_nil in Ei as [-> ->].
      exists Waits, (with_pool p l). split; [done|]. split; [|done]. split; [done|]. by apply pool_ok_emptied. }
  assert (H1 : pool_ok (with_pool p l) (h :: lent)) by (apply pool_ok_lend; [done|by rewrite He]).
  assert (Hgot : live (checked h (db p)) ≡ₚ live (db p) -> unfit (checked h (db p)) h = false -> unfit (db p) h = false ->
    exists r p', Some (Got h, with_db (with_pool p l) (checked h (db p))) = Some (r, p') /\
    consumed_ok lent (fit_from (unfit (db p)) old ++ fresh ++ (replaced (unfit_front (unfit (db p)) old) (db p)).1) r p' /\
    db p' = last_checked r (replaced (unfit_front (unfit (db p)) old) (db p)).2).
  { intros Hd Hu Hu'. exists (Got h), (with_db (with_pool p l) (checked h (db p))). split; [done|].
    assert (E : fit_from (unfit (db p)) old = old /\ unfit_front (unfit (db p)) old = []).
    { destruct old as [|h0 old]; [done|]. rewrite He in Ei. injection Ei as -> _. simpl. by rewrite Hu'. }
    destruct E as [-> ->]. simpl. rewrite app_nil_r, <-Ei, He. split; [|done]. split; [done|]. split; [done|]. split; [done|].
    by apply pool_ok_db. }
  unfold checked in Hgot. destruct db_check as [check|] eqn:Ec.
  2:{ apply Hgot; [done|unfold unfit; by rewrite Ec..]. }
  assert (Hu : forall d x, unfit d x = broken d x) by (intros; unfold unfit; by rewrite Ec).
  destruct (check_law check h (db p) Ec) as (Hb & Hl & Hx). simpl.
  destruct (check h (db p)) as [r d] eqn:Eck. simpl in Hb, Hl, Hx, Hgot.
  destruct (Z.eqb_spec r 0) as [Hr|Hr]; simpl.
  { apply Hgot; [done|rewrite Hu, Hx|rewrite Hu]; destruct (broken (db p) h); tauto. }
  clear Hgot. apply Hb in Hr. destruct old as [|h0 old].
  { simpl in Ei. rewrite <-Ei, He in Hf. apply Forall_cons in Hf as [Hf _]. congruence. }
  rewrite He in Ei. injection Ei as -> Ei. simpl in Hlen.
  destruct (replace_spec (with_db (with_pool p l) d) lent h0) as (p2 & -> & Hp2 & Ei2 & Ed2 & Hf2 & Hx2).
  { by apply pool_ok_db. }
  simpl in Ei2, Ed2, Hf2, Hx2. rewrite Ei in Ei2, Hx2.
  assert (Hsame : forall x, x ∈ old ++ fresh -> broken (db p2) x = broken (db p) x).
  { intros x Hin. rewrite Hx2, Hx; done. }
  destruct (IH p2 lent old (fresh ++ option_list (db_open (db_close h0 d)).1)) as (r' & p' & E & Hc & Hd); [done|by rewrite app_assoc| |lia|].
  { apply Forall_app. split; [|done]. rewrite Forall_forall in Hf |- *. intros x Hin.
    rewrite Hsame; [auto|]. set_solver. }
  assert (Hsame' : forall x, x ∈ old -> unfit (db p2) x = unfit (db p) x).
  { intros x Hin. rewrite !Hu, Hsame; [done|set_solver]. }
  rewrite (fit_from_ext _ _ _ Hsame'), (unfit_front_ext _ _ _ Hsame') in Hc. rewrite (unfit_front_ext _ _ _ Hsame') in Hd.
  exists r', p'. split; [done|]. simpl. rewrite (Hu (db p) h0), Hr. cbn [replaced fst snd]. unfold checked. rewrite Ec, Eck.
  cbn [snd]. rewrite Ed2 in Hc, Hd. by rewrite !app_assoc in *.
Qed.

Lemma consume_loop_ok fuel : forall p lent r p',
  pool_ok p lent -> consume_loop fuel p = Some (r, p') ->
  pool_ok p' (match r with Got h => h :: lent | Waits => lent end).
Proof.
  induction fuel as [|fuel IH]; intros p lent r p' H E; [done|]. simpl in E.
  pose proof (extract_first_spec p) as He. destruct (gwlist_extract_first (pool p)) as [[h|] l].
  2:{ injection E as <- <-. destruct He. by apply pool_ok_emptied. }
  assert (H1 : pool_ok (with_pool p l) (h :: lent)) by (apply pool_ok_lend; [done|by rewrite He]).
  destruct db_check as [check|] eqn:Ec; [|by injection E as <- <-].
  destruct (check_law check h (db p) Ec) as (_ & Hl & _). simpl in E.
  destruct (check h (db p)) as [z d]. apply (pool_ok_db _ _ d) in H1; [|done].
  destruct (negb _); [|by injection E as <- <-].
  destruct (replace_spec _ lent h H1) as (p2 & E2 & Hp2 & _). rewrite E2 in E. eauto.
Qed.

(** ** Checking the pool *)

Lemma pool_ok_taken p lent i h :
  pool_ok p lent -> items (pool p) !! i = Some h ->
  pool_ok (with_pool p (gwlist_delete (pool p) (Z.of_nat i) 1)) (h :: lent).
Proof.
  intros H Ei. apply pool_ok_lend; [done|]. rewrite (items_delete _ _ i 1).
  rewrite <-(take_drop_middle _ _ _ Ei) at 1. rewrite Nat.add_1_r. by rewrite Permutation_middle.
Qed.

Lemma delete_middle (l : gwlist handle) front h back :
  items l = front ++ h :: back -> items (gwlist_delete l (Z.of_nat (length front)) 1) = front ++ back.
Proof.
  intros E. rewrite (items_delete _ _ (length front) 1), E, take_app_length.
  by rewrite drop_app_ge, Nat.add_comm, Nat.add_sub by lia.
Qed.

Definition working (d : dbase) (l : list handle) : list handle := List.filter (fun h => negb (unfit d h)) l.

Lemma working_ext d d' l : (forall x, x ∈ l -> broken d x = broken d' x) -> working d l = working d' l.
Proof.
  intros H. unfold working, unfit. apply List.filter_ext_in. intros x Hx%list_elem_of_In.
  destruct db_check; [|done]. by rewrite H.
Qed.

Lemma check_loop_spec check todo : db_check = Some check -> forall p lent front n reinit,
  pool_ok p lent -> items (pool p) = front ++ todo ->
  exists p', check_loop check (length todo) (Z.of_nat (length front)) n reinit p
      = Done (n + Z.of_nat (length (working (db p) todo)),
              reinit + Z.of_nat (length todo) - Z.of_nat (length (working (db p) todo)), p') /\
    pool_ok p' lent /\ items (pool p') = front ++ working (db p) todo /\
    forall x, x ∈ items (pool p') -> broken (db p') x = broken (db p) x.
Proof.
  intros Ec. induction todo as [|h todo IH]; intros p lent front n reinit H Ei; simpl.
  { exists p. split; [do 3 f_equal; lia|]. done. }
  assert (Eh : items (pool p) !! length front = Some h) by by rewrite Ei, list_lookup_middle.
  rewrite gwlist_get_spec, Eh. cbn [must mbind outcome_bind].
  destruct (check_law check h (db p) Ec) as (Hb & Hl & Hx).
  destruct (check h (db p)) as [r d] eqn:Eck. simpl in Hb, Hl, Hx.
  assert (Hu : unfit (db p) h = negb (r =? 0)).
  { unfold unfit. rewrite Ec. destruct (Z.eqb_spec r 0), (broken (db p) h); simpl; try done; tauto. }
  rewrite Hu. destruct (negb (r =? 0)) eqn:Er; simpl.
  - pose proof (pool_ok_taken p lent _ h H Eh) as H1. apply (pool_ok_db _ _ d) in H1; [|done].
    pose proof (pool_ok_drop _ _ _ H1) as H2. pose proof (delete_middle _ _ _ _ Ei) as Ed.
    destruct (IH _ lent front n (reinit + 1) H2 Ed) as (p' & E & Hp' & Ei' & Hx').
    assert (Hsame : forall x, x ∈ front ++ todo -> broken (db_close h d) x = broken (db p) x).
    { intros x Hin. rewrite <-Hx. destruct H1 as [Hl1 Hnd _ _]. simpl in *. rewrite Hl1, Ed in Hnd.
      apply (close_law h d); [rewrite Hl1; set_solver|]. intros ->.
      apply NoDup_app in Hnd as (_ & Hd & _). apply (Hd h Hin). set_solver. }
    assert (Ew : working (db_close h d) todo = working (db p) todo).
    { apply working_ext. intros x Hin. apply Hsame. set_solver. }
    simpl in E, Ei', Hx'. rewrite Ew in *. exists p'. split; [|split; [done|]; split; [done|]].
    + etransitivity; [exact E|]. do 3 f_equal; lia.
    + intros x Hin. rewrite Hx' by done. apply Hsame. rewrite Ei' in Hin.
      apply elem_of_app in Hin as [?|Hin]; [set_solver|]. apply elem_of_app. right.
      apply list_elem_of_In, filter_In in Hin as [Hin _]. by apply list_elem_of_In.
  - apply (pool_ok_db _ _ d) in H; [|done].
    destruct (IH _ lent (front ++ [h]) (n + 1) reinit H) as (p' & E & Hp' & Ei' & Hx'); [by rewrite <-app_assoc|].
    rewrite length_app, Nat2Z.inj_add in E. simpl in E, Ei', Hx'.
    rewrite (working_ext d (db p)) in E, Ei' by done. rewrite <-app_assoc in Ei'.
    exists p'. split; [|split; [done|]; split; [done|]].
    + etransitivity; [exact E|]. do 3 f_equal; lia.
    + intros x Hin. by rewrite Hx', Hx.
Qed.

Lemma working_fit d l : Forall (fun h => unfit d h = false) (working d l).
Proof. apply Forall_forall. intros x [_ ?%negb_true_iff]%list_elem_of_In%filter_In. done. Qed.

Lemma dbpool_check_spec p lent :
  pool_ok p lent ->
  exists fresh p', dbpool_check p = Done (dbpool_conn_count p', p') /\ pool_ok p' lent /\
    items (pool p') = working (db p) (items (pool p)) ++ fresh /\
    Forall (fun h => unfit (db p') h = false) (items (pool p')).
Proof.
  intros H. unfold dbpool_check, dbpool_conn_count. destruct db_check as [check|] eqn:Ec.
  2:{ assert (Hu : forall d h, unfit d h = false) by (intros; unfold unfit; by rewrite Ec).
      exists [], p. rewrite app_nil_r. split_and!; [done..| |].
      - unfold working. rewrite forallb_filter_id; [done|]. apply forallb_forall. intros. by rewrite Hu.
      - apply Forall_forall. auto. }
  destruct (check_loop_spec check (items (pool p)) Ec p lent [] 0 0 H eq_refl) as (p1 & E & H1 & Ei & Hx).
  rewrite gwlist_len_spec, Nat2Z.id. simpl in Ei. rewrite !Z.add_0_l in E.
  change (Z.of_nat (length [])) with 0 in E. rewrite E. cbn [mbind outcome_bind].
  assert (Hw : Forall (fun h => unfit (db p1) h = false) (items (pool p1))).
  { rewrite Ei. pose proof (working_fit (db p) (items (pool p))) as Hf. rewrite Forall_forall in Hf |- *.
    intros x Hin. rewrite <-(Hf x Hin). unfold unfit. destruct db_check; [|done]. apply Hx. by rewrite Ei. }
  destruct (Z.ltb_spec 0 (Z.of_nat (length (items (pool p))) - Z.of_nat (length (working (db p) (items (pool p)))))) as [Hr|Hr].
  2:{ exists [], p1. rewrite gwlist_len_spec, app_nil_r, Ei. rewrite Ei in Hw. split_and!; done. }
  destruct (dbpool_increase_spec p1 lent _ H1 (Z.lt_le_incl _ _ Hr)) as (fresh & p2 & -> & H2 & (G1 & _ & G3 & G4) & _).
  exists fresh, p2. rewrite gwlist_len_spec, G1, length_app, Nat2Z.inj_add, Ei. split; [done|]. split; [done|].
  split; [done|]. rewrite <-Ei. apply Forall_app. split.
  - rewrite Forall_forall in Hw |- *. intros x Hin. rewrite <-(Hw x Hin). unfold unfit. destruct db_check; [|done].
    apply G4. destruct H1 as [-> _ _ _]. set_solver.
  - eapply Forall_impl; [exact G3|]. intros x Hb. unfold unfit. by destruct db_check.
Qed.

(** ** Threads that share the pool *)

(** The pool, the connections that threads have borrowed, and how many
    threads wait in [gwlist_consume]. *)
Record pool_system : Type := MkSystem { ps_pool : DBPool; ps_lent : list handle; ps_waiting : nat }.

Definition after (r : consumed) (lent : list handle) (w : nat) (p : DBPool) : pool_system :=
  match r with Got h => MkSystem p (h :: lent) w | Waits => MkSystem p lent (S w) end.

(** The calls, one at a time, in any order.  A thread that waits goes on with
    the loop it was in; a thread that has borrowed a connection uses it, which
    may break connections but opens and closes none. *)
Inductive pool_step : pool_system -> pool_system -> Prop :=
| step_increase p lent w count :
    0 <= count -> pool_step (MkSystem p lent w) (MkSystem (dbpool_increase p count).2 lent w)
| step_decrease p lent w c :
    pool_step (MkSystem p lent w) (MkSystem (dbpool_decrease p c).2 lent w)
| step_consume p lent w fuel r p' :
    dbpool_conn_consume fuel p = Done (Some (r, p')) ->
    pool_step (MkSystem p lent w) (after r lent w p')
| step_resume p lent w fuel r p' :
    consume_loop fuel p = Some (r, p') ->
    pool_step (MkSystem p lent (S w)) (after r lent w p')
| step_produce p lent lent' w h :
    lent ≡ₚ h :: lent' ->
    pool_step (MkSystem p lent w) (MkSystem (dbpool_conn_produce p h) lent' w)
| step_check p lent w n p' :
    dbpool_check p = Done (n, p') -> pool_step (MkSystem p lent w) (MkSystem p' lent w)
| step_use p lent w d :
    live d ≡ₚ live (db p) -> pool_step (MkSystem p lent w) (MkSystem (with_db p d) lent w).

#[export] Instance pool_ok_proper p : Proper ((≡ₚ) ==> iff) (pool_ok p).
Proof.
  assert (forall l1 l2, l1 ≡ₚ l2 -> pool_ok p l1 -> pool_ok p l2) as Himp.
  { intros l1 l2 E [H1 H2 H3 H4]. split; rewrite <-?E; done. }
  intros l1 l2 E. split; by apply Himp.
Qed.

Definition system_ok (s : pool_system) : Prop := pool_ok (ps_pool s) (ps_lent s).

Lemma after_ok r lent w p :
  pool_ok p (match r with Got h => h :: lent | Waits => lent end) -> system_ok (after r lent w p).
Proof. by destruct r. Qed.

Lemma pool_step_ok s s' : pool_step s s' -> system_ok s -> system_ok s'.
Proof.
  unfold system_ok. destruct 1 as [p lent w count Hc|p lent w c|p lent w fuel r p' E|p lent w fuel r p' E
    |p lent lent' w h E|p lent w n p' E|p lent w d E]; simpl; intros H.
  - destruct (dbpool_increase_spec p lent count H Hc) as (? & ? & -> & ? & _). done.
  - by apply decrease_loop_ok.
  - unfold dbpool_conn_consume in E. destruct (curr_size p <? 1); [done|]. injection E as E.
    by apply after_ok, (consume_loop_ok fuel p).
  - by apply after_ok, (consume_loop_ok fuel p).
  - apply pool_ok_return. by rewrite <-E.
  - destruct (dbpool_check_spec p lent H) as (? & ? & E' & ? & _). rewrite E' in E. by injection E as _ <-.
  - by apply pool_ok_db.
Qed.

Lemma dbpool_create_ok d n : live d = [] -> 0 <= n < 2 ^ 32 -> pool_ok (dbpool_create d n) [].
Proof.
  intros Hd Hn. assert (H : pool_ok (MkPool gwlist_create n 0 d) []).
  { split; simpl; rewrite ?items_create, ?Hd; simpl; first [done|lia|constructor]. }
  unfold dbpool_create. destruct (dbpool_increase_spec _ _ n H) as (? & ? & -> & ? & _); [lia|done].
Qed.

Lemma destroy_conns_live l : forall d lent,
  live d ≡ₚ l ++ lent -> NoDup (live d) -> live (destroy_conns l d) ≡ₚ lent.
Proof.
  induction l as [|h l IH]; intros d lent Hl Hnd; simpl; [done|].
  destruct (close_law h d) as [Hc _]; [rewrite Hl; set_solver|].
  rewrite Hc in Hl, Hnd. apply (inj (cons h)) in Hl. apply NoDup_cons in Hnd as [_ Hnd]. by apply IH.
Qed.

(** C25 Whatever calls the threads make on a pool that was created from
    nothing, in whatever order, and however connections break meanwhile: every
    connection that is open is either in the pool or lent to one thread, none
    of them twice; [curr_size] is their number and never above [max_size]; a
    check of the pool ends and returns how many connections it leaves there;
    destroying the pool closes all but those that are lent. *)
Theorem dbpool_calls_conserve d n s :
  live d = [] -> 0 <= n < 2 ^ 32 -> rtc pool_step (MkSystem (dbpool_create d n) [] 0) s ->
  live (db (ps_pool s)) ≡ₚ items (pool (ps_pool s)) ++ ps_lent s /\ NoDup (live (db (ps_pool s))) /\
  curr_size (ps_pool s) = Z.of_nat (length (live (db (ps_pool s)))) /\
  curr_size (ps_pool s) <= max_size (ps_pool s) /\
  (exists p', dbpool_check (ps_pool s) = Done (dbpool_conn_count p', p')) /\
  live (dbpool_destroy (ps_pool s)) ≡ₚ ps_lent s.
Proof.
  intros Hd Hn Hs. assert (H : system_ok s).
  { refine (rtc_ind_l (fun s0 => system_ok s0 -> system_ok s) s _ _ _ Hs _); eauto using pool_step_ok.
    by apply dbpool_create_ok. }
  destruct (dbpool_check_spec _ _ H) as (fresh & p' & E & _). destruct H as [H1 H2 H3 H4].
  split_and!; [done|done|by rewrite H1|lia|by exists p'|]. by apply destroy_conns_live.
Qed.

(** C26 A thread that asks for a connection while there are any: with fuel for
    one turn more than the pool holds connections the loop ends.  The
    connections at the front of the pool that do not work are checked, closed
    and replaced, one after the other: for each of them the database is asked
    for one connection, which goes to the end of the pool.  The thread is given
    the first connection that is then in the pool, which works, and waits only
    when none is there. *)
Theorem dbpool_conn_consume_spec p lent fuel :
  pool_ok p lent -> 1 <= curr_size p -> (length (items (pool p)) < fuel)%nat ->
  let left := fit_from (unfit (db p)) (items (pool p)) in
  let new := replaced (unfit_front (unfit (db p)) (items (pool p))) (db p) in
  exists r p', dbpool_conn_consume fuel p = Done (Some (r, p')) /\
    consumed_ok lent (left ++ new.1) r p' /\ db p' = last_checked r new.2.
Proof.
  intros H Hc Hf left new.
  destruct (consume_loop_spec fuel p lent (items (pool p)) [] H) as (r & p' & E & Hr); [by rewrite app_nil_r|constructor|done|].
  exists r, p'. unfold dbpool_conn_consume. destruct (Z.ltb_spec (curr_size p) 1); [lia|].
  rewrite E. done.
Qed.

End Facts.
