(* ===== verification/DbPoolExamples.v ===== *)
(** * The pool of database connections on concrete inputs

    A database that numbers its connections, and the theorems about the pool
    at work on it. *)

From S2P Require Import Prelude Gwlib DbPool DbPoolFacts.
Open Scope Z_scope.

(** ** A database *)

(** The connections that are open, the numbers of those that do not answer,
    and whether the server turns new ones away. *)
Record toy_db : Type := MkToy { toy_open : list Z; toy_down : list Z; toy_full : bool }.

Definition fresh_number (l : list Z) : Z := foldr Z.max 0 l + 1.

Fixpoint remove_one (h : Z) (l : list Z) : list Z :=
  match l with [] => [] | x :: l => if x =? h then l else x :: remove_one h l end.

#[export] Instance toy_ops : DbOps := {|
  dbase := toy_db;
  handle := Z;
  db_open d :=
    if toy_full d then (None, d)
    else let h := fresh_number (toy_open d ++ toy_down d) in
         (Some h, MkToy (h :: toy_open d) (toy_down d) false);
  db_close h d := MkToy (remove_one h (toy_open d)) (toy_down d) (toy_full d);
  db_check := Some (fun h d => (if bool_decide (h ∈ toy_down d) then -1 else 0, d));
|}.

Lemma fresh_number_above l x : x ∈ l -> x < fresh_number l.
Proof.
  unfold fresh_number. induction l as [|y l IH]; simpl; [by intros ?%elem_of_nil|].
  intros [->|Hx]%elem_of_cons; [lia|]. specialize (IH Hx). lia.
Qed.

Lemma fresh_number_new l : fresh_number l ∉ l.
Proof. intros H%fresh_number_above. lia. Qed.

Lemma remove_one_perm h l : h ∈ l -> l ≡ₚ h :: remove_one h l.
Proof.
  induction l as [|x l IH]; simpl; [by intros ?%elem_of_nil|].
  destruct (Z.eqb_spec x h) as [->|]; [done|]. intros [?|H]%elem_of_cons; [congruence|].
  rewrite Permutation_swap. by rewrite <-IH.
Qed.

#[export, refine] Instance toy_laws : DbLaws toy_ops := {|
  live := toy_open;
  broken d h := bool_decide (h ∈ toy_down d);
|}.
Proof.
  - intros d. simpl. destruct (toy_full d); [done|]. pose proof (fresh_number_new (toy_open d ++ toy_down d)) as Hn.
    apply not_elem_of_app in Hn as [Ho Hd]. split; [done|]. split; [done|]. split; [|done].
    by apply bool_decide_eq_false.
  - intros h d Hin. split; [|done]. by apply remove_one_perm.
  - intros f h d [= <-]. simpl. split; [|done]. by destruct (bool_decide _).
Defined.

(** ** At work *)

Definition toy : toy_db := MkToy [] [] false.
Definition pool2 : DBPool := dbpool_create toy 2.

(** Connection 1 is lost by the server. *)
Definition pool2_down : DBPool := with_db pool2 (MkToy (toy_open (db pool2)) [1] false).

Example consumes_the_second :
  match dbpool_conn_consume 3 pool2_down with
  | Done (Some (Got h, p)) => (h, items (pool p), curr_size p) = (2, [3], 2)
  | _ => False
  end.
Proof. reflexivity. Qed.

(** When the server is gone as well, the thread waits. *)
Example waits_for_ever :
  match dbpool_conn_consume 3 (with_db pool2 (MkToy [1; 2] [1; 2] true)) with
  | Done (Some (Waits, p)) => (items (pool p), curr_size p) = ([], 0)
  | _ => False
  end.
Proof. reflexivity. Qed.

Example check_replaces : forall n p, dbpool_check pool2_down = Done (n, p) -> (n, items (pool p)) = (2, [2; 3]).
Proof. intros n p [= <- <-]. reflexivity. Qed.

Lemma pool2_ok : pool_ok pool2 [].
Proof. apply dbpool_create_ok; [reflexivity|lia]. Qed.

Lemma pool2_down_ok : pool_ok pool2_down [].
Proof. apply pool_ok_db; [apply pool2_ok|reflexivity]. Qed.

Lemma dbpool_conn_consume_spec_witness :
  replaced (unfit_front (unfit (db pool2_down)) (items (pool pool2_down))) (db pool2_down) = ([3], MkToy [3; 2] [1] false) /\
  exists r p', dbpool_conn_consume 3 pool2_down = Done (Some (r, p')) /\
    consumed_ok [] (fit_from (unfit (db pool2_down)) (items (pool pool2_down)) ++ [3]) r p' /\
    db p' = last_checked r (MkToy [3; 2] [1] false).
Proof.
  split; [vm_compute; reflexivity|].
  exact (dbpool_conn_consume_spec pool2_down [] 3 pool2_down_ok
    ltac:(vm_compute; discriminate) ltac:(simpl; lia)).
Defined.

(** A thread borrows a connection; that one breaks, is given back, and goes
    when the pool is checked. *)
Definition lent1 : DBPool := with_pool pool2 [2].
Definition lent1_down : DBPool := with_db lent1 (MkToy [2; 1] [1] false).
Definition back1 : DBPool := dbpool_conn_produce lent1_down 1.

Lemma toy_run :
  rtc pool_step (MkSystem pool2 [] 0) (MkSystem back1 [] 0).
Proof.
  eapply rtc_l; [apply (step_consume pool2 [] 0 3 (Got (1 : @handle toy_ops)) lent1); reflexivity|].
  eapply rtc_l; [apply (step_use lent1 [1] 0 (MkToy [2; 1] [1] false)); reflexivity|].
  eapply rtc_l; [by apply (step_produce lent1_down [1] [] 0 1)|]. apply rtc_refl.
Qed.

Lemma dbpool_calls_conserve_witness :
  live (db back1) ≡ₚ items (pool back1) ++ [] /\ NoDup (live (db back1)) /\
  curr_size back1 = Z.of_nat (length (live (db back1))) /\ curr_size back1 <= max_size back1 /\
  (exists p', dbpool_check back1 = Done (dbpool_conn_count p', p')) /\ live (dbpool_destroy back1) ≡ₚ [].
Proof. exact (dbpool_calls_conserve toy 2 (MkSystem back1 [] 0) eq_refl ltac:(lia) toy_run). Defined.
