(* ===== verification/Cfg.v ===== *)
(** * Configuration files (gwlib/cfg.c)

    A configuration is read from a file, with the files that it includes, into
    groups of variables: a group that may be there once, or a list of groups
    of the same name.  The operations on strings beyond [Gwlib] and the file
    system are interfaces; the dictionaries are any [KeyedStore].  The lists
    [allowed_hooks] and [single_hooks], globals of the file, are a record. *)

From S2P Require Import Prelude Gwlib Dict.
Open Scope Z_scope.

(** ** What the code uses of the libraries *)

Class CfgStrings (O : OctstrLib) (L : GwListLib) : Type := {
  octstr_strip_blanks : octstr -> octstr;
  octstr_split : octstr -> octstr -> gwlist octstr;
  octstr_split_words : octstr -> gwlist octstr;
  octstr_search : octstr -> octstr -> Z -> Z;
  octstr_append_char : octstr -> Z -> octstr;
  octstr_case_compare : octstr -> octstr -> Z;
}.

(** Files: their contents, whether a name is that of a directory ([None] for
    a name that [lstat] does not find), and the names in a directory. *)
Class Files (O : OctstrLib) : Type := {
  octstr_read_file : octstr -> option octstr;
  lstat_isdir : octstr -> option bool;
  readdir : octstr -> option (list octstr);
}.

Definition isspace (c : Z) : bool := (c =? 32) || ((9 <=? c) && (c <=? 13)).

Fixpoint lstrip (l : list Z) : list Z :=
  match l with c :: l' => if isspace c then lstrip l' else l | [] => [] end.

Definition strip (l : list Z) : list Z := reverse (lstrip (reverse (lstrip l))).

(** Documented behaviour. *)
Class CfgStringsLaws {O : OctstrLib} {L : GwListLib} (C : CfgStrings O L) : Prop := {
  octstr_strip_blanks_spec o : octets (octstr_strip_blanks o) = strip (octets o);
  octstr_split_proper a b s :
    octets a = octets b -> octets <$> items (octstr_split a s) = octets <$> items (octstr_split b s);
  octstr_search_spec o p :
    octstr_search o p 0 = -1 <-> ~ exists l1 l2, octets o = l1 ++ octets p ++ l2;
  octstr_case_compare_proper a b s : octets a = octets b -> octstr_case_compare a s = octstr_case_compare b s;
  octstr_append_char_spec o c : 0 <= c < 256 -> octets (octstr_append_char o c) = octets o ++ [c];
}.

Class FilesLaws {O : OctstrLib} (F : Files O) : Prop := {
  read_file_proper a b : octets a = octets b -> octets <$> octstr_read_file a = octets <$> octstr_read_file b;
  isdir_proper a b : octets a = octets b -> lstat_isdir a = lstat_isdir b;
  readdir_proper a b :
    octets a = octets b -> List.map octets <$> readdir a = List.map octets <$> readdir b;
}.

Section Cfg.
Context {O : OctstrLib} {L : GwListLib} {C : CfgStrings O L} {PL : ParseLib O}
  {F : Files O} {SV : KeyedStore O L octstr}.

(** ** Groups *)

Record CfgGroup : Type := MkGroup {
  grp_name : option octstr; vars : store (KeyedStore := SV); configfile : option octstr; grp_line : Z
}.

Context {SG : KeyedStore O L CfgGroup} {SM : KeyedStore O L (gwlist CfgGroup)}.

Definition create_group : CfgGroup := MkGroup None (store_create 64) None 0.

Definition set_group_name (grp : CfgGroup) (name : octstr) : CfgGroup :=
  MkGroup (Some (octstr_duplicate name)) (vars grp) (configfile grp) (grp_line grp).

Definition set_configfile (grp : CfgGroup) (file : octstr) : CfgGroup :=
  MkGroup (grp_name grp) (vars grp) (Some (octstr_duplicate file)) (grp_line grp).

Record Cfg : Type := MkCfg {
  filename : octstr;
  single_groups : store (KeyedStore := SG);
  multi_groups : store (KeyedStore := SM)
}.

Record Hooks : Type := MkHooks {
  allowed_hooks : list (octstr -> octstr -> Z); single_hooks : list (octstr -> Z)
}.

(** ** The definition of the groups *)

(** The entries of [cfg.def]. *)
Inductive def_entry : Type :=
| SINGLE_GROUP (name : String.string) (fields : list String.string)
| MULTI_GROUP (name : String.string) (fields : list String.string).

Definition def_name (e : def_entry) : String.string :=
  match e with SINGLE_GROUP name _ | MULTI_GROUP name _ => name end.

Definition def_fields (e : def_entry) : list String.string :=
  match e with SINGLE_GROUP _ fields | MULTI_GROUP _ fields => fields end.

Definition is_imm (s : String.string) (o : octstr) : bool := octstr_same (octstr_imm s) o.

Fixpoint core_is_allowed_in_group (def : list def_entry) (group variable : octstr) : Z :=
  match def with
  | [] => 0
  | e :: def =>
      if is_imm (def_name e) group then
        if is_imm "group"%string variable then 1
        else if existsb (fun f => is_imm f variable) (def_fields e) then 1 else 0
      else core_is_allowed_in_group def group variable
  end.

Fixpoint core_is_single_group (def : list def_entry) (query : octstr) : Z :=
  match def with
  | [] => 0
  | e :: def =>
      if is_imm (def_name e) query then
        match e with SINGLE_GROUP _ _ => 1 | MULTI_GROUP _ _ => 0 end
      else core_is_single_group def query
  end.

Definition add_up (l : list Z) : Z := foldl (fun r x => wrap_int (r + x)) 0 l.

Definition is_allowed_in_group (h : Hooks) (group variable : octstr) : bool :=
  0 <? add_up ((fun hook => hook group variable) <$> allowed_hooks h).

Definition is_single_group (h : Hooks) (query : octstr) : bool :=
  0 <? add_up ((fun hook => hook query) <$> single_hooks h).

Definition cfg_add_hooks (h : Hooks) (allowed : octstr -> octstr -> Z) (single : octstr -> Z) : Hooks :=
  MkHooks (allowed_hooks h ++ [allowed]) (single_hooks h ++ [single]).

(** The configuration and what becomes of the lists of hooks. *)
Definition cfg_create (def : list def_entry) (file : octstr) : Cfg * Hooks :=
  (MkCfg (octstr_duplicate file) (store_create 64) (store_create 64),
   MkHooks [core_is_allowed_in_group def] [core_is_single_group def]).

(** ** Variables *)

Definition cfg_get (h : Hooks) (grp : option CfgGroup) (varname : octstr) : outcome (option octstr) :=
  grp ← must grp;
  if match grp_name grp with Some name => negb (is_allowed_in_group h name varname) | None => false end
  then Panic
  else os ← store_get (KeyedStore := SV) (vars grp) varname; Done (option_map octstr_duplicate os).

(** The result and the variable [*n]. *)
Definition cfg_get_integer (h : Hooks) (n : Z) (grp : option CfgGroup) (varname : octstr) : outcome (Z * Z) :=
  os ← cfg_get h grp varname;
  Done (match os with
        | None => (-1, n)
        | Some os => let '(r, n) := octstr_parse_long os 0 0 n in (if r =? -1 then -1 else 0, n)
        end).

Definition is_word (os : octstr) (words : list String.string) : bool :=
  existsb (fun w => octstr_case_compare os (octstr_imm w) =? 0) words.

Definition cfg_get_bool (h : Hooks) (grp : option CfgGroup) (varname : octstr) : outcome (Z * Z) :=
  os ← cfg_get h grp varname;
  Done (match os with
        | None => (-1, 0)
        | Some os =>
            if is_word os ["true"; "yes"; "on"; "1"]%string then (0, 1)
            else if is_word os ["false"; "no"; "off"; "0"]%string then (0, 0)
            else (0, 1)
        end).

(** How the callers use them: a variable by its name, and a number with a
    default. *)
Definition cfg_var (h : Hooks) (grp : CfgGroup) (name : String.string) : outcome (option octstr) :=
  cfg_get h (Some grp) (octstr_imm name).

Definition cfg_integer_or (h : Hooks) (grp : CfgGroup) (name : String.string) (default : Z) : outcome Z :=
  rn ← cfg_get_integer h 0 (Some grp) (octstr_imm name);
  Done (if rn.1 =? -1 then default else rn.2).

Definition cfg_get_list (h : Hooks) (grp : option CfgGroup) (varname : octstr) : outcome (option (gwlist octstr)) :=
  os ← cfg_get h grp varname; Done (option_map octstr_split_words os).

Definition cfg_get_group_name (grp : CfgGroup) : option octstr := option_map octstr_duplicate (grp_name grp).

Definition cfg_set (grp : CfgGroup) (varname value : octstr) : outcome CfgGroup :=
  vs ← store_put (vars grp) varname (octstr_duplicate value);
  Done (MkGroup (grp_name grp) vs (configfile grp) (grp_line grp)).

Definition cfg_get_single_group (cfg : Cfg) (name : octstr) : outcome (option CfgGroup) :=
  store_get (single_groups cfg) name.

Definition cfg_get_multi_group (cfg : Cfg) (name : octstr) : outcome (option (gwlist CfgGroup)) :=
  list ← store_get (multi_groups cfg) name;
  Done (option_map (fun l => foldl gwlist_append gwlist_create (items l)) list).

(** ** A group that is complete *)

(** Appending to the list that the dictionary holds is putting it back. *)
Definition add_group (h : Hooks) (cfg : Cfg) (grp : CfgGroup) : outcome (Z * Cfg) :=
  groupname ← cfg_get h (Some grp) (octstr_imm "group"%string);
  match groupname with
  | None => Done (-1, cfg)
  | Some groupname =>
      let grp := set_group_name grp groupname in
      if forallb (is_allowed_in_group h groupname) (items (store_keys (vars grp))) then
        if is_single_group h groupname then
          s ← store_put (single_groups cfg) groupname grp;
          Done (0, MkCfg (filename cfg) s (multi_groups cfg))
        else
          list ← store_get (multi_groups cfg) groupname;
          m ← store_put (multi_groups cfg) groupname (gwlist_append (default gwlist_create list) grp);
          Done (0, MkCfg (filename cfg) (single_groups cfg) m)
      else Done (-1, cfg)
  end.

(** ** Values *)

(** The loop of [parse_value]; every turn takes an octet of [temp]. *)
Fixpoint parse_loop (fuel : nat) (temp value : octstr) : octstr :=
  match fuel with
  | 0%nat => value
  | S fuel =>
      if octstr_len temp <=? 0 then value
      else
        let c := octstr_get_char temp 0 in
        let temp := octstr_delete temp 0 1 in
        if negb (c =? 92) || (octstr_len temp =? 0) then parse_loop fuel temp (octstr_append_char value c)
        else
          let c := octstr_get_char temp 0 in
          let temp := octstr_delete temp 0 1 in
          if (c =? 92) || (c =? 34) then parse_loop fuel temp (octstr_append_char value c)
          else parse_loop fuel temp (octstr_append_char (octstr_append_char value 92) c)
  end.

Definition parse_value (value : octstr) : octstr :=
  let value := octstr_strip_blanks value in
  let len := octstr_len value in
  if negb (octstr_get_char value 0 =? 34) || negb (octstr_get_char value (len - 1) =? 34) then value
  else
    let value := octstr_delete value (len - 1) 1 in
    let value := octstr_delete value 0 1 in
    let temp := octstr_duplicate value in
    parse_loop (Z.to_nat (octstr_len temp)) temp (octstr_truncate value 0).

(** ** Lines *)

Record CfgLoc : Type := MkLoc { loc_file : octstr; line_no : Z; line : octstr }.

Definition cfgloc_create (file : octstr) (no : Z) (l : octstr) : CfgLoc := MkLoc (octstr_duplicate file) no l.

Definition put_loc (forward : bool) (expand : gwlist CfgLoc) (loc : CfgLoc) : gwlist CfgLoc :=
  if forward then gwlist_append expand loc else gwlist_insert expand 0 loc.

Definition put_pending (forward : bool) (expand : gwlist CfgLoc) (loc : option CfgLoc) : gwlist CfgLoc :=
  from_option (put_loc forward expand) expand loc.

Definition last_char (l : octstr) : Z := octstr_get_char l (octstr_len l - 1).
Definition append_line (loc : CfgLoc) (l : octstr) : CfgLoc :=
  MkLoc (loc_file loc) (line_no loc) (octstr_append (line loc) l).

(** The loop of [expand_file].  A line that goes on is put in the list when it
    is complete; the code puts it there first, at the same place, and goes on
    appending to it. *)
Fixpoint expand_loop (file : octstr) (forward : bool) (lines : list octstr) (lineno : Z)
    (loc : option CfgLoc) (expand : gwlist CfgLoc) : Z * gwlist CfgLoc :=
  match lines with
  | [] => (lineno, put_pending forward expand loc)
  | l :: lines =>
      let lineno := if loc then lineno else lineno + 1 in
      let loc := default (cfgloc_create file lineno (octstr_create [])) loc in
      if last_char l =? 92 then
        let l := octstr_delete l (octstr_len l - 1) 1 in
        let loc := append_line loc l in
        if last_char l =? 92 then expand_loop file forward lines lineno None (put_loc forward expand loc)
        else expand_loop file forward lines lineno (Some loc) expand
      else expand_loop file forward lines lineno None (put_loc forward expand (append_line loc l))
  end.

Definition expand_file (file : octstr) (forward : bool) : option (gwlist CfgLoc) :=
  os ← octstr_read_file file;
  let lines := octstr_split os (octstr_create [10]) in
  let '(lineno, expand) := expand_loop file forward (items lines) 0 None gwlist_create in
  Some (if 0 <? lineno then put_loc forward expand (cfgloc_create file lineno (octstr_create [10])) else expand).

(** ** Reading *)

Record Reader : Type := MkReader {
  lines : gwlist CfgLoc; stack : gwlist octstr; grp : option CfgGroup; error_lineno : Z; cfg : Cfg
}.

Definition set_lines (r : Reader) (l : gwlist CfgLoc) (s : gwlist octstr) : Reader :=
  MkReader l s (grp r) (error_lineno r) (cfg r).
Definition set_grp (r : Reader) (g : option CfgGroup) : Reader :=
  MkReader (lines r) (stack r) g (error_lineno r) (cfg r).
Definition set_error_line (r : Reader) (e : Z) : Reader :=
  MkReader (lines r) (stack r) (grp r) e (cfg r).

(** Close the group that is being read; [error] is the number of the line for
    a group that is not accepted. *)
Definition close_group (h : Hooks) (r : Reader) (error : Z) : outcome Reader :=
  match grp r with
  | None => Done r
  | Some g =>
      '(ret, c) ← add_group h (cfg r) g;
      Done (MkReader (lines r) (stack r) None (if ret =? -1 then error else error_lineno r) c)
  end.

(** The files of a directory; [st] is what the last call of [lstat] that did
    not fail has left in [filestat]. *)
Fixpoint dir_files (dir : octstr) (st : bool) (names : list octstr) (files : gwlist octstr) : gwlist octstr :=
  match names with
  | [] => files
  | n :: names =>
      let f := octstr_append (octstr_append (octstr_duplicate dir) (octstr_create [47])) n in
      let st := default st (lstat_isdir f) in
      dir_files dir st names (if st then files else gwlist_insert files 0 f)
  end.

(** The files that a directive names.  When [lstat] fails, [filestat] is not
    initialised, and opening what is not there ends the process either way. *)
Definition included_files (name : octstr) : outcome (gwlist octstr) :=
  st ← must (lstat_isdir name);
  if (st : bool) then
    names ← must (readdir name); Done (dir_files name st names gwlist_create)
  else Done (gwlist_insert gwlist_create 0 (octstr_duplicate name)).

Definition push_front {A} (l : gwlist A) (x : A) : gwlist A := gwlist_insert l 0 x.

Fixpoint include_files (files : list octstr) (r : Reader) : outcome Reader :=
  match files with
  | [] => Done r
  | file :: files =>
      expand ← must (expand_file file false);
      include_files files
        (set_lines r (foldl push_front (lines r) (items expand)) (push_front (stack r) (octstr_duplicate file)))
  end.

Definition include (r : Reader) (name : octstr) : outcome Reader :=
  match gwlist_search (stack r) (fun x => octstr_same x name) with
  | Some _ => Panic
  | None => files ← included_files name; include_files (items files) r
  end.

Definition assign (r : Reader) (name value : octstr) : outcome Reader :=
  let g := default create_group (grp r) in
  g ← cfg_set (set_configfile g (filename (cfg r))) name value;
  Done (set_grp r (Some g)).

Definition read_line (h : Hooks) (r : Reader) (loc : CfgLoc) : outcome Reader :=
  let l := octstr_strip_blanks (line loc) in
  if octstr_len l =? 0 then
    r ← close_group h r (line_no loc); Done (set_grp r None)
  else if negb (octstr_get_char l 0 =? 35) then
    let equals := octstr_search_char l 61 0 in
    if equals =? -1 then Done (set_error_line r (line_no loc))
    else
      let value := parse_value (octstr_copy l (equals + 1) (octstr_len l)) in
      if negb (octstr_search l (octstr_imm "include"%string) 0 =? -1) then include r value
      else assign r (octstr_strip_blanks (octstr_copy l 0 equals)) value
  else Done r.

(** The loop of [cfg_read]; [None] when it has not come to its end. *)
Fixpoint read_loop (fuel : nat) (h : Hooks) (r : Reader) : outcome (option Reader) :=
  match fuel with
  | 0%nat => Done None
  | S fuel =>
      if error_lineno r =? 0 then
        match gwlist_extract_first (lines r) with
        | (None, ls) => Done (Some (set_lines r ls (stack r)))
        | (Some loc, ls) => r ← read_line h (set_lines r ls (stack r)) loc; read_loop fuel h r
        end
      else Done (Some r)
  end.

Definition cfg_read (fuel : nat) (h : Hooks) (c : Cfg) : outcome (option (Z * Cfg)) :=
  ls ← must (expand_file (filename c) true);
  res ← read_loop fuel h (MkReader ls (push_front gwlist_create (octstr_duplicate (filename c))) None 0 c);
  match res with
  | None => Done None
  | Some r =>
      r ← close_group h r 1;
      Done (Some (if error_lineno r =? 0 then 0 else -1, cfg r))
  end.

End Cfg.
