(* ===== verification/CfgDef.v ===== *)
(** * The groups of the configuration files (gwlib/cfg.def)

    The groups that the processes know, with their variables, in the order of
    the file. *)

From S2P Require Import Prelude Gwlib Dict Cfg.

Definition cfg_def : list def_entry := [
  SINGLE_GROUP "core" [
    "dndcheck_flag"; "admin-port"; "admin-password"; "esme-file-path"; "dlr-storage";
    "log-file"; "log-level"; "trans-mode-port"; "recv-mode-port"; "transrecv-mode-port";
    "connect-allow-ip"; "connect-deny-ip"; "global-allow-prefix"; "global-deny-prefix";
    "admin-interface"; "admin-password"; "status-password"; "admin-allow-ip";
    "admin-deny-ip"; "gsm-series"; "cdma-series"; "int-series"; "default-series";
    "access-log"; "dbbox-host"; "dbbox-port"; "dbbox-reconnect-delay"; "smsc-host";
    "smsc-forward-port"; "smsc-reverse-port"; "dbdata-port"; "smsc-reconnect-delay";
    "dbbox-unconnect-q-limit"; "smsc-unconnect-q-limit"; "dbbox-ping-delay";
    "dbbox-pingack-timeout"; "dbbox-client-timeout"; "smsc-ping-delay";
    "smsc-pingack-timeout"; "smsc-client-timeout"; "log-file-size"; "log-interval";
    "access-log"; "access-log-time"; "access-log-format"; "access-log-clean"];
  SINGLE_GROUP "SMPP-Client" [
    "admin-port"; "admin-interface"; "admin-password"; "status-password";
    "admin-deny-ip"; "admin-allow-ip"; "msg-retry-limit"; "sys-info-resend-freq";
    "msg-resend-freq"; "compare-esm-smscid"; "msg-failed-log"; "max-msg-duration";
    "global-q-min"; "global-q-max"];
  MULTI_GROUP "smpp-client" [
    "mode"; "account-name"; "password"; "validfrom"; "validto"; "enquire-link-interval";
    "log-file"; "log-level"; "account-allow-prefix"; "account-deny-prefix";
    "preferred-smsc"; "dedicated-smsc"; "rx-allowed"; "max-submits-unconnect";
    "max-submits"; "max-tps"; "dnd-check"; "rx-log-file"; "max-tx-sessions";
    "max-rx-sessions"; "valid_time_from"; "valid_time_to"];
  MULTI_GROUP "smsc" [
    "smsc"; "smsc-id"; "smsc-type"; "allowed-prefix"; "denied-prefix"; "log-file";
    "log-level"; "our-host"; "alt-dcs"; "alt-charset"; "host"; "port"; "smsc-username";
    "smsc-password"; "validityperiod"; "our-port"; "receive-port"; "connect-allow-ip";
    "system-id"; "system-type"; "address-range"; "wait-ack"; "wait-ack-expire";
    "source-addr-ton"; "source-addr-npi"; "dest-addr-ton"; "dest-addr-npi";
    "bind-addr-ton"; "bind-addr-npi"; "service-type"; "source-addr-autodetect";
    "enquire-link-interval"; "max-pending-submits"; "reconnect-delay";
    "transceiver-mode"; "interface-version"; "priority"; "msg-id-type";
    "connection-timeout"; "allowed-prefix-regex"; "denied-prefix-regex";
    "alt-addr-charset"; "masking-prefix"; "tx-smsc-id"; "deliver-sm-source"; "max-q-len"];
  SINGLE_GROUP "testsmsc" [
    "smsc"; "smsc-id"; "log-file"; "log-level"; "host"; "port"; "smsc-username";
    "smsc-password"; "receive-port"; "system-type"; "address-range"; "source-addr-ton";
    "source-addr-npi"; "dest-addr-ton"; "dest-addr-npi"; "service-type";
    "enquire-link-interval"; "transceiver-mode"; "interface-version"; "input-file";
    "global-sender"; "global-receiver"; "core-file"; "max-messages"; "global-text"];
  MULTI_GROUP "mysql-connection" [
    "id"; "host"; "port"; "username"; "password"; "database"; "socket";
    "max-connections"];
  SINGLE_GROUP "dlr-db" [
    "id"; "table"; "field-EsmeAccountName"; "field-EsmeMsgId"; "field-SmscId";
    "field-SmscMsgId"; "field-DatetimeSubmit"];
  SINGLE_GROUP "dlr-db-mis" [
    "id"; "table"; "field-EsmeAccountName"; "field-EsmeMsgId"; "field-SmscId";
    "field-SmscMsgId"; "field-SubmitStat"; "field-DatetimeRecv"; "field-DatetimeSubmit";
    "field-SourceAddr"; "field-DestAddr"; "field-MsgContent"; "field-UDH";
    "field-RetryValue"; "field-client-ip"];
  SINGLE_GROUP "dlr-db-status" [
    "id"; "table"; "field-SmscId"; "field-SmscMsgId"; "field-DestAddr";
    "field-DelieverStat"; "field-DatetimeDeliver"];
  SINGLE_GROUP "dlr-db-smpp-esme" [
    "id"; "table"; "field-EsmeAccountName"; "field-EsmeMsgId"; "field-SubmitStat";
    "field-DatetimeRecv"; "field-SourceAddr"; "field-DestAddr"; "field-MsgContent";
    "field-UDH"; "field-RetryValue"; "allowed_smsc"; "field-dnd-flag"; "preferred_smsc";
    "field-data-coding"; "field-esm-class"; "field-more-messages-to-send"]
]%string.
