(* ===== verification/CfgFacts.v ===== *)
(** * Theorems about configuration files

    The values of variables, the lines of files, and what a configuration
    means: the files that are included are read in place, the lines between
    blank ones form a group, the last of the single groups of a name counts
    and the others are kept in order. *)

From S2P Require Import Prelude Gwlib Dict Cfg.
Open Scope Z_scope.

(** ** Values *)

Fixpoint unescape (l : list Z) : list Z :=
  match l with
  | [] => []
  | c :: l =>
      if c =? 92 then
        match l with
        | [] => [c]
        | c' :: l => if (c' =? 92) || (c' =? 34) then c' :: unescape l else c :: c' :: unescape l
        end
      else c :: unescape l
  end.

(** What a value stands for. *)
Definition value_of (l : list Z) : list Z :=
  let s := strip l in
  if bool_decide (head s = Some 34 /\ last s = Some 34) then unescape (tail (take (length s - 1) s)) else s.

(** How any octets can be written as a value. *)
Fixpoint escape (v : list Z) : list Z :=
  match v with
  | [] => []
  | c :: v => (if (c =? 92) || (c =? 34) then [92; c] else [c]) ++ escape v
  end.
Definition quote (v : list Z) : list Z := 34 :: escape v ++ [34].

Lemma unescape_escape v : unescape (escape v) = v.
Proof.
  induction v as [|c v IH]; simpl; [done|].
  destruct ((c =? 92) || (c =? 34)) eqn:Hc; simpl; [by rewrite Hc, IH|].
  apply orb_false_iff in Hc as [-> _]. by rewrite IH.
Qed.

Lemma lstrip_blanks b l : Forall (fun c => isspace c = true) b -> lstrip (b ++ l) = lstrip l.
Proof. induction 1 as [|c b Hc Hb IH]; simpl; [done|]. by rewrite Hc. Qed.

Lemma lstrip_none c l : isspace c = false -> lstrip (c :: l) = c :: l.
Proof. simpl. by intros ->. Qed.

Lemma strip_middle b1 b2 c d m :
  Forall (fun c => isspace c = true) b1 -> Forall (fun c => isspace c = true) b2 ->
  isspace c = false -> isspace d = false -> strip (b1 ++ (c :: m ++ [d]) ++ b2) = c :: m ++ [d].
Proof.
  intros H1 H2 Hc Hd. unfold strip. rewrite lstrip_blanks by done. simpl app. rewrite lstrip_none by done.
  rewrite app_comm_cons, reverse_app, lstrip_blanks by by apply Forall_reverse.
  rewrite app_comm_cons, reverse_app. simpl. rewrite Hd.
  by rewrite <-(reverse_involutive (c :: m ++ [d])), (app_comm_cons m), reverse_app.
Qed.

Lemma value_of_quote b1 b2 v :
  Forall (fun c => isspace c = true) b1 -> Forall (fun c => isspace c = true) b2 ->
  value_of (b1 ++ quote v ++ b2) = v.
Proof.
  intros H1 H2. unfold value_of, quote. rewrite strip_middle by done.
  rewrite bool_decide_eq_true_2.
  - rewrite app_comm_cons, length_app, take_app_le by (simpl; lia).
    simpl length. rewrite take_ge by (simpl; lia). apply unescape_escape.
  - split; [done|]. by rewrite app_comm_cons, last_snoc.
Qed.

Section Facts.
Context {O : OctstrLib} {OL : OctstrLaws O} {L : GwListLib} {LL : GwListLaws L}
  {C : CfgStrings O L} {CL : CfgStringsLaws C} {F : Files O} {FL : FilesLaws F}.
Implicit Types (o : octstr).

(** ** Single octets of a string *)

Lemma get_first o : octstr_get_char o 0 = default (-1) (head (octets o)).
Proof. change 0 with (Z.of_nat 0). rewrite octstr_get_char_spec. by destruct (octets o). Qed.

Lemma truncate_first o : octets (octstr_truncate o 0) = [].
Proof. exact (octstr_truncate_spec o 0). Qed.

Lemma get_last o : octstr_get_char o (octstr_len o - 1) = default (-1) (last (octets o)).
Proof.
  rewrite octstr_len_spec, last_lookup. destruct (octets o) as [|c l] eqn:E.
  - by rewrite octstr_get_char_neg.
  - rewrite <-E. replace (Z.of_nat _ - 1) with (Z.of_nat (pred (length (octets o)))) by (rewrite E; simpl; lia).
    apply octstr_get_char_spec.
Qed.

Lemma delete_first o : octets (octstr_delete o 0 1) = tail (octets o).
Proof. etransitivity; [exact (octstr_delete_spec o 0 1)|]. by destruct (octets o). Qed.

Lemma delete_last o :
  octets o <> [] -> octets (octstr_delete o (octstr_len o - 1) 1) = take (length (octets o) - 1) (octets o).
Proof.
  intros Hn. assert (length (octets o) <> 0%nat) by by intros ?%length_zero_iff_nil.
  rewrite octstr_len_spec. replace (Z.of_nat _ - 1) with (Z.of_nat (length (octets o) - 1)) by lia.
  etransitivity; [exact (octstr_delete_spec _ _ 1)|]. rewrite drop_ge by lia. by rewrite app_nil_r.
Qed.

Lemma octet_range o c l : octets o = c :: l -> 0 <= c < 256.
Proof. intros E. pose proof (octets_range o) as H. rewrite E in H. by apply Forall_cons in H as [? _]. Qed.

Lemma parse_loop_spec fuel : forall temp value,
  (length (octets temp) <= fuel)%nat ->
  octets (parse_loop fuel temp value) = octets value ++ unescape (octets temp).
Proof.
  induction fuel as [|fuel IH]; intros temp value Hf; simpl.
  { destruct (octets temp); [by rewrite app_nil_r|simpl in Hf; lia]. }
  rewrite octstr_len_spec. destruct (octets temp) as [|c l] eqn:E; simpl.
  { by rewrite app_nil_r. }
  pose proof (octet_range _ _ _ E) as Hc. rewrite get_first, octstr_len_spec, delete_first, E. simpl.
  pose proof (delete_first temp) as E1. rewrite E in E1. simpl in E1.
  destruct (Z.eqb_spec c 92) as [->|Hn]; simpl.
  2:{ rewrite IH by (rewrite E1; simpl in Hf; lia). by rewrite octstr_append_char_spec, E1, <-app_assoc. }
  destruct l as [|c' l]; simpl.
  { rewrite IH by (rewrite E1; simpl; lia). by rewrite octstr_append_char_spec, E1, app_nil_r. }
  pose proof (octet_range _ _ _ E1) as Hc'. rewrite get_first, E1. simpl.
  pose proof (delete_first (octstr_delete temp 0 1)) as E2. rewrite E1 in E2. simpl in E2, Hf.
  destruct (_ || _); rewrite IH by (rewrite E2; lia);
    by rewrite !octstr_append_char_spec, E2, <-!app_assoc.
Qed.

Lemma parse_value_of o : octets (parse_value o) = value_of (octets o).
Proof.
  unfold parse_value, value_of. rewrite get_first, get_last, octstr_strip_blanks_spec.
  assert (Hd : forall (x : option Z), (default (-1) x =? 34) = bool_decide (x = Some 34)).
  { intros [x|]; simpl; [|done]. destruct (Z.eqb_spec x 34); symmetry; [apply bool_decide_eq_true_2|
      apply bool_decide_eq_false_2]; congruence. }
  rewrite !Hd, <-negb_andb, <-bool_decide_and. set (s := strip (octets o)).
  destruct (bool_decide _) eqn:Eb; simpl; [|apply octstr_strip_blanks_spec].
  apply bool_decide_eq_true_1 in Eb as [Hh _].
  assert (Hs : octets (octstr_strip_blanks o) <> []) by (rewrite octstr_strip_blanks_spec; fold s; by destruct s).
  rewrite parse_loop_spec, octstr_duplicate_spec, truncate_first.
  - by rewrite delete_first, delete_last, octstr_strip_blanks_spec.
  - rewrite (octstr_len_spec (octstr_duplicate _)), Nat2Z.id. lia.
Qed.

(** C38 Any octets can be written as a value: in quotes, with a backslash
    before quotes and backslashes, and with blanks around. *)
Theorem parse_value_roundtrip o b1 b2 v :
  Forall (fun c => isspace c = true) b1 -> Forall (fun c => isspace c = true) b2 ->
  octets o = b1 ++ quote v ++ b2 -> octets (parse_value o) = v.
Proof. intros H1 H2 E. rewrite parse_value_of, E. by apply value_of_quote. Qed.

(** ** The lines of a file *)

(** Lines that end with one backslash go on in the next line; of two, one
    stays. *)
Fixpoint logical (pending : option (list Z)) (ls : list (list Z)) : list (list Z) :=
  match ls with
  | [] => option_list pending
  | l :: ls =>
      let front := default [] pending in
      if bool_decide (last l = Some 92) then
        let l := take (length l - 1) l in
        if bool_decide (last l = Some 92) then (front ++ l) :: logical None ls
        else logical (Some (front ++ l)) ls
      else (front ++ l) :: logical None ls
  end.

(** A file ends with a line of its own, which is blank. *)
Definition document (os : octstr) : list (list Z) :=
  match octets <$> items (octstr_split os (octstr_create [10])) with
  | [] => []
  | ls => logical None ls ++ [[10]]
  end.

Definition texts (locs : list CfgLoc) : list (list Z) := (fun loc => octets (line loc)) <$> locs.
Definition numbered (locs : list CfgLoc) : Prop := Forall (fun loc => 0 < line_no loc) locs.

Definition placed {A} (forward : bool) (front l : list A) : list A :=
  if forward then front ++ l else reverse l ++ front.

Lemma placed_cons {A} fw (front : list A) (x : A) (l : list A) :
  placed fw front (x :: l) = placed fw (placed fw front [x]) l.
Proof. destruct fw; simpl; [by rewrite <-app_assoc|]. by rewrite reverse_cons, <-app_assoc. Qed.

Lemma items_push {A} (l : gwlist A) x : items (push_front l x) = x :: items l.
Proof. etransitivity; [apply (items_insert _ l 0); lia|]. by rewrite drop_0. Qed.

Lemma put_loc_items fw expand loc : items (put_loc fw expand loc) = placed fw (items expand) [loc].
Proof. destruct fw; simpl; [apply items_append|apply items_push]. Qed.

Lemma texts_placed fw (front l : list CfgLoc) : texts (placed fw front l) = placed fw (texts front) (texts l).
Proof. unfold texts. destruct fw; simpl; rewrite fmap_app, ?fmap_reverse; done. Qed.

Lemma numbered_placed fw (front l : list CfgLoc) : numbered (placed fw front l) <-> numbered front /\ numbered l.
Proof. unfold numbered. destruct fw; simpl; rewrite Forall_app, ?Forall_reverse; tauto. Qed.

Lemma last_char_spec o : (last_char o =? 92) = bool_decide (last (octets o) = Some 92).
Proof.
  unfold last_char. rewrite get_last. destruct (last _) as [x|]; simpl; [|done].
  destruct (Z.eqb_spec x 92); symmetry; [apply bool_decide_eq_true_2|apply bool_decide_eq_false_2]; congruence.
Qed.

Definition no_loc_or_numbered (loc : option CfgLoc) : Prop := forall x, loc = Some x -> 0 < line_no x.

Lemma expand_loop_spec file fw (ls : list octstr) : forall n loc expand,
  0 <= n -> numbered (items expand) -> no_loc_or_numbered loc ->
  let '(n', e) := expand_loop file fw ls n loc expand in
  texts (items e) = placed fw (texts (items expand))
    (logical ((fun x => octets (line x)) <$> loc) (octets <$> ls)) /\
  numbered (items e) /\ n <= n' /\ (ls <> [] -> loc = None -> 0 < n').
Proof.
  induction ls as [|l ls IH]; intros n loc expand Hn He Hloc; simpl.
  { destruct loc as [loc|]; simpl.
    - rewrite put_loc_items, texts_placed, numbered_placed. split_and!; try done. repeat constructor. by apply Hloc.
    - split_and!; try done. by destruct fw; simpl; rewrite ?app_nil_r. }
  set (n1 := if loc then n else n + 1). assert (Hn1 : n <= n1 /\ (loc = None -> 0 < n1)).
  { unfold n1. destruct loc; split; try done; intros; lia. }
  set (loc1 := default (cfgloc_create file n1 (octstr_create [])) loc).
  assert (Hl1 : 0 < line_no loc1 /\ octets (line loc1) = default [] ((fun x => octets (line x)) <$> loc)).
  { unfold loc1. destruct loc as [x|]; simpl; [split; [by apply Hloc|done]|].
    split; [lia|]. by apply octets_create. }
  assert (Hput : forall l',
    let '(n', e) := expand_loop file fw ls n1 None (put_loc fw expand (append_line loc1 l')) in
    texts (items e) = placed fw (texts (items expand))
      ((octets (line loc1) ++ octets l') :: logical None (octets <$> ls)) /\
    numbered (items e) /\ n <= n' /\ (l :: ls <> [] -> loc = None -> 0 < n')).
  { intros l'. specialize (IH n1 None (put_loc fw expand (append_line loc1 l'))).
    rewrite put_loc_items, texts_placed, numbered_placed in IH.
    destruct (expand_loop _ _ _ _ _ _) as [n' e]. destruct IH as (Et & ? & ? & ?); [lia| |done|].
    { split; [done|]. repeat constructor. apply Hl1. }
    rewrite placed_cons, <-octstr_append_spec. split_and!; [done|done|lia|intros _ Hno; apply Hn1 in Hno; lia]. }
  rewrite last_char_spec, <-(proj2 Hl1). destruct (bool_decide (last (octets l) = Some 92)) eqn:E1; [|apply Hput].
  assert (El : octets (octstr_delete l (octstr_len l - 1) 1) = take (length (octets l) - 1) (octets l)).
  { apply delete_last. apply bool_decide_eq_true_1 in E1. by intros E0; rewrite E0 in E1. }
  rewrite last_char_spec, <-El. set (l' := octstr_delete l (octstr_len l - 1) 1).
  destruct (bool_decide (last (octets l') = Some 92)); [apply Hput|]. specialize (IH n1 (Some (append_line loc1 l')) expand).
  destruct (expand_loop _ _ _ _ _ _) as [n' e]. rewrite <-octstr_append_spec.
  destruct IH as (Et & ? & ? & ?); [lia|done|intros x [= <-]; apply Hl1|].
  split_and!; [done|done|lia|intros _ Hno; apply Hn1 in Hno; lia].
Qed.

(** ** Files *)

Lemma document_proper os os' : octets os = octets os' -> document os = document os'.
Proof. intros E. unfold document. by rewrite (octstr_split_proper os os'). Qed.

Lemma octets_create_octets o : octets (octstr_create (octets o)) = octets o.
Proof. apply octets_create, octets_range. Qed.

(** The lines of the file of a name. *)
Definition contents (f : list Z) : option (list (list Z)) := document <$> octstr_read_file (octstr_create f).

Lemma expand_file_spec o fw :
  match contents (octets o) with
  | None => expand_file o fw = None
  | Some ls => exists e, expand_file o fw = Some e /\ texts (items e) = placed fw [] ls /\ numbered (items e)
  end.
Proof.
  unfold contents, expand_file. pose proof (read_file_proper _ _ (octets_create_octets o)) as E.
  destruct (octstr_read_file (octstr_create (octets o))) as [os'|], (octstr_read_file o) as [os|]; simpl in *; try done.
  injection E as E. rewrite (document_proper _ _ E). unfold document.
  pose proof (expand_loop_spec o fw (items (octstr_split os (octstr_create [10]))) 0 None gwlist_create) as H.
  rewrite items_create in H. simpl in H.
  destruct (items (octstr_split os (octstr_create [10]))) as [|l ls] eqn:El.
  { simpl. eexists. split; [done|]. rewrite items_create.
    split; [by destruct fw|constructor]. }
  destruct (expand_loop _ _ _ _ _ _) as [n e]. destruct H as (Ht & Hnu & _ & Hpos); [lia|constructor|done|].
  rewrite (proj2 (Z.ltb_lt 0 n)) by auto. eexists. split; [done|].
  rewrite put_loc_items, texts_placed, numbered_placed, Ht. split; [|split; [done|repeat constructor; simpl; auto]].
  change (octets <$> l :: ls) with (octets l :: (octets <$> ls)).
  cbn [texts fmap list_fmap line cfgloc_create]. rewrite octets_create by (repeat constructor; lia).
  destruct fw; simpl; [done|]. by rewrite !app_nil_r, reverse_app.
Qed.

Fixpoint all_contents (fs : list (list Z)) : option (list (list Z)) :=
  match fs with
  | [] => Some []
  | f :: fs => ls ← contents f; rest ← all_contents fs; Some (ls ++ rest)
  end.

Lemma all_contents_snoc fs f :
  all_contents (fs ++ [f]) = (rest ← all_contents fs; ls ← contents f; Some (rest ++ ls)).
Proof.
  induction fs as [|g fs IH]; simpl; [by destruct (contents f); simpl; rewrite ?app_nil_r|].
  rewrite IH. destruct (contents g), (all_contents fs), (contents f); simpl; try done. by rewrite app_assoc.
Qed.

(** The files that a directive names, in the order in which they are read. *)
Fixpoint regular (dir : list Z) (st : bool) (names : list (list Z)) : list (list Z) :=
  match names with
  | [] => []
  | n :: names =>
      let f := dir ++ [47] ++ n in
      let st := default st (lstat_isdir (octstr_create f)) in
      if st then regular dir st names else f :: regular dir st names
  end.

Definition included_names (f : list Z) : option (list (list Z)) :=
  st ← lstat_isdir (octstr_create f);
  if (st : bool) then regular f true ∘ List.map octets <$> readdir (octstr_create f) else Some [f].

Lemma dir_files_spec dir names : forall st files,
  octets <$> items (dir_files dir st names files)
  = reverse (regular (octets dir) st (octets <$> names)) ++ (octets <$> items files).
Proof.
  induction names as [|n names IH]; intros st files; simpl; [done|]. rewrite IH.
  set (f := octstr_append (octstr_append (octstr_duplicate dir) (octstr_create [47])) n).
  assert (Ef : octets f = octets dir ++ 47 :: octets n).
  { unfold f. rewrite !octstr_append_spec, octstr_duplicate_spec, octets_create by (repeat constructor; lia).
    by rewrite <-app_assoc. }
  cbn [fmap list_fmap regular].
  rewrite <-Ef, (isdir_proper _ _ (octets_create_octets f)).
  destruct (default st (lstat_isdir f)); [done|].
  rewrite reverse_cons, <-app_assoc. f_equal. change (gwlist_insert files 0 f) with (push_front files f).
  by rewrite items_push.
Qed.

Lemma included_files_spec o :
  match included_names (octets o) with
  | None => included_files o = Panic
  | Some fs => exists l, included_files o = Done l /\ octets <$> items l = reverse fs
  end.
Proof.
  unfold included_names, included_files. rewrite (isdir_proper _ _ (octets_create_octets o)).
  destruct (lstat_isdir o) as [[|]|]; simpl; [|eexists; split; [done|]|done].
  - pose proof (readdir_proper _ _ (octets_create_octets o)) as E.
    destruct (readdir (octstr_create (octets o))) as [ns'|], (readdir o) as [ns|]; simpl in *; try done.
    injection E as E. rewrite E. eexists. split; [done|]. by rewrite dir_files_spec, items_create, app_nil_r.
  - change (gwlist_insert gwlist_create 0 (octstr_duplicate o)) with (push_front gwlist_create (octstr_duplicate o)).
    rewrite items_push, items_create. simpl. by rewrite octstr_duplicate_spec.
Qed.

End Facts.
