(* ===== verification/CfgRead.v ===== *)
(** * What reading a configuration comes to

    A configuration means groups of variables, as finite maps: the lines of
    the files that are included count where they are included, the lines
    between blank ones are a group.  [cfg_read] has that result, and comes to
    its end. *)

From S2P Require Import Prelude Gwlib Dict Cfg CfgFacts.
Open Scope Z_scope.

(** ** Lines *)

(** What a line says. *)
Inductive directive : Type :=
| Blank
| Comment
| Missing
| Include (file : list Z)
| Assign (name value : list Z).

Fixpoint contains (p l : list Z) : bool :=
  bool_decide (p `prefix_of` l) || match l with [] => false | _ :: l => contains p l end.

Definition directive_of (l : list Z) : directive :=
  match strip l with
  | [] => Blank
  | c :: s =>
      if c =? 35 then Comment
      else
        match index_of 61 (c :: s) with
        | None => Missing
        | Some k =>
            let value := value_of (drop (S k) (c :: s)) in
            if contains (cstr "include"%string) (c :: s) then Include value
            else Assign (strip (take k (c :: s))) value
        end
  end.

Lemma contains_spec p l : contains p l = true <-> exists l1 l2, l = l1 ++ p ++ l2.
Proof.
  induction l as [|c l IH]; simpl; rewrite orb_true_iff, bool_decide_eq_true.
  - split; [intros [[l2 E]|]; [by exists [], l2|done]|].
    intros ([|??] & l2 & E); [left; by exists l2|done].
  - rewrite IH. split.
    + intros [[l2 E]|(l1 & l2 & E)]; [by exists [], l2|exists (c :: l1), l2; simpl; by rewrite E].
    + intros ([|x l1] & l2 & E); [left; by exists l2|right]. injection E as _ E. eauto.
Qed.

Section Reading.
Context {O : OctstrLib} {OL : OctstrLaws O} {L : GwListLib} {LL : GwListLaws L}
  {C : CfgStrings O L} {CL : CfgStringsLaws C} {F : Files O} {FL : FilesLaws F}
  {SV : KeyedStore O L octstr} {SG : KeyedStore O L CfgGroup} {SM : KeyedStore O L (gwlist CfgGroup)}.
Implicit Types (o : octstr) (r : Reader).

(** ** Files that are included *)

Definition same_work r r' : Prop := grp r' = grp r /\ error_lineno r' = error_lineno r /\ cfg r' = cfg r.

Lemma items_push_all {A} (l : list A) (ls : gwlist A) : items (foldl push_front ls l) = reverse l ++ items ls.
Proof.
  revert ls. induction l as [|x l IH]; intros ls; simpl; [done|].
  by rewrite IH, items_push, reverse_cons, <-app_assoc.
Qed.

Lemma include_files_spec (files : list octstr) : forall r,
  match all_contents (reverse (octets <$> files)) with
  | None => include_files files r = Panic
  | Some ls => numbered (items (lines r)) ->
      exists r', include_files files r = Done r' /\ same_work r r' /\
        texts (items (lines r')) = ls ++ texts (items (lines r)) /\ numbered (items (lines r')) /\
        octets <$> items (stack r') = reverse (octets <$> files) ++ (octets <$> items (stack r))
  end.
Proof.
  induction files as [|f files IH]; intros r; [by exists r|].
  rewrite fmap_cons, reverse_cons, all_contents_snoc.
  pose proof (expand_file_spec f false) as He. destruct (contents (octets f)) as [c|].
  - destruct He as (e & E0 & Et & En). cbn [include_files]. rewrite E0. cbn [must mbind outcome_bind].
    set (r1 := set_lines r _ _). specialize (IH r1).
    assert (Hpush : items (lines r1) = reverse (items e) ++ items (lines r)).
    { apply items_push_all. }
    assert (H1 : texts (items (lines r1)) = c ++ texts (items (lines r))).
    { rewrite Hpush. unfold texts in *. rewrite fmap_app, fmap_reverse, Et. simpl.
      by rewrite app_nil_r, reverse_involutive. }
    destruct (all_contents (reverse (octets <$> files))) as [ls|]; simpl; [|exact IH].
    intros Hn. destruct IH as (r' & E & Hw & Et' & En' & Es).
    { rewrite Hpush. unfold numbered in *. rewrite Forall_app, Forall_reverse. auto. }
    exists r'. split; [done|]. split; [done|]. rewrite Et', H1, Es, <-app_assoc. split; [done|].
    split; [done|]. rewrite <-app_assoc. f_equal. simpl. rewrite items_push. csimpl. by rewrite octstr_duplicate_spec.
  - cbn [include_files]. rewrite He. destruct (all_contents _); done.
Qed.

(** The lines that a directive brings in, and the files that they are from. *)
Definition include_lines (f : list Z) : option (list (list Z) * list (list Z)) :=
  fs ← included_names f; ls ← all_contents fs; Some (fs, ls).

Lemma include_spec r o :
  if decide (octets o ∈ octets <$> items (stack r)) then include r o = Panic
  else match include_lines (octets o) with
  | None => include r o = Panic
  | Some (fs, ls) => numbered (items (lines r)) ->
      exists r', include r o = Done r' /\ same_work r r' /\
        texts (items (lines r')) = ls ++ texts (items (lines r)) /\ numbered (items (lines r')) /\
        octets <$> items (stack r') = fs ++ (octets <$> items (stack r))
  end.
Proof.
  unfold include, include_lines. rewrite gwlist_search_spec.
  assert (Hs : forall x, octstr_same x o = true <-> octets x = octets o).
  { intros x. unfold octstr_same. by rewrite Z.eqb_eq, octstr_compare_spec. }
  case_decide as Hd.
  - apply list_elem_of_fmap in Hd as (x & E & Hx).
    destruct (List.find _ _) eqn:Ef; [done|]. apply list_elem_of_In in Hx.
    eapply find_none in Ef; [|exact Hx]. symmetry in E. apply Hs in E. congruence.
  - destruct (List.find _ _) as [x|] eqn:Ef.
    { apply find_some in Ef as [Hx%list_elem_of_In E%Hs]. destruct Hd. rewrite <-E. by apply list_elem_of_fmap_2. }
    pose proof (included_files_spec o) as Hi. destruct (included_names (octets o)) as [fs|]; simpl; [|by rewrite Hi].
    destruct Hi as (l & -> & E). pose proof (include_files_spec (items l) r) as Hf.
    rewrite E, reverse_involutive in Hf. by destruct (all_contents fs).
Qed.

(** ** One line *)

Lemma read_line_directive h r (loc : CfgLoc) :
  match directive_of (octets (line loc)) with
  | Blank => read_line h r loc = (r ← close_group h r (line_no loc); Done (set_grp r None))
  | Comment => read_line h r loc = Done r
  | Missing => read_line h r loc = Done (set_error_line r (line_no loc))
  | Include f => exists o, octets o = f /\ read_line h r loc = include r o
  | Assign n v => exists a b, octets a = n /\ octets b = v /\ read_line h r loc = assign r a b
  end.
Proof.
  unfold read_line, directive_of. rewrite octstr_len_spec, get_first.
  pose proof (octstr_strip_blanks_spec (line loc)) as Es. rewrite Es.
  destruct (strip (octets (line loc))) as [|c s] eqn:E; [done|].
  change (default (-1) (head (c :: s))) with c.
  replace (Z.of_nat (length (c :: s)) =? 0) with false by (symmetry; apply Z.eqb_neq; simpl; lia).
  destruct (c =? 35); cbn [negb]; [done|].
  set (l := octstr_strip_blanks (line loc)) in *. change 0 with (Z.of_nat 0).
  rewrite octstr_search_char_spec, drop_0, Es.
  destruct (index_of 61 (c :: s)) as [k|] eqn:Ek; [|done].
  replace (Z.of_nat (0 + k) =? -1) with false by (symmetry; apply Z.eqb_neq; lia).
  assert (Ev : octets (parse_value (octstr_copy l (Z.of_nat (0 + k) + 1) (Z.of_nat (length (c :: s)))))
    = value_of (drop (S k) (c :: s))).
  { rewrite parse_value_of. replace (Z.of_nat (0 + k) + 1) with (Z.of_nat (S k)) by lia.
    rewrite octstr_copy_spec, Es. f_equal. apply take_ge. rewrite length_drop. lia. }
  assert (Ec : negb (octstr_search l (octstr_imm "include"%string) (Z.of_nat 0) =? -1)
    = contains (cstr "include"%string) (c :: s)).
  { apply eq_true_iff_eq. rewrite negb_true_iff, Z.eqb_neq, contains_spec, <-Es, <-octstr_imm_octets.
    change (Z.of_nat 0) with 0. rewrite octstr_search_spec. split; [|tauto]. intros Hn.
    destruct (decide (contains (octets (octstr_imm "include"%string)) (octets l) = true)) as [Hc|Hc];
      rewrite contains_spec in Hc; tauto. }
  rewrite Ec. destruct (contains _ _); [by eexists|]. do 2 eexists. split; [|split; [exact Ev|done]].
  rewrite octstr_strip_blanks_spec. f_equal. etransitivity; [exact (octstr_copy_spec l 0 k)|]. by rewrite Es.
Qed.

(** ** Groups *)

Definition vars_map : Type := gmap (list Z) (list Z).
Record conf : Type := MkConf { single_of : gmap (list Z) vars_map; multi_of : gmap (list Z) (list vars_map) }.

Variable def : list def_entry.

Definition entry (g : list Z) : option def_entry :=
  List.find (fun e => bool_decide (cstr (def_name e) = g)) def.

Definition group_key : list Z := cstr "group"%string.

(** Whether a group may have a variable, and be there once. *)
Definition allowed (g n : list Z) : bool :=
  match entry g with
  | None => false
  | Some e => bool_decide (group_key = n) || existsb (fun f => bool_decide (cstr f = n)) (def_fields e)
  end.

Definition single (g : list Z) : bool :=
  match entry g with Some (SINGLE_GROUP _ _) => true | _ => false end.

(** A group is taken up when it names itself and has only variables that it
    may have. *)
Definition add_par (k : conf) (m : vars_map) : option conf :=
  g ← m !! group_key;
  if forallb (fun p => allowed g p.1) (map_to_list m) then
    Some (if single g then MkConf (<[g := m]> (single_of k)) (multi_of k)
          else MkConf (single_of k) (<[g := default [] (multi_of k !! g) ++ [m]]> (multi_of k)))
  else None.

Lemma is_imm_spec s o : is_imm s o = bool_decide (cstr s = octets o).
Proof.
  unfold is_imm, octstr_same. apply eq_true_iff_eq.
  by rewrite Z.eqb_eq, octstr_compare_spec, bool_decide_eq_true, octstr_imm_octets.
Qed.

Lemma core_allowed (g v : octstr) :
  core_is_allowed_in_group def g v = if allowed (octets g) (octets v) then 1 else 0.
Proof.
  unfold allowed, entry. induction def as [|e d IH]; simpl; [done|]. rewrite is_imm_spec.
  destruct (bool_decide (cstr (def_name e) = octets g)); [|done]. rewrite is_imm_spec. fold group_key.
  destruct (bool_decide (group_key = octets v)); [done|]. simpl.
  assert (E : existsb (fun f => is_imm f v) (def_fields e) =
    existsb (fun f => bool_decide (cstr f = octets v)) (def_fields e)).
  { induction (def_fields e) as [|f fs IHf]; simpl; [done|]. by rewrite is_imm_spec, IHf. }
  by rewrite E.
Qed.

Lemma core_single (g : octstr) : core_is_single_group def g = if single (octets g) then 1 else 0.
Proof.
  unfold single, entry. induction def as [|e d IH]; simpl; [done|]. rewrite is_imm_spec.
  destruct (bool_decide (cstr (def_name e) = octets g)); [|done]. by destruct e.
Qed.

Variable file : octstr.
Notation hooks := (cfg_create (SG := SG) (SM := SM) def file).2.

Lemma hooks_allowed g v : is_allowed_in_group hooks g v = allowed (octets g) (octets v).
Proof. unfold is_allowed_in_group. simpl. rewrite core_allowed. by destruct (allowed _ _). Qed.

Lemma hooks_single g : is_single_group hooks g = single (octets g).
Proof. unfold is_single_group. simpl. rewrite core_single. by destruct (single _). Qed.

Context {SVL : KeyedStoreLaws SV} {SGL : KeyedStoreLaws SG} {SML : KeyedStoreLaws SM}.

(** What a group and a configuration show. *)
Record group_shows (g : CfgGroup) (m : vars_map) : Prop := {
  gs_ok : store_ok (vars g); gs_map : octets <$> store_map (vars g) = m
}.

Definition stored (key : list Z) (g : CfgGroup) (m : vars_map) : Prop :=
  group_shows g m /\ octets <$> grp_name g = Some key.

Record cfg_shows (c : Cfg) (k : conf) : Prop := {
  cs_single_ok : store_ok (single_groups c);
  cs_multi_ok : store_ok (multi_groups c);
  cs_single : map_Forall2 stored (store_map (single_groups c)) (single_of k);
  cs_multi : map_Forall2 (fun n l ms => Forall2 (stored n) (items l) ms) (store_map (multi_groups c)) (multi_of k)
}.

Lemma names_allowed g (m : vars_map) (s : store (KeyedStore := SV)) groupname :
  store_ok s -> octets <$> store_map s = m -> octets groupname = g ->
  forallb (is_allowed_in_group hooks groupname) (items (store_keys s)) =
  forallb (fun p => allowed g p.1) (map_to_list m).
Proof.
  intros Hs Hm Hg. destruct (store_keys_ok s Hs) as [_ Hk]. apply eq_true_iff_eq.
  rewrite !forallb_forall. split.
  - intros H [n v] Hin. simpl. apply list_elem_of_In, elem_of_map_to_list in Hin.
    assert (Hn : n ∈ octets <$> items (store_keys s)).
    { apply (elem_of_list_to_set (C := gset (list Z))). rewrite Hk. apply elem_of_dom.
      rewrite <-Hm, lookup_fmap in Hin. destruct (store_map s !! n); [by eexists|done]. }
    apply list_elem_of_fmap in Hn as (x & -> & Hx). rewrite <-Hg, <-hooks_allowed. by apply H, list_elem_of_In.
  - intros H x Hx%list_elem_of_In. rewrite hooks_allowed, Hg.
    assert (Hn : octets x ∈ dom (store_map s)).
    { rewrite <-Hk. by apply elem_of_list_to_set, list_elem_of_fmap_2. }
    apply elem_of_dom in Hn as [v Hv]. apply (H (octets x, octets v)), list_elem_of_In, elem_of_map_to_list.
    by rewrite <-Hm, lookup_fmap, Hv.
Qed.

Lemma add_group_spec (c : Cfg) k g m :
  cfg_shows c k -> group_shows g m -> grp_name g = None ->
  exists ret c', add_group hooks c g = Done (ret, c') /\ filename c' = filename c /\
    match add_par k m with
    | Some k' => ret = 0 /\ cfg_shows c' k'
    | None => ret = -1 /\ c' = c
    end.
Proof.
  intros [H1 H2 H3 H4] [Hs Hm] Hname. unfold add_group, cfg_get. cbn [must mbind outcome_bind].
  rewrite Hname, store_get_ok by done. cbn [mbind outcome_bind]. rewrite octstr_imm_octets. fold group_key.
  unfold add_par. replace (m !! group_key) with (octets <$> store_map (vars g) !! group_key)
    by (rewrite <-Hm; symmetry; apply lookup_fmap).
  destruct (store_map (vars g) !! group_key) as [gn|] eqn:Eg;
    cbn [fmap option_fmap option_map mbind option_bind]; [|do 2 eexists; split; [done|]; split; done].
  set (g' := set_group_name g (octstr_duplicate gn)). change (vars g') with (vars g).
  assert (Hn : octets (octstr_duplicate gn) = octets gn) by apply octstr_duplicate_spec.
  rewrite (names_allowed (octets gn) m (vars g) _ Hs Hm Hn).
  destruct (forallb _ (map_to_list m)).
  2:{ do 2 eexists.
      split; [done|]. split; done. } rewrite hooks_single, Hn.
  assert (Hst : stored (octets gn) g' m).
  { split; [done|]. simpl. by rewrite octstr_duplicate_spec, Hn. }
  destruct (single (octets gn)).
  - destruct (store_put_ok (single_groups c) (octstr_duplicate gn) g' H1) as (s' & -> & Hs' & Em).
    do 2 eexists. split; [done|]. split; [done|]. split; [done|]. split; simpl; try done.
    rewrite Em, Hn. by apply map_Forall2_insert_2.
  - rewrite store_get_ok by done. cbn [mbind outcome_bind].
    match goal with |- context [store_put _ _ ?l] =>
      destruct (store_put_ok (multi_groups c) (octstr_duplicate gn) l H2) as (s' & -> & Hs' & Em) end.
    do 2 eexists. split; [done|]. split; [done|]. split; [done|]. split; simpl; try done.
    rewrite Em, Hn. apply map_Forall2_insert_2; [|done]. rewrite items_append. apply Forall2_app; [|by constructor].
    specialize (H4 (octets gn)). inversion H4; simpl; rewrite ?items_create; [done|constructor].
Qed.

(** ** What a configuration means *)

(** The assignments between blank lines. *)
Definition par (cur : list (list Z * list Z)) : list (list (list Z * list Z)) :=
  match cur with [] => [] | _ => [cur] end.

Fixpoint paragraphs (cur : list (list Z * list Z)) (ds : list directive) : list (list (list Z * list Z)) :=
  match ds with
  | [] => par cur
  | Blank :: ds => par cur ++ paragraphs [] ds
  | Assign n v :: ds => paragraphs (cur ++ [(n, v)]) ds
  | _ :: ds => paragraphs cur ds
  end.

(** The last value of a variable counts. *)
Definition vars_of (cur : list (list Z * list Z)) : vars_map :=
  foldl (fun m p => <[p.1 := p.2]> m) ∅ cur.

Fixpoint add_all (k : conf) (ms : list vars_map) : option conf :=
  match ms with [] => Some k | m :: ms => k' ← add_par k m; add_all k' ms end.

Definition is_missing (d : directive) : bool := match d with Missing => true | _ => false end.

Definition meaning (ds : list directive) : option conf :=
  if existsb is_missing ds then None else add_all (MkConf ∅ ∅) (vars_of <$> paragraphs [] ds).

(** The same, line by line. *)
Fixpoint run (ds : list directive) (g : option vars_map) (k : conf) : option (option vars_map * conf) :=
  match ds with
  | [] => Some (g, k)
  | Blank :: ds => match g with None => run ds None k | Some m => k' ← add_par k m; run ds None k' end
  | Assign n v :: ds => run ds (Some (<[n := v]> (default ∅ g))) k
  | Missing :: _ => None
  | _ :: ds => run ds g k
  end.

Definition finish (g : option vars_map) (k : conf) : option conf :=
  match g with None => Some k | Some m => add_par k m end.

Definition open_vars (cur : list (list Z * list Z)) : option vars_map :=
  match cur with [] => None | _ => Some (vars_of cur) end.

Lemma open_vars_add cur n v : Some (<[n := v]> (default ∅ (open_vars cur))) = open_vars (cur ++ [(n, v)]).
Proof.
  destruct cur as [|p cur]; [done|]. cbn [open_vars app].
  change (p :: cur ++ [(n, v)]) with ((p :: cur) ++ [(n, v)]). unfold vars_of. by rewrite foldl_app.
Qed.

Lemma run_paragraphs ds : forall cur k,
  ('(g, k') ← run ds (open_vars cur) k; finish g k') =
  if existsb is_missing ds then None else add_all k (vars_of <$> paragraphs cur ds).
Proof.
  induction ds as [|d ds IH]; intros cur k; simpl.
  { destruct cur; simpl; [done|]. by destruct (add_par k _). }
  destruct d as [| | |f|n v]; simpl; try apply IH; [|done|].
  - destruct cur as [|p cur]; simpl; [apply (IH [])|]. fold (vars_of (p :: cur)).
    destruct (add_par k _) as [k'|]; simpl; [apply (IH [])|]. by destruct (existsb _ _).
  - rewrite open_vars_add. apply IH.
Qed.

Lemma run_app ds1 ds2 g k : run (ds1 ++ ds2) g k = ('(g', k') ← run ds1 g k; run ds2 g' k').
Proof.
  revert g k. induction ds1 as [|d ds1 IH]; intros g k; simpl; [done|].
  destruct d, g as [m|]; simpl; try apply IH; try done. destruct (add_par k m); simpl; [apply IH|done].
Qed.

(** The lines that count, with those of the files that are included. *)
Inductive reads : list (list Z) -> list (list Z) -> list directive -> list (list Z) -> Prop :=
| reads_nil st : reads st [] [] st
| reads_line st st' l ls ds :
    (forall f, directive_of l <> Include f) -> reads st ls ds st' ->
    reads st (l :: ls) (directive_of l :: ds) st'
| reads_include st st1 st2 l ls f fs inner ds1 ds2 :
    directive_of l = Include f -> f ∉ st -> include_lines f = Some (fs, inner) ->
    reads (fs ++ st) inner ds1 st1 -> reads st1 ls ds2 st2 ->
    reads st (l :: ls) (ds1 ++ ds2) st2.

(** ** The reader *)

Definition group_rel (g : option CfgGroup) (m : option vars_map) : Prop :=
  match g, m with
  | None, None => True
  | Some g, Some m => group_shows g m /\ grp_name g = None
  | _, _ => False
  end.

Record sim (r : Reader) (ls st : list (list Z)) (g : option vars_map) (k : conf) : Prop := {
  sim_lines : texts (items (lines r)) = ls;
  sim_numbered : numbered (items (lines r));
  sim_stack : octets <$> items (stack r) = st;
  sim_group : group_rel (grp r) g;
  sim_cfg : cfg_shows (cfg r) k;
  sim_error : error_lineno r = 0
}.

Lemma close_group_spec r e g k :
  group_rel (grp r) g -> cfg_shows (cfg r) k ->
  exists r', close_group hooks r e = Done r' /\ lines r' = lines r /\ stack r' = stack r /\
    match finish g k with
    | Some k' => cfg_shows (cfg r') k' /\ error_lineno r' = error_lineno r
    | None => cfg_shows (cfg r') k /\ error_lineno r' = e
    end.
Proof.
  intros Hg Hc. unfold close_group. destruct (grp r) as [x|], g as [m|]; try done; simpl in Hg.
  - destruct Hg as [Hs Hn]. destruct (add_group_spec (cfg r) k x m Hc Hs Hn) as (ret & c' & -> & _ & H).
    cbn [mbind outcome_bind]. eexists. split; [done|]. split; [done|]. split; [done|]. simpl.
    destruct (add_par k m); by destruct H as [-> ?]; subst.
  - by exists r.
Qed.

Lemma assign_spec r (a b : octstr) g :
  group_rel (grp r) g ->
  exists r', assign r a b = Done r' /\ lines r' = lines r /\ stack r' = stack r /\
    error_lineno r' = error_lineno r /\ cfg r' = cfg r /\
    group_rel (grp r') (Some (<[octets a := octets b]> (default ∅ g))).
Proof.
  intros Hg. unfold assign, cfg_set.
  set (x := set_configfile (default create_group (grp r)) (filename (cfg r))).
  assert (Hx : group_shows x (default ∅ g) /\ grp_name x = None).
  { unfold x. destruct (grp r) as [y|], g as [m|]; try done; simpl.
    - destruct Hg as [[? ?] ?]. by repeat split.
    - destruct (store_create_ok (KeyedStoreLaws := SVL) 64) as [? E]; [lia|]. split; [split; [done|]|done].
      simpl. by rewrite E, fmap_empty. }
  destruct Hx as [[Hok Hm] Hn].
  destruct (store_put_ok (vars x) a (octstr_duplicate b) Hok) as (s' & -> & Hs' & Em).
  eexists. split; [done|]. split; [done|]. split; [done|]. split; [done|]. split; [done|]. simpl.
  split; [|done]. split; [done|]. simpl. by rewrite Em, fmap_insert, octstr_duplicate_spec, Hm.
Qed.

(** The first line is taken. *)
Definition popped r : Reader := set_lines r (gwlist_extract_first (lines r)).2 (stack r).

Lemma popped_items r : items (lines (popped r)) = tail (items (lines r)).
Proof. apply gwlist_extract_first_snd. Qed.

Lemma read_loop_line fuel h r loc ls :
  error_lineno r = 0 -> items (lines r) = loc :: ls ->
  read_loop (S fuel) h r = (r' ← read_line h (popped r) loc; read_loop fuel h r').
Proof.
  intros He Hl. unfold popped. simpl. rewrite He. simpl.
  pose proof (gwlist_extract_first_fst _ (lines r)) as H1.
  destruct (gwlist_extract_first (lines r)) as [o l]. rewrite Hl in H1. simpl in H1. by subst o.
Qed.

(** A reader that has seen an error, or all lines. *)
Definition failed r : Prop :=
  error_lineno r <> 0 /\ exists g k, group_rel (grp r) g /\ cfg_shows (cfg r) k.

(** One line that is not an include. *)
Lemma read_one d r l ls st g k :
  directive_of l = d -> (forall f, d <> Include f) -> sim r (l :: ls) st g k ->
  exists r', (forall fuel, read_loop (S fuel) hooks r = read_loop fuel hooks r') /\
    match run [d] g k with
    | Some (g', k') => sim r' ls st g' k'
    | None => failed r'
    end.
Proof.
  intros Hd Hi [Hl Hn Hs Hg Hk He]. destruct (items (lines r)) as [|loc locs] eqn:El; [done|].
  injection Hl as Eloc Els. apply Forall_cons in Hn as [Hpos Hn].
  assert (Hstep : forall P : Reader -> Prop,
    (exists r', read_line hooks (popped r) loc = Done r' /\ P r') ->
    exists r', (forall fuel, read_loop (S fuel) hooks r = read_loop fuel hooks r') /\ P r').
  { intros P (r' & Er & HP). exists r'. split; [|done]. intros fuel.
    by rewrite (read_loop_line _ _ _ _ _ He El), Er. }
  pose proof (popped_items r) as Ep. rewrite El in Ep. simpl tail in Ep.
  assert (Hsim : forall r' g' k', items (lines r') = locs -> stack r' = stack r -> group_rel (grp r') g' ->
    cfg_shows (cfg r') k' -> error_lineno r' = 0 -> sim r' ls st g' k').
  { intros r' g' k' E1 E2 ? ? ?. split; rewrite ?E1, ?E2; done. }
  pose proof (read_line_directive hooks (popped r) loc) as Hline. rewrite Eloc, Hd in Hline.
  apply Hstep. destruct d as [| | |f|n v]; cbn [run].
  - rewrite Hline. destruct (close_group_spec (popped r) (line_no loc) g k Hg Hk) as (r' & -> & E1 & E2 & H).
    eexists. split; [done|]. unfold finish in H. destruct g as [m|].
    + destruct (add_par k m) as [k'|]; cbn [mbind option_bind]; destruct H as [H1 H2].
      * apply Hsim; simpl; rewrite ?E1, ?E2, ?H2; done.
      * split; [simpl; rewrite H2; lia|]. by exists None, k.
    + destruct H as [H1 H2]. apply Hsim; simpl; rewrite ?E1, ?E2, ?H2; done.
  - eexists. split; [done|]. by apply Hsim.
  - eexists. split; [done|]. split; [simpl; lia|]. by exists g, k.
  - by destruct (Hi f).
  - destruct Hline as (a & b & <- & <- & ->).
    destruct (assign_spec (popped r) a b g Hg) as (r' & -> & E1 & E2 & E3 & E4 & H).
    exists r'. split; [done|]. apply Hsim; rewrite ?E1, ?E2, ?E3, ?E4; done.
Qed.

(** The lines of an include are put in front of the others. *)
Lemma read_include r l ls st g k f fs inner :
  directive_of l = Include f -> f ∉ st -> include_lines f = Some (fs, inner) -> sim r (l :: ls) st g k ->
  exists r', (forall fuel, read_loop (S fuel) hooks r = read_loop fuel hooks r') /\
    sim r' (inner ++ ls) (fs ++ st) g k.
Proof.
  intros Hd Hf Hi [Hl Hn Hs Hg Hk He]. destruct (items (lines r)) as [|loc locs] eqn:El; [done|].
  injection Hl as Eloc Els. apply Forall_cons in Hn as [_ Hn].
  pose proof (popped_items r) as Ep. rewrite El in Ep. simpl tail in Ep.
  pose proof (read_line_directive hooks (popped r) loc) as Hline. rewrite Eloc, Hd in Hline.
  destruct Hline as (o & Eo & Hline). pose proof (include_spec (popped r) o) as Hinc.
  rewrite Eo, Hi, Ep in Hinc. change (stack (popped r)) with (stack r) in Hinc. rewrite Hs in Hinc.
  rewrite decide_False in Hinc by done.
  destruct (Hinc Hn) as (r' & E & (E1 & E2 & E3) & Et & En & Es). exists r'. split.
  - intros fuel. by rewrite (read_loop_line _ _ _ _ _ He El), Hline, E.
  - split; rewrite ?E1, ?E2, ?E3; try done. by rewrite Et, <-Els.
Qed.

Lemma reads_loop st ls ds st' : reads st ls ds st' -> forall rest r g k,
  sim r (ls ++ rest) st g k ->
  exists n r', (forall fuel, read_loop (n + fuel) hooks r = read_loop fuel hooks r') /\
    match run ds g k with
    | Some (g', k') => sim r' rest st' g' k'
    | None => failed r'
    end.
Proof.
  induction 1 as [st|st st' l ls ds Hd Hr IH|st st1 st2 l ls f fs inner ds1 ds2 Hd Hf Hi Hr1 IH1 Hr2 IH2];
    intros rest r g k Hs.
  - by exists 0%nat, r.
  - destruct (read_one _ r l (ls ++ rest) st g k eq_refl Hd Hs) as (r1 & E1 & H1).
    change (run (directive_of l :: ds) g k) with (run ([directive_of l] ++ ds) g k). rewrite run_app.
    destruct (run [directive_of l] g k) as [[g1 k1]|]; simpl; [|by exists 1%nat, r1].
    destruct (IH rest r1 g1 k1 H1) as (n & r' & E2 & H2). exists (S n), r'. split; [|done].
    intros fuel. simpl plus. by rewrite E1.
  - destruct (read_include r l (ls ++ rest) st g k f fs inner Hd Hf Hi Hs) as (r1 & E1 & H1).
    destruct (IH1 (ls ++ rest) r1 g k H1) as (n1 & r2 & E2 & H2). rewrite run_app.
    destruct (run ds1 g k) as [[g1 k1]|]; simpl.
    2:{ exists (S n1), r2. split; [|done]. intros fuel. simpl plus. by rewrite E1. }
    destruct (IH2 rest r2 g1 k1 H2) as (n2 & r3 & E3 & H3). exists (S n1 + n2)%nat, r3. split; [|done].
    intros fuel. simpl plus. by rewrite E1, <-Nat.add_assoc, E2.
Qed.

Lemma initial_sim e main :
  texts (items e) = main -> numbered (items e) ->
  sim (MkReader e (push_front gwlist_create (octstr_duplicate (octstr_duplicate file))) None 0
         (cfg_create (SG := SG) (SM := SM) def file).1)
    main [octets file] None (MkConf ∅ ∅).
Proof.
  intros Et En. split; simpl; try done.
  - rewrite items_push, items_create. simpl. by rewrite !octstr_duplicate_spec.
  - destruct (store_create_ok (KeyedStoreLaws := SGL) 64) as [H1 E1]; [lia|].
    destruct (store_create_ok (KeyedStoreLaws := SML) 64) as [H2 E2]; [lia|].
    split; simpl; rewrite ?E1, ?E2; try done; apply map_Forall2_empty.
Qed.

(** C27 Reading a configuration whose included files are all there and
    none of them included twice gives, with enough fuel, what the
    configuration means: 0 and the groups, when every line that is not blank
    or a comment has an equals sign and every group names itself and has only
    variables that it may have; else -1. *)
Theorem cfg_read_spec main ds st :
  contents (octets file) = Some main -> reads [octets file] main ds st ->
  exists n, forall fuel, (n <= fuel)%nat ->
    exists c', cfg_read fuel hooks (cfg_create (SG := SG) (SM := SM) def file).1
      = Done (Some (if meaning ds then 0 else -1, c')) /\
    forall k, meaning ds = Some k -> cfg_shows c' k.
Proof.
  intros Hc Hr. pose proof (expand_file_spec (octstr_duplicate file) true) as He.
  rewrite octstr_duplicate_spec, Hc in He. destruct He as (e & Ee & Et & En).
  destruct (reads_loop _ _ _ _ Hr [] _ None (MkConf ∅ ∅)
    (initial_sim e (main ++ []) ltac:(by rewrite app_nil_r) En)) as (n & r & El & H).
  exists (S n). intros fuel Hf. pose proof (run_paragraphs ds [] (MkConf ∅ ∅)) as Hm.
  fold (meaning ds) in Hm. rewrite <-Hm. unfold cfg_read. simpl filename. rewrite Ee. cbn [must mbind outcome_bind].
  replace fuel with (n + S (fuel - S n))%nat by lia. rewrite El. simpl open_vars.
  destruct (run ds None (MkConf ∅ ∅)) as [[g k]|]; cbn [mbind option_bind].
  - destruct H as [Hl Hn Hs Hg Hk He]. simpl read_loop. rewrite He. simpl Z.eqb.
    pose proof (gwlist_extract_first_fst _ (lines r)) as H1. destruct (items (lines r)); [|done].
    destruct (gwlist_extract_first (lines r)) as [o l]. simpl in H1. subst o. cbn [mbind outcome_bind].
    destruct (close_group_spec (set_lines r l (stack r)) 1 g k Hg Hk) as (r' & -> & _ & _ & Hfin).
    cbn [mbind outcome_bind]. exists (cfg r'). destruct (finish g k) as [k'|]; destruct Hfin as [H2 H3]; rewrite H3.
    + simpl. rewrite He. split; [done|]. by intros k0 [= <-].
    + by split.
  - destruct H as (He & g & k & Hg & Hk). simpl read_loop. rewrite (proj2 (Z.eqb_neq _ _) He).
    cbn [mbind outcome_bind]. destruct (close_group_spec r 1 g k Hg Hk) as (r' & -> & _ & _ & Hfin).
    cbn [mbind outcome_bind]. exists (cfg r'). split; [|done].
    assert (He' : error_lineno r' <> 0) by (destruct (finish g k); destruct Hfin as [_ ->]; done).
    by rewrite (proj2 (Z.eqb_neq _ _) He').
Qed.

(** What a configuration shows is what the code finds in it. *)
Lemma cfg_get_shown c k name varname m :
  cfg_shows c k -> single_of k !! octets name = Some m -> allowed (octets name) (octets varname) = true ->
  exists g os, cfg_get_single_group c name = Done (Some g) /\ cfg_get hooks (Some g) varname = Done os /\
    octets <$> os = m !! octets varname.
Proof.
  intros [H1 _ H3 _] Hm Ha. unfold cfg_get_single_group. rewrite store_get_ok by done.
  specialize (H3 (octets name)). rewrite Hm in H3. inversion H3 as [g ? Hst E1 E2|]; subst.
  destruct Hst as [[Hok Hmap] Hname]. exists g. unfold cfg_get. cbn [must mbind outcome_bind].
  destruct (grp_name g) as [gn|]; [|done]. injection Hname as Hname.
  rewrite hooks_allowed, Hname, Ha, store_get_ok by done. cbn [negb mbind outcome_bind].
  eexists. split; [done|]. split; [done|]. rewrite <-Hmap.
  etransitivity; [|symmetry; apply lookup_fmap].
  destruct (store_map (vars g) !! octets varname); simpl; [|done]. by rewrite octstr_duplicate_spec.
Qed.

Lemma items_append_all {A} (xs : list A) (l : gwlist A) : items (foldl gwlist_append l xs) = items l ++ xs.
Proof.
  revert l. induction xs as [|x xs IH]; intros l; simpl; [by rewrite app_nil_r|].
  by rewrite IH, items_append, <-app_assoc.
Qed.

Lemma group_shown c k (name : String.string) m : cfg_shows c k -> single_of k !! cstr name = Some m ->
  exists g, cfg_get_single_group c (octstr_imm name) = Done (Some g) /\ stored (cstr name) g m.
Proof.
  intros [H1 _ H3 _] Hm. unfold cfg_get_single_group. rewrite store_get_ok, octstr_imm_octets by done.
  specialize (H3 (cstr name)). rewrite Hm in H3. inversion H3 as [g ? Hst E1 E2|]; subst. by exists g.
Qed.

Lemma groups_shown c k (name : String.string) : cfg_shows c k ->
  exists l, cfg_get_multi_group c (octstr_imm name) = Done l /\
    Forall2 (stored (cstr name)) (from_option items [] l) (default [] (multi_of k !! cstr name)).
Proof.
  intros [_ H2 _ H4]. unfold cfg_get_multi_group. rewrite store_get_ok, octstr_imm_octets by done.
  specialize (H4 (cstr name)). cbn [mbind outcome_bind]. eexists. split; [done|].
  destruct H4 as [l ms H|]; simpl; [|constructor]. by rewrite items_append_all, items_create.
Qed.

(** ** Variables of a group *)

Context {PL : ParseLib O} {PLL : ParseLaws PL}.

Lemma cfg_var_shown key g m (name : String.string) : stored key g m -> allowed key (cstr name) = true ->
  exists os, cfg_var hooks g name = Done os /\ octets <$> os = m !! cstr name.
Proof.
  intros [[Hok Hmap] Hname] Ha. unfold cfg_var, cfg_get. cbn [must mbind outcome_bind].
  destruct (grp_name g) as [gn|]; [|done]. injection Hname as Hname.
  rewrite hooks_allowed, Hname, octstr_imm_octets, Ha, store_get_ok by done. cbn [negb mbind outcome_bind].
  eexists. split; [done|]. rewrite <-Hmap, octstr_imm_octets. etransitivity; [|symmetry; apply lookup_fmap].
  destruct (store_map (vars g) !! cstr name); simpl; [|done]. by rewrite octstr_duplicate_spec.
Qed.

(** What [cfg_get_integer] returns and leaves in a variable. *)
Definition number (m : vars_map) (name : String.string) (n0 : Z) : Z * Z :=
  match m !! cstr name with
  | None => (-1, n0)
  | Some v => let '(r, n) := octstr_parse_long (octstr_create v) 0 0 n0 in (if r =? -1 then -1 else 0, n)
  end.

Definition number_or (m : vars_map) (name : String.string) (d : Z) : Z :=
  let rn := number m name 0 in if rn.1 =? -1 then d else rn.2.

Lemma cfg_get_integer_number key g m (name : String.string) n0 : stored key g m -> allowed key (cstr name) = true ->
  cfg_get_integer hooks n0 (Some g) (octstr_imm name) = Done (number m name n0).
Proof.
  intros Hs Ha. destruct (cfg_var_shown key g m name Hs Ha) as (os & E & Eo). unfold cfg_var in E.
  unfold cfg_get_integer, number. rewrite E. cbn [mbind outcome_bind]. rewrite <-Eo. destruct os as [o|]; [|done].
  change (octets <$> Some o) with (Some (octets o)). cbv iota.
  by rewrite (octstr_parse_long_proper (octstr_create (octets o)) o) by apply octets_create_octets.
Qed.

Lemma cfg_integer_or_number key g m (name : String.string) d : stored key g m -> allowed key (cstr name) = true ->
  cfg_integer_or hooks g name d = Done (number_or m name d).
Proof. intros Hs Ha. unfold cfg_integer_or. by rewrite (cfg_get_integer_number key g m name 0 Hs Ha). Qed.

Definition flag (m : vars_map) (name : String.string) : bool :=
  match m !! cstr name with
  | None => false
  | Some v =>
      is_word (octstr_create v) ["true"; "yes"; "on"; "1"]%string
      || negb (is_word (octstr_create v) ["false"; "no"; "off"; "0"]%string)
  end.

Lemma is_word_proper (a b : octstr) words : octets a = octets b -> is_word a words = is_word b words.
Proof.
  intros E. unfold is_word. induction words as [|w words IH]; simpl; [done|].
  by rewrite IH, (octstr_case_compare_proper a b _ E).
Qed.

Lemma cfg_get_bool_flag key g m (name : String.string) : stored key g m -> allowed key (cstr name) = true ->
  exists rn, cfg_get_bool hooks (Some g) (octstr_imm name) = Done rn /\ (rn.2 =? 1) = flag m name.
Proof.
  intros Hs Ha. destruct (cfg_var_shown key g m name Hs Ha) as (os & E & Eo). unfold cfg_var in E.
  unfold cfg_get_bool. rewrite E. cbn [mbind outcome_bind]. eexists. split; [done|]. unfold flag. rewrite <-Eo.
  destruct os as [o|]; [|done]. change (octets <$> Some o) with (Some (octets o)). cbv iota.
  rewrite !(is_word_proper (octstr_create (octets o)) o) by apply octets_create_octets.
  by destruct (is_word o _), (is_word o _).
Qed.

End Reading.

(** ** Reading ends *)

Section Ends.
Context {O : OctstrLib} {OL : OctstrLaws O} {L : GwListLib} {LL : GwListLaws L}
  {C : CfgStrings O L} {CL : CfgStringsLaws C} {F : Files O} {FL : FilesLaws F}
  {SV : KeyedStore O L octstr} {SG : KeyedStore O L CfgGroup} {SM : KeyedStore O L (gwlist CfgGroup)}.
Implicit Types (r : Reader) (h : Hooks).

(** The lines of the files that have not been read. *)
Fixpoint remaining (st names : list (list Z)) : nat :=
  match names with
  | [] => 0
  | f :: names =>
      (if decide (f ∈ st) then 0 else length (default [] (contents f))) + remaining st names
  end.

Lemma remaining_more st f names : (remaining (f :: st) names <= remaining st names)%nat.
Proof. induction names as [|g names IH]; simpl; [lia|]. repeat case_decide; try lia. set_solver. Qed.

Lemma remaining_read st f names :
  f ∈ names -> f ∉ st ->
  (remaining (f :: st) names + length (default [] (contents f)) <= remaining st names)%nat.
Proof.
  intros Hin Hf. induction names as [|g names IH]; simpl; [by apply elem_of_nil in Hin|].
  pose proof (remaining_more st f names). destruct (decide (g = f)) as [->|Hg].
  - rewrite decide_True by set_solver. rewrite (decide_False (P := f ∈ st)) by done. lia.
  - specialize (IH ltac:(set_solver)). repeat case_decide; try lia. set_solver.
Qed.

Context (names : list (list Z)).
Hypothesis files_named : forall o, is_Some (octstr_read_file o) -> octets o ∈ names.
Hypothesis no_directories : forall o, lstat_isdir o <> Some true.

Definition to_read r : nat := length (items (lines r)) + remaining (octets <$> items (stack r)) names.

Lemma close_group_lines h r e r' : close_group h r e = Done r' -> lines r' = lines r /\ stack r' = stack r.
Proof.
  unfold close_group. destruct (grp r) as [x|]; [|by intros [= <-]]. intros [[ret c] [_ E]]%bind_Done. by injection E as <-.
Qed.

Lemma include_lines_one f fs ls : include_lines f = Some (fs, ls) -> fs = [f] /\ contents f = Some ls.
Proof.
  unfold include_lines, included_names. pose proof (no_directories (octstr_create f)).
  destruct (lstat_isdir _) as [[|]|]; simpl; [done| |done].
  destruct (contents f) as [c|]; simpl; [|done]. intros [= <- <-]. by rewrite app_nil_r.
Qed.

Lemma contents_named f ls : contents f = Some ls -> Forall (fun c => 0 <= c < 256) f -> f ∈ names.
Proof.
  unfold contents. intros H Hf. rewrite <-(octets_create f Hf). apply files_named.
  destruct (octstr_read_file _); [by eexists|done].
Qed.

Lemma read_line_to_read h r loc r' :
  numbered (items (lines r)) -> read_line h r loc = Done r' ->
  (to_read r' <= to_read r)%nat /\ numbered (items (lines r')).
Proof.
  unfold to_read. intros Hn E.
  assert (Hsame : lines r' = lines r /\ stack r' = stack r ->
    (length (items (lines r')) + remaining (octets <$> items (stack r')) names <=
     length (items (lines r)) + remaining (octets <$> items (stack r)) names)%nat /\
    numbered (items (lines r'))) by (by intros [-> ->]).
  pose proof (read_line_directive h r loc) as Hd. destruct (directive_of _) as [| | |f|n v].
  - rewrite Hd in E. apply bind_Done in E as (r1 & E1 & [= <-]). apply Hsame. exact (close_group_lines _ _ _ _ E1).
  - rewrite Hd in E. injection E as <-. by apply Hsame.
  - rewrite Hd in E. injection E as <-. by apply Hsame.
  - destruct Hd as (o & <- & Eo). rewrite Eo in E. pose proof (include_spec r o) as Hi.
    case_decide as Hst; [congruence|]. destruct (include_lines (octets o)) as [[fs ls]|] eqn:El; [|congruence].
    apply include_lines_one in El as [-> Ec]. destruct (Hi Hn) as (r1 & E1 & _ & Et & Hn' & Es).
    rewrite E1 in E. injection E as <-. split; [|done]. rewrite Es.
    pose proof (remaining_read _ (octets o) names (contents_named _ _ Ec (octets_range o)) Hst) as Hr.
    rewrite Ec in Hr. simpl in Hr. apply (f_equal length) in Et. unfold texts in Et.
    rewrite length_app, !length_fmap in Et. simpl app. lia.
  - destruct Hd as (a & b & _ & _ & Ea). rewrite Ea in E. unfold assign in E.
    apply bind_Done in E as (g & _ & [= <-]). by apply Hsame.
Qed.

Lemma read_loop_ends h fuel : forall r,
  numbered (items (lines r)) -> (to_read r < fuel)%nat -> read_loop fuel h r <> Done None.
Proof.
  induction fuel as [|fuel IH]; intros r Hn Hf; [lia|]. destruct (decide (error_lineno r = 0)) as [He|He].
  2:{ simpl. by rewrite (proj2 (Z.eqb_neq _ _) He). }
  destruct (items (lines r)) as [|loc ls] eqn:El.
  - simpl. rewrite He. simpl. pose proof (gwlist_extract_first_fst _ (lines r)) as H1. rewrite El in H1.
    destruct (gwlist_extract_first (lines r)) as [o l]. simpl in H1. by subst o.
  - rewrite (read_loop_line _ _ _ _ _ He El). destruct (read_line h (popped r) loc) as [r'|] eqn:Er; simpl; [|done].
    pose proof (popped_items r) as Ep. rewrite El in Ep. simpl tail in Ep. apply Forall_cons in Hn as [_ Hn].
    destruct (read_line_to_read h (popped r) loc r') as [Hle Hn']; [by rewrite Ep|done|].
    apply IH; [done|]. unfold to_read in *. rewrite Ep in Hle. rewrite El in Hf.
    change (stack (popped r)) with (stack r) in Hle. simpl in Hf. lia.
Qed.

(** C28 When the file system has no directories, reading ends whatever the
    files are, also when they include each other: fuel for one turn more than
    all files together have lines is enough. *)
Theorem cfg_read_ends h (c : Cfg) fuel :
  (remaining [] names < fuel)%nat -> cfg_read fuel h c <> Done None.
Proof.
  intros Hf. unfold cfg_read. pose proof (expand_file_spec (filename c) true) as He.
  destruct (contents (octets (filename c))) as [ls|] eqn:Ec; [|by rewrite He].
  destruct He as (e & -> & Et & En). cbn [must mbind outcome_bind].
  match goal with |- context [read_loop fuel h ?r0] => set (r := r0) end.
  assert (Hr : (to_read r < fuel)%nat).
  { unfold to_read, r. simpl. rewrite items_push, items_create. simpl. rewrite octstr_duplicate_spec.
    pose proof (remaining_read [] _ names (contents_named _ _ Ec (octets_range _)) (not_elem_of_nil _)) as H.
    rewrite Ec in H. simpl in H. apply (f_equal length) in Et. unfold texts in Et.
    rewrite length_fmap in Et. simpl in Et. lia. }
  pose proof (read_loop_ends h fuel r En Hr) as Hl. destruct (read_loop fuel h r) as [[r'|]|]; [|done|done].
  simpl. by destruct (close_group h r' 1).
Qed.

End Ends.

(** ** Directories that include themselves *)

Section Cycle.
Context {O : OctstrLib} {OL : OctstrLaws O} {L : GwListLib} {LL : GwListLaws L}
  {C : CfgStrings O L} {CL : CfgStringsLaws C} {F : Files O} {FL : FilesLaws F}
  {SV : KeyedStore O L octstr} {SG : KeyedStore O L CfgGroup} {SM : KeyedStore O L (gwlist CfgGroup)}.

(** The names of the files of a directory are remembered, not that of the
    directory: a file in it whose first line includes the directory keeps
    [cfg_read] reading for ever. *)
Lemma directory_cycle h d fs l inner :
  directive_of l = Include d -> include_lines d = Some (fs, l :: inner) -> d ∉ fs ->
  forall fuel (r : Reader) rest,
    error_lineno r = 0 -> numbered (items (lines r)) -> texts (items (lines r)) = l :: rest ->
    d ∉ octets <$> items (stack r) -> read_loop fuel h r = Done None.
Proof.
  intros Hd Hi Hfs. induction fuel as [|fuel IH]; intros r rest He Hn Hl Hst; [done|].
  destruct (items (lines r)) as [|loc ls] eqn:El; [done|]. injection Hl as Eloc Els.
  rewrite (read_loop_line _ _ _ _ _ He El). pose proof (read_line_directive h (popped r) loc) as Hline.
  rewrite Eloc, Hd in Hline. destruct Hline as (o & Eo & ->). pose proof (include_spec (popped r) o) as Hinc.
  rewrite Eo, Hi, popped_items, El in Hinc. change (stack (popped r)) with (stack r) in Hinc.
  rewrite decide_False in Hinc by done. apply Forall_cons in Hn as [_ Hn].
  destruct (Hinc Hn) as (r' & -> & (_ & E2 & _) & Et & Hn' & Es). cbn [mbind outcome_bind].
  apply (IH r' (inner ++ texts ls)); [by rewrite E2|done|done|]. rewrite Es. set_solver.
Qed.

End Cycle.
