(* ===== verification/CfgExamples.v ===== *)
(** * Configurations on concrete inputs

    Strings as lists of octets, files as a table, and the theorems about
    configurations at work. *)

From S2P Require Import Prelude Gwlib Dict Cfg CfgDef CfgFacts CfgRead.
Open Scope Z_scope.

(** ** Strings *)

Fixpoint split_at (c : Z) (l : list Z) : list (list Z) :=
  match l with
  | [] => [[]]
  | x :: l =>
      match split_at c l with
      | p :: ps => if x =? c then [] :: p :: ps else (x :: p) :: ps
      | [] => [[x]]
      end
  end.

Fixpoint find_octets (p l : list Z) (i : Z) : Z :=
  if bool_decide (p `prefix_of` l) then i
  else match l with [] => -1 | _ :: l => find_octets p l (i + 1) end.

Definition lower (c : Z) : Z := if (65 <=? c) && (c <=? 90) then c + 32 else c.

#[export] Instance list_cfg_strings : CfgStrings list_octstr list_gwlist := {|
  octstr_strip_blanks l := strip (byte_of <$> l);
  octstr_split l s := split_at (default 0 (head (byte_of <$> s))) (byte_of <$> l);
  octstr_split_words l := List.filter (fun p => negb (bool_decide (p = []))) (split_at 32 (byte_of <$> l));
  octstr_search l p i := find_octets (byte_of <$> p) (drop (Z.to_nat i) (byte_of <$> l)) i;
  octstr_append_char l c := l ++ [c];
  octstr_case_compare a b := if decide (lower ∘ byte_of <$> a = lower ∘ byte_of <$> b) then 0 else 1;
|}.

Lemma strip_range l : Forall (fun c => 0 <= c < 256) l -> Forall (fun c => 0 <= c < 256) (strip l).
Proof.
  assert (Hl : forall l, Forall (fun c => 0 <= c < 256) l -> Forall (fun c => 0 <= c < 256) (lstrip l)).
  { induction 1; simpl; [constructor|]. destruct (isspace _); [done|by constructor]. }
  intros H. unfold strip. rewrite Forall_reverse. apply Hl. rewrite Forall_reverse. by apply Hl.
Qed.

Lemma find_octets_contains p l : forall i, 0 <= i -> find_octets p l i = -1 <-> contains p l = false.
Proof.
  induction l as [|c l IH]; intros i Hi; simpl; destruct (bool_decide _); simpl; try (split; [lia|done]).
  apply IH. lia.
Qed.

#[export] Instance list_cfg_strings_laws : CfgStringsLaws list_cfg_strings.
Proof.
  split; simpl; intros.
  - apply fmap_byte_of_id, strip_range. exact (octets_range (O := list_octstr) o).
  - by rewrite H.
  - rewrite drop_0, find_octets_contains by lia.
    rewrite <-contains_spec. by destruct (contains _ _).
  - by rewrite !list_fmap_compose, H.
  - rewrite fmap_app. simpl. by rewrite byte_of_id.
Qed.

(** ** Files *)

Fixpoint assoc {A} (t : list (list Z * A)) (k : list Z) : option A :=
  match t with [] => None | (k', v) :: t => if bool_decide (k' = k) then Some v else assoc t k end.

(** Files with their contents, directories with their names. *)
Definition table_files (files : list (list Z * list Z)) (dirs : list (list Z * list (list Z)))
    : Files list_octstr := {|
  octstr_read_file (f : @octstr list_octstr) := assoc files (byte_of <$> f);
  lstat_isdir f :=
    match assoc dirs (byte_of <$> f) with
    | Some _ => Some true
    | None => if assoc files (byte_of <$> f) then Some false else None
    end;
  readdir f := assoc dirs (byte_of <$> f);
|}.

#[export] Instance table_files_laws files dirs : FilesLaws (table_files files dirs).
Proof. split; simpl; intros a b H; by rewrite H. Qed.

(** ** Values *)

(** A value in quotes with an escaped backslash and an escaped quote. *)
Example quoted : parse_value (O := list_octstr) [32; 34; 97; 92; 92; 98; 92; 34; 99; 34; 13] = [97; 92; 98; 34; 99].
Proof. reflexivity. Qed.

Lemma parse_value_roundtrip_witness :
  octets (parse_value (O := list_octstr) ([32; 9] ++ quote [97; 92; 34; 98] ++ [13])) = [97; 92; 34; 98].
Proof. by apply (parse_value_roundtrip _ [32; 9] [13]); [repeat constructor..|]. Defined.

(** ** A configuration of two files *)

Definition main_text : list Z := cstr "group = core
admin-port = 13000

include = smsc.conf
# the end
"%string.

Definition smsc_text : list Z := cstr "group = smsc
smsc-id = a

group = smsc
smsc-id = b
port = 1
port = 2\
775
"%string.

Definition main_name : list Z := cstr "main.conf"%string.
Definition smsc_name : list Z := cstr "smsc.conf"%string.

#[local] Instance two_files : Files list_octstr :=
  table_files [(main_name, main_text); (smsc_name, smsc_text)] [].

#[local] Instance two_files_laws : FilesLaws two_files := table_files_laws _ _.

Definition main_lines : list (list Z) := default [] (contents main_name).
Definition smsc_lines : list (list Z) := default [] (contents smsc_name).

(** What the lines say, one by one. *)
Definition kv (n v : String.string) : directive := Assign (cstr n) (cstr v).

Definition smsc_directives : list directive :=
  [kv "group" "smsc"; kv "smsc-id" "a"; Blank; kv "group" "smsc"; kv "smsc-id" "b"; kv "port" "1";
   kv "port" "2775"; Blank; Blank]%string.

Definition main_directives : list directive :=
  [kv "group" "core"; kv "admin-port" "13000"; Blank]%string ++ smsc_directives ++ [Comment; Blank; Blank].

(** Read lines that include nothing. *)
Lemma reads_plain st ls rest ds st' :
  Forall (fun l => match directive_of l with Include _ => False | _ => True end) ls ->
  reads st rest ds st' -> reads st (ls ++ rest) ((directive_of <$> ls) ++ ds) st'.
Proof.
  induction 1 as [|l ls Hl Hls IH]; intros Hr; simpl; [done|]. constructor; [|by apply IH].
  intros f E. by rewrite E in Hl.
Qed.

Lemma main_reads :
  reads [main_name] main_lines main_directives [smsc_name; main_name].
Proof.
  assert (Hs : reads [smsc_name; main_name] smsc_lines smsc_directives [smsc_name; main_name]).
  { pose proof (reads_plain [smsc_name; main_name] smsc_lines [] [] [smsc_name; main_name]) as H.
    rewrite !app_nil_r in H. replace smsc_directives with (directive_of <$> smsc_lines) by reflexivity.
    apply H; [|constructor]. vm_compute. repeat constructor. }
  change main_lines with (take 3 main_lines ++ (cstr "include = smsc.conf"%string :: drop 4 main_lines)).
  change main_directives with ((directive_of <$> take 3 main_lines) ++ smsc_directives ++ (directive_of <$> drop 4 main_lines)).
  apply reads_plain; [vm_compute; repeat constructor|].
  apply (reads_include [main_name] [smsc_name; main_name] _ _ _ smsc_name [smsc_name] smsc_lines);
    [reflexivity|by vm_compute; set_solver|reflexivity|exact Hs|].
  rewrite <-(app_nil_r (drop 4 main_lines)), <-(app_nil_r (directive_of <$> _)).
  apply reads_plain; [vm_compute; repeat constructor|constructor].
Qed.

(** ** Reading it *)

#[local] Instance values : KeyedStore list_octstr list_gwlist octstr := DictStore.
#[local] Instance groups : KeyedStore list_octstr list_gwlist CfgGroup := DictStore.
#[local] Instance group_lists : KeyedStore list_octstr list_gwlist (gwlist CfgGroup) := DictStore.
#[local] Instance values_laws : KeyedStoreLaws values := DictStore_laws.
#[local] Instance groups_laws : KeyedStoreLaws groups := DictStore_laws.
#[local] Instance group_lists_laws : KeyedStoreLaws group_lists := DictStore_laws.

Example groups_found :
  (fun k => (fst <$> map_to_list (single_of k), length <$> multi_of k !! cstr "smsc"%string))
    <$> meaning cfg_def main_directives
  = Some ([cstr "core"%string], Some 2%nat).
Proof. vm_compute. reflexivity. Qed.

Lemma cfg_read_spec_witness :
  exists n, forall fuel, (n <= fuel)%nat ->
    exists c', cfg_read fuel (cfg_create cfg_def main_name).2 (cfg_create cfg_def main_name).1
      = Done (Some (if meaning cfg_def main_directives then 0 else -1, c')) /\
    forall k, meaning cfg_def main_directives = Some k -> cfg_shows c' k.
Proof. exact (cfg_read_spec cfg_def main_name main_lines main_directives _ eq_refl main_reads). Defined.

(** Files that include each other: the second is included once. *)
#[local] Instance two_cycles : Files list_octstr :=
  table_files [(main_name, cstr "include = smsc.conf"%string);
               (smsc_name, cstr "include = main.conf"%string)] [].

Lemma cfg_read_ends_witness :
  cfg_read 5 (cfg_create cfg_def main_name).2 (cfg_create cfg_def main_name).1 <> Done None.
Proof.
  apply (cfg_read_ends (F := two_cycles) (FL := table_files_laws _ _) [main_name; smsc_name]).
  - intros o [os E]. cbn in E. change (octets o) with (byte_of <$> o). repeat case_bool_decide; set_solver.
  - intros o. cbn. destruct (if bool_decide _ then _ else _); done.
  - apply Nat.ltb_lt. vm_compute. reflexivity.
Defined.

(** A directory with a file that includes it. *)
Definition include_d : list Z := cstr "include = d"%string.

#[local] Instance cyclic_directory : Files list_octstr :=
  table_files [(main_name, include_d); (cstr "d/a"%string, include_d)]
    [(cstr "d"%string, [cstr "."%string; cstr "a"%string; cstr ".."%string]);
     (cstr "d/."%string, []); (cstr "d/.."%string, [])].

Example never_ends fuel (h := (cfg_create cfg_def main_name).2) :
  cfg_read fuel h (cfg_create cfg_def main_name).1 = Done None.
Proof.
  unfold cfg_read. change (expand_file (filename _) true) with
    (Some [cfgloc_create main_name 1 include_d; cfgloc_create main_name 1 (octstr_create [10])]).
  cbn [must mbind outcome_bind].
  rewrite (directory_cycle (F := cyclic_directory) (FL := table_files_laws _ _) h (cstr "d"%string) [cstr "d/a"%string] include_d [[10]]
    ltac:(vm_compute; reflexivity) ltac:(vm_compute; reflexivity) ltac:(vm_compute; set_solver) fuel _ [[10]]); [done..|repeat constructor|done|].
  vm_compute. set_solver.
Qed.

(** ** Configurations from their groups *)

Module Described.

(** What a group with these assignments contains. *)
Definition described (l : list (String.string * String.string)) : vars_map :=
  list_to_map ((fun p => (cstr p.1, cstr p.2)) <$> l).

Fixpoint with_groups (k : conf) (ls : list (list (String.string * String.string))) : option conf :=
  match ls with
  | [] => Some k
  | l :: ls => k ← add_par cfg_def k (described l); with_groups k ls
  end.

Lemma group_described (l : list (String.string * String.string)) :
  exists g : CfgGroup (SV := DictStore), group_shows g (described l) /\ grp_name g = None.
Proof.
  induction l as [|[n v] l (g & [Hok Hmap] & Hn)]; simpl.
  - destruct (store_create_ok (V := octstr) (S := DictStore) 64) as [H E]; [lia|].
    exists create_group. split; [|done]. split; [done|].
    change (octets <$> store_map (store_create (KeyedStore := DictStore) 64) = ∅). by rewrite E.
  - destruct (store_put_ok (S := DictStore) (vars g) (octstr_imm n) (octstr_imm v) Hok) as (s & _ & Hs & Em).
    exists (MkGroup (grp_name g) s (configfile g) (grp_line g)). split; [|done]. split; [done|].
    change (octets <$> store_map s = described ((n, v) :: l)). rewrite Em, fmap_insert, Hmap, !octstr_imm_octets. done.
Qed.

Lemma groups_described (file : @octstr list_octstr) ls : forall k k' (c : Cfg (SV := DictStore) (SG := DictStore) (SM := DictStore)),
  cfg_shows c k -> with_groups k ls = Some k' -> exists c' : Cfg, cfg_shows c' k'.
Proof.
  induction ls as [|l ls IH]; intros k k' c Hc E; simpl in E; [injection E as <-; by exists c|].
  destruct (group_described l) as (g & Hg & Hn).
  destruct (add_group_spec cfg_def file c k g _ Hc Hg Hn) as (ret & c' & _ & _ & H).
  destruct (add_par cfg_def k (described l)) as [k1|]; [|done]. destruct H as [_ H]. by apply (IH k1 k' c' H).
Qed.

Lemma conf_described (file : @octstr list_octstr) ls k : with_groups (MkConf ∅ ∅) ls = Some k ->
  exists c : Cfg (SV := DictStore) (SG := DictStore) (SM := DictStore), cfg_shows c k.
Proof.
  apply (groups_described file ls _ _ (cfg_create (SG := DictStore) (SM := DictStore) cfg_def file).1).
  destruct (store_create_ok (V := CfgGroup (SV := DictStore)) (S := DictStore) 64) as [A1 A2]; [lia|].
  destruct (store_create_ok (V := gwlist (CfgGroup (SV := DictStore))) (S := DictStore) 64) as [B1 B2]; [lia|].
  split; simpl; rewrite ?A2, ?B2; try done; apply map_Forall2_empty.
Qed.

End Described.
