(* ===== verification/Date.v ===== *)
(** * Dates (gwlib/date.c)

    Points in time as texts and back.  The calendar of [gmtime] is counted
    day by day from January 1, 1970. *)

From S2P Require Import Prelude Gwlib.
Open Scope Z_scope.

(** ** The calendar *)

Record civil : Type := Civil { c_year : Z; c_month : Z; c_day : Z }.

Definition leap (y : Z) : bool := (y mod 4 =? 0) && (negb (y mod 100 =? 0) || (y mod 400 =? 0)).

Definition month_days (y m : Z) : Z :=
  default 0 ([31; if leap y then 29 else 28; 31; 30; 31; 30; 31; 31; 30; 31; 30; 31] !! Z.to_nat m).

Definition tomorrow (c : civil) : civil :=
  if c_day c <? month_days (c_year c) (c_month c) then Civil (c_year c) (c_month c) (c_day c + 1)
  else if c_month c <? 11 then Civil (c_year c) (c_month c + 1) 1
  else Civil (c_year c + 1) 0 1.

Definition yesterday (c : civil) : civil :=
  if 1 <? c_day c then Civil (c_year c) (c_month c) (c_day c - 1)
  else if 0 <? c_month c then
    Civil (c_year c) (c_month c - 1) (month_days (c_year c) (c_month c - 1))
  else Civil (c_year c - 1) 11 31.

Definition civil_of (days : Z) : civil :=
  if 0 <=? days then Nat.iter (Z.to_nat days) tomorrow (Civil 1970 0 1)
  else Nat.iter (Z.to_nat (- days)) yesterday (Civil 1970 0 1).

(** [struct tm]; [gmtime], with [tm_year] counted from 1900 and Sunday as
    day 0. *)
Record tm : Type := MkTm {
  tm_year : Z; tm_mon : Z; tm_mday : Z; tm_hour : Z; tm_min : Z; tm_sec : Z; tm_wday : Z
}.

Definition gw_gmtime (t : Z) : tm :=
  let c := civil_of (t / 86400) in
  let s := t mod 86400 in
  MkTm (c_year c - 1900) (c_month c) (c_day c) (s / 3600) (s / 60 mod 60) (s mod 60) ((t / 86400 + 4) mod 7).

(** ** From fields to seconds *)

Record universaltime : Type := MkUniversal {
  day : Z; month : Z; year : Z; hour : Z; minute : Z; second : Z
}.

Definition monthstart : list Z := [0; 31; 59; 90; 120; 151; 181; 212; 243; 273; 304; 334].
Definition MINUTE : Z := 60.
Definition HOUR : Z := 60 * MINUTE.
Definition DAY : Z := 24 * HOUR.

(** The results of additions and multiplications at their types: a signed
    integer that overflows is undefined behaviour. *)
Definition int_op (z : Z) : outcome Z := if bool_decide (- 2 ^ 31 <= z < 2 ^ 31) then Done z else Panic.

Definition long_op (z : Z) : outcome Z := if bool_decide (- 2 ^ 63 <= z < 2 ^ 63) then Done z else Panic.

(** The divisions of C round towards zero; the array is read without a
    check.  [DAY] is an [int]: [leapyears * DAY] and [monthstart[...] * DAY]
    are computed at the type [int], the other sums and products are [long]. *)
Definition date_convert_universal (t : universaltime) : outcome Z :=
  date ← (years ← long_op (year t - 1970); long_op (years * (365 * DAY)));
  y ← (if month t <=? 1 then long_op (year t - 1) else Done (year t));
  let leapyears := wrap_int (Z.quot y 4 - Z.quot y 100 + Z.quot y 400 - 477) in
  date ← (product ← int_op (leapyears * DAY); long_op (date + product));
  start ← must (if month t <? 0 then None else monthstart !! Z.to_nat (month t));
  date ← (product ← int_op (start * DAY); long_op (date + product));
  date ← (product ← (d ← long_op (day t - 1); long_op (d * DAY)); long_op (date + product));
  date ← (product ← long_op (hour t * HOUR); long_op (date + product));
  date ← (product ← long_op (minute t * MINUTE); long_op (date + product));
  long_op (date + second t).

(** ** Texts *)

(** [printf("%0<w>ld", z)] for a number that is not negative. *)
Definition zero_pad (w : nat) (z : Z) : list Z :=
  let ds := format_ld z in replicate (w - length ds) 48 ++ ds.

Definition wkday : list String.string := ["Sun"; "Mon"; "Tue"; "Wed"; "Thu"; "Fri"; "Sat"]%string.
Definition monthname : list String.string :=
  ["Jan"; "Feb"; "Mar"; "Apr"; "May"; "Jun"; "Jul"; "Aug"; "Sep"; "Oct"; "Nov"; "Dec"]%string.

Definition name_of (names : list String.string) (i : Z) : list Z := cstr (default EmptyString (names !! Z.to_nat i)).

Definition bad_tm (t : tm) : bool :=
  (tm_wday t <? 0) || (6 <? tm_wday t) || (tm_mday t <? 0) || (31 <? tm_mday t) ||
  (tm_mon t <? 0) || (11 <? tm_mon t) || (tm_year t <? 0) || (tm_hour t <? 0) || (23 <? tm_hour t) ||
  (tm_min t <? 0) || (59 <? tm_min t) || (tm_sec t <? 0) || (61 <? tm_sec t).

Section Date.
Context {O : OctstrLib} {P : ParseLib O}.

(** The text goes into a buffer of 30 characters; [unixtime] is unsigned and
    becomes a [time_t]. *)
Definition date_format_http (unixtime : Z) : outcome (option octstr) :=
  let t := gw_gmtime (wrap_long unixtime) in
  if bad_tm t then Done None
  else
    let text := name_of wkday (tm_wday t) ++ cstr ", " ++ zero_pad 2 (tm_mday t) ++ [32] ++
      name_of monthname (tm_mon t) ++ [32] ++ zero_pad 4 (tm_year t + 1900) ++ [32] ++
      zero_pad 2 (tm_hour t) ++ [58] ++ zero_pad 2 (tm_min t) ++ [58] ++ zero_pad 2 (tm_sec t) ++ cstr " GMT" in
    if (30 <? Z.of_nat (length text) + 1) then Panic else Done (Some (octstr_create text)).

Definition date_create_iso (unixtime : Z) : octstr :=
  let t := gw_gmtime unixtime in
  octstr_create (format_ld (tm_year t + 1900) ++ [45] ++ zero_pad 2 (tm_mon t + 1) ++ [45] ++
    zero_pad 2 (tm_mday t) ++ [84] ++ zero_pad 2 (tm_hour t) ++ [58] ++ zero_pad 2 (tm_min t) ++ [58] ++
    zero_pad 2 (tm_sec t) ++ [90]).

(** A number of the text that must end at a position. *)
Definition number_to (o : octstr) (pos stop : Z) : option Z :=
  let '(r, n) := octstr_parse_long o pos 10 0 in if r =? stop then Some n else None.

Definition isdigit (c : Z) : bool := is_digit_char c.

(** The loop over [monthname]; 12 when there is none. *)
Fixpoint find_month (names : list String.string) (i : Z) (monthstr : octstr) : Z :=
  match names with
  | [] => i
  | n :: names => if octstr_same monthstr (octstr_imm n) then i else find_month names (i + 1) monthstr
  end.

(** The three formats: the fields and the name of the month. *)
Definition parse_rfc822 (o : octstr) (pos : Z) : option (octstr * (Z -> universaltime)) :=
  if octstr_len o - pos <? 24 then None
  else
    day ← number_to o pos (pos + 2);
    year ← number_to o (pos + 7) (pos + 11);
    hour ← number_to o (pos + 12) (pos + 14);
    minute ← number_to o (pos + 15) (pos + 17);
    second ← number_to o (pos + 18) (pos + 20);
    Some (octstr_copy o (pos + 3) 3, fun m => MkUniversal day m year hour minute second).

Definition parse_rfc850 (o : octstr) (pos : Z) : option (octstr * (Z -> universaltime)) :=
  if octstr_len o - pos <? 22 then None
  else
    day ← number_to o pos (pos + 2);
    year ← number_to o (pos + 7) (pos + 9);
    hour ← number_to o (pos + 10) (pos + 12);
    minute ← number_to o (pos + 13) (pos + 15);
    second ← number_to o (pos + 16) (pos + 18);
    Some (octstr_copy o (pos + 3) 3,
          fun m => MkUniversal day m (if 60 <? year then year + 1900 else year + 2000) hour minute second).

Definition parse_asctime (o : octstr) (pos : Z) : option (octstr * (Z -> universaltime)) :=
  if octstr_len o - pos <? 16 then None
  else
    day ← number_to o (pos + 4) (pos + 6);
    hour ← number_to o (pos + 7) (pos + 9);
    minute ← number_to o (pos + 10) (pos + 12);
    second ← number_to o (pos + 13) (pos + 15);
    year ← number_to o (pos + 16) (pos + 20);
    Some (octstr_copy o pos 3, fun m => MkUniversal day m year hour minute second).

Definition date_parse_http (o : octstr) : outcome Z :=
  let pos := octstr_search_char o 32 0 in
  if (pos <? 0) || (pos =? octstr_len o - 1) then Done (-1)
  else
    let pos := pos + 1 in
    let first := octstr_get_char o pos in
    let third := octstr_get_char o (pos + 2) in
    let parsed :=
      if isdigit first && (third =? 32) then parse_rfc822 o pos
      else if isdigit first && (third =? 45) then parse_rfc850 o pos
      else parse_asctime o pos in
    match parsed with
    | None => Done (-1)
    | Some (monthstr, fields) =>
        let m := find_month monthname 0 monthstr in
        if m =? 12 then Done (-1) else date_convert_universal (fields m)
    end.

(** The loops of [date_parse_iso] over what is not a digit. *)
Fixpoint skip_to_digit (fuel : nat) (o : octstr) (pos : Z) : Z :=
  match fuel with
  | 0%nat => pos
  | S fuel =>
      let c := octstr_get_char o pos in
      if negb (c =? -1) && negb (is_digit_char c) then skip_to_digit fuel o (pos + 1) else pos
  end.

Definition next_number (o : octstr) (pos old : Z) : Z * Z :=
  octstr_parse_long o (skip_to_digit (Z.to_nat (octstr_len o)) o pos) 10 old.

Definition date_parse_iso (o : octstr) : Z * universaltime :=
  let '(pos, y) := octstr_parse_long o 0 10 0 in
  if pos <? 0 then (-1, MkUniversal 1 0 y 0 0 0)
  else
    let y := if y <? 70 then y + 2000 else if y <? 100 then y + 1900 else y in
    let '(pos, mo) := next_number o pos 0 in
    if pos <? 0 then (0, MkUniversal 1 mo y 0 0 0)
    else
      let mo := if 0 <? mo then mo - 1 else mo in
      let '(pos, d) := next_number o pos 1 in
      if pos <? 0 then (0, MkUniversal d mo y 0 0 0)
      else
        let '(pos, h) := next_number o pos 0 in
        if pos <? 0 then (0, MkUniversal d mo y h 0 0)
        else
          let '(pos, mi) := next_number o pos 0 in
          if pos <? 0 then (0, MkUniversal d mo y h mi 0)
          else let '(_, s) := next_number o pos 0 in (0, MkUniversal d mo y h mi s).

End Date.
