(* ===== verification/DateFacts.v ===== *)
(** * Theorems about dates

    The formula of [date_convert_universal] counts the days of the calendar,
    and the texts that are written are read back as the same second. *)

From S2P Require Import Prelude Gwlib Date.
Open Scope Z_scope.

(** ** Counting days *)

(** What the formula of the code counts, without the bounds of integers. *)
Definition leap_count (y : Z) : Z := y / 4 - y / 100 + y / 400 - 477.

Definition month_start (m : Z) : Z := default 0 (monthstart !! Z.to_nat m).

Definition days (c : civil) : Z :=
  (c_year c - 1970) * 365 + leap_count (if c_month c <=? 1 then c_year c - 1 else c_year c) +
  month_start (c_month c) + (c_day c - 1).

Record valid (c : civil) : Prop := {
  v_year : 1970 <= c_year c;
  v_month : 0 <= c_month c <= 11;
  v_day : 1 <= c_day c <= month_days (c_year c) (c_month c)
}.

(** Case analysis on the number of a month. *)
Lemma month_cases m : 0 <= m <= 11 ->
  m = 0 \/ m = 1 \/ m = 2 \/ m = 3 \/ m = 4 \/ m = 5 \/ m = 6 \/ m = 7 \/ m = 8 \/ m = 9 \/ m = 10 \/ m = 11.
Proof. lia. Qed.

Ltac cases_of_month H := apply month_cases in H; destruct_or! H; subst.

Lemma leap_count_step y : leap_count y = leap_count (y - 1) + (if leap y then 1 else 0).
Proof.
  unfold leap_count, leap.
  destruct (Z.eqb_spec (y mod 4) 0), (Z.eqb_spec (y mod 100) 0), (Z.eqb_spec (y mod 400) 0); simpl;
    Z.div_mod_to_equations; lia.
Qed.

Lemma month_days_range y m : 0 <= m <= 11 -> 28 <= month_days y m <= 31.
Proof. intros H. unfold month_days. cases_of_month H; simpl; try lia. by destruct (leap y). Qed.

Lemma days_tomorrow c : valid c -> days (tomorrow c) = days c + 1.
Proof.
  destruct c as [y m d]. intros [Hy Hm Hd]. unfold days, tomorrow. simpl in *.
  destruct (Z.ltb_spec d (month_days y m)) as [Hlt|Hge]; simpl; [lia|].
  assert (d = month_days y m) as -> by lia. pose proof (leap_count_step y) as Hl.
  unfold month_days, month_start in *. cases_of_month Hm; simpl; try lia.
  - destruct (leap y); lia.
  - replace (y + 1 - 1) with y by lia. lia.
Qed.

Lemma valid_tomorrow c : valid c -> valid (tomorrow c).
Proof.
  destruct c as [y m d]. intros [Hy Hm Hd]. unfold tomorrow. simpl in *.
  destruct (Z.ltb_spec d (month_days y m)) as [Hlt|Hge]; [split; simpl; lia|].
  destruct (Z.ltb_spec m 11) as [Hm'|Hm'].
  - pose proof (month_days_range y (m + 1)). split; simpl; lia.
  - pose proof (month_days_range (y + 1) 0). split; simpl; lia.
Qed.

Lemma year_tomorrow c : c_year (tomorrow c) <= c_year c + 1.
Proof. unfold tomorrow. repeat case_match; simpl; lia. Qed.

Lemma iter_tomorrow k :
  let c := Nat.iter k tomorrow (Civil 1970 0 1) in
  valid c /\ days c = Z.of_nat k /\ c_year c <= 1970 + Z.of_nat k.
Proof.
  induction k as [|k (Hv & Hd & Hy)]; [by repeat split|]. simpl in *.
  split; [by apply valid_tomorrow|]. rewrite days_tomorrow, Hd by done.
  pose proof (year_tomorrow (Nat.iter k tomorrow (Civil 1970 0 1))). lia.
Qed.

Lemma civil_of_spec n :
  0 <= n -> valid (civil_of n) /\ days (civil_of n) = n /\ c_year (civil_of n) <= 1970 + n.
Proof.
  intros Hn. unfold civil_of. rewrite (proj2 (Z.leb_le 0 n) Hn).
  pose proof (iter_tomorrow (Z.to_nat n)) as H. by rewrite Z2Nat.id in H.
Qed.

Lemma wrap_long_id z : - 2 ^ 63 <= z < 2 ^ 63 -> wrap_long z = z.
Proof. intros H. unfold wrap_long. rewrite Z.mod_small; lia. Qed.

Lemma wrap_int_id z : - 2 ^ 31 <= z < 2 ^ 31 -> wrap_int z = z.
Proof. intros H. unfold wrap_int. rewrite Z.mod_small; lia. Qed.

Lemma int_op_Done z : - 2 ^ 31 <= z < 2 ^ 31 -> int_op z = Done z.
Proof. intros H. unfold int_op. by rewrite bool_decide_eq_true_2. Qed.

Lemma int_op_Panic z : 2 ^ 31 <= z -> int_op z = Panic.
Proof. intros H. unfold int_op. rewrite bool_decide_eq_false_2; [done|lia]. Qed.

Lemma long_op_Done z : - 2 ^ 63 <= z < 2 ^ 63 -> long_op z = Done z.
Proof. intros H. unfold long_op. by rewrite bool_decide_eq_true_2. Qed.

(** Goes over one operation that does not overflow. *)
Ltac no_overflow :=
  match goal with
  | |- context [long_op ?z] => rewrite (long_op_Done z) by lia
  | |- context [int_op ?z] => rewrite (int_op_Done z) by lia
  end; cbn [mbind outcome_bind].

Lemma month_start_lookup m :
  0 <= m <= 11 -> monthstart !! Z.to_nat m = Some (month_start m) /\ 0 <= month_start m <= 334.
Proof. intros H. by cases_of_month H. Qed.

(** The year of a leap day, and how many the formula counts. *)
Definition leap_year (c : civil) : Z := if c_month c <=? 1 then c_year c - 1 else c_year c.

Lemma leap_count_bounds y : 1969 <= y -> 0 <= leap_count y /\ leap_count y <= y - 1969.
Proof. intros H. unfold leap_count. Z.div_mod_to_equations. lia. Qed.

Lemma leap_year_bounds c : valid c -> 1969 <= leap_year c <= c_year c /\ c_year c - 1 <= leap_year c.
Proof. intros [Hy _ _]. unfold leap_year. destruct (c_month c <=? 1); lia. Qed.

(** The year, up to the first product of type [int]. *)
Lemma convert_years c h mi s :
  valid c -> c_year c <= 2 ^ 30 ->
  date_convert_universal (MkUniversal (c_day c) (c_month c) (c_year c) h mi s) =
  (product ← int_op (leap_count (leap_year c) * DAY);
   date ← long_op ((c_year c - 1970) * (365 * DAY) + product);
   start ← must (if c_month c <? 0 then None else monthstart !! Z.to_nat (c_month c));
   date ← (product ← int_op (start * DAY); long_op (date + product));
   date ← (product ← (d ← long_op (c_day c - 1); long_op (d * DAY)); long_op (date + product));
   date ← (product ← long_op (h * HOUR); long_op (date + product));
   date ← (product ← long_op (mi * MINUTE); long_op (date + product));
   long_op (date + s)).
Proof.
  intros Hv Hb. pose proof (leap_year_bounds c Hv) as [Hly _]. pose proof (v_year c Hv) as Hy.
  pose proof (leap_count_bounds (leap_year c) ltac:(lia)) as [Hl1 Hl2].
  unfold date_convert_universal. cbn [day month year hour minute second].
  rewrite (long_op_Done (c_year c - 1970)) by lia. cbn [mbind outcome_bind].
  rewrite (long_op_Done ((c_year c - 1970) * _)) by (unfold DAY, HOUR, MINUTE; lia). cbn [mbind outcome_bind].
  assert (E' : (if c_month c <=? 1 then long_op (c_year c - 1) else Done (c_year c)) = Done (leap_year c)).
  { unfold leap_year. destruct (c_month c <=? 1); [apply long_op_Done; lia|done]. }
  rewrite E'. cbn [mbind outcome_bind]. rewrite !Z.quot_div_nonneg by lia.
  fold (leap_count (leap_year c)). rewrite (wrap_int_id (leap_count _)) by lia.
  by destruct (int_op _).
Qed.

Lemma convert_days c h mi s :
  valid c -> c_year c <= 2 ^ 30 -> leap_count (leap_year c) <= 24855 ->
  0 <= h < 24 -> 0 <= mi < 60 -> 0 <= s < 60 ->
  date_convert_universal (MkUniversal (c_day c) (c_month c) (c_year c) h mi s)
  = Done (days c * 86400 + h * 3600 + mi * 60 + s).
Proof.
  intros Hv Hb Hl Hh Hmi Hs. rewrite convert_years by done.
  pose proof (leap_year_bounds c Hv) as [Hly _].
  pose proof (leap_count_bounds (leap_year c) ltac:(lia)) as [Hl1 _].
  destruct Hv as [Hy Hm Hd]. destruct (month_start_lookup _ Hm) as [E Hr].
  pose proof (month_days_range (c_year c) _ Hm) as Hmd.
  rewrite (proj2 (Z.ltb_ge (c_month c) 0)) by lia. rewrite E. cbn [must mbind outcome_bind].
  unfold DAY, HOUR, MINUTE. repeat no_overflow.
  f_equal. unfold days. fold (leap_year c). lia.
Qed.

(** For how many days the formula has no overflow: about 101,000 years. *)
Definition last_day : Z := 37 * 10 ^ 6.

Lemma leap_count_before c : valid c -> days c <= last_day -> leap_count (leap_year c) <= 24855.
Proof.
  intros Hv Hd. pose proof (leap_year_bounds c Hv) as [Hly _].
  unfold days in Hd. fold (leap_year c) in Hd. destruct Hv as [Hy Hm Hday].
  destruct (month_start_lookup _ Hm) as [_ Hr].
  unfold last_day, leap_count in *. Z.div_mod_to_equations. lia.
Qed.

(** C40 The formula for the seconds since 1970, with its leap years, is the
    calendar: for every day counted from January 1, 1970, one by one, up to
    day 37,000,000 (in the year 103,272), and every time of that day,
    [date_convert_universal] returns the number of the day times the seconds
    of a day and the seconds since midnight, and no operation overflows.  For
    later days the [int] product of the leap years overflows
    ([date_convert_universal_overflows]). *)
Theorem date_convert_universal_counts n h mi s :
  0 <= n <= last_day -> 0 <= h < 24 -> 0 <= mi < 60 -> 0 <= s < 60 ->
  let c := civil_of n in
  date_convert_universal (MkUniversal (c_day c) (c_month c) (c_year c) h mi s)
  = Done (n * 86400 + h * 3600 + mi * 60 + s).
Proof.
  intros Hn Hh Hmi Hs. destruct (civil_of_spec n ltac:(lia)) as (Hv & Hd & Hy). simpl.
  rewrite convert_days; try done; try (unfold last_day in Hn; lia).
  - by rewrite Hd.
  - apply leap_count_before; [done|lia].
Qed.

Lemma date_convert_universal_counts_witness :
  date_convert_universal (MkUniversal 29 1 2096 12 0 1) = Done (46080 * 86400 + 12 * 3600 + 0 * 60 + 1).
Proof.
  change (MkUniversal 29 1 2096 12 0 1) with
    (let c := Civil 2096 1 29 in MkUniversal (c_day c) (c_month c) (c_year c) 12 0 1).
  replace (Civil 2096 1 29) with (civil_of 46080) by (vm_compute; reflexivity).
  apply (date_convert_universal_counts 46080 12 0 1); unfold last_day; lia.
Defined.

(** From day 37,500,000 on (in the year 104,641) the product is too big for
    an [int]: what the code does is undefined. *)
Theorem date_convert_universal_overflows n h mi s :
  37500000 <= n <= 10 ^ 9 ->
  let c := civil_of n in
  date_convert_universal (MkUniversal (c_day c) (c_month c) (c_year c) h mi s) = Panic.
Proof.
  intros Hn. destruct (civil_of_spec n ltac:(lia)) as (Hv & Hd & Hy). simpl.
  rewrite convert_years by (done || lia). rewrite int_op_Panic; [done|].
  pose proof (leap_year_bounds _ Hv) as [Hly Hly'].
  unfold days in Hd. fold (leap_year (civil_of n)) in Hd.
  destruct Hv as [Hy0 Hm Hday]. destruct (month_start_lookup _ Hm) as [_ Hr].
  pose proof (month_days_range (c_year (civil_of n)) _ Hm).
  unfold DAY, HOUR, MINUTE, leap_count in *. Z.div_mod_to_equations. lia.
Qed.

(** ** Digits *)

Definition digits2 (n : Z) : list Z := [48 + n / 10; 48 + n mod 10].
Definition digits4 (n : Z) : list Z := digits2 (n / 100) ++ digits2 (n mod 100).

Lemma by_table (f g : Z -> list Z) (k : nat) :
  forallb (fun i => bool_decide (f (Z.of_nat i) = g (Z.of_nat i))) (seq 0 k) = true ->
  forall n, 0 <= n < Z.of_nat k -> f n = g n.
Proof.
  rewrite forallb_forall. intros H n Hn. rewrite <-(Z2Nat.id n) by lia.
  specialize (H (Z.to_nat n)). apply bool_decide_eq_true_1 in H; [done|]. apply in_seq. lia.
Qed.

Lemma zero_pad2 n : 0 <= n < 100 -> zero_pad 2 n = digits2 n.
Proof. apply (by_table _ _ 100). vm_compute. reflexivity. Qed.

Lemma zero_pad4 n : 0 <= n < 10000 -> zero_pad 4 n = digits4 n.
Proof. apply (by_table _ _ 10000). vm_compute. reflexivity. Qed.

Lemma format_year n : 1000 <= n < 10000 -> format_ld n = digits4 n.
Proof.
  intros Hn. rewrite <-zero_pad4 by lia. unfold zero_pad.
  assert (El : (4 <= length (format_ld n))%nat); [|by replace (4 - _)%nat with 0%nat by lia].
  assert (H : forall m, 0 <= m < 9000 -> [Z.of_nat (length (format_ld (1000 + m)))] = [4]).
  { apply (by_table (fun m => [Z.of_nat (length (format_ld (1000 + m)))]) (fun _ => [4]) 9000). vm_compute. reflexivity. }
  specialize (H (n - 1000) ltac:(lia)). replace (1000 + (n - 1000)) with n in H by lia. injection H as H. lia.
Qed.

Lemma digits2_digits n : 0 <= n < 100 -> Forall (fun c => is_digit_char c = true) (digits2 n).
Proof.
  intros Hn. unfold digits2, is_digit_char.
  repeat constructor; apply andb_true_intro; rewrite !Z.leb_le; Z.div_mod_to_equations; lia.
Qed.

Lemma digits2_range n : 0 <= n < 100 -> Forall (fun c => 0 <= c < 256) (digits2 n).
Proof. intros Hn. unfold digits2. repeat constructor; Z.div_mod_to_equations; lia. Qed.

Lemma digits2_value n : decimal_value (digits2 n) = n.
Proof. unfold decimal_value, digits2. simpl. Z.div_mod_to_equations. lia. Qed.

Lemma digits4_digits n : 0 <= n < 10000 -> Forall (fun c => is_digit_char c = true) (digits4 n).
Proof.
  intros Hn. apply Forall_app. split; apply digits2_digits; Z.div_mod_to_equations; lia.
Qed.

Lemma digits4_range n : 0 <= n < 10000 -> Forall (fun c => 0 <= c < 256) (digits4 n).
Proof.
  intros Hn. apply Forall_app. split; apply digits2_range; Z.div_mod_to_equations; lia.
Qed.

Lemma digits4_value n : decimal_value (digits4 n) = n.
Proof. unfold decimal_value, digits4, digits2. simpl. Z.div_mod_to_equations. lia. Qed.

(** ** Names *)

Lemma wkday_letters w : 0 <= w <= 6 ->
  exists a b c, name_of wkday w = [a; b; c] /\ Forall (fun x => 32 < x < 256) [a; b; c].
Proof.
  intros H. assert (w = 0 \/ w = 1 \/ w = 2 \/ w = 3 \/ w = 4 \/ w = 5 \/ w = 6) as Hw by lia.
  destruct_or! Hw; subst; do 3 eexists; (split; [reflexivity|repeat constructor; lia]).
Qed.

Section Texts.
Context {O : OctstrLib} {OL : OctstrLaws O} {P : ParseLib O} {PL : ParseLaws P}.
Implicit Types (o : octstr).

Lemma monthname_letters m : 0 <= m <= 11 ->
  exists a b c, name_of monthname m = [a; b; c] /\ Forall (fun x => 0 <= x < 256) [a; b; c] /\
    forall o, octets o = [a; b; c] -> find_month monthname 0 o = m.
Proof.
  intros H. cases_of_month H; do 3 eexists; (split; [reflexivity|]; split; [repeat constructor; lia|]);
    intros o E; unfold monthname; simpl find_month; rewrite !octstr_same_imm, E; reflexivity.
Qed.

Lemma number_to_spec o (p : nat) stop ds rest :
  drop p (octets o) = ds ++ rest -> Forall (fun c => is_digit_char c = true) ds -> ds <> [] ->
  (forall c, head rest = Some c -> is_digit_char c = false) -> decimal_value ds < 2 ^ 63 ->
  stop = Z.of_nat p + Z.of_nat (length ds) -> number_to o (Z.of_nat p) stop = Some (decimal_value ds).
Proof.
  intros E Hd Hn Hr Hv ->. unfold number_to.
  rewrite (octstr_parse_long_digits o p 0 [] ds rest) by (done || constructor).
  rewrite (proj2 (Z.eqb_eq _ _)); [done|simpl; lia].
Qed.

(** ** Times of the years up to 9999 *)

Definition last_second : Z := 253402300800.

Lemma gmtime_fields t : 0 <= t < last_second ->
  exists y m d h mi sec w,
    gw_gmtime t = MkTm (y - 1900) m d h mi sec w /\ 1970 <= y <= 9999 /\ 0 <= m <= 11 /\ 1 <= d <= 31 /\
    0 <= h < 24 /\ 0 <= mi < 60 /\ 0 <= sec < 60 /\ 0 <= w <= 6 /\
    date_convert_universal (MkUniversal d m y h mi sec) = Done t.
Proof.
  intros Ht. unfold last_second in Ht. unfold gw_gmtime.
  assert (Hn : 0 <= t / 86400 < 2932897) by (Z.div_mod_to_equations; lia).
  destruct (civil_of_spec (t / 86400)) as (Hv & Hday & _); [lia|].
  destruct (civil_of (t / 86400)) as [y m d]. pose proof Hv as [Hy Hm Hmd]. simpl in *.
  pose proof (month_days_range y m Hm). destruct (month_start_lookup m Hm) as [_ Hms].
  assert (Hy' : y <= 9999).
  { unfold days, leap_count in Hday. simpl in Hday. destruct (Z.leb_spec m 1); Z.div_mod_to_equations; lia. }
  do 7 eexists. split; [reflexivity|]. split; [lia|]. split; [done|]. split; [lia|].
  set (sod := t mod 86400). assert (Hsod : 0 <= sod < 86400) by (apply Z.mod_pos_bound; lia).
  assert (Hr : 0 <= sod / 3600 < 24 /\ 0 <= (sod / 60) mod 60 < 60 /\ 0 <= sod mod 60 < 60 /\
    sod / 3600 * 3600 + (sod / 60) mod 60 * 60 + sod mod 60 = sod) by (Z.div_mod_to_equations; lia).
  destruct Hr as (H1 & H2 & H3 & E). split_and!; try done; try lia; [Z.div_mod_to_equations; lia..|].
  pose proof (convert_days (Civil y m d) (sod / 3600) ((sod / 60) mod 60) (sod mod 60) Hv) as Hc. simpl in Hc.
  assert (Hlast : leap_count (leap_year (Civil y m d)) <= 24855).
  { apply leap_count_before; [done|]. unfold last_day. lia. }
  rewrite Hc, Hday by (done || lia). f_equal. unfold sod in *. pose proof (Z.div_mod t 86400). lia.
Qed.

(** The text of a date, digit by digit. *)
Lemma date_format_http_text t : 0 <= t < last_second ->
  exists y m d h mi sec w1 w2 w3 m1 m2 m3 o,
    date_format_http t = Done (Some o) /\
    octets o = [w1; w2; w3; 44; 32] ++ digits2 d ++ 32 :: [m1; m2; m3] ++ 32 :: digits4 y ++ 32 :: digits2 h ++
      58 :: digits2 mi ++ 58 :: digits2 sec ++ [32; 71; 77; 84] /\
    Forall (fun c => c <> 32) [w1; w2; w3] /\ (forall mo, octets mo = [m1; m2; m3] -> find_month monthname 0 mo = m) /\
    1970 <= y <= 9999 /\ 0 <= m <= 11 /\ 1 <= d <= 31 /\ 0 <= h < 24 /\ 0 <= mi < 60 /\ 0 <= sec < 60 /\
    date_convert_universal (MkUniversal d m y h mi sec) = Done t.
Proof.
  intros Ht. destruct (gmtime_fields t Ht) as (y & m & d & h & mi & sec & w & E & Hy & Hm & Hd & Hh & Hmi & Hs & Hw & Hc).
  destruct (wkday_letters _ Hw) as (w1 & w2 & w3 & Ew & Hwd).
  destruct (monthname_letters _ Hm) as (m1 & m2 & m3 & Emo & Hmn & Hf).
  exists y, m, d, h, mi, sec, w1, w2, w3, m1, m2, m3. unfold date_format_http, bad_tm.
  rewrite wrap_long_id by (unfold last_second in Ht; lia). rewrite E. cbn [tm_wday tm_mday tm_mon tm_year tm_hour tm_min tm_sec].
  repeat rewrite (fun a b => proj2 (Z.ltb_ge a b)) by lia. cbn [orb].
  replace (y - 1900 + 1900) with y by lia. rewrite !zero_pad2, zero_pad4, Ew, Emo by lia.
  eexists. split; [reflexivity|]. split.
  - etransitivity; [apply octets_create|reflexivity].
    pose proof (digits2_range d ltac:(lia)). pose proof (digits4_range y ltac:(lia)).
    pose proof (digits2_range h ltac:(lia)). pose proof (digits2_range mi ltac:(lia)). pose proof (digits2_range sec ltac:(lia)).
    repeat first [assumption|apply Forall_nil|apply Forall_cons; split; [lia|]|apply Forall_app; split];
      [|apply cstr_range..]. eapply Forall_impl; [exact Hwd|]. simpl. lia.
  - split_and!; try done; try lia. eapply Forall_impl; [exact Hwd|]. simpl. lia.
Qed.

Lemma date_drop o p l l' : octets o = l ++ l' -> length l = p -> drop p (octets o) = l'.
Proof. intros -> <-. apply drop_app_length. Qed.

(** A number of a text whose octets are known. *)
Ltac text_number Hn Eo p ds :=
  eapply (Hn p ds);
  [rewrite Eo; reflexivity|first [apply digits2_value|apply digits4_value; lia]|lia|done|done|by intros ? [= <-]].

(** A time of the years up to 9999 written as an HTTP date is read back
    as the same time: the day, the month's name, the year and the time of day
    all arrive in their places. *)
Lemma date_http_roundtrip t : 0 <= t < last_second ->
  exists o, date_format_http t = Done (Some o) /\ date_parse_http o = Done t.
Proof.
  intros Ht. destruct (date_format_http_text t Ht) as (y & m & d & h & mi & sec & w1 & w2 & w3 & m1 & m2 & m3 & o &
    E & Eo & Hw & Hf & Hy & Hm & Hd & Hh & Hmi & Hs & Hc).
  exists o. split; [done|].
  apply Forall_cons in Hw as [Hw1 Hw]. apply Forall_cons in Hw as [Hw2 Hw]. apply Forall_cons in Hw as [Hw3 _].
  assert (Hp : octstr_search_char o 32 0 = 4).
  { rewrite (octstr_search_char_spec o 32 0 : octstr_search_char o 32 0 = _), drop_0, Eo.
    simpl. by rewrite !decide_False by done. }
  assert (Hl : octstr_len o = 29) by (by rewrite octstr_len_spec, Eo).
  pose proof (digits2_digits d ltac:(lia)) as Dd. pose proof (digits4_digits y ltac:(lia)) as Dy.
  pose proof (digits2_digits h ltac:(lia)) as Dh. pose proof (digits2_digits mi ltac:(lia)) as Dmi.
  pose proof (digits2_digits sec ltac:(lia)) as Ds.
  assert (Hfirst : isdigit (octstr_get_char o 5) = true).
  { rewrite (octstr_get_char_spec o 5 : octstr_get_char o 5 = _), Eo. by apply Forall_cons in Dd as [Dd _]. }
  assert (Hthird : octstr_get_char o 7 = 32) by (by rewrite (octstr_get_char_spec o 7 : octstr_get_char o 7 = _), Eo).
  assert (Hmon : octets (octstr_copy o 8 3) = [m1; m2; m3]).
  { by rewrite (octstr_copy_spec o 8 3 : octets (octstr_copy o 8 3) = _), Eo. }
  assert (Hnum : forall (p : nat) ds v rest, drop p (octets o) = ds ++ rest -> decimal_value ds = v -> v < 10000 ->
    Forall (fun c => is_digit_char c = true) ds -> ds <> [] -> (forall c, head rest = Some c -> is_digit_char c = false) ->
    number_to o (Z.of_nat p) (Z.of_nat p + Z.of_nat (length ds)) = Some v).
  { intros p ds v rest E1 <- Hv Hd1 Hn Hr. eapply number_to_spec; eauto. lia. }
  assert (Hday : number_to o 5 7 = Some d) by text_number Hnum Eo 5%nat (digits2 d).
  assert (Hyear : number_to o 12 16 = Some y) by text_number Hnum Eo 12%nat (digits4 y).
  assert (Hhour : number_to o 17 19 = Some h) by text_number Hnum Eo 17%nat (digits2 h).
  assert (Hmin : number_to o 20 22 = Some mi) by text_number Hnum Eo 20%nat (digits2 mi).
  assert (Hsec : number_to o 23 25 = Some sec) by text_number Hnum Eo 23%nat (digits2 sec).
  unfold date_parse_http. rewrite Hp, Hl. change ((4 <? 0) || (4 =? 29 - 1)) with false. cbv iota.
  change (4 + 1) with 5. change (5 + 2) with 7. rewrite Hfirst, Hthird. change (32 =? 32) with true. cbn [andb].
  unfold parse_rfc822. rewrite Hl. change (29 - 5 <? 24) with false. cbv iota.
  change (5 + 2) with 7. change (5 + 7) with 12. change (5 + 11) with 16. change (5 + 12) with 17. change (5 + 14) with 19.
  change (5 + 15) with 20. change (5 + 17) with 22. change (5 + 18) with 23. change (5 + 20) with 25. change (5 + 3) with 8.
  rewrite Hday, Hyear, Hhour, Hmin, Hsec. cbn [mbind option_bind]. rewrite (Hf _ Hmon).
  rewrite (proj2 (Z.eqb_neq m 12)) by lia. exact Hc.
Qed.

(** ** ISO 8601 *)

Lemma skip_one o (p : nat) c d rest :
  drop p (octets o) = c :: d :: rest -> is_digit_char c = false -> is_digit_char d = true ->
  skip_to_digit (Z.to_nat (octstr_len o)) o (Z.of_nat p) = Z.of_nat p + 1.
Proof.
  intros E Hc Hd.
  assert (E0 : octets o !! p = Some c) by (by rewrite <-(Nat.add_0_r p), <-lookup_drop, E).
  assert (E1 : octets o !! S p = Some d) by (by rewrite <-(Nat.add_1_r p), <-lookup_drop, E).
  pose proof (proj1 (Forall_lookup _ _) (octets_range o) _ _ E0) as Hr. simpl in Hr.
  pose proof (lookup_lt_Some _ _ _ E1) as Hl.
  rewrite octstr_len_spec, Nat2Z.id. destruct (length (octets o)) as [|[|n]]; [lia..|]. cbn [skip_to_digit].
  rewrite octstr_get_char_spec, E0. cbn [from_option id]. rewrite Hc, (proj2 (Z.eqb_neq c (-1))) by lia. cbn [negb andb].
  replace (Z.of_nat p + 1) with (Z.of_nat (S p)) by lia. rewrite octstr_get_char_spec, E1. cbn [from_option id].
  rewrite Hd. by rewrite andb_false_r.
Qed.

Lemma next_number_spec o (p : nat) old c ds rest :
  drop p (octets o) = c :: ds ++ rest -> is_digit_char c = false -> Forall (fun c => is_digit_char c = true) ds ->
  ds <> [] -> (forall c, head rest = Some c -> is_digit_char c = false) -> decimal_value ds < 2 ^ 63 ->
  next_number o (Z.of_nat p) old = (Z.of_nat (p + 1 + length ds), decimal_value ds).
Proof.
  intros E Hc Hd Hn Hr Hv. unfold next_number. destruct ds as [|d ds]; [done|].
  rewrite (skip_one o p c d (ds ++ rest)) by (done || by apply Forall_cons in Hd as [? _]).
  replace (Z.of_nat p + 1) with (Z.of_nat (p + 1)) by lia.
  rewrite (octstr_parse_long_digits o (p + 1) old [] (d :: ds) rest); try done.
  - f_equal. cbn [length]. lia.
  - by rewrite <-drop_drop, E.
Qed.

Ltac next_text Hnext Eo p q :=
  eapply (Hnext p _ _ _ (drop (q - p) (drop p (octets _)))); rewrite ?Eo;
  first [reflexivity|lia|by intros ? [= <-]].

(** The same for the times in the format of ISO 8601. *)
Theorem date_iso_roundtrip t : 0 <= t < last_second ->
  exists ut, date_parse_iso (date_create_iso t) = (0, ut) /\ date_convert_universal ut = Done t.
Proof.
  intros Ht. destruct (gmtime_fields t Ht) as (y & m & d & h & mi & sec & w & E & Hy & Hm & Hd & Hh & Hmi & Hs & Hw & Hc).
  exists (MkUniversal d m y h mi sec). split; [|done].
  assert (Eo : octets (date_create_iso t) = digits4 y ++ 45 :: digits2 (m + 1) ++ 45 :: digits2 d ++ 84 :: digits2 h ++
    58 :: digits2 mi ++ 58 :: digits2 sec ++ [90]).
  { unfold date_create_iso. rewrite E. cbn [tm_wday tm_mday tm_mon tm_year tm_hour tm_min tm_sec].
    replace (y - 1900 + 1900) with y by lia. rewrite !zero_pad2, format_year by lia.
    rewrite octets_create; [reflexivity|].
    repeat first [apply digits2_range; lia|apply digits4_range; lia|by repeat constructor|apply Forall_app; split]. }
  pose proof (digits4_digits y ltac:(lia)) as Dy. pose proof (digits4_value y) as Vy.
  unfold date_parse_iso. set (o := date_create_iso t) in *.
  assert (Hfirst : octstr_parse_long o 0 10 0 = (4, y)).
  { change 0 with (Z.of_nat 0) at 1. rewrite (octstr_parse_long_digits o 0 0 [] (digits4 y) (drop 4 (octets o))); rewrite ?Vy, ?Eo; try done; try lia.
    by intros ? [= <-]. }
  assert (Hnext : forall (p : nat) c v old rest, drop p (octets o) = c :: digits2 v ++ rest -> is_digit_char c = false ->
    0 <= v < 100 -> (forall c, head rest = Some c -> is_digit_char c = false) ->
    next_number o (Z.of_nat p) old = (Z.of_nat (p + 1 + 2), v)).
  { intros p c v old rest E1 Hc1 Hv Hr.
    rewrite (next_number_spec o p old c (digits2 v) rest), digits2_value; try done; [by apply digits2_digits|].
    rewrite digits2_value. lia. }
  assert (Hmo : next_number o 4 0 = (7, m + 1)) by next_text Hnext Eo 4%nat 7%nat.
  assert (Hda : next_number o 7 1 = (10, d)) by next_text Hnext Eo 7%nat 10%nat.
  assert (Hho : next_number o 10 0 = (13, h)) by next_text Hnext Eo 10%nat 13%nat.
  assert (Hmin : next_number o 13 0 = (16, mi)) by next_text Hnext Eo 13%nat 16%nat.
  assert (Hsec : next_number o 16 0 = (19, sec)) by next_text Hnext Eo 16%nat 19%nat.
  rewrite Hfirst. cbv beta iota. change (4 <? 0) with false. cbv iota.
  rewrite (proj2 (Z.ltb_ge y 70)), (proj2 (Z.ltb_ge y 100)) by lia.
  rewrite Hmo. cbv beta iota. change (7 <? 0) with false. cbv iota. rewrite (proj2 (Z.ltb_lt 0 (m + 1))) by lia.
  rewrite Hda. cbv beta iota. change (10 <? 0) with false. cbv iota. rewrite Hho. cbv beta iota. change (13 <? 0) with false.
  cbv iota. rewrite Hmin. cbv beta iota. change (16 <? 0) with false. cbv iota. rewrite Hsec.
  by replace (m + 1 - 1) with m by lia.
Qed.

End Texts.

Lemma date_http_roundtrip_witness :
  (0 <= 784111777 < last_second) /\
  exists o : octstr (OctstrLib := list_octstr),
    date_format_http 784111777 = Done (Some o) /\ date_parse_http (O := list_octstr) (P := list_parse) o = Done 784111777.
Proof. split; [unfold last_second; lia|]. apply (date_http_roundtrip (O := list_octstr)). unfold last_second; lia. Defined.

Lemma date_iso_roundtrip_witness :
  (0 <= 784111777 < last_second) /\
  exists ut, date_parse_iso (O := list_octstr) (P := list_parse) (date_create_iso 784111777) = (0, ut) /\
    date_convert_universal ut = Done 784111777.
Proof. split; [unfold last_second; lia|]. apply (date_iso_roundtrip (O := list_octstr)). unfold last_second; lia. Defined.
