(* ===== verification/Fdset.v ===== *)
(** * File descriptors that wait for events (gwlib/fdset.c)

    A table of descriptors with their callbacks, which belongs to one polling
    thread, and the requests of the other threads to that thread.  The arrays
    of the table are one list of slots: [slots] is the part of the allocated
    [size] that was ever written, and slot [i] holds element [i] of
    [pollinfo], [callbacks], [datafields] and [times].  A callback is what it
    does to the world around and the calls it makes on the set; these return
    nothing, so the calls do not depend on the table. *)

From S2P Require Import Prelude Gwlib.
From stdpp Require Import gmap.
Open Scope Z_scope.

(** The fields [events] and [revents] of [struct pollfd] are shorts. *)
Definition wrap_short (z : Z) : Z := (z + 2 ^ 15) mod 2 ^ 16 - 2 ^ 15.

Definition POLLERR : Z := 8.

Section Fdset.
(** The callbacks and their data, and the world that callbacks change, which
    has the clock of [time()]. *)
Context {C D W : Type}.

Inductive operation : Type :=
| REGISTER (fd events : Z) (callback : C) (data : D)
| LISTEN (fd mask events : Z)
| UNREGISTER (fd : Z)
| DESTROY.

(** [struct action]; [done] is the list on which its submitter waits. *)
Record action : Type := MkAction { op : operation; done : option Z }.

Record slot : Type := MkSlot {
  fd : Z; events : Z; revents : Z; callback : C; datafield : D; time : Z
}.

(** [confirmed] are the lists [done] that got their element. *)
Record FDSet : Type := MkFDSet {
  poll_thread : Z; slots : list slot; size : Z; entries : nat; timeout : Z;
  scanning : bool; deleted_entries : Z; actions : list action; confirmed : list Z; freed : bool
}.

Definition set_table (s : FDSet) (l : list slot) (n : nat) : FDSet :=
  MkFDSet (poll_thread s) l (size s) n (timeout s) (scanning s) (deleted_entries s) (actions s) (confirmed s) (freed s).
Definition set_size (s : FDSet) (z : Z) : FDSet :=
  MkFDSet (poll_thread s) (slots s) z (entries s) (timeout s) (scanning s) (deleted_entries s) (actions s) (confirmed s) (freed s).
Definition set_scanning (s : FDSet) (b : bool) : FDSet :=
  MkFDSet (poll_thread s) (slots s) (size s) (entries s) (timeout s) b (deleted_entries s) (actions s) (confirmed s) (freed s).
Definition set_deleted (s : FDSet) (n : Z) : FDSet :=
  MkFDSet (poll_thread s) (slots s) (size s) (entries s) (timeout s) (scanning s) n (actions s) (confirmed s) (freed s).
Definition set_actions (s : FDSet) (l : list action) : FDSet :=
  MkFDSet (poll_thread s) (slots s) (size s) (entries s) (timeout s) (scanning s) (deleted_entries s) l (confirmed s) (freed s).
Definition set_confirmed (s : FDSet) (l : list Z) : FDSet :=
  MkFDSet (poll_thread s) (slots s) (size s) (entries s) (timeout s) (scanning s) (deleted_entries s) (actions s) l (freed s).
Definition set_freed (s : FDSet) : FDSet :=
  MkFDSet (poll_thread s) (slots s) (size s) (entries s) (timeout s) (scanning s) (deleted_entries s) [] (confirmed s) true.

(** The slots in use. *)
Definition used (s : FDSet) : list slot := take (entries s) (slots s).

Definition with_fd (x : slot) (f : Z) : slot := MkSlot f (events x) (revents x) (callback x) (datafield x) (time x).
Definition with_events (x : slot) (e r : Z) : slot := MkSlot (fd x) e r (callback x) (datafield x) (time x).
Definition with_revents (x : slot) (r : Z) : slot := MkSlot (fd x) (events x) r (callback x) (datafield x) (time x).
Definition with_time (x : slot) (t : Z) : slot := MkSlot (fd x) (events x) (revents x) (callback x) (datafield x) t.

(** ** Requests *)

Definition submit_action_nosync (s : FDSet) (o : operation) : FDSet := set_actions s (actions s ++ [MkAction o None]).

(** The submitter then waits until [ticket] is confirmed. *)
Definition submit_action (s : FDSet) (o : operation) (ticket : Z) : FDSet :=
  set_actions s (actions s ++ [MkAction o (Some ticket)]).

(** ** The table *)

Fixpoint entry_from (i : nat) (l : list slot) (f : Z) : Z :=
  match l with
  | [] => -1
  | x :: l => if fd x =? f then Z.of_nat i else entry_from (i + 1) l f
  end.

Definition find_entry (s : FDSet) (f : Z) : Z := entry_from 0 (used s) f.

(** Assignment to an element; outside the arrays it is undefined. *)
Definition put_slot (s : FDSet) (i : nat) (x : slot) : outcome FDSet :=
  if (i <? length (slots s))%nat then Done (set_table s (<[i:=x]> (slots s)) (entries s)) else Panic.

Definition remove_entry (s : FDSet) (entry : nat) : outcome FDSet :=
  s ← (if (entry =? entries s - 1)%nat then Done s
       else x ← must (slots s !! (entries s - 1)%nat); put_slot s entry x);
  Done (set_table s (slots s) (entries s - 1)).

Fixpoint remove_loop (fuel : nat) (i : nat) (s : FDSet) : outcome FDSet :=
  match fuel with
  | 0%nat => Done s
  | S fuel =>
      if (i <? entries s)%nat && (0 <? deleted_entries s) then
        x ← must (slots s !! i);
        if fd x <? 0 then
          s ← remove_entry s i;
          remove_loop fuel i (set_deleted s (deleted_entries s - 1))
        else remove_loop fuel (i + 1) s
      else Done s
  end.

(** Every turn of the loop takes an entry out or goes to the next one. *)
Definition remove_deleted_entries (s : FDSet) : outcome FDSet := remove_loop (entries s) 0 s.

(** ** The operations; [self] is the calling thread, [now] the time, [ticket]
    identifies the call for the thread that waits. *)

Definition fdset_register (s : FDSet) (self now : Z) (f ev : Z) (cb : C) (d : D) : outcome FDSet :=
  if negb (self =? poll_thread s) then Done (submit_action_nosync s (REGISTER f ev cb d))
  else
    _ ← gw_assert (Z.of_nat (entries s) <=? size s);
    let s := if size s <=? Z.of_nat (entries s) then set_size s (Z.of_nat (entries s) + 1) else s in
    let x := MkSlot f (wrap_short ev) 0 cb d now in
    let new := entries s in
    if (new <? length (slots s))%nat then Done (set_table s (<[new:=x]> (slots s)) (new + 1))
    else if (new =? length (slots s))%nat then Done (set_table s (slots s ++ [x]) (new + 1))
    else Panic.

Definition fdset_listen (s : FDSet) (self now ticket : Z) (f mask ev : Z) : outcome FDSet :=
  if negb (self =? poll_thread s) then Done (submit_action s (LISTEN f mask ev) ticket)
  else
    let entry := find_entry s f in
    if entry <? 0 then Done s
    else
      x ← must (slots s !! Z.to_nat entry);
      let e := wrap_short (Z.lor (Z.land (events x) (Z.lnot mask)) (Z.land ev mask)) in
      let r := if scanning s then wrap_short (Z.land (revents x) (Z.lor ev (Z.lnot mask))) else revents x in
      put_slot s (Z.to_nat entry) (with_time (with_events x e r) now).

Definition fdset_unregister (s : FDSet) (self ticket : Z) (f : Z) : outcome FDSet :=
  if negb (self =? poll_thread s) then Done (submit_action s (UNREGISTER f) ticket)
  else
    let entry := find_entry s f in
    if entry <? 0 then Done s
    else if entry =? Z.of_nat (entries s) - 1 then Done (set_table s (slots s) (entries s - 1))
    else if scanning s then
      x ← must (slots s !! Z.to_nat entry);
      s ← put_slot s (Z.to_nat entry) (with_fd x (-1));
      Done (set_deleted s (deleted_entries s + 1))
    else remove_entry s (Z.to_nat entry).

(** The pending actions are destroyed with the set. *)
Definition fdset_destroy (s : FDSet) (self ticket : Z) : FDSet :=
  if (poll_thread s <? 0) || (self =? poll_thread s) then set_freed s
  else submit_action s DESTROY ticket.

Definition fdset_create_real (thread : Z) (t : Z) : option FDSet :=
  if thread <? 0 then None
  else Some (MkFDSet thread [] 1 0 (if 0 <? t then t else -1) false 0 [] [] false).

(** Any of the calls; a set that was freed must not be used. *)
Definition fdset_call (s : FDSet) (self now ticket : Z) (o : operation) : outcome FDSet :=
  if freed s then Panic
  else
    match o with
    | REGISTER f ev cb d => fdset_register s self now f ev cb d
    | LISTEN f mask ev => fdset_listen s self now ticket f mask ev
    | UNREGISTER f => fdset_unregister s self ticket f
    | DESTROY => Done (fdset_destroy s self ticket)
    end.

(** ** The polling thread *)

(** One action: -1 when it destroyed the set. *)
Definition handle_action (s : FDSet) (now : Z) (a : action) : outcome (FDSet * Z) :=
  s ← fdset_call s (poll_thread s) now 0 (op a);
  let result := match op a with DESTROY => -1 | _ => 0 end in
  Done (match done a with None => s | Some t => set_confirmed s (confirmed s ++ [t]) end, result).

(** The loop over the actions; -1 when the thread ends. *)
Fixpoint handle_actions (l : list action) (s : FDSet) (now : Z) : outcome (FDSet * Z) :=
  match l with
  | [] => Done (s, 0)
  | a :: l =>
      sr ← handle_action (set_actions s l) now a;
      if sr.2 <? 0 then Done sr else handle_actions l sr.1 now
  end.

(** What a callback does. *)
Context (clock : W -> Z) (callback_run : C -> Z -> Z -> D -> W -> W * list operation).

(** A call of a callback, as the model records it. *)
Record called : Type := MkCalled { c_fd : Z; c_revents : Z; c_callback : C; c_data : D }.

Fixpoint run_calls (s : FDSet) (now : Z) (l : list operation) : outcome FDSet :=
  match l with
  | [] => Done s
  | o :: l => s ← fdset_call s (poll_thread s) now 0 o; run_calls s now l
  end.

Definition run_callback (s : FDSet) (w : W) (x : slot) (rev : Z) : outcome (FDSet * W) :=
  let '(w, l) := callback_run (callback x) (fd x) rev (datafield x) w in
  s ← run_calls s (clock w) l;
  Done (s, w).

(** One turn of the scan, with the callback that it calls. *)
Definition scan_one (s : FDSet) (w : W) (now : Z) (i : nat) : outcome (FDSet * W * list called) :=
  x ← must (slots s !! i);
  if negb (revents x =? 0) then
    sw ← run_callback s w x (revents x);
    let '(s, w) := sw in
    _ ← gw_assert (negb (freed s));
    y ← must (slots s !! i);
    s ← put_slot s i (with_time y (clock w));
    Done (s, w, [MkCalled (fd x) (revents x) (callback x) (datafield x)])
  else if (0 <? timeout s) && (time x + timeout s <=? now) then
    sw ← run_callback s w x POLLERR;
    Done (sw, [MkCalled (fd x) POLLERR (callback x) (datafield x)])
  else Done (s, w, []).

(** [None]: the fuel is used up. *)
Fixpoint scan_loop (fuel : nat) (s : FDSet) (w : W) (now : Z) (i : nat) : option (outcome (FDSet * W * list called)) :=
  match fuel with
  | 0%nat => None
  | S fuel =>
      if freed s then Some Panic
      else if (i <? entries s)%nat then
        match scan_one s w now i with
        | Panic => Some Panic
        | Done (s, w, c) =>
            match scan_loop fuel s w now (i + 1) with
            | Some (Done (s, w, cs)) => Some (Done (s, w, c ++ cs))
            | r => r
            end
        end
      else Some (Done (s, w, []))
  end.

(** What [gwthread_poll] writes into the table. *)
Fixpoint write_revents (l : list slot) (rev : list Z) : list slot :=
  match l, rev with
  | x :: l, r :: rev => with_revents x (wrap_short r) :: write_revents l rev
  | _, _ => l
  end.

(** What follows the polling: [rev] are the events it found. *)
Definition poller_scan (fuel : nat) (s : FDSet) (w : W) (rev : list Z) : option (outcome (FDSet * W * list called)) :=
  let s := set_table s (write_revents (used s) (take (entries s) rev) ++ drop (entries s) (slots s)) (entries s) in
  r ← scan_loop fuel (set_scanning s true) w (clock w) 0;
  Some (swc ← r;
        let '(s, w, c) := swc in
        let s := set_scanning s false in
        s ← (if 0 <? deleted_entries s then remove_deleted_entries s else Done s);
        Done (s, w, c)).

(** A turn of [poller]; [polled] is what [gwthread_poll] finds, [None] for an
    error.  The boolean tells whether the thread goes on. *)
Definition poller_turn (fuel : nat) (s : FDSet) (w : W) (polled : option (list Z)) :
    option (outcome (FDSet * W * list called * bool)) :=
  match handle_actions (actions s) s (clock w) with
  | Panic => Some Panic
  | Done (s, result) =>
      if result <? 0 then Some (Done (s, w, [], false))
      else
        match polled with
        | None => Some (Done (s, w, [], true))
        | Some rev => r ← poller_scan fuel s w rev; Some (swc ← r; Done (swc, true))
        end
  end.

End Fdset.
