(* ===== verification/FdsetFacts.v ===== *)
(** * Facts about the sets of file descriptors

    What each call does to the list of slots in use ([effect]); the table as a
    finite map from descriptors to registrations; the scan, with callbacks
    that change the table while it is scanned. *)

From stdpp Require Import gmap.
From S2P Require Import Prelude Gwlib Fdset.
Open Scope Z_scope.

Lemma wrap_short_id z : - 2 ^ 15 <= z < 2 ^ 15 -> wrap_short z = z.
Proof. intros H. unfold wrap_short. rewrite Z.mod_small; lia. Qed.

Section Facts.
Context {C D W : Type}.
Notation slot := (@slot C D).
Notation FDSet := (@FDSet C D).
Notation operation := (@operation C D).
Implicit Types (s : FDSet) (x y : slot) (l : list slot) (o : operation).

(** ** The arrays *)

Definition table_ok s : Prop :=
  (entries s <= length (slots s))%nat /\ Z.of_nat (length (slots s)) <= size s /\ freed s = false.

Lemma table_split s : table_ok s ->
  exists rest, slots s = used s ++ rest /\ entries s = length (used s).
Proof.
  intros (H & _). exists (drop (entries s) (slots s)). unfold used.
  by rewrite take_drop, length_take_le by lia.
Qed.

Lemma find_from_none i l f : Forall (fun x => fd x <> f) l -> entry_from i l f = -1.
Proof.
  revert i. induction l as [|x l IH]; intros i H; [done|]. apply Forall_cons in H as [Hx H]. simpl.
  rewrite (proj2 (Z.eqb_neq _ _)) by done. by apply IH.
Qed.

Lemma find_from_some i l1 x l2 f :
  Forall (fun x => fd x <> f) l1 -> fd x = f -> entry_from i (l1 ++ x :: l2) f = Z.of_nat (i + length l1).
Proof.
  revert i. induction l1 as [|y l1 IH]; intros i H E; simpl.
  - rewrite (proj2 (Z.eqb_eq _ _)) by done. lia.
  - apply Forall_cons in H as [Hy H]. rewrite (proj2 (Z.eqb_neq _ _)) by done. rewrite IH by done. lia.
Qed.

(** The first slot of a descriptor. *)
Lemma find_cases f l :
  Forall (fun x => fd x <> f) l \/
  exists l1 x l2, l = l1 ++ x :: l2 /\ Forall (fun x => fd x <> f) l1 /\ fd x = f.
Proof.
  induction l as [|y l [IH|(l1 & x & l2 & -> & H & E)]]; [by left|..];
    (destruct (decide (fd y = f)); [right; by eexists [], y, _|]).
  - left. by constructor.
  - right. exists (y :: l1), x, l2. split; [done|]. split; [by constructor|done].
Qed.

(** ** The effect of a call on the slots in use and [deleted_entries] *)

Definition listened (scan : bool) (now mask ev : Z) (x : slot) : slot :=
  with_time (with_events x (wrap_short (Z.lor (Z.land (events x) (Z.lnot mask)) (Z.land ev mask)))
    (if scan then wrap_short (Z.land (revents x) (Z.lor ev (Z.lnot mask))) else revents x)) now.

Inductive effect (scan : bool) (now : Z) : operation -> list slot * Z -> list slot * Z -> Prop :=
| effect_register f ev c d l n :
    effect scan now (REGISTER f ev c d) (l, n) (l ++ [MkSlot f (wrap_short ev) 0 c d now], n)
| effect_listen_none f mask ev l n :
    Forall (fun x => fd x <> f) l -> effect scan now (LISTEN f mask ev) (l, n) (l, n)
| effect_listen f mask ev l1 x l2 n :
    Forall (fun x => fd x <> f) l1 -> fd x = f ->
    effect scan now (LISTEN f mask ev) (l1 ++ x :: l2, n) (l1 ++ listened scan now mask ev x :: l2, n)
| effect_unregister_none f l n :
    Forall (fun x => fd x <> f) l -> effect scan now (UNREGISTER f) (l, n) (l, n)
| effect_unregister_last f l1 x n :
    Forall (fun x => fd x <> f) l1 -> fd x = f -> effect scan now (UNREGISTER f) (l1 ++ [x], n) (l1, n)
| effect_unregister_mark f l1 x y l2 n :
    Forall (fun x => fd x <> f) l1 -> fd x = f -> scan = true ->
    effect scan now (UNREGISTER f) (l1 ++ x :: y :: l2, n) (l1 ++ with_fd x (-1) :: y :: l2, n + 1)
| effect_unregister_move f l1 x l2 y n :
    Forall (fun x => fd x <> f) l1 -> fd x = f -> scan = false ->
    effect scan now (UNREGISTER f) (l1 ++ x :: l2 ++ [y], n) (l1 ++ y :: l2, n).

(** What no call changes. *)
Definition same_frame s s' : Prop :=
  poll_thread s' = poll_thread s /\ timeout s' = timeout s /\ scanning s' = scanning s /\
  actions s' = actions s /\ confirmed s' = confirmed s.

(** The part of the arrays that was written does not shrink. *)
Definition slots_kept s s' : Prop := (length (slots s) <= length (slots s'))%nat.

Lemma exists_last_or_nil {A} (k : list A) : k = [] \/ exists k' a, k = k' ++ [a].
Proof. destruct k as [|a k] using rev_ind; [by left|right; eauto]. Qed.

Lemma set_table_ok s l rest n :
  n = length l -> freed s = false -> Z.of_nat (length (l ++ rest)) <= size s ->
  table_ok (set_table s (l ++ rest) n) /\ used (set_table s (l ++ rest) n) = l.
Proof.
  intros -> Hf Hl. unfold table_ok, used. simpl. rewrite take_app_length. split_and!; try done.
  rewrite length_app. lia.
Qed.

Lemma put_slot_app s l1 x l2 y :
  slots s = l1 ++ x :: l2 -> put_slot s (length l1) y = Done (set_table s (l1 ++ y :: l2) (entries s)).
Proof.
  intros E. unfold put_slot. rewrite E, length_app. simpl.
  rewrite (proj2 (Nat.ltb_lt _ _)) by lia. by rewrite insert_app_r_alt, Nat.sub_diag by lia.
Qed.

Lemma remove_entry_app s l1 x l2 y rest :
  slots s = l1 ++ x :: l2 ++ y :: rest -> entries s = S (S (length l1 + length l2)) ->
  remove_entry s (length l1) = Done (set_table s (l1 ++ y :: l2 ++ y :: rest) (S (length l1 + length l2))).
Proof.
  intros E En. unfold remove_entry. rewrite En.
  rewrite (proj2 (Nat.eqb_neq _ _)) by lia.
  replace (slots s !! (S (S (length l1 + length l2)) - 1)%nat) with (Some y).
  - simpl. rewrite (put_slot_app _ _ x (l2 ++ y :: rest)) by done. cbn -[Nat.sub]. by rewrite En.
  - rewrite E, lookup_app_r by lia. replace (_ - 1 - _)%nat with (S (length l2)) by lia. simpl.
    by rewrite lookup_app_r, Nat.sub_diag by lia.
Qed.

Lemma put_used s l1 x l2 rest y :
  table_ok s -> slots s = l1 ++ x :: l2 ++ rest -> entries s = length (l1 ++ x :: l2) ->
  slots s !! length l1 = Some x /\
  let s' := set_table s ((l1 ++ y :: l2) ++ rest) (entries s) in
  put_slot s (length l1) y = Done s' /\ table_ok s' /\ used s' = l1 ++ y :: l2.
Proof.
  intros (H1 & H2 & H3) E En. split; [by rewrite E, lookup_app_r, Nat.sub_diag by lia|]. cbv zeta. split.
  - rewrite (put_slot_app _ _ x (l2 ++ rest)) by done. by rewrite <-app_assoc.
  - apply set_table_ok; [by rewrite En, !length_app|done|].
    rewrite E in H2. rewrite !length_app in *. simpl in *. rewrite length_app in H2. lia.
Qed.

Lemma remove_entry_effect s l1 x l2 : table_ok s -> used s = l1 ++ x :: l2 ->
  exists s', remove_entry s (length l1) = Done s' /\ table_ok s' /\ same_frame s s' /\
    deleted_entries s' = deleted_entries s /\ slots_kept s s' /\
    ((l2 = [] /\ used s' = l1) \/ exists l3 y, l2 = l3 ++ [y] /\ used s' = l1 ++ y :: l3).
Proof.
  intros Hok Eu. destruct (table_split s Hok) as (rest & E & En). pose proof Hok as (H1 & H2 & H3).
  rewrite Eu in E, En. rewrite <-app_assoc in E. simpl in E. unfold slots_kept.
  destruct (exists_last_or_nil l2) as [->|(l3 & y & ->)].
  - simpl in E. unfold remove_entry. rewrite En, length_app. simpl.
    rewrite (proj2 (Nat.eqb_eq _ _)) by lia. simpl. rewrite E, En, length_app.
    destruct (set_table_ok s l1 (x :: rest) (length l1 + 1 - 1)) as [Hk Hu]; [lia|done|by rewrite <-E|].
    eexists. split; [reflexivity|]. split; [done|]. split; [done|]. split_and!; try done. by left.
  - rewrite <-app_assoc in E. simpl in E.
    assert (En' : entries s = S (S (length l1 + length l3))).
    { rewrite En, length_app. simpl. rewrite length_app. simpl. lia. }
    assert (El : length (slots s) = length ((l1 ++ y :: l3) ++ y :: rest)).
    { rewrite E, !length_app. simpl. rewrite length_app. simpl. lia. }
    rewrite (remove_entry_app s l1 x l3 y rest) by done. eexists. split; [reflexivity|].
    destruct (set_table_ok s (l1 ++ y :: l3) (y :: rest) (S (length l1 + length l3))) as [Hk Hu];
      [rewrite length_app; simpl; lia|done|by rewrite <-El|].
    rewrite <-app_assoc in Hk, Hu, El. simpl in Hk, Hu, El. split; [done|]. split; [by repeat split|].
    split_and!; [done|simpl; lia|]. right. by exists l3, y.
Qed.

(** What a call made on the polling thread of a table in order has done. *)
Definition in_effect s now o s' : Prop :=
  table_ok s' /\ same_frame s s' /\ slots_kept s s' /\
  effect (scanning s) now o (used s, deleted_entries s) (used s', deleted_entries s').

Lemma register_effect s now f ev c d : table_ok s ->
  exists s', fdset_register s (poll_thread s) now f ev c d = Done s' /\ in_effect s now (REGISTER f ev c d) s'.
Proof.
  intros Hok. destruct (table_split s Hok) as (rest & E & En). pose proof Hok as (H1 & H2 & H3).
  unfold fdset_register, in_effect. rewrite Z.eqb_refl. simpl.
  rewrite (proj2 (Z.leb_le (Z.of_nat (entries s)) (size s))) by lia. simpl.
  set (s1 := if size s <=? Z.of_nat (entries s) then _ else s).
  assert (Hs1 : slots s1 = slots s /\ entries s1 = entries s /\ same_frame s s1 /\ deleted_entries s1 = deleted_entries s /\
    freed s1 = false /\ Z.of_nat (length (slots s)) <= size s1 /\ Z.of_nat (entries s) < size s1).
  { unfold s1. destruct (Z.leb_spec (size s) (Z.of_nat (entries s))); simpl; repeat split; (done || lia). }
  clearbody s1. rewrite E, length_app in H1, H2. destruct Hs1 as (Es & Ee & Hf & Hd & Hfr & Hz1 & Hz2). rewrite Es, Ee, E. set (x := MkSlot _ _ _ _ _ _).
  assert (E1 : exists rest', (if (entries s <? length (used s ++ rest))%nat then Done (set_table s1 (<[entries s:=x]> (used s ++ rest)) (entries s + 1))
      else if (entries s =? length (used s ++ rest))%nat then Done (set_table s1 ((used s ++ rest) ++ [x]) (entries s + 1)) else Panic)
    = Done (set_table s1 ((used s ++ [x]) ++ rest') (entries s + 1)) /\ (length rest' <= length rest)%nat /\ (rest = [] -> rest' = []) /\
      (rest <> [] -> S (length rest') = length rest)%nat).
  { destruct rest as [|z rest].
    - exists []. rewrite !app_nil_r, <-En, Nat.ltb_irrefl, Nat.eqb_refl. done.
    - exists rest. rewrite length_app. simpl. rewrite (proj2 (Nat.ltb_lt _ _)) by lia.
      rewrite insert_app_r_alt, En, Nat.sub_diag, <-app_assoc by lia. simpl. split_and!; (done || lia). }
  destruct E1 as (rest' & -> & Hr1 & Hr2 & Hr3).
  destruct (set_table_ok s1 (used s ++ [x]) rest' (entries s + 1)) as [H4 H5]; [rewrite length_app; simpl; lia|done| |].
  { rewrite E in Hz1. rewrite !length_app in *. simpl. destruct rest; [rewrite (Hr2 eq_refl); simpl; lia|].
    specialize (Hr3 ltac:(done)). simpl in *. lia. }
  eexists. split; [reflexivity|]. split; [done|]. split; [done|]. split.
  - unfold slots_kept. simpl. rewrite E, !length_app. simpl. destruct rest; simpl in *; [lia|]. specialize (Hr3 ltac:(done)). lia.
  - rewrite H5. simpl. rewrite Hd. constructor.
Qed.

Lemma listen_effect s now tk f mask ev : table_ok s ->
  exists s', fdset_listen s (poll_thread s) now tk f mask ev = Done s' /\ in_effect s now (LISTEN f mask ev) s'.
Proof.
  intros Hok. destruct (table_split s Hok) as (rest & E & En). pose proof Hok as (H1 & H2 & H3).
  unfold fdset_listen, in_effect. rewrite Z.eqb_refl. simpl. unfold find_entry.
  destruct (find_cases f (used s)) as [Hn|(l1 & x & l2 & Eu & Hl1 & Hx)].
  { rewrite find_from_none by done. exists s. unfold slots_kept. split_and!; try done. by constructor. }
  rewrite Eu, (find_from_some 0 l1 x l2 f) by done. simpl.
  rewrite (proj2 (Z.ltb_ge _ _)), Nat2Z.id by lia. 
  rewrite Eu in E, En. rewrite <-app_assoc in E. simpl in E.
  destruct (put_used s l1 x l2 rest (listened (scanning s) now mask ev x) Hok E En) as (Hg & Hp & Hk & Hu).
  unfold listened in Hp. rewrite Hg. simpl. rewrite Hp. eexists. split; [reflexivity|]. split; [done|]. split; [done|].
  split; [unfold slots_kept; simpl; rewrite E; repeat (rewrite length_app; simpl); lia|].
  unfold listened in Hu. rewrite Hu. by constructor.
Qed.

Lemma unregister_effect s now tk f : table_ok s ->
  exists s', fdset_unregister s (poll_thread s) tk f = Done s' /\ in_effect s now (UNREGISTER f) s'.
Proof.
  intros Hok. destruct (table_split s Hok) as (rest & E & En). pose proof Hok as (H1 & H2 & H3).
  unfold fdset_unregister, in_effect. rewrite Z.eqb_refl. simpl. unfold find_entry.
  destruct (find_cases f (used s)) as [Hn|(l1 & x & l2 & Eu & Hl1 & Hx)].
  { rewrite find_from_none by done. exists s. unfold slots_kept. split_and!; try done. by constructor. }
  rewrite Eu, (find_from_some 0 l1 x l2 f) by done. simpl.
  rewrite (proj2 (Z.ltb_ge _ _)), Nat2Z.id by lia.
  rewrite Eu in E, En. rewrite <-app_assoc in E. simpl in E.
  destruct (remove_entry_effect s l1 x l2 Hok Eu) as (s' & Er & Hok' & Hf' & Hd' & Hk' & Hcase).
  destruct l2 as [|y0 l2].
  - destruct Hcase as [[_ Hu]|(l3 & y & E3 & _)]; [|by destruct l3].
    rewrite En, length_app. simpl. rewrite (proj2 (Z.eqb_eq _ _)) by lia.
    unfold remove_entry in Er. rewrite En, length_app in Er. simpl in Er.
    rewrite (proj2 (Nat.eqb_eq (length l1) (length l1 + 1 - 1))) in Er by lia. simpl in Er.
    rewrite En, length_app in Er. simpl in Er.
    exists s'. split_and!; try done. rewrite Hu, Hd'. by constructor.
  - rewrite (proj2 (Z.eqb_neq _ _)) by (rewrite En, length_app; simpl; lia).
    destruct (scanning s) eqn:Hs.
    + destruct (put_used s l1 x (y0 :: l2) rest (with_fd x (-1)) Hok E En) as (Hg & Hp & (? & ? & ?) & Hu).
      rewrite Hg. simpl. rewrite Hp. eexists. split; [reflexivity|]. split; [done|]. split; [by repeat split|].
      split; [unfold slots_kept; simpl; rewrite E; repeat (rewrite length_app; simpl); lia|].
      replace (used _) with (l1 ++ with_fd x (-1) :: y0 :: l2) by (symmetry; exact Hu). by constructor.
    + exists s'. split_and!; try done. rewrite Hd'. destruct Hcase as [[? _]|(l3 & y & -> & ->)]; [done|]. by constructor.
Qed.

Lemma used_put s i y : used (set_table s (<[i:=y]> (slots s)) (entries s)) = <[i:=y]> (used s).
Proof.
  unfold used. simpl. destruct (decide (i < entries s)%nat); [by apply take_insert_lt|].
  rewrite take_insert_ge, list_insert_ge; [done| |lia]. rewrite length_take. lia.
Qed.

(** Each call on the polling thread of a table in order. *)
Lemma call_effect s now tk o : table_ok s -> o <> DESTROY ->
  exists s', fdset_call s (poll_thread s) now tk o = Done s' /\ in_effect s now o s'.
Proof.
  intros Hok Ho. pose proof Hok as (_ & _ & H3). unfold fdset_call. rewrite H3.
  destruct o; [by apply register_effect|by apply listen_effect|by apply unregister_effect|done].
Qed.

(** ** The table as a finite map *)

Record registration : Type := MkReg { r_events : Z; r_callback : C; r_data : D }.
Definition reg_of x : registration := MkReg (events x) (callback x) (datafield x).

Definition live l : list slot := filter (fun x => 0 <= fd x) l.
Definition dead l : list slot := filter (fun x => fd x < 0) l.
Definition table_of l : gmap Z registration := list_to_map ((fun x => (fd x, reg_of x)) <$> live l).

Definition fdset_spec (m : gmap Z registration) o : gmap Z registration :=
  match o with
  | REGISTER f ev c d => <[f:=MkReg (wrap_short ev) c d]> m
  | LISTEN f mask ev =>
      alter (fun r => MkReg (wrap_short (Z.lor (Z.land (r_events r) (Z.lnot mask)) (Z.land ev mask)))
        (r_callback r) (r_data r)) f m
  | UNREGISTER f => delete f m
  | DESTROY => m
  end.

(** How the set may be used: a descriptor is registered once. *)
Definition allowed (m : gmap Z registration) o : Prop :=
  match o with
  | REGISTER f _ _ _ => 0 <= f /\ m !! f = None
  | LISTEN f _ _ | UNREGISTER f => 0 <= f
  | DESTROY => False
  end.

Definition fdset_ok s : Prop :=
  table_ok s /\ NoDup (fd <$> live (used s)) /\ deleted_entries s = Z.of_nat (length (dead (used s))) /\
  (scanning s = false -> deleted_entries s = 0).

#[local] Instance live_proper : Proper (Permutation ==> Permutation) live.
Proof. intros l l' H. unfold live. by rewrite H. Qed.

Lemma table_of_perm l l' : l ≡ₚ l' -> NoDup (fd <$> live l) -> table_of l = table_of l'.
Proof.
  intros H Hn. unfold table_of. apply list_to_map_proper; [|by rewrite H].
  by rewrite <-list_fmap_compose.
Qed.

Lemma live_cons x l : 0 <= fd x -> live (x :: l) = x :: live l.
Proof. intros H. unfold live. by rewrite filter_cons_True. Qed.
Lemma live_cons_dead x l : fd x < 0 -> live (x :: l) = live l.
Proof. intros H. unfold live. by rewrite filter_cons_False by lia. Qed.
Lemma dead_cons x l : fd x < 0 -> dead (x :: l) = x :: dead l.
Proof. intros H. unfold dead. by rewrite filter_cons_True. Qed.
Lemma dead_cons_live x l : 0 <= fd x -> dead (x :: l) = dead l.
Proof. intros H. unfold dead. by rewrite filter_cons_False by lia. Qed.

Lemma table_of_cons x l : 0 <= fd x -> table_of (x :: l) = <[fd x := reg_of x]> (table_of l).
Proof. intros H. unfold table_of. by rewrite live_cons. Qed.
Lemma table_of_cons_dead x l : fd x < 0 -> table_of (x :: l) = table_of l.
Proof. intros H. unfold table_of. by rewrite live_cons_dead. Qed.

Lemma table_of_none l f : f ∉ (fd <$> live l) -> table_of l !! f = None.
Proof. intros H. unfold table_of. apply not_elem_of_list_to_map. by rewrite <-list_fmap_compose. Qed.

Lemma not_live f l : Forall (fun x => fd x <> f) l -> f ∉ (fd <$> live l).
Proof.
  intros H (x & -> & Hx)%list_elem_of_fmap. unfold live in Hx. apply list_elem_of_filter in Hx as [_ Hx].
  rewrite Forall_forall in H. by apply (H x Hx).
Qed.

Lemma table_of_some l f : table_of l !! f = None -> f ∉ (fd <$> live l).
Proof. unfold table_of. intros H%not_elem_of_list_to_map. by rewrite <-list_fmap_compose in H. Qed.

(** Taking a slot out of the middle. *)
Lemma live_middle l1 x l2 : 0 <= fd x -> live (l1 ++ x :: l2) ≡ₚ x :: live (l1 ++ l2).
Proof. intros H. by rewrite <-Permutation_middle, live_cons. Qed.

Lemma dead_length_perm l l' : l ≡ₚ l' -> length (dead l) = length (dead l').
Proof. intros H. unfold dead. by rewrite H. Qed.

Lemma take_out l x k : l ≡ₚ x :: k -> 0 <= fd x -> NoDup (fd <$> live l) ->
  NoDup (fd <$> live k) /\ length (dead k) = length (dead l) /\ table_of k = delete (fd x) (table_of l).
Proof.
  intros Hp Hx Hn. pose proof Hn as Hn'. rewrite Hp, live_cons in Hn' by done. simpl in Hn'.
  apply NoDup_cons in Hn' as [Hf Hk]. split_and!; [done|by rewrite (dead_length_perm _ _ Hp), dead_cons_live|].
  rewrite (table_of_perm _ _ Hp), table_of_cons by done. by rewrite delete_insert_id by (by apply table_of_none).
Qed.

Lemma effect_refines scan now o l n l' n' :
  effect scan now o (l, n) (l', n') -> NoDup (fd <$> live l) -> n = Z.of_nat (length (dead l)) -> allowed (table_of l) o ->
  NoDup (fd <$> live l') /\ n' = Z.of_nat (length (dead l')) /\ table_of l' = fdset_spec (table_of l) o /\
  (scan = false -> n' = n).
Proof.
  intros He. remember (l, n) as st. remember (l', n') as st'. revert Heqst Heqst'.
  destruct He as [f ev c d l0 n0|f mask ev l0 n0 Hf|f mask ev l1 x l2 n0 Hf Hx|f l0 n0 Hf|f l1 x n0 Hf Hx
    |f l1 x y l2 n0 Hf Hx Hs|f l1 x l2 y n0 Hf Hx Hs]; intros [= <- <-] [= <- <-] Hn Hd Ha; simpl in Ha.
  - destruct Ha as [H0 Hm]. set (x := MkSlot _ _ _ _ _ _). assert (Hx : 0 <= fd x) by done.
    assert (Hp : l0 ++ [x] ≡ₚ x :: l0) by (by rewrite Permutation_app_comm).
    assert (Hnd : NoDup (fd <$> live (x :: l0))).
    { rewrite live_cons by done. simpl. apply NoDup_cons. split; [by apply table_of_some|done]. }
    split_and!; [by rewrite Hp|by rewrite (dead_length_perm _ _ Hp), dead_cons_live| |done].
    rewrite (table_of_perm _ _ Hp) by (by rewrite Hp). by rewrite table_of_cons.
  - split_and!; try done. simpl. symmetry. apply map_eq. intros i. rewrite lookup_alter.
    case_decide; [subst|done]. by rewrite (table_of_none l0 i) by (by apply not_live).
  - set (x' := listened scan now mask ev x). assert (Hx' : fd x' = f) by done.
    assert (Hfd : forall l1 l2, NoDup (fd <$> live (l1 ++ x' :: l2)) <-> NoDup (fd <$> live (l1 ++ x :: l2))).
    { intros. by rewrite !live_middle by lia. }
    split_and!; [by apply Hfd|..|done].
    + rewrite Hd, (dead_length_perm (l1 ++ x' :: l2) (x' :: l1 ++ l2)), (dead_length_perm (l1 ++ x :: l2) (x :: l1 ++ l2)) by
        (by rewrite Permutation_middle). by rewrite !dead_cons_live by lia.
    + rewrite (table_of_perm (l1 ++ x' :: l2) (x' :: l1 ++ l2)), (table_of_perm (l1 ++ x :: l2) (x :: l1 ++ l2)) by
        (done || by apply Hfd || by rewrite Permutation_middle).
      rewrite !table_of_cons by lia. rewrite Hx, Hx'. simpl. by rewrite alter_insert_eq.
  - split_and!; try done. simpl. by rewrite delete_id by (by apply table_of_none, not_live).
  - destruct (take_out (l1 ++ [x]) x l1) as (H1 & H2 & H3); [by rewrite Permutation_app_comm|lia|done|].
    split_and!; [done|by rewrite H2|by rewrite H3, Hx|done].
  - destruct (take_out (l1 ++ x :: y :: l2) x (l1 ++ y :: l2)) as (H1 & H2 & H3); [by rewrite Permutation_middle|lia|done|].
    assert (Hp : l1 ++ with_fd x (-1) :: y :: l2 ≡ₚ with_fd x (-1) :: l1 ++ y :: l2) by (by rewrite Permutation_middle).
    assert (Hm : fd (with_fd x (-1)) < 0) by (simpl; lia).
    assert (Hn' : NoDup (fd <$> live (l1 ++ with_fd x (-1) :: y :: l2))) by (by rewrite Hp, live_cons_dead).
    split_and!; [done| | |congruence].
    + rewrite (dead_length_perm _ _ Hp), dead_cons by done. simpl. rewrite H2. lia.
    + rewrite (table_of_perm _ _ Hp), table_of_cons_dead by done. by rewrite H3, Hx.
  - destruct (take_out (l1 ++ x :: l2 ++ [y]) x (l1 ++ y :: l2)) as (H1 & H2 & H3); [|lia|done|].
    { rewrite <-Permutation_middle. constructor. apply Permutation_app_head. by rewrite Permutation_app_comm. }
    split_and!; [done|by rewrite H2|by rewrite H3, Hx|done].
Qed.

(** A call on the polling thread does to the table what it does to the map. *)
Lemma fdset_call_refines s now tk o : fdset_ok s -> allowed (table_of (used s)) o ->
  exists s', fdset_call s (poll_thread s) now tk o = Done s' /\ fdset_ok s' /\ same_frame s s' /\
    table_of (used s') = fdset_spec (table_of (used s)) o.
Proof.
  intros (Hok & Hn & Hd & Hz) Ha.
  destruct (call_effect s now tk o Hok) as (s' & E & Hok' & Hf & _ & He); [by intros ->|].
  destruct (effect_refines _ _ _ _ _ _ _ He Hn Hd Ha) as (Hn' & Hd' & Ht & Hz').
  exists s'. split; [done|]. split; [|done]. split; [done|]. split_and!; try done.
  destruct Hf as (_ & _ & -> & _). intros Hs. rewrite Hz' by done. by apply Hz.
Qed.

(** ** The scan *)

(** The entries whose callback the scan calls, at a time. *)
Definition ready (tmo now : Z) x : bool :=
  negb (revents x =? 0) || ((0 <? tmo) && (time x + tmo <=? now)).
Definition reported x : Z := if negb (revents x =? 0) then revents x else POLLERR.
Definition call_of x : called := MkCalled (fd x) (reported x) (callback x) (datafield x).
Definition ready_in (tmo now : Z) l : list slot := List.filter (ready tmo now) l.

(** Which function with which data. *)
Definition target x : C * D := (callback x, datafield x).
Definition called_target (c : called) : C * D := (c_callback c, c_data c).

(** No slot became ready or got another callback. *)
Definition calm (tmo now : Z) l l' : Prop :=
  forall j y, l' !! j = Some y -> ready tmo now y = true ->
    exists x, l !! j = Some x /\ ready tmo now x = true /\ target x = target y.

Lemma quiet_refl tmo now l : calm tmo now l l.
Proof. intros j y Hy Hr. by exists y. Qed.

Lemma quiet_trans tmo now l1 l2 l3 : calm tmo now l1 l2 -> calm tmo now l2 l3 -> calm tmo now l1 l3.
Proof.
  intros H1 H2 j z Hz Hr. destruct (H2 j z Hz Hr) as (y & Hy & Hry & E).
  destruct (H1 j y Hy Hry) as (x & Hx & Hrx & E'). exists x. by rewrite E'.
Qed.

Lemma calm_drop tmo now l l' i : calm tmo now l l' -> calm tmo now (drop i l) (drop i l').
Proof. intros H j y. rewrite !lookup_drop. apply H. Qed.

Lemma calm_cons tmo now x l y l' : (ready tmo now y = true -> ready tmo now x = true /\ target x = target y) ->
  calm tmo now l l' -> calm tmo now (x :: l) (y :: l').
Proof. intros Hxy H [|j] z Hz Hr; simpl in *; [|by apply H].
  injection Hz as <-. exists x. destruct (Hxy Hr). done. Qed.

Lemma calm_middle tmo now l1 x y l2 : (ready tmo now y = true -> ready tmo now x = true /\ target x = target y) ->
  calm tmo now (l1 ++ x :: l2) (l1 ++ y :: l2).
Proof.
  intros H. induction l1 as [|z l1 IH]; simpl; apply calm_cons; try done. apply quiet_refl.
Qed.

Lemma calm_prefix tmo now l1 l2 : calm tmo now (l1 ++ l2) l1.
Proof. intros j y Hy Hr. exists y. by rewrite (lookup_app_l_Some _ _ _ _ Hy). Qed.

Lemma calm_targets tmo now l l' : calm tmo now l l' ->
  (target <$> ready_in tmo now l') `sublist_of` (target <$> ready_in tmo now l).
Proof.
  revert l. induction l' as [|y l' IH]; intros l H; [apply sublist_nil_l|].
  destruct l as [|x l].
  { assert (E : ready_in tmo now (y :: l') = []); [|by rewrite E].
    apply filter_none, Forall_lookup. intros j z Hz. apply not_true_iff_false. intros Hr.
    destruct (H j z Hz Hr) as (x & Hx & _). done. }
  assert (Hl : calm tmo now l l') by (intros j; apply (H (S j))). specialize (IH l Hl). simpl.
  destruct (ready tmo now y) eqn:Hy.
  - destruct (H 0%nat y eq_refl Hy) as (x' & Ex & Hr & E). simpl in Ex. injection Ex as <-. rewrite Hr. simpl. rewrite E. by apply sublist_skip.
  - destruct (ready tmo now x); [by apply sublist_cons|done].
Qed.

Lemma effect_calm tmo now t o l n l' n' : now <= t -> effect true t o (l, n) (l', n') -> calm tmo now l l'.
Proof.
  intros Ht He. remember (l, n) as st. remember (l', n') as st'. revert Heqst Heqst'.
  destruct He as [f ev c d l0 n0|f mask ev l0 n0 Hf|f mask ev l1 x l2 n0 Hf Hx|f l0 n0 Hf|f l1 x n0 Hf Hx
    |f l1 x y l2 n0 Hf Hx Hs|f l1 x l2 y n0 Hf Hx Hs]; intros [= <- <-] [= <- <-];
    try apply quiet_refl; try apply calm_prefix; try done.
  - intros j y Hj Hr. apply lookup_app_Some in Hj as [Hy|[_ Hy]]; [by exists y|]. apply list_elem_of_lookup_2, list_elem_of_singleton in Hy as ->.
    unfold ready in Hr. simpl in Hr. zbool. lia.
  - apply calm_middle. unfold ready, listened. simpl. destruct (Z.eqb_spec (revents x) 0) as [->|Hr]; simpl; [|done].
    rewrite Z.land_0_l. simpl. intros [H1 H2]%andb_true_iff. zbool. lia.
  - apply calm_middle. unfold ready. simpl. done.
Qed.

(** ** Removal of the deleted entries *)

Lemma live_dead_split l : l ≡ₚ live l ++ dead l.
Proof.
  induction l as [|x l IH]; [done|]. destruct (Z.le_gt_cases 0 (fd x)) as [Hx|Hx].
  - rewrite live_cons, dead_cons_live by done. simpl. by rewrite <-IH.
  - rewrite live_cons_dead, dead_cons by done. by rewrite <-Permutation_middle, <-IH.
Qed.

Lemma all_live l : Forall (fun x => 0 <= fd x) l -> dead l = [].
Proof. induction 1 as [|x l Hx _ IH]; [done|]. by rewrite dead_cons_live. Qed.

Lemma no_dead l n : n = Z.of_nat (length (dead l)) -> n <= 0 -> l ≡ₚ live l /\ n = 0.
Proof.
  intros -> Hn. assert (Hz : dead l = []) by (apply nil_length_inv; lia).
  split; [|lia]. rewrite (live_dead_split l) at 1. by rewrite Hz, app_nil_r.
Qed.

Lemma remove_loop_spec fuel : forall i s, table_ok s ->
  exists s', remove_loop fuel i s = Done s' /\ table_ok s' /\ same_frame s s' /\
    ((entries s - i <= fuel)%nat -> Forall (fun x => 0 <= fd x) (take i (used s)) ->
     deleted_entries s = Z.of_nat (length (dead (used s))) -> used s' ≡ₚ live (used s) /\ deleted_entries s' = 0).
Proof.
  assert (Hend : forall s i, table_ok s -> (entries s <= i)%nat -> Forall (fun x => 0 <= fd x) (take i (used s)) ->
    deleted_entries s = Z.of_nat (length (dead (used s))) -> used s ≡ₚ live (used s) /\ deleted_entries s = 0).
  { intros s i Hok Hi Hl Hd. destruct (table_split s Hok) as (rest & _ & El). rewrite take_ge in Hl by lia.
    apply (no_dead _ _ Hd). rewrite Hd, all_live by done. done. }
  induction fuel as [|fuel IH]; intros i s Hok; simpl.
  { exists s. split_and!; try done. intros Hi. apply Hend; [done|lia]. }
  destruct (Nat.ltb_spec i (entries s)) as [Hi|Hi]; simpl; [|exists s; split_and!; try done; intros _; by apply Hend].
  destruct (Z.ltb_spec 0 (deleted_entries s)) as [Hpos|Hpos]; simpl.
  2:{ exists s. split_and!; try done. intros _ _ Hd. by apply no_dead. }
  destruct (table_split s Hok) as (rest & E & El). destruct (lookup_lt_is_Some_2 (used s) i) as [x Hx]; [lia|].
  replace (slots s !! i) with (Some x) by (rewrite E; symmetry; by apply lookup_app_l_Some). simpl.
  pose proof (take_drop_middle _ _ _ Hx) as Emid. pose proof (lookup_lt_Some _ _ _ Hx) as Hlt.
  assert (Eli : length (take i (used s)) = i) by (rewrite length_take; lia).
  destruct (Z.ltb_spec (fd x) 0) as [Hneg|Hnn].
  - destruct (remove_entry_effect s (take i (used s)) x (drop (S i) (used s)) Hok (eq_sym Emid))
      as (s1 & Er & Hok1 & Hf1 & Hd1 & _ & Hcase). rewrite Eli in Er. rewrite Er. simpl.
    assert (Hp : used s ≡ₚ x :: used s1 /\ take i (used s1) = take i (used s)).
    { rewrite <-Emid at 1. destruct Hcase as [[E2 E3]|(l3 & y & E2 & E3)]; rewrite E2, E3.
      - split; [by rewrite Permutation_app_comm|]. by rewrite take_ge by lia.
      - split; [|by rewrite take_app_le, take_ge by lia].
        rewrite <-Permutation_middle. constructor. apply Permutation_app_head. by rewrite Permutation_app_comm. }
    destruct Hp as [Hp Htk].
    destruct (IH i (set_deleted s1 (deleted_entries s1 - 1)) Hok1) as (s2 & E2 & Hok2 & Hf2 & Hspec).
    exists s2. split_and!; try done. { unfold same_frame in *. simpl in *. intuition congruence. }
    intros Hfu Hl Hd. change (used (set_deleted s1 _)) with (used s1) in Hspec. simpl in Hspec.
    assert (El1 : entries s = S (entries s1)).
    { destruct (table_split s1 Hok1) as (rest1 & _ & ->). by rewrite El, Hp. }
    rewrite Htk, Hd1 in Hspec. destruct Hspec as [Hu Hz]; [lia|done| |].
    + rewrite Hd, (dead_length_perm _ _ Hp), dead_cons by done. simpl. lia.
    + split; [|done]. rewrite Hu, Hp. by rewrite live_cons_dead.
  - destruct (IH (i + 1)%nat s Hok) as (s2 & E2 & Hok2 & Hf2 & Hspec). exists s2. split_and!; try done.
    intros Hfu Hl Hd. apply Hspec; [lia| |done]. rewrite Nat.add_1_r, (take_S_r _ _ _ Hx).
    apply Forall_app. split; [done|by repeat constructor].
Qed.

(** ** What polling writes *)

Definition polled s (rev : list Z) : FDSet :=
  set_table s (write_revents (used s) (take (entries s) rev) ++ drop (entries s) (slots s)) (entries s).

Definition same_fields l l' : Prop := Forall2 (fun x y => fd x = fd y /\ reg_of x = reg_of y) l l'.

Lemma same_fields_refl l : same_fields l l.
Proof. unfold same_fields. induction l; by constructor. Qed.

Lemma same_fields_table l l' : same_fields l l' ->
  fd <$> live l = fd <$> live l' /\ length (dead l) = length (dead l') /\ table_of l = table_of l'.
Proof.
  induction 1 as [|x y l l' [Hf Hr] _ (IH1 & IH2 & IH3)]; [done|].
  destruct (Z.le_gt_cases 0 (fd x)).
  - rewrite !live_cons, !dead_cons_live, !table_of_cons by lia. by rewrite !fmap_cons, IH1, IH2, IH3, Hf, Hr.
  - rewrite !live_cons_dead, !dead_cons, !table_of_cons_dead by lia. cbn [length]. by rewrite IH2.
Qed.

Lemma write_revents_fields l rev : same_fields l (write_revents l rev).
Proof.
  revert rev. induction l as [|x l IH]; intros [|r rev]; try apply same_fields_refl.
  simpl. constructor; [done|apply IH].
Qed.

Lemma polled_ok s rev : table_ok s ->
  table_ok (polled s rev) /\ used (polled s rev) = write_revents (used s) (take (entries s) rev).
Proof.
  intros Hok. destruct (table_split s Hok) as (rest & E & El). destruct Hok as (H1 & H2 & H3). unfold polled.
  assert (Hl : entries s = length (write_revents (used s) (take (entries s) rev))).
  { by rewrite <-(Forall2_length _ _ _ (write_revents_fields (used s) (take (entries s) rev))). }
  apply set_table_ok; [done|done|]. rewrite length_app, <-Hl, length_drop. lia.
Qed.

(** ** Callbacks that may change the table *)

Section Scan.
Context (clock : W -> Z) (callback_run : C -> Z -> Z -> D -> W -> W * list operation).
Hypothesis clock_mono : forall c f r d w, clock w <= clock (callback_run c f r d w).1.
Hypothesis no_destroy : forall c f r d w, Forall (fun o => o <> DESTROY) (callback_run c f r d w).2.

Lemma run_calls_calm tmo now ops : forall s t, table_ok s -> scanning s = true -> now <= t ->
  Forall (fun o => o <> DESTROY) ops ->
  exists s', run_calls s t ops = Done s' /\ table_ok s' /\ same_frame s s' /\ slots_kept s s' /\
    calm tmo now (used s) (used s').
Proof.
  induction ops as [|o ops IH]; intros s t Hok Hs Ht Hd; simpl.
  - exists s. unfold slots_kept. split_and!; try done. apply quiet_refl.
  - apply Forall_cons in Hd as [Ho Hd].
    destruct (call_effect s t 0 o Hok Ho) as (s1 & -> & Hok1 & Hf1 & Hk1 & He). rewrite Hs in He.
    pose proof Hf1 as (Hp1 & Ht1 & Hs1 & Ha1 & Hc1).
    destruct (IH s1 t Hok1 ltac:(congruence) Ht Hd) as (s2 & E & Hok2 & Hf2 & Hk2 & Hc2). simpl.
    exists s2. split; [exact E|]. split; [done|]. split; [|split].
    + unfold same_frame in *. intuition congruence.
    + unfold slots_kept in *. lia.
    + eapply quiet_trans; [by eapply effect_calm|done].
Qed.

(** One turn of the loop. *)
Lemma scan_one_calm s w now i x : table_ok s -> scanning s = true -> now <= clock w -> used s !! i = Some x ->
  exists s' w' cs, scan_one clock callback_run s w now i = Done (s', w', cs) /\ table_ok s' /\ same_frame s s' /\
    now <= clock w' /\ calm (timeout s) now (drop (i + 1) (used s)) (drop (i + 1) (used s')) /\
    (if ready (timeout s) now x then called_target <$> cs = [target x] else s' = s /\ cs = []).
Proof.
  intros Hok Hs Hw Hx. pose proof (lookup_lt_Some _ _ _ Hx) as Hlt.
  unfold used in Hx. apply lookup_take_Some in Hx as [Hx Hi].
  unfold scan_one. rewrite Hx. simpl. unfold ready, run_callback.
  destruct (Z.eqb_spec (revents x) 0) as [Hz|Hnz]; simpl.
  - destruct ((0 <? timeout s) && (time x + timeout s <=? now)) eqn:Hto.
    + destruct (callback_run (callback x) (fd x) POLLERR (datafield x) w) as [w' ops] eqn:Ec.
      pose proof (clock_mono (callback x) (fd x) POLLERR (datafield x) w) as Hm.
      pose proof (no_destroy (callback x) (fd x) POLLERR (datafield x) w) as Hd. rewrite Ec in Hm, Hd. simpl in Hm, Hd.
      destruct (run_calls_calm (timeout s) now ops s (clock w') Hok Hs ltac:(lia) Hd) as (s' & -> & Hok' & Hf & Hk & Hc).
      simpl. do 3 eexists. split; [reflexivity|]. split_and!; try done; [lia|by apply calm_drop].
    + do 3 eexists. split; [reflexivity|]. split_and!; try done. apply quiet_refl.
  - destruct (callback_run (callback x) (fd x) (revents x) (datafield x) w) as [w' ops] eqn:Ec.
    pose proof (clock_mono (callback x) (fd x) (revents x) (datafield x) w) as Hm.
    pose proof (no_destroy (callback x) (fd x) (revents x) (datafield x) w) as Hd. rewrite Ec in Hm, Hd. simpl in Hm, Hd.
    destruct (run_calls_calm (timeout s) now ops s (clock w') Hok Hs ltac:(lia) Hd) as (s' & -> & Hok' & Hf & Hk & Hc).
    simpl. pose proof Hok' as (H1 & H2 & H3). rewrite H3. simpl.
    destruct (lookup_lt_is_Some_2 (slots s') i) as [y Hy].
    { unfold slots_kept in Hk. pose proof (lookup_lt_Some _ _ _ Hx). lia. }
    rewrite Hy. simpl. unfold put_slot. rewrite (proj2 (Nat.ltb_lt _ _)) by (by apply lookup_lt_Some in Hy). simpl.
    do 3 eexists. split; [reflexivity|]. split_and!; try done; [|lia|].
    + unfold table_ok. simpl. by rewrite length_insert.
    + rewrite used_put, drop_insert_lt by lia. by apply calm_drop.
Qed.

Lemma ready_in_cons tmo now x l :
  ready_in tmo now (x :: l) = if ready tmo now x then x :: ready_in tmo now l else ready_in tmo now l.
Proof. done. Qed.

Lemma scan_loop_ends now : forall n m s w i,
  length (ready_in (timeout s) now (drop i (used s))) = n -> (entries s - i)%nat = m ->
  table_ok s -> scanning s = true -> now <= clock w ->
  exists fuel s' w' cs, (forall k, (fuel <= k)%nat -> scan_loop clock callback_run k s w now i = Some (Done (s', w', cs))) /\
    table_ok s' /\ same_frame s s' /\ now <= clock w' /\
    (called_target <$> cs) `sublist_of` (target <$> ready_in (timeout s) now (drop i (used s))).
Proof.
  induction n as [n IHn] using lt_wf_ind. induction m as [m IHm] using lt_wf_ind. intros s w i En Em Hok Hs Hw.
  pose proof Hok as (_ & _ & Hfr). destruct (decide (i < entries s)%nat) as [Hi|Hi].
  2:{ exists 1%nat, s, w, []. split_and!; try done; [|apply sublist_nil_l].
      intros [|k] Hk; [lia|]. simpl. rewrite Hfr. by rewrite (proj2 (Nat.ltb_ge _ _)) by lia. }
  destruct (table_split s Hok) as (rest & _ & El).
  destruct (lookup_lt_is_Some_2 (used s) i) as [x Hx]; [lia|].
  destruct (scan_one_calm s w now i x Hok Hs Hw Hx) as (s1 & w1 & c1 & E1 & Hok1 & Hf1 & Hw1 & Hcalm & Hcs).
  pose proof Hf1 as (_ & Ht1 & Hs1 & _). rewrite Hs in Hs1.
  pose proof (calm_targets _ _ _ _ Hcalm) as Hsub.
  rewrite (drop_S _ _ _ Hx), ready_in_cons in En |- *. rewrite (Nat.add_1_r i) in Hsub.
  assert (Hrec : exists fuel s' w' cs,
    (forall k, (fuel <= k)%nat -> scan_loop clock callback_run k s1 w1 now (S i) = Some (Done (s', w', cs))) /\
    table_ok s' /\ same_frame s1 s' /\ now <= clock w' /\
    (called_target <$> cs) `sublist_of` (target <$> ready_in (timeout s1) now (drop (S i) (used s1)))).
  { destruct (ready (timeout s) now x).
    - eapply IHn; try done. rewrite Ht1. apply sublist_length in Hsub. rewrite !length_fmap in Hsub. simpl in En. lia.
    - destruct Hcs as [-> _]. eapply (IHm (entries s - S i)%nat); try done. lia. }
  destruct Hrec as (fuel & s2 & w2 & c2 & E2 & Hok2 & Hf2 & Hw2 & Hs2). rewrite Ht1 in Hs2.
  exists (S fuel), s2, w2, (c1 ++ c2). split_and!; try done.
  - intros [|k] Hk; [lia|]. simpl. rewrite Hfr, (proj2 (Nat.ltb_lt _ _)), E1, Nat.add_1_r, E2 by lia. done.
  - unfold same_frame in *. intuition congruence.
  - rewrite fmap_app. destruct (ready (timeout s) now x).
    + rewrite Hcs. simpl. apply sublist_skip. by etransitivity.
    + destruct Hcs as [-> ->]. done.
Qed.

(** The scan ends, whatever the callbacks register, change and unregister,
    and reads and writes only elements of the table: it calls the callbacks
    of entries that were ready after the polling, each at most once and in
    the order of the table. *)
Lemma poller_scan_ends s w rev : table_ok s ->
  exists fuel s' w' cs, (forall k, (fuel <= k)%nat -> poller_scan clock callback_run k s w rev = Some (Done (s', w', cs))) /\
    table_ok s' /\ scanning s' = false /\
    (called_target <$> cs) `sublist_of`
      (target <$> ready_in (timeout s) (clock w) (write_revents (used s) (take (entries s) rev))).
Proof.
  intros Hok. destruct (polled_ok s rev Hok) as [Hok1 Hu1].
  destruct (scan_loop_ends (clock w) _ _ (set_scanning (polled s rev) true) w 0 eq_refl eq_refl Hok1 eq_refl ltac:(lia))
    as (fuel & s1 & w1 & cs & E & Hok2 & Hf & Hw & Hsub).
  rewrite drop_0 in Hsub. change (used (set_scanning (polled s rev) true)) with (used (polled s rev)) in Hsub.
  rewrite Hu1 in Hsub.
  destruct (remove_loop_spec (entries s1) 0 (set_scanning s1 false) Hok2) as (s2 & Er & Hok3 & Hf3 & _).
  exists fuel, (if 0 <? deleted_entries s1 then s2 else set_scanning s1 false), w1, cs. split_and!; try done.
  - intros k Hk. unfold poller_scan. unfold polled in E. rewrite E by done. cbv [mbind option_bind outcome_bind].
    unfold remove_deleted_entries. change (entries (set_scanning s1 false)) with (entries s1).
    change (deleted_entries (set_scanning s1 false)) with (deleted_entries s1).
    destruct (0 <? deleted_entries s1); [|done]. by rewrite Er.
  - by destruct (0 <? deleted_entries s1).
  - destruct (0 <? deleted_entries s1); [|done]. destruct Hf3 as (_ & _ & -> & _). done.
Qed.

End Scan.
(** ** Callbacks that mind their own descriptor *)

Section Own.
Context (clock : W -> Z) (callback_run : C -> Z -> Z -> D -> W -> W * list operation).

Definition own_call (f : Z) o : Prop :=
  match o with LISTEN g _ _ | UNREGISTER g => g = f | _ => False end.

(** A callback listens for other events of its descriptor or unregisters
    it. *)
Hypothesis own_calls : forall c f r d w, Forall (own_call f) (callback_run c f r d w).2.

(** What a sequence of callbacks does to the map and to the world. *)
Fixpoint spec_calls (cs : list called) (m : gmap Z registration) (w : W) : gmap Z registration * W :=
  match cs with
  | [] => (m, w)
  | c :: cs =>
      let '(w, ops) := callback_run (c_callback c) (c_fd c) (c_revents c) (c_data c) w in
      spec_calls cs (foldl fdset_spec m ops) w
  end.

Lemma split_unique f l1 x l2 m1 y m2 : l1 ++ x :: l2 = m1 ++ y :: m2 ->
  Forall (fun z => fd z <> f) l1 -> Forall (fun z => fd z <> f) l2 -> fd y = f -> l1 = m1 /\ x = y /\ l2 = m2.
Proof.
  intros E H1 H2 Hy. revert m1 E. induction l1 as [|a l1 IH]; intros [|b m1] E; simpl in E; injection E as Ea E.
  - done.
  - subst l2. apply Forall_app in H2 as [_ H2]. by apply Forall_cons in H2 as [? _].
  - subst a. by apply Forall_cons in H1 as [? _].
  - apply Forall_cons in H1 as [_ H1]. destruct (IH H1 m1 E) as (-> & -> & ->). by rewrite Ea.
Qed.

(** The entry of a callback while the callback runs. *)
Definition around (f : Z) l1 l2 l : Prop :=
  (exists x, l = l1 ++ x :: l2 /\ (fd x = f \/ fd x = -1)) \/ (l2 = [] /\ l = l1).

Lemma effect_around now f l1 l2 o l n l' n' : 0 <= f ->
  Forall (fun z => fd z <> f) l1 -> Forall (fun z => fd z <> f) l2 -> own_call f o ->
  effect true now o (l, n) (l', n') -> around f l1 l2 l -> around f l1 l2 l'.
Proof.
  intros H0 H1 H2 Ho He Ha. remember (l, n) as st. remember (l', n') as st'. revert Heqst Heqst'.
  destruct He as [g ev c d l0 n0|g mask ev l0 n0 Hf|g mask ev m1 x m2 n0 Hf Hx|g l0 n0 Hf|g m1 x n0 Hf Hx
    |g m1 x y m2 n0 Hf Hx Hs|g m1 x m2 y n0 Hf Hx Hs]; intros [= <- <-] [= <- <-]; simpl in Ho; subst; try done.
  all: destruct Ha as [(z & E & Hz)|[-> E]]; [|rewrite <-E in H1; apply Forall_app in H1 as [_ H1]; by apply Forall_cons in H1 as [? _]].
  all: destruct (split_unique (fd x) l1 z l2 _ _ _ (eq_sym E) H1 H2 eq_refl) as (-> & -> & ->).
  - left. eexists. split; [reflexivity|]. by left.
  - by right.
  - left. eexists. split; [reflexivity|]. by right.
Qed.

Lemma run_calls_own f l1 l2 ops : forall s t, fdset_ok s -> scanning s = true -> 0 <= f ->
  Forall (fun z => fd z <> f) l1 -> Forall (fun z => fd z <> f) l2 -> Forall (own_call f) ops -> around f l1 l2 (used s) ->
  exists s', run_calls s t ops = Done s' /\ fdset_ok s' /\ same_frame s s' /\ slots_kept s s' /\
    around f l1 l2 (used s') /\ table_of (used s') = foldl fdset_spec (table_of (used s)) ops.
Proof.
  induction ops as [|o ops IH]; intros s t Hok Hs H0 H1 H2 Ho Ha; simpl.
  { exists s. unfold slots_kept. split_and!; done. }
  apply Forall_cons in Ho as [Ho Hops]. pose proof Hok as (Htab & Hn & Hd & _).
  assert (Hal : allowed (table_of (used s)) o) by (destruct o; simpl in *; by subst).
  destruct (fdset_call_refines s t 0 o Hok Hal) as (s1 & E1 & Hok1 & Hf1 & Ht1).
  destruct (call_effect s t 0 o Htab) as (s1' & E1' & _ & _ & Hk1 & He); [by intros ->|].
  rewrite E1 in E1'. injection E1' as <-. rewrite Hs in He.
  pose proof (effect_around _ _ _ _ _ _ _ _ _ H0 H1 H2 Ho He Ha) as Ha1.
  pose proof Hf1 as (Hp & _ & Hs1 & _).
  destruct (IH s1 t Hok1 ltac:(congruence) H0 H1 H2 Hops Ha1) as (s2 & E2 & Hok2 & Hf2 & Hk2 & Ha2 & Ht2).
  rewrite E1. simpl. exists s2. split; [exact E2|]. split; [done|]. split; [|split_and!].
  - unfold same_frame in *. intuition congruence.
  - unfold slots_kept in *. lia.
  - done.
  - by rewrite Ht2, Ht1.
Qed.

Lemma around_drop f l1 l2 l : around f l1 l2 l -> drop (S (length l1)) l = l2.
Proof.
  intros [(x & -> & _)|[-> ->]]; [|by rewrite drop_ge by lia].
  replace (S (length l1)) with (length (l1 ++ [x])) by (rewrite length_app; simpl; lia).
  replace (l1 ++ x :: l2) with ((l1 ++ [x]) ++ l2) by (by rewrite <-app_assoc). apply drop_app_length.
Qed.

(** Assigning the time of an entry changes nothing of the map. *)
Lemma stamp_ok s i y t : fdset_ok s -> slots s !! i = Some y ->
  let s' := set_table s (<[i:=with_time y t]> (slots s)) (entries s) in
  fdset_ok s' /\ same_frame s s' /\ table_of (used s') = table_of (used s) /\ drop (S i) (used s') = drop (S i) (used s).
Proof.
  intros (Htab & Hn & Hd & Hz) Hy s'. unfold s'.
  assert (Hf : same_fields (used s) (<[i:=with_time y t]> (used s))).
  { destruct (used s !! i) as [z|] eqn:Hu.
    - assert (z = y) as ->.
      { unfold used in Hu. apply lookup_take_Some in Hu as [Hu _]. congruence. }
      apply Forall2_lookup. intros j. destruct (decide (i = j)) as [<-|Hij].
      + rewrite list_lookup_insert_eq, Hu by (by eapply lookup_lt_Some). by constructor.
      + rewrite list_lookup_insert_ne by done. destruct (used s !! j); by constructor.
    - rewrite list_insert_ge by (by apply lookup_ge_None). apply same_fields_refl. }
  destruct (same_fields_table _ _ Hf) as (E1 & E2 & E3). rewrite used_put. split_and!; try done.
  - unfold fdset_ok. rewrite used_put, <-E1, <-E2. simpl. split_and!; try done.
    destruct Htab as (T1 & T2 & T3). unfold table_ok. simpl. by rewrite length_insert.
  - by rewrite drop_insert_lt by lia.
Qed.

Lemma scan_one_own s w now i x : fdset_ok s -> scanning s = true -> used s !! i = Some x -> 0 <= fd x ->
  let cs := if ready (timeout s) now x then [call_of x] else [] in
  exists s' w', scan_one clock callback_run s w now i = Done (s', w', cs) /\ fdset_ok s' /\ same_frame s s' /\
    drop (S i) (used s') = drop (S i) (used s) /\
    (table_of (used s'), w') = spec_calls cs (table_of (used s)) w.
Proof.
  intros Hok Hs Hx H0 cs. unfold cs. pose proof Hok as (Htab & Hn & _).
  pose proof (take_drop_middle _ _ _ Hx) as Emid. pose proof (lookup_lt_Some _ _ _ Hx) as Hlt.
  set (l1 := take i (used s)) in *. set (l2 := drop (S i) (used s)) in *.
  assert (El : length l1 = i) by (unfold l1; rewrite length_take; lia).
  assert (Hne : forall l k, l ≡ₚ x :: k -> NoDup (fd <$> live l) -> Forall (fun z => fd z <> fd x) k).
  { intros l k Hp Hl. rewrite Hp, live_cons in Hl by done. simpl in Hl. apply NoDup_cons in Hl as [Hl _].
    apply Forall_forall. intros z Hz E. apply Hl. apply list_elem_of_fmap. exists z. split; [done|].
    apply list_elem_of_filter. split; [lia|done]. }
  assert (H12 : Forall (fun z => fd z <> fd x) (l1 ++ l2)).
  { apply (Hne (used s)); [|done]. by rewrite <-Emid, Permutation_middle. }
  apply Forall_app in H12 as [H1 H2].
  assert (Ha : around (fd x) l1 l2 (used s)) by (left; exists x; split; [by rewrite Emid|by left]).
  assert (Hxs : slots s !! i = Some x) by (unfold used in Hx; by apply lookup_take_Some in Hx as [? _]).
  assert (Hcall : forall rev, exists s' w', run_callback clock callback_run s w x rev = Done (s', w') /\ fdset_ok s' /\ same_frame s s' /\
    slots_kept s s' /\ drop (S i) (used s') = l2 /\
    (table_of (used s'), w') = spec_calls [MkCalled (fd x) rev (callback x) (datafield x)] (table_of (used s)) w).
  { intros rev. unfold run_callback. simpl. pose proof (own_calls (callback x) (fd x) rev (datafield x) w) as Ho.
    destruct (callback_run (callback x) (fd x) rev (datafield x) w) as [w' ops]. simpl in Ho.
    destruct (run_calls_own (fd x) l1 l2 ops s (clock w') Hok Hs H0 H1 H2 Ho Ha) as (s' & -> & Hok' & Hf & Hk & Ha' & Ht).
    simpl. do 2 eexists. split; [reflexivity|]. split_and!; try done; [|by rewrite Ht].
    rewrite <-El. by eapply around_drop. }
  unfold scan_one. rewrite Hxs. simpl. unfold ready, call_of, reported. destruct (Z.eqb_spec (revents x) 0); simpl.
  - destruct ((0 <? timeout s) && (time x + timeout s <=? now)).
    + destruct (Hcall POLLERR) as (s' & w' & -> & Hok' & Hf & _ & Hdr & Hsp). simpl. by exists s', w'.
    + by exists s, w.
  - destruct (Hcall (revents x)) as (s' & w' & -> & Hok' & Hf & Hk & Hdr & Hsp). simpl.
    pose proof Hok' as ((T1 & T2 & T3) & _). rewrite T3. simpl.
    destruct (lookup_lt_is_Some_2 (slots s') i) as [y Hy].
    { unfold slots_kept in Hk. pose proof (lookup_lt_Some _ _ _ Hxs). lia. }
    rewrite Hy. simpl. unfold put_slot. rewrite (proj2 (Nat.ltb_lt _ _)) by (by apply lookup_lt_Some in Hy). simpl.
    destruct (stamp_ok s' i y (clock w') Hok' Hy) as (Hok2 & Hf2 & Ht2 & Hd2).
    do 2 eexists. split; [reflexivity|]. split; [done|]. split; [unfold same_frame in *; intuition congruence|].
    split; [by rewrite Hd2, Hdr|]. rewrite Ht2. exact Hsp.
Qed.

Lemma spec_calls_app cs cs' m w :
  spec_calls (cs ++ cs') m w = let '(m', w') := spec_calls cs m w in spec_calls cs' m' w'.
Proof.
  revert m w. induction cs as [|c cs IH]; intros m w; simpl; [done|].
  destruct (callback_run _ _ _ _ w) as [w' ops]. apply IH.
Qed.

Lemma scan_loop_own now todo : forall s w i, fdset_ok s -> scanning s = true ->
  drop i (used s) = todo -> Forall (fun x => 0 <= fd x) todo ->
  let cs := call_of <$> ready_in (timeout s) now todo in
  exists s' w', (forall k, (length todo < k)%nat -> scan_loop clock callback_run k s w now i = Some (Done (s', w', cs))) /\
    fdset_ok s' /\ same_frame s s' /\ (table_of (used s'), w') = spec_calls cs (table_of (used s)) w.
Proof.
  induction todo as [|x todo IH]; intros s w i Hok Hs Ed Hl; cbv zeta.
  all: pose proof Hok as (Htab & _); destruct (table_split s Htab) as (rest & _ & El); pose proof Htab as (_ & _ & Hfr).
  - exists s, w. split_and!; try done. intros [|k] Hk; [simpl in Hk; lia|]. simpl. rewrite Hfr.
    apply (f_equal length) in Ed. rewrite length_drop in Ed. simpl in Ed.
    by rewrite (proj2 (Nat.ltb_ge _ _)) by lia.
  - apply Forall_cons in Hl as [Hx Hl].
    assert (Hxi : used s !! i = Some x) by (by rewrite <-(Nat.add_0_r i), <-lookup_drop, Ed).
    destruct (scan_one_own s w now i x Hok Hs Hxi Hx) as (s1 & w1 & E1 & Hok1 & Hf1 & Hd1 & Hsp1).
    pose proof Hf1 as (_ & Ht1 & Hs1 & _). rewrite Hs in Hs1.
    assert (Ed1 : drop (S i) (used s) = todo) by (rewrite (drop_S _ _ _ Hxi) in Ed; by injection Ed).
    rewrite Ed1 in Hd1. pose proof (lookup_lt_Some _ _ _ Hxi) as Hlt.
    destruct (IH s1 w1 (S i) Hok1 Hs1 Hd1 Hl) as (s2 & w2 & E2 & Hok2 & Hf2 & Hsp2). rewrite Ht1 in E2, Hsp2.
    exists s2, w2. rewrite ready_in_cons. split_and!.
    + intros [|k] Hk; [simpl in Hk; lia|]. simpl in Hk |- *.
      rewrite Hfr, (proj2 (Nat.ltb_lt _ _)), E1, Nat.add_1_r, E2 by lia. by destruct (ready (timeout s) now x).
    + done.
    + unfold same_frame in *. intuition congruence.
    + rewrite Hsp2. destruct (ready (timeout s) now x); cbn [fmap list_fmap].
      * change (call_of x :: ?l) with ([call_of x] ++ l). rewrite spec_calls_app, <-Hsp1. done.
      * simpl in Hsp1. by injection Hsp1 as -> ->.
Qed.

Lemma scanning_ok s b : fdset_ok s -> (b = false -> deleted_entries s = 0) -> fdset_ok (set_scanning s b).
Proof. intros (H1 & H2 & H3 & _) Hb. by split_and!. Qed.

Lemma compact_ok l l' : l' ≡ₚ live l -> NoDup (fd <$> live l) ->
  NoDup (fd <$> live l') /\ dead l' = [] /\ table_of l' = table_of l.
Proof.
  intros Hp Hn.
  assert (Hl : Forall (fun x => 0 <= fd x) l').
  { rewrite Hp. apply Forall_forall. intros x Hx. by apply list_elem_of_filter in Hx as [? _]. }
  assert (Hid : live l' ≡ₚ live l).
  { transitivity l'; [|done]. rewrite (live_dead_split l') at 2. by rewrite all_live, app_nil_r by done. }
  assert (Hn' : NoDup (fd <$> live l')) by (by rewrite Hid). split_and!; [done|by apply all_live|].
  unfold table_of. apply list_to_map_proper; [by rewrite <-list_fmap_compose|by rewrite Hid].
Qed.

Lemma poller_scan_own s w rev : fdset_ok s -> scanning s = false ->
  let cs := call_of <$> ready_in (timeout s) (clock w) (write_revents (used s) (take (entries s) rev)) in
  exists s' w', (forall k, (entries s < k)%nat -> poller_scan clock callback_run k s w rev = Some (Done (s', w', cs))) /\
    fdset_ok s' /\ same_frame s s' /\ (table_of (used s'), w') = spec_calls cs (table_of (used s)) w.
Proof.
  intros (Htab & Hn & Hd & Hz) Hs cs. specialize (Hz Hs).
  destruct (polled_ok s rev Htab) as [Hok1 Hu1].
  destruct (same_fields_table _ _ (write_revents_fields (used s) (take (entries s) rev))) as (F1 & F2 & F3).
  rewrite <-Hu1 in F1, F2, F3.
  assert (Hp : fdset_ok (polled s rev)).
  { unfold fdset_ok. rewrite <-F1, <-F2. by split_and!. }
  assert (Hlive : Forall (fun x => 0 <= fd x) (used (polled s rev))).
  { rewrite Hz, F2 in Hd. destruct (no_dead (used (polled s rev)) 0 Hd ltac:(lia)) as [Hpe _].
    rewrite Hpe. apply Forall_forall. intros x Hx. by apply list_elem_of_filter in Hx as [? _]. }
  destruct (scan_loop_own (clock w) (used (polled s rev)) (set_scanning (polled s rev) true) w 0)
    as (s1 & w1 & E & Hok2 & Hf & Hsp); [by apply scanning_ok|done|done|done|].
  assert (Elen : length (used (polled s rev)) = entries s).
  { destruct (table_split _ Hok1) as (r & _ & Hl). by rewrite <-Hl. }
  change (timeout (set_scanning (polled s rev) true)) with (timeout s) in E, Hsp.
  change (used (set_scanning (polled s rev) true)) with (used (polled s rev)) in Hsp. rewrite Elen in E.
  rewrite <-F3 in Hsp. rewrite Hu1 in E, Hsp. pose proof Hok2 as (Htab2 & Hn2 & Hd2 & _).
  destruct (remove_loop_spec (entries s1) 0 (set_scanning s1 false) Htab2) as (s2 & Er & Hok3 & Hf3 & Hrm).
  specialize (Hrm ltac:(simpl; lia) ltac:(constructor) Hd2) as [Hu3 Hd3].
  change (used (set_scanning s1 false)) with (used s1) in Hu3.
  destruct (compact_ok _ _ Hu3 Hn2) as (H3 & H4 & H5).
  exists (if 0 <? deleted_entries s1 then s2 else set_scanning s1 false), w1. split_and!.
  - intros k Hk. unfold poller_scan. unfold polled in E. rewrite E by done. cbv [mbind option_bind outcome_bind].
    unfold remove_deleted_entries. change (entries (set_scanning s1 false)) with (entries s1).
    change (deleted_entries (set_scanning s1 false)) with (deleted_entries s1).
    destruct (0 <? deleted_entries s1); [|done]. by rewrite Er.
  - destruct (Z.ltb_spec 0 (deleted_entries s1)); [|apply scanning_ok; [done|lia]].
    unfold fdset_ok. rewrite H4, Hd3. by split_and!.
  - destruct (0 <? deleted_entries s1); unfold same_frame in *; simpl in *; intuition congruence.
  - unfold cs. rewrite <-Hsp. f_equal. by destruct (0 <? deleted_entries s1).
Qed.

Fixpoint all_allowed (m : gmap Z registration) (ops : list operation) : Prop :=
  match ops with
  | [] => True
  | o :: ops => allowed m o /\ all_allowed (fdset_spec m o) ops
  end.

Lemma handle_actions_spec now acts : forall s, fdset_ok s -> actions s = acts -> all_allowed (table_of (used s)) (op <$> acts) ->
  exists s', handle_actions acts s now = Done (s', 0) /\ fdset_ok s' /\ scanning s' = scanning s /\ timeout s' = timeout s /\
    actions s' = [] /\ confirmed s' = confirmed s ++ omap done acts /\
    table_of (used s') = foldl fdset_spec (table_of (used s)) (op <$> acts).
Proof.
  induction acts as [|a acts IH]; intros s Hok Ha Hal; simpl.
  { exists s. rewrite app_nil_r. by split_and!. }
  simpl in Hal. destruct Hal as [Hal Hall].
  destruct (fdset_call_refines (set_actions s acts) now 0 (op a) Hok Hal) as (s1 & E1 & Hok1 & (Hp1 & Ht1 & Hs1 & Ha1 & Hc1) & Htab1).
  unfold handle_action. rewrite E1. simpl. change (used (set_actions s acts)) with (used s) in Htab1. simpl in *.
  set (s2 := match done a with None => s1 | Some t => set_confirmed s1 (confirmed s1 ++ [t]) end).
  assert (H2 : fdset_ok s2 /\ scanning s2 = scanning s /\ timeout s2 = timeout s /\ actions s2 = acts /\ used s2 = used s1 /\
    confirmed s2 = confirmed s ++ omap done [a]).
  { unfold s2. simpl. destruct (done a); simpl; rewrite ?Hc1, ?app_nil_r; by split_and!. }
  destruct H2 as (Hok2 & Hs2 & Ht2 & Ha2 & Hu2 & Hc2).
  assert (Er : (match op a with DESTROY => -1 | _ => 0 end : Z) = 0) by (destruct (op a); done).
  rewrite Er. simpl.
  destruct (IH s2 Hok2 Ha2) as (s3 & E3 & Hok3 & Hs3 & Ht3 & Ha3 & Hc3 & Htab3); [by rewrite Hu2, Htab1|].
  exists s3. split; [exact E3|]. split_and!; try done; try congruence.
  - rewrite Hc3, Hc2, <-app_assoc. simpl. by destruct (done a).
  - by rewrite Htab3, Hu2, Htab1.
Qed.

(** C24 A turn of the polling thread, for callbacks that mind their own
    descriptor ([own_calls]: they only listen for other events of it or
    unregister it; [unregistered_is_called] shows what happens otherwise) and
    requests that the set accepts: the requests of the other threads are done
    in their order and confirmed; then the callback of each entry that is ready is called once,
    in the order of the table, with the events of its descriptor; the table
    that is left, without the deleted entries, is the map that all these
    calls make. *)
Theorem poller_turn_refines s w rev :
  fdset_ok s -> scanning s = false -> all_allowed (table_of (used s)) (op <$> actions s) ->
  exists s1, handle_actions (actions s) s (clock w) = Done (s1, 0) /\
    table_of (used s1) = foldl fdset_spec (table_of (used s)) (op <$> actions s) /\
    let cs := call_of <$> ready_in (timeout s) (clock w) (write_revents (used s1) (take (entries s1) rev)) in
    exists s' w', (forall k, (entries s1 < k)%nat ->
        poller_turn clock callback_run k s w (Some rev) = Some (Done (s', w', cs, true))) /\
      fdset_ok s' /\ scanning s' = false /\ actions s' = [] /\ confirmed s' = confirmed s ++ omap done (actions s) /\
      (table_of (used s'), w') = spec_calls cs (table_of (used s1)) w.
Proof.
  intros Hok Hs Hal.
  destruct (handle_actions_spec (clock w) (actions s) s Hok eq_refl Hal) as (s1 & E1 & Hok1 & Hs1 & Ht1 & Ha1 & Hc1 & Htab1).
  exists s1. split; [done|]. split; [done|].
  destruct (poller_scan_own s1 w rev Hok1 ltac:(congruence)) as (s2 & w2 & E2 & Hok2 & (_ & Ht2 & Hs2 & Ha2 & Hc2) & Hsp).
  rewrite Ht1 in E2, Hsp. exists s2, w2. split_and!; try done; try congruence.
  intros k Hk. unfold poller_turn. rewrite E1. simpl. by rewrite E2.
Qed.

End Own.
End Facts.

(** ** Concrete sets *)

Module FdsetExamples.

(** Callback 0 unregisters its descriptor, callback 1 stops listening, any
    other unregisters the descriptor that is its data. *)
Definition run (c f r d w : Z) : Z * list (@operation Z Z) :=
  (w + 1, if c =? 0 then [UNREGISTER f] else if c =? 1 then [LISTEN f 1 0] else [UNREGISTER d]).

Definition own_run (c f r d w : Z) : Z * list (@operation Z Z) := (w + 1, if c =? 0 then [UNREGISTER f] else [LISTEN f 1 0]).

Definition requests : list (@action Z Z) :=
  [MkAction (REGISTER 5 1 0 0) None; MkAction (REGISTER 6 1 1 0) None; MkAction (LISTEN 6 4 4) (Some 77);
   MkAction (REGISTER 7 1 0 0) None].

Definition fresh : @FDSet Z Z := set_actions (MkFDSet 3 [] 1 0 (-1) false 0 [] [] false) requests.

Example fresh_created : option_map (fun s => set_actions s requests) (fdset_create_real 3 0) = Some fresh.
Proof. reflexivity. Qed.

(** The three are registered, the request that waits is confirmed; all are
    called and 6 is left. *)
Example turn : exists s,
  poller_turn (fun w => w) run 4 fresh 100 (Some [1; 4; 1])
  = Some (Done (s, 103, [MkCalled 5 1 0 0; MkCalled 6 4 1 0; MkCalled 7 1 0 0], true)) /\
  (fd <$> used s) = [6] /\ confirmed s = [77] /\ deleted_entries s = 0.
Proof. eexists. split; [vm_compute; reflexivity|]. split_and!; reflexivity. Qed.

(** The first callback unregisters descriptor 6, which is ready too: its
    callback is called all the same, with the descriptor -1. *)
Example unregistered_is_called :
  match poller_turn (fun w => w) run 4
      (set_actions fresh [MkAction (REGISTER 5 1 2 6) None; MkAction (REGISTER 6 1 1 0) None; MkAction (REGISTER 7 1 1 0) None])
      100 (Some [1; 1; 0]) with
  | Some (Done (_, _, cs, _)) => cs = [MkCalled 5 1 2 6; MkCalled (-1) 1 1 0]
  | _ => False
  end.
Proof. vm_compute. reflexivity. Qed.

End FdsetExamples.

Lemma poller_scan_ends_witness :
  table_ok FdsetExamples.fresh /\
  exists fuel s' w' cs, (forall k, (fuel <= k)%nat ->
      poller_scan (fun w => w) FdsetExamples.run k FdsetExamples.fresh 100 [] = Some (Done (s', w', cs))) /\
    table_ok s' /\ scanning s' = false /\
    (called_target <$> cs) `sublist_of`
      (target <$> ready_in (timeout FdsetExamples.fresh) 100 (write_revents (used FdsetExamples.fresh) (take (entries FdsetExamples.fresh) []))).
Proof.
  assert (H : table_ok FdsetExamples.fresh) by (repeat split; simpl; lia). split; [exact H|].
  apply (poller_scan_ends (fun w => w) FdsetExamples.run); [| |exact H].
  - intros. unfold FdsetExamples.run. simpl. lia.
  - intros. unfold FdsetExamples.run. simpl. destruct (c =? 0); [|destruct (c =? 1)]; by repeat constructor.
Defined.

Lemma poller_turn_refines_witness :
  (forall c f r d w, Forall (own_call f) (FdsetExamples.own_run c f r d w).2) /\
  exists s1, handle_actions (actions FdsetExamples.fresh) FdsetExamples.fresh 100 = Done (s1, 0) /\ (entries s1 = 3)%nat.
Proof.
  assert (Ho : forall c f r d w, Forall (own_call f) (FdsetExamples.own_run c f r d w).2).
  { intros. unfold FdsetExamples.own_run. simpl. destruct (c =? 0); by repeat constructor. }
  split; [exact Ho|].
  destruct (poller_turn_refines (fun w => w) FdsetExamples.own_run Ho FdsetExamples.fresh 100 [1; 4; 1]) as (s1 & E & _).
  - repeat split; simpl; try lia. constructor.
  - reflexivity.
  - repeat split; simpl; try lia.
  - exists s1. split; [exact E|]. vm_compute in E. injection E as <-. reflexivity.
Defined.
