(* ===== verification/GwThread.v ===== *)
(** * Threads (gwthread-pthread.c)

    The table of threads, their creation and end, joining and waking up.
    The operating system tells what [pthread_create], [pipe] and [malloc]
    gave: these are arguments.  The condition variable of a thread that waits
    is on its stack and has its name; [conds] are those that exist and [blocked]
    the threads that wait on theirs, which may go on without being woken
    (POSIX permits it, and no caller tests again).  Of a wakeup pipe the model has whether it can be read.  What
    happens under the lock of the table is one operation.  [poll] and the
    signal masks are not modelled; an access outside of the table, a number
    beyond [long], the waking of a variable that is gone and a look into a freed structure are undefined. *)

From S2P Require Import Prelude Gwlib.
Open Scope Z_scope.

Definition THREADTABLE_SIZE : Z := 1024.
Definition MAIN_THREAD_ID : Z := 0.
Definition long_max : Z := 2 ^ 63 - 1.

Section GwThread.
Context {L : GwListLib}.

(** A [pthread_t], the address of a structure and a descriptor are numbers. *)
Record threadinfo : Type := MkInfo {
  self : Z; name : list Z; func : option Z; number : Z; wakefd_recv : Z; wakefd_send : Z;
  joiners : option (gwlist Z); pid : Z
}.

(** The variables of the module; [infos] are the structures at their
    addresses and [specific] the thread-specific data under [tsd_key]. *)
Record Threads : Type := MkThreads {
  infos : gmap Z threadinfo;
  threadtable : list (option Z);
  active_threads : Z;
  next_threadnumber : Z;
  specific : gmap Z Z;
  conds : gset Z;
  blocked : gset Z;
  write_ends : gmap Z Z;
  readable : gmap Z bool
}.
Implicit Types (t : Threads) (ti : threadinfo).

Definition set_infos t m := MkThreads m (threadtable t) (active_threads t) (next_threadnumber t) (specific t) (conds t) (blocked t) (write_ends t) (readable t).
Definition set_table t l a n := MkThreads (infos t) l a n (specific t) (conds t) (blocked t) (write_ends t) (readable t).
Definition set_specific t m := MkThreads (infos t) (threadtable t) (active_threads t) (next_threadnumber t) m (conds t) (blocked t) (write_ends t) (readable t).
Definition set_blocked t b := MkThreads (infos t) (threadtable t) (active_threads t) (next_threadnumber t) (specific t) (conds t) b (write_ends t) (readable t).
Definition set_conds t c := MkThreads (infos t) (threadtable t) (active_threads t) (next_threadnumber t) (specific t) c (blocked t) (write_ends t) (readable t).
Definition set_pipes t w r := MkThreads (infos t) (threadtable t) (active_threads t) (next_threadnumber t) (specific t) (conds t) (blocked t) w r.

Definition set_joiners ti j := MkInfo (self ti) (name ti) (func ti) (number ti) (wakefd_recv ti) (wakefd_send ti) j (pid ti).
Definition set_pid ti p := MkInfo (self ti) (name ti) (func ti) (number ti) (wakefd_recv ti) (wakefd_send ti) (joiners ti) p.

(** [THREAD(t)]. *)
Definition slot (n : Z) : nat := Z.to_nat (n mod THREADTABLE_SIZE).
Definition THREAD t (n : Z) : option Z := default None (threadtable t !! slot n).

(** The structure of thread [n], if it is alive. *)
Definition alive t (n : Z) : option (Z * threadinfo) :=
  a ← THREAD t n; ti ← infos t !! a; if number ti =? n then Some (a, ti) else None.

(** ** Creation *)

(** The search for a free entry; it gives up when it looked at all. *)
Fixpoint find_number (fuel : nat) (table : list (option Z)) (first next : Z) : outcome (Z * Z) :=
  match fuel with
  | O => Panic
  | S fuel =>
      if next =? first + THREADTABLE_SIZE then Done (-1, next + 1)
      else match default None (table !! slot next) with
           | None => Done (next, next + 1)
           | Some _ => find_number fuel table first (next + 1)
           end
  end.

(** [a] is the address of the structure, [pipefds] what [pipe] made. *)
Definition fill_threadinfo t (id : Z) (nm : list Z) (fn : option Z) (a : Z) (pipefds : option (Z * Z))
    : outcome (Z * Threads) :=
  _ ← gw_assert (active_threads t <? THREADTABLE_SIZE);
  _ ← gw_assert (next_threadnumber t + THREADTABLE_SIZE <? long_max);
  match pipefds with
  | None => Done (-1, set_infos t (<[a := MkInfo id nm fn (-1) (-1) (-1) None (-1)]> (infos t)))
  | Some (r, s) =>
      let t := set_pipes t (<[s := r]> (write_ends t)) (<[r := false]> (readable t)) in
      nn ← find_number 1025 (threadtable t) (next_threadnumber t) (next_threadnumber t);
      let t := set_infos t (<[a := MkInfo id nm fn nn.1 r s None (-1)]> (infos t)) in
      if nn.1 =? -1 then Done (-1, set_table t (threadtable t) (active_threads t) nn.2)
      else Done (nn.1, set_table t (<[slot nn.1 := Some a]> (threadtable t)) (active_threads t + 1) nn.2)
  end.

(** What the operating system gives to a thread that is created. *)
Record resources : Type := MkRes { res_thread : option Z; res_addr : Z; res_pipe : option (Z * Z) }.

(** The result says too whether the new thread runs, and whether it is told
    that it failed. *)
Definition spawn_thread t (fn : Z) (nm : list Z) (r : resources) : outcome (Z * option bool * Threads) :=
  if THREADTABLE_SIZE <=? active_threads t then Done (-1, None, t)
  else
    match res_thread r with
    | None => Done (-1, None, t)
    | Some id =>
        nt ← fill_threadinfo t id nm (Some fn) (res_addr r) (res_pipe r);
        Done (nt.1, Some (nt.1 =? -1), nt.2)
    end.

(** ** The thread itself *)

Definition getthreadinfo t (me : Z) : outcome (Z * threadinfo) :=
  a ← must (specific t !! me);
  ti ← must (infos t !! a);
  _ ← gw_assert (self ti =? me);
  Done (a, ti).

(** [pthread_cond_broadcast] wakes the thread that waits on the variable; [cs]
    are the variables that exist. *)
Fixpoint broadcast_all (fuel : nat) (joiners : gwlist Z) (cs b : gset Z) : outcome (gwlist Z * gset Z) :=
  match fuel with
  | O => Panic
  | S fuel =>
      let '(joiner_cond, joiners) := gwlist_extract_first joiners in
      match joiner_cond with
      | None => Done (joiners, b)
      | Some c =>
          _ ← gw_assert (bool_decide (c ∈ cs));
          broadcast_all fuel joiners cs (b ∖ {[c]})
      end
  end.

Definition alert_joiners t (me : Z) : outcome Threads :=
  ati ← getthreadinfo t me;
  match joiners ati.2 with
  | None => Done t
  | Some l =>
      lb ← broadcast_all (S (length (items l))) l (conds t) (blocked t);
      Done (set_blocked (set_infos t (<[ati.1 := set_joiners ati.2 (Some lb.1)]> (infos t))) lb.2)
  end.

(** The structure of the main thread is at the address [main]. *)
Definition delete_threadinfo t (main me : Z) : outcome Threads :=
  ati ← getthreadinfo t me;
  let ti := ati.2 in
  let t := if wakefd_recv ti =? -1 then t else set_pipes t (write_ends t) (delete (wakefd_recv ti) (readable t)) in
  let t := if wakefd_send ti =? -1 then t else set_pipes t (delete (wakefd_send ti) (write_ends t)) (readable t) in
  let t := if number ti =? -1 then t
           else set_table t (<[slot (number ti) := None]> (threadtable t)) (active_threads t - 1) (next_threadnumber t) in
  _ ← gw_assert (negb (ati.1 =? main));
  Done (set_infos t (delete ati.1 (infos t))).

(** [new_thread] up to the call of the function of the thread: [a] is [p->ti]. *)
Definition new_thread_starts t (main me a : Z) (failed : bool) (getpid : Z) : outcome Threads :=
  if failed then delete_threadinfo t main me
  else
    let t := set_specific t (<[me := a]> (specific t)) in
    ti ← must (infos t !! a);
    Done (set_infos t (<[a := set_pid ti getpid]> (infos t))).

(** And after it; the data of the thread is gone when it has ended. *)
Definition new_thread_ends t (main me : Z) : outcome Threads :=
  t ← alert_joiners t me;
  t ← delete_threadinfo t main me;
  Done (set_specific t (delete me (specific t))).

Definition gwthread_self t (me : Z) : outcome Z :=
  match specific t !! me with
  | None => Done (-1)
  | Some a => ti ← must (infos t !! a); Done (number ti)
  end.

(** ** Joining *)

(** [pthread_cond_init] and [pthread_cond_destroy] on the variable of [me]. *)
Definition cond_init t (me : Z) : Threads := set_conds t (conds t ∪ {[me]}).
Definition cond_destroy t (me : Z) : Threads := set_conds t (conds t ∖ {[me]}).

(** The condition variable of [me] is put into the list of the thread at
    [a], and [me] waits. *)
Definition add_joiner t (me a : Z) ti : Threads :=
  let l := gwlist_append (default gwlist_create (joiners ti)) me in
  set_blocked (set_infos t (<[a := set_joiners ti (Some l)]> (infos t))) (blocked t ∪ {[me]}).

(** Until the wait, or to the end: the result says whether the thread
    waits.  After the wait there is only [cond_destroy]. *)
Definition gwthread_join t (me thread : Z) : outcome (bool * Threads) :=
  _ ← gw_assert (0 <=? thread);
  match THREAD t thread with
  | None => Done (false, t)
  | Some a =>
      ti ← must (infos t !! a);
      if negb (number ti =? thread) then Done (false, t)
      else Done (true, add_joiner (cond_init t me) me a ti)
  end.

(** The loop of [gwthread_join_every] from entry [i] on: the entry for whose thread it
    waits. *)
Fixpoint gwthread_join_every (fuel : nat) t (me fn : Z) (i : Z) : outcome (option Z * Threads) :=
  match fuel with
  | O => Done (None, t)
  | S fuel =>
      match THREAD t i with
      | None => gwthread_join_every fuel t me fn (i + 1)
      | Some a =>
          ti ← must (infos t !! a);
          if bool_decide (func ti = Some fn) then Done (Some i, add_joiner t me a ti)
          else gwthread_join_every fuel t me fn (i + 1)
      end
  end.

(** ** Waking up *)

(** The descriptor is looked up under the lock and written to without. *)
Definition wakeup_fd t (thread : Z) : outcome (option Z) :=
  _ ← gw_assert (0 <=? thread);
  match THREAD t thread with
  | None => Done None
  | Some a => ti ← must (infos t !! a); Done (if number ti =? thread then Some (wakefd_send ti) else None)
  end.

Definition wakeup_write t (fd : Z) : Threads :=
  match write_ends t !! fd with
  | None => t
  | Some r => set_pipes t (write_ends t) (alter (fun _ => true) r (readable t))
  end.

Definition gwthread_wakeup t (thread : Z) : outcome Threads :=
  fd ← wakeup_fd t thread;
  Done (match fd with None => t | Some fd => wakeup_write t fd end).

(** The loop over the table wakes the numbers below its size. *)
Fixpoint wakeup_loop (fuel : nat) t (our_thread i : Z) : outcome Threads :=
  match fuel with
  | O => Done t
  | S fuel =>
      t ← (if bool_decide (THREAD t our_thread = THREAD t i) then Done t else gwthread_wakeup t i);
      wakeup_loop fuel t our_thread (i + 1)
  end.

Definition gwthread_wakeup_all t (me : Z) : outcome Threads :=
  our_thread ← gwthread_self t me;
  wakeup_loop 1024 t our_thread 0.

(** [gwthread_sleep], [gwthread_poll] and [gwthread_pollfd] return when the
    pipe of the thread can be read, and empty it then. *)
Definition flushpipe t (fd : Z) : Threads := set_pipes t (write_ends t) (alter (fun _ => false) fd (readable t)).

Definition gwthread_sleep t (me : Z) : outcome (bool * Threads) :=
  ati ← getthreadinfo t me;
  if default false (readable t !! wakefd_recv ati.2) then Done (true, flushpipe t (wakefd_recv ati.2))
  else Done (false, t).

(** ** The module *)

Definition no_threads : Threads := MkThreads ∅ (replicate 1024 None) 0 0 ∅ ∅ ∅ ∅ ∅.

Definition gwthread_init (main me : Z) (pipefds : option (Z * Z)) : outcome Threads :=
  nt ← fill_threadinfo no_threads me [109; 97; 105; 110] None main pipefds;
  _ ← gw_assert (negb (nt.1 =? -1));
  Done (set_specific nt.2 (<[me := main]> (specific nt.2))).

(** How many threads still run. *)
Definition gwthread_shutdown t : outcome Z :=
  _ ← gw_assert (bool_decide (is_Some (THREAD t 0)));
  Done (Z.of_nat (length (List.filter (fun o => match o with Some _ => true | None => false end) (tail (threadtable t))))).

Definition gwthread_cancel t (thread : Z) : outcome (option Z) :=
  _ ← gw_assert (0 <=? thread);
  match THREAD t thread with
  | None => Done None
  | Some a => ti ← must (infos t !! a); Done (if number ti =? thread then Some (self ti) else None)
  end.

(** The name in the entry [thread], not in that of the number. *)
Definition gwthread_funcname t (thread : Z) : outcome (list Z) :=
  _ ← gw_assert (bool_decide (is_Some (THREAD t 0)));
  _ ← gw_assert ((0 <=? thread) && (thread <? THREADTABLE_SIZE));
  a ← must (default None (threadtable t !! Z.to_nat thread));
  ti ← must (infos t !! a);
  Done (name ti).

(** ** The threads together *)

(** What a thread is doing: running its function, not yet begun, waiting for
    thread [n] or for the thread in entry [i] of those that run [fn]. *)
Inductive activity : Type :=
| Running
| Beginning (a : Z) (failed : bool)
| Joining (n : Z)
| JoiningEvery (fn i : Z).

Record System : Type := MkSystem { table : Threads; acts : gmap Z activity }.

Definition run t (acts : gmap Z activity) (me : Z) : System := MkSystem t (<[me := Running]> acts).

(** What [gwthread_join_every] does next. *)
Definition every_next t (acts : gmap Z activity) (me fn : Z) (o : option Z) : System :=
  match o with None => run (cond_destroy t me) acts me | Some i => MkSystem t (<[me := JoiningEvery fn i]> acts) end.

(** [spurious] says whether [pthread_cond_wait] may return although nobody has
    woken the thread. *)
Inductive step (spurious : bool) (main : Z) : System -> System -> Prop :=
| step_spawn t acts me id fn nm r n failed t' :
    acts !! me = Some Running -> res_thread r = Some id -> acts !! id = None -> infos t !! res_addr r = None ->
    (forall x y, res_pipe r = Some (x, y) -> readable t !! x = None /\ write_ends t !! y = None /\ x <> -1 /\ y <> -1) ->
    spawn_thread t fn nm r = Done (n, Some failed, t') ->
    step spurious main (MkSystem t acts) (MkSystem t' (<[id := Beginning (res_addr r) failed]> acts))
| step_begin t acts me a failed getpid t' :
    acts !! me = Some (Beginning a failed) ->
    new_thread_starts t main me a failed getpid = Done t' ->
    step spurious main (MkSystem t acts) (if failed then MkSystem t' (delete me acts) else run t' acts me)
| step_end t acts me t' :
    acts !! me = Some Running -> specific t !! me <> Some main ->
    new_thread_ends t main me = Done t' ->
    step spurious main (MkSystem t acts) (MkSystem t' (delete me acts))
| step_join t acts me n waits t' :
    acts !! me = Some Running -> gwthread_join t me n = Done (waits, t') ->
    step spurious main (MkSystem t acts) (if waits then MkSystem t' (<[me := Joining n]> acts) else MkSystem t' acts)
| step_joined t acts me n :
    acts !! me = Some (Joining n) -> me ∉ blocked t ->
    step spurious main (MkSystem t acts) (run (cond_destroy t me) acts me)
| step_join_every t acts me fn o t' :
    acts !! me = Some Running -> gwthread_join_every 1024 (cond_init t me) me fn 0 = Done (o, t') ->
    step spurious main (MkSystem t acts) (every_next t' acts me fn o)
| step_join_next t acts me fn i o t' :
    acts !! me = Some (JoiningEvery fn i) -> me ∉ blocked t ->
    gwthread_join_every (Z.to_nat (1023 - i)) t me fn (i + 1) = Done (o, t') ->
    step spurious main (MkSystem t acts) (every_next t' acts me fn o)
| step_spurious t acts me :
    spurious = true ->
    step spurious main (MkSystem t acts) (MkSystem (set_blocked t (blocked t ∖ {[me]})) acts)
| step_wakeup t acts me fd :
    acts !! me = Some Running ->
    step spurious main (MkSystem t acts) (MkSystem (wakeup_write t fd) acts)
| step_sleep t acts me woken t' :
    acts !! me = Some Running -> gwthread_sleep t me = Done (woken, t') ->
    step spurious main (MkSystem t acts) (MkSystem t' acts).

End GwThread.
