(* ===== verification/GwThreadFacts.v ===== *)
(** * Facts about the threads

    The table has every living thread under its number; no thread waits for
    one that has ended, and if [pthread_cond_wait] returns only when the thread
    was woken, threads wait exactly for those that live and no operation of a
    thread stops the process. *)

From S2P Require Import Prelude Gwlib GwThread.
Open Scope Z_scope.

Section Facts.
Context {L : GwListLib} {LL : GwListLaws L}.
Implicit Types (t : Threads) (ti : threadinfo) (acts : gmap Z activity) (s : System).

(** ** The table *)

Lemma slot_bound n : (slot n < 1024)%nat.
Proof. unfold slot, THREADTABLE_SIZE. pose proof (Z.mod_pos_bound n 1024). lia. Qed.

Lemma slot_onto first i : 0 <= first -> (i < 1024)%nat -> exists k, (k < 1024)%nat /\ slot (first + Z.of_nat k) = i.
Proof.
  intros Hf Hi. exists (Z.to_nat ((Z.of_nat i - first) mod 1024)). unfold slot, THREADTABLE_SIZE.
  pose proof (Z.mod_pos_bound (Z.of_nat i - first) 1024). split; [lia|].
  rewrite Z2Nat.id by lia. rewrite Zplus_mod_idemp_r. replace (first + (Z.of_nat i - first)) with (Z.of_nat i) by lia.
  rewrite Z.mod_small by lia. lia.
Qed.

(** The threads in a table. *)
Definition occupied (l : list (option Z)) : Z := Z.of_nat (length (omap id l)).

Lemma omap_insert_length (l : list (option Z)) i (x y : option Z) : l !! i = Some x ->
  Z.of_nat (length (omap id (<[i := y]> l))) =
  Z.of_nat (length (omap id l)) - (if x then 1 else 0) + (if y then 1 else 0).
Proof.
  revert i. induction l as [|z l IH]; intros [|i] H; simpl in H; try done.
  - injection H as ->. simpl. destruct x, y; simpl; lia.
  - specialize (IH i H). unfold omap in *. destruct x, y, z; simpl in *; lia.
Qed.

Lemma free_entry (l : list (option Z)) : occupied l < Z.of_nat (length l) -> exists i, l !! i = Some None.
Proof.
  unfold occupied, omap. induction l as [|[a|] l IH]; simpl; intros H; [lia| |by exists 0%nat].
  destruct IH as [i Hi]; [lia|]. by exists (S i).
Qed.

Lemma find_number_spec table first k : forall fuel next,
  length table = 1024%nat -> first <= next -> next + Z.of_nat k < first + THREADTABLE_SIZE -> (k < fuel)%nat ->
  table !! slot (next + Z.of_nat k) = Some None ->
  exists n, find_number fuel table first next = Done (n, n + 1) /\ next <= n < first + THREADTABLE_SIZE /\
    table !! slot n = Some None.
Proof.
  induction k as [|k IH]; intros [|fuel] next Hl Hle Hk Hf Hfree; try lia; simpl;
    (destruct (Z.eqb_spec next (first + THREADTABLE_SIZE)); [lia|]).
  - rewrite Z.add_0_r in Hfree. rewrite Hfree. simpl. exists next. split_and!; (done || lia).
  - destruct (lookup_lt_is_Some_2 table (slot next)) as [o Ho]; [rewrite Hl; apply slot_bound|]. rewrite Ho. simpl.
    destruct o as [a|]; [|exists next; split_and!; (done || lia)].
    destruct (IH fuel (next + 1)) as (m & E & Hb & Hfree'); try lia; try done.
    { by replace (next + 1 + Z.of_nat k) with (next + Z.of_nat (S k)) by lia. }
    exists m. split_and!; (done || lia).
Qed.

(** Every structure with a number is in the entry of its number, and every
    entry has one. *)
Record table_ok t : Prop := {
  to_length : length (threadtable t) = 1024%nat;
  to_entry : forall i a, threadtable t !! i = Some (Some a) ->
    exists ti, infos t !! a = Some ti /\ 0 <= number ti /\ slot (number ti) = i;
  to_info : forall a ti, infos t !! a = Some ti -> number ti <> -1 ->
    0 <= number ti < next_threadnumber t /\ THREAD t (number ti) = Some a;
  to_active : active_threads t = occupied (threadtable t);
  to_next : 0 <= next_threadnumber t
}.

Lemma THREAD_entry t n a : THREAD t n = Some a -> threadtable t !! slot n = Some (Some a).
Proof. unfold THREAD. destruct (threadtable t !! slot n) as [o|]; simpl; [by intros ->|done]. Qed.

Lemma alive_iff t n a ti : table_ok t ->
  alive t n = Some (a, ti) <-> infos t !! a = Some ti /\ number ti = n /\ n <> -1.
Proof.
  intros H. unfold alive. split.
  - destruct (THREAD t n) as [a'|] eqn:Ea; [|done]. simpl. destruct (infos t !! a') as [ti'|] eqn:Ei; [|done]. simpl.
    destruct (Z.eqb_spec (number ti') n); [|done]. intros [= <- <-]. split_and!; try done.
    destruct (to_entry _ H _ _ (THREAD_entry _ _ _ Ea)) as (ti & Hti & Hn & _). rewrite Ei in Hti. injection Hti as <-. lia.
  - intros (Hi & Hn & Hm). destruct (to_info _ H a ti Hi) as [_ Ht]; [congruence|]. rewrite Hn in Ht. rewrite Ht. simpl. rewrite Hi. simpl.
    by rewrite (proj2 (Z.eqb_eq _ _) Hn).
Qed.

(** Living threads have different numbers. *)
Lemma numbers_differ t a b ti tj : table_ok t -> infos t !! a = Some ti -> infos t !! b = Some tj ->
  number ti = number tj -> number ti <> -1 -> a = b.
Proof.
  intros H Ha Hb E Hn. destruct (to_info _ H a ti Ha Hn) as [_ E1]. destruct (to_info _ H b tj Hb) as [_ E2]; [congruence|].
  rewrite <-E in E2. congruence.
Qed.

Lemma table_ok_same t t' : infos t' = infos t -> threadtable t' = threadtable t -> active_threads t' = active_threads t ->
  next_threadnumber t' = next_threadnumber t -> table_ok t -> table_ok t'.
Proof. destruct t, t'. simpl. intros -> -> -> -> []. by split. Qed.

(** A change of a structure that keeps its number. *)
Lemma table_ok_alter t a ti ti' : table_ok t -> infos t !! a = Some ti -> number ti' = number ti ->
  table_ok (set_infos t (<[a := ti']> (infos t))).
Proof.
  intros [H1 H2 H3 H4 H5] Ha En. split; simpl; try done.
  - intros i b Hb. destruct (H2 i b Hb) as (tj & Hj & Hn). destruct (decide (b = a)) as [->|].
    + exists ti'. rewrite lookup_insert_eq. split; [done|]. rewrite Ha in Hj. injection Hj as <-. by rewrite En.
    + exists tj. by rewrite lookup_insert_ne.
  - intros b tj Hb. destruct (decide (b = a)) as [->|].
    + rewrite lookup_insert_eq in Hb. injection Hb as <-. rewrite En. by apply H3.
    + rewrite lookup_insert_ne in Hb by done. by apply H3.
Qed.

(** ** The parts of a thread's life *)

Definition resources_fresh t (r : resources) : Prop :=
  infos t !! res_addr r = None /\ exists x y, res_pipe r = Some (x, y).

(** With a pipe there is room for a thread while fewer than 1024 live: it
    gets a number that no thread had. *)
Lemma fill_spec t id nm fn a x y : table_ok t -> infos t !! a = None ->
  active_threads t < THREADTABLE_SIZE -> next_threadnumber t + THREADTABLE_SIZE < long_max ->
  exists n, next_threadnumber t <= n /\ threadtable t !! slot n = Some None /\
    fill_threadinfo t id nm fn a (Some (x, y)) = Done (n,
      MkThreads (<[a := MkInfo id nm fn n x y None (-1)]> (infos t)) (<[slot n := Some a]> (threadtable t))
        (active_threads t + 1) (n + 1) (specific t) (conds t) (blocked t) (<[y := x]> (write_ends t)) (<[x := false]> (readable t))).
Proof.
  intros H Ha Hlt Hmax. pose proof (to_length _ H) as Hl. pose proof (to_next _ H) as H0.
  destruct (free_entry (threadtable t)) as [i Hi].
  { rewrite Hl, <-(to_active _ H). exact Hlt. }
  assert (Hi' : (i < 1024)%nat) by (apply lookup_lt_Some in Hi; lia).
  destruct (slot_onto (next_threadnumber t) i H0 Hi') as (k & Hk & Es). rewrite <-Es in Hi.
  destruct (find_number_spec (threadtable t) (next_threadnumber t) k 1025 (next_threadnumber t)) as (n & E & Hn & Hfree);
    try done; try (unfold THREADTABLE_SIZE; lia).
  exists n. split; [lia|]. split; [done|]. unfold fill_threadinfo.
  rewrite (proj2 (Z.ltb_lt _ _) Hlt), (proj2 (Z.ltb_lt _ _) Hmax). cbn [gw_assert mbind outcome_bind set_pipes threadtable next_threadnumber].
  rewrite E. cbn [mbind outcome_bind fst snd]. destruct (Z.eqb_spec n (-1)); [lia|]. done.
Qed.

Lemma table_ok_fill t n a ti : table_ok t -> infos t !! a = None -> next_threadnumber t <= n -> number ti = n ->
  threadtable t !! slot n = Some None ->
  table_ok (set_table (set_infos t (<[a := ti]> (infos t))) (<[slot n := Some a]> (threadtable t)) (active_threads t + 1) (n + 1)).
Proof.
  intros [H1 H2 H3 H4 H5] Ha Hn En Hfree. split; simpl.
  - by rewrite length_insert.
  - intros i b Hb. apply list_lookup_insert_Some in Hb as [(<- & [= ->] & _)|[Hne Hb]].
    + exists ti. rewrite lookup_insert_eq. split_and!; [done|lia|by rewrite En].
    + destruct (H2 i b Hb) as (tj & Hj & ?). exists tj. rewrite lookup_insert_ne by congruence. done.
  - intros b tj Hb Hj. destruct (decide (b = a)) as [->|].
    + rewrite lookup_insert_eq in Hb. injection Hb as <-. split; [lia|]. unfold THREAD. simpl. rewrite En, list_lookup_insert_eq; [done|].
      rewrite H1. apply slot_bound.
    + rewrite lookup_insert_ne in Hb by done. destruct (H3 b tj Hb Hj) as [Hr Ht]. split; [lia|].
      unfold THREAD. simpl. rewrite list_lookup_insert_ne; [exact Ht|]. intros E. unfold THREAD in Ht. rewrite <-E, Hfree in Ht. done.
  - unfold occupied. rewrite (omap_insert_length _ _ None) by done. unfold occupied in H4. lia.
  - lia.
Qed.

Lemma table_ok_delete t a ti : table_ok t -> infos t !! a = Some ti -> number ti <> -1 ->
  table_ok (set_infos (set_table t (<[slot (number ti) := None]> (threadtable t)) (active_threads t - 1) (next_threadnumber t)) (delete a (infos t))).
Proof.
  intros H Ha Hn. destruct (to_info _ H a ti Ha Hn) as [Hr Ht]. apply THREAD_entry in Ht. destruct H as [H1 H2 H3 H4 H5]. split; simpl; try done.
  - by rewrite length_insert.
  - intros i b Hb. apply list_lookup_insert_Some in Hb as [(_ & ? & _)|[Hne Hb]]; [done|].
    destruct (H2 i b Hb) as (tj & Hj & Hnj). exists tj. rewrite lookup_delete_ne; [done|]. intros <-. rewrite Ha in Hj. injection Hj as <-. by destruct Hnj.
  - intros b tj Hb Hj. apply lookup_delete_Some in Hb as [Hne Hb]. destruct (H3 b tj Hb Hj) as [? Ht']. split; [done|].
    unfold THREAD. simpl. rewrite list_lookup_insert_ne; [exact Ht'|]. intros E. apply THREAD_entry in Ht'. rewrite <-E, Ht in Ht'. congruence.
  - unfold occupied. rewrite (omap_insert_length _ _ (Some a)) by done. unfold occupied in H4. lia.
Qed.

Lemma broadcast_all_spec fuel (l : gwlist Z) cs b : (length (items l) < fuel)%nat ->
  (forall c, c ∈ items l -> c ∈ cs) ->
  exists l', broadcast_all fuel l cs b = Done (l', b ∖ list_to_set (items l)) /\ items l' = [].
Proof.
  revert l b. induction fuel as [|fuel IH]; intros l b Hf Hcs; [lia|]. simpl.
  pose proof (gwlist_extract_first_fst _ l) as H1. pose proof (gwlist_extract_first_snd _ l) as H2.
  destruct (gwlist_extract_first l) as [o l1]. simpl in H1, H2. destruct (items l) as [|c ks] eqn:E; simpl in H1, H2; subst o.
  - exists l1. split; [|done]. f_equal. f_equal. simpl. set_solver.
  - rewrite bool_decide_eq_true_2 by (apply Hcs; set_solver). cbn [gw_assert mbind outcome_bind].
    destruct (IH l1 (b ∖ {[c]})) as (l' & -> & El); [rewrite H2; simpl in Hf; lia|rewrite H2; set_solver|]. exists l'. split; [|done].
    f_equal. f_equal. rewrite H2. set_solver.
Qed.

Lemma broadcast_all_conds fuel (l : gwlist Z) cs b x : broadcast_all fuel l cs b = Done x -> forall c, c ∈ items l -> c ∈ cs.
Proof.
  revert l b. induction fuel as [|fuel IH]; intros l b E; [done|]. simpl in E.
  pose proof (gwlist_extract_first_fst _ l) as H1. pose proof (gwlist_extract_first_snd _ l) as H2.
  destruct (gwlist_extract_first l) as [o l1]. simpl in H1, H2. destruct (items l) as [|c ks]; simpl in H1, H2; subst o; [set_solver|].
  destruct (bool_decide (c ∈ cs)) eqn:Ec; [|done]. apply bool_decide_eq_true_1 in Ec. cbn [gw_assert mbind outcome_bind] in E.
  intros c' [->|Hc]%elem_of_cons; [done|]. apply (IH l1 _ E). by rewrite H2.
Qed.

(** ** The threads together *)

Variable spurious : bool.
Variable main : Z.
Notation step := (step spurious).

(** A thread that runs or waits has a structure with a number. *)
Definition working t (me : Z) : Prop :=
  exists a ti, specific t !! me = Some a /\ infos t !! a = Some ti /\ self ti = me /\ number ti <> -1.

(** Thread [n] lives and has [me] among those that it will wake; or it has
    ended. *)
Definition waited t (n me : Z) : Prop :=
  exists a ti l, infos t !! a = Some ti /\ number ti = n /\ n <> -1 /\ joiners ti = Some l /\ me ∈ items l.
Definition gone t (n : Z) : Prop := forall a ti, infos t !! a = Some ti -> number ti <> n.

Definition act_ok t (me : Z) (act : activity) : Prop :=
  match act with
  | Running => working t me /\ me ∉ blocked t
  | Beginning a failed => specific t !! me = None /\ me ∉ blocked t /\ a <> main /\
      exists ti, infos t !! a = Some ti /\ self ti = me /\ (failed = false -> number ti <> -1)
  | Joining n => working t me /\ 0 <= n < next_threadnumber t /\
      (me ∈ blocked t -> waited t n me) /\ (spurious = false -> me ∉ blocked t -> gone t n) /\ me ∈ conds t
  | JoiningEvery fn i => working t me /\ me ∈ conds t /\ (me ∈ blocked t -> exists n, slot n = slot i /\ waited t n me)
  end.

(** Whom a thread with number [n] has in its list. *)
Definition joins (act : activity) (n : Z) : Prop :=
  match act with Joining m => m = n | JoiningEvery _ i => slot n = slot i | _ => False end.

Record sys_ok s : Prop := {
  so_table : table_ok (table s);
  so_acts : forall me act, acts s !! me = Some act -> act_ok (table s) me act;
  so_blocked : forall me, me ∈ blocked (table s) -> is_Some (acts s !! me);
  so_specific : forall me a, specific (table s) !! me = Some a ->
    is_Some (acts s !! me) /\ exists ti, infos (table s) !! a = Some ti /\ self ti = me;
  so_joiners : forall a ti l j, infos (table s) !! a = Some ti -> joiners ti = Some l -> j ∈ items l ->
    number ti <> -1 /\ (spurious = false -> j ∈ blocked (table s) /\ exists act, acts s !! j = Some act /\ joins act (number ti));
  so_main : exists ti, infos (table s) !! main = Some ti /\ number ti = MAIN_THREAD_ID
}.

(** Nothing that threads know of a table is lost in [t']. *)
Record upd t t' : Prop := {
  u_info : forall a ti, infos t !! a = Some ti -> exists ti', infos t' !! a = Some ti' /\ self ti' = self ti /\
    number ti' = number ti /\
    forall l j, joiners ti = Some l -> j ∈ items l -> exists l', joiners ti' = Some l' /\ j ∈ items l';
  u_back : forall a ti', infos t' !! a = Some ti' ->
    (exists ti, infos t !! a = Some ti /\ number ti = number ti') \/ number ti' = -1 \/ next_threadnumber t <= number ti';
  u_next : next_threadnumber t <= next_threadnumber t'
}.

(** Numbers that are gone do not come back. *)
Definition later t t' : Prop :=
  next_threadnumber t <= next_threadnumber t' /\
  forall a ti', infos t' !! a = Some ti' ->
    (exists b ti, infos t !! b = Some ti /\ number ti = number ti') \/ number ti' = -1 \/ next_threadnumber t <= number ti'.

Lemma upd_later t t' : upd t t' -> later t t'.
Proof. intros [_ H1 H2]. split; [done|]. intros a ti' Ha. destruct (H1 a ti' Ha) as [(ti & ?)|]; [left; by exists a, ti|by right]. Qed.

Lemma later_refl t : later t t.
Proof. split; [lia|]. intros a ti Ha. left. by exists a, ti. Qed.

Lemma later_trans t1 t2 t3 : later t1 t2 -> later t2 t3 -> later t1 t3.
Proof.
  intros [N1 B1] [N2 B2]. split; [lia|]. intros a ti Ha. destruct (B2 a ti Ha) as [(b & tj & Hb & <-)|[|]]; [by apply (B1 b)|tauto|].
  right. right. lia.
Qed.

Lemma gone_later t t' n : later t t' -> 0 <= n < next_threadnumber t -> gone t n -> gone t' n.
Proof. intros [_ U] Hn Hg a ti' Ha E. destruct (U a ti' Ha) as [(b & ti & Hti & En)|[|]]; [|lia..]. apply (Hg b ti Hti). congruence. Qed.

Lemma working_upd t t' me : upd t t' -> specific t' !! me = specific t !! me -> working t me -> working t' me.
Proof.
  intros U Es (a & ti & H1 & H2 & H3 & H4). destruct (u_info _ _ U a ti H2) as (ti' & H2' & E1 & E2 & _).
  exists a, ti'. rewrite Es, E1, E2. by split_and!.
Qed.

Lemma waited_upd t t' n me : upd t t' -> waited t n me -> waited t' n me.
Proof.
  intros U (a & ti & l & Ha & En & Hn & El & Hl). destruct (u_info _ _ U a ti Ha) as (ti' & Ha' & _ & E & Hj).
  destruct (Hj l me El Hl) as (l' & ? & ?). exists a, ti', l'. split_and!; congruence || done.
Qed.

Lemma act_ok_upd t t' me act : upd t t' -> specific t' !! me = specific t !! me -> (me ∈ blocked t' <-> me ∈ blocked t) ->
  (me ∈ conds t -> me ∈ conds t') -> act_ok t me act -> act_ok t' me act.
Proof.
  intros U Es Eb Ec. destruct act; simpl.
  - intros [? ?]. split; [by eapply working_upd|tauto].
  - intros (? & ? & ? & ti & Ha & Hs & Hf). destruct (u_info _ _ U a ti Ha) as (ti' & ? & E1 & E2 & _).
    rewrite Es. split_and!; try done; [tauto|]. exists ti'. rewrite E1, E2. by split_and!.
  - intros (? & Hn & H1 & H2 & H3). pose proof (u_next _ _ U). split_and!; [by eapply working_upd|lia|lia|..|tauto].
    + intros Hx. eapply waited_upd; [done|]. tauto.
    + intros Hp Hx. eapply gone_later; [by apply upd_later|done|]. tauto.
  - intros (? & ? & H1). split; [by eapply working_upd|]. split; [tauto|]. intros Hx. destruct H1 as (n & ? & ?); [tauto|].
    exists n. split; [done|by eapply waited_upd].
Qed.

(** A thread goes on with something else while the table stays. *)
Lemma act_changes t acts me act act' : sys_ok (MkSystem t acts) -> acts !! me = Some act -> me ∉ blocked t ->
  act_ok t me act' -> sys_ok (MkSystem t (<[me := act']> acts)).
Proof.
  intros [T A B Sp J M] Hme Hb Hok. simpl in *. split; simpl; try done.
  - intros m act0 Hm. destruct (decide (m = me)) as [->|]; [rewrite lookup_insert_eq in Hm; by injection Hm as <-|].
    rewrite lookup_insert_ne in Hm by done. by apply A.
  - intros m Hm. rewrite lookup_insert_ne; [by apply B|]. intros ->. done.
  - intros m b Hm. destruct (Sp m b Hm). split; [|done]. destruct (decide (m = me)) as [->|]; [rewrite lookup_insert_eq; by eexists|].
    by rewrite lookup_insert_ne.
  - intros b ti l j Hi El Hl. destruct (J b ti l j Hi El Hl) as (Hn & Hx). split; [done|].
    intros Hp. destruct (Hx Hp). split; [done|]. rewrite lookup_insert_ne; [done|]. intros ->. done.
Qed.

(** Variables are made and destroyed; those of the others stay. *)
Lemma conds_ok t acts c : sys_ok (MkSystem t acts) ->
  (forall me act, acts !! me = Some act -> act <> Running -> me ∈ conds t -> me ∈ c) ->
  sys_ok (MkSystem (set_conds t c) acts).
Proof.
  intros [T A B Sp J M] Hc. split; try done; [by eapply table_ok_same, T|].
  intros me act Hm. specialize (A me act Hm). specialize (Hc me act Hm). simpl in *. destruct act; simpl in *; [done..| |].
  - destruct A as (? & ? & ? & ? & ?). split_and!; try done; [lia..|]. by apply Hc.
  - destruct A as (? & ? & ?). split_and!; try done. by apply Hc.
Qed.

Lemma cond_init_ok t acts me : sys_ok (MkSystem t acts) -> sys_ok (MkSystem (cond_init t me) acts).
Proof. intros H. apply conds_ok; [done|]. set_solver. Qed.

Lemma returns_ok t acts me act : sys_ok (MkSystem t acts) -> acts !! me = Some act -> working t me -> me ∉ blocked t ->
  sys_ok (run (cond_destroy t me) acts me).
Proof.
  intros H Hme Hw Hb. apply (conds_ok t (<[me := Running]> acts)); [by eapply act_changes|].
  intros m act0 Hm Hne. destruct (decide (m = me)) as [->|]; [rewrite lookup_insert_eq in Hm; congruence|]. set_solver.
Qed.

Lemma add_joiner_upd t me a ti : infos t !! a = Some ti -> upd t (add_joiner t me a ti).
Proof.
  intros Ha. split; simpl; [| |lia].
  - intros b tj Hb. destruct (decide (b = a)) as [->|].
    + rewrite Ha in Hb. injection Hb as <-. eexists. rewrite lookup_insert_eq. split_and!; try done.
      intros l j El Hl. eexists. split; [done|]. rewrite El, items_append. simpl. set_solver.
    + exists tj. rewrite lookup_insert_ne by done. split_and!; eauto.
  - intros b tj Hb. left. destruct (decide (b = a)) as [->|].
    + rewrite lookup_insert_eq in Hb. injection Hb as <-. by exists ti.
    + rewrite lookup_insert_ne in Hb by done. by exists tj.
Qed.

(** [me] begins to wait for the thread at [a]. *)
Lemma add_joiner_ok t acts me a ti act act' : sys_ok (MkSystem t acts) ->
  acts !! me = Some act -> working t me -> me ∉ blocked t -> me ∈ conds t -> infos t !! a = Some ti -> number ti <> -1 ->
  joins act' (number ti) -> sys_ok (MkSystem (add_joiner t me a ti) (<[me := act']> acts)).
Proof.
  intros [T A B Sp J M] Hme Hw Hb Hc Ha Hn Hj. simpl in *. pose proof (add_joiner_upd t me a ti Ha) as U.
  assert (Hwait : waited (add_joiner t me a ti) (number ti) me).
  { eexists a, _, _. split_and!; [apply lookup_insert_eq|done..|]. rewrite items_append. set_solver. }
  split; simpl.
  - by eapply table_ok_same, (table_ok_alter t a ti).
  - intros m act0 Hm. destruct (decide (m = me)) as [->|Hne].
    + rewrite lookup_insert_eq in Hm. injection Hm as <-. assert (working (add_joiner t me a ti) me) by (by eapply working_upd).
      destruct act'; try done; simpl in Hj |- *.
      * subst n. split_and!; try done; try (by apply (to_info _ T a ti Ha Hn)). intros _ Hx. exfalso. apply Hx. set_solver.
      * split_and!; try done. intros _. by exists (number ti).
    + rewrite lookup_insert_ne in Hm by done. eapply act_ok_upd; [exact U|done| |done|by apply A]. simpl. set_solver.
  - intros m Hm. destruct (decide (m = me)) as [->|]; [rewrite lookup_insert_eq; by eexists|].
    rewrite lookup_insert_ne by done. apply B. set_solver.
  - intros m b Hm. destruct (Sp m b Hm) as [Hs (tj & Hbj & Es)]. split.
    + destruct (decide (m = me)) as [->|]; [rewrite lookup_insert_eq; by eexists|by rewrite lookup_insert_ne].
    + destruct (u_info _ _ U b tj Hbj) as (tj' & ? & ? & _). exists tj'. split; [done|congruence].
  - intros b tj l j Hbj El Hl.
    assert (Hold : forall tk x, infos t !! b = Some tk -> number tk = number tj -> joiners tk = Some x -> j ∈ items x ->
      number tj <> -1 /\ (spurious = false -> j ∈ blocked t ∪ {[me]} /\ exists act0, <[me := act']> acts !! j = Some act0 /\ joins act0 (number tj))).
    { intros tk x Hk <- Ex Hx. destruct (J b tk x j Hk Ex Hx) as (Hjn & Hja). split; [done|]. intros Hp. destruct (Hja Hp). split; [set_solver|].
      rewrite lookup_insert_ne; [done|]. intros ->. done. }
    destruct (decide (b = a)) as [->|]; [|rewrite lookup_insert_ne in Hbj by done; by apply (Hold tj l)].
    rewrite lookup_insert_eq in Hbj. injection Hbj as <-. simpl in El, Hold |- *. injection El as <-.
    rewrite items_append in Hl. apply elem_of_app in Hl as [Hl|Hl].
    + destruct (joiners ti) as [x|] eqn:Ex; simpl in Hl; [by apply (Hold ti x)|]. rewrite items_create in Hl. by apply not_elem_of_nil in Hl.
    + apply list_elem_of_singleton in Hl as ->. split; [done|]. intros _. split; [set_solver|]. exists act'. by rewrite lookup_insert_eq.
  - destruct M as (tj & Hm & En). destruct (u_info _ _ U _ _ Hm) as (tj' & ? & _ & ? & _). exists tj'. split; [done|congruence].
Qed.

(** A new structure, and the thread that will use it. *)
Lemma new_info_ok t t' acts id a ti failed : sys_ok (MkSystem t acts) -> acts !! id = None -> infos t !! a = None ->
  infos t' = <[a := ti]> (infos t) -> specific t' = specific t -> blocked t' = blocked t -> conds t' = conds t ->
  next_threadnumber t <= next_threadnumber t' -> table_ok t' -> joiners ti = None -> self ti = id ->
  number ti = -1 \/ next_threadnumber t <= number ti -> (failed = false -> number ti <> -1) ->
  sys_ok (MkSystem t' (<[id := Beginning a failed]> acts)) /\ later t t'.
Proof.
  intros [T A B Sp J M] Hid Ha Ei Es Eb Ec Hnext T' Hj Hself Hn Hf. simpl in *.
  assert (Hold : forall b tj, infos t !! b = Some tj -> infos t' !! b = Some tj).
  { intros b tj Hb. rewrite Ei, lookup_insert_ne; [done|]. intros <-. congruence. }
  assert (U : upd t t').
  { split; [|intros b tj Hb|done].
    - intros b tj Hb. exists tj. split_and!; eauto.
    - rewrite Ei in Hb. destruct (decide (b = a)) as [->|]; [rewrite lookup_insert_eq in Hb; injection Hb as <-; tauto|].
      rewrite lookup_insert_ne in Hb by done. left. by exists tj. }
  assert (Hkeep : forall j x, acts !! j = Some x -> <[id := Beginning a failed]> acts !! j = Some x).
  { intros j x Hx. rewrite lookup_insert_ne; [done|]. intros <-. congruence. }
  split; [|by apply upd_later]. split; simpl; try done.
  - intros m act0 Hm. destruct (decide (m = id)) as [->|].
    + rewrite lookup_insert_eq in Hm. injection Hm as <-. simpl. rewrite Es, Eb. split_and!.
      * destruct (specific t !! id) as [b|] eqn:Eid; [|done]. destruct (Sp id b Eid) as [[x Hx] _]. congruence.
      * intros Hx. destruct (B id Hx). congruence.
      * intros ->. destruct M as (tm & Hm & _). congruence.
      * exists ti. rewrite Ei, lookup_insert_eq. by split_and!.
    + rewrite lookup_insert_ne in Hm by done. eapply act_ok_upd; [exact U|by rewrite Es|by rewrite Eb|by rewrite Ec|by apply A].
  - intros m Hm. rewrite Eb in Hm. destruct (B m Hm) as [x Hx]. exists x. by apply Hkeep.
  - intros m b Hm. rewrite Es in Hm. destruct (Sp m b Hm) as [[x Hx] (tj & Hb & E)]. split; [exists x; by apply Hkeep|].
    exists tj. split; [by apply Hold|done].
  - intros b tj l j Hb El Hl. rewrite Eb. rewrite Ei in Hb. destruct (decide (b = a)) as [->|].
    + rewrite lookup_insert_eq in Hb. injection Hb as <-. congruence.
    + rewrite lookup_insert_ne in Hb by done. destruct (J b tj l j Hb El Hl) as (? & HJ). split; [done|].
      intros Hp. destruct (HJ Hp) as (? & x & Hx & ?). split; [done|]. exists x. split; [by apply Hkeep|done].
  - destruct M as (tm & Hm & E). exists tm. split; [by apply Hold|done].
Qed.

Lemma spawn_ok t acts id fn nm r n failed t' : sys_ok (MkSystem t acts) ->
  res_thread r = Some id -> acts !! id = None -> infos t !! res_addr r = None ->
  spawn_thread t fn nm r = Done (n, Some failed, t') ->
  sys_ok (MkSystem t' (<[id := Beginning (res_addr r) failed]> acts)) /\ later t t'.
Proof.
  intros H Hr Hid Ha E. pose proof (so_table _ H) as T. simpl in T. unfold spawn_thread in E. rewrite Hr in E.
  destruct (Z.leb_spec THREADTABLE_SIZE (active_threads t)) as [|Hlt]; [done|].
  destruct (Z.ltb_spec (next_threadnumber t + THREADTABLE_SIZE) long_max) as [Hmax|Hmax];
    [|unfold fill_threadinfo in E; rewrite (proj2 (Z.ltb_lt _ _) Hlt), (proj2 (Z.ltb_ge _ _) Hmax) in E; done].
  destruct (res_pipe r) as [[x y]|].
  - destruct (fill_spec t id nm (Some fn) (res_addr r) x y T Ha Hlt Hmax) as (k & Hk & Hfree & Ek).
    rewrite Ek in E. cbn [mbind outcome_bind fst snd] in E. injection E as <- <- <-. pose proof (to_next _ T).
    eapply (new_info_ok t); try done; simpl; try lia.
    eapply table_ok_same, (table_ok_fill t k (res_addr r) (MkInfo id nm (Some fn) k x y None (-1))); done || lia.
  - unfold fill_threadinfo in E. rewrite (proj2 (Z.ltb_lt _ _) Hlt), (proj2 (Z.ltb_lt _ _) Hmax) in E.
    cbn [gw_assert mbind outcome_bind fst snd] in E. injection E as <- <- <-.
    eapply (new_info_ok t); try done; simpl; try lia.
    destruct T as [T1 T2 T3 T4 T5]. split; simpl; try done.
    + intros i b Hb. destruct (T2 i b Hb) as (tj & Hj & ?). exists tj. rewrite lookup_insert_ne; [done|]. intros <-. congruence.
    + intros b tj Hb Hj. destruct (decide (b = res_addr r)) as [->|]; [rewrite lookup_insert_eq in Hb; by injection Hb as <-|].
      rewrite lookup_insert_ne in Hb by done. by apply T3.
Qed.

(** What the thread does first and last. *)
Lemma begin_spec t acts me a failed getpid : sys_ok (MkSystem t acts) -> acts !! me = Some (Beginning a failed) ->
  if failed then new_thread_starts t main me a failed getpid = Panic
  else exists t', new_thread_starts t main me a failed getpid = Done t' /\ sys_ok (run t' acts me) /\ later t t'.
Proof.
  intros H Hme. pose proof (so_acts _ H _ _ Hme) as (Hs & Hb & Hmain & ti & Hi & Hself & Hn). simpl in Hs, Hb, Hi.
  unfold new_thread_starts. destruct failed.
  { unfold delete_threadinfo, getthreadinfo. by rewrite Hs. }
  cbn [set_specific infos]. rewrite Hi. cbn [must mbind outcome_bind]. eexists. split; [done|].
  set (t1 := set_infos _ _). destruct H as [T A B Sp J M]. simpl in *. set (ti' := set_pid ti getpid).
  assert (Hinfo : forall b tj, infos t !! b = Some tj -> exists tj', infos t1 !! b = Some tj' /\ self tj' = self tj /\
    number tj' = number tj /\ joiners tj' = joiners tj).
  { intros b tj Hbj. unfold t1. simpl. destruct (decide (b = a)) as [->|].
    - rewrite Hi in Hbj. injection Hbj as <-. exists ti'. by rewrite lookup_insert_eq.
    - exists tj. by rewrite lookup_insert_ne. }
  assert (Hback : forall b tj, infos t1 !! b = Some tj -> exists tk, infos t !! b = Some tk /\ number tk = number tj /\ joiners tk = joiners tj).
  { intros b tj Hbj. unfold t1 in Hbj. simpl in Hbj. destruct (decide (b = a)) as [->|].
    - rewrite lookup_insert_eq in Hbj. injection Hbj as <-. by exists ti.
    - rewrite lookup_insert_ne in Hbj by done. by exists tj. }
  assert (U : upd t t1).
  { split; [| |by unfold t1; simpl].
    - intros b tj Hbj. destruct (Hinfo b tj Hbj) as (tj' & ? & ? & ? & Ej). exists tj'. split_and!; try done. rewrite Ej. eauto.
    - intros b tj Hbj. left. destruct (Hback b tj Hbj) as (tk & ? & ? & _). by exists tk. }
  split; [|by apply upd_later]. split; simpl.
  - eapply table_ok_same, (table_ok_alter t a ti ti'); done.
  - intros m act0 Hm. destruct (decide (m = me)) as [->|].
    + rewrite lookup_insert_eq in Hm. injection Hm as <-. split; [|done]. exists a, ti'. unfold t1. simpl.
      rewrite !lookup_insert_eq. split_and!; try done. by apply Hn.
    + rewrite lookup_insert_ne in Hm by done. eapply act_ok_upd; [exact U| |done|done|by apply A]. unfold t1. simpl.
      by rewrite lookup_insert_ne.
  - intros m Hm. rewrite lookup_insert_ne; [by apply B|]. intros ->. done.
  - intros m b Hm. unfold t1 in Hm. simpl in Hm. destruct (decide (m = me)) as [->|].
    + rewrite lookup_insert_eq in Hm. injection Hm as <-. split; [rewrite lookup_insert_eq; by eexists|].
      exists ti'. by rewrite lookup_insert_eq.
    + rewrite lookup_insert_ne in Hm by done. destruct (Sp m b Hm) as [? (tj & Hbj & Ej)]. split; [by rewrite lookup_insert_ne|].
      destruct (Hinfo b tj Hbj) as (tj' & ? & ? & _). exists tj'. split; [done|congruence].
  - intros b tj l j Hbj El Hl. destruct (Hback b tj Hbj) as (tk & Hk & <- & Ej). rewrite <-Ej in El.
    destruct (J b tk l j Hk El Hl) as (? & Hx). split; [done|]. intros Hp. destruct (Hx Hp). split; [done|].
    rewrite lookup_insert_ne; [done|]. intros <-. done.
  - destruct M as (tm & Hm & En). destruct (Hinfo _ _ Hm) as (tm' & ? & _ & ? & _). exists tm'. split; [done|congruence].
Qed.

(** Whom a thread wakes when it ends. *)
Definition woken ti : gset Z := list_to_set (from_option items [] (joiners ti)).

Lemma ends_computes t me a ti : specific t !! me = Some a -> infos t !! a = Some ti -> self ti = me -> number ti <> -1 -> a <> main ->
  woken ti ⊆ conds t ->
  exists t', new_thread_ends t main me = Done t' /\ infos t' = delete a (infos t) /\
    threadtable t' = <[slot (number ti) := None]> (threadtable t) /\ active_threads t' = active_threads t - 1 /\
    next_threadnumber t' = next_threadnumber t /\ specific t' = delete me (specific t) /\ blocked t' = blocked t ∖ woken ti /\
    conds t' = conds t.
Proof.
  intros Hs Hi Hself Hn Ha Hcs. unfold new_thread_ends, alert_joiners.
  assert (Hget : forall t' tj, specific t' !! me = Some a -> infos t' !! a = Some tj -> self tj = me -> getthreadinfo t' me = Done (a, tj)).
  { intros t' tj E1 E2 E3. unfold getthreadinfo. rewrite E1. cbn [must mbind outcome_bind]. rewrite E2. cbn [must mbind outcome_bind].
    by rewrite (proj2 (Z.eqb_eq _ _) E3). }
  rewrite (Hget t ti) by done. cbn [mbind outcome_bind fst snd].
  assert (Hdel : forall t' tj, specific t' = specific t -> infos t' !! a = Some tj -> self tj = me -> number tj = number ti ->
    delete a (infos t') = delete a (infos t) -> threadtable t' = threadtable t -> active_threads t' = active_threads t ->
    next_threadnumber t' = next_threadnumber t -> conds t' = conds t ->
    exists t'', (t1 ← delete_threadinfo t' main me; Done (set_specific t1 (delete me (specific t1)))) = Done t'' /\
      infos t'' = delete a (infos t) /\ threadtable t'' = <[slot (number ti) := None]> (threadtable t) /\
      active_threads t'' = active_threads t - 1 /\ next_threadnumber t'' = next_threadnumber t /\
      specific t'' = delete me (specific t) /\ blocked t'' = blocked t' /\ conds t'' = conds t).
  { intros t' tj E1 E2 E3 E4 E5 E6 E7 E8 E9. unfold delete_threadinfo. rewrite (Hget t' tj) by (rewrite ?E1; done).
    cbn [mbind outcome_bind fst snd]. rewrite E4, (proj2 (Z.eqb_neq _ _) Hn), (proj2 (Z.eqb_neq _ _) Ha). cbn [negb gw_assert mbind outcome_bind].
    eexists. split; [done|]. destruct (wakefd_recv tj =? -1), (wakefd_send tj =? -1); cbn; rewrite ?E1, ?E5, ?E6, ?E7, ?E8, ?E9; done. }
  unfold woken in *. destruct (joiners ti) as [l|]; simpl from_option in *.
  - destruct (broadcast_all_spec (S (length (items l))) l (conds t) (blocked t)) as (l' & -> & _); [lia|set_solver|]. cbn [mbind outcome_bind fst snd].
    destruct (Hdel (set_blocked (set_infos t (<[a:=set_joiners ti (Some l')]> (infos t))) (blocked t ∖ list_to_set (items l)))
      (set_joiners ti (Some l'))) as (t' & E & H1 & H2 & H3 & H4 & H5 & H6 & H7); simpl; try done; [by rewrite lookup_insert_eq|by rewrite delete_insert_eq|].
    exists t'. by split_and!.
  - destruct (Hdel t ti) as (t' & E & H1 & H2 & H3 & H4 & H5 & H6 & H7); try done. exists t'. split_and!; try done. rewrite H6. set_solver.
Qed.

(** It ends only if those that it wakes have their variables. *)
Lemma ends_conds t me a ti t' : specific t !! me = Some a -> infos t !! a = Some ti ->
  new_thread_ends t main me = Done t' -> woken ti ⊆ conds t.
Proof.
  intros Hs Hi. unfold new_thread_ends, alert_joiners, getthreadinfo. rewrite Hs. cbn [must mbind outcome_bind]. rewrite Hi.
  cbn [must mbind outcome_bind]. destruct (self ti =? me); [|done]. cbn [gw_assert mbind outcome_bind fst snd].
  unfold woken. destruct (joiners ti) as [l|]; [|set_solver]. cbn [from_option].
  destruct (broadcast_all _ l _ _) as [x|] eqn:E; [|done]. intros _ c Hc%elem_of_list_to_set. by eapply broadcast_all_conds.
Qed.

Lemma same_slot t a b ti tj : table_ok t -> infos t !! a = Some ti -> infos t !! b = Some tj ->
  number ti <> -1 -> number tj <> -1 -> slot (number ti) = slot (number tj) -> a = b.
Proof.
  intros T Ha Hb Hn Hm E. destruct (to_info _ T a ti Ha Hn) as [_ E1]. destruct (to_info _ T b tj Hb Hm) as [_ E2].
  unfold THREAD in *. rewrite E in E1. congruence.
Qed.

Lemma joins_same t a b ti tj act : table_ok t -> infos t !! a = Some ti -> infos t !! b = Some tj ->
  number ti <> -1 -> number tj <> -1 -> joins act (number ti) -> joins act (number tj) -> a = b.
Proof.
  intros T Ha Hb Hn Hm H1 H2. destruct act; simpl in *; try done.
  - subst n. by eapply numbers_differ.
  - eapply same_slot; done || congruence.
Qed.

(** A thread ends; those that wait for it go on. *)
Lemma end_ok t acts me : sys_ok (MkSystem t acts) -> acts !! me = Some Running -> specific t !! me <> Some main ->
  (forall a ti, specific t !! me = Some a -> infos t !! a = Some ti -> woken ti ⊆ conds t) ->
  exists t', new_thread_ends t main me = Done t' /\ sys_ok (MkSystem t' (delete me acts)) /\ later t t'.
Proof.
  intros [T A B Sp J M] Hme Hnm Hcs. simpl in *. destruct (A me Running Hme) as [(a & ti & Hs & Hi & Hself & Hn) Hb].
  destruct (ends_computes t me a ti) as (t' & E & E1 & E2 & E3 & E4 & E5 & E6 & E7); try done; [congruence|by apply (Hcs a)|].
  exists t'. split; [done|].
  assert (Hback : forall b tj, infos t' !! b = Some tj -> b <> a /\ infos t !! b = Some tj).
  { intros b tj Hbj. rewrite E1 in Hbj. apply lookup_delete_Some in Hbj as [? ?]. split; [congruence|done]. }
  assert (Hinfo : forall b tj, b <> a -> infos t !! b = Some tj -> infos t' !! b = Some tj) by (intros; by rewrite E1, lookup_delete_ne).
  assert (Hwait : forall n m, waited t n m -> m ∉ woken ti -> waited t' n m).
  { intros n m (b & tj & l & Hbj & En & ? & El & Hl) Hw. exists b, tj, l. split_and!; try done. apply Hinfo; [|done].
    intros ->. rewrite Hi in Hbj. injection Hbj as <-. apply Hw. unfold woken. rewrite El. by apply elem_of_list_to_set. }
  assert (Hwoken : forall m, spurious = false -> m ∈ woken ti -> exists act, acts !! m = Some act /\ joins act (number ti)).
  { intros m Hp Hm. unfold woken in Hm. destruct (joiners ti) as [l|] eqn:El; simpl in Hm; [|set_solver].
    apply elem_of_list_to_set in Hm. by destruct (proj2 (J a ti l m Hi El Hm) Hp). }
  assert (Hwork : forall m, m <> me -> working t m -> working t' m).
  { intros m Hm (b & tj & ? & Hbj & ? & ?). exists b, tj. rewrite E5, lookup_delete_ne by done. split_and!; try done.
    apply Hinfo; [|done]. intros ->. congruence. }
  split; [|split; [lia|]; intros b tj Hbj; left; exists b, tj; by destruct (Hback b tj Hbj)].
  split; simpl.
  - eapply table_ok_same, (table_ok_delete t a ti); done.
  - intros m act Hm. apply lookup_delete_Some in Hm as [Hne Hm]. specialize (A m act Hm). destruct act; simpl in A |- *; rewrite E6, ?E7.
    + destruct A. split; [by apply Hwork|set_solver].
    + destruct A as (A1 & A2 & A3 & tj & A4 & A5 & A6). rewrite E5, lookup_delete_ne by done. split_and!; try done; [set_solver|].
      exists tj. split_and!; try done. apply Hinfo; [|done]. intros ->. congruence.
    + destruct A as (A1 & A2 & A3 & A4 & A5). rewrite E4. split_and!; [by apply Hwork|lia|lia|..|done].
      * intros Hx. apply Hwait; [apply A3|]; set_solver.
      * intros Hp Hx b tj Hbj. destruct (Hback b tj Hbj) as [Hba Hbj']. destruct (decide (m ∈ blocked t)) as [Hy|Hy]; [|by apply (A4 Hp Hy b tj)].
        destruct (Hwoken m Hp) as (act & Hact & Hjoin); [set_solver|]. rewrite Hm in Hact. injection Hact as <-. simpl in Hjoin. subst n.
        intros En. apply Hba. eapply numbers_differ; done || congruence.
    + destruct A as (A1 & A1' & A2). split; [by apply Hwork|]. split; [done|]. intros Hx. destruct A2 as (n & ? & ?); [set_solver|].
      exists n. split; [done|]. apply Hwait; [done|set_solver].
  - intros m Hm. rewrite E6 in Hm. rewrite lookup_delete_ne; [apply B; set_solver|]. intros <-. set_solver.
  - intros m b Hm. rewrite E5 in Hm. apply lookup_delete_Some in Hm as [Hne Hm]. destruct (Sp m b Hm) as [? (tj & Hbj & ?)].
    rewrite lookup_delete_ne by done. split; [done|]. exists tj. split; [|done]. apply Hinfo; [|done]. intros ->. congruence.
  - intros b tj l j Hbj El Hl. destruct (Hback b tj Hbj) as [Hba Hbj']. destruct (J b tj l j Hbj' El Hl) as (Hm & HJ).
    split; [done|]. intros Hp. destruct (HJ Hp) as (Hjb & act & Hact & Hjoin). rewrite E6, lookup_delete_ne by (intros <-; done). split; [|by exists act].
    apply elem_of_difference. split; [done|]. intros Hx. destruct (Hwoken j Hp Hx) as (act' & Hact' & Hjoin').
    apply Hba. eapply (joins_same t b a tj ti act); done || congruence.
  - destruct M as (tm & Hm & En). exists tm. split; [|done]. apply Hinfo; [congruence|done].
Qed.

(** Joining. *)
Lemma join_ok t acts me n : sys_ok (MkSystem t acts) -> acts !! me = Some Running -> 0 <= n ->
  exists waits t', gwthread_join t me n = Done (waits, t') /\ waits = bool_decide (is_Some (alive t n)) /\ later t t' /\
    sys_ok (if waits then MkSystem t' (<[me := Joining n]> acts) else MkSystem t' acts).
Proof.
  intros H Hme Hn. pose proof (so_acts _ H _ _ Hme) as [Hw Hb]. pose proof (so_table _ H) as T. simpl in T, Hw, Hb.
  unfold gwthread_join, alive. rewrite (proj2 (Z.leb_le _ _) Hn). cbn [gw_assert mbind outcome_bind].
  destruct (THREAD t n) as [a|] eqn:Ea; simpl; [|exists false, t; split_and!; done || apply later_refl].
  destruct (to_entry _ T _ _ (THREAD_entry _ _ _ Ea)) as (ti & Hi & Hr & _). rewrite Hi. simpl.
  destruct (Z.eqb_spec (number ti) n) as [En|]; simpl; [|exists false, t; split_and!; done || apply later_refl].
  eexists true, _. split_and!; [done..|exact (upd_later _ _ (add_joiner_upd (cond_init t me) me a ti Hi))|].
  eapply (add_joiner_ok (cond_init t me)); try done; simpl; [by apply cond_init_ok|set_solver|lia].
Qed.

Lemma join_every_ok t acts me act fn fuel : sys_ok (MkSystem t acts) -> acts !! me = Some act -> working t me -> me ∉ blocked t -> me ∈ conds t ->
  forall i, exists o t', gwthread_join_every fuel t me fn i = Done (o, t') /\ later t t' /\ sys_ok (every_next t' acts me fn o).
Proof.
  intros H Hme Hw Hb Hc. pose proof (so_table _ H) as T. simpl in T. induction fuel as [|fuel IH]; intros i; simpl.
  - exists None, t. split; [done|]. split; [apply later_refl|]. by eapply returns_ok.
  - destruct (THREAD t i) as [a|] eqn:Ea; [|apply IH].
    destruct (to_entry _ T _ _ (THREAD_entry _ _ _ Ea)) as (ti & Hi & Hr & Es). rewrite Hi. cbn [must mbind outcome_bind].
    destruct (bool_decide _); [|apply IH]. eexists (Some i), _. split; [done|]. split; [by apply upd_later, add_joiner_upd|].
    eapply add_joiner_ok; try done; simpl; lia.
Qed.

(** From the start, with a new variable. *)
Lemma join_every_starts t acts me fn : sys_ok (MkSystem t acts) -> acts !! me = Some Running ->
  exists o t', gwthread_join_every 1024 (cond_init t me) me fn 0 = Done (o, t') /\ later t t' /\ sys_ok (every_next t' acts me fn o).
Proof.
  intros H Hme. pose proof (so_acts _ H _ _ Hme) as [Hw Hb]. simpl in Hw, Hb.
  assert (Hc : me ∈ conds (cond_init t me)) by (unfold cond_init; simpl; set_solver).
  apply (join_every_ok (cond_init t me) acts me Running fn 1024 (cond_init_ok t acts me H) Hme Hw Hb Hc 0).
Qed.

Lemma get_working t me : working t me -> exists a ti, getthreadinfo t me = Done (a, ti) /\ infos t !! a = Some ti.
Proof.
  intros (a & ti & E1 & E2 & E3 & _). exists a, ti. split; [|done]. unfold getthreadinfo.
  rewrite E1. cbn [must mbind outcome_bind]. rewrite E2. cbn [must mbind outcome_bind]. by rewrite (proj2 (Z.eqb_eq _ _) E3).
Qed.

Lemma sleep_done t me : working t me ->
  exists woken t', gwthread_sleep t me = Done (woken, t') /\ exists w r, t' = set_pipes t w r.
Proof.
  intros Hw. destruct (get_working t me Hw) as (a & ti & E & _). unfold gwthread_sleep. rewrite E. cbn [mbind outcome_bind fst snd].
  destruct (default false _); eexists _, _; (split; [done|]); [by do 2 eexists|]. exists (write_ends t), (readable t). by destruct t.
Qed.

Lemma pipes_ok t acts w r : sys_ok (MkSystem t acts) -> sys_ok (MkSystem (set_pipes t w r) acts) /\ later t (set_pipes t w r).
Proof. intros [T A B Sp J M]. split; [|exact (later_refl t)]. split; try done. by eapply table_ok_same, T. Qed.

(** ** All together *)

Lemma spurious_ok t acts me : spurious = true -> sys_ok (MkSystem t acts) ->
  sys_ok (MkSystem (set_blocked t (blocked t ∖ {[me]})) acts).
Proof.
  intros Hp [T A B Sp J M]. split; simpl; try done; [by eapply table_ok_same, T| |set_solver|].
  - intros m act Hm. specialize (A m act Hm). simpl in A. destruct act; simpl in *.
    + destruct A. split; [done|set_solver].
    + destruct A as (? & ? & ? & ?). split_and!; try done. set_solver.
    + destruct A as (? & ? & Hw & _ & ?). split_and!; try done; [lia..| |congruence]. intros Hx. apply Hw. set_solver.
    + destruct A as (? & ? & Hw). split_and!; try done. intros Hx. apply Hw. set_solver.
  - intros b ti l j Hb El Hl. split; [by apply (J b ti l j)|congruence].
Qed.

Lemma woken_conds t acts a ti : spurious = false -> sys_ok (MkSystem t acts) -> infos t !! a = Some ti -> woken ti ⊆ conds t.
Proof.
  intros Hp [_ A _ _ J _] Hi j Hj. unfold woken in Hj. destruct (joiners ti) as [l|] eqn:El; [|set_solver].
  apply elem_of_list_to_set in Hj. destruct (proj2 (J a ti l j Hi El Hj) Hp) as (_ & act & Hact & Hjoin).
  specialize (A j act Hact). destruct act; try done; by destruct_and! A.
Qed.

Lemma threads_step_ok s s' : step main s s' -> sys_ok s -> sys_ok s' /\ later (table s) (table s').
Proof.
  intros [t acts me id fn nm r n failed t' _ Hr Hid Ha _ E|t acts me a failed pid t' Hme E|t acts me t' Hme Hm E
    |t acts me n waits t' Hme E|t acts me n Hme Hb|t acts me fn o t' Hme E|t acts me fn i o t' Hme Hb E|t acts me Hp|t acts me fd Hme|t acts me wk t' Hme E] H.
  - by eapply spawn_ok.
  - pose proof (begin_spec t acts me a failed pid H Hme) as Hs. destruct failed; [congruence|].
    destruct Hs as (t1 & E1 & ?). by replace t' with t1 by congruence.
  - destruct (end_ok t acts me H Hme Hm) as (t1 & E1 & ?); [intros a ti Ha Hi; by eapply ends_conds|].
    by replace t' with t1 by congruence.
  - assert (Hn : 0 <= n) by (unfold gwthread_join in E; destruct (Z.leb_spec 0 n); done).
    destruct (join_ok t acts me n H Hme Hn) as (w & t1 & E1 & _ & Hl & Hok). rewrite E1 in E. injection E as <- <-. by destruct w.
  - split; [|exact (later_refl t)]. pose proof (so_acts _ H _ _ Hme) as [Hw _]. by eapply returns_ok.
  - destruct (join_every_starts t acts me fn H Hme) as (o1 & t1 & E1 & Hl & Hok).
    rewrite E1 in E. injection E as <- <-. split; [done|by destruct o1].
  - pose proof (so_acts _ H _ _ Hme) as (Hw & Hc & _).
    destruct (join_every_ok t acts me _ fn (Z.to_nat (1023 - i)) H Hme Hw Hb Hc (i + 1)) as (o1 & t1 & E1 & Hl & Hok).
    rewrite E1 in E. injection E as <- <-. split; [done|by destruct o1].
  - split; [by apply spurious_ok|exact (later_refl t)].
  - unfold wakeup_write. simpl. destruct (write_ends t !! fd); [by apply pipes_ok|]. split; [done|apply later_refl].
  - pose proof (so_acts _ H _ _ Hme) as [Hw _]. destruct (sleep_done t me Hw) as (wk1 & t1 & E1 & w & r & ->).
    rewrite E1 in E. injection E as <- <-. by apply pipes_ok.
Qed.

Definition first_table : list (option Z) := <[0%nat := Some main]> (replicate 1024 None).
Definition first_info (me x y : Z) : threadinfo := MkInfo me [109; 97; 105; 110] None 0 x y None (-1).

Lemma init_computes me x y : gwthread_init main me (Some (x, y)) = Done (MkThreads {[main := first_info me x y]} first_table 1 1
  {[me := main]} ∅ ∅ {[y := x]} {[x := false]}).
Proof. reflexivity. Qed.

Lemma init_ok me p t : gwthread_init main me p = Done t -> sys_ok (MkSystem t {[me := Running]}).
Proof.
  destruct p as [[x y]|]; [|by vm_compute]. rewrite init_computes. intros [= <-]. set (ti := first_info me x y).
  assert (Hone : forall i b, first_table !! i = Some (Some b) -> i = 0%nat /\ b = main).
  { intros i b Hb. apply list_lookup_insert_Some in Hb as [(<- & [= ->] & _)|[_ Hb]]; [done|]. by apply lookup_replicate in Hb as [? _]. }
  split; cbn [table acts infos specific blocked].
  - split; cbn [threadtable infos active_threads next_threadnumber]; try lia.
    + unfold first_table. by rewrite length_insert, length_replicate.
    + intros i b Hb. destruct (Hone i b Hb) as [-> ->]. exists ti. rewrite lookup_singleton_eq. done.
    + intros b tj Hb _. apply lookup_singleton_Some in Hb as [<- <-]. split; [done|]. done.
    + vm_compute. reflexivity.
  - intros m act Hm. apply lookup_singleton_Some in Hm as [<- <-]. split; [|set_solver]. exists main, ti.
    cbn [specific infos]. rewrite !lookup_singleton_eq. done.
  - set_solver.
  - intros m b Hm. apply lookup_singleton_Some in Hm as [<- <-]. rewrite lookup_singleton_eq. split; [by eexists|].
    exists ti. by rewrite lookup_singleton_eq.
  - intros b tj l j Hb El. apply lookup_singleton_Some in Hb as [<- <-]. done.
  - exists ti. by rewrite lookup_singleton_eq.
Qed.

Lemma reachable_ok s s' : rtc (step main) s s' -> sys_ok s -> sys_ok s' /\ later (table s) (table s').
Proof.
  induction 1 as [s|s s1 s' Hs _ IH]; intros H; [split; [done|apply later_refl]|].
  destruct (threads_step_ok _ _ Hs H) as [H1 L1]. destruct (IH H1) as [H2 L2]. split; [done|by eapply later_trans].
Qed.

Lemma alive_gone t n : table_ok t -> n <> -1 -> alive t n = None <-> gone t n.
Proof.
  intros T Hn. split.
  - intros H a ti Ha E. rewrite (proj2 (alive_iff t n a ti T)) in H by done. done.
  - intros H. destruct (alive t n) as [[a ti]|] eqn:E; [|done]. apply (alive_iff t n a ti T) in E as (Ha & En & _). by destruct (H a ti Ha).
Qed.

(** What a program with threads can reach. *)
Definition reachable (s : System) : Prop :=
  exists me p t, gwthread_init main me p = Done t /\ rtc (step main) (MkSystem t {[me := Running]}) s.

Lemma reachable_sys_ok s : reachable s -> sys_ok s.
Proof. intros (me & p & t & Hi & Hr). by destruct (reachable_ok _ _ Hr (init_ok me p t Hi)). Qed.

Lemma later_number t t' n : table_ok t -> table_ok t' -> later t t' -> is_Some (alive t n) -> 0 <= n < next_threadnumber t'.
Proof.
  intros T T' [Hl _] [[a ti] (Ha & <- & Hn)%(alive_iff t n a ti T)]. pose proof (to_info _ T a ti Ha Hn). lia.
Qed.


(** No operation of a thread stops the process, and the table knows each
    running thread under its own number, which no other has.  The exception
    is a thread that is told that its creation failed: it looks for its
    structure before that is stored, and panics.  (If [pthread_cond_wait]
    returned without a wake-up, the variable is gone when the thread that was
    waited for ends: that is undefined.) *)
Lemma gwthread_goes_on s : spurious = false -> reachable s ->
  active_threads (table s) = occupied (threadtable (table s)) /\
  (forall a b ti tj, infos (table s) !! a = Some ti -> infos (table s) !! b = Some tj -> number ti = number tj -> number ti <> -1 -> a = b) /\
  forall me act, acts s !! me = Some act ->
    match act with
    | Beginning a failed => forall getpid, new_thread_starts (table s) main me a failed getpid = Panic <-> failed = true
    | Running =>
        (exists n a ti, gwthread_self (table s) me = Done n /\ alive (table s) n = Some (a, ti) /\ self ti = me) /\
        (specific (table s) !! me <> Some main -> exists t', new_thread_ends (table s) main me = Done t') /\
        (forall n, 0 <= n -> exists t', gwthread_join (table s) me n = Done (bool_decide (is_Some (alive (table s) n)), t')) /\
        (forall fn, exists o t', gwthread_join_every 1024 (cond_init (table s) me) me fn 0 = Done (o, t')) /\
        exists woken t', gwthread_sleep (table s) me = Done (woken, t')
    | _ => True
    end.
Proof.
  intros Hp H%reachable_sys_ok. pose proof (so_table _ H) as T. split; [apply T|]. split; [by intros *; apply numbers_differ|].
  intros me act Hme. destruct s as [t ac]. cbn [table acts] in *. pose proof (so_acts _ H _ _ Hme) as Hok.
  cbn [table] in Hok. destruct act; [| |exact I|exact I].
  - destruct Hok as [Hw Hb]. split_and!.
    + destruct Hw as (a & ti & E1 & E2 & E3 & E4). exists (number ti), a, ti. unfold gwthread_self. rewrite E1, E2. split_and!; try done.
      by apply alive_iff.
    + intros Hm. destruct (end_ok t ac me H Hme Hm) as (t' & E & _); [intros a ti _ Hi; by eapply woken_conds|]. by exists t'.
    + intros n Hn. destruct (join_ok t ac me n H Hme Hn) as (w & t' & E & -> & _). by exists t'.
    + intros fn. destruct (join_every_starts t ac me fn H Hme) as (o & t' & E & _). exists o, t'. exact E.
    + destruct (sleep_done t me Hw) as (w & t' & E & _). by exists w, t'.
  - intros pid. pose proof (begin_spec t ac me a failed pid H Hme) as Hs. destruct failed; [done|].
    destruct Hs as (t' & E & _). rewrite E. done.
Qed.

(** C39 While fewer than 1024 threads live, a pipe can be made and numbers
    are left, a new thread starts: it gets a number that no thread had at any
    time before, the numbers after it remain for the next threads, and every
    other thread keeps its own. *)
Theorem gwthread_create_spec s0 s fn nm id a x y : reachable s0 -> rtc (step main) s0 s -> infos (table s) !! a = None ->
  active_threads (table s) < THREADTABLE_SIZE -> next_threadnumber (table s) + THREADTABLE_SIZE < long_max ->
  exists n t', spawn_thread (table s) fn nm (MkRes (Some id) a (Some (x, y))) = Done (n, Some false, t') /\
    0 <= n /\ alive (table s0) n = None /\ next_threadnumber t' = n + 1 /\
    active_threads t' = active_threads (table s) + 1 /\
    (exists ti, alive t' n = Some (a, ti) /\ self ti = id /\ func ti = Some fn) /\
    forall m, m <> n -> alive t' m = alive (table s) m.
Proof.
  intros H0'%reachable_sys_ok Hr Ha Hlt Hmax. destruct (reachable_ok _ _ Hr H0') as [H Hl]. pose proof (so_table _ H) as T. pose proof (to_next _ T) as H0.
  destruct (fill_spec (table s) id nm (Some fn) a x y T Ha Hlt Hmax) as (n & Hn & Hfree & E).
  exists n. eexists. split.
  { unfold spawn_thread. simpl. rewrite (proj2 (Z.leb_gt _ _) Hlt), E. simpl. by rewrite (proj2 (Z.eqb_neq n (-1))) by lia. }
  split; [lia|split; [|split; [done|split; [done|split]]]].
  - pose proof (so_table _ H0') as T0. destruct (alive (table s0) n) eqn:Ea; [|done].
    pose proof (proj1 (Hl)). pose proof (later_number _ _ n T0 T0 (later_refl _) (mk_is_Some _ _ Ea)). lia.
  - exists (MkInfo id nm (Some fn) n x y None (-1)). split; [|done]. unfold alive, THREAD. simpl.
    rewrite list_lookup_insert_eq by (rewrite (to_length _ T); apply slot_bound). simpl. rewrite lookup_insert_eq. simpl. by rewrite Z.eqb_refl.
  - intros m Hm. unfold alive, THREAD. simpl. destruct (decide (slot m = slot n)) as [->|Hs].
    + rewrite list_lookup_insert_eq by (rewrite (to_length _ T); apply slot_bound). simpl. rewrite lookup_insert_eq, Hfree. simpl.
      by rewrite (proj2 (Z.eqb_neq n m)) by done.
    + rewrite list_lookup_insert_ne by done. destruct (default None (threadtable (table s) !! slot m)) as [b|] eqn:Eb; simpl; [|done].
      rewrite lookup_insert_ne; [done|]. intros <-. destruct (threadtable (table s) !! slot m) as [o|] eqn:Eo; [|done]. simpl in Eb. subst o.
      destruct (to_entry _ T _ _ Eo) as (ti & Hti & _). congruence.
Qed.

End Facts.

(** ** A thread, and one that waits for it *)

Module TwoThreads.

Definition main : Z := 100.
Definition after {A} (o : outcome (A * Threads)) : Threads := match o with Done x => x.2 | Panic => no_threads end.
Definition result (o : outcome Threads) : Threads := match o with Done t => t | Panic => no_threads end.

Definition started : Threads := result (gwthread_init main 1 (Some (10, 11))).
Definition second : resources := MkRes (Some 2) 200 (Some (20, 21)).
Definition created : Threads := after (spawn_thread started 7 [119] second).
Definition begun : Threads := result (new_thread_starts created main 2 200 false 4711).
Definition waiting : Threads := after (gwthread_join begun 1 1).
Definition ended : Threads := result (new_thread_ends waiting main 2).

Definition one : gmap Z activity := {[1 := Running]}.
Definition two (a : activity) : gmap Z activity := <[2 := a]> one.

Lemma reach_started sp : reachable sp main (MkSystem started one).
Proof. exists 1, (Some (10, 11)), started. split; [vm_compute; reflexivity|apply rtc_refl]. Qed.

Lemma reach_step sp s s' : reachable sp main s -> step sp main s s' -> reachable sp main s'.
Proof. intros (me & p & t & H & Hr) Hs. exists me, p, t. split; [exact H|by eapply rtc_r]. Qed.

Lemma reach_begun sp : reachable sp main (MkSystem begun (two Running)).
Proof.
  apply (reach_step sp (MkSystem created (two (Beginning 200 false)))).
  - apply (reach_step sp (MkSystem started one)); [apply reach_started|].
    apply (step_spawn sp main started one 1 2 7 [119] second 1 false created);
      [reflexivity..| |vm_compute; reflexivity].
    intros x y [= <- <-]. by vm_compute.
  - apply (step_begin sp main created (two (Beginning 200 false)) 2 200 false 4711 begun); vm_compute; reflexivity.
Qed.

Lemma reach_waiting sp : reachable sp main (MkSystem waiting (<[1 := Joining 1]> (two Running))).
Proof.
  apply (reach_step sp (MkSystem begun (two Running))); [apply reach_begun|].
  apply (step_join sp main begun (two Running) 1 1 true waiting); vm_compute; reflexivity.
Qed.

(** After the thread has ended, the other one need not wait. *)
Example goes_on : (bool_decide (1 ∈ blocked waiting), bool_decide (1 ∈ blocked ended), bool_decide (is_Some (alive ended 1))) = (true, false, false).
Proof. vm_compute. reflexivity. Qed.

(** Thread 1030 is in the table, but [gwthread_wakeup_all] passes it by: the
    loop wakes numbers below 1024 only. *)
Definition later_number : Threads :=
  after (spawn_thread (set_table started (threadtable started) 1 1030) 7 [119] second).

Example passed_by :
  (bool_decide (is_Some (alive later_number 1030)),
   readable (result (gwthread_wakeup_all later_number 1)) !! 20, readable (result (gwthread_wakeup later_number 1030)) !! 20)
  = (true, Some false, Some true).
Proof. vm_compute. reflexivity. Qed.

Example no_name : gwthread_funcname later_number 1030 = Panic.
Proof. vm_compute. reflexivity. Qed.

(** The same without a wake-up: the first thread goes on while the second
    lives, and its variable is gone when that one ends. *)
Definition returned : Threads := cond_destroy (set_blocked waiting (blocked waiting ∖ {[1]})) 1.

Lemma reach_returned : reachable true main (MkSystem returned (<[1 := Running]> (<[1 := Joining 1]> (two Running)))).
Proof.
  eapply reach_step; [eapply reach_step; [apply reach_waiting|]|].
  - apply (step_spurious true main waiting (<[1 := Joining 1]> (two Running)) 1). reflexivity.
  - apply (step_joined true main _ (<[1 := Joining 1]> (two Running)) 1 1); [reflexivity|].
    apply (bool_decide_eq_true_1 _). vm_compute. reflexivity.
Qed.

Example wakes_nothing : (bool_decide (is_Some (alive returned 1)), new_thread_ends returned main 2) = (true, Panic).
Proof. vm_compute. reflexivity. Qed.

End TwoThreads.


Lemma gwthread_goes_on_witness :
  reachable false TwoThreads.main (MkSystem TwoThreads.begun (TwoThreads.two Running)) /\
  exists t', new_thread_ends TwoThreads.begun TwoThreads.main 2 = Done t'.
Proof.
  split; [apply TwoThreads.reach_begun|].
  destruct (gwthread_goes_on false TwoThreads.main _ eq_refl (TwoThreads.reach_begun false)) as (_ & _ & H).
  destruct (H 2 Running) as (_ & Hend & _); [reflexivity|]. apply Hend. vm_compute. discriminate.
Defined.

Lemma gwthread_create_spec_witness :
  reachable false TwoThreads.main (MkSystem TwoThreads.started TwoThreads.one) /\
  exists n t', spawn_thread TwoThreads.started 7 [119] TwoThreads.second = Done (n, Some false, t') /\
    alive TwoThreads.started n = None /\ next_threadnumber t' = n + 1.
Proof.
  split; [apply TwoThreads.reach_started|].
  destruct (gwthread_create_spec false TwoThreads.main _ _ 7 [119] 2 200 20 21 (TwoThreads.reach_started false) (rtc_refl _ _))
    as (n & t' & E & _ & Ha & Hn & _); [vm_compute; reflexivity..|].
  exists n, t'. split; [exact E|]. split; [exact Ha|exact Hn].
Defined.
