(* ===== verification/GwMem.v ===== *)
(** * Checked memory (gwmem-check.c)

    The table of allocated areas, the markers around them and the ring of
    freed areas.  A pointer is a block of the system with an offset; what
    [malloc] returned, the address of a block and what it holds, is an
    argument.  An access outside of the blocks is undefined.  Messages, the
    backtrace and the lock are not modelled: each function runs under the
    lock of the module.  Places in the sources and their file names are
    numbers, 0 for NULL. *)

From S2P Require Import Prelude.
Open Scope Z_scope.

Definition NEW_AREA_PATTERN : Z := 0xcafebabe.
Definition FREE_AREA_PATTERN : Z := 0xdeadbeef.
Definition START_MARK_PATTERN : Z := 0xdadaface.
Definition END_MARK_PATTERN : Z := 0xadadafec.
Definition MARKER_SIZE : Z := 16.
(** [sizeof(struct area)] is 184 with the backtrace. *)
Definition MAX_TAB_SIZE : Z := 100 * 1024 * 1024.
Definition MAX_ALLOCATIONS : Z := MAX_TAB_SIZE / 184.
Definition FREE_RING_SIZE : Z := 1024.

(** ** The memory of the system *)

Definition ptr : Type := Z * Z.
Notation heap := (gmap Z (list Z)).

Definition shift (p : ptr) (n : Z) : ptr := (p.1, p.2 + n).

Definition load (h : heap) (p : ptr) (n : Z) : outcome (list Z) :=
  bs ← must (h !! p.1);
  _ ← gw_assert ((0 <=? p.2) && (0 <=? n) && (p.2 + n <=? Z.of_nat (length bs)));
  Done (take (Z.to_nat n) (drop (Z.to_nat p.2) bs)).

Definition splice (o : nat) (bytes bs : list Z) : list Z := take o bs ++ bytes ++ drop (o + length bytes) bs.

Definition store (h : heap) (p : ptr) (bytes : list Z) : outcome heap :=
  bs ← must (h !! p.1);
  _ ← gw_assert ((0 <=? p.2) && (p.2 + Z.of_nat (length bytes) <=? Z.of_nat (length bs)));
  Done (<[p.1 := splice (Z.to_nat p.2) bytes bs]> h).

(** A [long] in memory. *)
Definition octet (z : Z) (i : nat) : Z := (z / 2 ^ (8 * Z.of_nat i)) mod 256.
Definition long_bytes (z : Z) : list Z := octet z <$> seq 0 8.
Definition bytes_long (bs : list Z) : Z := wrap_long (foldr (fun b z => b + 256 * z) 0 bs).

(** ** Patterns and markers *)

Fixpoint fill (fuel : nat) (h : heap) (p : ptr) (bytes pattern : Z) : outcome heap :=
  match fuel with
  | O => Done h
  | S fuel =>
      if 8 <? bytes then
        h ← store h p (long_bytes pattern);
        fill fuel h (shift p 8) (bytes - 8) pattern
      else if 0 <? bytes then store h p (take (Z.to_nat bytes) (long_bytes pattern))
      else Done h
  end.
Notation fill_ h p n pattern := (fill (Z.to_nat n) h p n pattern).

Fixpoint untouched (fuel : nat) (h : heap) (p : ptr) (bytes pattern : Z) : outcome bool :=
  match fuel with
  | O => Done true
  | S fuel =>
      if 8 <? bytes then
        bs ← load h p 8;
        if bool_decide (bs = long_bytes pattern) then untouched fuel h (shift p 8) (bytes - 8) pattern else Done false
      else if 0 <? bytes then
        bs ← load h p bytes;
        Done (bool_decide (bs = take (Z.to_nat bytes) (long_bytes pattern)))
      else Done true
  end.
Notation untouched_ h p n pattern := (untouched (Z.to_nat n) h p n pattern).

Definition endmark (h : heap) (p : ptr) (size : Z) : outcome heap :=
  fill_ h (shift p size) MARKER_SIZE END_MARK_PATTERN.

Definition startmark (h : heap) (p : ptr) (number : Z) : outcome heap :=
  _ ← gw_assert (0 <=? number);
  h ← fill_ h (shift p (- MARKER_SIZE)) 8 number;
  fill_ h (shift p (- MARKER_SIZE + 8)) (MARKER_SIZE - 8) START_MARK_PATTERN.

Definition check_startmark (h : heap) (p : ptr) : outcome Z :=
  b ← untouched_ h (shift p (- MARKER_SIZE + 8)) (MARKER_SIZE - 8) START_MARK_PATTERN;
  if negb b then Done (-1)
  else bs ← load h (shift p (- MARKER_SIZE)) 8; Done (bytes_long bs).

Definition check_endmark (h : heap) (p : ptr) (size : Z) : outcome Z :=
  b ← untouched_ h (shift p size) MARKER_SIZE END_MARK_PATTERN;
  Done (if (b : bool) then 0 else -1).

(** ** The state of the module *)

Record location : Type := MkLocation { filename : Z; lineno : Z; function : Z }.
Definition no_location : location := MkLocation 0 0 0.

Record area : Type := MkArea {
  area_ptr : ptr; area_size : Z; max_size : Z;
  allocator : location; reallocator : location; claimer : location
}.
Definition empty_area : area := MkArea (0, 0) 0 0 no_location no_location no_location.

(** The arrays are zero where nothing was written; a pointer to an area is
    its index. *)
Record GwMem : Type := MkGwMem {
  memory : heap;
  allocated : gmap Z area;
  free_ring : gmap Z area;
  num_allocations : Z;
  free_ring_start : Z;
  free_ring_len : Z;
  highest_num_allocations : Z;
  highest_total_size : Z;
  total_size : Z;
  initialized : bool;
  slow : bool
}.
Implicit Types (g : GwMem) (a : area).

Definition area_at g (i : Z) : area := default empty_area (allocated g !! i).
Definition ring_at g (i : Z) : area := default empty_area (free_ring g !! i).

Definition set_memory g h := MkGwMem h (allocated g) (free_ring g) (num_allocations g) (free_ring_start g) (free_ring_len g)
  (highest_num_allocations g) (highest_total_size g) (total_size g) (initialized g) (slow g).
Definition set_area g i a := MkGwMem (memory g) (<[i := a]> (allocated g)) (free_ring g) (num_allocations g) (free_ring_start g) (free_ring_len g)
  (highest_num_allocations g) (highest_total_size g) (total_size g) (initialized g) (slow g).
Definition set_num g n := MkGwMem (memory g) (allocated g) (free_ring g) n (free_ring_start g) (free_ring_len g)
  (highest_num_allocations g) (highest_total_size g) (total_size g) (initialized g) (slow g).
Definition set_highest_num g n := MkGwMem (memory g) (allocated g) (free_ring g) (num_allocations g) (free_ring_start g) (free_ring_len g)
  n (highest_total_size g) (total_size g) (initialized g) (slow g).
Definition set_ring g m start len := MkGwMem (memory g) (allocated g) m (num_allocations g) start len
  (highest_num_allocations g) (highest_total_size g) (total_size g) (initialized g) (slow g).

Definition with_size a n := MkArea (area_ptr a) n (max_size a) (allocator a) (reallocator a) (claimer a).
Definition with_max a n := MkArea (area_ptr a) (area_size a) n (allocator a) (reallocator a) (claimer a).
Definition with_reallocator a l := MkArea (area_ptr a) (area_size a) (max_size a) (allocator a) l (claimer a).
Definition with_claimer a l := MkArea (area_ptr a) (area_size a) (max_size a) (allocator a) (reallocator a) l.

Definition change_total_size g (change : Z) : GwMem :=
  let total := total_size g + change in
  MkGwMem (memory g) (allocated g) (free_ring g) (num_allocations g) (free_ring_start g) (free_ring_len g)
    (highest_num_allocations g) (Z.max (highest_total_size g) total) total (initialized g) (slow g).

(** A [size_t] that is given as a [long]. *)
Definition as_long (z : Z) : Z := wrap_long (wrap_ulong z).

Definition check_marks g a (index : Z) : outcome Z :=
  s ← check_startmark (memory g) (area_ptr a);
  e ← check_endmark (memory g) (area_ptr a) (area_size a);
  Done (if negb (s =? index) || (e <? 0) then -1 else 0).

(** ** Finding an area *)

Fixpoint search (fuel : nat) g (p : ptr) (index : Z) : option Z :=
  match fuel with
  | O => None
  | S fuel => if bool_decide (area_ptr (area_at g index) = p) then Some index else search fuel g p (index + 1)
  end.

Definition suspicious_pointer (p : ptr) : bool :=
  let p_ul := wrap_ulong (p.1 + p.2) in
  (p_ul =? NEW_AREA_PATTERN) || (p_ul =? FREE_AREA_PATTERN) || (p_ul =? START_MARK_PATTERN) || (p_ul =? END_MARK_PATTERN).

Definition find_area g (p : ptr) : outcome (option Z) :=
  let by_table := search (Z.to_nat (num_allocations g)) g p 0 in
  if (slow g || suspicious_pointer p) && bool_decide (by_table = None) then Done None
  else
    index ← check_startmark (memory g) p;
    if (0 <=? index) && (index <? num_allocations g) && bool_decide (area_ptr (area_at g index) = p) then
      _ ← check_endmark (memory g) p (area_size (area_at g index));
      Done (Some index)
    else Done by_table.

(** ** Recording *)

Definition record_allocation g (p : ptr) (size : Z) (loc : location) : outcome (Z * GwMem) :=
  _ ← gw_assert (negb (num_allocations g =? MAX_ALLOCATIONS));
  let index := num_allocations g in
  let g := set_area g index (MkArea p size size loc no_location no_location) in
  h ← startmark (memory g) p index;
  h ← endmark h p size;
  let g := set_num (set_memory g h) (index + 1) in
  let g := set_highest_num g (Z.max (highest_num_allocations g) (index + 1)) in
  Done (index, change_total_size g (as_long size)).

Definition remove_allocation g (index : Z) : outcome GwMem :=
  let g := change_total_size g (as_long (-1 * area_size (area_at g index))) in
  let g := set_num g (num_allocations g - 1) in
  let last := num_allocations g in
  if index =? last then Done g
  else
    _ ← check_marks g (area_at g last) last;
    let g := set_area g index (area_at g last) in
    h ← startmark (memory g) (area_ptr (area_at g index)) index;
    Done (set_memory g h).

(** [free]: the block of the area, which begins before its marker. *)
Definition sys_free (h : heap) (p : ptr) : outcome heap :=
  _ ← gw_assert ((p.2 =? 0) && bool_decide (is_Some (h !! p.1)));
  Done (delete p.1 h).

(** Only messages depend on what it finds. *)
Definition drop_from_free_ring g (index : Z) : outcome GwMem :=
  let a := ring_at g index in
  marks ← check_marks g a index;
  _ ← (if marks <? 0 then Done true else untouched_ (memory g) (area_ptr a) (area_size a) FREE_AREA_PATTERN);
  h ← sys_free (memory g) (shift (area_ptr a) (- MARKER_SIZE));
  Done (set_memory g h).

Definition put_on_free_ring g a : outcome GwMem :=
  if free_ring_len g <? FREE_RING_SIZE then
    let len := free_ring_len g in
    h ← startmark (memory g) (area_ptr a) len;
    Done (set_memory (set_ring g (<[len := a]> (free_ring g)) (free_ring_start g) (len + 1)) h)
  else
    let start := free_ring_start g in
    g ← drop_from_free_ring g start;
    h ← startmark (memory g) (area_ptr a) start;
    Done (set_memory (set_ring g (<[start := a]> (free_ring g)) ((start + 1) mod FREE_RING_SIZE) (free_ring_len g)) h).

Definition free_area g (index : Z) : outcome GwMem :=
  let a := area_at g index in
  h ← fill_ (memory g) (area_ptr a) (area_size a) FREE_AREA_PATTERN;
  g ← put_on_free_ring (set_memory g h) a;
  remove_allocation g index.

(** ** The functions *)

(** What [malloc] gave: a block and what happens to be in it. *)
Definition sys_malloc (h : heap) (n : Z) (got : option (Z * list Z)) : outcome (ptr * heap) :=
  br ← must got;
  _ ← gw_assert (bool_decide (h !! br.1 = None) && (Z.of_nat (length br.2) =? n));
  Done ((br.1, 0), <[br.1 := br.2]> h).

Definition gw_check_init_mem g (slow_flag : bool) : GwMem :=
  MkGwMem (memory g) (allocated g) (free_ring g) (num_allocations g) (free_ring_start g) (free_ring_len g)
    (highest_num_allocations g) (highest_total_size g) (total_size g) true slow_flag.

Definition gw_check_shutdown g : GwMem :=
  MkGwMem (memory g) (allocated g) (free_ring g) (num_allocations g) (free_ring_start g) (free_ring_len g)
    (highest_num_allocations g) (highest_total_size g) (total_size g) false (slow g).

Definition gw_check_malloc g (size : Z) (got : option (Z * list Z)) (loc : location) : outcome (ptr * GwMem) :=
  _ ← gw_assert (initialized g);
  _ ← gw_assert (0 <? size);
  ph ← sys_malloc (memory g) (wrap_ulong (size + 2 * MARKER_SIZE)) got;
  let p := shift ph.1 MARKER_SIZE in
  h ← fill_ ph.2 p size NEW_AREA_PATTERN;
  ag ← record_allocation (set_memory g h) p size loc;
  Done (p, ag.2).

(** The next power of two, from 16 to 2^31, and 0xffffffff above. *)
Fixpoint round_loop (fuel : nat) (num i : Z) : Z :=
  match fuel with
  | O => if num <=? 0x80000000 then 0x80000000 else 0xffffffff
  | S fuel => if num <=? i then i else round_loop fuel num (Z.shiftl i 1)
  end.
Definition round_pow2 (num : Z) : Z := if num <=? 16 then 16 else round_loop 26 num 32.

(** With a new block the area is freed after the new one was recorded, which
    moves the new one into its place: the index of [new_area] is then behind
    the table. *)
Definition gw_check_realloc g (p : option ptr) (size : Z) (got : option (Z * list Z)) (loc : location) : outcome (ptr * GwMem) :=
  match p with
  | None => gw_check_malloc g size got loc
  | Some p =>
      _ ← gw_assert (initialized g);
      _ ← gw_assert (0 <? size);
      index ← find_area g p;
      index ← must index;
      let a := area_at g index in
      pig ← (if size =? area_size a then Done (p, index, g)
             else if size <=? max_size a then
               let g := set_area (change_total_size g (as_long (size - area_size a))) index (with_size a size) in
               h ← endmark (memory g) p size;
               Done (p, index, set_memory g h)
             else
               let new_size := round_pow2 (wrap_ulong (size + 2 * MARKER_SIZE)) in
               ph ← sys_malloc (memory g) new_size got;
               let new_p := shift ph.1 MARKER_SIZE in
               bs ← load ph.2 p (area_size a);
               h ← store ph.2 new_p bs;
               h ← fill_ h (shift new_p (area_size a)) (size - area_size a) NEW_AREA_PATTERN;
               ng ← record_allocation (set_memory g h) new_p size (allocator a);
               let g := set_area ng.2 ng.1 (with_max (area_at ng.2 ng.1) (wrap_ulong (new_size - 2 * MARKER_SIZE))) in
               g ← free_area g index;
               Done (new_p, ng.1, g));
      let '(p, index, g) := pig in
      Done (p, set_area g index (with_reallocator (area_at g index) loc))
  end.

Definition gw_check_free g (p : option ptr) : outcome GwMem :=
  _ ← gw_assert (initialized g);
  match p with
  | None => Done g
  | Some p => index ← find_area g p; index ← must index; free_area g index
  end.

(** [str] is the string without its NUL. *)
Definition gw_check_strdup g (str : list Z) (got : option (Z * list Z)) (loc : location) : outcome (ptr * GwMem) :=
  _ ← gw_assert (initialized g);
  pg ← gw_check_malloc g (Z.of_nat (length str) + 1) got loc;
  h ← store (memory pg.2) pg.1 (str ++ [0]);
  Done (pg.1, set_memory pg.2 h).

Definition gw_check_claim_area g (p : option ptr) (loc : location) : outcome (option ptr * GwMem) :=
  match p with
  | None => Done (None, g)
  | Some p =>
      index ← find_area g p;
      index ← must index;
      Done (Some p, set_area g index (with_claimer (area_at g index) loc))
  end.

Fixpoint drop_all (n : nat) g (index : Z) : outcome GwMem :=
  match n with
  | O => Done g
  | S n => g ← drop_from_free_ring g index; drop_all n g (index + 1)
  end.

Fixpoint sizes (n : nat) g (index : Z) : Z :=
  match n with O => 0 | S n => area_size (area_at g index) + sizes n g (index + 1) end.

Fixpoint check_all (n : nat) g (index : Z) : outcome unit :=
  match n with
  | O => Done tt
  | S n => _ ← check_marks g (area_at g index) index; check_all n g (index + 1)
  end.

Definition gw_check_check_leaks g : outcome GwMem :=
  _ ← gw_assert (initialized g);
  g ← drop_all (Z.to_nat (free_ring_len g)) g 0;
  let g := set_ring g (free_ring g) (free_ring_start g) 0 in
  let calculated_size := sizes (Z.to_nat (num_allocations g)) g 0 in
  _ ← gw_assert (calculated_size =? total_size g);
  _ ← check_all (Z.to_nat (num_allocations g)) g 0;
  Done g.

Definition gw_check_is_allocated g (p : ptr) : outcome bool :=
  index ← find_area g p; Done (bool_decide (is_Some index)).

Definition gw_check_area_size g (p : ptr) : outcome Z :=
  index ← find_area g p;
  Done (match index with None => -1 | Some index => area_size (area_at g index) end).
