(* ===== verification/GwMemFacts.v ===== *)
(** * Facts about the checked memory

    The functions implement a map from pointers to the contents of areas;
    markers, ring and counters follow. *)

From S2P Require Import Prelude GwMem.
Open Scope Z_scope.

Implicit Types (g : GwMem) (a : area) (h : heap).

(** ** Bytes *)

(** What [fill] writes. *)
Definition patt (n : nat) (pattern : Z) : list Z :=
  (fun i => List.nth (i mod 8)%nat (long_bytes pattern) 0) <$> seq 0 n.

Lemma long_bytes_length z : length (long_bytes z) = 8%nat.
Proof. done. Qed.

Lemma patt_length n z : length (patt n z) = n.
Proof. unfold patt. by rewrite length_fmap, length_seq. Qed.

Lemma patt_short n z : (n <= 8)%nat -> patt n z = take n (long_bytes z).
Proof. intros H. do 9 (destruct n as [|n]; [done|]). lia. Qed.

Lemma patt_long n z : patt (8 + n) z = long_bytes z ++ patt n z.
Proof.
  unfold patt. rewrite seq_app, fmap_app. f_equal. simpl Nat.add.
  apply list_eq. intros i. rewrite !list_lookup_fmap. destruct (decide (i < n)%nat).
  - rewrite !lookup_seq_lt by done. cbn [fmap option_fmap option_map]. f_equal. f_equal.
    replace (8 + i)%nat with (0 + i + 1 * 8)%nat by lia. apply Nat.Div0.mod_add.
  - by rewrite !lookup_seq_ge by lia.
Qed.

Lemma splice_app (pre mid post new : list Z) : length mid = length new ->
  splice (length pre) new (pre ++ mid ++ post) = pre ++ new ++ post.
Proof.
  intros E. unfold splice. rewrite take_app_length, <-E. do 2 f_equal.
  by rewrite app_assoc, <-length_app, drop_app_length.
Qed.

Lemma store_app (h : heap) b (pre mid post new : list Z) o :
  h !! b = Some (pre ++ mid ++ post) -> o = Z.of_nat (length pre) -> length mid = length new ->
  store h (b, o) new = Done (<[b := pre ++ new ++ post]> h).
Proof.
  intros Hb -> E. unfold store. simpl. rewrite Hb. simpl. rewrite (proj2 (Z.leb_le 0 _)) by lia.
  rewrite (proj2 (Z.leb_le _ _)) by (rewrite !length_app; lia). simpl. by rewrite Nat2Z.id, splice_app.
Qed.

Lemma load_app (h : heap) b (pre mid post : list Z) o n :
  h !! b = Some (pre ++ mid ++ post) -> o = Z.of_nat (length pre) -> n = Z.of_nat (length mid) ->
  load h (b, o) n = Done mid.
Proof.
  intros Hb -> ->. unfold load. simpl. rewrite Hb. simpl. rewrite !(proj2 (Z.leb_le 0 _)) by lia.
  rewrite (proj2 (Z.leb_le _ _)) by (rewrite !length_app; lia). simpl.
  by rewrite !Nat2Z.id, drop_app_length, take_app_length.
Qed.

Lemma fill_app z : forall fuel (h : heap) b (pre mid post : list Z) o n,
  h !! b = Some (pre ++ mid ++ post) -> o = Z.of_nat (length pre) -> n = Z.of_nat (length mid) -> (length mid <= fuel)%nat ->
  fill fuel h (b, o) n z = Done (<[b := pre ++ patt (length mid) z ++ post]> h).
Proof.
  induction fuel as [|fuel IH]; intros h b pre mid post o n Hb Ho Hn Hf; simpl.
  { destruct mid; simpl in *; [|lia]. by rewrite insert_id. }
  destruct (Z.ltb_spec 8 n) as [H8|H8].
  - rewrite <-(take_drop 8 mid) in Hb |- *. set (m1 := take 8 mid) in *. set (m2 := drop 8 mid) in *.
    assert (L1 : length m1 = 8%nat) by (unfold m1; rewrite length_take; lia).
    assert (L2 : (length m2 = length mid - 8)%nat) by (unfold m2; by rewrite length_drop).
    rewrite (store_app h b pre m1 (m2 ++ post)) by (rewrite ?long_bytes_length; rewrite <-?app_assoc in *; done).
    cbn [mbind outcome_bind]. unfold shift. simpl.
    rewrite (IH _ b (pre ++ long_bytes z) m2 post) by (rewrite ?lookup_insert_eq, ?length_app, ?long_bytes_length, <-?app_assoc; done || lia).
    rewrite insert_insert_eq, length_app, L1, patt_long, <-!app_assoc. done.
  - destruct (Z.ltb_spec 0 n) as [H0|H0].
    + rewrite (patt_short (length mid)) by lia. replace (Z.to_nat n) with (length mid) by lia.
      apply (store_app h b pre mid post); try done. rewrite length_take, long_bytes_length. lia.
    + destruct mid; simpl in *; [|lia]. by rewrite insert_id.
Qed.

Lemma untouched_app z : forall fuel (h : heap) b (pre mid post : list Z) o n,
  h !! b = Some (pre ++ mid ++ post) -> o = Z.of_nat (length pre) -> n = Z.of_nat (length mid) -> (length mid <= fuel)%nat ->
  untouched fuel h (b, o) n z = Done (bool_decide (mid = patt (length mid) z)).
Proof.
  induction fuel as [|fuel IH]; intros h b pre mid post o n Hb Ho Hn Hf; simpl.
  { destruct mid; simpl in *; [done|lia]. }
  destruct (Z.ltb_spec 8 n) as [H8|H8].
  - rewrite <-(take_drop 8 mid) in Hb |- *. set (m1 := take 8 mid) in *. set (m2 := drop 8 mid) in *.
    assert (L1 : length m1 = 8%nat) by (unfold m1; rewrite length_take; lia).
    assert (L2 : (length m2 = length mid - 8)%nat) by (unfold m2; by rewrite length_drop).
    rewrite (load_app h b pre m1 (m2 ++ post)) by (rewrite <-?app_assoc in *; done || lia).
    cbn [mbind outcome_bind]. rewrite length_app, L1, patt_long. destruct (decide (m1 = long_bytes z)) as [E|E].
    + rewrite bool_decide_true by done. unfold shift. simpl.
      rewrite (IH _ b (pre ++ m1) m2 post) by (rewrite ?length_app, <-?app_assoc in *; done || lia).
      f_equal. apply bool_decide_ext. rewrite E. split; [by intros <-|apply (app_inv_head (long_bytes z))].
    + rewrite bool_decide_false by done. rewrite bool_decide_false; [done|]. intros Eq. apply E. apply app_inj_1 in Eq as [? _]; done.
  - destruct (Z.ltb_spec 0 n) as [H0|H0].
    + rewrite (load_app h b pre mid post) by done. cbn [mbind outcome_bind]. rewrite (patt_short (length mid)) by lia.
      by replace (Z.to_nat n) with (length mid) by lia.
    + destruct mid; simpl in *; [done|lia].
Qed.

Lemma bytes_long_bytes z : 0 <= z < 2 ^ 63 -> bytes_long (long_bytes z) = z.
Proof.
  intros H. assert (E : forall k k', 0 <= k -> k' = k + 8 -> z / 2 ^ k = (z / 2 ^ k) mod 256 + 256 * (z / 2 ^ k')).
  { intros k k' Hk ->. rewrite Z.pow_add_r, <-Z.div_div by lia. change (2 ^ 8) with 256. pose proof (Z.div_mod (z / 2 ^ k) 256). lia. }
  assert (Es : foldr (fun b z => b + 256 * z) 0 (long_bytes z) = z).
  { unfold long_bytes, octet. cbn [seq fmap list_fmap foldr].
    change (8 * Z.of_nat 0) with 0. change (8 * Z.of_nat 1) with 8. change (8 * Z.of_nat 2) with 16. change (8 * Z.of_nat 3) with 24.
    change (8 * Z.of_nat 4) with 32. change (8 * Z.of_nat 5) with 40. change (8 * Z.of_nat 6) with 48. change (8 * Z.of_nat 7) with 56.
    pose proof (E 0 8 ltac:(lia) eq_refl) as E0. pose proof (E 8 16 ltac:(lia) eq_refl). pose proof (E 16 24 ltac:(lia) eq_refl).
    pose proof (E 24 32 ltac:(lia) eq_refl). pose proof (E 32 40 ltac:(lia) eq_refl). pose proof (E 40 48 ltac:(lia) eq_refl).
    pose proof (E 48 56 ltac:(lia) eq_refl). pose proof (E 56 64 ltac:(lia) eq_refl) as E7.
    rewrite (Z.div_small z (2 ^ 64)) in E7 by lia. rewrite Z.div_1_r in E0 |- *. lia. }
  unfold bytes_long. rewrite Es. unfold wrap_long. rewrite Z.mod_small by lia. lia.
Qed.

(** ** Areas *)

Definition head_mark (n : Z) : list Z := long_bytes n ++ patt 8 START_MARK_PATTERN.
Definition tail_mark : list Z := patt 16 END_MARK_PATTERN.
Definition block (n : Z) (content slack : list Z) : list Z := head_mark n ++ content ++ tail_mark ++ slack.

Lemma head_mark_length n : length (head_mark n) = 16%nat.
Proof. done. Qed.

(** The area has number [n] in its marker, its markers and its contents. *)
Record area_ok (h : heap) (n : Z) (a : area) (content : list Z) : Prop := {
  ao_offset : (area_ptr a).2 = MARKER_SIZE;
  ao_block : exists slack, h !! (area_ptr a).1 = Some (block n content slack) /\ Z.of_nat (length slack) = max_size a - area_size a;
  ao_size : Z.of_nat (length content) = area_size a;
  ao_positive : 0 < area_size a < 2 ^ 62;
  ao_max : max_size a < 2 ^ 62
}.

Lemma startmark_ok (h : heap) b n (pre rest : list Z) : h !! b = Some (pre ++ rest) -> length pre = 16%nat -> 0 <= n ->
  startmark h (b, MARKER_SIZE) n = Done (<[b := head_mark n ++ rest]> h).
Proof.
  intros Hb Hl Hn. unfold startmark. rewrite (proj2 (Z.leb_le _ _) Hn). cbn [gw_assert mbind outcome_bind].
  rewrite <-(take_drop 8 pre), <-app_assoc in Hb.
  assert (L1 : length (take 8 pre) = 8%nat) by (rewrite length_take; lia).
  assert (L2 : length (drop 8 pre) = 8%nat) by (rewrite length_drop; lia).
  unfold shift. change ((b, MARKER_SIZE).1, (b, MARKER_SIZE).2 + - MARKER_SIZE) with (b, 0).
  change ((b, MARKER_SIZE).1, (b, MARKER_SIZE).2 + (- MARKER_SIZE + 8)) with (b, 8).
  rewrite (fill_app n _ h b [] (take 8 pre) (drop 8 pre ++ rest)) by (rewrite ?L1; done || lia).
  cbn [mbind outcome_bind]. rewrite L1. change (patt 8 n) with (long_bytes n). change (MARKER_SIZE - 8) with 8.
  rewrite (fill_app _ _ _ b (long_bytes n) (drop 8 pre) rest) by (rewrite ?L2, ?lookup_insert_eq; done || lia).
  rewrite insert_insert_eq, L2. unfold head_mark. by rewrite <-app_assoc.
Qed.

Lemma endmark_ok (h : heap) b size (pre content mid post : list Z) : h !! b = Some (pre ++ content ++ mid ++ post) ->
  length pre = 16%nat -> size = Z.of_nat (length content) -> length mid = 16%nat ->
  endmark h (b, MARKER_SIZE) size = Done (<[b := pre ++ content ++ tail_mark ++ post]> h).
Proof.
  intros Hb Hp -> Hm. unfold endmark, shift. simpl fst. simpl snd.
  rewrite (fill_app _ _ h b (pre ++ content) mid post) by (rewrite ?length_app, <-?app_assoc; unfold MARKER_SIZE; done || lia).
  by rewrite Hm, <-app_assoc.
Qed.

Lemma check_startmark_ok (h : heap) b n (rest : list Z) : h !! b = Some (head_mark n ++ rest) -> 0 <= n < 2 ^ 63 ->
  check_startmark h (b, MARKER_SIZE) = Done n.
Proof.
  intros Hb Hn. unfold check_startmark, shift.
  change ((b, MARKER_SIZE).1, (b, MARKER_SIZE).2 + - MARKER_SIZE) with (b, 0).
  change ((b, MARKER_SIZE).1, (b, MARKER_SIZE).2 + (- MARKER_SIZE + 8)) with (b, 8). change (MARKER_SIZE - 8) with 8.
  unfold head_mark in Hb. rewrite <-app_assoc in Hb.
  rewrite (untouched_app _ _ h b (long_bytes n) (patt 8 START_MARK_PATTERN) rest) by (rewrite ?patt_length; done || lia).
  rewrite patt_length, bool_decide_true by done. cbn [negb mbind outcome_bind].
  rewrite (load_app h b [] (long_bytes n) (patt 8 START_MARK_PATTERN ++ rest)) by done.
  cbn [mbind outcome_bind]. by rewrite bytes_long_bytes.
Qed.

Lemma check_endmark_ok (h : heap) b size (pre content post : list Z) : h !! b = Some (pre ++ content ++ tail_mark ++ post) ->
  length pre = 16%nat -> size = Z.of_nat (length content) -> check_endmark h (b, MARKER_SIZE) size = Done 0.
Proof.
  intros Hb Hp ->. unfold check_endmark, shift. simpl fst. simpl snd.
  rewrite (untouched_app _ _ h b (pre ++ content) tail_mark post)
    by (unfold tail_mark; rewrite ?patt_length, ?length_app, <-?app_assoc; unfold MARKER_SIZE; done || lia).
  unfold tail_mark. by rewrite patt_length, bool_decide_true.
Qed.

Lemma area_ptr_eq h n a content : area_ok h n a content -> area_ptr a = ((area_ptr a).1, MARKER_SIZE).
Proof. intros H. rewrite <-(ao_offset _ _ _ _ H). by destruct (area_ptr a). Qed.

Lemma area_check h n a content : area_ok h n a content -> 0 <= n < 2 ^ 63 ->
  check_startmark h (area_ptr a) = Done n /\ check_endmark h (area_ptr a) (area_size a) = Done 0.
Proof.
  intros H Hn. destruct (ao_block _ _ _ _ H) as (slack & Hb & _). rewrite (area_ptr_eq _ _ _ _ H).
  split; [by eapply check_startmark_ok|]. eapply (check_endmark_ok h _ _ (head_mark n)); [exact Hb|done|by rewrite (ao_size _ _ _ _ H)].
Qed.

Lemma check_marks_ok g n a content : area_ok (memory g) n a content -> 0 <= n < 2 ^ 63 -> check_marks g a n = Done 0.
Proof.
  intros H Hn. destruct (area_check _ _ _ _ H Hn) as [E1 E2]. unfold check_marks. rewrite E1. cbn [mbind outcome_bind].
  rewrite E2. cbn [mbind outcome_bind]. by rewrite Z.eqb_refl.
Qed.

Lemma area_frame (h h' : heap) n a content : h' !! (area_ptr a).1 = h !! (area_ptr a).1 -> area_ok h n a content -> area_ok h' n a content.
Proof. intros E [? (slack & ? & ?) ? ? ?]. split; try done. exists slack. by rewrite E. Qed.

(** The marker of an area gets another number. *)
Lemma renumber h n m a content : area_ok h n a content -> 0 <= m ->
  exists h', startmark h (area_ptr a) m = Done h' /\ area_ok h' m a content /\
    forall b, b <> (area_ptr a).1 -> h' !! b = h !! b.
Proof.
  intros H Hm. destruct (ao_block _ _ _ _ H) as (slack & Hb & Hs). rewrite (area_ptr_eq _ _ _ _ H).
  rewrite (startmark_ok h _ m (head_mark n) (content ++ tail_mark ++ slack)) by done. eexists. split; [done|]. split.
  - split; try apply H. exists slack. by rewrite lookup_insert_eq.
  - intros b Hne. by rewrite lookup_insert_ne.
Qed.

(** The contents of an area are overwritten. *)
Lemma refill h n a content z : area_ok h n a content ->
  exists h', fill_ h (area_ptr a) (area_size a) z = Done h' /\ area_ok h' n a (patt (Z.to_nat (area_size a)) z) /\
    forall b, b <> (area_ptr a).1 -> h' !! b = h !! b.
Proof.
  intros H. destruct (ao_block _ _ _ _ H) as (slack & Hb & Hs). rewrite (area_ptr_eq _ _ _ _ H). pose proof (ao_size _ _ _ _ H) as Hz.
  rewrite (fill_app z _ h _ (head_mark n) content (tail_mark ++ slack)) by (done || lia). eexists. split; [done|].
  replace (length content) with (Z.to_nat (area_size a)) by lia. split.
  - pose proof (ao_positive _ _ _ _ H). split; try apply H; [|rewrite patt_length; lia].
    exists slack. by rewrite lookup_insert_eq.
  - intros b Hne. by rewrite lookup_insert_ne.
Qed.

(** ** The state *)

Definition base a : Z := (area_ptr a).1.

(** The entries [live] are the areas of [abs], which has their contents. *)
Record entries_ok g (abs : gmap ptr (list Z)) (live : Z -> Prop) : Prop := {
  en_entry : forall i, live i -> exists content,
    abs !! area_ptr (area_at g i) = Some content /\ area_ok (memory g) i (area_at g i) content;
  en_abs : forall p, is_Some (abs !! p) -> exists i, live i /\ area_ptr (area_at g i) = p;
  en_inj : forall i j, live i -> live j -> base (area_at g i) = base (area_at g j) -> i = j;
  en_apart : forall i j, live i -> 0 <= j < free_ring_len g -> base (area_at g i) <> base (ring_at g j)
}.

Definition freed (a : area) : list Z := patt (Z.to_nat (area_size a)) FREE_AREA_PATTERN.

Record ring_ok g : Prop := {
  ri_len : 0 <= free_ring_len g <= FREE_RING_SIZE;
  ri_start : 0 <= free_ring_start g < FREE_RING_SIZE;
  ri_entry : forall j, 0 <= j < free_ring_len g -> area_ok (memory g) j (ring_at g j) (freed (ring_at g j));
  ri_inj : forall i j, 0 <= i < free_ring_len g -> 0 <= j < free_ring_len g -> base (ring_at g i) = base (ring_at g j) -> i = j
}.

Definition in_table g (i : Z) : Prop := 0 <= i < num_allocations g.

Record mem_ok g (abs : gmap ptr (list Z)) : Prop := {
  mo_init : initialized g = true;
  mo_num : 0 <= num_allocations g <= MAX_ALLOCATIONS;
  mo_entries : entries_ok g abs (in_table g);
  mo_ring : ring_ok g;
  mo_total : total_size g = sizes (Z.to_nat (num_allocations g)) g 0
}.

Lemma sizes_ext n g g' : forall k, (forall i, k <= i < k + Z.of_nat n -> area_size (area_at g i) = area_size (area_at g' i)) ->
  sizes n g k = sizes n g' k.
Proof.
  induction n as [|n IH]; intros k H; simpl; [done|]. rewrite (H k) by lia. f_equal. apply IH. intros i Hi. apply H. lia.
Qed.

Lemma sizes_snoc n g : forall k, sizes (S n) g k = sizes n g k + area_size (area_at g (k + Z.of_nat n)).
Proof.
  induction n as [|n IH]; intros k.
  { cbn [sizes]. replace (k + Z.of_nat 0) with k by lia. lia. }
  change (sizes (S (S n)) g k) with (area_size (area_at g k) + sizes (S n) g (k + 1)). rewrite IH. cbn [sizes].
  replace (k + 1 + Z.of_nat n) with (k + Z.of_nat (S n)) by lia. lia.
Qed.

Lemma sizes_set n g i a : forall k, k <= i < k + Z.of_nat n ->
  sizes n (set_area g i a) k = sizes n g k - area_size (area_at g i) + area_size a.
Proof.
  induction n as [|n IH]; intros k H; simpl; [lia|]. unfold area_at at 1. simpl. destruct (decide (k = i)) as [->|Hne].
  - rewrite lookup_insert_eq. simpl. rewrite (sizes_ext n (set_area g i a) g); [lia|].
    intros j Hj. unfold area_at. simpl. rewrite lookup_insert_ne by lia. done.
  - rewrite lookup_insert_ne by done. rewrite IH by lia. fold (area_at g k). lia.
Qed.

Lemma area_at_set g i a k : area_at (set_area g i a) k = if decide (k = i) then a else area_at g k.
Proof. unfold area_at. simpl. destruct (decide (k = i)) as [->|]; [by rewrite lookup_insert_eq|by rewrite lookup_insert_ne]. Qed.

(** ** Finding *)

Lemma search_none fuel g p : forall k, search fuel g p k = None -> forall i, k <= i < k + Z.of_nat fuel -> area_ptr (area_at g i) <> p.
Proof.
  induction fuel as [|fuel IH]; intros k H i Hi; [lia|]. simpl in H. destruct (decide (area_ptr (area_at g k) = p)) as [E|E].
  - by rewrite bool_decide_true in H.
  - rewrite bool_decide_false in H by done. destruct (decide (i = k)) as [->|]; [done|]. apply (IH (k + 1) H). lia.
Qed.

Lemma search_some fuel g p i : forall k, search fuel g p k = Some i -> k <= i < k + Z.of_nat fuel /\ area_ptr (area_at g i) = p.
Proof.
  induction fuel as [|fuel IH]; intros k H; [done|]. simpl in H. destruct (decide (area_ptr (area_at g k) = p)) as [E|E].
  - rewrite bool_decide_true in H by done. injection H as <-. split; [lia|done].
  - rewrite bool_decide_false in H by done. apply IH in H as [? ?]. split; [lia|done].
Qed.

Lemma num_bound g abs i : mem_ok g abs -> in_table g i -> 0 <= i < 2 ^ 63.
Proof. intros H Hi. pose proof (mo_num _ _ H) as Hn. assert (MAX_ALLOCATIONS < 2 ^ 63) by done. unfold in_table in Hi. lia. Qed.

Lemma find_live g abs p content : mem_ok g abs -> abs !! p = Some content ->
  exists i, find_area g p = Done (Some i) /\ in_table g i /\ area_ptr (area_at g i) = p /\ area_ok (memory g) i (area_at g i) content.
Proof.
  intros H Hp. destruct (en_abs _ _ _ (mo_entries _ _ H) p) as (i & Hi & Ep); [by eexists|].
  destruct (en_entry _ _ _ (mo_entries _ _ H) i Hi) as (c & Hc & Ha). rewrite Ep, Hp in Hc. injection Hc as <-.
  exists i. split; [|done]. unfold find_area.
  assert (Hs : search (Z.to_nat (num_allocations g)) g p 0 <> None).
  { intros Hn. eapply search_none in Hn; [by apply Hn|]. unfold in_table in Hi. lia. }
  rewrite (bool_decide_false (search _ _ _ _ = None)) by done. rewrite andb_false_r.
  destruct (area_check _ _ _ _ Ha) as [E1 E2]; [by eapply num_bound|]. rewrite Ep in E1, E2. rewrite E1. cbn [mbind outcome_bind].
  destruct Hi as [Hi1 Hi2]. rewrite (proj2 (Z.leb_le _ _) Hi1), (proj2 (Z.ltb_lt _ _) Hi2), bool_decide_true by done. simpl. by rewrite E2.
Qed.

(** A pointer to a freed area is not taken for one to an allocated area. *)
Lemma find_freed g abs j : mem_ok g abs -> 0 <= j < free_ring_len g -> find_area g (area_ptr (ring_at g j)) = Done None.
Proof.
  intros H Hj. pose proof (ri_entry _ (mo_ring _ _ H) j Hj) as Ha. set (p := area_ptr (ring_at g j)).
  assert (Hne : forall i, in_table g i -> area_ptr (area_at g i) <> p).
  { intros i Hi E. apply (en_apart _ _ _ (mo_entries _ _ H) i j Hi Hj). unfold base. by rewrite E. }
  assert (Hs : search (Z.to_nat (num_allocations g)) g p 0 = None).
  { destruct (search _ g p 0) as [i|] eqn:E; [|done]. apply search_some in E as [Hi E]. exfalso. apply (Hne i); [|done]. unfold in_table. lia. }
  unfold find_area. rewrite Hs. destruct ((slow g || suspicious_pointer p) && bool_decide (None = None)); [done|].
  destruct (area_check _ _ _ _ Ha) as [E1 _].
  { pose proof (ri_len _ (mo_ring _ _ H)). unfold FREE_RING_SIZE in *. lia. }
  fold p in E1. rewrite E1. cbn [mbind outcome_bind]. destruct (Z.ltb_spec j (num_allocations g)) as [Hl|Hl]; [|by rewrite andb_false_r].
  rewrite (bool_decide_false (area_ptr (area_at g j) = p)) by (apply Hne; unfold in_table; lia). by rewrite andb_false_r.
Qed.

(** ** Freeing *)

Lemma as_long_id z : - 2 ^ 63 <= z < 2 ^ 63 -> as_long z = z.
Proof. intros H. unfold as_long, wrap_long, wrap_ulong. rewrite Zplus_mod_idemp_l, Z.mod_small by lia. lia. Qed.

Lemma drop_area g j : area_ok (memory g) j (ring_at g j) (freed (ring_at g j)) -> 0 <= j < 2 ^ 63 ->
  drop_from_free_ring g j = Done (set_memory g (delete (base (ring_at g j)) (memory g))).
Proof.
  intros Ha Hj. unfold drop_from_free_ring. rewrite (check_marks_ok _ _ _ _ Ha) by done. cbn [mbind outcome_bind]. simpl Z.ltb. cbv iota.
  destruct (ao_block _ _ _ _ Ha) as (slack & Hb & _). rewrite (area_ptr_eq _ _ _ _ Ha).
  rewrite (untouched_app _ _ (memory g) _ (head_mark j) (freed (ring_at g j)) (tail_mark ++ slack))
    by (unfold freed; rewrite ?patt_length; done || (pose proof (ao_positive _ _ _ _ Ha); lia)).
  cbn [mbind outcome_bind]. unfold sys_free, shift. simpl fst. simpl snd.
  rewrite bool_decide_true by (by eexists). done.
Qed.

Lemma drop_ok g j : ring_ok g -> 0 <= j < free_ring_len g ->
  drop_from_free_ring g j = Done (set_memory g (delete (base (ring_at g j)) (memory g))).
Proof.
  intros H Hj. apply drop_area; [by apply (ri_entry _ H)|]. pose proof (ri_len _ H). unfold FREE_RING_SIZE in *. lia.
Qed.

Lemma put_ok g a n : ring_ok g -> area_ok (memory g) n a (freed a) ->
  (forall j, 0 <= j < free_ring_len g -> base (ring_at g j) <> base a) ->
  exists g', put_on_free_ring g a = Done g' /\ ring_ok g' /\
    (allocated g' = allocated g /\ num_allocations g' = num_allocations g /\ total_size g' = total_size g /\ initialized g' = initialized g) /\
    (forall j, 0 <= j < free_ring_len g' -> ring_at g' j = a \/ exists k, 0 <= k < free_ring_len g /\ ring_at g' j = ring_at g k) /\
    (exists j, 0 <= j < free_ring_len g' /\ ring_at g' j = a) /\
    (forall b, b <> base a -> (forall j, 0 <= j < free_ring_len g -> base (ring_at g j) <> b) -> memory g' !! b = memory g !! b).
Proof.
  intros H Ha Hne. pose proof (ri_len _ H) as Hl. pose proof (ri_start _ H) as Hst. unfold put_on_free_ring.
  destruct (Z.ltb_spec (free_ring_len g) FREE_RING_SIZE) as [Hlt|Hge].
  - destruct (renumber _ _ (free_ring_len g) _ _ Ha) as (h' & E & Ha' & Hfr); [lia|]. rewrite E. cbn [mbind outcome_bind].
    eexists. split; [done|].
    assert (Hat : forall j, 0 <= j < free_ring_len g + 1 ->
      default empty_area (<[free_ring_len g := a]> (free_ring g) !! j) = if decide (j = free_ring_len g) then a else ring_at g j).
    { intros j _. destruct (decide (j = free_ring_len g)) as [->|]; [by rewrite lookup_insert_eq|by rewrite lookup_insert_ne]. }
    split_and!; try done.
    + split; cbn [free_ring_len free_ring_start set_memory set_ring memory]; try lia.
      * intros j Hj. unfold ring_at. cbn [free_ring set_memory set_ring]. rewrite (Hat j Hj). case_decide as Ej; [by subst j|].
        eapply area_frame; [|apply (ri_entry _ H); lia]. apply Hfr, Hne. lia.
      * intros i j Hi Hj. unfold ring_at. cbn [free_ring set_memory set_ring]. rewrite (Hat i Hi), (Hat j Hj).
        case_decide; case_decide; subst; try done; intros Eb.
        -- symmetry in Eb. apply Hne in Eb; [done|lia].
        -- apply Hne in Eb; [done|lia].
        -- apply (ri_inj _ H); done || lia.
    + intros j Hj. cbn in Hj. unfold ring_at. cbn [free_ring set_memory set_ring]. rewrite (Hat j Hj). case_decide; [by left|]. right. exists j. split; [lia|done].
    + exists (free_ring_len g). split; [cbn; lia|]. unfold ring_at. cbn [free_ring set_memory set_ring]. by rewrite Hat, decide_True by lia.
    + intros b Hb _. by apply Hfr.
  - set (start := free_ring_start g) in *. rewrite drop_ok by (done || lia). cbn [mbind outcome_bind set_memory memory].
    destruct (renumber (delete (base (ring_at g start)) (memory g)) n start a (freed a)) as (h' & E & Ha' & Hfr); [|lia|].
    { eapply area_frame; [|exact Ha]. rewrite lookup_delete_ne; [done|]. apply Hne. lia. }
    rewrite E. cbn [mbind outcome_bind]. eexists. split; [done|].
    assert (Hat : forall j, default empty_area (<[start := a]> (free_ring g) !! j) = if decide (j = start) then a else ring_at g j).
    { intros j. destruct (decide (j = start)) as [->|]; [by rewrite lookup_insert_eq|by rewrite lookup_insert_ne]. }
    split_and!; try done.
    + split; cbn [free_ring_len free_ring_start set_memory set_ring memory]; try lia.
      * pose proof (Z.mod_pos_bound (start + 1) FREE_RING_SIZE). unfold FREE_RING_SIZE in *. lia.
      * intros j Hj. unfold ring_at. cbn [free_ring set_memory set_ring]. rewrite (Hat j). case_decide as Ej; [by subst j|].
        eapply area_frame; [|by apply (ri_entry _ H)]. fold (base (ring_at g j)). rewrite Hfr by (by apply Hne).
        rewrite lookup_delete_ne; [done|]. intros Eb. apply Ej, (ri_inj _ H); done || lia.
      * intros i j Hi Hj. unfold ring_at. cbn [free_ring set_memory set_ring]. rewrite (Hat i), (Hat j).
        case_decide; case_decide; subst; try done; intros Eb.
        -- symmetry in Eb. by apply Hne in Eb.
        -- by apply Hne in Eb.
        -- by apply (ri_inj _ H).
    + intros j Hj. cbn in Hj. unfold ring_at. cbn [free_ring set_memory set_ring]. rewrite (Hat j). case_decide; [by left|]. right. exists j. done.
    + exists start. split; [cbn; lia|]. unfold ring_at. cbn [free_ring set_memory set_ring]. by rewrite Hat, decide_True.
    + intros b Hb Hr. cbn [memory set_memory]. rewrite Hfr by done. rewrite lookup_delete_ne; [done|]. apply Hr. lia.
Qed.

(** The last entry takes the place of the one that is removed. *)
Lemma remove_ok g abs i : in_table g i -> entries_ok g abs (fun k => in_table g k /\ k <> i) -> ring_ok g ->
  initialized g = true -> 0 <= num_allocations g <= MAX_ALLOCATIONS -> 0 <= area_size (area_at g i) < 2 ^ 62 ->
  total_size g = sizes (Z.to_nat (num_allocations g)) g 0 ->
  exists g', remove_allocation g i = Done g' /\ mem_ok g' abs /\ num_allocations g' = num_allocations g - 1 /\
    free_ring g' = free_ring g /\ free_ring_len g' = free_ring_len g.
Proof.
  intros Hi He Hr Hinit Hnum Hsize Ht. unfold remove_allocation. set (last := num_allocations g - 1).
  assert (Hlast : in_table g last) by (unfold in_table, last in *; lia).
  rewrite as_long_id by lia. cbn [set_num change_total_size num_allocations]. fold last.
  assert (Hsum : sizes (Z.to_nat (num_allocations g)) g 0 = sizes (Z.to_nat last) g 0 + area_size (area_at g last)).
  { replace (Z.to_nat (num_allocations g)) with (S (Z.to_nat last)) by (unfold in_table, last in *; lia). rewrite sizes_snoc.
    do 3 f_equal. unfold in_table in Hlast. lia. }
  destruct (Z.eqb_spec i last) as [El|El].
  - eexists. split; [done|]. split; [|done]. split; cbn; try done.
    + unfold in_table in Hlast. lia.
    + destruct He as [E1 E2 E3 E4]. split; cbn.
      * intros k Hk. apply E1. unfold in_table, last in *. cbn in Hk. lia.
      * intros p Hp. destruct (E2 p Hp) as (k & Hk & E). exists k. split; [|done]. unfold in_table, last in *. cbn. lia.
      * intros k j Hk Hj. apply E3; unfold in_table, last in *; cbn in Hk, Hj; lia.
      * intros k j Hk. apply E4. unfold in_table, last in *. cbn in Hk. lia.
    + destruct Hr as [R1 R2 R3 R4]. by split.
    + rewrite Ht, Hsum, El. match goal with |- _ = sizes ?n ?g' 0 => rewrite (sizes_ext n g' g 0) by done end. lia.
  - destruct (en_entry _ _ _ He last) as (c & Hc & Ha); [split; [done|congruence]|].
    set (g1 := set_num _ _). assert (E1 : area_at g1 last = area_at g last) by done. rewrite E1.
    rewrite (check_marks_ok g1 last (area_at g last) c) by (done || (assert (MAX_ALLOCATIONS < 2 ^ 63) by done; unfold in_table in Hlast; lia)).
    cbn [mbind outcome_bind]. rewrite area_at_set, decide_True by done. cbn [memory set_area].
    destruct (renumber (memory g1) last i (area_at g last) c) as (h' & E & Ha' & Hfr); [done|unfold in_table in Hi; lia|].
    rewrite E. cbn [mbind outcome_bind]. eexists. split; [done|]. split; [|done].
    set (g2 := set_memory _ h').
    assert (Hat : forall k, area_at g2 k = if decide (k = i) then area_at g last else area_at g k).
    { intros k. change (area_at g2 k) with (area_at (set_area g1 i (area_at g last)) k). by rewrite area_at_set. }
    assert (Hpos : forall k, in_table g2 k -> in_table g k /\ k <> last) by (intros k Hk; unfold in_table, last in *; cbn in Hk; lia).
    split; try done; [cbn; unfold in_table in Hlast; lia|..].
    + destruct He as [F1 F2 F3 F4]. split.
      * intros k [Hk Hkl]%Hpos. rewrite Hat. case_decide as Ek; [subst k; exists c; done|].
        destruct (F1 k) as (ck & Hck & Hak); [done|]. exists ck. split; [done|]. eapply area_frame; [|exact Hak].
        apply Hfr. intros Eb. apply Hkl. by apply F3.
      * intros p Hp. destruct (F2 p Hp) as (k & [Hk Hki] & E'). destruct (decide (k = last)) as [->|].
        -- exists i. rewrite Hat, decide_True by done. split; [unfold in_table, last in *; cbn; lia|done].
        -- exists k. rewrite Hat, decide_False by done. split; [unfold in_table, last in *; cbn; lia|done].
      * intros k j [Hk Hkl]%Hpos [Hj Hjl]%Hpos. rewrite !Hat. case_decide; case_decide; subst; try done; intros Eb.
        -- exfalso. apply Hjl. symmetry. by apply F3.
        -- exfalso. apply Hkl. by apply F3.
        -- by apply F3.
      * intros k j [Hk Hkl]%Hpos Hj. rewrite Hat. case_decide; by apply F4.
    + destruct Hr as [R1 R2 R3 R4]. split; try done. intros j Hj. eapply area_frame; [|by apply R3]. apply Hfr.
      intros Eb. by apply (en_apart _ _ _ He last j).
    + change (total_size g2) with (total_size g + -1 * area_size (area_at g i)). change (num_allocations g2) with last.
      rewrite (sizes_ext _ g2 (set_area g i (area_at g last))) by (intros k _; by rewrite Hat, area_at_set).
      rewrite sizes_set by (unfold in_table, last in *; lia). lia.
Qed.

Lemma free_area_ok g abs i : mem_ok g abs -> in_table g i ->
  exists g', free_area g i = Done g' /\ mem_ok g' (delete (area_ptr (area_at g i)) abs) /\
    num_allocations g' = num_allocations g - 1 /\
    exists j, 0 <= j < free_ring_len g' /\ area_ptr (ring_at g' j) = area_ptr (area_at g i).
Proof.
  intros H Hi. pose proof (mo_entries _ _ H) as He. set (a := area_at g i). unfold free_area. fold a.
  destruct (en_entry _ _ _ He i Hi) as (c & Hc & Ha). fold a in Hc, Ha. pose proof (ao_positive _ _ _ _ Ha) as Hpos.
  destruct (refill _ _ _ _ FREE_AREA_PATTERN Ha) as (h & E & Ha' & Hfr). rewrite E. cbn [mbind outcome_bind].
  assert (Hr1 : ring_ok (set_memory g h)).
  { destruct (mo_ring _ _ H) as [R1 R2 R3 R4]. split; try done. intros j Hj. eapply area_frame; [|by apply R3].
    apply Hfr. intros Eb. by apply (en_apart _ _ _ He i j). }
  destruct (put_ok (set_memory g h) a i Hr1 Ha') as (g2 & E2 & Hr2 & (S1 & S2 & S3 & S4) & Hold & (j & Hj & Ej) & Hfr2).
  { intros j Hj Eb. by apply (en_apart _ _ _ He i j). }
  rewrite E2. cbn [mbind outcome_bind].
  assert (Hat : forall k, area_at g2 k = area_at g k) by (intros k; unfold area_at; by rewrite S1).
  assert (Hin : forall k, in_table g2 k -> in_table g k) by (intros k; unfold in_table; by rewrite S2).
  destruct (remove_ok g2 (delete (area_ptr a) abs) i) as (g' & E' & Hok & Hn & Hfree & Hlen).
  - unfold in_table. by rewrite S2.
  - split.
    + intros k [Hk%Hin Hki]. rewrite Hat. destruct (en_entry _ _ _ He k Hk) as (ck & Hck & Hak). exists ck.
      assert (Hb : base (area_at g k) <> base a) by (intros Eb; apply Hki; by apply (en_inj _ _ _ He)). split.
      * rewrite lookup_delete_ne; [done|]. intros Ep. apply Hb. unfold base. by rewrite Ep.
      * eapply area_frame; [|exact Hak]. fold (base (area_at g k)). rewrite Hfr2; [cbn; by apply Hfr|done|].
        intros l Hl Eb. by apply (en_apart _ _ _ He k l).
    + intros p [x Hx]. apply lookup_delete_Some in Hx as [Hne Hx]. destruct (en_abs _ _ _ He p) as (k & Hk & Ek); [by eexists|].
      exists k. rewrite Hat. split; [|done]. split; [unfold in_table; by rewrite S2|]. intros ->. done.
    + intros k l [Hk%Hin _] [Hl%Hin _]. rewrite !Hat. by apply (en_inj _ _ _ He).
    + intros k l [Hk%Hin Hki] Hl. rewrite Hat. destruct (Hold l Hl) as [->|(m & Hm & ->)].
      * intros Eb. apply Hki. by apply (en_inj _ _ _ He).
      * by apply (en_apart _ _ _ He).
  - done.
  - rewrite S4. apply H.
  - rewrite S2. apply H.
  - rewrite Hat. fold a. lia.
  - rewrite S3, S2. cbn. rewrite (mo_total _ _ H). apply sizes_ext. intros k _. by rewrite Hat.
  - exists g'. split; [done|]. split; [done|]. split; [by rewrite Hn, S2|]. exists j. rewrite Hlen. split; [done|].
    unfold ring_at. rewrite Hfree. fold (ring_at g2 j). by rewrite Ej.
Qed.

(** ** New and changed entries *)

Lemma record_computes g b size loc (pre c mid post : list Z) : memory g !! b = Some (pre ++ c ++ mid ++ post) ->
  length pre = 16%nat -> size = Z.of_nat (length c) -> length mid = 16%nat -> 0 < size < 2 ^ 62 ->
  0 <= num_allocations g < MAX_ALLOCATIONS ->
  exists g', record_allocation g (b, MARKER_SIZE) size loc = Done (num_allocations g, g') /\
    memory g' = <[b := block (num_allocations g) c post]> (memory g) /\
    allocated g' = <[num_allocations g := MkArea (b, MARKER_SIZE) size size loc no_location no_location]> (allocated g) /\
    num_allocations g' = num_allocations g + 1 /\ total_size g' = total_size g + size /\ initialized g' = initialized g /\
    free_ring g' = free_ring g /\ free_ring_len g' = free_ring_len g /\ free_ring_start g' = free_ring_start g.
Proof.
  intros Hb Hp Hs Hm Hpos Hn. unfold record_allocation. rewrite (proj2 (Z.eqb_neq (num_allocations g) MAX_ALLOCATIONS)) by lia.
  cbn [negb gw_assert mbind outcome_bind]. cbn [memory set_area].
  rewrite (startmark_ok (memory g) b _ pre (c ++ mid ++ post)) by (done || lia). cbn [mbind outcome_bind].
  rewrite (endmark_ok _ b size (head_mark (num_allocations g)) c mid post) by (rewrite ?lookup_insert_eq; done).
  cbn [mbind outcome_bind]. eexists. split; [done|]. cbn. rewrite insert_insert_eq, as_long_id by lia. by split_and!.
Qed.

Lemma ring_same g g' : free_ring g' = free_ring g -> free_ring_len g' = free_ring_len g -> free_ring_start g' = free_ring_start g ->
  (forall j, 0 <= j < free_ring_len g -> memory g' !! base (ring_at g j) = memory g !! base (ring_at g j)) -> ring_ok g -> ring_ok g'.
Proof.
  intros E1 E2 E3 Hm [R1 R2 R3 R4]. split; unfold ring_at; rewrite ?E1, ?E2, ?E3; try done.
  intros j Hj. eapply area_frame; [|by apply R3]. by apply Hm.
Qed.

(** An area in a new block. *)
Lemma add_ok g g' abs a c X : mem_ok g abs -> memory g !! base a = None -> num_allocations g < MAX_ALLOCATIONS ->
  allocated g' = <[num_allocations g := a]> (allocated g) -> num_allocations g' = num_allocations g + 1 ->
  total_size g' = total_size g + area_size a -> initialized g' = initialized g ->
  free_ring g' = free_ring g -> free_ring_len g' = free_ring_len g -> free_ring_start g' = free_ring_start g ->
  memory g' = <[base a := X]> (memory g) -> area_ok (memory g') (num_allocations g) a c ->
  mem_ok g' (<[area_ptr a := c]> abs) /\ abs !! area_ptr a = None.
Proof.
  intros H Hfresh Hmax E1 E2 E3 E4 E5 E6 E7 E8 Ha. pose proof (mo_entries _ _ H) as He. pose proof (mo_num _ _ H) as Hn.
  set (n := num_allocations g) in *.
  assert (Hat : forall k, area_at g' k = if decide (k = n) then a else area_at g k).
  { intros k. unfold area_at. rewrite E1. case_decide as Ek; [subst k; by rewrite lookup_insert_eq|by rewrite lookup_insert_ne]. }
  assert (Hin : forall k, in_table g' k -> k <> n -> in_table g k) by (intros k Hk Hne; unfold in_table in *; rewrite E2 in Hk; fold n; lia).
  assert (Hbase : forall k, in_table g k -> base (area_at g k) <> base a).
  { intros k Hk Eb. destruct (en_entry _ _ _ He k Hk) as (ck & _ & Hak). destruct (ao_block _ _ _ _ Hak) as (s & Hs & _).
    fold (base (area_at g k)) in Hs. congruence. }
  assert (Hring : forall j, 0 <= j < free_ring_len g -> base (ring_at g j) <> base a).
  { intros j Hj Eb. destruct (ao_block _ _ _ _ (ri_entry _ (mo_ring _ _ H) j Hj)) as (s & Hs & _).
    fold (base (ring_at g j)) in Hs. congruence. }
  assert (Hnew : abs !! area_ptr a = None).
  { destruct (abs !! area_ptr a) as [x|] eqn:Ex; [|done]. destruct (en_abs _ _ _ He (area_ptr a)) as (k & Hk & Ek); [by eexists|].
    exfalso. apply (Hbase k Hk). unfold base. by rewrite Ek. }
  split; [|done]. split.
  - rewrite E4. apply H.
  - rewrite E2. fold n in Hn. lia.
  - split.
    + intros k Hk. rewrite Hat. case_decide as Ek; [subst k; exists c; split; [apply lookup_insert_eq|done]|].
      destruct (en_entry _ _ _ He k) as (ck & Hck & Hak); [by apply Hin|]. exists ck. split.
      * rewrite lookup_insert_ne; [done|]. congruence.
      * eapply area_frame; [|exact Hak]. rewrite E8. rewrite lookup_insert_ne; [done|]. intros Eb. by apply (Hbase k); [apply Hin|].
    + intros p [x Hx]. apply lookup_insert_Some in Hx as [[<- _]|[Hne Hx]].
      * exists n. rewrite Hat, decide_True by done. split; [unfold in_table; rewrite E2; lia|done].
      * destruct (en_abs _ _ _ He p) as (k & Hk & Ek); [by eexists|]. exists k. unfold in_table in *. fold n in Hk.
        rewrite Hat, decide_False by lia. split; [rewrite E2; lia|done].
    + intros k l Hk Hl. rewrite !Hat. case_decide; case_decide; subst; try done; intros Eb.
      * symmetry in Eb. apply Hbase in Eb; [done|by apply Hin].
      * apply Hbase in Eb; [done|by apply Hin].
      * apply (en_inj _ _ _ He); [by apply Hin..|done].
    + intros k j Hk Hj. rewrite Hat. rewrite E6 in Hj. unfold ring_at. rewrite E5. fold (ring_at g j).
      case_decide; [intros Eb; by apply (Hring j)|]. apply (en_apart _ _ _ He); [by apply Hin|done].
  - apply (ring_same g); try done; [|apply H]. intros j Hj. rewrite E8, lookup_insert_ne; [done|]. intros Eb. by apply (Hring j).
  - rewrite E3, E2. replace (Z.to_nat (n + 1)) with (S (Z.to_nat n)) by lia. rewrite sizes_snoc, Hat, decide_True by lia.
    rewrite (mo_total _ _ H). f_equal. apply sizes_ext. intros k Hk. rewrite Hat, decide_False by lia. done.
Qed.

(** An area with other contents or another size at its place. *)
Lemma replace_ok g g' abs i a c X : mem_ok g abs -> in_table g i -> area_ptr a = area_ptr (area_at g i) ->
  allocated g' = <[i := a]> (allocated g) -> num_allocations g' = num_allocations g ->
  total_size g' = total_size g + (area_size a - area_size (area_at g i)) -> initialized g' = initialized g ->
  free_ring g' = free_ring g -> free_ring_len g' = free_ring_len g -> free_ring_start g' = free_ring_start g ->
  memory g' = <[base a := X]> (memory g) -> area_ok (memory g') i a c -> mem_ok g' (<[area_ptr a := c]> abs).
Proof.
  intros H Hi Ep E1 E2 E3 E4 E5 E6 E7 E8 Ha. pose proof (mo_entries _ _ H) as He.
  assert (Eb : base a = base (area_at g i)) by (unfold base; by rewrite Ep).
  assert (Hat : forall k, area_at g' k = if decide (k = i) then a else area_at g k).
  { intros k. unfold area_at. rewrite E1. case_decide as Ek; [subst k; by rewrite lookup_insert_eq|by rewrite lookup_insert_ne]. }
  assert (Hin : forall k, in_table g' k <-> in_table g k) by (intros k; unfold in_table; by rewrite E2).
  assert (Hbase : forall k, base (area_at g' k) = base (area_at g k)) by (intros k; rewrite Hat; case_decide; [by subst k|done]).
  split.
  - rewrite E4. apply H.
  - rewrite E2. apply H.
  - split.
    + intros k Hk%Hin. rewrite Hat. case_decide as Ek; [subst k; exists c; split; [apply lookup_insert_eq|done]|].
      destruct (en_entry _ _ _ He k Hk) as (ck & Hck & Hak). exists ck.
      assert (Hne : base a <> base (area_at g k)) by (rewrite Eb; intros Ex; apply Ek; by apply (en_inj _ _ _ He)). split.
      * rewrite lookup_insert_ne; [done|]. intros Ex. apply Hne. unfold base. by rewrite Ex.
      * eapply area_frame; [|exact Hak]. by rewrite E8, lookup_insert_ne.
    + intros p [x Hx]. apply lookup_insert_Some in Hx as [[<- _]|[Hne Hx]].
      * exists i. rewrite Hat, decide_True by done. split; [by apply Hin|done].
      * destruct (en_abs _ _ _ He p) as (k & Hk & Ek); [by eexists|]. exists k. split; [by apply Hin|].
        rewrite Hat, decide_False; [done|]. intros ->. congruence.
    + intros k l Hk%Hin Hl%Hin. rewrite !Hbase. by apply (en_inj _ _ _ He).
    + intros k j Hk%Hin Hj. rewrite Hbase. rewrite E6 in Hj. unfold ring_at. rewrite E5. by apply (en_apart _ _ _ He).
  - apply (ring_same g); try done; [|apply H]. intros j Hj. rewrite E8, lookup_insert_ne; [done|]. rewrite Eb. by apply (en_apart _ _ _ He).
  - rewrite E3, E2, (mo_total _ _ H), (sizes_ext _ g' (set_area g i a)) by (intros k _; by rewrite Hat, area_at_set).
    rewrite sizes_set by (unfold in_table in Hi; lia). lia.
Qed.

(** Where something was allocated or claimed does not matter, nor what is
    behind the table. *)
Lemma set_area_ok g abs i a : mem_ok g abs ->
  (in_table g i -> area_ptr a = area_ptr (area_at g i) /\ area_size a = area_size (area_at g i) /\ max_size a = max_size (area_at g i)) ->
  mem_ok (set_area g i a) abs.
Proof.
  intros H Hsame.
  assert (Hat : forall k, in_table g k -> area_ptr (area_at (set_area g i a) k) = area_ptr (area_at g k) /\
    area_size (area_at (set_area g i a) k) = area_size (area_at g k) /\ max_size (area_at (set_area g i a) k) = max_size (area_at g k)).
  { intros k Hk. rewrite area_at_set. case_decide; [subst k; by apply Hsame|done]. }
  destruct H as [H1 H2 [E1 E2 E3 E4] H4 H5]. split; try done.
  - split.
    + intros k Hk. destruct (Hat k Hk) as (P1 & P2 & P3). destruct (E1 k Hk) as (c & Hc & [A1 A2 A3 A4 A5]). exists c.
      rewrite P1. split; [done|]. split; rewrite ?P1, ?P2, ?P3; done.
    + intros p Hp. destruct (E2 p Hp) as (k & Hk & Ek). exists k. split; [done|]. destruct (Hat k Hk) as (P1 & _). by rewrite P1.
    + intros k l Hk Hl. unfold base. destruct (Hat k Hk) as (-> & _). destruct (Hat l Hl) as (-> & _). by apply E3.
    + intros k j Hk Hj. unfold base. destruct (Hat k Hk) as (-> & _). by apply E4.
  - destruct H4 as [R1 R2 R3 R4]. by split.
  - cbn [total_size set_area num_allocations]. rewrite H5. apply sizes_ext. intros k Hk. symmetry. apply Hat. unfold in_table. lia.
Qed.

(** A new block has room for the markers. *)
Lemma split_block (bs : list Z) n : (32 + n <= length bs)%nat ->
  exists pre c mid post, bs = pre ++ c ++ mid ++ post /\ length pre = 16%nat /\ length c = n /\ length mid = 16%nat /\
    length post = (length bs - 32 - n)%nat.
Proof.
  intros H. exists (take 16 bs), (take n (drop 16 bs)), (take 16 (drop n (drop 16 bs))), (drop 16 (drop n (drop 16 bs))).
  rewrite !take_drop. rewrite !length_take, !length_drop. split_and!; done || lia.
Qed.

Lemma malloc_ok g abs size b junk loc : mem_ok g abs -> 0 < size < 2 ^ 61 -> num_allocations g < MAX_ALLOCATIONS ->
  memory g !! b = None -> Z.of_nat (length junk) = size + 32 ->
  exists g', gw_check_malloc g size (Some (b, junk)) loc = Done ((b, MARKER_SIZE), g') /\
    mem_ok g' (<[(b, MARKER_SIZE) := patt (Z.to_nat size) NEW_AREA_PATTERN]> abs) /\ abs !! (b, MARKER_SIZE) = None.
Proof.
  intros H Hs Hmax Hb Hj. pose proof (mo_num _ _ H) as Hn. unfold gw_check_malloc. rewrite (mo_init _ _ H), (proj2 (Z.ltb_lt 0 size)) by lia.
  cbn [gw_assert mbind outcome_bind]. rewrite wrap_ulong_id by (unfold ulong_max, MARKER_SIZE; lia).
  unfold sys_malloc. cbn [must mbind outcome_bind fst snd]. rewrite bool_decide_true by done.
  replace (Z.of_nat (length junk) =? size + 2 * MARKER_SIZE) with true by (symmetry; apply Z.eqb_eq; unfold MARKER_SIZE; lia).
  cbn [andb gw_assert mbind outcome_bind fst snd]. change (shift (b, 0) MARKER_SIZE) with (b, MARKER_SIZE).
  destruct (split_block junk (Z.to_nat size)) as (pre & c & mid & post & Ej & L1 & L2 & L3 & L4); [lia|].
  assert (Hpost : post = []) by (apply nil_length_inv; lia). subst post.
  rewrite (fill_app _ _ _ b pre c (mid ++ [])) by (rewrite ?lookup_insert_eq, ?Ej; unfold MARKER_SIZE; done || lia).
  cbn [mbind outcome_bind]. rewrite insert_insert_eq, L2. set (c' := patt (Z.to_nat size) NEW_AREA_PATTERN).
  set (g1 := set_memory g _).
  destruct (record_computes g1 b size loc pre c' mid []) as (g' & E & M1 & M2 & M3 & M4 & M5 & M6 & M7 & M8);
    try done; try (cbn; lia).
  { cbn. by rewrite lookup_insert_eq. }
  { unfold c'. rewrite patt_length. lia. }
  rewrite E. cbn [mbind outcome_bind fst snd]. exists g'. split; [done|].
  cbn [memory g1 set_memory] in M1. rewrite insert_insert_eq in M1.
  eapply (add_ok g g' abs (MkArea (b, MARKER_SIZE) size size loc no_location no_location)); try done.
  split; cbn; try done; [|unfold c'; rewrite patt_length; lia|lia|lia].
  exists []. rewrite M1. unfold base. simpl. rewrite lookup_insert_eq. split; [done|]. simpl. lia.
Qed.

Lemma round_loop_spec num fuel : forall i, 0 < i -> i * 2 ^ Z.of_nat fuel = 2 ^ 31 -> num <= 2 ^ 31 ->
  num <= round_loop fuel num i <= 2 ^ 31.
Proof.
  induction fuel as [|fuel IH]; intros i Hi Hp Hn; cbn [round_loop].
  - change 0x80000000 with (2 ^ 31). rewrite (proj2 (Z.leb_le num (2 ^ 31))) by done. lia.
  - rewrite Nat2Z.inj_succ, Z.pow_succ_r in Hp by lia. destruct (Z.leb_spec num i).
    + pose proof (Z.pow_pos_nonneg 2 (Z.of_nat fuel)). nia.
    + rewrite Z.shiftl_mul_pow2 by lia. apply IH; lia.
Qed.

(** Sizes are rounded up, to no more than 2^31. *)
Lemma round_pow2_spec num : 0 <= num <= 2 ^ 31 -> num <= round_pow2 num <= 2 ^ 31.
Proof.
  intros H. unfold round_pow2. destruct (Z.leb_spec num 16); [lia|]. apply round_loop_spec; [lia|done|lia].
Qed.

(** What an area keeps of its contents. *)
Definition kept (c c' : list Z) : Prop := forall i x, (i < length c')%nat -> c !! i = Some x -> c' !! i = Some x.

Lemma resize_ok g abs i c size : mem_ok g abs -> in_table g i -> abs !! area_ptr (area_at g i) = Some c ->
  0 < size <= max_size (area_at g i) -> max_size (area_at g i) < 2 ^ 62 ->
  exists h c', endmark (memory g) (area_ptr (area_at g i)) size = Done h /\ Z.of_nat (length c') = size /\ kept c c' /\
    mem_ok (set_memory (set_area (change_total_size g (as_long (size - area_size (area_at g i)))) i (with_size (area_at g i) size)) h)
      (<[area_ptr (area_at g i) := c']> abs).
Proof.
  intros H Hi Hc Hs Hm. set (a := area_at g i) in *. destruct (en_entry _ _ _ (mo_entries _ _ H) i Hi) as (c0 & Hc0 & Ha).
  fold a in Hc0, Ha. rewrite Hc in Hc0. injection Hc0 as <-. destruct (ao_block _ _ _ _ Ha) as (slack & Hb & Hl).
  pose proof (ao_size _ _ _ _ Ha) as Hsz. pose proof (ao_positive _ _ _ _ Ha) as Hpos. unfold block in Hb. set (body := c ++ tail_mark ++ slack) in *.
  assert (Lb : Z.of_nat (length body) = max_size a + 16) by (unfold body, tail_mark; rewrite !length_app, patt_length; lia).
  set (c' := take (Z.to_nat size) body). set (rest := drop (Z.to_nat size) body).
  assert (Lc : Z.of_nat (length c') = size) by (unfold c'; rewrite length_take; lia).
  assert (Lr : (length rest = length body - Z.to_nat size)%nat) by (unfold rest; by rewrite length_drop).
  eexists _, c'. split.
  { rewrite (area_ptr_eq _ _ _ _ Ha). apply (endmark_ok (memory g) _ size (head_mark i) c' (take 16 rest) (drop 16 rest));
      [rewrite take_drop; unfold c', rest; by rewrite take_drop|done|done|rewrite length_take; lia]. }
  split; [done|]. split.
  { intros k x Hk Hx. unfold c' in *. rewrite length_take in Hk. rewrite lookup_take_lt by lia. unfold body. by apply lookup_app_l_Some. }
  rewrite as_long_id by lia. set (g' := set_memory _ _).
  change (area_ptr a) with (area_ptr (with_size a size)). eapply (replace_ok g g' abs i (with_size a size) c'); try done.
  split; cbn; try apply Ha; [|done|lia]. exists (drop 16 rest). unfold base. rewrite lookup_insert_eq. split; [done|]. rewrite length_drop. lia.
Qed.

(** A new block for an area that has no room. *)
Lemma regrow_ok g abs i c size b junk : mem_ok g abs -> in_table g i -> abs !! area_ptr (area_at g i) = Some c ->
  max_size (area_at g i) < size -> size + 32 <= 2 ^ 31 -> num_allocations g < MAX_ALLOCATIONS -> memory g !! b = None ->
  Z.of_nat (length junk) = round_pow2 (size + 32) ->
  let a := area_at g i in let new_p := (b, MARKER_SIZE) in
  exists h ng h' g' c', load (<[b := junk]> (memory g)) (area_ptr a) (area_size a) = Done c /\
    store (<[b := junk]> (memory g)) new_p c = Done h /\
    fill_ h (shift new_p (area_size a)) (size - area_size a) NEW_AREA_PATTERN = Done h' /\
    record_allocation (set_memory g h') new_p size (allocator a) = Done ng /\
    free_area (set_area ng.2 ng.1 (with_max (area_at ng.2 ng.1) (round_pow2 (size + 32) - 32))) i = Done g' /\
    ng.1 = num_allocations g' /\ Z.of_nat (length c') = size /\ kept c c' /\
    mem_ok g' (<[new_p := c']> (delete (area_ptr a) abs)) /\ abs !! new_p = None.
Proof.
  intros H Hi Hc Hm Hs Hmax Hb Hj a new_p. destruct (en_entry _ _ _ (mo_entries _ _ H) i Hi) as (c0 & Hc0 & Ha).
  fold a in Hc0, Ha, Hc, Hm. rewrite Hc in Hc0. injection Hc0 as <-. destruct (ao_block _ _ _ _ Ha) as (slack & Hblk & Hl).
  pose proof (ao_size _ _ _ _ Ha) as Hsz. pose proof (ao_positive _ _ _ _ Ha) as Hpos.
  pose proof (round_pow2_spec (size + 32)) as Hround. pose proof (mo_num _ _ H) as Hn.
  assert (Hne : (area_ptr a).1 <> b) by (intros E; congruence).
  destruct (split_block junk (Z.to_nat size)) as (pre & c1 & mid & post & Ej & L1 & L2 & L3 & L4); [lia|].
  set (m1 := take (length c) c1). set (m2 := drop (length c) c1).
  assert (E1 : junk = pre ++ m1 ++ m2 ++ mid ++ post) by (unfold m1, m2; by rewrite Ej, (app_assoc (take _ _)), take_drop).
  assert (Lm1 : length m1 = length c) by (unfold m1; rewrite length_take; lia).
  assert (Lm2 : (length m2 = Z.to_nat size - length c)%nat) by (unfold m2; rewrite length_drop; lia).
  set (c' := c ++ patt (length m2) NEW_AREA_PATTERN).
  assert (Lc : Z.of_nat (length c') = size) by (unfold c'; rewrite length_app, patt_length; lia).
  set (h' := <[b := pre ++ c' ++ mid ++ post]> (memory g)).
  destruct (record_computes (set_memory g h') b size (allocator a) pre c' mid post) as (g1 & E & M1 & M2 & M3 & M4 & M5 & M6 & M7 & M8);
    try done; try (cbn; lia); [cbn; apply lookup_insert_eq|].
  cbn [memory set_memory num_allocations allocated total_size] in E, M1, M2, M3, M4. unfold h' in M1. rewrite insert_insert_eq in M1.
  set (n := num_allocations g) in *. set (a1 := with_max (area_at g1 n) (round_pow2 (size + 32) - 32)). set (g2 := set_area g1 n a1).
  assert (Ea1 : a1 = MkArea new_p size (round_pow2 (size + 32) - 32) (allocator a) no_location no_location).
  { unfold a1, area_at. rewrite M2, lookup_insert_eq. done. }
  destruct (add_ok g g2 abs a1 c' (block n c' post)) as [H2 Hnew]; rewrite ?Ea1; try done.
  { cbn. by rewrite M2, insert_insert_eq, Ea1. }
  { split; cbn; try done; [|lia|lia]. exists post. rewrite M1. split; [by rewrite lookup_insert_eq|]. lia. }
  rewrite Ea1 in H2, Hnew. cbn [area_ptr] in H2, Hnew.
  assert (Hi2 : in_table g2 i) by (unfold in_table in *; cbn; rewrite M3; fold n in Hi; lia).
  assert (Hat : area_at g2 i = a).
  { unfold g2. rewrite area_at_set, decide_False by (unfold in_table in Hi; fold n in Hi; lia).
    unfold area_at at 1. rewrite M2, lookup_insert_ne by (unfold in_table in Hi; fold n in Hi; lia). done. }
  destruct (free_area_ok g2 _ i H2 Hi2) as (g' & E' & H' & Hn' & _). rewrite Hat in H'.
  eexists _, (n, g1), h', g', c'. split; [|split; [|split; [|split; [exact E|split; [exact E'|split; [|split; [done|split; [|split; [|done]]]]]]]]].
  - rewrite (area_ptr_eq _ _ _ _ Ha). apply (load_app _ _ (head_mark i) c (tail_mark ++ slack)); [by rewrite lookup_insert_ne|done|done].
  - apply (store_app _ b pre m1 (m2 ++ mid ++ post)); [rewrite lookup_insert_eq; by f_equal|by rewrite L1|done].
  - replace (Z.to_nat (size - area_size a)) with (length m2) by lia. change (shift new_p (area_size a)) with (b, MARKER_SIZE + area_size a).
    rewrite (fill_app _ _ _ b (pre ++ c) m2 (mid ++ post)); [|by rewrite lookup_insert_eq, <-app_assoc| |lia|lia].
    + rewrite !insert_insert_eq. unfold h', c'. by rewrite <-!app_assoc.
    + rewrite length_app, L1. unfold MARKER_SIZE. lia.
  - rewrite Hn'. cbn. rewrite M3. cbn. lia.
  - intros k x _ Hx. unfold c'. by apply lookup_app_l_Some.
  - rewrite <-delete_insert_ne; [exact H'|]. intros Ex. apply Hne. by rewrite Ex.
Qed.

Lemma realloc_ok g abs p c size b junk loc : mem_ok g abs -> abs !! p = Some c -> 0 < size -> size + 32 <= 2 ^ 31 ->
  num_allocations g < MAX_ALLOCATIONS -> memory g !! b = None -> Z.of_nat (length junk) = round_pow2 (size + 32) ->
  exists p' c' g', gw_check_realloc g (Some p) size (Some (b, junk)) loc = Done (p', g') /\
    Z.of_nat (length c') = size /\ kept c c' /\ (p' = p \/ abs !! p' = None) /\ mem_ok g' (<[p' := c']> (delete p abs)).
Proof.
  intros H Hp Hs Hs31 Hmax Hb Hj. destruct (find_live g abs p c H Hp) as (i & Ef & Hi & Ep & Ha). subst p.
  unfold gw_check_realloc. rewrite (mo_init _ _ H), (proj2 (Z.ltb_lt _ _) Hs). cbn [gw_assert mbind outcome_bind].
  rewrite Ef. cbn [must mbind outcome_bind]. set (a := area_at g i) in *.
  pose proof (ao_size _ _ _ _ Ha) as Hsz. pose proof (ao_positive _ _ _ _ Ha) as Hpos.
  destruct (Z.eqb_spec size (area_size a)) as [Es|Es]; cbn [mbind outcome_bind].
  { eexists _, c, _. split; [done|]. split; [lia|]. split; [by intros k x _|]. split; [by left|].
    rewrite insert_delete_eq, insert_id by done. apply set_area_ok; [done|]. by intros _. }
  destruct (Z.leb_spec size (max_size a)) as [Hm|Hm].
  - destruct (ao_block _ _ _ _ Ha) as (slack & _ & Hl).
    destruct (resize_ok g abs i c size H Hi Hp) as (h & c' & E & Lc & Hk & Hok); [fold a; lia|apply Ha|].
    fold a in E, Hok. cbn [memory set_area change_total_size]. rewrite E. cbn [mbind outcome_bind].
    eexists _, c', _. split; [done|]. split; [done|]. split; [done|]. split; [by left|].
    rewrite insert_delete_eq. by apply set_area_ok.
  - destruct (regrow_ok g abs i c size b junk H Hi Hp Hm Hs31 Hmax Hb Hj)
      as (h & ng & h' & g' & c' & E1 & E2 & E3 & E4 & E5 & E6 & Lc & Hk & Hok & Hnew). fold a in E1, E3, E4, E5, Hok.
    pose proof (round_pow2_spec (size + 32) ltac:(lia)) as Hr. rewrite (wrap_ulong_id (size + 2 * MARKER_SIZE)) by (unfold ulong_max, MARKER_SIZE; lia).
    change (2 * MARKER_SIZE) with 32. unfold sys_malloc. cbn [must mbind outcome_bind fst snd].
    rewrite bool_decide_true, (proj2 (Z.eqb_eq _ _) Hj) by done. cbn [andb gw_assert mbind outcome_bind fst snd].
    change (shift (b, 0) MARKER_SIZE) with (b, MARKER_SIZE). rewrite E1. cbn [mbind outcome_bind]. rewrite E2. cbn [mbind outcome_bind].
    rewrite E3. cbn [mbind outcome_bind]. rewrite E4. cbn [mbind outcome_bind].
    rewrite (wrap_ulong_id (round_pow2 (size + 32) - 32)) by (unfold ulong_max; lia). rewrite E5. cbn [mbind outcome_bind].
    eexists _, c', _. split; [done|]. split; [done|]. split; [done|]. split; [by right|].
    apply set_area_ok; [done|]. unfold in_table. lia.
Qed.

(** ** What programs do with their memory *)

Inductive request : Type :=
| Malloc (size : Z) (got : option (Z * list Z)) (loc : location)
| Realloc (p : ptr) (size : Z) (got : option (Z * list Z)) (loc : location)
| Strdup (str : list Z) (got : option (Z * list Z)) (loc : location)
| Free (p : ptr)
| Claim (p : ptr) (loc : location)
| Write (p : ptr) (o : Z) (bytes : list Z)
| CheckLeaks.

Definition perform g (r : request) : outcome (option ptr * GwMem) :=
  match r with
  | Malloc size got loc => pg ← gw_check_malloc g size got loc; Done (Some pg.1, pg.2)
  | Realloc p size got loc => pg ← gw_check_realloc g (Some p) size got loc; Done (Some pg.1, pg.2)
  | Strdup str got loc => pg ← gw_check_strdup g str got loc; Done (Some pg.1, pg.2)
  | Free p => g ← gw_check_free g (Some p); Done (None, g)
  | Claim p loc => gw_check_claim_area g (Some p) loc
  | Write p o bytes => h ← store (memory g) (shift p o) bytes; Done (None, set_memory g h)
  | CheckLeaks => g ← gw_check_check_leaks g; Done (None, g)
  end.

(** The system has memory, and a block that it gives is new. *)
Definition supplied g (n : Z) (got : option (Z * list Z)) : Prop :=
  exists b junk, got = Some (b, junk) /\ memory g !! b = None /\ Z.of_nat (length junk) = n.

(** A program that uses its areas only. *)
Definition fair g (abs : gmap ptr (list Z)) (r : request) : Prop :=
  match r with
  | Malloc size got _ => 0 < size < 2 ^ 61 /\ num_allocations g < MAX_ALLOCATIONS /\ supplied g (size + 32) got
  | Realloc p size got _ => is_Some (abs !! p) /\ 0 < size /\ size + 32 <= 2 ^ 31 /\ num_allocations g < MAX_ALLOCATIONS /\
      supplied g (round_pow2 (size + 32)) got
  | Strdup str got _ => Z.of_nat (length str) + 1 < 2 ^ 61 /\ num_allocations g < MAX_ALLOCATIONS /\
      supplied g (Z.of_nat (length str) + 1 + 32) got
  | Free p | Claim p _ => is_Some (abs !! p)
  | Write p o bytes => 0 <= o /\ exists c, abs !! p = Some c /\ o + Z.of_nat (length bytes) <= Z.of_nat (length c)
  | CheckLeaks => True
  end.

(** What a request does to the areas of a program. *)
Definition meaning (abs : gmap ptr (list Z)) (r : request) (res : option ptr) (abs' : gmap ptr (list Z)) : Prop :=
  match r with
  | Malloc size _ _ => exists p, res = Some p /\ abs !! p = None /\ abs' = <[p := patt (Z.to_nat size) NEW_AREA_PATTERN]> abs
  | Realloc p size _ _ => exists c p' c', abs !! p = Some c /\ res = Some p' /\ (p' = p \/ abs !! p' = None) /\
      Z.of_nat (length c') = size /\ kept c c' /\ abs' = <[p' := c']> (delete p abs)
  | Strdup str _ _ => exists p, res = Some p /\ abs !! p = None /\ abs' = <[p := str ++ [0]]> abs
  | Free p => res = None /\ abs' = delete p abs
  | Claim p _ => res = Some p /\ abs' = abs
  | Write p o bytes => exists c, abs !! p = Some c /\ res = None /\ abs' = <[p := splice (Z.to_nat o) bytes c]> abs
  | CheckLeaks => res = None /\ abs' = abs
  end.

Lemma write_ok g abs p c o bytes : mem_ok g abs -> abs !! p = Some c -> 0 <= o -> o + Z.of_nat (length bytes) <= Z.of_nat (length c) ->
  exists h, store (memory g) (shift p o) bytes = Done h /\ mem_ok (set_memory g h) (<[p := splice (Z.to_nat o) bytes c]> abs).
Proof.
  intros H Hp Ho Hl. destruct (find_live g abs p c H Hp) as (i & _ & Hi & Ep & Ha). subst p. set (a := area_at g i) in *.
  destruct (ao_block _ _ _ _ Ha) as (slack & Hb & Hs). pose proof (ao_size _ _ _ _ Ha) as Hsz.
  set (c1 := take (Z.to_nat o) c). set (c2 := take (length bytes) (drop (Z.to_nat o) c)). set (c3 := drop (length bytes) (drop (Z.to_nat o) c)).
  assert (Ec : c = c1 ++ c2 ++ c3) by (unfold c1, c2, c3; by rewrite !take_drop).
  assert (L1 : length c1 = Z.to_nat o) by (unfold c1; rewrite length_take; lia).
  assert (L2 : length c2 = length bytes) by (unfold c2; rewrite length_take, length_drop; lia).
  set (c' := splice (Z.to_nat o) bytes c). assert (Ec' : c' = c1 ++ bytes ++ c3) by (unfold c'; rewrite Ec, <-L1; by apply splice_app).
  eexists. split.
  { rewrite (area_ptr_eq _ _ _ _ Ha). unfold shift. cbn [fst snd].
    apply (store_app _ _ (head_mark i ++ c1) c2 (c3 ++ tail_mark ++ slack)); [rewrite Hb; unfold block; rewrite Ec at 1; by rewrite <-!app_assoc| |done].
    rewrite length_app, L1. unfold MARKER_SIZE. change (length (head_mark i)) with 16%nat. lia. }
  set (h := <[_ := _]> _). change (area_ptr a) with (area_ptr a).
  assert (Eh : h !! base a = Some (block i c' slack)).
  { unfold h, base. rewrite lookup_insert_eq. unfold block. by rewrite Ec', <-!app_assoc. }
  eapply (replace_ok g (set_memory g h) abs i a c'); try done.
  - cbn. rewrite insert_id; [done|]. unfold a, area_at. destruct (allocated g !! i) as [x|] eqn:Ex; [done|].
    exfalso. unfold a, area_at in Hsz, Ha. rewrite Ex in Ha. pose proof (ao_positive _ _ _ _ Ha) as Hpos. cbn in Hpos. lia.
  - cbn [total_size set_memory]. fold a. lia.
  - split; try apply Ha; [by exists slack|]. rewrite Ec', <-Hsz, Ec, !length_app. lia.
Qed.

Lemma strdup_ok g abs str got loc : mem_ok g abs -> fair g abs (Strdup str got loc) ->
  exists p g', gw_check_strdup g str got loc = Done (p, g') /\ abs !! p = None /\ mem_ok g' (<[p := str ++ [0]]> abs).
Proof.
  intros H (Hs & Hmax & b & junk & -> & Hb & Hj). unfold gw_check_strdup. rewrite (mo_init _ _ H). cbn [gw_assert mbind outcome_bind].
  destruct (malloc_ok g abs (Z.of_nat (length str) + 1) b junk loc H ltac:(lia) Hmax Hb Hj) as (g1 & E & H1 & Hnew). rewrite E.
  cbn [mbind outcome_bind fst snd].
  destruct (write_ok g1 _ (b, MARKER_SIZE) _ 0 (str ++ [0]) H1 (lookup_insert_eq _ _ _)) as (h & E2 & H2);
    [lia|rewrite patt_length, length_app; simpl; lia|].
  change (shift (b, MARKER_SIZE) 0) with (b, MARKER_SIZE) in E2. rewrite E2. cbn [mbind outcome_bind].
  eexists _, _. split; [done|]. split; [done|]. rewrite insert_insert_eq in H2. unfold splice in H2. simpl take in H2. simpl app in H2.
  rewrite (drop_ge (patt _ _)) in H2 by (rewrite patt_length, length_app; simpl; lia). by rewrite app_nil_r in H2.
Qed.

Lemma claim_ok g abs p loc : mem_ok g abs -> is_Some (abs !! p) ->
  exists g', gw_check_claim_area g (Some p) loc = Done (Some p, g') /\ mem_ok g' abs.
Proof.
  intros H [c Hc]. destruct (find_live g abs p c H Hc) as (i & E & _). unfold gw_check_claim_area. rewrite E. cbn [must mbind outcome_bind].
  eexists. split; [done|]. by apply set_area_ok.
Qed.

Lemma free_ok g abs p : mem_ok g abs -> is_Some (abs !! p) ->
  exists g', gw_check_free g (Some p) = Done g' /\ mem_ok g' (delete p abs) /\
    exists j, 0 <= j < free_ring_len g' /\ area_ptr (ring_at g' j) = p.
Proof.
  intros H [c Hc]. destruct (find_live g abs p c H Hc) as (i & E & Hi & Ep & _). unfold gw_check_free. rewrite (mo_init _ _ H).
  cbn [gw_assert mbind outcome_bind]. rewrite E. cbn [must mbind outcome_bind].
  destruct (free_area_ok g abs i H Hi) as (g' & E' & H' & _ & Hj). rewrite Ep in H', Hj. by exists g'.
Qed.

(** ** Looking for leaks *)

Lemma drop_all_ok n : forall g k, 0 <= k -> k + Z.of_nat n < 2 ^ 63 ->
  (forall j, k <= j < k + Z.of_nat n -> area_ok (memory g) j (ring_at g j) (freed (ring_at g j))) ->
  (forall i j, k <= i < k + Z.of_nat n -> k <= j < k + Z.of_nat n -> base (ring_at g i) = base (ring_at g j) -> i = j) ->
  exists h, drop_all n g k = Done (set_memory g h) /\
    forall b, (forall j, k <= j < k + Z.of_nat n -> base (ring_at g j) <> b) -> h !! b = memory g !! b.
Proof.
  induction n as [|n IH]; intros g k Hk Hn Ha Hinj; simpl.
  { exists (memory g). split; [by destruct g|done]. }
  rewrite drop_area by (apply Ha || idtac; lia). cbn [mbind outcome_bind].
  destruct (IH (set_memory g (delete (base (ring_at g k)) (memory g))) (k + 1)) as (h & E & Hh); try lia.
  - intros j Hj. eapply area_frame; [|apply Ha; lia]. cbn [memory set_memory]. rewrite lookup_delete_ne; [done|].
    intros Eb. assert (k = j) by (apply Hinj; try lia; done). lia.
  - intros i j Hi Hj. apply Hinj; lia.
  - exists h. rewrite E. split; [done|]. intros b Hb. rewrite Hh by (intros j Hj; apply Hb; lia). cbn [memory set_memory].
    rewrite lookup_delete_ne; [done|]. apply Hb. lia.
Qed.

Lemma check_all_ok g n : forall k, 0 <= k -> k + Z.of_nat n < 2 ^ 63 ->
  (forall i, k <= i < k + Z.of_nat n -> exists c, area_ok (memory g) i (area_at g i) c) -> check_all n g k = Done tt.
Proof.
  induction n as [|n IH]; intros k Hk Hn Ha; simpl; [done|]. destruct (Ha k) as [c Hc]; [lia|].
  rewrite (check_marks_ok _ _ _ _ Hc) by lia. cbn [mbind outcome_bind]. apply IH; try lia. intros i Hi. apply Ha. lia.
Qed.

(** The ring is emptied; the sizes add up. *)
Lemma leaks_ok g abs : mem_ok g abs -> exists g', gw_check_check_leaks g = Done g' /\ mem_ok g' abs /\ free_ring_len g' = 0.
Proof.
  intros H. pose proof (mo_ring _ _ H) as R. pose proof (mo_entries _ _ H) as He. pose proof (ri_len _ R) as Hl. pose proof (mo_num _ _ H) as Hn.
  assert (Hmax : MAX_ALLOCATIONS < 2 ^ 62) by done. unfold FREE_RING_SIZE in Hl. unfold gw_check_check_leaks. rewrite (mo_init _ _ H). cbn [gw_assert mbind outcome_bind].
  destruct (drop_all_ok (Z.to_nat (free_ring_len g)) g 0) as (h & E & Hh); try lia.
  { intros j Hj. apply (ri_entry _ R). lia. }
  { intros i j Hi Hj. apply (ri_inj _ R); lia. }
  rewrite E. cbn [mbind outcome_bind]. set (g' := set_ring (set_memory g h) _ _ 0).
  assert (He' : entries_ok g' abs (in_table g)).
  { destruct He as [E1 E2 E3 E4]. split; try done; [|intros i j _ Hj; cbn in Hj; lia].
    intros i Hi. destruct (E1 i Hi) as (c & Hc & Ha). exists c. split; [done|]. eapply area_frame; [|exact Ha]. cbn [memory g' set_ring set_memory].
    apply Hh. intros j Hj Eb. apply (E4 i j Hi); [lia|done]. }
  assert (Et : sizes (Z.to_nat (num_allocations g)) g' 0 = total_size g).
  { rewrite (mo_total _ _ H). by apply sizes_ext. }
  change (num_allocations g') with (num_allocations g). rewrite Et. change (total_size g') with (total_size g).
  rewrite Z.eqb_refl. cbn [gw_assert mbind outcome_bind]. rewrite check_all_ok; try lia.
  2:{ intros i Hi. destruct (en_entry _ _ _ He' i) as (c & _ & Ha); [unfold in_table; lia|]. by exists c. }
  cbn [mbind outcome_bind]. exists g'. split; [done|]. split; [|done]. split; try done; [apply H|].
  destruct R as [R1 R2 R3 R4]. split; cbn [free_ring_len free_ring_start g' set_ring set_memory]; try lia; try done.
Qed.

(** ** The properties *)

Definition no_memory : GwMem := MkGwMem ∅ ∅ ∅ 0 0 0 0 0 0 false false.

Lemma init_mem_ok slow_flag : mem_ok (gw_check_init_mem no_memory slow_flag) ∅.
Proof.
  split; try done.
  - split; [intros i Hi; unfold in_table in Hi; cbn in Hi; lia|intros p [x Hx]; done|intros i j Hi; unfold in_table in Hi; cbn in Hi; lia|].
    intros i j Hi. unfold in_table in Hi. cbn in Hi. lia.
  - split; cbn; try done; [intros j Hj; lia|intros i j Hi; lia].
Qed.

(** C34 The checked memory implements a map from pointers to the contents of
    areas: for a program that uses only its own areas no request stops the
    process, new areas are filled with the pattern and apart from the others,
    [gw_check_realloc] keeps what fits, and every area has its size and what
    the program wrote last, whatever is moved inside the table.  The relation
    holds at the start ([init_mem_ok]) and after every request. *)
Theorem gwmem_refines g abs r : mem_ok g abs -> fair g abs r ->
  (exists res g' abs', perform g r = Done (res, g') /\ meaning abs r res abs' /\ mem_ok g' abs') /\
  (forall p c, abs !! p = Some c -> load (memory g) p (Z.of_nat (length c)) = Done c /\
     gw_check_area_size g p = Done (Z.of_nat (length c)) /\ gw_check_is_allocated g p = Done true).
Proof.
  intros H Hf. split; [|intros p c Hc].
  - destruct r; cbn [perform fair meaning] in *.
    + destruct Hf as (Hs & Hm & b & junk & -> & Hb & Hj). destruct (malloc_ok g abs size b junk loc H Hs Hm Hb Hj) as (g' & -> & H' & Hnew).
      eexists _, g', _. split; [done|]. split; [by eexists|done].
    + destruct Hf as ([c Hc] & H0 & Hs & Hm & b & junk & -> & Hb & Hj).
      destruct (realloc_ok g abs p c size b junk loc H Hc H0 Hs Hm Hb Hj) as (p' & c' & g' & -> & Lc & Hk & Hp' & H').
      eexists _, g', _. split; [done|]. split; [|exact H']. exists c, p', c'. by split_and!.
    + destruct (strdup_ok g abs str got loc H Hf) as (p & g' & -> & Hnew & H'). eexists _, g', _. split; [done|]. split; [by eexists|done].
    + destruct (free_ok g abs p H Hf) as (g' & -> & H' & _). eexists _, g', _. by split_and!.
    + destruct (claim_ok g abs p loc H Hf) as (g' & -> & H'). eexists _, g', _. by split_and!.
    + destruct Hf as (Ho & c & Hc & Hl). destruct (write_ok g abs p c o bytes H Hc Ho Hl) as (h & -> & H').
      eexists _, _, _. split; [done|]. split; [by eexists|done].
    + destruct (leaks_ok g abs H) as (g' & -> & H' & _). eexists _, g', _. by split_and!.
  - destruct (find_live g abs p c H Hc) as (i & E & Hi & Ep & Ha). unfold gw_check_area_size, gw_check_is_allocated. rewrite E.
    cbn [mbind outcome_bind]. rewrite (ao_size _ _ _ _ Ha). split_and!; [|done..].
    destruct (ao_block _ _ _ _ Ha) as (slack & Hb & _). rewrite <-Ep, (area_ptr_eq _ _ _ _ Ha).
    rewrite <-(ao_size _ _ _ _ Ha). by apply (load_app _ _ (head_mark i) c (tail_mark ++ slack)).
Qed.

(** C35 Freeing an area twice ends the process, while the area is in the
    ring: the pointer is not taken for that of an allocated area, although
    its markers are whole and its number is perhaps that of an entry of the
    table.  The same holds for a reallocation and a claim. *)
Theorem double_free_stops g abs p : mem_ok g abs -> is_Some (abs !! p) ->
  exists g', gw_check_free g (Some p) = Done g' /\ gw_check_is_allocated g' p = Done false /\
    gw_check_area_size g' p = Done (-1) /\ gw_check_free g' (Some p) = Panic /\
    (forall size got loc, gw_check_realloc g' (Some p) size got loc = Panic) /\
    (forall loc, gw_check_claim_area g' (Some p) loc = Panic).
Proof.
  intros H Hp. destruct (free_ok g abs p H Hp) as (g' & E & H' & j & Hj & <-). exists g'. split; [done|].
  pose proof (find_freed g' _ j H' Hj) as Ef. unfold gw_check_is_allocated, gw_check_area_size, gw_check_free, gw_check_realloc, gw_check_claim_area.
  rewrite Ef, (mo_init _ _ H'). split_and!; try done. intros size got loc. by destruct (0 <? size).
Qed.

(** ** A program that makes both *)

Definition started : GwMem := gw_check_init_mem no_memory false.
Definition four : request := Malloc 4 (Some (4096, replicate 36 7)) (MkLocation 1 10 2).

Lemma four_fair : fair started ∅ four.
Proof. split_and!; try done. by exists 4096, (replicate 36 7). Qed.

Lemma gwmem_refines_witness : mem_ok started ∅ /\ fair started ∅ four /\
  (exists res g' abs', perform started four = Done (res, g') /\ meaning ∅ four res abs' /\ mem_ok g' abs').
Proof.
  split; [apply init_mem_ok|]. split; [apply four_fair|].
  apply (gwmem_refines started ∅ four (init_mem_ok false) four_fair).
Defined.

Definition lent : GwMem := match perform started four with Done (_, g) => g | Panic => no_memory end.
Definition lent_areas : gmap ptr (list Z) := <[(4096, 16) := patt 4 NEW_AREA_PATTERN]> ∅.

Lemma lent_ok : mem_ok lent lent_areas.
Proof.
  destruct (malloc_ok started ∅ 4 4096 (replicate 36 7) (MkLocation 1 10 2) (init_mem_ok false)) as (g & E & H & _); try done.
  unfold lent, four, perform. rewrite E. exact H.
Qed.

Lemma double_free_stops_witness : mem_ok lent lent_areas /\
  exists g', gw_check_free lent (Some (4096, 16)) = Done g' /\ gw_check_is_allocated g' (4096, 16) = Done false /\
    gw_check_area_size g' (4096, 16) = Done (-1) /\ gw_check_free g' (Some (4096, 16)) = Panic /\
    (forall size got loc, gw_check_realloc g' (Some (4096, 16)) size got loc = Panic) /\
    (forall loc, gw_check_claim_area g' (Some (4096, 16)) loc = Panic).
Proof.
  split; [apply lent_ok|]. apply (double_free_stops lent lent_areas); [apply lent_ok|]. by eexists.
Defined.

(** The area grows into a new block: the place of the reallocation is
    written behind the table, so that the entry has none. *)
Example regrown_by_nobody :
  match perform lent (Realloc (4096, 16) 40 (Some (8192, replicate 128 0)) (MkLocation 1 20 3)) with
  | Done (res, g) => res = Some (8192, 16) /\ num_allocations g = 1 /\
      reallocator (area_at g 0) = no_location /\ reallocator (area_at g 1) = MkLocation 1 20 3
  | Panic => False
  end.
Proof. vm_compute. done. Qed.

(** Without a new block the entry gets it. *)
Example shrunk_by_somebody :
  match perform lent (Realloc (4096, 16) 3 None (MkLocation 1 20 3)) with
  | Done (res, g) => res = Some (4096, 16) /\ reallocator (area_at g 0) = MkLocation 1 20 3
  | Panic => False
  end.
Proof. vm_compute. done. Qed.
