(* ===== verification/Charset.v ===== *)
(** * Character set conversion (gwlib/charset.c)

    The conversions between ISO Latin-1 and the GSM default alphabet work in
    place on an octet string: a loop over the positions deletes, inserts and
    overwrites octets while it keeps [pos] and [len].  The definitions follow
    these loops; [gsm_encode] and [gsm_decode] are what the loops compute, as
    functions on lists.  The conversions that call libxml and iconv are not
    modelled. *)

From S2P Require Import Prelude Gwlib.
Open Scope Z_scope.

(** ** Tables *)

Definition NRP : Z := 63.

Definition gsm_to_latin1 : list Z :=
  [64; 163; 36; 165; 232; 233; 249; 236; 242; 199; 10; 216; 248; 13; 197; 229;
   63; 95; 63; 63; 63; 63; 63; 63; 63; 63; 63; 32; 198; 230; 223; 201;
   32; 33; 34; 35; 164; 37; 38; 39; 40; 41; 42; 43; 44; 45; 46; 47;
   48; 49; 50; 51; 52; 53; 54; 55; 56; 57; 58; 59; 60; 61; 62; 63;
   161; 65; 66; 67; 68; 69; 70; 71; 72; 73; 74; 75; 76; 77; 78; 79;
   80; 81; 82; 83; 84; 85; 86; 87; 88; 89; 90; 196; 214; 209; 220; 167;
   191; 97; 98; 99; 100; 101; 102; 103; 104; 105; 106; 107; 108; 109; 110; 111;
   112; 113; 114; 115; 116; 117; 118; 119; 120; 121; 122; 228; 246; 241; 252; 224].

(** Pairs [gsmesc], [latin1], up to the end mark -1. *)
Definition gsm_escapes : list (Z * Z) :=
  [(10, 12); (20, 94); (40, 123); (41, 125); (47, 92); (60, 91); (61, 126); (62, 93);
   (64, 124); (101, 128)].

(** Negative entries are escaped: ESC followed by the absolute value. *)
Definition latin1_to_gsm : list Z :=
  [63; 63; 63; 63; 63; 63; 63; 63; 63; 32; 10; 63; -10; 13; 63; 63;
   16; 63; 18; 19; 20; 21; 22; 23; 24; 25; 26; 63; 63; 63; 63; 63;
   32; 33; 34; 35; 2; 37; 38; 39; 40; 41; 42; 43; 44; 45; 46; 47;
   48; 49; 50; 51; 52; 53; 54; 55; 56; 57; 58; 59; 60; 61; 62; 63;
   0; 65; 66; 67; 68; 69; 70; 71; 72; 73; 74; 75; 76; 77; 78; 79;
   80; 81; 82; 83; 84; 85; 86; 87; 88; 89; 90; -60; -47; -62; -20; 17;
   63; 97; 98; 99; 100; 101; 102; 103; 104; 105; 106; 107; 108; 109; 110; 111;
   112; 113; 114; 115; 116; 117; 118; 119; 120; 121; 122; -40; -64; -41; -61; 63;
   -101; 63; 63; 63; 63; 63; 63; 63; 63; 63; 63; 63; 63; 63; 63; 63;
   63; 63; 63; 63; 63; 63; 63; 63; 63; 63; 63; 63; 63; 63; 63; 63;
   32; 64; 99; 1; 36; 3; 64; 95; 34; 67; 97; 60; 33; 45; 82; 45;
   111; 63; 50; 51; 39; 117; 63; 46; 44; 105; 111; 62; 63; 63; 63; 96;
   65; 65; 65; 65; 91; 14; 28; 9; 69; 31; 69; 69; 73; 73; 73; 73;
   63; 93; 79; 79; 79; 79; 92; 120; 11; 85; 85; 85; 94; 89; 63; 30;
   127; 97; 97; 97; 123; 15; 29; 99; 4; 5; 101; 101; 7; 105; 105; 105;
   63; 125; 8; 111; 111; 111; 124; 63; 12; 6; 117; 117; 126; 121; 63; 121].

(** [t[i]] in C: undefined outside of the array. *)
Definition array_get (t : list Z) (i : Z) : outcome Z :=
  if i <? 0 then Panic else must (t !! Z.to_nat i).

Section Definitions.
Context {O : OctstrLib}.

(** ** GSM to Latin-1 *)

(** The search loop through [gsm_escapes]. *)
Fixpoint escape_lookup (c : Z) (t : list (Z * Z)) : option Z :=
  match t with
  | [] => None
  | (e, l) :: t => if e =? c then Some l else escape_lookup c t
  end.

(** The value [new] for the character at the current position, [None] where
    the code says [continue]. *)
Definition gsm_plain (c : Z) : outcome (option Z) :=
  if c <? 128 then Some <$> array_get gsm_to_latin1 c else Done None.

Definition gsm_escaped (c : Z) : outcome (option Z) :=
  match escape_lookup c gsm_escapes with
  | Some l => Done (Some l)
  | None => gsm_plain c
  end.

(** [if (new != c) octstr_set_char(ostr, pos, new)]. *)
Definition store_char (o : octstr) (pos : nat) (c : Z) (new : option Z) : octstr :=
  match new with
  | None => o
  | Some new => if new =? c then o else octstr_set_char o (Z.of_nat pos) new
  end.

Fixpoint gsm_to_latin1_loop (fuel pos len : nat) (o : octstr) : outcome octstr :=
  match fuel with
  | 0%nat => Done o
  | S fuel =>
      if (pos <? len)%nat then
        let c := octstr_get_char o (Z.of_nat pos) in
        if (c =? 27) && (pos + 1 <? len)%nat then
          let o := octstr_delete o (Z.of_nat pos) (Z.of_nat 1) in
          let len := (len - 1)%nat in
          let c := octstr_get_char o (Z.of_nat pos) in
          new ← gsm_escaped c;
          gsm_to_latin1_loop fuel (pos + 1) len (store_char o pos c new)
        else
          new ← gsm_plain c;
          gsm_to_latin1_loop fuel (pos + 1) len (store_char o pos c new)
      else Done o
  end.

(** One position per turn: [len] turns are enough. *)
Definition charset_gsm_to_latin1 (o : octstr) : outcome octstr :=
  let len := Z.to_nat (octstr_len o) in gsm_to_latin1_loop len 0 len o.

(** ** Latin-1 to GSM *)

(** The loop of [charset_latin1_to_gsm] and [charset_latin1_to_gsm_new],
    which differ in the first position only. *)
Fixpoint latin1_to_gsm_loop (fuel pos len : nat) (o : octstr) : outcome octstr :=
  match fuel with
  | 0%nat => Done o
  | S fuel =>
      if (pos <? len)%nat then
        let c := octstr_get_char o (Z.of_nat pos) in
        _ ← gw_assert (0 <=? c);
        _ ← gw_assert (c <=? 256);
        new ← array_get latin1_to_gsm c;
        if new <? 0 then
          let o := octstr_insert_data o (Z.of_nat pos) [27] in
          latin1_to_gsm_loop fuel (pos + 2) (len + 1) (store_char o (pos + 1) c (Some (- new)))
        else
          latin1_to_gsm_loop fuel (pos + 1) len (store_char o pos c (Some new))
      else Done o
  end.

Definition charset_latin1_to_gsm (o : octstr) : outcome octstr :=
  let len := Z.to_nat (octstr_len o) in latin1_to_gsm_loop len 0 len o.

(** The first octet is the length of a user data header, which is skipped;
    for an empty string it is -1, stored in an [unsigned short]. *)
Definition charset_latin1_to_gsm_new (o : octstr) : outcome octstr :=
  let len := Z.to_nat (octstr_len o) in
  let ushUdhLength := wrap_ushort (octstr_get_char o (Z.of_nat 0)) in
  latin1_to_gsm_loop len (Z.to_nat (ushUdhLength + 1)) len o.

(** ** National representation (ISO 21 German) *)

Definition gsm_to_nrc_char (c : Z) : Z :=
  if c =? 0x5e then 0x5d else if c =? 0x7e then 0x7d else
  if c =? 0x1e then 0x7e else if c =? 0x5f then 0x5e else c.

Definition nrc_to_gsm_char (c : Z) : Z :=
  if c =? 0x5d then 0x5e else if c =? 0x7d then 0x7e else
  if c =? 0x7e then 0x1e else if c =? 0x5e then 0x5f else c.

(** [for (pos = 0; pos < len; pos++)] with a table of single characters. *)
Fixpoint map_chars_loop (f : Z -> Z) (fuel pos len : nat) (o : octstr) : octstr :=
  match fuel with
  | 0%nat => o
  | S fuel =>
      if (pos <? len)%nat then
        let c := octstr_get_char o (Z.of_nat pos) in
        map_chars_loop f fuel (pos + 1) len (store_char o pos c (Some (f c)))
      else o
  end.

Definition charset_gsm_to_nrc_iso_21_german (o : octstr) : octstr :=
  let len := Z.to_nat (octstr_len o) in map_chars_loop gsm_to_nrc_char len 0 len o.

Definition charset_nrc_iso_21_german_to_gsm (o : octstr) : octstr :=
  let len := Z.to_nat (octstr_len o) in map_chars_loop nrc_to_gsm_char len 0 len o.

(** ** Truncation ([octstr_truncate] requires a non-negative length) *)

Definition charset_gsm_truncate (gsm : octstr) (max : nat) : Z * octstr :=
  if Z.of_nat max <? octstr_len gsm then
    if octstr_get_char gsm (Z.of_nat max - 1) =? 27
    then (1, octstr_truncate gsm (Z.of_nat (max - 1)))
    else (1, octstr_truncate gsm (Z.of_nat max))
  else (0, gsm).

End Definitions.

(** ** What the loops compute *)

Definition plain_value (c : Z) : Z :=
  if c <? 128 then default 0 (gsm_to_latin1 !! Z.to_nat c) else c.

Definition escaped_value (c : Z) : Z := default (plain_value c) (escape_lookup c gsm_escapes).

Fixpoint gsm_decode (l : list Z) : list Z :=
  match l with
  | [] => []
  | c :: l' =>
      if c =? 27 then
        match l' with
        | [] => [plain_value c]
        | c' :: l'' => escaped_value c' :: gsm_decode l''
        end
      else plain_value c :: gsm_decode l'
  end.

Definition gsm_encode_char (c : Z) : list Z :=
  let new := default 0 (latin1_to_gsm !! Z.to_nat c) in
  if new <? 0 then [27; - new] else [new].

Definition gsm_encode (l : list Z) : list Z := l ≫= gsm_encode_char.

(** The characters that survive the way to GSM and back. *)
Definition representable (c : Z) : bool := bool_decide (gsm_decode (gsm_encode_char c) = [c]).

Definition octet (c : Z) : Prop := 0 <= c < 256.

(** ** Facts about the tables, by evaluation *)

Definition octet_list : list Z := Z.of_nat <$> seq 0 256.

Lemma octet_in_list c : octet c -> c ∈ octet_list.
Proof.
  intros Hc. apply list_elem_of_fmap. exists (Z.to_nat c).
  rewrite elem_of_seq. unfold octet in Hc. lia.
Qed.

(** A boolean test that holds of the 256 octets holds of every octet. *)
Lemma forall_octets (P : Z -> bool) : forallb P octet_list = true -> forall c, octet c -> P c = true.
Proof.
  intros H c Hc. rewrite forallb_forall in H. apply H.
  rewrite <-list_elem_of_In. by apply octet_in_list.
Qed.

Definition small (z : Z) : bool := (0 <=? z) && (z <? 256).

Lemma small_octet z : small z = true -> octet z.
Proof. unfold small, octet. intros. zlia. Qed.

(** Every entry of [latin1_to_gsm] is an octet other than ESC, or the
    negation of one. *)
Lemma latin1_entry c :
  octet c -> exists v, latin1_to_gsm !! Z.to_nat c = Some v /\ v <> 27 /\ v <> -27 /\ octet (Z.abs v).
Proof.
  intros Hc.
  assert (H : (if latin1_to_gsm !! Z.to_nat c is Some v
               then negb (v =? 27) && negb (v =? -27) && small (Z.abs v) else false) = true).
  { revert c Hc. apply forall_octets. vm_compute. reflexivity. }
  destruct (latin1_to_gsm !! _) as [v|]; [|done]. zbool.
  exists v. split_and!; [done..|]. by apply small_octet.
Qed.

Lemma plain_value_entry c :
  octet c -> gsm_plain c = Done (if c <? 128 then Some (plain_value c) else None) /\
             octet (plain_value c).
Proof.
  intros Hc.
  assert (H : small (plain_value c) && bool_decide (gsm_plain c =
    Done (if c <? 128 then Some (plain_value c) else None)) = true).
  { revert c Hc. apply forall_octets. vm_compute. reflexivity. }
  zbool. split; [done|]. by apply small_octet.
Qed.

Lemma escaped_value_entry c :
  octet c -> octet (escaped_value c) /\
  exists new, gsm_escaped c = Done new /\ default c new = escaped_value c.
Proof.
  intros Hc.
  assert (H : small (escaped_value c) &&
    (if gsm_escaped c is Done new then default c new =? escaped_value c else false) = true).
  { revert c Hc. apply forall_octets. vm_compute. reflexivity. }
  zbool. split; [by apply small_octet|]. destruct (gsm_escaped c); [|done]. zbool. eauto.
Qed.

(** ** The loops compute [gsm_encode] and [gsm_decode] *)

Section Proofs.
Context {O : OctstrLib} {OL : OctstrLaws O}.

Lemma octet_at (o : octstr) l c r : octets o = l ++ c :: r -> octet c.
Proof.
  intros E. pose proof (octets_range o) as H. rewrite E in H.
  by apply Forall_app in H as [_ [? _]%Forall_cons].
Qed.

Lemma get_char_at (o : octstr) l c r pos :
  octets o = l ++ c :: r -> pos = length l -> octstr_get_char o (Z.of_nat pos) = c.
Proof. intros E ->. by rewrite octstr_get_char_spec, E, list_lookup_middle. Qed.

(** Overwriting the current character, when [new] may be stored. *)
Lemma store_char_at (o : octstr) l c r pos new :
  octets o = l ++ c :: r -> pos = length l -> octet (default c new) ->
  octets (store_char o pos c new) = l ++ default c new :: r.
Proof.
  intros E -> Hn. unfold store_char. destruct new as [v|]; simpl in *; [|done].
  destruct (Z.eqb_spec v c) as [->|]; [done|].
  by rewrite octstr_set_char_spec, E, insert_app_r_alt, Nat.sub_diag by (done || lia).
Qed.

Lemma latin1_to_gsm_loop_spec l r : forall fuel (o : octstr),
  octets o = l ++ r -> (length r <= fuel)%nat ->
  exists o', latin1_to_gsm_loop fuel (length l) (length (l ++ r)) o = Done o' /\
    octets o' = l ++ gsm_encode r.
Proof.
  revert l. induction r as [|c r IH]; intros l fuel o E Hf.
  - exists o. split; [|by rewrite E]. destruct fuel; simpl; [done|].
    rewrite app_nil_r. by rewrite (proj2 (Nat.ltb_ge _ _)) by lia.
  - destruct fuel as [|fuel]; simpl in Hf; [lia|]. simpl.
    rewrite (proj2 (Nat.ltb_lt _ _)) by (rewrite length_app; simpl; lia).
    rewrite (get_char_at o l c r) by done. pose proof (octet_at o l c r E) as Hc.
    destruct (latin1_entry c Hc) as (v & Hv & _ & _ & Ho).
    unfold octet in Hc. rewrite !(proj2 (Z.leb_le _ _)) by lia. simpl.
    unfold array_get. rewrite (proj2 (Z.ltb_ge _ _)) by lia. rewrite Hv. simpl.
    unfold gsm_encode. csimpl. unfold gsm_encode_char at 1. rewrite Hv. simpl.
    destruct (Z.ltb_spec v 0).
    + set (o1 := octstr_insert_data o _ _).
      assert (E1 : octets o1 = (l ++ [27]) ++ c :: r).
      { unfold o1. rewrite octstr_insert_data_spec, E by
          (rewrite ?E, ?length_app; repeat constructor; lia).
        by rewrite take_app_length, drop_app_length, <-app_assoc. }
      assert (E2 : octets (store_char o1 (length l + 1) c (Some (- v))) = (l ++ [27; - v]) ++ r).
      { rewrite (store_char_at o1 (l ++ [27]) c r) by
          (rewrite ?length_app; done || (simpl; unfold octet in *; lia)).
        by rewrite <-!app_assoc. }
      destruct (IH (l ++ [27; - v]) fuel _ E2 ltac:(lia)) as (o' & Hl & Ho').
      exists o'. split; [|by rewrite Ho', <-app_assoc].
      rewrite <-Hl. f_equal; rewrite !length_app; simpl; lia.
    + assert (E2 : octets (store_char o (length l) c (Some v)) = (l ++ [v]) ++ r).
      { rewrite (store_char_at o l c r) by (done || (simpl; unfold octet in *; lia)).
        by rewrite <-app_assoc. }
      destruct (IH (l ++ [v]) fuel _ E2 ltac:(lia)) as (o' & Hl & Ho').
      exists o'. split; [|by rewrite Ho', <-app_assoc].
      rewrite <-Hl. f_equal; rewrite !length_app; simpl; lia.
Qed.

Lemma gsm_to_latin1_loop_spec : forall fuel l r (o : octstr),
  octets o = l ++ r -> (length r <= fuel)%nat ->
  exists o', gsm_to_latin1_loop fuel (length l) (length (l ++ r)) o = Done o' /\
    octets o' = l ++ gsm_decode r.
Proof.
  induction fuel as [|fuel IH]; intros l r o E Hf.
  { destruct r; simpl in Hf; [|lia]. exists o. by rewrite E. }
  destruct r as [|c r]; simpl.
  { rewrite app_nil_r in E |- *. rewrite (proj2 (Nat.ltb_ge _ _)) by lia. by exists o. }
  simpl in Hf. rewrite (proj2 (Nat.ltb_lt _ _)) by (rewrite length_app; simpl; lia).
  rewrite (get_char_at o l c r) by done. pose proof (octet_at o l c r E) as Hc.
  assert (Hplain : exists o', (new ← gsm_plain c;
      gsm_to_latin1_loop fuel (length l + 1) (length (l ++ c :: r)) (store_char o (length l) c new))
      = Done o' /\ octets o' = l ++ plain_value c :: gsm_decode r).
  { destruct (plain_value_entry c Hc) as [-> Ho]. simpl.
    set (new := if c <? 128 then _ else _).
    assert (Hnew : default c new = plain_value c).
    { unfold new, plain_value. by destruct (c <? 128). }
    destruct (IH (l ++ [plain_value c]) r (store_char o (length l) c new)) as (o' & Hl & Ho').
    - rewrite (store_char_at o l c r), Hnew, <-app_assoc by (rewrite ?Hnew; done). done.
    - lia.
    - exists o'. split; [|by rewrite Ho', <-app_assoc].
      rewrite <-Hl. f_equal; rewrite !length_app; simpl; lia. }
  destruct (Z.eqb_spec c 27) as [->|Hne]; simpl; [|exact Hplain].
  destruct r as [|c' r].
  { rewrite (proj2 (Nat.ltb_ge _ _)) by (rewrite length_app; simpl; lia). exact Hplain. }
  clear Hplain. rewrite (proj2 (Nat.ltb_lt _ _)) by (rewrite length_app; simpl; lia).
  set (o1 := octstr_delete o _ _).
  assert (E1 : octets o1 = l ++ c' :: r).
  { unfold o1. change 1 with (Z.of_nat 1). rewrite octstr_delete_spec, E.
    rewrite take_app_length. f_equal. by rewrite drop_app_add. }
  rewrite (get_char_at o1 l c' r) by done. pose proof (octet_at o1 l c' r E1) as Hc'.
  destruct (escaped_value_entry c' Hc') as [Ho (new & -> & Hnew)]. simpl.
  destruct (IH (l ++ [escaped_value c']) r (store_char o1 (length l) c' new)) as (o' & Hl & Ho').
  - rewrite (store_char_at o1 l c' r), Hnew, <-app_assoc by (rewrite ?Hnew; done). done.
  - simpl in Hf. lia.
  - exists o'. split; [|by rewrite Ho', <-app_assoc].
    rewrite <-Hl. f_equal; rewrite !length_app; simpl; lia.
Qed.

Lemma map_chars_loop_spec f (Hf : forall c, octet c -> octet (f c)) r : forall l fuel (o : octstr),
  octets o = l ++ r -> (length r <= fuel)%nat ->
  octets (map_chars_loop f fuel (length l) (length (l ++ r)) o) = l ++ (f <$> r).
Proof.
  induction r as [|c r IH]; intros l fuel o E Hfuel.
  { destruct fuel; simpl; [by rewrite E|].
    by rewrite app_nil_r, (proj2 (Nat.ltb_ge _ _)), E, app_nil_r by lia. }
  destruct fuel as [|fuel]; simpl in Hfuel; [lia|]. simpl.
  rewrite (proj2 (Nat.ltb_lt _ _)) by (rewrite length_app; simpl; lia).
  rewrite (get_char_at o l c r) by done. pose proof (octet_at o l c r E) as Hc.
  specialize (IH (l ++ [f c]) fuel (store_char o (length l) c (Some (f c)))).
  transitivity ((l ++ [f c]) ++ (f <$> r)); [|by rewrite <-app_assoc].
  rewrite <-IH; [|..|lia].
  - f_equal. f_equal; rewrite !length_app; simpl; lia.
  - rewrite (store_char_at o l c r), <-app_assoc by (simpl; eauto). done.
Qed.

(** The whole conversions, as functions on the octets. *)
Lemma charset_latin1_to_gsm_spec (o : octstr) :
  exists o', charset_latin1_to_gsm o = Done o' /\ octets o' = gsm_encode (octets o).
Proof.
  unfold charset_latin1_to_gsm. rewrite octstr_len_spec, Nat2Z.id.
  exact (latin1_to_gsm_loop_spec [] (octets o) _ o eq_refl (Nat.le_refl _)).
Qed.

Lemma charset_gsm_to_latin1_spec (o : octstr) :
  exists o', charset_gsm_to_latin1 o = Done o' /\ octets o' = gsm_decode (octets o).
Proof.
  unfold charset_gsm_to_latin1. rewrite octstr_len_spec, Nat2Z.id.
  exact (gsm_to_latin1_loop_spec _ [] (octets o) o eq_refl (Nat.le_refl _)).
Qed.

(** Decoding what was encoded, character by character. *)
Lemma gsm_decode_encode_char c l :
  octet c -> gsm_decode (gsm_encode_char c ++ l) = gsm_decode (gsm_encode_char c) ++ gsm_decode l.
Proof.
  intros Hc. destruct (latin1_entry c Hc) as (v & Hv & H27 & H27' & _).
  unfold gsm_encode_char. rewrite Hv. simpl. destruct (v <? 0); simpl; [done|].
  by rewrite (proj2 (Z.eqb_neq v 27)).
Qed.

Lemma gsm_decode_encode l :
  Forall octet l -> gsm_decode (gsm_encode l) = l ≫= (fun c => gsm_decode (gsm_encode_char c)).
Proof.
  induction 1 as [|c l Hc Hl IH]; [done|]. unfold gsm_encode in *. csimpl.
  by rewrite gsm_decode_encode_char, IH.
Qed.

Lemma gsm_encode_block c :
  octet c ->
  (exists v, gsm_encode_char c = [v] /\ v <> 27) \/ (exists w, gsm_encode_char c = [27; w] /\ w <> 27).
Proof.
  intros Hc. destruct (latin1_entry c Hc) as (v & Hv & H27 & H27' & _).
  unfold gsm_encode_char. rewrite Hv. simpl. destruct (v <? 0).
  - right. exists (- v). split; [done|lia].
  - left. by exists v.
Qed.

(** Cutting an encoded string: either between two characters, or just after
    the ESC of a pair. *)
Definition clean_cut (l : list Z) (k : nat) : Prop :=
  exists j,
    (gsm_encode (take j l) = take k (gsm_encode l) /\
     (k = 0%nat \/ gsm_encode l !! (k - 1)%nat <> Some 27)) \/
    (gsm_encode (take j l) = take (k - 1) (gsm_encode l) /\
     (0 < k)%nat /\ gsm_encode l !! (k - 1)%nat = Some 27).

(** A cut inside the tail is a cut of the whole. *)
Lemma clean_cut_cons c l k :
  (0 < k)%nat -> clean_cut l k -> clean_cut (c :: l) (length (gsm_encode_char c) + k).
Proof.
  intros Hk (j & [[E [->|Hn]]|(E & _ & Hn)]); [lia|..]; exists (S j);
    unfold gsm_encode in *; csimpl.
  - left. rewrite take_app_add, E, lookup_app_r by lia. split; [done|]. right.
    by replace (length (gsm_encode_char c) + k - 1 - length (gsm_encode_char c))%nat
      with (k - 1)%nat by lia.
  - right. rewrite lookup_app_r by lia.
    replace (length (gsm_encode_char c) + k - 1)%nat
      with (length (gsm_encode_char c) + (k - 1))%nat by lia.
    rewrite take_app_add, E. split; [done|]. split; [lia|].
    by replace (length (gsm_encode_char c) + (k - 1) - length (gsm_encode_char c))%nat
      with (k - 1)%nat by lia.
Qed.

Lemma gsm_encode_cut l k : Forall octet l -> (k <= length (gsm_encode l))%nat -> clean_cut l k.
Proof.
  intros Hl. revert k. induction Hl as [|c l Hc Hl IH]; intros k Hk.
  { exists 0%nat. left. destruct k; simpl in *; [auto|lia]. }
  unfold gsm_encode in Hk. csimpl in Hk. fold (gsm_encode l) in Hk. rewrite length_app in Hk.
  destruct (decide (length (gsm_encode_char c) < k)%nat) as [Hlt|Hge].
  { replace k with (length (gsm_encode_char c) + (k - length (gsm_encode_char c)))%nat by lia.
    apply clean_cut_cons; [lia|]. apply IH. lia. }
  destruct k as [|k]; [exists 0%nat; left; auto|].
  destruct (gsm_encode_block c Hc) as [(v & E & Hv)|(w & E & Hw)];
    unfold clean_cut, gsm_encode; csimpl; rewrite E in *; simpl in Hge.
  - assert (k = 0%nat) as -> by lia. exists 1%nat. left. csimpl. rewrite E. simpl.
    split; [done|]. right. congruence.
  - destruct k as [|k].
    + exists 0%nat. right. simpl. split_and!; [done|lia|done].
    + assert (k = 0%nat) as -> by lia. exists 1%nat. left. csimpl. rewrite E. simpl.
      split; [done|]. right. congruence.
Qed.

Lemma charset_latin1_to_gsm_new_spec (o : octstr) :
  exists o', charset_latin1_to_gsm_new o = Done o' /\
     octets o' = match octets o with
                 | [] => []
                 | u :: _ => take (Z.to_nat u + 1) (octets o) ++
                             gsm_encode (drop (Z.to_nat u + 1) (octets o))
                 end.
Proof.
  unfold charset_latin1_to_gsm_new. rewrite octstr_len_spec, Nat2Z.id, octstr_get_char_spec.
  destruct (octets o) as [|u l] eqn:E; [exists o; by rewrite E|].
  pose proof (octet_at o [] u l E) as Hu. simpl default. unfold wrap_ushort.
  rewrite Z.mod_small by (unfold octet in Hu; lia).
  replace (Z.to_nat (u + 1)) with (Z.to_nat u + 1)%nat by (unfold octet in Hu; lia).
  set (k := (Z.to_nat u + 1)%nat). rewrite <-E.
  destruct (decide (k <= length (octets o))%nat) as [Hk|Hk].
  - destruct (latin1_to_gsm_loop_spec (take k (octets o)) (drop k (octets o))
      (length (octets o)) o) as (o' & Hl & Ho'); [by rewrite take_drop|rewrite length_drop; lia|].
    rewrite take_drop, length_take, Nat.min_l in Hl by done. eauto.
  - exists o. rewrite take_ge, drop_ge by lia. unfold gsm_encode. csimpl. rewrite app_nil_r.
    split; [|done]. destruct (length (octets o)); simpl; [done|].
    by rewrite (proj2 (Nat.ltb_ge k _)) by lia.
Qed.

(** C39 [charset_latin1_to_gsm] and [charset_latin1_to_gsm_new] never fail an
    assertion or read outside of the table, and they compute the
    character-wise encoding; the second leaves the user data header, whose
    length is the first octet, as it is. *)
Theorem latin1_to_gsm_correct (o : octstr) :
  (exists o', charset_latin1_to_gsm o = Done o' /\ octets o' = gsm_encode (octets o)) /\
  (exists o', charset_latin1_to_gsm_new o = Done o' /\
     octets o' = match octets o with
                 | [] => []
                 | u :: _ => take (Z.to_nat u + 1) (octets o) ++
                             gsm_encode (drop (Z.to_nat u + 1) (octets o))
                 end).
Proof. split; [apply charset_latin1_to_gsm_spec|apply charset_latin1_to_gsm_new_spec]. Qed.

(** Text written in representable Latin-1 characters survives the
    conversion to the GSM alphabet and back, ESC sequences included; every
    printable ASCII character but the backquote is representable. *)
Lemma latin1_gsm_roundtrip (o : octstr)
    (Hr : Forall (fun c => representable c = true) (octets o)) :
  (exists o1 o2, charset_latin1_to_gsm o = Done o1 /\ charset_gsm_to_latin1 o1 = Done o2 /\
     octets o2 = octets o) /\
  (forall c, 32 <= c < 127 -> c <> 96 -> representable c = true).
Proof.
  split.
  - destruct (charset_latin1_to_gsm_spec o) as (o1 & E1 & H1).
    destruct (charset_gsm_to_latin1_spec o1) as (o2 & E2 & H2).
    exists o1, o2. split_and!; [done..|]. rewrite H2, H1, gsm_decode_encode by apply octets_range.
    clear -Hr. induction Hr as [|c l Hc Hl IH]; csimpl; [done|].
    apply bool_decide_eq_true_1 in Hc. by rewrite Hc, IH.
  - intros c Hc Hne.
    assert (H : (if (32 <=? c) && (c <? 127) && negb (c =? 96) then representable c else true) = true).
    { assert (octet c) as Ho by (unfold octet; lia). revert c Ho Hc Hne. clear.
      intros c Ho _ _. revert c Ho. apply forall_octets. vm_compute. reflexivity. }
    rewrite (proj2 (Z.leb_le _ _)), (proj2 (Z.ltb_lt _ _)), (proj2 (Z.eqb_neq _ _)) in H by lia.
    exact H.
Qed.

(** Truncating a GSM string never leaves half of an escape sequence: the
    octets kept are the encoding of a prefix of the text, and they fit. *)
Lemma gsm_truncate_whole_chars (gsm : octstr) (text : list Z) (max : nat)
    (Ht : Forall octet text) (Hg : octets gsm = gsm_encode text) :
  exists j, octets (charset_gsm_truncate gsm max).2 = gsm_encode (take j text) /\
    (length (octets (charset_gsm_truncate gsm max).2) <= max)%nat /\
    ((charset_gsm_truncate gsm max).1 = 0 -> octets (charset_gsm_truncate gsm max).2 = gsm_encode text).
Proof.
  unfold charset_gsm_truncate. rewrite octstr_len_spec.
  destruct (Z.ltb_spec (Z.of_nat max) (Z.of_nat (length (octets gsm)))) as [Hlt|Hge].
  2:{ exists (length text). simpl. rewrite Hg, firstn_all in *. split_and!; [done|lia|done]. }
  assert (Hlen : (max <= length (gsm_encode text))%nat) by (rewrite <-Hg; lia).
  destruct (gsm_encode_cut text max Ht Hlen) as (j & Hj). exists j.
  destruct max as [|max].
  - rewrite octstr_get_char_neg by lia. simpl. rewrite (octstr_truncate_spec gsm 0).
    destruct Hj as [[E _]|(E & ? & _)]; [|lia]. rewrite E. simpl. split_and!; [done|lia|done].
  - replace (Z.of_nat (S max) - 1) with (Z.of_nat max) by lia.
    rewrite octstr_get_char_spec, Hg. rewrite Nat.sub_succ, Nat.sub_0_r in *.
    destruct (lookup_lt_is_Some_2 (gsm_encode text) max ltac:(lia)) as [c Hc].
    rewrite Hc in *. simpl.
    destruct (Z.eqb_spec c 27) as [->|Hne]; simpl.
    + destruct Hj as [[E [|]]|(E & ? & _)]; [done|done|].
      rewrite octstr_truncate_spec, Hg, E, length_take. split_and!; [done|lia|done].
    + destruct Hj as [[E _]|(E & ? & ?)]; [|congruence].
      rewrite (octstr_truncate_spec gsm (S max)), Hg, E, length_take. split_and!; [done|lia|done].
Qed.

(** The German national alphabet: converting to it and back restores
    every character except 0x5d and 0x7d, whose GSM codes it does not keep
    apart from 0x5e and 0x7e. *)
Theorem nrc_german_roundtrip (o : octstr) :
  octets (charset_nrc_iso_21_german_to_gsm (charset_gsm_to_nrc_iso_21_german o))
  = (fun c => nrc_to_gsm_char (gsm_to_nrc_char c)) <$> octets o /\
  (forall c, octet c -> nrc_to_gsm_char (gsm_to_nrc_char c) = c <-> c <> 0x5d /\ c <> 0x7d).
Proof.
  assert (Hf : forall c, octet c -> octet (gsm_to_nrc_char c) /\ octet (nrc_to_gsm_char c)).
  { unfold octet, gsm_to_nrc_char, nrc_to_gsm_char. intros c Hc. repeat case_match; lia. }
  split.
  - unfold charset_nrc_iso_21_german_to_gsm, charset_gsm_to_nrc_iso_21_german.
    rewrite !octstr_len_spec, !Nat2Z.id.
    pose proof (map_chars_loop_spec gsm_to_nrc_char (fun c Hc => proj1 (Hf c Hc))
      (octets o) [] _ o eq_refl (Nat.le_refl _)) as H1. simpl in H1.
    set (o1 := map_chars_loop _ _ _ _ o) in *.
    pose proof (map_chars_loop_spec nrc_to_gsm_char (fun c Hc => proj2 (Hf c Hc))
      (octets o1) [] _ o1 eq_refl (Nat.le_refl _)) as H2. simpl in H2.
    by rewrite H2, H1, <-list_fmap_compose.
  - intros c Hc. unfold gsm_to_nrc_char, nrc_to_gsm_char. split.
    + intros H. split; intros ->; discriminate H.
    + intros [? ?]. repeat case_match; zlia.
Qed.

End Proofs.

(** ** Witnesses *)

(** "a[b]" in Latin-1. *)
Definition sample_text : list Z := [97; 91; 98; 93].

(** "a[" in the GSM alphabet: 'a', ESC, '<'. *)
Definition sample_gsm : list Z := [97; 27; 60; 98].

Lemma latin1_to_gsm_correct_witness :
  exists o', charset_latin1_to_gsm (O:=list_octstr) sample_text = Done o' /\
    octets (OctstrLib:=list_octstr) o' = [97; 27; 60; 98; 27; 62].
Proof.
  destruct (latin1_to_gsm_correct (O:=list_octstr) sample_text) as [(o' & H1 & H2) _].
  exists o'. split; [exact H1|]. rewrite H2. reflexivity.
Defined.

Lemma latin1_gsm_roundtrip_witness :
  (exists o1 o2, charset_latin1_to_gsm (O:=list_octstr) sample_text = Done o1 /\
     charset_gsm_to_latin1 (O:=list_octstr) o1 = Done o2 /\
     octets (OctstrLib:=list_octstr) o2 = octets (OctstrLib:=list_octstr) sample_text) /\
  (forall c, 32 <= c < 127 -> c <> 96 -> representable c = true).
Proof.
  apply (latin1_gsm_roundtrip (O:=list_octstr) sample_text). repeat constructor.
Defined.

Lemma gsm_truncate_whole_chars_witness :
  let cut := charset_gsm_truncate (O:=list_octstr) sample_gsm 2 in
  exists j, octets (OctstrLib:=list_octstr) (cut.2) = gsm_encode (take j [97; 91; 98]) /\
  (length (octets (OctstrLib:=list_octstr) (cut.2)) <= 2)%nat /\
  (cut.1 = 0 -> octets (OctstrLib:=list_octstr) (cut.2) = gsm_encode [97; 91; 98]).
Proof.
  apply (gsm_truncate_whole_chars (O:=list_octstr) sample_gsm [97; 91; 98] 2).
  - repeat constructor; lia.
  - reflexivity.
Defined.

Lemma nrc_german_roundtrip_witness :
  octets (OctstrLib:=list_octstr) (charset_nrc_iso_21_german_to_gsm (O:=list_octstr)
    (charset_gsm_to_nrc_iso_21_german (O:=list_octstr) [97; 91; 0x5d])) = [97; 91; 0x5e].
Proof.
  rewrite (proj1 (nrc_german_roundtrip (O:=list_octstr) _)). reflexivity.
Defined.
