(* ===== verification/Conn.v ===== *)
(** * Buffered connections (gwlib/conn.c)

    A [Connection] buffers the octets of both directions of a socket.  The
    socket and the poll calls are the environment: [Socket] holds the answers
    the system calls will give and the octets the kernel has accepted, so the
    definitions below run, and the theorems quantify over every behaviour of
    the environment.  Each function of the source takes the lock of its
    direction around its body, so one call is one step; the locks, the
    claiming of a connection and the SSL branches (HAVE_LIBSSL) are not
    modelled. *)

From S2P Require Import Prelude Gwlib.
Open Scope Z_scope.

(** ** The environment *)

(** [poll.h]. *)
Definition POLLIN : Z := 1.
Definition POLLOUT : Z := 4.
Definition POLLERR : Z := 8.
Definition POLLHUP : Z := 16.
Definition POLLNVAL : Z := 32.

(** [events & mask], as a test. *)
Definition has_flag (events mask : Z) : bool := negb (Z.land events mask =? 0).

(** What a [read] of the socket answers: an error, with [errno] telling to try
    again or not, or octets; no octets means end of file. *)
Inductive read_answer : Type :=
| ReadError (again : bool)
| ReadData (l : list Z).

Record Socket : Type := MkSocket {
  writes : list Z;              (* how much the next write calls accept; negative: error *)
  reads : list read_answer;     (* answers of the next read calls; then try again *)
  polls : list (Z * bool);      (* answers of the next polls, with errno = EINTR *)
  peer : list Z;                (* octets the kernel accepted so far *)
  listened : list (Z * Z)       (* calls of fdset_listen: mask, events *)
}.

(** [octstr_write_data]: one [write] call. *)
Definition sock_write (s : Socket) (l : list Z) : Z * Socket :=
  match writes s with
  | [] => (0, s)
  | w :: ws =>
      let s' p := MkSocket ws (reads s) (polls s) p (listened s) in
      if w <? 0 then (-1, s' (peer s))
      else let k := Nat.min (Z.to_nat w) (length l) in (Z.of_nat k, s' (peer s ++ take k l))
  end.

(** [read(fd, buf, 4096)]: what does not fit stays in the socket. *)
Definition buf_size : nat := Z.to_nat 4096.

Definition sock_read (s : Socket) : read_answer * Socket :=
  let s' rs := MkSocket (writes s) rs (polls s) (peer s) (listened s) in
  match reads s with
  | [] => (ReadError true, s)
  | ReadData l :: rs =>
      if (buf_size <? length l)%nat
      then (ReadData (take buf_size l), s' (ReadData (drop buf_size l) :: rs))
      else (ReadData l, s' rs)
  | a :: rs => (a, s' rs)
  end.

(** [gwthread_pollfd(fd, events, seconds)]: poll reports the events asked for
    and the error conditions; with no further answer the thread is woken up,
    which is reported as 0. *)
Definition gwthread_pollfd (s : Socket) (events : Z) : (Z * bool) * Socket :=
  match polls s with
  | [] => ((0, false), s)
  | (r, eintr) :: ps =>
      let asked := Z.lor events (Z.lor POLLERR (Z.lor POLLHUP POLLNVAL)) in
      ((if r <? 0 then r else Z.land r asked, eintr),
       MkSocket (writes s) (reads s) ps (peer s) (listened s))
  end.

Definition fdset_listen (s : Socket) (mask events : Z) : Socket :=
  MkSocket (writes s) (reads s) (polls s) (peer s) (listened s ++ [(mask, events)]).

(** The network order functions of gwlib that frame messages. *)
Class NetworkOrder : Type := {
  encode_network_long : Z -> list Z;
  decode_network_long : list Z -> Z;
}.

Class NetworkOrderLaws (N : NetworkOrder) : Prop := {
  encode_octets n : Forall (fun c => 0 <= c < 256) (encode_network_long n);
  encode_length n : length (encode_network_long n) = 4%nat;
  decode_encode n : 0 <= n < 2 ^ 31 -> decode_network_long (encode_network_long n) = n;
}.

(** ** The connection *)

Section Conn.
Context {O : OctstrLib} {N : NetworkOrder}.

Record Connection : Type := MkConn {
  outbuf : octstr;
  outbufpos : Z;
  output_buffering : Z;
  inbuf : octstr;
  inbufpos : Z;
  read_eof : bool;
  io_error : bool;
  registered : bool;            (* registered != NULL *)
  listening_pollin : bool;
  listening_pollout : bool;
  sock : Socket
}.

Definition set_out (c : Connection) (b : octstr) (p : Z) : Connection :=
  MkConn b p (output_buffering c) (inbuf c) (inbufpos c) (read_eof c) (io_error c)
    (registered c) (listening_pollin c) (listening_pollout c) (sock c).
Definition set_in (c : Connection) (b : octstr) (p : Z) : Connection :=
  MkConn (outbuf c) (outbufpos c) (output_buffering c) b p (read_eof c) (io_error c)
    (registered c) (listening_pollin c) (listening_pollout c) (sock c).
Definition set_eof (c : Connection) : Connection :=
  MkConn (outbuf c) (outbufpos c) (output_buffering c) (inbuf c) (inbufpos c) true (io_error c)
    (registered c) (listening_pollin c) (listening_pollout c) (sock c).
Definition set_error (c : Connection) : Connection :=
  MkConn (outbuf c) (outbufpos c) (output_buffering c) (inbuf c) (inbufpos c) (read_eof c) true
    (registered c) (listening_pollin c) (listening_pollout c) (sock c).
Definition set_pollin (c : Connection) (b : bool) : Connection :=
  MkConn (outbuf c) (outbufpos c) (output_buffering c) (inbuf c) (inbufpos c) (read_eof c)
    (io_error c) (registered c) b (listening_pollout c) (sock c).
Definition set_pollout (c : Connection) (b : bool) : Connection :=
  MkConn (outbuf c) (outbufpos c) (output_buffering c) (inbuf c) (inbufpos c) (read_eof c)
    (io_error c) (registered c) (listening_pollin c) b (sock c).
Definition set_buffering (c : Connection) (n : Z) : Connection :=
  MkConn (outbuf c) (outbufpos c) n (inbuf c) (inbufpos c) (read_eof c) (io_error c)
    (registered c) (listening_pollin c) (listening_pollout c) (sock c).
Definition set_sock (c : Connection) (s : Socket) : Connection :=
  MkConn (outbuf c) (outbufpos c) (output_buffering c) (inbuf c) (inbufpos c) (read_eof c)
    (io_error c) (registered c) (listening_pollin c) (listening_pollout c) s.

(** [conn_wrap_fd] on a socket that was made non-blocking. *)
Definition conn_wrap_fd (s : Socket) : Connection :=
  MkConn (octstr_create []) 0 0 (octstr_create []) 0 false false false false false s.

Definition unlocked_outbuf_len (c : Connection) : Z := octstr_len (outbuf c) - outbufpos c.
Definition unlocked_inbuf_len (c : Connection) : Z := octstr_len (inbuf c) - inbufpos c.

Definition unlocked_register_pollin (c : Connection) (onoff : bool) : Connection :=
  if onoff && negb (listening_pollin c) then
    set_sock (set_pollin c true) (fdset_listen (sock c) POLLIN POLLIN)
  else if negb onoff && listening_pollin c then
    set_sock (set_pollin c false) (fdset_listen (sock c) POLLIN 0)
  else c.

Definition unlocked_register_pollout (c : Connection) (onoff : bool) : Connection :=
  if onoff && negb (listening_pollout c) then
    set_sock (set_pollout c true) (fdset_listen (sock c) POLLOUT POLLOUT)
  else if negb onoff && listening_pollout c then
    set_sock (set_pollout c false) (fdset_listen (sock c) POLLOUT 0)
  else c.

(** *** Writing *)

Definition unlocked_write (c : Connection) : Z * Connection :=
  let '(ret, s) := sock_write (sock c) (drop (Z.to_nat (outbufpos c)) (octets (outbuf c))) in
  let c := set_sock c s in
  if ret <? 0 then (-1, set_error c) else
  let c := set_out c (outbuf c) (outbufpos c + ret) in
  let c := if octstr_len (outbuf c) / 2 <? outbufpos c
           then set_out c (octstr_delete (outbuf c) 0 (outbufpos c)) 0 else c in
  let c := if registered c then unlocked_register_pollout c (0 <? unlocked_outbuf_len c) else c in
  (ret, c).

Definition unlocked_try_write (c : Connection) : Z * Connection :=
  let len := unlocked_outbuf_len c in
  if len =? 0 then (0, c) else
  if len <? output_buffering c then (1, c) else
  let '(ret, c) := unlocked_write c in
  if ret <? 0 then (-1, c) else
  if 0 <? unlocked_outbuf_len c then (1, c) else (0, c).

Definition conn_write (c : Connection) (data : octstr) : Z * Connection :=
  unlocked_try_write (set_out c (octstr_append (outbuf c) data) (outbufpos c)).

Definition conn_write_data (c : Connection) (data : list Z) : Z * Connection :=
  unlocked_try_write (set_out c (octstr_append_data (outbuf c) data) (outbufpos c)).

Definition conn_write_withlen (c : Connection) (data : octstr) : Z * Connection :=
  let c := set_out c (octstr_append_data (outbuf c) (encode_network_long (octstr_len data)))
             (outbufpos c) in
  unlocked_try_write (set_out c (octstr_append (outbuf c) data) (outbufpos c)).

Definition conn_set_output_buffering (c : Connection) (size : Z) : Connection :=
  (unlocked_try_write (set_buffering c size)).2.

(** The loop of [conn_flush].  Every turn uses up an answer of the poll, and
    without one the poll reports 0, so the number of answers plus one bounds
    the turns. *)
Fixpoint flush_loop (fuel : nat) (c : Connection) : Z * Connection :=
  match fuel with
  | 0%nat => (1, c)
  | S fuel =>
      if unlocked_outbuf_len c =? 0 then (0, c) else
      let '((revents, eintr), s) := gwthread_pollfd (sock c) POLLOUT in
      let c := set_sock c s in
      if revents <? 0 then (if eintr then 1 else -1, c) else
      if revents =? 0 then (1, c) else
      if has_flag revents POLLNVAL then (-1, c) else
      if has_flag revents (Z.lor POLLOUT (Z.lor POLLERR POLLHUP)) then
        let '(ret, c) := unlocked_write c in
        if ret <? 0 then (-1, c) else flush_loop fuel c
      else flush_loop fuel c
  end.

Definition conn_flush (c : Connection) : Z * Connection :=
  let '(ret, c) := unlocked_write c in
  if ret <? 0 then (-1, c) else flush_loop (S (length (polls (sock c)))) c.

(** *** Reading *)

Definition unlocked_read (c : Connection) : Connection :=
  let c := if 0 <? inbufpos c then set_in c (octstr_delete (inbuf c) 0 (inbufpos c)) 0 else c in
  let '(a, s) := sock_read (sock c) in
  let c := set_sock c s in
  match a with
  | ReadError again =>
      if again then c else
      let c := set_error c in
      if registered c then unlocked_register_pollin c false else c
  | ReadData l =>
      if (length l =? 0)%nat then
        let c := set_eof c in
        if registered c then unlocked_register_pollin c false else c
      else set_in c (octstr_append_data (inbuf c) l) (inbufpos c)
  end.

Definition unlocked_get (c : Connection) (length : Z) : outcome (octstr * Connection) :=
  _ ← gw_assert (length <=? unlocked_inbuf_len c);
  Done (octstr_copy (inbuf c) (inbufpos c) length,
        set_in c (inbuf c) (inbufpos c + length)).

(** A reading function answers an octet string, or NULL. *)
Definition got (r : octstr * Connection) : option octstr * Connection := (Some r.1, r.2).

Definition conn_read_everything (c : Connection) : outcome (option octstr * Connection) :=
  if unlocked_inbuf_len c =? 0 then
    let c := unlocked_read c in
    if unlocked_inbuf_len c =? 0 then Done (None, c)
    else got <$> unlocked_get c (unlocked_inbuf_len c)
  else got <$> unlocked_get c (unlocked_inbuf_len c).

Definition conn_read_fixed (c : Connection) (length : Z) : outcome (option octstr * Connection) :=
  if length <? 1 then Done (None, c) else
  if unlocked_inbuf_len c <? length then
    let c := unlocked_read c in
    if unlocked_inbuf_len c <? length then Done (None, c) else got <$> unlocked_get c length
  else got <$> unlocked_get c length.

(** The end of [conn_read_line], the line feed being at [pos]. *)
Definition take_line (c : Connection) (pos : Z) : outcome (option octstr * Connection) :=
  '(result, c) ← unlocked_get c (pos - inbufpos c);
  let c := set_in c (inbuf c) (inbufpos c + 1) in
  let len := octstr_len result in
  let result :=
    if (0 <? len) && (octstr_get_char result (len - 1) =? 13)
    then octstr_delete result (len - 1) 1 else result in
  Done (Some result, c).

Definition conn_read_line (c : Connection) : outcome (option octstr * Connection) :=
  let pos := octstr_search_char (inbuf c) 10 (inbufpos c) in
  if pos <? 0 then
    let c := unlocked_read c in
    let pos := octstr_search_char (inbuf c) 10 (inbufpos c) in
    if pos <? 0 then Done (None, c) else take_line c pos
  else take_line c pos.

(** The inner loop of [conn_read_withlen]: skip negative lengths.  It needs
    four octets per turn.  [None] is the [continue] that leaves the loop
    with [length] unchanged. *)
Fixpoint withlen_length (fuel : nat) (c : Connection) (length : Z) : Z * Connection :=
  match fuel with
  | 0%nat => (length, c)
  | S fuel =>
      if unlocked_inbuf_len c <? 4 then (length, c) else
      let length := decode_network_long (octstr_get_many_chars (inbuf c) (inbufpos c) 4) in
      if length <? 0 then
        withlen_length fuel (set_in c (inbuf c) (inbufpos c + 4)) length
      else (length, c)
  end.

Definition withlen_try (c : Connection) (length : Z)
    : outcome (option octstr * Z * Connection) :=
  let '(length, c) := withlen_length (S (Z.to_nat (unlocked_inbuf_len c))) c length in
  if unlocked_inbuf_len c - 4 <? length then Done (None, length, c) else
  let c := set_in c (inbuf c) (inbufpos c + 4) in
  '(result, c) ← unlocked_get c length;
  Done (Some result, length, c).

Definition conn_read_withlen (c : Connection) : outcome (option octstr * Connection) :=
  '(result, length, c) ← withlen_try c 0;
  match result with
  | Some result => Done (Some result, c)
  | None =>
      '(result, _, c) ← withlen_try (unlocked_read c) length;
      Done (result, c)
  end.

Definition packet_try (c : Connection) (startmark endmark : Z)
    : outcome (option octstr * Connection) :=
  let startpos := octstr_search_char (inbuf c) startmark (inbufpos c) in
  if startpos <? 0 then Done (None, set_in c (inbuf c) (octstr_len (inbuf c))) else
  let c := set_in c (inbuf c) startpos in
  let endpos := octstr_search_char (inbuf c) endmark (inbufpos c) in
  if endpos <? 0 then Done (None, c) else
  got <$> unlocked_get c (endpos - startpos + 1).

Definition conn_read_packet (c : Connection) (startmark endmark : Z)
    : outcome (option octstr * Connection) :=
  '(result, c) ← packet_try c startmark endmark;
  match result with
  | Some result => Done (Some result, c)
  | None => packet_try (unlocked_read c) startmark endmark
  end.

(** *** Waiting *)

(** The events to poll for: writing when data is waiting, reading unless we
    know that no more will come. *)
Definition wait_events (c : Connection) : Z :=
  let events := if 0 <? unlocked_outbuf_len c then POLLOUT else 0 in
  if (negb (read_eof c) && negb (io_error c)) || (events =? 0) then Z.lor events POLLIN
  else events.

Definition conn_wait (c : Connection) : Z * Connection :=
  let '(ret, c) := unlocked_write c in
  if ret <? 0 then (-1, c) else
  if 0 <? ret then (0, c) else
  let '((ret, eintr), s) := gwthread_pollfd (sock c) (wait_events c) in
  let c := set_sock c s in
  if ret <? 0 then (if eintr then 0 else -1, c) else
  if ret =? 0 then (1, c) else
  if has_flag ret POLLNVAL then (-1, c) else
  if has_flag ret (Z.lor POLLERR POLLHUP) then (-1, unlocked_read c) else
  let c := if has_flag ret POLLOUT then (unlocked_write c).2 else c in
  let c := if has_flag ret POLLIN then unlocked_read c else c in
  (0, c).

Definition conn_eof (c : Connection) : bool := read_eof c.
Definition conn_error (c : Connection) : bool := io_error c.
Definition conn_outbuf_len (c : Connection) : Z := unlocked_outbuf_len c.
Definition conn_inbuf_len (c : Connection) : Z := unlocked_inbuf_len c.

(** What [poll_callback] does to the connection and whether it calls the
    callback, for a connected socket. *)
Definition poll_callback (c : Connection) (revents : Z) : bool * Connection :=
  let '(do_callback, c) :=
    if has_flag revents (Z.lor POLLERR POLLHUP) then
      let c := if listening_pollin c then unlocked_register_pollin c false else c in
      let c := if listening_pollout c then unlocked_register_pollout c false else c in
      (true, set_error c)
    else (false, c) in
  let '(do_callback, c) :=
    if has_flag revents POLLOUT then
      let c := (unlocked_write c).2 in
      (do_callback || (unlocked_outbuf_len c =? 0), c)
    else (do_callback, c) in
  if has_flag revents POLLIN then (true, unlocked_read c) else (do_callback, c).

End Conn.

Arguments Connection O : clear implicits.
Arguments Connection {O}.

(** ** Views of a connection *)

Section Views.
Context {O : OctstrLib}.

(** Octets not yet written, and everything that was ever written: what the
    kernel accepted followed by what waits. *)
Definition out_pending (c : Connection) : list Z :=
  drop (Z.to_nat (outbufpos c)) (octets (outbuf c)).
Definition out_stream (c : Connection) : list Z := peer (sock c) ++ out_pending c.

Definition answer_data (a : read_answer) : list Z :=
  match a with ReadData l => l | ReadError _ => [] end.

(** Octets received and not yet consumed, and everything that the program
    can still read: these followed by what the socket will answer. *)
Definition in_pending (c : Connection) : list Z :=
  drop (Z.to_nat (inbufpos c)) (octets (inbuf c)).
Definition in_stream (c : Connection) : list Z :=
  in_pending c ++ concat (answer_data <$> reads (sock c)).

(** Invariant: the positions are inside of the buffers, and the socket
    answers octets. *)
Record conn_ok (c : Connection) : Prop := {
  ok_out : 0 <= outbufpos c <= octstr_len (outbuf c);
  ok_in : 0 <= inbufpos c <= octstr_len (inbuf c);
  ok_reads : Forall (fun a => Forall (fun o => 0 <= o < 256) (answer_data a)) (reads (sock c))
}.

(** Nothing happened to the input, to the output. *)
Definition same_in (c c' : Connection) : Prop :=
  inbuf c' = inbuf c /\ inbufpos c' = inbufpos c /\ reads (sock c') = reads (sock c).
Definition same_out (c c' : Connection) : Prop :=
  outbuf c' = outbuf c /\ outbufpos c' = outbufpos c /\ peer (sock c') = peer (sock c).

End Views.

(** ** Lemmas *)

Section Proofs.
Context {O : OctstrLib} {OL : OctstrLaws O}.

Lemma same_in_refl c : same_in c c.
Proof. done. Qed.
Lemma same_out_refl c : same_out c c.
Proof. done. Qed.
Lemma same_in_trans c1 c2 c3 : same_in c1 c2 -> same_in c2 c3 -> same_in c1 c3.
Proof. unfold same_in. intuition congruence. Qed.
Lemma same_out_trans c1 c2 c3 : same_out c1 c2 -> same_out c2 c3 -> same_out c1 c3.
Proof. unfold same_out. intuition congruence. Qed.

Lemma conn_ok_same c c' : same_in c c' -> same_out c c' -> conn_ok c -> conn_ok c'.
Proof. intros (E1 & E2 & E3) (E4 & E5 & _) [? ? ?]. split; congruence. Qed.

Lemma in_stream_same c c' : same_in c c' -> in_stream c' = in_stream c.
Proof. intros (E1 & E2 & E3). unfold in_stream, in_pending. congruence. Qed.

Lemma out_stream_same c c' :
  same_out c c' -> out_stream c' = out_stream c /\ out_pending c' = out_pending c.
Proof. intros (E1 & E2 & E3). unfold out_stream, out_pending. by rewrite E1, E2, E3. Qed.

Lemma register_pollin_frame c b :
  same_in c (unlocked_register_pollin c b) /\ same_out c (unlocked_register_pollin c b).
Proof. unfold unlocked_register_pollin. repeat case_match; done. Qed.

Lemma register_pollout_frame c b :
  same_in c (unlocked_register_pollout c b) /\ same_out c (unlocked_register_pollout c b).
Proof. unfold unlocked_register_pollout. repeat case_match; done. Qed.

Lemma outbuf_len_pending c :
  conn_ok c -> unlocked_outbuf_len c = Z.of_nat (length (out_pending c)).
Proof.
  intros [Ho _ _]. unfold unlocked_outbuf_len, out_pending. rewrite octstr_len_spec in *.
  rewrite length_drop. lia.
Qed.

Lemma inbuf_len_pending c :
  conn_ok c -> unlocked_inbuf_len c = Z.of_nat (length (in_pending c)).
Proof.
  intros [_ Hi _]. unfold unlocked_inbuf_len, in_pending. rewrite octstr_len_spec in *.
  rewrite length_drop. lia.
Qed.

(** Discarding the part already written changes no view. *)
Lemma discard_written c :
  conn_ok c ->
  let c' := set_out c (octstr_delete (outbuf c) 0 (outbufpos c)) 0 in
  conn_ok c' /\ out_pending c' = out_pending c /\ out_stream c' = out_stream c /\ same_in c c'.
Proof.
  intros [Ho Hi Hr]. simpl.
  assert (E : octets (octstr_delete (outbuf c) 0 (outbufpos c)) = out_pending c).
  { rewrite octstr_delete_z by lia. done. }
  unfold out_stream. unfold out_pending at 1 3. simpl. rewrite E.
  split_and!; try done. split; simpl; try done. rewrite octstr_len_spec. lia.
Qed.

Lemma discard_read c :
  conn_ok c ->
  let c' := set_in c (octstr_delete (inbuf c) 0 (inbufpos c)) 0 in
  conn_ok c' /\ in_pending c' = in_pending c /\ same_out c c'.
Proof.
  intros [Ho Hi Hr]. simpl.
  assert (E : octets (octstr_delete (inbuf c) 0 (inbufpos c)) = in_pending c).
  { rewrite octstr_delete_z by lia. done. }
  unfold in_pending at 1. simpl. rewrite E.
  split_and!; try done. split; simpl; try done. rewrite octstr_len_spec. lia.
Qed.

Lemma sock_write_spec s l :
  reads (sock_write s l).2 = reads s /\
  ((sock_write s l).1 = -1 /\ peer (sock_write s l).2 = peer s \/
   exists k, (k <= length l)%nat /\ (sock_write s l).1 = Z.of_nat k /\
     peer (sock_write s l).2 = peer s ++ take k l).
Proof.
  unfold sock_write. destruct (writes s) as [|w ws].
  - split; [done|]. right. exists 0%nat. rewrite app_nil_r. split_and!; [lia|done|done].
  - destruct (Z.ltb_spec w 0); simpl; (split; [done|]); [by left|].
    right. exists (Nat.min (Z.to_nat w) (length l)). split_and!; [lia|done|done].
Qed.

(** One [write]: the stream of octets is the same, the input untouched; an
    error is recorded, and otherwise the count says how far it went. *)
Lemma unlocked_write_spec c :
  conn_ok c ->
  conn_ok (unlocked_write c).2 /\ out_stream (unlocked_write c).2 = out_stream c /\
  same_in c (unlocked_write c).2 /\
  ((unlocked_write c).1 = -1 /\ io_error (unlocked_write c).2 = true \/
   0 <= (unlocked_write c).1 /\
   Z.of_nat (length (out_pending c))
   = (unlocked_write c).1 + Z.of_nat (length (out_pending (unlocked_write c).2))).
Proof.
  intros Hok. unfold unlocked_write.
  pose proof (sock_write_spec (sock c) (out_pending c)) as [Hr Hw].
  unfold out_pending in Hw at 1 2 3 4 5 6, Hr.
  destruct (sock_write _ _) as [ret s] eqn:Es. simpl in *.
  destruct Hw as [[-> Hp]|(k & Hk & -> & Hp)]; simpl.
  { assert (same_in c (set_error (set_sock c s))) by done.
    assert (same_out c (set_error (set_sock c s))) as Hs by done.
    split_and!; [by eapply conn_ok_same|by apply out_stream_same|done|by left]. }
  rewrite (proj2 (Z.ltb_ge _ _)) by lia.
  set (c1 := set_out (set_sock c s) _ _).
  rewrite length_drop in Hk. pose proof (ok_out _ Hok) as Ho. rewrite octstr_len_spec in Ho.
  assert (Hok1 : conn_ok c1).
  { split; simpl; [rewrite octstr_len_spec; lia|apply Hok|rewrite Hr; apply Hok]. }
  assert (Hpend : out_pending c = take k (out_pending c) ++ out_pending c1).
  { unfold out_pending. simpl. rewrite Z2Nat.inj_add, Nat2Z.id, <-drop_drop by lia.
    by rewrite take_drop. }
  assert (Hst : out_stream c1 = out_stream c).
  { unfold out_stream. rewrite Hpend. simpl. rewrite Hp. unfold out_pending at 1.
    by rewrite <-app_assoc. }
  assert (Hlen : length (out_pending c) = (k + length (out_pending c1))%nat).
  { rewrite Hpend at 1. rewrite length_app, length_take. unfold out_pending at 1.
    rewrite length_drop. lia. }
  set (c2 := if _ <? _ then set_out c1 _ _ else c1).
  assert (H2 : conn_ok c2 /\ out_pending c2 = out_pending c1 /\ out_stream c2 = out_stream c1 /\
    same_in c1 c2).
  { unfold c2. case_match; [by apply discard_written|done]. }
  destruct H2 as (Hok2 & Hp2 & Hs2 & Hi2).
  set (c3 := if registered c2 then _ else c2).
  assert (H3 : same_in c2 c3 /\ same_out c2 c3).
  { unfold c3. case_match; [apply register_pollout_frame|done]. }
  destruct H3 as [Hi3 Ho3]. destruct (out_stream_same _ _ Ho3) as [Hs3 Hp3].
  simpl. split_and!.
  - by eapply conn_ok_same.
  - congruence.
  - apply (same_in_trans _ c1); [by split_and!|]. exact (same_in_trans _ _ _ Hi2 Hi3).
  - right. rewrite Hp3, Hp2. lia.
Qed.

(** What the result of a write tells: 0 when nothing waits any more, 1 when
    something does, -1 when the connection has an error. *)
Definition write_result (r : Z) (c : Connection) : Prop :=
  r = 0 /\ out_pending c = [] \/ r = 1 /\ out_pending c <> [] \/ r = -1 /\ io_error c = true.

Lemma unlocked_try_write_spec c :
  conn_ok c ->
  conn_ok (unlocked_try_write c).2 /\ out_stream (unlocked_try_write c).2 = out_stream c /\
  same_in c (unlocked_try_write c).2 /\
  write_result (unlocked_try_write c).1 (unlocked_try_write c).2.
Proof.
  intros Hok. unfold unlocked_try_write, write_result.
  rewrite outbuf_len_pending by done.
  destruct (Z.eqb_spec (Z.of_nat (length (out_pending c))) 0) as [E|E]; simpl.
  { split_and!; try done. left. split; [done|]. apply nil_length_inv. lia. }
  case_match eqn:Hb; simpl.
  { split_and!; try done. right. left. split; [done|]. intros E'. rewrite E' in E. done. }
  destruct (unlocked_write_spec c Hok) as (Hok' & Hs & Hi & Hr).
  destruct (unlocked_write c) as [ret c'] eqn:Ew. simpl in *.
  destruct (Z.ltb_spec ret 0) as [Hlt|Hge]; simpl.
  { split_and!; try done. destruct Hr as [[_ ?]|[? _]]; [auto|lia]. }
  rewrite outbuf_len_pending by done.
  destruct (Z.ltb_spec 0 (Z.of_nat (length (out_pending c')))) as [Hl|Hl]; simpl;
    (split_and!; try done); [right; left|left]; (split; [done|]).
  - intros E'. rewrite E' in Hl. simpl in Hl. lia.
  - apply nil_length_inv. lia.
Qed.

(** Appending to the output buffer appends to the stream. *)
Lemma append_out c b l :
  conn_ok c -> octets b = octets (outbuf c) ++ l ->
  conn_ok (set_out c b (outbufpos c)) /\
  out_stream (set_out c b (outbufpos c)) = out_stream c ++ l.
Proof.
  intros Hok E. pose proof (ok_out _ Hok) as Ho. rewrite octstr_len_spec in Ho. split.
  - split; simpl; [rewrite octstr_len_spec, E, length_app; lia|apply Hok..].
  - unfold out_stream, out_pending. simpl. rewrite E, <-app_assoc. f_equal.
    rewrite drop_app_le by lia. done.
Qed.

Lemma conn_write_spec c data :
  conn_ok c ->
  let '(r, c') := conn_write c data in
  conn_ok c' /\ out_stream c' = out_stream c ++ octets data /\ same_in c c' /\ write_result r c'.
Proof.
  intros Hok. unfold conn_write.
  destruct (append_out c (octstr_append (outbuf c) data) (octets data) Hok) as [Hok1 Hs1];
    [by rewrite octstr_append_spec|].
  set (c1 := set_out c _ _) in *.
  destruct (unlocked_try_write_spec c1 Hok1) as (? & Hs & Hi & ?).
  destruct (unlocked_try_write c1) as [r c']. simpl in *. rewrite Hs, Hs1. done.
Qed.

Lemma conn_write_data_spec c data :
  conn_ok c -> Forall (fun o => 0 <= o < 256) data ->
  let '(r, c') := conn_write_data c data in
  conn_ok c' /\ out_stream c' = out_stream c ++ data /\ same_in c c' /\ write_result r c'.
Proof.
  intros Hok Hd. unfold conn_write_data.
  destruct (append_out c (octstr_append_data (outbuf c) data) data Hok) as [Hok1 Hs1];
    [by rewrite octstr_append_data_spec|].
  set (c1 := set_out c _ _) in *.
  destruct (unlocked_try_write_spec c1 Hok1) as (? & Hs & Hi & ?).
  destruct (unlocked_try_write c1) as [r c']. simpl in *. rewrite Hs, Hs1. done.
Qed.

Lemma flush_loop_spec fuel c :
  conn_ok c ->
  let '(r, c') := flush_loop fuel c in
  conn_ok c' /\ out_stream c' = out_stream c /\ same_in c c' /\ (r = 0 -> out_pending c' = []).
Proof.
  revert c. induction fuel as [|fuel IH]; intros c Hok; simpl; [done|].
  rewrite outbuf_len_pending by done.
  destruct (Z.eqb_spec (Z.of_nat (length (out_pending c))) 0) as [E|E].
  { split_and!; try done. intros _. apply nil_length_inv. lia. }
  destruct (gwthread_pollfd (sock c) POLLOUT) as [[rev eintr] s] eqn:Ep.
  assert (Hs : same_in c (set_sock c s) /\ same_out c (set_sock c s)).
  { unfold gwthread_pollfd in Ep. destruct (polls (sock c)) as [|[? ?] ?]; simplify_eq; done. }
  destruct Hs as [Hi Ho]. destruct (out_stream_same _ _ Ho) as [Hs Hp].
  assert (Hok1 : conn_ok (set_sock c s)) by by eapply conn_ok_same.
  destruct (rev <? 0); [destruct eintr; done|]. destruct (rev =? 0); [done|].
  destruct (has_flag rev POLLNVAL); [done|]. destruct (has_flag rev _).
  - destruct (unlocked_write_spec _ Hok1) as (Hok2 & Hs2 & Hi2 & _).
    destruct (unlocked_write (set_sock c s)) as [ret c2]. simpl in *.
    destruct (Z.ltb_spec ret 0).
    + split_and!; [done|congruence|by eapply same_in_trans|done].
    + specialize (IH c2 Hok2). destruct (flush_loop fuel c2) as [r c'].
      destruct IH as (? & ? & ? & ?). split_and!; [done|congruence| |done].
      eapply same_in_trans; [exact Hi|]. by eapply same_in_trans.
  - specialize (IH _ Hok1). destruct (flush_loop fuel _) as [r c'].
    destruct IH as (? & ? & ? & ?). split_and!; [done|congruence| |done].
    by eapply same_in_trans.
Qed.

Lemma conn_flush_spec c :
  conn_ok c ->
  let '(r, c') := conn_flush c in
  conn_ok c' /\ out_stream c' = out_stream c /\ same_in c c' /\
  (r = 0 -> peer (sock c') = out_stream c).
Proof.
  intros Hok. unfold conn_flush.
  destruct (unlocked_write_spec _ Hok) as (Hok2 & Hs2 & Hi2 & _).
  destruct (unlocked_write c) as [ret c2]. cbn [fst snd] in *.
  destruct (Z.ltb_spec ret 0); [done|].
  pose proof (flush_loop_spec (S (length (polls (sock c2)))) c2 Hok2) as IH.
  destruct (flush_loop _ c2) as [r c'].
  destruct IH as (? & Hs & ? & Hr). split_and!; [done|congruence|by eapply same_in_trans|].
  intros ->. specialize (Hr eq_refl). unfold out_stream in Hs at 1. rewrite Hr, app_nil_r in Hs.
  congruence.
Qed.

(** ** Reading *)

Lemma sock_read_spec s :
  writes (sock_read s).2 = writes s /\ peer (sock_read s).2 = peer s /\
  concat (answer_data <$> reads s)
  = answer_data (sock_read s).1 ++ concat (answer_data <$> reads (sock_read s).2).
Proof.
  unfold sock_read. destruct (reads s) as [|[again|l] rs] eqn:E; simpl; rewrite ?E; [done..|].
  case_match; simpl; (split_and!; [done|done|]); [|done].
  by rewrite app_assoc, take_drop.
Qed.

Lemma sock_read_octets s P :
  Forall (fun a => Forall P (answer_data a)) (reads s) ->
  Forall P (answer_data (sock_read s).1) /\
  Forall (fun a => Forall P (answer_data a)) (reads (sock_read s).2).
Proof.
  unfold sock_read. intros H. destruct (reads s) as [|[again|l] rs] eqn:E; simpl; rewrite ?E.
  - done.
  - by apply Forall_cons in H as [? ?].
  - apply Forall_cons in H as [Hl ?]. simpl in Hl. case_match; simpl; [|done].
    split; [by apply Forall_take|]. apply Forall_cons. split; [by apply Forall_drop|done].
Qed.

(** A read moves octets from the socket to the buffer: the stream that the
    program can still read is the same. *)
Lemma unlocked_read_spec c :
  conn_ok c ->
  conn_ok (unlocked_read c) /\ in_stream (unlocked_read c) = in_stream c /\
  same_out c (unlocked_read c) /\
  exists l, in_pending (unlocked_read c) = in_pending c ++ l.
Proof.
  intros Hok. unfold unlocked_read.
  set (c1 := if 0 <? inbufpos c then _ else c).
  assert (H1 : conn_ok c1 /\ in_pending c1 = in_pending c /\ same_out c c1 /\
    reads (sock c1) = reads (sock c)).
  { unfold c1. case_match; [|done]. destruct (discard_read c Hok) as (? & ? & ?). done. }
  destruct H1 as (Hok1 & Hp1 & Ho1 & Hr1).
  destruct (sock_read_spec (sock c1)) as (_ & Hpeer & Hcat).
  destruct (sock_read_octets (sock c1) _ (ok_reads _ Hok1)) as [Hoct Hreads].
  destruct (sock_read (sock c1)) as [a s] eqn:Es. cbn [fst snd] in *.
  set (c2 := set_sock c1 s).
  assert (Ho2 : same_out c c2) by (destruct Ho1 as (? & ? & ?); split_and!; simpl; congruence).
  assert (Hok2 : conn_ok c2) by (split; [apply Hok1..|done]).
  assert (Hst : in_pending c1 ++ concat (answer_data <$> reads (sock c1)) = in_stream c).
  { unfold in_stream. by rewrite Hp1, Hr1. }
  assert (Hframe : forall c3, answer_data a = [] -> same_in c2 c3 -> same_out c2 c3 ->
    conn_ok c3 /\ in_stream c3 = in_stream c /\ same_out c c3 /\
    exists l, in_pending c3 = in_pending c ++ l).
  { intros c3 Ha Hi3 Ho3. split; [by eapply conn_ok_same|]. rewrite (in_stream_same _ _ Hi3).
    split; [by rewrite <-Hst, Hcat, Ha|].
    split; [by eapply same_out_trans|]. exists []. rewrite app_nil_r, <-Hp1.
    destruct Hi3 as (E1 & E2 & _). unfold in_pending. by rewrite E1, E2. }
  destruct a as [[|]|l]; simpl in Hoct.
  - by apply Hframe.
  - apply Hframe; [done|..]; case_match; try done.
    + eapply same_in_trans; [|apply register_pollin_frame]. done.
    + eapply same_out_trans; [|apply register_pollin_frame]. done.
  - destruct (Nat.eqb_spec (length l) 0) as [El|El].
    + apply nil_length_inv in El as ->. apply Hframe; [done|..]; case_match; try done.
      * eapply same_in_trans; [|apply register_pollin_frame]. done.
      * eapply same_out_trans; [|apply register_pollin_frame]. done.
    + pose proof (ok_in _ Hok1) as Hi. rewrite octstr_len_spec in Hi.
      set (c3 := set_in c2 _ _).
      assert (Hp3 : in_pending c3 = in_pending c1 ++ l).
      { unfold in_pending. simpl. rewrite octstr_append_data_spec by done.
        by rewrite drop_app_le by lia. }
      split_and!.
      * split; [apply Hok2| |done]. simpl. rewrite octstr_len_spec, octstr_append_data_spec by done.
        rewrite length_app. lia.
      * unfold in_stream at 1. rewrite Hp3. simpl. rewrite <-Hst, Hcat, <-app_assoc. done.
      * done.
      * exists l. congruence.
Qed.

(** Cutting octets off the input buffer. *)
Lemma unlocked_get_spec c n :
  conn_ok c -> 0 <= n <= Z.of_nat (length (in_pending c)) ->
  exists o c', unlocked_get c n = Done (o, c') /\ conn_ok c' /\ same_out c c' /\
    octets o = take (Z.to_nat n) (in_pending c) /\ in_pending c' = drop (Z.to_nat n) (in_pending c) /\
    in_stream c = octets o ++ in_stream c'.
Proof.
  intros Hok Hn. unfold unlocked_get. rewrite inbuf_len_pending by done.
  rewrite (proj2 (Z.leb_le _ _)) by lia. simpl. pose proof (ok_in _ Hok) as Hi.
  assert (E1 : octets (octstr_copy (inbuf c) (inbufpos c) n) = take (Z.to_nat n) (in_pending c))
    by (apply octstr_copy_z; lia).
  assert (E2 : in_pending (set_in c (inbuf c) (inbufpos c + n)) = drop (Z.to_nat n) (in_pending c)).
  { unfold in_pending. simpl. rewrite drop_drop, Z2Nat.inj_add by lia. done. }
  do 2 eexists. split; [done|]. split_and!; [|done|done|done|].
  - split; [apply Hok| |apply Hok]. simpl. rewrite octstr_len_spec in *.
    unfold in_pending in Hn. rewrite length_drop in Hn. lia.
  - unfold in_stream. rewrite E1, E2. simpl. by rewrite app_assoc, take_drop.
Qed.

(** Reading functions that first look at the buffer and then try once more
    after a [read]. *)
Lemma conn_read_fixed_spec c n :
  conn_ok c ->
  exists r c', conn_read_fixed c n = Done (r, c') /\ conn_ok c' /\ same_out c c' /\
    in_stream c = default [] (octets <$> r) ++ in_stream c' /\
    (forall o, r = Some o -> Z.of_nat (length (octets o)) = n) /\
    (r = None -> n < 1 \/ Z.of_nat (length (in_pending c')) < n).
Proof.
  intros Hok. unfold conn_read_fixed.
  destruct (Z.ltb_spec n 1) as [Hn|Hn].
  { do 2 eexists. split; [done|]. split_and!; try done. by left. }
  assert (Hget : forall c1, conn_ok c1 -> in_stream c1 = in_stream c -> same_out c c1 ->
    n <= Z.of_nat (length (in_pending c1)) ->
    exists r c', got <$> unlocked_get c1 n = Done (r, c') /\ conn_ok c' /\ same_out c c' /\
      in_stream c = default [] (octets <$> r) ++ in_stream c' /\
      (forall o, r = Some o -> Z.of_nat (length (octets o)) = n) /\
      (r = None -> n < 1 \/ Z.of_nat (length (in_pending c')) < n)).
  { intros c1 Hok1 Hs1 Ho1 Hl.
    destruct (unlocked_get_spec c1 n Hok1) as (o & c' & E & Hok' & Ho' & Ho & _ & Hs'); [lia|].
    exists (Some o), c'. rewrite E. split_and!; [done|done|by eapply same_out_trans|by rewrite <-Hs1, Hs'| |done].
    intros o' [= <-]. rewrite Ho, length_take. lia. }
  rewrite inbuf_len_pending by done.
  destruct (Z.ltb_spec (Z.of_nat (length (in_pending c))) n) as [Hl|Hl]; [|by apply Hget].
  destruct (unlocked_read_spec c Hok) as (Hok1 & Hs1 & Ho1 & _).
  rewrite inbuf_len_pending by done.
  destruct (Z.ltb_spec (Z.of_nat (length (in_pending (unlocked_read c)))) n); [|by apply Hget].
  do 2 eexists. split; [done|]. split_and!; try done. by right.
Qed.

Lemma conn_read_everything_spec c :
  conn_ok c ->
  exists r c', conn_read_everything c = Done (r, c') /\ conn_ok c' /\ same_out c c' /\
    in_stream c = default [] (octets <$> r) ++ in_stream c' /\ in_pending c' = [] /\
    (forall o, r = Some o -> octets o <> []).
Proof.
  intros Hok. unfold conn_read_everything.
  assert (Hget : forall c1, conn_ok c1 -> in_stream c1 = in_stream c -> same_out c c1 ->
    unlocked_inbuf_len c1 <> 0 ->
    exists r c', got <$> unlocked_get c1 (unlocked_inbuf_len c1) = Done (r, c') /\
      conn_ok c' /\ same_out c c' /\
      in_stream c = default [] (octets <$> r) ++ in_stream c' /\ in_pending c' = [] /\
      (forall o, r = Some o -> octets o <> [])).
  { intros c1 Hok1 Hs1 Ho1 Hl. rewrite inbuf_len_pending in * by done.
    destruct (unlocked_get_spec c1 (Z.of_nat (length (in_pending c1))) Hok1)
      as (o & c' & E & Hok' & Ho' & Ho & Hp & Hs'); [lia|].
    rewrite Nat2Z.id in *. rewrite drop_all in Hp. rewrite firstn_all in Ho.
    exists (Some o), c'. rewrite E.
    split_and!; [done|done|by eapply same_out_trans|by rewrite <-Hs1, Hs'|done|].
    intros o' [= <-] E'. rewrite <-Ho, E' in Hl. done. }
  destruct (Z.eqb_spec (unlocked_inbuf_len c) 0) as [E|E]; [|by apply Hget].
  destruct (unlocked_read_spec c Hok) as (Hok1 & Hs1 & Ho1 & _).
  destruct (Z.eqb_spec (unlocked_inbuf_len (unlocked_read c)) 0) as [E1|E1]; [|by apply Hget].
  do 2 eexists. split; [done|]. split_and!; try done.
  rewrite inbuf_len_pending in E1 by done. apply nil_length_inv. lia.
Qed.

(** A line without the carriage return that may end it. *)
Definition strip_cr (l : list Z) : list Z :=
  match last l with
  | Some c => if c =? 13 then removelast l else l
  | None => l
  end.

Lemma search_char_pending c m :
  conn_ok c ->
  octstr_search_char (inbuf c) m (inbufpos c)
  = match index_of m (in_pending c) with Some k => inbufpos c + Z.of_nat k | None => -1 end.
Proof. intros Hok. apply octstr_search_char_z. apply Hok. Qed.

Lemma removelast_take {A} (l : list A) : removelast l = take (length l - 1) l.
Proof. rewrite removelast_firstn_len. f_equal. lia. Qed.

(** The carriage return is removed in place. *)
Lemma drop_cr_octets o :
  octets (if (0 <? octstr_len o) && (octstr_get_char o (octstr_len o - 1) =? 13)
          then octstr_delete o (octstr_len o - 1) 1 else o) = strip_cr (octets o).
Proof.
  rewrite octstr_len_spec. unfold strip_cr.
  destruct (decide (octets o = [])) as [E|E]; [by rewrite E|].
  destruct (exists_last E) as (l & x & El). rewrite !El, last_snoc, length_app. simpl length.
  replace (Z.of_nat (length l + 1) - 1) with (Z.of_nat (length l)) by lia.
  rewrite (proj2 (Z.ltb_lt _ _)) by lia.
  rewrite octstr_get_char_spec, El, list_lookup_middle by done. simpl.
  case_match; [|done]. change 1 with (Z.of_nat 1).
  rewrite octstr_delete_spec, El, take_app_length, removelast_last, drop_ge.
  - by rewrite app_nil_r.
  - rewrite length_app. simpl. lia.
Qed.

Lemma take_line_spec c k :
  conn_ok c -> index_of 10 (in_pending c) = Some k ->
  exists line o c', take_line c (inbufpos c + Z.of_nat k) = Done (Some o, c') /\
    conn_ok c' /\ same_out c c' /\ in_stream c = line ++ [10] ++ in_stream c' /\
    (10 ∉ line) /\ octets o = strip_cr line.
Proof.
  intros Hok Hk. unfold take_line.
  pose proof (index_of_lt _ _ _ Hk) as Hlt. apply index_of_Some in Hk as [Ek Hnk].
  replace (inbufpos c + Z.of_nat k - inbufpos c) with (Z.of_nat k) by lia.
  destruct (unlocked_get_spec c (Z.of_nat k) Hok) as (o & c1 & -> & Hok1 & Ho1 & Eo & Ep & Es); [lia|].
  rewrite Nat2Z.id in *. simpl. exists (take k (in_pending c)).
  set (c2 := set_in c1 _ _).
  assert (Ep1 : in_pending c1 = 10 :: drop (S k) (in_pending c)).
  { rewrite Ep, Ek at 1. by rewrite drop_app_length' by (rewrite length_take; lia). }
  pose proof (ok_in _ Hok1) as Hi. rewrite octstr_len_spec in Hi.
  assert (Hroom : (Z.to_nat (inbufpos c1) < length (octets (inbuf c1)))%nat).
  { assert (H : (0 < length (in_pending c1))%nat) by (rewrite Ep1; simpl; lia).
    unfold in_pending in H. rewrite length_drop in H. lia. }
  assert (Ep2 : in_pending c1 = [10] ++ in_pending c2).
  { rewrite Ep1. unfold in_pending at 2. simpl. f_equal.
    rewrite Z2Nat.inj_add, <-drop_drop by lia. change (drop (Z.to_nat (inbufpos c1)) _) with (in_pending c1).
    by rewrite Ep1. }
  eexists _, c2. split; [done|]. split; [|split; [done|split; [|split; [done|]]]].
  - split; [apply Hok1| |apply Hok1]. simpl. rewrite octstr_len_spec. lia.
  - rewrite Es, Eo. unfold in_stream. rewrite Ep2. by rewrite <-!app_assoc.
  - rewrite <-Eo. apply drop_cr_octets.
Qed.

Lemma conn_read_line_spec c :
  conn_ok c ->
  exists r c', conn_read_line c = Done (r, c') /\ conn_ok c' /\ same_out c c' /\
    match r with
    | Some o => exists line, in_stream c = line ++ [10] ++ in_stream c' /\ (10 ∉ line) /\
                  octets o = strip_cr line
    | None => in_stream c = in_stream c' /\ 10 ∉ in_pending c'
    end.
Proof.
  intros Hok. unfold conn_read_line.
  destruct (unlocked_read_spec c Hok) as (Hok1 & Hs1 & Ho1 & _).
  pose proof (ok_in _ Hok) as Hi. pose proof (ok_in _ Hok1) as Hi1.
  rewrite search_char_pending by done. destruct (index_of 10 (in_pending c)) as [k|] eqn:E.
  { rewrite (proj2 (Z.ltb_ge _ _)) by lia.
    destruct (take_line_spec c k Hok E) as (line & o & c' & -> & ? & ? & ? & ? & ?). eauto 10. }
  simpl. rewrite search_char_pending by done.
  destruct (index_of 10 (in_pending (unlocked_read c))) as [k|] eqn:E1; simpl.
  - rewrite (proj2 (Z.ltb_ge _ _)) by lia.
    destruct (take_line_spec _ k Hok1 E1) as (line & o & c' & -> & ? & ? & ? & ? & ?).
    exists (Some o), c'. split_and!; [done|done|by eapply same_out_trans|].
    exists line. split_and!; [by rewrite <-Hs1|done|done].
  - do 2 eexists. split; [done|]. split_and!; try done. by apply index_of_None.
Qed.

(** ** Frames with a length *)

Section Frames.
Context {N : NetworkOrder} {NL : NetworkOrderLaws N}.

(** The octets of a message on the wire. *)
Definition frame (data : list Z) : list Z :=
  encode_network_long (Z.of_nat (length data)) ++ data.

Lemma length_frame data : length (frame data) = (4 + length data)%nat.
Proof. unfold frame. by rewrite length_app, encode_length. Qed.

(** [conn_read_withlen] looks at the buffer once.  With a whole frame it
    takes it, otherwise it leaves the buffer as it is and remembers a length
    that is not negative. *)
Lemma withlen_try_spec c len data rest more :
  conn_ok c -> 0 <= len -> Z.of_nat (length data) < 2 ^ 31 ->
  in_pending c ++ more = frame data ++ rest ->
  if (length (frame data) <=? length (in_pending c))%nat
  then exists o c', withlen_try c len = Done (Some o, Z.of_nat (length data), c') /\ conn_ok c' /\
         same_out c c' /\ octets o = data /\ in_stream c = frame data ++ in_stream c'
  else exists len', withlen_try c len = Done (None, len', c) /\ 0 <= len'.
Proof.
  intros Hok Hlen Hd E. unfold withlen_try. pose proof (inbuf_len_pending c Hok) as Hil.
  pose proof (ok_in _ Hok) as Hi. rewrite octstr_len_spec in Hi.
  simpl withlen_length. rewrite Hil, length_frame.
  destruct (Z.ltb_spec (Z.of_nat (length (in_pending c))) 4) as [H4|H4].
  { rewrite (proj2 (Nat.leb_gt _ _)) by lia. exists len. rewrite Hil.
    rewrite (proj2 (Z.ltb_lt _ _)) by lia. done. }
  assert (Hhead : take 4 (in_pending c) = encode_network_long (Z.of_nat (length data))).
  { transitivity (take 4 (in_pending c ++ more)); [by rewrite take_app_le by lia|].
    rewrite E. unfold frame. rewrite <-app_assoc. apply take_app_length'.
    by rewrite encode_length. }
  rewrite octstr_get_many_chars_z by lia. change (Z.to_nat 4) with 4%nat.
  change (drop (Z.to_nat (inbufpos c)) (octets (inbuf c))) with (in_pending c).
  rewrite Hhead, decode_encode by lia. rewrite (proj2 (Z.ltb_ge _ _)) by lia. cbv beta iota.
  rewrite Hil.
  destruct (Z.ltb_spec (Z.of_nat (length (in_pending c)) - 4) (Z.of_nat (length data))) as [Hs|Hs].
  { rewrite (proj2 (Nat.leb_gt _ _)) by lia. eexists. split; [done|lia]. }
  rewrite (proj2 (Nat.leb_le _ _)) by lia.
  set (c1 := set_in c (inbuf c) (inbufpos c + 4)).
  assert (Ep1 : in_pending c1 = drop 4 (in_pending c)).
  { unfold in_pending. simpl. by rewrite drop_drop, Z2Nat.inj_add by lia. }
  assert (Hok1 : conn_ok c1).
  { split; [apply Hok| |apply Hok]. simpl. rewrite octstr_len_spec.
    unfold in_pending in H4. rewrite length_drop in H4. lia. }
  destruct (unlocked_get_spec c1 (Z.of_nat (length data)) Hok1) as (o & c' & -> & ? & ? & Eo & _ & Es).
  { rewrite Ep1, length_drop. lia. }
  simpl. exists o, c'.
  assert (Eod : octets o = data).
  { rewrite Eo, Nat2Z.id, Ep1.
    transitivity (take (length data) (drop 4 (in_pending c ++ more))).
    - rewrite drop_app_le, take_app_le by (rewrite ?length_drop; lia). done.
    - rewrite E. unfold frame. rewrite <-app_assoc, drop_app_length' by (by rewrite encode_length).
      apply take_app_length. }
  split_and!; try done. unfold frame. rewrite <-app_assoc, <-Eod, <-Es, Eod, <-Hhead.
  unfold in_stream. rewrite Ep1, app_assoc, take_drop. done.
Qed.

Lemma conn_read_withlen_spec c data rest :
  conn_ok c -> Z.of_nat (length data) < 2 ^ 31 -> in_stream c = frame data ++ rest ->
  exists r c', conn_read_withlen c = Done (r, c') /\ conn_ok c' /\ same_out c c' /\
    match r with
    | Some o => octets o = data /\ in_stream c' = rest
    | None => in_stream c' = in_stream c /\ (length (in_pending c') < length (frame data))%nat
    end.
Proof.
  intros Hok Hd E. unfold conn_read_withlen.
  pose proof (withlen_try_spec c 0 data rest _ Hok ltac:(lia) Hd E) as H1.
  destruct (length (frame data) <=? length (in_pending c))%nat.
  { destruct H1 as (o & c' & -> & ? & ? & ? & Es). simpl. exists (Some o), c'.
    split_and!; [done..|]. rewrite E in Es. by apply app_inv_head in Es. }
  destruct H1 as (len' & -> & Hl). simpl.
  destruct (unlocked_read_spec c Hok) as (Hok1 & Hs1 & Ho1 & _). rewrite E in Hs1.
  pose proof (withlen_try_spec _ len' data rest _ Hok1 Hl Hd Hs1) as H2.
  destruct (Nat.leb_spec (length (frame data)) (length (in_pending (unlocked_read c)))).
  - destruct H2 as (o & c' & -> & ? & ? & ? & Es). simpl. exists (Some o), c'.
    split_and!; [done|done|by eapply same_out_trans|done|].
    rewrite Hs1 in Es. by apply app_inv_head in Es.
  - destruct H2 as (? & -> & _). simpl. exists None, (unlocked_read c).
    split_and!; try done. congruence.
Qed.

Lemma conn_write_withlen_spec c data :
  conn_ok c ->
  let '(r, c') := conn_write_withlen c data in
  conn_ok c' /\ out_stream c' = out_stream c ++ frame (octets data) /\ same_in c c' /\
  write_result r c'.
Proof.
  intros Hok. unfold conn_write_withlen. rewrite octstr_len_spec.
  set (l := encode_network_long _).
  destruct (append_out c (octstr_append_data (outbuf c) l) l Hok) as [Hok1 Hs1].
  { apply octstr_append_data_spec, encode_octets. }
  set (c1 := set_out c _ _) in *.
  destruct (append_out c1 (octstr_append (outbuf c1) data) (octets data) Hok1) as [Hok2 Hs2].
  { apply octstr_append_spec. }
  set (c2 := set_out c1 _ _) in *.
  destruct (unlocked_try_write_spec c2 Hok2) as (? & Hs & Hi & ?).
  destruct (unlocked_try_write c2) as [r c']. simpl in *.
  rewrite Hs, Hs2, Hs1, <-app_assoc. done.
Qed.

End Frames.

(** ** Packets between two marks *)

(** A packet: it begins with the start mark and ends with the first end
    mark. *)
Definition is_packet (sm em : Z) (l : list Z) : Prop :=
  head l = Some sm /\ exists before, l = before ++ [em] /\ (em ∉ before).

Lemma packet_try_spec c sm em :
  conn_ok c ->
  exists r c' skipped, packet_try c sm em = Done (r, c') /\ conn_ok c' /\ same_out c c' /\
    in_stream c = skipped ++ default [] (octets <$> r) ++ in_stream c' /\ (sm ∉ skipped) /\
    match r with
    | Some o => is_packet sm em (octets o)
    | None => (sm ∉ in_pending c') \/ (em ∉ in_pending c')
    end.
Proof.
  intros Hok. unfold packet_try. rewrite search_char_pending by done.
  pose proof (ok_in _ Hok) as Hi. rewrite octstr_len_spec in Hi.
  destruct (index_of sm (in_pending c)) as [k|] eqn:Ek; simpl.
  2:{ eexists None, _, (in_pending c). split; [done|].
    assert (En : in_pending (set_in c (inbuf c) (octstr_len (inbuf c))) = []).
    { unfold in_pending. simpl. rewrite octstr_len_spec, Nat2Z.id. by rewrite drop_all. }
    split_and!; [|done| |by apply index_of_None|].
    - split; [apply Hok| |apply Hok]. simpl. rewrite octstr_len_spec. lia.
    - unfold in_stream. by rewrite En.
    - left. rewrite En. apply not_elem_of_nil. }
  rewrite (proj2 (Z.ltb_ge _ _)) by lia.
  pose proof (index_of_lt _ _ _ Ek) as Hk. apply index_of_Some in Ek as [Ek Hnk].
  set (c1 := set_in c _ _).
  assert (Ep1 : in_pending c1 = drop k (in_pending c)).
  { unfold in_pending. simpl. by rewrite drop_drop, Z2Nat.inj_add, Nat2Z.id by lia. }
  assert (Ed1 : in_pending c1 = sm :: drop (S k) (in_pending c)).
  { rewrite Ep1, Ek at 1. by rewrite drop_app_length' by (rewrite length_take; lia). }
  assert (Hok1 : conn_ok c1).
  { split; [apply Hok| |apply Hok]. simpl. rewrite octstr_len_spec.
    unfold in_pending in Hk. rewrite length_drop in Hk. lia. }
  assert (Es1 : in_stream c = take k (in_pending c) ++ in_stream c1).
  { unfold in_stream. by rewrite Ep1, app_assoc, take_drop. }
  rewrite (search_char_pending c1) by done.
  destruct (index_of em (in_pending c1)) as [j|] eqn:Ej; simpl.
  - rewrite (proj2 (Z.ltb_ge _ _)) by lia. replace (_ - _ + 1) with (Z.of_nat (S j)) by lia.
    pose proof (index_of_lt _ _ _ Ej) as Hj. apply index_of_Some in Ej as [Ej Hnj].
    destruct (unlocked_get_spec c1 (Z.of_nat (S j)) Hok1) as (o & c' & -> & ? & ? & Eo & _ & Es); [lia|].
    rewrite Nat2Z.id in Eo. eexists (Some o), c', _. split; [done|]. simpl.
    split_and!; [done|done|by rewrite Es1, Es|done|split].
    + by rewrite Eo, Ed1.
    + exists (take j (in_pending c1)). split; [|done]. rewrite Eo.
      apply take_S_r. rewrite Ej. apply list_lookup_middle. rewrite length_take. lia.
  - eexists None, c1, _. split; [done|]. split_and!; try done. right. by apply index_of_None.
Qed.

Lemma conn_read_packet_spec c sm em :
  conn_ok c ->
  exists r c' skipped, conn_read_packet c sm em = Done (r, c') /\ conn_ok c' /\ same_out c c' /\
    in_stream c = skipped ++ default [] (octets <$> r) ++ in_stream c' /\ (sm ∉ skipped) /\
    match r with
    | Some o => is_packet sm em (octets o)
    | None => (sm ∉ in_pending c') \/ (em ∉ in_pending c')
    end.
Proof.
  intros Hok. unfold conn_read_packet.
  destruct (packet_try_spec c sm em Hok) as (r & c1 & sk & -> & Hok1 & Ho1 & Es1 & Hn1 & Hr).
  simpl. destruct r as [o|]; [eauto 15|].
  destruct (unlocked_read_spec c1 Hok1) as (Hok2 & Es2 & Ho2 & _).
  destruct (packet_try_spec _ sm em Hok2) as (r & c3 & sk3 & -> & Hok3 & Ho3 & Es3 & Hn3 & Hr3).
  exists r, c3, (sk ++ sk3). split_and!; [done|done| | | |done].
  - eapply same_out_trans; [exact Ho1|]. by eapply same_out_trans.
  - rewrite Es1. simpl. by rewrite <-Es2, Es3, <-app_assoc.
  - rewrite elem_of_app. tauto.
Qed.

End Proofs.

#[export] Hint Resolve same_in_refl same_out_refl : smpp.

(** ** Theorems *)

Section Theorems.
Context {O : OctstrLib} {OL : OctstrLaws O} {N : NetworkOrder} {NL : NetworkOrderLaws N}.

(** C18 Writing never loses, repeats or reorders an octet: whatever the
    socket answers, [conn_write] adds exactly the octets of its argument to
    the octets handed to the kernel followed by those still buffered, leaves
    the input alone and keeps the invariant; it returns 0 exactly when
    nothing waits in the buffer, 1 when something does and -1 when the
    connection is in error; and when [conn_flush] returns 0 the kernel has
    everything that was written. *)
Theorem conn_write_stream (c : Connection) (data : octstr) (Hok : conn_ok c) :
  (let '(r, c') := conn_write c data in
   conn_ok c' /\ out_stream c' = out_stream c ++ octets data /\ in_stream c' = in_stream c /\
   (r = 0 /\ out_pending c' = [] \/ r = 1 /\ out_pending c' <> [] \/
    r = -1 /\ io_error c' = true)) /\
  (let '(r, c') := conn_flush c in
   conn_ok c' /\ out_stream c' = out_stream c /\ in_stream c' = in_stream c /\
   (r = 0 -> peer (sock c') = out_stream c)).
Proof.
  split.
  - pose proof (conn_write_spec c data Hok) as H. destruct (conn_write c data) as [r c'].
    destruct H as (? & ? & ? & ?). split_and!; try done. by apply in_stream_same.
  - pose proof (conn_flush_spec c Hok) as H. destruct (conn_flush c) as [r c'].
    destruct H as (? & ? & ? & ?). split_and!; try done. by apply in_stream_same.
Qed.

(** C19 Reading partitions the input stream: the reading functions never fail
    an assertion, never touch the output, and take from the front of what can
    still be read exactly what they return - [conn_read_fixed] as many octets as
    it is asked for, [conn_read_line] a line with its line feed (the carriage
    return dropped), [conn_read_packet] a packet from the first start mark to
    the next end mark after octets without a start mark,
    [conn_read_everything] all that is buffered, and [conn_read_withlen], where
    the stream goes on with the frame of a message, that message with its
    length - or, when they return NULL, nothing but the octets before a start
    mark, because what they look for has not arrived. *)
Theorem conn_read_partitions (c : Connection) (length sm em : Z) (Hok : conn_ok c) :
  (exists r c', conn_read_fixed c length = Done (r, c') /\ conn_ok c' /\
     out_stream c' = out_stream c /\
     in_stream c = default [] (octets <$> r) ++ in_stream c' /\
     (forall o, r = Some o -> Z.of_nat (List.length (octets o)) = length) /\
     (r = None -> length < 1 \/ Z.of_nat (List.length (in_pending c')) < length)) /\
  (exists r c', conn_read_line c = Done (r, c') /\ conn_ok c' /\ out_stream c' = out_stream c /\
     match r with
     | Some o => exists line, in_stream c = line ++ [10] ++ in_stream c' /\ (10 ∉ line) /\
                   octets o = strip_cr line
     | None => in_stream c = in_stream c' /\ (10 ∉ in_pending c')
     end) /\
  (exists r c' skipped, conn_read_packet c sm em = Done (r, c') /\ conn_ok c' /\
     out_stream c' = out_stream c /\
     in_stream c = skipped ++ default [] (octets <$> r) ++ in_stream c' /\ (sm ∉ skipped) /\
     match r with
     | Some o => is_packet sm em (octets o)
     | None => (sm ∉ in_pending c') \/ (em ∉ in_pending c')
     end) /\
  (exists r c', conn_read_everything c = Done (r, c') /\ conn_ok c' /\ out_stream c' = out_stream c /\
     in_stream c = default [] (octets <$> r) ++ in_stream c' /\ in_pending c' = [] /\
     (forall o, r = Some o -> octets o <> [])) /\
  (forall data rest, Z.of_nat (List.length data) < 2 ^ 31 -> in_stream c = frame data ++ rest ->
   exists r c', conn_read_withlen c = Done (r, c') /\ conn_ok c' /\ out_stream c' = out_stream c /\
     match r with
     | Some o => octets o = data /\ in_stream c' = rest
     | None => in_stream c' = in_stream c /\ (List.length (in_pending c') < List.length (frame data))%nat
     end).
Proof.
  split_and!.
  - destruct (conn_read_fixed_spec c length Hok) as (r & c' & ? & ? & Ho & ? & ? & ?).
    exists r, c'. split_and!; try done. by apply out_stream_same.
  - destruct (conn_read_line_spec c Hok) as (r & c' & ? & ? & Ho & ?).
    exists r, c'. split_and!; try done. by apply out_stream_same.
  - destruct (conn_read_packet_spec c sm em Hok) as (r & c' & sk & ? & ? & Ho & ? & ? & ?).
    exists r, c', sk. split_and!; try done. by apply out_stream_same.
  - destruct (conn_read_everything_spec c Hok) as (r & c' & ? & ? & Ho & ? & ? & ?).
    exists r, c'. split_and!; try done. by apply out_stream_same.
  - intros data rest Hd Hs. destruct (conn_read_withlen_spec c data rest Hok Hd Hs) as (r & c' & ? & ? & Ho & ?).
    exists r, c'. split_and!; try done. by apply out_stream_same.
Qed.

(** Messages framed with their length cross the connection whole:
    [conn_write_withlen] puts the length and the octets on the stream, and
    when the stream to read begins with the frame of a message,
    [conn_read_withlen] either returns that message and leaves the stream
    right behind it, or returns NULL with the stream unchanged because the
    frame has not arrived yet. *)
Lemma withlen_roundtrip (w r : Connection) (data : octstr) (rest : list Z)
    (Hw : conn_ok w) (Hr : conn_ok r) (Hd : octstr_len data < 2 ^ 31)
    (Hs : in_stream r = frame (octets data) ++ rest) :
  out_stream (conn_write_withlen w data).2 = out_stream w ++ frame (octets data) /\
  exists o r', conn_read_withlen r = Done (o, r') /\ conn_ok r' /\ out_stream r' = out_stream r /\
    match o with
    | Some o => octets o = octets data /\ in_stream r' = rest
    | None => in_stream r' = in_stream r /\
        (length (in_pending r') < length (frame (octets data)))%nat
    end.
Proof.
  split.
  - pose proof (conn_write_withlen_spec w data Hw) as H.
    destruct (conn_write_withlen w data) as [x c']. exact (proj1 (proj2 H)).
  - rewrite octstr_len_spec in Hd.
    destruct (conn_read_withlen_spec r _ _ Hr Hd Hs) as (o & r' & E & ? & Ho & ?).
    exists o, r'. split_and!; try done. by apply out_stream_same.
Qed.

End Theorems.

(** ** Witnesses *)

(** Big-endian 32-bit numbers. *)
Definition be_encode (n : Z) : list Z :=
  [Z.shiftr n 24 mod 256; Z.shiftr n 16 mod 256; Z.shiftr n 8 mod 256; n mod 256].
Definition be_decode (l : list Z) : Z := foldl (fun a c => a * 256 + c) 0 l.

#[export] Instance big_endian : NetworkOrder := {|
  encode_network_long := be_encode;
  decode_network_long := be_decode;
|}.

#[export] Instance big_endian_laws : NetworkOrderLaws big_endian.
Proof.
  split; simpl; intros.
  - unfold be_encode. repeat constructor; apply Z.mod_pos_bound; lia.
  - done.
  - unfold be_decode, be_encode. simpl. rewrite !Z.shiftr_div_pow2 by lia.
    change (2 ^ 24) with (256 * (256 * 256)). change (2 ^ 16) with (256 * 256).
    change (2 ^ 8) with 256. rewrite <-!Z.div_div by lia.
    pose proof (Z.div_mod n 256 ltac:(lia)).
    pose proof (Z.div_mod (n / 256) 256 ltac:(lia)).
    pose proof (Z.div_mod (n / 256 / 256) 256 ltac:(lia)).
    assert (H3 : n / 256 / 256 / 256 < 256).
    { rewrite !Z.div_div by lia. apply Z.div_lt_upper_bound; lia. }
    assert (H4 : 0 <= n / 256 / 256 / 256) by (rewrite !Z.div_div by lia; apply Z.div_pos; lia).
    rewrite (Z.mod_small (n / 256 / 256 / 256)) by lia. lia.
Qed.

(** A socket that takes three octets, then an error; it delivers a frame and
    a line in two pieces. *)
Definition sample_socket : Socket :=
  MkSocket [3; -1] [ReadData [0; 0; 0]; ReadData [2; 104; 105; 97; 13; 10]] [(POLLOUT, false)] [] [].

Definition sample_conn : Connection (O:=list_octstr) := conn_wrap_fd (O:=list_octstr) sample_socket.

Lemma sample_conn_ok : conn_ok sample_conn.
Proof. split; simpl; [lia..|]. repeat constructor; simpl; repeat constructor; lia. Qed.

Lemma conn_write_stream_witness :
  (let '(r, c') := conn_write sample_conn [104; 101; 108; 108; 111] in
   conn_ok c' /\ out_stream c' = out_stream sample_conn ++ [104; 101; 108; 108; 111] /\
   in_stream c' = in_stream sample_conn /\
   (r = 0 /\ out_pending c' = [] \/ r = 1 /\ out_pending c' <> [] \/
    r = -1 /\ io_error c' = true)) /\
  (let '(r, c') := conn_flush sample_conn in
   conn_ok c' /\ out_stream c' = out_stream sample_conn /\ in_stream c' = in_stream sample_conn /\
   (r = 0 -> peer (sock c') = out_stream sample_conn)).
Proof. exact (conn_write_stream sample_conn [104; 101; 108; 108; 111] sample_conn_ok). Defined.

(** "hi". *)
Definition sample_data : octstr (OctstrLib:=list_octstr) := [104; 105].

Lemma conn_read_partitions_witness :
  (exists r c', conn_read_line sample_conn = Done (r, c') /\ conn_ok c' /\
     out_stream c' = out_stream sample_conn /\
     match r with
     | Some o => exists line, in_stream sample_conn = line ++ [10] ++ in_stream c' /\
                   (10 ∉ line) /\ octets o = strip_cr line
     | None => in_stream sample_conn = in_stream c' /\ (10 ∉ in_pending c')
     end) /\
  (exists r c', conn_read_withlen sample_conn = Done (r, c') /\ conn_ok c' /\
     out_stream c' = out_stream sample_conn /\
     match r with
     | Some o => octets o = sample_data /\ in_stream c' = [97; 13; 10]
     | None => in_stream c' = in_stream sample_conn /\
         (List.length (in_pending c') < List.length (frame sample_data))%nat
     end).
Proof.
  destruct (conn_read_partitions sample_conn 4 104 10 sample_conn_ok) as (_ & Hl & _ & _ & Hw).
  split; [exact Hl|]. apply (Hw sample_data [97; 13; 10]); reflexivity.
Defined.

Lemma withlen_roundtrip_witness :
  out_stream (conn_write_withlen sample_conn sample_data).2
  = out_stream sample_conn ++ frame (octets sample_data) /\
  exists o r', conn_read_withlen sample_conn = Done (o, r') /\ conn_ok r' /\
    out_stream r' = out_stream sample_conn /\
    match o with
    | Some o => octets o = octets sample_data /\ in_stream r' = [97; 13; 10]
    | None => in_stream r' = in_stream sample_conn /\
        (length (in_pending r') < length (frame (octets sample_data)))%nat
    end.
Proof.
  apply (withlen_roundtrip sample_conn sample_conn sample_data [97; 13; 10]
           sample_conn_ok sample_conn_ok); reflexivity.
Defined.

(** The frame arrives in two reads, so the second try returns it. *)
Example read_withlen_two_reads :
  match conn_read_withlen (unlocked_read sample_conn) with
  | Done (Some o, c) => (octets o, in_pending c) = ([104; 105], [97; 13; 10])
  | _ => False
  end.
Proof. vm_compute. reflexivity. Qed.
