(* ===== verification/ConnPoll.v ===== *)
(** * Connections that a polling thread watches (gwlib/conn.c)

    A connection may be registered with a set of descriptors ([Fdset]): the
    polling thread of the set then calls [poll_callback] when its socket is
    ready, and the connection tells the set for what it waits.  [Polled] adds
    to a connection of [Conn] the fields that serve this, and the list of the
    calls that it made outside; the theorem joins both components: after the
    set has done what the connection asked, its table holds for the
    descriptor just what the connection waits for. *)

From stdpp Require Import gmap.
From S2P Require Import Prelude Gwlib Fdset FdsetFacts Conn.
Open Scope Z_scope.

(** ** The structure *)

Section Operations.
(** The functions [callback] and [callback_data_destroyer], and the data. *)
Context {O : OctstrLib} {N : NetworkOrder} {C X V : Type} `{EqDecision V}.

(** The only callback of a set is [poll_callback] with a connection, that is
    its address, as data. *)
Notation request := (@operation unit Z).

Inductive note : Type :=
| Asked (set : Z) (o : request)
| Destroyed (destroyer : X) (data : V)
| Called (callback : C) (data : option V).

(** [set] is [registered] when [Conn.registered] says that this is not NULL. *)
Record Polled : Type := MkPolled {
  conn : Connection; addr : Z; conn_fd : Z; connected : bool; claimed : bool; set : Z;
  conn_callback : option C; callback_data : option V; callback_data_destroyer : option X;
  notes : list note
}.

Definition set_buffers (p : Polled) (c : Connection) : Polled :=
  MkPolled c (addr p) (conn_fd p) (connected p) (claimed p) (set p)
    (conn_callback p) (callback_data p) (callback_data_destroyer p) (notes p).
Definition add_notes (p : Polled) (l : list note) : Polled :=
  MkPolled (conn p) (addr p) (conn_fd p) (connected p) (claimed p) (set p)
    (conn_callback p) (callback_data p) (callback_data_destroyer p) (notes p ++ l).
Definition set_callback (p : Polled) (cb : option C) (data : option V) (x : option X) : Polled :=
  MkPolled (conn p) (addr p) (conn_fd p) (connected p) (claimed p) (set p) cb data x (notes p).
Definition set_fdset (p : Polled) (z : Z) : Polled :=
  MkPolled (conn p) (addr p) (conn_fd p) (connected p) (claimed p) z
    (conn_callback p) (callback_data p) (callback_data_destroyer p) (notes p).
Definition set_fd (p : Polled) (f : Z) : Polled :=
  MkPolled (conn p) (addr p) f (connected p) (claimed p) (set p)
    (conn_callback p) (callback_data p) (callback_data_destroyer p) (notes p).
Definition set_connected (p : Polled) : Polled :=
  MkPolled (conn p) (addr p) (conn_fd p) true (claimed p) (set p)
    (conn_callback p) (callback_data p) (callback_data_destroyer p) (notes p).
Definition set_claimed (p : Polled) : Polled :=
  MkPolled (conn p) (addr p) (conn_fd p) (connected p) true (set p)
    (conn_callback p) (callback_data p) (callback_data_destroyer p) (notes p).

(** The fields of [Connection] that registration changes. *)
Definition set_registered (c : Connection) (b : bool) : Connection :=
  MkConn (outbuf c) (outbufpos c) (output_buffering c) (inbuf c) (inbufpos c) (read_eof c)
    (io_error c) b (listening_pollin c) (listening_pollout c) (sock c).
Definition without_calls (c : Connection) : Connection :=
  set_sock c (MkSocket (writes (sock c)) (reads (sock c)) (polls (sock c)) (peer (sock c)) []).

(** [conn_wrap_fd]; after [conn_open_tcp_nb] the socket may not be connected
    yet. *)
Definition conn_wrap (a f : Z) (up : bool) (s : Socket) : Polled :=
  MkPolled (without_calls (Conn.conn_wrap_fd s)) a f up false 0 None None None [].

(** An operation of [Conn] with the calls of [fdset_listen] that it made. *)
Definition on_conn {A} (f : Connection -> A * Connection) (p : Polled) : A * Polled :=
  let '(a, c) := f (conn p) in
  let calls := (fun me => Asked (set p) (LISTEN (conn_fd p) me.1 me.2)) <$> listened (sock c) in
  (a, add_notes (set_buffers p (without_calls c)) calls).

(** ** The operations *)

(** A destroyer is called for data that is not NULL. *)
Definition destroy_data (p : Polled) : list note :=
  match callback_data p, callback_data_destroyer p with
  | Some v, Some x => [Destroyed x v]
  | _, _ => []
  end.

Definition first_events (p : Polled) : Z :=
  let c := conn p in
  if connected p then
    let events := if negb (read_eof c) && negb (io_error c) then POLLIN else 0 in
    if 0 <? unlocked_outbuf_len c then Z.lor events POLLOUT else events
  else Z.lor POLLIN POLLOUT.

Definition conn_register_real (p : Polled) (fdset : Z) (cb : option C) (data : option V) (x : option X) : Z * Polled :=
  if conn_fd p <? 0 then (-1, p)
  else if registered (conn p) && (set p =? fdset) then
    let l := if bool_decide (callback_data p = data) then [] else destroy_data p in
    (0, set_callback (add_notes p l) cb data x)
  else if registered (conn p) then (-1, p)
  else
    let events := first_events p in
    let c := set_registered (conn p) true in
    let c := set_pollout (set_pollin c (has_flag events POLLIN)) (has_flag events POLLOUT) in
    let p := set_callback (set_fdset (set_buffers p c) fdset) cb data x in
    (0, add_notes p [Asked fdset (REGISTER (conn_fd p) events tt (addr p))]).

(** The set hears of it when the locks are free again. *)
Definition conn_unregister (p : Polled) : Polled :=
  if conn_fd p <? 0 then p
  else if registered (conn p) then
    let l := destroy_data p in
    let c := set_pollout (set_pollin (set_registered (conn p) false) false) false in
    add_notes (set_callback (set_buffers p c) None None None) (l ++ [Asked (set p) (UNREGISTER (conn_fd p))])
  else p.

(** The structure is freed at the end; this is what was done before, with the
    socket closed. *)
Definition conn_destroy (p : Polled) : Polled :=
  let p := if registered (conn p)
           then add_notes p (Asked (set p) (UNREGISTER (conn_fd p)) :: destroy_data p) else p in
  if 0 <=? conn_fd p then set_fd (on_conn unlocked_try_write p).2 (-1) else p.

Definition conn_claim (p : Polled) : outcome Polled :=
  if claimed p then Panic else Done (set_claimed p).

Definition conn_is_connected (p : Polled) : Z := if connected p then 0 else -1.

(** [answer] is what [getsockopt] gives: [None] for an error. *)
Definition conn_get_connect_result (p : Polled) (answer : option Z) : Z * Polled :=
  match answer with
  | None => (-1, p)
  | Some err => if negb (err =? 0) then (-1, p) else (0, set_connected p)
  end.

Definition call_back (p : Polled) : Polled :=
  match conn_callback p with Some cb => add_notes p [Called cb (callback_data p)] | None => p end.

(** [poll_callback], with the guards before what [Conn.poll_callback] does. *)
Definition poll_callback_real (p : Polled) (f revents : Z) : Polled :=
  if negb (conn_fd p =? f) then p
  else if negb (connected p) then call_back p
  else
    let '(do_callback, p) := on_conn (fun c => Conn.poll_callback c revents) p in
    if do_callback then call_back p else p.

(** *** What a program does with a connection *)

Inductive conn_call : Type :=
| Register (fdset : Z) (cb : option C) (data : option V) (x : option X)
| Unregister
| Write (data : octstr)
| WriteData (data : list Z)
| WriteWithlen (data : octstr)
| OutputBuffering (size : Z)
| Flush
| Wait
| ReadEverything
| ReadFixed (n : Z)
| ReadLine
| ReadWithlen
| ReadPacket (startmark endmark : Z)
| Ready (f revents : Z).     (* the polling thread calls [poll_callback] *)

(** A reading operation may stop the process. *)
Definition reading (f : Connection -> outcome (option octstr * Connection)) (p : Polled) : outcome Polled :=
  match f (conn p) with
  | Done r => Done (on_conn (fun _ => r) p).2
  | Panic => Panic
  end.

Definition conn_do (p : Polled) (k : conn_call) : outcome Polled :=
  match k with
  | Register fdset cb data x => Done (conn_register_real p fdset cb data x).2
  | Unregister => Done (conn_unregister p)
  | Write data => Done (on_conn (fun c => conn_write c data) p).2
  | WriteData data => Done (on_conn (fun c => conn_write_data c data) p).2
  | WriteWithlen data => Done (on_conn (fun c => conn_write_withlen c data) p).2
  | OutputBuffering size => Done (on_conn (fun c => (tt, conn_set_output_buffering c size)) p).2
  | Flush => Done (on_conn conn_flush p).2
  | Wait => Done (on_conn conn_wait p).2
  | ReadEverything => reading conn_read_everything p
  | ReadFixed n => reading (fun c => conn_read_fixed c n) p
  | ReadLine => reading conn_read_line p
  | ReadWithlen => reading conn_read_withlen p
  | ReadPacket startmark endmark => reading (fun c => conn_read_packet c startmark endmark) p
  | Ready f revents => Done (poll_callback_real p f revents)
  end.

Fixpoint conn_do_all (p : Polled) (l : list conn_call) : outcome Polled :=
  match l with
  | [] => Done p
  | k :: l => p ← conn_do p k; conn_do_all p l
  end.

End Operations.

(** ** What a connection waits for *)

Section Rule.
Context {O : OctstrLib} {N : NetworkOrder}.

(** The events of the entry of a connection in its set. *)
Definition flags (c : Connection) : Z :=
  (if listening_pollin c then POLLIN else 0) + (if listening_pollout c then POLLOUT else 0).

(** What [fdset_listen] does to the events of an entry. *)
Definition follow (ev : Z) (me : Z * Z) : Z :=
  wrap_short (Z.lor (Z.land ev (Z.lnot me.1)) (Z.land me.2 me.1)).

(** From [c] to [c'] the connection told its set all that changed. *)
Definition asks (c c' : Connection) : Prop :=
  registered c' = registered c /\
  exists l, listened (sock c') = listened (sock c) ++ l /\ foldl follow (flags c) l = flags c' /\
    (registered c = false -> flags c = 0 -> l = []).

(** The rule that the source states: wait for input, except when no more will
    come, and wait for output only when there is some to send. *)
Definition begun (c : Connection) : Prop :=
  (registered c = false -> flags c = 0) /\
  (registered c = true ->
    (listening_pollin c = true -> read_eof c = false) /\
    (listening_pollin c = false -> read_eof c = true \/ io_error c = true) /\
    (listening_pollout c = true -> 0 < unlocked_outbuf_len c)).

Definition waits_well (c : Connection) : Prop :=
  begun c /\
  (registered c = true -> 0 < unlocked_outbuf_len c ->
     listening_pollout c = true \/ io_error c = true \/ unlocked_outbuf_len c < output_buffering c).

Lemma flags_range c : 0 <= flags c < 8.
Proof. unfold flags, POLLIN, POLLOUT. repeat case_match; lia. Qed.

Lemma flags_zero c : flags c = 0 -> listening_pollin c = false /\ listening_pollout c = false.
Proof. unfold flags, POLLIN, POLLOUT. repeat case_match; lia || done. Qed.

Lemma asks_refl c : asks c c.
Proof. split; [done|]. exists []. by rewrite app_nil_r. Qed.

Lemma asks_trans c1 c2 c3 : asks c1 c2 -> asks c2 c3 -> asks c1 c3.
Proof.
  intros (R1 & l1 & E1 & F1 & Z1) (R2 & l2 & E2 & F2 & Z2). split; [congruence|]. exists (l1 ++ l2).
  rewrite E2, E1, app_assoc, foldl_app, F1, F2. split_and!; try done. intros Hr Hf.
  rewrite Z1, Z2 by (done || congruence || (rewrite Z1 in F1 by done; simpl in F1; congruence)). done.
Qed.

(** Nothing that matters to the set. *)
Definition same_listening (c c' : Connection) : Prop :=
  registered c' = registered c /\ listening_pollin c' = listening_pollin c /\
  listening_pollout c' = listening_pollout c /\ listened (sock c') = listened (sock c).

Lemma same_listening_asks c c' : same_listening c c' -> asks c c'.
Proof.
  intros (R & I & P & L). split; [done|]. exists []. rewrite app_nil_r. split; [done|]. unfold flags. by rewrite I, P.
Qed.

Lemma register_pollin_asks c b : registered c = true -> asks c (unlocked_register_pollin c b).
Proof.
  intros Hr. unfold unlocked_register_pollin. destruct b, (listening_pollin c) eqn:E; try apply asks_refl;
    (split; [done|]; eexists; split; [reflexivity|]; split; [|congruence]);
    unfold flags; simpl; rewrite ?E; by destruct (listening_pollout c).
Qed.

Lemma register_pollout_asks c b : registered c = true -> asks c (unlocked_register_pollout c b).
Proof.
  intros Hr. unfold unlocked_register_pollout. destruct b, (listening_pollout c) eqn:E; try apply asks_refl;
    (split; [done|]; eexists; split; [reflexivity|]; split; [|congruence]);
    unfold flags; simpl; rewrite ?E; by destruct (listening_pollin c).
Qed.

(** What the two leave behind. *)
Lemma register_pollin_is c b :
  listening_pollin (unlocked_register_pollin c b) = b /\
  listening_pollout (unlocked_register_pollin c b) = listening_pollout c /\
  unlocked_outbuf_len (unlocked_register_pollin c b) = unlocked_outbuf_len c /\
  read_eof (unlocked_register_pollin c b) = read_eof c /\ io_error (unlocked_register_pollin c b) = io_error c /\
  output_buffering (unlocked_register_pollin c b) = output_buffering c /\
  registered (unlocked_register_pollin c b) = registered c.
Proof. unfold unlocked_register_pollin. by destruct b, (listening_pollin c) eqn:E. Qed.

Lemma register_pollout_is c b :
  listening_pollout (unlocked_register_pollout c b) = b /\
  listening_pollin (unlocked_register_pollout c b) = listening_pollin c /\
  unlocked_outbuf_len (unlocked_register_pollout c b) = unlocked_outbuf_len c /\
  read_eof (unlocked_register_pollout c b) = read_eof c /\ io_error (unlocked_register_pollout c b) = io_error c /\
  output_buffering (unlocked_register_pollout c b) = output_buffering c /\
  registered (unlocked_register_pollout c b) = registered c.
Proof. unfold unlocked_register_pollout. by destruct b, (listening_pollout c) eqn:E. Qed.

(** *** The operations *)

Lemma sock_write_listened s l : listened (sock_write s l).2 = listened s.
Proof. unfold sock_write. repeat case_match; done. Qed.
Lemma sock_read_listened s : listened (sock_read s).2 = listened s.
Proof. unfold sock_read. repeat case_match; done. Qed.
Lemma pollfd_listened s ev : listened (gwthread_pollfd s ev).2 = listened s.
Proof. unfold gwthread_pollfd. repeat case_match; done. Qed.

(** An operation that keeps the rule, from a state in which it may be that
    output waits unnoticed. *)
Definition good (c c' : Connection) : Prop := asks c c' /\ (begun c -> waits_well c').
Definition keeps_rule (c c' : Connection) : Prop := asks c c' /\ (begun c -> begun c') /\ (waits_well c -> waits_well c').

Lemma good_keeps c c' : good c c' -> keeps_rule c c'.
Proof. intros (A & B). split_and!; try done; [intros Hb; by destruct (B Hb)|intros [Hb _]; by apply B]. Qed.

Lemma keeps_rule_refl c : keeps_rule c c.
Proof. split_and!; [apply asks_refl|done..]. Qed.

Lemma keeps_rule_trans c1 c2 c3 : keeps_rule c1 c2 -> keeps_rule c2 c3 -> keeps_rule c1 c3.
Proof. intros (A1 & B1 & W1) (A2 & B2 & W2). split_and!; [by eapply asks_trans|auto..]. Qed.

Lemma keeps_rule_good c1 c2 c3 : keeps_rule c1 c2 -> good c2 c3 -> good c1 c3.
Proof. intros (A1 & B1 & W1) (A2 & W2). split; [by eapply asks_trans|auto]. Qed.

Lemma good_then c1 c2 c3 : good c1 c2 -> keeps_rule c2 c3 -> good c1 c3.
Proof. intros (A1 & B1) (A2 & B2 & W2). split; [by eapply asks_trans|auto]. Qed.

(** Nothing changes but the input, the socket, or an error that is noted. *)
Definition same_waits (c c' : Connection) : Prop :=
  same_listening c c' /\ unlocked_outbuf_len c' = unlocked_outbuf_len c /\ output_buffering c' = output_buffering c /\
  read_eof c' = read_eof c /\ (io_error c = true -> io_error c' = true).

Lemma same_waits_keeps c c' : same_waits c c' -> keeps_rule c c'.
Proof.
  intros (U & Hl & Hb & He & Hi). split; [by apply same_listening_asks|]. destruct U as (R & I & P & _).
  unfold waits_well, begun, flags. rewrite R, I, P, Hl, Hb, He. naive_solver.
Qed.

Lemma unlocked_write_good c : good c (unlocked_write c).2.
Proof.
  unfold unlocked_write. pose proof (sock_write_listened (sock c) (drop (Z.to_nat (outbufpos c)) (octets (outbuf c)))) as Hl.
  destruct (sock_write _ _) as [ret s]. simpl in Hl. destruct (ret <? 0).
  - split; [by apply same_listening_asks|]. intros (Hz & Hr). split; [|by auto]. split; [done|].
    intros H. destruct (Hr H) as (? & ? & ?). split_and!; auto.
  - simpl. set (c1 := set_out (set_sock c s) _ _). set (c2 := if _ <? _ then set_out c1 _ _ else c1).
    assert (E : same_listening c c2 /\ output_buffering c2 = output_buffering c /\ read_eof c2 = read_eof c /\ io_error c2 = io_error c)
      by (unfold c2; by case_match).
    destruct E as (U & Eb & Ee & Ei). pose proof U as (R & I & P & _). clearbody c2. clear c1 Hl.
    destruct (registered c2) eqn:Er.
    + destruct (register_pollout_is c2 (0 <? unlocked_outbuf_len c2)) as (F1 & F2 & F3 & F4 & F5 & F6 & F7).
      split.
      * eapply asks_trans; [by apply same_listening_asks|by apply register_pollout_asks].
      * intros (Hz & Hr). unfold waits_well, begun. rewrite F1, F2, F3, F4, F5, F6, F7, I, Ee, Ei, Er.
        destruct (Hr ltac:(congruence)) as (H1 & H2 & _). split; [split; [done|]|]; intros _; [|].
        -- split_and!; try done. intros ?. zlia.
        -- intros Hlt. left. by apply Z.ltb_lt.
    + split; [by apply same_listening_asks|]. intros (Hz & Hr). unfold waits_well, begun. rewrite Er.
      split; [split; [|done]|done]. intros _. unfold flags in *. rewrite I, P. apply Hz. congruence.
Qed.

Lemma unlocked_try_write_good c : good c (unlocked_try_write c).2.
Proof.
  unfold unlocked_try_write. destruct (Z.eqb_spec (unlocked_outbuf_len c) 0) as [E|E]; simpl.
  { split; [apply asks_refl|]. intros Hb. split; [done|]. lia. }
  destruct (Z.ltb_spec (unlocked_outbuf_len c) (output_buffering c)) as [Hlt|Hge]; simpl.
  { split; [apply asks_refl|]. intros Hb. split; [done|]. auto. }
  pose proof (unlocked_write_good c) as H. destruct (unlocked_write c) as [ret c']. simpl in H. by repeat case_match.
Qed.

(** What [unlocked_read] does when it knows that no more will come. *)
Lemma stop_reading c c' : same_listening c c' -> unlocked_outbuf_len c' = unlocked_outbuf_len c ->
  output_buffering c' = output_buffering c -> (io_error c = true -> io_error c' = true) ->
  read_eof c' = true \/ io_error c' = true ->
  keeps_rule c (if registered c' then unlocked_register_pollin c' false else c').
Proof.
  intros U El Eb Ei Hs. pose proof U as (R & I & P & _). destruct (registered c') eqn:Er.
  - destruct (register_pollin_is c' false) as (F1 & F2 & F3 & F4 & F5 & F6 & F7). split.
    { eapply asks_trans; [by apply same_listening_asks|by apply register_pollin_asks]. }
    unfold waits_well, begun. rewrite F1, F2, F3, F4, F5, F6, F7, P, El, Eb, Er, <-R. naive_solver.
  - split; [by apply same_listening_asks|]. unfold waits_well, begun, flags. rewrite I, P, Er, <-R. naive_solver.
Qed.

Lemma unlocked_read_keeps c : keeps_rule c (unlocked_read c).
Proof.
  unfold unlocked_read. set (c1 := if 0 <? inbufpos c then _ else c).
  assert (E1 : same_waits c c1) by (unfold c1; by case_match). clearbody c1. apply same_waits_keeps in E1.
  eapply keeps_rule_trans; [exact E1|]. pose proof (sock_read_listened (sock c1)) as Hl.
  destruct (sock_read (sock c1)) as [a s]. simpl in Hl. destruct a as [[]|l].
  - by apply same_waits_keeps.
  - apply stop_reading; try done. by right.
  - destruct (length l =? 0)%nat; [|by apply same_waits_keeps]. apply stop_reading; try done. by left.
Qed.

Lemma append_keeps c b : octstr_len (outbuf c) <= octstr_len b ->
  asks c (set_out c b (outbufpos c)) /\ (begun c -> begun (set_out c b (outbufpos c))).
Proof.
  intros Hl. split; [by apply same_listening_asks|]. unfold begun, flags, unlocked_outbuf_len. simpl. naive_solver lia.
Qed.

Lemma append_good c b c' : octstr_len (outbuf c) <= octstr_len b -> good (set_out c b (outbufpos c)) c' -> good c c'.
Proof.
  intros Hl (A & B). destruct (append_keeps c b Hl) as [A1 B1]. split; [by eapply asks_trans|auto].
Qed.

(** *** Whole operations *)

Context {OL : OctstrLaws O} {NL : NetworkOrderLaws N}.

Lemma conn_write_good c data : good c (conn_write c data).2.
Proof.
  eapply append_good; [|apply unlocked_try_write_good]. rewrite !octstr_len_spec, octstr_append_spec, length_app. lia.
Qed.

Lemma append_data_len b l : Forall (fun o => 0 <= o < 256) l -> octstr_len b <= octstr_len (octstr_append_data b l).
Proof. intros H. rewrite !octstr_len_spec, octstr_append_data_spec, length_app by done. lia. Qed.

Lemma conn_write_data_good c data : Forall (fun o => 0 <= o < 256) data -> good c (conn_write_data c data).2.
Proof. intros H. eapply append_good; [by apply append_data_len|apply unlocked_try_write_good]. Qed.

Lemma conn_write_withlen_good c data : good c (conn_write_withlen c data).2.
Proof.
  eapply append_good; [by apply append_data_len, encode_octets|]. eapply append_good; [|apply unlocked_try_write_good].
  simpl. rewrite !octstr_len_spec, octstr_append_spec, length_app. lia.
Qed.

Lemma conn_set_output_buffering_good c n : good c (conn_set_output_buffering c n).
Proof.
  destruct (unlocked_try_write_good (set_buffering c n)) as [A B]. split; [|exact B].
  eapply asks_trans; [|exact A]. by apply same_listening_asks.
Qed.

Lemma pollfd_keeps c ev : keeps_rule c (set_sock c (gwthread_pollfd (sock c) ev).2).
Proof. apply same_waits_keeps. pose proof (pollfd_listened (sock c) ev). by split_and!. Qed.

Lemma flush_loop_keeps fuel : forall c, keeps_rule c (flush_loop fuel c).2.
Proof.
  induction fuel as [|fuel IH]; intros c; simpl; [apply keeps_rule_refl|]. destruct (_ =? 0); [apply keeps_rule_refl|].
  pose proof (pollfd_keeps c POLLOUT) as Hp. destruct (gwthread_pollfd _ _) as [[rev e] s]. simpl in Hp.
  repeat (case_match; [simpl; done|]). case_match; [|by eapply keeps_rule_trans].
  pose proof (unlocked_write_good (set_sock c s)) as Hw. destruct (unlocked_write _) as [ret c1]. simpl in Hw.
  apply good_keeps in Hw. case_match; [by eapply keeps_rule_trans|]. eapply keeps_rule_trans; [exact Hp|]. by eapply keeps_rule_trans.
Qed.

Lemma conn_flush_good c : good c (conn_flush c).2.
Proof.
  unfold conn_flush. pose proof (unlocked_write_good c) as Hw. destruct (unlocked_write c) as [ret c1]. cbn [snd] in Hw.
  case_match; [done|]. eapply good_then; [exact Hw|apply flush_loop_keeps].
Qed.

Lemma conn_wait_good c : good c (conn_wait c).2.
Proof.
  unfold conn_wait. pose proof (unlocked_write_good c) as Hw. destruct (unlocked_write c) as [r c1]. cbn [snd] in Hw.
  do 2 (case_match; [done|]). eapply good_then; [exact Hw|].
  pose proof (pollfd_keeps c1 (wait_events c1)) as Hp. destruct (gwthread_pollfd _ _) as [[ret e] s]. cbn [snd] in Hp.
  do 3 (case_match; [done|]). case_match; [eapply keeps_rule_trans; [exact Hp|apply unlocked_read_keeps]|]. cbn [snd].
  eapply keeps_rule_trans; [exact Hp|]. set (c2 := if has_flag ret POLLOUT then _ else _).
  eapply (keeps_rule_trans _ c2); [unfold c2; case_match; [apply good_keeps, unlocked_write_good|apply keeps_rule_refl]|].
  case_match; [apply unlocked_read_keeps|apply keeps_rule_refl].
Qed.

(** Reading: the input buffer, after at most one read of the socket. *)
Lemma unlocked_get_keeps c n r c' : unlocked_get c n = Done (r, c') -> keeps_rule c c'.
Proof. unfold unlocked_get. destruct (n <=? _); [|done]. intros [= _ <-]. by apply same_waits_keeps. Qed.

Lemma got_keeps c n r c' : got <$> unlocked_get c n = Done (r, c') -> keeps_rule c c'.
Proof.
  destruct (unlocked_get c n) as [[r' c1]|] eqn:E; [|done]. intros [= _ <-]. by eapply unlocked_get_keeps.
Qed.

Lemma take_line_keeps c pos r c' : take_line c pos = Done (r, c') -> keeps_rule c c'.
Proof.
  unfold take_line. destruct (unlocked_get c (pos - inbufpos c)) as [[r' c1]|] eqn:E; [|done].
  apply unlocked_get_keeps in E. intros [= _ <-]. eapply keeps_rule_trans; [exact E|]. by apply same_waits_keeps.
Qed.

Lemma withlen_length_keeps fuel : forall c n, keeps_rule c (withlen_length fuel c n).2.
Proof.
  induction fuel as [|fuel IH]; intros c n; simpl; [apply keeps_rule_refl|]. do 2 (case_match; [simpl; try apply keeps_rule_refl|]).
  - eapply keeps_rule_trans; [|apply IH]. by apply same_waits_keeps.
  - apply keeps_rule_refl.
Qed.

Lemma withlen_try_keeps c n r m c' : withlen_try c n = Done (r, m, c') -> keeps_rule c c'.
Proof.
  unfold withlen_try. pose proof (withlen_length_keeps (S (Z.to_nat (unlocked_inbuf_len c))) c n) as H.
  destruct (withlen_length _ c n) as [k c1]. simpl in H. destruct (_ <? k); [by intros [= _ _ <-]|].
  destruct (unlocked_get _ k) as [[r' c2]|] eqn:E; [|done]. apply unlocked_get_keeps in E. intros [= _ _ <-].
  eapply keeps_rule_trans; [exact H|]. eapply keeps_rule_trans; [|exact E]. by apply same_waits_keeps.
Qed.

Lemma packet_try_keeps c sm em r c' : packet_try c sm em = Done (r, c') -> keeps_rule c c'.
Proof.
  unfold packet_try. destruct (_ <? 0); [intros [= _ <-]; by apply same_waits_keeps|].
  assert (H : keeps_rule c (set_in c (inbuf c) (octstr_search_char (inbuf c) sm (inbufpos c)))) by by apply same_waits_keeps.
  destruct (_ <? 0); [by intros [= _ <-]|]. intros E%got_keeps. eapply keeps_rule_trans; [exact H|exact E].
Qed.

(** The operations that read. *)
Definition read_operation (f : Connection -> outcome (option octstr * Connection)) : Prop :=
  forall c r c', f c = Done (r, c') -> keeps_rule c c'.

Lemma read_everything_keeps : read_operation conn_read_everything.
Proof.
  intros c r c'. unfold conn_read_everything. pose proof (unlocked_read_keeps c) as H.
  destruct (_ =? 0); [|by intros ?%got_keeps]. destruct (_ =? 0); [by intros [= _ <-]|].
  intros ?%got_keeps. by eapply keeps_rule_trans.
Qed.

Lemma read_fixed_keeps n : read_operation (fun c => conn_read_fixed c n).
Proof.
  intros c r c'. unfold conn_read_fixed. pose proof (unlocked_read_keeps c) as H.
  destruct (n <? 1); [intros [= _ <-]; apply keeps_rule_refl|]. destruct (_ <? n); [|by intros ?%got_keeps].
  destruct (_ <? n); [by intros [= _ <-]|]. intros ?%got_keeps. by eapply keeps_rule_trans.
Qed.

Lemma read_line_keeps : read_operation conn_read_line.
Proof.
  intros c r c'. unfold conn_read_line. pose proof (unlocked_read_keeps c) as H.
  destruct (_ <? 0); [|by intros ?%take_line_keeps]. destruct (_ <? 0); [by intros [= _ <-]|].
  intros ?%take_line_keeps. by eapply keeps_rule_trans.
Qed.

Lemma read_withlen_keeps : read_operation conn_read_withlen.
Proof.
  intros c r c'. unfold conn_read_withlen. destruct (withlen_try c 0) as [[[r1 n] c1]|] eqn:E; [|done].
  apply withlen_try_keeps in E. destruct r1; [by intros [= _ <-]|].
  cbn [mbind outcome_bind]. destruct (withlen_try (unlocked_read c1) n) as [[[r2 m] c2]|] eqn:E2; [|done]. apply withlen_try_keeps in E2.
  intros [= _ <-]. eapply keeps_rule_trans; [exact E|]. eapply keeps_rule_trans; [apply unlocked_read_keeps|exact E2].
Qed.

Lemma read_packet_keeps sm em : read_operation (fun c => conn_read_packet c sm em).
Proof.
  intros c r c'. unfold conn_read_packet. destruct (packet_try c sm em) as [[r1 c1]|] eqn:E; [|done].
  apply packet_try_keeps in E. destruct r1; [by intros [= _ <-]|]. intros E2%packet_try_keeps.
  eapply keeps_rule_trans; [exact E|]. eapply keeps_rule_trans; [apply unlocked_read_keeps|exact E2].
Qed.

(** [poll_callback]: after a hang-up nothing is waited for, unless the same
    poll also found that it could write. *)
Lemma hang_up_keeps c : registered c = true ->
  let c1 := if listening_pollin c then unlocked_register_pollin c false else c in
  let c2 := if listening_pollout c1 then unlocked_register_pollout c1 false else c1 in
  keeps_rule c (set_error c2).
Proof.
  intros Hr c1 c2.
  assert (E1 : registered c1 = true /\ asks c c1 /\ listening_pollin c1 = false /\ unlocked_outbuf_len c1 = unlocked_outbuf_len c).
  { unfold c1. destruct (listening_pollin c) eqn:E; [|by (split; [done|split; [apply asks_refl|done]])].
    destruct (register_pollin_is c false) as (-> & _ & -> & _ & _ & _ & ->). split_and!; try done. by apply register_pollin_asks. }
  destruct E1 as (R1 & A1 & I1 & L1). clearbody c1.
  assert (E2 : registered c2 = true /\ asks c1 c2 /\ listening_pollin c2 = false /\ listening_pollout c2 = false).
  { unfold c2. destruct (listening_pollout c1) eqn:E; [|by (split; [done|split; [apply asks_refl|done]])].
    destruct (register_pollout_is c1 false) as (-> & -> & _ & _ & _ & _ & ->). split_and!; try done. by apply register_pollout_asks. }
  destruct E2 as (R2 & A2 & I2 & P2). clearbody c2.
  assert (Hb : waits_well (set_error c2)).
  { unfold waits_well, begun. simpl. rewrite R2, I2, P2. naive_solver. }
  split_and!; [|by intros _; apply Hb|done].
  eapply asks_trans; [exact A1|]. eapply asks_trans; [exact A2|]. by apply same_listening_asks.
Qed.

Lemma poll_callback_keeps c rev : registered c = true -> keeps_rule c (poll_callback c rev).2.
Proof.
  intros Hr. unfold poll_callback. set (c1 := if has_flag rev (Z.lor POLLERR POLLHUP) then _ else (false, c)).
  assert (H1 : keeps_rule c c1.2) by (unfold c1; destruct (has_flag rev _); [by apply hang_up_keeps|apply keeps_rule_refl]).
  destruct c1 as [b1 c1]. simpl in H1. set (c2 := if has_flag rev POLLOUT then _ else (b1, c1)).
  assert (H2 : keeps_rule c1 c2.2) by (unfold c2; destruct (has_flag rev _); [apply good_keeps, unlocked_write_good|apply keeps_rule_refl]).
  destruct c2 as [b2 c2]. simpl in H2.
  assert (keeps_rule c c2) by by eapply keeps_rule_trans.
  destruct (has_flag rev POLLIN); [|done]. eapply keeps_rule_trans; [done|apply unlocked_read_keeps].
Qed.
End Rule.

(** ** Requests about several descriptors *)

Section Requests.
Notation request := (@operation unit Z).
Notation table := (gmap Z (@registration unit Z)).
Implicit Types (m : table) (o : request) (ops : list request).

Definition about (f : Z) (o : request) : bool :=
  match o with REGISTER g _ _ _ | LISTEN g _ _ | UNREGISTER g => f =? g | DESTROY => false end.

Lemma spec_other m o g : about g o = false -> fdset_spec m o !! g = m !! g.
Proof.
  destruct o as [h ev c d|h mask ev|h|]; cbn [about fdset_spec]; intros H; zbool;
    [by rewrite lookup_insert_ne|by rewrite lookup_alter_ne|by rewrite lookup_delete_ne|done].
Qed.

Lemma spec_same m m' o g : about g o = true -> m !! g = m' !! g -> fdset_spec m o !! g = fdset_spec m' o !! g.
Proof.
  destruct o as [h ev c d|h mask ev|h|]; cbn [about fdset_spec]; intros H E; zbool; subst;
    [by rewrite !lookup_insert_eq|by rewrite !lookup_alter_eq, E|by rewrite !lookup_delete_eq|done].
Qed.

(** The entry of a descriptor depends on the requests about it. *)
Lemma spec_filter g ops : forall m m', m !! g = m' !! g ->
  foldl fdset_spec m ops !! g = foldl fdset_spec m' (List.filter (about g) ops) !! g.
Proof.
  induction ops as [|o ops IH]; intros m m' E; simpl; [done|]. destruct (about g o) eqn:Ho; simpl; apply IH.
  - by apply spec_same.
  - by rewrite spec_other.
Qed.

Lemma allowed_same m m' o g : about g o = true -> m !! g = m' !! g -> allowed m o -> allowed m' o.
Proof. destruct o as [h ev c d|h mask ev|h|]; simpl; intros H E; zbool; subst; [by rewrite E|done..]. Qed.

(** Users that each respect the rules for their descriptors do so together. *)
Lemma allowed_together ops : forall m,
  Forall (fun o => exists g, about g o = true /\ exists m', m' !! g = m !! g /\ all_allowed m' (List.filter (about g) ops)) ops ->
  all_allowed m ops.
Proof.
  assert (H : forall ops m, (forall o g, o ∈ ops -> about g o = true -> exists m', m' !! g = m !! g /\ all_allowed m' (List.filter (about g) ops)) ->
    Forall (fun o => exists g, about g o = true) ops -> all_allowed m ops).
  { clear ops. intros ops. induction ops as [|o ops IH]; intros m H Ha; simpl; [done|].
    apply Forall_cons in Ha as [[g Hg] Ha]. destruct (H o g ltac:(left) Hg) as (m' & E & A). simpl in A. rewrite Hg in A.
    destruct A as [A _]. split; [by eapply allowed_same|]. apply IH; [|done]. intros o' g' Ho' Hg'.
    destruct (H o' g' ltac:(by right) Hg') as (m2 & E2 & A2). simpl in A2. destruct (about g' o) eqn:Eo.
    - destruct A2 as [_ A2]. exists (fdset_spec m2 o). split; [by apply spec_same|done].
    - exists m2. split; [by rewrite spec_other|done]. }
  intros m Hf. rewrite Forall_forall in Hf. apply H.
  - intros o g Ho Hg. destruct (Hf o Ho) as (g' & Hg' & A). enough (g = g') as -> by done.
    destruct o; simpl in *; zbool; try done; congruence.
  - apply Forall_forall. intros o Ho. destruct (Hf o Ho) as (g & Hg & _). by exists g.
Qed.

Lemma allowed_app ops1 ops2 : forall m, all_allowed m (ops1 ++ ops2) <-> all_allowed m ops1 /\ all_allowed (foldl fdset_spec m ops1) ops2.
Proof. induction ops1 as [|o ops1 IH]; intros m; simpl; [naive_solver|]. rewrite IH. naive_solver. Qed.

(** A row of [fdset_listen] calls for one descriptor. *)
Lemma listens_spec f l : forall m ev c d, m !! f = Some (MkReg ev c d) ->
  foldl fdset_spec m ((fun me => LISTEN f me.1 me.2) <$> l) !! f = Some (MkReg (foldl follow ev l) c d).
Proof.
  induction l as [|me l IH]; intros m ev c d E; simpl; [done|]. apply IH. by rewrite lookup_alter_eq, E.
Qed.

Lemma listens_allowed f l : 0 <= f -> forall m, all_allowed m ((fun me => LISTEN f me.1 me.2) <$> l).
Proof. intros H. induction l as [|me l IH]; intros m; simpl; [done|]. split; [done|]. apply IH. Qed.
End Requests.

(** ** The life of a connection *)

Section Life.
Context {O : OctstrLib} {OL : OctstrLaws O} {N : NetworkOrder} {NL : NetworkOrderLaws N}.
Context {C X V : Type} `{EqDecision V}.
Notation Polled := (@Polled O C X V).
Notation conn_call := (@conn_call O C X V).
Notation note := (@note C X V).
Notation table := (gmap Z (@registration unit Z)).
Implicit Types (p : Polled) (z : Z).

(** What a connection asked of a set. *)
Definition request_of (n : note) : option operation := match n with Asked _ o => Some o | _ => None end.
Definition requests p : list operation := omap request_of (notes p).

(** The program uses the one set [z], and writes octets. *)
Definition proper_call z (k : conn_call) : Prop :=
  match k with
  | Register fdset _ _ _ => fdset = z
  | WriteData data => Forall (fun o => 0 <= o < 256) data
  | _ => True
  end.

(** The entry of a connection in its set. *)
Definition entry_of p : option registration :=
  if registered (conn p) then Some (MkReg (flags (conn p)) tt (addr p)) else None.

Definition to_set z (n : note) : Prop := match n with Asked s _ => s = z | _ => True end.

Record life z p : Prop := {
  life_conn : connected p = true;
  life_fd : 0 <= conn_fd p;
  life_calls : listened (sock (conn p)) = [];
  life_waits : waits_well (conn p);
  life_set : registered (conn p) = true -> set p = z;
  life_notes : Forall (to_set z) (notes p);
  life_about : Forall (fun o => about (conn_fd p) o = true) (requests p);
  life_allowed : all_allowed ∅ (requests p);
  life_entry : foldl fdset_spec ∅ (requests p) !! conn_fd p = entry_of p
}.

Lemma requests_app p l : requests (add_notes p l) = requests p ++ omap request_of l.
Proof. unfold requests. simpl. by rewrite omap_app. Qed.

Lemma set_callback_life z p cb data x : life z p -> life z (set_callback p cb data x).
Proof. intros []. by split. Qed.

(** Notes that ask for nothing. *)
Lemma quiet_omap (l : list note) : Forall (fun n => request_of n = None) l -> omap request_of l = [].
Proof. induction 1 as [|n l Hn Hl IH]; simpl; [done|]. by rewrite Hn. Qed.

Lemma quiet_notes_life z p l : Forall (fun n => request_of n = None) l -> life z p -> life z (add_notes p l).
Proof.
  intros Hl []. assert (E : requests (add_notes p l) = requests p).
  { by rewrite requests_app, quiet_omap, app_nil_r. }
  split; try done; rewrite ?E; try done. simpl. apply Forall_app. split; [done|].
  eapply Forall_impl; [exact Hl|]. by intros [].
Qed.

Lemma destroy_data_quiet p : Forall (fun n => request_of n = None) (destroy_data p).
Proof. unfold destroy_data. repeat case_match; by repeat constructor. Qed.

Lemma omap_asked z f (l : list (Z * Z)) :
  omap request_of ((fun me => Asked z (LISTEN f me.1 me.2) : note) <$> l) = (fun me => LISTEN f me.1 me.2) <$> l.
Proof. induction l as [|me l IH]; simpl; [done|]. f_equal. exact IH. Qed.

Lemma on_conn_life {A} z p (f : Connection -> A * Connection) : keeps_rule (conn p) (f (conn p)).2 ->
  life z p -> life z (on_conn f p).2.
Proof.
  intros Hc []. unfold on_conn. destruct (f (conn p)) as [a c] eqn:E. cbn [snd] in *. clear E.
  destruct Hc as ((R & l & El & Ef & Ez) & _ & Hw). rewrite life_calls0 in El. simpl in El. rewrite El.
  set (p' := add_notes _ _). assert (Er : requests p' = requests p ++ ((fun me => LISTEN (conn_fd p) me.1 me.2) <$> l)).
  { unfold p'. rewrite requests_app, omap_asked. done. }
  split; try done.
  - change (waits_well c). auto.
  - simpl. rewrite R. done.
  - simpl. apply Forall_app. split; [done|]. destruct (registered (conn p)) eqn:Ereg.
    + apply Forall_fmap, Forall_true. intros me. simpl. auto.
    + rewrite Ez; [by constructor|done|]. apply life_waits0. done.
  - rewrite Er. apply Forall_app. split; [done|]. apply Forall_fmap, Forall_true. intros me. simpl. apply Z.eqb_refl.
  - rewrite Er. apply allowed_app. split; [done|]. by apply listens_allowed.
  - rewrite Er, foldl_app. change (conn_fd p') with (conn_fd p).
    unfold entry_of in *. change (registered (conn p')) with (registered c). change (flags (conn p')) with (flags c).
    rewrite R. destruct (registered (conn p)) eqn:Ereg.
    + rewrite (listens_spec _ _ _ _ _ _ life_entry0). by rewrite Ef.
    + rewrite Ez; [done|done|]. apply life_waits0. done.
Qed.

Lemma first_events_flags p : connected p = true ->
  let c := set_registered (conn p) true in
  let c := set_pollout (set_pollin c (has_flag (first_events p) POLLIN)) (has_flag (first_events p) POLLOUT) in
  wrap_short (first_events p) = flags c /\ waits_well c.
Proof.
  intros Hc. unfold first_events. rewrite Hc. unfold waits_well, begun, unlocked_outbuf_len. simpl. change (octstr_len (outbuf (conn p)) - outbufpos (conn p)) with (unlocked_outbuf_len (conn p)).
  destruct (read_eof (conn p)) eqn:E1, (io_error (conn p)) eqn:E2, (Z.ltb_spec 0 (unlocked_outbuf_len (conn p))); simpl;
    (split; [done|]); naive_solver lia.
Qed.

Lemma register_life z p cb data x : life z p -> life z (conn_register_real p z cb data x).2.
Proof.
  intros H. pose proof H as []. unfold conn_register_real. rewrite (proj2 (Z.ltb_ge _ _)) by done.
  destruct (registered (conn p)) eqn:Ereg; cbn [andb].
  { rewrite life_set0, Z.eqb_refl by done. cbn [snd]. apply set_callback_life, quiet_notes_life; [|done].
    case_match; [by constructor|apply destroy_data_quiet]. }
  cbn [snd]. destruct (first_events_flags p life_conn0) as [Ew Hw].
  set (p' := add_notes _ _). assert (Er : requests p' = requests p ++ [REGISTER (conn_fd p) (first_events p) tt (addr p)]).
  { unfold p'. by rewrite requests_app. }
  unfold entry_of in life_entry0. rewrite Ereg in life_entry0.
  split; try done.
  - simpl. apply Forall_app. by repeat constructor.
  - rewrite Er. apply Forall_app. split; [done|]. repeat constructor. simpl. apply Z.eqb_refl.
  - rewrite Er. apply allowed_app. split; [done|]. simpl. by split_and!.
  - rewrite Er, foldl_app. cbn [foldl fdset_spec]. change (conn_fd p') with (conn_fd p).
    rewrite lookup_insert_eq, Ew. done.
Qed.

Lemma unregister_life z p : life z p -> life z (conn_unregister p).
Proof.
  intros H. pose proof H as []. unfold conn_unregister. rewrite (proj2 (Z.ltb_ge _ _)) by done.
  destruct (registered (conn p)) eqn:Ereg; [|done].
  set (p' := add_notes _ _). assert (Er : requests p' = requests p ++ [UNREGISTER (conn_fd p)]).
  { unfold p'. by rewrite requests_app, omap_app, (quiet_omap _ (destroy_data_quiet p)). }
  split; try done.
  - simpl. apply Forall_app. split; [done|]. apply Forall_app. split; [|repeat constructor; simpl; auto].
    eapply Forall_impl; [apply destroy_data_quiet|]. by intros [].
  - rewrite Er. apply Forall_app. split; [done|]. repeat constructor. simpl. apply Z.eqb_refl.
  - rewrite Er. apply allowed_app. split; [done|]. simpl. by split_and!.
  - rewrite Er, foldl_app. cbn [foldl fdset_spec]. change (conn_fd p') with (conn_fd p). by rewrite lookup_delete_eq.
Qed.

Lemma call_back_life z p : life z p -> life z (call_back p).
Proof. intros H. unfold call_back. case_match; [|done]. apply quiet_notes_life; [by repeat constructor|done]. Qed.

(** The polling thread calls only connections that are registered. *)
Definition called_right p (k : conn_call) : Prop :=
  match k with Ready _ _ => registered (conn p) = true | _ => True end.

Lemma reading_life z p f p' : read_operation f -> reading f p = Done p' -> life z p -> life z p'.
Proof.
  intros Hf. unfold reading. destruct (f (conn p)) as [[r c]|] eqn:E; [|done]. intros [= <-].
  apply (on_conn_life z p (fun _ => (r, c))). simpl. by eapply Hf.
Qed.

Lemma conn_do_life z p k p' : proper_call z k -> called_right p k -> conn_do p k = Done p' -> life z p -> life z p'.
Proof.
  intros Hk Hc E H. destruct k; simpl in Hk; cbn [conn_do] in E;
    try (match type of E with Done ?x = _ => assert (p' = x) as -> by (by injection E) end).
  - subst. by apply register_life.
  - by apply unregister_life.
  - apply on_conn_life; [apply good_keeps, conn_write_good|done].
  - apply on_conn_life; [by apply good_keeps, conn_write_data_good|done].
  - apply on_conn_life; [apply good_keeps, conn_write_withlen_good|done].
  - apply on_conn_life; [apply good_keeps, conn_set_output_buffering_good|done].
  - apply on_conn_life; [apply good_keeps, conn_flush_good|done].
  - apply on_conn_life; [apply good_keeps, conn_wait_good|done].
  - by eapply reading_life; [apply read_everything_keeps|..].
  - by eapply reading_life; [apply read_fixed_keeps|..].
  - by eapply reading_life; [apply read_line_keeps|..].
  - by eapply reading_life; [apply read_withlen_keeps|..].
  - by eapply reading_life; [apply read_packet_keeps|..].
  - unfold poll_callback_real. destruct (negb _); [done|]. rewrite (life_conn _ _ H). simpl.
    pose proof (on_conn_life z p (fun c => poll_callback c revents) (poll_callback_keeps _ _ Hc) H) as Hl.
    destruct (on_conn _ p) as [b p1]. simpl in Hl. destruct b; [by apply call_back_life|done].
Qed.

(** What becomes of a connection with a connected socket. *)
Inductive lives z : Polled -> Prop :=
| lives_new a f sk : 0 <= f -> lives z (conn_wrap a f true sk)
| lives_on p k p' : lives z p -> proper_call z k -> called_right p k -> conn_do p k = Done p' -> lives z p'.

Lemma lives_life z p : lives z p -> life z p.
Proof.
  induction 1 as [a f sk Hf|p k p' _ IH Hk Hc E]; [|by eapply conn_do_life]. by split.
Qed.

(** The order in which a set hears of several connections. *)
Definition heard (ps : list Polled) (ops : list operation) : Prop :=
  Forall (fun p => List.filter (about (conn_fd p)) ops = requests p) ps /\
  Forall (fun o => exists p, p ∈ ps /\ about (conn_fd p) o = true) ops.

Lemma heard_allowed z ps ops : Forall (life z) ps -> heard ps ops -> all_allowed ∅ ops.
Proof.
  rewrite !Forall_forall. intros Hl [Hf Ha]. rewrite Forall_forall in Hf. apply allowed_together.
  eapply Forall_impl; [exact Ha|]. intros o (p & Hp & Ho). exists (conn_fd p). split; [done|].
  exists ∅. split; [done|]. rewrite (Hf _ Hp). by apply (life_allowed z), Hl.
Qed.

(** C23 Connections that one polling thread watches: whatever the program does
    with each of them, and in whatever order the set hears of what they ask,
    when the set has done it there is an entry for just the connections that
    are registered, and the entry waits for what the connection waits for:
    for input until no more will come, for output as long as there is some
    to send, unless it is broken or the output is less than a buffer. *)
Theorem connections_polled z ps s now before :
  Forall (lives z) ps -> fdset_ok s -> heard ps (before ++ (op <$> actions s)) ->
  table_of (used s) = foldl fdset_spec ∅ before ->
  exists s', handle_actions (actions s) s now = Done (s', 0) /\ fdset_ok s' /\ actions s' = [] /\
    (forall p, p ∈ ps -> table_of (used s') !! conn_fd p = entry_of p) /\
    (forall f, (forall p, p ∈ ps -> conn_fd p <> f) -> table_of (used s') !! f = None) /\
    Forall (fun p => waits_well (conn p)) ps.
Proof.
  intros Hps Hok Hh Hb. eapply (Forall_impl _ _ _) in Hps; [|apply lives_life].
  pose proof (heard_allowed z ps _ Hps Hh) as Ha. apply allowed_app in Ha as [_ Ha]. rewrite <-Hb in Ha.
  destruct (handle_actions_spec now (actions s) s Hok eq_refl Ha) as (s' & E & Hok' & _ & _ & Hact & _ & Ht).
  exists s'. split_and!; [done..| | |eapply Forall_impl; [exact Hps|]; by intros p []]; rewrite Ht, Hb, <-foldl_app.
  - intros p Hp. destruct Hh as [Hf _]. rewrite Forall_forall in Hf, Hps.
    rewrite (spec_filter (conn_fd p) _ ∅ ∅ eq_refl), (Hf p Hp). by apply (life_entry z), Hps.
  - intros f Hf. rewrite (spec_filter f _ ∅ ∅ eq_refl). destruct Hh as [_ Ho].
    rewrite filter_none; [done|]. eapply Forall_impl; [exact Ho|]. intros o (p & Hp & Hpo).
    specialize (Hf p Hp). destruct o; simpl in *; zbool; subst; try done; apply Z.eqb_neq; congruence.
Qed.

(** Data whose destroyer the connection holds is destroyed when it is put
    out, exactly once. *)
Lemma unregister_destroys z p : life z p -> registered (conn p) = true ->
  notes (conn_unregister p) = notes p ++ destroy_data p ++ [Asked z (UNREGISTER (conn_fd p))] /\
  callback_data (conn_unregister p) = None /\ conn_unregister (conn_unregister p) = conn_unregister p.
Proof.
  intros [] Hr. unfold conn_unregister. rewrite (proj2 (Z.ltb_ge _ _)) by done. rewrite Hr. simpl. rewrite life_set0 by done.
  split_and!; try done. by rewrite (proj2 (Z.ltb_ge _ _)) by done.
Qed.

(** [conn_destroy] takes the connection out of its set, though it may then
    ask the set once more: a warning, since the entry is gone. *)
Lemma destroyed_unwatched z p : life z p -> foldl fdset_spec ∅ (requests (conn_destroy p)) !! conn_fd p = None.
Proof.
  intros H. pose proof H as []. unfold conn_destroy. rewrite (proj2 (Z.leb_le _ _)) by (by case_match). unfold on_conn.
  set (p1 := if registered (conn p) then _ else p).
  assert (E : conn_fd p1 = conn_fd p /\ conn p1 = conn p /\ foldl fdset_spec ∅ (requests p1) !! conn_fd p = None).
  { unfold p1. destruct (registered (conn p)) eqn:Er; [|unfold entry_of in life_entry0; by rewrite Er in life_entry0].
    split_and!; try done. rewrite requests_app. change (?a :: ?b) with ([a] ++ b). rewrite omap_app, (quiet_omap _ (destroy_data_quiet p)).
    rewrite app_nil_r, foldl_app. cbn. by rewrite lookup_delete_eq. }
  destruct E as (Ef & Ec & En). rewrite Ec. destruct (unlocked_try_write (conn p)) as [ret c]. cbn [snd].
  set (l := listened (sock c)). change (requests (set_fd ?q _)) with (requests q). rewrite requests_app, omap_asked, foldl_app.
  change (requests (set_buffers p1 ?c)) with (requests p1). rewrite Ef. clear -En.
  revert En. generalize (foldl fdset_spec ∅ (requests p1)). induction l as [|me l IH]; intros m En; [done|]. simpl.
  apply IH. by rewrite lookup_alter_eq, En.
Qed.
End Life.

(** ** A writer and the polling thread

    [fdset_listen] of another thread waits until the polling thread has done
    what it asks, and [unlocked_write] calls it with the lock of the output
    taken, for which [poll_callback] waits in turn. *)

Section TwoThreads.
Context {O : OctstrLib} {N : NetworkOrder} {C X V : Type} `{EqDecision V}.

Inductive writer : Type :=
| Elsewhere
| Locked (data : octstr)         (* in conn_write, after lock_out *)
| Asking (ticket : Z).           (* in fdset_listen, waiting *)

Inductive poller : Type :=
| Turning                        (* before its next turn *)
| Calling (revents : Z).         (* in poll_callback, before lock_out *)

Record pair : Type := MkPair {
  watched : @Polled O C X V; fdset : @FDSet unit Z; outlock : bool; write_thread : writer; polling_thread : poller
}.

(** The calls of [fdset_listen] that an operation made, from a thread that is
    not the polling one (at most one, for a write). *)
Definition news (p p' : @Polled O C X V) : list operation := drop (length (requests p)) (requests p').

Inductive pair_step : pair -> pair -> Prop :=
| writer_locks p s data po :
    pair_step (MkPair p s false Elsewhere po) (MkPair p s true (Locked data) po)
| writer_writes p s data po :
    let p' := (on_conn (fun c => conn_write c data) p).2 in
    news p p' = [] -> pair_step (MkPair p s true (Locked data) po) (MkPair p' s false Elsewhere po)
| writer_asks p s data po ticket o :
    let p' := (on_conn (fun c => conn_write c data) p).2 in
    news p p' = [o] -> ticket ∉ confirmed s ->
    pair_step (MkPair p s true (Locked data) po) (MkPair p' (submit_action s o ticket) true (Asking ticket) po)
| writer_told p s ticket po :
    ticket ∈ confirmed s -> pair_step (MkPair p s true (Asking ticket) po) (MkPair p s false Elsewhere po)
| poller_turns p s l w s' now revents :
    handle_actions (actions s) s now = Done (s', 0) ->
    has_flag revents (Z.lor POLLOUT (Z.lor POLLERR POLLHUP)) = true ->
    pair_step (MkPair p s l w Turning) (MkPair p s' l w (Calling revents))
| poller_calls p s w revents s' now :
    let p' := poll_callback_real p (conn_fd p) revents in
    run_calls s now (news p p') = Done s' ->
    pair_step (MkPair p s false w (Calling revents)) (MkPair p' s' false w Turning).

(** Neither of them can go on. *)
Definition stuck (x : pair) : Prop := forall y, ~ pair_step x y.

Lemma each_waits p s ticket revents : ticket ∉ confirmed s -> stuck (MkPair p s true (Asking ticket) (Calling revents)).
Proof. intros H y Hs. by inversion Hs. Qed.

End TwoThreads.

(** ** Two connections *)

Module PollExamples.

Notation connection := (@Polled list_octstr Z Z Z).

(** The first sends more than its socket takes, the second is closed by the
    other side. *)
Definition busy : connection := conn_wrap (O:=list_octstr) 1000 5 true (MkSocket [2; 0] [] [] [] []).
Definition silent : connection := conn_wrap (O:=list_octstr) 2000 6 true (MkSocket [] [ReadData []] [] [] []).

Definition after (p : connection) (l : list conn_call) : connection :=
  match conn_do_all p l with Done p => p | Panic => p end.

Definition busy_calls : list (@conn_call list_octstr Z Z Z) := [Register 9 (Some 1) (Some 7) (Some 70); WriteData [1; 2; 3; 4; 5]].
Definition silent_calls : list (@conn_call list_octstr Z Z Z) := [Register 9 (Some 2) None None; Ready 6 1].

Example busy_asks : requests (after busy busy_calls) = [REGISTER 5 1 tt 1000; LISTEN 5 4 4].
Proof. vm_compute. reflexivity. Qed.

Example silent_asks : requests (after silent silent_calls) = [REGISTER 6 1 tt 2000; LISTEN 6 1 0].
Proof. vm_compute. reflexivity. Qed.

(** The data is destroyed when the connection gives it up. *)
Example busy_over :
  notes (after busy (busy_calls ++ [Unregister; Unregister]))
  = [Asked 9 (REGISTER 5 1 tt 1000); Asked 9 (LISTEN 5 4 4); Destroyed 70 7; Asked 9 (UNREGISTER 5)].
Proof. vm_compute. reflexivity. Qed.

Definition set_of_both : @FDSet unit Z :=
  set_actions (MkFDSet 3 [] 1 0 (-1) false 0 [] [] false)
    [MkAction (REGISTER 5 1 tt 1000) None; MkAction (REGISTER 6 1 tt 2000) None;
     MkAction (LISTEN 6 1 0) (Some 1); MkAction (LISTEN 5 4 4) (Some 2)].

Lemma lives_all (p : connection) l q : lives 9 p -> Forall (proper_call 9) l ->
  (forall l1 k l2 p1, l = l1 ++ k :: l2 -> conn_do_all p l1 = Done p1 -> called_right p1 k) ->
  conn_do_all p l = Done q -> lives 9 q.
Proof.
  intros Hp Hl Hc. revert p Hp Hc. induction Hl as [|k l Hk Hl IH]; intros p Hp Hc H; simpl in *; [by injection H as <-|].
  destruct (conn_do p k) as [p1|] eqn:E; [|done]. simpl in *. eapply (IH p1); [|intros l1 k' l2 p2 -> E2|done].
  - eapply lives_on; [done..| |done]. by apply (Hc [] k l).
  - eapply (Hc (k :: l1) k' l2); [done|]. simpl. by rewrite E.
Qed.

Lemma lives_after (p : connection) l : lives 9 p -> Forall (proper_call 9) l ->
  (forall l1 k l2 p1, l = l1 ++ k :: l2 -> conn_do_all p l1 = Done p1 -> called_right p1 k) ->
  (if conn_do_all p l is Done _ then true else false) = true -> lives 9 (after p l).
Proof.
  intros Hp Hl Hc H. unfold after. destruct (conn_do_all p l) as [q|] eqn:E; [|done]. by eapply lives_all.
Qed.

Lemma busy_lives : lives 9 (after busy busy_calls).
Proof.
  apply lives_after; [by apply lives_new|by repeat constructor| |vm_compute; reflexivity].
  intros [|k1 [|k2 [|? ?]]] k l2 p1 [=] E; subst; try done; simpl in E; by injection E as <-.
Qed.

Lemma silent_lives : lives 9 (after silent silent_calls).
Proof.
  apply lives_after; [by apply lives_new|by repeat constructor| |vm_compute; reflexivity].
  intros [|k1 [|k2 [|? ?]]] k l2 p1 [=] E; subst; try done; simpl in E; by injection E as <-.
Qed.

(** The other side hangs up while a thread writes more than the socket takes. *)
Definition other_set : @FDSet unit Z := MkFDSet 3 [] 1 0 (-1) false 0 [] [] false.
Definition quiet_busy : connection := after busy [Register 9 (Some 1) None None].
Definition asked_set : @FDSet unit Z := set_actions other_set [MkAction (REGISTER 5 1 tt 1000) None].
Definition turned_set : @FDSet unit Z :=
  match handle_actions (actions asked_set) asked_set 100 with Done (s, _) => s | Panic => asked_set end.

(** From a state in which both threads run to one in which both wait for ever. *)
Example writer_and_poller_stuck : exists x,
  rtc pair_step (MkPair quiet_busy asked_set false Elsewhere Turning) x /\ stuck x /\
  outlock x = true /\ polling_thread x = Calling POLLHUP /\ write_thread x = Asking 77.
Proof.
  eexists (MkPair _ _ true (Asking 77) (Calling POLLHUP)). split; [|split; [|done]].
  - eapply rtc_l; [eapply (poller_turns _ _ _ _ turned_set 100 POLLHUP); reflexivity|].
    eapply rtc_l; [apply (writer_locks _ _ ([1; 2; 3; 4; 5] : octstr (OctstrLib:=list_octstr)))|].
    eapply rtc_l; [eapply (writer_asks _ _ _ _ 77 (LISTEN 5 4 4)); [vm_compute; reflexivity|]|apply rtc_refl].
    intros H. vm_compute in H. by apply elem_of_nil in H.
  - apply each_waits. intros H. vm_compute in H. by apply elem_of_nil in H.
Qed.
End PollExamples.

Lemma connections_polled_witness :
  exists s', handle_actions (actions PollExamples.set_of_both) PollExamples.set_of_both 100 = Done (s', 0) /\
    table_of (used s') !! 5 = Some (MkReg 5 tt 1000) /\ table_of (used s') !! 6 = Some (MkReg 0 tt 2000) /\
    table_of (used s') !! 7 = None.
Proof.
  destruct (connections_polled (NL := big_endian_laws) 9 [PollExamples.after PollExamples.busy PollExamples.busy_calls; PollExamples.after PollExamples.silent PollExamples.silent_calls]
    PollExamples.set_of_both 100 []) as (s' & E & _ & _ & H1 & H2 & _).
  - repeat constructor; [exact PollExamples.busy_lives|exact PollExamples.silent_lives].
  - by repeat constructor.
  - split; [repeat constructor; vm_compute; reflexivity|].
    repeat constructor; (eexists; split; [by left|reflexivity]) || (eexists; split; [by right; left|reflexivity]).
  - reflexivity.
  - exists s'. split; [exact E|]. split_and!.
    + etransitivity; [apply (H1 (PollExamples.after PollExamples.busy PollExamples.busy_calls)); by left|vm_compute; reflexivity].
    + etransitivity; [apply (H1 (PollExamples.after PollExamples.silent PollExamples.silent_calls)); by right; left|vm_compute; reflexivity].
    + apply H2. intros p [->|[->|[]%elem_of_nil]%elem_of_cons]%elem_of_cons; by vm_compute.
Defined.
