(* ===== verification/World.v ===== *)
(** * The data of the SMPP client process (smpp-smsc)

    The messages ([msg.h], [msg.c]), the PDUs as far as the client reads and
    writes their fields, and [World]: the variables that the threads of the
    process share - the queue [outgoing_msg], the counters and limits of
    [smsc.c] - with the clock and the effects outside of the process.  The
    PDU library ([smpp_pdu.h]) is not part of this source tree: packing and
    unpacking are parameters, and the fields the client never looks at stay
    in a parameter [pdu_rest]. *)

From S2P Require Import Prelude Gwlib Counter.
From stdpp Require Export strings pretty.
From Stdlib Require Import Ascii.
Open Scope Z_scope.

(** ** Names of the SMPP specification that the code uses *)

Class SmppNames : Type := {
  SMPP_ESME_ROK : Z; SMPP_ESME_RINVCMDID : Z; SMPP_ESME_RSYSERR : Z; SMPP_ESME_RINVPASWD : Z;
  SMPP_ESME_RINVSYSID : Z; SMPP_ESME_RMSGQFUL : Z; SMPP_ESME_RTHROTTLED : Z;
  SMPP_ESME_RX_T_APPN : Z; SMPP_ESME_RX_R_APPN : Z;
  GSM_ADDR_TON_NATIONAL : Z; GSM_ADDR_NPI_E164 : Z;
  ESM_CLASS_DELIVER_UDH_INDICATOR : Z;
}.

(** Status codes are different numbers, and 0 is the one for success. *)
Class SmppNamesLaws (N : SmppNames) : Prop := {
  rok_zero : SMPP_ESME_ROK = 0;
  status_distinct :
    NoDup [SMPP_ESME_ROK; SMPP_ESME_RINVCMDID; SMPP_ESME_RSYSERR; SMPP_ESME_RINVPASWD;
           SMPP_ESME_RINVSYSID; SMPP_ESME_RMSGQFUL; SMPP_ESME_RTHROTTLED; SMPP_ESME_RX_T_APPN;
           SMPP_ESME_RX_R_APPN];
}.

(** The values of SMPP 3.4. *)
#[export] Instance smpp34 : SmppNames := {|
  SMPP_ESME_ROK := 0; SMPP_ESME_RINVCMDID := 0x3; SMPP_ESME_RSYSERR := 0x8;
  SMPP_ESME_RINVPASWD := 0xE; SMPP_ESME_RINVSYSID := 0xF; SMPP_ESME_RMSGQFUL := 0x14;
  SMPP_ESME_RTHROTTLED := 0x58; SMPP_ESME_RX_T_APPN := 0x64; SMPP_ESME_RX_R_APPN := 0x66;
  GSM_ADDR_TON_NATIONAL := 2; GSM_ADDR_NPI_E164 := 1; ESM_CLASS_DELIVER_UDH_INDICATOR := 0x40;
|}.

#[export] Instance smpp34_laws : SmppNamesLaws smpp34.
Proof. split; [done|]. apply (bool_decide_unpack _). vm_compute. done. Qed.

(** ** PDUs *)

Class PduRest : Type := { pdu_rest : Type; rest_none : pdu_rest }.

Section Pdus.
Context {O : OctstrLib} {R : PduRest}.

(** Every PDU starts with the same header fields. *)
Record header : Type := MkHeader { command_status : Z; sequence_number : Z }.

Record SubmitSm : Type := MkSubmitSm {
  service_type : option octstr;
  source_addr_ton : Z; source_addr_npi : Z; source_addr : option octstr;
  dest_addr_ton : Z; dest_addr_npi : Z; destination_addr : option octstr;
  esm_class : Z; priority_flag : Z; registered_delivery : Z; data_coding : Z;
  sm_length : Z; short_message : option octstr;
  more_messages_to_send : Z; user_response_code : Z;
  submit_rest : pdu_rest
}.

Record DeliverSm : Type := MkDeliverSm {
  d_source_addr : option octstr; d_destination_addr : option octstr;
  d_esm_class : Z; d_sm_length : Z; d_short_message : option octstr;
  message_payload : option octstr; receipted_message_id : option octstr;
  deliver_rest : pdu_rest
}.

Record Bind : Type := MkBind {
  system_id : option octstr; b_password : option octstr; b_system_type : option octstr;
  interface_version : Z; addr_ton : Z; addr_npi : Z; b_address_range : option octstr
}.

(** [SMPP_PDU]: the types the client handles, and any other type. *)
Inductive SMPP_PDU : Type :=
| submit_sm (h : header) (b : SubmitSm)
| submit_sm_resp (h : header) (message_id : option octstr)
| deliver_sm (h : header) (b : DeliverSm)
| deliver_sm_resp (h : header)
| data_sm (h : header) (b : pdu_rest)
| data_sm_resp (h : header)
| enquire_link (h : header)
| enquire_link_resp (h : header)
| unbind (h : header)
| unbind_resp (h : header)
| generic_nack (h : header)
| bind_transmitter (h : header) (b : Bind)
| bind_receiver (h : header) (b : Bind)
| bind_transceiver (h : header) (b : Bind)
| bind_transmitter_resp (h : header)
| bind_receiver_resp (h : header)
| bind_transceiver_resp (h : header)
| other_pdu (type : Z) (h : header) (b : pdu_rest).

Definition pdu_header (p : SMPP_PDU) : header :=
  match p with
  | submit_sm h _ | submit_sm_resp h _ | deliver_sm h _ | deliver_sm_resp h | data_sm h _
  | data_sm_resp h | enquire_link h | enquire_link_resp h | unbind h | unbind_resp h
  | generic_nack h | bind_transmitter h _ | bind_receiver h _ | bind_transceiver h _
  | bind_transmitter_resp h | bind_receiver_resp h | bind_transceiver_resp h
  | other_pdu _ h _ => h
  end.

(** Reading [pdu->u.submit_sm] of a PDU that is none is undefined. *)
Definition as_submit (p : SMPP_PDU) : outcome SubmitSm :=
  match p with submit_sm _ b => Done b | _ => Panic end.

(** What [smpp_pdu_create(type, seq)] fills in. *)
Definition new_header (seq : Z) : header := MkHeader 0 seq.
Definition new_submit : SubmitSm :=
  MkSubmitSm None 0 0 None 0 0 None 0 0 0 0 0 None 0 0 rest_none.

(** ** Messages *)

Inductive msg_state_t : Type := MSG_NOT_ROUTED | MSG_NOT_SENT | MSG_SENT_NORESP | MSG_SENT_RESP.

#[export] Instance msg_state_eq_dec : EqDecision msg_state_t.
Proof. solve_decision. Defined.

(** [struct info]. *)
Record info : Type := MkInfo {
  pdu : option octstr;
  account_name : option octstr;
  account_msg_id : option octstr;
  req_time : option octstr;
  client_ip : option octstr
}.

(** The fields of [struct forward_queue_data] that the client uses; its
    strings are C arrays, its SMSC lists are arrays ended by -1. *)
Record forward_queue_data : Type := MkRouting {
  r_destination_addr : list Z;
  r_source_addr : list Z;
  preferred_smsc : list Z;
  allowed_smsc : list Z;
  content : option octstr;
  r_data_coding : Z;
  r_esm_class : Z;
  r_more_messages_to_send : Z
}.

(** [Msg]. *)
Record Msg : Type := MkMsg {
  sm_info : option info;
  routing_info : option forward_queue_data;
  retries : Z;
  msg_state : msg_state_t;
  msg_retry_time : Z;
  failed_smsc_id : option octstr
}.

Definition msg_create (routing : forward_queue_data) : Msg :=
  MkMsg (Some (MkInfo None None None None None)) (Some routing) 0 MSG_NOT_ROUTED 0 None.

Definition octstr_dup (o : option octstr) : option octstr := octstr_duplicate <$> o.

(** [msg_duplicate]: both pointers of the message are followed. *)
Definition msg_duplicate (m : Msg) : outcome Msg :=
  i ← must (sm_info m);
  r ← must (routing_info m);
  Done (MkMsg
    (Some (MkInfo (octstr_dup (pdu i)) (octstr_dup (account_name i))
             (octstr_dup (account_msg_id i)) (octstr_dup (req_time i)) (octstr_dup (client_ip i))))
    (Some r) (retries m) (msg_state m) (msg_retry_time m) (octstr_dup (failed_smsc_id m))).

Definition set_state (m : Msg) (s : msg_state_t) : Msg :=
  MkMsg (sm_info m) (routing_info m) (retries m) s (msg_retry_time m) (failed_smsc_id m).
Definition set_retries (m : Msg) (r : Z) : Msg :=
  MkMsg (sm_info m) (routing_info m) r (msg_state m) (msg_retry_time m) (failed_smsc_id m).
Definition set_failed (m : Msg) (t : Z) (id : option octstr) : Msg :=
  MkMsg (sm_info m) (routing_info m) (retries m) (msg_state m) t id.
Definition set_pdu (m : Msg) (o : option octstr) : Msg :=
  MkMsg ((fun i => MkInfo o (account_name i) (account_msg_id i) (req_time i) (client_ip i)) <$>
           sm_info m)
    (routing_info m) (retries m) (msg_state m) (msg_retry_time m) (failed_smsc_id m).
Definition set_routing (m : Msg) (r : option forward_queue_data) : Msg :=
  MkMsg (sm_info m) r (retries m) (msg_state m) (msg_retry_time m) (failed_smsc_id m).

(** Who a message belongs to: the octets of the fields that identify it and
    that no operation of the client changes. *)
Definition msg_ident (m : Msg) : option (list (option (list Z))) :=
  (fun i => [octets <$> account_name i; octets <$> account_msg_id i; octets <$> req_time i;
             octets <$> client_ip i]) <$> sm_info m.

(** ** Effects on the other processes and threads *)

(** Messages to the database process and to the server. *)
Inductive Conn_Msg : Type :=
| insert_mis (account_name account_msg_id req_time smsc_id smsc_msg_id : option octstr)
    (source_addr dest_addr : option octstr) (submit_status esm_class message_len : Z)
    (msg_content : option octstr) (retry_value : Z) (IP : option octstr)
| insert_status (smsc_id smsc_msg_id dest_addr pdu : option octstr) (deliver_status : Z)
| global_q_msg (q_limit : Z)
| no_of_smsc (n : Z)
| info_smsc (smsc_id smsc_type : option octstr) (conn_status conn_mode : Z).

Inductive thread : Type := router_thread | sys_thread | transmitter_thread | receiver_thread.

Inductive event : Type :=
| EvDestroy (m : Msg)                 (* msg_destroy *)
| EvDbbox (c : Conn_Msg)              (* send_msg_dbbox_server(c, 0) *)
| EvReverse (c : Conn_Msg)            (* send_msg_reverse_server(c) *)
| EvWakeup (t : thread).              (* gwthread_wakeup *)

End Pdus.

(** ** The shared variables *)

Inductive client_status : Type := CLIENT_RUNNING | CLIENT_SUSPENDED | CLIENT_SHUTDOWN | CLIENT_DEAD.

#[export] Instance client_status_eq_dec : EqDecision client_status.
Proof. solve_decision. Defined.

Section World.
Context {O : OctstrLib} {L : GwListLib}.

Record World : Type := MkWorld {
  now : Z;                         (* time(NULL) *)
  smpp_client_status : client_status;
  outgoing_msg : gwlist Msg;
  global_q_min : Z;
  global_q_max : Z;
  incoming_msg_counter : Counter;
  outgoing_msg_counter : Counter;
  compare_smsc_string : option (gwlist octstr);
  dndcheck_flag : Z;
  trace : list event
}.

Definition set_outgoing (w : World) (q : gwlist Msg) : World :=
  MkWorld (now w) (smpp_client_status w) q (global_q_min w) (global_q_max w)
    (incoming_msg_counter w) (outgoing_msg_counter w) (compare_smsc_string w) (dndcheck_flag w)
    (trace w).
Definition set_incoming_counter (w : World) (c : Counter) : World :=
  MkWorld (now w) (smpp_client_status w) (outgoing_msg w) (global_q_min w) (global_q_max w)
    c (outgoing_msg_counter w) (compare_smsc_string w) (dndcheck_flag w) (trace w).
Definition set_outgoing_counter (w : World) (c : Counter) : World :=
  MkWorld (now w) (smpp_client_status w) (outgoing_msg w) (global_q_min w) (global_q_max w)
    (incoming_msg_counter w) c (compare_smsc_string w) (dndcheck_flag w) (trace w).
Definition emit (w : World) (e : event) : World :=
  MkWorld (now w) (smpp_client_status w) (outgoing_msg w) (global_q_min w) (global_q_max w)
    (incoming_msg_counter w) (outgoing_msg_counter w) (compare_smsc_string w) (dndcheck_flag w)
    (trace w ++ [e]).

(** [produce_outgoing_msg]. *)
Definition produce_outgoing_msg (w : World) (sms : Msg) : World :=
  let w := set_outgoing w (gwlist_produce (outgoing_msg w) sms) in
  if negb (global_q_max w =? -1) && (global_q_max w <=? gwlist_len (outgoing_msg w))
  then emit w (EvReverse (global_q_msg 1))
  else w.

(** [compare_change_string]: 0 when the SMSC is in the list. *)
Definition compare_change_string (w : World) (smsc_id : option octstr) : Z :=
  match compare_smsc_string w, smsc_id with
  | Some l, Some id => if gwlist_search l (octstr_same id) then 0 else 1
  | _, _ => 1
  end.

(** [mis_db_insert]. *)
Definition mis_db_insert {R : PduRest} (w : World)
    (account_name account_msg_id req_time smsc_id smsc_msg_id : option octstr)
    (pdu : option SMPP_PDU) (submit_status : Z) (IP : option octstr) : outcome World :=
  p ← must pdu;
  b ← as_submit p;
  Done (emit w (EvDbbox (insert_mis (octstr_dup account_name) (octstr_dup account_msg_id)
    (octstr_dup req_time)
    (Some (from_option octstr_duplicate (octstr_create []) smsc_id))
    (Some (from_option octstr_duplicate (octstr_create []) smsc_msg_id))
    (octstr_dup (source_addr b)) (octstr_dup (destination_addr b))
    submit_status (esm_class b) (from_option octstr_len 0 (short_message b))
    (octstr_dup (short_message b))
    (if user_response_code b =? -1 then 0 else user_response_code b)
    (octstr_dup IP)))).

(** The messages the process destroyed, by identity. *)
Definition destroyed_msgs (t : list event) : list (option (list (option (list Z)))) :=
  omap (fun e => match e with EvDestroy m => Some (msg_ident m) | _ => None end) t.

(** The messages reported to the database process, by identity. *)
Definition reported_msgs (t : list event) : list (option (list (option (list Z)))) :=
  omap (fun e => match e with
    | EvDbbox (insert_mis a m t _ _ _ _ _ _ _ _ _ ip) =>
        Some (Some [octets <$> a; octets <$> m; octets <$> t; octets <$> ip])
    | _ => None
    end) t.

(** The messages in the shared queue and those destroyed. *)
Definition world_msgs (w : World) : list (option (list (option (list Z)))) :=
  (msg_ident <$> items (outgoing_msg w)) ++ destroyed_msgs (trace w).

End World.

(** ** The PDU library *)

Class PduLib (O : OctstrLib) (R : PduRest) : Type := {
  smpp_pdu_pack : SMPP_PDU -> option octstr;
  smpp_pdu_unpack : octstr -> option SMPP_PDU;
}.

(** What is packed is a length of four octets followed by a PDU of the same
    type, status and sequence number that unpacks. *)
Class PduLibLaws {O : OctstrLib} {R : PduRest} (P : PduLib O R) : Prop := {
  pack_submit h b o :
    smpp_pdu_pack (submit_sm h b) = Some o ->
    exists b', smpp_pdu_unpack (octstr_from_position o 4) = Some (submit_sm h b');
}.

(** ** Lemmas *)

Section Lemmas.
Context {O : OctstrLib} {OL : OctstrLaws O} {L : GwListLib} {LL : GwListLaws L}.

Lemma destroyed_msgs_app t t' : destroyed_msgs (t ++ t') = destroyed_msgs t ++ destroyed_msgs t'.
Proof. apply omap_app. Qed.

Lemma reported_msgs_app t t' : reported_msgs (t ++ t') = reported_msgs t ++ reported_msgs t'.
Proof. apply omap_app. Qed.

(** Effects that destroy nothing. *)
Definition quiet (e : event) : Prop := match e with EvDestroy _ => False | _ => True end.

Lemma world_msgs_emit_quiet w e : quiet e -> world_msgs (emit w e) = world_msgs w.
Proof.
  intros He. unfold world_msgs. simpl. rewrite destroyed_msgs_app.
  destruct e; [done|..]; by rewrite app_nil_r.
Qed.

Lemma world_msgs_destroy w m : world_msgs (emit w (EvDestroy m)) = world_msgs w ++ [msg_ident m].
Proof. unfold world_msgs. simpl. by rewrite destroyed_msgs_app, app_assoc. Qed.

Lemma world_msgs_produce w m : world_msgs (produce_outgoing_msg w m) ≡ₚ msg_ident m :: world_msgs w.
Proof.
  unfold produce_outgoing_msg. set (w1 := set_outgoing w _).
  assert (H : world_msgs w1 ≡ₚ msg_ident m :: world_msgs w).
  { unfold world_msgs. simpl. rewrite items_produce, fmap_app, <-app_assoc. simpl.
    by rewrite <-Permutation_middle. }
  case_match; [|done]. by rewrite world_msgs_emit_quiet.
Qed.

Lemma produce_outgoing_items w m :
  items (outgoing_msg (produce_outgoing_msg w m)) = items (outgoing_msg w) ++ [m] /\
  destroyed_msgs (trace (produce_outgoing_msg w m)) = destroyed_msgs (trace w) /\
  reported_msgs (trace (produce_outgoing_msg w m)) = reported_msgs (trace w) /\
  smpp_client_status (produce_outgoing_msg w m) = smpp_client_status w /\
  now (produce_outgoing_msg w m) = now w.
Proof.
  unfold produce_outgoing_msg. case_match; cbn; rewrite items_produce; split_and!; try done.
  - exact (eq_trans (destroyed_msgs_app (trace w) [EvReverse (global_q_msg 1)]) (app_nil_r _)).
  - exact (eq_trans (reported_msgs_app (trace w) [EvReverse (global_q_msg 1)]) (app_nil_r _)).
Qed.

Lemma octstr_dup_octets o : octets <$> octstr_dup o = octets <$> o.
Proof. destruct o; simpl; [|done]. by rewrite octstr_duplicate_spec. Qed.

Lemma msg_duplicate_ident m m' : msg_duplicate m = Done m' -> msg_ident m' = msg_ident m.
Proof.
  unfold msg_duplicate, msg_ident. destruct (sm_info m) as [i|]; simpl; [|done].
  destruct (routing_info m) as [r|]; simpl; [|done]. intros [= <-]. simpl.
  by rewrite !octstr_dup_octets.
Qed.

Lemma msg_ident_set_state m s : msg_ident (set_state m s) = msg_ident m.
Proof. done. Qed.
Lemma msg_ident_set_retries m r : msg_ident (set_retries m r) = msg_ident m.
Proof. done. Qed.
Lemma msg_ident_set_failed m t i : msg_ident (set_failed m t i) = msg_ident m.
Proof. done. Qed.
Lemma msg_ident_set_pdu m o : msg_ident (set_pdu m o) = msg_ident m.
Proof. unfold msg_ident, set_pdu. simpl. by destruct (sm_info m). Qed.
Lemma msg_ident_set_routing m r : msg_ident (set_routing m r) = msg_ident m.
Proof. done. Qed.

End Lemmas.

#[export] Hint Rewrite @msg_ident_set_state @msg_ident_set_retries @msg_ident_set_failed
  @msg_ident_set_pdu @msg_ident_set_routing : smpp.

(** ** Sequence numbers as keys *)

(** [octstr_format("%ld", seq)]. *)
Definition octstr_format_ld {O : OctstrLib} (z : Z) : octstr := octstr_create (format_ld z).

Lemma cstr_inj s s' : cstr s = cstr s' -> s = s'.
Proof.
  revert s'. induction s as [|a s IH]; intros [|a' s']; simpl; try done.
  intros [= Ha Hs]. f_equal; [|by apply IH].
  rewrite <-(ascii_nat_embedding a), <-(ascii_nat_embedding a'). f_equal. lia.
Qed.

Lemma octets_format_ld {O : OctstrLib} {OL : OctstrLaws O} z :
  octets (octstr_format_ld z) = format_ld z.
Proof. apply octets_create, cstr_range. Qed.

Lemma format_ld_inj a b : format_ld a = format_ld b -> a = b.
Proof. intros H%cstr_inj. by apply (inj pretty) in H. Qed.

(** An instance of the parameters, to evaluate the model on examples: PDUs
    have no further fields, and packing keeps the sequence number, the
    source address and the text of a [submit_sm]. *)
#[export] Instance no_rest : PduRest := {| pdu_rest := unit; rest_none := tt |}.

Definition toy_pack (p : SMPP_PDU (O:=list_octstr)) : option (list Z) :=
  match p with
  | submit_sm h b =>
      Some ([0; 0; 0; 0; 4; command_status h; sequence_number h] ++
            [Z.of_nat (length (default [] (source_addr b)))] ++ default [] (source_addr b) ++
            default [] (short_message b))
  | p => Some [0; 0; 0; 0; 0; command_status (pdu_header p); sequence_number (pdu_header p)]
  end.

Definition toy_unpack (l : list Z) : option (SMPP_PDU (O:=list_octstr)) :=
  match l with
  | 4 :: st :: seq :: n :: l =>
      Some (submit_sm (O:=list_octstr) (MkHeader st seq)
        (MkSubmitSm (O:=list_octstr) None 0 0 (Some (take (Z.to_nat n) l)) 0 0 None 0 0 0 0 0
           (Some (drop (Z.to_nat n) l)) 0 0 tt))
  | 0 :: st :: seq :: _ => Some (enquire_link (MkHeader st seq))
  | _ => None
  end.

#[export] Instance toy_pdus : PduLib list_octstr no_rest :=
  {| smpp_pdu_pack := toy_pack; smpp_pdu_unpack := toy_unpack |}.

#[export] Instance toy_pdus_laws : PduLibLaws toy_pdus.
Proof. split. simpl. intros [st seq] b o [= <-]. simpl. eexists. reflexivity. Qed.
