(* ===== verification/SmscConn.v ===== *)
(** * SMSC connections (smpp-smsc/smscconn.c, msg.c)

    The generic part of a connection to an SMSC: its record, what happens to
    a message that was sent or could not be sent, the prefix rules that tell
    which destinations it serves, and its life cycle.  The functions of the
    connection type behind the pointers [send_msg], [queued], [waiting] and
    [shutdown] are the interface [Driver], which the SMPP session
    implements.  Log files are not modelled. *)

From S2P Require Import Prelude Gwlib Counter World.
Open Scope Z_scope.

Inductive smscconn_status_t : Type :=
| SMSCCONN_CONNECTING | SMSCCONN_ACTIVE | SMSCCONN_ACTIVE_RECV | SMSCCONN_RECONNECTING
| SMSCCONN_DISCONNECTED | SMSCCONN_DEAD.

Inductive smscconn_killed_t : Type :=
| SMSCCONN_ALIVE | SMSCCONN_KILLED_WRONG_PASSWORD | SMSCCONN_KILLED_CANNOT_CONNECT
| SMSCCONN_KILLED_SHUTDOWN.

#[export] Instance smscconn_status_eq_dec : EqDecision smscconn_status_t.
Proof. solve_decision. Defined.
#[export] Instance smscconn_killed_eq_dec : EqDecision smscconn_killed_t.
Proof. solve_decision. Defined.

(** Reasons of a failure. *)
Definition SMSCCONN_SUCCESS : Z := 0.
Definition SMSCCONN_FAILED_SHUTDOWN : Z := 1.
Definition SMSCCONN_FAILED_REJECTED : Z := 2.
Definition SMSCCONN_FAILED_MALFORMED : Z := 3.
Definition SMSCCONN_FAILED_TEMPORARILY : Z := 4.
Definition SMSCCONN_FAILED_DISCARDED : Z := 5.
Definition SMSCCONN_FAILED_QFULL : Z := 6.

(** The prefix and pattern matching functions of gwlib. *)
Class PrefixLib (O : OctstrLib) : Type := {
  regex : Type;
  does_prefix_match : octstr -> octstr -> Z;
  gw_regex_match_pre : regex -> octstr -> Z;
}.

Section SmscConn.
Context {O : OctstrLib} {L : GwListLib} {R : PduRest} {PX : PrefixLib O}.

(** [struct smscconn]; [callbacks] says that the function pointers are set. *)
Record SMSCConn (D : Type) : Type := MkSMSCConn {
  status : smscconn_status_t;
  load : Z;
  bind_sent : Z;
  why_killed : smscconn_killed_t;
  connect_time : Z;
  received : Counter;
  sent : Counter;
  failed : Counter;
  is_stopped : Z;
  name : option octstr;
  id : option octstr;
  our_host : option octstr;
  allowed_prefix : option octstr;
  allowed_prefix_regex : option regex;
  denied_prefix : option octstr;
  denied_prefix_regex : option regex;
  reconnect_delay : Z;
  alt_dcs : Z;
  callbacks : bool;
  smsc_type : option octstr;
  data : option D;
  mode : Z
}.

Section Conn.
Context {D : Type}.
Implicit Types c : SMSCConn D.

Definition set_status c s : SMSCConn D :=
  MkSMSCConn D s (load _ c) (bind_sent _ c) (why_killed _ c) (connect_time _ c) (received _ c)
    (sent _ c) (failed _ c) (is_stopped _ c) (name _ c) (id _ c) (our_host _ c)
    (allowed_prefix _ c) (allowed_prefix_regex _ c) (denied_prefix _ c) (denied_prefix_regex _ c)
    (reconnect_delay _ c) (alt_dcs _ c) (callbacks _ c) (smsc_type _ c) (data _ c) (mode _ c).
Definition set_load c n : SMSCConn D :=
  MkSMSCConn D (status _ c) n (bind_sent _ c) (why_killed _ c) (connect_time _ c) (received _ c)
    (sent _ c) (failed _ c) (is_stopped _ c) (name _ c) (id _ c) (our_host _ c)
    (allowed_prefix _ c) (allowed_prefix_regex _ c) (denied_prefix _ c) (denied_prefix_regex _ c)
    (reconnect_delay _ c) (alt_dcs _ c) (callbacks _ c) (smsc_type _ c) (data _ c) (mode _ c).
Definition set_bind c b m : SMSCConn D :=
  MkSMSCConn D (status _ c) (load _ c) b (why_killed _ c) (connect_time _ c) (received _ c)
    (sent _ c) (failed _ c) (is_stopped _ c) (name _ c) (id _ c) (our_host _ c)
    (allowed_prefix _ c) (allowed_prefix_regex _ c) (denied_prefix _ c) (denied_prefix_regex _ c)
    (reconnect_delay _ c) (alt_dcs _ c) (callbacks _ c) (smsc_type _ c) (data _ c) m.
Definition set_killed c k : SMSCConn D :=
  MkSMSCConn D (status _ c) (load _ c) (bind_sent _ c) k (connect_time _ c) (received _ c)
    (sent _ c) (failed _ c) (is_stopped _ c) (name _ c) (id _ c) (our_host _ c)
    (allowed_prefix _ c) (allowed_prefix_regex _ c) (denied_prefix _ c) (denied_prefix_regex _ c)
    (reconnect_delay _ c) (alt_dcs _ c) (callbacks _ c) (smsc_type _ c) (data _ c) (mode _ c).
Definition set_connect_time c t : SMSCConn D :=
  MkSMSCConn D (status _ c) (load _ c) (bind_sent _ c) (why_killed _ c) t (received _ c)
    (sent _ c) (failed _ c) (is_stopped _ c) (name _ c) (id _ c) (our_host _ c)
    (allowed_prefix _ c) (allowed_prefix_regex _ c) (denied_prefix _ c) (denied_prefix_regex _ c)
    (reconnect_delay _ c) (alt_dcs _ c) (callbacks _ c) (smsc_type _ c) (data _ c) (mode _ c).
Definition set_counters c r s f : SMSCConn D :=
  MkSMSCConn D (status _ c) (load _ c) (bind_sent _ c) (why_killed _ c) (connect_time _ c) r
    s f (is_stopped _ c) (name _ c) (id _ c) (our_host _ c)
    (allowed_prefix _ c) (allowed_prefix_regex _ c) (denied_prefix _ c) (denied_prefix_regex _ c)
    (reconnect_delay _ c) (alt_dcs _ c) (callbacks _ c) (smsc_type _ c) (data _ c) (mode _ c).
Definition set_stopped c s : SMSCConn D :=
  MkSMSCConn D (status _ c) (load _ c) (bind_sent _ c) (why_killed _ c) (connect_time _ c)
    (received _ c) (sent _ c) (failed _ c) s (name _ c) (id _ c) (our_host _ c)
    (allowed_prefix _ c) (allowed_prefix_regex _ c) (denied_prefix _ c) (denied_prefix_regex _ c)
    (reconnect_delay _ c) (alt_dcs _ c) (callbacks _ c) (smsc_type _ c) (data _ c) (mode _ c).
Definition set_data c d : SMSCConn D :=
  MkSMSCConn D (status _ c) (load _ c) (bind_sent _ c) (why_killed _ c) (connect_time _ c)
    (received _ c) (sent _ c) (failed _ c) (is_stopped _ c) (name _ c) (id _ c) (our_host _ c)
    (allowed_prefix _ c) (allowed_prefix_regex _ c) (denied_prefix _ c) (denied_prefix_regex _ c)
    (reconnect_delay _ c) (alt_dcs _ c) (callbacks _ c) (smsc_type _ c) d (mode _ c).

(** ** What became of a message *)

(** [smscconn_sent]: the access log reads the message and its PDU. *)
Definition smscconn_sent c (w : World) (sms : Msg) (pdu : option SMPP_PDU)
    : outcome (SMSCConn D * World) :=
  let w := set_outgoing_counter w (counter_increase (outgoing_msg_counter w)).2 in
  _ ← must (sm_info sms);
  p ← must pdu;
  _ ← as_submit p;
  let w := emit w (EvDestroy sms) in
  Done (set_counters c (received _ c) (counter_increase (sent _ c)).2 (failed _ c), w).

(** Keep a message that failed for a while, with the first time it failed. *)
Definition requeue_failed c (w : World) (sms : Msg) : World :=
  let t := if msg_retry_time sms =? 0 then now w else msg_retry_time sms in
  produce_outgoing_msg w (set_failed sms t (octstr_dup (id _ c))).

Definition smscconn_send_failed c (w : World) (sms : Msg) (reason : Z) (pdu : option SMPP_PDU)
    : outcome (SMSCConn D * World) :=
  _ ← must (sm_info sms);
  _ ← match pdu with Some p => _ ← as_submit p; Done tt | None => Done tt end;
  if (reason =? SMSCCONN_FAILED_TEMPORARILY) || (reason =? SMSCCONN_FAILED_SHUTDOWN)
  then Done (c, requeue_failed c w sms)
  else
    Done (set_counters c (received _ c) (sent _ c) (counter_increase (failed _ c)).2,
          emit w (EvDestroy sms)).

Definition reset_smpp_counters c : SMSCConn D :=
  set_counters c (counter_set (received _ c) 0).2 (counter_set (sent _ c) 0).2
    (counter_set (failed _ c) 0).2.

(** ** Which destinations a connection serves *)

Definition matches (p : option octstr) (receiver : octstr) : bool :=
  match p with Some p => does_prefix_match p receiver =? 1 | None => false end.
Definition is_set {A} (o : option A) : bool := match o with Some _ => true | None => false end.
Definition regex_is (r : option regex) (receiver : octstr) (v : Z) : bool :=
  match r with Some r => gw_regex_match_pre r receiver =? v | None => false end.

Definition smscconn_usable c (msg : forward_queue_data) : Z :=
  let receiver := octstr_create (r_destination_addr msg) in
  let allowed := allowed_prefix _ c in
  let denied := denied_prefix _ c in
  let allowed_r := allowed_prefix_regex _ c in
  let denied_r := denied_prefix_regex _ c in
  if bool_decide (status _ c = SMSCCONN_DEAD) || negb (bool_decide (why_killed _ c = SMSCCONN_ALIVE))
  then -1
  else if is_set allowed && negb (is_set denied) && negb (matches allowed receiver) then -1
  else if is_set denied && negb (is_set allowed) && matches denied receiver then -1
  else if is_set denied_r && negb (is_set allowed_r) && regex_is denied_r receiver 1 then -1
  else if is_set denied && is_set allowed && matches allowed receiver && matches denied receiver
  then -1
  else if is_set denied && is_set allowed && negb (matches allowed receiver) &&
          matches denied receiver
  then -1
  else if is_set allowed_r && is_set denied_r && regex_is allowed_r receiver 0 &&
          regex_is denied_r receiver 1
  then -1
  else 0.

(** ** Life cycle *)

(** [smscconn_start]; the pointers [start_conn] and [stop_conn] stay NULL. *)
Definition smscconn_start c : SMSCConn D :=
  if bool_decide (status _ c = SMSCCONN_DEAD) || (is_stopped _ c =? 0) then c
  else set_stopped c 0.

Definition smscconn_stop c : Z * SMSCConn D :=
  if bool_decide (status _ c = SMSCCONN_DEAD) || negb (is_stopped _ c =? 0) ||
     negb (bool_decide (why_killed _ c = SMSCCONN_ALIVE))
  then (-1, c)
  else (0, set_stopped c 1).

(** [smscconn_destroy]: whether the connection was freed. *)
Definition smscconn_destroy (c : option (SMSCConn D)) : Z :=
  match c with
  | None => 0
  | Some c => if bool_decide (status _ c = SMSCCONN_DEAD) then 0 else -1
  end.

End Conn.

(** ** The connection type *)

(** What a connection type promises: [send_msg] keeps a copy of the message
    and returns 0, the other functions report. *)
Class Driver (D : Type) : Type := {
  drv_send_msg : SMSCConn D -> World -> Msg -> outcome (Z * SMSCConn D * World);
  drv_queued : SMSCConn D -> Z * SMSCConn D;
  drv_waiting : SMSCConn D -> Z;
  drv_shutdown : SMSCConn D -> World -> Z -> outcome (Z * SMSCConn D * World);
  drv_held : SMSCConn D -> list Msg;
}.

(** Fields that the calls of a driver leave alone. *)
Definition same_conn {D} (c c' : SMSCConn D) : Prop :=
  status D c' = status D c /\ why_killed D c' = why_killed D c /\ id D c' = id D c /\
  allowed_prefix D c' = allowed_prefix D c /\ denied_prefix D c' = denied_prefix D c /\
  allowed_prefix_regex D c' = allowed_prefix_regex D c /\
  denied_prefix_regex D c' = denied_prefix_regex D c /\
  callbacks D c' = callbacks D c /\ is_set (data D c') = is_set (data D c).

Class DriverLaws {D} (V : Driver D) : Prop := {
  drv_send_spec c w m r c' w' :
    drv_send_msg c w m = Done (r, c', w') ->
    same_conn c c' /\ world_msgs w' = world_msgs w /\
    reported_msgs (trace w') = reported_msgs (trace w) /\
    outgoing_msg w' = outgoing_msg w /\ smpp_client_status w' = smpp_client_status w /\
    now w' = now w /\ r = 0 /\ exists m', msg_duplicate m = Done m' /\ drv_held c' = drv_held c ++ [m'];
  drv_send_total c w m m' d :
    data D c = Some d -> msg_duplicate m = Done m' -> exists x, drv_send_msg c w m = Done x;
  drv_queued_spec c : same_conn c (drv_queued c).2 /\ drv_held (drv_queued c).2 = drv_held c;
  drv_queued_load c :
    load D (drv_queued (drv_queued c).2).2 = load D (drv_queued c).2;
}.

Section Calls.
Context {D : Type} {V : Driver D}.
Implicit Types c : SMSCConn D.

Definition smscconn_send c (w : World) (msg : Msg) : outcome (Z * SMSCConn D * World) :=
  if bool_decide (status _ c = SMSCCONN_DEAD) || negb (bool_decide (why_killed _ c = SMSCCONN_ALIVE))
  then Done (-1, c, w)
  else
    _ ← must (data _ c);
    _ ← gw_assert (callbacks _ c);
    drv_send_msg c w msg.

(** [StatusInfo]; [waiting] stays unset without the function. *)
Record StatusInfo : Type := MkStatusInfo {
  info_status : smscconn_status_t;
  info_mode : Z;
  info_killed : smscconn_killed_t;
  info_is_stopped : Z;
  info_online : Z;
  info_sent : Z;
  info_received : Z;
  info_failed : Z;
  info_queued : Z;
  info_waiting : option Z;
  info_load : Z
}.

(** [smscconn_info] asks for the queue length first, which refreshes the load. *)
Definition smscconn_info c (w : World) : StatusInfo * SMSCConn D :=
  let '(queued, c') := if callbacks _ c then drv_queued c else (-1, c) in
  (MkStatusInfo (status _ c) (mode _ c) (why_killed _ c) (is_stopped _ c)
     (now w - connect_time _ c) (counter_value (sent _ c)) (counter_value (received _ c))
     (counter_value (failed _ c)) queued
     (if callbacks _ c then Some (drv_waiting c') else None) (load _ c'), c').

Definition smscconn_shutdown c (w : World) (finish_sending : Z) : outcome (SMSCConn D * World) :=
  if bool_decide (status _ c = SMSCCONN_DEAD) then Done (c, w)
  else if callbacks _ c then
    '(_, c, w) ← drv_shutdown c w finish_sending;
    Done (c, w)
  else Done (set_killed c SMSCCONN_KILLED_SHUTDOWN, w).

End Calls.
End SmscConn.

Arguments status {_ _ D}. Arguments load {_ _ D}. Arguments bind_sent {_ _ D}.
Arguments why_killed {_ _ D}. Arguments connect_time {_ _ D}. Arguments received {_ _ D}.
Arguments sent {_ _ D}. Arguments failed {_ _ D}. Arguments is_stopped {_ _ D}.
Arguments name {_ _ D}. Arguments id {_ _ D}. Arguments our_host {_ _ D}.
Arguments allowed_prefix {_ _ D}. Arguments allowed_prefix_regex {_ _ D}.
Arguments denied_prefix {_ _ D}. Arguments denied_prefix_regex {_ _ D}.
Arguments reconnect_delay {_ _ D}. Arguments alt_dcs {_ _ D}. Arguments callbacks {_ _ D}.
Arguments smsc_type {_ _ D}. Arguments data {_ _ D}. Arguments mode {_ _ D}.

(** ** Lemmas *)

Section Lemmas.
Context {O : OctstrLib} {OL : OctstrLaws O} {L : GwListLib} {LL : GwListLaws L} {R : PduRest}
  {PX : PrefixLib O} {D : Type}.
Implicit Types c : SMSCConn D.

Lemma same_conn_refl c : same_conn c c.
Proof. unfold same_conn. auto 10. Qed.

Lemma same_conn_trans c1 c2 c3 : same_conn c1 c2 -> same_conn c2 c3 -> same_conn c1 c3.
Proof. unfold same_conn. intuition congruence. Qed.

Lemma smscconn_usable_same c c' m : same_conn c c' -> smscconn_usable c' m = smscconn_usable c m.
Proof.
  intros (E1 & E2 & _ & E3 & E4 & E5 & E6 & _). unfold smscconn_usable.
  by rewrite E1, E2, E3, E4, E5, E6.
Qed.

(** A message that could not be sent goes to the shared queue or is
    destroyed: it is in the world afterwards. *)
Lemma requeue_failed_msgs c w m : world_msgs (requeue_failed c w m) ≡ₚ msg_ident m :: world_msgs w.
Proof. unfold requeue_failed. by rewrite world_msgs_produce. Qed.

Definition loggable (pdu : option SMPP_PDU) : Prop :=
  match pdu with Some (submit_sm _ _) | None => True | Some _ => False end.

(** What [smscconn_send_failed] does, in one equation. *)
Lemma smscconn_send_failed_eq c w m reason pdu i :
  sm_info m = Some i -> loggable pdu ->
  smscconn_send_failed c w m reason pdu
  = Done (if (reason =? SMSCCONN_FAILED_TEMPORARILY) || (reason =? SMSCCONN_FAILED_SHUTDOWN)
          then (c, requeue_failed c w m)
          else (set_counters c (received c) (sent c) (counter_increase (failed c)).2,
                emit w (EvDestroy m))).
Proof.
  intros Hi Hp. unfold smscconn_send_failed. rewrite Hi. simpl.
  destruct pdu as [[]|]; try done; simpl; by case_match.
Qed.

Lemma smscconn_send_failed_msgs c w m reason pdu c' w' :
  smscconn_send_failed c w m reason pdu = Done (c', w') ->
  world_msgs w' ≡ₚ msg_ident m :: world_msgs w.
Proof.
  unfold smscconn_send_failed. intros (i & _ & H)%bind_Done.
  apply bind_Done in H as (? & _ & H). case_match; simplify_eq.
  - apply requeue_failed_msgs.
  - rewrite world_msgs_destroy. by rewrite <-Permutation_cons_append.
Qed.

Lemma smscconn_sent_msgs c w m pdu c' w' :
  smscconn_sent c w m pdu = Done (c', w') -> world_msgs w' ≡ₚ msg_ident m :: world_msgs w.
Proof.
  unfold smscconn_sent. intros (i & _ & H)%bind_Done.
  apply bind_Done in H as (? & _ & H). apply bind_Done in H as (? & _ & H). simplify_eq.
  rewrite world_msgs_destroy. by rewrite <-Permutation_cons_append.
Qed.

End Lemmas.

#[export] Hint Resolve same_conn_refl : smpp.

(** ** Theorems *)

Section Theorems.
Context {O : OctstrLib} {OL : OctstrLaws O} {L : GwListLib} {LL : GwListLaws L} {R : PduRest}
  {PX : PrefixLib O} {D : Type}.
Implicit Types c : SMSCConn D.

(** A message that could not be sent is never lost and never doubled.  On
    a temporary failure or a shutdown it is appended to the shared queue with
    the SMSC that failed and, unless it has one already, the time of its
    first failure; the server is told that the queue is full exactly when a
    limit is set and reached.  For every other reason it is destroyed, once,
    and counted as failed. *)
Lemma send_failed_outcome c (w : World) (sms : Msg) (reason : Z) (pdu : option SMPP_PDU)
    (Hinfo : exists i, sm_info sms = Some i) (Hpdu : loggable pdu) :
  exists c' w', smscconn_send_failed c w sms reason pdu = Done (c', w') /\
  if bool_decide (reason = SMSCCONN_FAILED_TEMPORARILY \/ reason = SMSCCONN_FAILED_SHUTDOWN)
  then
    c' = c /\
    items (outgoing_msg w') = items (outgoing_msg w) ++
      [set_failed sms (if msg_retry_time sms =? 0 then now w else msg_retry_time sms)
         (octstr_dup (id c))] /\
    trace w' = trace w ++
      (if bool_decide (global_q_max w <> -1 /\
                       global_q_max w <= Z.of_nat (S (length (items (outgoing_msg w)))))
       then [EvReverse (global_q_msg 1)] else [])
  else
    c' = set_counters c (received c) (sent c) (counter_increase (failed c)).2 /\
    items (outgoing_msg w') = items (outgoing_msg w) /\ trace w' = trace w ++ [EvDestroy sms].
Proof.
  destruct Hinfo as [i Hi]. rewrite (smscconn_send_failed_eq _ _ _ _ _ i) by done.
  replace (_ || _) with
    (bool_decide (reason = SMSCCONN_FAILED_TEMPORARILY \/ reason = SMSCCONN_FAILED_SHUTDOWN)).
  2:{ apply eq_true_iff_eq. rewrite bool_decide_eq_true, orb_true_iff, !Z.eqb_eq. done. }
  case_bool_decide; [|eauto 10]. do 2 eexists. split; [done|]. split; [done|].
  unfold requeue_failed, produce_outgoing_msg. set (w1 := set_outgoing w _).
  assert (E : items (outgoing_msg w1) = items (outgoing_msg w) ++
    [set_failed sms (if msg_retry_time sms =? 0 then now w else msg_retry_time sms)
       (octstr_dup (id c))]) by apply items_produce.
  rewrite gwlist_len_spec, E, length_app, Nat.add_1_r.
  replace (negb (global_q_max w1 =? -1) && (global_q_max w1 <=? Z.of_nat (S (length (items (outgoing_msg w))))))
    with (bool_decide (global_q_max w <> -1 /\
      global_q_max w <= Z.of_nat (S (length (items (outgoing_msg w)))))).
  2:{ apply eq_true_iff_eq.
      rewrite bool_decide_eq_true, andb_true_iff, negb_true_iff, Z.eqb_neq, Z.leb_le. done. }
  case_bool_decide; simpl; [done|]. by rewrite app_nil_r.
Qed.

(** The prefix rules: a connection serves a destination exactly when it
    is alive, and no denied prefix matches, and - when it has allowed but no
    denied prefixes - an allowed one matches, and no denied pattern matches
    while there is no allowed pattern or it does not match.  In particular
    denied prefixes win over allowed ones, and an allowed pattern alone
    restricts nothing. *)
Theorem smscconn_usable_spec c (msg : forward_queue_data) :
  let receiver := octstr_create (r_destination_addr msg) in
  smscconn_usable c msg = 0 <->
  status c <> SMSCCONN_DEAD /\ why_killed c = SMSCCONN_ALIVE /\
  matches (denied_prefix c) receiver = false /\
  (allowed_prefix c <> None -> denied_prefix c = None ->
   matches (allowed_prefix c) receiver = true) /\
  (regex_is (denied_prefix_regex c) receiver 1 = true ->
   allowed_prefix_regex c <> None /\ regex_is (allowed_prefix_regex c) receiver 0 = false).
Proof.
  unfold smscconn_usable. set (receiver := octstr_create _). simpl.
  destruct (bool_decide_reflect (status c = SMSCCONN_DEAD)) as [Hd|Hd]; simpl; [naive_solver|].
  destruct (bool_decide_reflect (why_killed c = SMSCCONN_ALIVE)) as [Hk|Hk]; simpl; [|naive_solver].
  destruct (allowed_prefix c) as [a|], (denied_prefix c) as [d|],
    (allowed_prefix_regex c) as [ar|], (denied_prefix_regex c) as [dr|]; simpl;
    repeat match goal with |- context [?x =? ?y] => destruct (x =? y) end; simpl;
    split; intros; destruct_and?; split_and?; try done; naive_solver.
Qed.

(** The life cycle of a connection: [smscconn_stop] works once, on a
    connection that is alive and running, and is undone by [smscconn_start];
    neither ever changes a dead connection, and only a dead connection is
    freed. *)
Theorem smscconn_lifecycle c :
  (is_stopped c = 0 -> status c <> SMSCCONN_DEAD -> why_killed c = SMSCCONN_ALIVE ->
   (smscconn_stop c).1 = 0 /\ (smscconn_stop (smscconn_stop c).2).1 = -1 /\
   smscconn_start (smscconn_stop c).2 = c) /\
  (status c = SMSCCONN_DEAD -> smscconn_stop c = (-1, c) /\ smscconn_start c = c) /\
  (smscconn_destroy (Some c) = 0 <-> status c = SMSCCONN_DEAD).
Proof.
  split_and!.
  - intros Hs Hd Hk. unfold smscconn_stop, smscconn_start.
    rewrite Hs, (bool_decide_eq_false_2 _ Hd), (bool_decide_eq_true_2 _ Hk). simpl.
    rewrite !(bool_decide_eq_false_2 (status c = _) Hd). simpl. split_and!; [done..|].
    destruct c. simpl in *. by subst.
  - intros Hd. unfold smscconn_stop, smscconn_start. by rewrite (bool_decide_eq_true_2 _ Hd).
  - unfold smscconn_destroy. case_bool_decide; naive_solver.
Qed.

End Theorems.

(** ** Witnesses *)

(** Prefixes as plain octets; a pattern is a prefix too. *)
Fixpoint starts_with (p l : list Z) : bool :=
  match p, l with
  | [], _ => true
  | x :: p, y :: l => (x =? y) && starts_with p l
  | _ :: _, [] => false
  end.

#[export] Instance plain_prefixes : PrefixLib list_octstr := {|
  regex := list Z;
  does_prefix_match p r := if starts_with p r then 1 else 0;
  gw_regex_match_pre p r := if starts_with p r then 1 else 0;
|}.

Definition sample_routing : forward_queue_data (O:=list_octstr) :=
  MkRouting (O:=list_octstr) (cstr "9198") (cstr "ACME") [-1; -1; -1; -1] [-1; -1; -1; -1] None 0 0 0.

Definition sample_msg : Msg (O:=list_octstr) :=
  MkMsg (O:=list_octstr)
    (Some (MkInfo (O:=list_octstr) (Some [0; 0; 0; 0; 4; 0; 7; 1; 65; 104; 105]) (Some (cstr "acc"))
       (Some (cstr "17")) None None))
    (Some sample_routing) 0 MSG_NOT_SENT 0 None.

Definition sample_world : World (O:=list_octstr) :=
  MkWorld (O:=list_octstr) (L:=list_gwlist) 1000 CLIENT_RUNNING [] 1 1 counter_create counter_create
    None 0 [].

Definition idle_conn {D} : SMSCConn (O:=list_octstr) D :=
  MkSMSCConn D SMSCCONN_ACTIVE 0 1 SMSCCONN_ALIVE 900 counter_create counter_create counter_create
    0 None (Some (cstr "smsc1")) None (Some (cstr "91")) None None None 10 0 false None None 1.

Lemma send_failed_outcome_witness :
  exists c' w', smscconn_send_failed (D:=unit) idle_conn sample_world sample_msg
                  SMSCCONN_FAILED_TEMPORARILY None = Done (c', w') /\
  c' = idle_conn /\
  items (outgoing_msg w') = [set_failed sample_msg 1000 (octstr_dup (Some (cstr "smsc1")))] /\
  trace w' = [EvReverse (global_q_msg 1)].
Proof.
  destruct (send_failed_outcome (D:=unit) idle_conn sample_world sample_msg
    SMSCCONN_FAILED_TEMPORARILY None) as (c' & w' & H1 & H2); [by eexists|done|].
  exists c', w'. exact (conj H1 H2).
Defined.

Lemma smscconn_usable_spec_witness : smscconn_usable (D:=unit) idle_conn sample_routing = 0.
Proof.
  apply (smscconn_usable_spec (D:=unit) idle_conn sample_routing).
  simpl. split_and!; try done.
Defined.

Lemma smscconn_lifecycle_witness :
  (smscconn_stop (D:=unit) (idle_conn (D:=unit))).1 = 0.
Proof.
  apply (proj1 (smscconn_lifecycle (D:=unit) idle_conn)); done.
Defined.
