(* ===== verification/SmppSession.v ===== *)
(** * The SMPP session with an SMSC (smpp-smsc/smsc_smpp.c)

    The thread of an SMPP connection takes messages from its queue, sends
    them as [submit_sm] PDUs inside of a window of [max_pending_submits],
    remembers the unanswered ones under their sequence number, and handles
    what the SMSC sends.  The functions work on a [Sess]: the [SMPP] object,
    the connection record that points to it, the socket connection, the
    window counter and the shared [World].  The socket connection and the
    table of unanswered messages are used through the interfaces [Link] and
    [KeyedStore]. *)

From S2P Require Import Prelude Gwlib Counter Dict Charset World SmscConn.
Open Scope Z_scope.

(** ** The connection to the SMSC, as the session uses it *)

Class Link (O : OctstrLib) : Type := {
  link : Type;
  link_ok : link -> Prop;
  link_stream : link -> list Z;              (* everything written so far *)
  conn_write : link -> octstr -> Z * link;
  conn_eof : link -> bool;
  conn_error : link -> bool;
  smpp_pdu_read_len : link -> Z * link;
  smpp_pdu_read_data : link -> Z -> option octstr * link;
}.

Class LinkLaws {O : OctstrLib} (K : Link O) : Prop := {
  conn_write_law l o :
    link_ok l ->
    link_ok (conn_write l o).2 /\ link_stream (conn_write l o).2 = link_stream l ++ octets o /\
    ((conn_write l o).1 = 0 \/ (conn_write l o).1 = 1 \/ (conn_write l o).1 = -1);
}.

(** The functions that read a receipt ([times_octstr_*]): what they leave in
    the caller's buffer. *)
Class ReceiptLib (O : OctstrLib) : Type := {
  times_octstr_get_many_alphanumeric : option octstr -> Z -> list Z;
  times_octstr_get_many_chars : option octstr -> Z -> list Z;
}.

(** ** Constants *)

Definition SMPP_THROTTLING_SLEEP_TIME : Z := 15.
Definition SMPP_WAITACK_RECONNECT : Z := 0.
Definition SMPP_WAITACK_REQUEUE : Z := 1.
Definition SMPP_WAITACK_NEVER_EXPIRE : Z := 2.

(** ** [strtoll] and [printf("%lu")] *)

Definition is_digit (c : Z) : bool := (48 <=? c) && (c <=? 57).

Definition digit_value (c : Z) : option Z :=
  if is_digit c then Some (c - 48)
  else if (97 <=? c) && (c <=? 122) then Some (c - 87)
  else if (65 <=? c) && (c <=? 90) then Some (c - 55)
  else None.

Fixpoint parse_digits (base acc : Z) (l : list Z) : Z :=
  match l with
  | [] => acc
  | c :: l =>
      match digit_value c with
      | Some d => if d <? base then parse_digits base (acc * base + d) l else acc
      | None => acc
      end
  end.

Fixpoint skip_spaces (l : list Z) : list Z :=
  match l with
  | c :: l' => if (c =? 32) || ((9 <=? c) && (c <=? 13)) then skip_spaces l' else l
  | [] => []
  end.

(** The prefix 0x is skipped when a hexadecimal digit follows. *)
Definition skip_0x (base : Z) (l : list Z) : list Z :=
  match l with
  | 48 :: x :: c :: l' =>
      match digit_value c with
      | Some d => if ((x =? 120) || (x =? 88)) && (base =? 16) && (d <? 16) then c :: l' else l
      | None => l
      end
  | _ => l
  end.

Definition clamp_ll (z : Z) : Z := Z.max (- 2 ^ 63) (Z.min z (2 ^ 63 - 1)).

Definition strtoll (l : list Z) (base : Z) : Z :=
  match skip_spaces l with
  | 45 :: l => clamp_ll (- parse_digits base 0 (skip_0x base l))
  | 43 :: l => clamp_ll (parse_digits base 0 (skip_0x base l))
  | l => clamp_ll (parse_digits base 0 (skip_0x base l))
  end.

Definition format_lu (z : Z) : list Z := cstr (pretty (Z.to_N (wrap_ulong z))).

Section Session.
Context {O : OctstrLib} {L : GwListLib} {R : PduRest} {N : SmppNames} {P : PduLib O R}
  {PX : PrefixLib O} {K : Link O} {T : ReceiptLib O}.

(** ** Data *)

(** [struct smpp_msg]. *)
Record smpp_msg : Type := MkSmppMsg { sent_time : Z; msg : Msg }.

Context {S : KeyedStore O L smpp_msg}.

(** The fields of [SMPP] that are set once, by [smpp_create]. *)
Record smpp_config : Type := MkConfig {
  host : option octstr; system_type : option octstr; username : option octstr;
  password : option octstr; address_range : option octstr; smpp_service_type : option octstr;
  masking_prefix : option octstr;
  smpp_source_addr_ton : Z; smpp_source_addr_npi : Z;
  smpp_dest_addr_ton : Z; smpp_dest_addr_npi : Z;
  bind_addr_ton : Z; bind_addr_npi : Z;
  transmit_port : Z; receive_port : Z;
  enquire_link_interval : Z; max_pending_submits : Z;
  version : Z; priority : Z; validityperiod : Z;
  smpp_msg_id_type : Z; autodetect_addr : Z;
  alt_charset : option octstr; alt_addr_charset : option octstr;
  connection_timeout : Z; wait_ack : Z; wait_ack_action : Z;
  deliver_sm_source : Z
}.

(** [SMPP]. *)
Record SMPP : Type := MkSMPP {
  config : smpp_config;
  transmitter : Z;
  receiver : Z;
  msgs_to_send : gwlist Msg;
  sent_msgs : store;
  message_id_counter : Counter;
  quitting : bool;
  throttling_err_time : Z
}.

Definition set_queue (p : SMPP) (q : gwlist Msg) : SMPP :=
  MkSMPP (config p) (transmitter p) (receiver p) q (sent_msgs p) (message_id_counter p)
    (quitting p) (throttling_err_time p).
Definition set_sent_msgs (p : SMPP) (s : store) : SMPP :=
  MkSMPP (config p) (transmitter p) (receiver p) (msgs_to_send p) s (message_id_counter p)
    (quitting p) (throttling_err_time p).
Definition set_id_counter (p : SMPP) (c : Counter) : SMPP :=
  MkSMPP (config p) (transmitter p) (receiver p) (msgs_to_send p) (sent_msgs p) c
    (quitting p) (throttling_err_time p).
Definition set_quitting (p : SMPP) : SMPP :=
  MkSMPP (config p) (transmitter p) (receiver p) (msgs_to_send p) (sent_msgs p)
    (message_id_counter p) true (throttling_err_time p).
Definition set_throttling (p : SMPP) (t : Z) : SMPP :=
  MkSMPP (config p) (transmitter p) (receiver p) (msgs_to_send p) (sent_msgs p)
    (message_id_counter p) (quitting p) t.

(** [smpp_create]: the message id counter starts at 1. *)
Definition smpp_create (cf : smpp_config) : SMPP :=
  MkSMPP cf (-1) (-1) gwlist_create (store_create (max_pending_submits cf))
    (counter_increase counter_create).2 false 0.

(** The state of the io thread of a connection.  [conn->data] is the object
    [smpp]. *)
Record Sess : Type := MkSess {
  smpp : SMPP;
  conn : SMSCConn SMPP;
  wire : link;
  pending_submits : Z;
  world : World
}.

Definition with_smpp (s : Sess) (p : SMPP) : Sess :=
  MkSess p (conn s) (wire s) (pending_submits s) (world s).
Definition with_conn (s : Sess) (c : SMSCConn SMPP) : Sess :=
  MkSess (smpp s) c (wire s) (pending_submits s) (world s).
Definition with_wire (s : Sess) (l : link) : Sess :=
  MkSess (smpp s) (conn s) l (pending_submits s) (world s).
Definition with_pending (s : Sess) (n : Z) : Sess :=
  MkSess (smpp s) (conn s) (wire s) n (world s).
Definition with_world (s : Sess) (w : World) : Sess :=
  MkSess (smpp s) (conn s) (wire s) (pending_submits s) w.

Definition cfg (s : Sess) : smpp_config := config (smpp s).

(** [counter_increase(smpp->message_id_counter)]. *)
Definition next_id (s : Sess) : Z * Sess :=
  let '(v, c) := counter_increase (message_id_counter (smpp s)) in
  (v, with_smpp s (set_id_counter (smpp s) c)).

(** ** Sending *)

Definition send_pdu (l : link) (p : SMPP_PDU) : Z * link :=
  match smpp_pdu_pack p with
  | Some os => conn_write l os
  | None => (-1, l)
  end.

(** A response: the result of the write is ignored. *)
Definition send_resp (s : Sess) (p : SMPP_PDU) : Sess := with_wire s (send_pdu (wire s) p).2.

Definition send_enquire_link (s : Sess) (last_sent : Z) : Sess * Z :=
  if now (world s) - last_sent <? enquire_link_interval (cfg s) then (s, last_sent) else
  let '(seq, s) := next_id s in
  let s := match smpp_pdu_pack (enquire_link (new_header seq)) with
           | Some os => with_wire s (conn_write (wire s) os).2
           | None => s
           end in
  (s, now (world s)).

Definition send_unbind (s : Sess) : outcome Sess :=
  let '(seq, s) := next_id s in
  os ← must (smpp_pdu_pack (unbind (new_header seq)));
  Done (with_wire s (conn_write (wire s) os).2).

(** The bind PDU of [open_transmitter], [open_receiver] and
    [open_transceiver], sent on the connection just opened. *)
Definition bind_body (cf : smpp_config) : Bind :=
  MkBind (octstr_dup (username cf)) (octstr_dup (password cf))
    (Some (from_option octstr_duplicate (octstr_create (cstr "VMA")) (system_type cf)))
    (version cf) (bind_addr_ton cf) (bind_addr_npi cf) (octstr_dup (address_range cf)).

Definition open_transmitter (s : Sess) : Sess :=
  let '(seq, s) := next_id s in
  send_resp s (bind_transmitter (new_header seq) (bind_body (cfg s))).
Definition open_transceiver (s : Sess) : Sess :=
  let '(seq, s) := next_id s in
  send_resp s (bind_transceiver (new_header seq) (bind_body (cfg s))).
Definition open_receiver (s : Sess) : Sess :=
  let '(seq, s) := next_id s in
  send_resp s (bind_receiver (new_header seq) (bind_body (cfg s))).

(** [forced] values of the configuration: -1 means none. *)
Definition forced (v default : Z) : Z := if v =? -1 then default else v.

(** The PDU built from the routing data when [dndcheck_flag] is set. *)
Definition dnd_submit (cf : smpp_config) (r : forward_queue_data) : SubmitSm :=
  MkSubmitSm (octstr_dup (smpp_service_type cf))
    (forced (smpp_source_addr_ton cf) GSM_ADDR_TON_NATIONAL)
    (forced (smpp_source_addr_npi cf) GSM_ADDR_TON_NATIONAL)
    (Some (octstr_create (r_source_addr r)))
    (forced (smpp_dest_addr_ton cf) GSM_ADDR_TON_NATIONAL)
    (forced (smpp_dest_addr_npi cf) GSM_ADDR_NPI_E164)
    (Some (octstr_create (r_destination_addr r)))
    (r_esm_class r) (priority cf) 1 (r_data_coding r)
    (from_option octstr_len 0 (content r)) (octstr_dup (content r))
    (r_more_messages_to_send r) 0 rest_none.

(** [if (dndcheck_flag) { ... msg->sm_info->pdu = os; }]. *)
Definition dnd_rewrite (s : Sess) (m : Msg) : outcome (Msg * Sess) :=
  if dndcheck_flag (world s) =? 0 then Done (m, s) else
  let '(seq, s) := next_id s in
  r ← must (routing_info m);
  _ ← must (sm_info m);
  Done (set_pdu m (smpp_pdu_pack (submit_sm (new_header seq) (dnd_submit (cfg s) r))), s).

(** The text in the alphabet of the SMSC. *)
Definition convert_text (cf : smpp_config) (b : SubmitSm) : outcome (option octstr) :=
  match alt_charset cf with
  | None => Done (short_message b)
  | Some _ =>
      if negb (Z.land (esm_class b) 0x40 =? 0) then
        o ← must (short_message b);
        o' ← charset_latin1_to_gsm_new o;
        Done (Some o')
      else
        match short_message b with
        | None => Done None
        | Some o => o' ← charset_latin1_to_gsm o; Done (Some o')
        end
  end.

(** The source address under the masking prefix. *)
Definition mask_source (cf : smpp_config) (source : octstr) (old : option octstr)
    : option octstr :=
  match masking_prefix cf with
  | Some prefix =>
      if (octstr_isnum source =? 0) || (octstr_len source <? 10) then
        let new_source := octstr_duplicate prefix in
        Some (if 8 <? octstr_len source
              then octstr_append_data new_source (take 8 (octets source))
              else octstr_append new_source source)
      else old
  | None => old
  end.

(** The changes to an outgoing [submit_sm], steps 1 to 4 of the code. *)
Definition prepare_submit (s : Sess) (m : Msg) (b : SubmitSm) : outcome SubmitSm :=
  let cf := cfg s in
  text ← convert_text cf b;
  r ← must (routing_info m);
  let esm := if negb (Z.land (esm_class b) ESM_CLASS_DELIVER_UDH_INDICATOR =? 0) &&
                (compare_change_string (world s) (id (conn s)) =? 0)
             then ESM_CLASS_DELIVER_UDH_INDICATOR else esm_class b in
  let source := octstr_create (r_source_addr r) in
  Done (MkSubmitSm (service_type b)
    (forced (smpp_source_addr_ton cf) (source_addr_ton b))
    (forced (smpp_source_addr_npi cf) (source_addr_npi b))
    (mask_source cf source (source_addr b))
    (forced (smpp_dest_addr_ton cf) (dest_addr_ton b))
    (forced (smpp_dest_addr_npi cf) (dest_addr_npi b))
    (destination_addr b) esm (priority_flag b) (registered_delivery b) (data_coding b)
    (sm_length b) text (more_messages_to_send b) (user_response_code b) (submit_rest b)).

(** What a turn of the loop does after it: go on or leave. *)
Inductive flow : Type := Continue | Break.

(** The PDU to send for a message, and the message holding it. *)
Definition outgoing_pdu (s : Sess) (m : Msg) (p : SMPP_PDU) : outcome (SMPP_PDU * Msg * Sess) :=
  match p with
  | submit_sm h b =>
      let '(seq, s) := next_id s in
      b' ← prepare_submit s m b;
      let p' := submit_sm (MkHeader (command_status h) seq) b' in
      Done (p', set_pdu m (smpp_pdu_pack p'), s)
  | p => Done (p, m, s)
  end.

(** A message that was written: remember it under its sequence number. *)
Definition remember (s : Sess) (m : Msg) (p : SMPP_PDU) : outcome Sess :=
  let m := set_retries (set_state m MSG_SENT_NORESP) (retries m + 1) in
  d ← store_put (sent_msgs (smpp s)) (octstr_format_ld (sequence_number (pdu_header p)))
        (MkSmppMsg (now (world s)) m);
  Done (with_pending (with_smpp s (set_sent_msgs (smpp s) d)) (pending_submits s + 1)).

(** One turn of the loop of [send_messages], on the message extracted. *)
Definition send_one (s : Sess) (m : Msg) : outcome (flow * Sess) :=
  '(m, s) ← dnd_rewrite s m;
  match sm_info m ≫= pdu with
  | None => Done (Continue, s)
  | Some packed =>
      p ← must (smpp_pdu_unpack (octstr_from_position packed 4));
      '(p, m, s) ← outgoing_pdu s m p;
      let '(ret, l) := send_pdu (wire s) p in
      let s := with_wire s l in
      if ret =? 0 then s ← remember s m p; Done (Continue, s)
      else Done (Break, s)
  end.

(** The loop takes a message per turn: the length of the queue bounds it.
    The message is what the variable [msg] points to when the loop is left by
    [break]; nothing else points to it then. *)
Fixpoint send_loop (fuel : nat) (s : Sess) : outcome (option Msg * Sess) :=
  match fuel with
  | 0%nat => Done (None, s)
  | Datatypes.S fuel =>
      if pending_submits s <? max_pending_submits (cfg s) then
        let '(m, q) := gwlist_extract_first (msgs_to_send (smpp s)) in
        let s := with_smpp s (set_queue (smpp s) q) in
        match m with
        | None => Done (None, s)
        | Some m =>
            '(f, s) ← send_one s m;
            match f with Continue => send_loop fuel s | Break => Done (Some m, s) end
        end
      else Done (None, s)
  end.

(** [send_messages], with the message that is left in [msg]. *)
Definition send_pending (s : Sess) : outcome (option Msg * Sess) :=
  if pending_submits s =? -1 then Done (None, s)
  else send_loop (Z.to_nat (gwlist_len (msgs_to_send (smpp s))) + 1) s.

Definition send_messages (s : Sess) : outcome Sess := '(_, s) ← send_pending s; Done s.

(** ** Receiving *)

(** [read_pdu]: -1 for an error, 0 for no PDU yet, 1 with a PDU; [len] is
    the length already read. *)
Definition read_pdu (l : link) (len : Z) : Z * Z * option SMPP_PDU * link :=
  let '(len, l) := if len =? 0 then smpp_pdu_read_len l else (len, l) in
  if len =? -1 then (-1, len, None, l) else
  if len =? 0 then ((if conn_eof l || conn_error l then -1 else 0), len, None, l) else
  let '(os, l) := smpp_pdu_read_data l len in
  match os with
  | None => ((if conn_eof l || conn_error l then -1 else 0), len, None, l)
  | Some os =>
      match smpp_pdu_unpack os with
      | None => (-1, 0, None, l)
      | Some p => (1, 0, Some p, l)
      end
  end.

Definition smpp_status_to_smscconn_failure_reason (status : Z) : Z :=
  if (status =? SMPP_ESME_RMSGQFUL) || (status =? SMPP_ESME_RTHROTTLED) ||
     (status =? SMPP_ESME_RX_T_APPN) || (status =? SMPP_ESME_RSYSERR)
  then SMSCCONN_FAILED_TEMPORARILY
  else SMSCCONN_FAILED_REJECTED.

Definition smscconn_failure_reason_to_smpp_status (reason : Z) : Z :=
  if reason =? SMSCCONN_FAILED_REJECTED then SMPP_ESME_RX_R_APPN
  else if reason =? SMSCCONN_SUCCESS then SMPP_ESME_ROK
  else SMPP_ESME_RX_T_APPN.

(** *** Identifiers of the SMSC *)

(** The two conversions of a message identifier: [mask] is 0x01 for the
    response and 0x02 for the receipt. *)
Definition convert_msgid (id_type mask : Z) (msgid : octstr) : octstr :=
  if id_type =? -1 then octstr_duplicate msgid
  else if negb (Z.land id_type mask =? 0) || negb (forallb is_digit (octets msgid))
  then octstr_create (format_lu (strtoll (octets msgid) 16))
  else octstr_create (format_lu (strtoll (octets msgid) 10)).

Definition handle_deliver_sm_msgid (cf : smpp_config) (msgid : octstr) : octstr :=
  if smpp_msg_id_type cf =? -1 then msgid else convert_msgid (smpp_msg_id_type cf) 0x02 msgid.

(** [get_smscid]: the identifier and the state of a receipt. *)
Definition receipt_states : list (list Z * Z) :=
  [(cstr "DELIVRD", 1); (cstr "EXPIRED", 2); (cstr "DELETED", 3); (cstr "UNDELIV", 4);
   (cstr "ACCEPTD", 5); (cstr "UNKNOWN", 6); (cstr "REJECTD", 7)].

Definition receipt_state (buff : list Z) : Z :=
  match List.find (fun p => bool_decide (p.1 = buff)) receipt_states with
  | Some p => p.2
  | None => 10
  end.

Definition get_smscid (sm : option octstr) : octstr * Z :=
  (octstr_create (times_octstr_get_many_alphanumeric sm 1),
   receipt_state (times_octstr_get_many_chars sm 6)).

(** *** The branches of [handle_pdu] *)

Definition handle_data_sm (s : Sess) (h : header) : Sess :=
  let s := with_world s (set_incoming_counter (world s)
             (counter_increase (incoming_msg_counter (world s))).2) in
  let st := if is_stopped (conn s) =? 0 then 0 else SMPP_ESME_RX_T_APPN in
  send_resp s (data_sm_resp (MkHeader st (sequence_number h))).

(** The destination of a receipt: the last ten digits of a number. *)
Definition receipt_dest (cf : smpp_config) (b : DeliverSm) : option octstr :=
  let new_dest_addr :=
    if deliver_sm_source cf =? 1 then octstr_dup (d_source_addr b)
    else if deliver_sm_source cf =? 0 then octstr_dup (d_destination_addr b)
    else None in
  match new_dest_addr with
  | Some a =>
      if (9 <? octstr_len a) && (octstr_isnum a =? 1)
      then Some (octstr_from_position a (octstr_len a - 10))
      else Some a
  | None => None
  end.

Definition handle_deliver_sm (s : Sess) (h : header) (b : DeliverSm) : Sess :=
  let w := set_incoming_counter (world s) (counter_increase (incoming_msg_counter (world s))).2 in
  let '(msgid, st) :=
    get_smscid (if (d_sm_length b =? 0) && is_set (message_payload b)
                then message_payload b else d_short_message b) in
  let smscmsgid := handle_deliver_sm_msgid (cfg s) msgid in
  let b := MkDeliverSm (d_source_addr b) (d_destination_addr b) (d_esm_class b) (d_sm_length b)
             (d_short_message b) (message_payload b) (Some (octstr_duplicate smscmsgid))
             (deliver_rest b) in
  let w := emit w (EvDbbox (insert_status (octstr_dup (id (conn s)))
             (Some (octstr_duplicate smscmsgid)) (receipt_dest (cfg s) b)
             (smpp_pdu_pack (deliver_sm h b)) st)) in
  let s := with_world s w in
  let status :=
    if is_stopped (conn s) =? 0
    then smscconn_failure_reason_to_smpp_status SMSCCONN_SUCCESS else SMPP_ESME_RX_T_APPN in
  send_resp s (deliver_sm_resp (MkHeader status (sequence_number h))).

(** Remember a throttling error, forget it after any other one. *)
Definition note_throttling (s : Sess) (status : Z) : Sess :=
  with_smpp s (set_throttling (smpp s)
    (if status =? SMPP_ESME_RTHROTTLED then now (world s) else 0)).

Definition fail_msg (s : Sess) (m : Msg) (reason : Z) (p : option SMPP_PDU) : outcome Sess :=
  '(c, w) ← smscconn_send_failed (conn s) (world s) m reason p;
  Done (with_world (with_conn s c) w).

Definition take_sent (s : Sess) (key : octstr) : outcome (option smpp_msg * Sess) :=
  '(v, d) ← store_remove (sent_msgs (smpp s)) key;
  Done (v, with_smpp s (set_sent_msgs (smpp s) d)).

(** The identifier under which the SMSC accepted the message. *)
Definition response_msgid (cf : smpp_config) (message_id : option octstr)
    : outcome (option octstr) :=
  let message_id :=
    match message_id with
    | Some m => if bool_decide (head (octets m) = Some 83)
                then Some (octstr_from_position m 0) else Some m
    | None => None
    end in
  if smpp_msg_id_type cf =? -1 then Done (octstr_dup message_id)
  else m ← must message_id; Done (Some (convert_msgid (smpp_msg_id_type cf) 0x01 m)).

(** Four texts are copied besides into a local structure that nothing reads,
    [data_db], whose sizes are not part of the sources: that is left out, and
    texts that are too long for it are undefined in the code. *)
Definition handle_submit_sm_resp (s : Sess) (h : header) (message_id : option octstr)
    : outcome Sess :=
  '(v, s) ← take_sent s (octstr_format_ld (sequence_number h));
  match v with
  | None => Done s
  | Some sm =>
      let m := msg sm in
      i ← must (sm_info m);
      tmp ← response_msgid (cfg s) message_id;
      packed ← must (pdu i);
      let submit_sm_pdu := smpp_pdu_unpack (octstr_from_position packed 4) in
      w ← mis_db_insert (world s) (account_name i) (account_msg_id i) (req_time i)
            (id (conn s)) tmp submit_sm_pdu (command_status h) (client_ip i);
      let s := with_world s w in
      let m := set_state m MSG_SENT_RESP in
      if negb (command_status h =? 0) then
        let reason := smpp_status_to_smscconn_failure_reason (command_status h) in
        let s := note_throttling s (command_status h) in
        s ← fail_msg s m reason submit_sm_pdu;
        Done (with_pending s (pending_submits s - 1))
      else
        '(c, w) ← smscconn_sent (conn s) (world s) m submit_sm_pdu;
        Done (with_pending (with_world (with_conn s c) w) (pending_submits s - 1))
  end.

(** A login refused for its name or password ends the connection. *)
Definition refuse_bind (s : Sess) (status : Z) : Sess :=
  if (status =? SMPP_ESME_RINVSYSID) || (status =? SMPP_ESME_RINVPASWD)
  then with_smpp s (set_quitting (smpp s)) else s.

(** [bind_transmitter_resp] and [bind_transceiver_resp]. *)
Definition handle_bind_tx_resp (s : Sess) (h : header) : Sess :=
  if negb (command_status h =? 0) then refuse_bind s (command_status h) else
  let s := with_pending s 0 in
  let c := set_connect_time (set_status (conn s) SMSCCONN_ACTIVE) (now (world s)) in
  with_world (with_conn s c) (emit (world s) (EvWakeup router_thread)).

Definition handle_bind_rx_resp (s : Sess) (h : header) : Sess :=
  if negb (command_status h =? 0) then refuse_bind s (command_status h) else
  if bool_decide (status (conn s) = SMSCCONN_ACTIVE) then s else
  with_conn s (set_connect_time (set_status (conn s) SMSCCONN_ACTIVE_RECV) (now (world s))).

Definition handle_generic_nack (s : Sess) (h : header) : outcome Sess :=
  '(v, s) ← take_sent s (octstr_format_ld (sequence_number h));
  match v with
  | None => Done s
  | Some sm =>
      let s := note_throttling s (command_status h) in
      let reason := smpp_status_to_smscconn_failure_reason (command_status h) in
      s ← fail_msg s (msg sm) reason None;
      Done (with_pending s (pending_submits s - 1))
  end.

Definition disconnected (s : Sess) : Sess :=
  with_conn s (set_status (conn s) SMSCCONN_DISCONNECTED).

Definition handle_pdu (s : Sess) (p : SMPP_PDU) : outcome Sess :=
  match p with
  | data_sm h _ => Done (handle_data_sm s h)
  | deliver_sm h b => Done (handle_deliver_sm s h b)
  | enquire_link h => Done (send_resp s (enquire_link_resp (new_header (sequence_number h))))
  | enquire_link_resp _ => Done s
  | submit_sm_resp h i => handle_submit_sm_resp s h i
  | bind_transmitter_resp h | bind_transceiver_resp h => Done (handle_bind_tx_resp s h)
  | bind_receiver_resp h => Done (handle_bind_rx_resp s h)
  | unbind h => Done (disconnected (send_resp s (unbind_resp (new_header (sequence_number h)))))
  | unbind_resp _ => Done (disconnected s)
  | generic_nack h => handle_generic_nack s h
  | p => Done (send_resp s (generic_nack
                 (MkHeader SMPP_ESME_RINVCMDID (sequence_number (pdu_header p)))))
  end.

(** ** Messages without an answer *)

(** The loop of [do_queue_cleanup] over the keys. *)
Fixpoint cleanup_loop (s : Sess) (keys : list octstr) (action : Z) : outcome (Z * Sess) :=
  match keys with
  | [] => Done (0, s)
  | key :: keys =>
      v ← store_get (sent_msgs (smpp s)) key;
      match v with
      | Some sm =>
          if wait_ack (cfg s) <? now (world s) - sent_time sm then
            if action =? SMPP_WAITACK_RECONNECT then Done (1, s)
            else if action =? SMPP_WAITACK_REQUEUE then
              '(v, s) ← take_sent s key;
              match v with
              | Some sm =>
                  s ← fail_msg s (msg sm) SMSCCONN_FAILED_TEMPORARILY None;
                  cleanup_loop (with_pending s (pending_submits s - 1)) keys action
              | None => cleanup_loop s keys action
              end
            else Done (0, s)
          else cleanup_loop s keys action
      | None => cleanup_loop s keys action
      end
  end.

Definition do_queue_cleanup (s : Sess) (action : Z) : outcome (Z * Sess) :=
  if pending_submits s <=? 0 then Done (0, s)
  else if action =? SMPP_WAITACK_NEVER_EXPIRE then Done (0, s)
  else cleanup_loop s (items (store_keys (sent_msgs (smpp s)))) action.

(** ** The end of a connection *)

(** The queue, one message per turn: a message without a PDU is dropped. *)
Fixpoint drain_queue (fuel : nat) (s : Sess) (reason : Z) (wake : bool) : outcome (bool * Sess) :=
  match fuel with
  | 0%nat => Done (wake, s)
  | Datatypes.S fuel =>
      let '(m, q) := gwlist_extract_first (msgs_to_send (smpp s)) in
      let s := with_smpp s (set_queue (smpp s) q) in
      match m with
      | None => Done (wake, s)
      | Some m =>
          match sm_info m ≫= pdu with
          | None => drain_queue fuel s reason wake
          | Some _ => s ← fail_msg s m reason None; drain_queue fuel s reason true
          end
      end
  end.

(** The unanswered messages. *)
Fixpoint drain_sent (keys : list octstr) (s : Sess) (reason : Z) (wake : bool)
    : outcome (bool * Sess) :=
  match keys with
  | [] => Done (wake, s)
  | key :: keys =>
      '(v, s) ← take_sent s key;
      match v with
      | Some sm => s ← fail_msg s (msg sm) reason None; drain_sent keys s reason true
      | None => drain_sent keys s reason wake
      end
  end.

Definition wake_router (s : Sess) (wake : bool) : Sess :=
  if wake then with_world s (emit (world s) (EvWakeup router_thread)) else s.

(** What [io_thread] does when it leaves the loop of a connection:
    [connected] is [conn != NULL], [transmitter] the kind of the thread. *)
Definition leave_connection (s : Sess) (connected transmitter : bool) : outcome Sess :=
  let s := if connected then with_conn s (reset_smpp_counters (conn s)) else s in
  let s := with_conn s (set_status (conn s) SMSCCONN_RECONNECTING) in
  if transmitter then
    let reason := if quitting (smpp s) then SMSCCONN_FAILED_SHUTDOWN
                  else SMSCCONN_FAILED_TEMPORARILY in
    '(wake, s) ← drain_queue (Z.to_nat (gwlist_len (msgs_to_send (smpp s))) + 1) s reason false;
    '(wake, s) ← drain_sent (items (store_keys (sent_msgs (smpp s)))) s reason wake;
    Done (wake_router s wake)
  else Done s.

(** ** The functions behind the pointers of the connection *)

Definition queued_cb (c : SMSCConn SMPP) : Z * SMSCConn SMPP :=
  match data c with
  | Some p =>
      if bool_decide (status c = SMSCCONN_DEAD) then (0, c)
      else (gwlist_len (msgs_to_send p), set_load c (counter_value (received c)))
  | None => (0, c)
  end.

Definition waiting_cb (c : SMSCConn SMPP) : Z :=
  match data c with
  | Some p =>
      if bool_decide (status c = SMSCCONN_DEAD) then 0 else store_count (sent_msgs p)
  | None => 0
  end.

Definition send_msg_cb (c : SMSCConn SMPP) (w : World) (m : Msg)
    : outcome (Z * SMSCConn SMPP * World) :=
  p ← must (data c);
  m' ← msg_duplicate m;
  let c := set_data c (Some (set_queue p (gwlist_produce (msgs_to_send p) m'))) in
  let c := set_counters c (counter_increase (received c)).2 (sent c) (failed c) in
  Done (0, c, emit w (EvWakeup transmitter_thread)).

(** [smpp_destroy]: the messages still queued are destroyed. *)
Definition smpp_destroy (p : SMPP) (w : World) : World :=
  foldl (fun w m => emit w (EvDestroy m)) w (items (msgs_to_send p)).

(** [shutdown_cb]; [join] is what the io threads still do before they end. *)
Definition shutdown_cb (join : SMSCConn SMPP -> World -> outcome (SMSCConn SMPP * World))
    (c : SMSCConn SMPP) (w : World) (finish_sending : Z) : outcome (Z * SMSCConn SMPP * World) :=
  let c := set_killed c SMSCCONN_KILLED_SHUTDOWN in
  p ← must (data c);
  let c := set_data c (Some (set_quitting p)) in
  '(c, w) ← (if negb (transmitter p =? -1) || negb (receiver p =? -1)
             then join c (emit w (EvWakeup transmitter_thread)) else Done (c, w));
  p ← must (data c);
  let w := smpp_destroy p w in
  Done (0, set_status (set_data c None) SMSCCONN_DEAD, emit w (EvWakeup sys_thread)).

(** The SMPP session as a connection type. *)
Definition smpp_driver (join : SMSCConn SMPP -> World -> outcome (SMSCConn SMPP * World))
    : Driver SMPP := {|
  drv_send_msg := send_msg_cb;
  drv_queued := queued_cb;
  drv_waiting := waiting_cb;
  drv_shutdown := shutdown_cb join;
  drv_held c := match data c with Some p => items (msgs_to_send p) | None => [] end;
|}.

End Session.

(** ** Views and invariant of a session *)

Section Views.
Context {O : OctstrLib} {L : GwListLib} {R : PduRest} {P : PduLib O R}
  {PX : PrefixLib O} {K : Link O} {S : KeyedStore O L smpp_msg}.
Implicit Types s : Sess.

Definition sent_map s : gmap (list Z) smpp_msg := store_map (sent_msgs (smpp s)).

(** The identities of the messages of a table. *)
Definition map_idents (m : gmap (list Z) smpp_msg) : list (option (list (option (list Z)))) :=
  (fun p => msg_ident (msg p.2)) <$> map_to_list m.

(** Every message the session is responsible for: queued, unanswered, in the
    shared queue, or destroyed on purpose. *)
Definition sess_msgs s : list (option (list (option (list Z)))) :=
  (msg_ident <$> items (msgs_to_send (smpp s))) ++ map_idents (sent_map s) ++
  world_msgs (world s).

(** A message whose stored PDU is a [submit_sm]. *)
Definition answerable (m : Msg) : Prop :=
  exists i packed h b, sm_info m = Some i /\ pdu i = Some packed /\
    smpp_pdu_unpack (octstr_from_position packed 4) = Some (submit_sm h b).

(** A message that can be sent: such a PDU with a text, and routing data. *)
Definition sendable (m : Msg) : Prop :=
  exists i packed h b r t, sm_info m = Some i /\ pdu i = Some packed /\
    smpp_pdu_unpack (octstr_from_position packed 4) = Some (submit_sm h b) /\
    short_message b = Some t /\ routing_info m = Some r.

(** Invariant: the table is a store, its keys are sequence numbers already
    given out, the window counter counts its entries (or is -1 before the
    bind), and every entry can be answered. *)
Record sess_ok s : Prop := {
  so_store : store_ok (sent_msgs (smpp s));
  so_link : link_ok (wire s);
  so_counter : counter_ok (message_id_counter (smpp s));
  so_keys : forall k, k ∈ dom (sent_map s) ->
    exists z, k = format_ld z /\ 0 <= z < n (message_id_counter (smpp s));
  so_window : pending_submits s = -1 /\ sent_map s = ∅ \/
              pending_submits s = Z.of_nat (size (sent_map s));
  so_answerable : map_Forall (fun _ sm => answerable (msg sm)) (sent_map s)
}.

End Views.
