(* ===== verification/SessionFacts.v ===== *)
(** * Theorems about the SMPP session

    The functions of [SmppSession] never lose a message except where the code
    does, keep the invariant of the session, and correlate answers with the
    messages they belong to. *)

From S2P Require Import Prelude Gwlib Counter Dict Charset World SmscConn SmppSession.
Open Scope Z_scope.

Section Facts.
Context {O : OctstrLib} {OL : OctstrLaws O} {L : GwListLib} {LL : GwListLaws L} {R : PduRest}
  {N : SmppNames} {NL : SmppNamesLaws N} {P : PduLib O R} {PL : PduLibLaws P} {PX : PrefixLib O}
  {K : Link O} {KL : LinkLaws K} {T : ReceiptLib O}
  {S : KeyedStore O L smpp_msg} {SL : KeyedStoreLaws S}.
Implicit Types s : Sess.

(** ** The table of unanswered messages *)

Lemma map_idents_insert m k sm :
  m !! k = None -> map_idents (<[k:=sm]> m) ≡ₚ msg_ident (msg sm) :: map_idents m.
Proof. intros Hk. unfold map_idents. by rewrite map_to_list_insert. Qed.

Lemma map_idents_delete m k sm :
  m !! k = Some sm -> map_idents m ≡ₚ msg_ident (msg sm) :: map_idents (delete k m).
Proof.
  intros Hk. rewrite <-(insert_delete_id m k sm) at 1 by done.
  by rewrite map_idents_insert by apply lookup_delete_eq.
Qed.

Lemma take_sent_spec s key :
  store_ok (sent_msgs (smpp s)) ->
  exists d, take_sent s key
            = Done (sent_map s !! octets key, with_smpp s (set_sent_msgs (smpp s) d)) /\
    store_ok d /\ store_map d = delete (octets key) (sent_map s).
Proof.
  intros Hok. unfold take_sent.
  destruct (store_remove_ok (sent_msgs (smpp s)) key Hok) as (d & -> & ? & ?). simpl. eauto.
Qed.

(** ** Failures *)

Lemma answerable_info m : answerable m -> exists i, sm_info m = Some i.
Proof. intros (i & ? & ? & ? & ? & _). eauto. Qed.

(** [fail_msg] keeps the session apart from the connection's counters and
    puts the message into the world. *)
Definition same_io s s' : Prop :=
  smpp s' = smpp s /\ wire s' = wire s /\ pending_submits s' = pending_submits s /\
  same_conn (conn s) (conn s').

Lemma same_io_refl s : same_io s s.
Proof. repeat split; auto with smpp. Qed.

Lemma fail_msg_spec s m reason p :
  (exists i, sm_info m = Some i) -> loggable p ->
  exists s', fail_msg s m reason p = Done s' /\ same_io s s' /\ now (world s') = now (world s) /\
    world_msgs (world s') ≡ₚ msg_ident m :: world_msgs (world s).
Proof.
  intros [i Hi] Hp. unfold fail_msg. rewrite (smscconn_send_failed_eq _ _ _ _ _ i) by done.
  case_match; simpl; eexists; (split; [done|]); simpl.
  - split_and!; [repeat split; auto with smpp| |apply requeue_failed_msgs].
    unfold requeue_failed, produce_outgoing_msg. by case_match.
  - split_and!; [repeat split|done|]. simpl. rewrite world_msgs_destroy.
    by rewrite <-Permutation_cons_append.
Qed.

(** ** Effects of the small steps on the invariant *)

(** The invariant and the messages depend on these parts of a session. *)
Lemma sess_ok_same s s' :
  sess_ok s -> sent_msgs (smpp s') = sent_msgs (smpp s) ->
  message_id_counter (smpp s') = message_id_counter (smpp s) ->
  wire s' = wire s -> pending_submits s' = pending_submits s -> sess_ok s'.
Proof.
  intros [? ? ? Hk ? ?] E1 E2 E3 E4.
  assert (Em : sent_map s' = sent_map s) by (unfold sent_map; congruence).
  split; rewrite ?Em, ?E1, ?E2, ?E3, ?E4; done.
Qed.

Lemma sess_msgs_same s s' :
  msgs_to_send (smpp s') = msgs_to_send (smpp s) -> sent_msgs (smpp s') = sent_msgs (smpp s) ->
  world_msgs (world s') ≡ₚ world_msgs (world s) -> sess_msgs s' ≡ₚ sess_msgs s.
Proof. intros E1 E2 E3. unfold sess_msgs, sent_map. by rewrite E1, E2, E3. Qed.

Lemma send_pdu_ok l p : link_ok l -> link_ok (send_pdu l p).2.
Proof. intros Hl. unfold send_pdu. destruct (smpp_pdu_pack p); [|done]. by apply conn_write_law. Qed.

Lemma send_resp_ok s p : sess_ok s -> sess_ok (send_resp s p).
Proof.
  intros [? ? ? ? ? ?]. split; try done. simpl. by apply send_pdu_ok.
Qed.

Lemma send_resp_msgs s p : sess_msgs (send_resp s p) = sess_msgs s.
Proof. done. Qed.

(** Removing an answered message from the table and the window. *)
Lemma sess_ok_answered s d k sm :
  sess_ok s -> sent_map s !! k = Some sm -> store_ok d -> store_map d = delete k (sent_map s) ->
  sess_ok (with_pending (with_smpp s (set_sent_msgs (smpp s) d)) (pending_submits s - 1)).
Proof.
  intros [? ? ? Hkeys Hw Hans] Hk Hd Ed. split; try done; unfold sent_map in *; simpl; rewrite ?Ed.
  - intros k'. rewrite dom_delete, elem_of_difference. intros [? _]. auto.
  - right. destruct Hw as [[_ E]|E]; [by rewrite E in Hk|].
    rewrite E, map_size_delete_Some by (by eexists).
    assert (size (store_map (sent_msgs (smpp s))) <> 0%nat); [|lia].
    intros E0%map_size_empty_inv. by rewrite E0 in Hk.
  - by apply map_Forall_delete.
Qed.

Lemma sess_ok_unanswered s d k :
  sess_ok s -> sent_map s !! k = None -> store_ok d -> store_map d = delete k (sent_map s) ->
  sess_ok (with_smpp s (set_sent_msgs (smpp s) d)).
Proof.
  intros [? ? ? Hkeys Hw Hans] Hk Hd Ed. rewrite delete_id in Ed by done.
  split; try done; unfold sent_map in *; simpl; rewrite ?Ed; done.
Qed.

(** [fail_msg] after the removal. *)
Lemma sess_ok_io s s' : sess_ok s -> same_io s s' -> sess_ok s'.
Proof. intros Hok (E1 & E2 & E3 & _). apply (sess_ok_same s); congruence. Qed.

Lemma sess_ok_world s w : sess_ok s -> sess_ok (with_world s w).
Proof. intros Hok. by apply (sess_ok_same s). Qed.

Lemma sess_ok_conn s c : sess_ok s -> sess_ok (with_conn s c).
Proof. intros Hok. by apply (sess_ok_same s). Qed.

Lemma note_throttling_ok s st : sess_ok s -> sess_ok (note_throttling s st).
Proof. intros Hok. by apply (sess_ok_same s). Qed.

(** ** Answers *)

(** What a step that settles the message [m] under [k] does to a session. *)
Definition settles s s' (k : list Z) (m : Msg) : Prop :=
  sess_ok s' /\ sent_map s' = delete k (sent_map s) /\
  msgs_to_send (smpp s') = msgs_to_send (smpp s) /\
  config (smpp s') = config (smpp s) /\
  pending_submits s' = pending_submits s - 1 /\
  world_msgs (world s') ≡ₚ msg_ident m :: world_msgs (world s).

Lemma settles_msgs s s' k sm :
  sent_map s !! k = Some sm -> settles s s' k (msg sm) -> sess_msgs s' ≡ₚ sess_msgs s.
Proof.
  intros Hk (_ & E & Eq & _ & _ & Ew). unfold sess_msgs. rewrite Eq, E, Ew.
  rewrite (map_idents_delete (sent_map s) k sm) by done.
  f_equiv. simpl. by rewrite Permutation_middle.
Qed.

(** A settled session, assembled from the table without the message and a
    step of [fail_msg] or [smscconn_sent]. *)
Lemma settles_intro s s' d k m :
  sess_ok s -> (exists sm, sent_map s !! k = Some sm) -> store_ok d ->
  store_map d = delete k (sent_map s) ->
  sent_msgs (smpp s') = d -> msgs_to_send (smpp s') = msgs_to_send (smpp s) ->
  message_id_counter (smpp s') = message_id_counter (smpp s) ->
  config (smpp s') = config (smpp s) -> wire s' = wire s ->
  pending_submits s' = pending_submits s - 1 ->
  world_msgs (world s') ≡ₚ msg_ident m :: world_msgs (world s) ->
  settles s s' k m.
Proof.
  intros Hok [sm Hk] Hd Ed E1 E2 E3 E4 E5 E6 E7. split.
  - apply (sess_ok_same (with_pending (with_smpp s (set_sent_msgs (smpp s) d))
             (pending_submits s - 1))); [|done..]. by eapply sess_ok_answered.
  - unfold sent_map at 1. rewrite E1. done.
Qed.

Lemma mis_db_insert_ok w an am rt si sm h b st ip :
  exists c, mis_db_insert w an am rt si sm (Some (submit_sm h b)) st ip = Done (emit w (EvDbbox c)).
Proof. eexists. reflexivity. Qed.

Lemma response_msgid_ok cf i :
  is_set i = true \/ smpp_msg_id_type cf = -1 -> exists o, response_msgid cf i = Done o.
Proof.
  intros H. unfold response_msgid. destruct (Z.eqb_spec (smpp_msg_id_type cf) (-1)); [eauto|].
  destruct i as [m|]; [|naive_solver]. case_bool_decide; simpl; eauto.
Qed.

Lemma smscconn_sent_spec (c : SMSCConn SMPP) w m h b :
  (exists i, sm_info m = Some i) ->
  smscconn_sent c w m (Some (submit_sm h b))
  = Done (set_counters c (received c) (counter_increase (sent c)).2 (failed c),
          emit (set_outgoing_counter w (counter_increase (outgoing_msg_counter w)).2) (EvDestroy m)).
Proof. intros [i Hi]. unfold smscconn_sent. by rewrite Hi. Qed.

Lemma handle_submit_sm_resp_known s h i sm :
  sess_ok s -> sent_map s !! format_ld (sequence_number h) = Some sm ->
  is_set i = true \/ smpp_msg_id_type (cfg s) = -1 ->
  exists s', handle_submit_sm_resp s h i = Done s' /\
    settles s s' (format_ld (sequence_number h)) (msg sm).
Proof.
  intros Hok Hk Hi. unfold handle_submit_sm_resp.
  destruct (take_sent_spec s (octstr_format_ld (sequence_number h)) (so_store _ Hok))
    as (d & -> & Hd & Ed). rewrite octets_format_ld in *. simpl. rewrite Hk.
  destruct (so_answerable _ Hok _ _ Hk) as (inf & packed & h0 & b & Einf & Epdu & Eun).
  rewrite Einf. simpl. destruct (response_msgid_ok (cfg s) i Hi) as [tmp Etmp].
  unfold cfg in *. simpl. rewrite Etmp. simpl. rewrite Epdu. simpl. rewrite Eun.
  edestruct mis_db_insert_ok as [c ->]. simpl.
  destruct (negb (command_status h =? 0)).
  - set (s1 := note_throttling _ _).
    destruct (fail_msg_spec s1 (set_state (msg sm) MSG_SENT_RESP)
      (smpp_status_to_smscconn_failure_reason (command_status h)) (Some (submit_sm h0 b)))
      as (s2 & -> & (E1 & E2 & E3 & _) & _ & Ew); [by eexists|done|].
    simpl. eexists. split; [done|].
    apply (settles_intro s _ d); try done; simpl; rewrite ?E1, ?E2, ?E3; try done; [eauto|].
    rewrite Ew. simpl. by rewrite world_msgs_emit_quiet.
  - rewrite smscconn_sent_spec by (by eexists). simpl. eexists. split; [done|].
    apply (settles_intro s _ d); try done; simpl; [eauto|].
    rewrite world_msgs_destroy, <-Permutation_cons_append. f_equiv.
    unfold world_msgs. simpl. by rewrite destroyed_msgs_app, app_nil_r.
Qed.

(** An answer to nothing changes nothing that matters. *)
Definition unsettled s s' : Prop :=
  sess_ok s' /\ sent_map s' = sent_map s /\ msgs_to_send (smpp s') = msgs_to_send (smpp s) /\
  config (smpp s') = config (smpp s) /\ pending_submits s' = pending_submits s /\
  world s' = world s /\ conn s' = conn s /\ wire s' = wire s.

Lemma take_sent_unknown s key :
  sess_ok s -> sent_map s !! octets key = None ->
  exists s', take_sent s key = Done (None, s') /\ unsettled s s'.
Proof.
  intros Hok Hk. destruct (take_sent_spec s key (so_store _ Hok)) as (d & -> & Hd & Ed).
  rewrite Hk. eexists. split; [done|]. split; [by eapply sess_ok_unanswered|].
  unfold sent_map at 1. simpl. rewrite Ed, delete_id by done. done.
Qed.

Lemma handle_submit_sm_resp_unknown s h i :
  sess_ok s -> sent_map s !! format_ld (sequence_number h) = None ->
  exists s', handle_submit_sm_resp s h i = Done s' /\ unsettled s s'.
Proof.
  intros Hok Hk. unfold handle_submit_sm_resp.
  destruct (take_sent_unknown s (octstr_format_ld (sequence_number h)) Hok) as (s' & -> & ?);
    [by rewrite octets_format_ld|]. simpl. eauto.
Qed.

Lemma handle_generic_nack_known s h sm :
  sess_ok s -> sent_map s !! format_ld (sequence_number h) = Some sm ->
  exists s', handle_generic_nack s h = Done s' /\
    settles s s' (format_ld (sequence_number h)) (msg sm).
Proof.
  intros Hok Hk. unfold handle_generic_nack.
  destruct (take_sent_spec s (octstr_format_ld (sequence_number h)) (so_store _ Hok))
    as (d & -> & Hd & Ed). rewrite octets_format_ld in *. simpl. rewrite Hk.
  destruct (answerable_info _ (so_answerable _ Hok _ _ Hk)) as [inf Einf].
  set (s1 := note_throttling _ _).
  destruct (fail_msg_spec s1 (msg sm)
    (smpp_status_to_smscconn_failure_reason (command_status h)) None)
    as (s2 & -> & (E1 & E2 & E3 & _) & _ & Ew); [by eexists|done|].
  simpl. eexists. split; [done|].
  apply (settles_intro s _ d); try done; simpl; rewrite ?E1, ?E2, ?E3; try done; eauto.
Qed.

Lemma handle_generic_nack_unknown s h :
  sess_ok s -> sent_map s !! format_ld (sequence_number h) = None ->
  exists s', handle_generic_nack s h = Done s' /\ unsettled s s'.
Proof.
  intros Hok Hk. unfold handle_generic_nack.
  destruct (take_sent_unknown s (octstr_format_ld (sequence_number h)) Hok) as (s' & -> & ?);
    [by rewrite octets_format_ld|]. simpl. eauto.
Qed.

Lemma settles_sub s s' k sm : settles s s' k sm -> sent_map s' ⊆ sent_map s.
Proof. intros (_ & -> & _). apply delete_subseteq. Qed.

Lemma unsettled_msgs s s' : unsettled s s' -> sess_msgs s' = sess_msgs s.
Proof. intros (_ & E1 & E2 & _ & _ & E3 & _). unfold sess_msgs. by rewrite E1, E2, E3. Qed.

(** A PDU that the session can handle: the response to a message names an
    identifier unless identifiers are taken as they are, and a successful
    bind arrives while nothing is unanswered. *)
Definition expected s (p : SMPP_PDU) : Prop :=
  match p with
  | submit_sm_resp _ i => is_set i = true \/ smpp_msg_id_type (cfg s) = -1
  | bind_transmitter_resp h | bind_transceiver_resp h =>
      command_status h = 0 -> sent_map s = ∅
  | _ => True
  end.

(** What handling a PDU keeps. *)
Definition keeps s s' : Prop :=
  sess_ok s' /\ sess_msgs s' ≡ₚ sess_msgs s /\ sent_map s' ⊆ sent_map s /\
  msgs_to_send (smpp s') = msgs_to_send (smpp s) /\ config (smpp s') = config (smpp s).

Lemma keeps_small s s' :
  sess_ok s' -> msgs_to_send (smpp s') = msgs_to_send (smpp s) ->
  sent_msgs (smpp s') = sent_msgs (smpp s) -> config (smpp s') = config (smpp s) ->
  world_msgs (world s') = world_msgs (world s) -> keeps s s'.
Proof.
  intros Hok E1 E2 E3 E4. split; [done|]. split; [apply sess_msgs_same; by rewrite ?E4|].
  unfold sent_map. by rewrite E2.
Qed.

Lemma keeps_settles s s' k sm : sent_map s !! k = Some sm -> settles s s' k (msg sm) -> keeps s s'.
Proof.
  intros Hk Hs. split; [apply Hs|]. split; [by eapply settles_msgs|].
  split; [by eapply settles_sub|]. by destruct Hs as (_ & _ & ? & ? & _).
Qed.

Lemma keeps_unsettled s s' : unsettled s s' -> keeps s s'.
Proof.
  intros Hs. split; [apply Hs|]. rewrite (unsettled_msgs _ _ Hs).
  destruct Hs as (_ & E & ? & ? & _). by rewrite E.
Qed.

Lemma handle_bind_tx_resp_keeps s h :
  sess_ok s -> (command_status h = 0 -> sent_map s = ∅) -> keeps s (handle_bind_tx_resp s h).
Proof.
  intros Hok Hb. unfold handle_bind_tx_resp.
  destruct (Z.eqb_spec (command_status h) 0) as [E|E]; simpl.
  - apply keeps_small; try done; [|by apply world_msgs_emit_quiet].
    destruct Hok as [? ? ? ? _ ?]. split; try done. simpl. right.
    change (sent_map _) with (sent_map s). by rewrite (Hb E), map_size_empty.
  - unfold refuse_bind. case_match; apply keeps_small; try done. by apply (sess_ok_same s).
Qed.

Lemma handle_bind_rx_resp_keeps s h : sess_ok s -> keeps s (handle_bind_rx_resp s h).
Proof.
  intros Hok. unfold handle_bind_rx_resp, refuse_bind.
  repeat case_match; apply keeps_small; try done; by apply (sess_ok_same s).
Qed.

Lemma handle_deliver_sm_keeps s h b : sess_ok s -> keeps s (handle_deliver_sm s h b).
Proof.
  intros Hok. unfold handle_deliver_sm. destruct (get_smscid _) as [msgid st].
  apply keeps_small; try done.
  - by apply send_resp_ok, sess_ok_world.
  - unfold send_resp, world_msgs. simpl. rewrite destroyed_msgs_app. simpl. by rewrite app_nil_r.
Qed.

Lemma handle_pdu_keeps s (p : SMPP_PDU) :
  sess_ok s -> expected s p -> exists s', handle_pdu s p = Done s' /\ keeps s s'.
Proof.
  intros Hok Hp.
  destruct p as [h b|h i|h b|h|h b|h|h|h|h|h|h|h b|h b|h b|h|h|h|ty h b]; simpl in *;
    try (eexists; split; [reflexivity|];
         first [by apply handle_bind_tx_resp_keeps | by apply handle_bind_rx_resp_keeps
               |by apply handle_deliver_sm_keeps
               |apply keeps_small; try done;
                repeat first [apply sess_ok_conn | apply send_resp_ok | apply sess_ok_world
                             | exact Hok]]).
  - destruct (sent_map s !! format_ld (sequence_number h)) as [sm|] eqn:Hk.
    + destruct (handle_submit_sm_resp_known s h i sm) as (s' & ? & ?); try done.
      exists s'. split; [done|]. by eapply keeps_settles.
    + destruct (handle_submit_sm_resp_unknown s h i) as (s' & ? & ?); try done.
      exists s'. split; [done|]. by apply keeps_unsettled.
  - destruct (sent_map s !! format_ld (sequence_number h)) as [sm|] eqn:Hk.
    + destruct (handle_generic_nack_known s h sm) as (s' & ? & ?); try done.
      exists s'. split; [done|]. by eapply keeps_settles.
    + destruct (handle_generic_nack_unknown s h) as (s' & ? & ?); try done.
      exists s'. split; [done|]. by apply keeps_unsettled.
Qed.

(** A bind that succeeds while messages are unanswered: the window counter
    starts again at 0. *)
Definition rebinds s (p : SMPP_PDU) : Prop :=
  match p with
  | bind_transmitter_resp h | bind_transceiver_resp h => command_status h = 0 /\ sent_map s <> ∅
  | _ => False
  end.

(** An answer without an identifier to a message of the table, where
    identifiers are converted: the NULL pointer is followed. *)
Definition nameless s (p : SMPP_PDU) : Prop :=
  match p with
  | submit_sm_resp h None =>
      smpp_msg_id_type (cfg s) <> -1 /\ is_Some (sent_map s !! format_ld (sequence_number h))
  | _ => False
  end.

Lemma nameless_panics s p : sess_ok s -> nameless s p -> handle_pdu s p = Panic.
Proof.
  intros Hok Hn. destruct p as [|h [i|]| | | | | | | | | | | | | | | |]; try done.
  destruct Hn as [Ht [sm Hk]]. simpl. unfold handle_submit_sm_resp.
  destruct (take_sent_spec s (octstr_format_ld (sequence_number h)) (so_store _ Hok))
    as (d & -> & _). rewrite octets_format_ld. simpl. rewrite Hk.
  destruct (so_answerable _ Hok _ _ Hk) as (inf & packed & h0 & b & -> & _). simpl.
  unfold response_msgid, cfg in *. simpl. by rewrite (proj2 (Z.eqb_neq _ _) Ht).
Qed.

(** What handling any other PDU does to the messages. *)
Definition accounts s s' : Prop :=
  sess_msgs s' ≡ₚ sess_msgs s /\ sent_map s' ⊆ sent_map s /\
  msgs_to_send (smpp s') = msgs_to_send (smpp s).

Lemma handle_bind_tx_resp_accounts s h : accounts s (handle_bind_tx_resp s h).
Proof.
  unfold handle_bind_tx_resp, refuse_bind. repeat case_match; try done. split; [|done].
  apply sess_msgs_same; try done. cbn. by rewrite world_msgs_emit_quiet.
Qed.


(** ** Sending *)

Lemma convert_text_total cf b t :
  short_message b = Some t -> exists t', convert_text cf b = Done (Some t').
Proof.
  intros E. unfold convert_text. rewrite E. destruct (alt_charset cf); [|eauto].
  case_match; simpl.
  - destruct (charset_latin1_to_gsm_new_spec t) as (t' & -> & _). simpl. eauto.
  - destruct (charset_latin1_to_gsm_spec t) as (t' & -> & _). simpl. eauto.
Qed.

Lemma prepare_submit_total s m b t r :
  short_message b = Some t -> routing_info m = Some r ->
  exists b', prepare_submit s m b = Done b'.
Proof.
  intros Et Er. unfold prepare_submit. destruct (convert_text_total (cfg s) b t Et) as [t' ->].
  rewrite Er. simpl. eauto.
Qed.

(** The session after one more sequence number. *)
Lemma next_id_spec s :
  next_id s = (n (message_id_counter (smpp s)),
    with_smpp s (set_id_counter (smpp s) (counter_increase (message_id_counter (smpp s))).2)).
Proof. done. Qed.

Lemma sess_ok_next_id s :
  sess_ok s -> n (message_id_counter (smpp s)) + 1 < ulong_max ->
  sess_ok (next_id s).2 /\
  n (message_id_counter (smpp (next_id s).2)) = n (message_id_counter (smpp s)) + 1.
Proof.
  intros [Hst Hl Hc Hk Hw Ha] Hn. rewrite next_id_spec. unfold counter_ok in Hc.
  assert (E : n (counter_increase (message_id_counter (smpp s))).2
              = n (message_id_counter (smpp s)) + 1).
  { simpl. apply wrap_ulong_id. lia. }
  split; [|done]. split; try done; cbn [snd smpp set_id_counter message_id_counter with_smpp].
  - apply counter_increase_ok.
  - intros k (z & ? & ?)%Hk. exists z. split; [done|]. rewrite E. lia.
Qed.

(** Every write goes through at once. *)
Definition writes_through : Prop :=
  (forall l o, link_ok l -> (conn_write l o).1 = 0) /\ (forall p, smpp_pdu_pack p <> None).

(** The entry [e] of a message [m] that was sent under the number [z] as the
    PDU [o]. *)
Record entry_of s (m : Msg) (z : Z) (e : smpp_msg) (o : octstr) : Prop := {
  en_time : sent_time e = now (world s);
  en_ident : msg_ident (msg e) = msg_ident m;
  en_state : msg_state (msg e) = MSG_SENT_NORESP;
  en_retries : retries (msg e) = retries m + 1;
  en_pdu : exists i h b, sm_info (msg e) = Some i /\ pdu i = Some o /\
    smpp_pdu_pack (submit_sm h b) = Some o /\ sequence_number h = z
}.

(** What sending one message does apart from the table. *)
Definition sends_one s s' : Prop :=
  sess_ok s' /\ config (smpp s') = config (smpp s) /\
  msgs_to_send (smpp s') = msgs_to_send (smpp s) /\ world s' = world s /\ conn s' = conn s /\
  n (message_id_counter (smpp s')) = n (message_id_counter (smpp s)) + 1.

(** Remembering a message under the number just given out. *)
Lemma remember_spec s m h b o :
  sess_ok s -> 0 <= pending_submits s -> answerable m ->
  sequence_number h + 1 = n (message_id_counter (smpp s)) -> 0 <= sequence_number h ->
  sent_map s !! format_ld (sequence_number h) = None ->
  (exists i, sm_info m = Some i /\ pdu i = Some o) -> smpp_pdu_pack (submit_sm h b) = Some o ->
  exists s' e, remember s m (submit_sm h b) = Done s' /\ sess_ok s' /\
    config (smpp s') = config (smpp s) /\ msgs_to_send (smpp s') = msgs_to_send (smpp s) /\
    world s' = world s /\ conn s' = conn s /\ wire s' = wire s /\
    message_id_counter (smpp s') = message_id_counter (smpp s) /\
    pending_submits s' = pending_submits s + 1 /\
    entry_of s m (sequence_number h) e o /\
    sent_map s' = <[format_ld (sequence_number h) := e]> (sent_map s).
Proof.
  intros [Hst Hl Hc Hk Hw Ha] Hp Hm Hseq H0 Hfresh (i0 & Hi0 & Hp0) Hpack. unfold remember. simpl.
  set (m' := set_retries _ _).
  destruct (store_put_ok (sent_msgs (smpp s)) (octstr_format_ld (sequence_number h))
    (MkSmppMsg (now (world s)) m') Hst) as (d & -> & Hd & Ed).
  rewrite octets_format_ld in Ed. simpl. eexists _, (MkSmppMsg (now (world s)) m'). split; [done|].
  split; [|split_and!; try done].
  - split; try done; unfold sent_map in *; simpl; rewrite ?Ed.
    + intros k. rewrite dom_insert, elem_of_union, elem_of_singleton. intros [->|Hin].
      * exists (sequence_number h). split; [done|lia].
      * by apply Hk.
    + right. rewrite map_size_insert_None by done.
      destruct Hw as [[E _]|E]; lia.
    + apply map_Forall_insert_2; [|done]. destruct Hm as (i & packed & h1 & b1 & ? & ? & ?).
      by exists i, packed, h1, b1.
  - split; try done. by exists i0, h, b.
Qed.

Lemma send_pdu_zero l p : (send_pdu l p).1 = 0 -> exists o, smpp_pdu_pack p = Some o.
Proof. unfold send_pdu. destruct (smpp_pdu_pack p); [eauto|done]. Qed.

Lemma send_pdu_stream l p :
  link_ok l ->
  link_stream (send_pdu l p).2 = link_stream l ++ from_option octets [] (smpp_pdu_pack p).
Proof.
  intros Hl. unfold send_pdu. destruct (smpp_pdu_pack p); simpl; [by apply conn_write_law|].
  by rewrite app_nil_r.
Qed.

Lemma answerable_set_pdu m h b o :
  smpp_pdu_pack (submit_sm h b) = Some o -> (exists i, sm_info m = Some i) ->
  answerable (set_pdu m (Some o)).
Proof.
  intros Ho [i Hi]. destruct (pack_submit h b o Ho) as [b' Hb].
  unfold answerable, set_pdu. simpl. rewrite Hi. simpl. eauto 10.
Qed.

Lemma sess_ok_send s p :
  sess_ok s -> sess_ok (with_wire s (send_pdu (wire s) p).2).
Proof. exact (send_resp_ok s p). Qed.

Lemma send_one_spec s m :
  sess_ok s -> 0 <= pending_submits s -> sendable m -> dndcheck_flag (world s) = 0 ->
  n (message_id_counter (smpp s)) + 1 < ulong_max ->
  exists f s' h b r, send_one s m = Done (f, s') /\ sends_one s s' /\
    sequence_number h = n (message_id_counter (smpp s)) /\
    send_pdu (wire s) (submit_sm h b) = (r, wire s') /\
    match f with
    | Continue => r = 0 /\ pending_submits s' = pending_submits s + 1 /\
        sent_map s !! format_ld (sequence_number h) = None /\
        exists e o, smpp_pdu_pack (submit_sm h b) = Some o /\ entry_of s m (sequence_number h) e o /\
          sent_map s' = <[format_ld (sequence_number h) := e]> (sent_map s)
    | Break => r <> 0 /\ pending_submits s' = pending_submits s /\ sent_map s' = sent_map s
    end.
Proof.
  intros Hok Hp (i & packed & h & b & r & t & Ei & Epdu & Eun & Et & Er) Hdnd Hn.
  unfold send_one, dnd_rewrite. rewrite Hdnd. simpl. rewrite Ei. simpl. rewrite Epdu, Eun. simpl.
  unfold outgoing_pdu. destruct (sess_ok_next_id s Hok Hn) as [Hok1 En].
  rewrite next_id_spec in *. cbn [snd] in *. set (s1 := with_smpp s _) in *.
  destruct (prepare_submit_total s1 m b t r Et Er) as [b' ->]. simpl.
  set (h' := MkHeader _ _). set (p := submit_sm h' b').
  pose proof (sess_ok_send s1 p Hok1) as Hok2.
  destruct (send_pdu (wire s) p) as [ret l] eqn:Es.
  assert (Hret : (send_pdu (wire s) p).1 = ret) by by rewrite Es.
  change (wire s1) with (wire s) in *. rewrite Es in Hok2. cbn [snd] in Hok2.
  destruct (Z.eqb_spec ret 0) as [->|Hne]; simpl.
  - destruct (send_pdu_zero _ _ Hret) as [o Ho]. rewrite Ho. subst p.
    assert (H0 : 0 <= n (message_id_counter (smpp s))) by apply (so_counter _ Hok).
    assert (Hfresh : sent_map (with_wire s1 l) !! format_ld (sequence_number h') = None).
    { destruct (sent_map (with_wire s1 l) !! format_ld (sequence_number h')) eqn:E; [|done].
      assert (Hin : format_ld (sequence_number h') ∈ dom (sent_map s))
        by by (apply elem_of_dom_2 in E).
      destruct (so_keys _ Hok _ Hin) as (z & Ez%format_ld_inj & ?). simpl in Ez. lia. }
    destruct (remember_spec (with_wire s1 l) (set_pdu m (Some o)) h' b' o) as
      (s' & e & -> & Hok' & E1 & E2 & E3 & E4 & E5 & E6 & E7 & [N1 N2 N3 N4 N5] & E8); try done.
    + eapply answerable_set_pdu; [exact Ho|by eexists].
    + unfold set_pdu. simpl. rewrite Ei. simpl. by eexists.
    + simpl. eexists _, _, h', b', _. split; [done|].
      split; [split; [done|]; split_and!; try done; by rewrite E6|]. split; [done|].
      split; [rewrite Es, E5; done|]. split; [done|]. split; [done|]. split; [done|].
      exists e, o. split; [done|]. split; [|done]. rewrite msg_ident_set_pdu in N2. by split.
  - eexists Break, _, h', b', ret. split; [done|]. split; [split_and!; done|]. by split_and!.
Qed.

(** The messages of a list were sent one after the other, from the number
    [z] on. *)
Fixpoint submits s (z : Z) (ms : list Msg) (es : list (smpp_msg * octstr)) : Prop :=
  match ms, es with
  | [], [] => True
  | m :: ms, (e, o) :: es => entry_of s m z e o /\ submits s (z + 1) ms es
  | _, _ => False
  end.

(** The table with the entries of these messages. *)
Fixpoint table_with (z : Z) (es : list (smpp_msg * octstr)) (t : gmap (list Z) smpp_msg)
    : gmap (list Z) smpp_msg :=
  match es with
  | [] => t
  | (e, _) :: es => table_with (z + 1) es (<[format_ld z := e]> t)
  end.

(** Their PDUs on the stream. *)
Definition stream_of (es : list (smpp_msg * octstr)) : list Z := concat (octets ∘ snd <$> es).

Lemma entry_of_world s s' m z e o : world s' = world s -> entry_of s' m z e o -> entry_of s m z e o.
Proof. intros E [N1 N2 N3 N4 N5]. rewrite E in N1. by split. Qed.

Lemma submits_world s s' ms : world s' = world s ->
  forall es z, submits s' z ms es -> submits s z ms es.
Proof.
  intros E. induction ms as [|m ms IH]; intros [|[e o] es] z; try done.
  intros [H1 H2]. split; [by apply (entry_of_world s s')|by apply IH].
Qed.

Lemma submits_length s ms : forall es z, submits s z ms es -> length es = length ms.
Proof. induction ms as [|m ms IH]; intros [|[e o] es] z; try done. intros [_ H]. simpl. by rewrite (IH _ _ H). Qed.

Lemma table_with_lookup_old es : forall z t k,
  (forall z', z <= z' -> k <> format_ld z') -> table_with z es t !! k = t !! k.
Proof.
  induction es as [|[e o] es IH]; intros z t k Hk; simpl; [done|].
  rewrite IH by (intros z' ?; apply Hk; lia). apply lookup_insert_ne. intros E. by apply (Hk z); [lia|].
Qed.

(** Every entry is new: its number was not in the table before. *)
Lemma table_with_idents s ms : forall es z t,
  0 <= z -> submits s z ms es -> (forall z', z <= z' -> t !! format_ld z' = None) ->
  map_idents (table_with z es t) ≡ₚ (msg_ident <$> ms) ++ map_idents t.
Proof.
  induction ms as [|m ms IH]; intros [|[e o] es] z t Hz; simpl; try done.
  intros [He Hs] Ht. rewrite IH; [|lia|done|].
  - rewrite map_idents_insert by (apply Ht; lia). rewrite (en_ident _ _ _ _ _ He). by rewrite Permutation_middle.
  - intros z' Hz'. rewrite lookup_insert_ne; [apply Ht; lia|].
    intros E%format_ld_inj. lia.
Qed.

Lemma fresh_numbers s : sess_ok s ->
  forall z, n (message_id_counter (smpp s)) <= z -> sent_map s !! format_ld z = None.
Proof.
  intros Hok z Hz. destruct (sent_map s !! format_ld z) eqn:E; [|done].
  apply elem_of_dom_2 in E. destruct (so_keys _ Hok _ E) as (z' & Ez%format_ld_inj & ?). lia.
Qed.

(** What the loop of [send_messages] does to a session: the messages [sent]
    were written and are in the table as [es]; [left] is the message at which
    the loop ended because its PDU could not be written; [rest] is still
    queued. *)
Definition sends s s' (sent : list Msg) (es : list (smpp_msg * octstr)) (left : option Msg) (rest : list Msg)
    : Prop :=
  let z := n (message_id_counter (smpp s)) in
  sess_ok s' /\ config (smpp s') = config (smpp s) /\ world s' = world s /\ conn s' = conn s /\
  items (msgs_to_send (smpp s)) = sent ++ option_list left ++ rest /\
  items (msgs_to_send (smpp s')) = rest /\
  submits s z sent es /\ sent_map s' = table_with z es (sent_map s) /\
  pending_submits s' = pending_submits s + Z.of_nat (length sent) /\
  pending_submits s' <= Z.max (pending_submits s) (max_pending_submits (cfg s)) /\
  match left with
  | None => link_stream (wire s') = link_stream (wire s) ++ stream_of es /\
      (rest = [] \/ max_pending_submits (cfg s) <= pending_submits s')
  | Some _ => exists l h b r, link_stream l = link_stream (wire s) ++ stream_of es /\
      sequence_number h = z + Z.of_nat (length sent) /\ link_ok l /\
      send_pdu l (submit_sm h b) = (r, wire s') /\ r <> 0
  end.

Lemma sends_nothing s s' rest :
  sess_ok s' -> config (smpp s') = config (smpp s) -> world s' = world s -> conn s' = conn s ->
  items (msgs_to_send (smpp s)) = rest -> items (msgs_to_send (smpp s')) = rest ->
  pending_submits s' = pending_submits s -> sent_map s' = sent_map s -> wire s' = wire s ->
  rest = [] \/ max_pending_submits (cfg s) <= pending_submits s' ->
  sends s s' [] [] None rest.
Proof.
  intros ? ? ? ? E0 E1 E2 E3 E4 ?. split_and!; try done; simpl; [lia|lia|]. by rewrite E4, app_nil_r.
Qed.

(** The session after [gwlist_extract_first]. *)
Lemma extract_spec s q :
  (gwlist_extract_first (msgs_to_send (smpp s))).2 = q -> sess_ok s ->
  let s1 := with_smpp s (set_queue (smpp s) q) in
  sess_ok s1 /\ items (msgs_to_send (smpp s1)) = tail (items (msgs_to_send (smpp s))).
Proof.
  intros <- Hok. split; [by apply (sess_ok_same s)|]. simpl. by rewrite gwlist_extract_first_snd.
Qed.

Lemma send_loop_spec fuel : forall s,
  (length (items (msgs_to_send (smpp s))) < fuel)%nat ->
  sess_ok s -> 0 <= pending_submits s -> dndcheck_flag (world s) = 0 ->
  Forall sendable (items (msgs_to_send (smpp s))) ->
  n (message_id_counter (smpp s)) + Z.of_nat (length (items (msgs_to_send (smpp s)))) < ulong_max ->
  exists left s' sent es rest, send_loop fuel s = Done (left, s') /\ sends s s' sent es left rest.
Proof.
  induction fuel as [|fuel IH]; intros s Hf Hok Hp Hdnd Hq Hn; [lia|]. simpl.
  destruct (Z.ltb_spec (pending_submits s) (max_pending_submits (cfg s))) as [Hlt|Hge].
  2:{ exists None, s, [], [], (items (msgs_to_send (smpp s))). split; [done|].
      apply sends_nothing; auto. }
  pose proof (gwlist_extract_first_fst _ (msgs_to_send (smpp s))) as Hhd.
  destruct (gwlist_extract_first (msgs_to_send (smpp s))) as [mo q] eqn:Eq. cbn [fst] in Hhd.
  destruct (extract_spec s q) as [Hok1 Et]; [by rewrite Eq|done|].
  set (s1 := with_smpp s (set_queue (smpp s) q)) in *.
  destruct (items (msgs_to_send (smpp s))) as [|m rest] eqn:Eitems; simpl in Hhd, Et; subst mo.
  { exists None, s1, [], [], []. split; [done|]. apply sends_nothing; auto. }
  apply Forall_cons in Hq as [Hm Hrest]. simpl in Hn.
  destruct (send_one_spec s1 m) as (f & s2 & h & b & r & -> & (Hok2 & E1 & E2 & E3 & E4 & E5) & Hseq & Hsend & Hf2);
    try done; [simpl; lia|]. simpl.
  change (config (smpp s1)) with (cfg s) in E1. change (world s1) with (world s) in E3.
  change (conn s1) with (conn s) in E4. change (pending_submits s1) with (pending_submits s) in Hf2.
  change (n (message_id_counter (smpp s1))) with (n (message_id_counter (smpp s))) in E5, Hseq.
  change (wire s1) with (wire s) in Hsend.
  change (sent_map s1) with (sent_map s) in Hf2. assert (Et2 : items (msgs_to_send (smpp s2)) = rest) by (rewrite E2; exact Et).
  destruct f.
  - destruct Hf2 as (-> & Ep & Hfresh & e & o & Ho & He & Em).
    assert (Est : link_stream (wire s2) = link_stream (wire s) ++ octets o).
    { pose proof (send_pdu_stream (wire s) (submit_sm h b) (so_link _ Hok)) as H. rewrite Hsend, Ho in H. exact H. }
    destruct (IH s2) as (left & s' & sent & es & rest' & -> & Hs);
      rewrite ?Et2, ?E3; try done; [simpl in Hf; lia|lia|rewrite E5; simpl; lia|].
    destruct Hs as (Hok' & F1 & F2 & F3 & F4 & F5 & F6 & F7 & F8 & F9 & F10).
    rewrite E5 in F6, F7, F10. rewrite Hseq in He, Em.
    exists left, s', (m :: sent), ((e, o) :: es), rest'. split; [done|]. unfold cfg in *. rewrite E1 in *.
    split_and!; try done; try congruence.
    + rewrite Eitems, <-Et2, F4. done.
    + split; [by apply (entry_of_world s s1)|by apply (submits_world s s2)].
    + rewrite F7, Em. done.
    + simpl. lia.
    + unfold cfg. lia.
    + unfold cfg. assert (Ecat : stream_of ((e, o) :: es) = octets o ++ stream_of es) by done.
      rewrite Ecat, app_assoc, <-Est. destruct left; [|done].
      destruct F10 as (l & h2 & b2 & r & G1 & G2 & G3). exists l, h2, b2, r. split; [done|].
      split; [simpl length; lia|done].
  - destruct Hf2 as (Hr & Ep & Em). exists (Some m), s2, [], [], rest. split; [done|].
    split_and!; try done; simpl; try lia.
    exists (wire s), h, b, r. split; [by rewrite app_nil_r|]. split; [lia|]. split; [apply (so_link _ Hok)|done].
Qed.

Lemma send_pending_sends s :
  sess_ok s -> 0 <= pending_submits s -> dndcheck_flag (world s) = 0 ->
  Forall sendable (items (msgs_to_send (smpp s))) ->
  n (message_id_counter (smpp s)) + Z.of_nat (length (items (msgs_to_send (smpp s)))) < ulong_max ->
  exists left s' sent es rest, send_pending s = Done (left, s') /\ sends s s' sent es left rest.
Proof.
  intros Hok Hp Hdnd Hq Hn. unfold send_pending. destruct (Z.eqb_spec (pending_submits s) (-1)); [lia|].
  apply send_loop_spec; try done. rewrite gwlist_len_spec. lia.
Qed.

(** C10 [send_messages] on a bound session, when the database process does
    not check messages ([dndcheck_flag] is 0), the queued messages can be sent
    and the numbers do not run out: it takes messages from the head of the
    queue, in order, until the window is full, the queue is empty or a PDU
    cannot be written at once, never going beyond [max_pending_submits].  The
    messages that were written get consecutive sequence numbers from the
    counter on, none of which is in the table; for each of them the table
    holds, under its number, the message with one try more, the time and the
    PDU that was written, and the stream holds just these PDUs, in order.  The
    window counter counts them.  A write whose result is not 0, also the
    result 1 for data that waits in the output buffer, ends the loop: its
    message got the next number and is left in [msg], no longer queued and not
    remembered. *)
Theorem send_messages_window s (Hok : sess_ok s) (Hp : 0 <= pending_submits s)
    (Hdnd : dndcheck_flag (world s) = 0)
    (Hq : Forall sendable (items (msgs_to_send (smpp s))))
    (Hn : n (message_id_counter (smpp s)) + Z.of_nat (length (items (msgs_to_send (smpp s))))
          < ulong_max) :
  let z := n (message_id_counter (smpp s)) in
  exists left s' sent es rest, send_pending s = Done (left, s') /\ send_messages s = Done s' /\
    sess_ok s' /\ world s' = world s /\
    items (msgs_to_send (smpp s)) = sent ++ option_list left ++ rest /\
    items (msgs_to_send (smpp s')) = rest /\
    submits s z sent es /\ sent_map s' = table_with z es (sent_map s) /\
    (forall z', z <= z' -> sent_map s !! format_ld z' = None) /\
    pending_submits s' = pending_submits s + Z.of_nat (length sent) /\
    pending_submits s' <= Z.max (pending_submits s) (max_pending_submits (cfg s)) /\
    match left with
    | None => link_stream (wire s') = link_stream (wire s) ++ stream_of es /\
        (rest = [] \/ max_pending_submits (cfg s) <= pending_submits s')
    | Some _ => exists l h b r, link_stream l = link_stream (wire s) ++ stream_of es /\
        sequence_number h = z + Z.of_nat (length sent) /\ link_ok l /\
        send_pdu l (submit_sm h b) = (r, wire s') /\ r <> 0
    end.
Proof.
  destruct (send_pending_sends s) as (left & s' & sent & es & rest & E & Hs); try done.
  exists left, s', sent, es, rest. unfold send_messages. rewrite E.
  destruct Hs as (? & ? & ? & ? & ? & ? & ? & ? & ? & ? & ?).
  split_and!; try done. by apply fresh_numbers.
Qed.

(** A message whose PDU is written but not flushed at once is forgotten:
    when the connection keeps (part of) the octets in its buffer and so
    answers 1, [send_messages] has put the [submit_sm] on the stream to the
    SMSC, but the message is neither in the queue nor in the table of
    unanswered messages nor anywhere else, and the window counter is as
    before. *)
Lemma send_messages_loses_unflushed s m q (Hok : sess_ok s) (Hp : 0 <= pending_submits s)
    (Hmax : pending_submits s < max_pending_submits (cfg s))
    (Hdnd : dndcheck_flag (world s) = 0)
    (Hq : items (msgs_to_send (smpp s)) = m :: q) (Hm : sendable m)
    (Hn : n (message_id_counter (smpp s)) + 1 < ulong_max)
    (Hbuf : forall p o, smpp_pdu_pack p = Some o -> (conn_write (wire s) o).1 = 1) :
  exists s' h b, send_messages s = Done s' /\
    link_stream (wire s') = link_stream (wire s) ++
      from_option octets [] (smpp_pdu_pack (submit_sm h b)) /\
    items (msgs_to_send (smpp s')) = q /\ sent_map s' = sent_map s /\ world s' = world s /\
    pending_submits s' = pending_submits s /\
    sess_msgs s ≡ₚ msg_ident m :: sess_msgs s'.
Proof.
  unfold send_messages, send_pending. destruct (Z.eqb_spec (pending_submits s) (-1)); [lia|].
  rewrite gwlist_len_spec, Nat2Z.id, Nat.add_1_r. simpl send_loop.
  rewrite (proj2 (Z.ltb_lt _ _)) by done.
  pose proof (gwlist_extract_first_fst _ (msgs_to_send (smpp s))) as Hhd.
  destruct (gwlist_extract_first (msgs_to_send (smpp s))) as [mo q'] eqn:Eq. cbn [fst] in Hhd.
  destruct (extract_spec s q') as [Hok1 Et]; [by rewrite Eq|done|].
  rewrite Hq in Hhd, Et. simpl in Hhd. subst mo.
  set (s1 := with_smpp s (set_queue (smpp s) q')) in *.
  destruct (send_one_spec s1 m) as (f & s2 & h & b & r & -> & (_ & _ & E2 & E3 & E4 & _) & _ & Hsend & Hf2);
    try done. simpl. change (wire s1) with (wire s) in Hsend.
  assert (f = Break) as ->.
  { destruct f; [|done]. destruct Hf2 as (-> & _ & _ & e & o & Ho & _). unfold send_pdu in Hsend.
    rewrite Ho in Hsend. pose proof (Hbuf _ _ Ho) as Hb. by rewrite Hsend in Hb. }
  destruct Hf2 as (_ & Ep & Em). pose proof (send_pdu_stream (wire s) (submit_sm h b) (so_link _ Hok)) as Hst.
  rewrite Hsend in Hst. exists s2, h, b. rewrite E2.
  split_and!; try done. unfold sess_msgs. by rewrite E2, Em, E3, Hq, Et.
Qed.

(** The part of [mis_db_insert] that tells which message was answered how. *)
Definition mis_entry (c : Conn_Msg) : option (option (list Z) * option (list Z) * Z) :=
  match c with
  | insert_mis an am _ _ _ _ _ st _ _ _ _ _ => Some (octets <$> an, octets <$> am, st)
  | _ => None
  end.

Lemma mis_entry_insert w an am rt si sm h b st ip :
  exists c, mis_db_insert w an am rt si sm (Some (submit_sm h b)) st ip = Done (emit w (EvDbbox c)) /\
    mis_entry c = Some (octets <$> an, octets <$> am, st).
Proof. eexists. split; [reflexivity|]. simpl. by rewrite !octstr_dup_octets. Qed.

(** Statuses after which a message is tried again. *)
Definition temporary (st : Z) : bool :=
  (st =? SMPP_ESME_RMSGQFUL) || (st =? SMPP_ESME_RTHROTTLED) || (st =? SMPP_ESME_RX_T_APPN) ||
  (st =? SMPP_ESME_RSYSERR).

Lemma failure_reason_temporary st :
  (smpp_status_to_smscconn_failure_reason st =? SMSCCONN_FAILED_TEMPORARILY) ||
  (smpp_status_to_smscconn_failure_reason st =? SMSCCONN_FAILED_SHUTDOWN) = temporary st.
Proof.
  unfold smpp_status_to_smscconn_failure_reason, temporary. by case_match.
Qed.

Lemma outgoing_requeue (c : SMSCConn SMPP) w m :
  items (outgoing_msg (requeue_failed c w m)) = items (outgoing_msg w) ++
    [set_failed m (if msg_retry_time m =? 0 then now w else msg_retry_time m) (octstr_dup (id c))] /\
  destroyed_msgs (trace (requeue_failed c w m)) = destroyed_msgs (trace w).
Proof.
  unfold requeue_failed. by destruct (produce_outgoing_items w (set_failed m
    (if msg_retry_time m =? 0 then now w else msg_retry_time m) (octstr_dup (id c)))) as (? & ? & _).
Qed.

(** C20 The answer to a message is matched by its sequence number and decides
    what becomes of exactly that message: with status 0 it is destroyed and
    counted as sent, with a temporary error it is appended to the shared
    queue, and only a throttling error makes the session pause, with any
    other error it is destroyed and counted as failed; in each case its
    result is reported to the database under the account's message id, and
    it leaves the table and the window. *)
Theorem submit_sm_resp_outcome s h i sm
    (Hok : sess_ok s) (Hk : sent_map s !! format_ld (sequence_number h) = Some sm)
    (Hi : is_set i = true \/ smpp_msg_id_type (cfg s) = -1) :
  exists s' c inf, handle_submit_sm_resp s h i = Done s' /\ sm_info (msg sm) = Some inf /\
    mis_entry c
    = Some (octets <$> account_name inf, octets <$> account_msg_id inf, command_status h) /\
    sent_map s' = delete (format_ld (sequence_number h)) (sent_map s) /\
    pending_submits s' = pending_submits s - 1 /\
    let m := set_state (msg sm) MSG_SENT_RESP in
    if command_status h =? 0 then
      items (outgoing_msg (world s')) = items (outgoing_msg (world s)) /\
      trace (world s') = trace (world s) ++ [EvDbbox c; EvDestroy m] /\
      sent (conn s') = (counter_increase (sent (conn s))).2
    else
      throttling_err_time (smpp s')
        = (if command_status h =? SMPP_ESME_RTHROTTLED then now (world s) else 0) /\
      if temporary (command_status h) then
        items (outgoing_msg (world s')) = items (outgoing_msg (world s)) ++
          [set_failed m (if msg_retry_time m =? 0 then now (world s) else msg_retry_time m)
             (octstr_dup (id (conn s)))]
      else
        items (outgoing_msg (world s')) = items (outgoing_msg (world s)) /\
        trace (world s') = trace (world s) ++ [EvDbbox c; EvDestroy m] /\
        failed (conn s') = (counter_increase (failed (conn s))).2.
Proof.
  unfold handle_submit_sm_resp.
  destruct (take_sent_spec s (octstr_format_ld (sequence_number h)) (so_store _ Hok))
    as (d & -> & Hd & Ed). rewrite octets_format_ld in *. simpl. rewrite Hk.
  destruct (so_answerable _ Hok _ _ Hk) as (inf & packed & h0 & b & Einf & Epdu & Eun).
  rewrite Einf. simpl. destruct (response_msgid_ok (cfg s) i Hi) as [tmp Etmp].
  unfold cfg in *. simpl. rewrite Etmp. simpl. rewrite Epdu. simpl. rewrite Eun.
  edestruct mis_entry_insert as (c & -> & Hc). simpl.
  destruct (command_status h =? 0); simpl.
  - rewrite smscconn_sent_spec by (by eexists). simpl. eexists _, c, inf.
    split_and!; try done. simpl. by rewrite <-app_assoc.
  - unfold fail_msg. rewrite (smscconn_send_failed_eq _ _ _ _ _ inf) by done.
    rewrite failure_reason_temporary. set (s1 := note_throttling _ _).
    destruct (temporary (command_status h)); simpl; eexists _, c, inf; split_and!; try done.
    + simpl. by rewrite (proj1 (outgoing_requeue _ _ _)).
    + simpl. by rewrite <-app_assoc.
Qed.

(** ** Messages that are not answered *)

Definition expired s (sm : smpp_msg) : bool := wait_ack (cfg s) <? now (world s) - sent_time sm.

(** A message as it goes back to the shared queue. *)
Definition requeued s (m : Msg) : Msg :=
  set_failed m (if msg_retry_time m =? 0 then now (world s) else msg_retry_time m)
    (octstr_dup (id (conn s))).

(** The messages [ms] go to the end of the shared queue, in order, and
    nothing is destroyed. *)
Definition requeues s s' (ms : list Msg) : Prop :=
  items (outgoing_msg (world s')) = items (outgoing_msg (world s)) ++ (requeued s <$> ms) /\
  destroyed_msgs (trace (world s')) = destroyed_msgs (trace (world s)) /\
  now (world s') = now (world s) /\ conn s' = conn s.

Lemma requeues_trans s1 s2 s3 l1 l2 : requeues s1 s2 l1 -> requeues s2 s3 l2 -> requeues s1 s3 (l1 ++ l2).
Proof.
  intros (E1 & E2 & E3 & E4) (F1 & F2 & F3 & F4). split_and!; try congruence.
  rewrite F1, E1, fmap_app, <-app_assoc. do 2 f_equal. unfold requeued. by rewrite E3, E4.
Qed.

Lemma requeue_failed_now (c : SMSCConn SMPP) w m : now (requeue_failed c w m) = now w.
Proof. unfold requeue_failed, produce_outgoing_msg. by case_match. Qed.

(** One expired message put back. *)
Lemma requeue_one s key sm :
  sess_ok s -> sent_map s !! octets key = Some sm ->
  exists d s', take_sent s key = Done (Some sm, with_smpp s (set_sent_msgs (smpp s) d)) /\
    fail_msg (with_smpp s (set_sent_msgs (smpp s) d)) (msg sm) SMSCCONN_FAILED_TEMPORARILY None
    = Done s' /\
    settles s (with_pending s' (pending_submits s' - 1)) (octets key) (msg sm) /\
    requeues s s' [msg sm].
Proof.
  intros Hok Hk. destruct (take_sent_spec s key (so_store _ Hok)) as (d & -> & Hd & Ed).
  rewrite Hk.
  destruct (answerable_info _ (so_answerable _ Hok _ _ Hk)) as [inf Einf].
  set (s1 := with_smpp s _).
  destruct (fail_msg_spec s1 (msg sm) SMSCCONN_FAILED_TEMPORARILY None)
    as (s2 & E & (E1 & E2 & E3 & _) & En & Ew); [by eexists|done|].
  exists d, s2. split; [done|]. split; [done|]. split.
  - apply (settles_intro s _ d); try done; simpl; rewrite ?E1, ?E2, ?E3; try done; eauto.
  - unfold fail_msg in E. rewrite (smscconn_send_failed_eq _ _ _ _ _ inf) in E by done.
    cbn [Z.eqb orb mbind outcome_bind] in E. injection E as <-.
    destruct (outgoing_requeue (conn s1) (world s1) (msg sm)) as [O1 O2].
    split; [exact O1|]. split; [exact O2|]. split; [apply requeue_failed_now|done].
Qed.

(** The expired messages of the table under these keys. *)
Definition expired_of s (keys : list octstr) : list Msg :=
  omap (fun key => match sent_map s !! octets key with
                   | Some sm => if expired s sm then Some (msg sm) else None
                   | None => None
                   end) keys.

Lemma expired_of_ext s s' keys :
  (forall key sm, key ∈ keys -> sent_map s !! octets key = sent_map s' !! octets key /\
     expired s sm = expired s' sm) -> expired_of s keys = expired_of s' keys.
Proof.
  induction keys as [|key keys IH]; intros H; [done|].
  assert (Ek : expired_of s keys = expired_of s' keys)
    by (apply IH; intros k sm Hk; apply H; by apply elem_of_cons; right).
  unfold expired_of in *. csimpl. rewrite Ek.
  assert (E1 : sent_map s !! octets key = sent_map s' !! octets key).
  { destruct (sent_map s !! octets key) as [sm|] eqn:E.
    - rewrite <-E. apply (H key sm). apply elem_of_cons; by left.
    - destruct (sent_map s' !! octets key) as [sm|] eqn:E'; [|done].
      destruct (H key sm) as [E1 _]; [apply elem_of_cons; by left|]. congruence. }
  rewrite E1. destruct (sent_map s' !! octets key) as [sm|]; [|done].
  destruct (H key sm) as [_ ->]; [apply elem_of_cons; by left|done].
Qed.

(** The table after the expired messages among [keys] were taken out. *)
Definition without_expired s (keys : list octstr) (s' : Sess) : Prop :=
  forall k, sent_map s' !! k =
    (sent_map s !! k) ≫= (fun sm =>
      if bool_decide (k ∈ (octets <$> keys)) && expired s sm then None else Some sm).

Lemma cleanup_requeue_spec keys : forall s,
  sess_ok s -> NoDup (octets <$> keys) ->
  exists s', cleanup_loop s keys SMPP_WAITACK_REQUEUE = Done (0, s') /\
    keeps s s' /\ requeues s s' (expired_of s keys) /\ without_expired s keys s'.
Proof.
  induction keys as [|key keys IH]; intros s Hok Hnd.
  { exists s. split; [done|]. split; [by apply keeps_small|]. split; [split; [by rewrite app_nil_r|done]|].
    intros k. simpl. by destruct (sent_map s !! k). }
  rewrite fmap_cons in Hnd. apply NoDup_cons in Hnd as [Hnin Hnd].
  assert (Hskip : (forall sm, sent_map s !! octets key = Some sm -> expired s sm = false) ->
    exists s', cleanup_loop s keys SMPP_WAITACK_REQUEUE = Done (0, s') /\
      keeps s s' /\ requeues s s' (expired_of s (key :: keys)) /\ without_expired s (key :: keys) s').
  { intros Hne. destruct (IH s Hok Hnd) as (s' & E & Hkp & Hreq & Hwo).
    assert (Eo : expired_of s (key :: keys) = expired_of s keys).
    { unfold expired_of. simpl. destruct (sent_map s !! octets key) as [sm|]; [|done]. by rewrite (Hne sm eq_refl). }
    rewrite Eo. exists s'. split_and!; try done; try apply Hkp; try apply Hreq. intros k. rewrite (Hwo k).
    destruct (sent_map s !! k) as [sm|] eqn:Ek; [simpl|done].
    destruct (expired s sm) eqn:Ex; [|by rewrite !andb_false_r]. rewrite !andb_true_r.
    assert (k <> octets key) by (intros ->; by rewrite (Hne sm Ek) in Ex).
    erewrite bool_decide_ext; [done|]. csimpl. rewrite elem_of_cons. naive_solver. }
  cbn [cleanup_loop]. rewrite store_get_ok by apply (so_store _ Hok). cbn [mbind outcome_bind].
  change (store_map (sent_msgs (smpp s))) with (sent_map s).
  destruct (sent_map s !! octets key) as [sm|] eqn:Ek; [|by apply Hskip].
  fold (expired s sm). destruct (expired s sm) eqn:Ex; [|apply Hskip; naive_solver].
  destruct (requeue_one s key sm Hok Ek) as (d & s1 & -> & E1 & Hs & Hreq1).
  cbn [mbind outcome_bind Z.eqb SMPP_WAITACK_REQUEUE SMPP_WAITACK_RECONNECT]. rewrite E1. cbn [mbind outcome_bind].
  set (s2 := with_pending s1 _) in *. pose proof (keeps_settles _ _ _ _ Ek Hs) as Hk1.
  destruct Hs as (Hok2 & Em & Eq & Ec & _ & _).
  destruct (IH s2 Hok2 Hnd) as (s' & E & Hkp & Hreq & Hwo).
  assert (Exp : forall x, expired s2 x = expired s x).
  { intros x. unfold expired, cfg. rewrite Ec. change (now (world s2)) with (now (world s1)).
    by rewrite (proj1 (proj2 (proj2 Hreq1))). }
  exists s'. split; [done|]. split; [|split].
  - destruct Hk1 as (? & P1 & S1 & ? & ?), Hkp as (? & P2 & S2 & ? & ?).
    split_and!; [done|by rewrite P2|by etrans|congruence|congruence].
  - assert (Eo : expired_of s (key :: keys) = [msg sm] ++ expired_of s2 keys).
    { rewrite (expired_of_ext s2 s); [unfold expired_of; simpl; by rewrite Ek, Ex|].
      intros k x Hk. split; [|apply Exp]. rewrite Em. apply lookup_delete_ne.
      intros Ekk. apply Hnin. rewrite Ekk. by apply list_elem_of_fmap_2. }
    rewrite Eo. by apply (requeues_trans s s2); [|exact Hreq].
  - intros k. rewrite (Hwo k), Em.
    destruct (decide (k = octets key)) as [->|Hne].
    + rewrite lookup_delete_eq, Ek. simpl. rewrite Ex, bool_decide_eq_true_2; [done|].
      csimpl. apply elem_of_cons. by left.
    + rewrite lookup_delete_ne by done. destruct (sent_map s !! k) as [sm'|]; [simpl|done].
      rewrite Exp. erewrite bool_decide_ext; [done|]. csimpl. rewrite elem_of_cons. naive_solver.
Qed.

Lemma cleanup_reconnect_spec keys s :
  sess_ok s ->
  exists r, cleanup_loop s keys SMPP_WAITACK_RECONNECT = Done (r, s) /\
    (r = 1 \/ r = 0) /\
    (r = 1 <-> exists key sm, key ∈ keys /\ sent_map s !! octets key = Some sm /\
                 expired s sm = true).
Proof.
  intros Hok. induction keys as [|key keys IH]; simpl.
  { exists 0. split_and!; [done|auto|]. split; [done|]. intros (? & ? & []%elem_of_nil & _). }
  destruct IH as (r & E & Hr & Hiff).
  rewrite store_get_ok by apply (so_store _ Hok). simpl.
  change (store_map (sent_msgs (smpp s))) with (sent_map s).
  assert (Hskip : (forall sm, sent_map s !! octets key = Some sm -> expired s sm = false) ->
    (r = 1 <-> exists key' sm, key' ∈ key :: keys /\ sent_map s !! octets key' = Some sm /\
       expired s sm = true)).
  { intros Hne. rewrite Hiff. split; intros (k & sm & Hin & Hk & Hx).
    - exists k, sm. split; [by apply elem_of_cons; right|done].
    - apply elem_of_cons in Hin as [->|Hin]; [by rewrite (Hne _ Hk) in Hx|by exists k, sm]. }
  destruct (sent_map s !! octets key) as [sm|] eqn:Ek.
  2:{ exists r. split_and!; [done|done|]. by apply Hskip. }
  fold (expired s sm). destruct (expired s sm) eqn:Ex.
  - exists 1. split_and!; [done|auto|]. split; [|done]. intros _. exists key, sm.
    split; [apply elem_of_cons; by left|done].
  - exists r. split_and!; [done|done|]. apply Hskip. naive_solver.
Qed.

Lemma store_keys_spec s :
  sess_ok s ->
  NoDup (octets <$> items (store_keys (sent_msgs (smpp s)))) /\
  forall k sm, sent_map s !! k = Some sm ->
    k ∈ octets <$> items (store_keys (sent_msgs (smpp s))).
Proof.
  intros Hok. destruct (store_keys_ok _ (so_store _ Hok)) as [Hnd Hdom]. split; [done|].
  intros k sm Hk. apply elem_of_dom_2 in Hk. unfold sent_map in Hk. rewrite <-Hdom in Hk.
  by apply elem_of_list_to_set in Hk.
Qed.

Lemma cleanup_unknown keys s action :
  sess_ok s -> action <> SMPP_WAITACK_RECONNECT -> action <> SMPP_WAITACK_REQUEUE ->
  cleanup_loop s keys action = Done (0, s).
Proof.
  intros Hok H1 H2. induction keys as [|key keys IH]; simpl; [done|].
  rewrite store_get_ok by apply (so_store _ Hok). simpl.
  destruct (store_map _ !! _) as [sm|]; [|done].
  rewrite (proj2 (Z.eqb_neq _ _) H1), (proj2 (Z.eqb_neq _ _) H2).
  by destruct (_ <? _).
Qed.

(** C21 Clean-up of unanswered messages.  With the action "requeue" exactly
    the messages unanswered for more than [wait_ack] seconds leave the table
    and go to the end of the shared queue, in the order of the keys, each with
    the time of its first failure and the id of the connection; no message is
    destroyed, and all others stay where they are.  With "reconnect" nothing
    changes and the connection is given up exactly when there is such a
    message; with "never expire", and with the value 3 that the configuration
    also accepts, nothing changes. *)
Theorem queue_cleanup_spec s (Hok : sess_ok s) (Hp : 0 < pending_submits s) :
  (exists s', do_queue_cleanup s SMPP_WAITACK_REQUEUE = Done (0, s') /\ sess_ok s' /\
     sess_msgs s' ≡ₚ sess_msgs s /\
     requeues s s' (expired_of s (items (store_keys (sent_msgs (smpp s))))) /\
     msgs_to_send (smpp s') = msgs_to_send (smpp s) /\
     forall k, sent_map s' !! k
               = (sent_map s !! k) ≫= (fun sm => if expired s sm then None else Some sm)) /\
  (exists r, do_queue_cleanup s SMPP_WAITACK_RECONNECT = Done (r, s) /\ (r = 1 \/ r = 0) /\
     (r = 1 <-> exists k sm, sent_map s !! k = Some sm /\ expired s sm = true)) /\
  do_queue_cleanup s SMPP_WAITACK_NEVER_EXPIRE = Done (0, s) /\
  do_queue_cleanup s 3 = Done (0, s).
Proof.
  destruct (store_keys_spec s Hok) as [Hnd Hin].
  unfold do_queue_cleanup. rewrite (proj2 (Z.leb_gt _ _)) by lia. simpl. split_and!.
  - destruct (cleanup_requeue_spec (items (store_keys (sent_msgs (smpp s)))) s Hok Hnd)
      as (s' & -> & Hk & Hreq & Hwo). exists s'. split; [done|].
    destruct Hk as (? & ? & _ & ? & _). split; [done|]. split; [done|]. split; [exact Hreq|]. split; [done|].
    intros k. rewrite (Hwo k). destruct (sent_map s !! k) as [sm|] eqn:Ek; [simpl|done].
    by rewrite (bool_decide_eq_true_2 _ (Hin _ _ Ek)).
  - destruct (cleanup_reconnect_spec (items (store_keys (sent_msgs (smpp s)))) s Hok)
      as (r & -> & ? & Hiff). exists r. split_and!; [done|done|]. rewrite Hiff. split.
    + intros (key & sm & _ & ? & ?). eauto.
    + intros (k & sm & Hk & ?). pose proof (Hin _ _ Hk) as (key & -> & ?)%list_elem_of_fmap. eauto.
  - done.
  - by apply cleanup_unknown.
Qed.

(** ** The end of a connection *)

(** A message that goes back to the shared queue. *)
Lemma fail_requeues s m reason :
  reason = SMSCCONN_FAILED_TEMPORARILY \/ reason = SMSCCONN_FAILED_SHUTDOWN ->
  (exists i, sm_info m = Some i) ->
  exists s', fail_msg s m reason None = Done s' /\ smpp s' = smpp s /\ conn s' = conn s /\
    world_msgs (world s') ≡ₚ msg_ident m :: world_msgs (world s) /\
    destroyed_msgs (trace (world s')) = destroyed_msgs (trace (world s)) /\ wire s' = wire s.
Proof.
  intros Hr [i Hi]. unfold fail_msg. rewrite (smscconn_send_failed_eq _ _ _ _ _ i) by done.
  replace (_ || _) with true by (destruct Hr; by subst). simpl. eexists. split; [done|].
  split_and!; [done|done|apply requeue_failed_msgs|apply outgoing_requeue|done].
Qed.

(** What draining keeps: the messages, the connection, the counter, and it
    destroys nothing. *)
Definition drained s s' : Prop :=
  sess_msgs s' ≡ₚ sess_msgs s /\ conn s' = conn s /\
  destroyed_msgs (trace (world s')) = destroyed_msgs (trace (world s)) /\
  wire s' = wire s /\ message_id_counter (smpp s') = message_id_counter (smpp s) /\
  (store_ok (sent_msgs (smpp s)) -> store_ok (sent_msgs (smpp s'))).

Lemma drained_trans s1 s2 s3 : drained s1 s2 -> drained s2 s3 -> drained s1 s3.
Proof. 
  intros (E1 & E2 & E3 & E4 & E5 & E6) (F1 & F2 & F3 & F4 & F5 & F6).
  split_and!; [by rewrite F1|congruence..|auto].
Qed.

Definition has_pdu (m : Msg) : Prop := exists i p, sm_info m = Some i /\ pdu i = Some p.

Section Drain.
Context (reason : Z)
  (Hr : reason = SMSCCONN_FAILED_TEMPORARILY \/ reason = SMSCCONN_FAILED_SHUTDOWN).

Lemma drain_queue_spec fuel : forall s wake,
  (length (items (msgs_to_send (smpp s))) < fuel)%nat ->
  Forall has_pdu (items (msgs_to_send (smpp s))) ->
  exists wake' s', drain_queue fuel s reason wake = Done (wake', s') /\
    items (msgs_to_send (smpp s')) = [] /\ sent_msgs (smpp s') = sent_msgs (smpp s) /\
    drained s s'.
Proof.
  induction fuel as [|fuel IH]; intros s wake Hf Hq; [lia|]. simpl.
  pose proof (gwlist_extract_first_fst _ (msgs_to_send (smpp s))) as Hhd.
  pose proof (gwlist_extract_first_snd _ (msgs_to_send (smpp s))) as Htl.
  destruct (gwlist_extract_first (msgs_to_send (smpp s))) as [mo q]. cbn [fst snd] in *.
  set (s1 := with_smpp s _).
  destruct (items (msgs_to_send (smpp s))) as [|m l] eqn:El; simpl in Hhd, Htl; subst mo.
  { exists wake, s1. split; [done|]. split; [done|]. split; [done|]. split_and!; try done.
    unfold sess_msgs. simpl. by rewrite El, Htl. }
  apply Forall_cons in Hq as [(i & p & Ei & Ep) Hq]. rewrite Ei. simpl. rewrite Ep.
  destruct (fail_requeues s1 m reason Hr) as (s2 & -> & E1 & E2 & Ew & Et & El2); [by eexists|]. simpl.
  destruct (IH s2 true) as (w & s' & -> & F1 & F2 & F3);
    [rewrite E1; simpl; rewrite Htl; simpl in Hf; lia|by rewrite E1; simpl; rewrite Htl|].
  exists w, s'. split; [done|]. split; [done|]. split; [by rewrite F2, E1|].
  apply (drained_trans _ s2); [|done].
  split; [|split_and!; [by rewrite E2|done|done|by rewrite E1|by rewrite E1]].
  unfold sess_msgs, sent_map. rewrite E1, Ew, El. simpl. rewrite Htl.
  by rewrite <-!Permutation_middle.
Qed.

Lemma drain_sent_spec keys : forall s wake,
  store_ok (sent_msgs (smpp s)) ->
  map_Forall (fun _ sm => answerable (msg sm)) (sent_map s) ->
  exists wake' s', drain_sent keys s reason wake = Done (wake', s') /\
    msgs_to_send (smpp s') = msgs_to_send (smpp s) /\ drained s s' /\
    (forall k, k ∈ octets <$> keys -> sent_map s' !! k = None) /\ sent_map s' ⊆ sent_map s.
Proof.
  induction keys as [|key keys IH]; intros s wake Hst Ha; simpl.
  { exists wake, s. split_and!; try done. by intros k ?%elem_of_nil. }
  destruct (take_sent_spec s key Hst) as (d & -> & Hd & Ed). simpl. set (s1 := with_smpp s _).
  assert (Hsub : sent_map s1 ⊆ sent_map s).
  { unfold sent_map at 1. simpl. rewrite Ed. apply delete_subseteq. }
  assert (Hkey : forall s', sent_map s' ⊆ sent_map s1 ->
    (forall k, k ∈ octets <$> keys -> sent_map s' !! k = None) ->
    forall k, k ∈ octets <$> key :: keys -> sent_map s' !! k = None).
  { intros s' Hs' Hks k. csimpl. intros [->|Hin]%elem_of_cons; [|by apply Hks].
    apply (lookup_weaken_None _ (sent_map s1)); [|done]. unfold sent_map. simpl. rewrite Ed.
    apply lookup_delete_eq. }
  destruct (sent_map s !! octets key) as [sm|] eqn:Ek.
  - destruct (fail_requeues s1 (msg sm) reason Hr) as (s2 & -> & E1 & E2 & Ew & Et & El2);
      [by apply answerable_info, (Ha _ _ Ek)|]. simpl.
    assert (Em : sent_map s2 = sent_map s1) by (unfold sent_map; by rewrite E1).
    destruct (IH s2 true) as (w & s' & -> & F1 & F2 & F3 & F4).
    + by rewrite E1.
    + rewrite Em. intros k x Hx. apply (Ha k x). by eapply lookup_weaken.
    + rewrite Em in F4. exists w, s'. split; [done|]. split; [by rewrite F1, E1|].
      split; [|split; [by apply Hkey|by etrans]].
      apply (drained_trans _ s2); [|done].
      split; [|split_and!; [by rewrite E2|done|done|by rewrite E1|by rewrite E1]].
      unfold sess_msgs. rewrite Em, Ew, E1, (map_idents_delete (sent_map s) (octets key) sm) by done.
      unfold sent_map at 1. simpl. rewrite Ed. f_equiv. simpl. by rewrite Permutation_middle.
  - assert (Em : sent_map s1 = sent_map s).
    { unfold sent_map at 1. simpl. by rewrite Ed, delete_id. }
    destruct (IH s1 wake) as (w & s' & -> & F1 & F2 & F3 & F4); [done|by rewrite Em|].
    exists w, s'. split; [done|]. split; [done|]. split; [|split; [by apply Hkey|by etrans]].
    apply (drained_trans _ s1); [|done]. split_and!; try done.
    unfold sess_msgs. by rewrite Em.
Qed.

End Drain.

(** The connection as [io_thread] leaves it. *)
Definition left_conn s (connected : bool) : SMSCConn SMPP :=
  set_status (if connected then reset_smpp_counters (conn s) else conn s) SMSCCONN_RECONNECTING.

Lemma wake_router_drained s wake : drained s (wake_router s wake).
Proof.
  assert (E : world_msgs (world (wake_router s wake)) = world_msgs (world s)).
  { destruct wake; [|done]. by apply world_msgs_emit_quiet. }
  split; [|split_and!; try (by destruct wake)].
  - unfold sess_msgs, sent_map. rewrite E. by destruct wake.
  - destruct wake; [|done]. exact (eq_trans (destroyed_msgs_app (trace (world s)) [EvWakeup router_thread]) (app_nil_r _)).
Qed.

Lemma leave_connection_drains s connected :
  sess_ok s -> Forall has_pdu (items (msgs_to_send (smpp s))) ->
  exists s', leave_connection s connected true = Done s' /\
    items (msgs_to_send (smpp s')) = [] /\ sent_map s' = ∅ /\ conn s' = left_conn s connected /\
    drained (with_conn s (left_conn s connected)) s'.
Proof.
  intros Hok Hq. unfold leave_connection.
  replace (with_conn (if connected then with_conn s (reset_smpp_counters (conn s)) else s)
    (set_status (conn (if connected then with_conn s (reset_smpp_counters (conn s)) else s))
       SMSCCONN_RECONNECTING)) with (with_conn s (left_conn s connected)) by by destruct connected.
  cbn [smpp conn with_conn]. set (s0 := with_conn _ _).
  set (reason := if quitting (smpp s) then _ else _).
  assert (Hr : reason = SMSCCONN_FAILED_TEMPORARILY \/ reason = SMSCCONN_FAILED_SHUTDOWN)
    by (unfold reason; case_match; auto).
  destruct (drain_queue_spec reason Hr (Z.to_nat (gwlist_len (msgs_to_send (smpp s))) + 1) s0 false)
    as (w1 & s1 & -> & E1 & E2 & E3); [rewrite gwlist_len_spec; simpl; lia|done|]. cbn [mbind outcome_bind].
  assert (Em1 : sent_map s1 = sent_map s) by (unfold sent_map; by rewrite E2).
  destruct (drain_sent_spec reason Hr (items (store_keys (sent_msgs (smpp s1)))) s1 w1)
    as (w2 & s2 & -> & F1 & F2 & F3 & F4).
  { rewrite E2. apply (so_store _ Hok). }
  { rewrite Em1. apply (so_answerable _ Hok). }
  cbn [mbind outcome_bind]. rewrite E2 in F3. rewrite Em1 in F4.
  assert (Hempty : sent_map s2 = ∅).
  { apply map_empty. intros k. destruct (sent_map s2 !! k) as [sm|] eqn:Ek; [|done].
    rewrite <-Ek. apply F3. eapply (proj2 (store_keys_spec s Hok)). by eapply lookup_weaken. }
  pose proof (drained_trans _ _ _ (drained_trans _ _ _ E3 F2) (wake_router_drained s2 w2)) as D.
  exists (wake_router s2 w2). split; [done|].
  assert (Hw : smpp (wake_router s2 w2) = smpp s2) by by destruct w2.
  split; [by rewrite Hw, F1|]. split; [by unfold sent_map; rewrite Hw|]. split; [apply D|done].
Qed.

(** C11 Losing the connection loses no message: when the thread of a
    transmitter leaves the loop of a connection, everything that was queued
    or unanswered - each message having a PDU - is back in the shared queue,
    exactly once and nothing is destroyed, the queue and the table are empty,
    the counters of the connection start again and it is marked as
    reconnecting; this holds for a shutdown as well. *)
Theorem leave_connection_requeues s (Hok : sess_ok s)
    (Hq : Forall has_pdu (items (msgs_to_send (smpp s)))) :
  exists s', leave_connection s true true = Done s' /\
    items (msgs_to_send (smpp s')) = [] /\ sent_map s' = ∅ /\
    status (conn s') = SMSCCONN_RECONNECTING /\ counter_value (sent (conn s')) = 0 /\
    sess_msgs s' ≡ₚ sess_msgs s /\
    destroyed_msgs (trace (world s')) = destroyed_msgs (trace (world s)) /\
    msg_ident <$> items (outgoing_msg (world s')) ≡ₚ
      (msg_ident <$> items (outgoing_msg (world s))) ++
      (msg_ident <$> items (msgs_to_send (smpp s))) ++ map_idents (sent_map s).
Proof.
  destruct (leave_connection_drains s true Hok Hq) as (s' & -> & E1 & E2 & E3 & D1 & _ & D3 & _).
  exists s'. rewrite E3. split_and!; try done.
  apply (Permutation_app_inv_r (destroyed_msgs (trace (world s)))).
  unfold sess_msgs, world_msgs in D1. rewrite E2, E1, D3 in D1. simpl in D1.
  rewrite D1. change (sent_map (with_conn s _)) with (sent_map s). solve_Permutation.
Qed.

(** ** What is written into an outgoing message *)

Lemma mask_source_spec cf prefix source old :
  masking_prefix cf = Some prefix ->
  (octstr_isnum source =? 0) || (octstr_len source <? 10) = true ->
  exists a, mask_source cf source old = Some a /\
    octets a = octets prefix ++ take 8 (octets source).
Proof.
  intros Hp Hc. unfold mask_source. rewrite Hp, Hc. eexists. split; [done|].
  rewrite octstr_len_spec. destruct (Z.ltb_spec 8 (Z.of_nat (length (octets source)))).
  - rewrite octstr_append_data_spec by (apply Forall_take, octets_range).
    by rewrite octstr_duplicate_spec.
  - rewrite octstr_append_spec, octstr_duplicate_spec, take_ge by lia. done.
Qed.

(** What the session changes in a message on its way out: with a masking
    prefix of three octets (the configuration accepts no other) the source
    address of a message whose account's source is not a number of ten or
    more characters becomes the prefix and at most eight characters of it -
    never more than eleven - and any other source address stays; forced type
    and plan numbers replace those of the message; the destination, priority,
    delivery report, data coding and everything else stay; and in the text
    only the alphabet is converted. *)
Lemma prepare_submit_changes s m b b' prefix r
    (H : prepare_submit s m b = Done b') (Hr : routing_info m = Some r)
    (Hm : masking_prefix (cfg s) = Some prefix) (H3 : length (octets prefix) = 3%nat) :
  (let source := octstr_create (r_source_addr r) in
   if (octstr_isnum source =? 1) && (10 <=? octstr_len source)
   then source_addr b' = source_addr b
   else exists a, source_addr b' = Some a /\
     octets a = octets prefix ++ take 8 (octets source) /\ (length (octets a) <= 11)%nat) /\
  source_addr_ton b' = (if smpp_source_addr_ton (cfg s) =? -1 then source_addr_ton b
                        else smpp_source_addr_ton (cfg s)) /\
  dest_addr_ton b' = (if smpp_dest_addr_ton (cfg s) =? -1 then dest_addr_ton b
                      else smpp_dest_addr_ton (cfg s)) /\
  (esm_class b' = esm_class b \/
   esm_class b' = ESM_CLASS_DELIVER_UDH_INDICATOR /\ compare_change_string (world s) (id (conn s)) = 0) /\
  destination_addr b' = destination_addr b /\ priority_flag b' = priority_flag b /\
  registered_delivery b' = registered_delivery b /\ data_coding b' = data_coding b /\
  submit_rest b' = submit_rest b /\
  (alt_charset (cfg s) = None -> short_message b' = short_message b).
Proof.
  unfold prepare_submit in H. apply bind_Done in H as (text & Etext & H).
  rewrite Hr in H. simpl in H. simplify_eq. cbn. split_and!; try done.
  - set (source := octstr_create _).
    replace ((octstr_isnum source =? 1) && (10 <=? octstr_len source)) with
      (negb ((octstr_isnum source =? 0) || (octstr_len source <? 10))).
    2:{ destruct (octstr_isnum_range source) as [-> | ->]; simpl; [done|].
        by rewrite Z.ltb_antisym, negb_involutive. }
    destruct ((octstr_isnum source =? 0) || (octstr_len source <? 10)) eqn:E; simpl.
    + destruct (mask_source_spec (cfg s) prefix source (source_addr b) Hm E) as (a & Ea & Eo).
      exists a. split_and!; [done|done|]. rewrite Eo, length_app, H3, length_take. lia.
    + unfold mask_source. by rewrite Hm, E.
  - destruct (Z.eqb_spec (compare_change_string (world s) (id (conn s))) 0); [|rewrite andb_false_r; auto].
    case_match; auto.
  - intros Hc. unfold convert_text in Etext. rewrite Hc in Etext. by simplify_eq.
Qed.

(** ** Identifiers *)

(** The digits of a number in base 10 or 16. *)
Definition digit_in (base c : Z) : bool :=
  match digit_value c with Some d => d <? base | None => false end.

Definition digits_value (base : Z) (l : list Z) : Z :=
  foldl (fun acc c => acc * base + default 0 (digit_value c)) 0 l.

Lemma parse_digits_value base l acc :
  Forall (fun c => digit_in base c = true) l ->
  parse_digits base acc l = foldl (fun acc c => acc * base + default 0 (digit_value c)) acc l.
Proof.
  intros Hl. revert acc. induction Hl as [|c l Hc Hl IH]; intros acc; simpl; [done|].
  unfold digit_in in Hc. destruct (digit_value c); simpl in *; [|done]. by rewrite Hc.
Qed.

Lemma digit_chars base c :
  base <= 16 -> digit_in base c = true -> 48 <= c <= 57 \/ 65 <= c <= 70 \/ 97 <= c <= 102.
Proof.
  unfold digit_in, digit_value, is_digit. intros Hb H.
  repeat case_match; simplify_eq; zlia.
Qed.

Lemma digits_value_nonneg base l :
  0 <= base -> Forall (fun c => digit_in base c = true) l -> 0 <= digits_value base l.
Proof.
  intros Hb Hl. unfold digits_value. cut (forall acc, 0 <= acc ->
    0 <= foldl (fun acc c => acc * base + default 0 (digit_value c)) acc l); [intros H; by apply H|].
  induction Hl as [|c l Hc Hl IH]; simpl; [done|]. intros acc Ha. apply IH.
  unfold digit_in, digit_value, is_digit in *. repeat case_match; simplify_eq/=; zbool; nia.
Qed.

Lemma strtoll_unsigned base l :
  match skip_spaces l with c :: _ => c <> 45 /\ c <> 43 | [] => True end ->
  strtoll l base = clamp_ll (parse_digits base 0 (skip_0x base (skip_spaces l))).
Proof.
  unfold strtoll. destruct (skip_spaces l) as [|c l']; [done|]. intros [H1 H2].
  destruct c as [|c|c]; try done. do 6 (destruct c as [c|c|]; try done).
Qed.

(** [strtoll] on a text of digits. *)
Lemma strtoll_digits base l :
  0 <= base <= 16 -> Forall (fun c => digit_in base c = true) l ->
  digits_value base l < 2 ^ 63 -> strtoll l base = digits_value base l.
Proof.
  intros Hb Hl Hv. pose proof (digits_value_nonneg base l ltac:(lia) Hl) as Hn.
  assert (Hclamp : clamp_ll (parse_digits base 0 l) = digits_value base l).
  { unfold clamp_ll. rewrite parse_digits_value by done. fold (digits_value base l). lia. }
  destruct l as [|c l]; [exact Hclamp|].
  pose proof Hl as [Hc Hl']%Forall_cons. pose proof (digit_chars base c ltac:(lia) Hc) as Hr.
  assert (Hskip : skip_spaces (c :: l) = c :: l).
  { simpl. replace (_ || _) with false; [done|]. symmetry. apply orb_false_iff.
    split; [apply Z.eqb_neq|apply andb_false_iff; right; apply Z.leb_gt]; lia. }
  assert (H0x : skip_0x base (c :: l) = c :: l).
  { unfold skip_0x. destruct c as [|c|]; try done. destruct (decide (Z.pos c = 48)) as [[= ->]|Hne].
    - destruct l as [|x [|y l]]; [done..|]. apply Forall_cons in Hl' as [Hx _].
      pose proof (digit_chars base x ltac:(lia) Hx).
      destruct (digit_value y); [|done].
      rewrite (proj2 (Z.eqb_neq x 120)), (proj2 (Z.eqb_neq x 88)) by lia. done.
    - do 6 (destruct c as [c|c|]; try done). }
  rewrite strtoll_unsigned by (rewrite Hskip; simpl; lia). rewrite Hskip, H0x. exact Hclamp.
Qed.

Lemma format_lu_inj a b :
  0 <= a < 2 ^ 63 -> 0 <= b < 2 ^ 63 -> format_lu a = format_lu b -> a = b.
Proof.
  unfold format_lu. intros Ha Hb H%cstr_inj. apply (inj pretty) in H.
  rewrite !wrap_ulong_id in H by (unfold ulong_max; lia). lia.
Qed.

(** The base in which a direction writes its identifiers. *)
Definition id_base (id_type mask : Z) : Z := if Z.land id_type mask =? 0 then 10 else 16.

Lemma is_digit_in c : is_digit c = digit_in 10 c.
Proof.
  unfold digit_in, digit_value. destruct (is_digit c) eqn:E; unfold is_digit in E.
  - symmetry. apply Z.ltb_lt. zlia.
  - repeat case_match; simplify_eq; try done; symmetry; apply Z.ltb_ge; zlia.
Qed.

Lemma convert_msgid_value id_type mask o :
  id_type <> -1 -> Forall (fun c => digit_in (id_base id_type mask) c = true) (octets o) ->
  digits_value (id_base id_type mask) (octets o) < 2 ^ 63 ->
  octets (convert_msgid id_type mask o)
  = format_lu (digits_value (id_base id_type mask) (octets o)).
Proof.
  intros Ht Hl Hv. unfold convert_msgid. rewrite (proj2 (Z.eqb_neq _ _)) by done.
  unfold id_base in *. destruct (Z.eqb_spec (Z.land id_type mask) 0) as [E|E]; simpl.
  - rewrite (proj2 (forallb_forall _ _)); simpl.
    + rewrite strtoll_digits by (done || lia). apply octets_create, cstr_range.
    + intros c Hc%list_elem_of_In. rewrite is_digit_in. rewrite Forall_forall in Hl. auto.
  - rewrite strtoll_digits by (done || lia). apply octets_create, cstr_range.
Qed.

(** Receipts find their message: whatever the configured id type (0 to
    3), when the SMSC writes its identifiers as numbers in the base that the
    type says for the direction - bit 0 for [submit_sm_resp], bit 1 for
    [deliver_sm], hexadecimal when set - the identifier stored for the message and the
    one reported for the receipt are the same text exactly when the numbers
    are equal. *)
Lemma msgid_correlation (id_type : Z) (resp receipt : octstr)
    (Ht : 0 <= id_type <= 3)
    (Hresp : Forall (fun c => digit_in (id_base id_type 0x01) c = true) (octets resp))
    (Hrec : Forall (fun c => digit_in (id_base id_type 0x02) c = true) (octets receipt))
    (Hv : digits_value (id_base id_type 0x01) (octets resp) < 2 ^ 63)
    (Hv' : digits_value (id_base id_type 0x02) (octets receipt) < 2 ^ 63) :
  convert_msgid id_type 0x01 resp ≡ convert_msgid id_type 0x02 receipt <->
  digits_value (id_base id_type 0x01) (octets resp)
  = digits_value (id_base id_type 0x02) (octets receipt).
Proof.
  unfold equiv, octstr_equiv. rewrite !convert_msgid_value by (done || lia).
  assert (Hb : forall mask, 0 <= id_base id_type mask) by (intros; unfold id_base; case_match; lia).
  split; [|by intros ->]. apply format_lu_inj; split; try done; by apply digits_value_nonneg.
Qed.

(** Every [deliver_sm] is reported once to the database, with the state
    that its text names and with the last ten digits of the address when it
    is a number of ten or more, and is answered with its own sequence number: with
    success, or with a temporary error while the connection is stopped. *)
Lemma deliver_sm_reported s h b (a : octstr)
    (Ha : (if deliver_sm_source (cfg s) =? 1 then d_source_addr b
           else if deliver_sm_source (cfg s) =? 0 then d_destination_addr b else None) = Some a)
    (Hnum : Forall (fun c => 48 <= c <= 57) (octets a)) (Hlen : (10 <= length (octets a))%nat) :
  exists dest msgid pdu,
    trace (world (handle_deliver_sm s h b)) = trace (world s) ++
      [EvDbbox (insert_status (octstr_dup (id (conn s))) (Some msgid) (Some dest) pdu
         (receipt_state (times_octstr_get_many_chars
            (if (d_sm_length b =? 0) && is_set (message_payload b)
             then message_payload b else d_short_message b) 6)))] /\
    octets dest = drop (length (octets a) - 10) (octets a) /\
    wire (handle_deliver_sm s h b)
    = (send_pdu (wire s) (deliver_sm_resp (MkHeader
        (if is_stopped (conn s) =? 0 then SMPP_ESME_ROK else SMPP_ESME_RX_T_APPN)
        (sequence_number h)))).2.
Proof.
  unfold handle_deliver_sm, get_smscid. do 3 eexists. split; [|split].
  - cbn [trace world emit with_world send_resp with_wire]. do 4 f_equal.
    unfold receipt_dest. cbn [d_source_addr d_destination_addr].
    assert (E : (if deliver_sm_source (cfg s) =? 1 then octstr_dup (d_source_addr b)
      else if deliver_sm_source (cfg s) =? 0 then octstr_dup (d_destination_addr b) else None)
      = Some (octstr_duplicate a)) by (repeat case_match; subst; by rewrite ?Ha).
    rewrite E, octstr_len_spec, octstr_duplicate_spec.
    rewrite octstr_isnum_digits by (by rewrite octstr_duplicate_spec).
    rewrite (proj2 (Z.ltb_lt _ _)) by lia. simpl. reflexivity.
  - replace (Z.of_nat (length (octets a)) - 10) with (Z.of_nat (length (octets a) - 10)) by lia.
    by rewrite octstr_from_position_spec, octstr_duplicate_spec.
  - cbn. by case_match.
Qed.

(** ** The session as a connection type *)

Lemma smpp_driver_laws join : DriverLaws (smpp_driver join).
Proof.
  split; cbn [smpp_driver drv_send_msg drv_queued drv_held].
  - intros c w m r c' w' H. unfold send_msg_cb in H.
    apply bind_Done in H as (p & Ep%must_Done & H). apply bind_Done in H as (m' & Em & H).
    simplify_eq. cbn. rewrite Ep. split_and!; try done.
    + unfold same_conn. cbn. by rewrite Ep.
    + by apply (world_msgs_emit_quiet w (EvWakeup transmitter_thread)).
    + exact (eq_trans (reported_msgs_app (trace w) [EvWakeup transmitter_thread]) (app_nil_r _)).
    + exists m'. split; [done|]. apply items_produce.
  - intros c w m m' d Ed Em. unfold send_msg_cb. rewrite Ed, Em. cbn. eauto.
  - intros c. unfold queued_cb. destruct (data c) as [p|] eqn:Ed; [|split; [apply same_conn_refl|cbn; by rewrite Ed]].
    case_bool_decide; cbn; rewrite ?Ed; (split; [|done]); [apply same_conn_refl|].
    unfold same_conn. cbn. by rewrite Ed.
  - intros c. unfold queued_cb. destruct (data c) as [p|] eqn:Ed; cbn; rewrite ?Ed; cbn; [|done].
    destruct (bool_decide_reflect (status c = SMSCCONN_DEAD)); cbn; rewrite Ed; cbn;
      by case_bool_decide.
Qed.
End Facts.
