(* ===== verification/SessionExamples.v ===== *)
(** * The session on [conn.c] and [dict.c], and examples

    The interface [Link] of the session is implemented by the buffered
    connections of [Conn], and the table of unanswered messages by the hash
    table of [Dict].  The examples evaluate the session on concrete inputs
    and witness its theorems. *)

From S2P Require Import Prelude Gwlib Counter Dict Charset Conn World.
From S2P Require Import SmscConn SmppSession SessionFacts.
Open Scope Z_scope.

(** The functions of [smpp_pdu.h] that read a PDU from a connection. *)
Class PduReader (O : OctstrLib) : Type := {
  pdu_read_len : Connection -> Z * Connection;
  pdu_read_data : Connection -> Z -> option octstr * Connection;
}.

Section ConnLink.
Context {O : OctstrLib} {OL : OctstrLaws O} {A : PduReader O}.

(** [Connection] as the wire of a session. *)
#[export] Instance conn_link : Link O := {|
  link := Connection;
  link_ok := conn_ok;
  link_stream := out_stream;
  SmppSession.conn_write := Conn.conn_write;
  SmppSession.conn_eof := Conn.conn_eof;
  SmppSession.conn_error := Conn.conn_error;
  smpp_pdu_read_len := pdu_read_len;
  smpp_pdu_read_data := pdu_read_data;
|}.

#[export] Instance conn_link_laws : LinkLaws conn_link.
Proof.
  split. cbn [link link_ok link_stream SmppSession.conn_write conn_link]. intros l o Hl.
  pose proof (conn_write_spec l o Hl) as H. destruct (Conn.conn_write l o) as [r l'].
  destruct H as (? & ? & _ & Hr). split_and!; [done|done|]. unfold write_result in Hr. cbn. tauto.
Qed.

End ConnLink.

(** ** Parameters for the examples *)

#[export] Instance length_reader : PduReader list_octstr := {|
  pdu_read_len c := (0, c);
  pdu_read_data c n := (None, c);
|}.

(** The first word of a receipt, and its last seven octets. *)
#[export] Instance plain_receipts : ReceiptLib list_octstr := {|
  times_octstr_get_many_alphanumeric sm _ := default [] sm;
  times_octstr_get_many_chars sm _ :=
    let l := default [] sm in drop (length l - 7) l;
|}.

Definition sample_config : smpp_config (O:=list_octstr) :=
  MkConfig (O:=list_octstr) None None (Some (cstr "user")) (Some (cstr "pw")) None None
    (Some (cstr "TM-")) 5 0 (-1) (-1) 0 0 2775 0 30 2 0x34 0 (-1) 1 1 None None 300 60 1 1.

Definition sample_store : Dict (O:=list_octstr) (L:=list_gwlist) smpp_msg :=
  match dict_put (dict_create 2 false) (octstr_format_ld (O:=list_octstr) 1)
          (Some (MkSmppMsg (O:=list_octstr) 900 sample_msg)) with
  | Done (d, _) => d
  | Panic => dict_create 2 false
  end.

(** A wire that takes everything, and one that keeps everything buffered. *)
Definition fast_socket : Socket := MkSocket [1000; 1000; 1000; 1000] [] [] [] [].

Definition sample_smpp (queue : list Msg) (d : Dict (O:=list_octstr) (L:=list_gwlist) smpp_msg)
    : SMPP (O:=list_octstr) (L:=list_gwlist) :=
  MkSMPP (O:=list_octstr) (L:=list_gwlist) sample_config 1 (-1) queue d (MkCounter 2) false 0.

Definition sample_sess (queue : list Msg) (d : Dict (O:=list_octstr) (L:=list_gwlist) smpp_msg)
    (pending : Z) (k : Socket) : Sess (O:=list_octstr) (L:=list_gwlist) :=
  MkSess (O:=list_octstr) (L:=list_gwlist) (sample_smpp queue d) idle_conn (conn_wrap_fd (O:=list_octstr) k) pending
    sample_world.

Lemma sample_answerable : answerable (P:=toy_pdus) sample_msg.
Proof. do 4 eexists. split_and!; reflexivity. Qed.

Lemma sample_sendable : sendable (P:=toy_pdus) sample_msg.
Proof. do 6 eexists. split_and!; reflexivity. Qed.

Lemma sample_store_ok :
  dict_wf sample_store /\
  dict_map sample_store = {[ format_ld 1 := MkSmppMsg (O:=list_octstr) 900 sample_msg ]}.
Proof.
  destruct (dict_put_spec (dict_create 2 false) (octstr_format_ld (O:=list_octstr) 1)
    (MkSmppMsg (O:=list_octstr) 900 sample_msg)) as (d' & E & Hwf & Em & _).
  { apply dict_create_wf. lia. }
  unfold sample_store. rewrite E. split; [done|]. rewrite Em. reflexivity.
Qed.

Lemma empty_store_ok :
  dict_wf (O:=list_octstr) (L:=list_gwlist) (V:=smpp_msg) (dict_create 2 false) /\
  dict_map (O:=list_octstr) (L:=list_gwlist) (V:=smpp_msg) (dict_create 2 false) = ∅.
Proof. split; [apply dict_create_wf; lia|reflexivity]. Qed.

Lemma wire_ok k : Forall (fun a => Forall (fun o => 0 <= o < 256) (answer_data a)) (reads k) ->
  conn_ok (conn_wrap_fd (O:=list_octstr) k).
Proof. intros Hk. split; simpl; [lia..|done]. Qed.

(** One message is unanswered. *)
Definition waiting_sess (queue : list Msg) : Sess (O:=list_octstr) (L:=list_gwlist) :=
  sample_sess queue sample_store 1 fast_socket.

Lemma waiting_sess_ok queue : sess_ok (P:=toy_pdus) (waiting_sess queue).
Proof.
  destruct sample_store_ok as [Hwf Em]. split; [exact Hwf|by apply wire_ok|by vm_compute| | |].
  - unfold sent_map. cbn -[dict_map format_ld]. rewrite Em. intros k.
    rewrite dom_singleton, elem_of_singleton. intros ->. exists 1. split; [done|simpl; lia].
  - right. unfold sent_map. cbn -[dict_map format_ld]. rewrite Em. by rewrite map_size_singleton.
  - unfold sent_map. cbn -[dict_map format_ld]. rewrite Em. apply map_Forall_singleton.
    apply sample_answerable.
Qed.

(** Nothing is unanswered. *)
Definition idle_sess (queue : list Msg) (k : Socket) : Sess (O:=list_octstr) (L:=list_gwlist) :=
  sample_sess queue (dict_create 2 false) 0 k.

Lemma idle_sess_ok queue k :
  Forall (fun a => Forall (fun o => 0 <= o < 256) (answer_data a)) (reads k) ->
  sess_ok (P:=toy_pdus) (idle_sess queue k).
Proof.
  intros Hk. destruct empty_store_ok as [Hwf Em].
  split; [exact Hwf|by apply wire_ok|by vm_compute| | |].
  - unfold sent_map. cbn -[dict_map format_ld]. rewrite Em. intros k'. by rewrite dom_empty_L.
  - right. unfold sent_map. cbn -[dict_map format_ld]. by rewrite Em.
  - unfold sent_map. cbn -[dict_map format_ld]. by rewrite Em.
Qed.

(** ** Witnesses *)


(** Three messages for a window of two: two are sent, with the numbers 2
    and 3. *)
Lemma send_messages_window_witness :
  exists s' left sent es rest,
    send_messages (idle_sess [sample_msg; sample_msg; sample_msg] fast_socket) = Done s' /\
    [sample_msg; sample_msg; sample_msg] = sent ++ option_list left ++ rest /\
    submits (idle_sess [sample_msg; sample_msg; sample_msg] fast_socket) 2 sent es /\
    pending_submits s' = Z.of_nat (length sent) /\ pending_submits s' <= 2.
Proof.
  destruct (send_messages_window (idle_sess [sample_msg; sample_msg; sample_msg] fast_socket))
    as (left & s' & sent & es & rest & _ & H1 & H2 & H3 & H4 & H5 & H6 & _ & _ & H7 & H8 & _).
  - apply idle_sess_ok. constructor.
  - done.
  - done.
  - repeat constructor; apply sample_sendable.
  - done.
  - exists s', left, sent, es, rest. exact (conj H1 (conj H4 (conj H6 (conj H7 H8)))).
Defined.

Lemma submit_sm_resp_outcome_witness :
  exists s' c inf,
    handle_submit_sm_resp (waiting_sess []) (MkHeader 0 1) (Some (cstr "1a")) = Done s' /\
    sm_info sample_msg = Some inf /\
    mis_entry (O:=list_octstr) c
    = Some (octets <$> account_name inf, octets <$> account_msg_id inf, 0).
Proof.
  destruct (submit_sm_resp_outcome (waiting_sess []) (MkHeader 0 1) (Some (cstr "1a"))
    (MkSmppMsg (O:=list_octstr) 900 sample_msg)) as (s' & c & inf & H1 & H2 & H3 & _).
  - apply waiting_sess_ok.
  - unfold sent_map. cbn -[dict_map format_ld]. rewrite (proj2 sample_store_ok).
    apply lookup_singleton_eq.
  - by left.
  - exists s', c, inf. exact (conj H1 (conj H2 H3)).
Defined.

Lemma queue_cleanup_spec_witness :
  exists s', do_queue_cleanup (waiting_sess []) SMPP_WAITACK_REQUEUE = Done (0, s') /\
    sess_ok (P:=toy_pdus) s' /\
    items (outgoing_msg (world s')) = items (outgoing_msg (world (waiting_sess []))) ++
      (requeued (waiting_sess []) <$>
       expired_of (waiting_sess []) (items (store_keys (sent_msgs (smpp (waiting_sess [])))))).
Proof.
  destruct (proj1 (queue_cleanup_spec (waiting_sess []) (waiting_sess_ok []) eq_refl))
    as (s' & H1 & H2 & _ & (H3 & _) & _).
  exists s'. exact (conj H1 (conj H2 H3)).
Defined.

Lemma leave_connection_requeues_witness :
  exists s', leave_connection (waiting_sess [sample_msg]) true true = Done s' /\
    items (msgs_to_send (smpp s')) = [] /\ sent_map s' = ∅.
Proof.
  destruct (leave_connection_requeues (waiting_sess [sample_msg]) (waiting_sess_ok _))
    as (s' & H1 & H2 & H3 & _).
  - repeat constructor. do 2 eexists. split; reflexivity.
  - exists s'. exact (conj H1 (conj H2 H3)).
Defined.

(** A socket that takes nothing: every PDU stays in the buffer. *)
Definition full_socket : Socket := MkSocket [] [] [] [] [].

Lemma full_socket_write (o : octstr (OctstrLib:=list_octstr)) :
  o <> [] -> (Conn.conn_write (conn_wrap_fd (O:=list_octstr) full_socket) o).1 = 1.
Proof.
  intros Ho. assert (Hl : 0 < Z.of_nat (length o)) by (destruct o; simpl; [done|lia]).
  unfold Conn.conn_write, unlocked_try_write, unlocked_outbuf_len. cbn.
  rewrite Z.sub_0_r, (proj2 (Z.eqb_neq _ _)), (proj2 (Z.ltb_ge _ _)) by lia.
  unfold unlocked_write. cbn. rewrite (proj2 (Z.ltb_ge (_ / 2) 0)) by (apply Z.div_pos; lia).
  cbn. unfold unlocked_outbuf_len. cbn. by rewrite Z.sub_0_r, (proj2 (Z.ltb_lt _ _)).
Qed.

Lemma full_socket_buffers p (o : octstr (OctstrLib:=list_octstr)) :
  toy_pack p = Some o ->
  (SmppSession.conn_write (wire (idle_sess [sample_msg] full_socket)) o).1 = 1.
Proof. intros H. apply full_socket_write. intros ->. by destruct p. Qed.

Lemma send_messages_loses_unflushed_witness :
  exists s', send_messages (idle_sess [sample_msg] full_socket) = Done s' /\
    items (msgs_to_send (smpp s')) = [] /\ sent_map s' = ∅ /\
    sess_msgs (idle_sess [sample_msg] full_socket) ≡ₚ msg_ident sample_msg :: sess_msgs s'.
Proof.
  destruct (send_messages_loses_unflushed (idle_sess [sample_msg] full_socket) sample_msg [])
    as (s' & h & b & H1 & _ & H2 & H3 & _ & _ & H4).
  - apply idle_sess_ok. constructor.
  - done.
  - done.
  - done.
  - done.
  - apply sample_sendable.
  - done.
  - exact full_socket_buffers.
  - exists s'. split; [exact H1|]. split; [exact H2|]. split; [|exact H4].
    rewrite H3. reflexivity.
Defined.

Definition sample_submit : SubmitSm (O:=list_octstr) :=
  MkSubmitSm (O:=list_octstr) None 1 1 (Some (cstr "x")) 1 1 None 0 0 0 0 2 (Some (cstr "hi")) 0 0 tt.

Definition prepared : outcome (SubmitSm (O:=list_octstr)) :=
  prepare_submit (waiting_sess []) sample_msg sample_submit.

Lemma prepare_submit_changes_witness :
  match prepared with
  | Done b' => destination_addr b' = destination_addr sample_submit /\
      source_addr_ton b' = 5 /\ octets <$> source_addr b' = Some (cstr "TM-ACME")
  | Panic => False
  end.
Proof.
  destruct prepared as [b'|] eqn:E; [|discriminate E].
  destruct (prepare_submit_changes (waiting_sess []) sample_msg sample_submit b' (cstr "TM-")
    sample_routing E eq_refl eq_refl eq_refl) as (H1 & H2 & _ & _ & H3 & _).
  split; [exact H3|]. split; [exact H2|].
  destruct H1 as (a & -> & Ha & _). change (Some (octets a) = Some (cstr "TM-ACME")).
  rewrite Ha. reflexivity.
Defined.

Lemma msgid_correlation_witness :
  convert_msgid 1 0x01 (cstr "1A") ≡@{octstr (OctstrLib:=list_octstr)}
    convert_msgid 1 0x02 (cstr "0026").
Proof.
  apply (msgid_correlation (O:=list_octstr) 1 (cstr "1A") (cstr "0026")).
  - lia.
  - repeat constructor.
  - repeat constructor.
  - reflexivity.
  - reflexivity.
  - reflexivity.
Defined.

Definition sample_receipt : DeliverSm (O:=list_octstr) :=
  MkDeliverSm (O:=list_octstr) (Some (cstr "919812345678")) None 4 9 (Some (cstr "7 DELIVRD"))
    None None tt.

Lemma deliver_sm_reported_witness :
  exists dest msgid pdu,
    trace (world (handle_deliver_sm (waiting_sess []) (MkHeader 0 9) sample_receipt))
    = [EvDbbox (insert_status (O:=list_octstr) (Some (cstr "smsc1")) (Some msgid) (Some dest) pdu 1)]
    /\ octets dest = cstr "9812345678".
Proof.
  destruct (deliver_sm_reported (waiting_sess []) (MkHeader 0 9) sample_receipt
    (cstr "919812345678")) as (dest & msgid & pdu & H1 & H2 & _).
  - reflexivity.
  - repeat constructor; discriminate.
  - vm_compute; lia.
  - exists dest, msgid, pdu. split; [exact H1|]. rewrite H2. reflexivity.
Defined.
