(* ===== verification/IoThread.v ===== *)
(** * The thread of a connection (io_thread in smpp-smsc/smsc_smpp.c)

    The thread opens a connection, binds, and then in turns waits, reads and
    handles PDUs, cleans up and sends, until the connection ends or the
    session is told to quit; it then gives its messages back and starts again
    or ends.  The state of the thread is its place in the loops, its local
    variables and the session.  [turn] is what the thread does from one place
    where other threads, the network or the clock matter to the next one;
    between two turns the others act ([others]). *)

From S2P Require Import Prelude Gwlib Counter Dict Charset World SmscConn SmppSession.
Open Scope Z_scope.

Definition SMPP_DEFAULT_SHUTDOWN_TIMEOUT : Z := 30.

(** The places of [io_thread]: the head of the outer loop, [conn_wait] of the
    inner one, [read_pdu], [conn_wait] of the loop after the unbind, the code
    behind the inner loop, [gwthread_sleep], and the end. *)
Inductive place : Type :=
| Connect | Wait | Read | Quit | Leave (connected : bool) | Sleep | Ended.

Section Thread.
Context {O : OctstrLib} {L : GwListLib} {R : PduRest} {N : SmppNames} {P : PduLib O R}
  {PX : PrefixLib O} {K : Link O} {T : ReceiptLib O} {S : KeyedStore O L smpp_msg}.

(** Whether [sys_thread] runs, which wants to know about changes. *)
Context (sys_running : bool).

(** The local variables: [kind] is [transmitter], [shown] is [status]. *)
Record Thread : Type := MkThread {
  at_place : place;
  sess : Sess;
  kind : Z;
  last_enquire_sent : Z;
  last_cleanup : Z;
  last_response : Z;
  len : Z;
  shown : smscconn_status_t
}.

Definition goto (t : Thread) (p : place) (s : Sess) : Thread :=
  MkThread p s (kind t) (last_enquire_sent t) (last_cleanup t) (last_response t) (len t) (shown t).
Definition set_enquire (t : Thread) (z : Z) : Thread :=
  MkThread (at_place t) (sess t) (kind t) z (last_cleanup t) (last_response t) (len t) (shown t).
Definition set_cleanup (t : Thread) (z : Z) : Thread :=
  MkThread (at_place t) (sess t) (kind t) (last_enquire_sent t) z (last_response t) (len t) (shown t).
Definition set_response (t : Thread) (z : Z) : Thread :=
  MkThread (at_place t) (sess t) (kind t) (last_enquire_sent t) (last_cleanup t) z (len t) (shown t).
Definition set_len (t : Thread) (z : Z) : Thread :=
  MkThread (at_place t) (sess t) (kind t) (last_enquire_sent t) (last_cleanup t) (last_response t) z
    (shown t).
Definition set_shown (t : Thread) (st : smscconn_status_t) : Thread :=
  MkThread (at_place t) (sess t) (kind t) (last_enquire_sent t) (last_cleanup t) (last_response t)
    (len t) st.

Definition is_transmitter (t : Thread) : bool := negb (kind t =? 0).

(** A new status is shown to [sys_thread]. *)
Definition show_status (t : Thread) : Thread :=
  let s := sess t in
  if sys_running && negb (bool_decide (shown t = status (conn s))) then
    set_shown (goto t (at_place t) (with_world s (emit (world s) (EvWakeup sys_thread))))
      (status (conn s))
  else t.

(** [open_transmitter], [open_transceiver] or [open_receiver], by kind, on
    the connection that [conn_open_tcp] returned. *)
Definition open_kind (k : Z) (s : Sess) : Sess :=
  if k =? 1 then open_transmitter s else if k =? 2 then open_transceiver s else open_receiver s.

Definition mode_of (k : Z) : Z := if k =? 1 then 1 else if k =? 2 then 3 else 2.

(** The top of the outer loop, up to the inner one. *)
Definition connect_turn (opened : option link) (t : Thread) : Thread :=
  let s := sess t in
  if quitting (smpp s) then goto t Ended (with_conn s (set_status (conn s) SMSCCONN_DEAD)) else
  let s := with_conn s (set_bind (conn s) 1 (mode_of (kind t))) in
  let s := match opened with
           | Some l => open_kind (kind t) (with_wire s l)
           | None => s
           end in
  let s := with_pending (with_smpp s (set_throttling (smpp s) 0)) (-1) in
  MkThread (match opened with Some _ => Wait | None => Leave false end) s (kind t)
    (now (world s)) (now (world s)) (now (world s)) 0 (shown t).

(** After [conn_wait] of the inner loop. *)
Definition wait_turn (waited : Z) (t : Thread) : outcome Thread :=
  let s := sess t in
  if waited =? -1 then Done (goto t (Leave true) s)
  else if quitting (smpp s) then
    s ← send_unbind s;
    Done (set_response (goto t Quit s) (now (world s)))
  else
    let '(s, last) := send_enquire_link s (last_enquire_sent t) in
    Done (set_enquire (goto t Read s) last).

(** Whether messages are sent now: not when the SMSC said a short time ago
    that it is busy. *)
Definition ready_to_send (t : Thread) : bool :=
  is_transmitter t &&
  (SMPP_THROTTLING_SLEEP_TIME <? now (world (sess t)) - throttling_err_time (smpp (sess t))).

Definition unthrottled (s : Sess) : Sess := with_smpp s (set_throttling (smpp s) 0).

Definition send_if_ready (t : Thread) : outcome Thread :=
  if ready_to_send t then
    s ← send_messages (unthrottled (sess t));
    Done (goto t (at_place t) s)
  else Done t.

(** A PDU was read; [true]: the thread then sends if it is ready. *)
Definition pdu_turn (p : SMPP_PDU) (t : Thread) : outcome (bool * Thread) :=
  let t := set_response t (now (world (sess t))) in
  s ← handle_pdu (sess t) p;
  let t := show_status (goto t Read s) in
  let s := sess t in
  if bool_decide (status (conn s) = SMSCCONN_ACTIVE) ||
     bool_decide (status (conn s) = SMSCCONN_ACTIVE_RECV) then
    let '(s, last) := send_enquire_link s (last_enquire_sent t) in
    Done (true, set_enquire (goto t Read s) last)
  else Done (false, goto t (Leave true) s).

(** No PDU is there: the checks at the end of the inner loop. *)
Definition idle_turn (t : Thread) : outcome (bool * Thread) :=
  let s := sess t in
  if (0 <? connection_timeout (cfg s)) &&
     (connection_timeout (cfg s) <? now (world s) - last_response t)
  then Done (false, goto t (Leave true) s)
  else if is_transmitter t && (wait_ack (cfg s) <? now (world s) - last_cleanup t) then
    '(r, s) ← do_queue_cleanup s (wait_ack_action (cfg s));
    if negb (r =? 0) then Done (false, goto t (Leave true) s)
    else Done (true, set_cleanup (goto t Wait s) (now (world s)))
  else Done (true, goto t Wait s).

(** [read_pdu] on the session of the thread. *)
Definition read_step (t : Thread) : Z * option SMPP_PDU * Thread :=
  let '(ret, n, p, l) := read_pdu (wire (sess t)) (len t) in
  (ret, p, set_len (goto t (at_place t) (with_wire (sess t) l)) n).

(** The turn up to the point where messages are sent. *)
Definition read_part (t : Thread) : outcome (bool * Thread) :=
  let '(ret, p, t) := read_step t in
  if ret =? 1 then p ← must p; pdu_turn p t
  else if ret =? -1 then Done (false, goto t (Leave true) (sess t))
  else idle_turn t.

Definition read_turn (t : Thread) : outcome Thread :=
  '(send, t) ← read_part t;
  if (send : bool) then send_if_ready t else Done t.

(** The loop after the unbind. *)
Definition quit_turn (waited : Z) (t : Thread) : outcome Thread :=
  let s := sess t in
  if negb (waited =? -1) && (now (world s) - last_response t <? SMPP_DEFAULT_SHUTDOWN_TIMEOUT) &&
     negb (bool_decide (status (conn s) = SMSCCONN_DISCONNECTED)) then
    let '(ret, p, t) := read_step t in
    if ret =? 1 then p ← must p; s ← handle_pdu (sess t) p; Done (goto t Quit s)
    else Done t
  else Done (goto t (Leave true) s).

(** Behind the inner loop. *)
Definition leave_turn (connected : bool) (t : Thread) : outcome Thread :=
  s ← leave_connection (sess t) connected (is_transmitter t);
  let t := goto t Connect s in
  if quitting (smpp s) then Done t else Done (goto (show_status t) Sleep (sess (show_status t))).

(** One turn: [opened] is what [conn_open_tcp] returns, [waited] what
    [conn_wait] returns. *)
Definition turn (opened : option link) (waited : Z) (t : Thread) : outcome Thread :=
  match at_place t with
  | Connect => Done (connect_turn opened t)
  | Wait => wait_turn waited t
  | Read => read_turn t
  | Quit => quit_turn waited t
  | Leave connected => leave_turn connected t
  | Sleep => Done (goto t Connect (sess t))
  | Ended => Done t
  end.

(** The message that a turn leaves in the variable [msg] of
    [send_messages]. *)
Definition turn_left (t : Thread) : option Msg :=
  match at_place t, read_part t with
  | Read, Done (true, t) =>
      if ready_to_send t then
        match send_pending (unthrottled (sess t)) with Done (m, _) => m | Panic => None end
      else None
  | _, _ => None
  end.

End Thread.
