(* ===== verification/IoThreadFacts.v ===== *)
(** * Theorems about the thread of a connection

    Whatever the other threads, the SMSC and the clock do, the thread keeps
    the invariant of its session, loses no message and does not stop the
    process; when it is told to quit and the SMSC does not write without
    pause, it ends. *)

From S2P Require Import Prelude Gwlib Counter Dict Charset World SmscConn SmppSession.
From S2P Require Import SessionFacts IoThread.
Open Scope Z_scope.

(** What a run of the monad that returned went through. *)
Ltac inv_done :=
  repeat match goal with
  | H : (_ ≫= _) = Done _ |- _ => apply bind_Done in H as (? & ? & H)
  | H : Done _ = Done _ |- _ => injection H as H
  | H : Panic = Done _ |- _ => discriminate H
  | H : (let '(_, _) := ?p in _) = Done _ |- _ => destruct p eqn:?
  | H : (match ?x with _ => _ end) = Done _ |- _ => destruct x eqn:?
  | H : (_, _) = (_, _) |- _ => injection H as ?; subst
  end; subst.

Section Settings.
Context {O : OctstrLib} {L : GwListLib} {R : PduRest} {N : SmppNames} {P : PduLib O R}
  {PX : PrefixLib O} {K : Link O} {T : ReceiptLib O} {S : KeyedStore O L smpp_msg}.
Implicit Types s : Sess.

(** ** What no operation of a session changes *)

(** A session that is quitting goes on quitting, and the mode in which the
    database process checks messages stays. *)
Definition modes s s' : Prop :=
  (quitting (smpp s) = true -> quitting (smpp s') = true) /\
  dndcheck_flag (world s') = dndcheck_flag (world s).

(** No sequence number is given out in addition. *)
Definition settings s s' : Prop :=
  modes s s' /\ message_id_counter (smpp s') = message_id_counter (smpp s).

#[export] Instance modes_preorder : PreOrder modes.
Proof. split; [by split|]. intros a b c [H1 H2] [H3 H4]. split; [auto|congruence]. Qed.

#[export] Instance settings_preorder : PreOrder settings.
Proof. split; [by split|]. intros a b c [H1 H2] [H3 H4]. split; [by etrans|congruence]. Qed.

Lemma modes_same s s' :
  quitting (smpp s') = quitting (smpp s) -> dndcheck_flag (world s') = dndcheck_flag (world s) ->
  modes s s'.
Proof. intros E1 E2. split; [by rewrite E1|done]. Qed.

Lemma settings_same s s' :
  quitting (smpp s') = quitting (smpp s) -> dndcheck_flag (world s') = dndcheck_flag (world s) ->
  message_id_counter (smpp s') = message_id_counter (smpp s) -> settings s s'.
Proof. intros E1 E2 E3. split; [by apply modes_same|done]. Qed.

Lemma take_sent_settings s key v s' : take_sent s key = Done (v, s') -> settings s s'.
Proof. unfold take_sent. intros H. inv_done. by apply settings_same. Qed.

Lemma requeue_failed_dnd (c : SMSCConn SMPP) w m : dndcheck_flag (requeue_failed c w m) = dndcheck_flag w.
Proof. unfold requeue_failed, produce_outgoing_msg. by case_match. Qed.

Lemma fail_msg_settings s m reason p s' : fail_msg s m reason p = Done s' -> settings s s'.
Proof.
  unfold fail_msg, smscconn_send_failed. intros H. inv_done; apply settings_same; try done;
    cbn [world with_world]; apply requeue_failed_dnd.
Qed.

Lemma mis_db_insert_dnd w an am rt si sm p st ip w' :
  mis_db_insert w an am rt si sm p st ip = Done w' -> dndcheck_flag w' = dndcheck_flag w.
Proof. unfold mis_db_insert. intros H. by inv_done. Qed.

Lemma smscconn_sent_dnd (c : SMSCConn SMPP) w m p c' w' :
  smscconn_sent c w m p = Done (c', w') -> dndcheck_flag w' = dndcheck_flag w.
Proof. unfold smscconn_sent. intros H. by inv_done. Qed.

Lemma handle_submit_sm_resp_settings s h i s' : handle_submit_sm_resp s h i = Done s' -> settings s s'.
Proof.
  unfold handle_submit_sm_resp. intros H. apply bind_Done in H as ([v s1] & H1 & H).
  apply take_sent_settings in H1. etrans; [exact H1|]. destruct v as [sm|]; [|by inv_done].
  apply bind_Done in H as (? & _ & H). apply bind_Done in H as (? & _ & H).
  apply bind_Done in H as (? & _ & H). apply bind_Done in H as (w & Hw & H).
  apply mis_db_insert_dnd in Hw. destruct (negb _).
  - apply bind_Done in H as (s2 & Hf & H). apply fail_msg_settings in Hf. injection H as <-.
    destruct Hf as [[F1 F2] F3]. split; [split; [exact F1|]|exact F3]. cbn in *. congruence.
  - apply bind_Done in H as ([c w2] & Hs & H). apply smscconn_sent_dnd in Hs. injection H as <-.
    apply settings_same; [done| |done]. cbn in *. congruence.
Qed.

Lemma handle_generic_nack_settings s h s' : handle_generic_nack s h = Done s' -> settings s s'.
Proof.
  unfold handle_generic_nack. intros H. apply bind_Done in H as ([v s1] & H1 & H).
  apply take_sent_settings in H1. etrans; [exact H1|]. destruct v as [sm|]; [|by inv_done].
  apply bind_Done in H as (s2 & Hf & H). apply fail_msg_settings in Hf. by injection H as <-.
Qed.

Lemma refuse_bind_settings s st : settings s (refuse_bind s st).
Proof. unfold refuse_bind. case_match; by split. Qed.

Lemma handle_pdu_settings s p s' : handle_pdu s p = Done s' -> settings s s'.
Proof.
  destruct p; simpl; intros H;
    try (by apply handle_submit_sm_resp_settings in H); try (by apply handle_generic_nack_settings in H);
    injection H as <-; try (by apply settings_same);
    unfold handle_deliver_sm, handle_bind_tx_resp, handle_bind_rx_resp;
    repeat case_match; try apply refuse_bind_settings; by apply settings_same.
Qed.

Lemma next_id_modes s : modes s (next_id s).2.
Proof. unfold next_id. destruct (counter_increase _). by apply modes_same. Qed.

Lemma send_one_modes s m f s' : send_one s m = Done (f, s') -> modes s s'.
Proof.
  unfold send_one. intros H. apply bind_Done in H as ([m1 s1] & H1 & H).
  assert (S1 : modes s s1).
  { unfold dnd_rewrite in H1. pose proof (next_id_modes s). destruct (next_id s). by inv_done. }
  etrans; [exact S1|]. destruct (sm_info m1 ≫= pdu) as [packed|]; [|by inv_done].
  apply bind_Done in H as (p & _ & H). apply bind_Done in H as ([[p2 m2] s2] & H2 & H).
  assert (S2 : modes s1 s2).
  { unfold outgoing_pdu in H2. pose proof (next_id_modes s1). destruct (next_id s1). by inv_done. }
  etrans; [exact S2|]. destruct (send_pdu _ _) as [ret l]. destruct (ret =? 0).
  - apply bind_Done in H as (s3 & H3 & H). unfold remember in H3. inv_done. by apply modes_same.
  - inv_done. by apply modes_same.
Qed.

Lemma send_loop_modes fuel : forall s m s', send_loop fuel s = Done (m, s') -> modes s s'.
Proof.
  induction fuel as [|fuel IH]; intros s m' s'; simpl; [by intros [= _ <-]|].
  destruct (_ <? _); [|by intros [= _ <-]].
  destruct (gwlist_extract_first _) as [[m|] q]; [|intros [= _ <-]; by apply modes_same].
  intros H. apply bind_Done in H as ([f s1] & H1 & H). apply send_one_modes in H1.
  etrans; [|etrans; [exact H1|]]; [by apply modes_same|]. destruct f; [by eapply IH|by injection H as _ <-].
Qed.

Lemma send_pending_modes s m s' : send_pending s = Done (m, s') -> modes s s'.
Proof. unfold send_pending. case_match; [by intros [= _ <-]|]. apply send_loop_modes. Qed.

Lemma cleanup_loop_settings action keys : forall s r s', cleanup_loop s keys action = Done (r, s') -> settings s s'.
Proof.
  induction keys as [|key keys IH]; intros s r s'; simpl; [by intros [= _ <-]|].
  intros H. apply bind_Done in H as (v & _ & H). destruct v as [sm|]; [|by apply IH in H].
  destruct (_ <? _); [|by apply IH in H]. destruct (action =? _); [by injection H as _ <-|].
  destruct (action =? _); [|by injection H as _ <-].
  apply bind_Done in H as ([v s1] & H1 & H). apply take_sent_settings in H1. etrans; [exact H1|].
  destruct v as [sm1|]; [|by apply IH in H]. apply bind_Done in H as (s2 & H2 & H).
  apply fail_msg_settings in H2. apply IH in H. etrans; [exact H2|]. exact H.
Qed.

Lemma drain_queue_settings fuel reason : forall s wake r,
  drain_queue fuel s reason wake = Done r -> settings s r.2.
Proof.
  induction fuel as [|fuel IH]; intros s wake r; simpl; [by intros [= <-]|].
  destruct (gwlist_extract_first _) as [[m|] q]; [|intros [= <-]; by apply settings_same].
  destruct (sm_info m ≫= pdu); [|intros H%IH; etrans; [|exact H]; by apply settings_same].
  intros H. apply bind_Done in H as (s1 & H1 & H). apply fail_msg_settings in H1. apply IH in H.
  etrans; [|etrans; [exact H1|exact H]]. by apply settings_same.
Qed.

Lemma drain_sent_settings keys reason : forall s wake r,
  drain_sent keys s reason wake = Done r -> settings s r.2.
Proof.
  induction keys as [|key keys IH]; intros s wake r; simpl; [by intros [= <-]|].
  intros H. apply bind_Done in H as ([v s1] & H1 & H). apply take_sent_settings in H1.
  etrans; [exact H1|]. destruct v as [sm|]; [|by apply IH in H].
  apply bind_Done in H as (s2 & H2 & H). apply fail_msg_settings in H2. etrans; [exact H2|]. by apply IH in H.
Qed.

Lemma leave_connection_settings s c b s' : leave_connection s c b = Done s' -> settings s s'.
Proof.
  unfold leave_connection. set (s0 := with_conn (if c then _ else _) _).
  assert (S0 : settings s s0) by (unfold s0; destruct c; by apply settings_same).
  destruct b; [|by intros [= <-]]. intros H. apply bind_Done in H as ([w1 s1] & H1 & H).
  apply bind_Done in H as ([w2 s2] & H2 & H). injection H as <-.
  apply drain_queue_settings in H1. apply drain_sent_settings in H2. cbn [snd] in *.
  etrans; [exact S0|]. etrans; [exact H1|]. etrans; [exact H2|].
  unfold wake_router. case_match; by apply settings_same.
Qed.

End Settings.

(** What reading does to a connection. *)
Class LinkReads {O : OctstrLib} (K : Link O) : Prop := {
  read_len_law l : link_ok l -> link_ok (smpp_pdu_read_len l).2;
  read_data_law l n : link_ok l -> link_ok (smpp_pdu_read_data l n).2;
}.

Section Thread.
Context {O : OctstrLib} {OL : OctstrLaws O} {L : GwListLib} {LL : GwListLaws L} {R : PduRest}
  {N : SmppNames} {NL : SmppNamesLaws N} {P : PduLib O R} {PL : PduLibLaws P} {PX : PrefixLib O}
  {K : Link O} {KL : LinkLaws K} {KR : LinkReads K} {T : ReceiptLib O}
  {S : KeyedStore O L smpp_msg} {SL : KeyedStoreLaws S} (sys_running : bool).
Implicit Types (s : Sess) (t : Thread).

(** ** The session between two turns *)

Definition queue s : list Msg := items (msgs_to_send (smpp s)).
Definition ids s : Z := n (message_id_counter (smpp s)).

(** On a connection: the invariant of the session, and messages that can be
    sent. *)
Definition busy s : Prop := sess_ok s /\ Forall sendable (queue s).

(** Without a connection nothing is held. *)
Record idle s : Prop := {
  id_store : store_ok (sent_msgs (smpp s));
  id_link : link_ok (wire s);
  id_counter : counter_ok (message_id_counter (smpp s));
  id_queue : queue s = [];
  id_sent : sent_map s = ∅;
  id_status : status (conn s) <> SMSCCONN_ACTIVE
}.

(** An operation on a connection that holds its messages and uses at most
    [k] sequence numbers. *)
Definition stays (k : Z) s s' : Prop :=
  busy s' /\ sess_msgs s' ≡ₚ sess_msgs s /\ modes s s' /\ ids s' <= ids s + k /\
  (length (queue s') <= length (queue s))%nat.

Lemma stays_refl s : busy s -> stays 0 s s.
Proof. intros H. split; [done|]. split; [done|]. split; [done|]. lia. Qed.

Lemma stays_trans k1 k2 s1 s2 s3 : stays k1 s1 s2 -> stays k2 s2 s3 -> stays (k1 + k2) s1 s3.
Proof.
  intros (_ & E1 & M1 & I1 & L1) (B & E2 & M2 & I2 & L2). split; [done|]. split; [by rewrite E2|].
  split; [by etrans|]. lia.
Qed.

Lemma stays_weaken k k' s s' : k <= k' -> stays k s s' -> stays k' s s'.
Proof. intros Hk (? & ? & ? & ? & ?). split_and!; try done; lia. Qed.

(** The messages of a session depend on its queue, table and world. *)
Lemma stays_keeps s s' : busy s -> keeps s s' -> settings s s' -> stays 0 s s'.
Proof.
  intros [_ Hq] (Hok & Em & _ & Eq & _) [Hm Ec]. unfold stays, busy, queue, ids. rewrite Eq, Ec.
  split_and!; try done; lia.
Qed.

Lemma busy_same s s' :
  busy s -> msgs_to_send (smpp s') = msgs_to_send (smpp s) -> sent_msgs (smpp s') = sent_msgs (smpp s) ->
  message_id_counter (smpp s') = message_id_counter (smpp s) -> wire s' = wire s ->
  pending_submits s' = pending_submits s -> world_msgs (world s') = world_msgs (world s) ->
  modes s s' -> stays 0 s s'.
Proof.
  intros [Hok Hq] E1 E2 E3 E4 E5 E6 Hm. unfold stays, busy, queue, ids. rewrite E1, E3.
  split_and!; try done; [by apply (sess_ok_same s)|apply sess_msgs_same; by rewrite ?E6|lia].
Qed.

Lemma next_id_stays s : busy s -> ids s + 1 < ulong_max -> stays 1 s (next_id s).2.
Proof.
  intros [Hok Hq] Hn. destruct (sess_ok_next_id s Hok Hn) as [Hok' En].
  split; [by split|]. split; [by apply sess_msgs_same|]. split; [apply next_id_modes|].
  unfold ids. rewrite En. split; [lia|done].
Qed.

Lemma write_stays s o : busy s -> stays 0 s (with_wire s (conn_write (wire s) o).2).
Proof.
  intros [[Hst Hl Hc Hk Hw Ha] Hq]. split; [split; [|done]|].
  - split; try done. simpl. by apply conn_write_law.
  - split; [done|]. split; [by apply modes_same|]. split; [unfold ids; simpl; lia|done].
Qed.

Lemma send_resp_stays s p : busy s -> stays 0 s (send_resp s p).
Proof.
  intros Hb. unfold send_resp, send_pdu. destruct (smpp_pdu_pack p); [by apply write_stays|].
  replace (with_wire s (-1, wire s).2) with s by by destruct s. by apply stays_refl.
Qed.

Lemma send_enquire_link_stays s last :
  busy s -> ids s + 1 < ulong_max -> stays 1 s (send_enquire_link s last).1.
Proof.
  intros Hb Hn. unfold send_enquire_link. case_match.
  { eapply stays_weaken; [|by apply stays_refl]. lia. }
  pose proof (next_id_stays s Hb Hn) as H1. destruct (next_id s) as [q s1]. cbn [snd fst] in *.
  destruct (smpp_pdu_pack _); [|done]. apply (stays_trans 1 0 _ s1); [done|]. apply write_stays, H1.
Qed.

(** An unbind, which is only a header, can be packed. *)
Context (Hunbind : forall h, is_Some (smpp_pdu_pack (unbind h))).

Lemma send_unbind_stays s :
  busy s -> ids s + 1 < ulong_max -> exists s', send_unbind s = Done s' /\ stays 1 s s'.
Proof.
  intros Hb Hn. unfold send_unbind.
  pose proof (next_id_stays s Hb Hn) as H1. destruct (next_id s) as [q s1]. cbn [snd fst] in *.
  destruct (Hunbind (new_header q)) as [o ->].
  cbn [must mbind outcome_bind]. eexists. split; [done|]. apply (stays_trans 1 0 _ s1); [done|].
  apply write_stays, H1.
Qed.

(** The messages of a session, and one that is left over. *)
Definition left_ident (left : option Msg) : list (option (list (option (list Z)))) :=
  msg_ident <$> option_list left.

Lemma send_messages_stays s :
  busy s -> dndcheck_flag (world s) = 0 -> ids s + Z.of_nat (length (queue s)) < ulong_max ->
  exists left s', send_pending s = Done (left, s') /\ send_messages s = Done s' /\ busy s' /\
    sess_msgs s' ++ left_ident left ≡ₚ sess_msgs s /\ modes s s' /\ (writes_through -> left = None).
Proof.
  intros Hb Hdnd Hn. unfold send_messages. destruct (Z.eq_dec (pending_submits s) (-1)) as [Hp|Hp].
  { exists None, s. unfold send_pending. rewrite (proj2 (Z.eqb_eq _ _) Hp). split_and!; try done.
    by rewrite app_nil_r. }
  pose proof Hb as [Hok Hq]. destruct (so_window _ Hok) as [[? _]|Hw]; [done|].
  destruct (send_pending_sends s) as (left & s' & sent & es & rest & E & Hs); try done; [lia|].
  exists left, s'. split; [done|]. rewrite E. split; [done|]. apply send_pending_modes in E.
  destruct Hs as (Hok' & _ & Ew & _ & Eq & Eq' & Hes & Em & _ & _ & Hl).
  split; [split; [done|]|split; [|split; [done|]]].
  - unfold queue in *. rewrite Eq in Hq. apply Forall_app in Hq as [_ [_ Hq]%Forall_app]. by rewrite Eq'.
  - unfold sess_msgs, left_ident. rewrite Eq', Em, Ew, Eq, !fmap_app.
    rewrite (table_with_idents s sent es _ (sent_map s)); [|apply (so_counter _ Hok)|done|by apply fresh_numbers].
    solve_Permutation.
  - intros [Hw1 Hw2]. destruct left as [m|]; [|done]. exfalso.
    destruct Hl as (l & h & b & r & _ & _ & Hlok & Hsend & Hr). apply Hr.
    unfold send_pdu in Hsend. destruct (smpp_pdu_pack _) as [o|] eqn:Eo; [|by apply Hw2 in Eo].
    pose proof (Hw1 l o Hlok) as H1. rewrite Hsend in H1. exact H1.
Qed.

(** ** The turns *)

Definition on_connection (p : place) : bool :=
  match p with Wait | Read | Quit | Leave _ => true | _ => false end.

Definition thread_ok t : Prop :=
  dndcheck_flag (world (sess t)) = 0 /\ is_transmitter t = true /\
  (if on_connection (at_place t) then busy (sess t) else idle (sess t)) /\
  (at_place t = Ended -> status (conn (sess t)) = SMSCCONN_DEAD /\ quitting (smpp (sess t)) = true).

(** The SMSC sends PDUs that the session can handle, and fewer than 2^64
    sequence numbers are used. *)
Definition polite t : Prop :=
  forall p, (read_step t).1.2 = Some p -> expected (sess (read_step t).2) p.
Definition roomy t : Prop := ids (sess t) + Z.of_nat (length (queue (sess t))) + 2 < ulong_max.

(** What a turn does to the messages, one of which may be left over. *)
Definition turned (left : option Msg) t t' : Prop :=
  thread_ok t' /\ sess_msgs (sess t') ++ left_ident left ≡ₚ sess_msgs (sess t) /\
  modes (sess t) (sess t') /\ (writes_through -> left = None).

Lemma turned_None t t' :
  thread_ok t' -> sess_msgs (sess t') ≡ₚ sess_msgs (sess t) -> modes (sess t) (sess t') ->
  turned None t t'.
Proof. intros H1 H2 H3. split_and!; try done. by rewrite app_nil_r. Qed.

Lemma turned_stays k t t' :
  thread_ok t -> on_connection (at_place t') = true -> kind t' = kind t ->
  stays k (sess t) (sess t') -> turned None t t'.
Proof.
  intros (Hd & Hk & _ & _) Hp Ek (Hb & Em & Hm & _ & _). apply turned_None; [|done|done].
  split; [rewrite (proj2 Hm); exact Hd|]. split; [unfold is_transmitter; by rewrite Ek|].
  rewrite Hp. split; [done|]. intros E. by rewrite E in Hp.
Qed.

(** What is left over when a thread sends if it is ready. *)
Definition ready_left t : option Msg :=
  if ready_to_send t then
    match send_pending (unthrottled (sess t)) with Done (m, _) => m | Panic => None end
  else None.

(** Sending at the end of a turn. *)
Lemma send_if_ready_turned t0 k t :
  thread_ok t0 -> roomy t0 -> 0 <= k <= 1 -> on_connection (at_place t) = true -> kind t = kind t0 ->
  stays k (sess t0) (sess t) -> exists t', send_if_ready t = Done t' /\ turned (ready_left t) t0 t'.
Proof.
  intros Hok Hr Hk Hp Ek Hs. pose proof Hok as (Hd & Htr & _ & _).
  unfold send_if_ready, ready_left.
  destruct (ready_to_send t); [|exists t; split; [done|by eapply turned_stays]].
  set (s1 := unthrottled _). assert (H1 : stays (k + 0) (sess t0) s1).
  { eapply stays_trans; [exact Hs|]. apply busy_same; try done; apply Hs. }
  destruct H1 as (B1 & E1 & M1 & I1 & L1). unfold roomy in Hr.
  destruct (send_messages_stays s1) as (left & s' & Ep & Em' & Hb & Em & Hm & Hthr); [done| |lia|].
  { rewrite (proj2 M1). exact Hd. }
  rewrite Ep, Em'. cbn [mbind outcome_bind]. eexists. split; [done|].
  assert (Hm' : modes (sess t0) s') by by etrans.
  split; [|split; [cbn; by rewrite Em|split; [exact Hm'|done]]].
  split; [cbn; rewrite (proj2 Hm'); exact Hd|]. split; [unfold is_transmitter; cbn; by rewrite Ek|].
  cbn [at_place goto sess]. rewrite Hp. split; [done|]. intros E. by rewrite E in Hp.
Qed.

Lemma open_kind_stays k s : busy s -> ids s + 1 < ulong_max -> stays 1 s (open_kind k s).
Proof.
  intros Hb Hn. pose proof (next_id_stays s Hb Hn) as H1.
  unfold open_kind, open_transmitter, open_transceiver, open_receiver.
  destruct (next_id s) as [q s2]. cbn [snd] in H1.
  repeat case_match; apply (stays_trans 1 0 _ s2); try done; apply send_resp_stays, H1.
Qed.

(** A session that starts on a new connection. *)
Definition restarted s (l : link) : Sess := with_pending (with_wire s l) (-1).

Lemma idle_restarted s l c :
  idle s -> link_ok l -> busy (restarted (with_conn s c) l).
Proof.
  intros [? ? ? Eq0 Es ?] Hl. split; [|unfold queue in *; cbn; by rewrite Eq0].
  split; try done; try by left.
  - intros k. unfold sent_map in *. cbn. rewrite Es. by rewrite dom_empty_L.
  - unfold sent_map in *. cbn. rewrite Es. apply map_Forall_empty.
Qed.

(** The pending counter and the throttling time can be reset before or after
    the bind is sent. *)
Lemma open_kind_reset k s l :
  with_pending (with_smpp (open_kind k (with_wire s l))
    (set_throttling (smpp (open_kind k (with_wire s l))) 0)) (-1)
  = with_smpp (open_kind k (restarted s l)) (set_throttling (smpp (open_kind k (restarted s l))) 0).
Proof. unfold open_kind. by repeat case_match. Qed.

Lemma connect_turned opened t :
  thread_ok t -> at_place t = Connect -> roomy t -> from_option link_ok True opened ->
  turned None t (connect_turn opened t).
Proof.
  intros (Hd & Hk & Hi & _) Hp Hr Hl. rewrite Hp in Hi. simpl in Hi. unfold connect_turn.
  destruct (quitting (smpp (sess t))) eqn:Eq.
  { apply turned_None; [|done|by apply modes_same]. split; [done|]. split; [done|]. split; [|done].
    destruct Hi as [? ? ? ? ? ?]. by split. }
  pose proof (fun l => idle_restarted (sess t) l (set_bind (conn (sess t)) 1 (mode_of (kind t))) Hi) as Hb.
  set (s1 := with_conn _ _) in *. assert (M1 : modes (sess t) s1) by by apply modes_same.
  destruct opened as [l|]; simpl in Hl.
  - rewrite open_kind_reset. set (s2 := open_kind _ _).
    assert (H2 : stays (1 + 0) (restarted s1 l) (with_smpp s2 (set_throttling (smpp s2) 0))).
    { apply (stays_trans 1 0 _ s2); [apply open_kind_stays; [by apply Hb|]|apply busy_same; try done].
      - unfold roomy, ids in *. cbn. lia.
      - apply open_kind_stays; [by apply Hb|]. unfold roomy, ids in *. cbn. lia. }
    destruct H2 as (B & Em & Hm & _ & _). apply turned_None; [|exact Em|by etrans].
    split; [cbn [sess]; rewrite (proj2 Hm); exact Hd|]. split; [done|]. split; [done|done].
  - apply turned_None; [|done|by apply modes_same]. split; [done|]. split; [done|]. split; [|done].
    destruct (Hb (wire s1) (id_link _ Hi)) as [B1 B2]. split; [|done].
    by apply (sess_ok_same (restarted s1 (wire s1))).
Qed.

Lemma wait_turned waited t :
  thread_ok t -> at_place t = Wait -> roomy t -> exists t', wait_turn waited t = Done t' /\ turned None t t'.
Proof.
  intros Hok Hp Hr. pose proof Hok as (Hd & Hk & Hb & _). rewrite Hp in Hb. simpl in Hb.
  unfold wait_turn, roomy in *. destruct (waited =? -1).
  { eexists. split; [done|]. by apply (turned_stays 0); [..|apply stays_refl]. }
  destruct (quitting (smpp (sess t))).
  - destruct (send_unbind_stays (sess t) Hb) as (s' & -> & Hs); [lia|]. cbn [mbind outcome_bind].
    eexists. split; [done|]. by apply (turned_stays 1).
  - pose proof (send_enquire_link_stays (sess t) (last_enquire_sent t) Hb ltac:(lia)) as Hs.
    destruct (send_enquire_link _ _) as [s1 last]. eexists. split; [done|]. by apply (turned_stays 1).
Qed.

Lemma read_pdu_spec l n ret n' p l' :
  link_ok l -> read_pdu l n = (ret, n', p, l') ->
  link_ok l' /\ (ret = 1 /\ is_Some p \/ (ret = 0 \/ ret = -1) /\ p = None).
Proof.
  intros Hl. unfold read_pdu. set (q := if n =? 0 then smpp_pdu_read_len l else (n, l)).
  assert (Hq : link_ok q.2) by (unfold q; case_match; [by apply read_len_law|done]).
  destruct q as [n1 l1]. cbn [snd] in Hq. destruct (n1 =? -1); [intros [= <- <- <- <-]; naive_solver|].
  destruct (n1 =? 0); [intros [= <- <- <- <-]; split; [done|]; case_match; naive_solver|].
  pose proof (read_data_law l1 n1 Hq) as Hd. destruct (smpp_pdu_read_data l1 n1) as [os l2]. cbn [snd] in Hd.
  destruct os as [os|]; [|intros [= <- <- <- <-]; split; [done|]; case_match; naive_solver].
  destruct (smpp_pdu_unpack os) as [p1|]; intros [= <- <- <- <-]; (split; [done|]); [by left|right; auto].
Qed.

Lemma read_step_spec t :
  busy (sess t) ->
  let '(ret, p, t') := read_step t in
  at_place t' = at_place t /\ kind t' = kind t /\ stays 0 (sess t) (sess t') /\
  (ret = 1 /\ is_Some p \/ (ret = 0 \/ ret = -1) /\ p = None).
Proof.
  intros Hb. pose proof Hb as [Hok Hq]. unfold read_step.
  destruct (read_pdu (wire (sess t)) (len t)) as [[[ret n'] p] l'] eqn:E.
  apply read_pdu_spec in E as [Hl' Hret]; [|apply (so_link _ Hok)].
  split; [done|]. split; [done|]. split; [|done]. split; [|split; [done|split; [by apply modes_same|]]].
  - split; [|done]. destruct Hok as [? ? ? ? ? ?]. by split.
  - unfold ids, queue. cbn. lia.
Qed.

Lemma show_status_stays t :
  busy (sess t) ->
  stays 0 (sess t) (sess (show_status sys_running t)) /\
  at_place (show_status sys_running t) = at_place t /\ kind (show_status sys_running t) = kind t.
Proof.
  intros Hb. unfold show_status. case_match; [|split; [by apply stays_refl|done]].
  split; [|done]. apply busy_same; try done. by apply world_msgs_emit_quiet.
Qed.

Lemma handle_pdu_stays s p :
  busy s -> expected s p -> exists s', handle_pdu s p = Done s' /\ stays 0 s s'.
Proof.
  intros Hb Hp. destruct (handle_pdu_keeps s p (proj1 Hb) Hp) as (s' & E & Hk).
  exists s'. split; [done|]. by apply stays_keeps; [..|apply (handle_pdu_settings _ _ _ E)].
Qed.

(** A thread that came to the point where it may send. *)
Definition before_sending t0 (r : bool * Thread) : Prop :=
  on_connection (at_place r.2) = true /\ kind r.2 = kind t0 /\
  exists k, 0 <= k <= 1 /\ stays k (sess t0) (sess r.2).

Lemma pdu_turned t0 p t :
  roomy t0 -> kind t = kind t0 -> stays 0 (sess t0) (sess t) -> expected (sess t) p ->
  exists r, pdu_turn sys_running p t = Done r /\ before_sending t0 r.
Proof.
  intros Hr Ek Hs Hp. unfold pdu_turn. cbn [sess set_response].
  destruct (handle_pdu_stays (sess t) p (proj1 Hs) Hp) as (s1 & -> & Hs1). cbn [mbind outcome_bind].
  set (t1 := goto (set_response t _) Read s1).
  destruct (show_status_stays t1 (proj1 Hs1)) as (Hs2 & Ep & Ek2). set (t2 := show_status _ t1) in *.
  assert (Hs3 : stays (0 + (0 + 0)) (sess t0) (sess t2)).
  { eapply stays_trans; [exact Hs|]. eapply stays_trans; [exact Hs1|exact Hs2]. }
  destruct (_ || _).
  - assert (Hn : ids (sess t2) + 1 < ulong_max) by (destruct Hs3 as (_ & _ & _ & ? & _); unfold roomy in Hr; lia).
    pose proof (send_enquire_link_stays (sess t2) (last_enquire_sent t2) (proj1 Hs3) Hn) as Hs4.
    destruct (send_enquire_link _ _) as [s4 last]. cbn [fst] in Hs4.
    eexists. split; [done|]. split; [done|]. split; [cbn; by rewrite Ek2|]. exists 1. split; [lia|].
    exact (stays_trans _ 1 _ _ _ Hs3 Hs4).
  - eexists. split; [done|]. split; [done|]. split; [cbn; by rewrite Ek2|]. exists 0. split; [lia|exact Hs3].
Qed.

Lemma do_queue_cleanup_stays s action :
  busy s -> exists r s', do_queue_cleanup s action = Done (r, s') /\ stays 0 s s'.
Proof.
  intros Hb. pose proof Hb as [Hok _].
  assert (Hsame : stays 0 s s) by by apply stays_refl.
  unfold do_queue_cleanup. destruct (_ <=? 0); [by exists 0, s|].
  destruct (Z.eqb_spec action SMPP_WAITACK_NEVER_EXPIRE); [by exists 0, s|].
  destruct (Z.eq_dec action SMPP_WAITACK_REQUEUE) as [->|H1].
  - destruct (cleanup_requeue_spec (items (store_keys (sent_msgs (smpp s)))) s Hok) as (s' & E & Hk & _).
    { apply (store_keys_spec s Hok). }
    exists 0, s'. split; [done|]. apply stays_keeps; [done..|]. by eapply cleanup_loop_settings.
  - destruct (Z.eq_dec action SMPP_WAITACK_RECONNECT) as [->|H2].
    + destruct (cleanup_reconnect_spec (items (store_keys (sent_msgs (smpp s)))) s Hok) as (r & E & _).
      by exists r, s.
    + exists 0, s. split; [|done]. by apply cleanup_unknown.
Qed.

Lemma idle_turned t0 t :
  kind t = kind t0 -> stays 0 (sess t0) (sess t) ->
  exists r, idle_turn t = Done r /\ before_sending t0 r.
Proof.
  intros Ek Hs.
  assert (H0 : forall b p, on_connection p = true -> before_sending t0 (b, goto t p (sess t))).
  { intros b p Hp. split; [done|]. split; [done|]. exists 0. split; [lia|exact Hs]. }
  unfold idle_turn. destruct (_ && _); [eexists; split; [done|by apply H0]|].
  destruct (_ && _); [|eexists; split; [done|by apply H0]].
  destruct (do_queue_cleanup_stays (sess t) (wait_ack_action (cfg (sess t))) (proj1 Hs)) as (r & s' & -> & Hs').
  cbn [mbind outcome_bind]. pose proof (stays_trans _ _ _ _ _ Hs Hs') as H2.
  destruct (negb _); (eexists; split; [done|]; split; [done|]; split; [done|]; exists 0; split; [lia|exact H2]).
Qed.

Lemma read_part_spec t :
  thread_ok t -> at_place t = Read -> roomy t -> polite t ->
  exists r, read_part sys_running t = Done r /\ before_sending t r.
Proof.
  intros Hok Hp Hr Hpol. pose proof Hok as (_ & _ & Hb & _). rewrite Hp in Hb. simpl in Hb.
  unfold read_part, polite in *. pose proof (read_step_spec t Hb) as H.
  destruct (read_step t) as [[ret p] t1]. destruct H as (Ep & Ek & Hs & [[-> [p' ->]]|[Hret ->]]).
  - cbn [must mbind outcome_bind Z.eqb Pos.eqb]. apply pdu_turned; try done. by apply Hpol.
  - destruct Hret as [->| ->]; cbn [Z.eqb].
    + by apply idle_turned.
    + eexists. split; [done|]. split; [done|]. split; [done|]. exists 0. split; [lia|done].
Qed.

Lemma read_turned t :
  thread_ok t -> at_place t = Read -> roomy t -> polite t ->
  exists t', read_turn sys_running t = Done t' /\ turned (turn_left sys_running t) t t'.
Proof.
  intros Hok Hp Hr Hpol. unfold read_turn, turn_left. rewrite Hp.
  destruct (read_part_spec t Hok Hp Hr Hpol) as ([b t1] & -> & Hc & Hk & k & Hk2 & Hs).
  cbn [mbind outcome_bind fst snd] in *. destruct b.
  - by apply (send_if_ready_turned t k t1).
  - eexists. split; [done|]. by apply (turned_stays k).
Qed.

Lemma quit_turned waited t :
  thread_ok t -> at_place t = Quit -> polite t ->
  exists t', quit_turn waited t = Done t' /\ turned None t t'.
Proof.
  intros Hok Hp Hpol. pose proof Hok as (_ & _ & Hb & _). rewrite Hp in Hb. simpl in Hb.
  unfold quit_turn, polite in *. pose proof (read_step_spec t Hb) as H.
  destruct (_ && _).
  2:{ eexists. split; [done|]. by apply (turned_stays 0); [..|apply stays_refl]. }
  destruct (read_step t) as [[ret p] t1]. destruct H as (Ep & Ek & Hs & [[-> [p' ->]]|[Hret ->]]).
  - cbn [must mbind outcome_bind Z.eqb Pos.eqb].
    destruct (handle_pdu_stays (sess t1) p' (proj1 Hs)) as (s2 & -> & Hs2); [by apply Hpol|].
    cbn [mbind outcome_bind]. eexists. split; [done|].
    apply (turned_stays (0 + 0)); try done. by apply (stays_trans 0 0 _ (sess t1)).
  - exists t1. destruct Hret as [->| ->]; (split; [done|]); by apply (turned_stays 0); [|rewrite Ep, Hp|..].
Qed.

Lemma sendable_has_pdu m : sendable m -> has_pdu m.
Proof. intros (i & packed & h & b & r & x & Hi & Hpk & _). by exists i, packed. Qed.

Lemma leave_turned c t :
  thread_ok t -> at_place t = Leave c ->
  exists t', leave_turn sys_running c t = Done t' /\ turned None t t'.
Proof.
  intros Hok Hp. pose proof Hok as (Hd & Htr & Hb & _). rewrite Hp in Hb. simpl in Hb. destruct Hb as [Hb Hq].
  unfold leave_turn. rewrite Htr.
  destruct (leave_connection_drains (sess t) c Hb) as (s' & E & Eq & Es & Ec & D).
  { eapply Forall_impl; [exact Hq|]. apply sendable_has_pdu. }
  rewrite E. cbn [mbind outcome_bind]. apply leave_connection_settings in E as [Hm _].
  destruct D as (Em & _ & _ & Ew & En & Hst).
  assert (Hi : idle s').
  { split; try done; [by apply Hst, Hb|rewrite Ew; apply Hb|rewrite En; apply Hb|by rewrite Ec]. }
  assert (Hd' : dndcheck_flag (world s') = 0) by by rewrite (proj2 Hm).
  destruct (quitting (smpp s')).
  - eexists. split; [done|]. apply turned_None; [|exact Em|exact Hm]. by split_and!.
  - eexists. split; [done|]. unfold show_status. destruct (sys_running && _).
    + apply turned_None; [|etrans; [|exact Em]|].
      * split_and!; try done. destruct Hi. by split.
      * apply sess_msgs_same; try done. cbn. by rewrite world_msgs_emit_quiet.
      * etrans; [exact Hm|]. by apply modes_same.
    + apply turned_None; [|exact Em|exact Hm]. by split_and!.
Qed.

(** Every turn goes well. *)
Lemma turn_turned opened waited t :
  thread_ok t -> roomy t -> polite t -> from_option link_ok True opened ->
  exists t', turn sys_running opened waited t = Done t' /\ turned (turn_left sys_running t) t t'.
Proof.
  intros Hok Hr Hpol Hl.
  assert (Hleft : at_place t <> Read -> turn_left sys_running t = None)
    by (intros Hn; unfold turn_left; by destruct (at_place t)).
  unfold turn. destruct (at_place t) eqn:Hp; try (rewrite Hleft by done).
  - eexists. split; [done|]. by apply connect_turned.
  - by apply wait_turned.
  - by apply read_turned.
  - by apply quit_turned.
  - by apply leave_turned.
  - eexists. split; [done|]. destruct Hok as (Hd & Htr & Hi & _). rewrite Hp in Hi. by apply turned_None.
  - eexists. split; [done|]. by apply turned_None.
Qed.

(** ** The others *)

(** What the others do to a session between two turns: the router queues
    messages that can be sent while the connection is active, the session
    may be told to quit, data arrives, time passes, and the other threads use
    the shared queue.  [entered] and [taken] are the messages that come to
    the session or the shared queue, and those that leave the shared queue. *)
Record others s s' (entered taken : list (option (list (option (list Z))))) : Prop := {
  ot_table : sent_msgs (smpp s') = sent_msgs (smpp s);
  ot_counter : message_id_counter (smpp s') = message_id_counter (smpp s);
  ot_modes : modes s s';
  ot_status : status (conn s') = status (conn s);
  ot_wire : link_ok (wire s) -> link_ok (wire s');
  ot_pending : pending_submits s' = pending_submits s;
  ot_time : now (world s) <= now (world s');
  ot_queue : exists ms more, queue s' = queue s ++ ms /\ Forall sendable ms /\
    (ms <> [] -> status (conn s) = SMSCCONN_ACTIVE) /\ entered = (msg_ident <$> ms) ++ more /\
    world_msgs (world s') ++ taken ≡ₚ world_msgs (world s) ++ more
}.

(** The thread is at its place while the others act. *)
Definition with_sess t s : Thread := goto t (at_place t) s.

Lemma others_ok t s' entered taken :
  thread_ok t -> others (sess t) s' entered taken ->
  thread_ok (with_sess t s') /\ sess_msgs s' ++ taken ≡ₚ entered ++ sess_msgs (sess t).
Proof.
  intros (Hd & Htr & Hs & He) [E1 E2 E3 E4 E5 E6 E7 (ms & more & Eq & Hms & Hact & -> & Ew)].
  assert (Em : sent_map s' = sent_map (sess t)) by (unfold sent_map; by rewrite E1).
  split; [split; [by cbn; rewrite (proj2 E3)|split; [done|split]]|].
  - cbn [at_place with_sess goto sess]. destruct (on_connection (at_place t)).
    + destruct Hs as [[? Hl ? ? ? ?] Hq]. split.
      * split; rewrite ?Em, ?E1, ?E2, ?E6; try done. by apply E5.
      * rewrite Eq. by apply Forall_app.
    + destruct Hs as [? Hl ? Hq ? Hst]. split; rewrite ?Em, ?E1, ?E2, ?E4; try done; [by apply E5|].
      rewrite Eq, Hq. destruct ms as [|m ms]; [done|]. by destruct Hst; apply Hact.
  - intros Hp. destruct (He Hp) as [H1 H2]. cbn [sess with_sess goto]. rewrite E4. split; [done|].
    by apply (proj1 E3).
  - unfold sess_msgs. unfold queue in Eq. rewrite Em, Eq, fmap_app. rewrite <-!app_assoc, Ew. solve_Permutation.
Qed.

(** The runs of the thread among the others: what came, what went, and the
    messages that turns left over. *)
Inductive run (t0 : Thread) : list (option (list (option (list Z)))) ->
    list (option (list (option (list Z)))) -> list (option (list (option (list Z)))) -> Thread -> Prop :=
| run_start : run t0 [] [] [] t0
| run_turn entered taken lost t t' opened waited :
    run t0 entered taken lost t -> roomy t -> polite t -> from_option link_ok True opened ->
    turn sys_running opened waited t = Done t' ->
    run t0 entered taken (left_ident (turn_left sys_running t) ++ lost) t'
| run_others entered taken lost t s' e k :
    run t0 entered taken lost t -> others (sess t) s' e k ->
    run t0 (e ++ entered) (taken ++ k) lost (with_sess t s').

Lemma run_ok t0 entered taken lost t :
  thread_ok t0 -> run t0 entered taken lost t ->
  thread_ok t /\ sess_msgs (sess t) ++ taken ++ lost ≡ₚ entered ++ sess_msgs (sess t0) /\
  (writes_through -> lost = []).
Proof.
  intros H0 Hrun. induction Hrun as [|e k l t t' o w Hrun (IH1 & IH2 & IH3) Hr Hp Hl E
                                     |e k l t s' e1 k1 Hrun (IH1 & IH2 & IH3) Ho].
  - split; [done|]. by rewrite !app_nil_r.
  - destruct (turn_turned o w t IH1 Hr Hp Hl) as (t1 & E1 & Hok & Em & _ & Hth). rewrite E in E1.
    injection E1 as <-. split; [done|]. split.
    + rewrite <-IH2, <-Em. solve_Permutation.
    + intros Hw. by rewrite (Hth Hw), (IH3 Hw).
  - destruct (others_ok t s' e1 k1 IH1 Ho) as [Hok Em]. split; [done|]. split; [|done].
    cbn [sess with_sess goto]. rewrite <-(app_assoc e1), <-IH2, <-!app_assoc.
    rewrite (app_assoc e1), <-Em. solve_Permutation.
Qed.

(** C2 What becomes of the messages of a connection's thread.  In every state
    it can reach among the other threads - the router queuing messages, the
    administrator ending the session, the SMSC sending PDUs, the clock - the
    messages it is responsible for, with those that left the shared queue and
    those that its turns left over, are those it had at first and those that
    came: each in the send queue, in the table of unanswered messages, in the
    shared queue or destroyed on purpose.  A message is left over when
    [conn_write] does not return 0 for its PDU, also when the PDU waits in the
    output buffer ([turn_left]; [send_messages_window] says what that means);
    when every write returns 0, none is.  On a connection the invariant of
    the session holds; without a connection nothing is held by the session;
    at its end the connection is dead.  The next turn never stops the process.

    This is about the thread of a transmitter or transceiver while
    [dndcheck_flag] is 0, messages that can be sent, PDUs from the SMSC that
    the session expects ([polite]: answers name an identifier where
    identifiers are converted, and a bind is not accepted while messages are
    unanswered), and fewer than 2^64 sequence numbers ([roomy]). *)
Theorem io_thread_loses_nothing t0 entered taken lost t
    (H0 : thread_ok t0) (Hrun : run t0 entered taken lost t) :
  sess_msgs (sess t) ++ taken ++ lost ≡ₚ entered ++ sess_msgs (sess t0) /\
  (writes_through -> lost = []) /\
  (if on_connection (at_place t) then sess_ok (sess t)
   else items (msgs_to_send (smpp (sess t))) = [] /\ sent_map (sess t) = ∅) /\
  (at_place t = Ended -> status (conn (sess t)) = SMSCCONN_DEAD) /\
  (forall opened waited, roomy t -> polite t -> from_option link_ok True opened ->
     exists t', turn sys_running opened waited t = Done t').
Proof.
  destruct (run_ok t0 entered taken lost t H0 Hrun) as (Hok & Em & Hth).
  split; [done|]. split; [done|]. split; [|split].
  - destruct Hok as (_ & _ & Hs & _). destruct (on_connection _); [apply Hs|]. by destruct Hs.
  - intros Hp. by apply Hok.
  - intros o w Hr Hp Hl. destruct (turn_turned o w t Hok Hr Hp Hl) as (t' & E & _). by exists t'.
Qed.

(** ** The end of the thread *)

(** A step of an execution: a turn of the thread, or the others. *)
Definition is_turn t t' : Prop :=
  exists opened waited, roomy t /\ polite t /\ from_option link_ok True opened /\
    turn sys_running opened waited t = Done t'.
Definition is_others t t' : Prop := exists s' e k, others (sess t) s' e k /\ t' = with_sess t s'.

Lemma quit_turn_stays waited t t' :
  at_place t = Quit -> quit_turn waited t = Done t' ->
  at_place t' = Leave true \/
  (at_place t' = Quit /\ last_response t' = last_response t /\
   now (world (sess t)) - last_response t < SMPP_DEFAULT_SHUTDOWN_TIMEOUT).
Proof.
  intros Hp. unfold quit_turn. destruct (_ && _) eqn:Eb; [|intros [= <-]; by left].
  intros H. right. apply andb_true_iff in Eb as [[_ Ht%Z.ltb_lt]%andb_true_iff _].
  revert H. unfold read_step. destruct (read_pdu _ _) as [[[ret n'] p] l'].
  destruct (ret =? 1); [|by intros [= <-]]. intros H. apply bind_Done in H as (p' & _ & H). apply bind_Done in H as (s2 & _ & H). by injection H as <-.
Qed.

Section Execution.
Context (e : nat -> Thread) (Hsteps : forall i, is_turn (e i) (e (Datatypes.S i)) \/ is_others (e i) (e (Datatypes.S i)))
  (Hstart : thread_ok (e 0%nat)) (Hturns : forall i, exists j, (i <= j)%nat /\ is_turn (e j) (e (Datatypes.S j)))
  (q : nat) (Hquit : quitting (smpp (sess (e q))) = true).

Lemma step_facts i :
  thread_ok (e i) -> thread_ok (e (Datatypes.S i)) /\ modes (sess (e i)) (sess (e (Datatypes.S i))).
Proof.
  intros Hok. destruct (Hsteps i) as [(o & w & Hr & Hp & Hl & E)|(s' & en & k & Ho & ->)].
  - destruct (turn_turned o w (e i) Hok Hr Hp Hl) as (t' & E' & Hok' & _ & Hm & _). rewrite E in E'.
    by injection E' as <-.
  - split; [by eapply others_ok|]. apply Ho.
Qed.

Lemma always_ok i : thread_ok (e i).
Proof. induction i as [|i IH]; [done|]. by apply step_facts. Qed.

Lemma goes_on_quitting j : (q <= j)%nat -> quitting (smpp (sess (e j))) = true.
Proof.
  induction 1 as [|j _ IH]; [done|]. by apply (step_facts j (always_ok j)).
Qed.

(** The next turn finds the thread where it is. *)
Lemma next_turn j :
  exists k, (j <= k)%nat /\ is_turn (e k) (e (Datatypes.S k)) /\ at_place (e k) = at_place (e j) /\
    last_response (e k) = last_response (e j).
Proof.
  destruct (Hturns j) as (k & Hk & Ht). revert Ht. remember (k - j)%nat as d eqn:Ed. revert j Hk Ed.
  induction d as [|d IH]; intros j Hk Ed Ht.
  { exists j. replace k with j in Ht by lia. done. }
  destruct (Hsteps j) as [Hj|(s' & en & l & _ & Ej)]; [by exists j|].
  destruct (IH (Datatypes.S j)) as (k' & Hk' & Ht' & E1 & E2); [lia|lia|done|].
  exists k'. rewrite E1, E2, Ej. split; [lia|done].
Qed.

(** Where a turn of a thread that is told to quit leads. *)
Lemma quitting_turn t t' :
  quitting (smpp (sess t)) = true -> thread_ok t -> is_turn t t' ->
  match at_place t with
  | Connect | Ended => at_place t' = Ended
  | Wait => at_place t' = Quit \/ at_place t' = Leave true
  | Quit => at_place t' = Leave true \/
      (at_place t' = Quit /\ last_response t' = last_response t /\
       now (world (sess t)) - last_response t < SMPP_DEFAULT_SHUTDOWN_TIMEOUT)
  | Leave _ | Sleep => at_place t' = Connect
  | Read => True
  end.
Proof.
  intros Hq Hok (o & w & Hr & Hp & Hl & E). unfold turn in E. destruct (at_place t) eqn:Ep; try done.
  - injection E as <-. unfold connect_turn. by rewrite Hq.
  - unfold wait_turn in E. rewrite Hq in E. destruct (w =? -1); [injection E as <-; by right|].
    apply bind_Done in E as (s' & _ & E). injection E as <-. by left.
  - by eapply quit_turn_stays.
  - unfold leave_turn in E. apply bind_Done in E as (s' & E1 & E).
    apply leave_connection_settings in E1 as [[Hq' _] _]. rewrite (Hq' Hq) in E. by injection E as <-.
  - by injection E as <-.
  - by injection E as <-.
Qed.

Lemma leaves_to j :
  (q <= j)%nat -> at_place (e j) <> Read ->
  exists k, (j < k)%nat /\
    match at_place (e j) with
    | Connect | Ended => at_place (e k) = Ended
    | Wait => at_place (e k) = Quit \/ at_place (e k) = Leave true
    | Leave _ | Sleep => at_place (e k) = Connect
    | _ => True
    end.
Proof.
  intros Hj Hn. destruct (next_turn j) as (k & Hk & Ht & Ep & _). exists (Datatypes.S k). split; [lia|].
  pose proof (quitting_turn (e k) (e (Datatypes.S k)) (goes_on_quitting k ltac:(lia)) (always_ok k) Ht) as H.
  rewrite Ep in H. by destruct (at_place (e j)).
Qed.

Lemma quit_leaves (late : nat) (r : Z)
    (Hlate : forall k, (late <= k)%nat -> r + SMPP_DEFAULT_SHUTDOWN_TIMEOUT <= now (world (sess (e k)))) :
  forall d j, (late - j <= d)%nat -> (q <= j)%nat -> at_place (e j) = Quit -> last_response (e j) = r ->
  exists k, (j < k)%nat /\ at_place (e k) = Leave true.
Proof.
  induction d as [|d IH]; intros j Hd Hj Ep Er; destruct (next_turn j) as (k & Hk & Ht & Ek & El);
    pose proof (quitting_turn (e k) (e (Datatypes.S k)) (goes_on_quitting k ltac:(lia)) (always_ok k) Ht) as H;
    rewrite Ek, Ep, El, Er in H; destruct H as [H|(H1 & H2 & H3)]; try (exists (Datatypes.S k); split; [lia|done]).
  - pose proof (Hlate k ltac:(lia)). lia.
  - destruct (IH (Datatypes.S k)) as (k' & Hk' & E); try done; [|lia|exists k'; split; [lia|done]].
    destruct (decide (late <= k)%nat) as [Hl|Hl]; [pose proof (Hlate k Hl); lia|lia].
Qed.

End Execution.

(** C17 A thread that is told to quit ends: in every execution in which the
    thread gets its turns, the clock goes beyond every bound and the SMSC
    does not keep the thread reading without pause, the thread reaches its
    end after the session is told to quit.  Like [io_thread_loses_nothing],
    this is about the thread of a transmitter or transceiver while
    [dndcheck_flag] is 0, messages that can be sent, PDUs that the session
    expects and fewer than 2^64 sequence numbers; writes may have any
    result. *)
Theorem io_thread_ends (e : nat -> Thread) (q : nat)
    (Hsteps : forall i, is_turn (e i) (e (Datatypes.S i)) \/ is_others (e i) (e (Datatypes.S i)))
    (Hstart : thread_ok (e 0%nat))
    (Hturns : forall i, exists j, (i <= j)%nat /\ is_turn (e j) (e (Datatypes.S j)))
    (Hclock : forall z, exists i, forall j, (i <= j)%nat -> z <= now (world (sess (e j))))
    (Hpause : forall i, exists j, (i <= j)%nat /\ at_place (e j) <> Read)
    (Hquit : quitting (smpp (sess (e q))) = true) :
  exists j, (q <= j)%nat /\ at_place (e j) = Ended.
Proof.
  assert (Hto : forall j, (q <= j)%nat -> at_place (e j) <> Read -> _) by exact (leaves_to e Hsteps Hstart Hturns q Hquit).
  assert (Hc : forall j, (q <= j)%nat -> at_place (e j) = Connect -> exists k, (q <= k)%nat /\ at_place (e k) = Ended).
  { intros j Hj Ep. destruct (Hto j Hj) as (k & Hk & H); [by rewrite Ep|]. rewrite Ep in H. exists k. split; [lia|done]. }
  assert (Hl : forall j c, (q <= j)%nat -> at_place (e j) = Leave c -> exists k, (q <= k)%nat /\ at_place (e k) = Ended).
  { intros j c Hj Ep. destruct (Hto j Hj) as (k & Hk & H); [by rewrite Ep|]. rewrite Ep in H. apply (Hc k); [lia|done]. }
  assert (Hq : forall j, (q <= j)%nat -> at_place (e j) = Quit -> exists k, (q <= k)%nat /\ at_place (e k) = Ended).
  { intros j Hj Ep. destruct (Hclock (last_response (e j) + SMPP_DEFAULT_SHUTDOWN_TIMEOUT)) as [late Hlate].
    destruct (quit_leaves e Hsteps Hstart Hturns q Hquit late _ Hlate (late - j) j) as (k & Hk & E); try done.
    apply (Hl k true); [lia|done]. }
  destruct (Hpause q) as (j & Hj & Hn). destruct (at_place (e j)) eqn:Ep; try done.
  - by apply (Hc j).
  - destruct (Hto j Hj) as (k & Hk & H); [by rewrite Ep|]. rewrite Ep in H.
    destruct H as [H|H]; [apply (Hq k)|apply (Hl k true)]; (lia || done).
  - by apply (Hq j).
  - by apply (Hl j connected).
  - destruct (Hto j Hj) as (k & Hk & H); [by rewrite Ep|]. rewrite Ep in H. apply (Hc k); [lia|done].
  - by exists j.
Qed.

End Thread.
