(* ===== verification/IoThreadExamples.v ===== *)
(** * The thread of a connection on examples

    A connection that takes everything at once and a session with one
    unanswered and one queued message; the witnesses of the theorems about
    the thread. *)

From S2P Require Import Prelude Gwlib Counter Dict Charset World SmscConn SmppSession.
From S2P Require Import SessionFacts SessionExamples IoThread IoThreadFacts.
Open Scope Z_scope.

(** Everything that was written; nothing arrives. *)
#[local] Instance direct_link : Link list_octstr := {|
  link := list Z;
  link_ok _ := True;
  link_stream l := l;
  SmppSession.conn_write l o := (0, l ++ octets o);
  SmppSession.conn_eof _ := false;
  SmppSession.conn_error _ := false;
  smpp_pdu_read_len l := (0, l);
  smpp_pdu_read_data l _ := (None, l);
|}.

#[local] Instance direct_link_laws : LinkLaws direct_link.
Proof. split. intros l o _. split; [done|]. split; [done|]. by left. Qed.

#[local] Instance direct_link_reads : LinkReads direct_link.
Proof. by split. Qed.

Lemma direct_through : writes_through (P:=toy_pdus) (K:=direct_link).
Proof. split; [done|]. by intros []. Qed.

Lemma unbind_packed (h : header) : is_Some (smpp_pdu_pack (PduLib:=toy_pdus) (unbind (O:=list_octstr) h)).
Proof. by eexists. Qed.

Definition direct_sess (p : SMPP (O:=list_octstr) (L:=list_gwlist)) (pending : Z) (w : World)
    : Sess (O:=list_octstr) (L:=list_gwlist) (K:=direct_link) :=
  MkSess (O:=list_octstr) (L:=list_gwlist) (K:=direct_link) p idle_conn [] pending w.

Definition thread_at (p : place) (s : Sess (O:=list_octstr) (L:=list_gwlist) (K:=direct_link)) : Thread :=
  MkThread p s 1 0 0 0 0 SMSCCONN_CONNECTING.

(** ** A connection that ends *)

Definition held_sess : Sess (K:=direct_link) :=
  direct_sess (sample_smpp [sample_msg] sample_store) 1 sample_world.

Lemma held_ok : thread_ok (P:=toy_pdus) (thread_at Wait held_sess).
Proof.
  destruct (waiting_sess_ok [sample_msg]) as [H1 _ H2 H3 H4 H5].
  split; [done|]. split; [done|]. split; [|done]. split; [by split|].
  repeat constructor. apply sample_sendable.
Qed.

Lemma nothing_arrives (t : Thread (K:=direct_link)) : len t = 0 -> polite (P:=toy_pdus) t.
Proof. intros E. unfold polite, read_step, read_pdu. rewrite E. done. Qed.

Definition left_thread : Thread (K:=direct_link) :=
  goto (thread_at Wait held_sess) (Leave true) held_sess.

Lemma left_place :
  match leave_turn true true left_thread with Done t => at_place t = Sleep | Panic => False end.
Proof. vm_compute. reflexivity. Qed.

Lemma io_thread_loses_nothing_witness :
  exists t lost,
    run (P:=toy_pdus) true (thread_at Wait held_sess) [] [] lost t /\ at_place t = Sleep /\
    sess_msgs (sess t) ++ [] ++ lost ≡ₚ [] ++ sess_msgs held_sess /\ lost = [] /\
    items (msgs_to_send (smpp (sess t))) = [] /\ sent_map (sess t) = ∅.
Proof.
  assert (R1 : run (P:=toy_pdus) true (thread_at Wait held_sess) [] []
    (left_ident (turn_left true (thread_at Wait held_sess)) ++ []) left_thread).
  { apply (run_turn true _ [] [] [] (thread_at Wait held_sess) left_thread None (-1)).
    - apply run_start.
    - vm_compute. reflexivity.
    - by apply nothing_arrives.
    - exact I.
    - reflexivity. }
  pose proof left_place as Hp. destruct (leave_turn true true left_thread) as [t2|] eqn:E2; [|done].
  set (lost := left_ident (turn_left true left_thread) ++ left_ident (turn_left true (thread_at Wait held_sess)) ++ []).
  assert (R2 : run (P:=toy_pdus) true (thread_at Wait held_sess) [] [] lost t2).
  { apply (run_turn true _ [] [] _ left_thread t2 None 0).
    - exact R1.
    - vm_compute. reflexivity.
    - by apply nothing_arrives.
    - exact I.
    - exact E2. }
  destruct (io_thread_loses_nothing true unbind_packed (thread_at Wait held_sess) [] [] _ t2 held_ok R2)
    as (H1 & Hl & H2 & _).
  rewrite Hp in H2. exists t2, lost. exact (conj R2 (conj Hp (conj H1 (conj (Hl direct_through) H2)))).
Defined.

(** ** A session that is told to quit *)

Definition clock_at (z : Z) : World (O:=list_octstr) (L:=list_gwlist) :=
  MkWorld z CLIENT_RUNNING [] 0 (-1) counter_create counter_create None 0 [].

Definition told (z : Z) : Sess (K:=direct_link) :=
  with_conn (direct_sess (set_quitting (sample_smpp [] (dict_create 2 false))) (-1) (clock_at z))
    (set_status idle_conn SMSCCONN_CONNECTING).

Definition dead (z : Z) : Thread (K:=direct_link) :=
  thread_at Ended (with_conn (told z) (set_status (conn (told z)) SMSCCONN_DEAD)).

(** The thread ends; then its turns and the ticks of the clock alternate. *)
Definition ending (i : nat) : Thread (K:=direct_link) :=
  match i with 0%nat => thread_at Connect (told 0) | _ => dead (Z.of_nat (i / 2)) end.

Lemma ending_turn i : Nat.even i = true -> is_turn (P:=toy_pdus) true (ending i) (ending (S i)).
Proof.
  intros Hi. exists None, 0. destruct i as [|i].
  { split; [vm_compute; reflexivity|]. split; [by apply nothing_arrives|]. split; [exact I|reflexivity]. }
  split; [vm_compute; reflexivity|]. split; [by apply nothing_arrives|]. split; [exact I|].
  assert (E : (S (S i) / 2 = S i / 2)%nat).
  { apply Nat.even_spec in Hi as [k Hk]. rewrite Hk.
    replace (S (2 * k)) with (1 + k * 2)%nat by lia. rewrite Nat.div_add by done.
    by rewrite Nat.mul_comm, Nat.div_mul. }
  unfold ending. by rewrite E.
Qed.

Lemma ending_tick i : Nat.even i = false -> is_others (P:=toy_pdus) (ending i) (ending (S i)).
Proof.
  intros Hi. destruct i as [|i]; [done|]. exists (sess (ending (S (S i)))), [], []. split; [|done].
  split; try done.
  - unfold ending, dead. cbn [sess thread_at world told with_conn direct_sess clock_at now].
    apply inj_le, Nat.Div0.div_le_mono. lia.
  - exists [], []. done.
Qed.

Lemma io_thread_ends_witness : exists j, (0 <= j)%nat /\ at_place (ending j) = Ended.
Proof.
  apply (io_thread_ends (P:=toy_pdus) true unbind_packed ending 0).
  - intros i. destruct (Nat.even i) eqn:Hi; [left; by apply ending_turn|right; by apply ending_tick].
  - split; [done|]. split; [done|]. split; [|done].
    split; try done; apply dict_create_wf; lia.
  - intros i. exists (2 * i)%nat. split; [lia|]. apply ending_turn.
    apply Nat.even_spec. by exists i.
  - intros z. exists (S (2 * Z.to_nat z)). intros j Hj. destruct j as [|j]; [lia|].
    unfold ending, dead. cbn [sess thread_at world told with_conn direct_sess clock_at now].
    pose proof (Nat.Div0.div_le_mono (2 * Z.to_nat z) (S j) 2 ltac:(lia)) as H.
    rewrite Nat.mul_comm, Nat.div_mul in H by done. lia.
  - intros i. exists (S i). split; [lia|discriminate].
  - reflexivity.
Defined.
