(* ===== verification/Router.v ===== *)
(** * The message router (smpp-smsc/smsc.c)

    The router thread takes the messages of the shared queue one after the
    other, destroys those that must not be sent again and hands the others to
    an SMSC connection: the first usable preferred one, or the usable allowed
    one with the lowest load.  The connections are used through the interface
    [Driver] of [SmscConn].  The SMSC lists of a message are C arrays ended
    by -1; reading or writing outside of them is undefined. *)

From S2P Require Import Prelude Gwlib Counter World SmscConn.
Open Scope Z_scope.

(** ** Arrays ended by -1 *)

(** The elements before the end mark, [None] without a mark. *)
Fixpoint until_end (l : list Z) : option (list Z) :=
  match l with
  | [] => None
  | x :: l => if x =? -1 then Some [] else cons x <$> until_end l
  end.

Definition array_set (l : list Z) (i x : Z) : outcome (list Z) :=
  if (0 <=? i) && (i <? Z.of_nat (length l)) then Done (<[Z.to_nat i:=x]> l) else Panic.

Definition array_at (l : list Z) (i : Z) : outcome Z :=
  if i <? 0 then Panic else must (l !! Z.to_nat i).

Section Router.
Context {O : OctstrLib} {L : GwListLib} {R : PduRest} {P : PduLib O R} {PX : PrefixLib O}
  {D : Type} {V : Driver D}.

(** The variables of [smsc.c]: the connections by position, and the limits. *)
Record Router : Type := MkRouter {
  rworld : World;
  smsc_list : list (SMSCConn D);
  max_msg_duration : Z;
  max_retry_limit : Z
}.

Definition with_rworld (r : Router) (w : World) : Router :=
  MkRouter w (smsc_list r) (max_msg_duration r) (max_retry_limit r).
Definition with_list (r : Router) (l : list (SMSCConn D)) : Router :=
  MkRouter (rworld r) l (max_msg_duration r) (max_retry_limit r).
Definition set_nth (r : Router) (i : Z) (c : SMSCConn D) : Router :=
  with_list r (<[Z.to_nat i:=c]> (smsc_list r)).

(** [gwlist_get(smsc_list, i)] followed by a use of the connection. *)
Definition get_conn (r : Router) (i : Z) : outcome (SMSCConn D) :=
  if i <? 0 then Panic else must (smsc_list r !! Z.to_nat i).

(** [smscconn_info] on connection [i]. *)
Definition conn_info (r : Router) (i : Z) : outcome (StatusInfo * Router) :=
  c ← get_conn r i;
  let '(inf, c) := smscconn_info c (rworld r) in
  Done (inf, set_nth r i c).

Definition conn_send (r : Router) (i : Z) (m : Msg) : outcome (Z * Router) :=
  c ← get_conn r i;
  '(ret, c, w) ← smscconn_send c (rworld r) m;
  Done (ret, with_rworld (set_nth r i c) w).

Definition destroy (r : Router) (m : Msg) : Router := with_rworld r (emit (rworld r) (EvDestroy m)).

(** [smsc_length]: the number of active connections. *)
Definition smsc_length (r : Router) : Z * Router :=
  let l := (fun c => smscconn_info c (rworld r)) <$> smsc_list r in
  (Z.of_nat (length (List.filter (fun p => bool_decide (info_status p.1 = SMSCCONN_ACTIVE)) l)),
   with_list r (snd <$> l)).

(** ** Routing one message *)

(** The loop over the preferred SMSCs: [Some] result when the function
    returns from inside of it. *)
Fixpoint route_preferred (l : list Z) (rd : forward_queue_data) (m : Msg) (r : Router)
    : outcome (option Z * Msg * Router) :=
  match l with
  | [] => Panic
  | x :: l =>
      if x =? -1 then Done (None, m, r) else
      '(inf, r) ← conn_info r x;
      if negb (bool_decide (info_status inf = SMSCCONN_ACTIVE)) then
        if bool_decide (smpp_client_status (rworld r) = CLIENT_SHUTDOWN)
        then Done (Some (-1), m, destroy r m)
        else route_preferred l rd m r
      else
        c ← get_conn r x;
        if smscconn_usable c rd =? -1 then route_preferred l rd m r else
        let m := set_state m MSG_NOT_SENT in
        '(ret, r) ← conn_send r x m;
        if ret =? -1 then route_preferred l rd m r
        else Done (Some 1, m, destroy r m)
  end.

(** What the loop over the allowed SMSCs remembers: [best_ok] with its load
    [bo_sent], and [bad_found]. *)
Record best : Type := MkBest { best_ok : option Z; bo_sent : Z; bad_found : bool }.

(** [for (i = 0; i < allowed_smsc_len; i++)] *)
Fixpoint route_allowed (fuel : nat) (i : Z) (rd : forward_queue_data) (b : best) (r : Router)
    : outcome (best * Router) :=
  match fuel with
  | 0%nat => Done (b, r)
  | Datatypes.S fuel =>
      let b := MkBest (best_ok b) (bo_sent b) false in
      selected_position ← array_at (allowed_smsc rd) i;
      '(inf, r) ← conn_info r selected_position;
      if negb (bool_decide (info_status inf = SMSCCONN_ACTIVE)) then
        route_allowed fuel (i + 1) rd (MkBest (best_ok b) (bo_sent b) true) r
      else
        c ← get_conn r selected_position;
        if smscconn_usable c rd =? -1 then route_allowed fuel (i + 1) rd b r
        else if bool_decide (best_ok b = None) || (info_load inf <? bo_sent b) then
          route_allowed fuel (i + 1) rd (MkBest (Some selected_position) (info_load inf) false) r
        else route_allowed fuel (i + 1) rd b r
  end.

(** [smsc2_rout].  [stack] is the value that the variable [allowed_smsc_len]
    happens to have: it is not initialised and keeps it when there is no
    allowed SMSC.  [fuel] bounds the calls of the function by itself. *)
Fixpoint smsc2_rout (fuel : nat) (stack : Z) (m : Msg) (r : Router) : outcome (Z * Router) :=
  match fuel with
  | 0%nat => Panic
  | Datatypes.S fuel =>
      if (length (smsc_list r) =? 0)%nat then Done (-1, r) else
      rd ← must (routing_info m);
      '(res, m, r) ← route_preferred (preferred_smsc rd) rd m r;
      match res with
      | Some ret => Done (ret, r)
      | None =>
          allowed ← must (until_end (allowed_smsc rd));
          let allowed_smsc_len :=
            match allowed with [] => stack | _ => Z.of_nat (length allowed) end in
          '(b, r) ← route_allowed (Z.to_nat allowed_smsc_len) 0 rd (MkBest None 0 false) r;
          match best_ok b with
          | Some x =>
              let m := set_state m MSG_NOT_SENT in
              '(ret, r) ← conn_send r x m;
              if ret =? -1 then smsc2_rout fuel stack m r else Done (1, destroy r m)
          | None =>
              if bad_found b then
                Done (0, if bool_decide (smpp_client_status (rworld r) = CLIENT_SHUTDOWN) then r
                         else with_rworld r (produce_outgoing_msg (rworld r) m))
              else
                Done ((if bool_decide (smpp_client_status (rworld r) = CLIENT_SHUTDOWN)
                       then 0 else -1), r)
          end
      end
  end.

(** ** The router thread *)

(** The local variables of [msg_router] that survive from one message to the
    next. *)
Record locals : Type := MkLocals { preferred_nos : Z; allowed_nos : Z }.

(** [for (j = 0; l[j] != -1; j++) nos = j + 1;] *)
Definition count_list (l : list Z) (nos : Z) : outcome Z :=
  xs ← must (until_end l);
  Done (match xs with [] => nos | _ => Z.of_nat (length xs) end).

(** The loop that appends the preferred SMSCs to the allowed ones. *)
Fixpoint move_preferred (k : nat) (j ret : Z) (pref allowed : list Z)
    : outcome (list Z * list Z * Z) :=
  match k with
  | 0%nat => Done (pref, allowed, ret)
  | Datatypes.S k =>
      x ← array_at pref j;
      allowed ← array_set allowed ret x;
      pref ← array_set pref j (-1);
      move_preferred k (j + 1) (ret + 1) pref allowed
  end.

Definition merge_lists (lc : locals) (rd : forward_queue_data)
    : outcome (forward_queue_data * locals) :=
  p ← count_list (preferred_smsc rd) (preferred_nos lc);
  a ← count_list (allowed_smsc rd) (allowed_nos lc);
  '(pref, allowed, ret) ← move_preferred (Z.to_nat p) 0 a (preferred_smsc rd) (allowed_smsc rd);
  allowed ← array_set allowed ret (-1);
  Done (MkRouting (r_destination_addr rd) (r_source_addr rd) pref allowed (content rd)
          (r_data_coding rd) (r_esm_class rd) (r_more_messages_to_send rd),
        MkLocals p a).

(** Report a message to the database and destroy it. *)
Definition report_failed (r : Router) (m : Msg) (status : Z) : outcome Router :=
  i ← must (sm_info m);
  packed ← must (pdu i);
  w ← mis_db_insert (rworld r) (account_name i) (account_msg_id i) (req_time i)
        (failed_smsc_id m) None (smpp_pdu_unpack (octstr_from_position packed 4)) status
        (client_ip i);
  Done (destroy (with_rworld r w) m).

(** Whether a message stayed in memory for too long. *)
Definition too_old (r : Router) (m : Msg) : bool :=
  negb (max_msg_duration r =? -1) && (max_msg_duration r <? now (rworld r) - msg_retry_time m).

(** The body of the loop over the queue, for the message [m] taken from it.
    The active connections are counted a second time before the message is
    put back; the two counts differ only when another thread starts a
    connection between them. *)
Definition route_one (fuel : nat) (stack : Z) (lc : locals) (m : Msg) (r : Router)
    : outcome (locals * Router) :=
  match sm_info m with
  | None => Done (lc, r)
  | Some i =>
      match pdu i, routing_info m with
      | Some _, Some rd =>
          if bool_decide (msg_state m = MSG_SENT_NORESP) then
            r ← report_failed r m 0x405; Done (lc, r)
          else if retries m =? max_retry_limit r then
            r ← report_failed r m 0x404; Done (lc, r)
          else if too_old r m then
            r ← report_failed r m 0x404; Done (lc, r)
          else
            let '(active, r) := smsc_length r in
            if 0 <? active then
              '(rd, lc) ← merge_lists lc rd;
              '(_, r) ← smsc2_rout fuel stack (set_routing m (Some rd)) r;
              Done (lc, r)
            else
              let '(active, r) := smsc_length r in
              if active =? 0 then
                Done (lc, with_rworld r
                       (set_outgoing (rworld r) (gwlist_produce (outgoing_msg (rworld r)) m)))
              else Done (lc, r)
      | _, _ => Done (lc, r)
      end
  end.

(** One pass over the queue: as many messages as it held at the start. *)
Fixpoint route_pass (fuel : nat) (stack : Z) (lc : locals) (k : nat) (r : Router)
    : outcome (locals * Router) :=
  match k with
  | 0%nat => Done (lc, r)
  | Datatypes.S k =>
      let '(m, q) := gwlist_extract_first (outgoing_msg (rworld r)) in
      let r := with_rworld r (set_outgoing (rworld r) q) in
      match m with
      | None => route_pass fuel stack lc k r
      | Some m =>
          '(lc, r) ← route_one fuel stack lc m r;
          route_pass fuel stack lc k r
      end
  end.

(** One turn of the thread: a pass, then the message to the server when the
    queue is short again. *)
Definition router_turn (fuel : nat) (stack : Z) (lc : locals) (r : Router)
    : outcome (locals * Router) :=
  let len := gwlist_len (outgoing_msg (rworld r)) in
  if 0 <? len then
    '(lc, r) ← route_pass fuel stack lc (Z.to_nat len) r;
    let '(_, r) := smsc_length r in
    let w := rworld r in
    Done (lc, if negb (global_q_min w =? -1) && (gwlist_len (outgoing_msg w) <? global_q_min w)
              then with_rworld r (emit w (EvReverse (global_q_msg 2))) else r)
  else Done (lc, r).

(** The end of the thread: what is left is reported and destroyed. *)
Fixpoint router_flush (k : nat) (r : Router) : outcome Router :=
  match k with
  | 0%nat => Done r
  | Datatypes.S k =>
      let '(m, q) := gwlist_extract_first (outgoing_msg (rworld r)) in
      let r := with_rworld r (set_outgoing (rworld r) q) in
      match m with
      | None => router_flush k r
      | Some m =>
          match sm_info m ≫= pdu with
          | None => router_flush k r
          | Some _ =>
              r ← report_failed r m (if bool_decide (msg_state m = MSG_SENT_NORESP) then 0x405 else 0x406);
              router_flush k r
          end
      end
  end.

(** ** Administration *)

(** [smsc2_find]: the next position of an SMSC id. *)
Fixpoint find_from (id : octstr) (i : Z) (l : list (SMSCConn D)) : Z :=
  match l with
  | [] => -1
  | c :: l =>
      match SmscConn.id c with
      | Some id' => if octstr_same id' id then i else find_from id (i + 1) l
      | None => find_from id (i + 1) l
      end
  end.

Definition smsc2_find (r : Router) (id : octstr) (start : Z) : Z :=
  if (Z.of_nat (length (smsc_list r)) <? start) || (start <? 0) then -1
  else find_from id start (drop (Z.to_nat start) (smsc_list r)).

Definition smsc2_resume (r : Router) : Router := with_list r (smscconn_start <$> smsc_list r).
Definition smsc2_suspend (r : Router) : Router :=
  with_list r ((fun c => (smscconn_stop c).2) <$> smsc_list r).

(** One connection after the other is shut down. *)
Fixpoint shutdown_all (l : list (SMSCConn D)) (w : World) : outcome (list (SMSCConn D) * World) :=
  match l with
  | [] => Done ([], w)
  | c :: l =>
      '(c, w) ← smscconn_shutdown c w 1;
      '(l, w) ← shutdown_all l w;
      Done (c :: l, w)
  end.

Definition smsc2_shutdown (r : Router) : outcome Router :=
  '(l, w) ← shutdown_all (smsc_list r) (rworld r);
  Done (with_rworld (with_list r l) w).

(** The loop of [smsc2_stop_smsc]: every position holding the id. *)
Fixpoint stop_loop (fuel : nat) (i : Z) (id : octstr) (r : Router) : outcome Router :=
  match fuel with
  | 0%nat => Done r
  | Datatypes.S fuel =>
      let i := smsc2_find r id (i + 1) in
      if i =? -1 then Done r else
      c ← get_conn r i;
      if bool_decide (status c = SMSCCONN_DEAD) then stop_loop fuel i id r
      else
        '(c, w) ← smscconn_shutdown c (rworld r) 1;
        stop_loop fuel i id (with_rworld (set_nth r i c) w)
  end.

Definition smsc2_stop_smsc (r : Router) (id : octstr) : outcome Router :=
  stop_loop (S (length (smsc_list r))) (-1) id r.

(** One round of [send_system_info]: the state of every SMSC to the server. *)
Definition system_info (w : World) (c : SMSCConn D) : SMSCConn D * Conn_Msg :=
  let '(inf, c) := smscconn_info c w in
  (c, info_smsc (octstr_dup (SmscConn.id c)) (octstr_dup (smsc_type c))
        (if bool_decide (info_status inf = SMSCCONN_ACTIVE) then 1 else 0) (info_mode inf)).

Definition send_system_info (r : Router) : Router :=
  let l := system_info (rworld r) <$> smsc_list r in
  with_rworld (with_list r (fst <$> l))
    (foldl (fun w p => emit w (EvReverse p.2)) (rworld r) l).

(** The checks of [start2_smsc]: limits of the queue, and distinct ids. *)
Definition check_limits (q_min q_max : Z) : outcome unit :=
  _ ← gw_assert (negb (negb (q_max =? -1) && (q_min =? -1)));
  _ ← gw_assert (negb (negb (q_min =? -1) && (q_max =? -1)));
  if negb (q_min =? -1) && negb (q_max =? -1) then gw_assert (negb (q_max <=? q_min)) else Done tt.

Definition same_id (a b : SMSCConn D) : bool :=
  match SmscConn.id a, SmscConn.id b with Some x, Some y => octstr_same x y | _, _ => false end.

Fixpoint check_ids (l : list (SMSCConn D)) : outcome unit :=
  match l with
  | [] => Done tt
  | c :: l => _ ← gw_assert (negb (existsb (same_id c) l)); check_ids l
  end.

End Router.
