(* ===== verification/RouterFacts.v ===== *)
(** * Theorems about the message router

    Which connection gets a message, and what becomes of the messages that
    no connection gets. *)

From S2P Require Import Prelude Gwlib Counter World SmscConn Router.
Open Scope Z_scope.

Section Facts.
Context {O : OctstrLib} {OL : OctstrLaws O} {L : GwListLib} {LL : GwListLaws L} {R : PduRest}
  {P : PduLib O R} {PX : PrefixLib O} {D : Type} {V : Driver D} {VL : DriverLaws V}.
Implicit Types (r : Router (D:=D)) (c : SMSCConn D).

(** ** Looking at a connection changes nothing that matters *)

(** The load that [smscconn_info] reports. *)
Definition conn_load c : Z := load (if callbacks c then (drv_queued c).2 else c).

Definition conn_calm c c' : Prop :=
  same_conn c c' /\ drv_held c' = drv_held c /\ conn_load c' = conn_load c.

Definition calm r r' : Prop :=
  rworld r' = rworld r /\ max_msg_duration r' = max_msg_duration r /\
  max_retry_limit r' = max_retry_limit r /\ Forall2 conn_calm (smsc_list r) (smsc_list r').

Lemma conn_calm_refl c : conn_calm c c.
Proof. split; [apply same_conn_refl|done]. Qed.

Lemma conn_calm_trans c1 c2 c3 : conn_calm c1 c2 -> conn_calm c2 c3 -> conn_calm c1 c3.
Proof.
  intros (S1 & H1 & L1) (S2 & H2 & L2).
  split; [by eapply same_conn_trans|split; congruence].
Qed.

Lemma calm_refl r : calm r r.
Proof. split_and!; try done. apply Forall2_same_length_lookup_2; [done|].
  intros i x y Hx Hy. simplify_eq. apply conn_calm_refl. Qed.

Lemma calm_trans r1 r2 r3 : calm r1 r2 -> calm r2 r3 -> calm r1 r3.
Proof.
  intros (A1 & A2 & A3 & A4) (B1 & B2 & B3 & B4). split_and!; try congruence.
  eapply Forall2_trans; [|done..]. apply conn_calm_trans.
Qed.

Lemma smscconn_info_spec c w :
  info_status (smscconn_info c w).1 = status c /\ info_load (smscconn_info c w).1 = conn_load c /\
  conn_calm c (smscconn_info c w).2.
Proof.
  unfold smscconn_info, conn_calm, conn_load. destruct (drv_queued_spec c) as [Hs Hh].
  pose proof (drv_queued_load c) as Hl.
  destruct (callbacks c) eqn:Ec.
  - destruct (drv_queued c) as [q c'] eqn:Eq. cbn [fst snd] in *.
    split; [done|]. split; [done|]. split; [exact Hs|]. split; [exact Hh|].
    destruct Hs as (_ & _ & _ & _ & _ & _ & _ & Ecb & _). by rewrite Ecb, Ec.
  - cbn. rewrite Ec. split; [done|]. split; [done|]. split; [apply same_conn_refl|done].
Qed.

Lemma calm_lookup r r' i c :
  calm r r' -> smsc_list r !! i = Some c -> exists c', smsc_list r' !! i = Some c' /\ conn_calm c c'.
Proof. intros (_ & _ & _ & Hf) Hi. by eapply Forall2_lookup_l. Qed.

Lemma calm_length r r' : calm r r' -> length (smsc_list r') = length (smsc_list r).
Proof. intros (_ & _ & _ & Hf). symmetry. by eapply Forall2_length. Qed.

(** Replacing a connection by one that differs in its load only. *)
Lemma calm_set r i c c' :
  smsc_list r !! Z.to_nat i = Some c -> conn_calm c c' -> calm r (set_nth r i c').
Proof.
  intros Hi Hc. split_and!; try done. simpl. apply Forall2_same_length_lookup_2.
  { by rewrite length_insert. }
  intros j x y Hx Hy. destruct (decide (j = Z.to_nat i)) as [->|Hne].
  - rewrite list_lookup_insert_eq in Hy by (by eapply lookup_lt_Some). by simplify_eq.
  - rewrite list_lookup_insert_ne in Hy by done. simplify_eq. apply conn_calm_refl.
Qed.

Lemma get_conn_spec r i c :
  0 <= i -> smsc_list r !! Z.to_nat i = Some c -> get_conn r i = Done c.
Proof. intros Hi Hc. unfold get_conn. by rewrite (proj2 (Z.ltb_ge _ _)), Hc. Qed.

Lemma conn_info_spec r i c :
  0 <= i -> smsc_list r !! Z.to_nat i = Some c ->
  exists inf r', conn_info r i = Done (inf, r') /\ calm r r' /\ info_status inf = status c /\
    info_load inf = conn_load c.
Proof.
  intros Hi Hc. unfold conn_info. rewrite (get_conn_spec r i c) by done. simpl.
  destruct (smscconn_info_spec c (rworld r)) as (H1 & H2 & H3).
  destruct (smscconn_info c (rworld r)) as [inf c']. cbn [fst snd] in *.
  do 2 eexists. split; [done|]. split_and!; try done. by eapply calm_set.
Qed.

(** ** Candidates *)

(** Position [x] holds an active connection that serves the destination. *)
Definition candidate r (rd : forward_queue_data) (x : Z) : bool :=
  match smsc_list r !! Z.to_nat x with
  | Some c => bool_decide (status c = SMSCCONN_ACTIVE) && (smscconn_usable c rd =? 0)
  | None => false
  end.

Definition active_at r (x : Z) : bool :=
  match smsc_list r !! Z.to_nat x with
  | Some c => bool_decide (status c = SMSCCONN_ACTIVE)
  | None => false
  end.

Definition load_at r (x : Z) : Z := from_option conn_load 0 (smsc_list r !! Z.to_nat x).

Lemma usable_two c rd : smscconn_usable c rd = 0 \/ smscconn_usable c rd = -1.
Proof. unfold smscconn_usable. repeat case_match; auto. Qed.

Lemma calm_views r r' rd x :
  calm r r' -> candidate r' rd x = candidate r rd x /\ active_at r' x = active_at r x /\
  load_at r' x = load_at r x.
Proof.
  intros Hc. unfold candidate, active_at, load_at.
  destruct (smsc_list r !! Z.to_nat x) as [c|] eqn:E.
  - destruct (calm_lookup _ _ _ _ Hc E) as (c' & -> & Hs & _ & Hl). cbn.
    rewrite (smscconn_usable_same c c' rd Hs). destruct Hs as (-> & _). done.
  - assert (smsc_list r' !! Z.to_nat x = None) as ->; [|done].
    apply lookup_ge_None in E. apply lookup_ge_None. by rewrite (calm_length _ _ Hc).
Qed.

(** Connections that were started by their type. *)
Definition ready c : Prop := callbacks c = true /\ is_set (data c) = true.
Definition valid_pos r (x : Z) : Prop := 0 <= x < Z.of_nat (length (smsc_list r)).

Lemma ready_calm c c' : conn_calm c c' -> ready c -> ready c'.
Proof. intros ((_ & _ & _ & _ & _ & _ & _ & E1 & E2) & _) [? ?]. split; congruence. Qed.

Lemma calm_ready r r' : calm r r' -> Forall ready (smsc_list r) -> Forall ready (smsc_list r').
Proof.
  intros (_ & _ & _ & Hf) Hr. induction Hf; [done|].
  apply Forall_cons in Hr as [? ?]. constructor; [by eapply ready_calm|auto].
Qed.

(** What the router compares with: the state of the process, the time and
    the limits. *)
Definition settings r : client_status * Z * Z * Z :=
  (smpp_client_status (rworld r), now (rworld r), max_msg_duration r, max_retry_limit r).

Lemma calm_settings r r' : calm r r' -> settings r' = settings r.
Proof. intros (Ew & E1 & E2 & _). unfold settings. by rewrite Ew, E1, E2. Qed.

(** ** Handing over *)

(** Connection [x] holds one more message, a copy of [m]; nothing else
    happened to the messages. *)
Definition handed r r' (x : Z) (m : Msg) : Prop :=
  world_msgs (rworld r') = world_msgs (rworld r) /\
  outgoing_msg (rworld r') = outgoing_msg (rworld r) /\
  exists c c' m', smsc_list r !! Z.to_nat x = Some c /\ smsc_list r' = <[Z.to_nat x:=c']> (smsc_list r) /\
    drv_held c' = drv_held c ++ [m'] /\ msg_ident m' = msg_ident m /\ same_conn c c' /\
    reported_msgs (trace (rworld r')) = reported_msgs (trace (rworld r)) /\
    settings r' = settings r.

Lemma conn_send_spec r x m i rd :
  valid_pos r x -> Forall ready (smsc_list r) -> candidate r rd x = true ->
  sm_info m = Some i -> routing_info m = Some rd ->
  exists r', conn_send r x m = Done (0, r') /\ handed r r' x m.
Proof.
  intros [H0 Hlt] Hr Hc Hi Hrd. unfold conn_send.
  unfold candidate in Hc. destruct (smsc_list r !! Z.to_nat x) as [c|] eqn:Ec; [|done].
  rewrite (get_conn_spec r x c) by done. simpl. apply andb_true_iff in Hc as [Hst Hu].
  apply bool_decide_eq_true_1 in Hst. apply Z.eqb_eq in Hu.
  assert (Hal : why_killed c = SMSCCONN_ALIVE).
  { unfold smscconn_usable in Hu. destruct (bool_decide_reflect (why_killed c = SMSCCONN_ALIVE)); [done|].
    by rewrite orb_true_r in Hu. }
  pose proof (Forall_lookup_1 _ _ _ _ Hr Ec) as [Hcb Hd].
  unfold smscconn_send. rewrite Hst, Hal, Hcb. simpl.
  destruct (data c) as [d|] eqn:Ed; [|done]. simpl.
  assert (Hdup : exists m', msg_duplicate m = Done m')
    by (unfold msg_duplicate; rewrite Hi, Hrd; simpl; eauto).
  destruct Hdup as [m' Hm'].
  destruct (drv_send_total c (rworld r) m m' d Ed Hm') as [[[ret c'] w'] E]. rewrite E. simpl.
  destruct (drv_send_spec _ _ _ _ _ _ E) as (Hs & Hw & Hrep & Ho & Hcl & Hnow & -> & m'' & Hm'' & Hh).
  simplify_eq. eexists. split; [done|].
  split; [done|]. split; [done|]. exists c, c', m''. split_and!; try done.
  - by eapply msg_duplicate_ident.
  - unfold settings. simpl. by rewrite Hcl, Hnow.
Qed.

(** ** The messages that are still alive *)

(** Messages waiting in the shared queue or held by a connection. *)
Definition held_msgs r : list (option (list (option (list Z)))) :=
  concat ((fun c => msg_ident <$> drv_held c) <$> smsc_list r).
Definition live r : list (option (list (option (list Z)))) :=
  (msg_ident <$> items (outgoing_msg (rworld r))) ++ held_msgs r.

Lemma calm_live r r' : calm r r' -> live r' = live r.
Proof.
  intros (Ew & _ & _ & Hf). unfold live, held_msgs. rewrite Ew. f_equal. f_equal.
  clear -Hf. induction Hf as [|c c' l l' (_ & E & _) _ IH]; csimpl; [done|]. by rewrite E, IH.
Qed.

(** The connections stay what they are, apart from what they hold. *)
Definition kept r r' : Prop :=
  Forall2 same_conn (smsc_list r) (smsc_list r') /\ settings r' = settings r.

Lemma kept_trans r1 r2 r3 : kept r1 r2 -> kept r2 r3 -> kept r1 r3.
Proof.
  intros [H1 E1] [H2 E2]. split; [|congruence].
  eapply Forall2_trans; [|done..]. apply same_conn_trans.
Qed.

Lemma calm_kept r r' : calm r r' -> kept r r'.
Proof.
  intros Hc. pose proof Hc as (_ & _ & _ & Hf). split; [|by apply calm_settings].
  eapply Forall2_impl; [done|]. by intros ? ? [? _].
Qed.

(** Connection [x] got a copy of [m], and the original was destroyed. *)
Definition delivered r r' (x : Z) (m : Msg) : Prop :=
  (exists c c' m', smsc_list r !! Z.to_nat x = Some c /\ smsc_list r' !! Z.to_nat x = Some c' /\
     drv_held c' = drv_held c ++ [m'] /\ msg_ident m' = msg_ident m) /\
  live r' ≡ₚ msg_ident m :: live r /\
  outgoing_msg (rworld r') = outgoing_msg (rworld r) /\
  destroyed_msgs (trace (rworld r')) = destroyed_msgs (trace (rworld r)) ++ [msg_ident m] /\
  reported_msgs (trace (rworld r')) = reported_msgs (trace (rworld r)) /\
  kept r r'.

Lemma handed_delivered r r1 r2 x m m0 :
  calm r r1 -> handed r1 r2 x m -> msg_ident m0 = msg_ident m -> delivered r (destroy r2 m0) x m.
Proof.
  intros Hc (Hw & Ho & c1 & c2 & m' & E1 & E2 & Hh & Hm & Hs & Hrep & Hcs) H0.
  pose proof Hc as (Ew & _ & _ & Hf). split_and!.
  - destruct (Forall2_lookup_r _ _ _ _ _ Hf E1) as (c & Ec & _ & Hcalm & _).
    exists c, c2, m'. cbn. rewrite E2, Hh, Hcalm, list_lookup_insert_eq
      by (by eapply lookup_lt_Some). done.
  - rewrite <-(calm_live _ _ Hc). unfold live. cbn. rewrite Ho.
    assert (H : held_msgs (destroy r2 m0) ≡ₚ msg_ident m :: held_msgs r1); [|].
    { unfold held_msgs. cbn. rewrite E2, list_fmap_insert.
      destruct (concat_insert ((fun c => msg_ident <$> drv_held c) <$> smsc_list r1) (Z.to_nat x)
        (msg_ident <$> drv_held c1) (msg_ident <$> drv_held c2)) as (l1 & l2 & -> & ->).
      { by rewrite list_lookup_fmap, E1. }
      rewrite Hh, fmap_app. simpl. rewrite Hm. by solve_Permutation. }
    rewrite H. by solve_Permutation.
  - cbn. by rewrite Ho, Ew.
  - change (destroyed_msgs (trace (rworld r2) ++ [EvDestroy m0])
      = destroyed_msgs (trace (rworld r)) ++ [msg_ident m]).
    rewrite destroyed_msgs_app. simpl. rewrite H0.
    unfold world_msgs in Hw. rewrite Ho in Hw. apply app_inv_head in Hw. by rewrite Hw, Ew.
  - change (reported_msgs (trace (rworld r2) ++ [EvDestroy m0])
      = reported_msgs (trace (rworld r))).
    by rewrite reported_msgs_app, app_nil_r, Hrep, Ew.
  - apply (kept_trans _ r1); [by apply calm_kept|]. split; [|done]. cbn. rewrite E2.
    apply Forall2_same_length_lookup_2; [by rewrite length_insert|].
    intros j x1 x2 Hx1 Hx2. destruct (decide (j = Z.to_nat x)) as [->|Hne].
    + rewrite list_lookup_insert_eq in Hx2 by (by eapply lookup_lt_Some). by simplify_eq.
    + rewrite list_lookup_insert_ne in Hx2 by done. simplify_eq. apply same_conn_refl.
Qed.

Lemma delivered_calm r r1 r' x m : calm r r1 -> delivered r1 r' x m -> delivered r r' x m.
Proof.
  intros Hcalm ((c1 & c2 & m'' & F1 & F2 & F3 & F4) & Hd).
  pose proof Hcalm as (Ew & _ & _ & Hf).
  destruct (Forall2_lookup_r _ _ _ _ _ Hf F1) as (c0 & Ec & _ & Hh & _).
  split; [exists c0, c2, m''; by rewrite <-Hh|].
  rewrite <-Ew, <-(calm_live r r1) by done. destruct Hd as (? & ? & ? & ? & Hs). split_and!; try done.
  eapply kept_trans; [by apply calm_kept|done].
Qed.

Lemma candidates_calm r r1 rd ps :
  calm r r1 -> Forall (fun y => candidate r1 rd y = false) ps ->
  Forall (fun y => candidate r rd y = false) ps.
Proof.
  intros Hc H. eapply Forall_impl; [exact H|]. intros z Hz.
  by rewrite <-(proj1 (calm_views _ _ rd z Hc)).
Qed.

Lemma valid_calm r r1 ps : calm r r1 -> Forall (valid_pos r) ps -> Forall (valid_pos r1) ps.
Proof.
  intros Hc H. eapply Forall_impl; [exact H|]. intros y. unfold valid_pos.
  by rewrite (calm_length _ _ Hc).
Qed.

(** ** The preferred connections *)

Lemma until_end_cons x l xs :
  until_end (x :: l) = Some xs ->
  (x = -1 /\ xs = []) \/ (x <> -1 /\ exists ys, until_end l = Some ys /\ xs = x :: ys).
Proof.
  simpl. destruct (Z.eqb_spec x (-1)); [intros [= <-]; auto|].
  destruct (until_end l); simpl; [|done]. intros [= <-]. eauto.
Qed.

Lemma route_preferred_spec rd m i : forall l ps r,
  until_end l = Some ps -> Forall (valid_pos r) ps -> Forall ready (smsc_list r) ->
  smpp_client_status (rworld r) <> CLIENT_SHUTDOWN ->
  sm_info m = Some i -> routing_info m = Some rd ->
  exists res m' r', route_preferred l rd m r = Done (res, m', r') /\
    match res with
    | Some ret => ret = 1 /\ exists ps1 x ps2, ps = ps1 ++ x :: ps2 /\ candidate r rd x = true /\
        Forall (fun y => candidate r rd y = false) ps1 /\ delivered r r' x m
    | None => m' = m /\ calm r r' /\ Forall (fun y => candidate r rd y = false) ps
    end.
Proof.
  induction l as [|x l IH]; intros ps r He Hv Hr Hst Hi Hrd; [done|].
  apply until_end_cons in He as [[-> ->]|(Hx & ys & Hys & ->)]; simpl.
  { exists None, m, r. split; [done|]. split; [done|]. split; [apply calm_refl|done]. }
  rewrite (proj2 (Z.eqb_neq _ _)) by done.
  apply Forall_cons in Hv as [Hvx Hv]. destruct Hvx as [Hx0 Hxl].
  destruct (lookup_lt_is_Some_2 (smsc_list r) (Z.to_nat x)) as [c Hc]; [lia|].
  destruct (conn_info_spec r x c Hx0 Hc) as (inf & r1 & -> & Hcalm & Hinf & _). simpl. rewrite Hinf.
  assert (Hskip : candidate r rd x = false ->
    exists res m' r', route_preferred l rd m r1 = Done (res, m', r') /\
    match res with
    | Some ret => ret = 1 /\ exists ps1 y ps2, x :: ys = ps1 ++ y :: ps2 /\ candidate r rd y = true /\
        Forall (fun y => candidate r rd y = false) ps1 /\ delivered r r' y m
    | None => m' = m /\ calm r r' /\ Forall (fun y => candidate r rd y = false) (x :: ys)
    end).
  { intros Hnc. destruct (IH ys r1) as (res & m' & r' & E & Hres); try done.
    - by eapply valid_calm.
    - by eapply calm_ready.
    - by destruct Hcalm as (-> & _).
    - exists res, m', r'. split; [done|]. destruct res as [ret|].
      + destruct Hres as (-> & ps1 & y & ps2 & -> & Hy & Hps & Hd). split; [done|].
        exists (x :: ps1), y, ps2. split_and!; [done| | |by eapply delivered_calm].
        * by rewrite <-(proj1 (calm_views _ _ rd y Hcalm)).
        * constructor; [done|]. by eapply candidates_calm.
      + destruct Hres as (-> & Hc2 & Hps). split; [done|]. split; [by eapply calm_trans|].
        constructor; [done|]. by eapply candidates_calm. }
  destruct (bool_decide_reflect (status c = SMSCCONN_ACTIVE)) as [Hac|Hna]; simpl.
  2:{ rewrite (bool_decide_eq_false_2 (smpp_client_status _ = _)) by by destruct Hcalm as (-> & _).
      apply Hskip. unfold candidate. rewrite Hc. by rewrite bool_decide_eq_false_2. }
  destruct (calm_lookup _ _ _ _ Hcalm Hc) as (c1 & Hc1 & Hsame & _ & _).
  rewrite (get_conn_spec r1 x c1) by done. simpl.
  rewrite (smscconn_usable_same c c1) by done.
  assert (Hcand : candidate r rd x = (smscconn_usable c rd =? 0)).
  { unfold candidate. by rewrite Hc, bool_decide_eq_true_2. }
  destruct (usable_two c rd) as [Hu|Hu]; rewrite Hu in *; simpl; [|by apply Hskip].
  assert (Hvalid : valid_pos r1 x) by (unfold valid_pos; by rewrite (calm_length _ _ Hcalm)).
  destruct (conn_send_spec r1 x (set_state m MSG_NOT_SENT) i rd Hvalid) as (r2 & -> & Hh); try done.
  { by eapply calm_ready. }
  { by rewrite (proj1 (calm_views _ _ rd x Hcalm)). }
  simpl. do 3 eexists. split; [done|]. split; [done|]. exists [], x, ys.
  split_and!; [done|done|done|]. by apply (handed_delivered r r1 r2 x (set_state m MSG_NOT_SENT)).
Qed.

(** ** The allowed connections *)

(** One turn of the loop, as a function of what is remembered. *)
Definition best_step r (rd : forward_queue_data) (b : best) (x : Z) : best :=
  if negb (active_at r x) then MkBest (best_ok b) (bo_sent b) true
  else if candidate r rd x && (bool_decide (best_ok b = None) || (load_at r x <? bo_sent b))
       then MkBest (Some x) (load_at r x) false
       else MkBest (best_ok b) (bo_sent b) false.

Lemma best_step_calm r r1 rd b x : calm r r1 -> best_step r1 rd b x = best_step r rd b x.
Proof.
  intros Hc. unfold best_step. by destruct (calm_views r r1 rd x Hc) as (-> & -> & ->).
Qed.

Lemma until_end_lookup l xs i x : until_end l = Some xs -> xs !! i = Some x -> l !! i = Some x.
Proof.
  revert xs i. induction l as [|y l IH]; intros xs i He Hi; [done|].
  apply until_end_cons in He as [[-> ->]|(_ & ys & Hys & ->)]; [done|].
  destruct i as [|i]; simpl in *; [done|]. by apply (IH ys).
Qed.

Lemma array_at_Some l i x : l !! i = Some x -> array_at l (Z.of_nat i) = Done x.
Proof. intros H. unfold array_at. rewrite (proj2 (Z.ltb_ge _ _)), Nat2Z.id, H by lia. done. Qed.

Lemma route_allowed_spec rd : forall ys k b r,
  (forall i x, ys !! i = Some x -> allowed_smsc rd !! (k + i)%nat = Some x) ->
  Forall (valid_pos r) ys ->
  exists r', route_allowed (length ys) (Z.of_nat k) rd b r
             = Done (foldl (best_step r rd) b ys, r') /\ calm r r'.
Proof.
  induction ys as [|x ys IH]; intros k b r Hl Hv; simpl; [exists r; split; [done|apply calm_refl]|].
  rewrite (array_at_Some _ k x) by (rewrite <-(Nat.add_0_r k); by apply Hl). simpl.
  apply Forall_cons in Hv as [[Hx0 Hxl] Hv].
  destruct (lookup_lt_is_Some_2 (smsc_list r) (Z.to_nat x)) as [c Hc]; [lia|].
  destruct (conn_info_spec r x c Hx0 Hc) as (inf & r1 & -> & Hcalm & Hinf & Hload). simpl.
  rewrite Hinf, Hload.
  destruct (calm_lookup _ _ _ _ Hcalm Hc) as (c1 & Hc1 & Hsame & _ & _).
  assert (Hnext : forall b', b' = best_step r rd b x ->
    exists r', route_allowed (length ys) (Z.of_nat k + 1) rd b' r1
      = Done (foldl (best_step r rd) (best_step r rd b x) ys, r') /\ calm r r').
  { intros b' ->. replace (Z.of_nat k + 1) with (Z.of_nat (k + 1)) by lia.
    destruct (IH (k + 1)%nat (best_step r rd b x) r1) as (r' & E & Hc').
    - intros i y Hy. rewrite <-Nat.add_assoc. by apply (Hl (S i)).
    - by eapply valid_calm.
    - exists r'. split; [|by eapply calm_trans]. rewrite E. f_equal. f_equal.
      clear -Hcalm. revert b x. induction ys as [|y ys IH]; intros b x; simpl; [done|].
      rewrite (best_step_calm r r1 rd _ y Hcalm). apply (IH (best_step r rd b x) y). }
  assert (Ha : active_at r x = bool_decide (status c = SMSCCONN_ACTIVE))
    by (unfold active_at; by rewrite Hc).
  assert (Hload_at : load_at r x = conn_load c) by (unfold load_at; by rewrite Hc).
  assert (Hcand : candidate r rd x
    = bool_decide (status c = SMSCCONN_ACTIVE) && (smscconn_usable c rd =? 0))
    by (unfold candidate; by rewrite Hc).
  unfold best_step at 1 in Hnext. rewrite Ha, Hcand, Hload_at in Hnext.
  destruct (bool_decide (status c = SMSCCONN_ACTIVE)); simpl in *; [|by apply Hnext].
  rewrite (get_conn_spec r1 x c1) by done. simpl.
  rewrite (smscconn_usable_same c c1) by done.
  destruct (usable_two c rd) as [Hu|Hu]; rewrite Hu in *; simpl in *; [|by apply Hnext].
  destruct (_ || _); by apply Hnext.
Qed.

(** What the loop finds: the candidate with the lowest load. *)
Lemma best_of_spec r rd ys b' :
  foldl (best_step r rd) (MkBest None 0 false) ys = b' ->
  match best_ok b' with
  | Some x => x ∈ ys /\ candidate r rd x = true /\ bo_sent b' = load_at r x /\
      forall y, y ∈ ys -> candidate r rd y = true -> load_at r x <= load_at r y
  | None => Forall (fun y => candidate r rd y = false) ys
  end /\
  bad_found b' = match last ys with Some y => negb (active_at r y) | None => false end.
Proof.
  intros <-. induction ys as [|y ys IH] using rev_ind; simpl; [done|].
  rewrite foldl_snoc, last_snoc. set (b := foldl _ _ ys) in *. destruct IH as [IH _].
  assert (Hact : candidate r rd y = true -> active_at r y = true).
  { unfold candidate, active_at. destruct (_ !! _); [|done]. intros [? _]%andb_true_iff. done. }
  unfold best_step. destruct (active_at r y) eqn:Ea; simpl; (split; [|by repeat case_match]).
  - destruct (candidate r rd y) eqn:Ec; simpl.
    + destruct (best_ok b) as [x|] eqn:Eb; simpl.
      * destruct IH as (Hin & Hx & Hbo & Hmin). rewrite Hbo.
        destruct (Z.ltb_spec (load_at r y) (load_at r x)); simpl.
        -- split; [apply elem_of_app; right; by apply list_elem_of_singleton|].
           split; [done|]. split; [done|]. intros z [Hz|Hz%list_elem_of_singleton]%elem_of_app Hcz;
             [specialize (Hmin z Hz Hcz); lia|subst; lia].
        -- split; [by apply elem_of_app; left|]. split; [done|]. split; [done|].
           intros z [Hz|Hz%list_elem_of_singleton]%elem_of_app Hcz; [by apply Hmin|by subst].
      * split; [apply elem_of_app; right; by apply list_elem_of_singleton|].
        split; [done|]. split; [done|]. intros z [Hz|Hz%list_elem_of_singleton]%elem_of_app Hcz; [|by subst].
        rewrite Forall_forall in IH. by rewrite (IH z Hz) in Hcz.
    + destruct (best_ok b) as [x|].
      * destruct IH as (Hin & Hx & Hbo & Hmin). split; [by apply elem_of_app; left|].
        split; [done|]. split; [done|]. intros z [Hz|Hz%list_elem_of_singleton]%elem_of_app Hcz; [by apply Hmin|].
        subst. by rewrite Ec in Hcz.
      * apply Forall_app. split; [done|]. by constructor.
  - assert (Ec : candidate r rd y = false) by (destruct (candidate r rd y); [by specialize (Hact eq_refl)|done]).
    destruct (best_ok b) as [x|].
    + destruct IH as (Hin & Hx & Hbo & Hmin). split; [by apply elem_of_app; left|].
      split; [done|]. split; [done|]. intros z [Hz|Hz%list_elem_of_singleton]%elem_of_app Hcz; [by apply Hmin|].
      subst. by rewrite Ec in Hcz.
    + apply Forall_app. split; [done|]. by constructor.
Qed.

(** ** The choice *)

(** Position [x] is the one that the lists of a message ask for. *)
Definition chosen r rd (ps xs : list Z) (x : Z) : Prop :=
  candidate r rd x = true /\
  ((exists ps1 ps2, ps = ps1 ++ x :: ps2 /\ Forall (fun y => candidate r rd y = false) ps1) \/
   (Forall (fun y => candidate r rd y = false) ps /\ x ∈ xs /\
    forall y, y ∈ xs -> candidate r rd y = true -> load_at r x <= load_at r y)).

(** The message waits again. *)
Definition waits r r' (m : Msg) : Prop :=
  items (outgoing_msg (rworld r')) = items (outgoing_msg (rworld r)) ++ [m] /\
  live r' ≡ₚ msg_ident m :: live r /\
  destroyed_msgs (trace (rworld r')) = destroyed_msgs (trace (rworld r)) /\
  reported_msgs (trace (rworld r')) = reported_msgs (trace (rworld r)) /\ kept r r'.

(** The message is in no queue any more and was not destroyed. *)
Definition lost r r' (m : Msg) : Prop :=
  rworld r' = rworld r /\ live r' = live r /\ kept r r'.

Lemma calm_candidates_cases r rd r1 b ys :
  foldl (best_step r rd) (MkBest None 0 false) ys = b -> calm r r1 ->
  match best_ok b with
  | Some x => x ∈ ys /\ candidate r1 rd x = true /\ candidate r rd x = true /\
      forall y, y ∈ ys -> candidate r rd y = true -> load_at r x <= load_at r y
  | None => Forall (fun y => candidate r rd y = false) ys
  end.
Proof.
  intros H Hc. destruct (best_of_spec r rd ys b H) as [Hb _].
  destruct (best_ok b) as [x|]; [|done]. destruct Hb as (H1 & H2 & _ & H3).
  by rewrite (proj1 (calm_views _ _ rd x Hc)).
Qed.

Lemma requeue_waits r r1 m :
  calm r r1 -> waits r (with_rworld r1 (produce_outgoing_msg (rworld r1) m)) m.
Proof.
  intros Hc. destruct (produce_outgoing_items (rworld r1) m) as (E1 & E2 & E3 & E4 & E5).
  pose proof Hc as (Ew & _). unfold waits, live. simpl. rewrite E1, E2, E3, <-Ew.
  split; [done|]. split; [|split; [done|split; [done|]]].
  2:{ eapply kept_trans; [by apply calm_kept|]. split; [by destruct (calm_kept r1 r1 (calm_refl r1))|].
      unfold settings. simpl. by rewrite E4, E5. }
  change (held_msgs (with_rworld r1 (produce_outgoing_msg (rworld r1) m))) with (held_msgs r1).
  rewrite fmap_app. simpl. pose proof (calm_live _ _ Hc) as Hl. unfold live in Hl. rewrite Ew.
  rewrite Ew in Hl. rewrite <-app_assoc. simpl. rewrite <-Permutation_middle. by rewrite Hl.
Qed.

(** The outcomes of [smsc2_rout]. *)
Lemma smsc2_rout_run fuel stack m r i rd ps xs :
  sm_info m = Some i -> routing_info m = Some rd ->
  until_end (preferred_smsc rd) = Some ps -> until_end (allowed_smsc rd) = Some xs -> xs <> [] ->
  Forall (valid_pos r) (ps ++ xs) -> Forall ready (smsc_list r) -> smsc_list r <> [] ->
  smpp_client_status (rworld r) <> CLIENT_SHUTDOWN ->
  exists ret r', smsc2_rout (S fuel) stack m r = Done (ret, r') /\
    ((ret = 1 /\ exists x, chosen r rd ps xs x /\ delivered r r' x m) \/
     (Forall (fun y => candidate r rd y = false) (ps ++ xs) /\
      exists y, last xs = Some y /\
        if active_at r y then ret = -1 /\ lost r r' m else ret = 0 /\ waits r r' m)).
Proof.
  intros Hi Hrd Hps Hxs Hne [Hvp Hvx]%Forall_app Hr Hl Hst. simpl.
  assert ((length (smsc_list r) =? 0)%nat = false) as -> by by destruct (smsc_list r).
  rewrite Hrd. simpl.
  destruct (route_preferred_spec rd m i _ ps r Hps Hvp Hr Hst Hi Hrd) as (res & m' & r1 & -> & Hres).
  simpl. destruct res as [ret|].
  { destruct Hres as (-> & ps1 & x & ps2 & -> & Hx & Hf & Hd). do 2 eexists. split; [done|].
    left. split; [done|]. exists x. split; [|done]. split; [done|]. left. eauto. }
  destruct Hres as (-> & Hcalm & Hfp). rewrite Hxs. simpl.
  destruct xs as [|x0 xs0] eqn:Exs; [done|]. rewrite <-Exs in *.
  destruct (route_allowed_spec rd xs 0 (MkBest None 0 false) r1) as (r2 & E & Hcalm2).
  { intros j x Hj. by apply (until_end_lookup _ xs). }
  { by eapply valid_calm. }
  replace (match xs with [] => stack | _ => Z.of_nat (length xs) end) with (Z.of_nat (length xs))
    by by rewrite Exs.
  change (Z.of_nat 0) with 0 in E. rewrite Nat2Z.id, E. clear E. simpl.
  pose proof (calm_trans _ _ _ Hcalm Hcalm2) as Hcalm3.
  replace (foldl (best_step r1 rd) (MkBest None 0 false) xs)
    with (foldl (best_step r rd) (MkBest None 0 false) xs).
  2:{ clear -Hcalm. generalize (MkBest None 0 false). induction xs as [|y ys IH]; intros b; [done|].
      simpl. by rewrite (best_step_calm r r1 rd b y Hcalm). }
  destruct (foldl (best_step r rd) (MkBest None 0 false) xs) as [ok bo bad] eqn:Eb.
  pose proof (calm_candidates_cases r rd r2 _ xs Eb Hcalm3) as Hcase.
  destruct (best_of_spec r rd xs _ Eb) as [_ Hbad]. simpl in *.
  destruct ok as [x|].
  - destruct Hcase as (Hin & Hx2 & Hx & Hmin).
    destruct (conn_send_spec r2 x (set_state m MSG_NOT_SENT) i rd) as (r3 & -> & Hh); try done.
    { pose proof (valid_calm _ _ _ Hcalm3 Hvx) as Hv. by eapply Forall_forall in Hv. }
    { by eapply calm_ready. }
    simpl. do 2 eexists. split; [done|]. left. split; [done|]. exists x.
    split; [split; [done|right; by split_and!]|].
    by apply (handed_delivered r r2 r3 x (set_state m MSG_NOT_SENT)).
  - assert (Hst2 : smpp_client_status (rworld r2) <> CLIENT_SHUTDOWN)
      by (by destruct Hcalm3 as (-> & _)).
    rewrite (bool_decide_eq_false_2 (smpp_client_status (rworld r2) = _)) by done.
    destruct (last xs) as [y|] eqn:Ey; [|by apply last_None in Ey].
    assert (Hf : Forall (fun y => candidate r rd y = false) (ps ++ xs)) by by apply Forall_app.
    subst bad. destruct (active_at r y) eqn:Ea; simpl; do 2 eexists; (split; [done|]); right;
      (split; [done|]); exists y; (split; [done|]); rewrite Ea; (split; [done|]).
    + split; [by destruct Hcalm3 as (-> & _)|]. split; [by apply calm_live|by apply calm_kept].
    + by apply requeue_waits.
Qed.

End Facts.

(** ** Merging the lists of a message *)

Section Merge.
Context {O : OctstrLib} {L : GwListLib}.

Lemma until_end_Some l xs :
  until_end l = Some xs -> exists t, l = xs ++ -1 :: t /\ Forall (fun x => x <> -1) xs.
Proof.
  revert xs. induction l as [|x l IH]; intros xs H; [done|].
  apply until_end_cons in H as [[-> ->]|(Hx & ys & Hys & ->)]; [by exists l|].
  destruct (IH ys Hys) as (t & -> & Hf). exists t. split; [done|]. by constructor.
Qed.

Lemma until_end_app xs l :
  Forall (fun x => x <> -1) xs -> until_end (xs ++ l) = (fun ys => xs ++ ys) <$> until_end l.
Proof.
  induction 1 as [|x xs Hx _ IH]; simpl; [by destruct (until_end l)|].
  rewrite (proj2 (Z.eqb_neq _ _)) by done. rewrite IH. by destruct (until_end l).
Qed.

Lemma array_at_lt l i : 0 <= i < Z.of_nat (length l) ->
  exists x, array_at l i = Done x /\ l !! Z.to_nat i = Some x.
Proof.
  intros H. destruct (lookup_lt_is_Some_2 l (Z.to_nat i)) as [x Hx]; [lia|]. exists x.
  unfold array_at. by rewrite (proj2 (Z.ltb_ge _ _)), Hx by lia.
Qed.

Lemma array_set_lt l i x : 0 <= i < Z.of_nat (length l) ->
  array_set l i x = Done (<[Z.to_nat i:=x]> l).
Proof.
  intros H. unfold array_set.
  by rewrite (proj2 (Z.leb_le _ _)), (proj2 (Z.ltb_lt _ _)) by lia.
Qed.

(** The loop moves a block of one array to the other. *)
Lemma move_preferred_spec k : forall j ret pref allowed,
  (j + k <= length pref)%nat -> (ret + k <= length allowed)%nat ->
  move_preferred k (Z.of_nat j) (Z.of_nat ret) pref allowed
  = Done (take j pref ++ replicate k (-1) ++ drop (j + k) pref,
          take ret allowed ++ take k (drop j pref) ++ drop (ret + k) allowed,
          Z.of_nat (ret + k)).
Proof.
  induction k as [|k IH]; intros j ret pref allowed Hj Hr; simpl.
  { by rewrite !Nat.add_0_r, !take_drop. }
  destruct (array_at_lt pref (Z.of_nat j)) as (x & -> & Hx); [lia|]. rewrite Nat2Z.id in Hx. simpl.
  rewrite !array_set_lt by lia. simpl. rewrite !Nat2Z.id.
  replace (Z.of_nat j + 1) with (Z.of_nat (S j)) by lia.
  replace (Z.of_nat ret + 1) with (Z.of_nat (S ret)) by lia.
  rewrite IH by (rewrite length_insert; lia).
  assert (Hlj : (j < length pref)%nat) by lia. assert (Hlr : (ret < length allowed)%nat) by lia.
  rewrite (drop_S pref x j) by done.
  rewrite (insert_take_drop pref j), (insert_take_drop allowed ret) by done.
  assert (Elj : length (take j pref) = j) by (rewrite length_take; lia).
  assert (Elr : length (take ret allowed) = ret) by (rewrite length_take; lia).
  f_equal. f_equal; [|lia]. f_equal.
  - rewrite take_app, Elj, drop_app, Elj by lia.
    rewrite (take_ge (take j pref)), (drop_ge (take j pref)) by lia.
    replace (S j - j)%nat with 1%nat by lia. replace (S j + k - j)%nat with (S k) by lia. simpl.
    rewrite take_0, drop_drop, <-app_assoc. simpl.
    by rewrite (Nat.add_succ_r j k).
  - rewrite take_app, Elr, !drop_app, Elj, Elr by lia.
    rewrite (take_ge (take ret allowed)), (drop_ge (take j pref)), (drop_ge (take ret allowed)) by lia.
    replace (S ret - ret)%nat with 1%nat by lia. replace (S j - j)%nat with 1%nat by lia.
    replace (S ret + k - ret)%nat with (S k) by lia. simpl.
    rewrite take_0, !drop_drop, <-app_assoc. simpl.
    by rewrite (Nat.add_succ_r ret k), Nat.add_0_r.
Qed.

(** How many entries the loops count, with what the variables held before. *)
Definition counted (l : list Z) (nos : Z) : nat :=
  match l with [] => Z.to_nat nos | _ => length l end.

(** The lists of the message afterwards. *)
Lemma merge_lists_run (lc : locals) (rd : forward_queue_data) ps xs :
  until_end (preferred_smsc rd) = Some ps -> until_end (allowed_smsc rd) = Some xs ->
  0 <= preferred_nos lc -> 0 <= allowed_nos lc ->
  (counted ps (preferred_nos lc) <= length (preferred_smsc rd))%nat ->
  (counted xs (allowed_nos lc) + counted ps (preferred_nos lc) < length (allowed_smsc rd))%nat ->
  exists rd', merge_lists lc rd = Done (rd', MkLocals (Z.of_nat (counted ps (preferred_nos lc)))
                                              (Z.of_nat (counted xs (allowed_nos lc)))) /\
    r_destination_addr rd' = r_destination_addr rd /\
    until_end (preferred_smsc rd') = Some [] /\
    until_end (allowed_smsc rd')
      = Some (match xs with [] => if allowed_nos lc =? 0 then ps else [] | _ => xs ++ ps end).
Proof.
  intros Hp Ha Hp0 Ha0 Hcp Hca. unfold merge_lists, count_list. rewrite Hp, Ha. simpl.
  set (p := counted ps (preferred_nos lc)) in *. set (a := counted xs (allowed_nos lc)) in *.
  replace (match ps with [] => preferred_nos lc | _ => Z.of_nat (length ps) end) with (Z.of_nat p)
    by (subst p; unfold counted; destruct ps; simpl; lia).
  replace (match xs with [] => allowed_nos lc | _ => Z.of_nat (length xs) end) with (Z.of_nat a)
    by (subst a; unfold counted; destruct xs; simpl; lia).
  rewrite Nat2Z.id. change 0 with (Z.of_nat 0) at 1.
  rewrite (move_preferred_spec p 0 a) by lia. simpl.
  assert (Hla : length (take a (allowed_smsc rd)) = a) by (rewrite length_take; lia).
  assert (Hlp : length (take p (preferred_smsc rd)) = p) by (rewrite length_take; lia).
  rewrite drop_0.
  rewrite array_set_lt by (rewrite !length_app, Hla, Hlp, length_drop; lia). simpl.
  eexists. split; [done|]. simpl. split; [done|].
  apply until_end_Some in Hp as (tp & Ep & Hfp). apply until_end_Some in Ha as (ta & Ea & Hfa).
  split.
  - destruct p as [|p'] eqn:E; [|done]. rewrite drop_0, Ep.
    destruct ps; [done|]. subst p. done.
  - rewrite Nat2Z.id. rewrite app_assoc.
    rewrite insert_app_r_alt by (rewrite length_app; lia).
    rewrite length_app, Hla, Hlp, Nat.sub_diag.
    destruct (drop (a + p) (allowed_smsc rd)) as [|y t] eqn:Ed.
    { apply (f_equal length) in Ed. rewrite length_drop in Ed. simpl in Ed. lia. }
    simpl. rewrite <-app_assoc.
    assert (Etail : until_end (take p (preferred_smsc rd) ++ -1 :: t) = Some ps).
    { rewrite Ep. subst p. destruct ps as [|z ps']; unfold counted.
      - destruct (Z.to_nat (preferred_nos lc)); done.
      - rewrite take_app_length, until_end_app by done. simpl. by rewrite app_nil_r. }
    subst a. destruct xs as [|z xs'].
    + simpl counted. destruct (Z.eqb_spec (allowed_nos lc) 0) as [->|Hn]; [by rewrite take_0|].
      destruct (Z.to_nat (allowed_nos lc)) eqn:En; [lia|]. rewrite Ea. done.
    + unfold counted. rewrite Ea at 1.
      rewrite take_app_length, until_end_app by done. rewrite Etail. done.
Qed.

End Merge.
