(* ===== verification/RouterPass.v ===== *)
(** * Theorems about the turns of the message router

    What the router thread does with the messages of the queue, one pass
    after the other, and with those left over at its end. *)

From S2P Require Import Prelude Gwlib Counter World SmscConn Router RouterFacts.
Open Scope Z_scope.

Section Pass.
Context {O : OctstrLib} {OL : OctstrLaws O} {L : GwListLib} {LL : GwListLaws L} {R : PduRest}
  {P : PduLib O R} {PX : PrefixLib O} {D : Type} {V : Driver D} {VL : DriverLaws V}.
Implicit Types (r : Router (D:=D)) (c : SMSCConn D) (m : Msg).

(** ** Counting the active connections *)

Lemma smsc_length_spec r :
  calm r (smsc_length r).2 /\
  (smsc_length r).1 = Z.of_nat (length (List.filter (fun c => bool_decide (status c = SMSCCONN_ACTIVE))
                                          (smsc_list r))).
Proof.
  unfold smsc_length. simpl. split.
  - split_and!; try done. simpl. rewrite <-list_fmap_compose.
    induction (smsc_list r) as [|c l IH]; constructor; [|done].
    apply smscconn_info_spec.
  - f_equal. induction (smsc_list r) as [|c l IH]; csimpl; [done|].
    destruct (smscconn_info_spec c (rworld r)) as (-> & _). case_match; csimpl; by rewrite IH.
Qed.

Lemma calm_active_count r r' : calm r r' ->
  length (List.filter (fun c => bool_decide (status c = SMSCCONN_ACTIVE)) (smsc_list r'))
  = length (List.filter (fun c => bool_decide (status c = SMSCCONN_ACTIVE)) (smsc_list r)).
Proof.
  intros (_ & _ & _ & Hf). induction Hf as [|c c' l l' ((Es & _) & _) _ IH]; [done|].
  csimpl. rewrite Es. case_match; csimpl; by rewrite IH.
Qed.

(** ** Reports *)

(** The message is reported with a status and destroyed; nothing else
    changes. *)
Definition given_up r r' m (st : Z) : Prop :=
  smsc_list r' = smsc_list r /\ outgoing_msg (rworld r') = outgoing_msg (rworld r) /\
  settings r' = settings r /\
  exists a i t s f d e n x v ip,
    trace (rworld r') = trace (rworld r) ++
      [EvDbbox (insert_mis a i t s (Some (octstr_create [])) f d st e n x v ip);
       EvDestroy m] /\
    reported_msgs [EvDbbox (insert_mis a i t s
                     (Some (octstr_create [])) f d st e n x v ip)]
      = [msg_ident m].

(** A message whose PDU is packed. *)
Definition sendable_msg m : Prop :=
  exists i packed h b, sm_info m = Some i /\ pdu i = Some packed /\
    smpp_pdu_unpack (octstr_from_position packed 4) = Some (submit_sm h b).

Lemma report_failed_spec r m st :
  sendable_msg m -> exists r', report_failed r m st = Done r' /\ given_up r r' m st.
Proof.
  intros (i & packed & h & b & Hi & Hp & Hu). unfold report_failed, mis_db_insert. rewrite Hi. simpl.
  rewrite Hp. simpl. rewrite Hu. simpl. eexists. split; [done|].
  split; [done|]. split; [done|]. split; [done|].
  do 11 eexists. split; [simpl; by rewrite <-app_assoc|].
  unfold reported_msgs, msg_ident. simpl. rewrite Hi. simpl. by rewrite !octstr_dup_octets.
Qed.

(** Every message is alive or reported. *)
Definition accounted r : list (option (list (option (list Z)))) :=
  live r ++ reported_msgs (trace (rworld r)).

Lemma given_up_accounted r r' m st :
  given_up r r' m st -> accounted r' ≡ₚ msg_ident m :: accounted r /\ kept r r' /\
    outgoing_msg (rworld r') = outgoing_msg (rworld r).
Proof.
  intros (E1 & E2 & E3 & a & i & t & s & f & d & e & n & x & v & ip & E4 & E5).
  split; [|split; [|done]].
  - unfold accounted, live, held_msgs. rewrite E1, E2, E4.
    rewrite reported_msgs_app.
    match goal with |- context [reported_msgs [?e; EvDestroy m]] =>
      change (reported_msgs [e; EvDestroy m]) with (reported_msgs ([e] ++ [EvDestroy m])) end.
    rewrite reported_msgs_app, E5. simpl. rewrite app_assoc. symmetry. apply Permutation_cons_append.
  - split; [|done]. rewrite E1. apply (calm_kept r r), calm_refl.
Qed.

(** What the router does first with a message: the status of its report. *)
Definition verdict r m : option Z :=
  if bool_decide (msg_state m = MSG_SENT_NORESP) then Some 0x405
  else if (retries m =? max_retry_limit r) || too_old r m then Some 0x404
  else None.

Lemma route_one_verdict fuel stack lc m r st :
  sendable_msg m -> routing_info m <> None -> verdict r m = Some st ->
  exists r', route_one fuel stack lc m r = Done (lc, r') /\ given_up r r' m st.
Proof.
  intros Hs Hr Hv. destruct (report_failed_spec r m st Hs) as (r' & Eg & Hg).
  destruct Hs as (i & packed & h & b & Hi & Hp & _). unfold route_one. rewrite Hi, Hp.
  destruct (routing_info m); [|done]. unfold verdict in Hv.
  destruct (bool_decide (msg_state m = MSG_SENT_NORESP)); simplify_eq; [rewrite Eg; by exists r'|].
  destruct (retries m =? max_retry_limit r); cbn in Hv; simplify_eq; [rewrite Eg; by exists r'|].
  destruct (too_old r m); simplify_eq. rewrite Eg. by exists r'.
Qed.

(** ** One message after the other *)

(** A message the router can handle: its PDU is packed, its lists are ended
    and large enough for [B] more entries, the list of allowed connections is
    not empty, and all entries name connections. *)
Definition routable (B : nat) r m : Prop :=
  sendable_msg m /\
  exists rd ps xs, routing_info m = Some rd /\
    until_end (preferred_smsc rd) = Some ps /\ until_end (allowed_smsc rd) = Some xs /\ xs <> [] /\
    Forall (valid_pos r) (ps ++ xs) /\ (length ps <= B <= length (preferred_smsc rd))%nat /\
    (length xs + B < length (allowed_smsc rd))%nat.

(** A message without its parts, which the loop skips. *)
Definition incomplete m : bool :=
  match sm_info m with
  | None => true
  | Some i => match pdu i, routing_info m with Some _, Some _ => false | _, _ => true end
  end.

(** A message that the router forgets: one that it cannot read, and one that
    is still to be sent, that no connection of its lists serves and for which
    the connection tried last (the last preferred one, or the last allowed
    one when none is preferred) is active. *)
Definition forgotten r m : bool :=
  incomplete m ||
  match verdict r m, routing_info m with
  | None, Some rd =>
      let ps := default [] (until_end (preferred_smsc rd)) in
      let xs := default [] (until_end (allowed_smsc rd)) in
      forallb (fun x => negb (candidate r rd x)) (ps ++ xs) &&
      from_option (active_at r) false (last (xs ++ ps))
  | _, _ => false
  end.

Definition counts_ok (B : nat) (lc : locals) : Prop :=
  0 <= preferred_nos lc <= Z.of_nat B /\ 0 <= allowed_nos lc.

Lemma kept_refl r : kept r r.
Proof. apply calm_kept, calm_refl. Qed.

Lemma kept_lookup r r' i c :
  kept r r' -> smsc_list r !! i = Some c -> exists c', smsc_list r' !! i = Some c' /\ same_conn c c'.
Proof. intros [Hf _] Hi. by eapply Forall2_lookup_l. Qed.

Lemma kept_length r r' : kept r r' -> length (smsc_list r') = length (smsc_list r).
Proof. intros [Hf _]. symmetry. by eapply Forall2_length. Qed.

Lemma kept_views r r' rd x :
  kept r r' -> candidate r' rd x = candidate r rd x /\ active_at r' x = active_at r x.
Proof.
  intros Hk. unfold candidate, active_at.
  destruct (smsc_list r !! Z.to_nat x) as [c|] eqn:E.
  - destruct (kept_lookup _ _ _ _ Hk E) as (c' & -> & Hs). rewrite (smscconn_usable_same c c' rd Hs).
    by destruct Hs as (-> & _).
  - assert (smsc_list r' !! Z.to_nat x = None) as ->; [|done].
    apply lookup_ge_None in E. apply lookup_ge_None. by rewrite (kept_length _ _ Hk).
Qed.

Lemma kept_ready r r' : kept r r' -> Forall ready (smsc_list r) -> Forall ready (smsc_list r').
Proof.
  intros [Hf _] Hr. induction Hf as [|c c' l l' Hs _ IH]; [done|].
  apply Forall_cons in Hr as [[? ?] ?]. constructor; [|auto].
  destruct Hs as (_ & _ & _ & _ & _ & _ & _ & E1 & E2). split; congruence.
Qed.

Lemma kept_routable B r r' m : kept r r' -> routable B r m -> routable B r' m.
Proof.
  intros Hk (Hs & rd & ps & xs & H1 & H2 & H3 & H4 & H5 & H6 & H7). split; [done|].
  exists rd, ps, xs. split_and!; try done; try lia.
  eapply Forall_impl; [exact H5|]. intros x. unfold valid_pos. by rewrite (kept_length _ _ Hk).
Qed.

Lemma kept_running r r' :
  kept r r' -> smpp_client_status (rworld r) <> CLIENT_SHUTDOWN ->
  smpp_client_status (rworld r') <> CLIENT_SHUTDOWN.
Proof. intros [_ E]. unfold settings in E. by injection E as -> _ _ _. Qed.

Lemma kept_verdict r r' m : kept r r' -> verdict r' m = verdict r m.
Proof.
  intros [_ E]. unfold settings in E. injection E as _ E1 E2 E3. unfold verdict, too_old. by rewrite E1, E2, E3.
Qed.

Lemma kept_forgotten r r' m : kept r r' -> forgotten r' m = forgotten r m.
Proof.
  intros Hk. unfold forgotten. rewrite (kept_verdict r r' m Hk).
  destruct (verdict r m); [done|]. destruct (routing_info m) as [rd|]; [|done].
  f_equal. f_equal.
  - generalize (default [] (until_end (preferred_smsc rd)) ++ default [] (until_end (allowed_smsc rd))).
    intros l. induction l as [|x l IH]; simpl; [done|].
    by rewrite IH, (proj1 (kept_views r r' rd x Hk)).
  - destruct (last _) as [y|]; simpl; [|done]. apply (kept_views r r' rd y Hk).
Qed.

Lemma candidate_dest r rd rd' x :
  r_destination_addr rd' = r_destination_addr rd -> candidate r rd' x = candidate r rd x.
Proof.
  intros E. unfold candidate. destruct (_ !! _) as [c|]; [|done]. f_equal.
  unfold smscconn_usable. by rewrite E.
Qed.

Lemma last_elem {A} (l : list A) y : last l = Some y -> y ∈ l.
Proof. intros (l' & ->)%last_Some. set_solver. Qed.

(** The router passes a message on, keeps it or reports it; or it forgets it,
    when [gone] is true. *)
Definition settled (gone : bool) r r' m : Prop :=
  accounted r' ++ (if gone then [msg_ident m] else []) ≡ₚ msg_ident m :: accounted r /\ kept r r' /\
  exists l, items (outgoing_msg (rworld r')) = items (outgoing_msg (rworld r)) ++ l.

Lemma delivered_settled r r' x m : delivered r r' x m -> settled false r r' m.
Proof.
  intros (_ & Hl & Ho & _ & Hrep & Hk). split_and!; [|done|exists []; by rewrite Ho, app_nil_r].
  unfold accounted. by rewrite Hl, Hrep, app_nil_r.
Qed.

Lemma waits_settled r r' m : waits r r' m -> settled false r r' m.
Proof.
  intros (Hi & Hl & _ & Hrep & Hk). split_and!; [|done|eauto].
  unfold accounted. by rewrite Hl, Hrep, app_nil_r.
Qed.

Lemma gone_settled r r' m : accounted r' = accounted r -> kept r r' ->
  items (outgoing_msg (rworld r')) = items (outgoing_msg (rworld r)) -> settled true r r' m.
Proof.
  intros E Hk Ho. split_and!; [|done|exists []; by rewrite Ho, app_nil_r].
  by rewrite E, <-Permutation_cons_append.
Qed.

Lemma calm_settled g r r1 r' m : calm r r1 -> settled g r1 r' m -> settled g r r' m.
Proof.
  intros Hc (H1 & H2 & H3). pose proof Hc as (Ew & _). split_and!.
  - rewrite H1. unfold accounted. by rewrite (calm_live _ _ Hc), Ew.
  - eapply kept_trans; [by apply calm_kept|done].
  - by rewrite <-Ew.
Qed.

(** Whether a message with these lists is forgotten when it is routed. *)
Definition unserved r (rd : forward_queue_data) (ps xs : list Z) : bool :=
  forallb (fun x => negb (candidate r rd x)) (ps ++ xs) && from_option (active_at r) false (last (xs ++ ps)).

Lemma unserved_served r rd ps xs x : x ∈ ps ++ xs -> candidate r rd x = true -> unserved r rd ps xs = false.
Proof.
  intros Hx Hc. unfold unserved. apply andb_false_iff. left. apply not_true_iff_false.
  rewrite forallb_forall. intros H. apply list_elem_of_In, H in Hx. by rewrite Hc in Hx.
Qed.

Lemma unserved_all r rd ps xs y :
  Forall (fun x => candidate r rd x = false) (ps ++ xs) -> last (xs ++ ps) = Some y ->
  unserved r rd ps xs = active_at r y.
Proof.
  intros Hf Hy. unfold unserved. rewrite Hy. simpl. rewrite (proj2 (forallb_forall _ _)); [done|].
  intros x Hx%list_elem_of_In. eapply Forall_forall in Hf; [|done]. by rewrite Hf.
Qed.

Lemma rout_settled fuel stack B lc r m rd ps xs :
  sendable_msg m -> counts_ok B lc -> routing_info m = Some rd -> Forall ready (smsc_list r) ->
  until_end (preferred_smsc rd) = Some ps -> until_end (allowed_smsc rd) = Some xs -> xs <> [] ->
  Forall (valid_pos r) (ps ++ xs) -> (length ps <= B <= length (preferred_smsc rd))%nat ->
  (length xs + B < length (allowed_smsc rd))%nat ->
  smsc_list r <> [] -> smpp_client_status (rworld r) <> CLIENT_SHUTDOWN ->
  exists rd' lc' ret r', merge_lists lc rd = Done (rd', lc') /\ counts_ok B lc' /\
    smsc2_rout (S fuel) stack (set_routing m (Some rd')) r = Done (ret, r') /\
    settled (unserved r rd ps xs) r r' m.
Proof.
  intros Hs [Hc1 Hc2] Hrd Hr Hp Hx Hne Hv HB Hcap Hl Hst.
  assert (Hcnt : (counted ps (preferred_nos lc) <= B)%nat)
    by (unfold counted; destruct ps; simpl in *; lia).
  assert (Hcx : counted xs (allowed_nos lc) = length xs) by (unfold counted; by destruct xs).
  destruct (merge_lists_run lc rd ps xs) as (rd' & Em & Ed & Ep' & Ex'); try done; try lia.
  assert (Ex2 : until_end (allowed_smsc rd') = Some (xs ++ ps)) by (rewrite Ex'; by destruct xs).
  clear Ex'. destruct Hs as (i & packed & h & b & Hi & _).
  destruct (smsc2_rout_run fuel stack (set_routing m (Some rd')) r i rd' [] (xs ++ ps))
    as (ret & r' & E & Hres); try done; [by destruct xs| |].
  { simpl. by rewrite (Permutation_app_comm xs ps). }
  eexists rd', _, ret, r'. split; [exact Em|]. split; [split; simpl; lia|]. split; [done|].
  destruct Hres as [(_ & x & Hch & Hd)|(Hno & y & Hy & Hres)].
  { rewrite (unserved_served r rd ps xs x).
    - by apply (delivered_settled r r' x (set_routing m (Some rd'))).
    - destruct Hch as [_ [(p1 & p2 & Hnil & _)|(_ & Hin & _)]]; [by destruct p1|].
      by rewrite (Permutation_app_comm ps xs).
    - rewrite <-(candidate_dest r rd rd' x Ed). apply Hch. }
  rewrite (unserved_all r rd ps xs y); [| |done].
  2:{ rewrite (Permutation_app_comm ps xs). eapply Forall_impl; [exact Hno|]. intros z. cbn beta.
      by rewrite (candidate_dest r rd rd' z Ed). }
  destruct (active_at r y).
  - destruct Hres as (_ & Hw & Hlv & Hk). apply gone_settled; [unfold accounted; by rewrite Hw, Hlv|done|by rewrite Hw].
  - destruct Hres as [_ Hres]. by apply (waits_settled r r') in Hres.
Qed.

Lemma active_counted r y :
  active_at r y = true -> 0 < (smsc_length r).1 /\ smsc_list r <> [].
Proof.
  unfold active_at. rewrite (proj2 (smsc_length_spec r)).
  destruct (smsc_list r !! Z.to_nat y) as [c|] eqn:E; [|done]. intros Ha.
  split; [|by intros El; rewrite El, lookup_nil in E].
  apply list_elem_of_lookup_2, list_elem_of_In in E.
  assert (Hin : In c (List.filter (fun c => bool_decide (status c = SMSCCONN_ACTIVE)) (smsc_list r)))
    by by apply filter_In.
  destruct (List.filter _ _); [done|simpl; lia].
Qed.

Lemma route_one_settled fuel stack B lc r m :
  incomplete m = true \/ routable B r m -> counts_ok B lc -> Forall ready (smsc_list r) ->
  smpp_client_status (rworld r) <> CLIENT_SHUTDOWN ->
  exists lc' r', route_one (S fuel) stack lc m r = Done (lc', r') /\ counts_ok B lc' /\
    settled (forgotten r m) r r' m.
Proof.
  intros [Hm|Hm] Hc Hr Hst.
  { exists lc, r. split; [|split; [done|]].
    - unfold incomplete in Hm. unfold route_one. destruct (sm_info m) as [i|]; [|done].
      by destruct (pdu i), (routing_info m).
    - unfold forgotten. rewrite Hm. by apply gone_settled; [|apply kept_refl|]. }
  destruct Hm as (Hs & rd & ps & xs & Hrd & Hp & Hx & Hne & Hv & HB & Hcap).
  destruct (verdict r m) as [st|] eqn:Ev.
  { destruct (route_one_verdict (S fuel) stack lc m r st Hs) as (r' & E & Hg); [congruence|done|].
    exists lc, r'. split; [done|]. split; [done|].
    destruct (given_up_accounted r r' m st Hg) as (H1 & H2 & H3).
    assert (forgotten r m = false) as ->.
    { unfold forgotten. rewrite Ev. destruct Hs as (i & packed & h & b & Hi & Hpk & _).
      unfold incomplete. by rewrite Hi, Hpk, Hrd. }
    split_and!; try done; [by rewrite app_nil_r|]. exists []. by rewrite H3, app_nil_r. }
  pose proof Hs as (i & packed & h & b & Hi & Hpk & _).
  assert (forgotten r m = unserved r rd ps xs) as ->.
  { unfold forgotten, incomplete. by rewrite Hi, Hpk, Ev, Hrd, Hp, Hx. }
  unfold verdict in Ev. unfold route_one. rewrite Hi, Hpk, Hrd.
  destruct (bool_decide (msg_state m = _)); [done|].
  destruct (retries m =? max_retry_limit r); [done|]. cbn in Ev. destruct (too_old r m); [done|].
  destruct (smsc_length_spec r) as [Hcalm Hlen]. pose proof (active_counted r) as Hact.
  destruct (smsc_length r) as [n r1]. cbn [fst snd] in *.
  destruct (Z.ltb_spec 0 n).
  - assert (Hun : unserved r rd ps xs = unserved r1 rd ps xs).
    { unfold unserved. f_equal.
      - generalize (ps ++ xs). intros l. induction l as [|x l IH]; simpl; [done|].
        by rewrite IH, (proj1 (calm_views r r1 rd x Hcalm)).
      - destruct (last _) as [y|]; simpl; [|done]. by destruct (calm_views r r1 rd y Hcalm) as (_ & -> & _). }
    destruct (rout_settled fuel stack B lc r1 m rd ps xs) as (rd' & lc' & ret & r' & E1 & Hc' & E2 & H2);
      try done.
    + by eapply calm_ready.
    + by eapply valid_calm.
    + intros E. apply (f_equal length) in E. rewrite (calm_length _ _ Hcalm) in E.
      destruct (smsc_list r); simpl in *; [lia|done].
    + eapply kept_running; [by apply calm_kept|done].
    + remember (S fuel) as k. rewrite E1. cbn. rewrite E2. cbn. exists lc', r'. split_and!; try done.
      rewrite Hun. by eapply calm_settled.
  - destruct (smsc_length_spec r1) as [Hcalm2 Hlen2].
    destruct (smsc_length r1) as [n2 r2] eqn:E2. cbn [fst snd] in *.
    assert (n2 = 0) as ->.
    { rewrite (calm_active_count r r1 Hcalm) in Hlen2. lia. }
    eexists lc, _. split; [done|]. split; [done|].
    apply (calm_settled _ r r2); [by eapply calm_trans|].
    assert (unserved r rd ps xs = false) as ->.
    { unfold unserved. apply andb_false_iff. right. destruct (last _) as [y|]; simpl; [|done].
      apply not_true_iff_false. intros [Hgt _]%Hact. lia. }
    split_and!.
    + unfold accounted, live, held_msgs. simpl. rewrite app_nil_r, items_produce, fmap_app, <-!app_assoc. simpl.
      by rewrite <-Permutation_middle.
    + by apply (calm_kept r2 r2), calm_refl.
    + exists [m]. simpl. by rewrite items_produce.
Qed.

(** ** A pass *)

(** The messages of a queue that are forgotten. *)
Definition forgotten_of r (l : list Msg) : list (option (list (option (list Z)))) :=
  msg_ident <$> List.filter (forgotten r) l.

Lemma kept_forgotten_of r r' l : kept r r' -> forgotten_of r' l = forgotten_of r l.
Proof.
  intros Hk. unfold forgotten_of. f_equal. induction l as [|m l IH]; simpl; [done|].
  by rewrite IH, (kept_forgotten r r' m Hk).
Qed.

Lemma route_pass_settled fuel stack B : forall todo lc r again,
  items (outgoing_msg (rworld r)) = todo ++ again ->
  Forall (fun m => incomplete m = true \/ routable B r m) todo ->
  counts_ok B lc -> Forall ready (smsc_list r) -> smpp_client_status (rworld r) <> CLIENT_SHUTDOWN ->
  exists lc' r', route_pass (S fuel) stack lc (length todo) r = Done (lc', r') /\ counts_ok B lc' /\
    accounted r' ++ forgotten_of r todo ≡ₚ accounted r /\ kept r r' /\
    exists l, items (outgoing_msg (rworld r')) = again ++ l.
Proof.
  induction todo as [|m todo IH]; intros lc r again Hq Hm Hc Hr Hst.
  { exists lc, r. split_and!; try done; [by rewrite app_nil_r|apply kept_refl|exists []; by rewrite app_nil_r]. }
  apply Forall_cons in Hm as [Hm Hms]. remember (S fuel) as k eqn:Ek. cbn [length route_pass].
  destruct (gwlist_extract_first (outgoing_msg (rworld r))) as [x q] eqn:Eq.
  pose proof (gwlist_extract_first_fst _ (outgoing_msg (rworld r))) as H1.
  pose proof (gwlist_extract_first_snd _ (outgoing_msg (rworld r))) as H2. rewrite Eq, Hq in H1, H2.
  simpl in H1, H2. subst x. set (r0 := with_rworld r (set_outgoing (rworld r) q)).
  assert (Hk0 : kept r r0) by (by apply (calm_kept r r), calm_refl).
  destruct (route_one_settled fuel stack B lc r0 m) as (lc1 & r1 & E1 & Hc1 & Hacc & Hk1 & l1 & Hl1);
    [by destruct Hm; [left|right; eapply kept_routable]|done..|].
  rewrite <-Ek in E1. rewrite E1. simpl. simpl in Hl1. rewrite H2 in Hl1.
  pose proof (kept_trans _ _ _ Hk0 Hk1) as Hk01.
  destruct (IH lc1 r1 (again ++ l1)) as (lc' & r' & E2 & Hc2 & Hacc2 & Hk2 & l2 & Hl2).
  - by rewrite Hl1, app_assoc.
  - eapply Forall_impl; [exact Hms|]. intros y [?|?]; [by left|right; by eapply kept_routable].
  - done.
  - by eapply kept_ready.
  - by eapply kept_running.
  - exists lc', r'. split; [done|]. split; [done|]. split_and!.
    + rewrite (kept_forgotten_of r r1) in Hacc2 by done. rewrite (kept_forgotten r r0 m Hk0) in Hacc.
      assert (Hfo : forgotten_of r (m :: todo) = (if forgotten r m then [msg_ident m] else []) ++ forgotten_of r todo)
        by (unfold forgotten_of; simpl; by destruct (forgotten r m)).
      rewrite Hfo, (Permutation_app_comm (if forgotten r m then _ else _)), app_assoc, Hacc2, Hacc.
      unfold accounted, live, held_msgs. simpl. rewrite H2, Hq. simpl. done.
    + by eapply kept_trans.
    + exists (l1 ++ l2). by rewrite Hl2, app_assoc.
Qed.

(** C1 A pass over the queue accounts for every message: afterwards each one
    is in the queue, held by a connection or reported to the database, exactly
    once, but for the messages that are [forgotten]: those without PDU or
    lists, and those still to be sent that no connection of their lists
    serves while the one tried last is active, of which nothing is left (the
    result -1 of [smsc2_rout], which the thread does not look at).  So a pass
    loses nothing exactly when there are none of these.  The other messages
    of the queue must have a packed PDU and lists that are ended, name
    connections and fit into the arrays together, the allowed list not being
    empty; the connections must have been started, and the process must not
    be shutting down. *)
Theorem router_turn_loses_nothing fuel stack B lc r :
  Forall (fun m => incomplete m = true \/ routable B r m) (items (outgoing_msg (rworld r))) ->
  counts_ok B lc ->
  Forall ready (smsc_list r) -> smpp_client_status (rworld r) <> CLIENT_SHUTDOWN ->
  exists lc' r', router_turn (S fuel) stack lc r = Done (lc', r') /\ counts_ok B lc' /\
    live r' ++ reported_msgs (trace (rworld r')) ++
      (msg_ident <$> List.filter (forgotten r) (items (outgoing_msg (rworld r))))
    ≡ₚ live r ++ reported_msgs (trace (rworld r)) /\
    Forall2 same_conn (smsc_list r) (smsc_list r').
Proof.
  intros Hm Hc Hr Hst. unfold router_turn. remember (S fuel) as k eqn:Ek. rewrite gwlist_len_spec.
  destruct (Z.ltb_spec 0 (Z.of_nat (length (items (outgoing_msg (rworld r)))))) as [_|Hz].
  2:{ exists lc, r. destruct (items (outgoing_msg (rworld r))); [|simpl in *; lia].
      split_and!; try done; [simpl; by rewrite app_nil_r|apply kept_refl]. }
  rewrite Nat2Z.id. rewrite Ek.
  destruct (route_pass_settled fuel stack B (items (outgoing_msg (rworld r))) lc r []) as (lc' & r' & E & Hc' & Hacc & Hk & _);
    try done; [by rewrite app_nil_r|].
  rewrite <-Ek in *. rewrite E. cbn [mbind outcome_bind].
  destruct (smsc_length_spec r') as [Hcalm _]. destruct (smsc_length r') as [n r2]. cbn [fst snd] in *.
  pose proof (kept_trans _ _ _ Hk (calm_kept _ _ Hcalm)) as [Hk2 _].
  assert (Hacc2 : accounted r2 = accounted r').
  { unfold accounted. rewrite (calm_live _ _ Hcalm). by destruct Hcalm as (-> & _). }
  fold (forgotten_of r (items (outgoing_msg (rworld r)))).
  assert (Hend : (live r2 ++ reported_msgs (trace (rworld r2))) ++ forgotten_of r (items (outgoing_msg (rworld r)))
    ≡ₚ live r ++ reported_msgs (trace (rworld r))) by (fold (accounted r2); by rewrite Hacc2).
  case_match; (eexists lc', _; split; [done|]; split; [done|]); (split; [|done]); rewrite app_assoc; [|done].
  rewrite <-Hend. unfold live, held_msgs. simpl. by rewrite reported_msgs_app, app_nil_r.
Qed.

(** ** Where one message goes *)

(** C9 A message for which a connection of its lists is active and serves
    the destination is delivered, and to the right connection: the first such
    preferred one, or without one the allowed one with the lowest load.  That
    connection then holds one more message, a copy, the original is destroyed
    and all other messages stay where they are. *)
Theorem smsc2_rout_chooses fuel stack m r i rd ps xs y :
  sm_info m = Some i -> routing_info m = Some rd ->
  until_end (preferred_smsc rd) = Some ps -> until_end (allowed_smsc rd) = Some xs -> xs <> [] ->
  Forall (valid_pos r) (ps ++ xs) -> Forall ready (smsc_list r) ->
  smpp_client_status (rworld r) <> CLIENT_SHUTDOWN ->
  y ∈ ps ++ xs -> candidate r rd y = true ->
  exists x r', smsc2_rout (S fuel) stack m r = Done (1, r') /\ chosen r rd ps xs x /\
    delivered r r' x m.
Proof.
  intros Hi Hrd Hp Hx Hne Hv Hr Hst Hy Hc.
  assert (Hl : smsc_list r <> []).
  { intros E. unfold candidate in Hc. by rewrite E, lookup_nil in Hc. }
  destruct (smsc2_rout_run fuel stack m r i rd ps xs) as (ret & r' & E & [Hd|[Hno _]]); try done.
  - destruct Hd as (-> & x & Hch & Hd). exists x, r'. by split_and!.
  - eapply Forall_forall in Hno; [|done]. congruence.
Qed.

(** A message that no connection of its lists serves waits in the queue
    when the last allowed connection is not active; but when that connection
    is active, only unusable for the destination, the function returns -1
    having neither queued, reported nor destroyed the message: nothing refers
    to it any more. *)
Lemma smsc2_rout_unserved fuel stack m r i rd ps xs y :
  sm_info m = Some i -> routing_info m = Some rd ->
  until_end (preferred_smsc rd) = Some ps -> until_end (allowed_smsc rd) = Some xs ->
  last xs = Some y ->
  Forall (valid_pos r) (ps ++ xs) -> Forall ready (smsc_list r) -> smsc_list r <> [] ->
  smpp_client_status (rworld r) <> CLIENT_SHUTDOWN ->
  Forall (fun x => candidate r rd x = false) (ps ++ xs) ->
  exists r', smsc2_rout (S fuel) stack m r = Done (if active_at r y then -1 else 0, r') /\
    (if active_at r y then lost r r' m else waits r r' m).
Proof.
  intros Hi Hrd Hp Hx Hy Hv Hr Hl Hst Hno.
  destruct (smsc2_rout_run fuel stack m r i rd ps xs) as (ret & r' & E & [Hd|[_ Hw]]); try done.
  - intros ->. done.
  - destruct Hd as (_ & x & [Hc Hch] & _).
    assert (Hin : x ∈ ps ++ xs).
    { destruct Hch as [(p1 & p2 & -> & _)|(_ & Hin & _)]; set_solver. }
    eapply Forall_forall in Hno; [|done]. congruence.
  - destruct Hw as (y' & Hy' & Hw). simplify_eq. exists r'.
    destruct (active_at r y); destruct Hw as [-> Hw]; done.
Qed.

(** Before a message is routed its preferred connections are moved to the
    end of its allowed ones; but when the allowed list is empty and an
    earlier message had a non-empty one, the count left over from it hides
    them, and the message has no connection at all. *)
Lemma merge_lists_spec (lc : locals) (rd : forward_queue_data) ps xs :
  until_end (preferred_smsc rd) = Some ps -> until_end (allowed_smsc rd) = Some xs ->
  0 <= preferred_nos lc -> 0 <= allowed_nos lc ->
  (counted ps (preferred_nos lc) <= length (preferred_smsc rd))%nat ->
  (counted xs (allowed_nos lc) + counted ps (preferred_nos lc) < length (allowed_smsc rd))%nat ->
  exists rd' lc', merge_lists lc rd = Done (rd', lc') /\
    until_end (preferred_smsc rd') = Some [] /\
    until_end (allowed_smsc rd')
      = Some (match xs with [] => if allowed_nos lc =? 0 then ps else [] | _ => xs ++ ps end).
Proof.
  intros H1 H2 H3 H4 H5 H6. destruct (merge_lists_run lc rd ps xs) as (rd' & E & _ & E1 & E2); eauto.
Qed.

(** A message that was sent without an answer is reported with status
    0x405 and never sent again; one that reached the retry limit or is too
    old is reported with 0x404.  It is destroyed, no connection sees it and
    the queue does not change. *)
Lemma route_one_gives_up fuel stack lc m r st :
  sendable_msg m -> routing_info m <> None -> verdict r m = Some st ->
  exists r', route_one fuel stack lc m r = Done (lc, r') /\ given_up r r' m st.
Proof. apply route_one_verdict. Qed.

(** ** The end of the router *)

Definition final_status m : Z :=
  if bool_decide (msg_state m = MSG_SENT_NORESP) then 0x405 else 0x406.

Lemma reported_reports r r' m st :
  given_up r r' m st ->
  reported_msgs (trace (rworld r')) = reported_msgs (trace (rworld r)) ++ [msg_ident m] /\
  destroyed_msgs (trace (rworld r')) = destroyed_msgs (trace (rworld r)) ++ [msg_ident m].
Proof.
  intros (_ & _ & _ & a & i & t & s & f & d & e & n & x & v & ip & E4 & E5). rewrite E4.
  rewrite reported_msgs_app, destroyed_msgs_app.
  match goal with |- context [reported_msgs [?e; EvDestroy m]] =>
    change (reported_msgs [e; EvDestroy m]) with (reported_msgs ([e] ++ [EvDestroy m])) end.
  rewrite reported_msgs_app, E5. done.
Qed.

(** The statuses of the reports, in order. *)
Definition report_statuses (t : list event) : list Z :=
  omap (fun e => match e with
    | EvDbbox (insert_mis _ _ _ _ _ _ _ st _ _ _ _ _) => Some st
    | _ => None
    end) t.

(** When the router ends, every message that is still in the queue is
    reported, as sent without an answer or as undeliverable, and destroyed,
    in the order of the queue, which is empty afterwards. *)
Lemma router_flush_reports r :
  Forall sendable_msg (items (outgoing_msg (rworld r))) ->
  exists r', router_flush (Z.to_nat (gwlist_len (outgoing_msg (rworld r)))) r = Done r' /\
    items (outgoing_msg (rworld r')) = [] /\ smsc_list r' = smsc_list r /\
    let q := items (outgoing_msg (rworld r)) in
    reported_msgs (trace (rworld r')) = reported_msgs (trace (rworld r)) ++ (msg_ident <$> q) /\
    destroyed_msgs (trace (rworld r')) = destroyed_msgs (trace (rworld r)) ++ (msg_ident <$> q) /\
    report_statuses (trace (rworld r')) = report_statuses (trace (rworld r)) ++ (final_status <$> q).
Proof.
  rewrite gwlist_len_spec, Nat2Z.id. remember (items (outgoing_msg (rworld r))) as q eqn:Eq.
  revert r Eq. induction q as [|m q IH]; intros r Eq Hs.
  { exists r. csimpl. rewrite !app_nil_r. by split_and!. }
  apply Forall_cons in Hs as [Hm Hs]. csimpl.
  destruct (gwlist_extract_first (outgoing_msg (rworld r))) as [x q'] eqn:Ex.
  pose proof (gwlist_extract_first_fst _ (outgoing_msg (rworld r))) as H1.
  pose proof (gwlist_extract_first_snd _ (outgoing_msg (rworld r))) as H2.
  rewrite Ex, <-Eq in H1, H2. simpl in H1, H2. subst x.
  set (r0 := with_rworld r (set_outgoing (rworld r) q')).
  destruct (report_failed_spec r0 m (final_status m) Hm) as (r1 & E1 & Hg).
  pose proof (reported_reports _ _ _ _ Hg) as [Hrep Hdes].
  destruct Hg as (G1 & G2 & _ & a & i & t & s & f & d & e & n & x & v & ip & E4 & _).
  destruct (IH r1) as (r' & E' & I1 & I2 & I3 & I4 & I5); [by rewrite G2|done|].
  destruct Hm as (inf & packed & h & b & Hi & Hp & _). rewrite Hi. simpl. rewrite Hp.
  unfold final_status in E1. rewrite E1. simpl. exists r'. split; [done|]. split; [done|].
  split; [by rewrite I2, G1|]. rewrite I3, I4, I5, Hrep, Hdes, E4. rewrite <-!app_assoc.
  split; [done|]. split; [done|]. unfold report_statuses at 1. rewrite omap_app. simpl.
  rewrite <-app_assoc. done.
Qed.

(** ** Ids *)

(** The start checks let through exactly the configurations in which the
    ids of the connections differ. *)
Theorem check_ids_distinct (l : list (SMSCConn D)) :
  check_ids l = Done tt <->
  forall j k c d a b, (j < k)%nat -> l !! j = Some c -> l !! k = Some d ->
    SmscConn.id c = Some a -> SmscConn.id d = Some b -> octets a <> octets b.
Proof.
  induction l as [|c0 l IH]; simpl; [split; [intros _ ? ? ? ? ? ? _ Hj; done|done]|].
  assert (Hb : existsb (same_id c0) l = false <->
    forall k d a b, l !! k = Some d -> SmscConn.id c0 = Some a -> SmscConn.id d = Some b ->
      octets a <> octets b).
  { rewrite <-not_true_iff_false, existsb_exists. split.
    - intros Hn k d a b Hk Ha Hb Eab. apply Hn. exists d. split.
      { apply list_elem_of_In, list_elem_of_lookup. eauto. }
      unfold same_id. rewrite Ha, Hb. by rewrite octstr_same_spec, bool_decide_eq_true.
    - intros Hall (d & Hd & Hsame). apply list_elem_of_In, list_elem_of_lookup in Hd as [k Hk].
      unfold same_id in Hsame. destruct (SmscConn.id c0) as [a|] eqn:Ea; [|done].
      destruct (SmscConn.id d) as [b|] eqn:Eb; [|done].
      rewrite octstr_same_spec, bool_decide_eq_true in Hsame. by apply (Hall k d a b). }
  split.
  - intros H j k c d a b Hjk Hj Hk Ha Hd. destruct (existsb (same_id c0) l) eqn:Ex; [done|].
    destruct k as [|k]; [lia|]. destruct j as [|j]; simpl in *.
    + injection Hj as ->. by apply (proj1 Hb eq_refl k d a b).
    + by apply (proj1 IH H j k c d a b); [lia|..].
  - intros H. assert (Ex : existsb (same_id c0) l = false).
    { apply Hb. intros k d a b Hk Ha Hd. apply (H 0%nat (S k) c0 d a b); [lia|done..]. }
    rewrite Ex. simpl. apply IH. intros j k c d a b Hjk Hj Hk Ha Hd.
    apply (H (S j) (S k) c d a b); [lia|done..].
Qed.

Definition has_id (id : octstr) c : bool :=
  match SmscConn.id c with Some a => octstr_same a id | None => false end.

Lemma find_from_spec id (l : list (SMSCConn D)) : forall i,
  (find_from id i l = -1 /\ Forall (fun c => has_id id c = false) l) \/
  exists k c, find_from id i l = i + Z.of_nat k /\ l !! k = Some c /\ has_id id c = true /\
    Forall (fun c => has_id id c = false) (take k l).
Proof.
  induction l as [|c l IH]; intros i; cbn [find_from]; [by left|].
  destruct (has_id id c) eqn:Eh; unfold has_id in Eh.
  - right. exists 0%nat, c. destruct (SmscConn.id c) eqn:Ei; [|done].
    rewrite Eh.
    split; [lia|]. unfold has_id. rewrite Ei. by split_and!.
  - assert (Hnext : match SmscConn.id c with
        | Some id' => if octstr_same id' id then i else find_from id (i + 1) l
        | None => find_from id (i + 1) l end = find_from id (i + 1) l)
      by (revert Eh; destruct (SmscConn.id c); [by intros ->|done]).
    rewrite Hnext. destruct (IH (i + 1)) as [[E Hf]|(k & d & E & Hk & Hd & Hf)].
    + left. split; [done|]. by constructor.
    + right. exists (S k), d. split; [lia|]. split; [done|]. split; [done|]. simpl. by constructor.
Qed.

(** [smsc2_find] returns the first position from [start] on that holds
    the id, and -1 when there is none. *)
Theorem smsc2_find_spec r id start :
  0 <= start <= Z.of_nat (length (smsc_list r)) ->
  let n := smsc2_find r id start in
  if n =? -1
  then Forall (fun c => has_id id c = false) (drop (Z.to_nat start) (smsc_list r))
  else start <= n < Z.of_nat (length (smsc_list r)) /\
    (exists c, smsc_list r !! Z.to_nat n = Some c /\ has_id id c = true) /\
    forall j c, start <= j < n -> smsc_list r !! Z.to_nat j = Some c -> has_id id c = false.
Proof.
  intros Hs. unfold smsc2_find.
  rewrite (proj2 (Z.ltb_ge _ _)), (proj2 (Z.ltb_ge start 0)) by lia. simpl.
  destruct (find_from_spec id (drop (Z.to_nat start) (smsc_list r)) start)
    as [[-> Hf]|(k & c & -> & Hk & Hc & Hf)]; [done|].
  rewrite (proj2 (Z.eqb_neq _ _)) by lia. rewrite lookup_drop in Hk.
  pose proof (lookup_lt_Some _ _ _ Hk). split; [lia|].
  rewrite Z2Nat.inj_add, Nat2Z.id by lia. split; [eauto|]. intros j d Hj Hd.
  rewrite Forall_lookup in Hf. apply (Hf (Z.to_nat (j - start)) d).
  rewrite lookup_take_lt by lia. rewrite lookup_drop. rewrite <-Hd. f_equal. lia.
Qed.

End Pass.
