(* ===== verification/RouterExamples.v ===== *)
(** * The router on SMPP sessions, and examples

    The connections of the router are SMPP sessions on buffered connections
    with hash tables; the examples evaluate it on concrete messages and
    witness its theorems. *)

From S2P Require Import Prelude Gwlib Counter Dict Charset Conn World.
From S2P Require Import SmscConn SmppSession SessionFacts SessionExamples Router RouterFacts RouterPass.
Open Scope Z_scope.

(** A session driver whose threads end without further work. *)
#[export] Instance session_driver : Driver (O:=list_octstr) (L:=list_gwlist) (PX:=plain_prefixes)
  (SMPP (O:=list_octstr) (L:=list_gwlist)) := smpp_driver (fun c w => Done (c, w)).

#[export] Instance session_driver_laws : DriverLaws session_driver := smpp_driver_laws _.

(** A started connection that serves the numbers with a prefix. *)
Definition session_conn (sid prefix : list Z) (n : Z) (s : smscconn_status_t)
    : SMSCConn (O:=list_octstr) (SMPP (O:=list_octstr) (L:=list_gwlist)) :=
  MkSMSCConn _ s n 1 SMSCCONN_ALIVE 900 counter_create counter_create counter_create
    0 None (Some sid) None (Some prefix) None None None 10 0 true None
    (Some (sample_smpp (repeat sample_msg (Z.to_nat n)) (dict_create 2 false))) 1.

(** Two active connections for 91, the second with less to send, one for 44
    and one that is not active. *)
Definition four_conns : list (SMSCConn (O:=list_octstr) (SMPP (O:=list_octstr) (L:=list_gwlist))) :=
  [session_conn (cstr "a") (cstr "91") 2 SMSCCONN_ACTIVE;
   session_conn (cstr "b") (cstr "91") 1 SMSCCONN_ACTIVE;
   session_conn (cstr "c") (cstr "44") 0 SMSCCONN_ACTIVE;
   session_conn (cstr "d") (cstr "91") 0 SMSCCONN_RECONNECTING].

Definition four_router (q : list Msg)
    : Router (O:=list_octstr) (L:=list_gwlist) (D:=SMPP (O:=list_octstr) (L:=list_gwlist)) :=
  MkRouter (set_outgoing (O:=list_octstr) (L:=list_gwlist) sample_world q) four_conns (-1) 3.

Definition routed_to (preferred allowed : list Z) : forward_queue_data (O:=list_octstr) :=
  MkRouting (O:=list_octstr) (cstr "919812345678") (cstr "ACME")
    (preferred ++ repeat (-1) 5) (allowed ++ repeat (-1) 8) None 0 0 0.

Definition msg_to (preferred allowed : list Z) : Msg (O:=list_octstr) :=
  set_routing sample_msg (Some (routed_to preferred allowed)).

Lemma four_ready q : Forall (ready (O:=list_octstr)) (smsc_list (four_router q)).
Proof. repeat constructor. Qed.

Lemma four_valid q l : forallb (fun x => (0 <=? x) && (x <? 4)) l = true ->
  Forall (valid_pos (four_router q)) l.
Proof.
  intros H. apply Forall_forall. intros x Hx%list_elem_of_In. rewrite List.forallb_forall in H.
  apply H, andb_true_iff in Hx. destruct Hx as [?%Z.leb_le ?%Z.ltb_lt].
  unfold valid_pos. simpl. lia.
Qed.

Lemma smsc2_rout_chooses_witness :
  exists x r', smsc2_rout 1 0 (msg_to [] [0; 1; 2; 3]) (four_router []) = Done (1, r') /\
    delivered (four_router []) r' x (msg_to [] [0; 1; 2; 3]).
Proof.
  destruct (smsc2_rout_chooses 0 0 (msg_to [] [0; 1; 2; 3]) (four_router []) _ _ [] [0; 1; 2; 3] 0
    eq_refl eq_refl) as (x & r' & H1 & _ & H2).
  - reflexivity.
  - reflexivity.
  - discriminate.
  - apply four_valid. reflexivity.
  - apply four_ready.
  - discriminate.
  - set_solver.
  - reflexivity.
  - exists x, r'. exact (conj H1 H2).
Defined.

Lemma smsc2_rout_unserved_witness :
  exists r', smsc2_rout 1 0 (msg_to [] [2]) (four_router []) = Done (-1, r') /\
    lost (four_router []) r' (msg_to [] [2]).
Proof.
  apply (smsc2_rout_unserved 0 0 (msg_to [] [2]) (four_router []) _ _ [] [2] 2 eq_refl eq_refl).
  - reflexivity.
  - reflexivity.
  - reflexivity.
  - apply four_valid. reflexivity.
  - apply four_ready.
  - discriminate.
  - discriminate.
  - repeat constructor.
Defined.

(** The list of an earlier message hides the preferred one of this message. *)
Lemma merge_lists_spec_witness :
  exists rd' lc', merge_lists (MkLocals 1 2) (routed_to [0; 1] []) = Done (rd', lc') /\
    until_end (preferred_smsc rd') = Some [] /\ until_end (allowed_smsc rd') = Some [].
Proof.
  apply (merge_lists_spec (MkLocals 1 2) (routed_to [0; 1] []) [0; 1] []);
    try reflexivity; simpl; lia.
Defined.

Definition unanswered : Msg (O:=list_octstr) := set_state (msg_to [] [0]) MSG_SENT_NORESP.

Lemma four_sendable m : m ∈ [msg_to [] [0]; msg_to [0] [1]; unanswered] ->
  sendable_msg (P:=toy_pdus) m.
Proof. intros Hm. set_unfold in Hm. destruct_or! Hm; subst m; do 4 eexists; split_and!; reflexivity. Qed.

Lemma route_one_gives_up_witness :
  exists r', route_one 1 0 (MkLocals 0 0) unanswered (four_router []) = Done (MkLocals 0 0, r') /\
    given_up (four_router []) r' unanswered 0x405.
Proof.
  apply (route_one_gives_up 1 0 (MkLocals 0 0) unanswered (four_router [])).
  - apply four_sendable. set_solver.
  - discriminate.
  - reflexivity.
Defined.

(** The third message is given up, the fourth one is forgotten. *)
Definition mixed_queue : list (Msg (O:=list_octstr)) := [msg_to [] [0]; msg_to [0] [1]; unanswered; msg_to [] [2]].

Lemma router_turn_loses_nothing_witness :
  let r := four_router mixed_queue in
  exists lc' r', router_turn 1 0 (MkLocals 0 0) r = Done (lc', r') /\
    live r' ++ reported_msgs (trace (rworld r')) ++ [msg_ident (msg_to [] [2])]
    ≡ₚ live r ++ reported_msgs (trace (rworld r)).
Proof.
  destruct (router_turn_loses_nothing 0 0 2 (MkLocals 0 0) (four_router mixed_queue))
    as (lc' & r' & H1 & _ & H2 & _).
  - apply Forall_forall. intros m Hm. right. simpl in Hm. set_unfold in Hm.
    split; [destruct_or! Hm; subst m; do 4 eexists; split_and!; reflexivity|].
    destruct_or! Hm; subst m;
      [exists (routed_to [] [0]), [], [0]|exists (routed_to [0] [1]), [0], [1]
      |exists (routed_to [] [0]), [], [0]|exists (routed_to [] [2]), [], [2]];
      (split_and!; [reflexivity|reflexivity|reflexivity|discriminate
        |apply four_valid; reflexivity|simpl; lia|simpl; lia|simpl; lia]).
  - split; simpl; lia.
  - apply four_ready.
  - discriminate.
  - exists lc', r'. exact (conj H1 H2).
Defined.

Lemma router_flush_reports_witness :
  exists r', router_flush 2 (four_router [msg_to [] [0]; unanswered]) = Done r' /\
    report_statuses (trace (rworld r')) = [0x406; 0x405].
Proof.
  destruct (router_flush_reports (four_router [msg_to [] [0]; unanswered]))
    as (r' & H1 & _ & _ & _ & _ & H2).
  - repeat constructor; apply four_sendable; set_solver.
  - exists r'. exact (conj H1 H2).
Defined.

Lemma smsc2_find_spec_witness :
  smsc2_find (four_router []) (cstr "c") 1 = 2 /\
  forall j c, 1 <= j < 2 -> smsc_list (four_router []) !! Z.to_nat j = Some c ->
    has_id (cstr "c") c = false.
Proof.
  split; [reflexivity|].
  destruct (smsc2_find_spec (four_router []) (cstr "c") 1) as (_ & _ & H); [simpl; lia|].
  exact H.
Defined.

Lemma check_ids_distinct_witness :
  cstr "a" <> cstr "c" /\ check_ids (four_conns ++ four_conns) <> Done tt.
Proof.
  split.
  - apply (proj1 (check_ids_distinct four_conns) eq_refl 0%nat 2%nat
      (session_conn (cstr "a") (cstr "91") 2 SMSCCONN_ACTIVE)
      (session_conn (cstr "c") (cstr "44") 0 SMSCCONN_ACTIVE) (cstr "a") (cstr "c")).
    + lia.
    + reflexivity.
    + reflexivity.
    + reflexivity.
    + reflexivity.
  - discriminate.
Defined.
