(* ===== verification/SmscCreate.v ===== *)
(** * Starting the connections to the SMSCs (smscconn.c, smsc_smpp.c, smsc.c)

    How a group [smsc] of the configuration becomes a connection with its
    session and threads, and what the client does when it starts.  The ids of
    the threads are arguments: what [gwthread_create] returns, -1 when it
    fails.  Log files are not modelled; [octstr_len(NULL)] is 0.  Reading a
    variable that was not set and writing behind an array are undefined. *)

From S2P Require Import Prelude Gwlib Counter Dict Cfg World.
From S2P Require Import SmscConn SmppSession Router.
Open Scope Z_scope.

Definition SMSCCONN_RECONNECT_DELAY : Z := 10.
Definition SMPP_ENQUIRE_LINK_INTERVAL : Z := 30.
Definition SMPP_MAX_PENDING_SUBMITS : Z := 10.
Definition SMPP_DEFAULT_VERSION : Z := 0x34.
Definition SMPP_DEFAULT_PRIORITY : Z := 0.
Definition SMPP_DEFAULT_CONNECTION_TIMEOUT : Z := 10 * SMPP_ENQUIRE_LINK_INTERVAL.
Definition SMPP_DEFAULT_WAITACK : Z := 60.

(** [gw_regex_comp]. *)
Class RegexComp (O : OctstrLib) {PX : PrefixLib O} : Type := { gw_regex_comp : octstr -> option regex }.

(** The characters before the first NUL. *)
Fixpoint c_string (l : list Z) : list Z :=
  match l with [] => [] | c :: l => if c =? 0 then [] else c :: c_string l end.

Section Create.
Context {O : OctstrLib} {L : GwListLib} {R : PduRest} {N : SmppNames} {P : PduLib O R} {PX : PrefixLib O}
  {RC : RegexComp O} {K : Link O} {T : ReceiptLib O} {S : KeyedStore O L smpp_msg}
  {C : CfgStrings O L} {PL : ParseLib O} {F : Files O} {SV : KeyedStore O L octstr}
  {SG : KeyedStore O L (CfgGroup (SV := SV))} {SM : KeyedStore O L (gwlist (CfgGroup (SV := SV)))}.
Variable h : Hooks.
Implicit Types (grp : CfgGroup (SV := SV)) (conn : SMSCConn SMPP).

(** ** The SMPP session *)

Definition set_threads (p : SMPP) (tx rx : Z) : SMPP :=
  MkSMPP (config p) tx rx (msgs_to_send p) (sent_msgs p) (message_id_counter p) (quitting p) (throttling_err_time p).

(** [cfg_get_bool(&x, grp, name)] with a default for a variable that is not
    there. *)
Definition cfg_bool_or grp (name : String.string) (default : Z) : outcome Z :=
  rn ← cfg_get_bool h (Some grp) (octstr_imm name);
  Done (if rn.1 =? -1 then default else rn.2).

(** A number whose range is checked when it is there. *)
Definition checked_integer grp (name : String.string) (default : Z) (valid : Z -> bool) : outcome Z :=
  rn ← cfg_get_integer h 0 (Some grp) (octstr_imm name);
  if rn.1 =? -1 then Done default
  else _ ← gw_assert (valid rn.2); Done rn.2.

(** Decimal to BCD. *)
Definition interface_version_of grp : outcome Z :=
  rn ← cfg_get_integer h 0 (Some grp) (octstr_imm "interface-version");
  Done (if rn.1 =? -1 then SMPP_DEFAULT_VERSION
        else wrap_long (wrap_long (Z.shiftl (Z.quot rn.2 10) 4) + Z.rem rn.2 10)).

(** What [octstr_format] makes of the names and ports. *)
Definition smpp_name (host : octstr) (port receive_port : Z) (username system_type : octstr) : octstr :=
  octstr_create (cstr "SMPP:" ++ octets host ++ [58] ++ format_ld (wrap_int port) ++ [47] ++
    format_ld (wrap_int (if receive_port =? 0 then port else receive_port)) ++ [58] ++ octets username ++ [58] ++
    octets system_type).

(** The variables that [smsc_smpp_create] checks first. *)
Definition smpp_config_ok (host username password system_type service_type : option octstr)
    (port receive_port transceiver_mode : Z) : bool :=
  is_set host && is_set username && is_set password && is_set system_type &&
  negb (6 <? from_option octstr_len 0 service_type) && negb ((port =? 0) && (receive_port =? 0)) &&
  negb (negb (transceiver_mode =? 0) && (port =? 0)).

(** The session, with the parameters of [smpp_create] as [int]s where they
    are. *)
Definition read_session grp (host system_type username password address_range service_type : option octstr)
    (port receive_port enquire max_pending : Z) : outcome SMPP :=
  source_addr_ton ← cfg_integer_or h grp "source-addr-ton" (-1);
  source_addr_npi ← cfg_integer_or h grp "source-addr-npi" (-1);
  dest_addr_ton ← cfg_integer_or h grp "dest-addr-ton" (-1);
  dest_addr_npi ← cfg_integer_or h grp "dest-addr-npi" (-1);
  autodetect_addr ← cfg_bool_or grp "source-addr-autodetect" 1;
  version ← interface_version_of grp;
  priority ← checked_integer grp "priority" SMPP_DEFAULT_PRIORITY (fun z => (0 <=? z) && (z <=? 3));
  validity ← checked_integer grp "validityperiod" (-1) (fun z => 0 <=? z);
  smpp_msg_id_type ← checked_integer grp "msg-id-type" (-1) (fun z => (0 <=? z) && (z <=? 3));
  alt_charset ← cfg_var h grp "alt-charset";
  alt_addr_charset ← cfg_var h grp "alt-addr-charset";
  connection_timeout ← cfg_integer_or h grp "connection-timeout" SMPP_DEFAULT_CONNECTION_TIMEOUT;
  wait_ack ← cfg_integer_or h grp "wait-ack" SMPP_DEFAULT_WAITACK;
  wait_ack_action ← cfg_integer_or h grp "wait-ack-expire" SMPP_WAITACK_REQUEUE;
  _ ← gw_assert (negb ((3 <? wait_ack_action) || (wait_ack_action <? 0)));
  masking_prefix ← cfg_var h grp "masking-prefix";
  _ ← gw_assert (match masking_prefix with Some m => octstr_len m =? 3 | None => true end);
  deliver_sm_source ← cfg_bool_or grp "deliver-sm-source" 1;
  bind_ton ← cfg_get_integer h 0 (Some grp) (octstr_imm "bind-addr-ton");
  bind_npi ← cfg_get_integer h 0 (Some grp) (octstr_imm "bind-addr-npi");
  Done (smpp_create (MkConfig host system_type username password address_range service_type masking_prefix
    (wrap_int source_addr_ton) (wrap_int source_addr_npi) (wrap_int dest_addr_ton) (wrap_int dest_addr_npi)
    bind_ton.2 bind_npi.2 (wrap_int port) (wrap_int receive_port) (wrap_int enquire) (wrap_int max_pending)
    (wrap_int version) (wrap_int priority) (wrap_int validity) (wrap_int smpp_msg_id_type) autodetect_addr
    alt_charset alt_addr_charset connection_timeout wait_ack (wrap_int wait_ack_action) deliver_sm_source)).

(** [tx] and [rx] are the threads that are created.  With a system-id its
    string is destroyed twice. *)
Definition smsc_smpp_create conn grp (tx rx : Z) : outcome (Z * SMSCConn SMPP) :=
  host ← cfg_var h grp "host";
  port ← cfg_integer_or h grp "port" 0;
  receive_port ← cfg_integer_or h grp "receive-port" 0;
  transceiver_mode ← cfg_get_bool h (Some grp) (octstr_imm "transceiver-mode");
  username ← cfg_var h grp "smsc-username";
  password ← cfg_var h grp "smsc-password";
  system_type ← cfg_var h grp "system-type";
  address_range ← cfg_var h grp "address-range";
  service_type ← cfg_var h grp "service-type";
  system_id ← cfg_var h grp "system-id";
  let username := match username with Some u => Some u | None => system_id end in
  enquire ← cfg_integer_or h grp "enquire-link-interval" SMPP_ENQUIRE_LINK_INTERVAL;
  max_pending ← cfg_integer_or h grp "max-pending-submits" SMPP_MAX_PENDING_SUBMITS;
  if negb (smpp_config_ok host username password system_type service_type port receive_port transceiver_mode.2)
  then Done (-1, conn)
  else
    smpp ← read_session grp host system_type username password address_range service_type port receive_port enquire max_pending;
    smsc_id ← cfg_var h grp "smsc-id";
    host ← must host; username ← must username; system_type ← must system_type;
    let name := smpp_name host port receive_port username system_type in
    _ ← gw_assert (negb (is_set system_id));
    let smpp := set_threads smpp (if port =? 0 then -1 else tx) (if receive_port =? 0 then -1 else rx) in
    let failed := negb (port =? 0) && (tx =? -1) || negb (receive_port =? 0) && (rx =? -1) in
    let smpp := if failed then set_quitting smpp else smpp in
    let conn := MkSMSCConn SMPP SMSCCONN_CONNECTING (load conn) (bind_sent conn) (why_killed conn) (connect_time conn)
      (received conn) (sent conn) (SmscConn.failed conn) (is_stopped conn) (Some name)
      (match smsc_id with Some _ => id conn | None => Some (octstr_duplicate name) end) (our_host conn)
      (allowed_prefix conn) (allowed_prefix_regex conn) (denied_prefix conn) (denied_prefix_regex conn)
      (reconnect_delay conn) (alt_dcs conn) (negb failed) (smsc_type conn) (Some smpp) (mode conn) in
    Done (if failed then -1 else 0, conn).

(** ** The connection *)

Definition compile (pattern : option octstr) : outcome (option regex) :=
  match pattern with
  | None => Done None
  | Some p => r ← must (gw_regex_comp p); Done (Some r)
  end.

Definition set_smsc_type conn (t : octstr) : SMSCConn SMPP :=
  MkSMSCConn SMPP (status conn) (load conn) (bind_sent conn) (why_killed conn) (connect_time conn)
    (received conn) (sent conn) (failed conn) (is_stopped conn) (name conn) (id conn) (our_host conn)
    (allowed_prefix conn) (allowed_prefix_regex conn) (denied_prefix conn) (denied_prefix_regex conn)
    (reconnect_delay conn) (alt_dcs conn) (callbacks conn) (Some t) (data conn) (mode conn).

(** The words that [smsc-type] may be; it is copied into an array of 30. *)
Definition known_type (data : list Z) : bool :=
  bool_decide (data = cstr "int") || bool_decide (data = cstr "gsm") ||
  bool_decide (data = cstr "cdma") || bool_decide (data = cstr "all").

(** [ret] has no value when the connection is not of the type smpp.  The
    connections that are refused are not freed: [smscconn_destroy] does
    nothing to one that is not dead. *)
Definition smscconn_create (grp : option (CfgGroup (SV := SV))) (start_as_stopped tx rx : Z)
    : outcome (option (SMSCConn SMPP)) :=
  match grp with
  | None => Done None
  | Some grp =>
      id ← cfg_var h grp "smsc-id";
      allowed ← cfg_var h grp "allowed-prefix";
      denied ← cfg_var h grp "denied-prefix";
      our_host ← cfg_var h grp "our-host";
      log_file ← cfg_var h grp "log-file";
      alt_dcs ← cfg_get_bool h (Some grp) (octstr_imm "alt-dcs");
      allowed_regex ← cfg_var h grp "allowed-prefix-regex";
      allowed_re ← compile allowed_regex;
      denied_regex ← cfg_var h grp "denied-prefix-regex";
      denied_re ← compile denied_regex;
      log_level ← cfg_integer_or h grp "log-level" 0;
      reconnect_delay ← cfg_integer_or h grp "reconnect-delay" SMSCCONN_RECONNECT_DELAY;
      let conn := MkSMSCConn SMPP SMSCCONN_CONNECTING 0 (-1) SMSCCONN_ALIVE (-1) counter_create counter_create
        counter_create start_as_stopped None id our_host allowed allowed_re denied denied_re reconnect_delay
        alt_dcs.2 false None None 0 in
      smsc ← cfg_var h grp "smsc";
      match smsc, id with
      | Some smsc, Some _ =>
          rc ← (if octstr_same smsc (octstr_imm "smpp") then
                  rc ← smsc_smpp_create conn grp tx rx; Done (Some rc.1, rc.2)
                else Done (None, conn));
          stype ← cfg_var h grp "smsc-type";
          match stype with
          | None => Done None
          | Some stype =>
              let conn := set_smsc_type rc.2 stype in
              let data := c_string (octets stype) in
              _ ← gw_assert (Z.of_nat (length data) <? 30);
              if negb (known_type data) then Done None
              else ret ← must rc.1; Done (if ret =? -1 then None else Some conn)
          end
      | _, _ => Done None
      end
  end.

(** ** The start of the client *)

(** The variables of [smsc.c] that the start reads. *)
Record Limits : Type := MkLimits {
  msg_resend_frequency : Z; start_max_msg_duration : Z; start_max_retry_limit : Z;
  global_q_min : Z; global_q_max : Z; compare_smsc_string : option (list octstr)
}.

(** [threads] are the ids of the two threads of each connection. *)
Fixpoint create_all (threads : nat -> Z * Z) (i : nat) (groups : list (CfgGroup (SV := SV)))
    : outcome (list (SMSCConn SMPP)) :=
  match groups with
  | [] => Done []
  | grp :: groups =>
      conn ← smscconn_create (Some grp) 1 (threads i).1 (threads i).2;
      conn ← must conn;
      l ← create_all threads (i + 1) groups;
      Done (conn :: l)
  end.

(** The number that is not there is replaced. *)
Definition resend_frequency (n : Z) : Z := if n <=? 0 then 60 else n.

(** The group [SMPP-Client] must be there: the code does not look. *)
Definition start2_smsc (cfg : Cfg (SG := SG) (SM := SM)) (smsc_running : bool) (threads : nat -> Z * Z) (sys router : Z)
    : outcome (option (Limits * list (SMSCConn SMPP))) :=
  if smsc_running then Done None
  else
    grp ← cfg_get_single_group cfg (octstr_imm "SMPP-Client");
    grp ← must grp;
    freq ← cfg_integer_or h grp "msg-resend-freq" 0;
    duration ← cfg_integer_or h grp "max-msg-duration" (-1);
    retries ← cfg_integer_or h grp "msg-retry-limit" 1;
    q_min ← cfg_integer_or h grp "global-q-min" (-1);
    q_max ← cfg_integer_or h grp "global-q-max" (-1);
    _ ← check_limits q_min q_max;
    tmp ← cfg_var h grp "compare-esm-smscid";
    groups ← cfg_get_multi_group cfg (octstr_imm "smsc");
    conns ← create_all threads 0 (from_option items [] groups);
    _ ← check_ids conns;
    _ ← gw_assert (negb (sys =? -1));
    _ ← gw_assert (negb (router =? -1));
    Done (Some (MkLimits (resend_frequency freq) duration retries q_min q_max
      (option_map (fun tmp => items (octstr_split tmp (octstr_imm ";"))) tmp), conns)).

End Create.
