(* ===== verification/SmscCreateFacts.v ===== *)
(** * Facts about the start of the connections

    Which groups become connections, what these are like, and that the
    threads and the router start in states that their theorems assume. *)

From S2P Require Import Prelude Gwlib Counter Dict Cfg CfgDef CfgFacts.
From S2P Require Import CfgRead World SmscConn SmppSession SessionFacts.
From S2P Require Import CfgExamples SessionExamples.
From S2P Require Import IoThread IoThreadFacts Router RouterFacts RouterPass SmscCreate.
Open Scope Z_scope.

Section Facts.
Context {O : OctstrLib} {OL : OctstrLaws O} {L : GwListLib} {LL : GwListLaws L} {R : PduRest}
  {N : SmppNames} {P : PduLib O R} {PX : PrefixLib O} {RC : RegexComp O} {K : Link O} {T : ReceiptLib O}
  {S : KeyedStore O L smpp_msg} {SL : KeyedStoreLaws S}
  {C : CfgStrings O L} {CL : CfgStringsLaws C} {PL : ParseLib O} {PLL : ParseLaws PL} {F : Files O}
  {SV : KeyedStore O L octstr} {SVL : KeyedStoreLaws SV}
  {SG : KeyedStore O L (CfgGroup (SV := SV))} {SM : KeyedStore O L (gwlist (CfgGroup (SV := SV)))}
  {SGL : KeyedStoreLaws SG} {SML : KeyedStoreLaws SM}.
Variable file : octstr.
Notation hooks := (cfg_create (SG := SG) (SM := SM) cfg_def file).2.
Implicit Types (grp : CfgGroup (SV := SV)) (m : vars_map) (c : SMSCConn SMPP).

Definition smsc_key : list Z := cstr "smsc".

(** ** What the group says *)

Definition in_range (rn : Z * Z) (lo hi : Z) : Prop := rn.1 = -1 \/ lo <= rn.2 <= hi.

(** The checks of [smsc_smpp_create]; [tx] and [rx] are the threads. *)
Record session_configured m (tx rx : Z) : Prop := {
  sc_host : is_Some (m !! cstr "host");
  sc_username : is_Some (m !! cstr "smsc-username");
  sc_password : is_Some (m !! cstr "smsc-password");
  sc_system_type : is_Some (m !! cstr "system-type");
  sc_service : forall v, m !! cstr "service-type" = Some v -> (length v <= 6)%nat;
  sc_ports : number_or m "port" 0 <> 0 \/ number_or m "receive-port" 0 <> 0;
  sc_transceiver : flag m "transceiver-mode" = true -> number_or m "port" 0 <> 0;
  sc_system_id : m !! cstr "system-id" = None;
  sc_priority : in_range (number m "priority" 0) 0 3;
  sc_validity : (number m "validityperiod" 0).1 = -1 \/ 0 <= (number m "validityperiod" 0).2;
  sc_msg_id : in_range (number m "msg-id-type" 0) 0 3;
  sc_wait_ack : 0 <= number_or m "wait-ack-expire" SMPP_WAITACK_REQUEUE <= 3;
  sc_masking : forall v, m !! cstr "masking-prefix" = Some v -> length v = 3%nat;
  sc_tx : number_or m "port" 0 <> 0 -> tx <> -1;
  sc_rx : number_or m "receive-port" 0 <> 0 -> rx <> -1
}.

Definition compiles (o : option (list Z)) : Prop :=
  forall v p, o = Some v -> octets p = v -> is_Some (gw_regex_comp p).

Record connection_configured m (tx rx : Z) : Prop := {
  cc_smsc : m !! cstr "smsc" = Some (cstr "smpp");
  cc_id : is_Some (m !! cstr "smsc-id");
  cc_type : exists w, m !! cstr "smsc-type" = Some (cstr w) /\ w ∈ ["int"; "gsm"; "cdma"; "all"]%string;
  cc_allowed : compiles (m !! cstr "allowed-prefix-regex");
  cc_denied : compiles (m !! cstr "denied-prefix-regex");
  cc_session : session_configured m tx rx
}.

(** ** What a connection is then *)

(** What [cfg_get_bool] leaves in a variable. *)
Definition flag_or m (name : String.string) (d : Z) : Z :=
  match m !! cstr name with None => d | Some _ => if flag m name then 1 else 0 end.

(** The version in BCD. *)
Definition version_of m : Z :=
  let rn := number m "interface-version" 0 in
  if rn.1 =? -1 then SMPP_DEFAULT_VERSION else 16 * Z.quot rn.2 10 + Z.rem rn.2 10.

(** The parameters that are read last, and all of them. *)
Record read_shows m (cf : smpp_config) : Prop := {
  rs_source : smpp_source_addr_ton cf = wrap_int (number_or m "source-addr-ton" (-1)) /\
    smpp_source_addr_npi cf = wrap_int (number_or m "source-addr-npi" (-1));
  rs_dest : smpp_dest_addr_ton cf = wrap_int (number_or m "dest-addr-ton" (-1)) /\
    smpp_dest_addr_npi cf = wrap_int (number_or m "dest-addr-npi" (-1));
  rs_bind : bind_addr_ton cf = (number m "bind-addr-ton" 0).2 /\ bind_addr_npi cf = (number m "bind-addr-npi" 0).2;
  rs_flags : autodetect_addr cf = flag_or m "source-addr-autodetect" 1 /\
    deliver_sm_source cf = flag_or m "deliver-sm-source" 1;
  rs_version : version cf = wrap_int (version_of m);
  rs_priority : priority cf = number_or m "priority" SMPP_DEFAULT_PRIORITY /\ 0 <= priority cf <= 3;
  rs_validity : validityperiod cf = wrap_int (number_or m "validityperiod" (-1)) /\
    ((number m "validityperiod" 0).1 = -1 \/ 0 <= (number m "validityperiod" 0).2);
  rs_msg_id : smpp_msg_id_type cf = number_or m "msg-id-type" (-1) /\ -1 <= smpp_msg_id_type cf <= 3;
  rs_charsets : octets <$> alt_charset cf = m !! cstr "alt-charset" /\
    octets <$> alt_addr_charset cf = m !! cstr "alt-addr-charset";
  rs_times : connection_timeout cf = number_or m "connection-timeout" SMPP_DEFAULT_CONNECTION_TIMEOUT /\
    wait_ack cf = number_or m "wait-ack" SMPP_DEFAULT_WAITACK;
  rs_action : wait_ack_action cf = number_or m "wait-ack-expire" SMPP_WAITACK_REQUEUE /\ 0 <= wait_ack_action cf <= 3;
  rs_masking : octets <$> masking_prefix cf = m !! cstr "masking-prefix" /\
    forall p, masking_prefix cf = Some p -> length (octets p) = 3%nat
}.

Record config_shows m (cf : smpp_config) : Prop := {
  cf_host : octets <$> host cf = m !! cstr "host" /\ is_Some (host cf);
  cf_username : octets <$> username cf = m !! cstr "smsc-username" /\ is_Some (username cf);
  cf_password : octets <$> password cf = m !! cstr "smsc-password" /\ is_Some (password cf);
  cf_system_type : octets <$> system_type cf = m !! cstr "system-type" /\ is_Some (system_type cf);
  cf_others : octets <$> address_range cf = m !! cstr "address-range" /\
    octets <$> smpp_service_type cf = m !! cstr "service-type";
  cf_ports : transmit_port cf = wrap_int (number_or m "port" 0) /\
    receive_port cf = wrap_int (number_or m "receive-port" 0);
  cf_enquire : enquire_link_interval cf = wrap_int (number_or m "enquire-link-interval" SMPP_ENQUIRE_LINK_INTERVAL);
  cf_window : max_pending_submits cf = wrap_int (number_or m "max-pending-submits" SMPP_MAX_PENDING_SUBMITS);
  cf_read : read_shows m cf
}.

Lemma wrap_int_small z : - 2 ^ 31 <= z < 2 ^ 31 -> wrap_int z = z.
Proof. intros H. unfold wrap_int. rewrite Z.mod_small; lia. Qed.

Lemma checked_integer_spec grp m (name : String.string) d valid :
  stored smsc_key grp m -> allowed cfg_def smsc_key (cstr name) = true ->
  let rn := number m name 0 in
  match checked_integer hooks grp name d valid with
  | Done v => v = number_or m name d /\ (rn.1 = -1 \/ valid v = true /\ v = rn.2)
  | Panic => rn.1 <> -1 /\ valid rn.2 = false
  end.
Proof.
  intros Hs Ha rn. unfold rn, checked_integer. rewrite (cfg_get_integer_number cfg_def file smsc_key grp m name 0 Hs Ha).
  cbn [mbind outcome_bind]. unfold number_or. destruct (number m name 0) as [r n]. simpl. destruct (Z.eqb_spec r (-1)); [tauto|].
  destruct (valid n) eqn:E; simpl; [tauto|done].
Qed.

Lemma version_wraps z : wrap_int (wrap_long (wrap_long (Z.shiftl (Z.quot z 10) 4) + Z.rem z 10)) = wrap_int (16 * Z.quot z 10 + Z.rem z 10).
Proof.
  assert (Hl : forall a, exists k, wrap_long a = a + k * 2 ^ 32).
  { intros a. exists (- ((a + 2 ^ 63) / 2 ^ 64) * 2 ^ 32). unfold wrap_long. pose proof (Z.div_mod (a + 2 ^ 63) (2 ^ 64)). lia. }
  assert (Hi : forall a k, wrap_int (a + k * 2 ^ 32) = wrap_int a).
  { intros a k. unfold wrap_int. replace (a + k * 2 ^ 32 + 2 ^ 31) with (a + 2 ^ 31 + k * 2 ^ 32) by lia. by rewrite Z_mod_plus_full. }
  rewrite Z.shiftl_mul_pow2 by lia. change (2 ^ 4) with 16.
  destruct (Hl (Z.quot z 10 * 16)) as [k ->]. destruct (Hl (Z.quot z 10 * 16 + k * 2 ^ 32 + Z.rem z 10)) as [j ->].
  replace (Z.quot z 10 * 16 + k * 2 ^ 32 + Z.rem z 10 + j * 2 ^ 32) with (16 * Z.quot z 10 + Z.rem z 10 + (k + j) * 2 ^ 32) by lia.
  apply Hi.
Qed.

Ltac shown Hs name :=
  let os := fresh "os" in let E := fresh "E" in let Eo := fresh "Eo" in
  destruct (cfg_var_shown cfg_def file smsc_key _ _ name Hs eq_refl) as (os & E & Eo); rewrite E; clear E; cbn [mbind outcome_bind].
Ltac number_is Hs name d := rewrite (cfg_integer_or_number cfg_def file smsc_key _ _ name d Hs eq_refl); cbn [mbind outcome_bind].
Ltac raw_number Hs name := rewrite (cfg_get_integer_number cfg_def file smsc_key _ _ name 0 Hs eq_refl); cbn [mbind outcome_bind].

Ltac checked Hs name v Hv :=
  match goal with |- context [checked_integer ?h ?g (name)%string ?d ?valid] =>
    pose proof (checked_integer_spec g _ name d valid Hs eq_refl) as Hv;
    destruct (checked_integer h g name d valid) as [v|]; cbn [mbind outcome_bind];
    [|unfold in_range; cbv zeta in Hv; destruct Hv as [? ?]; intros (? & ? & ? & ?); zbool; lia]
  end.

Lemma cfg_get_bool_value grp m (name : String.string) : stored smsc_key grp m -> allowed cfg_def smsc_key (cstr name) = true ->
  cfg_get_bool hooks (Some grp) (octstr_imm name)
  = Done (if m !! cstr name then 0 else -1, if flag m name then 1 else 0).
Proof.
  intros Hs Ha. destruct (cfg_var_shown cfg_def file smsc_key grp m name Hs Ha) as (os & E & Eo). unfold cfg_var in E.
  unfold cfg_get_bool. rewrite E. cbn [mbind outcome_bind]. unfold flag. rewrite <-Eo. destruct os as [o|]; [|done].
  change (octets <$> Some o) with (Some (octets o)). cbv iota.
  rewrite !(is_word_proper (octstr_create (octets o)) o) by apply octets_create_octets.
  by destruct (is_word o _), (is_word o _).
Qed.

Lemma cfg_bool_or_flag grp m (name : String.string) d : stored smsc_key grp m -> allowed cfg_def smsc_key (cstr name) = true ->
  cfg_bool_or hooks grp name d = Done (flag_or m name d).
Proof.
  intros Hs Ha. unfold cfg_bool_or, flag_or. rewrite (cfg_get_bool_value grp m name Hs Ha). cbn [mbind outcome_bind fst snd].
  by destruct (m !! cstr name).
Qed.

(** Reading the session: the checks of the ranges are what can stop it. *)
Lemma read_session_spec grp m (h st u pw ar sv : option octstr) port rport enq maxp :
  stored smsc_key grp m ->
  match read_session hooks grp h st u pw ar sv port rport enq maxp with
  | Panic => ~ (in_range (number m "priority" 0) 0 3 /\
      ((number m "validityperiod" 0).1 = -1 \/ 0 <= (number m "validityperiod" 0).2) /\
      in_range (number m "msg-id-type" 0) 0 3 /\ 0 <= number_or m "wait-ack-expire" SMPP_WAITACK_REQUEUE <= 3 /\
      forall v, m !! cstr "masking-prefix" = Some v -> length v = 3%nat)
  | Done p => exists cf, p = smpp_create cf /\ host cf = h /\ system_type cf = st /\ username cf = u /\ password cf = pw /\
      address_range cf = ar /\ smpp_service_type cf = sv /\ transmit_port cf = wrap_int port /\
      receive_port cf = wrap_int rport /\ enquire_link_interval cf = wrap_int enq /\
      max_pending_submits cf = wrap_int maxp /\ read_shows m cf
  end.
Proof.
  intros Hs. unfold read_session.
  number_is Hs "source-addr-ton" (-1). number_is Hs "source-addr-npi" (-1).
  number_is Hs "dest-addr-ton" (-1). number_is Hs "dest-addr-npi" (-1).
  rewrite (cfg_bool_or_flag grp m "source-addr-autodetect" 1 Hs eq_refl). cbn [mbind outcome_bind].
  unfold interface_version_of. raw_number Hs "interface-version".
  checked Hs "priority" np Hp. checked Hs "validityperiod" nv Hv. checked Hs "msg-id-type" nm Hm.
  shown Hs "alt-charset". shown Hs "alt-addr-charset". number_is Hs "connection-timeout" SMPP_DEFAULT_CONNECTION_TIMEOUT.
  number_is Hs "wait-ack" SMPP_DEFAULT_WAITACK. number_is Hs "wait-ack-expire" SMPP_WAITACK_REQUEUE.
  set (wa := number_or m "wait-ack-expire" SMPP_WAITACK_REQUEUE) in *.
  destruct ((3 <? wa) || (wa <? 0)) eqn:Hwa; simpl negb; cbn [gw_assert mbind outcome_bind].
  { intros (_ & _ & _ & ? & _). apply orb_true_iff in Hwa as [?|?]; zlia. }
  shown Hs "masking-prefix".
  assert (Hmask : match os1 with Some mp => octstr_len mp =? 3 | None => true end = true <->
    forall v, m !! cstr "masking-prefix" = Some v -> length v = 3%nat).
  { rewrite <-Eo1. destruct os1 as [mp|]; simpl; [|split; [by intros _ v|done]].
    rewrite Z.eqb_eq, octstr_len_spec. split; [intros E v [= <-]; lia|intros E; by rewrite (E _ eq_refl)]. }
  destruct (match os1 with Some mp => octstr_len mp =? 3 | None => true end) eqn:Hl; cbn [gw_assert mbind outcome_bind].
  2:{ intros (_ & _ & _ & _ & Hall). by apply Hmask in Hall. }
  rewrite (cfg_bool_or_flag grp m "deliver-sm-source" 1 Hs eq_refl). cbn [mbind outcome_bind].
  raw_number Hs "bind-addr-ton". raw_number Hs "bind-addr-npi". zbool.
  destruct Hp as [Ep Hp], Hv as [Ev Hv], Hm as [Em Hm].
  assert (0 <= np <= 3).
  { destruct Hp as [Hp|[Hp _]]; [|zlia]. rewrite Ep. unfold number_or. rewrite Hp. simpl. unfold SMPP_DEFAULT_PRIORITY. lia. }
  assert (-1 <= nm <= 3).
  { destruct Hm as [Hm|[Hm _]]; [|zlia]. rewrite Em. unfold number_or. rewrite Hm. simpl. lia. }
  eexists. split; [reflexivity|]. do 10 (split; [reflexivity|]).
  split; cbn [smpp_source_addr_ton smpp_source_addr_npi smpp_dest_addr_ton smpp_dest_addr_npi bind_addr_ton bind_addr_npi
    autodetect_addr deliver_sm_source version priority validityperiod smpp_msg_id_type alt_charset alt_addr_charset
    connection_timeout wait_ack wait_ack_action masking_prefix];
    rewrite ?(wrap_int_small np), ?(wrap_int_small nm), ?(wrap_int_small wa) by lia; try done.
  - unfold version_of. destruct (_ =? -1); [done|]. apply version_wraps.
  - split; [by rewrite Ev|]. destruct Hv as [|[Hv <-]]; [by left|right; zlia].
  - split; [done|]. intros p ->. apply (proj1 Hmask eq_refl). by rewrite <-Eo1.
Qed.

(** The fields of the connection that the session leaves alone. *)
Definition same_base c c' : Prop :=
  load c' = load c /\ bind_sent c' = bind_sent c /\ why_killed c' = why_killed c /\ connect_time c' = connect_time c /\
  received c' = received c /\ sent c' = sent c /\ failed c' = failed c /\ is_stopped c' = is_stopped c /\
  our_host c' = our_host c /\ allowed_prefix c' = allowed_prefix c /\ denied_prefix c' = denied_prefix c /\
  allowed_prefix_regex c' = allowed_prefix_regex c /\ denied_prefix_regex c' = denied_prefix_regex c /\
  reconnect_delay c' = reconnect_delay c /\ alt_dcs c' = alt_dcs c /\ mode c' = mode c.

(** A thread for each port that is not 0. *)
Definition thread_for m (port : String.string) (id : Z) : Z := if number_or m port 0 =? 0 then -1 else id.

(** A connection whose session was started: nothing is queued or
    unanswered, and a thread runs. *)
Record session_started m (tx rx : Z) c : Prop := {
  ss_status : status c = SMSCCONN_CONNECTING;
  ss_callbacks : callbacks c = true;
  ss_session : exists cf, data c = Some (set_threads (smpp_create cf) (thread_for m "port" tx) (thread_for m "receive-port" rx)) /\
    config_shows m cf /\ (thread_for m "port" tx <> -1 \/ thread_for m "receive-port" rx <> -1) /\
    exists h u st, host cf = Some h /\ username cf = Some u /\ system_type cf = Some st /\
      name c = Some (smpp_name h (number_or m "port" 0) (number_or m "receive-port" 0) u st)
}.

Lemma smpp_config_ok_spec m tx rx (h u pw st sv : option octstr) tr :
  octets <$> h = m !! cstr "host" -> octets <$> u = m !! cstr "smsc-username" -> octets <$> pw = m !! cstr "smsc-password" ->
  octets <$> st = m !! cstr "system-type" -> octets <$> sv = m !! cstr "service-type" ->
  (tr =? 1) = flag m "transceiver-mode" -> (tr = 0 \/ tr = 1) ->
  let port := number_or m "port" 0 in let rport := number_or m "receive-port" 0 in
  if smpp_config_ok h u pw st sv port rport tr
  then is_Some h /\ is_Some u /\ is_Some pw /\ is_Some st /\ (port <> 0 \/ rport <> 0)
  else ~ session_configured m tx rx.
Proof.
  intros Eh Eu Ep Es Ev Et Htr port rport. unfold smpp_config_ok.
  destruct h as [h|]; [|intros [[v Hv] *]; simpl in *; congruence].
  destruct u as [u|]; [|intros [? [v Hv] *]; simpl in *; congruence].
  destruct pw as [pw|]; [|intros [? ? [v Hv] *]; simpl in *; congruence].
  destruct st as [st|]; [|intros [? ? ? [v Hv] *]; simpl in *; congruence].
  cbn [is_set andb]. destruct (Z.ltb_spec 6 (from_option octstr_len 0 sv)) as [Hsv|Hsv]; cbn [negb andb].
  { intros H. destruct sv as [sv|]; simpl in *; [|lia]. pose proof (sc_service _ _ _ H _ (eq_sym Ev)) as Hl.
    rewrite octstr_len_spec in Hsv. lia. }
  destruct (Z.eqb_spec port 0) as [Hp|Hp], (Z.eqb_spec rport 0) as [Hr|Hr]; cbn [negb andb].
  - intros H. by destruct (sc_ports _ _ _ H).
  - destruct Htr as [->| ->]; simpl in Et |- *; [split_and!; eauto|]. intros H. by apply (sc_transceiver _ _ _ H).
  - rewrite andb_false_r. simpl. split_and!; eauto.
  - rewrite andb_false_r. simpl. split_and!; eauto.
Qed.

Lemma smsc_smpp_create_spec conn grp m tx rx : stored smsc_key grp m ->
  match smsc_smpp_create hooks conn grp tx rx with
  | Panic => ~ session_configured m tx rx
  | Done (ret, c) => ret = 0 /\ session_started m tx rx c /\ same_base conn c /\ (is_Some (m !! cstr "smsc-id") -> id c = id conn) \/
      ret = -1 /\ ~ session_configured m tx rx
  end.
Proof.
  intros Hs. unfold smsc_smpp_create. shown Hs "host". number_is Hs "port" 0. number_is Hs "receive-port" 0.
  destruct (cfg_get_bool_flag cfg_def file smsc_key grp m "transceiver-mode" Hs eq_refl) as (tr & Etr & Htr).
  assert (Htr01 : tr.2 = 0 \/ tr.2 = 1).
  { unfold cfg_get_bool in Etr. destruct (cfg_get _ _ _) as [[o|]|]; [|injection Etr as <-; by left|done].
    cbn [mbind outcome_bind] in Etr. destruct (is_word o _); [|destruct (is_word o _)]; injection Etr as <-; auto. }
  rewrite Etr. cbn [mbind outcome_bind].
  shown Hs "smsc-username". shown Hs "smsc-password". shown Hs "system-type". shown Hs "address-range".
  shown Hs "service-type". shown Hs "system-id". number_is Hs "enquire-link-interval" SMPP_ENQUIRE_LINK_INTERVAL.
  number_is Hs "max-pending-submits" SMPP_MAX_PENDING_SUBMITS.
  set (u := match os0 with Some u => Some u | None => os5 end).
  destruct os5 as [sid|].
  { assert (Hno : ~ session_configured m tx rx) by (intros H; pose proof (sc_system_id _ _ _ H); simpl in *; congruence).
    destruct (negb _); [by right|]. destruct (read_session _ _ _ _ _ _ _ _ _ _ _ _); [|done]. cbn [mbind outcome_bind].
    shown Hs "smsc-id". destruct os; [|done]. destruct u; [|done]. by destruct os2. }
  assert (Eu : u = os0) by (unfold u; by destruct os0). clearbody u. subst u. simpl is_set.
  pose proof (smpp_config_ok_spec m tx rx os os0 os1 os2 os4 tr.2 Eo Eo0 Eo1 Eo2 Eo4 Htr Htr01) as Hcfg. cbv zeta in Hcfg.
  destruct (smpp_config_ok os os0 os1 os2 os4 (number_or m "port" 0) (number_or m "receive-port" 0) tr.2); simpl negb; cbv iota;
    [|by right].
  destruct Hcfg as ([h ->] & [u ->] & [pw ->] & [st ->] & Hports).
  pose proof (read_session_spec grp m (Some h) (Some st) (Some u) (Some pw) os3 os4 (number_or m "port" 0)
    (number_or m "receive-port" 0) (number_or m "enquire-link-interval" SMPP_ENQUIRE_LINK_INTERVAL)
    (number_or m "max-pending-submits" SMPP_MAX_PENDING_SUBMITS) Hs) as Hrs.
  destruct (read_session _ _ _ _ _ _ _ _ _ _ _ _) as [p|]; cbn [mbind outcome_bind].
  2:{ intros H. apply Hrs. split_and!; [apply (sc_priority _ _ _ H)|apply (sc_validity _ _ _ H)|
        apply (sc_msg_id _ _ _ H)|apply (sc_wait_ack _ _ _ H)..|apply (sc_masking _ _ _ H)]. }
  shown Hs "smsc-id". cbn [must mbind outcome_bind gw_assert negb].
  destruct Hrs as (cf & -> & E1 & E2 & E3 & E4 & E5 & E6 & E7 & E8 & E9 & E10 & Hread).
  set (port := number_or m "port" 0) in *. set (rport := number_or m "receive-port" 0) in *.
  destruct (negb (port =? 0) && (tx =? -1) || negb (rport =? 0) && (rx =? -1)) eqn:Hf.
  - right. split; [done|]. intros H. apply orb_true_iff in Hf as [Hf|Hf]; apply andb_true_iff in Hf as [Hp Ht]; zbool.
    + by apply (sc_tx _ _ _ H).
    + by apply (sc_rx _ _ _ H).
  - left. split; [done|]. split; [|split].
    + split; [done|cbn [callbacks]; by rewrite ?Hf|]. cbn [data name]. exists cf. split; [reflexivity|]. split; [|split].
      * split; rewrite ?E1, ?E2, ?E3, ?E4, ?E5, ?E6, ?E7, ?E8, ?E9, ?E10; try done; by split; eauto.
      * unfold thread_for. fold port rport. zbool. destruct (Z.eqb_spec port 0), (Z.eqb_spec rport 0); simpl in *; zbool; lia.
      * exists h, u, st. done.
    + by split_and!.
    + intros [v Hv]. cbn [id]. match goal with |- context [match ?o with Some _ => id conn | None => _ end] => destruct o end;
        [done|simpl in *; congruence].
Qed.

(** ** The connection *)

Definition types : list String.string := ["int"; "gsm"; "cdma"; "all"]%string.

(** The pattern of a variable, compiled. *)
Definition pattern_of (o : option (list Z)) (re : option regex) : Prop :=
  match o with
  | None => re = None
  | Some v => exists p, octets p = v /\ re = gw_regex_comp p /\ is_Some re
  end.

(** Every field of a connection, by the group. *)
Record created m (stopped tx rx : Z) c : Prop := {
  cr_session : session_started m tx rx c;
  cr_id : octets <$> id c = m !! cstr "smsc-id" /\ is_Some (id c);
  cr_type : exists t w, smsc_type c = Some t /\ Some (octets t) = m !! cstr "smsc-type" /\ w ∈ types /\
    c_string (octets t) = cstr w;
  cr_alive : why_killed c = SMSCCONN_ALIVE /\ is_stopped c = stopped /\ load c = 0 /\ bind_sent c = -1 /\ mode c = 0;
  cr_counters : sent c = counter_create /\ received c = counter_create /\ failed c = counter_create;
  cr_times : connect_time c = -1 /\ reconnect_delay c = number_or m "reconnect-delay" SMSCCONN_RECONNECT_DELAY;
  cr_host : octets <$> our_host c = m !! cstr "our-host";
  cr_dcs : alt_dcs c = flag_or m "alt-dcs" 0;
  cr_prefixes : octets <$> allowed_prefix c = m !! cstr "allowed-prefix" /\
    octets <$> denied_prefix c = m !! cstr "denied-prefix";
  cr_patterns : pattern_of (m !! cstr "allowed-prefix-regex") (allowed_prefix_regex c) /\
    pattern_of (m !! cstr "denied-prefix-regex") (denied_prefix_regex c)
}.

Lemma known_type_spec data : known_type data = true <-> exists w, w ∈ types /\ data = cstr w.
Proof.
  unfold known_type, types. rewrite !orb_true_iff, !bool_decide_eq_true. split.
  - intros [[[H|H]|H]|H]; eexists; (split; [|exact H]); set_solver.
  - intros (w & Hw & ->). set_unfold in Hw. destruct_or! Hw; subst; try tauto; done.
Qed.

Lemma compile_spec m (name : String.string) (os : option octstr) : octets <$> os = m !! cstr name ->
  match compile os with
  | Done re => pattern_of (m !! cstr name) re
  | Panic => ~ compiles (m !! cstr name)
  end.
Proof.
  intros E. unfold compile. destruct os as [o|]; rewrite <-E.
  - destruct (gw_regex_comp o) as [re|] eqn:Er; simpl; [exists o; by rewrite Er; eauto|].
    intros H. destruct (H (octets o) o eq_refl eq_refl) as [x Hx]. congruence.
  - done.
Qed.

(** A group [smsc] with what a connection needs becomes a connection; and
    whenever one is created, it and its session have the values of the group,
    those that have a range are inside it, the prefix to mask has three
    characters, it has an id and one of the four types, a thread runs, and
    nothing is queued or counted yet. *)
Lemma smscconn_create_spec grp m stopped tx rx : stored smsc_key grp m ->
  (connection_configured m tx rx -> exists c, smscconn_create hooks (Some grp) stopped tx rx = Done (Some c)) /\
  (forall c, smscconn_create hooks (Some grp) stopped tx rx = Done (Some c) -> created m stopped tx rx c).
Proof.
  intros Hs. unfold smscconn_create.
  shown Hs "smsc-id". shown Hs "allowed-prefix". shown Hs "denied-prefix". shown Hs "our-host". shown Hs "log-file".
  rewrite (cfg_get_bool_value grp m "alt-dcs" Hs eq_refl). cbn [mbind outcome_bind snd].
  shown Hs "allowed-prefix-regex". pose proof (compile_spec m "allowed-prefix-regex" os4 Eo4) as Ha.
  destruct (compile os4) as [are|]; cbn [mbind outcome_bind]; [|split; [|done]; intros H; by apply cc_allowed in H].
  shown Hs "denied-prefix-regex". pose proof (compile_spec m "denied-prefix-regex" os5 Eo5) as Hd.
  destruct (compile os5) as [dre|]; cbn [mbind outcome_bind]; [|split; [|done]; intros H; by apply cc_denied in H].
  number_is Hs "log-level" 0. number_is Hs "reconnect-delay" SMSCCONN_RECONNECT_DELAY. shown Hs "smsc".
  set (c0 := MkSMSCConn _ _ _ _ _ _ _ _ _ _ _ _ _ _ _ _ _ _ _ _ _ _ _).
  destruct os6 as [smsc|]; [|split; [|done]; intros H; pose proof (cc_smsc _ _ _ H); simpl in *; congruence].
  destruct os as [o|]; [|split; [|done]; intros H; destruct (cc_id _ _ _ H); simpl in *; congruence].
  assert (Htype : connection_configured m tx rx -> octstr_same smsc (octstr_imm "smpp") = true).
  { intros H. rewrite octstr_same_imm. apply bool_decide_true. pose proof (cc_smsc _ _ _ H) as Hc. rewrite <-Eo6 in Hc. by injection Hc. }
  pose proof (smsc_smpp_create_spec c0 grp m tx rx Hs) as Hsm.
  destruct (cfg_var_shown cfg_def file smsc_key _ _ "smsc-type" Hs eq_refl) as (ty & E & Ety). rewrite E. clear E. cbn [mbind outcome_bind].
  destruct (octstr_same smsc (octstr_imm "smpp")); cbn [mbind outcome_bind fst snd].
  2:{ split; [intros H; by apply Htype in H|]. intros c. destruct ty as [t|]; [|done].
      destruct (Z.of_nat _ <? 30); [|done]. cbn [gw_assert mbind outcome_bind]. by destruct (negb _). }
  destruct (smsc_smpp_create hooks c0 grp tx rx) as [[ret c1]|]; cbn [mbind outcome_bind fst snd];
    [|split; [|done]; intros H; by apply cc_session in H].
  destruct ty as [t|]; [|split; [|done]; intros H; destruct (cc_type _ _ _ H) as (w & Hw & _); simpl in *; congruence].
  assert (Hknown : connection_configured m tx rx -> Z.of_nat (length (c_string (octets t))) <? 30 = true /\
    known_type (c_string (octets t)) = true).
  { intros H. destruct (cc_type _ _ _ H) as (w & Hw & Hin). rewrite <-Ety in Hw. injection Hw as Hw. rewrite Hw.
    set_unfold in Hin. destruct_or! Hin; subst w; done. }
  destruct (Z.of_nat (length (c_string (octets t))) <? 30); cbn [gw_assert mbind outcome_bind].
  2:{ split; [|done]. intros H. by destruct (Hknown H). }
  destruct (known_type (c_string (octets t))) eqn:Hkt; cbn [negb].
  2:{ split; [|done]. intros H. by destruct (Hknown H). }
  cbn [must mbind outcome_bind]. destruct Hsm as [(-> & Hst & Hb & Hid)|[-> Hno]]; cbn [Z.eqb].
  2:{ split; [|done]. intros H. by apply cc_session in H. }
  split; [by eexists|]. intros c [= <-].
  unfold same_base, c0 in Hb. cbn [load bind_sent why_killed connect_time received sent failed is_stopped our_host allowed_prefix
    denied_prefix allowed_prefix_regex denied_prefix_regex reconnect_delay alt_dcs mode] in Hb. destruct_and! Hb. destruct Hst as [S1 S2 S3].
  assert (Hid' : id c1 = Some o) by (apply Hid; rewrite <-Eo; by eexists).
  assert (Hdcs : (if flag m "alt-dcs" then 1 else 0) = flag_or m "alt-dcs" 0).
  { unfold flag_or, flag. by destruct (m !! cstr "alt-dcs"). }
  apply known_type_spec in Hkt as (w & Hw & Ew). split; cbn [set_smsc_type status load bind_sent why_killed connect_time
    received sent failed is_stopped name id our_host allowed_prefix allowed_prefix_regex denied_prefix denied_prefix_regex
    reconnect_delay alt_dcs callbacks smsc_type data mode].
  - by split.
  - rewrite Hid'. split; [done|by eexists].
  - by exists t, w.
  - by split_and!.
  - by split_and!.
  - by split.
  - congruence.
  - congruence.
  - split; congruence.
  - by replace (allowed_prefix_regex c1) with are; replace (denied_prefix_regex c1) with dre.
Qed.

(** ** The start *)

Definition client_group_key : list Z := cstr "SMPP-Client".

Ltac client_number Hs name d :=
  rewrite (cfg_integer_or_number cfg_def file client_group_key _ _ name d Hs eq_refl); cbn [mbind outcome_bind].

(** A thread that starts on the connection is one of the theorems about
    threads. *)
Definition startable c : Prop :=
  ready c /\ forall p lk w, data c = Some p -> 0 < max_pending_submits (config p) -> link_ok lk ->
    idle (MkSess p c lk 0 w).

Lemma created_startable m stopped tx rx c : created m stopped tx rx c -> startable c.
Proof.
  intros [[Hst Hcb (cf & Hd & Hcf & _)] _ _ _ _ _ _ _ _ _]. split.
  { split; [done|]. by rewrite Hd. }
  intros p lk w Hp Hw Hl. rewrite Hd in Hp. injection Hp as <-. cbn [config set_threads smpp_create] in Hw.
  assert (Hmax : max_pending_submits cf < 2 ^ 31) by (rewrite (cf_window _ _ Hcf); unfold wrap_int; pose proof (Z.mod_pos_bound (number_or m "max-pending-submits" SMPP_MAX_PENDING_SUBMITS + 2 ^ 31) (2 ^ 32)); lia).
  destruct (store_create_ok (S := S) (max_pending_submits cf)) as [Hok He]; [lia|].
  split; cbn; try done; try (by apply counter_increase_ok); try apply items_create. by rewrite Hst.
Qed.

(** The connections of some groups, in their order. *)
Definition made (threads : nat -> Z * Z) (i : nat) (ms : list vars_map) (l : list (SMSCConn SMPP)) : Prop :=
  length ms = length l /\
  forall j m c, ms !! j = Some m -> l !! j = Some c -> created m 1 (threads (i + j)%nat).1 (threads (i + j)%nat).2 c.

Lemma create_all_spec threads gs : forall i ms, Forall2 (stored smsc_key) gs ms ->
  ((forall j m, ms !! j = Some m -> connection_configured m (threads (i + j)%nat).1 (threads (i + j)%nat).2) ->
   exists l, create_all hooks threads i gs = Done l) /\
  (forall l, create_all hooks threads i gs = Done l -> made threads i ms l).
Proof.
  induction gs as [|g gs IH]; intros i ms H; apply Forall2_cons_inv_l in H || apply Forall2_nil_inv_l in H.
  { subst. split; [by eexists|]. by intros l [= <-]. }
  destruct H as (m & ms' & Hm & H & ->). cbn [create_all].
  destruct (smscconn_create_spec g m 1 (threads i).1 (threads i).2 Hm) as [Hok Hcr].
  destruct (IH (i + 1)%nat ms' H) as [Hok' Hcr']. split.
  - intros Hall. destruct Hok as [c ->]; [by replace i with (i + 0)%nat by lia; apply (Hall 0%nat)|].
    destruct Hok' as [l ->]; [|by eexists].
    intros j m' Hj. replace (i + 1 + j)%nat with (i + (1 + j))%nat by lia. by apply (Hall (1 + j)%nat).
  - intros l E. destruct (smscconn_create hooks (Some g) 1 _ _) as [[c|]|]; [|done..]. cbn [must mbind outcome_bind] in E.
    destruct (create_all hooks threads (i + 1) gs) as [l'|]; [|done]. injection E as <-.
    destruct (Hcr' l' eq_refl) as [Hlen Hall]. split; [simpl; lia|]. intros [|j] m' c' Hj Hl; simpl in Hj, Hl.
    + injection Hj as <-. injection Hl as <-. rewrite Nat.add_0_r. by apply Hcr.
    + rewrite <-Nat.add_succ_comm, <-Nat.add_1_r. by apply Hall.
Qed.

Lemma made_created threads i ms l : made threads i ms l -> Forall2 (fun m c => exists tx rx, created m 1 tx rx c) ms l.
Proof. intros [Hl H]. apply Forall2_same_length_lookup_2; [done|]. eauto. Qed.

(** The limits of the queue are both there, in their order, or both not. *)
Definition limits_ok (q_min q_max : Z) : Prop := (q_min = -1 <-> q_max = -1) /\ (q_min <> -1 -> q_min < q_max).

Lemma check_limits_spec q_min q_max : check_limits q_min q_max = Done tt <-> limits_ok q_min q_max.
Proof.
  unfold check_limits, limits_ok. destruct (Z.eqb_spec q_min (-1)), (Z.eqb_spec q_max (-1)); cbn [negb andb gw_assert mbind outcome_bind];
    try (split; [done|]; lia); try (split; [|done]; lia).
  destruct (Z.leb_spec q_max q_min); simpl; (split; [done|]; lia) || (split; [lia|done]).
Qed.

Definition smsc_ids (ms : list vars_map) : list (option (list Z)) := (fun m => m !! cstr "smsc-id") <$> ms.

Lemma created_id m stopped tx rx c : created m stopped tx rx c -> exists a, id c = Some a /\ m !! cstr "smsc-id" = Some (octets a).
Proof. intros H. destruct (cr_id _ _ _ _ _ H) as [E [a Ea]]. exists a. by rewrite <-E, Ea. Qed.

Lemma check_ids_created ms l : Forall2 (fun m c => exists tx rx, created m 1 tx rx c) ms l ->
  check_ids l = Done tt <-> NoDup (smsc_ids ms).
Proof.
  intros H. rewrite check_ids_distinct. unfold smsc_ids. rewrite NoDup_alt. split.
  - intros Hd i j x Hi Hj. destruct (decide (i = j)) as [|Hij]; [done|]. exfalso.
    apply list_lookup_fmap_Some in Hi as (mi & -> & Ei). apply list_lookup_fmap_Some in Hj as (mj & Ex & Ej).
    destruct (Forall2_lookup_l _ _ _ _ _ H Ei) as (ci & Eci & (? & ? & (a & Ia & Ma)%created_id)).
    destruct (Forall2_lookup_l _ _ _ _ _ H Ej) as (cj & Ecj & (? & ? & (b & Ib & Mb)%created_id)).
    destruct (Nat.lt_total i j) as [Hl|[|Hl]]; [|done|].
    + apply (Hd i j ci cj a b Hl Eci Ecj Ia Ib). congruence.
    + apply (Hd j i cj ci b a Hl Ecj Eci Ib Ia). congruence.
  - intros Hn j k c d a b Hjk Hj Hk Ha Hb Eab.
    destruct (Forall2_lookup_r _ _ _ _ _ H Hj) as (mj & Ej & (? & ? & (a' & Ia & Ma)%created_id)).
    destruct (Forall2_lookup_r _ _ _ _ _ H Hk) as (mk & Ek & (? & ? & (b' & Ib & Mb)%created_id)).
    assert (j = k); [|lia]. apply (Hn j k (Some (octets a))); apply list_lookup_fmap_Some;
      [exists mj|exists mk]; (split; [congruence|done]).
Qed.

(** What the start reads of the group [SMPP-Client]. *)
Record limits_show g (lim : Limits) : Prop := {
  ls_frequency : msg_resend_frequency lim = resend_frequency (number_or g "msg-resend-freq" 0);
  ls_duration : start_max_msg_duration lim = number_or g "max-msg-duration" (-1);
  ls_retries : start_max_retry_limit lim = number_or g "msg-retry-limit" 1;
  ls_queue : global_q_min lim = number_or g "global-q-min" (-1) /\ global_q_max lim = number_or g "global-q-max" (-1);
  ls_compare : exists tmp, octets <$> tmp = g !! cstr "compare-esm-smscid" /\
    compare_smsc_string lim = option_map (fun tmp => items (octstr_split tmp (octstr_imm ";"))) tmp
}.

(** C37 The client starts when every group [smsc] has what a connection needs
    and no [system-id], their ids differ, the limits of the queue agree and the
    threads could be created.  When it has started there is one connection for
    each group, in their order, with every field as the group says ([created],
    [config_shows]), stopped and with a session that holds no message, of which
    the theorems about the router and the threads speak; its limits are those
    of the group [SMPP-Client]; and the ids and limits are as above. *)
Theorem start2_smsc_spec (c : Cfg (SG := SG) (SM := SM)) k g threads sys router :
  cfg_shows c k -> single_of k !! cstr "SMPP-Client" = Some g ->
  let ms := default [] (multi_of k !! smsc_key) in
  ((forall j m, ms !! j = Some m -> connection_configured m (threads j).1 (threads j).2) -> NoDup (smsc_ids ms) ->
   limits_ok (number_or g "global-q-min" (-1)) (number_or g "global-q-max" (-1)) -> sys <> -1 -> router <> -1 ->
   exists lim conns, start2_smsc hooks c false threads sys router = Done (Some (lim, conns))) /\
  (forall lim conns, start2_smsc hooks c false threads sys router = Done (Some (lim, conns)) ->
   made threads 0 ms conns /\ Forall startable conns /\ NoDup (smsc_ids ms) /\ limits_show g lim /\
   limits_ok (global_q_min lim) (global_q_max lim) /\ 0 < msg_resend_frequency lim /\ sys <> -1 /\ router <> -1).
Proof.
  intros Hc Hg ms. destruct (group_shown c k "SMPP-Client" g Hc Hg) as (grp & Eg & Hs).
  destruct (groups_shown c k "smsc" Hc) as (gs & Egs & Hgs). fold smsc_key ms in Hgs. unfold start2_smsc. rewrite Eg. cbn [mbind outcome_bind must].
  client_number Hs "msg-resend-freq" 0. client_number Hs "max-msg-duration" (-1). client_number Hs "msg-retry-limit" 1.
  client_number Hs "global-q-min" (-1). client_number Hs "global-q-max" (-1).
  set (q_min := number_or g "global-q-min" (-1)). set (q_max := number_or g "global-q-max" (-1)).
  destruct (cfg_var_shown cfg_def file client_group_key _ _ "compare-esm-smscid" Hs eq_refl) as (os & Eos & Hos).
  destruct (create_all_spec threads _ 0 ms Hgs) as [Hok Hcr]. pose proof (check_limits_spec q_min q_max) as Hlim.
  destruct (check_limits q_min q_max) as [[]|]; cbn [mbind outcome_bind]; rewrite ?Eos, ?Egs; cbn [mbind outcome_bind].
  2:{ split; [|done]. intros _ _ Hl. by apply Hlim in Hl. }
  destruct (create_all hooks threads 0 _) as [conns|]; cbn [mbind outcome_bind].
  2:{ split; [|done]. intros Hall. by destruct (Hok Hall). }
  specialize (Hcr conns eq_refl). pose proof (made_created _ _ _ _ Hcr) as Hf. pose proof (check_ids_created ms conns Hf) as Hids.
  destruct (check_ids conns) as [[]|]; cbn [mbind outcome_bind].
  2:{ split; [|done]. intros _ Hn. by apply Hids in Hn. }
  destruct (Z.eqb_spec sys (-1)), (Z.eqb_spec router (-1)); cbn [negb gw_assert mbind outcome_bind];
    [split; [intros; exfalso; congruence|done]..|].
  split; [intros; by do 2 eexists|]. intros lim conns' [= <- <-]. split; [done|]. split; [|split; [by apply Hids|split; [|split; [by apply Hlim|]]]].
  - apply Forall_forall. intros x Hx. apply list_elem_of_lookup in Hx as [i Hi].
    destruct (Forall2_lookup_r _ _ _ _ _ Hf Hi) as (m & _ & tx & rx & Hm). by eapply created_startable.
  - split; try done. by exists os.
  - split; [|done]. simpl. unfold resend_frequency. destruct (Z.leb_spec (number_or g "msg-resend-freq" 0) 0); lia.
Qed.

End Facts.

(** ** Two connections *)

(** Every pattern compiles. *)
#[local] Instance plain_patterns : RegexComp list_octstr := {| gw_regex_comp p := Some p |}.

Module TwoConnections.

Definition client_file : @octstr list_octstr := cstr "client.conf".

Definition smsc (id type : String.string) : list (String.string * String.string) :=
  [("group", "smsc"); ("smsc", "smpp"); ("smsc-id", id); ("smsc-type", type); ("host", "smsc.example");
   ("port", "2775"); ("smsc-username", "user"); ("smsc-password", "pw"); ("system-type", "vma");
   ("allowed-prefix", "91"); ("masking-prefix", "TM-"); ("max-pending-submits", "5")]%string.

Definition client : list (String.string * String.string) :=
  [("group", "SMPP-Client"); ("global-q-min", "10"); ("global-q-max", "20")]%string.

Definition client_conf : conf :=
  default (MkConf ∅ ∅) (Described.with_groups (MkConf ∅ ∅) [client; smsc "a" "gsm"; smsc "b" "gsm"]).

Lemma client_shown : exists c : Cfg (SV := DictStore) (SG := DictStore) (SM := DictStore), cfg_shows c client_conf.
Proof. apply (Described.conf_described client_file [client; smsc "a" "gsm"; smsc "b" "gsm"]). vm_compute. reflexivity. Qed.

Definition client_vars : vars_map := default ∅ (single_of client_conf !! cstr "SMPP-Client").
Definition smsc_vars : list vars_map := default [] (multi_of client_conf !! smsc_key).

Definition thread_ids (i : nat) : Z * Z := (Z.of_nat i, -1).

Lemma smsc_vars_are : smsc_vars = [Described.described (smsc "a" "gsm"); Described.described (smsc "b" "gsm")].
Proof.
  apply (bool_decide_eq_true_1 (smsc_vars = [Described.described (smsc "a" "gsm"); Described.described (smsc "b" "gsm")])).
  vm_compute. reflexivity.
Qed.

(** Both groups have what the session needs. *)
Definition complete m (tx rx : Z) : bool :=
  forallb (fun n => bool_decide (is_Some (m !! cstr n))) ["smsc-id"; "host"; "smsc-username"; "smsc-password"; "system-type"]%string
  && forallb (fun n => bool_decide (m !! cstr n = None)) ["service-type"; "system-id"; "priority"; "validityperiod"; "msg-id-type";
       "receive-port"; "transceiver-mode"; "wait-ack-expire"; "allowed-prefix-regex"; "denied-prefix-regex"]%string
  && bool_decide (m !! cstr "smsc" = Some (cstr "smpp")) && bool_decide (m !! cstr "smsc-type" = Some (cstr "gsm"))
  && bool_decide (m !! cstr "masking-prefix" = Some (cstr "TM-")) && negb (number_or m "port" 0 =? 0) && negb (tx =? -1).

Lemma complete_configured m tx rx : complete m tx rx = true -> connection_configured m tx rx.
Proof.
  unfold complete. rewrite !andb_true_iff. cbn [forallb]. rewrite !andb_true_iff, !bool_decide_eq_true.
  intros ((((((Hsome & Hnone) & Hs) & Ht) & Hm) & Hp) & Htx). destruct_and! Hsome. destruct_and! Hnone. zbool.
  assert (Hno : forall name d, m !! cstr name = None -> number m name d = (-1, d)).
  { intros name d E. unfold number. by rewrite E. }
  split; try done.
  - exists "gsm"%string. split; [done|set_solver].
  - intros v p E. congruence.
  - intros v p E. congruence.
  - split; try done; try (intros v E; congruence); try (unfold in_range; rewrite Hno by done; by left).
    + by left.
    + unfold number_or. rewrite Hno by done. vm_compute. split; discriminate.
    + intros v E. rewrite Hm in E. by injection E as <-.
    + unfold number_or. rewrite (Hno "receive-port"%string) by done. done.
Qed.

Lemma client_found : single_of client_conf !! cstr "SMPP-Client" = Some client_vars.
Proof.
  assert (H : bool_decide (is_Some (single_of client_conf !! cstr "SMPP-Client")) = true) by (vm_compute; reflexivity).
  apply bool_decide_eq_true_1 in H as [v Hv]. unfold client_vars. by rewrite Hv.
Qed.

Lemma configured : forall j m, smsc_vars !! j = Some m -> connection_configured m (thread_ids j).1 (thread_ids j).2.
Proof.
  rewrite smsc_vars_are. intros [|[|j]] m [= <-]; apply complete_configured; vm_compute; reflexivity.
Qed.

Lemma ids_differ : NoDup (smsc_ids smsc_vars).
Proof.
  assert (H : bool_decide (NoDup (smsc_ids smsc_vars)) = true) by (vm_compute; reflexivity).
  by apply bool_decide_eq_true_1 in H.
Qed.

Lemma limits_agree : limits_ok (number_or client_vars "global-q-min" (-1)) (number_or client_vars "global-q-max" (-1)).
Proof. apply check_limits_spec. vm_compute. reflexivity. Qed.

Lemma two : length smsc_vars = 2%nat.
Proof. vm_compute. reflexivity. Qed.

End TwoConnections.

Lemma start2_smsc_spec_witness :
  exists c : Cfg (SV := DictStore) (SG := DictStore) (SM := DictStore), cfg_shows c TwoConnections.client_conf /\
  exists lim conns, start2_smsc (S := DictStore) (cfg_create cfg_def TwoConnections.client_file).2 c false TwoConnections.thread_ids 7 8
    = Done (Some (lim, conns)) /\ length conns = 2%nat.
Proof.
  destruct TwoConnections.client_shown as [c Hc]. exists c. split; [exact Hc|].
  destruct (start2_smsc_spec (S := DictStore) TwoConnections.client_file c _ _ TwoConnections.thread_ids 7 8 Hc
    TwoConnections.client_found) as [H1 H2].
  destruct H1 as (lim & conns & E); [exact TwoConnections.configured|exact TwoConnections.ids_differ|
    exact TwoConnections.limits_agree|discriminate|discriminate|].
  exists lim, conns. split; [exact E|]. destruct (H2 lim conns E) as ([Hall _] & _).
  rewrite <-Hall. exact TwoConnections.two.
Defined.
