(* ===== verification/Esme.v ===== *)
(** * Accounts and sessions of the server (smpp-esme/esme.c, config.c)

    The configured accounts, the ESMEs logged in with their transmitter and
    receiver sessions, and the table of SMSCs that the client process reports.
    An ESME lives at an address of [heap]; the list of ESMEs and the threads
    hold addresses, so that a thread can be left with one that was freed.
    Taking the list lock around one of these functions makes it atomic;
    [authorise_user] takes it twice and is modelled in two steps,
    [authorise_check] and [authorise_commit].  Log files are not modelled. *)

From S2P Require Import Prelude Gwlib Counter World SmppSession.
Open Scope Z_scope.

(** [strptime] for the format [%d/%m/%Y %H:%M:%S], followed by [mktime]. *)
Class TimeLib (O : OctstrLib) : Type := { parse_date : octstr -> option Z }.

Inductive Date_Result : Type :=
| Your_Account_Is_Valid | Your_Account_Will_Valid_After_Sometime
| Your_Account_Is_Not_Valid | Invalid_Date.

Inductive esme_status : Type :=
| ESME_UNCONNECTED | ESME_BINDED | ESME_DISCONNECT | ESME_SEND_UNBIND | ESME_SMSC_UNCONNECTED.

#[export] Instance esme_status_eq_dec : EqDecision esme_status.
Proof. solve_decision. Defined.
#[export] Instance date_result_eq_dec : EqDecision Date_Result.
Proof. solve_decision. Defined.

(** ** Session ids *)

(** The lowest element of a list, 0 for the empty list. *)
Definition lowest_id (l : list Z) : Z :=
  match l with
  | [] => 0
  | x :: l => foldl (fun lowest y => if y <? lowest then y else lowest) x l
  end.

(** The loop over the numbers after the lowest. *)
Fixpoint first_missing (k : nat) (new_no : Z) (l : list Z) : option Z :=
  match k with
  | 0%nat => None
  | S k => if bool_decide (new_no ∈ l) then first_missing k (new_no + 1) l else Some new_no
  end.

Definition allocate_session_id (session_list : list Z) : Z :=
  let lowest := lowest_id session_list in
  if negb (lowest =? 1) then 1
  else match first_missing (length session_list - 1) (lowest + 1) session_list with
       | Some new_no => new_no
       | None => lowest + Z.of_nat (length session_list)
       end.

Section Esme.
Context {O : OctstrLib} {K : Link O} {TL : TimeLib O}.

(** [octstr_compare(a, b) == 0]; both strings must be there. *)
Definition octstr_cmp (a b : option octstr) : outcome bool :=
  match a, b with Some a, Some b => Done (octstr_same a b) | _, _ => Panic end.

Definition to_seconds (date : octstr) : Z := default 0 (parse_date date).

Definition compare_date (now : Z) (date1 date3 : option octstr) : Date_Result :=
  match date1, date3 with
  | Some date1, Some date3 =>
      let d1 := to_seconds date1 in
      let d3 := to_seconds date3 in
      if now <? d1 then Your_Account_Will_Valid_After_Sometime
      else if d3 <? now then Your_Account_Is_Not_Valid
      else if d3 <? d1 then Invalid_Date
      else Your_Account_Is_Valid
  | _, _ => Your_Account_Is_Valid
  end.

(** ** Configured accounts *)

(** [struct Smsc_Client], without the log files. *)
Record Smsc_Client : Type := MkClient {
  cl_account_name : option octstr;
  cl_password : option octstr;
  cl_validfrom : option octstr;
  cl_validto : option octstr;
  cl_allowed_prefix : option octstr;
  cl_denied_prefix : option octstr;
  cl_dedicated_smsc : option octstr;
  cl_preferred_smsc : option (list octstr);
  cl_enquire_link_interval : Z;
  cl_max_submits_unconnect : Z;
  cl_max_submits : Z;
  cl_max_tps : Z;
  cl_allowed_mode : Z;
  cl_dnds_check : Z;
  cl_max_tx_sessions : Z;
  cl_max_rx_sessions : Z;
  cl_valid_time_from : Z;
  cl_valid_time_to : Z
}.

Fixpoint find_username (l : list Smsc_Client) (name : octstr) : outcome (option Smsc_Client) :=
  match l with
  | [] => Done None
  | t :: l =>
      same ← octstr_cmp (Some name) (cl_account_name t);
      if (same : bool) then Done (Some t) else find_username l name
  end.

Definition smpp_client_find_username (trans : list Smsc_Client) (name : option octstr)
    : outcome (option Smsc_Client) :=
  name ← must name;
  find_username trans name.

(** ** ESMEs and their sessions *)

Record msg_deliver : Type := MkDeliver {
  md_smsc_id : option octstr; md_smsc_msg_id : option octstr;
  md_account_msg_id : option octstr; md_os : option octstr
}.

Record TEMPCONN : Type := MkTempConn {
  tc_conn : link; tc_client_ip : option octstr; tc_client_port : Z; tc_listen_port : Z;
  tc_bind_successful : Z; tc_mode : Z; tc_session_id : Z
}.

Record ESME_TX : Type := MkTx {
  tx_conn : link;
  tx_msg_received : Counter; tx_msg_sent : Counter; tx_msg_rejected : Counter;
  tx_submits_unconnect : Counter;
  tx_session_id : Z;
  tx_seq_number_counter : Counter;
  tx_client_ip : option octstr; tx_client_port : Z; tx_listen_port : Z;
  tx_start_time : Z; tx_status : esme_status; tx_quit : Z; tx_mode : Z; tx_thread_id : Z;
  tx_data_to_write : list msg_deliver
}.

Record ESME_RX : Type := MkRx {
  rx_conn : link;
  rx_client_ip : option octstr; rx_client_port : Z; rx_listen_port : Z;
  rx_data_to_write : list msg_deliver;
  rx_msg_sent : Counter; rx_seq_number_counter : Counter;
  rx_start_time : Z; rx_thread_id : Z; rx_status : esme_status; rx_quit : Z;
  rx_session_id : Z; rx_mode : Z
}.

Record ESME : Type := MkEsme {
  e_system_id : option octstr; e_password : option octstr; e_system_type : option octstr;
  e_address_range : option octstr;
  e_interface_version : Z; e_addr_ton : Z; e_addr_npi : Z;
  e_enquire_link_interval : Z;
  e_allowed_prefix : option octstr; e_denied_prefix : option octstr;
  tx_esme : list ESME_TX; rx_esme : list ESME_RX;
  e_max_submits_unconnect : Z; e_max_submits : Z; e_max_tps : Z; e_msg_count : Z;
  e_dnd_check : Z; e_esm_time : Z; e_valid_time_from : Z; e_valid_time_to : Z
}.

Definition set_sessions (e : ESME) (tx : list ESME_TX) (rx : list ESME_RX) : ESME :=
  MkEsme (e_system_id e) (e_password e) (e_system_type e) (e_address_range e)
    (e_interface_version e) (e_addr_ton e) (e_addr_npi e) (e_enquire_link_interval e)
    (e_allowed_prefix e) (e_denied_prefix e) tx rx (e_max_submits_unconnect e) (e_max_submits e)
    (e_max_tps e) (e_msg_count e) (e_dnd_check e) (e_esm_time e) (e_valid_time_from e)
    (e_valid_time_to e).

Definition set_tx_status (t : ESME_TX) (st : esme_status) (unconnect : Counter) : ESME_TX :=
  MkTx (tx_conn t) (tx_msg_received t) (tx_msg_sent t) (tx_msg_rejected t) unconnect
    (tx_session_id t) (tx_seq_number_counter t) (tx_client_ip t) (tx_client_port t)
    (tx_listen_port t) (tx_start_time t) st (tx_quit t) (tx_mode t) (tx_thread_id t)
    (tx_data_to_write t).

(** [SMSC_Conn_List]. *)
Record SMSC_Conn_List : Type := MkSmsc {
  sc_smsc_id : octstr; sc_smsc_type : octstr; sc_conn_status : Z; sc_conn_mode : Z
}.

(** The variables of [esme.c], with the clock. *)
Record Server : Type := MkServer {
  srv_now : Z;
  translations : list Smsc_Client;
  heap : gmap nat ESME;
  esme_list : list nat;
  fresh_esme : nat;
  smscs : list SMSC_Conn_List
}.

Definition set_heap (s : Server) (h : gmap nat ESME) : Server :=
  MkServer (srv_now s) (translations s) h (esme_list s) (fresh_esme s) (smscs s).
Definition set_smscs (s : Server) (l : list SMSC_Conn_List) : Server :=
  MkServer (srv_now s) (translations s) (heap s) (esme_list s) (fresh_esme s) l.

(** ** The table of SMSCs *)

Definition smsc_init (s : Server) : Server := set_smscs s [].

Definition prepare_smsc_list (s : Server) (smsc_id smsc_type : octstr) (conn_status conn_mode : Z)
    : Server :=
  set_smscs s (smscs s ++ [MkSmsc smsc_id smsc_type conn_status conn_mode]).

Definition update_smsc_list (s : Server) (smsc_id : octstr) (conn_status : Z) : Server :=
  set_smscs s (alter_first (fun c => octstr_same smsc_id (sc_smsc_id c))
    (fun c => MkSmsc (sc_smsc_id c) (sc_smsc_type c) conn_status (sc_conn_mode c)) (smscs s)).

(** The modes 1 and 3 can transmit. *)
Definition transmits (c : SMSC_Conn_List) : bool :=
  (sc_conn_mode c =? 1) || (sc_conn_mode c =? 3).

Fixpoint present_loop (l : list SMSC_Conn_List) (return_result : Z) : Z :=
  match l with
  | [] => return_result
  | c :: l =>
      if transmits c then
        if sc_conn_status c =? 1 then 2 else present_loop l 1
      else present_loop l return_result
  end.

Definition is_smsc_present (s : Server) : Z := present_loop (smscs s) 0.

Definition smsc_conn_status (s : Server) (smsc_id : octstr) : Z :=
  from_option sc_conn_status 0
    (List.find (fun c => octstr_same smsc_id (sc_smsc_id c)) (smscs s)).

Definition smsc_list_len (s : Server) : Z := Z.of_nat (length (smscs s)).

Definition connected_smsc_list_len (s : Server) : Z :=
  Z.of_nat (length (List.filter (fun c => sc_conn_status c =? 1) (smscs s))).

Definition check_smsc_conn (s : Server) (username : option octstr) : outcome Z :=
  match username with
  | None => Done 0
  | Some _ =>
      t ← smpp_client_find_username (translations s) username;
      Done (match t with Some _ => is_smsc_present s | None => 0 end)
  end.

(** ** Logging in *)

(** The first ESME of the list with a name, by its position and address;
    [skip] says that ESMEs without a name are passed over. *)
Fixpoint find_esme (h : gmap nat ESME) (l : list nat) (pos : nat) (skip : bool) (name : option octstr)
    : outcome (option (nat * nat)) :=
  match l with
  | [] => Done None
  | a :: l =>
      e ← must (h !! a);
      if skip && bool_decide (e_system_id e = None) then find_esme h l (pos + 1) skip name else
      same ← octstr_cmp (e_system_id e) name;
      if (same : bool) then Done (Some (pos, a)) else find_esme h l (pos + 1) skip name
  end.

Definition is_present_esme (s : Server) (system_id : option octstr) : outcome (option nat) :=
  r ← find_esme (heap s) (esme_list s) 0 false system_id;
  Done (option_map snd r).

(** What [authorise_user] decides before it takes the lock for writing. *)
Inductive auth : Type := Refused (code : Z) | Granted (t : Smsc_Client) (esme_present : option nat).

(** Whether as many sessions as allowed are open. *)
Definition sessions_full (s : Server) (esme_present : option nat) (sessions : ESME -> Z) (max : Z)
    : outcome bool :=
  match esme_present with
  | None => Done (max =? 0)
  | Some a => e ← must (heap s !! a); Done (sessions e =? max)
  end.

(** The limits of sessions. *)
Definition check_room (s : Server) (b : Bind) (mode : Z) (t : Smsc_Client) : outcome auth :=
  esme_present ← is_present_esme s (system_id b);
  full ← (if (mode =? 1) || (mode =? 3) then
            sessions_full s esme_present (fun e => Z.of_nat (length (tx_esme e)))
              (cl_max_tx_sessions t)
          else Done false);
  if (full : bool) then Done (Refused 10) else
  full ← (if mode =? 2 then
            sessions_full s esme_present (fun e => Z.of_nat (length (rx_esme e)))
              (cl_max_rx_sessions t)
          else Done false);
  if (full : bool) then Done (Refused 10) else Done (Granted t esme_present).

Definition authorise_check (s : Server) (b : Bind) (mode : Z) : outcome auth :=
  if (4 <? mode) || (mode <? 1) then Done (Refused (-1)) else
  t ← smpp_client_find_username (translations s) (system_id b);
  match t with
  | None => Done (Refused 1)
  | Some t =>
      password_ok ← match b_password b with
                    | Some _ => octstr_cmp (b_password b) (cl_password t)
                    | None => Done true
                    end;
      if negb password_ok then Done (Refused 2) else
      if (cl_allowed_mode t <? 4) && negb (mode =? cl_allowed_mode t) then Done (Refused 3) else
      if (mode =? 3) && (cl_allowed_mode t =? 4) then Done (Refused 3) else
      match compare_date (srv_now s) (cl_validfrom t) (cl_validto t) with
      | Your_Account_Will_Valid_After_Sometime => Done (Refused 4)
      | Your_Account_Is_Not_Valid => Done (Refused 5)
      | _ => check_room s b mode t
      end
  end.

(** The structure of an account that was not logged in yet. *)
Definition new_esme (s : Server) (b : Bind) (t : Smsc_Client) : ESME :=
  MkEsme (octstr_dup (system_id b)) (octstr_dup (b_password b)) (octstr_dup (b_system_type b))
    (octstr_dup (b_address_range b)) (interface_version b) (addr_ton b) (addr_npi b)
    (cl_enquire_link_interval t) (octstr_dup (cl_allowed_prefix t))
    (octstr_dup (cl_denied_prefix t)) [] [] (cl_max_submits_unconnect t) (cl_max_submits t)
    (cl_max_tps t) 0 (cl_dnds_check t) (srv_now s) (cl_valid_time_from t) (cl_valid_time_to t).

Definition new_tx (s : Server) (h : header) (mode thread : Z) (tc : TEMPCONN) (smsc_present sid : Z)
    : ESME_TX :=
  MkTx (tc_conn tc) counter_create counter_create counter_create counter_create sid
    (counter_set counter_create (sequence_number h)).2 (tc_client_ip tc) (tc_client_port tc)
    (tc_listen_port tc) (srv_now s)
    (if (smsc_present =? 0) || (smsc_present =? 1) then ESME_SMSC_UNCONNECTED else ESME_BINDED)
    0 mode thread [].

Definition new_rx (s : Server) (h : header) (thread : Z) (tc : TEMPCONN) (sid : Z) : ESME_RX :=
  MkRx (tc_conn tc) (tc_client_ip tc) (tc_client_port tc) (tc_listen_port tc) [] counter_create
    (counter_set counter_create (sequence_number h)).2 (srv_now s) thread ESME_BINDED 0 sid 2.

Definition set_temp (tc : TEMPCONN) (mode sid : Z) : TEMPCONN :=
  MkTempConn (tc_conn tc) (tc_client_ip tc) (tc_client_port tc) (tc_listen_port tc)
    (tc_bind_successful tc) mode sid.

(** The part of [authorise_user] under the write lock. *)
Definition authorise_commit (s : Server) (b : Bind) (h : header) (mode thread : Z) (tc : TEMPCONN)
    (t : Smsc_Client) (esme_present : option nat) : outcome (nat * Server * TEMPCONN) :=
  let '(a, s) :=
    match esme_present with
    | Some a => (a, s)
    | None =>
        (fresh_esme s,
         MkServer (srv_now s) (translations s) (<[fresh_esme s := new_esme s b t]> (heap s))
           (esme_list s ++ [fresh_esme s]) (fresh_esme s + 1) (smscs s))
    end in
  e ← must (heap s !! a);
  if (mode =? 1) || (mode =? 3) then
    smsc_present ← check_smsc_conn s (system_id b);
    let sid := allocate_session_id (tx_session_id <$> tx_esme e) in
    let e := set_sessions e (tx_esme e ++ [new_tx s h mode thread tc smsc_present sid]) (rx_esme e) in
    Done (a, set_heap s (<[a:=e]> (heap s)), set_temp tc mode sid)
  else if mode =? 2 then
    let sid := allocate_session_id (rx_session_id <$> rx_esme e) in
    let e := set_sessions e (tx_esme e) (rx_esme e ++ [new_rx s h thread tc sid]) in
    Done (a, set_heap s (<[a:=e]> (heap s)), set_temp tc mode sid)
  else Done (a, s, tc).

(** [authorise_user], when no other thread runs between its two parts. *)
Definition authorise_user (s : Server) (b : Bind) (h : header) (mode thread : Z) (tc : TEMPCONN)
    : outcome (Z * option nat * Server * TEMPCONN) :=
  v ← authorise_check s b mode;
  match v with
  | Refused code => Done (code, None, s, tc)
  | Granted t esme_present =>
      '(a, s, tc) ← authorise_commit s b h mode thread tc t esme_present;
      Done (0, Some a, s, tc)
  end.

(** ** Logging out *)

(** Take the first session with the id out of a list. *)
Fixpoint delete_session {A} (session_id : A -> Z) (sid : Z) (l : list A) : option (list A) :=
  match l with
  | [] => None
  | x :: l => if session_id x =? sid then Some l else cons x <$> delete_session session_id sid l
  end.

(** [esme_destroy]: a session that is not found is used all the same. *)
Definition esme_destroy (s : Server) (esme : option nat) (mode sid : Z) : outcome Server :=
  match esme with
  | None => Done s
  | Some a =>
      e ← must (heap s !! a);
      found ← match e_system_id e with
              | Some _ => find_esme (heap s) (esme_list s) 0 true (e_system_id e)
              | None => Done None
              end;
      match found with
      | None => Done s
      | Some (pos, _) =>
          e ← (if (mode =? 1) && (0 <? sid) then
                 l ← must (delete_session tx_session_id sid (tx_esme e));
                 Done (set_sessions e l (rx_esme e))
               else if (mode =? 2) && (0 <? sid) then
                 l ← must (delete_session rx_session_id sid (rx_esme e));
                 Done (set_sessions e (tx_esme e) l)
               else Done e);
          if ((length (tx_esme e) =? 0) && (length (rx_esme e) =? 0))%nat then
            Done (MkServer (srv_now s) (translations s) (delete a (heap s))
                    (take pos (esme_list s) ++ drop (pos + 1) (esme_list s)) (fresh_esme s) (smscs s))
          else Done (set_heap s (<[a:=e]> (heap s)))
      end
  end.

(** [get_session_str]: the position of the session in its list. *)
Definition get_session_str (e : ESME) (mode sid : Z) : option nat :=
  if (sid <? 1) || (mode <? 1) || (3 <? mode) then None
  else if mode =? 2 then fst <$> list_find (fun r => rx_session_id r = sid) (rx_esme e)
  else fst <$> list_find (fun t => tx_session_id t = sid) (tx_esme e).

(** The sessions that messages can be delivered to. *)
Inductive session : Type := Rx (pos : nat) | Tx (pos : nat).

(** The draws for a transceiver; [rand] gives the random numbers. *)
Fixpoint draw_trx (k : nat) (rand : nat -> nat) (l : list ESME_TX) : option nat :=
  match k with
  | 0%nat => None
  | Datatypes.S k =>
      let s := (rand k mod length l)%nat in
      match l !! s with
      | Some t => if tx_mode t =? 3 then Some s else draw_trx k rand l
      | None => None
      end
  end.

Definition extract_esme (s : Server) (rand : nat -> nat) (esme_id : option octstr)
    : outcome (option (nat * session) * Z) :=
  r ← find_esme (heap s) (esme_list s) 0 false esme_id;
  match r with
  | None => Done (None, 0)
  | Some (_, a) =>
      e ← must (heap s !! a);
      if (0 <? length (rx_esme e))%nat then
        Done (Some (a, Rx (rand (length (rx_esme e)) mod length (rx_esme e))%nat), 2)
      else
        match draw_trx (length (tx_esme e)) rand (tx_esme e) with
        | Some pos => Done (Some (a, Tx pos), 3)
        | None => Done (None, 0)
        end
  end.

(** ** Changes of the SMSCs *)

(** The two loops over the transmitter sessions of an account. *)
Definition tx_unconnected (t : ESME_TX) : ESME_TX :=
  if negb (bool_decide (tx_status t = ESME_SMSC_UNCONNECTED))
  then set_tx_status t ESME_SMSC_UNCONNECTED (tx_submits_unconnect t) else t.
Definition tx_connected (t : ESME_TX) : ESME_TX :=
  if bool_decide (tx_status t = ESME_SMSC_UNCONNECTED)
  then set_tx_status t ESME_BINDED (counter_set (tx_submits_unconnect t) 0).2 else t.

(** The loop of [update_esme_conn] over the ESMEs. *)
Fixpoint update_loop (s : Server) (l : list nat) : outcome Server :=
  match l with
  | [] => Done s
  | a :: l =>
      e ← must (heap s !! a);
      present ← check_smsc_conn s (e_system_id e);
      let f := if (present =? 0) || (present =? 1) then tx_unconnected
               else if present =? 2 then tx_connected else fun t => t in
      update_loop (set_heap s (<[a:=set_sessions e (f <$> tx_esme e) (rx_esme e)]> (heap s))) l
  end.

Definition update_esme_conn (s : Server) : outcome Server := update_loop s (esme_list s).

(** [max_submits_unct_account]: submits of all sessions without an SMSC. *)
Definition max_submits_unct_account (e : ESME) : Z :=
  foldl (fun number t => wrap_int (number + counter_value (tx_submits_unconnect t))) 0 (tx_esme e).

End Esme.
