(* ===== verification/EsmeFacts.v ===== *)
(** * Theorems about accounts and sessions

    Session ids, who may log in, what logging in and out does to the list of
    ESMEs, and what happens when threads interleave. *)

From S2P Require Import Prelude Gwlib Counter World SmppSession Esme.
Open Scope Z_scope.

(** ** Session ids *)

Lemma lowest_fold l x :
  let m := foldl (fun lowest y => if y <? lowest then y else lowest) x l in
  m ∈ x :: l /\ Forall (fun y => m <= y) (x :: l).
Proof.
  revert x. induction l as [|y l IH]; intros x; simpl.
  { split; [set_solver|]. constructor; [lia|constructor]. }
  destruct (IH (if y <? x then y else x)) as [Hin Hle]. simpl in *.
  apply Forall_cons in Hle as [Hle Hl]. split.
  - apply elem_of_cons in Hin as [->|Hin]; [|set_solver]. destruct (Z.ltb_spec y x); set_solver.
  - destruct (Z.ltb_spec y x); constructor; [lia| |lia|]; constructor; try done; lia.
Qed.

Lemma first_missing_spec k n l :
  match first_missing k n l with
  | Some m => n <= m /\ m ∉ l /\ forall j, n <= j < m -> j ∈ l
  | None => forall j, n <= j < n + Z.of_nat k -> j ∈ l
  end.
Proof.
  revert n. induction k as [|k IH]; intros n; simpl; [intros; lia|].
  case_bool_decide as Hn; [|split_and!; [lia|done|intros; lia]].
  specialize (IH (n + 1)). destruct (first_missing k (n + 1) l).
  - destruct IH as (? & ? & IH). split_and!; [lia|done|]. intros j Hj.
    destruct (decide (j = n)) as [->|]; [done|]. apply IH. lia.
  - intros j Hj. destruct (decide (j = n)) as [->|]; [done|]. apply IH. lia.
Qed.

Lemma NoDup_consecutive n k : NoDup ((fun i => n + Z.of_nat i) <$> seq 0 k).
Proof. apply NoDup_fmap_2; [intros a b; lia|apply NoDup_seq]. Qed.

(** A list cannot hold more consecutive numbers than it has elements. *)
Lemma too_many l : ~ (forall j, 1 <= j <= Z.of_nat (length l) + 1 -> j ∈ l).
Proof.
  intros H. assert (Hs : (fun i => 1 + Z.of_nat i) <$> seq 0 (length l + 1) ⊆+ l).
  { apply NoDup_submseteq; [apply NoDup_consecutive|]. intros j.
    rewrite list_elem_of_fmap. intros (i & -> & Hi%elem_of_seq). apply H. lia. }
  apply submseteq_length in Hs. rewrite length_fmap, length_seq in Hs. lia.
Qed.

Lemma allocate_session_id_spec l :
  Forall (fun x => 1 <= x) l ->
  let r := allocate_session_id l in 1 <= r /\ r ∉ l /\ forall j, 1 <= j < r -> j ∈ l.
Proof.
  intros Hpos. unfold allocate_session_id.
  destruct l as [|x l]; [simpl; split_and!; [lia|set_solver|intros; lia]|].
  unfold lowest_id. destruct (lowest_fold l x) as [Hin Hle]. simpl in Hin, Hle.
  set (m := foldl _ x l) in *. rewrite Forall_forall in Hle, Hpos.
  destruct (Z.eqb_spec m 1) as [Hm|Hm]; simpl negb; cbn match.
  - pose proof (first_missing_spec (length (x :: l) - 1) (m + 1) (x :: l)) as Hf.
    destruct (first_missing _ _ _) as [r|].
    + destruct Hf as (H1 & H2 & H3). split_and!; [lia|done|]. intros j Hj.
      destruct (decide (j = 1)) as [->|]; [by rewrite <-Hm|]. apply H3. lia.
    + assert (Hall : forall j, 1 <= j <= Z.of_nat (length (x :: l)) -> j ∈ x :: l).
      { intros j Hj. destruct (decide (j = 1)) as [->|]; [by rewrite <-Hm|].
        apply Hf. simpl in *. lia. }
      rewrite Hm. split_and!; [lia| |intros j Hj; apply Hall; lia].
      intros Hr. apply (too_many (x :: l)). intros j Hj.
      destruct (decide (j = 1 + Z.of_nat (length (x :: l)))) as [->|]; [done|]. apply Hall. lia.
  - split_and!; [lia| |intros; lia]. intros H1. specialize (Hle _ H1). specialize (Hpos _ Hin). lia.
Qed.

(** The id of a new session is the lowest positive number that no session
    of the list has. *)
Lemma allocate_session_id_lowest l :
  Forall (fun x => 1 <= x) l ->
  allocate_session_id l ∉ l /\ 1 <= allocate_session_id l /\
  forall j, 1 <= j -> j ∉ l -> allocate_session_id l <= j.
Proof.
  intros Hl. destruct (allocate_session_id_spec l Hl) as (H1 & H2 & H3). split_and!; [done..|].
  intros j Hj Hn. destruct (Z.le_gt_cases (allocate_session_id l) j) as [|Hlt]; [done|].
  exfalso. apply Hn, H3. lia.
Qed.

Section Facts.
Context {O : OctstrLib} {OL : OctstrLaws O} {K : Link O} {TL : TimeLib O}.
Implicit Types (s : Server) (e : ESME) (t : Smsc_Client) (a : nat) (name : octstr).

(** ** Finding accounts and ESMEs *)

Definition named t : Prop := is_Some (cl_account_name t) /\ is_Some (cl_password t).

Definition has_name name t : bool :=
  match cl_account_name t with Some n => octstr_same name n | None => false end.

(** The account with a name. *)
Definition account s name : option Smsc_Client := List.find (has_name name) (translations s).

Lemma find_username_spec l name :
  Forall named l -> find_username l name = Done (List.find (has_name name) l).
Proof.
  induction 1 as [|t l [[n Hn] _] _ IH]; simpl; [done|]. unfold has_name at 1. rewrite Hn. simpl.
  destruct (octstr_same name n); [done|]. apply IH.
Qed.

Definition is_called e name : Prop := octets <$> e_system_id e = Some (octets name).

#[export] Instance is_called_dec e name : Decision (is_called e name).
Proof. unfold is_called. apply _. Defined.

Lemma octstr_cmp_called e name id :
  e_system_id e = Some id -> octstr_cmp (e_system_id e) (Some name) = Done (bool_decide (is_called e name)).
Proof.
  intros Hid. assert (octstr_cmp (e_system_id e) (Some name) = Done (octstr_same id name)) as ->
    by by rewrite Hid.
  rewrite octstr_same_spec. f_equal. apply bool_decide_ext. unfold is_called. rewrite Hid. simpl.
  split; [by intros ->|by intros [= ->]].
Qed.

Definition all_named (h : gmap nat ESME) (l : list nat) : Prop :=
  forall a, a ∈ l -> exists e id, h !! a = Some e /\ e_system_id e = Some id.

Lemma find_esme_spec h l skip name : forall pos,
  all_named h l ->
  (find_esme h l pos skip (Some name) = Done None /\
   forall a e, a ∈ l -> h !! a = Some e -> ~ is_called e name) \/
  exists i a e, find_esme h l pos skip (Some name) = Done (Some ((pos + i)%nat, a)) /\
    l !! i = Some a /\ h !! a = Some e /\ is_called e name.
Proof.
  induction l as [|a l IH]; intros pos Hn; simpl; [left; split; [done|set_solver]|].
  destruct (Hn a) as (e & id & He & Hid); [set_solver|]. rewrite He. simpl.
  rewrite (bool_decide_eq_false_2 (e_system_id e = None)), andb_false_r by congruence. simpl.
  rewrite (octstr_cmp_called e name id Hid). simpl. case_bool_decide as Hc.
  - right. exists 0%nat, a, e. rewrite Nat.add_0_r. done.
  - destruct (IH (pos + 1)%nat) as [[-> Hno]|(i & b & eb & -> & Hi & Hb & Hcb)].
    { intros b Hb. apply Hn. set_solver. }
    + left. split; [done|]. intros b eb Hb Hbe. apply elem_of_cons in Hb as [->|Hb]; [congruence|eauto].
    + right. exists (S i), b, eb. split_and!; try done. do 3 f_equal. lia.
Qed.

(** ** The invariant of the list of ESMEs *)

Definition ids_ok (l : list Z) : Prop := NoDup l /\ Forall (fun x => 1 <= x) l.

Definition within (n : nat) (max : Z) : Prop := 0 <= max -> Z.of_nat n <= max.

Definition esme_ok s e : Prop :=
  (tx_esme e <> [] \/ rx_esme e <> []) /\ ids_ok (tx_session_id <$> tx_esme e) /\
  ids_ok (rx_session_id <$> rx_esme e) /\
  exists name t, e_system_id e = Some name /\ account s name = Some t /\
    within (length (tx_esme e)) (cl_max_tx_sessions t) /\
    within (length (rx_esme e)) (cl_max_rx_sessions t).

Record book_ok s : Prop := {
  bk_nodup : NoDup (esme_list s);
  bk_heap a : a ∈ esme_list s <-> is_Some (heap s !! a);
  bk_fresh a : a ∈ esme_list s -> (a < fresh_esme s)%nat;
  bk_inj a b e e' : heap s !! a = Some e -> heap s !! b = Some e' ->
    octets <$> e_system_id e = octets <$> e_system_id e' -> a = b;
  bk_esme a e : heap s !! a = Some e -> esme_ok s e;
}.

Lemma book_named s : book_ok s -> all_named (heap s) (esme_list s).
Proof.
  intros H a Ha. apply (bk_heap s H) in Ha as [e He]. exists e.
  destruct (bk_esme s H a e He) as (_ & _ & _ & name & _ & Hn & _). eauto.
Qed.

(** The address of the ESME with a name. *)
Lemma is_present_spec s name :
  book_ok s ->
  (is_present_esme s (Some name) = Done None /\
   forall a e, heap s !! a = Some e -> ~ is_called e name) \/
  exists a e, is_present_esme s (Some name) = Done (Some a) /\ heap s !! a = Some e /\
    is_called e name.
Proof.
  intros H. unfold is_present_esme.
  destruct (find_esme_spec (heap s) (esme_list s) false name 0 (book_named s H))
    as [[-> Hno]|(i & a & e & -> & _ & He & Hc)].
  - left. split; [done|]. intros a e He. apply (Hno a e); [|done]. apply (bk_heap s H). eauto.
  - right. exists a, e. done.
Qed.

Lemma account_name s name t : account s name = Some t ->
  octets <$> cl_account_name t = Some (octets name).
Proof.
  intros Hf. apply List.find_some in Hf as [_ Hf]. unfold has_name in Hf.
  destruct (cl_account_name t); [|done]. simpl. rewrite octstr_same_spec in Hf.
  apply bool_decide_eq_true in Hf. by rewrite Hf.
Qed.

Lemma account_same s name name' : octets name = octets name' -> account s name = account s name'.
Proof.
  intros E. unfold account. induction (translations s) as [|t l IH]; simpl; [done|].
  assert (has_name name t = has_name name' t) as ->; [|by rewrite IH].
  unfold has_name. destruct (cl_account_name t); [|done]. by rewrite !octstr_same_spec, E.
Qed.

(** ** Who may log in *)

(** The number of sessions of an account in a list, and whether one more is
    allowed. *)
Definition room (n : nat) (max : Z) : bool := negb (Z.of_nat n =? max).

Definition sessions_of s name (f : ESME -> nat) : nat :=
  match is_present_esme s (Some name) with
  | Done (Some a) => from_option f 0%nat (heap s !! a)
  | _ => 0%nat
  end.

Definition roomy s name (mode : Z) t : bool :=
  if mode =? 2
  then room (sessions_of s name (fun e => length (rx_esme e))) (cl_max_rx_sessions t)
  else room (sessions_of s name (fun e => length (tx_esme e))) (cl_max_tx_sessions t).

(** The conditions for a login; an absent password passes. *)
Definition password_ok (b : Bind) t : Prop :=
  match b_password b with
  | Some p => octets <$> cl_password t = Some (octets p)
  | None => True
  end.

Definition mode_ok (mode : Z) t : bool :=
  if cl_allowed_mode t <? 4 then mode =? cl_allowed_mode t
  else negb ((mode =? 3) && (cl_allowed_mode t =? 4)).

Definition date_ok s t : bool :=
  match compare_date (srv_now s) (cl_validfrom t) (cl_validto t) with
  | Your_Account_Is_Valid | Invalid_Date => true
  | _ => false
  end.

Definition admissible s (b : Bind) name (mode : Z) t : Prop :=
  account s name = Some t /\ password_ok b t /\ mode_ok mode t = true /\ date_ok s t = true /\
  roomy s name mode t = true.

Lemma sessions_full_spec s name p (f : ESME -> nat) max :
  book_ok s -> is_present_esme s (Some name) = Done p ->
  sessions_full s p (fun e => Z.of_nat (f e)) max = Done (negb (room (sessions_of s name f) max)).
Proof.
  intros H Hp. unfold sessions_full, sessions_of, room. rewrite Hp, negb_involutive.
  destruct p as [a|]; [|by rewrite (Z.eqb_sym max)].
  destruct (is_present_spec s name H) as [[E _]|(a' & e & E & He & _)]; [congruence|].
  assert (a' = a) as -> by congruence. by rewrite He.
Qed.

Lemma check_room_spec s b name mode t :
  book_ok s -> system_id b = Some name -> 1 <= mode <= 3 ->
  exists p, is_present_esme s (Some name) = Done p /\
    check_room s b mode t = Done (if roomy s name mode t then Granted t p else Refused 10).
Proof.
  intros H Hid Hm. unfold check_room. rewrite Hid.
  assert (Hp : exists p, is_present_esme s (Some name) = Done p).
  { destruct (is_present_spec s name H) as [[-> _]|(a & e & -> & _)]; eauto. }
  destruct Hp as [p Hp]. exists p. split; [done|]. rewrite Hp. simpl.
  rewrite !(sessions_full_spec s name p) by done. unfold roomy.
  destruct (Z.eqb_spec mode 2) as [->|Hne]; simpl; [by destruct (room _ _)|].
  assert ((mode =? 1) || (mode =? 3) = true) as -> by (apply orb_true_iff; zlia).
  simpl. by destruct (room _ _).
Qed.

Lemma password_check b t : named t ->
  exists ok : bool, (match b_password b with
    | Some _ => octstr_cmp (b_password b) (cl_password t) | None => Done true end) = Done ok /\
    (ok = true <-> password_ok b t).
Proof.
  intros [_ [pw Hpw]]. unfold password_ok. destruct (b_password b) as [p|]; [|by exists true].
  rewrite Hpw. simpl. eexists. split; [done|]. rewrite octstr_same_spec, bool_decide_eq_true.
  split; [by intros ->|by intros [= ->]].
Qed.

(** The codes of [authorise_check]. *)
Definition refusal (code : Z) : Prop := existsb (Z.eqb code) [1; 2; 3; 4; 5; 10] = true.

Lemma refusal_range code : refusal code -> 1 <= code <= 10.
Proof.
  unfold refusal. rewrite List.existsb_exists. intros (x & Hx & ->%Z.eqb_eq).
  repeat destruct Hx as [<-|Hx]; (lia || done).
Qed.

Lemma authorise_check_spec s b name mode :
  book_ok s -> Forall named (translations s) -> system_id b = Some name -> 1 <= mode <= 3 ->
  exists v, authorise_check s b mode = Done v /\
    match v with
    | Refused code => refusal code /\ forall t, ~ admissible s b name mode t
    | Granted t p => admissible s b name mode t /\ is_present_esme s (Some name) = Done p
    end.
Proof.
  intros H Hn Hid Hm. unfold authorise_check, smpp_client_find_username.
  rewrite (proj2 (Z.ltb_ge 4 mode)), (proj2 (Z.ltb_ge mode 1)) by lia. simpl.
  rewrite Hid. simpl. rewrite find_username_spec by done. simpl. fold (account s name).
  destruct (account s name) as [t|] eqn:Ea.
  2:{ eexists. split; [done|]. split; [done|]. intros t (E & _). congruence. }
  assert (Ht : named t).
  { apply List.find_some in Ea as [Hin%list_elem_of_In _]. by eapply Forall_forall in Hn. }
  destruct (password_check b t Ht) as (ok & -> & Hok). simpl.
  assert (Hno : forall code, refusal code -> ~ admissible s b name mode t ->
    refusal code /\ forall t', ~ admissible s b name mode t').
  { intros code Hc Hna. split; [done|]. intros t' Ht'. apply Hna.
    assert (t' = t) as <- by (destruct Ht' as [? _]; congruence). done. }
  destruct ok; simpl; [|eexists; split; [done|]; apply Hno; [done|]; intros (_ & Hp & _); by apply Hok in Hp].
  assert (Hmode : mode_ok mode t = negb ((cl_allowed_mode t <? 4) && negb (mode =? cl_allowed_mode t)) &&
    negb ((mode =? 3) && (cl_allowed_mode t =? 4))).
  { unfold mode_ok. destruct (Z.ltb_spec (cl_allowed_mode t) 4); simpl; [|done].
    rewrite (proj2 (Z.eqb_neq (cl_allowed_mode t) 4)), andb_false_r, negb_involutive, andb_true_r by lia.
    done. }
  destruct ((cl_allowed_mode t <? 4) && negb (mode =? cl_allowed_mode t)); simpl in *.
  { eexists. split; [done|]. apply Hno; [done|]. intros (_ & _ & E & _). congruence. }
  destruct ((mode =? 3) && (cl_allowed_mode t =? 4)); simpl in *.
  { eexists. split; [done|]. apply Hno; [done|]. intros (_ & _ & E & _). congruence. }
  destruct (check_room_spec s b name mode t H Hid Hm) as (p & Hp & Hroom).
  assert (Hrest : date_ok s t = true -> exists v, check_room s b mode t = Done v /\
    match v with
    | Refused code => refusal code /\ forall t, ~ admissible s b name mode t
    | Granted t p => admissible s b name mode t /\ is_present_esme s (Some name) = Done p
    end).
  { intros Hd. rewrite Hroom. eexists. split; [done|]. destruct (roomy s name mode t) eqn:Er.
    - split; [|done]. split_and!; try done. by apply Hok.
    - apply Hno; [done|]. intros (_ & _ & _ & _ & E). congruence. }
  destruct (date_ok s t) eqn:Edo; pose proof Edo as Ed; unfold date_ok in Ed.
  - destruct (compare_date _ _ _); try done; by apply Hrest.
  - destruct (compare_date _ _ _); try done;
      (eexists; split; [done|]; apply Hno; [done|]; intros (_ & _ & _ & E & _); congruence).
Qed.

(** ** Logging in *)

Lemma esme_ok_translations s s' e :
  translations s' = translations s -> esme_ok s e -> esme_ok s' e.
Proof. intros E. unfold esme_ok, account. by rewrite E. Qed.

(** Changing an ESME that stays what it is called. *)
Lemma book_update s a e e' :
  book_ok s -> heap s !! a = Some e -> e_system_id e' = e_system_id e -> esme_ok s e' ->
  book_ok (set_heap s (<[a:=e']> (heap s))).
Proof.
  intros H He Hid Hok. split; simpl.
  - apply (bk_nodup s H).
  - intros b. rewrite (bk_heap s H). destruct (decide (b = a)) as [->|Hne].
    + rewrite lookup_insert_eq, He. split; intros _; eauto.
    + by rewrite lookup_insert_ne.
  - apply (bk_fresh s H).
  - intros b c x y [[<- <-]|[_ Hb]]%lookup_insert_Some [[<- <-]|[_ Hc]]%lookup_insert_Some Hxy;
      [done|..].
    + apply (bk_inj s H a c e y); [done|done|congruence].
    + apply (bk_inj s H b a x e); [done|done|congruence].
    + by apply (bk_inj s H b c x y).
  - intros b x Hx. apply (esme_ok_translations s); [done|].
    destruct (decide (b = a)) as [->|Hne].
    + rewrite lookup_insert_eq in Hx. by simplify_eq.
    + rewrite lookup_insert_ne in Hx by done. by apply (bk_esme s H b).
Qed.

(** A new ESME with a name that no other has. *)
Lemma book_add s e' name :
  book_ok s -> (forall a e, heap s !! a = Some e -> ~ is_called e name) -> is_called e' name ->
  esme_ok s e' ->
  book_ok (MkServer (srv_now s) (translations s) (<[fresh_esme s := e']> (heap s))
             (esme_list s ++ [fresh_esme s]) (fresh_esme s + 1) (smscs s)).
Proof.
  intros H Hno Hcall Hok.
  assert (Hnew : fresh_esme s ∉ esme_list s) by (intros Hin; apply (bk_fresh s H) in Hin; lia).
  split; simpl.
  - apply NoDup_app. split; [apply (bk_nodup s H)|]. split; [set_solver|apply NoDup_singleton].
  - intros b. rewrite elem_of_app, list_elem_of_singleton, (bk_heap s H).
    destruct (decide (b = fresh_esme s)) as [->|Hne].
    + rewrite lookup_insert_eq. split; eauto.
    + rewrite lookup_insert_ne by done. split; [by intros [?|?]|by left].
  - intros b [Hb| ->%list_elem_of_singleton]%elem_of_app; [|lia].
    apply (bk_fresh s H) in Hb. lia.
  - intros b c x y [[<- <-]|[_ Hb]]%lookup_insert_Some [[<- <-]|[_ Hc]]%lookup_insert_Some Hxy;
      [done|..].
    + exfalso. apply (Hno c y Hc). unfold is_called in *. congruence.
    + exfalso. apply (Hno b x Hb). unfold is_called in *. congruence.
    + by apply (bk_inj s H b c x y).
  - intros b x Hx. apply (esme_ok_translations s); [done|].
    destruct (decide (b = fresh_esme s)) as [->|Hne].
    + rewrite lookup_insert_eq in Hx. by simplify_eq.
    + rewrite lookup_insert_ne in Hx by done. by apply (bk_esme s H b).
Qed.

(** The sessions of an address, empty when there is none. *)
Definition txs s a : list ESME_TX := from_option tx_esme [] (heap s !! a).
Definition rxs s a : list ESME_RX := from_option rx_esme [] (heap s !! a).

(** One more session for the account, in the list of its mode, with an id
    that no session of that list has, the connection of the bind and nothing
    to write; nothing else changes. *)
Definition logged_in s s' name a (mode : Z) (tc : TEMPCONN) : Prop :=
  translations s' = translations s /\ smscs s' = smscs s /\
  exists e', heap s' = <[a:=e']> (heap s) /\ is_called e' name /\
    if mode =? 2
    then tx_esme e' = txs s a /\ tc_session_id tc ∉ (rx_session_id <$> rxs s a) /\
         exists x, rx_esme e' = rxs s a ++ [x] /\ rx_session_id x = tc_session_id tc /\
           rx_conn x = tc_conn tc /\ rx_data_to_write x = []
    else rx_esme e' = rxs s a /\ tc_session_id tc ∉ (tx_session_id <$> txs s a) /\
         exists x, tx_esme e' = txs s a ++ [x] /\ tx_session_id x = tc_session_id tc /\ tx_mode x = mode /\
           tx_conn x = tc_conn tc /\ tx_data_to_write x = [].

Lemma ids_ok_app l : ids_ok l -> ids_ok (l ++ [allocate_session_id l]).
Proof.
  intros [Hnd Hpos]. destruct (allocate_session_id_spec l Hpos) as (H1 & H2 & _).
  split; [apply NoDup_app; split_and!; [done|set_solver|apply NoDup_singleton]|].
  apply Forall_app. split; [done|by constructor].
Qed.

Lemma check_smsc_conn_total s name :
  Forall named (translations s) -> exists n, check_smsc_conn s (Some name) = Done n.
Proof.
  intros Hn. unfold check_smsc_conn, smpp_client_find_username. simpl.
  rewrite find_username_spec by done. simpl. eauto.
Qed.

Lemma within_room n max : within n max -> room n max = true -> within (n + 1) max.
Proof. unfold within, room. intros H1 H2 H0. apply negb_true_iff in H2. zlia. Qed.

(** What one more session makes of the structure of an account. *)
Definition with_session s (h : header) (mode thread : Z) (tc : TEMPCONN) (n : Z) e : ESME :=
  if mode =? 2
  then set_sessions e (tx_esme e)
         (rx_esme e ++ [new_rx s h thread tc (allocate_session_id (rx_session_id <$> rx_esme e))])
  else set_sessions e
         (tx_esme e ++ [new_tx s h mode thread tc n (allocate_session_id (tx_session_id <$> tx_esme e))])
         (rx_esme e).

Definition new_id (mode : Z) e : Z :=
  if mode =? 2 then allocate_session_id (rx_session_id <$> rx_esme e)
  else allocate_session_id (tx_session_id <$> tx_esme e).

#[local] Arguments check_smsc_conn : simpl never.

(** The two cases of [authorise_commit]. *)
Lemma authorise_commit_eq s b h mode thread tc t p name :
  system_id b = Some name -> 1 <= mode <= 3 -> Forall named (translations s) ->
  match p with Some a => is_Some (heap s !! a) | None => True end ->
  exists n, authorise_commit s b h mode thread tc t p
    = match p with
      | Some a =>
          e ← must (heap s !! a);
          Done (a, set_heap s (<[a:=with_session s h mode thread tc n e]> (heap s)),
                set_temp tc mode (new_id mode e))
      | None =>
          let e := new_esme s b t in
          Done (fresh_esme s,
            MkServer (srv_now s) (translations s)
              (<[fresh_esme s := with_session s h mode thread tc n e]> (heap s))
              (esme_list s ++ [fresh_esme s]) (fresh_esme s + 1) (smscs s),
            set_temp tc mode (new_id mode e))
      end.
Proof.
  intros Hid Hm Hn Hp. destruct (check_smsc_conn_total s name Hn) as [n En]. exists n.
  unfold authorise_commit, with_session, new_id. rewrite Hid. destruct p as [a|].
  - destruct Hp as [e He]. rewrite He. simpl.
    destruct (Z.eqb_spec mode 2) as [->|Hne]; simpl; [done|].
    assert ((mode =? 1) || (mode =? 3) = true) as -> by (apply orb_true_iff; zlia). by rewrite En.
  - simpl heap. rewrite lookup_insert_eq. simpl.
    destruct (Z.eqb_spec mode 2) as [->|Hne]; simpl.
    + by unfold set_heap; simpl; rewrite insert_insert_eq.
    + assert ((mode =? 1) || (mode =? 3) = true) as -> by (apply orb_true_iff; zlia).
      change (check_smsc_conn (MkServer _ _ _ _ _ _) (Some name)) with (check_smsc_conn s (Some name)).
      rewrite En. simpl. by unfold set_heap; simpl; rewrite insert_insert_eq.
Qed.

Lemma with_session_ok s h mode thread tc n e name t :
  1 <= mode <= 3 -> e_system_id e = Some name -> account s name = Some t ->
  ids_ok (tx_session_id <$> tx_esme e) -> ids_ok (rx_session_id <$> rx_esme e) ->
  within (length (tx_esme e)) (cl_max_tx_sessions t) ->
  within (length (rx_esme e)) (cl_max_rx_sessions t) ->
  (if mode =? 2 then room (length (rx_esme e)) (cl_max_rx_sessions t)
   else room (length (tx_esme e)) (cl_max_tx_sessions t)) = true ->
  esme_ok s (with_session s h mode thread tc n e).
Proof.
  intros Hm Hid Ht Htx Hrx Hwt Hwr Hroom. unfold with_session.
  destruct (mode =? 2); (split; [|split; [|split]]); simpl; rewrite ?fmap_app;
    try (by apply ids_ok_app); try done; try (left; by destruct (tx_esme e)); try (right; by destruct (rx_esme e));
    exists name, t; (split; [done|]); (split; [done|]); rewrite ?length_app; split; try done; by apply within_room.
Qed.

Lemma with_session_logged s s' h mode thread tc n e name a :
  translations s' = translations s -> smscs s' = smscs s ->
  heap s' = <[a:=with_session s h mode thread tc n e]> (heap s) ->
  is_called e name -> tx_esme e = txs s a -> rx_esme e = rxs s a ->
  ids_ok (tx_session_id <$> tx_esme e) -> ids_ok (rx_session_id <$> rx_esme e) ->
  logged_in s s' name a mode (set_temp tc mode (new_id mode e)).
Proof.
  intros Ht Hs Hh Hc Etx Erx [_ Htx] [_ Hrx]. split; [done|]. split; [done|]. eexists. split; [exact Hh|].
  unfold with_session, new_id.
  destruct (allocate_session_id_spec _ Htx) as (_ & Hnt & _).
  destruct (allocate_session_id_spec _ Hrx) as (_ & Hnr & _).
  rewrite <-Etx, <-Erx. destruct (mode =? 2); do 3 (split; [done|]); by eexists.
Qed.

(** *** The structure of an account *)

(** The structure of an account: whether it is at an address, and the
    numbers of its sessions. *)
Definition standing s name a : option (nat * nat) :=
  heap s !! a ≫= fun e =>
    if decide (is_called e name) then Some (length (tx_esme e), length (rx_esme e)) else None.

(** Nobody logged in to the account or out of it. *)
Definition account_stays s s' name : Prop :=
  translations s' = translations s /\ forall a, standing s' name a = standing s name a.

Lemma account_stays_refl s name : account_stays s s name.
Proof. done. Qed.

Lemma account_stays_trans s1 s2 s3 name :
  account_stays s1 s2 name -> account_stays s2 s3 name -> account_stays s1 s3 name.
Proof. intros [T1 S1] [T2 S2]. split; [congruence|]. intros a. by rewrite S2. Qed.

Lemma standing_name s name name' a : octets name = octets name' -> standing s name a = standing s name' a.
Proof.
  intros En. unfold standing. destruct (heap s !! a) as [e|]; simpl; [|done].
  apply decide_ext. unfold is_called. by rewrite En.
Qed.

Lemma account_stays_name s s' name name' :
  octets name = octets name' -> account_stays s s' name -> account_stays s s' name'.
Proof. intros En [Et Hs]. split; [done|]. intros a. by rewrite <-!(standing_name _ name name'). Qed.

(** A structure changes but keeps its name and the numbers of its sessions. *)
Lemma account_stays_update s s' a e e' name :
  translations s' = translations s -> heap s' = <[a:=e']> (heap s) -> heap s !! a = Some e ->
  e_system_id e' = e_system_id e -> length (tx_esme e') = length (tx_esme e) ->
  length (rx_esme e') = length (rx_esme e) -> account_stays s s' name.
Proof.
  intros Et Hh He Hid Htx Hrx. split; [done|]. intros b. unfold standing. rewrite Hh.
  destruct (decide (b = a)) as [->|Hne]; [|by rewrite lookup_insert_ne].
  rewrite lookup_insert_eq, He. simpl. rewrite Htx, Hrx. apply decide_ext. unfold is_called. by rewrite Hid.
Qed.

(** Only the structure at an address changes, which is of another account. *)
Lemma account_stays_other s s' a name :
  translations s' = translations s -> (forall b, b <> a -> heap s' !! b = heap s !! b) ->
  standing s name a = None -> standing s' name a = None -> account_stays s s' name.
Proof.
  intros Et Hh H1 H2. split; [done|]. intros b. destruct (decide (b = a)) as [->|Hne]; [congruence|].
  unfold standing. by rewrite Hh.
Qed.

Lemma standing_present s name p :
  book_ok s -> is_present_esme s (Some name) = Done p ->
  (forall a, is_Some (standing s name a) <-> p = Some a) /\
  forall a, standing s name a = (if decide (p = Some a) then
    Some (sessions_of s name (fun e => length (tx_esme e)), sessions_of s name (fun e => length (rx_esme e)))
    else None).
Proof.
  intros H Hp. unfold sessions_of. rewrite Hp. unfold standing.
  destruct (is_present_spec s name H) as [[E Hno]|(a & e & E & He & Hc)]; rewrite E in Hp; injection Hp as <-.
  - assert (Hn : forall a, heap s !! a ≫= (fun e => if decide (is_called e name) then
      Some (length (tx_esme e), length (rx_esme e)) else None) = None).
    { intros a. destruct (heap s !! a) as [e|] eqn:He; simpl; [|done]. by rewrite decide_False by by apply (Hno a). }
    split; intros a; rewrite Hn; [|by case_decide]. split; [by intros []|done].
  - assert (Hn : forall b, heap s !! b ≫= (fun e => if decide (is_called e name) then
      Some (length (tx_esme e), length (rx_esme e)) else None)
      = if decide (b = a) then Some (length (tx_esme e), length (rx_esme e)) else None).
    { intros b. case_decide as Hba; [by subst b; rewrite He; simpl; rewrite decide_True|].
      destruct (heap s !! b) as [e'|] eqn:He'; simpl; [|done]. rewrite decide_False; [done|].
      intros Hc'. apply Hba, (bk_inj s H b a e' e); [done..|]. unfold is_called in *. congruence. }
    split; intros b; rewrite Hn.
    + case_decide; subst; [by split|]. split; [by intros []|by intros [= <-]].
    + rewrite He. simpl. by repeat case_decide; simplify_eq.
Qed.

(** What the check found, and what the second part needs of it. *)
Definition may_join s name (mode : Z) t (p : option nat) : Prop :=
  account s name = Some t /\ roomy s name mode t = true /\ is_present_esme s (Some name) = Done p.

Lemma authorise_commit_spec s b h mode thread tc t p name :
  book_ok s -> Forall named (translations s) -> system_id b = Some name -> 1 <= mode <= 3 ->
  may_join s name mode t p ->
  exists a s' tc', authorise_commit s b h mode thread tc t p = Done (a, s', tc') /\
    book_ok s' /\ logged_in s s' name a mode tc' /\ tc_mode tc' = mode /\
    tc_conn tc' = tc_conn tc /\ forall n, octets n <> octets name -> account_stays s s' n.
Proof.
  intros H Hn Hid Hm (Ht & Hroom & Hp). unfold roomy, sessions_of in Hroom. rewrite Hp in Hroom.
  destruct (is_present_spec s name H) as [[E Hno]|(a & e & E & He & Hc)];
    rewrite E in Hp; injection Hp as <-.
  - destruct (authorise_commit_eq s b h mode thread tc t None name) as [n ->]; try done.
    do 3 eexists. split; [done|]. set (e := new_esme s b t).
    assert (Hce : is_called (with_session s h mode thread tc n e) (octstr_duplicate name)).
    { unfold with_session, is_called. by destruct (mode =? 2); simpl; rewrite Hid. }
    assert (Hce' : is_called e name).
    { unfold is_called. simpl. rewrite Hid. simpl. by rewrite octstr_duplicate_spec. }
    assert (Hnone : heap s !! fresh_esme s = None).
    { destruct (heap s !! fresh_esme s) eqn:Ef; [|done].
      assert (Hin : fresh_esme s ∈ esme_list s) by (apply (bk_heap s H); eauto).
      apply (bk_fresh s H) in Hin. lia. }
    split; [|split; [|split; [done|split; [done|]]]].
    + apply (book_add s _ (octstr_duplicate name) H); [|done|].
      { intros a e1 He1 Hce1. apply (Hno a e1 He1). unfold is_called in *.
        by rewrite octstr_duplicate_spec in Hce1. }
      apply (with_session_ok s h mode thread tc n e (octstr_duplicate name) t); try done.
      * simpl. by rewrite Hid.
      * rewrite <-Ht. apply account_same. apply octstr_duplicate_spec.
      * split; constructor.
      * split; constructor.
      * unfold within. simpl. lia.
      * unfold within. simpl. lia.
    + apply (with_session_logged s _ h mode thread tc n e); try done;
        try (split; constructor); unfold txs, rxs; by rewrite Hnone.
    + intros n' Hne. apply (account_stays_other _ _ (fresh_esme s)); [done|..]; unfold standing; simpl.
      * intros a Ha. by rewrite lookup_insert_ne.
      * by rewrite Hnone.
      * rewrite lookup_insert_eq. simpl. rewrite decide_False; [done|].
        unfold is_called in *. rewrite Hce, octstr_duplicate_spec. congruence.
  - destruct (authorise_commit_eq s b h mode thread tc t (Some a) name) as [n ->]; eauto.
    rewrite He. simpl. do 3 eexists. split; [done|]. rewrite He in Hroom. simpl in Hroom.
    destruct (bk_esme s H a e He) as (_ & Htx & Hrx & name' & t' & Hn' & Ht' & Hwt & Hwr).
    assert (t' = t) as ->.
    { unfold is_called in Hc. rewrite Hn' in Hc. injection Hc as Hc.
      rewrite (account_same s name' name Hc) in Ht'. congruence. }
    split; [|split; [|split; [done|split; [done|]]]].
    + apply (book_update s a e); [done|done|by unfold with_session; destruct (mode =? 2)|].
      by apply (with_session_ok s h mode thread tc n e name' t).
    + apply (with_session_logged s _ h mode thread tc n e); try done; unfold txs, rxs; by rewrite He.
    + intros n' Hne. apply (account_stays_other _ _ a); [done|..]; unfold standing; simpl.
      * intros b' Hb'. by rewrite lookup_insert_ne.
      * rewrite He. simpl. rewrite decide_False; [done|]. unfold is_called in *. congruence.
      * rewrite lookup_insert_eq. simpl. rewrite decide_False; [done|].
        unfold is_called in *. unfold with_session. destruct (mode =? 2); simpl; congruence.
Qed.

(** What the check found holds as long as the account stays. *)
Lemma may_join_stays s s' name mode t p :
  book_ok s -> book_ok s' -> account_stays s s' name -> may_join s name mode t p ->
  may_join s' name mode t p.
Proof.
  intros H H' [Et Hs] (Ht & Hroom & Hp).
  assert (Hq : exists q, is_present_esme s' (Some name) = Done q).
  { destruct (is_present_spec s' name H') as [[-> _]|(a & e & -> & _)]; eauto. }
  destruct Hq as [q Hq]. destruct (standing_present s name p H Hp) as [D1 E1].
  destruct (standing_present s' name q H' Hq) as [D2 E2].
  assert (q = p) as ->.
  { destruct q as [a|].
    - symmetry. apply D1. rewrite <-Hs. by apply D2.
    - destruct p as [a|]; [|done]. apply D2. rewrite Hs. by apply D1. }
  split; [unfold account; by rewrite Et|]. split; [|done]. revert Hroom. unfold roomy.
  destruct p as [a|].
  - specialize (E1 a). specialize (E2 a). rewrite Hs, E1, !decide_True in E2 by done.
    injection E2 as -> ->. done.
  - unfold sessions_of. by rewrite Hp, Hq.
Qed.

(** The two ways in which [authorise_user] ends. *)
Lemma authorise_user_cases s b h name mode thread tc :
  book_ok s -> Forall named (translations s) -> system_id b = Some name -> 1 <= mode <= 3 ->
  (exists code, authorise_user s b h mode thread tc = Done (code, None, s, tc) /\ refusal code /\
     forall t, ~ admissible s b name mode t) \/
  (exists t a s' tc', authorise_user s b h mode thread tc = Done (0, Some a, s', tc') /\
     admissible s b name mode t /\ book_ok s' /\ logged_in s s' name a mode tc' /\
     tc_mode tc' = mode /\ tc_conn tc' = tc_conn tc).
Proof.
  intros H Hn Hid Hm. destruct (authorise_check_spec s b name mode H Hn Hid Hm) as (v & E & Hv).
  unfold authorise_user. rewrite E. simpl. destruct v as [code|t p].
  - left. destruct Hv as [Hc Hna]. by exists code.
  - right. destruct Hv as [Ha Hp].
    destruct (authorise_commit_spec s b h mode thread tc t p name)
      as (a & s' & tc' & -> & Hb & Hl & Hmode & Hconn & _); try done; [by split_and!; [apply Ha|apply Ha|]|].
    simpl. by exists t, a, s', tc'.
Qed.

(** C13 A login succeeds exactly when the account exists, the password is the
    configured one or is left out, the mode is allowed, the dates are not
    over or to come, and there is room for one more session.  It then adds
    one session with a new id to that account and nothing else, and the
    invariant - distinct names, distinct ids, limits respected - holds again;
    a refused login changes nothing. *)
Theorem authorise_user_spec s b h name (mode thread : Z) tc
    (H : book_ok s) (Hn : Forall named (translations s)) (Hid : system_id b = Some name)
    (Hm : 1 <= mode <= 3) :
  exists code r s' tc', authorise_user s b h mode thread tc = Done (code, r, s', tc') /\ book_ok s' /\
    (code = 0 <-> exists t, admissible s b name mode t) /\
    (code <> 0 -> s' = s /\ tc' = tc /\ r = None) /\
    (code = 0 -> exists a, r = Some a /\ logged_in s s' name a mode tc').
Proof.
  destruct (authorise_user_cases s b h name mode thread tc H Hn Hid Hm)
    as [(code & E & Hc%refusal_range & Hna)|(t & a & s' & tc' & E & Ha & Hb & Hl & _)].
  - exists code, None, s, tc. split_and!; try done; [|lia]. split; [lia|]. intros [t Ht]. by destruct (Hna t).
  - exists 0, (Some a), s', tc'. split_and!; try done; [by split; [exists t|]|by exists a].
Qed.

(** C29 The two parts of a login are not one step.  When two clients log in
    to an account that is not logged in yet and both pass the checks before
    either is added, the list gets the account twice, whatever limit it has;
    and when the last session of the account ends between the two parts, the
    second part uses the structure that was freed. *)
Theorem authorise_user_races s b h name (thread : Z) tc t
    (H : book_ok s) (Hn : Forall named (translations s)) (Hid : system_id b = Some name)
    (Ha : admissible s b name 1 t) :
  (is_present_esme s (Some name) = Done None ->
   exists a1 s1 tc1 a2 s2 tc2,
     authorise_check s b 1 = Done (Granted t None) /\
     authorise_commit s b h 1 thread tc t None = Done (a1, s1, tc1) /\
     authorise_commit s1 b h 1 thread tc t None = Done (a2, s2, tc2) /\
     a1 <> a2 /\ tc_session_id tc1 = tc_session_id tc2 /\
     (exists e1 e2, heap s2 !! a1 = Some e1 /\ heap s2 !! a2 = Some e2 /\
        is_called e1 name /\ is_called e2 name) /\ ~ book_ok s2) /\
  (forall a s1, is_present_esme s (Some name) = Done (Some a) -> heap s1 !! a = None ->
     authorise_check s b 1 = Done (Granted t (Some a)) /\
     authorise_commit s1 b h 1 thread tc t (Some a) = Panic).
Proof.
  destruct (authorise_check_spec s b name 1 H Hn Hid ltac:(lia)) as (v & E & Hv).
  assert (Hg : forall p, is_present_esme s (Some name) = Done p -> v = Granted t p).
  { intros p Hp. destruct v as [code|t' p'].
    - destruct Hv as [_ Hna]. by destruct (Hna t).
    - destruct Hv as [[Ht' _] Hp']. destruct Ha as [Ht _]. congruence. }
  split.
  - intros Hp. rewrite (Hg _ Hp) in E.
    destruct (authorise_commit_eq s b h 1 thread tc t None name) as [n1 E1]; [done|lia|done|done|].
    set (s1 := MkServer (srv_now s) (translations s)
      (<[fresh_esme s := with_session s h 1 thread tc n1 (new_esme s b t)]> (heap s))
      (esme_list s ++ [fresh_esme s]) (fresh_esme s + 1) (smscs s)).
    destruct (authorise_commit_eq s1 b h 1 thread tc t None name) as [n2 E2]; [done|lia|done|done|].
    do 6 eexists. split; [done|]. split; [exact E1|]. split; [exact E2|]. split; [simpl; lia|].
    split; [done|]. assert (Hc : forall s' n, is_called (with_session s' h 1 thread tc n (new_esme s b t)) name).
    { intros s' n. unfold is_called. simpl. rewrite Hid. simpl. by rewrite octstr_duplicate_spec. }
    assert (Hlook : exists e1 e2,
      heap (MkServer (srv_now s1) (translations s1)
        (<[fresh_esme s1 := with_session s1 h 1 thread tc n2 (new_esme s1 b t)]> (heap s1))
        (esme_list s1 ++ [fresh_esme s1]) (fresh_esme s1 + 1) (smscs s1)) !! fresh_esme s = Some e1 /\
      heap (MkServer (srv_now s1) (translations s1)
        (<[fresh_esme s1 := with_session s1 h 1 thread tc n2 (new_esme s1 b t)]> (heap s1))
        (esme_list s1 ++ [fresh_esme s1]) (fresh_esme s1 + 1) (smscs s1)) !! fresh_esme s1 = Some e2 /\
      is_called e1 name /\ is_called e2 name).
    { simpl. do 2 eexists. rewrite lookup_insert_eq, lookup_insert_ne by lia. rewrite lookup_insert_eq.
      split_and!; [done|done|apply Hc|apply (Hc s1)]. }
    split; [exact Hlook|]. intros Hb. destruct Hlook as (e1 & e2 & L1 & L2 & C1 & C2).
    assert (fresh_esme s = fresh_esme s1); [|simpl in *; lia].
    apply (bk_inj _ Hb _ _ e1 e2 L1 L2). unfold is_called in *. congruence.
  - intros a s1 Hp Hfree. rewrite (Hg _ Hp) in E. split; [done|].
    unfold authorise_commit. by rewrite Hfree.
Qed.

(** ** Logging out *)

Definition removes {A} (id : A -> Z) (sid : Z) (l l' : list A) : Prop :=
  exists l1 x l2, l = l1 ++ x :: l2 /\ l' = l1 ++ l2 /\ id x = sid.

Lemma delete_session_spec {A} (id : A -> Z) sid l :
  match delete_session id sid l with
  | Some l' => removes id sid l l'
  | None => sid ∉ (id <$> l)
  end.
Proof.
  induction l as [|x l IH]; simpl; [set_solver|].
  destruct (Z.eqb_spec (id x) sid) as [<-|Hne]; [by exists [], x, l|].
  destruct (delete_session id sid l) as [l'|]; simpl; [|set_solver].
  destruct IH as (l1 & y & l2 & -> & -> & Hy). by exists (x :: l1), y, l2.
Qed.

Lemma removes_ids {A} (id : A -> Z) sid l l' :
  removes id sid l l' -> ids_ok (id <$> l) -> ids_ok (id <$> l') /\ (length l' <= length l)%nat.
Proof.
  intros (l1 & x & l2 & -> & -> & _) [Hnd Hpos]. rewrite !length_app. simpl. split; [|lia].
  rewrite fmap_app in *. simpl in *. rewrite <-Permutation_middle in Hnd.
  apply NoDup_cons in Hnd as [_ Hnd]. split; [done|].
  apply Forall_app in Hpos as [? [_ ?]%Forall_cons]. by apply Forall_app.
Qed.

Lemma book_delete s a pos :
  book_ok s -> esme_list s !! pos = Some a ->
  book_ok (MkServer (srv_now s) (translations s) (delete a (heap s))
             (take pos (esme_list s) ++ drop (pos + 1) (esme_list s)) (fresh_esme s) (smscs s)).
Proof.
  intros H Hpos. pose proof (take_drop_middle _ _ _ Hpos) as El. rewrite <-Nat.add_1_r in El.
  set (l := take pos (esme_list s) ++ drop (pos + 1) (esme_list s)).
  assert (Hp : esme_list s ≡ₚ a :: l) by (rewrite <-El; by rewrite <-Permutation_middle).
  pose proof (bk_nodup s H) as Hnd. rewrite Hp in Hnd. apply NoDup_cons in Hnd as [Hna Hnd].
  split; simpl; [done|..].
  - intros b. destruct (decide (b = a)) as [->|Hne].
    + rewrite lookup_delete_eq. split; [done|by intros [? ?]].
    + rewrite lookup_delete_ne by done. rewrite <-(bk_heap s H), Hp. set_solver.
  - intros b Hb. apply (bk_fresh s H). rewrite Hp. set_solver.
  - intros b c x y [_ Hb]%lookup_delete_Some [_ Hc]%lookup_delete_Some. by apply (bk_inj s H).
  - intros b x [_ Hx]%lookup_delete_Some. apply (esme_ok_translations s); [done|].
    by apply (bk_esme s H b).
Qed.

(** What is left of the sessions of an account. *)
Definition session_ended e (mode sid : Z) (tx : list ESME_TX) (rx : list ESME_RX) : Prop :=
  if mode =? 1 then removes tx_session_id sid (tx_esme e) tx /\ rx = rx_esme e
  else removes rx_session_id sid (rx_esme e) rx /\ tx = tx_esme e.

(** [esme_destroy], for a session of the account and for another id. *)
Lemma esme_destroy_cases s a e (mode sid : Z) (H : book_ok s) (He : heap s !! a = Some e)
    (Hm : mode = 1 \/ mode = 2) (Hsid : 1 <= sid) :
  if bool_decide (sid ∈ (if mode =? 1 then tx_session_id <$> tx_esme e
                         else rx_session_id <$> rx_esme e))
  then exists s' tx rx, esme_destroy s (Some a) mode sid = Done s' /\ book_ok s' /\
    session_ended e mode sid tx rx /\ translations s' = translations s /\
    heap s' = (if decide (tx = [] /\ rx = []) then delete a (heap s)
               else <[a:=set_sessions e tx rx]> (heap s)) /\
    (a ∈ esme_list s' <-> ~ (tx = [] /\ rx = [])) /\ smscs s' = smscs s
  else esme_destroy s (Some a) mode sid = Panic.
Proof.
  destruct (bk_esme s H a e He) as (_ & Htx & Hrx & name & t & Hname & Ht & Hwt & Hwr).
  unfold esme_destroy. rewrite He. simpl. rewrite Hname.
  destruct (find_esme_spec (heap s) (esme_list s) true name 0 (book_named s H))
    as [[_ Hno]|(pos & b & eb & -> & Hpos & Hb & Hcb)].
  { exfalso. apply (Hno a e); [by apply (bk_heap s H); eauto|done|]. unfold is_called. by rewrite Hname. }
  assert (b = a) as ->.
  { apply (bk_inj s H b a eb e Hb He). unfold is_called in Hcb. by rewrite Hcb, Hname. }
  simpl. set (finish := fun e' : ESME => if ((length (tx_esme e') =? 0) && (length (rx_esme e') =? 0))%nat
    then _ else _).
  assert (Hfin : forall tx rx,
    ids_ok (tx_session_id <$> tx) -> ids_ok (rx_session_id <$> rx) ->
    (length tx <= length (tx_esme e))%nat -> (length rx <= length (rx_esme e))%nat ->
    exists s', finish (set_sessions e tx rx) = Done s' /\ book_ok s' /\
      translations s' = translations s /\
      heap s' = (if decide (tx = [] /\ rx = []) then delete a (heap s)
                 else <[a:=set_sessions e tx rx]> (heap s)) /\
      (a ∈ esme_list s' <-> ~ (tx = [] /\ rx = [])) /\ smscs s' = smscs s).
  { intros tx rx Ht1 Hr1 Hl1 Hl2. subst finish. simpl.
    destruct (decide (tx = [] /\ rx = [])) as [[-> ->]|Hne]; simpl.
    - eexists. split; [done|]. pose proof (book_delete s a pos H Hpos) as Hb'.
      split; [done|]. split; [done|]. split; [done|]. simpl.
      rewrite (bk_heap _ Hb' a). simpl. rewrite lookup_delete_eq. split; [|done]. split; [by intros [? ?]|naive_solver].
    - assert (((length tx =? 0) && (length rx =? 0))%nat = false) as ->.
      { destruct tx; simpl; [|done]. destruct rx; [naive_solver|done]. }
      eexists. split; [done|]. split.
      { apply (book_update s a e); [done..|]. split; [simpl; destruct tx; [|by left]; right; naive_solver|].
        split; [done|]. split; [done|]. exists name, t. simpl. split_and!; try done; unfold within in *; lia. }
      split; [done|]. split; [done|]. simpl. split; [|done]. split; [done|]. intros _. apply (bk_heap s H). eauto. }
  rewrite (proj2 (Z.ltb_lt 0 sid)) by lia. rewrite !andb_true_r. unfold session_ended.
  destruct Hm as [-> | ->]; simpl.
  - pose proof (delete_session_spec tx_session_id sid (tx_esme e)) as Hd.
    destruct (delete_session tx_session_id sid (tx_esme e)) as [l|]; simpl.
    + rewrite bool_decide_eq_true_2
        by (destruct Hd as (l1 & x & l2 & -> & _ & <-); rewrite fmap_app; set_solver).
      destruct (removes_ids _ _ _ _ Hd Htx) as [H1 H2].
      destruct (Hfin l (rx_esme e)) as (s' & E & Hs'); try done. exists s', l, (rx_esme e).
      split; [exact E|]. destruct Hs' as (? & ? & ? & ? & ?). by split_and!.
    + by rewrite bool_decide_eq_false_2.
  - pose proof (delete_session_spec rx_session_id sid (rx_esme e)) as Hd.
    destruct (delete_session rx_session_id sid (rx_esme e)) as [l|]; simpl.
    + rewrite bool_decide_eq_true_2
        by (destruct Hd as (l1 & x & l2 & -> & _ & <-); rewrite fmap_app; set_solver).
      destruct (removes_ids _ _ _ _ Hd Hrx) as [H1 H2].
      destruct (Hfin (tx_esme e) l) as (s' & E & Hs'); try done. exists s', (tx_esme e), l.
      split; [exact E|]. destruct Hs' as (? & ? & ? & ? & ?). by split_and!.
    + by rewrite bool_decide_eq_false_2.
Qed.

(** The end of a session takes exactly this session out of its account;
    with its last session the account leaves the list and is freed.  All
    other accounts stay as they are and the invariant holds.  For an id that
    the account does not have the function uses a null pointer. *)
Lemma esme_destroy_spec s a e (mode sid : Z) (H : book_ok s) (He : heap s !! a = Some e)
    (Hm : mode = 1 \/ mode = 2) (Hsid : 1 <= sid) :
  if bool_decide (sid ∈ (if mode =? 1 then tx_session_id <$> tx_esme e
                         else rx_session_id <$> rx_esme e))
  then exists s' tx rx, esme_destroy s (Some a) mode sid = Done s' /\ book_ok s' /\
    session_ended e mode sid tx rx /\ translations s' = translations s /\
    heap s' = (if decide (tx = [] /\ rx = []) then delete a (heap s)
               else <[a:=set_sessions e tx rx]> (heap s)) /\
    (a ∈ esme_list s' <-> ~ (tx = [] /\ rx = []))
  else esme_destroy s (Some a) mode sid = Panic.
Proof.
  pose proof (esme_destroy_cases s a e mode sid H He Hm Hsid) as Hc. case_bool_decide; [|done].
  destruct Hc as (s' & tx & rx & Hc). exists s', tx, rx. tauto.
Qed.

(** ** The SMSCs *)

(** Some SMSC can be sent to. *)
Definition reachable s : Prop :=
  exists c, c ∈ smscs s /\ transmits c = true /\ sc_conn_status c = 1.

Lemma present_loop_spec l r :
  r = 0 \/ r = 1 ->
  (present_loop l r = 2 /\ exists c, c ∈ l /\ transmits c = true /\ sc_conn_status c = 1) \/
  ((present_loop l r = 0 \/ present_loop l r = 1) /\
   ~ exists c, c ∈ l /\ transmits c = true /\ sc_conn_status c = 1).
Proof.
  revert r. induction l as [|c l IH]; intros r Hr; simpl.
  { right. split; [done|]. intros (c & Hc & _). by apply not_elem_of_nil in Hc. }
  assert (Hstep : forall r', r' = 0 \/ r' = 1 -> ~ (transmits c = true /\ sc_conn_status c = 1) ->
    (present_loop l r' = 2 /\ exists c', c' ∈ c :: l /\ transmits c' = true /\ sc_conn_status c' = 1) \/
    ((present_loop l r' = 0 \/ present_loop l r' = 1) /\
     ~ exists c', c' ∈ c :: l /\ transmits c' = true /\ sc_conn_status c' = 1)).
  { intros r' Hr' Hc. destruct (IH r' Hr') as [(E & c' & Hin & Hc')|[E Hno]].
    - left. split; [done|]. exists c'. split; [set_solver|done].
    - right. split; [done|]. intros (c' & [->|Hin]%elem_of_cons & Hc'); [done|]. apply Hno. by exists c'. }
  destruct (transmits c) eqn:Et; [|apply Hstep; [done|intros [? _]; done]].
  destruct (Z.eqb_spec (sc_conn_status c) 1) as [E|E].
  - left. split; [done|]. exists c. split; [set_solver|done].
  - apply Hstep; [by right|by intros [_ ?]].
Qed.

Definition is_reachable s : bool := is_smsc_present s =? 2.

Lemma is_reachable_spec s : is_reachable s = true <-> reachable s.
Proof.
  unfold is_reachable, is_smsc_present.
  destruct (present_loop_spec (smscs s) 0 ltac:(by left)) as [[-> H]|[E H]].
  - by split; [intros _|].
  - split; [intros [= ?%Z.eqb_eq]; lia|done].
Qed.

(** The change that [update_esme_conn] makes to every transmitter session. *)
Definition adapt s : ESME_TX -> ESME_TX := if is_reachable s then tx_connected else tx_unconnected.
Definition adapt_esme s e : ESME := set_sessions e (adapt s <$> tx_esme e) (rx_esme e).

Definition known s a : Prop :=
  exists e name t, heap s !! a = Some e /\ e_system_id e = Some name /\ account s name = Some t.

Lemma check_smsc_conn_known s name t :
  Forall named (translations s) -> account s name = Some t ->
  check_smsc_conn s (Some name) = Done (is_smsc_present s).
Proof.
  intros Hn Ht. unfold check_smsc_conn, smpp_client_find_username. simpl.
  rewrite find_username_spec by done. unfold account in Ht. by rewrite Ht.
Qed.

Lemma update_loop_spec l : forall s,
  NoDup l -> (forall a, a ∈ l -> known s a) -> Forall named (translations s) ->
  exists s', update_loop s l = Done s' /\ esme_list s' = esme_list s /\
    fresh_esme s' = fresh_esme s /\ translations s' = translations s /\ smscs s' = smscs s /\
    forall a, heap s' !! a = (if decide (a ∈ l) then adapt_esme s <$> heap s !! a else heap s !! a).
Proof.
  induction l as [|a l IH]; intros s Hnd Hk Hn; cbn [update_loop]; [by exists s|].
  apply NoDup_cons in Hnd as [Hna Hnd].
  destruct (Hk a) as (e & name & t & He & Hid & Ht); [set_solver|].
  rewrite He. simpl. rewrite Hid, (check_smsc_conn_known s name t) by done. simpl.
  set (s1 := set_heap s _).
  assert (Hs1 : s1 = set_heap s (<[a:=adapt_esme s e]> (heap s))).
  { subst s1. f_equal. f_equal. unfold adapt_esme, adapt, is_reachable, is_smsc_present.
    destruct (present_loop_spec (smscs s) 0 ltac:(by left)) as [[-> _]|[[-> | ->] _]]; done. }
  clearbody s1. subst s1.
  destruct (IH (set_heap s (<[a:=adapt_esme s e]> (heap s)))) as (s' & -> & E1 & E2 & E3 & E4 & Hh); try done.
  { intros b Hb. destruct (Hk b) as (eb & nb & tb & Heb & ?); [set_solver|].
    exists eb, nb, tb. split; [|done]. simpl. rewrite lookup_insert_ne; [done|set_solver]. }
  exists s'. split_and!; try done. intros b. rewrite Hh. simpl.
  destruct (decide (b = a)) as [->|Hne].
  - rewrite (decide_False (P := a ∈ l)), (decide_True (P := a ∈ a :: l)) by set_solver.
    by rewrite lookup_insert_eq, He.
  - rewrite lookup_insert_ne by done.
    destruct (decide (b ∈ l)); [rewrite decide_True by set_solver|rewrite decide_False by set_solver]; done.
Qed.

Lemma adapt_id s x : tx_session_id (adapt s x) = tx_session_id x.
Proof. unfold adapt, tx_connected, tx_unconnected. by repeat case_match. Qed.

(** Every ESME is adapted to the SMSCs. *)
Lemma update_esme_conn_adapts s :
  book_ok s -> Forall named (translations s) ->
  exists s', update_esme_conn s = Done s' /\ book_ok s' /\ translations s' = translations s /\
    smscs s' = smscs s /\ forall a, heap s' !! a = adapt_esme s <$> heap s !! a.
Proof.
  intros H Hn.
  assert (Hk : forall a, a ∈ esme_list s -> known s a).
  { intros a Ha. apply (bk_heap s H) in Ha as [e He].
    destruct (bk_esme s H a e He) as (_ & _ & _ & name & t & Hid & Ht & _). by exists e, name, t. }
  destruct (update_loop_spec (esme_list s) s (bk_nodup s H) Hk Hn) as (s' & E & E1 & E2 & E3 & E4 & Hh).
  assert (Hheap : forall a, heap s' !! a = adapt_esme s <$> heap s !! a).
  { intros a. rewrite Hh. destruct (decide (a ∈ esme_list s)) as [|Hna]; [done|].
    rewrite (bk_heap s H) in Hna. destruct (heap s !! a); [by destruct Hna; eauto|done]. }
  exists s'. split; [exact E|]. split; [|done].
  split.
  - rewrite E1. apply (bk_nodup s H).
  - intros a. rewrite E1, Hheap, fmap_is_Some. apply (bk_heap s H).
  - intros a. rewrite E1, E2. apply (bk_fresh s H).
  - intros a b x y Hx Hy. rewrite Hheap in Hx, Hy.
    apply fmap_Some in Hx as (x0 & Hx & ->). apply fmap_Some in Hy as (y0 & Hy & ->).
    by apply (bk_inj s H a b x0 y0).
  - intros a x Hx. rewrite Hheap in Hx. apply fmap_Some in Hx as (e & He & ->).
    apply (esme_ok_translations s); [done|].
    destruct (bk_esme s H a e He) as (Hne & Htx & Hrx & Hrest). split; simpl.
    { destruct Hne as [Hne|Hne]; [left|by right]. by destruct (tx_esme e). }
    rewrite <-list_fmap_compose. rewrite length_fmap.
    rewrite (list_fmap_ext (tx_session_id ∘ adapt s) tx_session_id) by (intros; apply adapt_id). done.
Qed.

(** After a change of the SMSCs the transmitter sessions of every account
    have the status that fits.  When no SMSC can be sent to, each of them
    has the status "no SMSC" - also one that was being unbound.  Otherwise
    none has it any more: those that had are bound again and their counters
    of unconnected submits are zero, the others stay as they are.  Nothing
    else changes. *)
Lemma update_esme_conn_spec s (H : book_ok s) (Hn : Forall named (translations s)) :
  exists s', update_esme_conn s = Done s' /\ book_ok s' /\
    forall a e, heap s !! a = Some e -> exists e', heap s' !! a = Some e' /\
      rx_esme e' = rx_esme e /\ e_system_id e' = e_system_id e /\
      (~ reachable s -> Forall (fun x => tx_status x = ESME_SMSC_UNCONNECTED) (tx_esme e')) /\
      (reachable s -> Forall2 (fun x x' =>
         if decide (tx_status x = ESME_SMSC_UNCONNECTED)
         then tx_status x' = ESME_BINDED /\ counter_value (tx_submits_unconnect x') = 0
         else x' = x) (tx_esme e) (tx_esme e')).
Proof.
  destruct (update_esme_conn_adapts s H Hn) as (s' & E & Hb & _ & _ & Hheap).
  exists s'. split; [exact E|]. split; [done|].
  intros a e He. rewrite Hheap, He. simpl. eexists. split; [done|]. simpl. split; [done|].
  split; [done|]. unfold adapt. split; intros Hr.
  - destruct (is_reachable s) eqn:Eb; [by apply is_reachable_spec in Eb|].
    apply Forall_fmap, Forall_true. intros x. unfold tx_unconnected. simpl.
    by destruct (bool_decide_reflect (tx_status x = ESME_SMSC_UNCONNECTED)).
  - apply is_reachable_spec in Hr as ->. apply Forall2_fmap_r, Forall_Forall2_diag, Forall_true.
    intros x. unfold tx_connected. destruct (decide (tx_status x = ESME_SMSC_UNCONNECTED)) as [Hd|Hd].
    + simpl. by rewrite bool_decide_eq_true_2.
    + simpl. by rewrite bool_decide_eq_false_2.
Qed.

End Facts.
