(* ===== verification/Accounts.v ===== *)
(** * Reading the accounts of the server (smpp-esme/config.c)

    The groups [smpp-client] of the configuration become the accounts that
    the server knows, and the checks that follow.  The list of accounts is
    the field [list] of [Smsc_Client_List]; its two dictionaries are never
    written.  Log files are not modelled.  [cfg_get_integer] writes a [long];
    where the code passes the address of an [int] the low half is the new
    value and the rest goes into what follows. *)

From S2P Require Import Prelude Gwlib Dict Cfg Esme.
Open Scope Z_scope.

Definition SMPP_ENQUIRE_LINK_INTERVAL : Z := 30.

Section Accounts.
Context {O : OctstrLib} {L : GwListLib} {C : CfgStrings O L} {PL : ParseLib O} {F : Files O} {SV : KeyedStore O L octstr}
  {SG : KeyedStore O L (CfgGroup (SV := SV))} {SM : KeyedStore O L (gwlist (CfgGroup (SV := SV)))}.
Variable h : Hooks.
Implicit Types (grp : CfgGroup (SV := SV)).

(** The last field of the structure is an [int]: what [cfg_get_integer]
    writes there goes over the end of the object. *)
Definition get_last_number grp (name : String.string) (default : Z) : outcome Z :=
  rn ← cfg_get_integer h 0 (Some grp) (octstr_imm name);
  if (rn.1 =? -1) then Done default else Panic.

(** The mode of an account: 1 for Tx, 2 for Rx, 3 for TRx, 4 for Tx and Rx;
    [None] for an unknown word. *)
Definition select_mode (mode : octstr) (rx_allowed : Z) : option Z :=
  if octstr_same mode (octstr_imm "tx") && (rx_allowed =? 1) then Some 4
  else if octstr_same mode (octstr_imm "tx") then Some 1
  else if octstr_same mode (octstr_imm "rx") then Some 2
  else if octstr_same mode (octstr_imm "txrx") then Some 3
  else None.

Definition create_onetrans grp : outcome (option Smsc_Client) :=
  match cfg_get_group_name grp with
  | None => Done None
  | Some grpname =>
      if negb (octstr_same grpname (octstr_imm "smpp-client")) then Done None
      else
        mode ← cfg_var h grp "mode";
        account_name ← cfg_var h grp "account-name";
        password ← cfg_var h grp "password";
        validfrom ← cfg_var h grp "validfrom";
        validto ← cfg_var h grp "validto";
        log_file ← cfg_var h grp "log-file";
        allowed_prefix ← cfg_var h grp "account-allow-prefix";
        denied_prefix ← cfg_var h grp "account-deny-prefix";
        dedicated_smsc ← cfg_var h grp "dedicated-smsc";
        preferred_smsc_tmp ← cfg_var h grp "preferred-smsc";
        tmp ← cfg_var h grp "preferred-smsc";
        let preferred_smsc := option_map (fun tmp => items (octstr_split tmp (octstr_imm ";"))) tmp in
        log_level ← cfg_integer_or h grp "log-level" 0;
        enquire_link_interval ← cfg_integer_or h grp "enquire-link-interval" SMPP_ENQUIRE_LINK_INTERVAL;
        dnds_check ← cfg_integer_or h grp "dnd-check" 0;
        rx_allowed ← cfg_get_bool h (Some grp) (octstr_imm "rx-allowed");
        max_submits_unconnect ← cfg_integer_or h grp "max-submits-unconnect" (-1);
        max_submits ← cfg_integer_or h grp "max-submits" (-1);
        max_tx_sessions ← cfg_integer_or h grp "max-tx-sessions" (-1);
        max_rx_sessions ← cfg_integer_or h grp "max-rx-sessions" (-1);
        max_tps ← cfg_integer_or h grp "max-tps" (-1);
        valid_time_from ← cfg_integer_or h grp "valid_time_from" (-1);
        valid_time_to ← get_last_number grp "valid_time_to" (-1);
        match account_name, password, mode, validfrom, validto with
        | Some account_name, Some password, Some mode, Some validfrom, Some validto =>
            if (rx_allowed.2 =? 1) && negb (octstr_same mode (octstr_imm "tx")) then Done None
            else
              _ ← (if rx_allowed.2 =? 1 then cfg_var h grp "rx-log-file" else Done None);
              Done (option_map (fun allowed_mode =>
                MkClient (Some account_name) (Some password) (Some validfrom) (Some validto)
                  allowed_prefix denied_prefix dedicated_smsc preferred_smsc
                  enquire_link_interval max_submits_unconnect max_submits max_tps allowed_mode
                  (wrap_int dnds_check) max_tx_sessions max_rx_sessions (wrap_int valid_time_from) (wrap_int valid_time_to))
                (select_mode mode rx_allowed.2))
        | _, _, _, _, _ => Done None
        end
  end.

Definition smpp_client_create : list Smsc_Client := [].

Definition smpp_client_add_one (trans : list Smsc_Client) grp : outcome (Z * list Smsc_Client) :=
  ot ← create_onetrans grp;
  Done (match ot with None => (-1, trans) | Some ot => (0, trans ++ [ot]) end).

Fixpoint add_groups (trans : list Smsc_Client) (list : list (CfgGroup (SV := SV))) : outcome (Z * Datatypes.list Smsc_Client) :=
  match list with
  | [] => Done (0, trans)
  | grp :: list =>
      rt ← smpp_client_add_one trans grp;
      if rt.1 =? -1 then Done (-1, rt.2) else add_groups rt.2 list
  end.

Definition smpp_client_add_cfg (trans : list Smsc_Client) (cfg : Cfg (SG := SG) (SM := SM)) : outcome (Z * list Smsc_Client) :=
  l ← cfg_get_multi_group cfg (octstr_imm "smpp-client");
  match l with None => Done (0, trans) | Some l => add_groups trans (items l) end.

(** ** Checks *)

Fixpoint same_elsewhere (tmp : octstr) (i j : nat) (l : list octstr) : bool :=
  match l with
  | [] => false
  | x :: l => (octstr_same tmp x && negb (i =? j)%nat) || same_elsewhere tmp i (j + 1) l
  end.

Fixpoint names_clash (i : nat) (l all : list octstr) : bool :=
  match l with
  | [] => false
  | tmp :: l => same_elsewhere tmp i 0 all || names_clash (i + 1) l all
  end.

Definition shares_smsc (dedicated : list octstr) (ot : Smsc_Client) : bool :=
  match cl_preferred_smsc ot with
  | None => false
  | Some preferred => existsb (fun p => existsb (fun d => octstr_same d p) dedicated) preferred
  end.

Definition verify_config_para (trans : list Smsc_Client) : Z :=
  match trans with
  | [] => 0
  | _ =>
      let names := omap cl_account_name trans in
      if names_clash 0 names names then -1
      else if existsb (shares_smsc (omap cl_dedicated_smsc trans)) trans then -1
      else 0
  end.

(** What the process does with them when it starts: it panics when the
    groups cannot be read or are not consistent. *)
Definition load_accounts (cfg : Cfg (SG := SG) (SM := SM)) : outcome (list Smsc_Client) :=
  rt ← smpp_client_add_cfg smpp_client_create cfg;
  if rt.1 =? -1 then Panic
  else if verify_config_para rt.2 =? -1 then Panic
  else Done rt.2.

(** ** Access *)

Definition smpp_client_len (trans : list Smsc_Client) : Z := Z.of_nat (length trans).

Definition get_smpp_client (trans : list Smsc_Client) (pos : Z) : outcome (option Smsc_Client) :=
  if smpp_client_len trans <=? pos then Done None
  else if pos <? 0 then Panic
  else Done (trans !! Z.to_nat pos).

End Accounts.
