(* ===== verification/AccountsFacts.v ===== *)
(** * Facts about the accounts

    Which groups are accepted as accounts and what the accounts are then;
    what holds of the accounts when the server starts. *)

From S2P Require Import Prelude Gwlib Dict Cfg CfgDef CfgFacts CfgRead.
From S2P Require Import CfgExamples Esme EsmeFacts Accounts.
Open Scope Z_scope.

Section Facts.
Context {O : OctstrLib} {OL : OctstrLaws O} {L : GwListLib} {LL : GwListLaws L} {C : CfgStrings O L} {CL : CfgStringsLaws C}
  {PL : ParseLib O} {PLL : ParseLaws PL} {F : Files O} {SV : KeyedStore O L octstr} {SVL : KeyedStoreLaws SV}
  {SG : KeyedStore O L (CfgGroup (SV := SV))} {SM : KeyedStore O L (gwlist (CfgGroup (SV := SV)))}
  {SGL : KeyedStoreLaws SG} {SML : KeyedStoreLaws SM}.
Variable file : octstr.
Notation hooks := (cfg_create (SG := SG) (SM := SM) cfg_def file).2.
Implicit Types (grp : CfgGroup (SV := SV)) (m : vars_map) (t : Smsc_Client).

Definition client_key : list Z := cstr "smpp-client".

(** ** The group of an account *)

Definition described_mode (mode : list Z) (rx : bool) : option Z :=
  if rx then if decide (mode = cstr "tx") then Some 4 else None
  else if decide (mode = cstr "tx") then Some 1
  else if decide (mode = cstr "rx") then Some 2
  else if decide (mode = cstr "txrx") then Some 3
  else None.

(** The mode of the account that a group describes; [None] when the group is
    refused. *)
Definition accepted m : option Z :=
  _ ← m !! cstr "account-name"; _ ← m !! cstr "password"; mode ← m !! cstr "mode";
  _ ← m !! cstr "validfrom"; _ ← m !! cstr "validto";
  described_mode mode (flag m "rx-allowed").

Record account_shows m t : Prop := {
  as_name : octets <$> cl_account_name t = m !! cstr "account-name";
  as_password : octets <$> cl_password t = m !! cstr "password";
  as_validfrom : octets <$> cl_validfrom t = m !! cstr "validfrom";
  as_validto : octets <$> cl_validto t = m !! cstr "validto";
  as_allowed : octets <$> cl_allowed_prefix t = m !! cstr "account-allow-prefix";
  as_denied : octets <$> cl_denied_prefix t = m !! cstr "account-deny-prefix";
  as_dedicated : octets <$> cl_dedicated_smsc t = m !! cstr "dedicated-smsc";
  as_preferred : (fun l => octets <$> l) <$> cl_preferred_smsc t
    = (fun v => octets <$> items (octstr_split (octstr_create v) (octstr_imm ";"))) <$> m !! cstr "preferred-smsc";
  as_numbers : cl_enquire_link_interval t = number_or m "enquire-link-interval" SMPP_ENQUIRE_LINK_INTERVAL /\
    cl_max_submits_unconnect t = number_or m "max-submits-unconnect" (-1) /\
    cl_max_submits t = number_or m "max-submits" (-1) /\ cl_max_tps t = number_or m "max-tps" (-1) /\
    cl_max_tx_sessions t = number_or m "max-tx-sessions" (-1) /\
    cl_max_rx_sessions t = number_or m "max-rx-sessions" (-1) /\
    cl_dnds_check t = wrap_int (number_or m "dnd-check" 0) /\
    cl_valid_time_from t = wrap_int (number_or m "valid_time_from" (-1)) /\ cl_valid_time_to t = -1;
  as_mode : accepted m = Some (cl_allowed_mode t)
}.

Lemma get_last_number_done grp m (name : String.string) d : stored client_key grp m -> allowed cfg_def client_key (cstr name) = true ->
  m !! cstr name = None -> get_last_number hooks grp name d = Done d.
Proof.
  intros Hs Ha Hm. unfold get_last_number.
  rewrite (cfg_get_integer_number cfg_def file client_key grp m name 0 Hs Ha). unfold number. by rewrite Hm.
Qed.

(** Every variable that the code asks for is one that the group may have. *)
Ltac shown Hs name :=
  let os := fresh "os" in let E := fresh "E" in let Eo := fresh "Eo" in
  destruct (cfg_var_shown cfg_def file client_key _ _ name Hs eq_refl) as (os & E & Eo); rewrite E; clear E; cbn [mbind outcome_bind].
Ltac number Hs name d := rewrite (cfg_integer_or_number cfg_def file client_key _ _ name d Hs eq_refl); cbn [mbind outcome_bind].

Lemma select_mode_spec (mode : octstr) rx :
  (if (rx =? 1) && negb (octstr_same mode (octstr_imm "tx")) then None else select_mode mode rx)
  = described_mode (octets mode) (rx =? 1).
Proof.
  unfold select_mode, described_mode. rewrite !octstr_same_imm. destruct (rx =? 1); rewrite ?andb_true_r, ?andb_false_r; simpl;
    repeat case_bool_decide; repeat case_decide; naive_solver.
Qed.

Lemma create_onetrans_spec grp m : stored client_key grp m -> m !! cstr "valid_time_to" = None ->
  exists r, create_onetrans hooks grp = Done r /\
    match accepted m, r with
    | Some _, Some t => account_shows m t
    | None, None => True
    | _, _ => False
    end.
Proof.
  intros Hs Hv. pose proof Hs as [_ Hname]. unfold create_onetrans, cfg_get_group_name.
  destruct (grp_name grp) as [gn|]; [|done]. injection Hname as Hname. cbn [option_map].
  rewrite octstr_same_imm, octstr_duplicate_spec, Hname, bool_decide_true by done. cbn [negb].
  shown Hs "mode". shown Hs "account-name". shown Hs "password". shown Hs "validfrom". shown Hs "validto".
  shown Hs "log-file". shown Hs "account-allow-prefix". shown Hs "account-deny-prefix". shown Hs "dedicated-smsc".
  shown Hs "preferred-smsc".
  number Hs "log-level" 0. number Hs "enquire-link-interval" SMPP_ENQUIRE_LINK_INTERVAL. number Hs "dnd-check" 0.
  destruct (cfg_get_bool_flag cfg_def file client_key _ _ "rx-allowed" Hs eq_refl) as (rx & -> & Erx). cbn [mbind outcome_bind].
  number Hs "max-submits-unconnect" (-1). number Hs "max-submits" (-1). number Hs "max-tx-sessions" (-1).
  number Hs "max-rx-sessions" (-1). number Hs "max-tps" (-1). number Hs "valid_time_from" (-1).
  rewrite (get_last_number_done _ _ "valid_time_to" (-1) Hs eq_refl Hv). cbn [mbind outcome_bind].
  shown Hs "rx-log-file". rewrite Erx.
  assert (Eacc : accepted m = match os0, os1, os, os2, os3 with
    | Some _, Some _, Some mode, Some _, Some _ => described_mode (octets mode) (flag m "rx-allowed")
    | _, _, _, _, _ => None end).
  { unfold accepted. rewrite <-Eo, <-Eo0, <-Eo1, <-Eo2, <-Eo3. by destruct os0, os1, os, os2, os3. }
  rewrite Eacc. destruct os0 as [o0|], os1 as [o1|], os as [mode|], os2 as [o2|], os3 as [o3|]; try by exists None.
  rewrite <-Erx in *. rewrite <-select_mode_spec in *.
  destruct ((rx.2 =? 1) && negb (octstr_same mode (octstr_imm "tx"))); [by exists None|].
  exists (option_map (fun md => MkClient (Some o0) (Some o1) (Some o2) (Some o3) os5 os6 os7
    (option_map (fun tmp => items (octstr_split tmp (octstr_imm ";"))) os8)
    (number_or m "enquire-link-interval" SMPP_ENQUIRE_LINK_INTERVAL) (number_or m "max-submits-unconnect" (-1))
    (number_or m "max-submits" (-1)) (number_or m "max-tps" (-1)) md (wrap_int (number_or m "dnd-check" 0))
    (number_or m "max-tx-sessions" (-1)) (number_or m "max-rx-sessions" (-1))
    (wrap_int (number_or m "valid_time_from" (-1))) (wrap_int (-1))) (select_mode mode rx.2)).
  split; [by destruct (rx.2 =? 1)|]. destruct (select_mode mode rx.2) as [md|]; [|done]. simpl.
  split; try done.
  - cbn [cl_preferred_smsc]. rewrite <-Eo8. destruct os8 as [o8|]; [|done]. simpl. f_equal. apply octstr_split_proper.
    symmetry. apply octets_create_octets.
Qed.

(** ** All groups *)

(** The groups of the accounts, as the configuration shows them. *)
Definition groups_of (k : conf) : list vars_map := default [] (multi_of k !! client_key).

Lemma accepted_named m t : accepted m <> None -> account_shows m t -> named t.
Proof.
  intros Ha Hs. unfold accepted in Ha. unfold named. pose proof (as_name _ _ Hs) as H1. pose proof (as_password _ _ Hs) as H2.
  destruct (m !! cstr "account-name"); [|done]. destruct (m !! cstr "password"); [|done].
  destruct (cl_account_name t), (cl_password t); try done; by split; eexists.
Qed.

Lemma add_groups_spec (gs : list (CfgGroup (SV := SV))) (ms : list vars_map) : forall trans,
  Forall2 (stored client_key) gs ms -> Forall (fun m => m !! cstr "valid_time_to" = None) ms ->
  exists ts, add_groups hooks trans gs = Done (if forallb (fun m => bool_decide (is_Some (accepted m))) ms then 0 else -1, trans ++ ts) /\
    Forall (fun t => exists m, m ∈ ms /\ account_shows m t) ts /\
    (forallb (fun m => bool_decide (is_Some (accepted m))) ms = true -> Forall2 account_shows ms ts).
Proof.
  induction ms as [|m ms IH] in gs |- *; intros trans H Hv; inversion H as [|g ? gs' ? Hg Hgs]; subst; cbn [add_groups forallb].
  { exists []. rewrite app_nil_r. by split_and!. }
  apply Forall_cons in Hv as [Hvm Hv]. destruct (create_onetrans_spec g m Hg Hvm) as (r & E & Hr).
  unfold smpp_client_add_one. rewrite E. cbn [mbind outcome_bind].
  destruct (accepted m) as [md|] eqn:Ea, r as [t|]; try done; cbn -[bool_decide cfg_create].
  - rewrite bool_decide_true by (by eexists). cbn [andb].
    destruct (IH gs' (trans ++ [t]) Hgs Hv) as (ts & Ets & Hsome & Hall). exists (t :: ts).
    split; [by rewrite Ets, <-app_assoc|]. split.
    + constructor; [exists m; split; [by left|done]|]. eapply Forall_impl; [exact Hsome|].
      intros x (m' & Hm' & Hx). exists m'. split; [by right|done].
    + intros Hf. constructor; [done|by apply Hall].
  - exists []. rewrite app_nil_r, bool_decide_false by (by intros [? ?]). by split_and!.
Qed.

Lemma add_cfg_spec (c : Cfg (SG := SG) (SM := SM)) k :
  cfg_shows c k -> Forall (fun m => m !! cstr "valid_time_to" = None) (groups_of k) ->
  let good := forallb (fun m => bool_decide (is_Some (accepted m))) (groups_of k) in
  exists ts, smpp_client_add_cfg hooks smpp_client_create c = Done (if good then 0 else -1, ts) /\
    (good = true -> Forall2 account_shows (groups_of k) ts).
Proof.
  intros [_ Hok _ Hm] Hv good. unfold smpp_client_add_cfg, cfg_get_multi_group. rewrite store_get_ok by done.
  rewrite octstr_imm_octets. cbn [mbind outcome_bind]. specialize (Hm client_key). fold client_key. unfold good, groups_of in *.
  destruct Hm as [l ms Hm|]; simpl.
  - assert (El : items (foldl gwlist_append gwlist_create (items l)) = items l).
    { by rewrite items_append_all, items_create. }
    rewrite El. destruct (add_groups_spec (items l) ms [] Hm Hv) as (ts & E & _ & Hall). by exists ts.
  - by exists [].
Qed.

(** ** The checks *)

Lemma same_elsewhere_spec tmp i j (l : list octstr) :
  same_elsewhere tmp i j l = true <-> exists n x, l !! n = Some x /\ octets x = octets tmp /\ i <> (j + n)%nat.
Proof.
  revert j. induction l as [|x l IH]; intros j; simpl; [split; [done|by intros (n & x & ? & _)]|].
  rewrite orb_true_iff, andb_true_iff, IH, negb_true_iff, Nat.eqb_neq. unfold octstr_same. rewrite Z.eqb_eq, octstr_compare_spec.
  split.
  - intros [[E Hij]|(n & y & Hy & E & Hij)]; [exists 0%nat, x; simpl; split_and!; (done || lia)|].
    exists (S n), y. split_and!; (done || lia).
  - intros ([|n] & y & Hy & E & Hij); simpl in Hy.
    + left. injection Hy as ->. split; [done|lia].
    + right. exists n, y. split_and!; (done || lia).
Qed.

Lemma names_clash_spec i (l all : list octstr) :
  names_clash i l all = true <->
  exists n x, l !! n = Some x /\ same_elsewhere x (i + n) 0 all = true.
Proof.
  revert i. induction l as [|x l IH]; intros i; simpl; [split; [done|by intros (n & x & ? & _)]|].
  rewrite orb_true_iff, IH. split.
  - intros [H|(n & y & Hy & H)]; [exists 0%nat, x; by rewrite Nat.add_0_r|].
    exists (S n), y. split; [done|]. by replace (i + S n)%nat with (i + 1 + n)%nat by lia.
  - intros ([|n] & y & Hy & H); simpl in Hy.
    + left. injection Hy as ->. by rewrite Nat.add_0_r in H.
    + right. exists n, y. split; [done|]. by replace (i + 1 + n)%nat with (i + S n)%nat by lia.
Qed.

Lemma names_unique (l : list octstr) : names_clash 0 l l = false <-> NoDup (octets <$> l).
Proof.
  rewrite <-not_true_iff_false, names_clash_spec, NoDup_alt. split.
  - intros H i j o Hi Hj. rewrite list_lookup_fmap in Hi, Hj.
    destruct (l !! i) as [x|] eqn:Ei; [|done]. destruct (l !! j) as [y|] eqn:Ej; [|done]. simpl in *. simplify_eq.
    destruct (decide (i = j)); [done|]. exfalso. apply H. exists i, x. split; [done|]. apply same_elsewhere_spec.
    exists j, y. simpl. split_and!; congruence.
  - intros H (n & x & Hx & (k & y & Hy & E & Hne)%same_elsewhere_spec). simpl in Hne. apply Hne.
    apply (H n k (octets x)); rewrite list_lookup_fmap; [by rewrite Hx|by rewrite Hy, <-E].
Qed.

(** No account prefers an SMSC that is dedicated to one. *)
Definition apart (ts : list Smsc_Client) : Prop :=
  forall t t' d l p, t ∈ ts -> t' ∈ ts -> cl_dedicated_smsc t = Some d -> cl_preferred_smsc t' = Some l -> p ∈ l ->
    octets d <> octets p.

Lemma verify_config_para_spec (ts : list Smsc_Client) :
  verify_config_para ts = (if decide (NoDup (octets <$> omap cl_account_name ts)) then
      if existsb (shares_smsc (omap cl_dedicated_smsc ts)) ts then -1 else 0 else -1) /\
  (existsb (shares_smsc (omap cl_dedicated_smsc ts)) ts = false <-> apart ts).
Proof.
  split.
  - unfold verify_config_para. destruct ts as [|t ts]; [done|]. set (l := t :: ts). destruct (decide _) as [Hn|Hn].
    + by rewrite (proj2 (names_unique _) Hn).
    + destruct (names_clash 0 (omap cl_account_name l) (omap cl_account_name l)) eqn:E; [done|].
      by apply names_unique in E.
  - rewrite <-not_true_iff_false, existsb_exists. unfold apart. split.
    + intros H t t' d l p Ht Ht' Hd Hl Hp E. apply H. exists t'. split; [by apply list_elem_of_In|].
      unfold shares_smsc. rewrite Hl. apply existsb_exists. exists p. split; [by apply list_elem_of_In|].
      apply existsb_exists. exists d. split; [|by apply Z.eqb_eq, octstr_compare_spec].
      apply list_elem_of_In, list_elem_of_omap. by exists t.
    + intros H (t' & Ht' & Hs). unfold shares_smsc in Hs. destruct (cl_preferred_smsc t') as [l|] eqn:El; [|done].
      apply existsb_exists in Hs as (p & Hp & Hs). apply existsb_exists in Hs as (d & Hd & Hs).
      apply Z.eqb_eq, octstr_compare_spec in Hs. apply list_elem_of_In in Ht'. apply list_elem_of_In in Hp. apply list_elem_of_In in Hd.
      apply list_elem_of_omap in Hd as (t & Ht & Hd). by eapply (H t t' d l p).
Qed.

Lemma find_unique (ts : list Smsc_Client) t name :
  Forall named ts -> NoDup (octets <$> omap cl_account_name ts) -> t ∈ ts -> cl_account_name t = Some name ->
  find_username ts name = Done (Some t).
Proof.
  induction ts as [|t0 ts IH]; intros Hn Hd Ht Hname; [by apply not_elem_of_nil in Ht|].
  apply Forall_cons in Hn as [[[n0 E0] _] Hn]. simpl in Hd |- *. rewrite E0 in Hd |- *. simpl in Hd |- *.
  apply NoDup_cons in Hd as [Hin Hd]. apply elem_of_cons in Ht as [->|Ht].
  - rewrite E0 in Hname. injection Hname as ->. by rewrite (proj2 (octstr_same_true name name) eq_refl).
  - destruct (octstr_same name n0) eqn:Es; [|by apply IH].
    apply Z.eqb_eq, octstr_compare_spec in Es. exfalso. apply Hin. rewrite <-Es.
    apply list_elem_of_fmap. exists name. split; [done|]. apply list_elem_of_omap. by exists t.
Qed.

Lemma accepted_range m md : accepted m = Some md -> 1 <= md <= 4.
Proof.
  unfold accepted, described_mode. intros H. repeat (case_match || case_decide || simplify_option_eq); lia.
Qed.

(** C36 The accounts with which the server starts, from a configuration in
    which no group has a [valid_time_to] (it would be written behind the
    structure): one for each group, in their order, with what the group says;
    each has a name, a password and a
    mode from 1 to 4, the names are different, so that an account is found
    under its name, and no SMSC that one account prefers is dedicated to an
    account.  Otherwise the process stops: a group is refused, or the
    accounts that the groups describe are not unique or share an SMSC. *)
Theorem load_accounts_spec (c : Cfg (SG := SG) (SM := SM)) k :
  cfg_shows c k -> Forall (fun m => m !! cstr "valid_time_to" = None) (groups_of k) ->
  (exists ts, load_accounts hooks c = Done ts /\ Forall2 account_shows (groups_of k) ts /\
    Forall named ts /\ Forall (fun t => 1 <= cl_allowed_mode t <= 4) ts /\ apart ts /\
    forall t name, t ∈ ts -> cl_account_name t = Some name -> smpp_client_find_username ts (Some name) = Done (Some t)) \/
  (load_accounts hooks c = Panic /\
    (Exists (fun m => accepted m = None) (groups_of k) \/
     exists ts, Forall2 account_shows (groups_of k) ts /\
       (~ NoDup (octets <$> omap cl_account_name ts) \/ ~ apart ts))).
Proof.
  intros Hc Hv. destruct (add_cfg_spec c k Hc Hv) as (ts & E & Hts). unfold load_accounts. rewrite E. cbn [mbind outcome_bind fst snd].
  destruct (forallb _ (groups_of k)) eqn:Hgood.
  - specialize (Hts eq_refl). cbn [Z.eqb]. destruct (verify_config_para_spec ts) as [-> Hap].
    assert (Hall : Forall (fun t => named t /\ 1 <= cl_allowed_mode t <= 4) ts).
    { apply Forall_forall. intros t Ht. apply list_elem_of_lookup in Ht as [i Hi].
      destruct (Forall2_lookup_r _ _ _ _ _ Hts Hi) as (m & _ & Hm). pose proof (as_mode _ _ Hm) as Hmd.
      split; [apply (accepted_named m); congruence|by eapply accepted_range]. }
    apply Forall_and in Hall as [Hnamed Hmode]. destruct (decide _) as [Hn|Hn].
    + destruct (existsb (shares_smsc (omap cl_dedicated_smsc ts)) ts) eqn:Hx.
      * right. split; [done|]. right. exists ts. split; [done|]. right. intros Ha. apply Hap in Ha. congruence.
      * left. exists ts. split_and!; try done; [by apply Hap|]. intros t name Ht Hname. by apply find_unique.
    + right. split; [done|]. right. exists ts. by split; [|left].
  - right. split; [done|]. left. destruct (decide (Exists (fun m => accepted m = None) (groups_of k))) as [|Hno]; [done|].
    apply not_true_iff_false in Hgood. exfalso. apply Hgood. apply forallb_forall. intros m Hm.
    apply list_elem_of_In in Hm. apply bool_decide_true. destruct (accepted m) eqn:Ea; [by eexists|].
    exfalso. apply Hno. apply Exists_exists. by exists m.
Qed.

End Facts.

(** ** Two accounts *)

Module AccountsExample.

Definition assignments (name mode : String.string) : list (String.string * String.string) :=
  [("group", "smpp-client"); ("account-name", name); ("password", "secret"); ("mode", mode);
   ("validfrom", "01/01/2020 00:00:00"); ("validto", "01/01/2040 00:00:00"); ("preferred-smsc", "a;b");
   ("max-tps", "10")]%string.

Definition file : @octstr list_octstr := cstr "esme.conf".

Definition described_conf : conf :=
  default (MkConf ∅ ∅) (Described.with_groups (MkConf ∅ ∅) [assignments "first" "tx"; assignments "second" "txrx"]).

Lemma conf_shown : exists c : Cfg (SV := DictStore) (SG := DictStore) (SM := DictStore), cfg_shows c described_conf.
Proof.
  apply (Described.conf_described file [assignments "first" "tx"; assignments "second" "txrx"]).
  vm_compute. reflexivity.
Qed.

Example modes : accepted <$> groups_of described_conf = [Some 1; Some 3].
Proof. vm_compute. reflexivity. Qed.

Lemma two_groups : length (groups_of described_conf) = 2%nat.
Proof. vm_compute. reflexivity. Qed.

Lemma no_valid_time_to : Forall (fun m => m !! cstr "valid_time_to" = None) (groups_of described_conf).
Proof.
  assert (H : forallb (fun m => bool_decide (m !! cstr "valid_time_to" = None)) (groups_of described_conf) = true)
    by (vm_compute; reflexivity).
  apply Forall_forall. intros m Hm. apply list_elem_of_In in Hm. rewrite forallb_forall in H.
  by apply (bool_decide_eq_true_1 _ (H m Hm)).
Qed.

End AccountsExample.

Lemma load_accounts_spec_witness :
  exists c, cfg_shows c AccountsExample.described_conf /\
  Forall (fun m => m !! cstr "valid_time_to" = None) (groups_of AccountsExample.described_conf) /\
  ((exists ts, load_accounts (cfg_create cfg_def AccountsExample.file).2 c = Done ts /\ length ts = 2%nat) \/
   load_accounts (cfg_create cfg_def AccountsExample.file).2 c = Panic).
Proof.
  destruct AccountsExample.conf_shown as [c Hc]. exists c.
  pose proof AccountsExample.no_valid_time_to as Hv.
  split; [exact Hc|]. split; [exact Hv|].
  destruct (load_accounts_spec AccountsExample.file c _ Hc Hv) as [(ts & E & H2 & _)|[E _]].
  - left. exists ts. split; [exact E|]. apply Forall2_length in H2. rewrite <-H2. exact AccountsExample.two_groups.
  - right. exact E.
Defined.
