(* ===== verification/EsmeStop.v ===== *)
(** * Stopping sessions (smpp-esme/esme.c)

    How the server ends its sessions: [stop_esme] for the sessions of one
    customer, which an administrator asks for, and [esme_shutdown] for all of
    them when the process ends; and [init_connect_ip], which reads at the
    start who may connect and the series of prefixes. *)

From S2P Require Import Prelude Gwlib Counter Dict World SmppSession.
From S2P Require Import Cfg CfgDef CfgFacts CfgRead Esme EsmeFacts.
Open Scope Z_scope.

(** ** The start *)

Section Start.
Context {O : OctstrLib} {L : GwListLib} {C : CfgStrings O L} {PL : ParseLib O} {F : Files O} {SV : KeyedStore O L octstr}
  {SG : KeyedStore O L (CfgGroup (SV := SV))} {SM : KeyedStore O L (gwlist (CfgGroup (SV := SV)))}.
Variable h : Hooks.

(** The variables of the file. *)
Record ConnectIp : Type := MkConnectIp {
  allowed_ip : option octstr; denied_ip : option octstr;
  allowed_prefix : option octstr; denied_prefix : option octstr;
  gsm_series : option octstr; cdma_series : option octstr; int_series : option octstr; default_series : option octstr
}.

Definition or_text (os : option octstr) (text : list Z) : option octstr :=
  match os with None => Some (octstr_create text) | Some os => Some os end.

(** A default series that is not one of the four becomes [gsm]. *)
Definition choose_series (os : option octstr) : option octstr :=
  match os with
  | None => Some (octstr_create (cstr "gsm"))
  | Some s =>
      if negb (octstr_same s (octstr_imm "gsm") || octstr_same s (octstr_imm "cdma") ||
               octstr_same s (octstr_imm "int") || octstr_same s (octstr_imm "all"))
      then Some (octstr_create (cstr "gsm")) else Some s
  end.

Definition init_connect_ip (v : ConnectIp) (cfg : Cfg (SG := SG) (SM := SM)) : outcome ConnectIp :=
  grp ← cfg_get_single_group cfg (octstr_imm "core");
  match grp with
  | None => Done v
  | Some grp =>
      allowed_ip ← cfg_var h grp "connect-allow-ip";
      denied_ip ← cfg_var h grp "connect-deny-ip";
      allowed_prefix ← cfg_var h grp "global-allow-prefix";
      denied_prefix ← cfg_var h grp "global-deny-prefix";
      gsm_series ← cfg_var h grp "gsm-series";
      cdma_series ← cfg_var h grp "cdma-series";
      int_series ← cfg_var h grp "int-series";
      default_series ← cfg_var h grp "default-series";
      Done (MkConnectIp (or_text allowed_ip (cstr " ")) (or_text denied_ip (cstr " "))
        (or_text allowed_prefix []) denied_prefix
        (or_text gsm_series []) (or_text cdma_series []) (or_text int_series [])
        (choose_series default_series))
  end.

End Start.

Section Stop.
Context {O : OctstrLib} {K : Link O} {TL : TimeLib O}.

(** ** One customer *)

(** [stop_esme] uses the fields [esmetx], [esmerx], [tx_thread_id] and
    [rx_thread_id] of an ESME, which nothing sets: [left_tx] and [left_rx]
    say whether what [gw_malloc] left there passes the tests.  If it does the
    function writes through a pointer that points nowhere. *)
Variables left_tx left_rx : nat -> bool.

(** The result, the state, and how many more times the lock of the list is
    held for reading after the call. *)
Definition stop_esme (s : Server) (esme : option octstr) : outcome (Z * Server * nat) :=
  r ← find_esme (heap s) (esme_list s) 0 false esme;
  match r with
  | None => Done (-1, s, 1%nat)
  | Some (_, a) => if left_tx a || left_rx a then Panic else Done (0, s, 0%nat)
  end.

(** ** All of them *)

(** What there is when the thread of a session has ended, that is when
    [gwthread_join] returns: the address of its ESME, the number of its list,
    and its id. *)
Variable joined : Server -> nat -> Z -> Z -> outcome Server.

Definition set_rx_status (r : ESME_RX) (st : esme_status) : ESME_RX :=
  MkRx (rx_conn r) (rx_client_ip r) (rx_client_port r) (rx_listen_port r) (rx_data_to_write r)
    (rx_msg_sent r) (rx_seq_number_counter r) (rx_start_time r) (rx_thread_id r) st (rx_quit r)
    (rx_session_id r) (rx_mode r).

(** The loop over the transmitters of an ESME.  The ESME is read again after
    each of its threads has ended. *)
Fixpoint stop_transmitters (k : nat) (s : Server) (a : nat) : outcome Server :=
  match k with
  | 0%nat => Done s
  | S k =>
      e ← must (heap s !! a);
      match tx_esme e with
      | [] => stop_transmitters k s a
      | t :: l =>
          let t' := set_tx_status t ESME_DISCONNECT (tx_submits_unconnect t) in
          s ← joined (set_heap s (<[a:=set_sessions e (t' :: l) (rx_esme e)]> (heap s))) a 1 (tx_session_id t);
          e ← must (heap s !! a);
          if (length (tx_esme e) =? 0)%nat then Done s else stop_transmitters k s a
      end
  end.

Fixpoint stop_receivers (k : nat) (s : Server) (a : nat) : outcome Server :=
  match k with
  | 0%nat => Done s
  | S k =>
      e ← must (heap s !! a);
      match rx_esme e with
      | [] => stop_receivers k s a
      | r :: l =>
          let r' := set_rx_status r ESME_DISCONNECT in
          s ← joined (set_heap s (<[a:=set_sessions e (tx_esme e) (r' :: l)]> (heap s))) a 2 (rx_session_id r);
          e ← must (heap s !! a);
          if (length (rx_esme e) =? 0)%nat then Done s else stop_receivers k s a
      end
  end.

(** The first ESME of the list, as often as the list was long. *)
Fixpoint stop_all (k : nat) (s : Server) : outcome Server :=
  match k with
  | 0%nat => Done s
  | S k =>
      match esme_list s with
      | [] => stop_all k s
      | a :: _ =>
          e ← must (heap s !! a);
          s ← stop_transmitters (length (tx_esme e)) s a;
          e ← must (heap s !! a);
          s ← stop_receivers (length (rx_esme e)) s a;
          stop_all k s
      end
  end.

(** With [shutdown = 1] the list is destroyed; the texts of [ConnectIp] are
    freed with it. *)
Definition esme_shutdown (s : Server) (shutdown : Z) : outcome Server :=
  s ← stop_all (length (esme_list s)) s;
  Done (if shutdown =? 1 then MkServer (srv_now s) (translations s) (heap s) [] (fresh_esme s) (smscs s) else s).

Definition esme_list_len (s : Server) : Z := Z.of_nat (length (esme_list s)).

End Stop.

(** ** Facts *)

Section StopFacts.
Context {O : OctstrLib} {OL : OctstrLaws O} {K : Link O} {TL : TimeLib O}.
Implicit Types (s : Server) (e : ESME).

(** [stop_esme] stops nothing.  For a name that is not logged in it keeps the
    lock, so that nobody can log in or out again; for another it uses fields
    that nothing set, or says that it succeeded. *)
Lemma stop_esme_stops_nothing left_tx left_rx s name : book_ok s ->
  (stop_esme left_tx left_rx s (Some name) = Done (-1, s, 1%nat) /\
   forall a e, heap s !! a = Some e -> ~ is_called e name) \/
  exists a e, heap s !! a = Some e /\ is_called e name /\
    stop_esme left_tx left_rx s (Some name) = if left_tx a || left_rx a then Panic else Done (0, s, 0%nat).
Proof.
  intros H. unfold stop_esme.
  destruct (find_esme_spec (heap s) (esme_list s) false name 0 (book_named s H)) as [[-> Hno]|(i & a & e & -> & _ & He & Hc)].
  - left. split; [done|]. intros a e He. apply (Hno a e); [|done]. apply (bk_heap s H). eauto.
  - right. by exists a, e.
Qed.

(** Giving a session another status keeps the book. *)
Lemma status_book s a e tx rx : book_ok s -> heap s !! a = Some e ->
  tx_session_id <$> tx = tx_session_id <$> tx_esme e -> rx_session_id <$> rx = rx_session_id <$> rx_esme e ->
  book_ok (set_heap s (<[a:=set_sessions e tx rx]> (heap s))).
Proof.
  intros H He Ht Hr. apply (book_update s a e); [done..|].
  destruct (bk_esme s H a e He) as (Hne & H1 & H2 & name & t & H3 & H4 & H5 & H6).
  assert (Lt : length tx = length (tx_esme e)) by (by rewrite <-(length_fmap tx_session_id), Ht, length_fmap).
  assert (Lr : length rx = length (rx_esme e)) by (by rewrite <-(length_fmap rx_session_id), Hr, length_fmap).
  split; simpl; [|rewrite Ht, Hr, Lt, Lr; split_and!; eauto 10].
  destruct Hne as [Hne|Hne]; [left; intros ->|right; intros ->]; apply Hne; by apply nil_length_inv.
Qed.

(** A thread that has ended left by [esme_destroy]. *)
Definition left_by_destroy s a mode sid : outcome Server := esme_destroy s (Some a) mode sid.

Lemma first_left s a e mode sid : book_ok s -> heap s !! a = Some e -> mode = 1 \/ mode = 2 ->
  sid ∈ (if mode =? 1 then tx_session_id <$> tx_esme e else rx_session_id <$> rx_esme e) ->
  exists s' tx rx, esme_destroy s (Some a) mode sid = Done s' /\ book_ok s' /\ session_ended e mode sid tx rx /\
    heap s' !! a = if decide (tx = [] /\ rx = []) then None else Some (set_sessions e tx rx).
Proof.
  intros H He Hm Hin. destruct (bk_esme s H a e He) as (_ & [_ Ht] & [_ Hr] & _).
  assert (Hsid : 1 <= sid).
  { rewrite Forall_forall in Ht, Hr. destruct Hm as [-> | ->]; simpl in Hin; auto. }
  pose proof (esme_destroy_cases s a e mode sid H He Hm Hsid) as Hd. rewrite bool_decide_eq_true_2 in Hd by done.
  destruct Hd as (s' & tx & rx & E & Hb & Hs & _ & Hh & _). exists s', tx, rx. split_and!; try done.
  rewrite Hh. case_decide; [by rewrite lookup_delete_eq|by rewrite lookup_insert_eq].
Qed.

Lemma removes_length {A} (id : A -> Z) sid l l' : removes id sid l l' -> length l = S (length l').
Proof. intros (l1 & x & l2 & -> & -> & _). rewrite !length_app. simpl. lia. Qed.

(** One turn of the loops. *)
Lemma transmitter_left s a e t l : book_ok s -> heap s !! a = Some e -> tx_esme e = t :: l ->
  exists s' tx, left_by_destroy (set_heap s (<[a:=set_sessions e (set_tx_status t ESME_DISCONNECT (tx_submits_unconnect t) :: l)
      (rx_esme e)]> (heap s))) a 1 (tx_session_id t) = Done s' /\ book_ok s' /\ length tx = length l /\
    heap s' !! a = if decide (tx = [] /\ rx_esme e = []) then None else Some (set_sessions e tx (rx_esme e)).
Proof.
  intros H He Et. set (e1 := set_sessions e _ _).
  assert (H1 : book_ok (set_heap s (<[a:=e1]> (heap s)))) by (apply status_book; [done..|by rewrite Et|done]).
  destruct (first_left _ a e1 1 (tx_session_id t) H1) as (s' & tx & rx & E & Hb & [Hr Hx] & Hh);
    [apply lookup_insert_eq|by left|simpl; by left|].
  simpl in Hx. subst rx. exists s', tx. split_and!; [exact E|done| |exact Hh].
  apply removes_length in Hr. simpl in Hr. lia.
Qed.

Lemma receiver_left s a e r l : book_ok s -> heap s !! a = Some e -> rx_esme e = r :: l ->
  exists s' rx, left_by_destroy (set_heap s (<[a:=set_sessions e (tx_esme e) (set_rx_status r ESME_DISCONNECT :: l)]> (heap s)))
      a 2 (rx_session_id r) = Done s' /\ book_ok s' /\ length rx = length l /\
    heap s' !! a = if decide (tx_esme e = [] /\ rx = []) then None else Some (set_sessions e (tx_esme e) rx).
Proof.
  intros H He Er. set (e1 := set_sessions e _ _).
  assert (H1 : book_ok (set_heap s (<[a:=e1]> (heap s)))) by (apply status_book; [done..|by rewrite Er]).
  destruct (first_left _ a e1 2 (rx_session_id r) H1) as (s' & tx & rx & E & Hb & [Hr Hx] & Hh);
    [apply lookup_insert_eq|by right|simpl; by left|].
  simpl in Hx. subst tx. exists s', rx. split_and!; [exact E|done| |exact Hh].
  apply removes_length in Hr. simpl in Hr. lia.
Qed.

Lemma stop_transmitters_spec k : forall s a e, book_ok s -> heap s !! a = Some e -> length (tx_esme e) = k -> tx_esme e <> [] ->
  if decide (rx_esme e = []) then stop_transmitters left_by_destroy k s a = Panic
  else exists s' e', stop_transmitters left_by_destroy k s a = Done s' /\ book_ok s' /\ heap s' !! a = Some e' /\
    tx_esme e' = [] /\ rx_esme e' = rx_esme e.
Proof.
  induction k as [|k IH]; intros s a e H He Hk Hne; (destruct (tx_esme e) as [|t l] eqn:Et; [done|]); [done|]. simpl in Hk.
  destruct (transmitter_left s a e t l H He Et) as (s' & tx & E & Hb & Hl & Hh).
  cbn [stop_transmitters]. rewrite He. cbn [must mbind outcome_bind]. rewrite Et, E. cbn [mbind outcome_bind].
  destruct (decide (tx = [])) as [->|Ht].
  - destruct (decide (rx_esme e = [])) as [Er|Er].
    + rewrite decide_True in Hh by done. by rewrite Hh.
    + rewrite decide_False in Hh by tauto. rewrite Hh. simpl. do 2 eexists. by split_and!.
  - rewrite decide_False in Hh by tauto. rewrite Hh. cbn [must mbind outcome_bind].
    pose proof (IH s' a _ Hb Hh ltac:(simpl; lia) Ht) as IH'.
    change (length (tx_esme (set_sessions e tx (rx_esme e)))) with (length tx).
    rewrite (proj2 (Nat.eqb_neq _ _)) by (destruct tx; [done|simpl; lia]). exact IH'.
Qed.

Lemma stop_receivers_spec k : forall s a e, book_ok s -> heap s !! a = Some e -> tx_esme e = [] ->
  length (rx_esme e) = k -> rx_esme e <> [] -> stop_receivers left_by_destroy k s a = Panic.
Proof.
  induction k as [|k IH]; intros s a e H He Hn Hk Hne; (destruct (rx_esme e) as [|r l] eqn:Er; [done|]); [done|]. simpl in Hk.
  destruct (receiver_left s a e r l H He Er) as (s' & rx & E & Hb & Hl & Hh).
  cbn [stop_receivers]. rewrite He. cbn [must mbind outcome_bind]. rewrite Er, E. cbn [mbind outcome_bind].
  destruct (decide (rx = [])) as [->|Hr].
  - rewrite decide_True in Hh by done. by rewrite Hh.
  - rewrite decide_False in Hh by tauto. rewrite Hh. cbn [must mbind outcome_bind].
    change (length (rx_esme (set_sessions e (tx_esme e) rx))) with (length rx).
    rewrite (proj2 (Nat.eqb_neq _ _)) by (destruct rx; [done|simpl; lia]). by apply (IH s' a _ Hb Hh); [|simpl; lia|].
Qed.

(** The end of the server while a customer is logged in: with the last
    session of an ESME its thread frees the ESME, which [esme_shutdown] then
    reads.  Without customers it does what it should. *)
Lemma esme_shutdown_follows_freed s shutdown : book_ok s ->
  esme_shutdown left_by_destroy s shutdown
  = if decide (esme_list s = []) then Done (if shutdown =? 1 then MkServer (srv_now s) (translations s) (heap s) [] (fresh_esme s) (smscs s) else s)
    else Panic.
Proof.
  intros H. unfold esme_shutdown. destruct (esme_list s) as [|a rest] eqn:El; [done|]. simpl length. cbn [stop_all]. rewrite El.
  assert (Ha : a ∈ esme_list s) by (rewrite El; by left). apply (bk_heap s H) in Ha as [e He]. rewrite He. cbn [must mbind outcome_bind].
  destruct (bk_esme s H a e He) as (Hne & _).
  assert (Hrx : forall s1 e1, book_ok s1 -> heap s1 !! a = Some e1 -> tx_esme e1 = [] -> rx_esme e1 <> [] ->
    stop_receivers left_by_destroy (length (rx_esme e1)) s1 a = Panic).
  { intros s1 e1 H1 He1 Ht Hr. by eapply stop_receivers_spec. }
  destruct (decide (tx_esme e = [])) as [Et|Et].
  - destruct Hne as [?|Hr]; [done|]. rewrite Et at 1. cbn [length stop_transmitters mbind outcome_bind]. rewrite He. cbn [must mbind outcome_bind].
    by rewrite (Hrx s e).
  - pose proof (stop_transmitters_spec _ s a e H He eq_refl Et) as Ht. destruct (decide (rx_esme e = [])) as [Er|Er]; [by rewrite Ht|].
    destruct Ht as (s' & e' & -> & Hb & He' & Htx & Hrx'). cbn [mbind outcome_bind]. rewrite He'. cbn [must mbind outcome_bind].
    by rewrite (Hrx s' e') by congruence.
Qed.
End StopFacts.

(** ** What the start leaves in the variables *)

Section StartFacts.
Context {O : OctstrLib} {OL : OctstrLaws O} {L : GwListLib} {LL : GwListLaws L} {C : CfgStrings O L} {CL : CfgStringsLaws C}
  {PL : ParseLib O} {PLL : ParseLaws PL} {F : Files O} {SV : KeyedStore O L octstr} {SVL : KeyedStoreLaws SV}
  {SG : KeyedStore O L (CfgGroup (SV := SV))} {SM : KeyedStore O L (gwlist (CfgGroup (SV := SV)))}
  {SGL : KeyedStoreLaws SG} {SML : KeyedStoreLaws SM}.
Variable file : octstr.
Notation hooks := (cfg_create (SG := SG) (SM := SM) cfg_def file).2.

Definition series_names : list (list Z) := [cstr "gsm"; cstr "cdma"; cstr "int"; cstr "all"].

Definition series_of (v : option (list Z)) : list Z :=
  match v with Some s => if decide (s ∈ series_names) then s else cstr "gsm" | None => cstr "gsm" end.

Lemma choose_series_spec os : octets <$> choose_series os = Some (series_of (octets <$> os)).
Proof.
  unfold choose_series. destruct os as [s|]; cbn [fmap option_fmap option_map series_of]; [|by rewrite octets_create by apply cstr_range].
  rewrite !octstr_same_imm. unfold series_names. case_decide as Hin; rewrite !elem_of_cons, elem_of_nil in Hin.
  - destruct Hin as [E|[E|[E|[E|[]]]]]; rewrite !E; exact (f_equal Some E).
  - rewrite !bool_decide_eq_false_2 by tauto. cbn [orb negb fmap option_fmap option_map]. by rewrite octets_create by apply cstr_range.
Qed.

Lemma or_text_spec os l : Forall (fun o => 0 <= o < 256) l -> octets <$> or_text os l = Some (default l (octets <$> os)).
Proof. intros H. destruct os; simpl; [done|]. by rewrite octets_create. Qed.

(** After the start every variable but the list of denied prefixes has a
    value, and the default series is one of the four that the router knows. *)
Lemma init_connect_ip_spec (c : Cfg (SG := SG) (SM := SM)) k m v : cfg_shows c k -> single_of k !! cstr "core" = Some m ->
  exists v', init_connect_ip hooks v c = Done v' /\
    octets <$> allowed_ip v' = Some (default (cstr " ") (m !! cstr "connect-allow-ip")) /\
    octets <$> denied_ip v' = Some (default (cstr " ") (m !! cstr "connect-deny-ip")) /\
    octets <$> allowed_prefix v' = Some (default [] (m !! cstr "global-allow-prefix")) /\
    octets <$> denied_prefix v' = m !! cstr "global-deny-prefix" /\
    octets <$> gsm_series v' = Some (default [] (m !! cstr "gsm-series")) /\
    octets <$> cdma_series v' = Some (default [] (m !! cstr "cdma-series")) /\
    octets <$> int_series v' = Some (default [] (m !! cstr "int-series")) /\
    octets <$> default_series v' = Some (series_of (m !! cstr "default-series")).
Proof.
  intros Hc Hm. destruct (group_shown c k "core" m Hc Hm) as (grp & Eg & Hs). unfold init_connect_ip. rewrite Eg. cbn [mbind outcome_bind].
  repeat match goal with |- context [cfg_var hooks grp ?name] =>
    let E := fresh "E" in let Eo := fresh "Eo" in
    destruct (cfg_var_shown cfg_def file (cstr "core") _ _ name Hs eq_refl) as (? & E & Eo); rewrite E; clear E;
    rewrite <-Eo; clear Eo; cbn [mbind outcome_bind] end.
  eexists. split; [done|]. simpl. rewrite !or_text_spec by first [apply cstr_range|by constructor]. by rewrite choose_series_spec.
Qed.
End StartFacts.
