(* ===== verification/EsmePdu.v ===== *)
(** * Checks and routing of submitted messages (smpp-esme/esme.c)

    The checks of the parameters of a submitted message and the choice of the
    SMSCs it may go to, with the names of the specification and the library
    functions that the server uses on the PDUs of its clients. *)

From S2P Require Import Prelude Gwlib Counter World SmscConn SmppSession Esme.
Open Scope Z_scope.

(** Further names of the SMPP specification and of the PDU library. *)
Class EsmeNames : Type := {
  SMPP_ESME_RBINDFAIL : Z; SMPP_ESME_RALYNBD : Z; SMPP_ESME_RINVEXPIRY : Z;
  SMPP_ESME_RINVMSGID : Z; SMPP_ESME_RINVPRTFLG : Z; SMPP_ESME_RINVSRCADR : Z;
  SMPP_ESME_RINVDSTADR : Z; SMPP_ESME_RINVSRCTON : Z; SMPP_ESME_RINVSRCNPI : Z;
  SMPP_ESME_RINVDSTTON : Z; SMPP_ESME_RINVDSTNPI : Z; SMPP_ESME_RINVSUBREP : Z;
  SMPP_ESME_RCANCELFAIL : Z; SMPP_ESME_RREPLACEFAIL : Z; SMPP_ESME_RQUERYFAIL : Z;
  SMPP_ESME_RSUBMITFAIL : Z;
  GSM_ADDR_TON_INTERNATIONAL : Z; GSM_ADDR_TON_ALPHANUMERIC : Z;
  ESM_CLASS_SUBMIT_UDH_INDICATOR : Z;
  SMPP_MAX_SOURCE_ADDR_LEN : Z; SMPP_MAX_DEST_ADDR_LEN : Z; SMPP_SERVER_VERSION : Z;
  cancel_sm : Z; cancel_sm_resp : Z; replace_sm : Z; replace_sm_resp : Z;
  query_sm : Z; query_sm_resp : Z;
}.

(** No error has the code of success, and addresses are short. *)
Class EsmeNamesLaws (N : SmppNames) (E : EsmeNames) : Prop := {
  errors_not_ok :
    Forall (fun c => c <> SMPP_ESME_ROK)
      [SMPP_ESME_RBINDFAIL; SMPP_ESME_RALYNBD; SMPP_ESME_RINVEXPIRY; SMPP_ESME_RINVMSGID;
       SMPP_ESME_RINVPRTFLG; SMPP_ESME_RINVSRCADR; SMPP_ESME_RINVDSTADR; SMPP_ESME_RINVSRCTON;
       SMPP_ESME_RINVSRCNPI; SMPP_ESME_RINVDSTTON; SMPP_ESME_RINVDSTNPI; SMPP_ESME_RINVSUBREP;
       SMPP_ESME_RCANCELFAIL; SMPP_ESME_RREPLACEFAIL; SMPP_ESME_RQUERYFAIL; SMPP_ESME_RSUBMITFAIL];
  tons_distinct :
    NoDup [GSM_ADDR_TON_INTERNATIONAL; GSM_ADDR_TON_NATIONAL; GSM_ADDR_TON_ALPHANUMERIC];
  address_len_small : SMPP_MAX_SOURCE_ADDR_LEN <= 256 /\ SMPP_MAX_DEST_ADDR_LEN <= 256;
}.

(** The values of SMPP 3.4. *)
#[export] Instance smpp34_esme : EsmeNames := {|
  SMPP_ESME_RBINDFAIL := 0xD; SMPP_ESME_RALYNBD := 0x5; SMPP_ESME_RINVEXPIRY := 0x62;
  SMPP_ESME_RINVMSGID := 0xC; SMPP_ESME_RINVPRTFLG := 0x6; SMPP_ESME_RINVSRCADR := 0xA;
  SMPP_ESME_RINVDSTADR := 0xB; SMPP_ESME_RINVSRCTON := 0x48; SMPP_ESME_RINVSRCNPI := 0x49;
  SMPP_ESME_RINVDSTTON := 0x50; SMPP_ESME_RINVDSTNPI := 0x51; SMPP_ESME_RINVSUBREP := 0x54;
  SMPP_ESME_RCANCELFAIL := 0x11; SMPP_ESME_RREPLACEFAIL := 0x13; SMPP_ESME_RQUERYFAIL := 0x67;
  SMPP_ESME_RSUBMITFAIL := 0x45;
  GSM_ADDR_TON_INTERNATIONAL := 1; GSM_ADDR_TON_ALPHANUMERIC := 5;
  ESM_CLASS_SUBMIT_UDH_INDICATOR := 0x40;
  SMPP_MAX_SOURCE_ADDR_LEN := 21; SMPP_MAX_DEST_ADDR_LEN := 21; SMPP_SERVER_VERSION := 0x34;
  cancel_sm := 8; cancel_sm_resp := 0x80000008; replace_sm := 7; replace_sm_resp := 0x80000007;
  query_sm := 3; query_sm_resp := 0x80000003;
|}.

#[export] Instance smpp34_esme_laws : EsmeNamesLaws smpp34 smpp34_esme.
Proof.
  split; [repeat constructor; discriminate| |done]. apply (bool_decide_unpack _). vm_compute. done.
Qed.

(** What the server asks of other code: whether a sender matches the pattern
    of the account, the lines that a shell command prints, a field of the
    PDU, the packed answers to binds and the text for binary content. *)
Class ServerLib (O : OctstrLib) (R : PduRest) : Type := {
  pattern_list_matches_ip : option octstr -> octstr -> bool;
  shell : list Z -> list (list Z);
  replace_if_present_flag : pdu_rest -> Z;
  pack_bind_resp : SMPP_PDU -> option octstr -> Z -> option octstr;
  octstr_binary_to_hex : octstr -> octstr;
}.

Section EsmePdu.
Context {O : OctstrLib} {R : PduRest} {N : SmppNames} {E : EsmeNames} {P : PduLib O R}
  {PX : PrefixLib O} {K : Link O} {TL : TimeLib O} {SL : ServerLib O R}.

(** [octstr_get_cstr] as an argument of [%s]. *)
Fixpoint until_nul (l : list Z) : list Z :=
  match l with [] => [] | c :: l => if c =? 0 then [] else c :: until_nul l end.
Definition get_cstr (o : option octstr) : list Z :=
  match o with Some o => until_nul (octets o) | None => cstr "(null)" end.

(** ** The service for senders *)

(** The quotation mark. *)
Definition quote : list Z := [34].

Definition sender_command (account : option octstr) (source_addr : octstr) : list Z :=
  cstr "curl -s " ++ quote ++
  cstr "http://192.168.1.27:8081/fonadaSmpp/admin/sndridsts?userid=" ++ get_cstr account ++
  cstr "&senderid=" ++ get_cstr (Some source_addr) ++ quote.

(** [check_sender_api]: the last line that the command prints; the buffers
    are large enough for the names of accounts and senders. *)
Definition check_sender_api (account : option octstr) (source_addr : octstr) : bool :=
  bool_decide (default [] (last (shell (sender_command account source_addr))) = cstr "True").

(** ** Addresses *)

(** [octstr_check_range(addr, pos, 256, gw_isdigit)]. *)
Definition digits_from (addr : octstr) (pos : nat) : bool :=
  forallb is_digit (take 256 (drop pos (octets addr))).

Definition valid_npi (npi : Z) : bool :=
  existsb (Z.eqb npi) [0; 1; 3; 4; 6; 8; 9; 10; 14].

Definition convert_addr_from_pdu (addr : option octstr) (ton npi : Z) : Z :=
  match addr with
  | None => 1
  | Some addr =>
      if (6 <? ton) || (ton <? 0) then 1
      else if negb (valid_npi npi) then 2
      else if ton =? GSM_ADDR_TON_INTERNATIONAL then
        if octstr_len addr <? 7 then 3
        else if (octstr_get_char addr 0 =? 43) && negb (digits_from addr 1) then 3
        else if negb (octstr_get_char addr 0 =? 43) && negb (digits_from addr 0) then 3
        else 0
      else if ton =? GSM_ADDR_TON_NATIONAL then if octstr_len addr <? 10 then 3 else 0
      else if ton =? GSM_ADDR_TON_ALPHANUMERIC then if 11 <? octstr_len addr then 3 else 0
      else 0
  end.

(** The number without the prefix that its length tells. *)
Definition strip_prefix (destination_addr : octstr) : octstr :=
  let len := octstr_len destination_addr in
  if len =? 10 then octstr_duplicate destination_addr
  else if len =? 11 then octstr_from_position destination_addr 1
  else if len =? 12 then octstr_from_position destination_addr 2
  else if len =? 13 then octstr_from_position destination_addr 3
  else octstr_duplicate destination_addr.

Definition set_allowed_prefix (e : ESME) (o : option octstr) : ESME :=
  MkEsme (e_system_id e) (e_password e) (e_system_type e) (e_address_range e)
    (e_interface_version e) (e_addr_ton e) (e_addr_npi e) (e_enquire_link_interval e)
    o (e_denied_prefix e) (tx_esme e) (rx_esme e) (e_max_submits_unconnect e) (e_max_submits e)
    (e_max_tps e) (e_msg_count e) (e_dnd_check e) (e_esm_time e) (e_valid_time_from e)
    (e_valid_time_to e).

Definition too_long (addr : option octstr) (max : Z) : bool :=
  match addr with Some a => max <? octstr_len a | None => true end.

(** The checks of the two addresses: the error, if there is one. *)
Definition address_error (b : SubmitSm) : option Z :=
  if too_long (source_addr b) SMPP_MAX_SOURCE_ADDR_LEN then Some SMPP_ESME_RINVSRCADR
  else if too_long (destination_addr b) SMPP_MAX_DEST_ADDR_LEN then Some SMPP_ESME_RINVDSTADR
  else
    let ret := convert_addr_from_pdu (source_addr b) (source_addr_ton b) (source_addr_npi b) in
    if ret =? 1 then Some SMPP_ESME_RINVSRCTON
    else if ret =? 2 then Some SMPP_ESME_RINVSRCNPI
    else if ret =? 3 then Some SMPP_ESME_RINVSRCADR
    else
      let ret := convert_addr_from_pdu (destination_addr b) (dest_addr_ton b) (dest_addr_npi b) in
      if ret =? 1 then Some SMPP_ESME_RINVDSTTON
      else if ret =? 2 then Some SMPP_ESME_RINVDSTNPI
      else if ret =? 3 then Some SMPP_ESME_RINVDSTADR
      else None.

(** [verify_pdu_para]: the reason, the account - a sender that the service
    accepts replaces its pattern - and the two addresses to use. *)
Definition verify_pdu_para (e : ESME) (b : SubmitSm)
    : outcome (Z * ESME * option octstr * option octstr) :=
  match address_error b with
  | Some reason => Done (reason, e, None, None)
  | None =>
      src ← must (source_addr b);
      dst ← must (destination_addr b);
      let dest_addr := strip_prefix dst in
      let source := octstr_duplicate src in
      let known := pattern_list_matches_ip (e_allowed_prefix e) source in
      if negb known && negb (check_sender_api (e_system_id e) source)
      then Done (0x401, e, Some dest_addr, Some source)
      else
        let e := if known then e else set_allowed_prefix e (Some (octstr_duplicate source)) in
        if octstr_len dest_addr <? 10 then Done (0x401, e, Some dest_addr, Some source)
        else if (priority_flag b <? 0) || (3 <? priority_flag b)
        then Done (SMPP_ESME_RINVPRTFLG, e, Some dest_addr, Some source)
        else if 0 <? replace_if_present_flag (submit_rest b)
        then Done (SMPP_ESME_RINVSUBREP, e, Some dest_addr, Some source)
        else if negb (Z.land (esm_class b) ESM_CLASS_SUBMIT_UDH_INDICATOR =? 0) then
          sm ← must (short_message b);
          if octstr_len sm <? octstr_get_char sm 0 + 1
          then Done (0x403, e, Some dest_addr, Some source)
          else Done (SMPP_ESME_ROK, e, Some dest_addr, Some source)
        else Done (SMPP_ESME_ROK, e, Some dest_addr, Some source)
  end.

(** ** Routing *)

(** The series of numbers, as configured. *)
Record Series : Type := MkSeries {
  gsm_series : option octstr; cdma_series : option octstr; int_series : option octstr;
  default_series : option octstr
}.

(** The type of a number: only the first configured series is tried. *)
Definition number_type (n : Series) (dest_addr : octstr) : option octstr :=
  let try (series : octstr) (type : list Z) :=
    if does_prefix_match series dest_addr =? 1 then Some (octstr_create type)
    else octstr_dup (default_series n) in
  match gsm_series n, cdma_series n, int_series n with
  | Some g, _, _ => try g (cstr "gsm")
  | None, Some c, _ => try c (cstr "cdma")
  | None, None, Some i => try i (cstr "int")
  | None, None, None => octstr_dup (default_series n)
  end.

(** Whether an SMSC takes numbers of a type and can transmit. *)
Definition supports (nt : option octstr) (c : SMSC_Conn_List) : outcome bool :=
  nt ← must nt;
  Done ((octstr_same nt (sc_smsc_type c) || octstr_same (sc_smsc_type c) (octstr_create (cstr "all")))
        && transmits c).

(** The position of the first SMSC with an id that supports the type. *)
Fixpoint find_smsc (nt : option octstr) (smsc_id : octstr) (i : Z) (l : list SMSC_Conn_List)
    : outcome (option Z) :=
  match l with
  | [] => Done None
  | c :: l =>
      ok ← (if octstr_same smsc_id (sc_smsc_id c) then supports nt c else Done false);
      if (ok : bool) then Done (Some i) else find_smsc nt smsc_id (i + 1) l
  end.

(** [array[index++] = i] for the arrays of 256 characters, which are signed. *)
Definition put_index (array : list Z) (i : Z) : outcome (list Z) :=
  if (length array <? 256)%nat then Done (array ++ [wrap_schar i]) else Panic.

Fixpoint preferred_loop (nt : option octstr) (l : list SMSC_Conn_List) (ids : list octstr)
    (preferred : list Z) : outcome (list Z) :=
  match ids with
  | [] => Done preferred
  | smsc_id :: ids =>
      found ← find_smsc nt smsc_id 0 l;
      preferred ← match found with Some i => put_index preferred i | None => Done preferred end;
      preferred_loop nt l ids preferred
  end.

(** Whether position [i] is in the preferred array; the loop looks one entry
    too far. *)
Definition is_preferred (preferred : list Z) (i : Z) : outcome bool :=
  if existsb (Z.eqb i) preferred then Done true
  else if (length preferred =? 256)%nat then Panic else Done false.

Fixpoint allowed_loop (nt : option octstr) (preferred : list Z) (i : Z) (l : list SMSC_Conn_List)
    (allowed : list Z) : outcome (list Z) :=
  match l with
  | [] => Done allowed
  | c :: l =>
      skip ← is_preferred preferred i;
      if (skip : bool) then allowed_loop nt preferred (i + 1) l allowed else
      ok ← supports nt c;
      allowed ← (if (ok : bool) then put_index allowed i else Done allowed);
      allowed_loop nt preferred (i + 1) l allowed
  end.

(** The characters of an index array, appended one by one to a string. *)
Definition index_string (array : list Z) : octstr :=
  foldl (fun o i => octstr_append_data o [i mod 256]) (octstr_create []) array.

(** [rout_pdu]: the preferred SMSCs, the dedicated one first, and the others
    that can carry the message. *)
Definition rout_pdu (s : Server) (n : Series) (dest_addr username : option octstr)
    : outcome (Z * option octstr * option octstr) :=
  match dest_addr, username with
  | Some dest, Some _ =>
      t ← smpp_client_find_username (translations s) username;
      match t with
      | None => Done (-1, None, None)
      | Some t =>
          let nt := number_type n dest in
          let ids := match cl_dedicated_smsc t with Some d => [d] | None => [] end ++
                     default [] (cl_preferred_smsc t) in
          preferred ← preferred_loop nt (smscs s) ids [];
          allowed ← allowed_loop nt preferred 0 (smscs s) [];
          Done (if (0 <? length preferred)%nat || (0 <? length allowed)%nat then 0 else -1,
                Some (index_string preferred), Some (index_string allowed))
      end
  | _, _ => Done (-1, None, None)
  end.

End EsmePdu.
