(* ===== verification/EsmePduFacts.v ===== *)
(** * Theorems about the checks and the routing of submitted messages

    Which SMSCs [rout_pdu] gives a message, and what a message that passes
    [verify_pdu_para] is like. *)

From S2P Require Import Prelude Gwlib Counter World SmscConn.
From S2P Require Import SmppSession Esme EsmeFacts EsmePdu.
Open Scope Z_scope.

Section Facts.
Context {O : OctstrLib} {OL : OctstrLaws O} {R : PduRest} {N : SmppNames} {E : EsmeNames}
  {EL : EsmeNamesLaws N E} {P : PduLib O R}
  {PX : PrefixLib O} {K : Link O} {TL : TimeLib O} {SL : ServerLib O R}.
Implicit Types (c : SMSC_Conn_List) (l : list SMSC_Conn_List) (nt : octstr).

(** ** Routing *)

(** An SMSC takes the numbers of a type, or of all types, and transmits. *)
Definition carries nt c : bool :=
  (octstr_same nt (sc_smsc_type c) || octstr_same (sc_smsc_type c) (octstr_create (cstr "all")))
  && transmits c.

Lemma supports_carries nt c : supports (Some nt) c = Done (carries nt c).
Proof. done. Qed.

(** The positions, counted from [i], of the SMSCs that satisfy a test. *)
Fixpoint positions (p : Z -> SMSC_Conn_List -> bool) (i : Z) l : list Z :=
  match l with
  | [] => []
  | c :: l => (if p i c then [i] else []) ++ positions p (i + 1) l
  end.

(** The first position with an id that carries the type. *)
Definition position_of nt l (smsc_id : octstr) : option Z :=
  head (positions (fun _ c => octstr_same smsc_id (sc_smsc_id c) && carries nt c) 0 l).

Lemma positions_range p l : forall i, Forall (fun x => i <= x < i + Z.of_nat (length l)) (positions p i l).
Proof.
  induction l as [|c l IH]; intros i; simpl; [constructor|]. apply Forall_app. split.
  - destruct (p i c); repeat constructor; lia.
  - eapply Forall_impl; [apply IH|]. simpl. lia.
Qed.

Lemma positions_length p l : forall i, (length (positions p i l) <= length l)%nat.
Proof. induction l as [|c l IH]; intros i; simpl; [done|]. specialize (IH (i + 1)). destruct (p i c); simpl; lia. Qed.

Lemma positions_elem p l x : forall i,
  x ∈ positions p i l <-> exists k c, l !! k = Some c /\ x = i + Z.of_nat k /\ p x c = true.
Proof.
  induction l as [|c l IH]; intros i; simpl.
  { split; [set_solver|]. intros (k & c & Hk & _). done. }
  rewrite elem_of_app, IH. split.
  - intros [H|(k & c' & Hk & -> & Hp)].
    + destruct (p i c) eqn:Ep; [|set_solver]. apply list_elem_of_singleton in H as ->.
      exists 0%nat, c. split_and!; [done|lia|done].
    + exists (S k), c'. split_and!; [done|lia|done].
  - intros (k & c' & Hk & -> & Hp). destruct k as [|k]; simpl in Hk.
    + left. injection Hk as <-. rewrite Z.add_0_r in Hp |- *. rewrite Hp. set_solver.
    + right. exists k, c'. split_and!; [done|lia|done].
Qed.

Lemma find_smsc_spec nt smsc_id l : forall i,
  find_smsc (Some nt) smsc_id i l
  = Done (head (positions (fun _ c => octstr_same smsc_id (sc_smsc_id c) && carries nt c) i l)).
Proof.
  induction l as [|c l IH]; intros i; simpl; [done|]. rewrite IH. unfold carries.
  destruct (octstr_same smsc_id (sc_smsc_id c)); simpl; [|done]. by destruct (_ && _).
Qed.

Lemma wrap_schar_small i : 0 <= i < 128 -> wrap_schar i = i.
Proof. unfold wrap_schar. intros H. rewrite Z.mod_small; lia. Qed.

Lemma put_index_small array i :
  (length array < 256)%nat -> 0 <= i < 128 -> put_index array i = Done (array ++ [i]).
Proof.
  intros Ha Hi. unfold put_index. rewrite wrap_schar_small by done. by apply Nat.ltb_lt in Ha as ->.
Qed.

Lemma position_of_range nt l smsc_id i :
  (length l <= 128)%nat -> position_of nt l smsc_id = Some i -> 0 <= i < 128.
Proof.
  intros Hl Hp. unfold position_of in Hp.
  set (q := fun (_ : Z) c => _) in Hp. pose proof (positions_range q l 0) as Hr.
  destruct (positions q 0 l); [done|]. injection Hp as ->. apply Forall_cons in Hr as [? _]. lia.
Qed.

Lemma preferred_loop_spec nt l ids : (length l <= 128)%nat -> forall acc,
  (length acc + length ids <= 256)%nat ->
  preferred_loop (Some nt) l ids acc = Done (acc ++ omap (position_of nt l) ids).
Proof.
  intros Hl. induction ids as [|id ids IH]; intros acc Ha; simpl in *; [by rewrite app_nil_r|].
  rewrite find_smsc_spec. simpl. fold (position_of nt l id).
  destruct (position_of nt l id) as [i|] eqn:Ei.
  - rewrite put_index_small; [|lia|by eapply position_of_range]. simpl.
    rewrite IH by (rewrite length_app; simpl; lia). by rewrite <-app_assoc.
  - simpl. rewrite IH by lia. done.
Qed.

Lemma length_omap {A B} (f : A -> option B) (l : list A) : (length (omap f l) <= length l)%nat.
Proof. induction l as [|x l IH]; csimpl; [lia|]. destruct (f x); simpl; lia. Qed.

Lemma allowed_loop_spec nt pre l : (length pre < 256)%nat -> forall i acc,
  0 <= i -> i + Z.of_nat (length l) <= 128 -> Z.of_nat (length acc) <= i ->
  allowed_loop (Some nt) pre i l acc
  = Done (acc ++ positions (fun i c => negb (existsb (Z.eqb i) pre) && carries nt c) i l).
Proof.
  intros Hp. induction l as [|c l IH]; intros i acc Hi Hl Ha; cbn [allowed_loop positions];
    [by rewrite app_nil_r|].
  rewrite length_cons in Hl. unfold is_preferred. destruct (existsb (Z.eqb i) pre).
  - cbn. by rewrite IH by lia.
  - assert (Hne : (length pre =? 256)%nat = false) by (apply Nat.eqb_neq; lia). rewrite Hne.
    rewrite supports_carries. cbn [mbind outcome_bind negb andb]. destruct (carries nt c).
    + rewrite put_index_small by lia. cbn [mbind outcome_bind].
      rewrite IH by (rewrite ?length_app; simpl; lia). by rewrite <-app_assoc.
    + cbn [mbind outcome_bind]. by rewrite IH by lia.
Qed.

(** What the client process reads from an index string. *)
Lemma index_string_octets array :
  Forall (fun i => 0 <= i < 128) array -> octets (index_string array) = array.
Proof.
  unfold index_string. intros Ha.
  assert (H : forall o, octets (foldl (fun o i => octstr_append_data o [i mod 256]) o array)
                        = octets o ++ array).
  { induction Ha as [|i array Hi Ha IH]; intros o; simpl; [by rewrite app_nil_r|].
    rewrite IH, octstr_append_data_spec, <-app_assoc; [|repeat constructor; apply Z.mod_pos_bound; lia].
    by rewrite Z.mod_small by lia. }
  rewrite H, octets_create; [done|constructor].
Qed.

(** The first list, by position, and the second. *)
Definition preferred_positions nt l (ids : list octstr) : list Z := omap (position_of nt l) ids.
Definition other_positions nt l (pre : list Z) : list Z :=
  positions (fun i c => negb (existsb (Z.eqb i) pre) && carries nt c) 0 l.

Lemma preferred_range nt l ids :
  (length l <= 128)%nat -> Forall (fun i => 0 <= i < 128) (preferred_positions nt l ids).
Proof.
  intros Hl. apply Forall_forall. intros i (id & _ & Hi)%list_elem_of_omap. by eapply position_of_range.
Qed.

Lemma preferred_carries nt l ids i :
  i ∈ preferred_positions nt l ids -> exists c, c ∈ l /\ carries nt c = true.
Proof.
  intros (id & _ & Hi)%list_elem_of_omap. unfold position_of in Hi. apply head_Some_elem_of in Hi.
  apply positions_elem in Hi as (k & c & Hk & _ & Hc). apply andb_true_iff in Hc as [_ Hc].
  exists c. split; [by eapply list_elem_of_lookup_2|done].
Qed.

Lemma other_carries nt l pre i :
  i ∈ other_positions nt l pre -> exists c, c ∈ l /\ carries nt c = true.
Proof.
  intros (k & c & Hk & _ & Hq)%positions_elem. apply andb_true_iff in Hq as [_ Hc].
  exists c. split; [by eapply list_elem_of_lookup_2|done].
Qed.

(** Every SMSC that carries the message is in one of the lists. *)
Lemma positions_split nt l pre k c :
  l !! k = Some c -> carries nt c = true ->
  (Z.of_nat k ∈ pre /\ Z.of_nat k ∉ other_positions nt l pre) \/
  (Z.of_nat k ∉ pre /\ Z.of_nat k ∈ other_positions nt l pre).
Proof.
  intros Hk Hc. unfold other_positions. rewrite positions_elem.
  assert (Hex : existsb (Z.eqb (Z.of_nat k)) pre = true <-> Z.of_nat k ∈ pre).
  { rewrite List.existsb_exists. setoid_rewrite Z.eqb_eq. setoid_rewrite <-list_elem_of_In. naive_solver. }
  destruct (existsb (Z.eqb (Z.of_nat k)) pre).
  - left. split; [by apply Hex|]. intros (k1 & c1 & Hk1 & E1 & Hq). discriminate Hq.
  - right. split; [by rewrite <-Hex|]. exists k, c. split_and!; [done|lia|done].
Qed.

(** The SMSCs that the configuration of an account names. *)
Definition smsc_ids (t : Smsc_Client) : list octstr :=
  match cl_dedicated_smsc t with Some d => [d] | None => [] end ++ default [] (cl_preferred_smsc t).

Lemma rout_pdu_lists (s : Server) (n : Series) (dest username nt : octstr) (t : Smsc_Client) :
  Forall named (translations s) -> account s username = Some t ->
  number_type n dest = Some nt -> (length (smscs s) <= 128)%nat -> (length (smsc_ids t) < 256)%nat ->
  exists ret pre all,
    rout_pdu s n (Some dest) (Some username) = Done (ret, Some pre, Some all) /\
    octets pre = preferred_positions nt (smscs s) (smsc_ids t) /\
    octets all = other_positions nt (smscs s) (octets pre) /\
    ((ret = 0 /\ exists c, c ∈ smscs s /\ carries nt c = true) \/
     (ret = -1 /\ forall c, c ∈ smscs s -> carries nt c = false)).
Proof.
  intros Hn Ht Hnt Hlen Hids. set (p := preferred_positions nt (smscs s) (smsc_ids t)).
  pose proof (preferred_range nt (smscs s) (smsc_ids t) Hlen) as Hpre. fold p in Hpre.
  set (q := other_positions nt (smscs s) p).
  assert (Hall : Forall (fun i => 0 <= i < 128) q).
  { eapply Forall_impl; [apply positions_range|]. simpl. lia. }
  assert (Hpl : (length p < 256)%nat).
  { eapply Nat.le_lt_trans; [apply length_omap|done]. }
  exists (if (0 <? length p)%nat || (0 <? length q)%nat then 0 else -1), (index_string p), (index_string q).
  rewrite !index_string_octets by done. split_and!; [|done|done|].
  - unfold rout_pdu, smpp_client_find_username. simpl. rewrite find_username_spec by done.
    simpl. unfold account in Ht. rewrite Ht, Hnt. fold (smsc_ids t).
    rewrite preferred_loop_spec by (simpl; lia). simpl. fold (preferred_positions nt (smscs s) (smsc_ids t)).
    fold p. rewrite allowed_loop_spec by (simpl; lia). done.
  - destruct p as [|i p'] eqn:Ep; simpl.
    2:{ left. split; [done|]. apply (preferred_carries nt (smscs s) (smsc_ids t) i). fold p. rewrite Ep. set_solver. }
    destruct q as [|i l'] eqn:El; simpl.
    + right. split; [done|]. intros c [k Hk]%list_elem_of_lookup. destruct (carries nt c) eqn:Ec; [|done].
      destruct (positions_split nt (smscs s) [] k c Hk Ec) as [[]|[_ Hin]]; [set_solver|].
      subst q. rewrite El in Hin. set_solver.
    + left. split; [done|]. apply (other_carries nt (smscs s) [] i). subst q. rewrite El. set_solver.
Qed.

(** C14 Routing a submitted message: every SMSC that takes numbers of its
    type and can transmit gets into exactly one of the two lists.  The first
    has, for the dedicated SMSC and the preferred ones of the account in
    their order, the first position with this id; the second has all other
    positions in order.  The routing fails exactly when no SMSC can carry
    the message. *)
Theorem rout_pdu_spec (s : Server) (n : Series) (dest username nt : octstr) (t : Smsc_Client)
    (Hn : Forall named (translations s)) (Ht : account s username = Some t)
    (Hnt : number_type n dest = Some nt) (Hlen : (length (smscs s) <= 128)%nat)
    (Hids : (length (smsc_ids t) < 256)%nat) :
  exists ret pre all,
    rout_pdu s n (Some dest) (Some username) = Done (ret, Some pre, Some all) /\
    octets pre = omap (position_of nt (smscs s)) (smsc_ids t) /\
    octets all = positions (fun i c => negb (existsb (Z.eqb i) (octets pre)) && carries nt c) 0
                   (smscs s) /\
    (forall k c, smscs s !! k = Some c -> carries nt c = true ->
       (Z.of_nat k ∈ octets pre /\ Z.of_nat k ∉ octets all) \/
       (Z.of_nat k ∉ octets pre /\ Z.of_nat k ∈ octets all)) /\
    ((ret = 0 /\ exists c, c ∈ smscs s /\ carries nt c = true) \/
     (ret = -1 /\ forall c, c ∈ smscs s -> carries nt c = false)).
Proof.
  destruct (rout_pdu_lists s n dest username nt t) as (ret & pre & all & Hr & Hp & Ha & Ho); try done.
  exists ret, pre, all. split_and!; try done. rewrite Ha. apply positions_split.
Qed.

(** ** The checks of the parameters *)

Context {NL : SmppNamesLaws N}.

(** An address that its type of number allows. *)
Definition address_ok (max : Z) (addr : octstr) (ton npi : Z) : Prop :=
  octstr_len addr <= max /\ 0 <= ton <= 6 /\ npi ∈ ([0; 1; 3; 4; 6; 8; 9; 10; 14] : list Z) /\
  (ton = GSM_ADDR_TON_INTERNATIONAL -> 7 <= octstr_len addr /\
     Forall (fun x => 48 <= x <= 57)
       (if decide (head (octets addr) = Some 43) then tail (octets addr) else octets addr)) /\
  (ton = GSM_ADDR_TON_NATIONAL -> 10 <= octstr_len addr) /\
  (ton = GSM_ADDR_TON_ALPHANUMERIC -> octstr_len addr <= 11).

Lemma digits_from_spec addr pos :
  octstr_len addr <= 256 ->
  digits_from addr pos = true <-> Forall (fun x => 48 <= x <= 57) (drop pos (octets addr)).
Proof.
  intros Hl. rewrite octstr_len_spec in Hl. unfold digits_from. rewrite take_ge by (rewrite length_drop; lia).
  rewrite List.forallb_forall, Forall_forall. setoid_rewrite <-list_elem_of_In. unfold is_digit.
  split; intros H x Hx; specialize (H x Hx); zlia.
Qed.

Lemma get_char_head addr : octstr_get_char addr 0 = default (-1) (head (octets addr)).
Proof.
  change 0 with (Z.of_nat 0). rewrite octstr_get_char_spec. by destruct (octets addr).
Qed.

Lemma head_plus addr : (octstr_get_char addr 0 =? 43) = bool_decide (head (octets addr) = Some 43).
Proof.
  rewrite get_char_head. apply eq_true_iff_eq. rewrite Z.eqb_eq, bool_decide_eq_true.
  destruct (octets addr); simpl; [split; [lia|done]|]. split; [by intros ->|by intros [= ->]].
Qed.

Lemma valid_npi_spec npi : valid_npi npi = true <-> npi ∈ ([0; 1; 3; 4; 6; 8; 9; 10; 14] : list Z).
Proof.
  unfold valid_npi. rewrite List.existsb_exists. setoid_rewrite <-list_elem_of_In.
  setoid_rewrite Z.eqb_eq. naive_solver.
Qed.

Lemma convert_international addr :
  octstr_len addr <= 256 ->
  (if octstr_len addr <? 7 then 3
   else if (octstr_get_char addr 0 =? 43) && negb (digits_from addr 1) then 3
   else if negb (octstr_get_char addr 0 =? 43) && negb (digits_from addr 0) then 3 else 0) = 0 <->
  7 <= octstr_len addr /\
  Forall (fun x => 48 <= x <= 57)
    (if decide (head (octets addr) = Some 43) then tail (octets addr) else octets addr).
Proof.
  intros Hl. rewrite head_plus. destruct (Z.ltb_spec (octstr_len addr) 7); [lia|].
  pose proof (digits_from_spec addr 0 Hl) as H0. pose proof (digits_from_spec addr 1 Hl) as H1.
  rewrite drop_0 in H0. replace (drop 1 (octets addr)) with (tail (octets addr)) in H1
    by (by destruct (octets addr)).
  case_bool_decide as Hd; [rewrite decide_True by done|rewrite decide_False by done]; simpl.
  - rewrite <-H1. destruct (digits_from addr 1); simpl; intuition (lia || congruence).
  - rewrite <-H0. destruct (digits_from addr 0); simpl; intuition (lia || congruence).
Qed.

Lemma address_convert max addr ton npi :
  max <= 256 ->
  too_long (Some addr) max = false /\ convert_addr_from_pdu (Some addr) ton npi = 0 <->
  address_ok max addr ton npi.
Proof.
  intros Hmax. unfold too_long, convert_addr_from_pdu, address_ok.
  pose proof tons_distinct as Hd. rewrite !NoDup_cons, !not_elem_of_cons in Hd.
  destruct Hd as ((D1 & D2 & _) & (D3 & _) & _).
  destruct (Z.ltb_spec max (octstr_len addr)) as [Hlt|Hle]; [split; [naive_solver|lia]|].
  destruct (Z.ltb_spec 6 ton); simpl; [split; [naive_solver|lia]|].
  destruct (Z.ltb_spec ton 0); simpl; [split; [naive_solver|lia]|].
  rewrite <-valid_npi_spec. destruct (valid_npi npi); simpl; [|split; [naive_solver|intuition congruence]].
  destruct (Z.eqb_spec ton GSM_ADDR_TON_INTERNATIONAL) as [->|Hi].
  { rewrite convert_international by lia. intuition congruence. }
  destruct (Z.eqb_spec ton GSM_ADDR_TON_NATIONAL) as [->|Hn].
  { destruct (Z.ltb_spec (octstr_len addr) 10); intuition (lia || congruence). }
  destruct (Z.eqb_spec ton GSM_ADDR_TON_ALPHANUMERIC) as [->|Ha].
  { destruct (Z.ltb_spec 11 (octstr_len addr)); intuition (lia || congruence). }
  intuition (lia || congruence).
Qed.

Lemma convert_range addr ton npi : 0 <= convert_addr_from_pdu (Some addr) ton npi <= 3.
Proof. unfold convert_addr_from_pdu. repeat case_match; lia. Qed.

(** Every error of [verify_pdu_para] differs from success. *)
Lemma errors_differ :
  (SMPP_ESME_RINVSRCADR <> SMPP_ESME_ROK /\ SMPP_ESME_RINVDSTADR <> SMPP_ESME_ROK /\
   SMPP_ESME_RINVSRCTON <> SMPP_ESME_ROK /\ SMPP_ESME_RINVSRCNPI <> SMPP_ESME_ROK /\
   SMPP_ESME_RINVDSTTON <> SMPP_ESME_ROK /\ SMPP_ESME_RINVDSTNPI <> SMPP_ESME_ROK) /\
  SMPP_ESME_RINVPRTFLG <> SMPP_ESME_ROK /\ SMPP_ESME_RINVSUBREP <> SMPP_ESME_ROK /\
  0x401 <> SMPP_ESME_ROK /\ 0x403 <> SMPP_ESME_ROK.
Proof.
  pose proof errors_not_ok as H. rewrite !Forall_cons in H. rewrite rok_zero in *. split_and!; tauto || done.
Qed.

(** Both addresses of a message. *)
Definition addresses_ok (b : SubmitSm) (src dst : octstr) : Prop :=
  address_ok SMPP_MAX_SOURCE_ADDR_LEN src (source_addr_ton b) (source_addr_npi b) /\
  address_ok SMPP_MAX_DEST_ADDR_LEN dst (dest_addr_ton b) (dest_addr_npi b).

Lemma address_error_spec b src dst :
  source_addr b = Some src -> destination_addr b = Some dst ->
  match address_error b with
  | Some reason => reason <> SMPP_ESME_ROK /\ ~ addresses_ok b src dst
  | None => addresses_ok b src dst
  end.
Proof.
  intros Hs Hd. destruct address_len_small as [Ms Md].
  assert (Hok : addresses_ok b src dst <->
    (too_long (Some src) SMPP_MAX_SOURCE_ADDR_LEN = false /\
     convert_addr_from_pdu (Some src) (source_addr_ton b) (source_addr_npi b) = 0) /\
    (too_long (Some dst) SMPP_MAX_DEST_ADDR_LEN = false /\
     convert_addr_from_pdu (Some dst) (dest_addr_ton b) (dest_addr_npi b) = 0)).
  { unfold addresses_ok. by rewrite <-!address_convert. }
  unfold address_error. rewrite Hs, Hd. clear Hs Hd.
  pose proof (convert_range src (source_addr_ton b) (source_addr_npi b)) as Rs.
  pose proof (convert_range dst (dest_addr_ton b) (dest_addr_npi b)) as Rd.
  destruct errors_differ as [(E1 & E2 & E3 & E4 & E5 & E6) _].
  destruct (too_long (Some src) _) eqn:T1; [split; [done|rewrite Hok; naive_solver]|].
  destruct (too_long (Some dst) _) eqn:T2; [split; [done|rewrite Hok; naive_solver]|].
  generalize dependent (convert_addr_from_pdu (Some src) (source_addr_ton b) (source_addr_npi b)).
  generalize dependent (convert_addr_from_pdu (Some dst) (dest_addr_ton b) (dest_addr_npi b)).
  intros d Rd z Hok Rs.
  destruct (Z.eqb_spec z 1); [split; [done|rewrite Hok; lia]|].
  destruct (Z.eqb_spec z 2); [split; [done|rewrite Hok; lia]|].
  destruct (Z.eqb_spec z 3); [split; [done|rewrite Hok; lia]|].
  destruct (Z.eqb_spec d 1); [split; [done|rewrite Hok; lia]|].
  destruct (Z.eqb_spec d 2); [split; [done|rewrite Hok; lia]|].
  destruct (Z.eqb_spec d 3); [split; [done|rewrite Hok; lia]|].
  apply Hok. split_and!; (done || lia).
Qed.

(** Binary content starts with a header that fits into it. *)
Definition udh_ok (b : SubmitSm) : Prop :=
  Z.land (esm_class b) ESM_CLASS_SUBMIT_UDH_INDICATOR <> 0 ->
  exists sm, short_message b = Some sm /\ octstr_get_char sm 0 + 1 <= octstr_len sm.

(** The pattern of the account allows a sender. *)
Definition known_sender (e : ESME) (src : octstr) : bool :=
  pattern_list_matches_ip (e_allowed_prefix e) (octstr_duplicate src).

(** A message that is accepted. *)
Definition submit_ok (e : ESME) (b : SubmitSm) (src dst : octstr) : Prop :=
  addresses_ok b src dst /\ (10 <= length (octets dst))%nat /\
  (known_sender e src = true \/ check_sender_api (e_system_id e) (octstr_duplicate src) = true) /\
  0 <= priority_flag b <= 3 /\ replace_if_present_flag (submit_rest b) <= 0 /\ udh_ok b.

(** The number without its country code: the last ten digits. *)
Definition national_part (number : list Z) : list Z :=
  if decide (length number <= 13)%nat then drop (length number - 10) number else number.

Lemma strip_prefix_spec dst :
  octets (strip_prefix dst) = national_part (octets dst).
Proof.
  unfold strip_prefix, national_part. rewrite octstr_len_spec.
  pose proof (octstr_from_position_spec dst 1) as H1. change (Z.of_nat 1) with 1 in H1.
  pose proof (octstr_from_position_spec dst 2) as H2. change (Z.of_nat 2) with 2 in H2.
  pose proof (octstr_from_position_spec dst 3) as H3. change (Z.of_nat 3) with 3 in H3.
  assert (Hd : forall k : nat, (length (octets dst) <= 13)%nat ->
    (length (octets dst) - 10)%nat = k -> drop k (octets dst) = national_part (octets dst)).
  { intros k Hk <-. unfold national_part. by rewrite decide_True. }
  unfold national_part in Hd.
  repeat match goal with |- context [?x =? ?y] => destruct (Z.eqb_spec x y) end.
  - rewrite octstr_duplicate_spec. apply (Hd 0%nat); lia.
  - rewrite H1. apply Hd; lia.
  - rewrite H2. apply Hd; lia.
  - rewrite H3. apply Hd; lia.
  - rewrite octstr_duplicate_spec. case_decide; [apply (Hd 0%nat); lia|done].
Qed.

Lemma udh_check b :
  (Z.land (esm_class b) ESM_CLASS_SUBMIT_UDH_INDICATOR <> 0 -> is_Some (short_message b)) ->
  (Z.land (esm_class b) ESM_CLASS_SUBMIT_UDH_INDICATOR = 0 /\ udh_ok b) \/
  exists sm, Z.land (esm_class b) ESM_CLASS_SUBMIT_UDH_INDICATOR <> 0 /\ short_message b = Some sm /\
    (udh_ok b <-> octstr_get_char sm 0 + 1 <= octstr_len sm).
Proof.
  intros H. unfold udh_ok. destruct (decide (Z.land (esm_class b) ESM_CLASS_SUBMIT_UDH_INDICATOR = 0)) as [E1|E1].
  - left. by split.
  - right. destruct (H E1) as [sm Hsm]. exists sm. split; [done|]. split; [done|]. rewrite Hsm. naive_solver.
Qed.

Lemma verify_pdu_para_cases (e : ESME) (b : SubmitSm) (src dst : octstr) :
  source_addr b = Some src -> destination_addr b = Some dst ->
  (Z.land (esm_class b) ESM_CLASS_SUBMIT_UDH_INDICATOR <> 0 -> is_Some (short_message b)) ->
  exists reason e' d o, verify_pdu_para e b = Done (reason, e', d, o) /\
    (reason = SMPP_ESME_ROK <-> submit_ok e b src dst) /\
    (reason = SMPP_ESME_ROK -> d = Some (strip_prefix dst) /\ o = Some (octstr_duplicate src)) /\
    e' = (if bool_decide (address_error b = None) && negb (known_sender e src) &&
             check_sender_api (e_system_id e) (octstr_duplicate src)
          then set_allowed_prefix e (Some (octstr_duplicate (octstr_duplicate src))) else e).
Proof.
  intros Hs Hd Hc.
  destruct errors_differ as (_ & E1 & E2 & E3 & E4).
  pose proof (address_error_spec b src dst Hs Hd) as Ha. unfold verify_pdu_para, submit_ok.
  destruct (address_error b) as [reason|].
  { destruct Ha as [Hr Ha]. do 4 eexists. split; [done|]. split; [tauto|]. by split. }
  rewrite Hs, Hd, bool_decide_eq_true_2 by done. simpl. fold (known_sender e src).
  assert (Hn : octstr_len (strip_prefix dst) < 10 <-> ~ (10 <= length (octets dst))%nat).
  { rewrite octstr_len_spec, strip_prefix_spec. unfold national_part.
    case_decide; rewrite ?length_drop; lia. }
  set (api := check_sender_api _ _). destruct (known_sender e src), api; simpl;
    try (do 4 eexists; split; [done|]; naive_solver).
  all: destruct (Z.ltb_spec (octstr_len (strip_prefix dst)) 10);
    [do 4 eexists; split; [done|]; naive_solver|].
  all: destruct (Z.ltb_spec (priority_flag b) 0); simpl;
    [do 4 eexists; split; [done|]; split; [split; [done|lia]|done]|].
  all: destruct (Z.ltb_spec 3 (priority_flag b)); simpl;
    [do 4 eexists; split; [done|]; split; [split; [done|lia]|done]|].
  all: destruct (Z.ltb_spec 0 (replace_if_present_flag (submit_rest b)));
    [do 4 eexists; split; [done|]; split; [split; [done|lia]|done]|].
  all: destruct (udh_check b Hc) as [[-> Hu]|(sm & Hl & Hsm & Hu)]; simpl;
    [do 4 eexists; split; [done|]; split; [|by split]; split; [intros _; split_and!; tauto || lia|done]|].
  all: rewrite (proj2 (Z.eqb_neq _ _) Hl), Hsm; simpl;
    destruct (Z.ltb_spec (octstr_len sm) (octstr_get_char sm 0 + 1));
    do 4 eexists; (split; [done|]); (split; [|by split]); rewrite Hu; split; try done; try lia;
    intros _; split_and!; tauto || lia.
Qed.

(** C15 The checks of a submitted message pass exactly when both addresses
    are of the form that their type of number asks for, the number has ten
    digits or more, the sender matches the pattern of the account or the
    service for senders accepts it, the priority is 0 to 3, the message
    replaces none and a user data header fits into the content.  The number
    to use is then the one without its country code, the sender is the given
    one.  An unknown sender that the service accepts becomes the pattern of
    the account, whatever the other checks say; otherwise the account stays
    as it is. *)
Theorem verify_pdu_para_spec (e : ESME) (b : SubmitSm) (src dst : octstr)
    (Hs : source_addr b = Some src) (Hd : destination_addr b = Some dst)
    (Hc : Z.land (esm_class b) ESM_CLASS_SUBMIT_UDH_INDICATOR <> 0 -> is_Some (short_message b)) :
  exists reason e' d o, verify_pdu_para e b = Done (reason, e', d, o) /\
    (reason = SMPP_ESME_ROK <-> submit_ok e b src dst) /\
    (reason = SMPP_ESME_ROK -> exists d' o', d = Some d' /\ octets d' = national_part (octets dst) /\
       o = Some o' /\ octets o' = octets src) /\
    e' = (if bool_decide (address_error b = None) && negb (known_sender e src) &&
             check_sender_api (e_system_id e) (octstr_duplicate src)
          then set_allowed_prefix e (Some (octstr_duplicate (octstr_duplicate src))) else e).
Proof.
  destruct (verify_pdu_para_cases e b src dst Hs Hd Hc) as (reason & e' & d & o & Hv & Hok & Hdo & He).
  exists reason, e', d, o. split_and!; try done; try apply Hok. intros Hr. destruct (Hdo Hr) as [-> ->].
  do 2 eexists. split_and!; try done; [apply strip_prefix_spec|apply octstr_duplicate_spec].
Qed.

End Facts.
