(* ===== verification/EsmeProc.v ===== *)
(** * The server process (smpp-esme/smpp_esme.c)

    What the server does with the PDUs of a client: the three binds, submitted
    messages and the small handlers; and what it does with the messages of
    the client process.  [Process] holds the variables of the file.  A
    session is given by the address of its ESME and its position in the list
    of its mode.  The effects outside of the process are a list of events.
    The threads of the connections are in [ServerThread]. *)

From S2P Require Import Prelude Gwlib Counter Dict World SmscConn.
From S2P Require Import SmppSession Esme EsmePdu.
Open Scope Z_scope.

(** [struct tm] and [localtime]. *)
Record tm : Type := MkTm {
  tm_year : Z; tm_mon : Z; tm_mday : Z; tm_hour : Z; tm_min : Z; tm_sec : Z
}.
Class Clock : Type := { localtime : Z -> tm }.

Inductive process_status : Type := PROCESS_UNCONNECTED | PROCESS_CONNECTED.
#[export] Instance process_status_eq_dec : EqDecision process_status.
Proof. solve_decision. Defined.

(** The commands of [admin] messages that say how the client process and the
    database process are connected. *)
Class AdminNames : Type := { admin_cmd_dbbox_disconnected : Z; admin_cmd_dbbox_connected : Z }.

Section EsmeProc.
Context {O : OctstrLib} {L : GwListLib} {R : PduRest} {N : SmppNames} {E : EsmeNames}.
Context {P : PduLib O R} {PX : PrefixLib O} {K : Link O} {TL : TimeLib O} {SL : ServerLib O R}.
Context {CK : Clock} {AN : AdminNames}.

(** [strftime] with [%Y%m%d%H%M%S]. *)
Definition two_digits (z : Z) : list Z := (if z <? 10 then [48] else []) ++ format_ld z.
Definition get_current_datetime (now : Z) : octstr :=
  let t := localtime now in
  octstr_create (format_ld (tm_year t + 1900) ++ two_digits (tm_mon t + 1) ++
    two_digits (tm_mday t) ++ two_digits (tm_hour t) ++ two_digits (tm_min t) ++
    two_digits (tm_sec t)).

(** ** Messages between the processes *)

Record submit_msg : Type := MkSubmit {
  sb_req_time : option octstr; sb_account_name : option octstr; sb_account_msg_id : option octstr;
  sb_destination_addr : option octstr; sb_source_addr : option octstr; sb_pdu : option octstr;
  sb_preferred_smsc : option octstr; sb_allowed_smsc : option octstr; sb_IP : option octstr
}.

Record smpp_esme_msg : Type := MkSmppEsme {
  se_account_name : option octstr; se_account_msg_id : option octstr; se_req_time : option octstr;
  se_source_addr : option octstr; se_dest_addr : option octstr; se_msg_content : option octstr;
  se_submit_status : Z; se_esm_class : Z; se_data_coding : Z; se_more_messages_to_send : Z;
  se_IP : option octstr; se_dnd_flag : Z; se_retry_value : Z
}.

Record values_got_msg : Type := MkValuesGot {
  vg_result : Z; vg_account_name : option octstr; vg_account_msg_id : option octstr;
  vg_smsc_msg_id : option octstr; vg_dest_addr : option octstr; vg_pdu : option octstr
}.

(** [Conn_Msg]: what the two processes both send, and the rest. *)
Inductive process_msg : Type :=
| common (c : Conn_Msg)
| admin (command : Z) (conn_id : option octstr)
| submit (m : submit_msg)
| smpp_esme (m : smpp_esme_msg)
| deliver (smsc_id smsc_msg_id dest_addr pdu : option octstr)
| values_got (m : values_got_msg).

Inductive effect : Type :=
| ToForward (m : process_msg)     (* send_msg_process_client(forward_client, m) *)
| ToDbbox (m : process_msg)       (* send_msg_process_client(dbbox_client, m) *)
| Logged (m : process_msg)        (* the text that is written instead *)
| Wakeup (thread : Z).            (* gwthread_wakeup *)

(** ** State *)

(** [PROCESS_CLIENT]: its status and the length of [send_list]; both are kept
    by the code of the process sockets. *)
Record PROCESS_CLIENT : Type := MkClientProc {
  pc_status : process_status; pc_send_list : Z
}.

Record Process : Type := MkProcess {
  srv : Server;
  running : bool;                              (* program_status == PROGRAM_RUNNING *)
  forward_client : option PROCESS_CLIENT;
  reverse_client : option PROCESS_CLIENT;
  dbbox_client : option PROCESS_CLIENT;
  dbbox_connected_to_client : Z;
  smsc_q_limit : Z;
  global_q_limit : Z;
  p_dndcheck_flag : Z;
  trans_port : Z; recv_port : Z; trans_recv_port : Z;
  smsc_system_id : option octstr;
  series : Series;
  num_from_esme : Counter;
  last_from_esme : Z;
  submit_counter : Z;                          (* the static counter of handle_submit_sm *)
  total_smsc : Z;                              (* the statics of handle_request *)
  smsc_data_recieved : Z;
  pending_deliver_sm : Dict octstr;
  effects : list effect
}.

Definition set_srv (p : Process) (s : Server) : Process :=
  MkProcess s (running p) (forward_client p) (reverse_client p) (dbbox_client p)
    (dbbox_connected_to_client p) (smsc_q_limit p) (global_q_limit p) (p_dndcheck_flag p)
    (trans_port p) (recv_port p) (trans_recv_port p) (smsc_system_id p) (series p)
    (num_from_esme p) (last_from_esme p) (submit_counter p) (total_smsc p)
    (smsc_data_recieved p) (pending_deliver_sm p) (effects p).
Definition set_counts (p : Process) (c : Counter) (last count : Z) : Process :=
  MkProcess (srv p) (running p) (forward_client p) (reverse_client p) (dbbox_client p)
    (dbbox_connected_to_client p) (smsc_q_limit p) (global_q_limit p) (p_dndcheck_flag p)
    (trans_port p) (recv_port p) (trans_recv_port p) (smsc_system_id p) (series p)
    c last count (total_smsc p) (smsc_data_recieved p) (pending_deliver_sm p) (effects p).
Definition set_limits (p : Process) (dbbox global : Z) : Process :=
  MkProcess (srv p) (running p) (forward_client p) (reverse_client p) (dbbox_client p)
    dbbox (smsc_q_limit p) global (p_dndcheck_flag p)
    (trans_port p) (recv_port p) (trans_recv_port p) (smsc_system_id p) (series p)
    (num_from_esme p) (last_from_esme p) (submit_counter p) (total_smsc p)
    (smsc_data_recieved p) (pending_deliver_sm p) (effects p).
Definition set_totals (p : Process) (total received : Z) : Process :=
  MkProcess (srv p) (running p) (forward_client p) (reverse_client p) (dbbox_client p)
    (dbbox_connected_to_client p) (smsc_q_limit p) (global_q_limit p) (p_dndcheck_flag p)
    (trans_port p) (recv_port p) (trans_recv_port p) (smsc_system_id p) (series p)
    (num_from_esme p) (last_from_esme p) (submit_counter p) total received
    (pending_deliver_sm p) (effects p).
Definition set_pending (p : Process) (d : Dict octstr) : Process :=
  MkProcess (srv p) (running p) (forward_client p) (reverse_client p) (dbbox_client p)
    (dbbox_connected_to_client p) (smsc_q_limit p) (global_q_limit p) (p_dndcheck_flag p)
    (trans_port p) (recv_port p) (trans_recv_port p) (smsc_system_id p) (series p)
    (num_from_esme p) (last_from_esme p) (submit_counter p) (total_smsc p)
    (smsc_data_recieved p) d (effects p).
Definition perform (p : Process) (e : effect) : Process :=
  MkProcess (srv p) (running p) (forward_client p) (reverse_client p) (dbbox_client p)
    (dbbox_connected_to_client p) (smsc_q_limit p) (global_q_limit p) (p_dndcheck_flag p)
    (trans_port p) (recv_port p) (trans_recv_port p) (smsc_system_id p) (series p)
    (num_from_esme p) (last_from_esme p) (submit_counter p) (total_smsc p)
    (smsc_data_recieved p) (pending_deliver_sm p) (effects p ++ [e]).

Definition put_esme (p : Process) (a : nat) (e : ESME) : Process :=
  set_srv p (set_heap (srv p) (<[a:=e]> (heap (srv p)))).

Definition connected (c : PROCESS_CLIENT) : bool := bool_decide (pc_status c = PROCESS_CONNECTED).

(** [check_server_connections]: whether all servers can be reached. *)
Definition check_server_connections (p : Process) : Z :=
  match dbbox_client p, forward_client p, reverse_client p with
  | Some d, Some f, Some r =>
      if negb (dbbox_connected_to_client p =? 1) then -1
      else if connected d && connected f && connected r then 0 else -1
  | _, _, _ => -1
  end.

(** [send_msg_dbbox_server]: without a database process, or in another mode,
    two kinds of messages are only logged. *)
Definition send_msg_dbbox_server (p : Process) (m : process_msg) (mode : Z) : Process :=
  match dbbox_client p with
  | Some _ => if mode =? 0 then perform p (ToDbbox m) else
      match m with smpp_esme _ | common (insert_mis _ _ _ _ _ _ _ _ _ _ _ _ _) => perform p (Logged m)
      | _ => p end
  | None =>
      match m with smpp_esme _ | common (insert_mis _ _ _ _ _ _ _ _ _ _ _ _ _) => perform p (Logged m)
      | _ => p end
  end.

Definition retry_value_of (b : SubmitSm) : Z :=
  if user_response_code b =? -1 then 0 else user_response_code b.

(** [mis_db_insert] of this process. *)
Definition mis_db_insert (p : Process) (account_name account_msg_id : option octstr) (b : SubmitSm)
    (submit_status : Z) (IP : option octstr) : Process :=
  send_msg_dbbox_server p
    (common (insert_mis (octstr_dup account_name) (octstr_dup account_msg_id)
      (Some (get_current_datetime (srv_now (srv p)))) (Some (octstr_create []))
      (Some (octstr_create [])) (octstr_dup (source_addr b)) (octstr_dup (destination_addr b))
      submit_status (esm_class b) (from_option octstr_len 0 (short_message b))
      (octstr_dup (short_message b)) (retry_value_of b) (octstr_dup IP))) 0.

(** ** Submitted messages *)

Definition set_rate (e : ESME) (msg_count esm_time : Z) : ESME :=
  MkEsme (e_system_id e) (e_password e) (e_system_type e) (e_address_range e)
    (e_interface_version e) (e_addr_ton e) (e_addr_npi e) (e_enquire_link_interval e)
    (e_allowed_prefix e) (e_denied_prefix e) (tx_esme e) (rx_esme e) (e_max_submits_unconnect e)
    (e_max_submits e) (e_max_tps e) msg_count (e_dnd_check e) esm_time (e_valid_time_from e)
    (e_valid_time_to e).

Definition set_counters (t : ESME_TX) (received sent rejected unconnect : Counter) : ESME_TX :=
  MkTx (tx_conn t) received sent rejected unconnect
    (tx_session_id t) (tx_seq_number_counter t) (tx_client_ip t) (tx_client_port t)
    (tx_listen_port t) (tx_start_time t) (tx_status t) (tx_quit t) (tx_mode t) (tx_thread_id t)
    (tx_data_to_write t).

Definition bump_received (t : ESME_TX) : ESME_TX :=
  set_counters t (counter_increase (tx_msg_received t)).2 (tx_msg_sent t) (tx_msg_rejected t)
    (tx_submits_unconnect t).
Definition bump_sent (t : ESME_TX) : ESME_TX :=
  set_counters t (tx_msg_received t) (counter_increase (tx_msg_sent t)).2 (tx_msg_rejected t)
    (tx_submits_unconnect t).
Definition bump_rejected (t : ESME_TX) : ESME_TX :=
  set_counters t (tx_msg_received t) (tx_msg_sent t) (counter_increase (tx_msg_rejected t)).2
    (tx_submits_unconnect t).
Definition bump_unconnect (t : ESME_TX) : ESME_TX :=
  set_counters t (tx_msg_received t) (tx_msg_sent t) (tx_msg_rejected t)
    (counter_increase (tx_submits_unconnect t)).2.

(** The limit of messages per second: the thread sleeps for a second when the
    clock has not moved since the count began. *)
Definition throttle (now : Z) (e : ESME) : Z * ESME :=
  if e_max_tps e <? e_msg_count e then
    let now := if now - e_esm_time e =? 0 then now + 1 else now in
    (now, set_rate e 0 now)
  else (now, e).

(** The limits on the whole server. *)
Definition server_limit (p : Process) : outcome (option Z) :=
  if negb (running p) then Done (Some 0x407) else
  rev ← must (reverse_client p);
  down ← (if negb (connected rev) then Done true
          else fwd ← must (forward_client p); Done (negb (connected fwd)));
  full ← (if (down : bool) && negb (smsc_q_limit p =? -1)
          then fwd ← must (forward_client p); Done (pc_send_list fwd =? smsc_q_limit p)
          else Done false);
  if (full : bool) then Done (Some 0x409)
  else if global_q_limit p =? 1 then Done (Some 0x40A)
  else Done None.

(** The limits on the session, with its counter of unconnected submits. *)
Definition session_limit (e : ESME) (t : ESME_TX) : option Z * ESME_TX :=
  match tx_status t with
  | ESME_SMSC_UNCONNECTED =>
      if negb (e_max_submits_unconnect e =? -1) &&
         (e_max_submits_unconnect e <=? max_submits_unct_account e)
      then (Some SMPP_ESME_RMSGQFUL, t) else (None, bump_unconnect t)
  | ESME_BINDED =>
      if negb (e_max_submits e =? -1) && (e_max_submits e <=? counter_value (tx_msg_received t))
      then (Some SMPP_ESME_RMSGQFUL, t) else (None, bump_unconnect t)
  | _ => (None, t)
  end.

Definition hour_refused (hour : Z) (e : ESME) : bool :=
  (hour <=? e_valid_time_from e) || (e_valid_time_to e <=? hour).

(** The decision on a message: the status of the answer, the account, the
    session and the message for the client process. *)
Definition judge_submit (p : Process) (e : ESME) (t : ESME_TX) (hour : Z) (b : SubmitSm)
    : outcome (Z * ESME * ESME_TX * option (option octstr * option octstr * option octstr * option octstr)) :=
  limit ← server_limit p;
  match limit with
  | Some status => Done (status, e, bump_rejected t, None)
  | None =>
      let '(limit, t) := session_limit e t in
      match limit with
      | Some status => Done (status, e, bump_rejected t, None)
      | None =>
          '(reason, e, dest_addr, source_addr) ← verify_pdu_para e b;
          if hour_refused hour e then Done (SMPP_ESME_RCANCELFAIL, e, bump_rejected t, None)
          else if negb (reason =? SMPP_ESME_ROK) then Done (reason, e, bump_rejected t, None)
          else
            '(ret, preferred, allowed) ← rout_pdu (srv p) (series p) dest_addr (e_system_id e);
            if ret =? -1 then Done (SMPP_ESME_RSUBMITFAIL, e, bump_rejected t, None)
            else Done (0, set_rate e (e_msg_count e + 1) (e_esm_time e), bump_sent t,
                       Some (dest_addr, source_addr, preferred, allowed))
      end
  end.

(** The record of every submitted message. *)
Definition submit_record (p : Process) (e : ESME) (t : ESME_TX) (b : SubmitSm) (status : Z)
    (message_id : octstr) : outcome smpp_esme_msg :=
  content ← (if data_coding b =? 0 then Done (octstr_dup (short_message b))
             else sm ← must (octstr_dup (short_message b)); Done (Some (octstr_binary_to_hex sm)));
  Done (MkSmppEsme (octstr_dup (e_system_id e)) (Some (octstr_duplicate message_id))
    (Some (get_current_datetime (srv_now (srv p)))) (octstr_dup (source_addr b))
    (octstr_dup (destination_addr b)) content status (esm_class b) (data_coding b)
    (more_messages_to_send b) (octstr_dup (tx_client_ip t))
    (if p_dndcheck_flag p =? 0 then -1 else 0) (retry_value_of b)).

Definition set_now (s : Server) (now : Z) : Server :=
  MkServer now (translations s) (heap s) (esme_list s) (fresh_esme s) (smscs s).

(** The id that the server gives to a message. *)
Definition new_message_id (t : ESME_TX) (now counter : Z) : octstr :=
  octstr_create (format_ld (wrap_long (counter_value (tx_msg_received t))) ++ format_ld now ++
    format_ld counter).

(** What is given to the client process for an accepted message. *)
Definition forward_accepted (p : Process) (e : ESME) (t : ESME_TX) (now : Z) (h : header) (b : SubmitSm)
    (message_id : octstr)
    (accepted : option (option octstr * option octstr * option octstr * option octstr)) : Process :=
  match accepted with
  | Some (dest_addr, source_addr, preferred, allowed) =>
      let m := MkSubmit (Some (get_current_datetime now)) (octstr_dup (e_system_id e))
        (Some (octstr_duplicate message_id)) dest_addr source_addr
        (smpp_pdu_pack (submit_sm h b)) preferred allowed
        (octstr_dup (tx_client_ip t)) in
      if p_dndcheck_flag p =? 0 then perform p (ToForward (submit m)) else p
  | None => p
  end.

(** What the database process is told about every message. *)
Definition record_submit (p : Process) (e : ESME) (t : ESME_TX) (b : SubmitSm) (status : Z)
    (message_id : octstr) : outcome Process :=
  record ← submit_record p e t b status message_id;
  let p := send_msg_dbbox_server p (smpp_esme record) 0 in
  Done (if status =? 0 then p
        else mis_db_insert p (e_system_id e) (Some message_id) b status (tx_client_ip t)).

(** [handle_submit_sm].  In mode 2 the session is an [ESME_RX], which is read
    as an [ESME_TX] for the record: its thread number is used as a pointer. *)
Definition handle_submit_sm (p : Process) (a pos : nat) (mode : Z) (h : header) (b : SubmitSm)
    : outcome (SMPP_PDU * Process) :=
  e ← must (heap (srv p) !! a);
  let hour := tm_hour (localtime (srv_now (srv p))) in
  let '(now, e) := throttle (srv_now (srv p)) e in
  let p := set_counts (set_srv p (set_now (srv p) now)) (counter_increase (num_from_esme p)).2
             (srv_now (srv p)) (submit_counter p) in
  if mode =? 2 then Panic else
  t ← must (tx_esme e !! pos);
  let p := set_counts p (num_from_esme p) (last_from_esme p) (wrap_long (submit_counter p + 1)) in
  let message_id := new_message_id t now (submit_counter p) in
  '(status, e, t, accepted) ← judge_submit p e t hour b;
  let p := forward_accepted p e t now h b message_id accepted in
  p ← record_submit p e t b status message_id;
  let t := if mode =? 1 then bump_received t else t in
  Done (submit_sm_resp (MkHeader status (sequence_number h)) (Some message_id),
        put_esme p a (set_sessions e (<[pos:=t]> (tx_esme e)) (rx_esme e))).

(** ** The other PDUs *)

(** The structure that a thread works on. *)
Inductive session_str : Type := TxStr (t : ESME_TX) | RxStr (r : ESME_RX).

Definition get_str (p : Process) (a pos : nat) (mode : Z) : outcome session_str :=
  e ← must (heap (srv p) !! a);
  if mode =? 2 then r ← must (rx_esme e !! pos); Done (RxStr r)
  else t ← must (tx_esme e !! pos); Done (TxStr t).

Definition put_str (p : Process) (a pos : nat) (x : session_str) : outcome Process :=
  e ← must (heap (srv p) !! a);
  Done (put_esme p a
    match x with
    | TxStr t => set_sessions e (<[pos:=t]> (tx_esme e)) (rx_esme e)
    | RxStr r => set_sessions e (tx_esme e) (<[pos:=r]> (rx_esme e))
    end).

(** The connection, the status, [quit] and the sequence numbers of a session. *)
Definition str_conn (x : session_str) : link :=
  match x with TxStr t => tx_conn t | RxStr r => rx_conn r end.
Definition str_seq (x : session_str) : Counter :=
  match x with TxStr t => tx_seq_number_counter t | RxStr r => rx_seq_number_counter r end.
Definition set_str (x : session_str) (c : link) (seq : Counter) (st : esme_status) (quit : Z)
    : session_str :=
  match x with
  | TxStr t => TxStr (MkTx c (tx_msg_received t) (tx_msg_sent t) (tx_msg_rejected t)
      (tx_submits_unconnect t) (tx_session_id t) seq (tx_client_ip t) (tx_client_port t)
      (tx_listen_port t) (tx_start_time t) st quit (tx_mode t) (tx_thread_id t)
      (tx_data_to_write t))
  | RxStr r => RxStr (MkRx c (rx_client_ip r) (rx_client_port r) (rx_listen_port r)
      (rx_data_to_write r) (rx_msg_sent r) seq (rx_start_time r) (rx_thread_id r) st quit
      (rx_session_id r) (rx_mode r))
  end.
Definition str_status (x : session_str) : esme_status :=
  match x with TxStr t => tx_status t | RxStr r => rx_status r end.
Definition str_quit (x : session_str) : Z :=
  match x with TxStr t => tx_quit t | RxStr r => rx_quit r end.

Definition handle_unbind_resp (x : session_str) : session_str :=
  set_str x (str_conn x) (str_seq x) (str_status x) 1.

Definition handle_unbind (h : header) (x : session_str) : SMPP_PDU * session_str :=
  (unbind_resp (new_header (sequence_number h)),
   set_str x (str_conn x) (str_seq x) ESME_UNCONNECTED (str_quit x)).

Definition handle_enquire_link (h : header) : SMPP_PDU :=
  enquire_link_resp (new_header (sequence_number h)).
Definition handle_cancel_sm (h : header) : SMPP_PDU :=
  other_pdu cancel_sm_resp (MkHeader SMPP_ESME_RCANCELFAIL (sequence_number h)) rest_none.
Definition handle_replace_sm (h : header) : SMPP_PDU :=
  other_pdu replace_sm_resp (MkHeader SMPP_ESME_RREPLACEFAIL (sequence_number h)) rest_none.
Definition handle_query_sm (h : header) : SMPP_PDU :=
  other_pdu query_sm_resp (MkHeader SMPP_ESME_RQUERYFAIL (sequence_number h)) rest_none.

(** The table [handlers]; [None] is a handler without an answer, a PDU of
    another type is refused. *)
Definition dispatch (p : Process) (a pos : nat) (mode : Z) (q : SMPP_PDU)
    : outcome (option SMPP_PDU * Process) :=
  x ← get_str p a pos mode;
  match q with
  | generic_nack _ | enquire_link_resp _ | deliver_sm_resp _ => Done (None, p)
  | enquire_link h => Done (Some (handle_enquire_link h), p)
  | submit_sm h b => '(resp, p) ← handle_submit_sm p a pos mode h b; Done (Some resp, p)
  | unbind h =>
      let '(resp, x) := handle_unbind h x in p ← put_str p a pos x; Done (Some resp, p)
  | unbind_resp _ => p ← put_str p a pos (handle_unbind_resp x); Done (None, p)
  | other_pdu type h _ =>
      if type =? cancel_sm then Done (Some (handle_cancel_sm h), p)
      else if type =? replace_sm then Done (Some (handle_replace_sm h), p)
      else if type =? query_sm then Done (Some (handle_query_sm h), p)
      else Done (Some (generic_nack (MkHeader SMPP_ESME_RINVCMDID (sequence_number h))), p)
  | q => Done (Some (generic_nack (MkHeader SMPP_ESME_RINVCMDID
                                     (sequence_number (pdu_header q)))), p)
  end.

Definition write_str (x : session_str) (os : octstr) : session_str :=
  set_str x (conn_write (str_conn x) os).2 (str_seq x) (str_status x) (str_quit x).

(** [handle_pdu]: the handler, then its answer. *)
Definition handle_pdu (p : Process) (a pos : nat) (mode : Z) (q : SMPP_PDU) : outcome Process :=
  '(resp, p) ← dispatch p a pos mode q;
  match resp with
  | None => Done p
  | Some resp =>
      os ← must (smpp_pdu_pack resp);
      x ← get_str p a pos mode;
      put_str p a pos (write_str x os)
  end.

(** [send_enquire_link] and [send_unbind]; an answer that cannot be packed is
    not sent. *)
Definition send_numbered (x : session_str) (q : Z -> SMPP_PDU) : session_str :=
  let '(seq, c) := counter_increase (str_seq x) in
  let x := set_str x (str_conn x) c (str_status x) (str_quit x) in
  match smpp_pdu_pack (q seq) with Some os => write_str x os | None => x end.

Definition send_enquire_link (now : Z) (x : session_str) (last_sent enquire_link_interval : Z)
    : session_str * Z :=
  if now - last_sent <? enquire_link_interval then (x, last_sent)
  else (send_numbered x (fun seq => enquire_link (new_header seq)), now).

Definition send_unbind (x : session_str) : session_str :=
  send_numbered x (fun seq => unbind (new_header seq)).

(** ** Binds *)

Record MSG_BIND_INFO : Type := MkBindInfo {
  bi_resp : SMPP_PDU; bi_system_id : option octstr; bi_version : Z; bi_esme : option nat
}.

(** The status of a refused bind, by the result of [authorise_user]; other
    results leave the status of a new PDU. *)
Definition tx_refusal (ret : Z) : Z :=
  if (ret =? -1) || ((1 <=? ret) && (ret <=? 10)) then SMPP_ESME_RBINDFAIL else 0.
Definition rx_refusal (ret : Z) : Z :=
  if ret =? 1 then SMPP_ESME_RINVSYSID
  else if ret =? 2 then SMPP_ESME_RINVPASWD
  else if ret =? 3 then SMPP_ESME_RINVCMDID
  else if ret =? 6 then SMPP_ESME_RALYNBD
  else if (ret =? 4) || (ret =? 5) then SMPP_ESME_RINVEXPIRY
  else if ret =? 7 then SMPP_ESME_RINVMSGID
  else if (ret =? 8) || (ret =? 9) then SMPP_ESME_RINVPRTFLG
  else if ret =? 10 then SMPP_ESME_RBINDFAIL
  else 0.

(** What the three handlers differ in: the mode, the port, the status when
    the server cannot serve the bind, the statuses of a refusal, the list
    that a session must be in afterwards, and the answer. *)
Record bind_handler : Type := MkHandler {
  bh_mode : Z;
  bh_port : Process -> Z;
  bh_unserved : Z;
  bh_refusal : Z -> Z;
  bh_sessions : ESME -> nat;
  bh_resp : header -> SMPP_PDU
}.

Definition handle_bind_transmitter : bind_handler :=
  MkHandler 1 trans_port SMPP_ESME_RBINDFAIL tx_refusal (fun e => length (tx_esme e))
    bind_transmitter_resp.
Definition handle_bind_receiver : bind_handler :=
  MkHandler 2 recv_port SMPP_ESME_RINVCMDID rx_refusal (fun e => length (rx_esme e))
    bind_receiver_resp.
Definition handle_bind_transceiver : bind_handler :=
  MkHandler 3 trans_recv_port SMPP_ESME_RINVCMDID rx_refusal (fun e => length (tx_esme e))
    bind_transceiver_resp.

(** The table [handlers_conn]. *)
Definition handlers_conn (q : SMPP_PDU) : option (bind_handler * header * Bind) :=
  match q with
  | bind_transmitter h b => Some (handle_bind_transmitter, h, b)
  | bind_receiver h b => Some (handle_bind_receiver, h, b)
  | bind_transceiver h b => Some (handle_bind_transceiver, h, b)
  | _ => None
  end.

(** A bind that passed the checks of [authorise_user], where the function is
    about to take the lock for writing: the account, and its structure when
    one was found.  Other threads can run here. *)
Record Login : Type := MkLogin {
  lg_handler : bind_handler;
  lg_header : header;
  lg_bind : Bind;
  lg_client : Smsc_Client;
  lg_present : option nat
}.

Definition with_success (tc : TEMPCONN) (n : Z) : TEMPCONN :=
  MkTempConn (tc_conn tc) (tc_client_ip tc) (tc_client_port tc) (tc_listen_port tc) n (tc_mode tc)
    (tc_session_id tc).

(** The handler up to the lock: a status that refuses the bind, or a login. *)
Definition bind_begin (p : Process) (tc : TEMPCONN) (k : bind_handler) (h : header) (b : Bind)
    : outcome (Z * TEMPCONN + Login) :=
  if negb (running p) then Done (inl (SMPP_ESME_RBINDFAIL, tc))
  else if negb (tc_listen_port tc =? bh_port k p) then Done (inl (bh_unserved k, tc))
  else if check_server_connections p =? -1 then Done (inl (bh_unserved k, tc))
  else
    v ← authorise_check (srv p) b (bh_mode k);
    match v with
    | Refused code => Done (inl (bh_refusal k code, with_success tc 0))
    | Granted t esme_present => Done (inr (MkLogin k h b t esme_present))
    end.

(** The handler from the lock on. *)
Definition bind_end (p : Process) (thread : Z) (tc : TEMPCONN) (l : Login)
    : outcome (Z * nat * TEMPCONN * Process) :=
  let k := lg_handler l in
  '(a, s, tc) ← authorise_commit (srv p) (lg_bind l) (lg_header l) (bh_mode k) thread tc
                  (lg_client l) (lg_present l);
  let bound := from_option (fun e => (0 <? bh_sessions k e)%nat) false (heap s !! a) in
  Done (bh_refusal k 0, a, with_success tc (if bound then 1 else 0), set_srv p s).

(** A write to the connection of [tc], which is that of its session once the
    bind is done. *)
Definition write_temp (p : Process) (tc : TEMPCONN) (esme : option nat) (os : octstr)
    : outcome (TEMPCONN * Process) :=
  let c := (conn_write (tc_conn tc) os).2 in
  let tc := MkTempConn c (tc_client_ip tc) (tc_client_port tc) (tc_listen_port tc)
              (tc_bind_successful tc) (tc_mode tc) (tc_session_id tc) in
  match esme with
  | None => Done (tc, p)
  | Some a =>
      e ← must (heap (srv p) !! a);
      match get_session_str e (tc_mode tc) (tc_session_id tc) with
      | None => Done (tc, p)
      | Some pos =>
          x ← get_str p a pos (tc_mode tc);
          p ← put_str p a pos (set_str x c (str_seq x) (str_status x) (str_quit x));
          Done (tc, p)
      end
  end.

(** The answer of a handler is written. *)
Definition bind_info (p : Process) (k : bind_handler) (h : header) (status : Z) (esme : option nat)
    : MSG_BIND_INFO :=
  MkBindInfo (bh_resp k (MkHeader status (sequence_number h))) (octstr_dup (smsc_system_id p))
    SMPP_SERVER_VERSION esme.

Definition write_answer (p : Process) (tc : TEMPCONN) (i : MSG_BIND_INFO)
    : outcome (option nat * TEMPCONN * Process) :=
  os ← must (pack_bind_resp (bi_resp i) (bi_system_id i) (bi_version i));
  '(tc, p) ← write_temp p tc (bi_esme i) os;
  Done (bi_esme i, tc, p).

(** [handle_pdu_bind], for the first PDU of a connection, up to the write lock
    of [authorise_user] and from there.  A PDU that does not lead there is
    answered in the first part, which changes only the connection. *)
Definition bind_arrives (p : Process) (tc : TEMPCONN) (q : SMPP_PDU) : outcome (TEMPCONN + Login) :=
  match handlers_conn q with
  | Some (k, h, b) =>
      r ← bind_begin p tc k h b;
      match r with
      | inl (status, tc) =>
          '(_, tc, _) ← write_answer p tc (bind_info p k h status None);
          Done (inl tc)
      | inr l => Done (inr l)
      end
  | None =>
      os ← must (smpp_pdu_pack (generic_nack (MkHeader SMPP_ESME_RINVCMDID
                                               (sequence_number (pdu_header q)))));
      '(tc, _) ← write_temp p tc None os;
      Done (inl tc)
  end.

Definition bind_completes (p : Process) (thread : Z) (tc : TEMPCONN) (l : Login)
    : outcome (option nat * TEMPCONN * Process) :=
  '(status, a, tc, p) ← bind_end p thread tc l;
  write_answer p tc (bind_info p (lg_handler l) (lg_header l) status (Some a)).

(** [handle_pdu_bind] when no other thread runs between the two parts;
    [bind_turn] and [joining_turn] of [ServerThread] run them apart. *)
Definition handle_pdu_bind (p : Process) (thread : Z) (tc : TEMPCONN) (q : SMPP_PDU)
    : outcome (option nat * TEMPCONN * Process) :=
  r ← bind_arrives p tc q;
  match r with
  | inl tc => Done (None, tc, p)
  | inr l => bind_completes p thread tc l
  end.

(** ** Messages from the client process *)

(** The message for the account of a receipt is put into the list of the
    session that is chosen; [rand] gives the random numbers. *)
Definition queue_deliver (p : Process) (rand : nat -> nat) (m : values_got_msg) : outcome Process :=
  '(x, mode) ← extract_esme (srv p) rand (vg_account_name m);
  match x with
  | None => Done p
  | Some (a, x) =>
      let d := MkDeliver (octstr_dup (vg_dest_addr m)) (octstr_dup (vg_smsc_msg_id m))
                 (octstr_dup (vg_account_msg_id m)) (octstr_dup (vg_pdu m)) in
      e ← must (heap (srv p) !! a);
      match x with
      | Rx pos =>
          r ← must (rx_esme e !! pos);
          let r' := MkRx (rx_conn r) (rx_client_ip r) (rx_client_port r) (rx_listen_port r)
            (rx_data_to_write r ++ [d]) (rx_msg_sent r) (rx_seq_number_counter r) (rx_start_time r)
            (rx_thread_id r) (rx_status r) (rx_quit r) (rx_session_id r) (rx_mode r) in
          Done (perform (put_esme p a (set_sessions e (tx_esme e) (<[pos:=r']> (rx_esme e))))
                  (Wakeup (rx_thread_id r)))
      | Tx pos =>
          t ← must (tx_esme e !! pos);
          let t' := MkTx (tx_conn t) (tx_msg_received t) (tx_msg_sent t) (tx_msg_rejected t)
            (tx_submits_unconnect t) (tx_session_id t) (tx_seq_number_counter t) (tx_client_ip t)
            (tx_client_port t) (tx_listen_port t) (tx_start_time t) (tx_status t) (tx_quit t)
            (tx_mode t) (tx_thread_id t) (tx_data_to_write t ++ [d]) in
          Done (perform (put_esme p a (set_sessions e (<[pos:=t']> (tx_esme e)) (rx_esme e)))
                  (Wakeup (tx_thread_id t)))
      end
  end.

(** [handle_request]. *)
Definition handle_request (p : Process) (rand : nat -> nat) (m : process_msg) : outcome Process :=
  if negb (running p) then Done p else
  match m with
  | admin command _ =>
      Done (if command =? admin_cmd_dbbox_disconnected then set_limits p 0 (global_q_limit p)
            else if command =? admin_cmd_dbbox_connected then set_limits p 1 (global_q_limit p)
            else p)
  | common (no_of_smsc n) => Done (set_srv (set_totals p n (-1)) (smsc_init (srv p)))
  | common (info_smsc smsc_id smsc_type conn_status conn_mode) =>
      id ← must smsc_id;
      if smsc_data_recieved p <? total_smsc p - 1 then
        let p := set_totals p (total_smsc p) (smsc_data_recieved p + 1) in
        type ← must smsc_type;
        Done (set_srv p (prepare_smsc_list (srv p) id type conn_status conn_mode))
      else
        s ← update_esme_conn (update_smsc_list (srv p) id conn_status);
        Done (set_srv p s)
  | common (global_q_msg q_limit) =>
      Done (set_limits p (dbbox_connected_to_client p) q_limit)
  | deliver smsc_id smsc_msg_id dest_addr pdu =>
      db ← must (dbbox_client p);
      if connected db then
        '(d, _) ← dict_put (pending_deliver_sm p)
                    (octstr_create (get_cstr smsc_msg_id ++ get_cstr dest_addr)) (octstr_dup pdu);
        Done (set_pending p d)
      else Done p
  | values_got m => if vg_result m =? 1 then queue_deliver p rand m else Done p
  | _ => Done p
  end.

End EsmeProc.
