(* ===== verification/EsmeProcFacts.v ===== *)
(** * Theorems about the server process

    The fate of a submitted message, the answers to binds, and the table of
    SMSCs that the client process reports. *)

From S2P Require Import Prelude Gwlib Counter Dict World SmscConn.
From S2P Require Import SmppSession Esme EsmeFacts EsmePdu EsmePduFacts EsmeProc.
Open Scope Z_scope.

Section Facts.
Context {O : OctstrLib} {OL : OctstrLaws O} {L : GwListLib} {R : PduRest} {N : SmppNames}.
Context {NL : SmppNamesLaws N} {E : EsmeNames} {EL : EsmeNamesLaws N E} {P : PduLib O R}.
Context {PX : PrefixLib O} {K : Link O} {TL : TimeLib O} {SL : ServerLib O R}.
Context {CK : Clock} {AN : AdminNames}.
Implicit Types (p : Process) (e : ESME) (t : ESME_TX).

(** ** Submitted messages *)

(** The connection to the client process takes messages. *)
Definition backlog_ok p : Prop :=
  (from_option connected false (reverse_client p) = true /\
   from_option connected false (forward_client p) = true) \/
  smsc_q_limit p = -1 \/ from_option pc_send_list (-1) (forward_client p) <> smsc_q_limit p.

Definition server_ready p : Prop := running p = true /\ backlog_ok p /\ global_q_limit p <> 1.

(** The session may submit one more message. *)
Definition within_quota e t : Prop :=
  match tx_status t with
  | ESME_SMSC_UNCONNECTED =>
      e_max_submits_unconnect e = -1 \/ max_submits_unct_account e < e_max_submits_unconnect e
  | ESME_BINDED => e_max_submits e = -1 \/ counter_value (tx_msg_received t) < e_max_submits e
  | _ => True
  end.

Definition in_hours (hour : Z) e : Prop := e_valid_time_from e < hour < e_valid_time_to e.

(** Some SMSC can carry messages to the number. *)
Definition routable p (dst : octstr) : Prop :=
  exists nt c, number_type (series p) (strip_prefix dst) = Some nt /\ c ∈ smscs (srv p) /\
    carries nt c = true.

Definition acceptable p e t (hour : Z) (b : SubmitSm) (src dst : octstr) : Prop :=
  server_ready p /\ within_quota e t /\ submit_ok e b src dst /\ in_hours hour e /\ routable p dst.

(** A session that is served: what holds in a server that is set up. *)
Record serves p (a pos : nat) e t : Prop := {
  sv_book : book_ok (srv p);
  sv_esme : heap (srv p) !! a = Some e;
  sv_tx : tx_esme e !! pos = Some t;
  sv_forward : is_Some (forward_client p);
  sv_reverse : is_Some (reverse_client p);
  sv_dbbox : is_Some (dbbox_client p);
  sv_named : Forall named (translations (srv p));
  sv_series : is_Some (default_series (series p));
  sv_smscs : (length (smscs (srv p)) <= 128)%nat;
  sv_preferred c : c ∈ translations (srv p) -> (length (default [] (cl_preferred_smsc c)) < 255)%nat;
}.

Arguments sv_book {p a pos e t}.
Arguments sv_esme {p a pos e t}.
Arguments sv_tx {p a pos e t}.
Arguments sv_forward {p a pos e t}.
Arguments sv_reverse {p a pos e t}.
Arguments sv_dbbox {p a pos e t}.
Arguments sv_named {p a pos e t}.
Arguments sv_series {p a pos e t}.
Arguments sv_smscs {p a pos e t}.
Arguments sv_preferred {p a pos e t}.

Lemma number_type_some n dest : is_Some (default_series n) -> is_Some (number_type n dest).
Proof. intros [d Hd]. unfold number_type. rewrite Hd. repeat case_match; simpl; eauto. Qed.

Lemma server_limit_spec p :
  is_Some (forward_client p) -> is_Some (reverse_client p) ->
  exists r, server_limit p = Done r /\ (r = None <-> server_ready p) /\
    (forall z, r = Some z -> z <> 0).
Proof.
  intros [f Hf] [r Hr]. unfold server_limit, server_ready, backlog_ok. rewrite Hf, Hr. simpl.
  destruct (running p); simpl; [|eexists; split; [done|]; naive_solver].
  assert (Hd : exists down, (if negb (connected r) then Done true
              else Done (negb (connected f))) = Done down /\
            (down = false <-> connected r = true /\ connected f = true)).
  { destruct (connected r), (connected f); simpl; eexists; (split; [done|]); naive_solver. }
  destruct Hd as (down & -> & Hd). simpl.
  destruct (Z.eqb_spec (global_q_limit p) 1) as [Eg|Eg],
    (Z.eqb_spec (smsc_q_limit p) (-1)) as [El|El]; rewrite ?andb_false_r; simpl;
    destruct down; simpl; destruct (Z.eqb_spec (pc_send_list f) (smsc_q_limit p)); simpl;
    eexists; (split; [done|]); (split; [|naive_solver]); naive_solver.
Qed.

Lemma session_limit_spec e t :
  exists r t', session_limit e t = (r, t') /\ (r = None <-> within_quota e t) /\
    (forall z, r = Some z -> z <> 0) /\
    t' = match tx_status t, r with
         | (ESME_SMSC_UNCONNECTED | ESME_BINDED), None => bump_unconnect t
         | _, _ => t
         end.
Proof.
  assert (Hf : SMPP_ESME_RMSGQFUL <> 0).
  { pose proof status_distinct as H. rewrite <-rok_zero. rewrite !NoDup_cons in H. set_solver. }
  unfold session_limit, within_quota. destruct (tx_status t); try (do 2 eexists; naive_solver).
  - destruct (Z.eqb_spec (e_max_submits e) (-1)), (Z.leb_spec (e_max_submits e) (counter_value (tx_msg_received t)));
      simpl; do 2 eexists; split_and!; try done; try (split; [done|]; lia); naive_solver lia.
  - destruct (Z.eqb_spec (e_max_submits_unconnect e) (-1)),
      (Z.leb_spec (e_max_submits_unconnect e) (max_submits_unct_account e));
      simpl; do 2 eexists; split_and!; try done; try (split; [done|]; lia); naive_solver lia.
Qed.

(** The preconditions of the routing, from a session that is served; they
    only look at the accounts and the SMSCs. *)
Lemma rout_served p a pos e t dst :
  serves p a pos e t ->
  exists ret pre all, rout_pdu (srv p) (series p) (Some dst) (e_system_id e) = Done (ret, Some pre, Some all) /\
    ((ret = 0 /\ exists nt c, number_type (series p) dst = Some nt /\ c ∈ smscs (srv p) /\ carries nt c = true) \/
     (ret = -1 /\ ~ exists nt c, number_type (series p) dst = Some nt /\ c ∈ smscs (srv p) /\ carries nt c = true)).
Proof.
  intros Hp. destruct (bk_esme _ (sv_book Hp) a e (sv_esme Hp))
    as (_ & _ & _ & name & c & Hname & Hc & _).
  destruct (number_type_some (series p) dst (sv_series Hp)) as [nt Hnt].
  destruct (rout_pdu_lists (srv p) (series p) dst name nt c) as (ret & pre & all & Hr & _ & _ & Ho);
    [apply (sv_named Hp)|done|done|apply (sv_smscs Hp)| |].
  { unfold smsc_ids. rewrite length_app. assert (Hin : c ∈ translations (srv p)).
    { apply List.find_some in Hc as [Hc _]. by apply list_elem_of_In. }
    pose proof (sv_preferred Hp c Hin). destruct (cl_dedicated_smsc c); simpl; lia. }
  exists ret, pre, all. rewrite Hname. split; [done|]. rewrite Hnt.
  destruct Ho as [[-> (x & Hx & Hcx)]|[-> Hno]]; [left|right]; (split; [done|]); [by exists nt, x|].
  intros (nt' & x & [= <-] & Hx & Hcx). by rewrite Hno in Hcx.
Qed.

(** What is decided about a message. *)
Definition decided p e t (src dst : octstr) (status : Z) e' t'
    (acc : option (option octstr * option octstr * option octstr * option octstr)) : Prop :=
  tx_esme e' = tx_esme e /\ rx_esme e' = rx_esme e /\ e_system_id e' = e_system_id e /\
  (exists t1, (t1 = t \/ t1 = bump_unconnect t) /\
     t' = if decide (status = 0) then bump_sent t1 else bump_rejected t1) /\
  if decide (status = 0) then
    exists d o pre all, acc = Some (Some d, Some o, Some pre, Some all) /\
      octets d = national_part (octets dst) /\ octets o = octets src /\
      rout_pdu (srv p) (series p) (Some d) (e_system_id e) = Done (0, Some pre, Some all)
  else acc = None.

Lemma decided_refused p e t src dst status e' t1 :
  status <> 0 -> (t1 = t \/ t1 = bump_unconnect t) ->
  tx_esme e' = tx_esme e -> rx_esme e' = rx_esme e -> e_system_id e' = e_system_id e ->
  decided p e t src dst status e' (bump_rejected t1) None.
Proof.
  intros Hs Ht H1 H2 H3. unfold decided. destruct (decide (status = 0)); [done|].
  split_and!; try done. by exists t1.
Qed.

#[local] Hint Resolve decided_refused : core.

Lemma errors_fields : SMPP_ESME_RCANCELFAIL <> 0 /\ SMPP_ESME_RSUBMITFAIL <> 0.
Proof.
  pose proof errors_not_ok as H. rewrite !Forall_cons in H. rewrite rok_zero in *. tauto.
Qed.

Lemma hour_refused_spec hour e : hour_refused hour e = false <-> in_hours hour e.
Proof. unfold hour_refused, in_hours. rewrite orb_false_iff, !Z.leb_gt. lia. Qed.

Lemma judge_submit_spec p a pos e0 e t hour b src dst :
  serves p a pos e0 t -> e_system_id e = e_system_id e0 ->
  source_addr b = Some src -> destination_addr b = Some dst ->
  (Z.land (esm_class b) ESM_CLASS_SUBMIT_UDH_INDICATOR <> 0 -> is_Some (short_message b)) ->
  exists status e' t' acc, judge_submit p e t hour b = Done (status, e', t', acc) /\
    (status = 0 <-> acceptable p e t hour b src dst) /\ decided p e t src dst status e' t' acc.
Proof.
  intros Hp Hid Hs Hd Hc. unfold judge_submit, acceptable.
  destruct (server_limit_spec p (sv_forward Hp) (sv_reverse Hp))
    as (r & -> & Hr & Hr0). simpl.
  destruct r as [z|].
  { pose proof (Hr0 z eq_refl). do 4 eexists. split; [done|]. split; [|by eauto].
    split; [done|]. intros [H' _]. by apply Hr in H'. }
  destruct (session_limit_spec e t) as (r & t1 & -> & Hq & Hq0 & Ht1).
  assert (Ht : t1 = t \/ t1 = bump_unconnect t) by (rewrite Ht1; repeat case_match; auto).
  clear Ht1. destruct r as [z|].
  { pose proof (Hq0 z eq_refl). do 4 eexists. split; [done|]. split; [|by eauto].
    split; [done|]. intros (_ & H' & _). by apply Hq in H'. }
  destruct (verify_pdu_para_cases e b src dst Hs Hd Hc) as (reason & e1 & d & o & -> & Hv & Hdo & He1).
  assert (Hsame : tx_esme e1 = tx_esme e /\ rx_esme e1 = rx_esme e /\ e_system_id e1 = e_system_id e /\
    e_valid_time_from e1 = e_valid_time_from e /\ e_valid_time_to e1 = e_valid_time_to e).
  { rewrite He1. by case_match. }
  clear He1. destruct Hsame as (S1 & S2 & S3 & S4 & S5). cbn [mbind outcome_bind].
  pose proof (hour_refused_spec hour e1) as Hh. unfold in_hours in Hh. rewrite S4, S5 in Hh.
  destruct errors_fields as [Ef1 Ef2].
  destruct (hour_refused hour e1).
  { do 4 eexists. split; [done|]. split; [|by eauto]. split; [done|]. intros (_ & _ & _ & H & _). by apply Hh in H. }
  destruct (Z.eqb_spec reason SMPP_ESME_ROK) as [->|Hne]; simpl.
  2:{ do 4 eexists. split; [done|]. rewrite rok_zero in *. split; [|by eauto]. split; [done|].
      intros (_ & _ & H & _). by apply Hv in H. }
  destruct (Hdo eq_refl) as [-> ->]. rewrite S3, Hid.
  destruct (rout_served p a pos e0 t (strip_prefix dst) Hp) as (ret & pre & all & Hrout & Ho).
  rewrite Hrout. cbn [mbind outcome_bind]. fold (routable p dst) in Ho.
  destruct (Z.eqb_spec ret (-1)) as [Hret|Hret]; simpl.
  { do 4 eexists. split; [done|]. split; [|by eauto]. split; [done|].
    intros (_ & _ & _ & _ & H'). destruct Ho as [[? _]|[_ Ho]]; [lia|done]. }
  do 4 eexists. split; [done|]. split.
  - destruct Ho as [[_ Ho]|[? _]]; [|lia]. unfold in_hours. tauto.
  - split_and!; try done; [by exists t1|]. do 4 eexists. split_and!; [done|apply strip_prefix_spec|
      apply octstr_duplicate_spec|]. rewrite Hid, Hrout. destruct Ho as [[-> _]|[? _]]; [done|lia].
Qed.

Lemma book_now s now : book_ok s -> book_ok (set_now s now).
Proof. intros H. split; apply H. Qed.

Lemma serves_now p a pos e t now c last count :
  serves p a pos e t -> serves (set_counts (set_srv p (set_now (srv p) now)) c last count) a pos e t.
Proof. intros [Hb ? ? ? ? ? ? ? ? ?]. split; try done. by apply book_now. Qed.

(** What the database process is told about a message. *)
Definition reports (account : option octstr) (mid : octstr) (status : Z) (x : effect) : Prop :=
  match x with
  | ToDbbox (smpp_esme r) =>
      se_submit_status r = status /\ octets <$> se_account_name r = octets <$> account /\
      octets <$> se_account_msg_id r = Some (octets mid)
  | ToDbbox (common (insert_mis name id _ _ _ _ _ st _ _ _ _ _)) =>
      st = status /\ octets <$> name = octets <$> account /\ octets <$> id = Some (octets mid)
  | _ => False
  end.

(** What the client process gets. *)
Definition forwards (account : option octstr) (mid src dst : octstr) (q : SMPP_PDU) (x : effect) : Prop :=
  match x with
  | ToForward (submit m) =>
      octets <$> sb_account_name m = octets <$> account /\
      octets <$> sb_account_msg_id m = Some (octets mid) /\
      octets <$> sb_source_addr m = Some (octets src) /\
      octets <$> sb_destination_addr m = Some (national_part (octets dst)) /\
      sb_pdu m = smpp_pdu_pack q
  | _ => False
  end.

(** The counters of the session. *)
Definition counted t t' (status : Z) : Prop :=
  tx_msg_received t' = (counter_increase (tx_msg_received t)).2 /\
  if decide (status = 0)
  then tx_msg_sent t' = (counter_increase (tx_msg_sent t)).2 /\ tx_msg_rejected t' = tx_msg_rejected t
  else tx_msg_sent t' = tx_msg_sent t /\ tx_msg_rejected t' = (counter_increase (tx_msg_rejected t)).2.

Lemma octets_dup (o : option octstr) : octets <$> octstr_dup o = octets <$> o.
Proof. destruct o; simpl; [by rewrite octstr_duplicate_spec|done]. Qed.

Lemma submit_record_spec p e t b status mid :
  (data_coding b <> 0 -> is_Some (short_message b)) ->
  exists r, submit_record p e t b status mid = Done r /\
    reports (e_system_id e) mid status (ToDbbox (smpp_esme r)).
Proof.
  intros Hc. unfold submit_record.
  destruct (Z.eqb_spec (data_coding b) 0) as [|Hne].
  - simpl. eexists. split; [done|]. simpl. by rewrite octets_dup, octstr_duplicate_spec.
  - destruct (Hc Hne) as [sm ->]. simpl. eexists. split; [done|]. simpl.
    by rewrite octets_dup, octstr_duplicate_spec.
Qed.

Lemma send_dbbox_zero p m : is_Some (dbbox_client p) -> send_msg_dbbox_server p m 0 = perform p (ToDbbox m).
Proof. intros [d Hd]. unfold send_msg_dbbox_server. by rewrite Hd. Qed.

Lemma throttle_same now e :
  exists now' n et, throttle now e = (now', if e_max_tps e <? e_msg_count e then set_rate e n et else e).
Proof. unfold throttle. destruct (e_max_tps e <? e_msg_count e); eauto. Qed.

(** The limits and checks do not look at the count of the second. *)
Lemma acceptable_rate p e t hour b src dst n et now c last count :
  acceptable (set_counts (set_srv p (set_now (srv p) now)) c last count) (set_rate e n et) t hour b src dst
  <-> acceptable p e t hour b src dst.
Proof. done. Qed.

(** What the handlers of a session leave as it is: the accounts, the SMSCs,
    the list of ESMEs, the other processes and the series. *)
Record steady p p' : Prop := MkSteady {
  st_translations : translations (srv p') = translations (srv p);
  st_smscs : smscs (srv p') = smscs (srv p);
  st_list : esme_list (srv p') = esme_list (srv p);
  st_fresh : fresh_esme (srv p') = fresh_esme (srv p);
  st_forward : forward_client p' = forward_client p;
  st_reverse : reverse_client p' = reverse_client p;
  st_dbbox : dbbox_client p' = dbbox_client p;
  st_series : series p' = series p
}.

#[export] Instance steady_preorder : PreOrder steady.
Proof. split; [by split|]. intros x y z [] []. split; congruence. Qed.

(** Counting a message leaves the session what it is. *)
Definition same_session t t' : Prop :=
  tx_session_id t' = tx_session_id t /\ tx_conn t' = tx_conn t /\
  tx_data_to_write t' = tx_data_to_write t /\ tx_status t' = tx_status t.

Lemma send_dbbox_steady p m mode : steady p (send_msg_dbbox_server p m mode).
Proof. unfold send_msg_dbbox_server. repeat case_match; by split. Qed.

(** An accepted message is forwarded once, unless the database process checks
    every message. *)
Lemma forward_accepted_spec p e t e' t' now h b mid src dst status acc :
  decided p e t src dst status e' t' acc ->
  exists sent, let p' := forward_accepted p e' t' now h b mid acc in
    effects p' = effects p ++ sent /\ srv p' = srv p /\ steady p p' /\
    if decide (status = 0 /\ p_dndcheck_flag p = 0)
    then exists x, sent = [x] /\ forwards (e_system_id e) mid src dst (submit_sm h b) x else sent = [].
Proof.
  intros (_ & _ & D3 & _ & Hacc). unfold forward_accepted. destruct (decide (status = 0)) as [Hz|Hz];
    destruct (decide (status = 0 /\ p_dndcheck_flag p = 0)) as [Hb|Hb].
  - destruct Hacc as (d & o & pre & all & -> & Ed & Eo & _). destruct Hb as [_ ->].
    eexists. split_and!; [done|done|by split|]. eexists. split; [done|]. simpl.
    by rewrite octets_dup, octstr_duplicate_spec, Ed, Eo, D3.
  - destruct Hacc as (d & o & pre & all & -> & _).
    rewrite (proj2 (Z.eqb_neq (p_dndcheck_flag p) 0)) by tauto.
    exists []. by split_and!; [rewrite app_nil_r|..].
  - exfalso. tauto.
  - rewrite Hacc. exists []. by split_and!; [rewrite app_nil_r|..].
Qed.

(** One record for every message and a second one for a refusal. *)
Lemma record_submit_spec p e t b status mid :
  is_Some (dbbox_client p) -> (data_coding b <> 0 -> is_Some (short_message b)) ->
  exists p' recorded, record_submit p e t b status mid = Done p' /\
    effects p' = effects p ++ recorded /\ srv p' = srv p /\ steady p p' /\
    Forall (reports (e_system_id e) mid status) recorded /\
    length recorded = (if decide (status = 0%Z) then 1 else 2)%nat.
Proof.
  intros Hdb Hc. unfold record_submit. destruct (submit_record_spec p e t b status mid Hc) as (r & -> & Hr).
  cbn [mbind outcome_bind]. rewrite send_dbbox_zero by done. destruct (Z.eqb_spec status 0) as [Hz|Hz].
  - exists (perform p (ToDbbox (smpp_esme r))), [ToDbbox (smpp_esme r)].
    split_and!; [done|done|done|by split|by constructor|by rewrite decide_True].
  - unfold mis_db_insert. rewrite send_dbbox_zero by done. eexists _, [_; _].
    split_and!; [done|simpl; by rewrite <-app_assoc|done|by split| |by rewrite decide_False].
    constructor; [done|]. constructor; [|done]. simpl. by rewrite octets_dup, octstr_duplicate_spec.
Qed.

(** The whole effect of a submitted message. *)
Lemma handle_submit_sm_spec p (a pos : nat) e t h b (src dst : octstr)
    (Hp : serves p a pos e t)
    (Hs : source_addr b = Some src) (Hd : destination_addr b = Some dst)
    (Hc : Z.land (esm_class b) ESM_CLASS_SUBMIT_UDH_INDICATOR <> 0 \/ data_coding b <> 0 ->
          is_Some (short_message b)) :
  exists status mid p' e' t' sent recorded,
    handle_submit_sm p a pos 1 h b
    = Done (submit_sm_resp (MkHeader status (sequence_number h)) (Some mid), p') /\
    (status = 0 <-> acceptable p e t (tm_hour (localtime (srv_now (srv p)))) b src dst) /\
    effects p' = effects p ++ sent ++ recorded /\
    (if decide (status = 0 /\ p_dndcheck_flag p = 0)
     then exists x, sent = [x] /\ forwards (e_system_id e) mid src dst (submit_sm h b) x
     else sent = []) /\
    Forall (reports (e_system_id e) mid status) recorded /\
    length recorded = (if decide (status = 0%Z) then 1 else 2)%nat /\
    heap (srv p') = <[a:=e']> (heap (srv p)) /\ tx_esme e' = <[pos:=t']> (tx_esme e) /\
    rx_esme e' = rx_esme e /\ counted t t' status /\
    e_system_id e' = e_system_id e /\ same_session t t' /\ steady p p'.
Proof.
  unfold handle_submit_sm. rewrite (sv_esme Hp). cbn [must mbind outcome_bind].
  destruct (throttle_same (srv_now (srv p)) e) as (now & n & et & ->).
  set (e1 := if e_max_tps e <? e_msg_count e then set_rate e n et else e).
  assert (He1 : tx_esme e1 = tx_esme e /\ rx_esme e1 = rx_esme e /\ e_system_id e1 = e_system_id e)
    by (unfold e1; by case_match).
  destruct He1 as (T1 & T2 & T3). rewrite T1, (sv_tx Hp). cbn [must mbind outcome_bind Z.eqb].
  set (mid := new_message_id _ _ _). set (p1 := set_counts (set_counts _ _ _ _) _ _ _).
  set (hour := tm_hour _).
  assert (Hp1 : serves p1 a pos e t) by (by apply (serves_now p)).
  destruct (judge_submit_spec p1 a pos e e1 t hour b src dst Hp1 T3 Hs Hd ltac:(auto))
    as (status & e2 & t2 & acc & -> & Hst & Hdec).
  assert (Hst' : status = 0 <-> acceptable p e t hour b src dst).
  { rewrite Hst. unfold e1. destruct (_ <? _); done. }
  clear Hst. cbn [mbind outcome_bind].
  destruct (forward_accepted_spec p1 e1 t e2 t2 now h b mid src dst status acc Hdec)
    as (sent & Esent & Esrv & Hst2 & Hsent). set (p2 := forward_accepted _ _ _ _ _ _ _ _) in *.
  destruct (record_submit_spec p2 e2 t2 b status mid) as (p3 & recorded & -> & E3 & Esrv3 & Hst3 & Hrec & Hlen);
    [rewrite (st_dbbox _ _ Hst2); apply (sv_dbbox Hp)|auto|].
  destruct Hdec as (D1 & D2 & D3 & (t1 & Ht1 & Et2) & _). rewrite D3, T3 in Hrec. rewrite T3 in Hsent.
  clearbody p2. cbn [mbind outcome_bind Z.eqb Pos.eqb].
  do 7 eexists. split; [done|]. split; [exact Hst'|].
  split; [simpl; by rewrite E3, Esent, <-app_assoc|]. split; [exact Hsent|].
  split; [done|]. split; [done|]. split; [unfold put_esme; simpl; by rewrite Esrv3, Esrv|].
  split; [simpl; by rewrite D1, T1|]. split; [simpl; by rewrite D2, T2|].
  split; [rewrite Et2; destruct Ht1 as [-> | ->]; unfold counted; destruct (decide (status = 0)); done|].
  split; [simpl; by rewrite D3, T3|].
  split; [rewrite Et2; destruct Ht1 as [-> | ->]; unfold same_session; destruct (decide (status = 0)); done|].
  transitivity p3; [|by split]. transitivity p2; [|done]. transitivity p1; [by split|done].
Qed.


(** ** Binds *)

Context {KL : LinkLaws K}.

Definition bind_pdu (mode : Z) h (b : Bind) : SMPP_PDU :=
  if mode =? 1 then bind_transmitter h b else if mode =? 2 then bind_receiver h b
  else bind_transceiver h b.
Definition bind_answer (mode : Z) h : SMPP_PDU :=
  if mode =? 1 then bind_transmitter_resp h else if mode =? 2 then bind_receiver_resp h
  else bind_transceiver_resp h.
Definition bind_port p (mode : Z) : Z :=
  if mode =? 1 then trans_port p else if mode =? 2 then recv_port p else trans_recv_port p.

(** The bind came to its port while all servers can be reached. *)
Definition bind_served p (tc : TEMPCONN) (mode : Z) : Prop :=
  running p = true /\ tc_listen_port tc = bind_port p mode /\ check_server_connections p = 0.

Lemma bind_errors : SMPP_ESME_RBINDFAIL <> 0 /\ SMPP_ESME_RINVCMDID <> 0 /\ SMPP_ESME_RINVSYSID <> 0 /\
  SMPP_ESME_RINVPASWD <> 0 /\ SMPP_ESME_RINVEXPIRY <> 0.
Proof.
  pose proof errors_not_ok as H. rewrite !Forall_cons in H. rewrite rok_zero in H.
  pose proof status_distinct as H'. rewrite NoDup_cons, rok_zero in H'. destruct H' as [H' _].
  split_and!; try tauto; intros E0; apply H'; rewrite <-E0; set_solver.
Qed.

Lemma refusals_nonzero code : refusal code -> tx_refusal code <> 0 /\ rx_refusal code <> 0.
Proof.
  intros Hc. pose proof bind_errors as (E1 & E2 & E3 & E4 & E5). unfold refusal in Hc.
  apply List.existsb_exists in Hc as (x & Hx & ->%Z.eqb_eq).
  repeat destruct Hx as [<-|Hx]; try done.
Qed.

Lemma connections_range p : check_server_connections p = 0 \/ check_server_connections p = -1.
Proof. unfold check_server_connections. repeat case_match; auto. Qed.

(** The position of the session that a login added. *)
Definition str_id (x : session_str) : Z :=
  match x with TxStr t => tx_session_id t | RxStr r => rx_session_id r end.

Lemma list_find_new {A} (id : A -> Z) sid l x :
  sid ∉ (id <$> l) -> id x = sid -> list_find (fun y => id y = sid) (l ++ [x]) = Some (length l, x).
Proof.
  intros Hn Hx. apply list_find_Some. split_and!; [|done|].
  - rewrite lookup_app_r, Nat.sub_diag by lia. done.
  - intros j y Hj Hlt Hy. rewrite lookup_app_l in Hj by done. apply Hn. apply list_elem_of_fmap.
    exists y. split; [done|]. by eapply list_elem_of_lookup_2.
Qed.

Lemma logged_in_str s s' p name a mode tc :
  1 <= mode <= 3 -> 1 <= tc_session_id tc -> srv p = s' -> logged_in s s' name a mode tc ->
  exists e pos x, heap s' !! a = Some e /\ get_session_str e mode (tc_session_id tc) = Some pos /\
    get_str p a pos mode = Done x /\ str_id x = tc_session_id tc /\
    (0 < (if (mode =? 2)%Z then length (rx_esme e) else length (tx_esme e)))%nat.
Proof.
  intros Hm Hsid Hs (_ & _ & e & Hh & _ & Hl). exists e. unfold get_session_str, get_str.
  rewrite Hs, Hh, lookup_insert_eq.
  assert ((tc_session_id tc <? 1) || (mode <? 1) || (3 <? mode) = false) as ->.
  { rewrite !orb_false_iff, !Z.ltb_ge. lia. }
  destruct (Z.eqb_spec mode 2) as [->|Hne].
  - destruct Hl as (_ & Hn & x & El & Hx & _). rewrite !El, (list_find_new _ (tc_session_id tc) _ x) by done. simpl.
    eexists _, (RxStr x). split_and!; [done|done| |done|rewrite length_app; simpl; lia].
    rewrite El, lookup_app_r, Nat.sub_diag by lia. done.
  - destruct Hl as (_ & Hn & x & El & Hx & _). rewrite !El, (list_find_new _ (tc_session_id tc) _ x) by done. simpl.
    eexists _, (TxStr x). split_and!; [done|done| |done|rewrite length_app; simpl; lia].
    rewrite El, lookup_app_r, Nat.sub_diag by lia. done.
Qed.

(** Putting a session back that has the same id keeps the invariant. *)
Lemma put_str_ok p a pos mode x y :
  book_ok (srv p) -> get_str p a pos mode = Done x -> str_id y = str_id x ->
  match x, y with TxStr _, TxStr _ | RxStr _, RxStr _ => True | _, _ => False end ->
  exists p', put_str p a pos y = Done p' /\ book_ok (srv p') /\
    get_str p' a pos mode = Done y /\ effects p' = effects p.
Proof.
  intros H Hx Hid Hxy. unfold get_str in Hx. apply bind_Done in Hx as (e & He%must_Done & Hx).
  destruct (bk_esme _ H a e He) as (Hne & Htx & Hrx & name & t & Hname & Ht & Hwt & Hwr).
  unfold put_str. rewrite He. simpl. eexists. split; [done|].
  assert (Hins : forall {A} (f : A -> Z) (l : list A) u v, l !! pos = Some u -> f v = f u ->
    f <$> <[pos:=v]> l = f <$> l /\ (l <> [] -> <[pos:=v]> l <> []) /\ length (<[pos:=v]> l) = length l).
  { intros A f l u v Hu Huv. split_and!; [|by destruct l, pos|by rewrite length_insert].
    rewrite list_fmap_insert, Huv. apply list_insert_id. by rewrite list_lookup_fmap, Hu. }
  destruct (Z.eqb_spec mode 2) as [->|Hm]; apply bind_Done in Hx as (u & Hu%must_Done & [= <-]);
    destruct y as [v|v]; try done; simpl in Hid.
  - destruct (Hins _ rx_session_id _ u v Hu Hid) as (E1 & E2 & E3). split.
    + apply (book_update (srv p) a e); try done.
      split; [simpl; destruct Hne; [by left|right; auto]|]. simpl. rewrite E1, E3.
      split_and!; try done. by exists name, t.
    + split; [|done]. unfold get_str. simpl. rewrite lookup_insert_eq. simpl.
      rewrite list_lookup_insert_eq; [done|by eapply lookup_lt_Some].
  - destruct (Hins _ tx_session_id _ u v Hu Hid) as (E1 & E2 & E3). split.
    + apply (book_update (srv p) a e); try done.
      split; [simpl; destruct Hne; [left; auto|by right]|]. simpl. rewrite E1, E3.
      split_and!; try done. by exists name, t.
    + split; [|done]. unfold get_str. simpl. rewrite lookup_insert_eq. simpl.
      rewrite (proj2 (Z.eqb_neq mode 2)) by done. simpl.
      rewrite list_lookup_insert_eq; [done|by eapply lookup_lt_Some].
Qed.

(** The three handlers, by mode. *)
Definition bind_handler_of (mode : Z) : bind_handler :=
  if mode =? 1 then handle_bind_transmitter else if mode =? 2 then handle_bind_receiver
  else handle_bind_transceiver.

Lemma handlers_conn_bind mode h b : handlers_conn (bind_pdu mode h b) = Some (bind_handler_of mode, h, b).
Proof. unfold bind_pdu, bind_handler_of. by repeat case_match. Qed.

Lemma bind_handler_spec mode : 1 <= mode <= 3 ->
  let k := bind_handler_of mode in
  bh_mode k = mode /\ (forall p, bh_port k p = bind_port p mode) /\ bh_resp k = bind_answer mode /\
  bh_unserved k <> 0 /\ (forall code, refusal code -> bh_refusal k code <> 0) /\ bh_refusal k 0 = 0 /\
  forall e, bh_sessions k e = if mode =? 2 then length (rx_esme e) else length (tx_esme e).
Proof.
  intros Hm. pose proof bind_errors as (E1 & E2 & _).
  assert (mode = 1 \/ mode = 2 \/ mode = 3) as [-> | [-> | ->]] by lia; simpl;
    split_and!; try done; intros code Hc; apply (refusals_nonzero code Hc).
Qed.

(** What the first part decides. *)
Lemma bind_begin_spec p tc mode h b name :
  book_ok (srv p) -> Forall named (translations (srv p)) -> system_id b = Some name -> 1 <= mode <= 3 ->
  tc_bind_successful tc = 0 ->
  (exists status, bind_begin p tc (bind_handler_of mode) h b = Done (inl (status, tc)) /\ status <> 0 /\
     ~ (bind_served p tc mode /\ exists u, admissible (srv p) b name mode u)) \/
  (exists u present, bind_begin p tc (bind_handler_of mode) h b
       = Done (inr (MkLogin (bind_handler_of mode) h b u present)) /\
     bind_served p tc mode /\ admissible (srv p) b name mode u /\ may_join (srv p) name mode u present).
Proof.
  intros H Hn Hid Hm Htc. destruct (bind_handler_spec mode Hm) as (Emode & Eport & _ & Hu & Hr & _).
  assert (Htc' : with_success tc 0 = tc) by (rewrite <-Htc; by destruct tc).
  pose proof bind_errors as (E1 & E2 & _). unfold bind_begin, bind_served. rewrite Eport, Emode.
  destruct (running p); simpl; [|left; eexists; split; [done|]; naive_solver].
  destruct (Z.eqb_spec (tc_listen_port tc) (bind_port p mode)) as [Hport|Hport]; simpl;
    [|left; eexists; split; [done|]; naive_solver].
  destruct (connections_range p) as [Hc|Hc]; rewrite Hc; simpl;
    [|left; eexists; split; [done|]; split; [done|]; intros [(_ & _ & ?) _]; congruence].
  destruct (authorise_check_spec (srv p) b name mode H Hn Hid Hm) as ([code|u present] & -> & Hv); simpl.
  - left. rewrite Htc'. eexists. split; [done|]. destruct Hv as [Hcode Hna]. split; [by apply Hr|].
    intros [_ [u Hu']]. by destruct (Hna u).
  - right. exists u, present. destruct Hv as [Ha Hp]. do 3 (split; [done|]).
    split; [apply Ha|]. split; [apply Ha|done].
Qed.

(** The second part succeeds as long as what the first found still holds. *)
Lemma bind_end_spec p thread tc l mode name :
  book_ok (srv p) -> Forall named (translations (srv p)) -> system_id (lg_bind l) = Some name ->
  1 <= mode <= 3 -> lg_handler l = bind_handler_of mode ->
  may_join (srv p) name mode (lg_client l) (lg_present l) ->
  exists a s' tc', bind_end p thread tc l = Done (0, a, with_success tc' 1, set_srv p s') /\
    book_ok s' /\ logged_in (srv p) s' name a mode tc' /\ tc_mode tc' = mode /\
    tc_conn tc' = tc_conn tc /\ 1 <= tc_session_id tc' /\
    forall n, octets n <> octets name -> account_stays (srv p) s' n.
Proof.
  intros H Hn Hid Hm Hk Hj. destruct (bind_handler_spec mode Hm) as (Emode & _ & _ & _ & _ & Er & Es).
  unfold bind_end. rewrite Hk, Emode.
  destruct (authorise_commit_spec (srv p) (lg_bind l) (lg_header l) mode thread tc (lg_client l) (lg_present l) name)
    as (a & s' & tc' & -> & Hb & Hl & Hmode & Hconn & Hstay); try done. cbn [mbind outcome_bind].
  exists a, s', tc'.
  assert (Hs : 1 <= tc_session_id tc').
  { destruct Hl as (_ & _ & e' & Hh & _ & Hl). destruct (bk_esme s' Hb a e') as (_ & [_ Htx] & [_ Hrx] & _).
    { by rewrite Hh, lookup_insert_eq. }
    rewrite Forall_fmap, Forall_forall in Htx. rewrite Forall_fmap, Forall_forall in Hrx. destruct (mode =? 2).
    - destruct Hl as (_ & _ & x & Ex & <- & _). apply Hrx. rewrite Ex. set_solver.
    - destruct Hl as (_ & _ & x & Ex & <- & _). apply Htx. rewrite Ex. set_solver. }
  destruct (logged_in_str (srv p) s' (set_srv p s') name a mode tc')
    as (es & pos & x & Hes & _ & _ & _ & Hlen); [done..|].
  rewrite Hes. simpl. rewrite Es, (proj2 (Nat.ltb_lt _ _) Hlen), Er. by split_and!.
Qed.

(** The answers of the two parts. *)
Lemma bind_arrives_eq p tc mode h b :
  1 <= mode <= 3 ->
  bind_arrives p tc (bind_pdu mode h b)
  = r ← bind_begin p tc (bind_handler_of mode) h b;
    match r with
    | inl (status, tc) =>
        os ← must (pack_bind_resp (bind_answer mode (MkHeader status (sequence_number h)))
                     (octstr_dup (smsc_system_id p)) SMPP_SERVER_VERSION);
        '(tc, _) ← write_temp p tc None os;
        Done (inl tc)
    | inr l => Done (inr l)
    end.
Proof.
  intros Hm. destruct (bind_handler_spec mode Hm) as (_ & _ & Er & _).
  unfold bind_arrives. rewrite handlers_conn_bind. destruct (bind_begin _ _ _ _ _) as [[[st tc']|l]|]; [|done..].
  cbn [mbind outcome_bind]. unfold write_answer, bind_info. cbn [bi_resp bi_system_id bi_version bi_esme].
  rewrite Er. by destruct (pack_bind_resp _ _ _).
Qed.

Lemma bind_completes_eq p thread tc l mode :
  1 <= mode <= 3 -> lg_handler l = bind_handler_of mode ->
  bind_completes p thread tc l
  = '(status, a, tc, p) ← bind_end p thread tc l;
    os ← must (pack_bind_resp (bind_answer mode (MkHeader status (sequence_number (lg_header l))))
                 (octstr_dup (smsc_system_id p)) SMPP_SERVER_VERSION);
    '(tc, p) ← write_temp p tc (Some a) os;
    Done (Some a, tc, p).
Proof.
  intros Hm Hk. destruct (bind_handler_spec mode Hm) as (_ & _ & Er & _).
  unfold bind_completes, write_answer, bind_info. cbn [bi_resp bi_system_id bi_version bi_esme].
  by rewrite Hk, Er.
Qed.

(** C12 The first PDU of a connection is a bind.  It is answered, and the
    answer says success exactly when the server runs, the bind came to the
    port of its mode, the other servers can be reached and the account may
    log in.  After a success the thread has a session whose id and
    connection are those of the bind, so that what is written to one is
    written to the other; after a refusal nothing has changed. *)
Theorem handle_pdu_bind_outcome p (thread : Z) tc (mode : Z) h b name
    (H : book_ok (srv p)) (Hn : Forall named (translations (srv p))) (Hid : system_id b = Some name)
    (Hm : 1 <= mode <= 3) (Htc : tc_bind_successful tc = 0) (Hk : link_ok (tc_conn tc))
    (Hpack : forall q v i, is_Some (pack_bind_resp q v i)) :
  exists status os r tc' p',
    handle_pdu_bind p thread tc (bind_pdu mode h b) = Done (r, tc', p') /\
    pack_bind_resp (bind_answer mode (MkHeader status (sequence_number h)))
      (octstr_dup (smsc_system_id p)) SMPP_SERVER_VERSION = Some os /\
    link_stream (tc_conn tc') = link_stream (tc_conn tc) ++ octets os /\
    (status = 0 <-> bind_served p tc mode /\ exists u, admissible (srv p) b name mode u) /\
    book_ok (srv p') /\
    (status = 0 -> tc_bind_successful tc' = 1 /\ exists a pos x, r = Some a /\
       get_str p' a pos mode = Done x /\ str_id x = tc_session_id tc' /\ str_conn x = tc_conn tc') /\
    (status <> 0 -> tc_bind_successful tc' = 0 /\ r = None /\ p' = p).
Proof.
  unfold handle_pdu_bind. rewrite bind_arrives_eq by done.
  destruct (bind_begin_spec p tc mode h b name H Hn Hid Hm Htc)
    as [(status & -> & Hs & Hno)|(u & present & -> & Hsv & Ha & Hj)];
    cbn [mbind outcome_bind].
  - destruct (Hpack (bind_answer mode (MkHeader status (sequence_number h)))
      (octstr_dup (smsc_system_id p)) SMPP_SERVER_VERSION) as [os Hos]. rewrite Hos. simpl.
    destruct (conn_write_law (tc_conn tc) os Hk) as (_ & Hw & _).
    do 5 eexists. split; [done|]. split; [exact Hos|]. split; [exact Hw|]. split; [tauto|].
    split; [done|]. split; [done|]. intros _. by split.
  - set (l := MkLogin _ h b u present). rewrite (bind_completes_eq _ _ _ l mode) by done.
    destruct (bind_end_spec p thread tc l mode name) as (a & s' & tc1 & -> & Hb & Hl & Hmode & Hconn & Hsid & _);
      [done..|]. cbn [mbind outcome_bind].
    destruct (Hpack (bind_answer mode (MkHeader 0 (sequence_number h)))
      (octstr_dup (smsc_system_id p)) SMPP_SERVER_VERSION) as [os Hos]. cbn [l lg_header smsc_system_id set_srv].
    rewrite Hos. cbn [must mbind outcome_bind]. unfold write_temp.
    destruct (conn_write_law (tc_conn tc) os Hk) as (_ & Hw & _).
    cbn [with_success tc_conn tc_mode tc_session_id]. rewrite Hconn, Hmode.
    destruct (logged_in_str (srv p) s' (set_srv p s') name a mode tc1)
      as (es & pos & x & Hes & Hpos & Hx & Hxid & _); [done..|].
    cbn [srv set_srv]. rewrite Hes. cbn [must mbind outcome_bind]. rewrite Hpos, Hx. cbn [mbind outcome_bind].
    set (y := set_str x _ _ _ _).
    destruct (put_str_ok (set_srv p s') a pos mode x y) as (p' & -> & Hb' & Hy & _);
      [done|done|by destruct x|by destruct x|]. simpl.
    do 5 eexists. split; [done|]. split; [exact Hos|]. split; [exact Hw|].
    split; [split; [intros _; split; [done|by exists u]|done]|]. split; [done|].
    split; [intros _; split; [done|]|done]. exists a, pos, y. simpl.
    split_and!; [done|done|by destruct x|by destruct x].
Qed.

(** ** The table of SMSCs *)

(** A message that describes an SMSC, and a run of messages. *)
Definition describe (c : SMSC_Conn_List) : process_msg :=
  common (info_smsc (Some (sc_smsc_id c)) (Some (sc_smsc_type c)) (sc_conn_status c) (sc_conn_mode c)).

Fixpoint requests p (rand : nat -> nat) (l : list process_msg) : outcome Process :=
  match l with
  | [] => Done p
  | m :: l => p ← handle_request p rand m; requests p rand l
  end.

Lemma collect_step p rand c :
  running p = true -> smsc_data_recieved p < total_smsc p - 1 ->
  handle_request p rand (describe c)
  = Done (set_srv (set_totals p (total_smsc p) (smsc_data_recieved p + 1))
            (set_smscs (srv p) (smscs (srv p) ++ [c]))).
Proof.
  intros Hr Hlt. unfold handle_request. rewrite Hr. simpl.
  rewrite (proj2 (Z.ltb_lt (smsc_data_recieved p) (total_smsc p - 1))) by lia. by destruct c.
Qed.

Lemma collect_spec (l : list SMSC_Conn_List) rand : forall p,
  running p = true -> smsc_data_recieved p + Z.of_nat (length l) = total_smsc p - 1 ->
  requests p rand (describe <$> l)
  = Done (set_srv (set_totals p (total_smsc p) (total_smsc p - 1))
            (set_smscs (srv p) (smscs (srv p) ++ l))).
Proof.
  induction l as [|c l IH]; intros p Hr Hn; simpl in Hn; cbn [requests fmap list_fmap].
  - rewrite app_nil_r. assert (smsc_data_recieved p = total_smsc p - 1) as <- by lia.
    by destruct p as [[]].
  - rewrite collect_step by (done || lia). cbn [mbind outcome_bind].
    rewrite IH; [|done|simpl; lia]. simpl. f_equal. unfold set_srv, set_smscs. simpl.
    by rewrite <-app_assoc.
Qed.

(** After the collection an SMSC message changes the status. *)
Lemma status_change_spec p rand c :
  running p = true -> smsc_data_recieved p = total_smsc p - 1 ->
  book_ok (srv p) -> Forall named (translations (srv p)) ->
  let s1 := update_smsc_list (srv p) (sc_smsc_id c) (sc_conn_status c) in
  exists p', handle_request p rand (describe c) = Done p' /\
    smscs (srv p') = smscs s1 /\ esme_list (srv p') = esme_list (srv p) /\
    forall a, heap (srv p') !! a = adapt_esme s1 <$> heap (srv p) !! a.
Proof.
  intros Hr Hn H Hnamed s1. unfold handle_request. rewrite Hr, Hn. simpl. rewrite Z.ltb_irrefl. fold s1.
  assert (Hk : forall a, a ∈ esme_list s1 -> known s1 a).
  { intros a Ha. apply (bk_heap (srv p) H) in Ha as [e He].
    destruct (bk_esme _ H a e He) as (_ & _ & _ & name & u & Hid & Hu & _). by exists e, name, u. }
  destruct (update_loop_spec (esme_list s1) s1 (bk_nodup _ H) Hk Hnamed)
    as (s' & E1 & E2 & _ & _ & E3 & Hh).
  unfold update_esme_conn. rewrite E1. simpl. eexists. split; [done|]. simpl. split_and!; [done|done|].
  intros a. rewrite Hh. destruct (decide (a ∈ esme_list s1)) as [|Hna]; [done|].
  change (heap s1) with (heap (srv p)). change (esme_list s1) with (esme_list (srv p)) in Hna.
  rewrite (bk_heap (srv p) H) in Hna.
  destruct (heap (srv p) !! a); [by destruct Hna; eauto|done].
Qed.

(** C22 The table of SMSCs follows the client process.  When the process
    announces [n] SMSCs and describes [n], the table holds exactly these, in
    order, whatever it held before, and no session is touched.  A further
    description changes the status of the first SMSC with its id and nothing
    else in the table, and gives all transmitter sessions the status that
    fits the new table. *)
Theorem smsc_table_follows p rand (l : list SMSC_Conn_List) (c : SMSC_Conn_List)
    (Hr : running p = true) (H : book_ok (srv p)) (Hn : Forall named (translations (srv p))) :
  exists p1 p2,
    requests p rand (common (no_of_smsc (Z.of_nat (length l))) :: (describe <$> l)) = Done p1 /\
    smscs (srv p1) = l /\ heap (srv p1) = heap (srv p) /\ effects p1 = effects p /\
    handle_request p1 rand (describe c) = Done p2 /\
    smscs (srv p2)
    = alter_first (fun x => octstr_same (sc_smsc_id c) (sc_smsc_id x))
        (fun x => MkSmsc (sc_smsc_id x) (sc_smsc_type x) (sc_conn_status c) (sc_conn_mode x)) l /\
    forall a, heap (srv p2) !! a
      = adapt_esme (update_smsc_list (srv p1) (sc_smsc_id c) (sc_conn_status c)) <$> heap (srv p) !! a.
Proof.
  set (p0 := set_srv (set_totals p (Z.of_nat (length l)) (-1)) (smsc_init (srv p))).
  pose proof (collect_spec l rand p0 Hr ltac:(simpl; lia)) as Hc. simpl in Hc.
  set (p1 := set_srv _ _) in Hc.
  destruct (status_change_spec p1 rand c Hr eq_refl) as (p2 & E2 & Hs2 & _ & Hh2); [by split; apply H|done|].
  exists p1, p2. split_and!; try done.
  cbn [requests]. unfold handle_request at 1. rewrite Hr. simpl. exact Hc.
Qed.

End Facts.
