(* ===== verification/EsmeExamples.v ===== *)
(** * The server on examples

    A server with one account, one client that is logged in as transmitter
    and two SMSCs; the witnesses of the theorems about the server evaluate it
    on concrete PDUs and messages. *)

From S2P Require Import Prelude Gwlib Counter Dict Charset Conn World SmscConn.
From S2P Require Import SmppSession SessionFacts SessionExamples Esme EsmeFacts.
From S2P Require Import EsmePdu EsmePduFacts EsmeProc EsmeProcFacts.
Open Scope Z_scope.

#[export] Instance no_dates : TimeLib list_octstr := {| parse_date _ := None |}.

(** Days of 24 hours without time zone; a sender matches when it starts with
    the pattern; binary content stays as it is. *)
#[export] Instance plain_clock : Clock :=
  {| localtime z := MkTm 124 0 1 (z / 3600 mod 24) (z / 60 mod 60) (z mod 60) |}.

#[export] Instance plain_server : ServerLib list_octstr no_rest := {|
  pattern_list_matches_ip p o :=
    match p with
    | Some p => bool_decide (take (length p) (octets (OctstrLib:=list_octstr) o) = p)
    | None => false
    end;
  shell _ := [];
  replace_if_present_flag _ := 0;
  pack_bind_resp q _ v :=
    Some [byte_of (command_status (pdu_header q)); byte_of (sequence_number (pdu_header q)); byte_of v];
  octstr_binary_to_hex o := o;
|}.

#[export] Instance plain_admin : AdminNames :=
  {| admin_cmd_dbbox_disconnected := 10; admin_cmd_dbbox_connected := 11 |}.

Definition acme : Smsc_Client (O:=list_octstr) :=
  MkClient (O:=list_octstr) (Some (cstr "acme")) (Some (cstr "pw")) None None (Some (cstr "ACME")) None
    (Some (cstr "b")) (Some [cstr "nil"; cstr "a"]) 30 100 (-1) 50 4 0 2 1 (-1) 24.

Definition acme_tx (st : esme_status) : ESME_TX (O:=list_octstr) (K:=conn_link) :=
  MkTx (O:=list_octstr) (conn_wrap_fd (O:=list_octstr) fast_socket) counter_create counter_create
    counter_create counter_create 1 (MkCounter 7) (Some (cstr "10.0.0.1")) 4000 2775 0 st 0 1 5 [].

Definition acme_esme (st : esme_status) : ESME (O:=list_octstr) (K:=conn_link) :=
  MkEsme (O:=list_octstr) (Some (cstr "acme")) (Some (cstr "pw")) None None 0x34 0 0 30
    (Some (cstr "ACME")) None [acme_tx st] [] 100 (-1) 50 0 0 0 (-1) 24.

Definition two_smscs : list (SMSC_Conn_List (O:=list_octstr)) :=
  [MkSmsc (O:=list_octstr) (cstr "a") (cstr "gsm") 1 1; MkSmsc (O:=list_octstr) (cstr "b") (cstr "all") 1 3;
   MkSmsc (O:=list_octstr) (cstr "c") (cstr "cdma") 1 1].

Definition one_login (st : esme_status) : Server (O:=list_octstr) (K:=conn_link) :=
  MkServer (O:=list_octstr) (K:=conn_link) 36000 [acme] {[ 0%nat := acme_esme st ]} [0%nat] 1 two_smscs.

Definition no_login {K : Link list_octstr} : Server (O:=list_octstr) (K:=K) :=
  MkServer (O:=list_octstr) (K:=K) 36000 [acme] ∅ [] 0 two_smscs.

Definition acme_bind : Bind (O:=list_octstr) :=
  MkBind (O:=list_octstr) (Some (cstr "acme")) (Some (cstr "pw")) None 0x34 0 0 None.

Definition new_conn (port : Z) : TEMPCONN (O:=list_octstr) (K:=conn_link) :=
  MkTempConn (O:=list_octstr) (K:=conn_link) (conn_wrap_fd (O:=list_octstr) fast_socket)
    (Some (cstr "10.0.0.2")) 4001 port 0 1 0.

Lemma acme_named : Forall named [acme].
Proof. repeat constructor; eexists; reflexivity. Qed.

Lemma no_login_ok {K : Link list_octstr} : book_ok (K:=K) no_login.
Proof.
  split; simpl.
  - constructor.
  - intros a. rewrite lookup_empty. split; [set_solver|by intros [? ?]].
  - set_solver.
  - intros a b e e' He. by rewrite lookup_empty in He.
  - intros a e He. by rewrite lookup_empty in He.
Qed.

Lemma one_login_ok st : book_ok (one_login st).
Proof.
  split; simpl.
  - apply NoDup_singleton.
  - intros a. rewrite lookup_singleton_is_Some. set_solver.
  - intros a ->%list_elem_of_singleton. lia.
  - intros a b e e' [<- _]%lookup_singleton_Some [<- _]%lookup_singleton_Some. done.
  - intros a e [_ <-]%lookup_singleton_Some. split; [by left|].
    split; [split; [apply NoDup_singleton|apply Forall_singleton; simpl; lia]|].
    split; [split; [apply NoDup_nil_2|constructor]|]. exists (cstr "acme"), acme.
    split_and!; [done|reflexivity|unfold within; simpl; lia|unfold within; simpl; lia].
Qed.

Lemma acme_admissible st mode :
  mode = 1 \/ mode = 2 ->
  admissible (one_login st) acme_bind (cstr "acme") mode acme.
Proof. intros [-> | ->]; split_and!; reflexivity. Qed.

(** ** Witnesses *)

Lemma allocate_session_id_lowest_witness :
  allocate_session_id [1; 2; 4] ∉ [1; 2; 4] /\ 1 <= allocate_session_id [1; 2; 4] /\
  forall j, 1 <= j -> j ∉ [1; 2; 4] -> allocate_session_id [1; 2; 4] <= j.
Proof. apply (allocate_session_id_lowest [1; 2; 4]). repeat constructor; lia. Defined.

Lemma authorise_user_spec_witness :
  exists code r s' tc', authorise_user (one_login ESME_BINDED) acme_bind (MkHeader 0 3) 1 6 (new_conn 2775)
    = Done (code, r, s', tc') /\ book_ok s' /\
    (code = 0 <-> exists t, admissible (one_login ESME_BINDED) acme_bind (cstr "acme") 1 t).
Proof.
  destruct (authorise_user_spec (one_login ESME_BINDED) acme_bind (MkHeader 0 3) (cstr "acme") 1 6 (new_conn 2775)
    (one_login_ok _) acme_named eq_refl ltac:(lia)) as (c & r & s' & tc' & H1 & H2 & H3 & _).
  exists c, r, s', tc'. exact (conj H1 (conj H2 H3)).
Defined.

Lemma authorise_user_races_witness :
  exists a1 s1 tc1 a2 s2 tc2,
    authorise_check no_login acme_bind 1 = Done (Granted acme None) /\
    authorise_commit no_login acme_bind (MkHeader 0 3) 1 6 (new_conn 2775) acme None = Done (a1, s1, tc1) /\
    authorise_commit s1 acme_bind (MkHeader 0 3) 1 6 (new_conn 2775) acme None = Done (a2, s2, tc2) /\
    ~ book_ok s2.
Proof.
  destruct (authorise_user_races no_login acme_bind (MkHeader 0 3) (cstr "acme") 6 (new_conn 2775) acme
    no_login_ok acme_named eq_refl ltac:(split_and!; reflexivity)) as [H _].
  destruct (H eq_refl) as (a1 & s1 & tc1 & a2 & s2 & tc2 & H1 & H2 & H3 & _ & _ & _ & H4).
  exists a1, s1, tc1, a2, s2, tc2. exact (conj H1 (conj H2 (conj H3 H4))).
Defined.

Lemma esme_destroy_spec_witness :
  exists s' tx rx, esme_destroy (one_login ESME_BINDED) (Some 0%nat) 1 1 = Done s' /\ book_ok s' /\
    session_ended (acme_esme ESME_BINDED) 1 1 tx rx /\ (0%nat ∈ esme_list s' <-> ~ (tx = [] /\ rx = [])).
Proof.
  pose proof (esme_destroy_spec (one_login ESME_BINDED) 0 (acme_esme ESME_BINDED) 1 1 (one_login_ok _)
    eq_refl ltac:(auto) ltac:(lia)) as H. simpl in H.
  destruct H as (s' & tx & rx & H1 & H2 & H3 & _ & _ & H4).
  exists s', tx, rx. exact (conj H1 (conj H2 (conj H3 H4))).
Defined.

Lemma update_esme_conn_spec_witness :
  exists s', update_esme_conn (one_login ESME_SMSC_UNCONNECTED) = Done s' /\ book_ok s' /\
    exists e', heap s' !! 0%nat = Some e'.
Proof.
  destruct (update_esme_conn_spec (one_login ESME_SMSC_UNCONNECTED) (one_login_ok _) acme_named)
    as (s' & H1 & H2 & H3).
  destruct (H3 0%nat (acme_esme ESME_SMSC_UNCONNECTED) eq_refl) as (e' & He & _).
  exists s'. split; [exact H1|]. split; [exact H2|]. exists e'. exact He.
Defined.

(** Numbers that start with 98 are GSM numbers, all others are CDMA. *)
Definition two_series : Series (O:=list_octstr) :=
  MkSeries (O:=list_octstr) (Some (cstr "98")) None None (Some (cstr "cdma")).

Lemma rout_pdu_spec_witness :
  exists ret pre all,
    rout_pdu (O:=list_octstr) (one_login ESME_BINDED) two_series (Some (cstr "9812345678"))
      (Some (cstr "acme")) = Done (ret, Some pre, Some all) /\
    octets pre = [1; 0] /\ octets all = [] /\ ret = 0.
Proof.
  destruct (rout_pdu_spec (O:=list_octstr) (PX:=plain_prefixes) (one_login ESME_BINDED) two_series (cstr "9812345678")
    (cstr "acme") (cstr "gsm") acme acme_named eq_refl eq_refl) as (ret & pre & all & H1 & H2 & H3 & _ & H4).
  - simpl. lia.
  - simpl. lia.
  - exists ret, pre, all. split; [exact H1|]. rewrite H2 in H3. split; [rewrite H2; reflexivity|].
    split; [rewrite H3; reflexivity|]. destruct H4 as [[? _]|[_ H4]]; [done|].
    discriminate (H4 (MkSmsc (O:=list_octstr) (cstr "b") (cstr "all") 1 3)). set_solver.
Defined.

(** A message to a number with country code. *)
Definition hello (priority : Z) : SubmitSm (O:=list_octstr) :=
  MkSubmitSm (O:=list_octstr) None 5 0 (Some (cstr "ACME")) 1 1 (Some (cstr "919812345678"))
    0 priority 0 0 5 (Some (cstr "hello")) 0 (-1) tt.

Lemma verify_pdu_para_spec_witness :
  exists reason e' d o,
    verify_pdu_para (O:=list_octstr) (acme_esme ESME_BINDED) (hello 1) = Done (reason, e', d, o) /\
    (reason = SMPP_ESME_ROK <->
     submit_ok (O:=list_octstr) (acme_esme ESME_BINDED) (hello 1) (cstr "ACME") (cstr "919812345678")).
Proof.
  destruct (verify_pdu_para_spec (O:=list_octstr) (acme_esme ESME_BINDED) (hello 1) (cstr "ACME")
    (cstr "919812345678") eq_refl eq_refl) as (reason & e' & d & o & H1 & H2 & _).
  - intros H. destruct H. reflexivity.
  - exists reason, e', d, o. exact (conj H1 H2).
Defined.

Definition up : PROCESS_CLIENT := MkClientProc PROCESS_CONNECTED 0.

Definition running_server {K : Link list_octstr} (s : Server (O:=list_octstr) (K:=K))
    : Process (O:=list_octstr) (L:=list_gwlist) (K:=K) :=
  MkProcess (O:=list_octstr) (L:=list_gwlist) (K:=K) s true (Some up) (Some up) (Some up) 1 (-1) (-1) 0
    2775 2776 2777 (Some (cstr "smsc")) two_series counter_create 0 0 (-1) (-1)
    (dict_create 2 false) [].

Lemma acme_served : serves (running_server (one_login ESME_BINDED)) 0 0 (acme_esme ESME_BINDED) (acme_tx ESME_BINDED).
Proof.
  split; try (by eexists); try reflexivity.
  - apply one_login_ok.
  - apply acme_named.
  - simpl. lia.
  - intros c ->%list_elem_of_singleton. simpl. lia.
Qed.

Lemma hello_acceptable :
  acceptable (running_server (one_login ESME_BINDED)) (acme_esme ESME_BINDED) (acme_tx ESME_BINDED) 10
    (hello 1) (cstr "ACME") (cstr "919812345678").
Proof.
  split; [split_and!; [done|by left|done]|]. split; [by left|].
  split; [|split; [unfold in_hours; simpl; lia|exists (cstr "gsm"); eexists; split_and!;
    [reflexivity|apply list_elem_of_here|reflexivity]]].
  split; [split; unfold address_ok; simpl; split_and!; try lia; try set_solver;
    intros; try discriminate; split_and?; try lia; apply (bool_decide_unpack _); reflexivity|].
  split; [simpl; lia|]. split; [by left|]. split; [simpl; lia|]. split; [simpl; lia|].
  intros H. by destruct H.
Qed.


Lemma handle_pdu_bind_outcome_witness :
  exists status os r tc' p',
    handle_pdu_bind (running_server (one_login ESME_BINDED)) 6 (new_conn 2775)
      (bind_transmitter (MkHeader 0 3) acme_bind) = Done (r, tc', p') /\
    link_stream (tc_conn tc') = link_stream (tc_conn (new_conn 2775)) ++ octets (OctstrLib:=list_octstr) os /\
    book_ok (srv p') /\ status = 0.
Proof.
  destruct (handle_pdu_bind_outcome (running_server (one_login ESME_BINDED)) 6 (new_conn 2775) 1
    (MkHeader 0 3) acme_bind (cstr "acme") (one_login_ok _) acme_named eq_refl ltac:(lia) eq_refl)
    as (status & os & r & tc' & p' & H1 & _ & H2 & H3 & H4 & _).
  - apply wire_ok. repeat constructor.
  - intros q v i. eexists. reflexivity.
  - exists status, os, r, tc', p'. split; [exact H1|]. split; [exact H2|]. split; [exact H4|].
    apply H3. split; [split_and!; reflexivity|]. exists acme. apply acme_admissible. by left.
Defined.

Lemma smsc_table_follows_witness :
  exists p1 p2,
    requests (running_server (one_login ESME_BINDED)) (fun _ => 0%nat)
      (common (no_of_smsc 3) :: (describe <$> two_smscs)) = Done p1 /\ smscs (srv p1) = two_smscs /\
    handle_request p1 (fun _ => 0%nat) (describe (MkSmsc (O:=list_octstr) (cstr "a") (cstr "gsm") 0 1))
    = Done p2.
Proof.
  destruct (smsc_table_follows (running_server (one_login ESME_BINDED)) (fun _ => 0%nat) two_smscs
    (MkSmsc (O:=list_octstr) (cstr "a") (cstr "gsm") 0 1) eq_refl (one_login_ok _) acme_named)
    as (p1 & p2 & H1 & H2 & _ & _ & H3 & _).
  exists p1, p2. exact (conj H1 (conj H2 H3)).
Defined.
