(* ===== verification/Dbbox.v ===== *)
(** * The database process (smpp-dbbox/)

    The requests of the client and of the server become SQL statements over
    the connections of a pool, and their results become answers.  MySQL, the
    conversion of binary messages to text and the connections between the
    processes are parameters: a statement is given to [mysql_query] as a
    text, the clients of the process are numbers with the list of the
    answers for them.  A call that has to wait for a connection of the pool
    is a result of its own.  Debugging output is not modelled. *)

From S2P Require Import Prelude Gwlib Sql Counter DbPool Cfg Charset.
From S2P Require Import World EsmePdu EsmeProc.
Open Scope Z_scope.

(** [mysql_query], [mysql_store_result], [mysql_affected_rows] and
    [mysql_real_escape_string]; a column that is NULL is [None]. *)
Definition row : Type := list (option (list Z)).

Class MysqlLib (D : DbOps) : Type := {
  mysql_query : handle -> list Z -> dbase -> Z * dbase;
  mysql_store_result : handle -> dbase -> option (list row) * dbase;
  mysql_affected_rows : handle -> dbase -> Z;
  mysql_real_escape_string : handle -> list Z -> list Z;
}.

(** [binary_msg_to_ascii(content, &udh, &content)] and the variant for data
    codings other than 0: the result, the new header and the new content;
    [octstr_hex_to_binary], [atoi], and what [smpp_pdu_create] makes of a
    deliver_sm. *)
Class DbboxLib (O : OctstrLib) {R : PduRest} : Type := {
  binary_msg_to_ascii : option octstr -> Z * option octstr * option octstr;
  binary_msg_to_ascii_hindi : option octstr -> Z * option octstr * option octstr;
  octstr_hex_to_binary : octstr -> octstr;
  atoi : list Z -> Z;
  new_deliver : DeliverSm;
}.

Section Dbbox.
Context {O : OctstrLib} {L : GwListLib} {R : PduRest} {E : EsmeNames} {P : PduLib O R} {D : DbOps} {M : MysqlLib D} {B : DbboxLib O}.

(** ** Data *)

(** The names of the tables and their columns ([dlr_p.h]). *)
Record dlr_db_fields : Type := MkFields {
  f_table : octstr; f_account_name : octstr; f_account_msg_id : octstr; f_smsc_id : octstr;
  f_smsc_msg_id : octstr; f_msg_submit_time : octstr
}.
Record dlr_db_mis_fields : Type := MkMisFields {
  m_table : octstr; m_account_name : octstr; m_account_msg_id : octstr; m_smsc_id : octstr;
  m_smsc_msg_id : octstr; m_submit_status : octstr; m_submit_time : octstr; m_source_addr : octstr;
  m_dest_addr : octstr; m_recv_time : octstr; m_msg_content : octstr; m_udh : octstr;
  m_retry_value : octstr; m_Client_IP : octstr
}.
Record dlr_db_smpp_esme_fields : Type := MkEsmeFields {
  s_table : octstr; s_account_name : octstr; s_account_msg_id : octstr; s_source_addr : octstr;
  s_dest_addr : octstr; s_submit_status : octstr; s_recv_time : octstr; s_msg_content : octstr;
  s_udh : octstr; s_retry_value : octstr; s_dnd_flag : octstr; s_allowed_smsc : octstr;
  s_preferred_smsc : octstr; s_data_coding : octstr; s_more_messages_to_send : octstr; s_esm_class : octstr
}.
Record dlr_db_status_fields : Type := MkStatusFields {
  t_table : octstr; t_smsc_id : octstr; t_smsc_msg_id : octstr; t_dest_addr : octstr;
  t_deliver_status : octstr; t_deliver_time : octstr
}.

Record dlr_entry : Type := MkEntry {
  en_account_name : option octstr; en_account_msg_id : option octstr; en_smsc_id : option octstr;
  en_smsc_msg_id : option octstr; en_msg_submit_time : option octstr
}.

(** A client of this process: its name and the answers for it. *)
Record DB_CLIENT : Type := MkDbClient { conn_id : option octstr; send_list : list values_got_msg }.

(** A message that the process sends to the client process for sending. *)
Record data_submit : Type := MkDataSubmit {
  ds_account_name : octstr; ds_account_msg_id : octstr; ds_destination_addr : octstr; ds_source_addr : octstr;
  ds_data_coding : Z; ds_esm_class : Z; ds_more_messages_to_send : Z; ds_content : octstr; ds_udh : octstr
}.

Inductive db_event : Type :=
| Query (sql : list Z)                  (* mysql_query *)
| WakeClient (c : nat)                  (* gwthread_wakeup(c->thread_id) *)
| StartProcessing                       (* gwthread_create(msg_process) *)
| SendData (m : data_submit)            (* send_msg_process_client(dbdata_client, m) *)
| WriteFile (name : list Z) (text : list Z).

(** The module variables; [fields] and the others are NULL before
    [dlr_init_mysql], [handles] before [dlr_init]. *)
Record Dbbox : Type := MkDbbox {
  b_running : bool;
  b_pool : DBPool;
  handles : bool;
  fields : option dlr_db_fields;
  fields_mis : option dlr_db_mis_fields;
  fields_status : option dlr_db_status_fields;
  fields_smpp_esme : option dlr_db_smpp_esme_fields;
  clients : gmap nat DB_CLIENT;
  esme_process_client : option nat;
  total_inserts : Z;
  total_selects : Z;
  dnd_msg_counter : Counter;
  b_events : list db_event
}.
Implicit Types (s : Dbbox) (msg : values_got_msg).

Definition set_b_pool s (p : DBPool) : Dbbox :=
  MkDbbox (b_running s) p (handles s) (fields s) (fields_mis s) (fields_status s) (fields_smpp_esme s)
    (clients s) (esme_process_client s) (total_inserts s) (total_selects s) (dnd_msg_counter s) (b_events s).
Definition set_clients s cs : Dbbox :=
  MkDbbox (b_running s) (b_pool s) (handles s) (fields s) (fields_mis s) (fields_status s) (fields_smpp_esme s)
    cs (esme_process_client s) (total_inserts s) (total_selects s) (dnd_msg_counter s) (b_events s).
Definition set_esme_client s c : Dbbox :=
  MkDbbox (b_running s) (b_pool s) (handles s) (fields s) (fields_mis s) (fields_status s) (fields_smpp_esme s)
    (clients s) c (total_inserts s) (total_selects s) (dnd_msg_counter s) (b_events s).
Definition set_db_counts s inserts selects : Dbbox :=
  MkDbbox (b_running s) (b_pool s) (handles s) (fields s) (fields_mis s) (fields_status s) (fields_smpp_esme s)
    (clients s) (esme_process_client s) inserts selects (dnd_msg_counter s) (b_events s).
Definition set_dnd s c : Dbbox :=
  MkDbbox (b_running s) (b_pool s) (handles s) (fields s) (fields_mis s) (fields_status s) (fields_smpp_esme s)
    (clients s) (esme_process_client s) (total_inserts s) (total_selects s) c (b_events s).
Definition happen s (e : db_event) : Dbbox :=
  MkDbbox (b_running s) (b_pool s) (handles s) (fields s) (fields_mis s) (fields_status s) (fields_smpp_esme s)
    (clients s) (esme_process_client s) (total_inserts s) (total_selects s) (dnd_msg_counter s) (b_events s ++ [e]).
Definition set_storage s (p : DBPool) f m t e : Dbbox :=
  MkDbbox (b_running s) p true (Some f) (Some m) (Some t) (Some e)
    (clients s) (esme_process_client s) (total_inserts s) (total_selects s) (dnd_msg_counter s) (b_events s).

(** ** Calls that may have to wait *)

(** A result, or nothing while the thread waits for a connection. *)
Definition call (A : Type) : Type := Dbbox -> outcome (option A * Dbbox).

#[export] Instance call_ret : MRet call := fun A a s => Done (Some a, s).
#[export] Instance call_bind : MBind call := fun A B f m s =>
  rs ← m s; match rs with (Some a, s) => f a s | (None, s) => Done (None, s) end.

Definition lift {A} (o : outcome A) : call A := fun s => a ← o; Done (Some a, s).
Definition gets {A} (f : Dbbox -> A) : call A := fun s => Done (Some (f s), s).
Definition change (f : Dbbox -> Dbbox) : call unit := fun s => Done (Some tt, f s).

(** A connection is taken from the pool, used and given back. *)
Definition with_conn {A} (f : handle -> dbase -> A * dbase) : call A := fun s =>
  r ← dbpool_conn_consume (S (length (items (pool (b_pool s))))) (b_pool s);
  r ← must r;
  match r with
  | (Waits, p) => Done (None, set_b_pool s p)
  | (Got h, p) => let '(a, d) := f h (db p) in Done (Some a, set_b_pool s (dbpool_conn_produce (with_db p d) h))
  end.

(** ** SQL statements (dlr_mysql.c) *)

Definition mysql_update (sql : list Z) : call unit :=
  change (fun s => happen s (Query sql));; with_conn (fun h d => (tt, (mysql_query h (until_nul sql) d).2)).

Definition mysql_select (sql : list Z) : call (option (list row)) :=
  change (fun s => happen s (Query sql));;
  with_conn (fun h d =>
    let '(state, d) := mysql_query h (until_nul sql) d in
    if negb (state =? 0) then (None, d) else mysql_store_result h d).

(** The count is read when the connection was given back. *)
Definition mysql_update_counter (sql : list Z) : call Z :=
  change (fun s => happen s (Query sql));;
  with_conn (fun h d => let '(_, d) := mysql_query h (until_nul sql) d in (mysql_affected_rows h d, d)).

Definition mysql_escape (from_str : list Z) : call (list Z) :=
  with_conn (fun h d => (mysql_real_escape_string h from_str, d)).

(** A name in a statement, and [strcpy] of the name of a table into an array
    of 50 characters. *)
Definition name (o : octstr) : arg := Str (get_cstr (Some o)).
Definition text (o : option octstr) : arg := Str (get_cstr o).
Definition tablename (o : octstr) : call arg :=
  lift (_ ← gw_assert (Z.of_nat (length (get_cstr (Some o))) <? 50); Done (name o)).

Definition dlr_mysql_remove (smsc_id smscmsgid : option octstr) : call unit :=
  f ← gets fields; f ← lift (must f);
  mysql_update (octstr_format (cstr "DELETE FROM %s WHERE %s='%s' AND %s='%s' LIMIT 1;")
    [name (f_table f); name (f_smsc_id f); text smsc_id; name (f_smsc_msg_id f); text smscmsgid]).

(** A column that must not be NULL, as a C string. *)
Definition column (r : row) (i : nat) : call (list Z) := lift (c ← must (mjoin (r !! i)); Done (until_nul c)).

Definition dlr_mysql_messages : call Z :=
  f ← gets fields; f ← lift (must f);
  result ← mysql_select (octstr_format (cstr "SELECT count(*) FROM %s;") [name (f_table f)]);
  match result with
  | None => mret (-1)
  | Some [] => mret 0
  | Some (r :: _) => c ← column r 0; mret (atoi c)
  end.

Definition dlr_mysql_flush : call unit :=
  f ← gets fields; f ← lift (must f);
  mysql_update (octstr_format (cstr "DELETE FROM %s;") [name (f_table f)]).

Definition dlr_mysql_add (e : dlr_entry) : call unit :=
  f ← gets fields; f ← lift (must f);
  mysql_update (octstr_format (cstr "INSERT INTO %s(%s, %s, %s, %s, %s) VALUES ('%s','%s','%s','%s',now());")
    [name (f_table f); name (f_account_name f); name (f_account_msg_id f); name (f_smsc_id f);
     name (f_smsc_msg_id f); name (f_msg_submit_time f);
     text (en_account_name e); text (en_account_msg_id e); text (en_smsc_id e); text (en_smsc_msg_id e)]).

(** What a row says about a message. *)
Definition dlr_mysql_get (dest_addr smsc_msg_id : option octstr) : call (option values_got_msg) :=
  f ← gets fields_mis; f ← lift (must f);
  table ← tablename (m_table f);
  result ← mysql_select (octstr_format (cstr "SELECT %s, %s FROM %s WHERE %s='%s';")
    [name (m_account_name f); name (m_account_msg_id f); table; name (m_smsc_msg_id f); text smsc_msg_id]);
  match result with
  | None | Some [] => mret None
  | Some (r :: _) =>
      n ← column r 0; i ← column r 1;
      mret (Some (MkValuesGot 1 (Some (octstr_create n)) (Some (octstr_create i))
        (octstr_dup smsc_msg_id) (octstr_dup dest_addr) None))
  end.

(** [insert_mis] with the header of the content. *)
Record mis_record : Type := MkMis {
  mi_account_name : option octstr; mi_account_msg_id : option octstr; mi_req_time : option octstr;
  mi_smsc_id : option octstr; mi_smsc_msg_id : option octstr; mi_source_addr : option octstr;
  mi_dest_addr : option octstr; mi_submit_status : Z; mi_esm_class : Z; mi_msg_content : option octstr;
  mi_udh : option octstr; mi_retry_value : Z; mi_IP : option octstr
}.

Definition mis_insert (f : dlr_db_mis_fields) (table : arg) (escaped : list Z) (m : mis_record) : list Z :=
  octstr_format
    (cstr "INSERT  INTO %s(%s, %s, %s, %s, %s, %s, %s, %s, %s, %s, %s,%s,%s) VALUES ('%s','%s','%s','%s','%d', now(),'%s','%s','%s', '%d','%s','%s','%s') ;")
    [table; name (m_account_name f); name (m_account_msg_id f); name (m_smsc_id f); name (m_smsc_msg_id f);
     name (m_submit_status f); name (m_submit_time f); name (m_source_addr f); name (m_dest_addr f);
     name (m_msg_content f); name (m_retry_value f); name (m_udh f); name (m_recv_time f); name (m_Client_IP f);
     text (mi_account_name m); text (mi_account_msg_id m); text (mi_smsc_id m); text (mi_smsc_msg_id m);
     Num (mi_submit_status m); text (mi_source_addr m); text (mi_dest_addr m); Str escaped;
     Num (mi_retry_value m); text (mi_udh m); text (mi_req_time m); text (mi_IP m)].

Definition dlr_mysql_mis_add (m : mis_record) : call unit :=
  f ← gets fields_mis; f ← lift (must f);
  table ← tablename (m_table f);
  escaped ← mysql_escape (get_cstr (mi_msg_content m));
  mysql_update (mis_insert f table escaped m).

Definition status_insert (f : dlr_db_status_fields) (table : arg) (smsc_id smsc_msg_id dest_addr : option octstr) (deliver_status : Z) : list Z :=
  octstr_format (cstr "INSERT INTO %s(%s,%s,%s,%s,%s) VALUES ('%s','%s','%s','%d',now());")
    [table; name (t_smsc_id f); name (t_smsc_msg_id f); name (t_dest_addr f); name (t_deliver_status f); name (t_deliver_time f);
     text smsc_id; text smsc_msg_id; text dest_addr; Num deliver_status].

Definition dlr_mysql_status_add (smsc_id smsc_msg_id dest_addr : option octstr) (deliver_status : Z) : call unit :=
  f ← gets fields_status; f ← lift (must f);
  table ← tablename (t_table f);
  mysql_update (status_insert f table smsc_id smsc_msg_id dest_addr deliver_status).

Definition esme_insert (f : dlr_db_smpp_esme_fields) (table : arg) (escaped : list Z) (udh : option octstr) (m : smpp_esme_msg) : list Z :=
  octstr_format
    (cstr "INSERT  INTO %s(%s, %s, %s, %s, %s, %s, %s, %s,%s,%s,%s,%s,%s) VALUES ('%s','%s','%d','%s','%s','%s','%d','%s', '%s','%d','%d','%d','%d') ;")
    [table; name (s_account_name f); name (s_account_msg_id f); name (s_submit_status f); name (s_source_addr f);
     name (s_dest_addr f); name (s_msg_content f); name (s_retry_value f); name (s_udh f); name (s_recv_time f);
     name (s_dnd_flag f); name (s_data_coding f); name (s_esm_class f); name (s_more_messages_to_send f);
     text (se_account_name m); text (se_account_msg_id m); Num (se_submit_status m); text (se_source_addr m);
     text (se_dest_addr m); Str escaped; Num (se_retry_value m); text udh; text (se_req_time m);
     Num (se_dnd_flag m); Num (se_data_coding m); Num (se_esm_class m); Num (se_more_messages_to_send m)].

(** [udh] and [content] are the fields of the message, that were changed. *)
Definition dlr_smpp_esme_add (m : smpp_esme_msg) (udh content : option octstr) : call unit :=
  f ← gets fields_smpp_esme; f ← lift (must f);
  table ← tablename (s_table f);
  escaped ← mysql_escape (get_cstr content);
  mysql_update (esme_insert f table escaped udh m).

Definition dlr_mysql_check_conn : call unit := mysql_select (cstr "SELECT NOW();");; mret tt.

(** ** Delivery reports (dlr.c) *)

(** The functions of the storage are there when there is one. *)
Definition if_storage (f : call unit) : call unit := b ← gets handles; if b : bool then f else mret tt.

Definition dlr_messages : call Z := b ← gets handles; if b : bool then dlr_mysql_messages else mret (-1).

Definition or_empty (o : option octstr) : option octstr :=
  Some (match o with Some o => octstr_duplicate o | None => octstr_create [] end).

Definition dlr_add (account_name account_msg_id smsc_id smsc_msg_id : option octstr) : call unit :=
  if from_option octstr_len 0 smsc_id =? 0 then mret tt
  else if_storage (dlr_mysql_add (MkEntry (or_empty account_name) (or_empty account_msg_id)
                     (or_empty smsc_id) (or_empty smsc_msg_id) None)).

Definition not_found (dest_addr smscmsgid : option octstr) : values_got_msg :=
  MkValuesGot 0 None None (octstr_dup smscmsgid) (octstr_dup dest_addr) None.

Definition dlr_find (dest_addr smscmsgid : option octstr) : call values_got_msg :=
  b ← gets handles;
  if negb b then mret (not_found dest_addr smscmsgid)
  else
    msg ← dlr_mysql_get dest_addr smscmsgid;
    mret (match msg with Some msg => msg | None => not_found dest_addr smscmsgid end).

Definition dlr_remove (smsc_id smscmsgid : option octstr) : call unit := if_storage (dlr_mysql_remove smsc_id smscmsgid).
Definition dlr_mis_add (m : mis_record) : call unit := if_storage (dlr_mysql_mis_add m).
Definition dlr_smpp_esme (m : smpp_esme_msg) (udh content : option octstr) : call unit := if_storage (dlr_smpp_esme_add m udh content).
Definition dlr_status_add (smsc_id smsc_msg_id dest_addr : option octstr) (deliver_status : Z) : call unit :=
  if_storage (dlr_mysql_status_add smsc_id smsc_msg_id dest_addr deliver_status).
Definition dlr_flush : call unit := if_storage dlr_mysql_flush.
Definition dlr_check_conn : call unit := if_storage dlr_mysql_check_conn.

End Dbbox.
