(* ===== verification/DbboxProc.v ===== *)
(** * The requests of the database process and its start (smpp-dbbox/)

    [handle_request] of [smpp_dbbox.c], the thread that sends stored messages
    ([msg_process] of [dlr_mysql.c]) as turns, the file of the accounts that
    the process writes, and the start of the storage from the configuration.
    The random parts of the outside are arguments: the result of [fopen] and
    what the database is for given settings. *)

From S2P Require Import Prelude Gwlib Dict Sql Counter DbPool Cfg Charset.
From S2P Require Import World SmscConn SmppSession EsmePdu EsmeProc Dbbox.
Open Scope Z_scope.

Section Requests.
Context {O : OctstrLib} {L : GwListLib} {R : PduRest} {E : EsmeNames} {P : PduLib O R} {D : DbOps} {M : MysqlLib D} {B : DbboxLib O}.
Implicit Types (s : Dbbox).

(** ** Requests *)

(** What the other processes send. *)
Inductive db_request : Type :=
| Common (m : process_msg)
| values_get (smsc_msg_id dest_addr : option octstr).

(** An answer is put into the list of a client, which is woken. *)
Definition answer (c : nat) (v : values_got_msg) : call unit :=
  cs ← gets clients; cl ← lift (must (cs !! c));
  change (fun s => happen (set_clients s (<[c := MkDbClient (conn_id cl) (send_list cl ++ [v])]> cs)) (WakeClient c)).

Definition with_pdu (v : values_got_msg) (pdu : option octstr) : values_got_msg :=
  MkValuesGot (vg_result v) (vg_account_name v) (vg_account_msg_id v) (vg_smsc_msg_id v) (vg_dest_addr v) pdu.

(** The result for the server, when it is registered. *)
Definition tell_esme (v : values_got_msg) (pdu : option octstr) : call unit :=
  e ← gets esme_process_client;
  match e with
  | None => mret tt
  | Some c =>
      cs ← gets clients; cl ← lift (must (cs !! c));
      answer c (match conn_id cl with Some _ => with_pdu v pdu | None => v end)
  end.

Definition register (c : nat) (id : option octstr) : call unit :=
  cs ← gets clients; cl ← lift (must (cs !! c));
  change (fun s => set_clients s (<[c := MkDbClient (octstr_dup id) (send_list cl)]> cs));;
  id ← lift (must id); e ← gets esme_process_client;
  if octstr_same (octstr_duplicate id) (octstr_create (cstr "smpp-esme")) && bool_decide (e = None)
  then change (fun s => set_esme_client s (Some c)) else mret tt.

(** The header and the text of a message. *)
Definition split_udh (convert : option octstr -> Z * option octstr * option octstr) (esm_class : Z) (content : option octstr)
    : option octstr * option octstr :=
  if negb (Z.land esm_class ESM_CLASS_SUBMIT_UDH_INDICATOR =? 0) then let '(_, udh, content) := convert content in (udh, content)
  else (Some (octstr_create []), content).

Definition to_latin1 (content : option octstr) : outcome (option octstr) :=
  match content with Some o => o ← charset_gsm_to_latin1 o; Done (Some o) | None => Done None end.

Definition request_mis (m : mis_record) : call unit :=
  let '(udh, content) := split_udh binary_msg_to_ascii (mi_esm_class m) (mi_msg_content m) in
  content ← lift (to_latin1 content);
  dlr_mis_add (MkMis (mi_account_name m) (mi_account_msg_id m) (mi_req_time m) (mi_smsc_id m) (mi_smsc_msg_id m)
    (mi_source_addr m) (mi_dest_addr m) (mi_submit_status m) (mi_esm_class m) content udh (mi_retry_value m) (mi_IP m));;
  change (fun s => set_db_counts s (wrap_int (total_inserts s + 1)) (total_selects s)).

Definition request_status (smsc_id smsc_msg_id dest_addr pdu : option octstr) (deliver_status : Z) : call unit :=
  dlr_status_add smsc_id smsc_msg_id dest_addr deliver_status;;
  match smsc_msg_id, dest_addr with
  | Some _, Some _ => v ← dlr_find dest_addr smsc_msg_id; tell_esme v pdu
  | _, _ => mret tt
  end.

Definition request_esme (m : smpp_esme_msg) : call unit :=
  let '(udh, content) :=
    split_udh (if negb (se_data_coding m =? 0) then binary_msg_to_ascii_hindi else binary_msg_to_ascii) (se_esm_class m) (se_msg_content m) in
  dlr_smpp_esme m udh content.

Definition request_values (c : nat) (smsc_msg_id dest_addr : option octstr) : call unit :=
  change (fun s => set_db_counts s (total_inserts s) (wrap_int (total_selects s + 1)));;
  match smsc_msg_id, dest_addr with
  | Some _, Some _ => v ← dlr_find dest_addr smsc_msg_id; answer c v
  | _, _ => mret tt
  end.

(** [handle_request]; [c] is the client that sent it.  When the process does
    not run, the message is destroyed and used after that. *)
Definition db_handle_request (c : nat) (r : db_request) : call unit :=
  running ← gets b_running;
  if negb running then lift Panic else
  match r with
  | Common (admin command id) =>
      if command =? 1 then register c id
      else if command =? 808 then change (fun s => happen s StartProcessing)
      else mret tt
  | values_get smsc_msg_id dest_addr => request_values c smsc_msg_id dest_addr
  | Common (common (insert_mis an am rt si sm src dst st esm len content retry IP)) =>
      request_mis (MkMis an am rt si sm src dst st esm content None retry IP)
  | Common (common (insert_status si sm dst pdu st)) => request_status si sm dst pdu st
  | Common (smpp_esme m) => request_esme m
  | _ => mret tt
  end.

(** ** Stored messages *)

(** The header of a message, six numbers of two characters; the array has as
    many places as there are pairs of characters, and the six are read. *)
Definition udh_octets (udh : list Z) : outcome (list Z) :=
  _ ← gw_assert ((length udh mod 2 =? 0)%nat && (12 <=? length udh)%nat);
  Done ((fun i => atoi (take 2 (drop (2 * i) udh)) mod 256) <$> seq 0 6).

Definition stored_message (r : row) : call data_submit :=
  account_name ← column r 0; id ← column r 1; dest ← column r 5; source ← column r 4;
  coding ← column r 18; esm ← column r 19; more ← column r 20; content ← column r 13; udh ← column r 12;
  let content := octstr_create content in
  let content := if negb (atoi coding =? 0) then octstr_hex_to_binary content else content in
  content ← (if (0 <? length udh)%nat then
               l ← lift (udh_octets (octets (octstr_create udh))); mret (octstr_insert_data content 0 l)
             else mret content);
  mret (MkDataSubmit (octstr_create account_name) (octstr_create id) (octstr_create dest) (octstr_create source)
    (atoi coding) (atoi esm) (atoi more) content (octstr_create udh)).

(** The text of the receipt for a message that must not be sent; the arrays
    have 30, 24, 22 and 50 characters, and the last is read as a string. *)
Definition dnd_text (id submit_date done_date content : list Z) : outcome (list Z) :=
  _ ← gw_assert ((length id <? 30)%nat && (length submit_date <? 24)%nat && (length done_date <? 22)%nat && (length content <? 50)%nat);
  Done (octstr_format (cstr "id:%s sub:%s dlvrd:%s submit date:%s done date:%s stat:%s err:%s text:%s")
    [Str id; Str (cstr "001"); Str (cstr "000"); Str submit_date; Str done_date; Str (cstr "NDNC_Fail"); Str (cstr "003"); Str content]).

Definition dnd_deliver_sm_generate (r : row) : call unit :=
  counter ← gets dnd_msg_counter;
  let '(seq, counter) := counter_increase counter in
  change (fun s => set_dnd s counter);;
  id ← column r 1; submit_date ← column r 16; done_date ← column r 17; content ← column r 13;
  t ← lift (dnd_text id submit_date done_date content);
  source ← column r 5; dest ← column r 4;
  let b := new_deliver in
  let pdu := deliver_sm (new_header seq)
    (MkDeliverSm (Some (octstr_create source)) (Some (octstr_create dest)) 4 (d_sm_length b) (Some (octstr_create t))
       (message_payload b) (receipted_message_id b) (deliver_rest b)) in
  let os1 := smpp_pdu_pack pdu in
  let smsc_msg_id := Some (octstr_create id) in
  let dest_addr := Some (octstr_create source) in
  dlr_status_add (Some (octstr_create (cstr "MAX"))) smsc_msg_id dest_addr 101;;
  v ← dlr_find dest_addr smsc_msg_id;
  tell_esme v (octstr_dup os1).

(** A message that may be sent, and one that may not. *)
Definition process_row (r : row) : call unit :=
  dnd ← column r 15;
  (if atoi dnd =? 0 then m ← stored_message r; change (fun s => happen s (SendData m))
   else
     content ← column r 13;
     escaped ← mysql_escape content;
     c0 ← column r 0; c1 ← column r 1; c4 ← column r 4; c5 ← column r 5; c6 ← column r 6; c7 ← column r 7; c12 ← column r 12;
     mysql_update (octstr_format
       (cstr "insert into mis_table(ESMEAccName, ESMEAccMsgId, SMSCId, SMSCMsgId, SourceAddr, DestinationAddr, RecvTime, SubmittedStat,SubmitTime,UDH, Content) values ('%s','%s','MAX','%s','%s','%s','%s','%s',now(),'%s','%s')")
       [Str c0; Str c1; Str c1; Str c4; Str c5; Str c6; Str c7; Str c12; Str escaped]);;
     dnd_deliver_sm_generate r);;
  c1 ← column r 1;
  mysql_update (octstr_format (cstr "update process_table set read_flag = 1 where ESMEAccMsgId = '%s'") [Str c1]).

Fixpoint process_rows (rs : list row) : call unit :=
  match rs with [] => mret tt | r :: rs => process_row r;; process_rows rs end.

Definition stored_query : list Z :=
  cstr "SELECT ESMEAccName, ESMEAccMsgId, SMSCId, SMSCMsgId, SourceAddr, DestinationAddr, RecvTime, SubmittedStat, SubmitTime, DeliveredStat, DeliverTime, RetryValue, UDH, Content,Client_IP,dnd,DATE_FORMAT(RecvTime, '%y%m%d%H%i%s'),DATE_FORMAT(now(), '%y%m%d%H%i%s'),data_coding, esm_class, more_messages_to_send from process_table where read_flag=0 order by ESMEAccMsgId asc".

(** A turn of [msg_process]: whether the thread goes on, after ten seconds. *)
Definition msg_process_turn : call bool :=
  e ← gets esme_process_client;
  match e with
  | None => mret true
  | Some _ =>
      result ← mysql_select stored_query;
      match result with
      | None => mret false
      | Some rs => process_rows rs;; mret true
      end
  end.

End Requests.
