(* ===== verification/DbboxStart.v ===== *)
(** * The start of the database process (smpp-dbbox/)

    The names of the tables and their columns and the settings of MySQL from
    the configuration ([dlr.c], [dlr_mysql.c]), and the file with the
    accounts of the server that is written from the database. *)

From S2P Require Import Prelude Gwlib Dict Sql Counter DbPool Cfg.
From S2P Require Import World EsmePdu EsmeProc Dbbox.
Open Scope Z_scope.

Section Start.
Context {O : OctstrLib} {L : GwListLib} {R : PduRest} {E : EsmeNames} {P : PduLib O R} {D : DbOps} {M : MysqlLib D} {B : DbboxLib O}
  {C : CfgStrings O L} {PL : ParseLib O} {F : Files O} {SV : KeyedStore O L octstr}
  {SG : KeyedStore O L (CfgGroup (SV := SV))} {SM : KeyedStore O L (gwlist (CfgGroup (SV := SV)))}.
Variable h : Hooks.
Implicit Types (grp : CfgGroup (SV := SV)) (s : Dbbox).

(** A variable that must be there. *)
Definition directive grp (name : String.string) : outcome octstr := o ← cfg_var h grp name; must o.
Arguments directive _ _%_string.

Definition dlr_db_fields_create grp : outcome dlr_db_fields :=
  table ← directive grp "table";
  account_name ← directive grp "field-EsmeAccountName";
  account_msg_id ← directive grp "field-EsmeMsgId";
  smsc_id ← directive grp "field-SmscId";
  smsc_msg_id ← directive grp "field-SmscMsgId";
  msg_submit_time ← directive grp "field-DatetimeSubmit";
  Done (MkFields table account_name account_msg_id smsc_id smsc_msg_id msg_submit_time).

Definition dlr_db_fields_create_mis grp : outcome dlr_db_mis_fields :=
  table ← directive grp "table";
  account_name ← directive grp "field-EsmeAccountName";
  account_msg_id ← directive grp "field-EsmeMsgId";
  smsc_id ← directive grp "field-SmscId";
  smsc_msg_id ← directive grp "field-SmscMsgId";
  submit_status ← directive grp "field-SubmitStat";
  source_addr ← directive grp "field-SourceAddr";
  dest_addr ← directive grp "field-DestAddr";
  submit_time ← directive grp "field-DatetimeSubmit";
  msg_content ← directive grp "field-MsgContent";
  udh ← directive grp "field-UDH";
  recv_time ← directive grp "field-DatetimeRecv";
  retry_value ← directive grp "field-RetryValue";
  Client_IP ← directive grp "field-client-ip";
  Done (MkMisFields table account_name account_msg_id smsc_id smsc_msg_id submit_status submit_time source_addr
    dest_addr recv_time msg_content udh retry_value Client_IP).

Definition dlr_db_fields_create_status grp : outcome dlr_db_status_fields :=
  table ← directive grp "table";
  smsc_id ← directive grp "field-SmscId";
  smsc_msg_id ← directive grp "field-SmscMsgId";
  dest_addr ← directive grp "field-DestAddr";
  deliver_status ← directive grp "field-DelieverStat";
  deliver_time ← directive grp "field-DatetimeDeliver";
  Done (MkStatusFields table smsc_id smsc_msg_id dest_addr deliver_status deliver_time).

Definition dlr_db_fields_create_smpp_esme grp : outcome dlr_db_smpp_esme_fields :=
  table ← directive grp "table";
  account_name ← directive grp "field-EsmeAccountName";
  account_msg_id ← directive grp "field-EsmeMsgId";
  submit_status ← directive grp "field-SubmitStat";
  source_addr ← directive grp "field-SourceAddr";
  dest_addr ← directive grp "field-DestAddr";
  msg_content ← directive grp "field-MsgContent";
  udh ← directive grp "field-UDH";
  recv_time ← directive grp "field-DatetimeRecv";
  retry_value ← directive grp "field-RetryValue";
  allowed_smsc ← directive grp "allowed_smsc";
  preferred_smsc ← directive grp "preferred_smsc";
  dnd_flag ← directive grp "field-dnd-flag";
  data_coding ← directive grp "field-data-coding";
  esm_class ← directive grp "field-esm-class";
  more_messages_to_send ← directive grp "field-more-messages-to-send";
  Done (MkEsmeFields table account_name account_msg_id source_addr dest_addr submit_status recv_time msg_content udh
    retry_value dnd_flag allowed_smsc preferred_smsc data_coding more_messages_to_send esm_class).

(** [MySQLConf]. *)
Record MySQLConf : Type := MkMySQLConf {
  my_host : octstr; my_port : Z; my_username : octstr; my_password : octstr; my_database : octstr; my_socket : option octstr
}.

(** The first group of a list with the given id. *)
Fixpoint find_connection (grplist : list (CfgGroup (SV := SV))) (id : octstr) : outcome (CfgGroup (SV := SV)) :=
  match grplist with
  | [] => Panic
  | grp :: grplist =>
      p ← cfg_var h grp "id";
      if match p with Some p => octstr_same p id | None => false end then Done grp else find_connection grplist id
  end.

(** A group that must be there, with an id. *)
Definition storage_group (cfg : Cfg) (group : String.string) : outcome (CfgGroup (SV := SV) * octstr) :=
  grp ← cfg_get_single_group cfg (octstr_imm group); grp ← must grp;
  id ← directive grp "id"; Done (grp, id).
Arguments storage_group _ _%_string.

(** The pool for the settings; [server] is what the database is with them. *)
Definition mysql_pool (server : MySQLConf -> dbase) grp : outcome DBPool :=
  rn ← cfg_get_integer h 0 (Some grp) (octstr_imm "max-connections");
  let pool_size := if (rn.1 =? -1) || (rn.2 =? 0) then 1 else rn.2 in
  host ← directive grp "host";
  username ← directive grp "username";
  password ← directive grp "password";
  database ← directive grp "database";
  socket ← cfg_var h grp "socket";
  port ← cfg_get_integer h 0 (Some grp) (octstr_imm "port");
  let pool := dbpool_create (server (MkMySQLConf host port.2 username password database socket)) (wrap_uint pool_size) in
  _ ← gw_assert (negb (dbpool_conn_count pool =? 0));
  Done pool.

(** The id of the connection is that of the last group. *)
Definition dlr_init_mysql (server : MySQLConf -> dbase) (cfg : Cfg) s : outcome Dbbox :=
  g ← storage_group cfg "dlr-db"; fields ← dlr_db_fields_create g.1;
  g ← storage_group cfg "dlr-db-mis"; fields_mis ← dlr_db_fields_create_mis g.1;
  g ← storage_group cfg "dlr-db-status"; fields_status ← dlr_db_fields_create_status g.1;
  g ← storage_group cfg "dlr-db-smpp-esme"; fields_smpp_esme ← dlr_db_fields_create_smpp_esme g.1;
  grplist ← cfg_get_multi_group cfg (octstr_imm "mysql-connection");
  grp ← find_connection (from_option items [] grplist) g.2;
  pool ← mysql_pool server grp;
  Done (set_storage s pool fields fields_mis fields_status fields_smpp_esme).

(** Without a type the storage is internal, which is not supported. *)
Definition dlr_init (server : MySQLConf -> dbase) (cfg : Cfg) s : outcome Dbbox :=
  grp ← cfg_get_single_group cfg (octstr_imm "core"); grp ← must grp;
  dlr_type ← cfg_var h grp "dlr-storage";
  if octstr_same (default (octstr_imm "internal") dlr_type) (octstr_imm "mysql") then dlr_init_mysql server cfg s
  else Panic.

(** ** The file of the accounts *)

(** The addresses of all rows, in an array of 2022 characters. *)
Fixpoint ip_list (IP : list Z) (rs : list row) : call (list Z) :=
  match rs with
  | [] => mret IP
  | r :: rs => c ← column r 0; let IP := IP ++ c ++ [59] in lift (gw_assert (length IP <? 2022)%nat);; ip_list IP rs
  end.

Definition line (fmt : String.string) (args : list arg) : list Z := octstr_format (cstr fmt) args ++ [10].
Arguments line _%_string _.

Definition quoted (s : list Z) : list Z := [34] ++ s ++ [34].

(** The group [core]. *)
Definition esme_core (IP : list Z) : list Z :=
  line "group  = core" [] ++
  line "log-file  = /tmp/server_debug/esme/smpp_esme.log" [] ++
  line "access-log  = /tmp/server_debug/esme/access.log" [] ++
  line "log-level  = 0" [] ++
  line "trans-mode-port  = 3000" [] ++
  line "recv-mode-port  = 4000" [] ++
  line "transrecv-mode-port  = 5000" [] ++
  line "admin-port  = 34000" [] ++
  line "admin-password =foobar" [] ++
  line "connect-allow-ip  =%s" [Str (quoted IP)] ++
  line "gsm-series  = %s" [Str (quoted (cstr "98;99"))] ++
  line "cdma-series  = %s" [Str (quoted (cstr "92"))] ++
  line "dbbox-host  = %s" [Str (quoted (cstr "localhost"))] ++
  line "dbbox-port  = 20000" [] ++
  line "dbbox-reconnect-delay=5" [] ++
  line "smsc-host=localhost" [] ++
  line "smsc-reverse-port=22000" [] ++
  line "smsc-forward-port=21000" [] ++
  line "smsc-reconnect-delay=5" [] ++
  line "smsc-unconnect-q-limit = -1" [] ++
  line "dbbox-unconnect-q-limit=6" [] ++
  line "dbbox-ping-delay = 10" [] ++
  line "dbbox-pingack-timeout = 30" [] ++
  line "smsc-ping-delay = 10" [] ++
  line "smsc-pingack-timeout = 20" [] ++
  line "log-file-size = 10" [] ++
  line "log-interval = 60" [].

(** A number of a column. *)
Definition number (r : row) (i : nat) : call Z := c ← column r i; mret (wrap_int (atoi c)).

(** The group of an account. *)
Definition esme_group (r : row) : call (list Z) :=
  mode ← column r 0; acc ← column r 1; pass ← column r 2; from ← column r 3; to ← column r 4;
  log_file ← column r 5; log_level ← number r 6; uncon ← number r 7; submits ← number r 8;
  tx ← number r 9; rx ← number r 10; source ← lift (must (r !! 11%nat)); tps ← number r 12; dnd ← number r 13;
  dedicated ← column r 14;
  mret ([10] ++ line "group  = smpp-client" [] ++
    line "mode  = %s" [Str mode] ++
    line "account-name  = %s" [Str acc] ++
    line "password  = %s" [Str pass] ++
    line "validfrom  = %s" [Str from] ++
    line "validto  = %s" [Str to] ++
    line "log-file  = %s" [Str log_file] ++
    line "log-level  = %d" [Num log_level] ++
    line "max-submits-unconnect  = %d" [Num uncon] ++
    line "max-submits  = %d" [Num submits] ++
    line "max-tx-sessions  = %d" [Num tx] ++
    line "max-rx-sessions  = %d" [Num rx] ++
    line "max-rx-sessions  = %d" [Num rx] ++
    match source with Some p => line "account-allow-prefix  = %s" [Str (until_nul p)] | None => [] end ++
    line "max-tps = %d" [Num tps] ++
    line "dnd-check = %d" [Num dnd] ++
    line "dedicated-smsc  = %s" [Str dedicated]).

Fixpoint esme_groups (rs : list row) : call (list Z) :=
  match rs with [] => mret [] | r :: rs => g ← esme_group r; gs ← esme_groups rs; mret (g ++ gs) end.

Definition ip_query : list Z := cstr "SELECT IP_List FROM  esme_client_ip_info".
Definition accounts_query : list Z :=
  cstr "SELECT mode,esme_acc,esme_pass,esme_valid_from,ems_valid_to,esme_log_file,esme_log_level,max_submits_uncon,max_submits,max_tx_sessions,max_rx_sessions,allow_source,max_tps,dnd_check,dedicate_smsc FROM esme_client_info".

Definition esme_file_update (fopen : bool) (file_name : option octstr) : call unit :=
  result ← mysql_select ip_query;
  match result with
  | None => mret tt
  | Some rs =>
      IP ← ip_list [] rs;
      result ← mysql_select accounts_query;
      match result with
      | None | Some [] => mret tt
      | Some rs =>
          if negb fopen then mret tt
          else groups ← esme_groups rs; change (fun s => happen s (WriteFile (get_cstr file_name) (esme_core IP ++ groups)))
      end
  end.

(** [update_file]: the name is a variable of the group [core].  At its end
    the code destroys a string that was never set, which is left out. *)
Definition update_file (fopen : bool) (cfg : Cfg) : call unit :=
  grp ← lift (cfg_get_single_group cfg (octstr_imm "core")); grp ← lift (must grp);
  esme_file ← lift (cfg_var h grp "esme-file-path");
  esme_file_update fopen esme_file.

End Start.
