(* ===== verification/DbboxFacts.v ===== *)
(** * Facts about the database process

    What its statements mean to MySQL, and how an account is found for a
    receipt. *)

From S2P Require Import Prelude Gwlib Dict Sql Counter DbPool DbPoolFacts.
From S2P Require Import Charset World EsmePdu EsmeProc Dbbox DbboxProc.
Open Scope Z_scope.

(** ** Statements *)

Section Statements.
Context {O : OctstrLib} {L : GwListLib} {R : PduRest} {E : EsmeNames} {P : PduLib O R} {D : DbOps} {M : MysqlLib D} {B : DbboxLib O}.

Definition cname (o : octstr) : list Z := get_cstr (Some o).
Definition names_ok (l : list octstr) : Prop := Forall (fun o => name_ok (cname o) = true) l.
Definition plain_text (o : option octstr) : Prop := plain (get_cstr o) = true.

Definition mis_columns (f : dlr_db_mis_fields) : list octstr :=
  [m_account_name f; m_account_msg_id f; m_smsc_id f; m_smsc_msg_id f; m_submit_status f; m_submit_time f; m_source_addr f;
   m_dest_addr f; m_msg_content f; m_retry_value f; m_udh f; m_recv_time f; m_Client_IP f].
Definition mis_values (m : mis_record) : list value :=
  [Text (get_cstr (mi_account_name m)); Text (get_cstr (mi_account_msg_id m)); Text (get_cstr (mi_smsc_id m));
   Text (get_cstr (mi_smsc_msg_id m)); Text (format_ld (mi_submit_status m)); Now; Text (get_cstr (mi_source_addr m));
   Text (get_cstr (mi_dest_addr m)); Text (get_cstr (mi_msg_content m)); Text (format_ld (mi_retry_value m));
   Text (get_cstr (mi_udh m)); Text (get_cstr (mi_req_time m)); Text (get_cstr (mi_IP m))].
(** The fields that are not escaped. *)
Definition mis_plain (m : mis_record) : Prop :=
  Forall plain_text [mi_account_name m; mi_account_msg_id m; mi_smsc_id m; mi_smsc_msg_id m; mi_source_addr m; mi_dest_addr m;
    mi_udh m; mi_req_time m; mi_IP m].

Definition status_columns (f : dlr_db_status_fields) : list octstr :=
  [t_smsc_id f; t_smsc_msg_id f; t_dest_addr f; t_deliver_status f; t_deliver_time f].

Definition esme_columns (f : dlr_db_smpp_esme_fields) : list octstr :=
  [s_account_name f; s_account_msg_id f; s_submit_status f; s_source_addr f; s_dest_addr f; s_msg_content f; s_retry_value f;
   s_udh f; s_recv_time f; s_dnd_flag f; s_data_coding f; s_esm_class f; s_more_messages_to_send f].
Definition esme_values (m : smpp_esme_msg) (udh content : option octstr) : list value :=
  [Text (get_cstr (se_account_name m)); Text (get_cstr (se_account_msg_id m)); Text (format_ld (se_submit_status m));
   Text (get_cstr (se_source_addr m)); Text (get_cstr (se_dest_addr m)); Text (get_cstr content); Text (format_ld (se_retry_value m));
   Text (get_cstr udh); Text (get_cstr (se_req_time m)); Text (format_ld (se_dnd_flag m)); Text (format_ld (se_data_coding m));
   Text (format_ld (se_esm_class m)); Text (format_ld (se_more_messages_to_send m))].
Definition esme_plain (m : smpp_esme_msg) (udh : option octstr) : Prop :=
  Forall plain_text [se_account_name m; se_account_msg_id m; se_source_addr m; se_dest_addr m; udh; se_req_time m].

Definition find_statement (f : dlr_db_mis_fields) (table : arg) (id : option octstr) : list Z :=
  octstr_format (cstr "SELECT %s, %s FROM %s WHERE %s='%s';")
    [name (m_account_name f); name (m_account_msg_id f); table; name (m_smsc_msg_id f); text id].

(** The texts, with names and values in general. *)
Lemma mis_text t c1 c2 c3 c4 c5 c6 c7 c8 c9 c10 c11 c12 c13 v1 v2 v3 v4 z1 v5 v6 e w z2 v7 v8 v9 :
  Forall (fun n => name_ok n = true) [t; c1; c2; c3; c4; c5; c6; c7; c8; c9; c10; c11; c12; c13] ->
  Forall (fun v => plain v = true) [v1; v2; v3; v4; v5; v6; v7; v8; v9] -> literal_of e w ->
  read_statement (octstr_format
    (cstr "INSERT  INTO %s(%s, %s, %s, %s, %s, %s, %s, %s, %s, %s, %s,%s,%s) VALUES ('%s','%s','%s','%s','%d', now(),'%s','%s','%s', '%d','%s','%s','%s') ;")
    [Str t; Str c1; Str c2; Str c3; Str c4; Str c5; Str c6; Str c7; Str c8; Str c9; Str c10; Str c11; Str c12; Str c13;
     Str v1; Str v2; Str v3; Str v4; Num z1; Str v5; Str v6; Str e; Num z2; Str v7; Str v8; Str v9])
  = Some (InsertInto t [c1; c2; c3; c4; c5; c6; c7; c8; c9; c10; c11; c12; c13]
      [Text v1; Text v2; Text v3; Text v4; Text (format_ld z1); Now; Text v5; Text v6; Text w; Text (format_ld z2); Text v7; Text v8; Text v9]).
Proof.
  rewrite !Forall_cons. intros Hn Hv He. destruct_and!. repeat match goal with H : plain ?v = true |- _ => apply plain_literal in H end.
  pose proof (plain_literal _ (format_ld_plain z1)). pose proof (plain_literal _ (format_ld_plain z2)).
  format_text. unfold read_statement, read_insert. repeat read_front. done.
Qed.

Lemma esme_text t c1 c2 c3 c4 c5 c6 c7 c8 c9 c10 c11 c12 c13 v1 v2 z1 v3 v4 e w z2 v5 v6 z3 z4 z5 z6 :
  Forall (fun n => name_ok n = true) [t; c1; c2; c3; c4; c5; c6; c7; c8; c9; c10; c11; c12; c13] ->
  Forall (fun v => plain v = true) [v1; v2; v3; v4; v5; v6] -> literal_of e w ->
  read_statement (octstr_format
    (cstr "INSERT  INTO %s(%s, %s, %s, %s, %s, %s, %s, %s,%s,%s,%s,%s,%s) VALUES ('%s','%s','%d','%s','%s','%s','%d','%s', '%s','%d','%d','%d','%d') ;")
    [Str t; Str c1; Str c2; Str c3; Str c4; Str c5; Str c6; Str c7; Str c8; Str c9; Str c10; Str c11; Str c12; Str c13;
     Str v1; Str v2; Num z1; Str v3; Str v4; Str e; Num z2; Str v5; Str v6; Num z3; Num z4; Num z5; Num z6])
  = Some (InsertInto t [c1; c2; c3; c4; c5; c6; c7; c8; c9; c10; c11; c12; c13]
      [Text v1; Text v2; Text (format_ld z1); Text v3; Text v4; Text w; Text (format_ld z2); Text v5; Text v6; Text (format_ld z3);
       Text (format_ld z4); Text (format_ld z5); Text (format_ld z6)]).
Proof.
  rewrite !Forall_cons. intros Hn Hv He. destruct_and!. repeat match goal with H : plain ?v = true |- _ => apply plain_literal in H end.
  assert (Hz : forall z, literal_of (format_ld z) (format_ld z)) by (intros z; apply plain_literal, format_ld_plain).
  pose proof (Hz z1). pose proof (Hz z2). pose proof (Hz z3). pose proof (Hz z4). pose proof (Hz z5). pose proof (Hz z6). clear Hz.
  format_text. unfold read_statement, read_insert. repeat read_front. done.
Qed.

Lemma status_text t c1 c2 c3 c4 c5 v1 v2 v3 z :
  Forall (fun n => name_ok n = true) [t; c1; c2; c3; c4; c5] -> Forall (fun v => plain v = true) [v1; v2; v3] ->
  read_statement (octstr_format (cstr "INSERT INTO %s(%s,%s,%s,%s,%s) VALUES ('%s','%s','%s','%d',now());")
    [Str t; Str c1; Str c2; Str c3; Str c4; Str c5; Str v1; Str v2; Str v3; Num z])
  = Some (InsertInto t [c1; c2; c3; c4; c5] [Text v1; Text v2; Text v3; Text (format_ld z); Now]).
Proof.
  rewrite !Forall_cons. intros Hn Hv. destruct_and!. repeat match goal with H : plain ?v = true |- _ => apply plain_literal in H end.
  pose proof (plain_literal _ (format_ld_plain z)). format_text. unfold read_statement, read_insert. repeat read_front. done.
Qed.

Lemma find_text c1 c2 t c v :
  Forall (fun n => name_ok n = true) [c1; c2; t; c] -> plain v = true ->
  read_statement (octstr_format (cstr "SELECT %s, %s FROM %s WHERE %s='%s';") [Str c1; Str c2; Str t; Str c; Str v])
  = Some (SelectFrom [c1; c2] t c v).
Proof.
  rewrite !Forall_cons. intros Hn Hv%plain_literal. destruct_and!. format_text. unfold read_statement.
  match goal with |- context [read_insert ?x] => rewrite (eq_refl : read_insert x = None) end. unfold read_select. repeat read_front.
  rewrite (read_literal_here v v _) by (by apply Hv). cbn [mbind option_bind]. repeat read_front. done.
Qed.

End Statements.
