(* ===== verification/DbboxServe.v ===== *)
(** * How the database process serves its requests

    MySQL is an interface with laws about the statements that can be read and
    about texts in columns that can hold them; with texts that need no escape
    every request is served while no connection breaks, and a receipt finds
    the account of its message. *)

From S2P Require Import Prelude Gwlib Dict Sql Counter DbPool DbPoolFacts.
From S2P Require Import Charset World EsmePdu EsmeProc Dbbox DbboxProc DbboxFacts.
Open Scope Z_scope.

(** A row of a table: the columns that are not NULL. *)
Definition record : Type := gmap (list Z) (list Z).

(** What MySQL promises.  [same] compares as its collation does, [takes] says
    that a statement fits its tables; a column is [textual] when it is of a
    character type, and a text [fits] it when it is besides not longer than the
    column and in its character set: numbers, times and longer texts are
    converted or cut. *)
Class MysqlLaws {D : DbOps} (DL : DbLaws D) (M : MysqlLib D) : Type := {
  sql_table : dbase -> list Z -> list record;
  same : list Z -> list Z -> Prop;
  takes : dbase -> statement -> Prop;
  textual : dbase -> list Z -> list Z -> Prop;
  fits : dbase -> list Z -> list Z -> list Z -> Prop;
  same_refl v : same v v;
  escape_law h s : 0 ∉ s -> literal_of (mysql_real_escape_string h s) s /\ 0 ∉ mysql_real_escape_string h s;
  check_tables f h d : db_check = Some f -> sql_table (f h d).2 = sql_table d /\ (forall st, takes d st -> takes (f h d).2 st) /\
    (forall t c, textual d t c -> textual (f h d).2 t c) /\ forall t c v, fits d t c v -> fits (f h d).2 t c v;
  query_live h q d : live (mysql_query h q d).2 ≡ₚ live d;
  query_schema h q d st : read_statement q = Some st ->
    (forall cs t c v, takes d (SelectFrom cs t c v) -> takes (mysql_query h q d).2 (SelectFrom cs t c v)) /\
    (forall t c, textual d t c -> textual (mysql_query h q d).2 t c) /\ forall t c v, fits d t c v -> fits (mysql_query h q d).2 t c v;
  store_live h d : live (mysql_store_result h d).2 ≡ₚ live d;
  store_keeps h d : sql_table (mysql_store_result h d).2 = sql_table d /\ (forall st, takes d st -> takes (mysql_store_result h d).2 st) /\
    (forall t c, textual d t c -> textual (mysql_store_result h d).2 t c) /\ forall t c v, fits d t c v -> fits (mysql_store_result h d).2 t c v;
  query_succeeds h q d st : read_statement q = Some st -> h ∈ live d -> broken d h = false -> broken (mysql_query h q d).2 h = false ->
    takes d st -> (mysql_query h q d).1 = 0;
  query_fails h q d : (mysql_query h q d).1 <> 0 -> sql_table (mysql_query h q d).2 = sql_table d;
  query_insert h q d t cs vs : read_statement q = Some (InsertInto t cs vs) -> (mysql_query h q d).1 = 0 ->
    exists r, sql_table (mysql_query h q d).2 t ≡ₚ r :: sql_table d t /\
      (forall i c v, cs !! i = Some c -> vs !! i = Some (Text v) ->
        (textual d t c -> is_Some (r !! c)) /\ (fits d t c v -> r !! c = Some v)) /\
      forall t', t' <> t -> sql_table (mysql_query h q d).2 t' = sql_table d t';
  query_select h q d cs t c v : read_statement q = Some (SelectFrom cs t c v) -> (mysql_query h q d).1 = 0 ->
    sql_table (mysql_query h q d).2 = sql_table d /\
    exists rs, (mysql_store_result h (mysql_query h q d).2).1 = Some rs /\
      forall rw, rw ∈ rs <-> exists r, r ∈ sql_table d t /\ (exists x, r !! c = Some x /\ same x v) /\ rw = (fun c => r !! c) <$> cs;
}.

(** The condition under which requests are served: no connection breaks. *)
Class Steady {D : DbOps} (DL : DbLaws D) (M : MysqlLib D) : Prop := {
  query_steady h q d x : broken (mysql_query h q d).2 x = broken d x;
  store_steady h d x : broken (mysql_store_result h d).2 x = broken d x;
}.

(** ** Calls that return *)

Section Calls.
Context {O : OctstrLib} {L : GwListLib} {R : PduRest} {D : DbOps}.

Definition safe {A} (m : call A) (s : Dbbox) (Q : A -> Dbbox -> Prop) : Prop := exists a s', m s = Done (Some a, s') /\ Q a s'.

Lemma safe_ret {A} (a : A) s (Q : A -> Dbbox -> Prop) : Q a s -> safe (mret a) s Q.
Proof. intros H. by exists a, s. Qed.

Lemma safe_bind {A B} (m : call A) (k : A -> call B) s (Q : B -> Dbbox -> Prop) :
  safe m s (fun a s' => safe (k a) s' Q) -> safe (m ≫= k) s Q.
Proof. intros (a & s' & E & b & s'' & E' & H). exists b, s''. unfold mbind, call_bind. rewrite E. done. Qed.

Lemma safe_mono {A} (m : call A) s (Q Q' : A -> Dbbox -> Prop) : safe m s Q -> (forall a s', Q a s' -> Q' a s') -> safe m s Q'.
Proof. intros (a & s' & E & H) HQ. exists a, s'. auto. Qed.

Lemma safe_gets {A} (f : Dbbox -> A) s (Q : A -> Dbbox -> Prop) : Q (f s) s -> safe (gets f) s Q.
Proof. intros H. by exists (f s), s. Qed.

Lemma safe_change f s (Q : unit -> Dbbox -> Prop) : Q tt (f s) -> safe (change f) s Q.
Proof. intros H. by exists tt, (f s). Qed.

Lemma safe_lift {A} (o : outcome A) a s (Q : A -> Dbbox -> Prop) : o = Done a -> Q a s -> safe (lift o) s Q.
Proof. intros -> H. by exists a, s. Qed.

End Calls.

(** Step through a call that cannot stop. *)
Ltac step := first [apply safe_bind | apply safe_gets | apply safe_change | apply safe_ret].

(** ** The invariant *)

Section Serve.
Context {O : OctstrLib} {OL : OctstrLaws O} {L : GwListLib} {LL : GwListLaws L} {R : PduRest} {E : EsmeNames} {P : PduLib O R}
  {D : DbOps} {DL : DbLaws D} {M : MysqlLib D} {B : DbboxLib O} {ML : MysqlLaws DL M} {ST : Steady DL M}.
Variables (fm : dlr_db_mis_fields) (ft : dlr_db_status_fields) (fe : dlr_db_smpp_esme_fields).
Implicit Types (s : Dbbox) (p : DBPool).

(** The names that the configuration gives. *)
Record names_fit : Prop := {
  nf_mis : names_ok (m_table fm :: mis_columns fm);
  nf_status : names_ok (t_table ft :: status_columns ft);
  nf_esme : names_ok (s_table fe :: esme_columns fe);
  nf_short : Forall (fun o => Z.of_nat (length (cname o)) < 50) [m_table fm; t_table ft; s_table fe];
  nf_apart : cname (t_table ft) <> cname (m_table fm) /\ cname (s_table fe) <> cname (m_table fm)
}.
Hypothesis names : names_fit.

(** The pool has connections and they work. *)
Definition served p : Prop := pool_ok p [] /\ items (pool p) <> [] /\ Forall (fun h => broken (db p) h = false) (items (pool p)).

Definition tables s : list Z -> list record := sql_table (db (b_pool s)).
Definition accepts s (st : statement) : Prop := takes (db (b_pool s)) st.
Definition holds s (t c v : list Z) : Prop := fits (db (b_pool s)) t c v.

(** Columns that stay what they are. *)
Definition columns (d d' : dbase) : Prop :=
  (forall t c, textual d t c -> textual d' t c) /\ forall t c v, fits d t c v -> fits d' t c v.

Lemma columns_trans d1 d2 d3 : columns d1 d2 -> columns d2 d3 -> columns d1 d3.
Proof. intros [A1 A2] [B1 B2]. split; auto. Qed.

Record ready s : Prop := {
  rd_running : b_running s = true;
  rd_handles : handles s = true;
  rd_mis : fields_mis s = Some fm;
  rd_status : fields_status s = Some ft;
  rd_esme : fields_smpp_esme s = Some fe;
  rd_pool : served (b_pool s);
  rd_client : forall c, esme_process_client s = Some c -> is_Some (clients s !! c);
  rd_rows r : r ∈ tables s (cname (m_table fm)) -> is_Some (r !! cname (m_account_name fm)) /\ is_Some (r !! cname (m_account_msg_id fm));
  rd_textual : textual (db (b_pool s)) (cname (m_table fm)) (cname (m_account_name fm)) /\
    textual (db (b_pool s)) (cname (m_table fm)) (cname (m_account_msg_id fm))
}.

(** What every request leaves: the rows, the clients with their answers. *)
Record goes_on s s' : Prop := {
  go_ready : ready s';
  go_rows t r : r ∈ tables s t -> r ∈ tables s' t;
  go_select cs t c v : accepts s (SelectFrom cs t c v) -> accepts s' (SelectFrom cs t c v);
  go_holds t c v : holds s t c v -> holds s' t c v;
  go_esme c : esme_process_client s = Some c -> esme_process_client s' = Some c;
  go_clients c cl : clients s !! c = Some cl -> exists cl', clients s' !! c = Some cl' /\ send_list cl `prefix_of` send_list cl'
}.

Lemma goes_on_refl s : ready s -> goes_on s s.
Proof. intros H. split; try done. intros c cl Hc. by exists cl. Qed.

Lemma goes_on_trans s1 s2 s3 : goes_on s1 s2 -> goes_on s2 s3 -> goes_on s1 s3.
Proof.
  intros [A1 A2 A3 A6 A4 A5] [B1 B2 B3 B6 B4 B5]. split; auto. intros c cl Hc. destruct (A5 c cl Hc) as (cl' & Hc' & Hp).
  destruct (B5 c cl' Hc') as (cl'' & ? & ?). exists cl''. split; [done|]. by etrans.
Qed.

(** ** The pool *)

Lemma consume_served p : served p ->
  exists h p1, dbpool_conn_consume (S (length (items (pool p)))) p = Done (Some (Got h, p1)) /\
    h ∈ live (db p1) /\ broken (db p1) h = false /\ sql_table (db p1) = sql_table (db p) /\
    (forall st, takes (db p) st -> takes (db p1) st) /\ columns (db p) (db p1) /\
    forall d, live d ≡ₚ live (db p1) -> (forall x, broken d x = broken (db p1) x) -> served (dbpool_conn_produce (with_db p1 d) h).
Proof.
  intros (Hok & Hne & Hw). pose proof (extract_first_spec p) as He. unfold dbpool_conn_consume. rewrite (proj2 (Z.ltb_ge _ _)).
  2:{ rewrite (po_size _ _ Hok), length_app. destruct (items (pool p)); [done|]. simpl. lia. }
  destruct (items (pool p)) as [|h0 hs] eqn:Ei; [done|]. cbn [length consume_loop].
  destruct (gwlist_extract_first (pool p)) as [[h|] l]; [|by destruct He]. injection He as -> El.
  assert (Hl : pool_ok (with_pool p l) [h]) by (apply pool_ok_lend; [done|by rewrite Ei, El]).
  apply Forall_cons in Hw as [Hh Hw].
  assert (K : forall d, live d ≡ₚ live (db p) -> (forall x, broken d x = broken (db p) x) ->
    h ∈ live d /\ broken d h = false /\ forall d', live d' ≡ₚ live d -> (forall x, broken d' x = broken d x) ->
      served (dbpool_conn_produce (with_db (with_db (with_pool p l) d) d') h)).
  { intros d Hd Hb. split; [rewrite Hd, (po_live _ _ Hok), Ei; set_solver|]. split; [by rewrite Hb|].
    intros d' Hd' Hb'. split; [apply pool_ok_return, (pool_ok_db _ _ d' Hl); by rewrite Hd'|]. simpl. rewrite items_produce.
    split; [by destruct (items l)|]. apply Forall_app. rewrite <-El, Forall_singleton, Hb', Hb. split; [|done].
    eapply Forall_impl; [exact Hw|]. intros x Hx. by rewrite Hb', Hb. }
  destruct db_check as [check|] eqn:Ec.
  - destruct (check_law check h (db p) Ec) as (Hc & Hlive & Hbr). destruct (check_tables check h (db p) Ec) as (Ht & Hk & Hcol).
    simpl. destruct (check h (db p)) as [r d]. simpl in *.
    assert (r = 0) as -> by (destruct (Z.eq_dec r 0); [done|]; apply Hc in n; congruence).
    exists h, (with_db (with_pool p l) d). split; [done|]. destruct (K d) as (? & ? & ?); done.
  - exists h, (with_pool p l). split; [done|]. destruct (K (db p)) as (? & ? & ?); try done.
Qed.

Lemma with_conn_safe {A} (f : handle -> dbase -> A * dbase) s (Q : A -> Dbbox -> Prop) : served (b_pool s) ->
  (forall h d, h ∈ live d -> broken d h = false -> sql_table d = tables s -> (forall st, accepts s st -> takes d st) -> columns (db (b_pool s)) d ->
    live (f h d).2 ≡ₚ live d /\ (forall x, broken (f h d).2 x = broken d x) /\
    forall p, served p -> db p = (f h d).2 -> Q (f h d).1 (set_b_pool s p)) ->
  safe (with_conn f) s Q.
Proof.
  intros Hs Hf. destruct (consume_served _ Hs) as (h & p1 & Ec & Hin & Hb & Ht & Hk & Hcol & Hp).
  destruct (Hf h (db p1) Hin Hb Ht Hk Hcol) as (Hl & Hbr & HQ). unfold safe, with_conn. rewrite Ec. cbn [must mbind outcome_bind].
  destruct (f h (db p1)) as [a d]. simpl in *. exists a, (set_b_pool s (dbpool_conn_produce (with_db p1 d) h)). split; [done|].
  apply HQ; [by apply Hp|done].
Qed.

(** ** Statements *)

Lemma until_nul_same l : 0 ∉ l -> until_nul l = l.
Proof.
  induction l as [|c l IH]; [done|]. intros H. simpl. destruct (Z.eqb_spec c 0) as [->|]; [set_solver|]. rewrite IH; set_solver.
Qed.

Lemma until_nul_free l : 0 ∉ until_nul l.
Proof. induction l as [|c l IH]; simpl; [set_solver|]. destruct (Z.eqb_spec c 0); set_solver. Qed.

Lemma get_cstr_free o : 0 ∉ get_cstr o.
Proof. destruct o; [apply until_nul_free|]. by apply (bool_decide_unpack _). Qed.

(** What a query leaves as it was. *)
Definition same_state s s' : Prop :=
  b_running s' = b_running s /\ handles s' = handles s /\ fields_mis s' = fields_mis s /\ fields_status s' = fields_status s /\
  fields_smpp_esme s' = fields_smpp_esme s /\ clients s' = clients s /\ esme_process_client s' = esme_process_client s.

Lemma same_state_refl s : same_state s s.
Proof. done. Qed.

Lemma goes_on_same s s' : ready s -> same_state s s' -> served (b_pool s') ->
  (forall t r, r ∈ tables s t -> r ∈ tables s' t) ->
  (forall cs t c v, accepts s (SelectFrom cs t c v) -> accepts s' (SelectFrom cs t c v)) ->
  columns (db (b_pool s)) (db (b_pool s')) ->
  (forall r, r ∈ tables s' (cname (m_table fm)) -> r ∈ tables s (cname (m_table fm)) \/
     is_Some (r !! cname (m_account_name fm)) /\ is_Some (r !! cname (m_account_msg_id fm))) ->
  goes_on s s'.
Proof.
  intros [R1 R2 R3 R4 R5 R6 R7 R8 [R9 R10]] (S1 & S2 & S3 & S4 & S5 & S6 & S7) Hp Hr Hs [Hc1 Hc2] Hn. split; try done.
  - split; rewrite ?S1, ?S2, ?S3, ?S4, ?S5, ?S6, ?S7; try done; [intros r [H|H]%Hn; [by apply R8|done]|split; by apply Hc1].
  - intros c Hc. by rewrite S7.
  - intros c cl Hc. exists cl. by rewrite S6.
Qed.

(** A row of the table of messages gets an account and its id. *)
Definition names_account (t : list Z) (cs : list (list Z)) (vs : list value) : Prop :=
  t = cname (m_table fm) -> forall c, c = cname (m_account_name fm) \/ c = cname (m_account_msg_id fm) ->
  exists i v, cs !! i = Some c /\ vs !! i = Some (Text v).

(** The statements that are sent to MySQL, as it reads them, and what happens
    behind them. *)
Definition sends s s' (sts : list statement) (evs : list db_event) : Prop :=
  exists sqls, b_events s' = b_events s ++ (Query <$> sqls) ++ evs /\ Forall2 (fun q st => read_statement q = Some st) sqls sts.

Lemma sends_one s s' q st : b_events s' = b_events s ++ [Query q] -> read_statement q = Some st -> sends s s' [st] [].
Proof. intros Eq H. exists [q]. split; [done|]. by repeat constructor. Qed.

Lemma sends_trans s1 s2 s3 a b evs : sends s1 s2 a [] -> sends s2 s3 b evs -> sends s1 s3 (a ++ b) evs.
Proof.
  intros (q1 & E1 & F1) (q2 & E2 & F2). exists (q1 ++ q2). split; [|by apply Forall2_app].
  by rewrite E2, E1, fmap_app, app_nil_r, !app_assoc.
Qed.

Lemma sends_more s1 s2 s3 a evs : sends s1 s2 a [] -> b_events s3 = b_events s2 ++ evs -> sends s1 s3 a evs.
Proof. intros (q & E1 & F1) E2. exists q. split; [|done]. by rewrite E2, E1, app_nil_r, app_assoc. Qed.

(** The row of an INSERT has the values that its columns can hold. *)
Definition inserted s s' (st : statement) : Prop :=
  match st with
  | InsertInto t cs vs =>
      accepts s st -> exists r, r ∈ tables s' t /\
        forall i c v, cs !! i = Some c -> vs !! i = Some (Text v) -> holds s t c v -> r !! c = Some v
  | SelectFrom _ _ _ _ => True
  end.

Lemma update_safe s sql t cs vs : ready s -> read_statement sql = Some (InsertInto t cs vs) -> 0 ∉ sql -> names_account t cs vs ->
  safe (mysql_update sql) s (fun _ s' => goes_on s s' /\ same_state s s' /\ sends s s' [InsertInto t cs vs] [] /\
    inserted s s' (InsertInto t cs vs)).
Proof.
  intros Hr Hq H0 Hn. unfold mysql_update. apply safe_bind, safe_change.
  apply with_conn_safe; [apply Hr|]. intros h d Hin Hb Ht Hk Hc. rewrite (until_nul_same _ H0). cbn [fst snd].
  destruct (query_schema h sql d _ Hq) as (Q3 & Q4). split; [apply query_live|]. split; [apply query_steady|]. intros p Hp Ep.
  set (s' := set_b_pool _ p). assert (Et : tables s' = sql_table (mysql_query h sql d).2) by (unfold tables; cbn; by rewrite Ep).
  change (tables (happen s (Query sql))) with (tables s) in Ht. change (accepts (happen s (Query sql))) with (accepts s) in Hk.
  change (b_pool (happen s (Query sql))) with (b_pool s) in Hc.
  assert (Hcol : columns (db (b_pool s)) (db (b_pool s'))) by (cbn; rewrite Ep; exact (columns_trans _ _ _ Hc Q4)).
  assert (Hse : sends s s' [InsertInto t cs vs] []) by (by eapply sends_one).
  destruct (Z.eq_dec (mysql_query h sql d).1 0) as [E0|E0].
  - destruct (query_insert h sql d t cs vs Hq E0) as (r & Hrow & Hval & Hother). rewrite Ht in Hrow, Hother.
    assert (Hin' : forall t' x, x ∈ tables s t' -> x ∈ tables s' t').
    { intros t' x Hx. rewrite Et. destruct (decide (t' = t)) as [->|Hne]; [rewrite Hrow; set_solver|by rewrite Hother]. }
    split; [|split; [done|split; [done|]]].
    + apply goes_on_same; try done.
      * intros cs' t' c v Ha. unfold accepts, s'. cbn. rewrite Ep. apply Q3, Hk, Ha.
      * intros x. rewrite Et. destruct (decide (cname (m_table fm) = t)) as [Em|Hne]; [|rewrite Hother by done; by left].
        rewrite Em, Hrow. intros [->|Hx]%elem_of_cons; [|by left]. right. unfold names_account in Hn. rewrite Em in Hn.
        destruct (Hn eq_refl _ (or_introl eq_refl)) as (i & v & Hi & Hv). destruct (Hn eq_refl _ (or_intror eq_refl)) as (j & w & Hj & Hw).
        destruct (rd_textual _ Hr) as [X1 X2]. rewrite Em in X1, X2.
        split; [by apply (Hval i _ v Hi Hv), Hc|by apply (Hval j _ w Hj Hw), Hc].
    + intros _. exists r. rewrite Et, Hrow. split; [set_solver|]. intros i c v Hi Hv Hh. by apply (Hval i c v Hi Hv), Hc.
  - pose proof (query_fails h sql d E0) as Hf. rewrite Ht in Hf. split; [|split; [done|split; [done|]]].
    + apply goes_on_same; try done; rewrite ?Et, ?Hf; auto. intros cs' t' c v Ha. unfold accepts, s'. cbn. rewrite Ep. apply Q3, Hk, Ha.
    + intros Ha. destruct E0. apply (query_succeeds h sql d _ Hq Hin Hb); [by rewrite query_steady|]. by apply Hk.
Qed.

(** The rows that a query finds. *)
Definition found s t cs c v (rs : list row) : Prop :=
  forall rw, rw ∈ rs <-> exists r, r ∈ tables s t /\ (exists x, r !! c = Some x /\ same x v) /\ rw = (fun c => r !! c) <$> cs.

Lemma select_safe s sql cs t c v : ready s -> read_statement sql = Some (SelectFrom cs t c v) -> 0 ∉ sql ->
  safe (mysql_select sql) s (fun res s' => goes_on s s' /\ same_state s s' /\ sends s s' [SelectFrom cs t c v] [] /\
    (forall rs, res = Some rs -> found s t cs c v rs) /\ (accepts s (SelectFrom cs t c v) -> is_Some res)).
Proof.
  intros Hr Hq H0. unfold mysql_select. apply safe_bind, safe_change.
  apply with_conn_safe; [apply Hr|]. intros h d Hin Hb Ht Hk Hc. rewrite (until_nul_same _ H0).
  destruct (query_schema h sql d _ Hq) as (Q3 & Q4). pose proof (query_live h sql d) as Q1. pose proof (query_steady h sql d) as Q2.
  destruct (store_keeps h (mysql_query h sql d).2) as (T3 & T4 & T5). pose proof (store_live h (mysql_query h sql d).2) as T1.
  pose proof (store_steady h (mysql_query h sql d).2) as T2.
  change (tables (happen s (Query sql))) with (tables s) in Ht. change (accepts (happen s (Query sql))) with (accepts s) in Hk.
  change (b_pool (happen s (Query sql))) with (b_pool s) in Hc.
  destruct (mysql_query h sql d) as [state d'] eqn:Eq. cbn [fst snd] in *.
  assert (Ef : state <> 0 -> sql_table d' = tables s).
  { intros Hs. pose proof (query_fails h sql d) as Hf. rewrite Eq in Hf. cbn in Hf. rewrite Hf; done. }
  assert (Es : state = 0 -> sql_table d' = tables s /\ exists rs, (mysql_store_result h d').1 = Some rs /\ found s t cs c v rs).
  { intros Hs. pose proof (query_select h sql d cs t c v Hq) as Hf. rewrite Eq, Ht in Hf. by apply Hf. }
  assert (Hgo : forall p d2, served p -> db p = d2 -> sql_table d2 = tables s -> columns d d2 ->
    (forall cs t c v, takes d (SelectFrom cs t c v) -> takes d2 (SelectFrom cs t c v)) ->
    goes_on s (set_b_pool (happen s (Query sql)) p) /\ sends s (set_b_pool (happen s (Query sql)) p) [SelectFrom cs t c v] []).
  { intros p d2 Hp Ep Ht2 Hc2 Hk2. split; [|by eapply sends_one].
    apply goes_on_same; try done; unfold tables; cbn; rewrite ?Ep, ?Ht2; auto; [|by eapply columns_trans].
    intros cs' t' c' v' Ha. unfold accepts. cbn. rewrite Ep. apply Hk2, Hk, Ha. }
  destruct (Z.eqb_spec state 0) as [->|Hs]; cbn [negb fst snd].
  - destruct (Es eq_refl) as (Et & rs & Ers & Hfound). split; [by etrans|]. split; [intros x; by rewrite T2|].
    intros p Hp Ep. destruct (Hgo p _ Hp Ep) as [G S]; [by rewrite T3|by eapply columns_trans|intros; apply T4, Q3; done|].
    split; [done|]. split; [done|]. split; [done|]. rewrite Ers. split; [|done]. by intros ? [= <-].
  - split; [done|]. split; [done|]. intros p Hp Ep. destruct (Hgo p _ Hp Ep) as [G S]; [by apply Ef|done..|].
    split; [done|]. split; [done|]. split; [done|].
    split; [done|]. intros Ha. destruct Hs. pose proof (query_succeeds h sql d _ Hq Hin Hb) as K. rewrite Eq in K.
    apply K; [cbn; by rewrite Q2|by apply Hk].
Qed.

Lemma escape_safe s l : ready s -> 0 ∉ l ->
  safe (mysql_escape l) s (fun e s' => goes_on s s' /\ same_state s s' /\ literal_of e l /\ 0 ∉ e /\ b_events s' = b_events s /\
    (forall st, accepts s st -> accepts s' st)).
Proof.
  intros Hr H0. apply with_conn_safe; [apply Hr|]. intros h d _ _ Ht Hk Hc. cbn [fst snd]. split; [done|]. split; [done|].
  intros p Hp Ep. destruct (escape_law h l H0). split_and!; try done.
  - apply goes_on_same; try done; unfold tables, accepts; cbn; rewrite ?Ep, ?Ht; auto.
  - unfold accepts. cbn. by rewrite Ep.
Qed.

(** ** Delivery reports *)

Lemma tablename_safe o s (Q : arg -> Dbbox -> Prop) : Z.of_nat (length (cname o)) < 50 -> Q (name o) s -> safe (tablename o) s Q.
Proof. intros H HQ. eapply safe_lift; [|exact HQ]. fold (cname o). by rewrite (proj2 (Z.ltb_lt _ _) H). Qed.

Lemma storage_safe (f : call unit) s Q : ready s -> safe f s Q -> safe (if_storage f) s Q.
Proof. intros Hr H. apply safe_bind, safe_gets. by rewrite (rd_handles _ Hr). Qed.

Lemma names_here l : names_ok l -> Forall (fun n => name_ok n = true) (cname <$> l).
Proof. intros H. by apply Forall_fmap. Qed.

Lemma plain_here l : Forall plain_text l -> Forall (fun v => plain v = true) (get_cstr <$> l).
Proof. intros H. by apply Forall_fmap. Qed.

Lemma table_short o : o ∈ [m_table fm; t_table ft; s_table fe] -> Z.of_nat (length (cname o)) < 50.
Proof. pose proof (nf_short names) as H. rewrite Forall_forall in H. apply H. Qed.

(** No statement has a NUL. *)
Ltac no_nul := apply (format_free _ _ _ (Nat.le_refl _)); [by apply (bool_decide_unpack _); vm_compute|
  repeat (apply Forall_cons; split); try apply Forall_nil; try apply get_cstr_free; try apply plain_free, format_ld_plain; try done].

(** The statements for a message, its state and a stored message. *)
Definition mis_statement (m : mis_record) : statement := InsertInto (cname (m_table fm)) (cname <$> mis_columns fm) (mis_values m).
Definition status_statement (si id dest : option octstr) (st : Z) : statement :=
  InsertInto (cname (t_table ft)) (cname <$> status_columns ft)
    [Text (get_cstr si); Text (get_cstr id); Text (get_cstr dest); Text (format_ld st); Now].
Definition esme_statement (m : smpp_esme_msg) (udh content : option octstr) : statement :=
  InsertInto (cname (s_table fe)) (cname <$> esme_columns fe) (esme_values m udh content).

(** A statement that adds a row, as the process sends it. *)
Definition adds s s' (st : statement) : Prop := goes_on s s' /\ same_state s s' /\ sends s s' [st] [] /\ inserted s s' st.

Lemma adds_escaped s s1 s2 st : goes_on s s1 -> same_state s s1 -> b_events s1 = b_events s -> (forall st, accepts s st -> accepts s1 st) ->
  adds s1 s2 st -> adds s s2 st.
Proof.
  intros G S Ee Ha (G2 & S2 & (q & Eq & F) & I). split; [by eapply goes_on_trans|]. split; [unfold same_state in *; naive_solver congruence|].
  split; [exists q; by rewrite Eq, Ee|]. destruct st as [t cs vs|]; [|done]. intros Hst. destruct (I (Ha _ Hst)) as (r & Hr & Hv).
  exists r. split; [done|]. intros i c v Hi Hiv Hh. by eapply Hv, (go_holds _ _ G).
Qed.

Lemma mis_add_safe m s : ready s -> mis_plain m -> safe (dlr_mis_add m) s (fun _ s' => adds s s' (mis_statement m)).
Proof.
  intros Hr Hp. apply storage_safe; [done|]. unfold dlr_mysql_mis_add. apply safe_bind, safe_gets. rewrite (rd_mis _ Hr).
  apply safe_bind. eapply safe_lift; [done|]. apply safe_bind, tablename_safe; [apply table_short; set_solver|].
  apply safe_bind. eapply safe_mono; [apply escape_safe; [done|apply get_cstr_free]|].
  intros e s1 (G1 & S1 & Hl & He & Ev & Ha). eapply safe_mono.
  - apply (update_safe s1 _ (cname (m_table fm)) (cname <$> mis_columns fm) (mis_values m)); [apply G1| | |].
    + apply mis_text; [apply (names_here (m_table fm :: mis_columns fm)), names|exact (plain_here _ Hp)|done].
    + no_nul.
    + intros _ c [->| ->]; [by exists 0%nat, (get_cstr (mi_account_name m))|by exists 1%nat, (get_cstr (mi_account_msg_id m))].
  - intros ? s2 H. by apply (adds_escaped s s1).
Qed.

Lemma status_add_safe si id dest st s : ready s -> Forall plain_text [si; id; dest] ->
  safe (dlr_status_add si id dest st) s (fun _ s' => adds s s' (status_statement si id dest st)).
Proof.
  intros Hr Hp. apply storage_safe; [done|]. unfold dlr_mysql_status_add. apply safe_bind, safe_gets. rewrite (rd_status _ Hr).
  apply safe_bind. eapply safe_lift; [done|]. apply safe_bind, tablename_safe; [apply table_short; set_solver|].
  apply (update_safe s _ (cname (t_table ft))); [done| | |].
  - apply status_text; [apply (names_here (t_table ft :: status_columns ft)), names|exact (plain_here _ Hp)].
  - no_nul.
  - intros Et. by destruct (nf_apart names).
Qed.

Lemma esme_add_safe m udh content s : ready s -> esme_plain m udh ->
  safe (dlr_smpp_esme m udh content) s (fun _ s' => adds s s' (esme_statement m udh content)).
Proof.
  intros Hr Hp. apply storage_safe; [done|]. unfold dlr_smpp_esme_add. apply safe_bind, safe_gets. rewrite (rd_esme _ Hr).
  apply safe_bind. eapply safe_lift; [done|]. apply safe_bind, tablename_safe; [apply table_short; set_solver|].
  apply safe_bind. eapply safe_mono; [apply escape_safe; [done|apply get_cstr_free]|].
  intros e s1 (G1 & S1 & Hl & He & Ev & Ha). eapply safe_mono.
  - eapply (update_safe s1 _ (cname (s_table fe))); [apply G1| | |].
    + apply esme_text; [apply (names_here (s_table fe :: esme_columns fe)), names|exact (plain_here _ Hp)|done].
    + no_nul.
    + intros Et. by destruct (nf_apart names).
  - intros ? s2 H. by apply (adds_escaped s s1).
Qed.

Lemma get_cstr_octets o : Forall (fun c => 0 <= c < 256) (get_cstr o).
Proof.
  destruct o as [o|]; [|by apply (bool_decide_unpack _)]. cbn. induction (octets_range o) as [|c l Hc _ IH]; simpl; [done|].
  by destruct (c =? 0); constructor.
Qed.

(** The rows for an id of the SMSC. *)
Definition row_for s (id : option octstr) (r : record) : Prop :=
  r ∈ tables s (cname (m_table fm)) /\ exists x, r !! cname (m_smsc_msg_id fm) = Some x /\ same x (get_cstr id).
Definition find_by (id : option octstr) : statement :=
  SelectFrom [cname (m_account_name fm); cname (m_account_msg_id fm)] (cname (m_table fm)) (cname (m_smsc_msg_id fm)) (get_cstr id).

(** An answer: the account of a row, or none when there is no row or the
    query failed. *)
Definition answers s (dest id : option octstr) (v : values_got_msg) : Prop :=
  vg_smsc_msg_id v = octstr_dup id /\ vg_dest_addr v = octstr_dup dest /\
  ((vg_result v = 1 /\ exists r a i, row_for s id r /\ r !! cname (m_account_name fm) = Some a /\ r !! cname (m_account_msg_id fm) = Some i /\
      vg_account_name v = Some (octstr_create (until_nul a)) /\ vg_account_msg_id v = Some (octstr_create (until_nul i))) \/
   (vg_result v = 0 /\ vg_account_name v = None /\ vg_account_msg_id v = None /\
      (accepts s (find_by id) -> forall r, ~ row_for s id r))).

Lemma find_safe dest id s : ready s -> plain_text id ->
  safe (dlr_find dest id) s (fun v s' => goes_on s s' /\ same_state s s' /\ sends s s' [find_by id] [] /\ answers s dest id v).
Proof.
  intros Hr Hp. unfold dlr_find. apply safe_bind, safe_gets. rewrite (rd_handles _ Hr). cbn [negb].
  apply safe_bind. unfold dlr_mysql_get. apply safe_bind, safe_gets. rewrite (rd_mis _ Hr).
  apply safe_bind. eapply safe_lift; [done|]. apply safe_bind, tablename_safe; [apply table_short; set_solver|].
  apply safe_bind. eapply safe_mono.
  - apply (select_safe s _ [cname (m_account_name fm); cname (m_account_msg_id fm)] (cname (m_table fm)) (cname (m_smsc_msg_id fm)) (get_cstr id)); [done| |no_nul].
    apply find_text; [|done]. pose proof (nf_mis names) as Hn. unfold names_ok, mis_columns in Hn. rewrite !Forall_cons in *. naive_solver.
  - intros res s' (G & S & Hse & Hfound & Hsome). change (sends s s' [find_by id] []) in Hse.
    assert (Hnone : res = None \/ res = Some [] -> answers s dest id (not_found dest id)).
    { intros Hres. split; [done|]. split; [done|]. right. split_and!; try done. intros Ha r [Hin Hx].
      destruct (Hsome Ha) as [rs ->]. destruct Hres as [|[= ->]]; [done|].
      apply (not_elem_of_nil ((fun c => r !! c) <$> [cname (m_account_name fm); cname (m_account_msg_id fm)])).
      apply (Hfound [] eq_refl). by exists r. }
    destruct res as [[|rw rs]|]; [apply safe_ret, safe_ret; by auto 10| |apply safe_ret, safe_ret; by auto 10].
    destruct (proj1 (Hfound _ eq_refl rw) ltac:(set_solver)) as (r & Hin & Hx & Erw). destruct (rd_rows _ Hr r Hin) as [[a Ha] [i Hi]].
    change (rw = [r !! cname (m_account_name fm); r !! cname (m_account_msg_id fm)]) in Erw. rewrite Ha, Hi in Erw. subst rw.
    apply safe_bind. eapply safe_lift; [done|]. apply safe_bind. eapply safe_lift; [done|]. apply safe_ret, safe_ret.
    split; [done|]. split; [done|]. split; [done|]. split; [done|]. split; [done|]. left. split; [done|]. by exists r, a, i.
Qed.

(** ** Requests *)

(** A client of the process gets an answer. *)
Definition told s s' (c : nat) (v : values_got_msg) : Prop :=
  exists cl, clients s !! c = Some cl /\ clients s' = <[c := MkDbClient (conn_id cl) (send_list cl ++ [v])]> (clients s).

Lemma goes_on_clients s cs c cl cl' ev : ready s -> clients s !! c = Some cl -> send_list cl `prefix_of` send_list cl' ->
  cs = <[c := cl']> (clients s) -> goes_on s (happen (set_clients s cs) ev) /\ goes_on s (set_clients s cs).
Proof.
  intros Hr Hc Hp ->.
  assert (Hin : forall k x, clients s !! k = Some x -> exists x', (<[c := cl']> (clients s)) !! k = Some x' /\ send_list x `prefix_of` send_list x').
  { intros k x Hk. destruct (decide (k = c)) as [->|Hne].
    - exists cl'. rewrite lookup_insert_eq. rewrite Hc in Hk. injection Hk as <-. done.
    - exists x. by rewrite lookup_insert_ne. }
  assert (Hready : ready (set_clients s (<[c := cl']> (clients s)))).
  { destruct Hr as [R1 R2 R3 R4 R5 R6 R7 R8 R9]. split; try done. intros k [x Hx]%R7. destruct (Hin k x Hx) as (x' & ? & _). by eexists. }
  assert (Hready' : ready (happen (set_clients s (<[c := cl']> (clients s))) ev)) by (destruct Hready; by split).
  split; by split.
Qed.

Lemma answer_safe c v s : ready s -> is_Some (clients s !! c) -> safe (answer c v) s (fun _ s' => goes_on s s' /\ told s s' c v /\ b_events s' = b_events s ++ [WakeClient c]).
Proof.
  intros Hr [cl Hc]. apply safe_bind, safe_gets, safe_bind. eapply safe_lift; [by rewrite Hc|]. apply safe_change. split; [|split; [|done]].
  - eapply (goes_on_clients s _ c cl); [done|done| |done]. simpl. by apply prefix_app_r.
  - by exists cl.
Qed.

(** The result for the server: with the PDU, when the server is registered. *)
Definition esme_told s s' (v : values_got_msg) (pdu : option octstr) : Prop :=
  match esme_process_client s with
  | Some e => exists cl, clients s !! e = Some cl /\ told s s' e (match conn_id cl with Some _ => with_pdu v pdu | None => v end)
  | None => clients s' = clients s
  end.

Definition esme_woken s : list db_event := match esme_process_client s with Some e => [WakeClient e] | None => [] end.

Lemma tell_esme_safe v pdu s : ready s ->
  safe (tell_esme v pdu) s (fun _ s' => goes_on s s' /\ esme_told s s' v pdu /\ b_events s' = b_events s ++ esme_woken s).
Proof.
  intros Hr. unfold esme_told, esme_woken. apply safe_bind, safe_gets. destruct (esme_process_client s) as [e|] eqn:Ee.
  2:{ apply safe_ret. split; [by apply goes_on_refl|]. by rewrite app_nil_r. }
  destruct (rd_client _ Hr e Ee) as [cl Hc]. apply safe_bind, safe_gets, safe_bind. eapply safe_lift; [by rewrite Hc|].
  eapply safe_mono; [by apply answer_safe|]. intros _ s' (G & T & W). split; [done|]. split; [by exists cl|done].
Qed.

(** The requests whose texts need no escape, from clients that are there. *)
Definition clean s (c : nat) (r : db_request) : Prop :=
  match r with
  | Common (admin command id) => command = 1 -> is_Some id /\ is_Some (clients s !! c)
  | values_get id _ => plain_text id /\ is_Some (clients s !! c)
  | Common (common (insert_mis an am rt si sm src dst st esm len content retry IP)) =>
      Forall plain_text [an; am; si; sm; src; dst; (split_udh binary_msg_to_ascii esm content).1; rt; IP]
  | Common (common (insert_status si id dest _ _)) => Forall plain_text [si; id; dest]
  | Common (smpp_esme m) => Forall plain_text [se_account_name m; se_account_msg_id m; se_source_addr m; se_dest_addr m;
      (split_udh (if negb (se_data_coding m =? 0) then binary_msg_to_ascii_hindi else binary_msg_to_ascii) (se_esm_class m) (se_msg_content m)).1;
      se_req_time m]
  | _ => True
  end.

(** What comes of a request: the statements that are sent and their rows, and
    the answers. *)
Definition answered s (c : nat) (r : db_request) s' : Prop :=
  match r with
  | values_get (Some id) (Some dest) =>
      sends s s' [find_by (Some id)] [WakeClient c] /\
      exists s1 v, goes_on s s1 /\ goes_on s1 s' /\ answers s1 (Some dest) (Some id) v /\ told s s' c v
  | Common (common (insert_status si (Some id) (Some dest) pdu st)) =>
      sends s s' [status_statement si (Some id) (Some dest) st; find_by (Some id)] (esme_woken s) /\
      exists s1 v, goes_on s s1 /\ inserted s s1 (status_statement si (Some id) (Some dest) st) /\ goes_on s1 s' /\
        answers s1 (Some dest) (Some id) v /\ esme_told s s' v pdu
  | Common (common (insert_status si id dest pdu st)) =>
      sends s s' [status_statement si id dest st] [] /\ inserted s s' (status_statement si id dest st) /\ clients s' = clients s
  | Common (common (insert_mis an am rt si sm src dst st esm len content retry IP)) =>
      let '(udh, content) := split_udh binary_msg_to_ascii esm content in
      exists content', to_latin1 content = Done content' /\
        let m := MkMis an am rt si sm src dst st esm content' udh retry IP in
        sends s s' [mis_statement m] [] /\ inserted s s' (mis_statement m) /\ clients s' = clients s
  | Common (smpp_esme m) =>
      let '(udh, content) := split_udh (if negb (se_data_coding m =? 0) then binary_msg_to_ascii_hindi else binary_msg_to_ascii)
        (se_esm_class m) (se_msg_content m) in
      sends s s' [esme_statement m udh content] [] /\ inserted s s' (esme_statement m udh content) /\ clients s' = clients s
  | Common (admin command id) =>
      if command =? 1 then (exists cl, clients s !! c = Some cl /\ clients s' = <[c := MkDbClient (octstr_dup id) (send_list cl)]> (clients s)) /\
        (esme_process_client s = None -> octets <$> id = Some (cstr "smpp-esme") -> esme_process_client s' = Some c) /\ sends s s' [] []
      else clients s' = clients s /\ sends s s' [] (if command =? 808 then [StartProcessing] else [])
  | _ => clients s' = clients s /\ sends s s' [] []
  end.

Lemma answers_nothing s s' evs : b_events s' = b_events s ++ evs -> sends s s' [] evs.
Proof. intros Eq. by exists []. Qed.

Lemma goes_on_counts s inserts selects : ready s -> goes_on s (set_db_counts s inserts selects).
Proof. intros H. pose proof (goes_on_refl s H) as [[R1 R2 R3 R4 R5 R6 R7 R8 R9] G2 G3 G6 G4 G5]. split; [by split|done..]. Qed.

Lemma register_safe c id s : ready s -> is_Some id -> is_Some (clients s !! c) ->
  safe (register c id) s (fun _ s' => goes_on s s' /\ answered s c (Common (admin 1 id)) s').
Proof.
  intros Hr [i ->] [cl Hc]. unfold register. apply safe_bind, safe_gets, safe_bind. eapply safe_lift; [by rewrite Hc|].
  destruct (goes_on_clients s _ c cl (MkDbClient (octstr_dup (Some i)) (send_list cl)) (WakeClient c) Hr Hc (reflexivity _) eq_refl) as [_ G].
  set (s1 := set_clients s _) in *. apply safe_bind, safe_change, safe_bind. eapply safe_lift; [done|].
  apply safe_bind, safe_gets. fold s1. change (esme_process_client s1) with (esme_process_client s).
  assert (Ht : exists cl0, clients s !! c = Some cl0 /\ clients s1 = <[c := MkDbClient (octstr_dup (Some i)) (send_list cl0)]> (clients s)) by (by exists cl).
  destruct (octstr_same _ _) eqn:Es; cbn [andb].
  - destruct (esme_process_client s) as [e|] eqn:Ee; [rewrite bool_decide_false by done|rewrite bool_decide_true by done].
    + apply safe_ret. split; [done|]. split; [done|]. split; [congruence|by apply answers_nothing; rewrite app_nil_r].
    + apply safe_change. split; [|split; [done|split; [done|by apply answers_nothing; rewrite app_nil_r]]].
      destruct G as [[R1 R2 R3 R4 R5 R6 R7 R8 R9] G2 G3 G6 G4 G5]. split; try done.
      * split; try done. intros k [= <-]. cbn. rewrite lookup_insert_eq. by eexists.
      * intros k Hk. congruence.
  - apply safe_ret. split; [done|]. split; [done|]. split; [|by apply answers_nothing; rewrite app_nil_r]. intros _ [= Hi]. exfalso.
    rewrite octstr_same_spec, octstr_duplicate_spec in Es. apply bool_decide_eq_false_1 in Es. apply Es. rewrite Hi.
    symmetry. apply octets_create. by apply (bool_decide_unpack _).
Qed.

Lemma to_latin1_total o : exists o', to_latin1 o = Done o'.
Proof. destruct o as [o|]; simpl; [|by eexists]. destruct (charset_gsm_to_latin1_spec o) as (o' & -> & _). by eexists. Qed.

(** While its pool has working connections and they do not break, the
    database process serves every request that comes from a client that is
    there and needs no escape. *)
Lemma requests_served_lemma c r s : ready s -> clean s c r ->
  safe (db_handle_request c r) s (fun _ s' => goes_on s s' /\ answered s c r s').
Proof.
  intros Hr Hc. unfold db_handle_request. apply safe_bind, safe_gets. rewrite (rd_running _ Hr). cbn [negb].
  assert (Hskip : safe (mret tt) s (fun _ s' => goes_on s s' /\ clients s' = clients s /\ sends s s' [] [])).
  { apply safe_ret. split; [by apply goes_on_refl|]. split; [done|by apply answers_nothing; rewrite app_nil_r]. }
  assert (Hadd : forall (f : call unit) st, safe f s (fun _ s' => adds s s' st) ->
    safe f s (fun _ s' => goes_on s s' /\ sends s s' [st] [] /\ inserted s s' st /\ clients s' = clients s /\ esme_process_client s' = esme_process_client s)).
  { intros f st H. eapply safe_mono; [exact H|]. intros ? s1 (G & S & Se & I). split; [done|]. split; [done|]. split; [done|]. split; apply S. }
  destruct r as [[[an am rt si sm src dst st esm len content retry IP|si [id|] [dest|] pdu st|q|n|? ? ? ?]|command id|m|m|? ? ? ?|m]|[id|] [dest|]];
    cbn [clean answered] in *; try exact Hskip.
  - unfold request_mis. cbn [mi_esm_class mi_msg_content]. destruct (split_udh binary_msg_to_ascii esm content) as [udh content'] eqn:Eu.
    destruct (to_latin1_total content') as [o Eo]. apply safe_bind. eapply safe_lift; [done|].
    apply safe_bind. eapply safe_mono; [by apply Hadd, mis_add_safe|]. intros ? s1 (G & Se & I & C & _). apply safe_change. split.
    + eapply goes_on_trans; [done|]. apply goes_on_counts, G.
    + exists o. split; [done|]. by split_and!.
  - apply safe_bind. eapply safe_mono; [by apply Hadd, status_add_safe|]. intros ? s1 (G1 & Se1 & I1 & C1 & E1). apply safe_bind.
    eapply safe_mono; [apply find_safe; [apply G1|rewrite !Forall_cons in Hc; naive_solver]|]. intros v s2 (G2 & S2 & Se2 & A).
    eapply safe_mono; [apply tell_esme_safe, G2|]. intros ? s3 (G3 & T & W). pose proof (goes_on_trans _ _ _ G1 G2) as G.
    split; [by eapply goes_on_trans|]. destruct S2 as (_ & _ & _ & _ & _ & C2 & E2).
    unfold esme_woken, esme_told, told in *. rewrite E2, E1 in T, W. rewrite C2, C1 in T.
    split; [exact (sends_more _ _ _ _ _ (sends_trans _ _ _ _ _ _ Se1 Se2) W)|].
    exists s1, v. split; [done|]. split; [done|]. split; [by eapply goes_on_trans|]. by split.
  - apply safe_bind. eapply safe_mono; [by apply Hadd, status_add_safe|]. intros ? s1 (G1 & H1 & H2 & H3 & _). by apply safe_ret.
  - apply safe_bind. eapply safe_mono; [by apply Hadd, status_add_safe|]. intros ? s1 (G1 & H1 & H2 & H3 & _). by apply safe_ret.
  - apply safe_bind. eapply safe_mono; [by apply Hadd, status_add_safe|]. intros ? s1 (G1 & H1 & H2 & H3 & _). by apply safe_ret.
  - destruct (Z.eqb_spec command 1) as [->|]; [destruct (Hc eq_refl); by apply register_safe|].
    destruct (command =? 808); [|exact Hskip]. apply safe_change. split; [|split; [done|by apply answers_nothing]].
    pose proof (goes_on_refl s Hr) as [[R1 R2 R3 R4 R5 R6 R7 R8 R9] G2 G3 G6 G4 G5]. split; [by split|done..].
  - unfold request_esme. destruct (split_udh _ (se_esm_class m) (se_msg_content m)) as [udh content'].
    eapply safe_mono; [by apply Hadd, esme_add_safe|]. naive_solver.
  - destruct Hc as [Hp Hcl]. apply safe_bind, safe_change. pose proof (goes_on_counts s (total_inserts s) (wrap_int (total_selects s + 1)) Hr) as G0.
    set (s0 := set_db_counts s _ _) in *. apply safe_bind. eapply safe_mono; [apply find_safe; [apply G0|done]|]. intros v s1 (G1 & S1 & Se & A).
    destruct S1 as (_ & _ & _ & _ & _ & C1 & E1). eapply safe_mono; [apply answer_safe; [apply G1|by rewrite C1]|].
    intros ? s2 (G2 & T & W). split; [exact (goes_on_trans _ _ _ G0 (goes_on_trans _ _ _ G1 G2))|].
    split; [exact (sends_more s s1 s2 _ _ Se W)|]. exists s0, v. split; [done|].
    split; [exact (goes_on_trans _ _ _ G1 G2)|]. split; [done|]. unfold told in *. by rewrite C1 in T.
  - apply safe_bind, safe_change, safe_ret. split; [by apply goes_on_counts|split; [done|by apply answers_nothing; rewrite app_nil_r]].
  - apply safe_bind, safe_change, safe_ret. split; [by apply goes_on_counts|split; [done|by apply answers_nothing; rewrite app_nil_r]].
  - apply safe_bind, safe_change, safe_ret. split; [by apply goes_on_counts|split; [done|by apply answers_nothing; rewrite app_nil_r]].
Qed.

(** ** From a message to its receipt *)

Inductive serves : Dbbox -> Dbbox -> Prop :=
| serves_none s : serves s s
| serves_one s c r s1 s2 : clean s c r -> db_handle_request c r s = Done (Some tt, s1) -> serves s1 s2 -> serves s s2.

Lemma served_goes_on c r s s' : ready s -> clean s c r -> db_handle_request c r s = Done (Some tt, s') -> goes_on s s' /\ answered s c r s'.
Proof. intros Hr Hc E'. destruct (requests_served_lemma c r s Hr Hc) as ([] & s1 & E1 & H). by rewrite E' in E1; injection E1 as <-. Qed.

Lemma serves_goes_on s s' : serves s s' -> ready s -> goes_on s s'.
Proof.
  induction 1 as [s|s c r s1 s2 Hc Hs _ IH]; intros Hr; [by apply goes_on_refl|].
  destruct (served_goes_on _ _ _ _ Hr Hc Hs) as [G _]. eapply goes_on_trans; [done|]. apply IH, G.
Qed.

(** The record of a message, as it is stored. *)
Definition stored_record (an am rt si sm src dst : option octstr) (st esm : Z) (content' udh : option octstr) (retry : Z) (IP : option octstr) : mis_record :=
  MkMis an am rt si sm src dst st esm content' udh retry IP.

(** The columns of the account, of its id and of the id of the SMSC can hold
    the texts of a message. *)
Definition ids_fit s (an am sm : option octstr) : Prop :=
  holds s (cname (m_table fm)) (cname (m_account_name fm)) (get_cstr an) /\
  holds s (cname (m_table fm)) (cname (m_account_msg_id fm)) (get_cstr am) /\
  holds s (cname (m_table fm)) (cname (m_smsc_msg_id fm)) (get_cstr sm).

Lemma mis_stored c an am rt si sm src dst st esm len content content' retry IP s s' :
  let r := Common (common (insert_mis an am rt si sm src dst st esm len content retry IP)) in
  let udh := (split_udh binary_msg_to_ascii esm content).1 in
  let m := stored_record an am rt si sm src dst st esm content' udh retry IP in
  ready s -> clean s c r -> to_latin1 (split_udh binary_msg_to_ascii esm content).2 = Done content' ->
  accepts s (mis_statement m) -> ids_fit s an am sm ->
  db_handle_request c r s = Done (Some tt, s') ->
  exists row, row_for s' sm row /\ row !! cname (m_account_name fm) = Some (get_cstr an) /\ row !! cname (m_account_msg_id fm) = Some (get_cstr am).
Proof.
  intros r udh m Hr Hc Ho Ha (F1 & F2 & F3) Es. destruct (served_goes_on _ _ _ _ Hr Hc Es) as [_ A].
  unfold r in A. cbn [answered] in A. unfold m, udh in *. destruct (split_udh binary_msg_to_ascii esm content) as [u x]. cbn [fst snd] in *.
  destruct A as (o & Eo & _ & I & _). assert (o = content') as -> by congruence.
  destruct (I Ha) as (row & Hin & Hcol). exists row. split; [split; [done|]|].
  - exists (get_cstr sm). split; [by apply (Hcol 3%nat)|apply same_refl].
  - split; [by apply (Hcol 0%nat)|by apply (Hcol 1%nat)].
Qed.

(** C6 From a message to its receipt, while the connections to MySQL do not
    break: when a message was reported with the id that the SMSC gave it, its
    columns can hold the account, its id and that id, and MySQL takes its row
    and the question for it, then, whatever clean requests come in between, a
    receipt with that id gives the server one answer, with the PDU of the
    receipt and the account and the id of a message that was reported with such
    an id; when they all belong to the same message, those of the message. *)
Theorem receipt_finds_account c an am rt si sm src dst st esm len content content' retry IP s s1 s2 c2 si2 id dest pdu st2 e cl n :
  let r := Common (common (insert_mis an am rt si sm src dst st esm len content retry IP)) in
  let m := stored_record an am rt si sm src dst st esm content' (split_udh binary_msg_to_ascii esm content).1 retry IP in
  let r2 := Common (common (insert_status si2 (Some id) (Some dest) pdu st2)) in
  ready s -> clean s c r -> to_latin1 (split_udh binary_msg_to_ascii esm content).2 = Done content' ->
  accepts s (mis_statement m) -> ids_fit s an am sm -> accepts s (find_by (Some id)) ->
  db_handle_request c r s = Done (Some tt, s1) -> serves s1 s2 ->
  esme_process_client s2 = Some e -> clients s2 !! e = Some cl -> conn_id cl = Some n ->
  clean s2 c2 r2 -> get_cstr sm = get_cstr (Some id) ->
  exists s3 v, db_handle_request c2 r2 s2 = Done (Some tt, s3) /\
    clients s3 !! e = Some (MkDbClient (Some n) (send_list cl ++ [v])) /\ vg_result v = 1 /\ vg_pdu v = pdu /\
    (exists row, row_for s3 (Some id) row /\ octstr_create <$> (until_nul <$> row !! cname (m_account_name fm)) = vg_account_name v /\
       octstr_create <$> (until_nul <$> row !! cname (m_account_msg_id fm)) = vg_account_msg_id v) /\
    ((forall row, row_for s3 (Some id) row ->
        row !! cname (m_account_name fm) = Some (get_cstr an) /\ row !! cname (m_account_msg_id fm) = Some (get_cstr am)) ->
     octets <$> vg_account_name v = Some (get_cstr an) /\ octets <$> vg_account_msg_id v = Some (get_cstr am)).
Proof.
  intros r m r2 Hr Hc Ho Ha Hf Hsel Es Hs He Hcl Hn Hc2 Eid.
  destruct (served_goes_on _ _ _ _ Hr Hc Es) as [G1 _]. destruct (mis_stored _ _ _ _ _ _ _ _ _ _ _ _ _ _ _ _ _ Hr Hc Ho Ha Hf Es) as (row & [Hin Hx] & _).
  pose proof (goes_on_trans _ _ _ G1 (serves_goes_on _ _ Hs (go_ready _ _ G1))) as G2.
  destruct (requests_served_lemma c2 r2 s2 (go_ready _ _ G2) Hc2) as ([] & s3 & E3 & G3 & _ & s4 & v & G4 & _ & G5 & (A1 & A2 & A3) & T).
  unfold esme_told in T. rewrite He in T. destruct T as (cl' & Hcl' & cl'' & Hcl'' & T). rewrite Hcl in Hcl', Hcl''.
  injection Hcl' as <-. injection Hcl'' as <-. rewrite Hn in T. exists s3, (with_pdu v pdu). split; [done|].
  split; [by rewrite T, lookup_insert_eq|]. pose proof (goes_on_trans _ _ _ G2 G4) as G.
  destruct A3 as [(Hres & row' & a & i & [Hin' Hx'] & Hra & Hri & Hva & Hvi)|(_ & _ & _ & Hnone)].
  2:{ exfalso. apply (Hnone (go_select _ _ G _ _ _ _ Hsel) row). split; [|by rewrite <-Eid].
      apply (go_rows _ _ G4), (go_rows _ _ (serves_goes_on _ _ Hs (go_ready _ _ G1))), Hin. }
  split; [done|]. split; [done|]. assert (Hrow : row_for s3 (Some id) row') by (split; [by apply (go_rows _ _ G5)|done]).
  split; [exists row'; by rewrite Hra, Hri|]. intros Hall. destruct (Hall _ Hrow) as [Ea Ei]. rewrite Hra in Ea. rewrite Hri in Ei.
  injection Ea as ->. injection Ei as ->. cbn. rewrite Hva, Hvi. cbn.
  by rewrite !until_nul_same, !octets_create by (apply get_cstr_free || apply get_cstr_octets).
Qed.

(** C32 While its pool has working connections and they do not break, the
    database process serves every request that comes from a client that is
    there and needs no escape, also after any others: it neither stops nor
    waits; a message, its state or a stored message is sent to MySQL as one
    row of its table, which has the values that its columns can hold; no row of
    a table is lost; who asks for the account of an id and an address gets one
    answer, the result of a receipt goes to the server with its PDU, other
    clients get nothing; and the state is again one in which requests are
    served. *)
Theorem requests_served c r s s' : ready s -> serves s s' -> clean s' c r ->
  goes_on s s' /\ safe (db_handle_request c r) s' (fun _ s'' => goes_on s' s'' /\ answered s' c r s'').
Proof.
  intros Hr Hs Hc. pose proof (serves_goes_on s s' Hs Hr) as G. split; [done|]. apply requests_served_lemma; [apply G|done].
Qed.


End Serve.
