(* ===== verification/DbboxExamples.v ===== *)
(** * The database process at work

    A database that keeps rows in lists and answers the statements that the
    reader reads, and the theorems about the process on it. *)

From S2P Require Import Prelude Gwlib Dict Sql Counter DbPool DbPoolFacts DbPoolExamples.
From S2P Require Import Cfg CfgDef CfgRead CfgExamples World SessionExamples.
From S2P Require Import EsmePdu EsmeProc Dbbox DbboxProc DbboxStart DbboxFacts DbboxServe.
Open Scope Z_scope.

(** ** A database *)

Record my_db : Type := MkMy { my_conns : toy_db; my_tables : gmap (list Z) (list record); my_result : option (list row) }.

Definition with_conns (d : my_db) (t : toy_db) : my_db := MkMy t (my_tables d) (my_result d).

#[export] Instance my_ops : DbOps := {|
  dbase := my_db;
  handle := Z;
  db_open d := let '(h, t) := @db_open toy_ops (my_conns d) in (h, with_conns d t);
  db_close h d := with_conns d (@db_close toy_ops h (my_conns d));
  db_check := Some (fun h d => (if bool_decide (h ∈ toy_down (my_conns d)) then -1 else 0, d));
|}.

#[export, refine] Instance my_db_laws : DbLaws my_ops := {|
  live d := toy_open (my_conns d);
  broken d h := bool_decide (h ∈ toy_down (my_conns d));
|}.
Proof.
  - intros d. pose proof (@open_law _ toy_laws (my_conns d)) as H. simpl. simpl in H. by destruct (toy_full (my_conns d)).
  - intros h d. apply (@close_law _ toy_laws h (my_conns d)).
  - intros f h d [= <-]. simpl. split; [|done]. by destruct (bool_decide _).
Defined.

(** A row with the values that are not the time. *)
Fixpoint build_row (cs : list (list Z)) (vs : list value) : record :=
  match cs, vs with
  | c :: cs, Text v :: vs => <[c := v]> (build_row cs vs)
  | _ :: cs, Now :: vs => build_row cs vs
  | _, _ => ∅
  end.

Lemma build_row_lookup cs : NoDup cs -> forall vs i c v, cs !! i = Some c -> vs !! i = Some (Text v) -> build_row cs vs !! c = Some v.
Proof.
  induction 1 as [|c0 cs Hc0 _ IH]; intros vs i c v Hc Hv; [done|]. destruct i as [|i], vs as [|[v0|] vs]; try done; simpl in *.
  - injection Hc as <-. injection Hv as <-. apply lookup_insert_eq.
  - etrans; [apply lookup_insert_ne|by apply (IH vs i)]. intros <-. apply Hc0. by eapply list_elem_of_lookup_2.
  - by apply (IH vs i).
Qed.

Definition rows_of (d : my_db) (t : list Z) : list record := default [] (my_tables d !! t).

Definition my_run (st : statement) (d : my_db) : option my_db :=
  match st with
  | InsertInto t cs vs =>
      if bool_decide (is_Some (my_tables d !! t)) && bool_decide (NoDup cs)
      then Some (MkMy (my_conns d) (<[t := build_row cs vs :: rows_of d t]> (my_tables d)) None) else None
  | SelectFrom cs t c v =>
      if bool_decide (is_Some (my_tables d !! t))
      then Some (MkMy (my_conns d) (my_tables d)
        (Some ((fun r : record => (fun c => r !! c) <$> cs) <$> filter (fun r : record => r !! c = Some v) (rows_of d t)))) else None
  end.

(** What [mysql_real_escape_string] writes. *)
Definition escape_char (c : Z) : list Z :=
  if c =? 0 then [92; 48] else if c =? 10 then [92; 110] else if c =? 13 then [92; 114] else if c =? 26 then [92; 90]
  else if (c =? 39) || (c =? 34) || (c =? 92) then [92; c] else [c].

Definition my_query (sql : list Z) (d : my_db) : Z * my_db :=
  match read_statement sql ≫= (fun st => my_run st d) with
  | Some d' => (0, d')
  | None => (1, MkMy (my_conns d) (my_tables d) None)
  end.

#[export] Instance my_sql : MysqlLib my_ops := {|
  mysql_query _ sql d := my_query sql d;
  mysql_store_result _ d := (my_result d, d);
  mysql_affected_rows _ _ := 1;
  mysql_real_escape_string _ s := concat (escape_char <$> s);
|}.

Lemma escape_step c rest l r : literal_body rest = Some (l, r) -> literal_body (escape_char c ++ rest) = Some (c :: l, r).
Proof.
  intros H. unfold escape_char.
  destruct (Z.eqb_spec c 0) as [->|?]; [cbn; by rewrite H|]. destruct (Z.eqb_spec c 10) as [->|?]; [cbn; by rewrite H|].
  destruct (Z.eqb_spec c 13) as [->|?]; [cbn; by rewrite H|]. destruct (Z.eqb_spec c 26) as [->|?]; [cbn; by rewrite H|].
  destruct (Z.eqb_spec c 39) as [->|H39]; [cbn; by rewrite H|]. destruct (Z.eqb_spec c 34) as [->|?]; [cbn; by rewrite H|].
  destruct (Z.eqb_spec c 92) as [->|H92]; [cbn; by rewrite H|]. cbn [orb app literal_body].
  rewrite (proj2 (Z.eqb_neq _ _) H39), (proj2 (Z.eqb_neq _ _) H92), H. done.
Qed.

Lemma escape_literal s : literal_of (concat (escape_char <$> s)) s.
Proof.
  intros r Hr. induction s as [|c s IH]; [by apply (plain_literal [])|]. rewrite fmap_cons. cbn [concat]. rewrite <-app_assoc.
  by apply escape_step.
Qed.

Lemma escape_no_nul s : 0 ∉ s -> 0 ∉ concat (escape_char <$> s).
Proof.
  induction s as [|c s IH]; [done|]. intros [Hc Hs]%not_elem_of_cons. rewrite fmap_cons. cbn [concat]. apply not_elem_of_app.
  split; [|by apply IH]. unfold escape_char. destruct (Z.eqb_spec c 0) as [->|?]; [done|]. repeat case_match; set_solver.
Qed.

Lemma my_query_conns sql d : my_conns (my_query sql d).2 = my_conns d.
Proof.
  unfold my_query. destruct (read_statement sql) as [[t cs vs|cs t c v]|]; simpl; [|by case_bool_decide|done]. by destruct (_ && _).
Qed.

Lemma my_query_dom sql d t : is_Some (my_tables d !! t) -> is_Some (my_tables (my_query sql d).2 !! t).
Proof.
  intros H. unfold my_query. destruct (read_statement sql) as [[t' cs vs|cs t' c v]|]; simpl; [|by case_bool_decide|done].
  destruct (_ && _); simpl; [|done]. destruct (decide (t' = t)) as [->|Hne]; [rewrite lookup_insert_eq; by eexists|by rewrite lookup_insert_ne].
Qed.

(** Every column holds any text. *)
#[export, refine] Instance my_laws : MysqlLaws my_db_laws my_sql := {|
  sql_table d t := rows_of d t;
  same := eq;
  takes d st := match st with
    | InsertInto t cs _ => is_Some (my_tables d !! t) /\ NoDup cs
    | SelectFrom _ t _ _ => is_Some (my_tables d !! t)
    end;
  textual _ _ _ := True;
  fits _ _ _ _ := True;
|}.
Proof.
  - done.
  - intros h s H. split; [apply escape_literal|by apply escape_no_nul].
  - by intros f h d [= <-].
  - intros h q d. simpl. by rewrite (my_query_conns q d).
  - intros h q d st _. simpl. split_and!; try done. intros _ t _ _. apply my_query_dom.
  - done.
  - done.
  - intros h q d st Hq _ _ _ Ht. simpl. unfold my_query. rewrite Hq. simpl. destruct st as [t cs vs|cs t c v]; simpl.
    + destruct Ht. by rewrite !bool_decide_true.
    + by rewrite bool_decide_true.
  - intros h q d. simpl. unfold my_query. by destruct (read_statement q ≫= _).
  - intros h q d t cs vs Hq. simpl. unfold my_query. rewrite Hq. simpl. case_bool_decide; [|done]. case_bool_decide as Hnd; [|done]. simpl.
    intros _. exists (build_row cs vs). unfold rows_of at 1 4. simpl. rewrite lookup_insert_eq. split; [done|]. split.
    { intros i c v Hi Hv. rewrite (build_row_lookup cs Hnd vs i c v Hi Hv). split; [by eexists|done]. }
    intros t' Hne. by rewrite lookup_insert_ne.
  - intros h q d cs t c v Hq. simpl. unfold my_query. rewrite Hq. simpl. case_bool_decide; [|done]. simpl. intros _. split; [done|].
    eexists. split; [done|]. intros rw. rewrite list_elem_of_fmap. split.
    + intros (r & -> & [Hv Hr]%list_elem_of_filter). exists r. split; [done|]. split; [by exists v|done].
    + intros (r & Hr & (x & Hx & ->) & ->). exists r. split; [done|]. by apply list_elem_of_filter.
Defined.

#[export] Instance my_steady : Steady my_db_laws my_sql.
Proof. split; [|done]. intros h q d x. simpl. by rewrite (my_query_conns q d). Qed.

(** ** A process *)

#[export] Instance plain_dbbox : DbboxLib list_octstr (R := no_rest) := {|
  binary_msg_to_ascii o := (0, Some [], o);
  binary_msg_to_ascii_hindi o := (0, Some [], o);
  octstr_hex_to_binary o := o;
  atoi l := decimal_value l;
  new_deliver := MkDeliverSm (O := list_octstr) (R := no_rest) None None 0 0 None None None tt;
|}.

Notation str w := (cstr w : @octstr list_octstr).

Definition del_fields : dlr_db_fields (O := list_octstr) :=
  MkFields (O := list_octstr) (cstr "dlr_del") (cstr "AccountName") (cstr "AccountMsgId") (cstr "SMSCId") (cstr "SMSCMsgId") (cstr "DatetimeSubmit").
Definition mis_fields : dlr_db_mis_fields (O := list_octstr) :=
  MkMisFields (O := list_octstr) (cstr "mis_table") (cstr "ESMEAccName") (cstr "ESMEAccMsgId") (cstr "SMSCId") (cstr "SMSCMsgId")
    (cstr "SubmittedStat") (cstr "SubmitTime") (cstr "SourceAddr") (cstr "DestinationAddr") (cstr "RecvTime") (cstr "Content")
    (cstr "UDH") (cstr "RetryValue") (cstr "Client_IP").
Definition status_fields : dlr_db_status_fields (O := list_octstr) :=
  MkStatusFields (O := list_octstr) (cstr "mis_status") (cstr "SMSCId") (cstr "SMSCMsgId") (cstr "DestinationAddr") (cstr "DeliveredStat") (cstr "DeliverTime").
Definition esme_fields : dlr_db_smpp_esme_fields (O := list_octstr) :=
  MkEsmeFields (O := list_octstr) (cstr "smpp_esme_table") (cstr "ESMEAccName") (cstr "ESMEAccMsgId") (cstr "SourceAddr") (cstr "DestinationAddr")
    (cstr "SubmittedStat") (cstr "RecvTime") (cstr "Content") (cstr "UDH") (cstr "RetryValue") (cstr "dnd") (cstr "allowed_smsc")
    (cstr "preferred_smsc") (cstr "data_coding") (cstr "more_messages_to_send") (cstr "esm_class").

Lemma fields_fit : names_fit (O := list_octstr) mis_fields status_fields esme_fields.
Proof. split; [apply (bool_decide_unpack _); vm_compute; done..|]. split; by apply (bool_decide_unpack _). Qed.

Definition empty_tables : my_db :=
  MkMy toy (<[cstr "mis_table" := []]> (<[cstr "mis_status" := []]> (<[cstr "smpp_esme_table" := []]> ∅))) None.

Definition started : Dbbox (O := list_octstr) (L := list_gwlist) (D := my_ops) :=
  MkDbbox (O := list_octstr) (L := list_gwlist) (D := my_ops) true (dbpool_create empty_tables 2) true (Some del_fields) (Some mis_fields)
    (Some status_fields) (Some esme_fields)
    (<[1%nat := MkDbClient (O := list_octstr) (Some (cstr "smpp-esme")) []]> (<[2%nat := MkDbClient (O := list_octstr) (Some (cstr "smpp-smsc")) []]> ∅))
    (Some 1%nat) 0 0 counter_create [].

Lemma started_ready : ready mis_fields status_fields esme_fields started.
Proof.
  split; try done.
  - split; [apply dbpool_create_ok; [done|lia]|]. split; [done|]. vm_compute. repeat constructor.
  - intros c [= <-]. by eexists.
  - intros r Hr. exfalso. revert Hr. apply not_elem_of_nil.
Qed.

(** A message with a quote in its text is reported and stored, other
    requests follow, then its receipt comes. *)
Definition reported : db_request (O := list_octstr) :=
  Common (common (insert_mis (O := list_octstr) (Some (cstr "acme")) (Some (cstr "17")) (Some (cstr "20240101120000")) (Some (cstr "smsc1"))
    (Some (cstr "a9f")) (Some (cstr "ACME")) (Some (cstr "491511")) 0 0 9 (Some (cstr "it's here")) 0 (Some (cstr "10.0.0.1")))).
Definition another : db_request (O := list_octstr) :=
  Common (common (insert_mis (O := list_octstr) (Some (cstr "other")) (Some (cstr "18")) (Some (cstr "20240101120001")) (Some (cstr "smsc1"))
    (Some (cstr "b00")) (Some (cstr "X")) (Some (cstr "491512")) 0 0 2 (Some (cstr "hi")) 0 (Some (cstr "10.0.0.2")))).
Definition receipt : db_request (O := list_octstr) :=
  Common (common (insert_status (O := list_octstr) (Some (cstr "smsc1")) (Some (cstr "a9f")) (Some (cstr "491511")) (Some [1; 2; 3]) 1)).

Definition after (r : db_request) (c : nat) (s : Dbbox) : Dbbox :=
  match db_handle_request (D := my_ops) c r s with Done (Some _, s) => s | _ => s end.

(** The answers for the server, as octets. *)
Definition answers_for_server (s : Dbbox (O := list_octstr) (D := my_ops)) : list (Z * list (option (list Z))) :=
  match clients s !! 1%nat with
  | Some cl => map (fun v => (vg_result v, map (option_map (octets (OctstrLib := list_octstr)))
      [vg_account_name v; vg_account_msg_id v; vg_smsc_msg_id v; vg_dest_addr v; vg_pdu v])) (send_list cl)
  | None => []
  end.

Example account_found :
  answers_for_server (after receipt 2 (after another 2 (after reported 2 started)))
  = [(1, map Some [cstr "acme"; cstr "17"; cstr "a9f"; cstr "491511"; [1; 2; 3]])].
Proof. vm_compute. reflexivity. Qed.

(** A sender with a quote ends its literal: what comes behind it is read as
    SQL, and the row has other values than the message. *)
Definition hostile : mis_record (O := list_octstr) :=
  MkMis (O := list_octstr) (Some (cstr "acme")) (Some (cstr "17")) (Some (cstr "now")) (Some (cstr "s")) (Some (cstr "id")) (Some (cstr "A','forged"))
    (Some (cstr "491511")) 0 0 (Some (cstr "text")) (Some []) 0 (Some (cstr "ip")).

Example quote_is_code :
  read_statement (mis_insert mis_fields (name (m_table mis_fields)) (cstr "text") hostile)
  = Some (InsertInto (cstr "mis_table") (cname <$> mis_columns mis_fields)
      [Text (cstr "acme"); Text (cstr "17"); Text (cstr "s"); Text (cstr "id"); Text (cstr "0"); Now; Text (cstr "A"); Text (cstr "forged");
       Text (cstr "491511"); Text (cstr "text"); Text (cstr "0"); Text []; Text (cstr "now"); Text (cstr "ip")]).
Proof. vm_compute. reflexivity. Qed.

(** ** The theorems *)

Definition s1 : Dbbox := after reported 2 started.
Definition s2 : Dbbox := after another 2 s1.

Lemma reported_done : db_handle_request 2 reported started = Done (Some tt, s1).
Proof. vm_cast_no_check (@eq_refl (outcome (option unit * Dbbox)) (Done (Some tt, s1))). Qed.
Lemma another_done : db_handle_request 2 another s1 = Done (Some tt, s2).
Proof. vm_cast_no_check (@eq_refl (outcome (option unit * Dbbox)) (Done (Some tt, s2))). Qed.

Ltac is_plain := repeat (apply Forall_cons; split); try apply Forall_nil; vm_compute; reflexivity.
Ltac is_clean := cbn [clean reported another receipt]; is_plain.

Lemma reported_clean : clean started 2 reported.
Proof. is_clean. Qed.
Lemma another_clean : clean s1 2 another.
Proof. is_clean. Qed.
Lemma receipt_clean s : clean s 2 receipt.
Proof. is_clean. Qed.

Lemma between : serves s1 s2.
Proof. eapply serves_one; [exact another_clean|exact another_done|apply serves_none]. Qed.

Lemma requests_served_witness : ready mis_fields status_fields esme_fields started /\ serves started s1 /\ clean s1 2 another /\
  goes_on mis_fields status_fields esme_fields started s1 /\
  safe (db_handle_request 2 another) s1 (fun _ s'' => goes_on mis_fields status_fields esme_fields s1 s'' /\
    answered mis_fields status_fields esme_fields s1 2 another s'').
Proof.
  split; [exact started_ready|]. assert (S : serves started s1) by (eapply serves_one; [exact reported_clean|exact reported_done|apply serves_none]).
  split; [exact S|]. split; [exact another_clean|].
  exact (requests_served mis_fields status_fields esme_fields fields_fit 2 another started s1 started_ready S another_clean).
Defined.

(** A message whose content is a quote and a backslash. *)
Definition quoted : mis_record (O := list_octstr) := MkMis (O := list_octstr) None None None None None None None 0 0 (Some [39; 92]) None 0 None.
Definition nothing_stored : smpp_esme_msg (O := list_octstr) := MkSmppEsme (O := list_octstr) None None None None None None 0 0 0 0 None 0 0.

Lemma quoted_plain : mis_plain quoted.
Proof. is_plain. Qed.
Lemma nothing_plain : esme_plain nothing_stored None.
Proof. is_plain. Qed.
Lemma ids_plain : Forall plain_text [Some (cstr "s" : @octstr list_octstr); Some (cstr "a9f"); Some (cstr "49")].
Proof. is_plain. Qed.


Lemma receipt_finds_account_witness :
  exists s3 v, db_handle_request 2 receipt s2 = Done (Some tt, s3) /\ vg_result v = 1 /\ vg_pdu v = Some [1; 2; 3] /\
    (exists cl, clients s3 !! 1%nat = Some cl /\ v ∈ send_list cl).
Proof.
  destruct (receipt_finds_account mis_fields status_fields esme_fields fields_fit (ML := my_laws) 2
    (Some (cstr "acme")) (Some (cstr "17")) (Some (cstr "20240101120000")) (Some (cstr "smsc1")) (Some (cstr "a9f")) (Some (cstr "ACME"))
    (Some (cstr "491511")) 0 0 9 (Some (cstr "it's here")) (Some (cstr "it's here")) 0 (Some (cstr "10.0.0.1")) started s1 s2
    2 (Some (cstr "smsc1")) (cstr "a9f") (cstr "491511") (Some [1; 2; 3]) 1 1
    (MkDbClient (O := list_octstr) (Some (cstr "smpp-esme")) []) (cstr "smpp-esme")
    started_ready reported_clean eq_refl) as (s3 & v & E & Hcl & Hr & Hp & _).
  - split; [by eexists|]. apply (bool_decide_unpack _). vm_compute. exact I.
  - done.
  - by eexists.
  - exact reported_done.
  - exact between.
  - reflexivity.
  - vm_cast_no_check (@eq_refl _ (Some (MkDbClient (O := list_octstr) (Some (cstr "smpp-esme")) []))).
  - reflexivity.
  - apply receipt_clean.
  - reflexivity.
  - exists s3, v. split; [exact E|]. split; [exact Hr|]. split; [exact Hp|]. eexists. split; [exact Hcl|]. change (v ∈ [v]). constructor.
Defined.
