(* ===== verification/DbboxStartExamples.v ===== *)
(** * The start of the database process on concrete inputs

    Configurations that it accepts and refuses, and the file with the
    accounts, read as the server reads it. *)

From S2P Require Import Prelude Gwlib Dict Sql Counter DbPool DbPoolExamples Cfg CfgDef.
From S2P Require Import CfgExamples World SessionExamples EsmeExamples.
From S2P Require Import Esme Accounts EsmePdu EsmeProc Dbbox DbboxStart DbboxExamples.
Open Scope Z_scope.

Definition conf_name : list Z := cstr "a.conf".

(** The configuration of a text. *)
Definition read_conf (t : list Z) : option (Cfg (SV := DictStore) (SG := DictStore) (SM := DictStore) * Hooks) :=
  match cfg_read (F := table_files [(conf_name, t)] []) (S (length t)) (cfg_create cfg_def conf_name).2 (cfg_create cfg_def conf_name).1 with
  | Done (Some (0, c)) => Some (c, (cfg_create cfg_def conf_name).2)
  | _ => None
  end.

Definition lines (l : list String.string) : list Z := mjoin ((fun s => cstr s ++ [10]) <$> l).

(** The groups that come with the program. *)
Definition shipped : list String.string :=
  ["group = core"; "log-level = 0"; "esme-file-path = /root/Core_gw/bin/smpp-esme.conf"; "dlr-storage = mysql"; "dbbox-port = 20000";
   "log-file-size = 10"; "log-interval = 60"; " ";
   "group = mysql-connection"; "id = mydlr"; "host = 127.0.0.1"; "username = root"; "password = secret"; "database = Fonada_Smpp";
   "max-connections = 1"; " ";
   "group = dlr-db"; "id = mydlr"; "table = dlr_del"; "field-EsmeAccountName = AccountName"; "field-EsmeMsgId = AccountMsgId";
   "field-SmscId = SMSCId"; "field-SmscMsgId = SMSCMsgId"; "field-DatetimeSubmit = DatetimeSubmit"; " ";
   "group = dlr-db-mis"; "id = mydlr"; "table = mis_table"; "field-EsmeAccountName = ESMEAccName"; "field-EsmeMsgId = ESMEAccMsgId";
   "field-SmscId = SMSCId"; "field-SmscMsgId = SMSCMsgId"; "field-SubmitStat = SubmittedStat"; "field-DatetimeRecv = RecvTime";
   "field-DatetimeSubmit = SubmitTime"; "field-SourceAddr = SourceAddr"; "field-DestAddr = DestinationAddr"; "field-MsgContent = Content";
   "field-UDH = UDH"; "field-RetryValue = RetryValue"; "field-client-ip = Client_IP"; " ";
   "group = dlr-db-status"; "id = mydlr"; "table = mis_status"; "field-SmscId = SMSCId"; "field-SmscMsgId = SMSCMsgId";
   "field-DestAddr = DestinationAddr"; "field-DelieverStat = DeliveredStat"; "field-DatetimeDeliver = DeliverTime"; " ";
   "group = dlr-db-smpp-esme"; "id = mydlr"; "table = smpp_esme_table"; "field-EsmeAccountName = ESMEAccName"; "field-EsmeMsgId = ESMEAccMsgId";
   "field-SubmitStat = SubmittedStat"; "field-DatetimeRecv = RecvTime"; "field-SourceAddr = SourceAddr"; "field-DestAddr = DestinationAddr";
   "field-MsgContent = Content"; "field-UDH = UDH"; "field-RetryValue = RetryValue"]%string.

(** The variables of the last group that are missing there. *)
Definition missing : list String.string :=
  ["allowed_smsc = a"; "preferred_smsc = p"; "field-dnd-flag = dnd"; "field-data-coding = data_coding"; "field-esm-class = esm_class";
   "field-more-messages-to-send = more_messages_to_send"]%string.

(** Whether the process starts, and with how many connections. *)
Definition starts (t : list Z) : option (option Z) :=
  '(c, h) ← read_conf t;
  Some (match dlr_init (D := my_ops) h (fun _ => empty_tables) c started with Done s => Some (dbpool_conn_count (b_pool s)) | Panic => None end).

Example shipped_groups_refused : starts (lines shipped) = Some None.
Proof. vm_compute. reflexivity. Qed.

Example complete_groups_accepted : starts (lines (shipped ++ missing)) = Some (Some 1).
Proof. vm_compute. reflexivity. Qed.

(** Without a group for the connections the process stops. *)
Example no_connection_refused : starts (lines (take 8 shipped ++ drop 16 shipped ++ missing)) = Some None.
Proof. vm_compute. reflexivity. Qed.

(** ** The file with the accounts *)

(** A database with two addresses and two accounts; the second has no
    allowed senders. *)
Definition address_rows : list row := (fun a => [Some (cstr a)]) <$> ["10.0.0.1"; "10.0.0.2"]%string.
Definition account_row (mode acc source dedicated : option String.string) : row :=
  [cstr <$> mode; cstr <$> acc; Some (cstr "secret"); Some (cstr "01/01/2020 00:00:00"); Some (cstr "01/01/2040 00:00:00");
   Some (cstr "/tmp/a.log"); Some (cstr "0"); Some (cstr "100"); Some (cstr "200"); Some (cstr "2"); Some (cstr "1"); cstr <$> source;
   Some (cstr "10"); Some (cstr "0"); cstr <$> dedicated].
Definition account_rows : list row :=
  [account_row (Some "tx") (Some "first") (Some "98") (Some "s1"); account_row (Some "txrx") (Some "second") None (Some "s2")]%string.

#[local] Instance account_sql (rows : list row) : MysqlLib my_ops := {|
  mysql_query _ sql d := (0, MkMy (my_conns d) (my_tables d)
    (if bool_decide (sql = ip_query) then Some address_rows else if bool_decide (sql = accounts_query) then Some rows else None));
  mysql_store_result _ d := (my_result d, d);
  mysql_affected_rows _ _ := 0;
  mysql_real_escape_string _ s := s;
|}.

(** What is written, if the process goes on. *)
Definition written (rows : list row) : option (list (list Z)) :=
  match esme_file_update (M := account_sql rows) true (Some (cstr "esme.conf" : @octstr list_octstr)) started with
  | Done (Some tt, s) => Some (omap (fun e => match e with WriteFile _ t => Some t | _ => None end) (b_events s))
  | _ => None
  end.

(** The accounts that the server makes of it. *)
Definition accounts_of (t : list Z) : option (option (list (option (list Z) * Z * Z * option (list Z)))) :=
  '(c, h) ← read_conf t;
  Some (match load_accounts (O := list_octstr) (L := list_gwlist) h c with
        | Done ts => Some (map (fun t => (option_map (octets (OctstrLib := list_octstr)) (cl_account_name t), cl_allowed_mode t, cl_max_tps t,
            option_map (octets (OctstrLib := list_octstr)) (cl_dedicated_smsc t))) ts)
        | Panic => None
        end).

Example written_accounts :
  (t ← written account_rows; head t) ≫= accounts_of
  = Some (Some [(Some (cstr "first"), 1, 10, Some (cstr "s1")); (Some (cstr "second"), 3, 10, Some (cstr "s2"))]).
Proof. vm_compute. reflexivity. Qed.

(** Two accounts of one name: the file is written, but the server does not
    start with it. *)
Example written_twice :
  (t ← written [account_row (Some "tx") (Some "first") None (Some "s1"); account_row (Some "rx") (Some "first") None (Some "s2")]%string; head t)
    ≫= accounts_of
  = Some None.
Proof. vm_compute. reflexivity. Qed.

(** A row without a dedicated SMSC: the process follows NULL. *)
Example no_dedicated : written [account_row (Some "tx") (Some "first") None None] = None.
Proof. vm_compute. reflexivity. Qed.

(** No accounts: the file stays as it is. *)
Example no_accounts : written [] = Some [].
Proof. vm_compute. reflexivity. Qed.
