(* ===== verification/Receipt.v ===== *)
(** * Receipts to the customers (update_info and write_esme_conn in smpp-esme/esme.c)

    A receipt of an SMSC waits in the queue of a session; before it is sent
    its text is read with [sscanf] and written again under the identifier
    that the customer knows.  The buffers of [sscanf] are on the stack and
    keep what was there when the text does not match; writing beyond their
    end, and packing a PDU of which a string was freed, is undefined. *)

From S2P Require Import Prelude Gwlib Counter World SmscConn SmppSession.
From S2P Require Import Esme EsmePdu EsmeProc.
Open Scope Z_scope.

(** ** [sscanf] *)

(** A character, any white space, [%n[...]], and [%s]. *)
Inductive directive : Type :=
| Char (c : Z) | Blank | Set_ (n : nat) (p : Z -> bool) | Word.

Definition is_space (c : Z) : bool := (c =? 32) || ((9 <=? c) && (c <=? 13)).

Fixpoint take_while (p : Z -> bool) (l : list Z) : list Z :=
  match l with
  | c :: l => if p c then c :: take_while p l else []
  | [] => []
  end.

(** The strings that are assigned, in order: reading stops at the first
    directive that fails. *)
Fixpoint scan (f : list directive) (l : list Z) : list (list Z) :=
  match f with
  | [] => []
  | Char c :: f => match l with x :: l => if x =? c then scan f l else [] | [] => [] end
  | Blank :: f => scan f (skip_spaces l)
  | Set_ n p :: f =>
      let w := take_while p (take n l) in
      match w with [] => [] | _ => w :: scan f (drop (length w) l) end
  | Word :: f =>
      let l := skip_spaces l in
      let w := take_while (fun c => negb (is_space c)) l in
      match w with [] => [] | _ => w :: scan f (drop (length w) l) end
  end.

(** A format: a space stands for any white space. *)
Definition text (l : list Z) : list directive :=
  (fun c => if is_space c then Blank else Char c) <$> l.

(** ["id:%64[^s] sub:%s dlvrd:%s submit date:%12[0-9] done date:%12[0-9]
    stat:%10[^e] err:%s"]. *)
Definition receipt_format : list directive :=
  text (cstr "id:") ++ [Set_ 64 (fun c => negb (c =? 115))] ++
  text (cstr " sub:") ++ [Word] ++ text (cstr " dlvrd:") ++ [Word] ++
  text (cstr " submit date:") ++ [Set_ 12 is_digit] ++
  text (cstr " done date:") ++ [Set_ 12 is_digit] ++
  text (cstr " stat:") ++ [Set_ 10 (fun c => negb (c =? 101))] ++
  text (cstr " err:") ++ [Word].

Section Receipt.
Context {O : OctstrLib} {R : PduRest} {P : PduLib O R} {K : Link O}.

(** The C strings that the seven buffers hold before they are assigned. *)
Context (stack : nat -> list Z).

(** A buffer of a size after [sscanf] assigned the first of its strings. *)
Definition buffer (args : list (list Z)) (i size : nat) : outcome (list Z) :=
  match args !! i with
  | Some w => if (length w <? size)%nat then Done w else Panic
  | None => Done (stack i)
  end.

(** The text of the new receipt. *)
Definition receipt_text (account_msg_id : option octstr)
    (sub dlvrd submit_date done_date stat err : list Z) : list Z :=
  cstr "id:" ++ get_cstr account_msg_id ++ cstr " sub:" ++ sub ++ cstr " dlvrd:" ++ dlvrd ++
  cstr " submit date:" ++ submit_date ++ cstr " done date:" ++ done_date ++
  cstr " stat:" ++ stat ++ cstr " err:" ++ err ++ cstr "  text:".

(** [strcpy(submit_date,done_date)]: a date that [sscanf] assigned is never
    empty, so both come from the stack or only the second does. *)
Definition copy_date (done_date : list Z) : outcome (list Z) :=
  if (length done_date <? 12)%nat then Done done_date else Panic.

(** [update_info]: the new PDU, the state, and whether the payload that the
    PDU still holds was freed. *)
Definition update_info (b : DeliverSm) (account_msg_id : option octstr)
    : outcome (DeliverSm * Z * bool) :=
  let in_payload := from_option octstr_len 0 (d_short_message b) =? 0 in
  let short_msg := if in_payload then message_payload b else d_short_message b in
  let args := scan receipt_format (get_cstr short_msg) in
  _ ← buffer args 0 64;
  sub ← buffer args 1 4;
  dlvrd ← buffer args 2 4;
  submit_date ← buffer args 3 12;
  done_date ← buffer args 4 12;
  stat ← buffer args 5 20;
  err ← buffer args 6 4;
  submit_date ← (match submit_date with [] => copy_date done_date | _ => Done submit_date end);
  Done (MkDeliverSm (d_source_addr b) (d_destination_addr b) (d_esm_class b) (d_sm_length b)
          (Some (octstr_create (receipt_text account_msg_id sub dlvrd submit_date done_date stat err)))
          (message_payload b) (octstr_dup account_msg_id) (deliver_rest b),
        receipt_state stat,
        in_payload && is_set short_msg).

(** ** [write_esme_conn] *)

Definition str_queue (x : session_str) : list msg_deliver :=
  match x with TxStr t => tx_data_to_write t | RxStr r => rx_data_to_write r end.

(** The queue and the number of messages sent. *)
Definition set_str_queue (x : session_str) (q : list msg_deliver) : session_str :=
  match x with
  | TxStr t => TxStr (MkTx (tx_conn t) (tx_msg_received t) (tx_msg_sent t) (tx_msg_rejected t)
      (tx_submits_unconnect t) (tx_session_id t) (tx_seq_number_counter t) (tx_client_ip t)
      (tx_client_port t) (tx_listen_port t) (tx_start_time t) (tx_status t) (tx_quit t) (tx_mode t)
      (tx_thread_id t) q)
  | RxStr r => RxStr (MkRx (rx_conn r) (rx_client_ip r) (rx_client_port r) (rx_listen_port r)
      q (rx_msg_sent r) (rx_seq_number_counter r) (rx_start_time r) (rx_thread_id r) (rx_status r)
      (rx_quit r) (rx_session_id r) (rx_mode r))
  end.

Definition count_sent (x : session_str) : session_str :=
  match x with
  | TxStr t => TxStr t
  | RxStr r => RxStr (MkRx (rx_conn r) (rx_client_ip r) (rx_client_port r) (rx_listen_port r)
      (rx_data_to_write r) (counter_increase (rx_msg_sent r)).2 (rx_seq_number_counter r)
      (rx_start_time r) (rx_thread_id r) (rx_status r) (rx_quit r) (rx_session_id r) (rx_mode r))
  end.

(** A deliver_sm gets a sequence number of the session and its new text;
    other PDUs stay as they are. *)
Definition renew (x : session_str) (m : msg_deliver) (p : SMPP_PDU) : outcome (SMPP_PDU * session_str) :=
  match p with
  | deliver_sm h b =>
      let '(seq, c) := counter_increase (str_seq x) in
      '(b, _, freed) ← update_info b (md_account_msg_id m);
      _ ← gw_assert (negb freed);
      Done (deliver_sm (MkHeader (command_status h) seq) b,
            set_str x (str_conn x) c (str_status x) (str_quit x))
  | p => Done (p, x)
  end.

(** One message of the queue; the result of the write is only logged.  The
    copy of the two ids into [db_extract], which nothing reads, is left out. *)
Definition write_one (x : session_str) (m : msg_deliver) : outcome session_str :=
  os ← must (md_os m);
  match smpp_pdu_unpack (octstr_from_position os 4) with
  | None => Done x
  | Some p =>
      '(p, x) ← renew x m p;
      converted ← must (smpp_pdu_pack p);
      Done (count_sent (write_str x converted))
  end.

Fixpoint write_queue (q : list msg_deliver) (x : session_str) : outcome session_str :=
  match q with
  | [] => Done x
  | m :: q => x ← write_one (set_str_queue x q) m; write_queue q x
  end.

Definition write_esme_conn (session : option session_str) : outcome (option session_str) :=
  match session with
  | None => Done None
  | Some x => x ← write_queue (str_queue x) x; Done (Some x)
  end.

End Receipt.
