(* ===== verification/ReceiptFacts.v ===== *)
(** * Theorems about receipts

    What a receipt of an SMSC becomes on its way to the customer: its fields
    are kept, its text is dropped, and its state is never recognised; the
    queue of a session is written in order under fresh sequence numbers. *)

From S2P Require Import Prelude Gwlib Counter World SmscConn SmppSession.
From S2P Require Import Esme EsmePdu EsmeProc Receipt.
Open Scope Z_scope.

(** ** Scanning *)

Lemma take_while_app (p : Z -> bool) w l :
  Forall (fun c => p c = true) w -> (forall c l', l = c :: l' -> p c = false) ->
  take_while p (w ++ l) = w.
Proof.
  intros Hw Hl. induction Hw as [|c w Hc _ IH]; simpl.
  - destruct l as [|c l]; simpl; [done|]. by rewrite (Hl c l).
  - by rewrite Hc, IH.
Qed.

Lemma scan_set n p f w c l :
  w <> [] -> Forall (fun c => p c = true) w -> p c = false -> (length w < n)%nat ->
  scan (Set_ n p :: f) (w ++ c :: l) = w :: scan f (c :: l).
Proof.
  intros Hn Hw Hc Hl. simpl. rewrite take_app_ge by lia.
  rewrite take_while_app; [|done|].
  - rewrite drop_app_length. by destruct w.
  - intros c' l'. destruct (n - length w)%nat eqn:E; [lia|]. simpl. intros [= <- _]. done.
Qed.

Lemma skip_spaces_word w l :
  w <> [] -> Forall (fun c => is_space c = false) w -> skip_spaces (w ++ l) = w ++ l.
Proof.
  intros Hn Hw. destruct Hw as [|c w Hc _]; [done|]. simpl. unfold is_space in Hc. by rewrite Hc.
Qed.

Lemma scan_word f w l :
  w <> [] -> Forall (fun c => is_space c = false) w ->
  (forall c l', l = c :: l' -> is_space c = true) ->
  scan (Word :: f) (w ++ l) = w :: scan f l.
Proof.
  intros Hn Hw Hl. simpl. rewrite skip_spaces_word by done. rewrite take_while_app.
  - rewrite drop_app_length. by destruct w.
  - eapply Forall_impl; [exact Hw|]. simpl. by intros c ->.
  - intros c l' E. by rewrite (Hl c l' E).
Qed.

Lemma scan_char c f l : scan (Char c :: f) (c :: l) = scan f l.
Proof. simpl. by rewrite Z.eqb_refl. Qed.

Lemma scan_space c f l : is_space c = false -> scan (Blank :: f) (32 :: c :: l) = scan (Blank :: f) (c :: l).
Proof. done. Qed.

Lemma scan_gap c f l : is_space c = false -> scan (Blank :: f) (c :: l) = scan f (c :: l).
Proof. intros Hc. simpl. unfold is_space in Hc. by rewrite Hc. Qed.

Lemma scan_gap_word w f l :
  w <> [] -> Forall (fun c => is_space c = false) w -> scan (Blank :: f) (w ++ l) = scan f (w ++ l).
Proof. intros Hn Hw. simpl. by rewrite skip_spaces_word. Qed.

(** Constant text in a goal about [scan], as a list of characters. *)
Ltac expand_text :=
  repeat match goal with
  | |- context [text (cstr ?s)] => let v := eval vm_compute in (text (cstr s)) in change (text (cstr s)) with v
  end;
  repeat match goal with
  | |- context [cstr ?s] => let v := eval vm_compute in (cstr s) in change (cstr s) with v
  end; cbn [app].

(** The text in front of a field. *)
Ltac scan_text := repeat first [rewrite scan_char | rewrite scan_space by done | rewrite scan_gap by done].

(** ** The text of a receipt *)

Record receipt : Type := MkReceipt {
  rc_id : list Z; rc_sub : list Z; rc_dlvrd : list Z; rc_submit_date : list Z;
  rc_done_date : list Z; rc_stat : list Z; rc_err : list Z; rc_rest : list Z
}.

Definition receipt_chars (r : receipt) : list Z :=
  cstr "id:" ++ rc_id r ++ cstr " sub:" ++ rc_sub r ++ cstr " dlvrd:" ++ rc_dlvrd r ++
  cstr " submit date:" ++ rc_submit_date r ++ cstr " done date:" ++ rc_done_date r ++
  cstr " stat:" ++ rc_stat r ++ cstr " err:" ++ rc_err r ++ rc_rest r.

Definition word_of (n : nat) (w : list Z) : Prop :=
  w <> [] /\ (length w < n)%nat /\ Forall (fun c => is_space c = false) w.
Definition date_of (w : list Z) : Prop :=
  w <> [] /\ (length w < 12)%nat /\ Forall (fun c => is_digit c = true) w.

(** The fields fit into the buffers; identifier and state do not have the
    letters that end them. *)
Record receipt_ok (r : receipt) : Prop := {
  ro_id : (length (rc_id r) < 63)%nat /\ Forall (fun c => c <> 115) (rc_id r);
  ro_sub : word_of 4 (rc_sub r);
  ro_dlvrd : word_of 4 (rc_dlvrd r);
  ro_submit : date_of (rc_submit_date r);
  ro_done : date_of (rc_done_date r);
  ro_stat : (length (rc_stat r) < 9)%nat /\ Forall (fun c => c <> 101) (rc_stat r);
  ro_err : word_of 4 (rc_err r);
  ro_rest : forall c l, rc_rest r = c :: l -> is_space c = true;
  ro_chars : Forall (fun c => c <> 0) (receipt_chars r)
}.

(** What [sscanf] makes of a receipt: identifier and state keep the space
    behind them. *)
Lemma scan_receipt r :
  receipt_ok r ->
  scan receipt_format (receipt_chars r) =
    [rc_id r ++ [32]; rc_sub r; rc_dlvrd r; rc_submit_date r; rc_done_date r; rc_stat r ++ [32]; rc_err r].
Proof.
  intros [[I1 I2] (S1 & S2 & S3) (D1 & D2 & D3) (U1 & U2 & U3) (O1 & O2 & O3) [T1 T2] (E1 & E2 & E3) Hr _].
  assert (Hsp : forall w, Forall (fun c => is_digit c = true) w -> Forall (fun c => is_space c = false) w).
  { intros w Hw. eapply Forall_impl; [exact Hw|]. unfold is_digit, is_space. simpl. intros c Hc. zlia. }
  assert (Hset : forall w x, Forall (fun c => c <> x) w -> x <> 32 ->
    Forall (fun c => negb (c =? x) = true) (w ++ [32])).
  { intros w x Hw Hx. apply Forall_app. split.
    - eapply Forall_impl; [exact Hw|]. simpl. intros c Hc. by rewrite (proj2 (Z.eqb_neq _ _)).
    - constructor; [|constructor]. by rewrite (proj2 (Z.eqb_neq _ _)). }
  unfold receipt_format, receipt_chars. expand_text. scan_text.
  rewrite (cons_middle 32 (rc_id r)), app_assoc.
  rewrite scan_set; [f_equal|by destruct (rc_id r)|by apply Hset|done|rewrite length_app; simpl; lia].
  scan_text. rewrite scan_word; [f_equal|done|done|by intros ? ? [= <- _]].
  scan_text. rewrite scan_word; [f_equal|done|done|by intros ? ? [= <- _]].
  scan_text. rewrite scan_set; [f_equal|done|done|done|done].
  scan_text. rewrite scan_set; [f_equal|done|done|done|done].
  scan_text. rewrite (cons_middle 32 (rc_stat r)), app_assoc.
  rewrite scan_set; [f_equal|by destruct (rc_stat r)|by apply Hset|done|rewrite length_app; simpl; lia].
  scan_text. by rewrite scan_word.
Qed.

Lemma until_nul_id l : Forall (fun c => c <> 0) l -> until_nul l = l.
Proof. induction 1 as [|c l Hc _ IH]; simpl; [done|]. by rewrite (proj2 (Z.eqb_neq _ _)), IH. Qed.

(** No state ends with a space. *)
Lemma spaced_state st : receipt_state (st ++ [32]) = 10.
Proof.
  unfold receipt_state. destruct (List.find _ receipt_states) as [[name z]|] eqn:E; [|done].
  apply find_some in E as [Hin Hn]. apply bool_decide_eq_true_1 in Hn. simpl in Hn.
  exfalso. unfold receipt_states in Hin. simpl in Hin.
  repeat destruct Hin as [Hin|Hin]; try done; injection Hin as <- _;
    apply (f_equal last) in Hn; rewrite last_snoc in Hn; vm_compute in Hn; discriminate Hn.
Qed.

Section Facts.
Context {O : OctstrLib} {OL : OctstrLaws O} {R : PduRest} {P : PduLib O R} {K : Link O} {KL : LinkLaws K}.
Context (stack : nat -> list Z).
Implicit Types (b : DeliverSm) (x : session_str).

(** ** The new receipt *)

(** The receipt that the customer gets. *)
Definition renewed_receipt (r : receipt) (account_msg_id : option octstr) : receipt :=
  MkReceipt (get_cstr account_msg_id) (rc_sub r) (rc_dlvrd r) (rc_submit_date r) (rc_done_date r)
    (rc_stat r ++ [32]) (rc_err r) (cstr "  text:").

Definition renewed b (account_msg_id : option octstr) (r : receipt) : DeliverSm :=
  MkDeliverSm (d_source_addr b) (d_destination_addr b) (d_esm_class b) (d_sm_length b)
    (Some (octstr_create (receipt_chars (renewed_receipt r account_msg_id))))
    (message_payload b) (octstr_dup account_msg_id) (deliver_rest b).

Definition has_receipt b (r : receipt) : Prop :=
  receipt_ok r /\ exists sm, d_short_message b = Some sm /\ octets sm = receipt_chars r.

Lemma buffer_some args i size w :
  args !! i = Some w -> (length w < size)%nat -> buffer stack args i size = Done w.
Proof. intros E H. unfold buffer. by rewrite E, (proj2 (Nat.ltb_lt _ _)). Qed.

Lemma update_info_receipt b account_msg_id r :
  has_receipt b r -> update_info stack b account_msg_id = Done (renewed b account_msg_id r, 10, false).
Proof.
  intros [Hok (sm & Hsm & Hr)]. unfold update_info. rewrite Hsm. cbn [from_option].
  rewrite octstr_len_spec, Hr, (proj2 (Z.eqb_neq _ _)) by (unfold receipt_chars; simpl; lia).
  cbn [get_cstr]. rewrite Hr, until_nul_id by apply Hok. rewrite scan_receipt by done.
  destruct Hok as [[I1 _] (_ & S2 & _) (_ & D2 & _) (Un & U2 & _) (_ & O2 & _) [T1 _] (_ & E2 & _) _ _].
  repeat (erewrite buffer_some; [|reflexivity|rewrite ?length_app; simpl; lia]; cbn [mbind outcome_bind]).
  rewrite spaced_state. unfold renewed, renewed_receipt, receipt_chars, receipt_text.
  cbn [rc_id rc_sub rc_dlvrd rc_submit_date rc_done_date rc_stat rc_err rc_rest].
  assert (E : match rc_submit_date r with [] => copy_date (rc_done_date r) | _ => Done (rc_submit_date r) end
    = Done (rc_submit_date r)) by by destruct (rc_submit_date r).
  rewrite E. cbn [mbind outcome_bind]. by rewrite <-!app_assoc.
Qed.

(** C31 What the customer gets for a receipt of the usual form, whatever was
    on the stack: the fields are kept under the customer's own identifier,
    its text is empty, and another space follows the state.  The state that
    the server sees ends with a space, so it is never one of those that it
    knows: a receipt for a delivered message counts as unknown too. *)
Theorem receipt_rewritten b (account_msg_id : option octstr) (r : receipt) (Hr : has_receipt b r) :
  exists b', update_info stack b account_msg_id = Done (b', 10, false) /\
    d_short_message b' = Some (octstr_create
      (cstr "id:" ++ get_cstr account_msg_id ++ cstr " sub:" ++ rc_sub r ++ cstr " dlvrd:" ++ rc_dlvrd r ++
       cstr " submit date:" ++ rc_submit_date r ++ cstr " done date:" ++ rc_done_date r ++
       cstr " stat:" ++ rc_stat r ++ cstr "  err:" ++ rc_err r ++ cstr "  text:")) /\
    receipted_message_id b' = octstr_dup account_msg_id /\
    d_source_addr b' = d_source_addr b /\ d_destination_addr b' = d_destination_addr b.
Proof.
  exists (renewed b account_msg_id r). split; [by apply update_info_receipt|]. split; [|done].
  unfold renewed, renewed_receipt, receipt_chars. simpl. by rewrite <-!app_assoc.
Qed.

(** ** The queue of a session *)

(** Message [m] holds a receipt, with its status and body. *)
Definition delivers (m : msg_deliver) (d : Z * DeliverSm * receipt) : Prop :=
  exists os h, md_os m = Some os /\ smpp_pdu_unpack (octstr_from_position os 4) = Some (deliver_sm h d.1.2) /\
    command_status h = d.1.1 /\ has_receipt d.1.2 d.2.

(** The PDUs for a queue, from a sequence number on. *)
Fixpoint delivered_pdus (seq : Z) (ms : list msg_deliver) (ds : list (Z * DeliverSm * receipt))
    : list SMPP_PDU :=
  match ms, ds with
  | m :: ms, d :: ds =>
      deliver_sm (MkHeader d.1.1 seq) (renewed d.1.2 (md_account_msg_id m) d.2) ::
      delivered_pdus (seq + 1) ms ds
  | _, _ => []
  end.

Lemma count_sent_str x :
  str_conn (count_sent x) = str_conn x /\ str_seq (count_sent x) = str_seq x /\
  str_queue (count_sent x) = str_queue x /\ str_status (count_sent x) = str_status x.
Proof. by destruct x. Qed.

Lemma write_str_str x os :
  str_conn (write_str x os) = (conn_write (str_conn x) os).2 /\ str_seq (write_str x os) = str_seq x /\
  str_queue (write_str x os) = str_queue x /\ str_status (write_str x os) = str_status x.
Proof. by destruct x. Qed.

Lemma set_str_str x c q st k :
  str_conn (set_str x c q st k) = c /\ str_seq (set_str x c q st k) = q /\
  str_queue (set_str x c q st k) = str_queue x /\ str_status (set_str x c q st k) = st.
Proof. by destruct x. Qed.

Lemma set_str_queue_str x q :
  str_conn (set_str_queue x q) = str_conn x /\ str_seq (set_str_queue x q) = str_seq x /\
  str_queue (set_str_queue x q) = q /\ str_status (set_str_queue x q) = str_status x.
Proof. by destruct x. Qed.

Context (Hpack : forall h b, is_Some (smpp_pdu_pack (deliver_sm h b))).

Lemma write_one_spec x m d :
  delivers m d -> link_ok (str_conn x) ->
  exists x' o, write_one stack x m = Done x' /\
    smpp_pdu_pack (deliver_sm (MkHeader d.1.1 (n (str_seq x))) (renewed d.1.2 (md_account_msg_id m) d.2)) = Some o /\
    link_stream (str_conn x') = link_stream (str_conn x) ++ octets o /\ link_ok (str_conn x') /\
    str_seq x' = (counter_increase (str_seq x)).2 /\ str_queue x' = str_queue x /\
    str_status x' = str_status x.
Proof.
  intros (os & h & Hos & Hp & Hst & Hr) Hl. unfold write_one. rewrite Hos. cbn [must mbind outcome_bind].
  rewrite Hp. unfold renew. rewrite (update_info_receipt _ _ _ Hr).
  change (counter_increase (str_seq x)) with (n (str_seq x), (counter_increase (str_seq x)).2).
  cbn [negb gw_assert mbind outcome_bind snd]. rewrite Hst.
  destruct (Hpack (MkHeader d.1.1 (n (str_seq x))) (renewed d.1.2 (md_account_msg_id m) d.2)) as [o Ho].
  rewrite Ho. cbn [must mbind outcome_bind]. set (x1 := set_str x _ _ _ _).
  destruct (set_str_str x (str_conn x) (counter_increase (str_seq x)).2 (str_status x) (str_quit x))
    as (A1 & A2 & A3 & A4). fold x1 in A1, A2, A3, A4.
  destruct (write_str_str x1 o) as (B1 & B2 & B3 & B4). destruct (count_sent_str (write_str x1 o)) as (C1 & C2 & C3 & C4).
  destruct (conn_write_law (str_conn x) o Hl) as (W1 & W2 & _).
  eexists _, o. split; [done|]. split; [done|].
  rewrite C1, C2, C3, C4, B1, B2, B3, B4, A1, A2, A3, A4. done.
Qed.

Lemma write_queue_spec : forall ms ds x,
  Forall2 delivers ms ds -> link_ok (str_conn x) -> counter_ok (str_seq x) ->
  n (str_seq x) + Z.of_nat (length ms) < ulong_max -> str_queue x = ms ->
  exists x' os, write_queue stack ms x = Done x' /\
    Forall2 (fun p o => smpp_pdu_pack p = Some o) (delivered_pdus (n (str_seq x)) ms ds) os /\
    link_stream (str_conn x') = link_stream (str_conn x) ++ concat (octets <$> os) /\
    link_ok (str_conn x') /\ str_queue x' = [] /\ str_status x' = str_status x.
Proof.
  intros ms ds x H. revert x. induction H as [|m d ms ds Hm _ IH]; intros x Hl Hc Hn Hq.
  { exists x, []. simpl. rewrite app_nil_r. by repeat split. }
  simpl. destruct (set_str_queue_str x ms) as (A1 & A2 & A3 & A4).
  destruct (write_one_spec (set_str_queue x ms) m d Hm) as (x1 & o & -> & Ho & Hs1 & Hl1 & Hq1 & Hd1 & Ht1).
  { by rewrite A1. }
  cbn [mbind outcome_bind]. rewrite A1, A2, A3, A4 in *. simpl in Hn.
  assert (Hn1 : n (str_seq x1) = n (str_seq x) + 1).
  { rewrite Hq1. simpl. apply wrap_ulong_id. unfold counter_ok in Hc. lia. }
  destruct (IH x1) as (x' & os & -> & Hp & Hs & Hl' & Hq' & Ht'); try done.
  { rewrite Hq1. apply counter_increase_ok. }
  { rewrite Hn1. lia. }
  rewrite Hn1 in Hp. exists x', (o :: os). split; [done|]. split; [by constructor|].
  split; [|split_and!; [done|done|by rewrite Ht', Ht1]].
  rewrite Hs, Hs1. simpl. by rewrite app_assoc.
Qed.

(** C30 Writing to a customer whose queue holds receipts of the usual form,
    with fields that fit into the buffers of the code ([receipt_ok]; the code
    writes behind them otherwise), that can be packed, while sequence numbers
    are left: every receipt is written to the connection once, in order, under
    the next sequence numbers, with its new text; the queue is empty afterwards
    and the status of the session stays. *)
Theorem write_esme_conn_delivers x (ds : list (Z * DeliverSm * receipt))
    (Hd : Forall2 delivers (str_queue x) ds) (Hl : link_ok (str_conn x)) (Hc : counter_ok (str_seq x))
    (Hn : n (str_seq x) + Z.of_nat (length (str_queue x)) < ulong_max) :
  exists x' os, write_esme_conn stack (Some x) = Done (Some x') /\
    Forall2 (fun p o => smpp_pdu_pack p = Some o) (delivered_pdus (n (str_seq x)) (str_queue x) ds) os /\
    link_stream (str_conn x') = link_stream (str_conn x) ++ concat (octets <$> os) /\
    str_queue x' = [] /\ str_status x' = str_status x.
Proof.
  destruct (write_queue_spec (str_queue x) ds x) as (x' & os & E & H1 & H2 & _ & H4 & H5); try done.
  exists x', os. unfold write_esme_conn. rewrite E. by split_and!.
Qed.

End Facts.
