(* ===== verification/ReceiptExamples.v ===== *)
(** * Receipts on examples

    A session with one receipt in its queue, on a connection that takes
    everything at once; the witnesses of the theorems about receipts. *)

From S2P Require Import Prelude Gwlib Counter World SmscConn SmppSession.
From S2P Require Import SessionExamples IoThreadExamples Esme EsmePdu EsmeProc.
From S2P Require Import EsmeExamples Receipt ReceiptFacts.
Open Scope Z_scope.

Definition sample_receipt : receipt :=
  MkReceipt (cstr "8a1f") (cstr "001") (cstr "001") (cstr "2401010101") (cstr "2401010102")
    (cstr "DELIVRD") (cstr "000") (cstr " text:hello").

Definition sample_deliver : DeliverSm (O:=list_octstr) (R:=no_rest) :=
  MkDeliverSm (O:=list_octstr) (R:=no_rest) (Some (cstr "4915112345")) (Some (cstr "ACME")) 4 0
    (Some (receipt_chars sample_receipt)) None None tt.

(** Only the receipts of the example are PDUs. *)
#[local] Instance receipt_pdus : PduLib list_octstr no_rest := {|
  smpp_pdu_pack p :=
    match p with
    | deliver_sm h b =>
        Some (byte_of (sequence_number h) :: default [] (d_short_message b))
    | _ => None
    end;
  smpp_pdu_unpack o :=
    match o with
    | [] => None
    | st :: _ => Some (deliver_sm (MkHeader st 9) sample_deliver)
    end;
|}.

Definition no_stack (i : nat) : list Z := [].

Lemma sample_has_receipt : has_receipt sample_deliver sample_receipt.
Proof.
  split; [|by exists (receipt_chars sample_receipt)].
  split; try split; try (vm_compute; lia); try done; try split; try (vm_compute; lia); try done;
    try (repeat constructor; done).
  intros c l [= <- _]. done.
Qed.

Lemma receipt_rewritten_witness :
  exists b', update_info no_stack sample_deliver (Some (cstr "77")) = Done (b', 10, false) /\
    d_short_message b' = Some
      (cstr "id:77 sub:001 dlvrd:001 submit date:2401010101 done date:2401010102 stat:DELIVRD  err:000  text:") /\
    receipted_message_id b' = Some (cstr "77") /\
    d_source_addr b' = Some (cstr "4915112345") /\ d_destination_addr b' = Some (cstr "ACME").
Proof.
  exact (receipt_rewritten no_stack sample_deliver (Some (cstr "77")) sample_receipt sample_has_receipt).
Defined.

Definition sample_deliveries : list (msg_deliver (O:=list_octstr)) :=
  [MkDeliver (O:=list_octstr) (Some (cstr "a")) (Some (cstr "8a1f")) (Some (cstr "77")) (Some [0; 0; 0; 9; 0]);
   MkDeliver (O:=list_octstr) (Some (cstr "a")) (Some (cstr "8a1f")) (Some (cstr "78")) (Some [0; 0; 0; 9; 0])].

Definition sample_rx : session_str (O:=list_octstr) (K:=direct_link) :=
  RxStr (MkRx (O:=list_octstr) (K:=direct_link) [] (Some (cstr "10.0.0.1")) 4000 2775 sample_deliveries
    counter_create (MkCounter 5) 0 5 ESME_BINDED 0 2 2).

Lemma sample_delivers m :
  m ∈ sample_deliveries -> delivers (P:=receipt_pdus) m (0, sample_deliver, sample_receipt).
Proof.
  intros Hm. exists [0; 0; 0; 9; 0], (MkHeader 0 9). split; [|split; [done|]].
  - repeat (apply elem_of_cons in Hm as [->|Hm]; [done|]). by apply elem_of_nil in Hm.
  - split; [done|apply sample_has_receipt].
Qed.

Lemma write_esme_conn_delivers_witness :
  exists x' os, write_esme_conn (P:=receipt_pdus) no_stack (Some sample_rx) = Done (Some x') /\
    Forall2 (fun p o => smpp_pdu_pack p = Some o)
      (delivered_pdus 5 sample_deliveries
        [(0, sample_deliver, sample_receipt); (0, sample_deliver, sample_receipt)]) os /\
    link_stream (str_conn x') = [] ++ concat (octets <$> os) /\ str_queue x' = [] /\ str_status x' = ESME_BINDED.
Proof.
  apply (write_esme_conn_delivers (P:=receipt_pdus) (KL:=direct_link_laws) no_stack) with (x := sample_rx).
  - intros h b. by eexists.
  - repeat constructor; apply sample_delivers; set_solver.
  - done.
  - by vm_compute.
  - by vm_compute.
Defined.
