(* ===== verification/ServerThread.v ===== *)
(** * The threads of the sessions (receive_smpp_thread in smpp-esme/smpp_esme.c)

    Every connection that is accepted gets a thread.  It waits for a bind and
    then serves the session until the connection ends, the customer unbinds
    or the server does.  A pointer to a session is the address of its ESME,
    its list and its id; the position in the list is looked up anew in every
    turn, because other threads change the list.  A turn is what a thread
    does from one place where the network, the clock or the other threads
    matter to the next one; [sys_step] lets them take turns.  A login takes
    two turns, because [authorise_user] lets go of the lock between its
    checks and the new session: [bind_turn] ends where the function waits for
    the lock for writing, [joining_turn] starts there. *)

From S2P Require Import Prelude Gwlib Counter Dict World SmscConn.
From S2P Require Import SmppSession Esme EsmePdu EsmeProc Receipt.
Open Scope Z_scope.

Definition SHUTDOWN_TIMEOUT : Z := 30.         (* SMPP_DEFAULT_SHUTDOWN_TIMEOUT *)

Section ServerThread.
Context {O : OctstrLib} {L : GwListLib} {R : PduRest} {N : SmppNames} {E : EsmeNames}.
Context {P : PduLib O R} {PX : PrefixLib O} {K : Link O} {TL : TimeLib O} {SL : ServerLib O R}.
Context {CK : Clock} {AN : AdminNames}.

(** The places of the thread: [conn_wait] before the bind, the write lock of
    [authorise_user] when the bind passed its checks, [conn_wait] and
    [read_pdu] of the loop, [conn_wait] after an unbind was sent, the label
    [error], and the end. *)
Inductive stage : Type :=
| AwaitBind (temp_conn : TEMPCONN) | Joining (temp_conn : TEMPCONN) (l : Login)
| Waiting | Reading | Unbinding | Leaving | Finished.

(** The local variables. *)
Record Receiver : Type := MkReceiver {
  r_stage : stage;
  r_thread : Z;
  r_esme : nat;
  thread_type : Z;                    (* 1 for a transmitter or transceiver, 2 for a receiver *)
  thread_session_id : Z;
  r_len : Z;
  r_last_enquire_sent : Z;
  r_last_response : Z
}.

Definition to_stage (t : Receiver) (g : stage) : Receiver :=
  MkReceiver g (r_thread t) (r_esme t) (thread_type t) (thread_session_id t) (r_len t)
    (r_last_enquire_sent t) (r_last_response t).
Definition with_len (t : Receiver) (len : Z) : Receiver :=
  MkReceiver (r_stage t) (r_thread t) (r_esme t) (thread_type t) (thread_session_id t) len
    (r_last_enquire_sent t) (r_last_response t).
Definition with_enquire (t : Receiver) (last : Z) : Receiver :=
  MkReceiver (r_stage t) (r_thread t) (r_esme t) (thread_type t) (thread_session_id t) (r_len t)
    last (r_last_response t).

(** The thread that is created for a connection. *)
Definition new_receiver (thread : Z) (temp_conn : TEMPCONN) : Receiver :=
  MkReceiver (AwaitBind temp_conn) thread 0 0 0 0 0 0.

Definition tempconn_create (conn : link) (client_ip : list Z) (client_port listen_port mode : Z)
    : TEMPCONN :=
  MkTempConn conn (Some (octstr_create client_ip)) client_port listen_port 0 mode 0.

(** [session_str] of the thread. *)
Definition own_session (p : Process) (t : Receiver) : outcome (nat * session_str) :=
  e ← must (heap (srv p) !! r_esme t);
  pos ← must (get_session_str e (thread_type t) (thread_session_id t));
  x ← get_str p (r_esme t) pos (thread_type t);
  Done (pos, x).

(** Change the session of the thread. *)
Definition on_session (p : Process) (t : Receiver) (f : session_str -> outcome session_str)
    : outcome Process :=
  '(pos, x) ← own_session p t;
  x ← f x;
  put_str p (r_esme t) pos x.

Definition set_conn (x : session_str) (l : link) : session_str :=
  set_str x l (str_seq x) (str_status x) (str_quit x).

(** From the end of [handle_pdu_bind] up to the loop. *)
Definition after_bind (quitting : bool) (ret len : Z) (esme : option nat) (tc : TEMPCONN) (p : Process)
    (t : Receiver) : outcome (Process * Receiver) :=
  if (ret =? 1) && (tc_bind_successful tc =? 0) then Done (p, to_stage t Finished)
  else if (ret =? -1) && ((len =? 0) || (len =? -1)) then Done (p, to_stage t Finished)
  else if conn_eof (tc_conn tc) || conn_error (tc_conn tc) then Done (p, to_stage t Finished)
  else if negb (ret =? 1) then Panic             (* esme has no value *)
  else match esme with
  | None => Done (p, to_stage t Finished)
  | Some a =>
      let type := if (tc_mode tc =? 1) || (tc_mode tc =? 3) then 1 else 2 in
      let t := MkReceiver (if (quitting : bool) then Leaving else Waiting) (r_thread t) a type
                 (tc_session_id tc) 0 (srv_now (srv p)) (r_last_response t) in
      _ ← own_session p t;
      Done (p, t)
  end.

(** The first PDU, up to the write lock when it is a bind that passes the
    checks. *)
Definition bind_turn (quitting : bool) (waited : Z) (tc : TEMPCONN) (p : Process) (t : Receiver)
    : outcome (Process * Receiver) :=
  if (waited =? 1) || (waited =? -1) then Done (p, to_stage t Finished) else
  let '(ret, len, q, l) := read_pdu (tc_conn tc) 0 in
  let tc := MkTempConn l (tc_client_ip tc) (tc_client_port tc) (tc_listen_port tc)
              (tc_bind_successful tc) (tc_mode tc) (tc_session_id tc) in
  if ret =? 1 then
    q ← must q;
    r ← bind_arrives p tc q;
    match r with
    | inl tc => after_bind quitting ret len None tc p t
    | inr l => Done (p, to_stage t (Joining tc l))
    end
  else after_bind quitting ret len None tc p t.

(** The rest of [handle_pdu_bind] under the lock and after it. *)
Definition joining_turn (quitting : bool) (tc : TEMPCONN) (l : Login) (p : Process) (t : Receiver)
    : outcome (Process * Receiver) :=
  '(esme, tc, p) ← bind_completes p (r_thread t) tc l;
  after_bind quitting 1 0 esme tc p t.

Definition wants_enquire (x : session_str) : bool :=
  match str_status x with ESME_BINDED | ESME_SMSC_UNCONNECTED => true | _ => false end.

(** [send_enquire_link] for a session that is bound. *)
Definition enquire (p : Process) (t : Receiver) : outcome (Process * Receiver) :=
  '(pos, x) ← own_session p t;
  if wants_enquire x then
    e ← must (heap (srv p) !! r_esme t);
    let '(x, last) := send_enquire_link (srv_now (srv p)) x (r_last_enquire_sent t)
                        (e_enquire_link_interval e) in
    p ← put_str p (r_esme t) pos x;
    Done (p, with_enquire t last)
  else Done (p, t).

(** After [conn_wait] of the loop. *)
Definition waiting_turn (waited : Z) (p : Process) (t : Receiver) : outcome (Process * Receiver) :=
  if waited =? -1 then Done (p, to_stage t Leaving) else
  '(_, x) ← own_session p t;
  match str_status x with
  | ESME_DISCONNECT | ESME_SEND_UNBIND =>
      p ← on_session p t (fun x => Done (send_unbind x));
      Done (p, MkReceiver Unbinding (r_thread t) (r_esme t) (thread_type t) (thread_session_id t)
                 (r_len t) (r_last_enquire_sent t) (srv_now (srv p)))
  | _ => '(p, t) ← enquire p t; Done (p, to_stage t Reading)
  end.

(** [read_pdu] on the connection of the session; a PDU is handled. *)
Definition read_and_handle (p : Process) (t : Receiver) : outcome (Z * Process * Receiver) :=
  '(pos, x) ← own_session p t;
  let '(ret, len, q, l) := read_pdu (str_conn x) (r_len t) in
  let t := with_len t len in
  p ← put_str p (r_esme t) pos (set_conn x l);
  if ret =? 1 then
    q ← must q;
    p ← handle_pdu p (r_esme t) pos (thread_type t) q;
    Done (ret, p, t)
  else Done (ret, p, t).

Definition write_queued (stack : nat -> list Z) (p : Process) (t : Receiver) : outcome Process :=
  on_session p t (fun x => x ← write_esme_conn stack (Some x); must x).

Definition reading_turn (stack : nat -> list Z) (p : Process) (t : Receiver)
    : outcome (Process * Receiver) :=
  '(ret, p, t) ← read_and_handle p t;
  if ret =? 1 then
    p ← write_queued stack p t;
    enquire p t
  else
    '(_, x) ← own_session p t;
    if bool_decide (str_status x = ESME_UNCONNECTED) ||
       ((ret =? -1) && ((r_len t =? -1) || (r_len t =? 0))) ||
       conn_eof (str_conn x) || conn_error (str_conn x)
    then Done (p, to_stage t Leaving)
    else p ← write_queued stack p t; Done (p, to_stage t Waiting).

(** The loop after the unbind. *)
Definition unbinding_turn (waited : Z) (p : Process) (t : Receiver) : outcome (Process * Receiver) :=
  '(_, x) ← own_session p t;
  if negb (waited =? -1) && (srv_now (srv p) - r_last_response t <? SHUTDOWN_TIMEOUT) &&
     negb (str_quit x =? 1) then
    '(_, p, t) ← read_and_handle p t;
    Done (p, t)
  else Done (p, to_stage t Leaving).

(** The label [error]. *)
Definition leaving_turn (p : Process) (t : Receiver) : outcome (Process * Receiver) :=
  s ← esme_destroy (srv p) (Some (r_esme t)) (thread_type t) (thread_session_id t);
  Done (set_srv p s, to_stage t Finished).

(** One turn: [waited] is what [conn_wait] returns, [stack] what the buffers
    of [sscanf] hold. *)
Definition receiver_turn (quitting : bool) (waited : Z) (stack : nat -> list Z) (p : Process)
    (t : Receiver) : outcome (Process * Receiver) :=
  match r_stage t with
  | AwaitBind tc => bind_turn quitting waited tc p t
  | Joining tc l => joining_turn quitting tc l p t
  | Waiting => waiting_turn waited p t
  | Reading => reading_turn stack p t
  | Unbinding => unbinding_turn waited p t
  | Leaving => leaving_turn p t
  | Finished => Done (p, t)
  end.

End ServerThread.
