(* ===== verification/ServerThreadFacts.v ===== *)
(** * Theorems about the threads of the sessions

    Whatever the order in which the threads take turns, each of them works on
    a session of its own that stays in the list of its account until the
    thread takes it out, and no turn stops the process. *)

From S2P Require Import Prelude Gwlib Counter Dict World SmscConn SmppSession.
From S2P Require Import IoThreadFacts Esme EsmeFacts EsmePdu EsmePduFacts EsmeProc.
From S2P Require Import EsmeProcFacts Receipt ReceiptFacts ServerThread.
Open Scope Z_scope.

Section Facts.
Context {O : OctstrLib} {OL : OctstrLaws O} {L : GwListLib} {R : PduRest} {N : SmppNames}.
Context {NL : SmppNamesLaws N} {E : EsmeNames} {EL : EsmeNamesLaws N E} {P : PduLib O R}.
Context {PX : PrefixLib O} {K : Link O} {KL : LinkLaws K} {KR : LinkReads K} {TL : TimeLib O}.
Context {SL : ServerLib O R} {CK : Clock} {AN : AdminNames}.
Implicit Types (p : Process) (e : ESME) (x y z : session_str).

(** ** Open sessions *)

(** The list of an account for a kind of thread. *)
Definition kind_list e (k : Z) : list session_str :=
  if k =? 2 then RxStr <$> rx_esme e else TxStr <$> tx_esme e.

Definition kind_ok (k : Z) : Prop := k = 1 \/ k = 2.

Definition open_str p (a : nat) (k : Z) x : Prop :=
  exists e, heap (srv p) !! a = Some e /\ x ∈ kind_list e k.

Lemma kind_ids e k :
  str_id <$> kind_list e k = if k =? 2 then rx_session_id <$> rx_esme e else tx_session_id <$> tx_esme e.
Proof. unfold kind_list. destruct (k =? 2); by rewrite <-list_fmap_compose. Qed.

Lemma kind_ids_ok p a e k : book_ok (srv p) -> heap (srv p) !! a = Some e -> ids_ok (str_id <$> kind_list e k).
Proof.
  intros H He. destruct (bk_esme _ H a e He) as (_ & Htx & Hrx & _). rewrite kind_ids. by destruct (k =? 2).
Qed.

(** The session at a position. *)
Lemma get_str_lookup p a pos k x :
  get_str p a pos k = Done x <-> exists e, heap (srv p) !! a = Some e /\ kind_list e k !! pos = Some x.
Proof.
  unfold get_str, kind_list. split.
  - intros H. apply bind_Done in H as (e & He%must_Done & H). exists e. split; [done|].
    destruct (k =? 2); apply bind_Done in H as (u & Hu%must_Done & [= <-]); by rewrite list_lookup_fmap, Hu.
  - intros (e & -> & H). cbn [must mbind outcome_bind].
    destruct (k =? 2); rewrite list_lookup_fmap in H; apply fmap_Some in H as (u & -> & ->); done.
Qed.

Lemma get_str_open p a pos k x : get_str p a pos k = Done x -> open_str p a k x.
Proof.
  intros (e & He & H)%get_str_lookup. exists e. split; [done|]. by eapply list_elem_of_lookup_2.
Qed.

(** An id names one session. *)
Lemma open_unique p a k x y :
  book_ok (srv p) -> open_str p a k x -> open_str p a k y -> str_id x = str_id y -> x = y.
Proof.
  intros H (e & He & Hx) (e' & He' & Hy) Hid. rewrite He in He'. injection He' as <-.
  destruct (kind_ids_ok p a e k H He) as [Hnd _].
  apply list_elem_of_lookup in Hx as [i Hi]. apply list_elem_of_lookup in Hy as [j Hj].
  assert (i = j) as <-; [|congruence].
  eapply (NoDup_lookup _ _ _ (str_id x) Hnd); rewrite list_lookup_fmap; [by rewrite Hi|by rewrite Hj, Hid].
Qed.

(** [get_session_str] finds the position of an open session. *)
Lemma find_position e k x :
  kind_ok k -> ids_ok (str_id <$> kind_list e k) -> x ∈ kind_list e k ->
  exists pos, get_session_str e k (str_id x) = Some pos /\ kind_list e k !! pos = Some x.
Proof.
  intros Hk [Hnd Hpos] Hx. apply list_elem_of_lookup in Hx as [i Hi]. exists i. split; [|done].
  assert (Hp : 1 <= str_id x).
  { rewrite Forall_fmap, Forall_forall in Hpos. apply Hpos. by eapply list_elem_of_lookup_2. }
  assert (Hf : forall {A} (f : A -> Z) (l : list A) u, NoDup (f <$> l) -> l !! i = Some u ->
    fst <$> list_find (fun v => f v = f u) l = Some i).
  { intros A f l u Hn Hu. assert (list_find (fun v => f v = f u) l = Some (i, u)) as ->; [|done].
    apply list_find_Some. split_and!; [done|done|]. intros j v Hj Hlt Hv.
    assert (j = i); [|lia]. eapply (NoDup_lookup _ _ _ (f u) Hn); rewrite list_lookup_fmap; [by rewrite Hj, <-Hv|by rewrite Hu]. }
  rewrite kind_ids in Hnd. unfold get_session_str, kind_list in *.
  assert ((str_id x <? 1) || (k <? 1) || (3 <? k) = false) as ->.
  { rewrite !orb_false_iff, !Z.ltb_ge. unfold kind_ok in Hk. lia. }
  destruct (k =? 2); rewrite list_lookup_fmap in Hi; apply fmap_Some in Hi as (u & Hi & ->); by apply Hf.
Qed.

(** ** Changing one session *)

Definition same_kind x y : Prop :=
  match x, y with TxStr _, TxStr _ | RxStr _, RxStr _ => True | _, _ => False end.

(** Session [x] of an account became [y], which has its id; all others stay. *)
Definition replaced p p' (a : nat) (k : Z) x y : Prop :=
  forall b k' z, kind_ok k' -> open_str p' b k' z <->
    (b = a /\ k' = k /\ z = y) \/ (open_str p b k' z /\ ~ (b = a /\ k' = k /\ str_id z = str_id x)).

Lemma in_insert {A} (f : A -> Z) (l : list A) pos u v w :
  NoDup (f <$> l) -> l !! pos = Some u ->
  w ∈ <[pos:=v]> l <-> w = v \/ (w ∈ l /\ f w <> f u).
Proof.
  intros Hnd Hu. rewrite !list_elem_of_lookup. split.
  - intros [j Hj]. destruct (decide (j = pos)) as [->|Hne].
    + rewrite list_lookup_insert_eq in Hj by by eapply lookup_lt_Some. left. congruence.
    + rewrite list_lookup_insert_ne in Hj by done. right. split; [by exists j|]. intros Hf. apply Hne.
      eapply (NoDup_lookup _ _ _ (f u) Hnd); rewrite list_lookup_fmap; [by rewrite Hj, <-Hf|by rewrite Hu].
  - intros [->|[[j Hj] Hf]].
    + exists pos. apply list_lookup_insert_eq. by eapply lookup_lt_Some.
    + exists j. rewrite list_lookup_insert_ne; [done|]. intros <-. congruence.
Qed.

(** The lists of an account after [put_str]. *)
Lemma kind_list_put e k k' pos x y :
  kind_ok k -> kind_ok k' -> kind_list e k !! pos = Some x -> same_kind x y ->
  kind_list (match y with
    | TxStr t => set_sessions e (<[pos:=t]> (tx_esme e)) (rx_esme e)
    | RxStr r => set_sessions e (tx_esme e) (<[pos:=r]> (rx_esme e)) end) k'
  = if decide (k' = k) then <[pos:=y]> (kind_list e k) else kind_list e k'.
Proof.
  unfold kind_list. intros [-> | ->] [-> | ->] H; cbn [Z.eqb Pos.eqb] in *; rewrite list_lookup_fmap in H;
    apply fmap_Some in H as (u & Hu & ->); destruct y; simpl; try done; intros _;
    by rewrite list_fmap_insert.
Qed.

(** What the threads and handlers keep: the invariant of the list of ESMEs
    and everything that a submitted message needs. *)
Record set_up p : Prop := {
  su_forward : is_Some (forward_client p);
  su_reverse : is_Some (reverse_client p);
  su_dbbox : is_Some (dbbox_client p);
  su_named : Forall named (translations (srv p));
  su_series : is_Some (default_series (series p));
  su_smscs : (length (smscs (srv p)) <= 128)%nat;
  su_preferred c : c ∈ translations (srv p) -> (length (default [] (cl_preferred_smsc c)) < 255)%nat
}.

Lemma set_up_steady p p' : steady p p' -> set_up p -> set_up p'.
Proof. intros [E1 E2 _ _ E3 E4 E5 E6] []. split; by rewrite ?E1, ?E2, ?E3, ?E4, ?E5, ?E6. Qed.

Lemma put_str_replaces p a pos k x y :
  book_ok (srv p) -> kind_ok k -> get_str p a pos k = Done x -> str_id y = str_id x -> same_kind x y ->
  exists p', put_str p a pos y = Done p' /\ book_ok (srv p') /\ steady p p' /\
    get_str p' a pos k = Done y /\ replaced p p' a k x y.
Proof.
  intros H Hk Hx Hid Hxy. destruct (put_str_ok p a pos k x y H Hx Hid Hxy) as (p' & Ep & Hb & Hy & _).
  exists p'. split; [done|]. split; [done|].
  apply get_str_lookup in Hx as (e & He & Hpos). unfold put_str in Ep. rewrite He in Ep.
  cbn [must mbind outcome_bind] in Ep. injection Ep as <-. split; [by split|]. split; [done|].
  intros b k' z Hk'. unfold open_str. cbn [srv put_esme set_srv heap set_heap].
  pose proof (kind_list_put e k k' pos x y Hk Hk' Hpos Hxy) as El. set (e' := match y with TxStr _ => _ | RxStr _ => _ end) in *.
  destruct (kind_ids_ok p a e k H He) as [Hnd _].
  destruct (decide (b = a)) as [->|Hne].
  - rewrite lookup_insert_eq. destruct (decide (k' = k)) as [->|Hkk].
    + split.
      * intros (e1 & [= <-] & Hz). rewrite El, (in_insert str_id _ _ x) in Hz by done.
        destruct Hz as [->|[Hz Hn]]; [by left|right]. split; [by exists e|]. by intros (_ & _ & ?).
      * intros Hz. exists e'. split; [done|]. rewrite El, (in_insert str_id _ _ x) by done.
        destruct Hz as [(_ & _ & ->)|[(e1 & He1 & Hz) Hn]]; [by left|right].
        rewrite He in He1. injection He1 as <-. split; [done|]. intros ?. by apply Hn.
    + split.
      * intros (e1 & [= <-] & Hz). rewrite El in Hz. right. split; [by exists e|]. by intros (_ & ? & _).
      * intros [(_ & ? & _)|[(e1 & He1 & Hz) _]]; [done|]. exists e'. rewrite El.
        rewrite He in He1. by injection He1 as <-.
  - rewrite lookup_insert_ne by done. split; [intros Hz; right; split; [done|by intros (? & _)]|].
    intros [(? & _)|[Hz _]]; done.
Qed.

(** Nobody logged in or out. *)
Definition all_stay p p' : Prop := forall name, account_stays (srv p) (srv p') name.

#[export] Instance all_stay_preorder : PreOrder all_stay.
Proof. split; [by intros p name|]. intros x y z H1 H2 name. by eapply account_stays_trans. Qed.

Lemma put_str_stays p p' a pos k x y :
  kind_ok k -> get_str p a pos k = Done x -> same_kind x y -> put_str p a pos y = Done p' -> all_stay p p'.
Proof.
  intros Hk Hx Hxy Ep name. apply get_str_lookup in Hx as (e & He & Hpos).
  unfold put_str in Ep. rewrite He in Ep. cbn [must mbind outcome_bind] in Ep. injection Ep as <-.
  eapply (account_stays_update _ _ a e); [done|done|done|..]; destruct y; simpl; by rewrite ?length_insert.
Qed.

(** ** A thread at work on its session *)

(** A message that can be delivered: when it is a receipt, it has the usual
    form. *)
Definition deliverable (m : msg_deliver) : Prop :=
  exists os, md_os m = Some os /\
    forall h b, smpp_pdu_unpack (octstr_from_position os 4) = Some (deliver_sm h b) ->
      exists r, has_receipt b r.

Definition fit x : Prop := link_ok (str_conn x) /\ Forall deliverable (str_queue x).

Record serving p (a pos : nat) (k : Z) x : Prop := {
  sg_book : book_ok (srv p);
  sg_set_up : set_up p;
  sg_kind : kind_ok k;
  sg_str : get_str p a pos k = Done x;
  sg_fit : fit x
}.

(** The sessions of the other threads stay. *)
Definition others_stay p p' (a : nat) (k sid : Z) : Prop :=
  forall b k' z, kind_ok k' -> ~ (b = a /\ k' = k /\ str_id z = sid) ->
    open_str p' b k' z <-> open_str p b k' z.

(** What is done on session [x], which becomes [y]. *)
Definition moves p p' (a pos : nat) (k : Z) x y : Prop :=
  serving p' a pos k y /\ str_id y = str_id x /\ others_stay p p' a k (str_id x) /\ all_stay p p'.

Lemma moves_refl p a pos k x : serving p a pos k x -> moves p p a pos k x x.
Proof. by split. Qed.

Lemma moves_trans p1 p2 p3 a pos k x y z :
  moves p1 p2 a pos k x y -> moves p2 p3 a pos k y z -> moves p1 p3 a pos k x z.
Proof.
  intros (_ & I1 & F1 & A1) (S2 & I2 & F2 & A2). split; [done|]. split; [congruence|].
  split; [|by etrans]. intros b k' u Hk Hn. rewrite (F2 b k' u Hk) by by rewrite I1. by apply F1.
Qed.

Lemma kind_of_list e k x : x ∈ kind_list e k -> match x with TxStr _ => k <> 2 | RxStr _ => k = 2 end.
Proof.
  unfold kind_list. destruct (Z.eqb_spec k 2); intros H; apply list_elem_of_fmap in H as (u & -> & _); done.
Qed.

Lemma put_moves p a pos k x y :
  serving p a pos k x -> str_id y = str_id x -> same_kind x y -> fit y ->
  exists p', put_str p a pos y = Done p' /\ steady p p' /\ moves p p' a pos k x y.
Proof.
  intros [H Hs Hk Hx _] Hid Hxy Hf. destruct (put_str_replaces p a pos k x y H Hk Hx Hid Hxy)
    as (p' & Ep & Hb & Hst & Hy & Hr).
  exists p'. split; [done|]. split; [done|]. split; [split; try done; by apply (set_up_steady p)|].
  split; [done|]. split; [|by eapply put_str_stays]. intros b k' z Hk' Hn. rewrite (Hr b k' z Hk'). split.
  - intros [(-> & -> & ->)|[Hz _]]; [by destruct Hn|done].
  - intros Hz. right. by split.
Qed.

Lemma own_session_serving p a pos k x t :
  serving p a pos k x -> r_esme t = a -> thread_type t = k -> thread_session_id t = str_id x ->
  own_session p t = Done (pos, x).
Proof.
  intros [H Hs Hk Hx _] <- <- Hsid. unfold own_session. rewrite Hsid.
  pose proof Hx as (e & He & Hpos)%get_str_lookup. rewrite He. cbn [must mbind outcome_bind].
  destruct (find_position e (thread_type t) x Hk) as (pos' & -> & Hpos'); [by eapply kind_ids_ok|by eapply list_elem_of_lookup_2|].
  assert (pos' = pos) as ->.
  { eapply (NoDup_lookup _ _ _ (str_id x)); [apply (kind_ids_ok p _ e (thread_type t) H He)|..];
      rewrite list_lookup_fmap; [by rewrite Hpos'|by rewrite Hpos]. }
  cbn [must mbind outcome_bind]. by rewrite Hx.
Qed.

(** ** The handlers *)

Context (Hpack : forall q, is_Some (smpp_pdu_pack q)).

(** PDUs that the handlers can deal with: a message only from a transmitter,
    with its addresses. *)
Definition proper (k : Z) (q : SMPP_PDU) : Prop :=
  match q with
  | submit_sm _ b =>
      k = 1 /\ is_Some (source_addr b) /\ is_Some (destination_addr b) /\
      (Z.land (esm_class b) ESM_CLASS_SUBMIT_UDH_INDICATOR <> 0 \/ data_coding b <> 0 ->
       is_Some (short_message b))
  | _ => True
  end.

Lemma set_str_same x c seq st quit :
  str_id (set_str x c seq st quit) = str_id x /\ same_kind x (set_str x c seq st quit) /\
  str_queue (set_str x c seq st quit) = str_queue x /\ str_conn (set_str x c seq st quit) = c.
Proof. by destruct x. Qed.

Lemma set_str_moves p a pos k x c seq st quit :
  serving p a pos k x -> link_ok c ->
  exists p', put_str p a pos (set_str x c seq st quit) = Done p' /\ steady p p' /\
    moves p p' a pos k x (set_str x c seq st quit).
Proof.
  intros Hs Hc. destruct (set_str_same x c seq st quit) as (E1 & E2 & E3 & E4).
  apply put_moves; try done. split; [by rewrite E4|rewrite E3; apply (sg_fit _ _ _ _ _ Hs)].
Qed.

(** A new structure for an account that keeps its name. *)
Lemma book_steady p p' a e e' :
  steady p p' -> book_ok (srv p) -> heap (srv p) !! a = Some e -> heap (srv p') = <[a:=e']> (heap (srv p)) ->
  e_system_id e' = e_system_id e -> esme_ok (srv p) e' -> book_ok (srv p').
Proof.
  intros [E1 E2 E3 E4 _ _ _ _] H He Hheap Hid Hok. pose proof (book_update (srv p) a e e' H He Hid Hok) as [? ? ? ? Hb].
  split; rewrite ?E3, ?E4, ?Hheap; try done. intros b x Hx. by apply (esme_ok_translations (srv p)), (Hb b).
Qed.

Lemma serving_serves p a pos t : serving p a pos 1 (TxStr t) ->
  exists e, serves p a pos e t.
Proof.
  intros [H [] _ (e & He & Ht)%get_str_lookup _]. exists e. unfold kind_list in Ht. simpl in Ht.
  rewrite list_lookup_fmap in Ht. apply fmap_Some in Ht as (u & Hu & [= <-]). by split.
Qed.

Lemma submit_moves p a pos x h b :
  serving p a pos 1 x -> proper 1 (submit_sm h b) ->
  exists r p' y, handle_submit_sm p a pos 1 h b = Done (r, p') /\ moves p p' a pos 1 x y.
Proof.
  intros Hs (_ & [src Hsrc] & [dst Hdst] & Hc). pose proof Hs as [H Hset _ Hx Hf].
  destruct x as [t|r].
  2:{ apply get_str_open in Hx as (e & _ & Hin). by apply kind_of_list in Hin. }
  destruct (serving_serves p a pos t Hs) as [e Hsv].
  destruct (handle_submit_sm_spec p a pos e t h b src dst Hsv Hsrc Hdst Hc)
    as (st & mid & p' & e' & t' & sent & rec & Eh & _ & _ & _ & _ & _ & Hheap & Etx & Erx & _ & Eid & Hsame & Hst).
  pose proof (sv_esme _ _ _ _ _ Hsv) as He. pose proof (sv_tx _ _ _ _ _ Hsv) as Ht.
  destruct Hsame as (S1 & S2 & S3 & _).
  assert (Hput : put_str p a pos (TxStr t') = Done (put_esme p a (set_sessions e (<[pos:=t']> (tx_esme e)) (rx_esme e)))).
  { unfold put_str. by rewrite He. }
  destruct (put_str_replaces p a pos 1 (TxStr t) (TxStr t')) as (p2 & Ep & Hb & _ & _ & Hr); [done|by left|done|done|done|].
  rewrite Hput in Ep. injection Ep as <-.
  assert (Hopen : forall b k z, open_str p' b k z <-> open_str (put_esme p a (set_sessions e (<[pos:=t']> (tx_esme e)) (rx_esme e))) b k z).
  { intros b0 k z. unfold open_str. rewrite Hheap. cbn [srv put_esme set_srv heap set_heap].
    destruct (decide (b0 = a)) as [->|Hne]; [|by rewrite !lookup_insert_ne].
    rewrite !lookup_insert_eq. unfold kind_list. split; intros (e1 & [= <-] & Hz); eexists; (split; [done|]);
      rewrite ?Etx, ?Erx in *; exact Hz. }
  exists (submit_sm_resp (MkHeader st (sequence_number h)) (Some mid)), p', (TxStr t'). split; [exact Eh|].
  split; [split|split; [done|split]].
  - apply (book_steady p _ a e e' Hst H He Hheap Eid).
    assert (Hok : esme_ok (srv p) (set_sessions e (<[pos:=t']> (tx_esme e)) (rx_esme e))).
    { apply (bk_esme _ Hb a). apply lookup_insert_eq. }
    revert Hok. unfold esme_ok. simpl. by rewrite Etx, Erx, Eid.
  - by apply (set_up_steady p).
  - by left.
  - apply get_str_lookup. exists e'. rewrite Hheap, lookup_insert_eq. split; [done|]. unfold kind_list. simpl.
    rewrite Etx, list_lookup_fmap, list_lookup_insert_eq; [done|by eapply lookup_lt_Some].
  - unfold fit in *. simpl in *. by rewrite S2, S3.
  - intros b0 k' z Hk' Hn. rewrite Hopen, (Hr b0 k' z Hk'). split.
    + intros [(-> & -> & ->)|[Hz _]]; [destruct Hn; by simpl; rewrite S1|done].
    + intros Hz. right. by split.
  - intros name. apply (account_stays_update _ _ a e e'); try done; [apply Hst|by rewrite Etx, length_insert|by rewrite Erx].
Qed.

Lemma dispatch_moves p a pos k x q :
  serving p a pos k x -> proper k q ->
  exists r p' y, dispatch p a pos k q = Done (r, p') /\ moves p p' a pos k x y.
Proof.
  intros Hs Hq. unfold dispatch. rewrite (sg_str _ _ _ _ _ Hs). cbn [mbind outcome_bind].
  assert (Hput : forall st quit, exists p', put_str p a pos (set_str x (str_conn x) (str_seq x) st quit) = Done p' /\
    moves p p' a pos k x (set_str x (str_conn x) (str_seq x) st quit)).
  { intros st quit. destruct (set_str_moves p a pos k x (str_conn x) (str_seq x) st quit Hs)
      as (p' & E1 & _ & Hm); [apply (sg_fit _ _ _ _ _ Hs)|by exists p']. }
  assert (Hkeep : forall r : option SMPP_PDU, exists r' p' y, @Done (option SMPP_PDU * Process) (r, p) = Done (r', p') /\ moves p p' a pos k x y).
  { intros r. exists r, p, x. split; [done|by apply moves_refl]. }
  destruct q; try apply Hkeep.
  - destruct Hq as (-> & Hq). destruct (submit_moves p a pos x h b Hs) as (r & p' & y & -> & Hm); [by split|].
    cbn [mbind outcome_bind]. by exists (Some r), p', y.
  - destruct (Hput ESME_UNCONNECTED (str_quit x)) as (p' & Ep & Hm). unfold handle_unbind. rewrite Ep.
    cbn [mbind outcome_bind]. by do 3 eexists.
  - destruct (Hput (str_status x) 1) as (p' & Ep & Hm). unfold handle_unbind_resp. rewrite Ep.
    cbn [mbind outcome_bind]. by do 3 eexists.
  - repeat case_match; apply Hkeep.
Qed.

(** A PDU is handled and its answer written. *)
Lemma handle_pdu_moves p a pos k x q :
  serving p a pos k x -> proper k q ->
  exists p' y, handle_pdu p a pos k q = Done p' /\ moves p p' a pos k x y.
Proof.
  intros Hs Hq. unfold handle_pdu. destruct (dispatch_moves p a pos k x q Hs Hq) as (r & p1 & y & -> & Hm).
  cbn [mbind outcome_bind]. destruct r as [r|]; [|by exists p1, y].
  destruct (Hpack r) as [os ->]. cbn [must mbind outcome_bind]. pose proof Hm as (Hs1 & _).
  rewrite (sg_str _ _ _ _ _ Hs1). cbn [mbind outcome_bind].
  destruct (set_str_moves p1 a pos k y (conn_write (str_conn y) os).2 (str_seq y) (str_status y) (str_quit y) Hs1)
    as (p2 & Ep & _ & Hm2); [apply conn_write_law, (sg_fit _ _ _ _ _ Hs1)|].
  unfold write_str. rewrite Ep. eexists _, _. split; [done|]. by eapply moves_trans.
Qed.

(** ** What a thread writes on its own *)

(** [y] is session [x] with other numbers and an emptier queue. *)
Definition follows x y : Prop := str_id y = str_id x /\ same_kind x y /\ fit y.

Lemma follows_refl x : fit x -> follows x x.
Proof. intros Hf. split; [done|]. split; [by destruct x|done]. Qed.

Lemma follows_trans x y z : follows x y -> follows y z -> follows x z.
Proof.
  intros (E1 & K1 & _) (E2 & K2 & H). split; [congruence|]. split; [|done]. by destruct x, y, z.
Qed.

Lemma set_str_follows x c seq st quit : fit x -> link_ok c -> follows x (set_str x c seq st quit).
Proof.
  intros [_ Hq] Hc. destruct (set_str_same x c seq st quit) as (E1 & E2 & E3 & E4).
  split; [done|]. split; [done|]. split; [by rewrite E4|by rewrite E3].
Qed.

Lemma send_numbered_follows x q : fit x -> follows x (send_numbered x q).
Proof.
  intros Hf. unfold send_numbered. destruct (counter_increase (str_seq x)) as [v c].
  pose proof (set_str_follows x (str_conn x) c (str_status x) (str_quit x) Hf (proj1 Hf)) as H1.
  destruct (smpp_pdu_pack (q v)); [|done]. eapply follows_trans; [exact H1|].
  apply set_str_follows; [apply H1|]. apply conn_write_law, H1.
Qed.

Lemma count_sent_follows x : fit x -> follows x (count_sent x).
Proof. intros Hf. by destruct x. Qed.

Lemma write_one_follows stack x m :
  fit x -> deliverable m -> exists y, write_one stack x m = Done y /\ follows x y /\ str_queue y = str_queue x.
Proof.
  intros Hf (os & Hos & Hr). unfold write_one. rewrite Hos. cbn [must mbind outcome_bind].
  destruct (smpp_pdu_unpack (octstr_from_position os 4)) as [q|] eqn:Eq.
  2:{ exists x. split; [done|]. split; [by apply follows_refl|done]. }
  assert (Hrenew : exists q' x1, renew stack x m q = Done (q', x1) /\ follows x x1 /\ str_queue x1 = str_queue x).
  { pose proof (follows_refl x Hf) as Hx.
    destruct q; try (by exists q, x); try (by eexists _, x). destruct (Hr h b eq_refl) as [r Hrec]. unfold renew.
    destruct (counter_increase (str_seq x)) as [v c]. rewrite (update_info_receipt _ _ _ r Hrec).
    cbn [mbind outcome_bind negb gw_assert]. eexists _, _. split; [done|].
    split; [apply set_str_follows; [done|apply Hf]|by destruct x]. }
  destruct Hrenew as (q' & x1 & -> & H1 & Eq1). cbn [mbind outcome_bind].
  destruct (Hpack q') as [o ->]. cbn [must mbind outcome_bind]. eexists. split; [done|].
  assert (H2 : follows x1 (write_str x1 o)).
  { apply set_str_follows; [apply H1|]. apply conn_write_law, H1. }
  split; [|rewrite <-Eq1; by destruct x1].
  eapply follows_trans; [exact H1|]. eapply follows_trans; [exact H2|]. apply count_sent_follows, H2.
Qed.

Lemma write_queue_follows stack q : forall x,
  fit x -> str_queue x = q -> exists y, write_queue stack q x = Done y /\ follows x y.
Proof.
  induction q as [|m q IH]; intros x Hf Hq; simpl.
  { exists x. split; [done|by apply follows_refl]. }
  assert (Hm : deliverable m /\ Forall deliverable q).
  { destruct Hf as [_ Hf]. rewrite Hq in Hf. by apply Forall_cons in Hf. }
  assert (H1 : follows x (set_str_queue x q)).
  { split; [by destruct x|]. split; [by destruct x|]. split; [destruct x; apply Hf|by destruct x; apply Hm]. }
  destruct (write_one_follows stack (set_str_queue x q) m) as (y & -> & H2 & Eq); [apply H1|apply Hm|].
  cbn [mbind outcome_bind]. destruct (IH y) as (z & -> & H3); [apply H2|by rewrite Eq; destruct x|].
  exists z. split; [done|]. eapply follows_trans; [exact H1|]. by eapply follows_trans.
Qed.

(** ** The turns of a session *)

(** The thread works on session [x] at a position. *)
Definition works p (t : Receiver) (pos : nat) x : Prop :=
  serving p (r_esme t) pos (thread_type t) x /\ thread_session_id t = str_id x.

(** The same thread with other numbers or at another place. *)
Definition same_thread (t t' : Receiver) : Prop :=
  r_esme t' = r_esme t /\ thread_type t' = thread_type t /\ thread_session_id t' = thread_session_id t.

#[export] Instance same_thread_preorder : PreOrder same_thread.
Proof. split; [by split|]. intros a b c (?&?&?) (?&?&?). split_and!; congruence. Qed.

(** Thread [t] made [p] to [p'], working on [x], which is [y] now. *)
Definition worked p p' (t t' : Receiver) (pos : nat) x y : Prop :=
  same_thread t t' /\ works p' t' pos y /\
  others_stay p p' (r_esme t) (thread_type t) (thread_session_id t) /\ all_stay p p'.

Lemma works_own p t pos x : works p t pos x -> own_session p t = Done (pos, x).
Proof. intros [Hs Hid]. by eapply own_session_serving. Qed.

Lemma worked_moves p p' t t' pos x y :
  works p t pos x -> moves p p' (r_esme t) pos (thread_type t) x y -> same_thread t t' ->
  worked p p' t t' pos x y.
Proof.
  intros [_ Hid] (H1 & H2 & H3 & H4) (E1 & E2 & E3). split; [done|]. rewrite Hid. split; [|by split].
  split; [by rewrite E1, E2|by rewrite E3, H2].
Qed.

Lemma worked_refl p t t' pos x : works p t pos x -> same_thread t t' -> worked p p t t' pos x x.
Proof. intros Hw Ht. eapply worked_moves; [done|apply moves_refl, Hw|done]. Qed.

Lemma worked_trans p1 p2 p3 t1 t2 t3 pos x y z :
  worked p1 p2 t1 t2 pos x y -> worked p2 p3 t2 t3 pos y z -> worked p1 p3 t1 t3 pos x z.
Proof.
  intros (S1 & _ & F1 & A1) (S2 & W2 & F2 & A2). split; [by etrans|]. split; [done|]. split; [|by etrans].
  destruct S1 as (E1 & E2 & E3). rewrite E1, E2, E3 in F2.
  intros b k z' Hk Hn. rewrite (F2 b k z' Hk Hn). by apply F1.
Qed.

Lemma on_session_worked p t pos x f y :
  works p t pos x -> f x = Done y -> follows x y ->
  exists p', on_session p t f = Done p' /\ worked p p' t t pos x y.
Proof.
  intros Hw Ef (Hid & Hk & Hf). unfold on_session. rewrite (works_own p t pos x Hw).
  cbn [mbind outcome_bind]. rewrite Ef. cbn [mbind outcome_bind].
  destruct (put_moves p (r_esme t) pos (thread_type t) x y) as (p' & -> & _ & Hm); try done; [apply Hw|].
  exists p'. split; [done|]. by eapply worked_moves.
Qed.

Lemma send_enquire_link_follows now x last interval : fit x -> follows x (send_enquire_link now x last interval).1.
Proof.
  intros Hf. unfold send_enquire_link. destruct (_ <? _); [by apply follows_refl|by apply send_numbered_follows].
Qed.

Lemma enquire_worked p t pos x :
  works p t pos x -> exists p' t' y, enquire p t = Done (p', t') /\ r_stage t' = r_stage t /\
    worked p p' t t' pos x y.
Proof.
  intros Hw. unfold enquire. rewrite (works_own p t pos x Hw). cbn [mbind outcome_bind].
  destruct (wants_enquire x); [|exists p, t, x; split; [done|]; split; [done|by apply worked_refl]].
  pose proof (sg_str _ _ _ _ _ (proj1 Hw)) as (e & -> & _)%get_str_lookup.
  cbn [must mbind outcome_bind].
  pose proof (send_enquire_link_follows (srv_now (srv p)) x (r_last_enquire_sent t) (e_enquire_link_interval e)
    (sg_fit _ _ _ _ _ (proj1 Hw))) as (Hid & Hk & Hf).
  destruct (send_enquire_link _ _ _ _) as [y last]. cbn [fst] in *.
  destruct (put_moves p (r_esme t) pos (thread_type t) x y) as (p' & -> & _ & Hm); try done; [apply Hw|].
  cbn [mbind outcome_bind]. eexists p', _, y. split; [done|]. split; [done|]. by eapply worked_moves.
Qed.

Lemma write_queued_worked stack p t pos x :
  works p t pos x -> exists p' y, write_queued stack p t = Done p' /\ worked p p' t t pos x y.
Proof.
  intros Hw. pose proof (sg_fit _ _ _ _ _ (proj1 Hw)) as Hf.
  destruct (write_queue_follows stack (str_queue x) x Hf eq_refl) as (y & Ew & Hy).
  destruct (on_session_worked p t pos x (fun x => x ← write_esme_conn stack (Some x); must x) y Hw)
    as (p' & Ep & Hwk); [|done|by exists p', y].
  unfold write_esme_conn. by rewrite Ew.
Qed.

(** The next PDU of the customer, if there is one, can be handled. *)
Definition proper_next t x : Prop :=
  forall q, (read_pdu (str_conn x) (r_len t)).1.2 = Some q -> proper (thread_type t) q.

Lemma read_and_handle_worked p t pos x :
  works p t pos x -> proper_next t x ->
  exists ret p' t' y, read_and_handle p t = Done (ret, p', t') /\ r_stage t' = r_stage t /\
    worked p p' t t' pos x y.
Proof.
  intros Hw Hq. pose proof (sg_fit _ _ _ _ _ (proj1 Hw)) as Hf.
  unfold read_and_handle. rewrite (works_own p t pos x Hw). cbn [mbind outcome_bind].
  unfold proper_next in Hq. destruct (read_pdu (str_conn x) (r_len t)) as [[[ret len] q] l] eqn:Er.
  destruct (read_pdu_spec _ _ _ _ _ _ (proj1 Hf) Er) as [Hl Hret].
  destruct (set_str_moves p (r_esme t) pos (thread_type t) x l (str_seq x) (str_status x) (str_quit x)
    (proj1 Hw) Hl) as (p1 & E1 & _ & Hm1).
  unfold set_conn. cbn [r_esme thread_type with_len]. rewrite E1. cbn [mbind outcome_bind].
  assert (Ht : same_thread t (with_len t len)) by done.
  destruct Hret as [[-> [q' ->]]|[Hret _]].
  - cbn [Z.eqb Pos.eqb must mbind outcome_bind]. specialize (Hq q' eq_refl).
    destruct (handle_pdu_moves p1 (r_esme t) pos (thread_type t) _ q' (proj1 Hm1) Hq) as (p2 & y & E2 & Hm2).
    rewrite E2. cbn [mbind outcome_bind]. eexists _, p2, _, y. split; [done|]. split; [done|].
    eapply worked_moves; [done|by eapply moves_trans|done].
  - assert (ret =? 1 = false) as -> by (apply Z.eqb_neq; lia).
    eexists _, p1, _, _. split; [done|]. split; [done|]. by eapply worked_moves.
Qed.

(** What a turn at work leads to. *)
Definition at_work (g : stage) : bool :=
  match g with Waiting | Reading | Unbinding | Leaving => true | _ => false end.

Definition turn_works p t pos x (r : outcome (Process * Receiver)) : Prop :=
  exists p' t' y, r = Done (p', t') /\ at_work (r_stage t') = true /\ worked p p' t t' pos x y.

Lemma waiting_turn_works waited p t pos x : works p t pos x -> turn_works p t pos x (waiting_turn waited p t).
Proof.
  intros Hw. unfold waiting_turn. destruct (waited =? -1).
  { exists p, (to_stage t Leaving), x. split; [done|]. split; [done|by apply worked_refl]. }
  rewrite (works_own p t pos x Hw). cbn [mbind outcome_bind]. pose proof (sg_fit _ _ _ _ _ (proj1 Hw)) as Hf.
  assert (Hu : turn_works p t pos x (p ← on_session p t (fun x => Done (send_unbind x));
      Done (p, MkReceiver Unbinding (r_thread t) (r_esme t) (thread_type t) (thread_session_id t)
                 (r_len t) (r_last_enquire_sent t) (srv_now (srv p))))).
  { destruct (on_session_worked p t pos x (fun x => Done (send_unbind x)) (send_unbind x) Hw eq_refl)
      as (p' & -> & Hwk); [by apply send_numbered_follows|].
    eexists _, _, _. split; [done|]. split; [done|]. eapply worked_trans; [exact Hwk|]. apply worked_refl; [apply Hwk|done]. }
  assert (He : turn_works p t pos x ('(p, t) ← enquire p t; Done (p, to_stage t Reading))).
  { destruct (enquire_worked p t pos x Hw) as (p' & t' & y & -> & _ & Hwk). cbn [mbind outcome_bind].
    eexists _, _, y. split; [done|]. split; [done|]. eapply worked_trans; [exact Hwk|]. apply worked_refl; [apply Hwk|done]. }
  by destruct (str_status x).
Qed.

Lemma reading_turn_works stack p t pos x :
  works p t pos x -> proper_next t x -> r_stage t = Reading ->
  turn_works p t pos x (reading_turn stack p t).
Proof.
  intros Hw Hq Hg. unfold reading_turn.
  destruct (read_and_handle_worked p t pos x Hw Hq) as (ret & p1 & t1 & y & -> & Eg & H1).
  cbn [mbind outcome_bind]. pose proof H1 as (_ & Hw1 & _).
  destruct (ret =? 1).
  - destruct (write_queued_worked stack p1 t1 pos y Hw1) as (p2 & z & -> & H2). cbn [mbind outcome_bind].
    destruct (enquire_worked p2 t1 pos z (proj1 (proj2 H2))) as (p3 & t3 & u & E3 & Eg3 & H3).
    rewrite E3. exists p3, t3, u. split; [done|]. split; [by rewrite Eg3, Eg, Hg|].
    eapply worked_trans; [exact H1|]. by eapply worked_trans.
  - rewrite (works_own p1 t1 pos y Hw1). cbn [mbind outcome_bind]. destruct (_ || _).
    + eexists _, _, y. split; [done|]. split; [done|]. eapply worked_trans; [exact H1|]. by apply worked_refl.
    + destruct (write_queued_worked stack p1 t1 pos y Hw1) as (p2 & z & -> & H2). cbn [mbind outcome_bind].
      eexists _, _, z. split; [done|]. split; [done|]. eapply worked_trans; [exact H1|].
      eapply worked_trans; [exact H2|]. apply worked_refl; [apply H2|done].
Qed.

Lemma unbinding_turn_works waited p t pos x :
  works p t pos x -> proper_next t x -> r_stage t = Unbinding ->
  turn_works p t pos x (unbinding_turn waited p t).
Proof.
  intros Hw Hq Hg. unfold unbinding_turn. rewrite (works_own p t pos x Hw). cbn [mbind outcome_bind].
  destruct (_ && _).
  - destruct (read_and_handle_worked p t pos x Hw Hq) as (ret & p1 & t1 & y & -> & Eg & H1).
    cbn [mbind outcome_bind]. eexists _, _, y. split; [done|]. split; [by rewrite Eg, Hg|done].
  - eexists _, _, x. split; [done|]. split; [done|by apply worked_refl].
Qed.

(** ** The end of a session *)

Lemma removes_elem {A} (id : A -> Z) sid l l' w :
  NoDup (id <$> l) -> removes id sid l l' -> w ∈ l' <-> w ∈ l /\ id w <> sid.
Proof.
  intros Hnd (l1 & u & l2 & -> & -> & <-). rewrite fmap_app in Hnd. simpl in Hnd.
  rewrite <-Permutation_middle in Hnd. apply NoDup_cons in Hnd as [Hu _]. rewrite <-fmap_app in Hu.
  assert (Hw : w ∈ l1 ++ l2 -> id w <> id u).
  { intros Hw E0. apply Hu. rewrite <-E0. apply list_elem_of_fmap. by exists w. }
  rewrite elem_of_app in Hw. rewrite !elem_of_app, elem_of_cons. split; [tauto|].
  intros [[?|[->|?]] Hne]; tauto.
Qed.

(** The lists that are left. *)
Lemma ended_elem e k k' sid tx rx w :
  kind_ok k -> kind_ok k' -> NoDup (str_id <$> kind_list e k) -> session_ended e k sid tx rx ->
  w ∈ kind_list (set_sessions e tx rx) k' <-> w ∈ kind_list e k' /\ ~ (k' = k /\ str_id w = sid).
Proof.
  intros Hk Hk' Hnd He. rewrite kind_ids in Hnd. unfold session_ended, kind_list in *.
  destruct Hk as [-> | ->], Hk' as [-> | ->]; simpl in *; destruct He as [Hrm ->];
    try (split; [intros ?; split; [done|by intros [? _]]|tauto]);
    rewrite !list_elem_of_fmap; split.
  - intros (u & -> & Hu). apply (removes_elem _ _ _ _ _ Hnd Hrm) in Hu as [Hu Hn]. split; [by exists u|]. by intros [_ ?].
  - intros [(u & -> & Hu) Hn]. exists u. split; [done|]. apply (removes_elem _ _ _ _ _ Hnd Hrm). split; [done|].
    intros ?. by apply Hn.
  - intros (u & -> & Hu). apply (removes_elem _ _ _ _ _ Hnd Hrm) in Hu as [Hu Hn]. split; [by exists u|]. by intros [_ ?].
  - intros [(u & -> & Hu) Hn]. exists u. split; [done|]. apply (removes_elem _ _ _ _ _ Hnd Hrm). split; [done|].
    intros ?. by apply Hn.
Qed.

(** The session of the thread is taken out of its list and nothing else. *)
Lemma leaving_turn_ends p t pos x :
  works p t pos x ->
  exists p', leaving_turn p t = Done (p', to_stage t Finished) /\ book_ok (srv p') /\ set_up p' /\
    (forall b k z, kind_ok k -> open_str p' b k z <->
      open_str p b k z /\ ~ (b = r_esme t /\ k = thread_type t /\ str_id z = thread_session_id t)) /\
    forall name, (forall e, heap (srv p) !! r_esme t = Some e -> ~ is_called e name) ->
      account_stays (srv p) (srv p') name.
Proof.
  intros [[H Hset Hk Hx Hf] Hid]. pose proof Hx as (e & He & Hpos)%get_str_lookup.
  pose proof (kind_ids_ok p _ e (thread_type t) H He) as [Hnd Hge].
  pose proof (list_elem_of_lookup_2 _ _ _ Hpos) as Hin.
  assert (Hsid : 1 <= thread_session_id t).
  { rewrite Forall_fmap, Forall_forall in Hge. rewrite Hid. by apply Hge. }
  pose proof (esme_destroy_cases (srv p) (r_esme t) e (thread_type t) (thread_session_id t) H He Hk Hsid) as Hd.
  rewrite bool_decide_eq_true_2 in Hd.
  2:{ assert (E0 : (if thread_type t =? 1 then tx_session_id <$> tx_esme e else rx_session_id <$> rx_esme e)
        = str_id <$> kind_list e (thread_type t)) by (rewrite kind_ids; by destruct Hk as [-> | ->]).
      rewrite E0, Hid. apply list_elem_of_fmap. by exists x. }
  destruct Hd as (s' & tx & rx & Ed & Hb & Hend & Et & Hheap & _ & Es).
  exists (set_srv p s'). unfold leaving_turn. rewrite Ed. split; [done|]. split; [done|].
  split; [destruct Hset; split; try done; simpl; by rewrite ?Et, ?Es|].
  assert (Hh : forall b, b <> r_esme t -> heap s' !! b = heap (srv p) !! b).
  { intros b Hne. rewrite Hheap. case_decide; [by rewrite lookup_delete_ne|by rewrite lookup_insert_ne]. }
  split.
  2:{ intros name Hn. specialize (Hn e He). apply (account_stays_other _ _ (r_esme t)); [done|done|..]; unfold standing.
      - rewrite He. simpl. by rewrite decide_False.
      - cbn [srv set_srv]. rewrite Hheap. case_decide; [by rewrite lookup_delete_eq|].
        rewrite lookup_insert_eq. simpl. by rewrite decide_False. }
  intros b k z Hk'. unfold open_str. cbn [srv set_srv].
  destruct (decide (b = r_esme t)) as [->|Hne].
  - rewrite Hheap. assert (Hz : z ∈ kind_list (set_sessions e tx rx) k <-> z ∈ kind_list e k /\ ~ (k = thread_type t /\ str_id z = thread_session_id t))
      by by apply ended_elem.
    destruct (decide (tx = [] /\ rx = [])) as [[-> ->]|Hne].
    + rewrite lookup_delete_eq. split; [by intros (? & ? & _)|]. intros [(e1 & He1 & Hz1) Hn].
      rewrite He in He1. injection He1 as <-. exfalso. assert (Hz' : z ∈ kind_list (set_sessions e [] []) k) by (apply Hz; naive_solver).
      unfold kind_list in Hz'. simpl in Hz'. destruct (k =? 2); by apply elem_of_nil in Hz'.
    + rewrite lookup_insert_eq, He. naive_solver.
  - rewrite Hh by done. naive_solver.
Qed.

(** ** The bind *)

Context (Hpack_bind : forall q v i, is_Some (pack_bind_resp q v i)).

(** Session [x] is new; all others stay. *)
Definition opens p p' (a : nat) (k : Z) x : Prop :=
  (forall z, open_str p a k z -> str_id z <> str_id x) /\
  forall b k' z, kind_ok k' -> open_str p' b k' z <-> open_str p b k' z \/ (b = a /\ k' = k /\ z = x).

(** The list that a mode belongs to. *)
Definition kind_of (mode : Z) : Z := if mode =? 2 then 2 else 1.

Lemma kind_of_ok mode : kind_ok (kind_of mode).
Proof. unfold kind_of, kind_ok. case_match; auto. Qed.

Lemma get_str_kind p a pos mode : get_str p a pos (kind_of mode) = get_str p a pos mode.
Proof. unfold get_str, kind_of. by destruct (mode =? 2). Qed.

Lemma open_str_lists p a k z :
  open_str p a k z <-> z ∈ (if k =? 2 then RxStr <$> rxs (srv p) a else TxStr <$> txs (srv p) a).
Proof.
  unfold open_str, kind_list, rxs, txs. destruct (heap (srv p) !! a) as [e|]; simpl.
  - split; [by intros (? & [= <-] & ?)|by intros ?; exists e].
  - split; [by intros (? & ? & _)|]. case_match; by intros ?%elem_of_nil.
Qed.

Lemma logged_in_opens p s' name a mode tc :
  1 <= mode <= 3 -> logged_in (srv p) s' name a mode tc ->
  exists x, str_id x = tc_session_id tc /\ str_conn x = tc_conn tc /\ str_queue x = [] /\
    opens p (set_srv p s') a (kind_of mode) x.
Proof.
  intros Hm (_ & _ & e' & Hh & _ & Hl).
  assert (Hother : forall b k z, b <> a -> open_str (set_srv p s') b k z <-> open_str p b k z).
  { intros b k z Hne. unfold open_str. simpl. by rewrite Hh, lookup_insert_ne. }
  assert (Hown : forall k z, open_str (set_srv p s') a k z <-> z ∈ kind_list e' k).
  { intros k z. unfold open_str. simpl. rewrite Hh, lookup_insert_eq. naive_solver. }
  assert (Hfin : forall x old, kind_list e' (kind_of mode) = old ++ [x] ->
    (forall z, open_str p a (kind_of mode) z <-> z ∈ old) ->
    (forall k z, kind_ok k -> k <> kind_of mode -> open_str p a k z <-> z ∈ kind_list e' k) ->
    str_id x ∉ (str_id <$> old) -> opens p (set_srv p s') a (kind_of mode) x).
  { intros x old Ek Hold Hrest Hn. split.
    - intros z Hz%Hold E0. apply Hn. rewrite <-E0. apply list_elem_of_fmap. by exists z.
    - intros b k z Hk. destruct (decide (b = a)) as [->|Hne]; [|rewrite Hother by done; naive_solver].
      rewrite Hown. destruct (decide (k = kind_of mode)) as [->|Hkk].
      + rewrite Ek, elem_of_app, list_elem_of_singleton, Hold. naive_solver.
      + rewrite Hrest by done. naive_solver. }
  unfold kind_of, kind_list in *. destruct (mode =? 2).
  - destruct Hl as (Etx & Hn & x & Erx & Hid & Hc & Hq). exists (RxStr x). split_and!; try done.
    apply (Hfin _ (RxStr <$> rxs (srv p) a)); simpl.
    + by rewrite Erx, fmap_app.
    + intros z. apply open_str_lists.
    + intros k z [-> | ->] ?; [|done]. rewrite open_str_lists. simpl. by rewrite Etx.
    + rewrite <-list_fmap_compose. simpl. by rewrite Hid.
  - destruct Hl as (Erx & Hn & x & Etx & Hid & _ & Hc & Hq). exists (TxStr x). split_and!; try done.
    apply (Hfin _ (TxStr <$> txs (srv p) a)); simpl.
    + by rewrite Etx, fmap_app.
    + intros z. apply open_str_lists.
    + intros k z [-> | ->] ?; [done|]. rewrite open_str_lists. simpl. by rewrite Erx.
    + rewrite <-list_fmap_compose. simpl. by rewrite Hid.
Qed.

(** A bind names its account. *)
Definition named_bind (q : SMPP_PDU) : Prop :=
  match q with
  | bind_transmitter _ b | bind_receiver _ b | bind_transceiver _ b => is_Some (system_id b)
  | _ => True
  end.

(** The thread may complete its login: what its checks found still holds. *)
Record joins p (tc : TEMPCONN) (l : Login) (name : octstr) (mode : Z) : Prop := {
  jo_conn : link_ok (tc_conn tc);
  jo_name : system_id (lg_bind l) = Some name;
  jo_mode : 1 <= mode <= 3;
  jo_handler : lg_handler l = bind_handler_of mode;
  jo_may : may_join (srv p) name mode (lg_client l) (lg_present l)
}.

(** The login is complete: a session on the connection. *)
Definition bind_result p (a : nat) (tc' : TEMPCONN) p' : Prop :=
  tc_bind_successful tc' = 1 /\ 1 <= tc_mode tc' <= 3 /\ exists pos x,
    serving p' a pos (kind_of (tc_mode tc')) x /\ str_id x = tc_session_id tc' /\
    str_conn x = tc_conn tc' /\ opens p p' a (kind_of (tc_mode tc')) x.

Lemma write_new_session p s' name a mode tc os :
  book_ok s' -> set_up p -> 1 <= mode <= 3 -> tc_mode tc = mode -> 1 <= tc_session_id tc ->
  link_ok (tc_conn tc) -> tc_bind_successful tc = 1 -> logged_in (srv p) s' name a mode tc ->
  exists tc' p', write_temp (set_srv p s') tc (Some a) os = Done (tc', p') /\ bind_result p a tc' p' /\
    all_stay (set_srv p s') p'.
Proof.
  intros Hb Hset Hm Hmode Hsid Hl Hs Hlog.
  destruct (logged_in_opens p s' name a mode tc Hm Hlog) as (x & Hid & Hc & Hq & Hop).
  destruct (logged_in_str (srv p) s' (set_srv p s') name a mode tc) as (e & pos & x' & He & Hpos & Hx & Hid' & _); [done..|].
  assert (x' = x) as ->.
  { apply (open_unique (set_srv p s') a (kind_of mode)); [done| | |congruence].
    - apply (get_str_open _ _ pos). by rewrite get_str_kind.
    - apply (proj2 Hop); [apply kind_of_ok|]. by right. }
  unfold write_temp. cbn [srv set_srv]. rewrite He. cbn [must mbind outcome_bind tc_mode tc_session_id].
  rewrite Hmode, Hpos, Hx. cbn [mbind outcome_bind].
  destruct (set_str_same x (conn_write (tc_conn tc) os).2 (str_seq x) (str_status x) (str_quit x)) as (E1 & E2 & E3 & E4).
  set (y := set_str x _ _ _ _) in *.
  assert (Hxk : get_str (set_srv p s') a pos (kind_of mode) = Done x) by by rewrite get_str_kind.
  destruct (put_str_replaces (set_srv p s') a pos (kind_of mode) x y) as (p' & Ep & Hb' & Hst & Hy & Hr); try done.
  { apply kind_of_ok. }
  rewrite Ep. cbn [mbind outcome_bind]. eexists _, p'. split; [done|].
  split; [|eapply put_str_stays; [apply kind_of_ok|exact Hxk|exact E2|exact Ep]].
  unfold bind_result. cbn [tc_bind_successful tc_mode tc_session_id tc_conn].
  rewrite ?Hmode. split; [done|]. split; [done|]. exists pos, y. split.
  { split; [done| |apply kind_of_ok|done|].
    - destruct Hlog as (Et & Es & _). apply (set_up_steady _ _ Hst).
      destruct Hset. split; try done; simpl; by rewrite ?Et, ?Es.
    - split; [rewrite E4; by apply conn_write_law|by rewrite E3, Hq]. }
  split; [congruence|]. split; [done|]. destruct Hop as [Hn Ho]. split.
  - intros z Hz. rewrite E1. by apply Hn.
  - intros b k' z Hk'. rewrite (Hr b k' z Hk'), (Ho b k' z Hk'). split; [naive_solver|].
    intros [Hz|Hz]; [|by left]. right. split; [by left|]. intros (-> & -> & E0). by apply (Hn z).
Qed.

(** The first PDU is answered, or the thread may join. *)
Lemma bind_arrives_spec p tc q :
  book_ok (srv p) -> set_up p -> tc_bind_successful tc = 0 -> link_ok (tc_conn tc) -> named_bind q ->
  (exists tc', bind_arrives p tc q = Done (inl tc') /\ tc_bind_successful tc' = 0) \/
  exists l name mode, bind_arrives p tc q = Done (inr l) /\ joins p tc l name mode.
Proof.
  intros H Hset Htc Hl Hq.
  assert (Hbind : forall mode h b, 1 <= mode <= 3 -> is_Some (system_id b) -> q = bind_pdu mode h b ->
    (exists tc', bind_arrives p tc q = Done (inl tc') /\ tc_bind_successful tc' = 0) \/
    exists l name mode, bind_arrives p tc q = Done (inr l) /\ joins p tc l name mode).
  { intros mode h b Hm [name Hid] ->. rewrite bind_arrives_eq by done.
    destruct (bind_begin_spec p tc mode h b name H (su_named _ Hset) Hid Hm Htc)
      as [(st & -> & _ & _)|(u & present & -> & _ & _ & Hj)]; cbn [mbind outcome_bind].
    - left. destruct (Hpack_bind (bind_answer mode (MkHeader st (sequence_number h)))
        (octstr_dup (smsc_system_id p)) SMPP_SERVER_VERSION) as [os ->]. by eexists.
    - right. eexists _, name, mode. split; [done|]. by split. }
  assert (Hnack : handlers_conn q = None ->
    (exists tc', bind_arrives p tc q = Done (inl tc') /\ tc_bind_successful tc' = 0) \/
    exists l name mode, bind_arrives p tc q = Done (inr l) /\ joins p tc l name mode).
  { intros E0. left. unfold bind_arrives. rewrite E0.
    destruct (Hpack (generic_nack (MkHeader SMPP_ESME_RINVCMDID (sequence_number (pdu_header q))))) as [os ->].
    by eexists. }
  destruct q; try by apply Hnack.
  - by apply (Hbind 1 h b).
  - by apply (Hbind 2 h b).
  - by apply (Hbind 3 h b).
Qed.

(** The login is completed. *)
Lemma bind_completes_opens p thread tc l name mode :
  book_ok (srv p) -> set_up p -> joins p tc l name mode ->
  exists a tc' p', bind_completes p thread tc l = Done (Some a, tc', p') /\ bind_result p a tc' p' /\
    forall n, octets n <> octets name -> account_stays (srv p) (srv p') n.
Proof.
  intros H Hset [Hl Hid Hm Hk Hj]. rewrite (bind_completes_eq _ _ _ _ mode) by done.
  destruct (bind_end_spec p thread tc l mode name) as (a & s' & tc1 & -> & Hb & Hlog & Hmode & Hconn & Hsid & Hstay);
    try done; [apply Hset|]. cbn [mbind outcome_bind].
  destruct (Hpack_bind (bind_answer mode (MkHeader 0 (sequence_number (lg_header l))))
    (octstr_dup (smsc_system_id (set_srv p s'))) SMPP_SERVER_VERSION) as [os ->]. cbn [must mbind outcome_bind].
  destruct (write_new_session p s' name a mode (with_success tc1 1) os) as (tc' & p' & -> & Hr & Hst); try done.
  { simpl. by rewrite Hconn. }
  cbn [mbind outcome_bind]. exists a, tc', p'. split; [done|]. split; [done|].
  intros n Hn. eapply account_stays_trans; [by apply Hstay|]. apply Hst.
Qed.

Lemma read_pdu_broken l k n q l' :
  read_pdu l k = (-1, n, q, l') -> n = 0 \/ n = -1 \/ conn_eof l' || conn_error l' = true.
Proof.
  unfold read_pdu. destruct (if k =? 0 then _ else _) as [n1 l1].
  destruct (Z.eqb_spec n1 (-1)) as [->|]; [intros [= <- _ _]; auto|].
  destruct (Z.eqb_spec n1 0) as [->|]; [intros [= _ <- _ _]; auto|].
  destruct (smpp_pdu_read_data l1 n1) as [[os|] l2].
  - destruct (smpp_pdu_unpack os); [done|]. intros [= <- _ _]. auto.
  - destruct (conn_eof l2 || conn_error l2) eqn:Eb; [|done]. intros [= _ _ <-]. auto.
Qed.

(** A whole PDU arrives as the first one; when it is a bind it names its
    account. *)
Definition proper_bind (tc : TEMPCONN) : Prop :=
  (read_pdu (tc_conn tc) 0).1.1.1 <> 0 /\
  forall q, (read_pdu (tc_conn tc) 0).1.2 = Some q -> named_bind q.

(** The first turn of a thread.  The connection gets no session - because no
    bind came in time, it was refused or the connection broke - and the
    thread ends, or the thread waits for the lock to join.  Nothing else
    changes. *)
Lemma bind_turn_spec p (t : Receiver) tc (quitting : bool) (waited : Z)
    (H : book_ok (srv p)) (Hset : set_up p) (Htc : tc_bind_successful tc = 0)
    (Hl : link_ok (tc_conn tc)) (Hnext : proper_bind tc) :
  bind_turn quitting waited tc p t = Done (p, to_stage t Finished) \/
  exists tc' l name mode, bind_turn quitting waited tc p t = Done (p, to_stage t (Joining tc' l)) /\
    joins p tc' l name mode.
Proof.
  unfold bind_turn. destruct ((waited =? 1) || (waited =? -1)); [by left|].
  destruct Hnext as [Hret Hq]. destruct (read_pdu (tc_conn tc) 0) as [[[ret len] q] l] eqn:Er.
  destruct (read_pdu_spec _ _ _ _ _ _ Hl Er) as [Hl' Hcase]. cbn [fst snd] in *.
  destruct Hcase as [[-> [q' ->]]|[[-> | ->] _]]; [|done|].
  2:{ (* the connection is broken *)
      left. unfold after_bind. cbn [Z.eqb Pos.eqb andb negb orb tc_conn].
      destruct ((len =? 0) || (len =? -1)) eqn:El; [done|].
      assert (conn_eof l || conn_error l = true) as ->; [|done].
      apply orb_false_iff in El as [El1%Z.eqb_neq El2%Z.eqb_neq]. by destruct (read_pdu_broken _ _ _ _ _ Er) as [?|[?|?]]. }
  cbn [Z.eqb Pos.eqb must mbind outcome_bind]. set (tc1 := MkTempConn l _ _ _ _ _ _).
  destruct (bind_arrives_spec p tc1 q' H Hset Htc Hl' (Hq q' eq_refl))
    as [(tc' & -> & E1)|(k & name & mode & -> & Hj)]; cbn [mbind outcome_bind].
  - left. unfold after_bind. by rewrite E1.
  - right. by exists tc1, k, name, mode.
Qed.

(** The turn that joins.  One session is added, on this connection, and the
    thread goes on with it.  But when the connection is at its end after the
    answer, the thread ends and leaves the session in the list, where no
    thread serves it. *)
Lemma joining_turn_opens p (t : Receiver) tc l name mode (quitting : bool)
    (H : book_ok (srv p)) (Hset : set_up p) (Hj : joins p tc l name mode) :
  exists p' t' a k pos x, joining_turn quitting tc l p t = Done (p', t') /\
    (forall n, octets n <> octets name -> account_stays (srv p) (srv p') n) /\
    opens p p' a k x /\ serving p' a pos k x /\
    if conn_eof (str_conn x) || conn_error (str_conn x) then t' = to_stage t Finished
    else works p' t' pos x /\ r_esme t' = a /\ thread_type t' = k /\
         r_stage t' = if quitting then Leaving else Waiting.
Proof.
  unfold joining_turn. destruct (bind_completes_opens p (r_thread t) tc l name mode H Hset Hj)
    as (a & tc' & p' & -> & (E1 & Hm & pos & x & Hs & Hid & Hc & Hop) & Hstay).
  cbn [mbind outcome_bind]. unfold after_bind. rewrite E1, <-Hc. cbn [Z.eqb Pos.eqb andb].
  destruct (conn_eof (str_conn x) || conn_error (str_conn x)) eqn:Ee.
  { exists p', (to_stage t Finished), a, (kind_of (tc_mode tc')), pos, x. by rewrite Ee. }
  cbn [negb]. set (t' := MkReceiver _ _ _ _ _ _ _ _).
  assert (Hk : (if (tc_mode tc' =? 1) || (tc_mode tc' =? 3) then 1 else 2) = kind_of (tc_mode tc')).
  { unfold kind_of. destruct (Z.eqb_spec (tc_mode tc') 1), (Z.eqb_spec (tc_mode tc') 2), (Z.eqb_spec (tc_mode tc') 3);
      simpl; try done; lia. }
  assert (Hw : works p' t' pos x) by (unfold t'; rewrite Hk; by split).
  rewrite (works_own p' t' pos x Hw). cbn [mbind outcome_bind].
  exists p', t', a, (kind_of (tc_mode tc')), pos, x. rewrite Ee. by split_and!.
Qed.

End Facts.
