(* ===== verification/ServerSystem.v ===== *)
(** * All threads of the server

    Connections are accepted, the threads take turns and the messages of the
    other processes are handled in any order; the administrator, the network
    and the clock may change the sessions but neither add nor remove any.
    A login is two turns, between which [authorise_user] holds no lock.  What
    the first found must still hold in the second, so the order has one
    limit, [alone]: while a thread is between the two, no other logs in to
    the same account or out of it.  The code does not see to that, and
    [authorise_user_races] in [EsmeFacts] and [overlapping_logins] in
    [ServerExamples] show what happens otherwise.  The checks of a login,
    which only read, are one step. *)

From S2P Require Import Prelude Gwlib Counter Dict World SmscConn SmppSession.
From S2P Require Import IoThreadFacts Esme EsmeFacts EsmePdu EsmePduFacts EsmeProc.
From S2P Require Import EsmeProcFacts Receipt ReceiptFacts ServerThread ServerThreadFacts.
Open Scope Z_scope.

Section System.
Context {O : OctstrLib} {OL : OctstrLaws O} {L : GwListLib} {R : PduRest} {N : SmppNames}.
Context {NL : SmppNamesLaws N} {E : EsmeNames} {EL : EsmeNamesLaws N E} {P : PduLib O R}.
Context {PX : PrefixLib O} {K : Link O} {KL : LinkLaws K} {KR : LinkReads K} {TL : TimeLib O}.
Context {SL : ServerLib O R} {CK : Clock} {AN : AdminNames}.
Implicit Types (p : Process) (x y z : session_str) (u : Receiver).

Record System : Type := MkSystem { process : Process; receivers : gmap nat Receiver }.
Implicit Types s : System.

(** The connection brings PDUs that the thread can deal with. *)
Definition polite p t : Prop :=
  match r_stage t with
  | AwaitBind tc => proper_bind tc
  | Reading | Unbinding => forall pos x, own_session p t = Done (pos, x) -> proper_next t x
  | _ => True
  end.

(** Every session stays, with its id; connections, status and queue may
    change. *)
Definition disturbs p p' : Prop :=
  book_ok (srv p') /\ set_up p' /\ all_stay p p' /\ forall a k, kind_ok k ->
    (forall x', open_str p' a k x' -> fit x' /\ exists x, open_str p a k x /\ str_id x = str_id x') /\
    (forall x, open_str p a k x -> exists x', open_str p' a k x' /\ str_id x' = str_id x).

(** A message of another process: the SMSCs stay few, and what is to be
    delivered can be delivered. *)
Definition welcome (m : process_msg) p' : Prop :=
  (length (smscs (srv p')) <= 128)%nat /\
  match m with
  | values_got v => deliverable (MkDeliver (octstr_dup (vg_dest_addr v)) (octstr_dup (vg_smsc_msg_id v))
                      (octstr_dup (vg_account_msg_id v)) (octstr_dup (vg_pdu v)))
  | _ => True
  end.

(** The thread has passed the checks of a login to the account, or is about
    to end a session of it. *)
Definition joining_to t (name : octstr) : Prop :=
  exists tc l m, r_stage t = Joining tc l /\ system_id (lg_bind l) = Some m /\ octets m = octets name.
Definition leaving_from p t (name : octstr) : Prop :=
  r_stage t = Leaving /\ exists e, heap (srv p) !! r_esme t = Some e /\ is_called e name.

(** The turn that makes [t] to [t'] neither passes the checks for an account
    nor ends a session of it while another thread is between the two parts
    of a login to this account. *)
Definition alone s (i : nat) t t' : Prop :=
  forall j u name, receivers s !! j = Some u -> j <> i -> joining_to u name ->
    ~ joining_to t' name /\ ~ leaving_from (process s) t name.

Inductive sys_step : System -> System -> Prop :=
| step_accept s i tc :
    receivers s !! i = None -> tc_bind_successful tc = 0 -> link_ok (tc_conn tc) ->
    sys_step s (MkSystem (process s) (<[i:=new_receiver (Z.of_nat i) tc]> (receivers s)))
| step_turn s i t quitting waited stack p' t' :
    receivers s !! i = Some t -> polite (process s) t ->
    receiver_turn quitting waited stack (process s) t = Done (p', t') -> alone s i t t' ->
    sys_step s (MkSystem p' (<[i:=t']> (receivers s)))
| step_request s rand m p' :
    handle_request (process s) rand m = Done p' -> welcome m p' ->
    sys_step s (MkSystem p' (receivers s))
| step_others s p' :
    disturbs (process s) p' -> sys_step s (MkSystem p' (receivers s)).

(** ** The invariant *)

(** The session of a thread is open. *)
Definition owns p t : Prop :=
  kind_ok (thread_type t) /\
  exists x, open_str p (r_esme t) (thread_type t) x /\ str_id x = thread_session_id t.

Definition thread_inv p t : Prop :=
  match r_stage t with
  | AwaitBind tc => tc_bind_successful tc = 0 /\ link_ok (tc_conn tc)
  | Joining tc l => exists name mode, joins p tc l name mode
  | Finished => True
  | _ => owns p t
  end.

Record sys_ok s : Prop := {
  sy_book : book_ok (srv (process s));
  sy_set_up : set_up (process s);
  sy_fit a k x : kind_ok k -> open_str (process s) a k x -> fit x;
  sy_threads i t : receivers s !! i = Some t -> thread_inv (process s) t;
  sy_distinct i j t u : receivers s !! i = Some t -> receivers s !! j = Some u ->
    at_work (r_stage t) = true -> at_work (r_stage u) = true -> same_thread t u -> i = j;
  sy_apart i j t u name : receivers s !! i = Some t -> receivers s !! j = Some u ->
    joining_to t name -> joining_to u name -> i = j
}.

Lemma inv_owns p t : at_work (r_stage t) = true -> thread_inv p t <-> owns p t.
Proof. unfold thread_inv. by destruct (r_stage t). Qed.

Lemma owns_works p t :
  book_ok (srv p) -> set_up p -> (forall a k x, kind_ok k -> open_str p a k x -> fit x) ->
  owns p t -> exists pos x, works p t pos x.
Proof.
  intros H Hset Hfit (Hk & x & Hx & Hid). pose proof Hx as (e & He & Hin).
  apply list_elem_of_lookup in Hin as [pos Hpos]. exists pos, x. split; [|done].
  split; try done; [|by eapply Hfit]. apply get_str_lookup. by exists e.
Qed.

Lemma works_owns p t pos x : works p t pos x -> owns p t.
Proof.
  intros [Hs Hid]. split; [apply Hs|]. exists x. split; [|done]. eapply get_str_open, Hs.
Qed.

(** A login in progress to an account that stays. *)
Lemma joins_stays p p' tc l name mode :
  book_ok (srv p) -> book_ok (srv p') -> account_stays (srv p) (srv p') name ->
  joins p tc l name mode -> joins p' tc l name mode.
Proof. intros H H' Hst [? ? ? ? Hj]. split; try done. by apply (may_join_stays (srv p)). Qed.

(** A thread whose session is not touched. *)
Lemma inv_others p p' t u :
  others_stay p p' (r_esme t) (thread_type t) (thread_session_id t) ->
  ~ same_thread t u -> owns p u -> owns p' u.
Proof.
  intros Hf Hn (Hk & x & Hx & Hid). split; [done|]. exists x. split; [|done].
  apply Hf; [done| |done]. intros (E1 & E2 & E3). apply Hn. split_and!; congruence.
Qed.

(** ** The messages of the other processes *)

Definition all_fit p : Prop := forall a k x, kind_ok k -> open_str p a k x -> fit x.

Lemma disturbs_same p p' :
  book_ok (srv p') -> set_up p' -> all_fit p -> heap (srv p') = heap (srv p) ->
  translations (srv p') = translations (srv p) -> disturbs p p'.
Proof.
  intros Hb Hset Hfit Eh Et. split; [done|]. split; [done|].
  split; [intros name; split; [done|]; intros a; unfold standing; by rewrite Eh|]. intros a k Hk. unfold open_str. rewrite Eh.
  split; [|by eauto]. intros x Hx. split; [by apply (Hfit a k)|by exists x].
Qed.

Lemma adapt_fit (v : Server) t :
  str_id (TxStr (adapt v t)) = str_id (TxStr t) /\ (fit (TxStr t) -> fit (TxStr (adapt v t))).
Proof. unfold adapt, tx_connected, tx_unconnected. by repeat case_match. Qed.

Definition adapt_str (v : Server) x : session_str :=
  match x with TxStr t => TxStr (adapt v t) | RxStr r => RxStr r end.

Lemma update_disturbs p (s' : Server) :
  book_ok (srv p) -> set_up p -> all_fit p -> update_esme_conn (srv p) = Done s' -> disturbs p (set_srv p s').
Proof.
  intros Hb Hset Hfit Eu. destruct (update_esme_conn_adapts (srv p) Hb (su_named _ Hset)) as (s1 & E1 & Hb1 & Et & Es & Hh).
  rewrite Eu in E1. injection E1 as <-. split; [done|].
  split; [destruct Hset; split; try done; simpl; by rewrite ?Et, ?Es|].
  split.
  { intros name. split; [done|]. intros a. unfold standing. cbn [srv set_srv]. rewrite Hh.
    destruct (heap (srv p) !! a) as [e|]; [|done]. cbn [fmap option_fmap option_map mbind option_bind].
    unfold adapt_esme. cbn [tx_esme rx_esme set_sessions]. rewrite length_fmap. by apply decide_ext. }
  assert (Hl : forall e k, kind_list (adapt_esme (srv p) e) k
    = adapt_str (srv p) <$> kind_list e k).
  { intros e k. unfold kind_list. destruct (k =? 2); simpl; by rewrite <-!list_fmap_compose. }
  intros a k Hk. unfold open_str. cbn [srv set_srv]. rewrite Hh. split.
  - intros x' (e' & (e & He & ->)%fmap_Some & Hx). rewrite Hl in Hx. apply list_elem_of_fmap in Hx as (x & -> & Hx).
    assert (Hf : fit x) by (apply (Hfit a k); [done|by exists e]).
    split; [destruct x; [by apply adapt_fit|done]|]. exists x. split; [by exists e|]. destruct x; [symmetry; apply adapt_fit|done].
  - intros x (e & He & Hx). rewrite He. exists (adapt_str (srv p) x). split; [eexists; split; [done|]|].
    + rewrite Hl. apply list_elem_of_fmap. by exists x.
    + destruct x; [apply adapt_fit|done].
Qed.

(** One session is changed and stays what it is. *)
Lemma put_disturbs p p' a pos k x y :
  book_ok (srv p) -> set_up p -> all_fit p -> kind_ok k -> get_str p a pos k = Done x ->
  str_id y = str_id x -> same_kind x y -> fit y -> put_str p a pos y = Done p' -> disturbs p p'.
Proof.
  intros Hb Hset Hfit Hk Hx Hid Hxy Hf Ep.
  destruct (put_str_replaces p a pos k x y Hb Hk Hx Hid Hxy) as (p1 & E1 & Hb1 & Hst & Hy & Hr).
  rewrite Ep in E1. injection E1 as <-. split; [done|]. split; [by apply (set_up_steady p)|].
  split; [by eapply put_str_stays|].
  pose proof (get_str_open _ _ _ _ _ Hx) as Hox. pose proof (get_str_open _ _ _ _ _ Hy) as Hoy.
  intros b k' Hk'. split.
  - intros z Hz. apply Hr in Hz as [(-> & -> & ->)|[Hz _]]; [|split; [by apply (Hfit b k')|by exists z]|done].
    split; [done|]. by exists x.
  - intros z Hz. destruct (decide (b = a /\ k' = k /\ str_id z = str_id x)) as [(-> & -> & Hz')|Hn].
    + exists y. split; [done|]. congruence.
    + exists z. split; [|done]. apply Hr; [done|]. by right.
Qed.

Lemma disturbs_perform p p' e : disturbs p p' -> disturbs p (perform p' e).
Proof. intros (Hb & Hset & Hst & Hd). split; [done|]. split; [by destruct Hset; split|done]. Qed.

Lemma queue_deliver_disturbs p rand v p' :
  book_ok (srv p) -> set_up p -> all_fit p -> welcome (values_got v) p' ->
  queue_deliver p rand v = Done p' -> disturbs p p'.
Proof.
  intros Hb Hset Hfit [_ Hd]. unfold queue_deliver. set (d := MkDeliver _ _ _ _) in *. intros H.
  apply bind_Done in H as ([x mode] & _ & H). destruct x as [[a x]|]; [|injection H as <-; by apply disturbs_same].
  apply bind_Done in H as (e & He%must_Done & H).
  assert (Hq : forall q, Forall deliverable q -> Forall deliverable (q ++ [d])).
  { intros q Hq. apply Forall_app. split; [done|by constructor]. }
  destruct x as [pos|pos]; apply bind_Done in H as (r & Hr%must_Done & H); injection H as <-;
    apply disturbs_perform.
  - assert (Hg : get_str p a pos 2 = Done (RxStr r)) by (unfold get_str; rewrite He; simpl; by rewrite Hr).
    pose proof (Hfit a 2 _ ltac:(by right) (get_str_open _ _ _ _ _ Hg)) as [Hl Hf].
    eapply (put_disturbs p _ a pos 2 (RxStr r) (set_str_queue (RxStr r) (rx_data_to_write r ++ [d]))); try done;
      [by right|split; [done|by apply Hq]|unfold put_str; by rewrite He].
  - assert (Hg : get_str p a pos 1 = Done (TxStr r)) by (unfold get_str; rewrite He; simpl; by rewrite Hr).
    pose proof (Hfit a 1 _ ltac:(by left) (get_str_open _ _ _ _ _ Hg)) as [Hl Hf].
    eapply (put_disturbs p _ a pos 1 (TxStr r) (set_str_queue (TxStr r) (tx_data_to_write r ++ [d]))); try done;
      [by left|split; [done|by apply Hq]|unfold put_str; by rewrite He].
Qed.

Lemma disturbs_trans p1 p2 p3 : disturbs p1 p2 -> disturbs p2 p3 -> disturbs p1 p3.
Proof.
  intros (_ & _ & S1 & H1) (Hb & Hset & S2 & H2). split; [done|]. split; [done|]. split; [by etrans|]. intros a k Hk.
  destruct (H1 a k Hk) as [A1 A2], (H2 a k Hk) as [B1 B2]. split.
  - intros z Hz. destruct (B1 z Hz) as (Hf & y & Hy & E2). split; [done|].
    destruct (A1 y Hy) as (_ & x & Hx & E1). exists x. split; [done|congruence].
  - intros x Hx. destruct (A2 x Hx) as (y & Hy & E1). destruct (B2 y Hy) as (z & Hz & E2).
    exists z. split; [done|congruence].
Qed.

(** Another table of SMSCs. *)
Lemma smscs_disturb p l :
  book_ok (srv p) -> set_up p -> all_fit p -> (length l <= 128)%nat -> disturbs p (set_srv p (set_smscs (srv p) l)).
Proof.
  intros Hb Hset Hfit Hl. apply disturbs_same; [|by (destruct Hset; split)|done..].
  destruct Hb. by split.
Qed.

(** What differs in the other fields of the process only. *)
Lemma disturbs_rest p p1 p' :
  disturbs p p1 -> srv p' = srv p1 -> steady p1 p' -> disturbs p p'.
Proof.
  intros (Hb & Hset & H) E1 Hst. split; [by rewrite E1|]. split; [by apply (set_up_steady p1)|].
  unfold all_stay, open_str. by rewrite E1.
Qed.

Lemma request_disturbs p rand m p' :
  book_ok (srv p) -> set_up p -> all_fit p -> welcome m p' -> handle_request p rand m = Done p' -> disturbs p p'.
Proof.
  intros Hb Hset Hfit Hw. unfold handle_request.
  assert (Hsame : forall p1, srv p1 = srv p -> steady p p1 -> disturbs p p1).
  { intros p1 E1 Hst. apply (disturbs_rest p p); try done. by apply disturbs_same. }
  destruct (negb (running p)); [intros [= <-]; by apply Hsame|].
  destruct m as [c|command id|v|v|smsc_id smsc_msg_id dest pdu|v].
  - destruct c as [| |q_limit|k|smsc_id smsc_type st mode]; try (intros [= <-]; by apply Hsame).
    + intros [= <-]. apply (disturbs_rest p (set_srv p (set_smscs (srv p) []))); [|done|by split].
      apply smscs_disturb; try done. simpl. lia.
    + intros H. apply bind_Done in H as (id & _ & H). destruct (_ <? _).
      * apply bind_Done in H as (type & _ & [= <-]).
        eapply (disturbs_rest p (set_srv p (set_smscs (srv p) _))); [|reflexivity|by split].
        apply smscs_disturb; try done. apply Hw.
      * apply bind_Done in H as (s' & Eu & [= <-]). destruct Hw as [Hl _]. simpl in Hl.
        set (v := update_smsc_list (srv p) id st) in *.
        destruct (update_esme_conn_adapts v) as (s1 & E1 & _ & _ & Es & _);
          [|apply (su_named _ Hset)|rewrite Eu in E1; injection E1 as <-].
        { destruct Hb. by split. }
        assert (H1 : disturbs p (set_srv p v)) by (apply smscs_disturb; try done; unfold v in Es; simpl in Es; by rewrite <-Es).
        apply (disturbs_trans p (set_srv p v)); [done|]. destruct H1 as (Hb1 & Hset1 & _).
        by apply (update_disturbs (set_srv p v)).
  - intros [= <-]. apply Hsame; repeat case_match; done.
  - intros [= <-]. by apply Hsame.
  - intros [= <-]. by apply Hsame.
  - intros H. apply bind_Done in H as (db & _ & H). destruct (connected db); [|injection H as <-; by apply Hsame].
    apply bind_Done in H as ([d w] & _ & [= <-]). by apply Hsame.
  - destruct (_ =? 1); [by apply queue_deliver_disturbs|]. intros [= <-]. by apply Hsame.
Qed.

(** ** The steps *)

(** What one thread did: its own new state, what became of the sessions of
    the others, and that its session, if it has one, is nobody else's. *)
Record acts p p' t t' : Prop := {
  ac_book : book_ok (srv p');
  ac_set_up : set_up p';
  ac_fit : (forall a k x, kind_ok k -> open_str p a k x -> fit x) ->
    forall a k x, kind_ok k -> open_str p' a k x -> fit x;
  ac_inv : thread_inv p' t';
  ac_others u : owns p u -> (at_work (r_stage t) = true -> ~ same_thread t u) -> owns p' u;
  ac_own u : at_work (r_stage t') = true -> owns p u ->
    (at_work (r_stage t) = true -> ~ same_thread t u) -> ~ same_thread t' u;
  ac_stays name : ~ joining_to t name -> ~ leaving_from p t name -> account_stays (srv p) (srv p') name
}.

Lemma turn_works_acts p t pos x r :
  works p t pos x -> at_work (r_stage t) = true -> turn_works p t pos x r ->
  exists p' t', r = Done (p', t') /\ acts p p' t t'.
Proof.
  intros Hw Hg (p' & t' & y & -> & Hg' & Ht & Hw' & Hf & Hst). exists p', t'. split; [done|].
  pose proof Hw' as [Hs' Hid']. pose proof Ht as (E1 & E2 & E3). split.
  - apply Hs'.
  - apply Hs'.
  - intros Hfit a k z Hk Hz.
    destruct (decide (a = r_esme t /\ k = thread_type t /\ str_id z = thread_session_id t)) as [(-> & -> & Hz')|Hn].
    + assert (z = y) as ->; [|apply Hs']. apply (open_unique p' (r_esme t) (thread_type t)); [apply Hs'|done| |congruence].
      rewrite <-E1, <-E2. eapply get_str_open, Hs'.
    + apply (Hfit a k); [done|]. by apply Hf.
  - apply inv_owns; [done|]. by eapply works_owns.
  - intros u Hu Hn. apply (inv_others p p' t u); [done|by apply Hn|done].
  - intros u _ _ Hn Hs. apply (Hn Hg). by etrans.
  - intros name _ _. apply Hst.
Qed.

Lemma leaving_acts p t pos x :
  works p t pos x -> r_stage t = Leaving ->
  exists p' t', leaving_turn p t = Done (p', t') /\ acts p p' t t'.
Proof.
  intros Hw Hg. destruct (leaving_turn_ends p t pos x Hw) as (p' & -> & Hb & Hset & Ho & Hst).
  eexists _, _. split; [done|]. split; try done.
  - intros Hfit a k z Hk Hz. apply (Hfit a k); [done|]. by apply Ho.
  - intros u Hu Hn. apply (inv_others p p' t u); [|apply Hn; by rewrite Hg|done].
    intros b k z Hk Hne. rewrite Ho by done. naive_solver.
  - intros name _ Hn. apply Hst. intros e He Hc. apply Hn. split; [done|]. by exists e.
Qed.

Context (Hpack : forall q, is_Some (smpp_pdu_pack q)).
Context (Hpack_bind : forall q v i, is_Some (pack_bind_resp q v i)).

Lemma bind_acts quitting waited p t tc :
  book_ok (srv p) -> set_up p -> r_stage t = AwaitBind tc -> thread_inv p t -> proper_bind tc ->
  exists p' t', bind_turn quitting waited tc p t = Done (p', t') /\ acts p p' t t'.
Proof.
  intros H Hset Hg Hi Hq. unfold thread_inv in Hi. rewrite Hg in Hi.
  assert (Hfin : forall g, thread_inv p (to_stage t g) -> at_work g = false -> acts p p t (to_stage t g)).
  { intros g Hinv Hw. split; try done. intros u Hw'. simpl in Hw'. congruence. }
  destruct (bind_turn_spec Hpack Hpack_bind p t tc quitting waited H Hset (proj1 Hi) (proj2 Hi) Hq)
    as [->|(tc' & l & name & mode & -> & Hj)].
  - exists p, (to_stage t Finished). split; [done|]. by apply Hfin.
  - exists p, (to_stage t (Joining tc' l)). split; [done|]. apply Hfin; [by exists name, mode|done].
Qed.

Lemma joining_acts quitting p t tc l :
  book_ok (srv p) -> set_up p -> r_stage t = Joining tc l -> thread_inv p t ->
  exists p' t', joining_turn quitting tc l p t = Done (p', t') /\ acts p p' t t' /\
    (at_work (r_stage t') = true \/ r_stage t' = Finished).
Proof.
  intros H Hset Hg Hi. unfold thread_inv in Hi. rewrite Hg in Hi. destruct Hi as (name & mode & Hj).
  destruct (joining_turn_opens Hpack_bind p t tc l name mode quitting H Hset Hj)
    as (p' & t' & a & k & pos & x & -> & Hst & [Hnew Hop] & Hs & Hend).
  exists p', t'. split; [done|].
  assert (Hstay : forall u, owns p u -> owns p' u).
  { intros u (Hk & z & Hz & Hzid). split; [done|]. exists z. split; [|done]. apply Hop; [done|]. by left. }
  assert (Hfit' : (forall a k x, kind_ok k -> open_str p a k x -> fit x) ->
    forall a k x, kind_ok k -> open_str p' a k x -> fit x).
  { intros Hfit b k' z Hk Hz. apply Hop in Hz as [Hz|(-> & -> & ->)]; [by eapply Hfit|apply Hs|done]. }
  assert (Hst' : forall n, ~ joining_to t n -> ~ leaving_from p t n -> account_stays (srv p) (srv p') n).
  { intros n Hn _. apply Hst. intros E0. apply Hn. exists tc, l, name. split; [done|]. split; [apply Hj|done]. }
  destruct (conn_eof (str_conn x) || conn_error (str_conn x)).
  - subst t'. split; [|by right]. split; try done; [apply Hs|apply Hs|auto].
  - destruct Hend as (Hw & Ea & Ek & Hg'). split; [|left; rewrite Hg'; by destruct quitting].
    split; try done; [apply Hs|apply Hs| |auto|].
    + apply inv_owns; [rewrite Hg'; by destruct quitting|]. by eapply works_owns.
    + intros u _ (_ & z & Hz & Hzid) _ (E1 & E2 & E3). rewrite E1, E2, Ea, Ek in Hz. apply (Hnew z Hz).
      rewrite Hzid, E3. by destruct Hw.
Qed.

Lemma turn_acts quitting waited stack s i t :
  sys_ok s -> receivers s !! i = Some t -> polite (process s) t ->
  exists p' t', receiver_turn quitting waited stack (process s) t = Done (p', t') /\ acts (process s) p' t t'.
Proof.
  intros [H Hset Hfit Hth _ _] Hi Hp. pose proof (Hth i t Hi) as Hinv. unfold receiver_turn.
  assert (Hwk : at_work (r_stage t) = true -> exists pos x, works (process s) t pos x).
  { intros Hg. apply owns_works; try done. by apply inv_owns. }
  unfold polite in Hp. destruct (r_stage t) eqn:Hg.
  - by apply bind_acts.
  - destruct (joining_acts quitting (process s) t temp_conn l H Hset Hg Hinv) as (p' & t' & E0 & Ha & _). eauto.
  - destruct (Hwk eq_refl) as (pos & x & Hw). eapply turn_works_acts; [exact Hw|by rewrite Hg|].
    by apply waiting_turn_works.
  - destruct (Hwk eq_refl) as (pos & x & Hw). eapply turn_works_acts; [exact Hw|by rewrite Hg|].
    apply reading_turn_works; try done. apply (Hp pos). by apply works_own.
  - destruct (Hwk eq_refl) as (pos & x & Hw). eapply turn_works_acts; [exact Hw|by rewrite Hg|].
    apply unbinding_turn_works; try done. apply (Hp pos). by apply works_own.
  - destruct (Hwk eq_refl) as (pos & x & Hw). by eapply leaving_acts.
  - exists (process s), t. split; [done|]. split; try done. by rewrite Hg.
Qed.

Lemma disturbs_ok s p' : disturbs (process s) p' -> sys_ok s -> sys_ok (MkSystem p' (receivers s)).
Proof.
  intros (Hb & Hset & Hst & Hd) [H Hset' Hfit Hth Hdis Hap]. split; try done; cbn [process receivers].
  - intros a k x Hk Hx. by apply (Hd a k Hk).
  - intros j u Hu. pose proof (Hth j u Hu) as Hinv. unfold thread_inv in *.
    assert (Ho : owns (process s) u -> owns p' u).
    { intros (Hk & x & Hx & Hid). split; [done|]. destruct (Hd (r_esme u) _ Hk) as [_ Hd'].
      destruct (Hd' x Hx) as (x' & Hx' & Hid'). exists x'. split; [done|]. congruence. }
    destruct (r_stage u); auto. destruct Hinv as (name & mode & Hj). exists name, mode. by apply (joins_stays (process s)).
Qed.

Lemma step_ok s s' : sys_ok s -> sys_step s s' -> sys_ok s'.
Proof.
  intros Hs Hstep. revert Hs.
  destruct Hstep as [s0 i tc Hi Htc Hl|s0 i t quitting waited stack p' t' Hi Hp Et Hal|s0 rand m p' Em Hw|s0 p' Hd];
    intros Hs; [..|by apply disturbs_ok].
  - destruct Hs as [H Hset Hfit Hth Hdis Hap]. split; cbn [process receivers]; try done.
    + intros j u [[<- <-]|[Hj Hu]]%lookup_insert_Some; [done|by eapply Hth].
    + intros j1 j2 u1 u2 [[<- <-]|[Hj1 Hu1]]%lookup_insert_Some [[<- <-]|[Hj2 Hu2]]%lookup_insert_Some; try done.
      by eapply Hdis.
    + intros j1 j2 u1 u2 name [[<- <-]|[Hj1 Hu1]]%lookup_insert_Some [[<- <-]|[Hj2 Hu2]]%lookup_insert_Some;
        [done|by intros (? & ? & ? & ? & _)|by intros _ (? & ? & ? & ? & _)|by eapply Hap].
  - destruct (turn_acts quitting waited stack s0 i t Hs Hi Hp) as (p1 & t1 & E1 & [A1 A2 A3 A4 A5 A6 A7]).
    rewrite Et in E1. injection E1 as <- <-. destruct Hs as [H Hset Hfit Hth Hdis Hap].
    assert (Hne : forall j u, i <> j -> receivers s0 !! j = Some u -> at_work (r_stage u) = true ->
      owns (process s0) u /\ (at_work (r_stage t) = true -> ~ same_thread t u)).
    { intros j u Hij Hj Hg. split; [apply inv_owns; [done|by eapply Hth]|].
      intros Hg' Hsame. by apply Hij, (Hdis i j t u). }
    split; try done; cbn [process receivers].
    + by apply A3.
    + intros j u [[<- <-]|[Hj Hu]]%lookup_insert_Some; [done|].
      destruct (at_work (r_stage u)) eqn:Hg.
      * apply inv_owns; [done|]. destruct (Hne j u Hj Hu Hg). by apply A5.
      * pose proof (Hth j u Hu) as Hinv. unfold thread_inv in *. destruct (r_stage u) as [|tc l| | | | |] eqn:Eg; try done.
        destruct Hinv as (name & mode & Hjn). exists name, mode.
        assert (Hto : joining_to u name) by (exists tc, l, name; split; [done|]; split; [apply Hjn|done]).
        apply (joins_stays (process s0)); try done. apply A7.
        -- intros Ht. apply Hj. by apply (Hap i j t u name).
        -- by apply (Hal j u name).
    + intros j1 j2 u1 u2 [[<- <-]|[Hj1 Hu1]]%lookup_insert_Some [[<- <-]|[Hj2 Hu2]]%lookup_insert_Some Hg1 Hg2 Hsame;
        [done|..].
      * destruct (Hne j2 u2 Hj2 Hu2 Hg2) as [Ho Hn]. by destruct (A6 u2 Hg1 Ho Hn).
      * destruct (Hne j1 u1 Hj1 Hu1 Hg1) as [Ho Hn]. destruct (A6 u1 Hg2 Ho Hn).
        destruct Hsame as (?&?&?). by split_and!.
      * by eapply Hdis.
    + intros j1 j2 u1 u2 name [[<- <-]|[Hj1 Hu1]]%lookup_insert_Some [[<- <-]|[Hj2 Hu2]]%lookup_insert_Some T1 T2;
        [done|..].
      * by destruct (Hal j2 u2 name Hu2 (not_eq_sym Hj2) T2).
      * by destruct (Hal j1 u1 name Hu1 (not_eq_sym Hj1) T1).
      * by eapply Hap.
  - apply disturbs_ok; [|done]. destruct Hs as [H Hset Hfit _ _ _]. by apply (request_disturbs _ rand m).
Qed.


End System.
