(* ===== verification/ServerExamples.v ===== *)
(** * The threads of the server on examples

    Two customers bind to one account, one after the other and with their
    logins overlapping; the connection of a third is at its end after its
    bind.  The witnesses of the theorems about the threads. *)

From S2P Require Import Prelude Gwlib Counter Dict World SmscConn SmppSession SessionExamples.
From S2P Require Import IoThreadFacts Esme EsmeFacts EsmePdu EsmeProc EsmeProcFacts EsmeExamples.
From S2P Require Import Receipt ReceiptFacts ReceiptExamples ServerThread ServerThreadFacts ServerSystem.
Open Scope Z_scope.

(** PDUs to read, what was written, and whether the peer closed. *)
Record feed : Type := MkFeed { incoming : list (list Z); written : list Z; closed : bool }.

#[local] Instance feed_link : Link list_octstr := {|
  link := feed;
  link_ok _ := True;
  link_stream l := written l;
  SmppSession.conn_write l o := (0, MkFeed (incoming l) (written l ++ octets o) (closed l));
  SmppSession.conn_eof l := closed l && bool_decide (incoming l = []);
  SmppSession.conn_error _ := false;
  smpp_pdu_read_len l := (match incoming l with [] => 0 | o :: _ => Z.of_nat (length o) end, l);
  smpp_pdu_read_data l _ :=
    match incoming l with
    | [] => (None, l)
    | o :: r => (Some o, MkFeed r (written l) (closed l))
    end;
|}.

#[local] Instance feed_laws : LinkLaws feed_link.
Proof. split. intros l o _. split; [done|]. split; [done|]. by left. Qed.

#[local] Instance feed_reads : LinkReads feed_link.
Proof. by split. Qed.

(** A bind of the account, and questions whether the link is alive. *)
#[local] Instance login_pdus : PduLib list_octstr no_rest := {|
  smpp_pdu_pack p := Some [sequence_number (pdu_header p)];
  smpp_pdu_unpack o :=
    match o with
    | [1; seq] => Some (bind_transmitter (MkHeader 0 seq) acme_bind)
    | [0; seq] => Some (enquire_link (MkHeader 0 seq))
    | _ => None
    end;
|}.

Definition idle_process : Process (O:=list_octstr) (L:=list_gwlist) (K:=feed_link) :=
  running_server (K:=feed_link) no_login.

Definition caller (closed : bool) : TEMPCONN (O:=list_octstr) (K:=feed_link) :=
  tempconn_create (K:=feed_link) (MkFeed [[1; 3]; [0; 4]] [] closed) (cstr "10.0.0.2") 4001 2775 1.

Definition hurried_caller : TEMPCONN (O:=list_octstr) (K:=feed_link) :=
  tempconn_create (K:=feed_link) (MkFeed [[1; 3]] [] true) (cstr "10.0.0.3") 4002 2775 1.

Lemma idle_set_up : set_up idle_process.
Proof.
  split; try (by eexists); [apply acme_named|simpl; lia|].
  intros c ->%list_elem_of_singleton. simpl. lia.
Qed.

Lemma packs (q : SMPP_PDU) : is_Some (smpp_pdu_pack (PduLib:=login_pdus) q).
Proof. by eexists. Qed.

Lemma packs_bind (q : SMPP_PDU) (v : option octstr) (i : Z) : is_Some (pack_bind_resp (ServerLib:=plain_server) q v i).
Proof. by eexists. Qed.

Lemma caller_proper tc seq rest closed :
  tc_conn tc = MkFeed ([1; seq] :: rest) [] closed -> proper_bind (P:=login_pdus) (K:=feed_link) tc.
Proof.
  intros E. unfold proper_bind. rewrite E. split; [done|]. intros q. simpl. intros [= <-]. by eexists.
Qed.

(** ** Turns of the threads *)

(** A turn of one thread. *)
Definition after_turn (i : nat) (s : System (O:=list_octstr) (L:=list_gwlist) (K:=feed_link)) :=
  match receivers s !! i with
  | Some t =>
      match receiver_turn (P:=login_pdus) (K:=feed_link) false 0 no_stack (process s) t with
      | Done (p, t) => MkSystem p (<[i:=t]> (receivers s))
      | Panic => s
      end
  | None => s
  end.

(** No other thread is between the two parts of a login. *)
Definition nobody_joins (i : nat) (s : System (O:=list_octstr) (L:=list_gwlist) (K:=feed_link)) : bool :=
  forallb (fun '(j, u) => (j =? i)%nat || match r_stage u with Joining _ _ => false | _ => true end)
    (map_to_list (receivers s)).

Lemma nobody_alone i s t t' : nobody_joins i s = true -> alone s i t t'.
Proof.
  intros Hs j u name Hu Hne (tc & l & m & Hg & _). unfold nobody_joins in Hs.
  rewrite List.forallb_forall in Hs. specialize (Hs (j, u)). simpl in Hs.
  rewrite Hg, (proj2 (Nat.eqb_neq j i) Hne) in Hs. exfalso.
  assert (false = true) by (apply Hs, list_elem_of_In, elem_of_map_to_list, Hu). done.
Qed.

Lemma after_turn_step i t s :
  receivers s !! i = Some t -> polite (P:=login_pdus) (process s) t -> nobody_joins i s = true ->
  match receiver_turn (P:=login_pdus) (K:=feed_link) false 0 no_stack (process s) t with
  | Done _ => true | Panic => false end = true ->
  sys_step (P:=login_pdus) s (after_turn i s).
Proof.
  intros Hi Hp Hn H. unfold after_turn. rewrite Hi.
  destruct (receiver_turn _ _ _ _ _) as [[p' t']|] eqn:E; [|done].
  eapply step_turn; [done|done|done|by apply nobody_alone].
Qed.

(** The turn of a thread that is to complete its login. *)
Lemma joining_step i s :
  nobody_joins i s = true ->
  match receivers s !! i with
  | Some t =>
      match r_stage t with Joining _ _ => true | _ => false end &&
      match receiver_turn (P:=login_pdus) (K:=feed_link) false 0 no_stack (process s) t with
      | Done _ => true | Panic => false end
  | None => false end = true ->
  sys_step (P:=login_pdus) s (after_turn i s).
Proof.
  intros Hn H. destruct (receivers s !! i) as [t|] eqn:Hi; [|done].
  apply andb_true_iff in H as [Hg H]. apply (after_turn_step i t); try done.
  unfold polite. by destruct (r_stage t).
Qed.

Lemma after_turn_others i j s : i <> j -> receivers (after_turn i s) !! j = receivers s !! j.
Proof.
  intros Hne. unfold after_turn. destruct (receivers s !! i) as [t|]; [|done].
  destruct (receiver_turn _ _ _ _ _) as [[p' t']|]; [|done]. simpl. by rewrite lookup_insert_ne.
Qed.

(** ** A session that nobody serves *)

Definition hurried : System (O:=list_octstr) (L:=list_gwlist) (K:=feed_link) :=
  MkSystem idle_process {[ 3%nat := new_receiver 3 hurried_caller ]}.

(** The thread ends after its login and its session stays. *)
Lemma hurried_session_stays :
  let s := after_turn 3 (after_turn 3 hurried) in
  (match receivers s !! 3%nat with Some t => match r_stage t with Finished => true | _ => false end
   | None => false end, size (heap (srv (process s)))) = (true, 1%nat).
Proof. vm_compute. reflexivity. Qed.

(** ** Two sessions of one account *)

Definition two_callers : System (O:=list_octstr) (L:=list_gwlist) (K:=feed_link) :=
  MkSystem idle_process {[ 1%nat := new_receiver 1 (caller false); 2%nat := new_receiver 2 (caller false) ]}.

Lemma two_callers_ok : sys_ok (P:=login_pdus) two_callers.
Proof.
  split; cbn [process receivers two_callers].
  - apply no_login_ok.
  - apply idle_set_up.
  - intros a k x _ (e & He & _). unfold idle_process in He. simpl in He. by rewrite lookup_empty in He.
  - intros i t Hi. apply lookup_insert_Some in Hi as [[_ <-]|[_ [_ <-]%lookup_singleton_Some]]; done.
  - intros i j t u Hi _ Hg. apply lookup_insert_Some in Hi as [[_ <-]|[_ [_ <-]%lookup_singleton_Some]]; done.
  - intros i j t u name Hi _ (tc & l & m & Hg & _).
    apply lookup_insert_Some in Hi as [[_ <-]|[_ [_ <-]%lookup_singleton_Some]]; done.
Qed.

Definition one_bound : System (O:=list_octstr) (L:=list_gwlist) (K:=feed_link) :=
  after_turn 1 (after_turn 1 two_callers).
Definition both_bound : System (O:=list_octstr) (L:=list_gwlist) (K:=feed_link) :=
  after_turn 2 (after_turn 2 one_bound).

Lemma first_binds : rtc (sys_step (P:=login_pdus)) two_callers one_bound.
Proof.
  eapply rtc_l; [|apply rtc_once, joining_step; vm_compute; reflexivity].
  apply (after_turn_step 1 (new_receiver 1 (caller false))); [done| |vm_compute; reflexivity..].
  by apply (caller_proper _ 3 [[0; 4]] false).
Qed.

Lemma both_bind : rtc (sys_step (P:=login_pdus)) two_callers both_bound.
Proof.
  etrans; [exact first_binds|]. eapply rtc_l; [|apply rtc_once, joining_step; vm_compute; reflexivity].
  apply (after_turn_step 2 (new_receiver 2 (caller false))); [| |vm_compute; reflexivity..].
  - unfold one_bound. by rewrite !after_turn_others.
  - by apply (caller_proper _ 3 [[0; 4]] false).
Qed.

(** The second thread has the second session. *)
Lemma second_thread :
  match receivers both_bound !! 2%nat with
  | Some t => match r_stage t with Waiting => true | _ => false end && (thread_type t =? 1) &&
              (thread_session_id t =? 2)
  | None => false
  end = true.
Proof. vm_compute. reflexivity. Qed.


(** ** Overlapping logins *)

(** Both threads check before one joins: the account has two structures. *)
Lemma overlapping_logins :
  let s := after_turn 2 (after_turn 1 (after_turn 2 (after_turn 1 two_callers))) in
  (fun '(_, e) => option_map octets (e_system_id e)) <$> map_to_list (heap (srv (process s)))
  = [option_map octets (system_id acme_bind); option_map octets (system_id acme_bind)].
Proof. vm_compute. reflexivity. Qed.
