(* ===== verification/EsmeEnds.v ===== *)
(** * The two ends of the server process (smpp-esme/smpp_esme.c)

    How connections of customers come in ([accept_trans_thread] and the two
    like it), and what is done with the messages that wait for other
    processes when the server ends ([save_dbbox_q_msgs]). *)

From S2P Require Import Prelude Gwlib Counter Dict World SmscConn.
From S2P Require Import SmppSession Esme EsmePdu EsmeProc ServerThread.
Open Scope Z_scope.

Section Ends.
Context {O : OctstrLib} {L : GwListLib} {R : PduRest} {N : SmppNames} {E : EsmeNames}.
Context {P : PduLib O R} {PX : PrefixLib O} {K : Link O} {TL : TimeLib O} {SL : ServerLib O R}.
Context {CK : Clock} {AN : AdminNames}.

(** ** Accepting *)

(** What the calls of the system give in one turn: whether the poll reports
    input, the descriptor of [accept], the address and the port. *)
Record arrival : Type := MkArrival { polled : bool; new_fd : Z; client_ip : list Z; client_port : Z; at_time : Z }.

(** [conn_wrap_fd]: [None] when the descriptor cannot be used, for example
    because [accept] failed, which is not checked. *)
Variable wrap_fd : Z -> option link.

(** The argument of a new thread; without a connection the thread uses NULL. *)
Definition accepted (port mode : Z) (a : arrival) : option TEMPCONN :=
  (fun l => tempconn_create l (client_ip a) (client_port a) port mode) <$> wrap_fd (new_fd a).

(** The threads that are created, in their order, and [start_time]. *)
Fixpoint accept_loop (port mode : Z) (start_time : Z) (l : list arrival) : list (option TEMPCONN) * Z :=
  match l with
  | [] => ([], start_time)
  | a :: l =>
      if negb (polled a) then ([], start_time)
      else
        let start_time := if start_time =? -1 then at_time a else start_time in
        let '(ts, start_time) := accept_loop port mode start_time l in
        (accepted port mode a :: ts, start_time)
  end.

(** [fd] is the result of [make_server_socket]. *)
Definition accept_thread (fd port mode start_time : Z) (l : list arrival) : outcome (list (option TEMPCONN) * Z) :=
  if fd =? -1 then Panic else Done (accept_loop port mode start_time l).

Definition accept_trans_thread (fd port start_time : Z) (l : list arrival) : outcome (list (option TEMPCONN) * Z) :=
  accept_thread fd port 1 start_time l.
Definition accept_recv_thread (fd port start_time : Z) (l : list arrival) : outcome (list (option TEMPCONN) * Z) :=
  accept_thread fd port 2 start_time l.
Definition accept_transrecv_thread (fd port start_time : Z) (l : list arrival) : outcome (list (option TEMPCONN) * Z) :=
  accept_thread fd port 1 start_time l.

(** ** The end *)

(** A message that waits for the client process: when that is not connected
    the message is reported to the database process, with the name of the
    account as address; otherwise its text is written. *)
Definition save_forward (p : Process) (fwd : PROCESS_CLIENT) (m : process_msg) : outcome Process :=
  match m with
  | submit s =>
      packed ← must (sb_pdu s);
      let pdu := smpp_pdu_unpack (octstr_from_position packed 4) in
      q ← must pdu;
      b ← as_submit q;
      Done (if negb (connected fwd)
            then mis_db_insert p (sb_account_name s) (sb_account_msg_id s) b 0x408 (sb_account_name s)
            else perform p (Logged m))
  | _ => Done p
  end.

Fixpoint save_forward_all (p : Process) (fwd : PROCESS_CLIENT) (l : list process_msg) : outcome Process :=
  match l with
  | [] => Done p
  | m :: l => p ← save_forward p fwd m; save_forward_all p fwd l
  end.

Definition save_dbbox (p : Process) (m : process_msg) : Process :=
  match m with
  | smpp_esme _ | common (insert_mis _ _ _ _ _ _ _ _ _ _ _ _ _) => send_msg_dbbox_server p m 1
  | _ => p
  end.

(** [forward] is the list of the client process, [waiting] the list of the
    database process after the first loop. *)
Definition save_dbbox_q_msgs (p : Process) (forward : list process_msg) (waiting : Process -> list process_msg)
    : outcome Process :=
  match forward_client p with
  | None => Done p
  | Some fwd =>
      p ← save_forward_all p fwd forward;
      Done (match dbbox_client p with
            | Some d => if negb (connected d) then foldl save_dbbox p (waiting p) else p
            | None => p
            end)
  end.

(** ** Facts *)

(** Every connection that comes before the poll fails gets a thread, in its
    order, with its own address and the port on which it came. *)
Lemma accept_loop_spec port mode l : forall start,
  exists before after, l = before ++ after /\ Forall (fun a => polled a = true) before /\
    match after with [] => True | a :: _ => polled a = false end /\
    (accept_loop port mode start l).1 = accepted port mode <$> before.
Proof.
  induction l as [|a l IH]; intros start; cbn [accept_loop]; [by exists [], []|].
  destruct (polled a) eqn:Ea; cbn [negb]; [|by exists [], (a :: l)].
  destruct (IH (if start =? -1 then at_time a else start)) as (before & after & -> & Hb & Ha & Et).
  exists (a :: before), after. split_and!; [done|by constructor|done|].
  destruct (accept_loop _ _ _ _) as [ts st]. simpl in *. by rewrite Et.
Qed.

Lemma accepted_fields port mode a t : accepted port mode a = Some t ->
  wrap_fd (new_fd a) = Some (tc_conn t) /\ tc_client_ip t = Some (octstr_create (client_ip a)) /\
  tc_client_port t = client_port a /\ tc_listen_port t = port /\ tc_bind_successful t = 0 /\ tc_mode t = mode.
Proof. unfold accepted. destruct (wrap_fd (new_fd a)); [|done]. by intros [= <-]. Qed.

(** The report of a message that waits for the client process. *)
Definition saved (now : Z) (m : process_msg) : option effect :=
  match m with
  | submit s =>
      packed ← sb_pdu s; q ← smpp_pdu_unpack (octstr_from_position packed 4);
      match as_submit q with
      | Done b => Some (ToDbbox (common (insert_mis (octstr_dup (sb_account_name s)) (octstr_dup (sb_account_msg_id s))
          (Some (get_current_datetime now)) (Some (octstr_create [])) (Some (octstr_create []))
          (octstr_dup (source_addr b)) (octstr_dup (destination_addr b)) 0x408 (esm_class b)
          (from_option octstr_len 0 (short_message b)) (octstr_dup (short_message b)) (retry_value_of b)
          (octstr_dup (sb_account_name s)))))
      | Panic => None
      end
  | _ => None
  end.

Definition is_submit (m : process_msg) : bool := match m with submit _ => true | _ => false end.

(** While the database process has its structure and the client process is
    away, every submitted message that waits is reported, in its order. *)
Lemma save_forward_reports fwd l : forall p d, dbbox_client p = Some d -> connected fwd = false ->
  Forall (fun m => is_submit m = true -> is_Some (saved (srv_now (srv p)) m)) l ->
  exists p', save_forward_all p fwd l = Done p' /\ effects p' = effects p ++ omap (saved (srv_now (srv p))) l /\
    srv p' = srv p /\ dbbox_client p' = Some d /\ forward_client p' = forward_client p.
Proof.
  induction l as [|m l IH]; intros p d Hd Hf Hl; cbn [save_forward_all].
  { exists p. by rewrite app_nil_r. }
  apply Forall_cons in Hl as [Hm Hl].
  assert (H1 : exists p1, save_forward p fwd m = Done p1 /\ effects p1 = effects p ++ omap (saved (srv_now (srv p))) [m] /\
    srv p1 = srv p /\ dbbox_client p1 = Some d /\ forward_client p1 = forward_client p).
  { destruct m as [c|cmd id|s|em|a b c e|v]; try (exists p; simpl; by rewrite app_nil_r).
    destruct (Hm eq_refl) as [e He]. cbn [omap list_omap]. rewrite He. revert He. simpl.
    destruct (sb_pdu s) as [packed|]; [|done]. simpl. destruct (smpp_pdu_unpack _) as [q|]; [|done]. simpl.
    destruct (as_submit q) as [b|]; [|done]. intros [= <-]. rewrite Hf. simpl. unfold mis_db_insert, send_msg_dbbox_server.
    rewrite Hd. simpl. eexists. by split_and!. }
  destruct H1 as (p1 & -> & E1 & Es & Hd1 & Hf1). cbn [mbind outcome_bind].
  destruct (IH p1 d Hd1 Hf ltac:(by rewrite Es)) as (p' & -> & E' & Es' & Hd' & Hf').
  exists p'. split_and!; [done| |congruence..]. rewrite E', E1, Es, <-app_assoc. f_equal. simpl. by destruct (saved _ m).
Qed.

End Ends.
