(* ===== verification/Client.v ===== *)
(** * Messages from the server to the client process (smpp-smsc/smpp_smsc.c)

    The client process turns a message of the server into a [Msg] for the
    router.  The positions of the SMSCs travel as the characters of two
    strings, from [rout_pdu] of the server to the arrays that the router
    reads; the theorem of this file joins the two ends. *)

From S2P Require Import Prelude Gwlib Counter World SmscConn Router RouterFacts.
From S2P Require Import SmppSession Esme EsmeFacts EsmePdu EsmePduFacts EsmeProc.
Open Scope Z_scope.

(** The length of the arrays of positions of a message, [MAX_NO_SMSC / 2], and
    those of its arrays of characters: [struct forward_queue_data] is not part
    of the sources. *)
Class SmscArrays : Type := {
  smsc_array : nat;
  req_time_size : nat; account_name_size : nat; account_msg_id_size : nat;
  destination_addr_size : nat; source_addr_size : nat
}.

Section Client.
Context {O : OctstrLib} {L : GwListLib} {R : PduRest} {P : PduLib O R} {PX : PrefixLib O}
  {D : Type} {V : Driver D} {SA : SmscArrays}.

(** The fields of a submitted message that the server leaves alone. *)
Record SubmitExtras : Type := MkExtras {
  sb_data_coding : Z; sb_esm_class : Z; sb_more_messages_to_send : Z; sb_content : option octstr
}.

Definition extras_none : SubmitExtras := MkExtras 0 0 0 None.

(** The values of the characters of a string, none for a null pointer. *)
Definition chars (o : option octstr) : list Z := from_option octets [] o.

(** Copy positions into an array and fill it with end marks. *)
Definition fill_array (l : list Z) : outcome (list Z) :=
  if (length l <? smsc_array)%nat then Done (l ++ repeat (-1) (smsc_array - length l)) else Panic.

(** In the mode in which the database process checks every message, the SMSC
    is always the first. *)
Definition route_fields (dnd : Z) (m : submit_msg) : option octstr * option octstr :=
  if dnd =? 1 then (Some (octstr_create (cstr "0")), Some (octstr_create []))
  else (sb_preferred_smsc m, sb_allowed_smsc m).

(** What the router gets to know of the message. *)
Definition routing_of (m : submit_msg) (x : SubmitExtras) (preferred allowed : list Z)
    : forward_queue_data :=
  MkRouting (get_cstr (sb_destination_addr m)) (get_cstr (sb_source_addr m)) preferred allowed
    (octstr_dup (sb_content x)) (sb_data_coding x) (sb_esm_class x) (sb_more_messages_to_send x).

(** [strcpy] into an array of some size; what does not fit goes behind it. *)
Definition strcpy (size : nat) (o : option octstr) : outcome (list Z) :=
  _ ← gw_assert (length (get_cstr o) <? size)%nat; Done (get_cstr o).

(** The message for the router, with its arrays of positions. *)
Definition msg_of (dnd : Z) (m : submit_msg) (x : SubmitExtras) (preferred allowed : list Z) : Msg :=
  MkMsg
    (Some (MkInfo (if dnd =? 0 then octstr_dup (sb_pdu m) else None) (octstr_dup (sb_account_name m))
             (octstr_dup (sb_account_msg_id m)) (octstr_dup (sb_req_time m)) (octstr_dup (sb_IP m))))
    (Some (routing_of m x preferred allowed)) 0 MSG_NOT_ROUTED 0 None.

(** [pre] and [all] are the lists that it is routed by.  The first three
    arrays of characters are not read again. *)
Definition make_msg (dnd : Z) (m : submit_msg) (x : SubmitExtras) (pre all : option octstr) : outcome Msg :=
  _ ← strcpy req_time_size (sb_req_time m);
  _ ← strcpy account_name_size (sb_account_name m);
  _ ← strcpy account_msg_id_size (sb_account_msg_id m);
  _ ← strcpy destination_addr_size (sb_destination_addr m);
  _ ← strcpy source_addr_size (sb_source_addr m);
  preferred ← fill_array (if dnd =? 0 then chars pre else repeat 0 (length (chars pre)));
  allowed ← fill_array (chars all);
  Done (msg_of dnd m x preferred allowed).

Definition submit_received (fuel : nat) (stack : Z) (m : submit_msg) (x : SubmitExtras) (r : Router (D:=D))
    : outcome (Router (D:=D)) :=
  let dnd := dndcheck_flag (rworld r) in
  let '(pre, all) := route_fields dnd m in
  if ((length (chars pre) =? 0) && (length (chars all) =? 0))%nat then Done r
  else if (dnd =? 0) && bool_decide (sb_pdu m = None) then Done r
  else
    msg ← make_msg dnd m x pre all;
    '(_, r) ← smsc2_rout fuel stack msg r;
    Done r.

(** A message that comes when the process ends is reported. *)
Definition submit_refused (m : submit_msg) (r : Router (D:=D)) : outcome (Router (D:=D)) :=
  packed ← must (sb_pdu m);
  w ← World.mis_db_insert (rworld r) (sb_account_name m) (sb_account_msg_id m) (sb_req_time m) None None
        (smpp_pdu_unpack (octstr_from_position packed 4)) 0x40B (sb_IP m);
  Done (with_rworld r w).

(** [handle_request] for a submitted message; other messages change nothing
    but the name of the connection. *)
Definition client_request (fuel : nat) (stack : Z) (m : submit_msg) (x : SubmitExtras) (r : Router (D:=D))
    : outcome (Router (D:=D)) :=
  if negb (bool_decide (smpp_client_status (rworld r) = CLIENT_RUNNING)) then submit_refused m r
  else submit_received fuel stack m x r.

End Client.

(** ** From the server to an SMSC *)

Section Facts.
Context {O : OctstrLib} {OL : OctstrLaws O} {L : GwListLib} {LL : GwListLaws L} {R : PduRest}.
Context {P : PduLib O R} {PX : PrefixLib O} {D : Type} {V : Driver D} {VL : DriverLaws V}.
Context {SA : SmscArrays} {N : SmppNames} {E : EsmeNames} {K : Link O} {TL : TimeLib O} {SL : ServerLib O R}.
Implicit Types (r : Router (D:=D)) (m : submit_msg).

Lemma until_end_ended xs k : Forall (fun x => x <> -1) xs -> until_end (xs ++ -1 :: k) = Some xs.
Proof. intros H. rewrite until_end_app by done. simpl. by rewrite app_nil_r. Qed.

Lemma fill_array_spec xs :
  (length xs < smsc_array)%nat -> Forall (fun x => x <> -1) xs ->
  exists a, fill_array xs = Done a /\ until_end a = Some xs.
Proof.
  intros Hl Hn. unfold fill_array. rewrite (proj2 (Nat.ltb_lt _ _) Hl). eexists. split; [done|].
  destruct (smsc_array - length xs)%nat eqn:En; [lia|]. by apply until_end_ended.
Qed.

(** A message with a candidate in its lists is handed over. *)
Lemma smsc2_rout_served fuel stack (m : Msg) r i rd ps xs z :
  sm_info m = Some i -> routing_info m = Some rd ->
  until_end (preferred_smsc rd) = Some ps -> until_end (allowed_smsc rd) = Some xs ->
  Forall (valid_pos r) (ps ++ xs) -> Forall ready (smsc_list r) ->
  smpp_client_status (rworld r) <> CLIENT_SHUTDOWN ->
  z ∈ ps ++ xs -> candidate r rd z = true ->
  exists x r', smsc2_rout (S fuel) stack m r = Done (1, r') /\ x ∈ ps ++ xs /\
    chosen r rd ps xs x /\ delivered r r' x m.
Proof.
  intros Hi Hrd Hps Hxs Hv Hr Hst Hz Hc.
  assert (Hne : smsc_list r <> []).
  { intros E0. rewrite Forall_forall in Hv. specialize (Hv z Hz). unfold valid_pos in Hv.
    rewrite E0 in Hv. simpl in Hv. lia. }
  destruct xs as [|x0 xs0] eqn:Ex.
  - rewrite app_nil_r in *. simpl.
    assert ((length (smsc_list r) =? 0)%nat = false) as -> by by destruct (smsc_list r).
    rewrite Hrd. simpl.
    destruct (route_preferred_spec rd m i _ ps r Hps Hv Hr Hst Hi Hrd) as (res & m' & r1 & -> & Hres).
    simpl. destruct res as [ret|].
    + destruct Hres as (-> & ps1 & x & ps2 & -> & Hx & Hf & Hd). exists x, r1. split; [done|].
      split; [set_solver|]. split; [|done]. split; [done|]. left. eauto.
    + destruct Hres as (_ & _ & Hf). rewrite Forall_forall in Hf. by rewrite Hf in Hc.
  - rewrite <-Ex in *. assert (Hxn : xs <> []) by by rewrite Ex. clear Ex.
    destruct (smsc2_rout_run fuel stack m r i rd ps xs) as (ret & r' & E1 & [(-> & x & Hx & Hd)|(Hf & _)]);
      try done.
    + exists x, r'. split_and!; try done. apply elem_of_app.
      destruct Hx as (_ & [(ps1 & ps2 & -> & _)|(_ & Hin & _)]); [left; set_solver|by right].
    + rewrite Forall_forall in Hf. by rewrite Hf in Hc.
Qed.

(** Positions that fit into the arrays of a message. *)
Lemma fill_arrays ps xs :
  (length ps < smsc_array)%nat -> (length xs < smsc_array)%nat ->
  Forall (fun i => 0 <= i < 128) (ps ++ xs) ->
  exists a b, fill_array ps = Done a /\ fill_array xs = Done b /\
    until_end a = Some ps /\ until_end b = Some xs.
Proof.
  intros Hl1 Hl2 [H1 H2]%Forall_app.
  destruct (fill_array_spec ps) as (a & Ea & Ua); [done|eapply Forall_impl; [exact H1|]; simpl; lia|].
  destruct (fill_array_spec xs) as (b & Eb & Ub); [done|eapply Forall_impl; [exact H2|]; simpl; lia|].
  by exists a, b.
Qed.

Lemma candidate_routing r m x a b a' b' z :
  candidate r (routing_of m x a b) z = candidate r (routing_of m x a' b') z.
Proof. done. Qed.

(** A listed position stands for a connection that carries the message. *)
Lemma listed_carries nt (l : list SMSC_Conn_List) ids z :
  (length l <= 128)%nat ->
  z ∈ preferred_positions nt l ids ++ other_positions nt l (preferred_positions nt l ids) ->
  exists c, l !! Z.to_nat z = Some c /\ carries nt c = true.
Proof.
  intros Hl [Hz|Hz]%elem_of_app.
  - apply list_elem_of_omap in Hz as (id & _ & Hz). unfold position_of in Hz.
    apply head_Some_elem_of, positions_elem in Hz as (k & c & Hk & -> & Hc).
    apply andb_true_iff in Hc as [_ Hc]. exists c. by rewrite Z.add_0_l, Nat2Z.id.
  - apply positions_elem in Hz as (k & c & Hk & -> & Hc).
    apply andb_true_iff in Hc as [_ Hc]. exists c. by rewrite Z.add_0_l, Nat2Z.id.
Qed.

(** The texts of a message fit into the arrays that they are copied into. *)
Definition texts_fit m : Prop :=
  (length (get_cstr (sb_req_time m)) < req_time_size /\ length (get_cstr (sb_account_name m)) < account_name_size /\
   length (get_cstr (sb_account_msg_id m)) < account_msg_id_size /\
   length (get_cstr (sb_destination_addr m)) < destination_addr_size /\
   length (get_cstr (sb_source_addr m)) < source_addr_size)%nat.

Lemma strcpy_fits size o : (length (get_cstr o) < size)%nat -> strcpy size o = Done (get_cstr o).
Proof. intros H. unfold strcpy. by rewrite (proj2 (Nat.ltb_lt _ _) H). Qed.

Lemma make_msg_done m x pre all a b : texts_fit m -> fill_array (chars pre) = Done a -> fill_array (chars all) = Done b ->
  make_msg 0 m x pre all = Done (msg_of 0 m x a b).
Proof.
  intros (H1 & H2 & H3 & H4 & H5) Ha Hb. unfold make_msg. rewrite !strcpy_fits by done. cbn [mbind outcome_bind Z.eqb].
  by rewrite Ha, Hb.
Qed.

(** C5 From the server to the connection: the lists of SMSCs that the server
    computes for a message travel as the characters of two strings.  When the
    client routes by these lists (the database process does not check every
    message), the server's table and the client's list of connections have the
    same length, they and the account's list are shorter than the arrays of a
    message, whose other arrays hold its texts, and one connection that carries
    the type of the number can take the message, then the client hands the
    message over, to a connection which stands at a position of the server's
    table that carries the type of the number. *)
Theorem submit_reaches_carrier (s : Server) (n : Series) (dest username nt packed : octstr)
    (t : Smsc_Client) (ret : Z) (pre all : octstr) (m : submit_msg) (x : SubmitExtras) r
    (fuel : nat) (stack : Z) (k : nat) (c : SMSC_Conn_List)
    (Hn : Forall named (translations s)) (Ht : account s username = Some t)
    (Hnt : number_type n dest = Some nt) (Hl : (length (smscs s) <= 128)%nat)
    (Hla : (length (smscs s) < smsc_array)%nat) (Hids : (length (smsc_ids t) < smsc_array)%nat)
    (Hi : (length (smsc_ids t) < 256)%nat)
    (Hrout : rout_pdu s n (Some dest) (Some username) = Done (ret, Some pre, Some all))
    (Hpre : sb_preferred_smsc m = Some pre) (Hall : sb_allowed_smsc m = Some all)
    (Hpdu : sb_pdu m = Some packed) (Hfit : texts_fit m)
    (Hrun : smpp_client_status (rworld r) = CLIENT_RUNNING) (Hdnd : dndcheck_flag (rworld r) = 0)
    (Hready : Forall ready (smsc_list r)) (Hsame : length (smsc_list r) = length (smscs s))
    (Hk : smscs s !! k = Some c) (Hc : carries nt c = true)
    (Hcand : candidate r (routing_of m x [] []) (Z.of_nat k) = true) :
  exists y c' a b r', client_request (S fuel) stack m x r = Done r' /\
    smscs s !! Z.to_nat y = Some c' /\ carries nt c' = true /\
    until_end a = Some (octets pre) /\ until_end b = Some (octets all) /\
    delivered r r' y (msg_of 0 m x a b).
Proof.
  destruct (rout_pdu_lists s n dest username nt t) as (ret' & pre' & all' & E1 & Ep & Ea & _); try done.
  rewrite Hrout in E1. injection E1 as <- <- <-.
  assert (Hps : (length (octets pre) < smsc_array)%nat).
  { rewrite Ep. eapply Nat.le_lt_trans; [apply length_omap|done]. }
  assert (Hxs : (length (octets all) < smsc_array)%nat).
  { rewrite Ea. eapply Nat.le_lt_trans; [apply positions_length|done]. }
  assert (Hz : Z.of_nat k ∈ octets pre ++ octets all).
  { apply elem_of_app. rewrite Ea. destruct (positions_split nt (smscs s) (octets pre) k c Hk Hc); naive_solver. }
  assert (Hcar : forall z, z ∈ octets pre ++ octets all ->
    exists c0, smscs s !! Z.to_nat z = Some c0 /\ carries nt c0 = true).
  { intros z. rewrite Ea, Ep. by apply listed_carries. }
  assert (Hrange : Forall (fun i => 0 <= i < 128) (octets pre ++ octets all)).
  { apply Forall_app. split; [rewrite Ep; by apply preferred_range|].
    rewrite Ea. eapply Forall_impl; [apply positions_range|]. simpl. lia. }
  destruct (fill_arrays (octets pre) (octets all)) as (a & b & Fa & Fb & Ua & Ub); try done.
  destruct (smsc2_rout_served fuel stack (msg_of 0 m x a b) r _ (routing_of m x a b)
    (octets pre) (octets all) (Z.of_nat k) eq_refl eq_refl Ua Ub) as (y & r' & Er & Hy & _ & Hd); try done.
  { apply Forall_forall. intros z Hz'. destruct (Hcar z Hz') as (c0 & Hc0 & _).
    rewrite Forall_forall in Hrange. specialize (Hrange z Hz'). apply lookup_lt_Some in Hc0.
    unfold valid_pos. rewrite Hsame. lia. }
  { by rewrite Hrun. }
  destruct (Hcar y Hy) as (c' & Hc' & Hcc). exists y, c', a, b, r'.
  split; [|by split_and!]. revert Er. generalize (S fuel). intros f Er. unfold client_request. rewrite bool_decide_eq_true_2 by done. simpl.
  unfold submit_received, route_fields. rewrite Hdnd, Hpre, Hall, Hpdu. simpl.
  assert (((length (octets pre) =? 0) && (length (octets all) =? 0))%nat = false) as ->.
  { destruct (octets pre); [|done]. destruct (octets all); [|done]. set_solver. }
  rewrite (make_msg_done m x (Some pre) (Some all) a b) by done. simpl. by rewrite Er.
Qed.

End Facts.
