(* ===== verification/ClientExamples.v ===== *)
(** * From the server to the client on an example

    A number of the server's first series, two SMSCs for it
    and a third one on both sides;
    the witness of the theorem about the way from the server to an SMSC. *)

From S2P Require Import Prelude Gwlib Counter Dict Charset Conn World SmscConn.
From S2P Require Import SmppSession SessionFacts SessionExamples Router RouterFacts RouterExamples.
From S2P Require Import Esme EsmeFacts EsmePdu EsmePduFacts EsmeProc EsmeExamples Client.
Open Scope Z_scope.

(** Arrays of some sizes. *)
#[export] Instance client_arrays : SmscArrays := {|
  smsc_array := 50; req_time_size := 20; account_name_size := 20; account_msg_id_size := 30;
  destination_addr_size := 21; source_addr_size := 21
|}.

Definition three_conns_router
    : Router (O:=list_octstr) (L:=list_gwlist) (D:=SMPP (O:=list_octstr) (L:=list_gwlist)) :=
  MkRouter (set_outgoing (O:=list_octstr) (L:=list_gwlist) sample_world [])
    [session_conn (cstr "a") (cstr "98") 2 SMSCCONN_RECONNECTING;
     session_conn (cstr "b") (cstr "98") 1 SMSCCONN_ACTIVE;
     session_conn (cstr "c") (cstr "98") 0 SMSCCONN_ACTIVE] (-1) 3.

Definition forwarded : submit_msg (O:=list_octstr) :=
  MkSubmit (O:=list_octstr) (Some (cstr "now")) (Some (cstr "acme")) (Some (cstr "id"))
    (Some (cstr "9812345678")) (Some (cstr "ACME")) (Some (cstr "packed")) (Some [1; 0]) (Some [])
    (Some (cstr "10.0.0.2")).

Lemma submit_reaches_carrier_witness :
  exists y c' a b r',
    client_request 1 0 forwarded extras_none three_conns_router = Done r' /\
    smscs (one_login ESME_BINDED) !! Z.to_nat y = Some c' /\ carries (cstr "gsm") c' = true /\
    until_end a = Some [1; 0] /\ until_end b = Some [] /\
    delivered three_conns_router r' y (msg_of 0 forwarded extras_none a b).
Proof.
  apply (submit_reaches_carrier (one_login ESME_BINDED) two_series (cstr "9812345678") (cstr "acme")
    (cstr "gsm") (cstr "packed") acme 0 [1; 0] [] forwarded extras_none three_conns_router 0 0 1
    (MkSmsc (O:=list_octstr) (cstr "b") (cstr "all") 1 3) acme_named); try reflexivity.
  - simpl. lia.
  - simpl. lia.
  - simpl. lia.
  - simpl. lia.
  - vm_compute. lia.
  - repeat constructor.
Defined.
