(* ===== verification/ClientAdmin.v ===== *)
(** * The client process towards its neighbours (smpp-smsc)

    [smsc2_restart_smsc] and [smsc2_cleanup] of [smsc.c], which administrators
    and the end of the process call, and the functions of [smpp_smsc.c] that
    send messages to the other processes, with what becomes of a message that
    cannot be sent. *)

From S2P Require Import Prelude Gwlib Counter Dict Cfg World.
From S2P Require Import SmscConn SmppSession Router RouterPass SmscCreate EsmeProc.
Open Scope Z_scope.

(** ** Restarting a connection *)

Section Restart.
Context {O : OctstrLib} {L : GwListLib} {R : PduRest} {N : SmppNames} {P : PduLib O R} {PX : PrefixLib O}
  {RC : RegexComp O} {K : Link O} {T : ReceiptLib O} {S : KeyedStore O L smpp_msg}
  {C : CfgStrings O L} {PL : ParseLib O} {F : Files O} {SV : KeyedStore O L octstr}.
Variable h : Hooks.
(** The ids of the threads that are created at a position. *)
Variable threads : Z -> Z * Z.
Implicit Types (grp : CfgGroup (SV := SV)) (conn : SMSCConn SMPP) (r : Router (D := SMPP)).

(** The loop over [smsc_groups]: [hit], and [grp] as the loop leaves it. *)
Fixpoint find_group (id : octstr) (num hit : Z) (last : option (CfgGroup (SV := SV))) (groups : list (CfgGroup (SV := SV)))
    : outcome (Z * option (CfgGroup (SV := SV))) :=
  match groups with
  | [] => Done (hit, last)
  | grp :: groups =>
      smscid ← cfg_var h grp "smsc-id";
      if match smscid with Some smscid => octstr_same smscid id | None => false end then
        if hit =? num then Done (hit, Some grp) else find_group id num (hit + 1) (Some grp) groups
      else find_group id num hit (Some grp) groups
  end.

(** Every turn goes to a later position. *)
Fixpoint restart_loop (fuel : nat) (groups : list (CfgGroup (SV := SV))) (i num : Z) (id : octstr) r : outcome (Router (D := SMPP)) :=
  match fuel with
  | 0%nat => Done r
  | Datatypes.S fuel =>
      let i := smsc2_find r id (i + 1) in
      if i =? -1 then Done r
      else
        conn ← get_conn r i;
        if negb (bool_decide (status conn = SMSCCONN_DEAD)) then restart_loop fuel groups i num id r
        else
          '(hit, grp) ← find_group id num 0 None groups;
          if negb (hit =? num) then Done r
          else
            new_conn ← smscconn_create h grp 1 (threads i).1 (threads i).2;
            match new_conn with
            | None => restart_loop fuel groups i num id r
            | Some new_conn => restart_loop fuel groups i (num + 1) id (set_nth r i (smscconn_start new_conn))
            end
  end.

Definition smsc2_restart_smsc (running : bool) (groups : list (CfgGroup (SV := SV))) (id : octstr) (has_router : bool) r
    : outcome (Z * Router (D := SMPP)) :=
  if negb running then Done (-1, r)
  else
    r ← restart_loop (Datatypes.S (length (smsc_list r))) groups (-1) 0 id r;
    Done (0, if has_router then with_rworld r (emit (rworld r) (EvWakeup router_thread)) else r).

(** The connections that are freed, and those that are not because they are
    not dead; nothing refers to them afterwards. *)
Definition smsc2_cleanup (running : bool) r : list (SMSCConn SMPP) * list (SMSCConn SMPP) * Router (D := SMPP) :=
  if negb running then ([], [], r)
  else
    (List.filter (fun c => smscconn_destroy (Some c) =? 0) (smsc_list r),
     List.filter (fun c => negb (smscconn_destroy (Some c) =? 0)) (smsc_list r), with_list r []).

End Restart.

Section RestartFacts.
Context {O : OctstrLib} {OL : OctstrLaws O} {L : GwListLib} {LL : GwListLaws L} {R : PduRest} {N : SmppNames} {P : PduLib O R}
  {PX : PrefixLib O} {RC : RegexComp O} {K : Link O} {T : ReceiptLib O} {S : KeyedStore O L smpp_msg}
  {C : CfgStrings O L} {PL : ParseLib O} {F : Files O} {SV : KeyedStore O L octstr}.
Variable h : Hooks.
Variable threads : Z -> Z * Z.
Implicit Types (grp : CfgGroup (SV := SV)) (r : Router (D := SMPP)).

(** The next position of an id that only position [k] has. *)
Lemma find_only r id k c start : smsc_list r !! k = Some c -> has_id id c = true ->
  (forall j c', smsc_list r !! j = Some c' -> has_id id c' = true -> j = k) -> (start <= length (smsc_list r))%nat ->
  smsc2_find r id (Z.of_nat start) = if (start <=? k)%nat then Z.of_nat k else -1.
Proof.
  intros Hk Hc Hu Hs. pose proof (smsc2_find_spec r id (Z.of_nat start) ltac:(lia)) as H. cbv zeta in H.
  generalize dependent (smsc2_find r id (Z.of_nat start)). intros n H. destruct (decide (n = -1)) as [E|Hn];
    [rewrite E, Z.eqb_refl in H; rewrite E|rewrite (proj2 (Z.eqb_neq _ _) Hn) in H].
  - destruct (Nat.leb_spec start k) as [Hle|]; [|done]. rewrite Nat2Z.id in H. exfalso.
    rewrite Forall_forall in H. rewrite (H c) in Hc; [done|]. apply list_elem_of_lookup. exists (k - start)%nat.
    by rewrite lookup_drop, Nat.add_sub_assoc, Nat.add_sub_swap, Nat.sub_diag.
  - destruct H as (Hr & (c' & Hc' & Hi) & _). pose proof (Hu _ _ Hc' Hi). rewrite (proj2 (Nat.leb_le _ _)); lia.
Qed.

(** A dead connection whose id is its own gets a new one in its place, made
    from the group that is found and started; all others stay. *)
Lemma restart_replaces groups r id k c new g : smsc_list r !! k = Some c -> has_id id c = true ->
  (forall j c', smsc_list r !! j = Some c' -> has_id id c' = true -> j = k) ->
  status c = SMSCCONN_DEAD -> find_group h id 0 0 None groups = Done (0, g) ->
  smscconn_create h g 1 (threads (Z.of_nat k)).1 (threads (Z.of_nat k)).2 = Done (Some new) ->
  has_id id new = true ->
  smsc2_restart_smsc h threads true groups id false r = Done (0, set_nth r (Z.of_nat k) (smscconn_start new)).
Proof.
  intros Hk Hc Hu Hd Hg Hn Hid. unfold smsc2_restart_smsc. cbn [negb].
  pose proof (lookup_lt_Some _ _ _ Hk) as Hlt. destruct (length (smsc_list r)) as [|n] eqn:El; [lia|].
  remember (Datatypes.S n) as fuel eqn:Ef. cbn [restart_loop]. change (-1 + 1) with (Z.of_nat 0). rewrite (find_only r id k c) by (done || lia). cbn [Nat.leb].
  rewrite (proj2 (Z.eqb_neq _ _)) by lia. unfold get_conn.
  rewrite (proj2 (Z.ltb_ge _ _)), Nat2Z.id, Hk by lia. cbn [must mbind outcome_bind].
  rewrite bool_decide_eq_true_2 by done. cbn [negb]. rewrite Hg. cbn [mbind outcome_bind]. rewrite Hn. cbn [mbind outcome_bind Z.eqb negb].
  set (r' := set_nth _ _ _).
  assert (E : smsc_list r' = <[k:=smscconn_start new]> (smsc_list r)) by (unfold r'; simpl; by rewrite Nat2Z.id).
  assert (Hi : has_id id (smscconn_start new) = true) by (rewrite <-Hid; unfold smscconn_start; by case_match).
  subst fuel. cbn [restart_loop]. replace (Z.of_nat k + 1) with (Z.of_nat (k + 1)) by lia. rewrite (find_only r' id k (smscconn_start new)).
  - rewrite (proj2 (Nat.leb_gt _ _)) by lia. done.
  - rewrite E. by apply list_lookup_insert_eq; lia.
  - done.
  - intros j c'. rewrite E. intros Hj Hc'. destruct (decide (j = k)) as [->|Hne]; [done|].
    rewrite list_lookup_insert_ne in Hj by done. by eapply Hu.
  - rewrite E, length_insert. lia.
Qed.

(** The search for the group of an id that no group has ends with the last
    group and the count that it should have: the connection is restarted from
    the group of another one. *)
Lemma group_of_another id groups last : forall g0,
  Forall (fun grp => exists s, cfg_var h grp "smsc-id" = Done s /\ match s with Some s => octstr_same s id | None => false end = false)
    (groups ++ [last]) ->
  find_group h id 0 0 g0 (groups ++ [last]) = Done (0, Some last).
Proof.
  induction groups as [|grp groups IH]; intros g0 H; apply Forall_cons in H as [(s & E & Es) H]; cbn [app find_group]; rewrite E; cbn [mbind outcome_bind]; rewrite Es; [done|].
  by apply IH.
Qed.

End RestartFacts.

(** ** Messages to the other processes *)

Section Sending.
Context {O : OctstrLib} {L : GwListLib}.

(** What becomes of a message: it is in the list of a process, its text is in
    a log and it is destroyed, it is destroyed, or nobody has it any more. *)
Inductive fate : Type := Sent | Written | Destroyed | Forgotten.

Definition logged_kind (c : Conn_Msg) : bool :=
  match c with insert_mis _ _ _ _ _ _ _ _ _ _ _ _ _ | insert_status _ _ _ _ _ => true | _ => false end.

(** [send_msg_dbbox_server] of the client: the result and what became of the
    message. *)
Definition send_to_dbbox (dbbox_client : option PROCESS_CLIENT) (dbbox_q_limit : Z) (c : Conn_Msg) (mode : Z) : Z * fate :=
  match dbbox_client with
  | None => (0, Forgotten)
  | Some d =>
      if (mode =? 1) ||
         (negb (connected d) && negb (dbbox_q_limit =? -1) && (dbbox_q_limit <=? pc_send_list d))
      then (-1, if logged_kind c then Written else Destroyed)
      else if logged_kind c then (1, Sent) else (0, Forgotten)
  end.

(** [send_msg_reverse_server] and [send_msg_dbdata_server], which differ in
    the server that they use: its clients now, and again under the lock. *)
Definition send_to_first (status : client_status) (server : option nat) (clients_locked : nat) : Z * fate :=
  if negb (bool_decide (status = CLIENT_RUNNING)) then (-1, Forgotten)
  else match server with
  | None => (-1, Destroyed)
  | Some n =>
      if (n =? 0)%nat then (-1, Destroyed)
      else if (clients_locked =? 0)%nat then (-1, Destroyed) else (0, Sent)
  end.

Definition send_msg_reverse_server (status : client_status) (reverse_clients : option nat) (locked : nat) : Z * fate :=
  send_to_first status reverse_clients locked.
Definition send_msg_dbdata_server (status : client_status) (dbdata_clients : option nat) (locked : nat) : Z * fate :=
  send_to_first status dbdata_clients locked.

(** A report for the database is kept or written down while the structure of
    the database process is there: it is lost only without one. *)
Lemma report_kept d limit c mode : logged_kind c = true ->
  (send_to_dbbox (Some d) limit c mode).2 = Sent \/ (send_to_dbbox (Some d) limit c mode).2 = Written.
Proof. intros H. unfold send_to_dbbox. rewrite H. repeat case_match; auto. Qed.

(** With a limit the list of a process that is away grows no further. *)
Lemma waiting_bounded d limit c : limit <> -1 -> connected d = false -> limit <= pc_send_list d ->
  (send_to_dbbox (Some d) limit c 0).1 = -1.
Proof.
  intros H1 H2 H3. unfold send_to_dbbox. rewrite H2, (proj2 (Z.eqb_neq limit (-1))) by done. rewrite (proj2 (Z.leb_le _ _)) by done.
  done.
Qed.

End Sending.
